(* ===== verification/_CoqProject ===== *)
-Q . S2P
Prelude.v
PyFloat.v
PyStr.v
PyDict.v
Sha256.v
StoreTypes.v
StoreState.v
StoreCore.v
StoreOps.v
StoreInv.v
StoreAtoms.v
StoreNodes.v
StoreReapSpec.v
StoreSelect.v
StoreSound.v
StoreConfig.v
StoreOutcome.v
StoreRun.v
StoreHistory.v
StoreContract.v
Base64.v
PyText.v
PyRegex.v
PyUrl.v
Gguf.v
Json.v
JsonText.v
MemoryPlan.v
MemorySound.v
RuntimeReports.v
Encrypt.v
EncryptSound.v
CryptoManager.v
EncryptContract.v
Validation.v
Profiles.v
Catalog.v
Moderation.v
OperatorAuth.v
Config.v
ConfigSound.v
Provider.v
ProviderSound.v
ProviderHonest.v
Routes.v
RoutesSound.v
Client.v
ClientSound.v
RoutesDemo.v
NodeRequest.v
NodeDiagnostics.v
NodeOutput.v
NodeGenerate.v
NodeSupervise.v
NodeProcess.v
NodePoll.v
NodeSession.v
NodeChecks.v
NodeScreen.v
ApiContract.v
RelayTypes.v
RelayConfig.v
RelayLifecycle.v
RelayRegistry.v
RelayStreams.v
RelayHandlers.v
RelayInv.v
RelayKept.v
RelayEndpoints.v
RelayAnswers.v
RelayRun.v
RelayCancel.v
RelayScheduling.v
RelayHandout.v
RelayWitnesses.v
RoutesAdmin.v
NodeAnswer.v
NodeWatch.v
NodeServe.v
NodeContract.v
