(* ===== verification/Prelude.v ===== *)
(** * token.place: a verification library for the relay and its API layer

    token.place lets a client run inference on a volunteer's machine through a
    relay that only ever holds ciphertext.  These parts carry its logic.

    - The relay server ([src/relay.py]): Flask endpoints over module globals.
      Compute nodes register, poll for work and post responses; clients submit
      encrypted requests to a node, cancel them and retrieve the answers.
    - The relay state store ([src/relay_state_store.py]): the leased, bounded and
      credential-checked protocol that is to replace those globals, with its
      in-memory reference implementation [InMemoryRelayStateStore].
    - The API layer ([src/api], [src/utils]): what a chat request goes through
      before a model sees it, and the tables of models and context tiers that the
      relay's scheduler reads too.
    - Encryption ([src/encrypt.py], [src/utils/crypto]): the hybrid encryption, the
      envelopes and the stream sessions by which clients and compute nodes speak
      through the relay.
    - The completion routes ([src/api/v1/routes.py]) and the client that calls them
      ([src/utils/crypto_helpers.py]): a request is decrypted, checked, given to a
      compute provider and answered, sealed again if it came sealed.
    - The compute node ([src/utils/networking/relay_client.py]): it decrypts the work a
      relay hands it, checks it again, has its model complete it under supervision and
      posts the sealed answer.
    - The model manager ([src/utils/llm/model_manager.py]): what a node plans before it
      loads a model, from the header of the model's file to the batch and the cache that
      the device has room for, and how it reads what the runtime then reports.
    - Configuration ([src/config.py]): the tree of settings the others read.

    ** Files

    Foundations: what the source uses of Python.
    - [Prelude]: the state-and-exception monad, the predicate [wp] that methods
      are verified with (a postcondition for returning, one for raising), its
      tactics, the predicate [raises] (the exceptions a method can end in) with its
      tactic [raising], and lemmas on lists, options and integers.
    - [PyFloat], [PyStr], [PyDict], [PyText], [Json]: binary64 floats, strings of
      code points, dictionaries in insertion order, string functions, documents.
    - [Base64], [Sha256]: the strict and the lenient base64 decoder and the decoder of
      UTF-8; SHA-256 and HMAC written out.  [PyUrl]: [urlparse].  [JsonText]: [json.dumps] and
      [json.loads], and that they are inverse.
    - [PyRegex]: Python's regular expressions as terms with an executable backtracking
      matcher, sound for the language of the expression.

    Store: [src/relay_state_store.py].
    - [StoreTypes]: the dataclasses, each [__post_init__] as a function from raw
      arguments to the typed record or the exception.
    - [StoreState], [StoreCore], [StoreOps]: the attributes of the object, the
      private methods, one definition per public method.
    - [StoreInv]: the invariant [Inv] and the abstract request lifecycle
      ([phase], [phase_step]); [StoreAtoms], [StoreNodes], [StoreSound]: every method keeps the first and refines the
      second.  [StoreReapSpec], [StoreSelect], [StoreOutcome], [StoreConfig]: what
      reaping achieves, the scheduler, the permanence of outcomes, validation.
    - [StoreRun]: histories of operations, and a concrete one.
    - [StoreHistory], [StoreContract]: the theorems.

    API layer.
    - [Validation]: [src/api/v1/validation.py].  [Moderation]:
      [src/api/v1/moderation.py].  [Catalog]: [src/api/v1/models.py].
      [Profiles]: [src/utils/context_profiles.py] and
      [src/utils/llm/model_profiles.py].  [OperatorAuth]: [src/api/security.py].
    - [ApiContract]: the three steps of a chat request composed, and the theorems.

    Encryption.
    - [Encrypt]: [src/encrypt.py].  [EncryptSound]: padding, one message, and a whole
      stream, with ciphers that satisfy the laws.
      [CryptoManager]: the envelopes of [src/utils/crypto/crypto_manager.py] and
      [src/api/v1/encryption.py].  [EncryptContract]: the theorems.

    Configuration.
    - [Config]: [src/config.py] and [src/utils/config_schema.py].  [ConfigSound]: what
      a path holds after each operation, when and as what the tree is built.

    Compute providers: [src/api/v1/compute_provider.py].
    - [Provider]: the exchange of the distributed provider with a relay, the three
      providers, which of them is taken and which relay.  [ProviderSound]:
      the exchange as a step relation, its end, and the theorems.
      [ProviderHonest]: the provider composed with a relay that forwards and a node
      that answers, and the witnesses.

    Completion routes and client: [src/api/v1/routes.py], [src/utils/crypto_helpers.py].
    - [Routes]: the handlers of chat and text completions, from the body to the reply.
      [RoutesSound]: what a request must have passed before anything is sent, the
      replies exceptions turn into, and the theorems.
    - [Client]: the client's requests to the API and through the relay.  [ClientSound]:
      its requests as the route reads them, the loop that waits for a relayed
      response, and the theorems, the client composed with the route.  [RoutesDemo]: a server, a client and a relay, and the witnesses.
    - [RoutesAdmin]: models, keys, nodes and health, and their theorems.

    Compute node: [src/utils/networking/relay_client.py].
    - [NodeRequest]: the checks of a decrypted request.  [NodeDiagnostics]: what may be
      said of a failed worker, and redaction.  [NodeOutput]: what is taken from a
      completion, and the admission of a prompt to the context window.
      [NodeGenerate]: [_generate_api_v1_response_with_runtime_model].
      [NodeSupervise]: the supervision of an inference.  [NodeProcess]: a work item from
      the relay's payload to the posted answer.  [NodePoll]: registration, polling,
      leases and leaving; [NodeSession]: the invariant of what the node knows of its
      relays, and the theorems on it.
    - [NodeChecks], [NodeScreen], [NodeAnswer], [NodeWatch], [NodeServe]: the lemmas, in
      that order.  [NodeContract]: the theorems, the node composed with the provider that
      asks it, and the witnesses.

    Model manager: [src/utils/llm/model_manager.py].
    - [Gguf]: the header of a model's file, its reader with its memo, and the encoder it
      inverts.  [MemoryPlan]: batch profiles, the estimates of the cache and of the
      memory, what the runtime's constructor takes, YaRN, and the profiles tried in turn.
      [MemorySound]: their theorems and a concrete plan.  [RuntimeReports]: the runtime's
      report of its buffers and the categories of a failure.

    Relay: [src/relay.py], with [src/utils/inference_timeout.py].
    - [RelayTypes]: the globals as the record [RelayState].  [RelayConfig]: the
      settings, credentials and capability payloads.
    - [RelayLifecycle], [RelayRegistry], [RelayStreams], [RelayHandlers]: the
      helpers of the request lifecycle, of nodes, of the streaming and first
      protocol, and one definition per API v1 relay endpoint.
    - [RelayInv]: the invariant [RInv]; [RelayKept], [RelayEndpoints], [RelayAnswers]: every helper and endpoint keeps it.
    - [RelayRun]: an endpoint as a [relay_op], the reachable states, a concrete run.
    - [RelayCancel]: what cancelling and answering do to a request, and the first
      theorems.
    - [RelayScheduling], [RelayHandout]: the other theorems; [RelayWitnesses] applies each at the run.

    ** What the theorems show

    Of the store: for every history of public operations the indexes agree and
    every table respects its bound; each operation is a path of the abstract
    lifecycle (absent, reserved, queued, claimed by later generations, ended); a
    recorded outcome is permanent while retained; no operation raises [KeyError];
    reaping enforces leases and deadlines.  Then one contract per operation:
    selection, enqueueing, claiming, renewal, acceptance and its retry, retrieval
    and acknowledgement, cancellation, registration, node removal.

    Of the relay: whatever endpoints ran, and whatever they refused or let escape,
    the globals are well formed; a response that names a request is stored only
    for one that is live and unanswered; a cancelled request has left every table;
    cancelling and controlling need the right token; an accepted request is queued
    and handed out with its ciphertext untouched; selection is best fit, removal
    keeps the round-robin turn, and every long poll ends.

    Of the API layer: the chat and envelope validators accept exactly a described
    set; moderation blocks exactly the conversations with a listed term; a clean,
    validated conversation reaches the model as its plain text, or one of the
    runtime's own errors comes back; base64 and image sizes round trip.

    Of encryption: what is encrypted for a key is decrypted with it, as bytes, as a
    document in an envelope and as a stream of chunks; unpadding is exactly the
    inverse of padding; a session accepts no vector twice.  Of configuration: the
    tree is built for every environment, with a relay URL that heads the pool;
    overrides win leaf by leaf; the registration token is never saved.

    Of the providers: against any relay and clock, a call is a path of the protocol
    that lets only the envelope depend on the conversation, ends, cancels exactly when
    it gives up, and returns only what is bound to it; with an honest relay and node
    the node reads what was asked and the caller gets what it answered; only a
    production deployment is led to the production relay by default.

    Of the node: it accepts exactly a described set of conversations and options; every
    request gets a coded error or an assistant message, free of reasoning where the
    profile forbids it, of a model it serves and within the context window; the runtime
    is asked at most four times, with the admitted budget and every option of the client;
    a supervision ends at the deadline at the latest and for a reason that holds; what
    leaves the node of a worker's diagnostics or of a relay's error is listed, short and
    redacted; what it knows of its relays is consistent whatever they answer, it polls
    only where it is known and hands over only what a relay said, and it forgets a relay
    exactly when that one has let it go; a work item leads to one sealed post at most, whose result is told as it
    was.  Composed with the provider: what the node posts opens with the provider's key
    and is read as the answer to exactly what was asked.

    Of the model manager: the reader of a header finds exactly the entries it plans with
    that were written to the file, and reads an unchanged file once; the estimate of the
    cache is what a closed formula of the layout allocates, in checked integers; a memory
    estimate always comes, as sizes that fit or as one of the listed reasons; a profile is
    offered only if the constructor takes each of its settings, and falling back from one
    to the next ends within the list; a size the runtime reports is read within the
    precision it is printed with.

    Of the routes and the client: nothing of a chat request reaches the process or the
    network before its conversation, decrypted if need be, is valid and allowed, and
    then only that conversation does; every reply is an answer or a well-formed error;
    an encrypted request that names a key gets a sealed answer.  A conversation sent by
    the client to the route comes back as the document the server made for it.  A
    relayed response is returned only if the client's key opens it and it names the
    message, after a bounded number of requests.  Keys are rotated and nodes removed for
    the operator only, and a model's lookup agrees with the list.

    ** How Python is read

    - A method is a function of the state that returns the state it leaves with
      either a value or an exception: updates made before a [raise] stay.
    - The store holds its lock for a whole method, so a method is one function.
      The relay guards its globals with several locks taken in a fixed order; its
      handlers are modelled as running one at a time, which leaves out the
      interleavings of two handlers between their critical sections.  The long
      poll waits with no lock held, so it is three operations, [poll_begin],
      [poll_attempt] and [poll_finish], and a run may put any other endpoint
      between them.
    - Time and randomness come from outside.  A store operation takes its one
      clock reading and its random token as arguments.  A relay handler reads the
      clocks as often as it likes: [ticks] numbers the readings, and the class
      [Clock] says what each returns; monotonicity is a hypothesis only of the
      theorem that needs it.
    - Interfaces are classes: [Crypto] (digests; the one law used is that they are
      64 hexadecimal digits, which [sha256_crypto] discharges), [PyUnicode] and
      [PyDigits] (the tables of the Unicode database behind [str.lower],
      [str.strip] and [int]), [FloatRepr] and [PyNumbers] (printing and parsing of
      numbers), [Cryptography] (AES, RSA, keys and random bytes; its laws, that a
      ciphertext is decrypted by the matching key and that CBC takes whole blocks,
      are the class [CryptographyLaws], which [EncryptDemo] discharges), [World] (the
      relay or server, clock and identifiers a provider or a client meets), [NetlocCheck]
      (two checks inside [urlparse]), [ExceptionTexts] (the wording of exceptions that
      Python or a library raises), [ContainerText] ([str] of a list or a dictionary), [PyWords] (the character classes of [re]), [Watch] (what
      a supervisor sees each time it looks at the clock, the stop, the inference and the
      relay's word, in any interleaving) and [NodeNet] and [RelayNet] (the relays' answer to each post of
      a node).  [NodeClock] numbers a polling node's looks at the clock and at the flags
      of a stop, so that a stop can fall between any two.  Flask's headers and JSON bodies, the environment and
      [llama-cpp-python] (the record [Runtime]) are arguments.
    - That two nodes do not share an identity digest is a hypothesis on the
      identifiers of a history, decided by evaluation in the witnesses.
    - Recursion is structural on the list the code loops over.  These functions
      take fuel: [scan_once] (twice the length of the text is enough, by
      [scan_once_enough]), [dec_digits] (the bit length of the number, enough because a
      division by ten at least halves it), [sha_blocks] (one unit per word of the
      message, sixteen of which a step consumes), [response_loop] (one unit per clock
      reading up to the deadline, by [response_loop_ends_by]), [supervise_loop] with the wait
      for its control request (one unit per look at the outside until the clock reaches the
      deadline, by [supervision_completes]), [strip_wrappers] (each wrapper shortens the
      text, by [strip_wrappers_done]), [utf8_replace_from] (the number of bytes: every step
      consumes one at least), the scans of [re_sub] and [re_findall] (one unit per
      character, since each step passes at least one) and [poll_loop], for
      which [poll_loop_ends] proves that the length of the node's queue plus the
      number of clock readings up to the deadline is enough.  The batch of a node
      removal is a constant of the source, so a removal takes several calls.

    ** Boundaries and omissions

    - Relay clients, servers and requests are named by text.  A handler that is
      given a number or a list as a name stops with [NonTextName]; Python would
      use a number as a dictionary key, and raise [TypeError] for a list.
    - The check that a stored node payload is still the same object always holds
      between two steps of one handler, so it is not a test in the model; the keys
      the relay never writes into that payload are not fields of its record.
    - Logging, metrics and the redacting [__repr__] methods change no modelled
      state and are left out.  [validate_json_string] has no caller.
    - A node's runtime is a set of functions from the number of the call, the messages and
      the arguments to a completion or an exception.  Progress events and the teardown of
      the supervisor's executors, whose last resort ends the process, are left out.
    - A dictionary of diagnostics of the model manager is a record; its constant entries
      and those that repeat another are left out.  The limit of 4300 digits on [int] of a
      text is not modelled.
    - Not modelled: the relay's diagnostics, metrics and start-up; image generation
      and the community directories of the API, and API v2; the client's streaming
      method; the threads in which a node polls, renews leases and reports progress, its
      part in the first protocol, the compute-node runtime; of [model_manager.py]
      the downloads, the worker processes, inference itself and the sanitiser of a worker's
      output, whose patterns look behind them; the loading of .env files and of platform directories; the clients, the desktop bridge and the scripts.

    ** Where to go on

    The node's polling composed with the relay's endpoints; the streaming
    generator of [crypto_helpers.py] over [EncryptSound]'s streams; [community.py]; the
    relay's health and diagnostics payloads. *)

From Stdlib Require Export ZArith Lia.
From Stdlib Require Import Sorting.Sorted.
From stdpp Require Export base numbers option strings tactics list.

Export stdpp.list.

#[global] Set Default Proof Using "Type".
#[global] Open Scope Z_scope.

(** ** The state-and-exception monad

    A Python method that mutates [self] and may raise is a function from the
    object's state to the state it leaves behind together with either the
    exception or the result.  The state survives an exception, because Python
    does not roll attribute updates back. *)
Definition SM (S E A : Type) : Type := S -> S * (E + A).

Section monad.
Context {S E : Type}.

Definition ret {A} (a : A) : SM S E A := fun s => (s, inr a).

Definition raise {A} (e : E) : SM S E A := fun s => (s, inl e).

Definition bind {A B} (m : SM S E A) (f : A -> SM S E B) : SM S E B :=
  fun s => match m s with
           | (s', inr a) => f a s'
           | (s', inl e) => (s', inl e)
           end.

Definition get_state : SM S E S := fun s => (s, inr s).

Definition put_state (s' : S) : SM S E unit := fun _ => (s', inr tt).

Definition modify (f : S -> S) : SM S E unit := fun s => (f s, inr tt).

(** [if cond: raise e] *)
Definition raise_if (cond : bool) (e : E) : SM S E unit :=
  if cond then raise e else ret tt.

Definition lift (r : E + unit) : SM S E unit :=
  match r with inl e => raise e | inr _ => ret tt end.

Definition lift_val {A} (r : E + A) : SM S E A :=
  match r with inl e => raise e | inr a => ret a end.

(** [d[k]]: a missing key raises. *)
Definition from_option {A} (o : option A) (e : E) : SM S E A :=
  match o with Some a => ret a | None => raise e end.

(** [for x in l: body(x)] over a snapshot [l] of a container. *)
Fixpoint for_each {X} (l : list X) (body : X -> SM S E unit) : SM S E unit :=
  match l with
  | [] => ret tt
  | x :: l' => bind (body x) (fun _ => for_each l' body)
  end.

(** [try: m except e if p(e): h] *)
Definition try_except {A} (m : SM S E A) (p : E -> bool) (h : SM S E A) : SM S E A :=
  fun s => match m s with
           | (s', inl e) => if p e then h s' else (s', inl e)
           | r => r
           end.

End monad.

Declare Scope py_scope.
Delimit Scope py_scope with py.
Notation "'let*' x ':=' m 'in' k" := (bind m (fun x => k))
  (at level 200, x name, m at level 100, k at level 200, right associativity) : py_scope.
Notation "'let*' ' p ':=' m 'in' k" := (bind m (fun x => match x with p => k end))
  (at level 200, p pattern, m at level 100, k at level 200, right associativity) : py_scope.
Notation "m ';;;' k" := (bind m (fun _ => k))
  (at level 199, k at level 200, right associativity) : py_scope.
#[global] Open Scope py_scope.

(** The error monad of code that touches no object state. *)
Definition ebind {E A B} (m : E + A) (f : A -> E + B) : E + B :=
  match m with inl e => inl e | inr a => f a end.

Definition eraise_if {E} (cond : bool) (e : E) : E + unit :=
  if cond then inl e else inr tt.

Fixpoint efor_each {E X} (l : list X) (body : X -> E + unit) : E + unit :=
  match l with
  | [] => inr tt
  | x :: l' => ebind (body x) (fun _ => efor_each l' body)
  end.

Lemma ebind_inr {E A B} (m : E + A) (f : A -> E + B) b :
  ebind m f = inr b <-> exists a, m = inr a /\ f a = inr b.
Proof.
  destruct m as [e|a]; simpl; split; [done|by intros (? & ? & _)|eauto|by intros (? & [= ->] & ?)].
Qed.

Lemma ebind_unit {E B} (m : E + unit) (f : unit -> E + B) b :
  ebind m f = inr b <-> m = inr tt /\ f tt = inr b.
Proof. rewrite ebind_inr. split; [intros ([] & ? & ?)|intros [? ?]; exists tt]; done. Qed.

Lemma eraise_if_inr {E} c (e : E) u : eraise_if c e = inr u <-> c = false.
Proof. destruct u, c; simpl; split; done. Qed.

Notation "'let?' x ':=' m 'in' k" := (ebind m (fun x => k))
  (at level 200, x name, m at level 100, k at level 200, right associativity) : py_scope.
Notation "'let?' ' p ':=' m 'in' k" := (ebind m (fun x => match x with p => k end))
  (at level 200, p pattern, m at level 100, k at level 200, right associativity) : py_scope.

(** ** Weakest preconditions

    [wp m Q R s]: from [s], [m] returns into [Q] or raises into [R]. *)
Definition wp {S E A} (m : SM S E A) (Q : A -> S -> Prop) (R : E -> S -> Prop) (s : S) : Prop :=
  match m s with
  | (s', inr a) => Q a s'
  | (s', inl e) => R e s'
  end.

(** [keeps P m]: [m] preserves [P] whether it returns or raises. *)
Definition keeps {S E A} (P : S -> Prop) (m : SM S E A) : Prop :=
  forall s, P s -> P (m s).1.

Section wp_rules.
Context {S E : Type}.
Implicit Types (s : S).

Lemma wp_ret {A} (a : A) Q (R : E -> S -> Prop) s : Q a s -> wp (ret a) Q R s.
Proof. done. Qed.

Lemma wp_raise {A} (e : E) (Q : A -> S -> Prop) R s : R e s -> wp (raise e) Q R s.
Proof. done. Qed.

Lemma wp_bind {A B} (m : SM S E A) (f : A -> SM S E B) Q R s :
  wp m (fun a s' => wp (f a) Q R s') R s -> wp (bind m f) Q R s.
Proof. unfold wp, bind. by destruct (m s) as [s' [e|a]]. Qed.

Lemma wp_get Q (R : E -> S -> Prop) s : Q s s -> wp get_state Q R s.
Proof. done. Qed.

Lemma wp_put Q (R : E -> S -> Prop) s s' : Q tt s' -> wp (put_state s') Q R s.
Proof. done. Qed.

Lemma wp_modify f Q (R : E -> S -> Prop) s : Q tt (f s) -> wp (modify f) Q R s.
Proof. done. Qed.

Lemma wp_raise_if (c : bool) (e : E) Q R s :
  (c = true -> R e s) -> (c = false -> Q tt s) -> wp (raise_if c e) Q R s.
Proof. unfold wp, raise_if. destruct c; cbn; auto. Qed.

Lemma wp_lift (r : E + unit) Q R s :
  (forall e, r = inl e -> R e s) -> (r = inr tt -> Q tt s) -> wp (lift r) Q R s.
Proof. unfold wp. destruct r as [e|[]]; cbn; auto. Qed.

Lemma wp_lift_val {A} (r : E + A) Q R s :
  (forall e, r = inl e -> R e s) -> (forall a, r = inr a -> Q a s) ->
  wp (lift_val r) Q R s.
Proof. unfold wp. destruct r as [e|a]; cbn; auto. Qed.

Lemma wp_from_option {A} (o : option A) (e : E) Q R s :
  (o = None -> R e s) -> (forall a, o = Some a -> Q a s) ->
  wp (from_option o e) Q R s.
Proof. unfold wp. destruct o as [a|]; cbn; auto. Qed.

Lemma wp_mono {A} (m : SM S E A) (Q Q' : A -> S -> Prop) (R R' : E -> S -> Prop) s :
  wp m Q R s -> (forall a s', Q a s' -> Q' a s') -> (forall e s', R e s' -> R' e s') ->
  wp m Q' R' s.
Proof. unfold wp. destruct (m s) as [s' [e|a]]; auto. Qed.

Lemma wp_if {A} (b : bool) (m1 m2 : SM S E A) Q R s :
  (b = true -> wp m1 Q R s) -> (b = false -> wp m2 Q R s) ->
  wp (if b then m1 else m2) Q R s.
Proof. destruct b; auto. Qed.

(** A loop keeps an invariant its body keeps. *)
Lemma wp_for_each {X} (I : S -> Prop) (R : E -> S -> Prop) (l : list X) body s :
  I s -> (forall x s', x ∈ l -> I s' -> wp (body x) (fun _ => I) R s') ->
  wp (for_each l body) (fun _ => I) R s.
Proof.
  revert s. induction l as [|x l IH]; intros s HI Hb; simpl; [done|].
  apply wp_bind. eapply wp_mono; [apply Hb; [left|done]| |done].
  intros a s' HI'. apply IH; [done|]. intros y s'' Hy. apply Hb. by right.
Qed.

Lemma wp_try_except {A} (m : SM S E A) (p : E -> bool) (h : SM S E A)
  (Q : A -> S -> Prop) (R : E -> S -> Prop) s :
  wp m Q (fun e s' => if p e then wp h Q R s' else R e s') s ->
  wp (try_except m p h) Q R s.
Proof.
  unfold wp, try_except. destruct (m s) as [s' [e|a]]; auto. by destruct (p e).
Qed.

Lemma wp_state {A} (P : S -> Prop) (m : SM S E A) s :
  wp m (fun _ => P) (fun _ => P) s <-> P (m s).1.
Proof. unfold wp. by destruct (m s) as [s' [e|a]]. Qed.

Lemma wp_result {A} (m : SM S E A) Q R s s' a : wp m Q R s -> m s = (s', inr a) -> Q a s'.
Proof. unfold wp. intros Hw Hm. by rewrite Hm in Hw. Qed.

Lemma wp_keeps {A} (P : S -> Prop) (m : SM S E A) :
  keeps P m <-> forall s, P s -> wp m (fun _ => P) (fun _ => P) s.
Proof.
  unfold keeps, wp. split; intros H s Hs; specialize (H s Hs);
    destruct (m s) as [s' [e|a]]; done.
Qed.

Lemma keeps_bind {A B} P (m : SM S E A) (f : A -> SM S E B) :
  keeps P m -> (forall a, keeps P (f a)) -> keeps P (bind m f).
Proof.
  intros Hm Hf s Hs. specialize (Hm s Hs). unfold bind.
  destruct (m s) as [s' [e|a]]; [done|]. by apply Hf.
Qed.

(** Reading the state gives the continuation the very state it runs in. *)
Lemma keeps_get_bind {B} P (f : S -> SM S E B) :
  (forall s, P s -> P (f s s).1) -> keeps P (bind get_state f).
Proof. intros Hf s Hs. by apply Hf. Qed.

Lemma keeps_ret {A} P (a : A) : keeps P (ret (S := S) (E := E) a).
Proof. by intros s Hs. Qed.

Lemma keeps_raise {A} P (e : E) : keeps P (raise (S := S) (A := A) e).
Proof. by intros s Hs. Qed.

Lemma keeps_raise_if P c (e : E) : keeps P (raise_if (S := S) c e).
Proof. destruct c; by intros s Hs. Qed.

Lemma keeps_lift P r : keeps P (lift (S := S) (E := E) r).
Proof. destruct r; by intros s Hs. Qed.

Lemma keeps_lift_val {A} P r : keeps P (lift_val (S := S) (E := E) (A := A) r).
Proof. destruct r; by intros s Hs. Qed.

Lemma keeps_from_option {A} P (o : option A) (e : E) : keeps P (from_option (S := S) o e).
Proof. destruct o; by intros s Hs. Qed.

Lemma keeps_modify P f :
  (forall s, P s -> P (f s)) -> keeps P (modify (S := S) (E := E) f).
Proof. intros H s Hs. by apply H. Qed.

Lemma keeps_if {A} P (b : bool) (m1 m2 : SM S E A) :
  keeps P m1 -> keeps P m2 -> keeps P (if b then m1 else m2).
Proof. by destruct b. Qed.

Lemma keeps_for_each {X} P (l : list X) body :
  (forall x, keeps P (body x)) -> keeps P (for_each (S := S) (E := E) l body).
Proof.
  intros Hb. induction l as [|x l IH]; simpl; [apply keeps_ret|].
  apply keeps_bind; [apply Hb|]. by intros _.
Qed.

Lemma keeps_try_except {A} P (m : SM S E A) p h :
  keeps P m -> keeps P h -> keeps P (try_except m p h).
Proof.
  intros Hm Hh s Hs. specialize (Hm s Hs). unfold try_except.
  destruct (m s) as [s' [e|a]]; [|done]. destruct (p e); [by apply Hh|done].
Qed.

End wp_rules.

(** Running a statement whose outcome is known. *)
Lemma bind_val {S E A B} (r : E + A) a (k : A -> SM S E B) s :
  r = inr a -> bind (lift_val r) k s = k a s.
Proof. by intros ->. Qed.

Lemma bind_pass {S E B} c (e : E) (k : unit -> SM S E B) s :
  c = false -> bind (raise_if c e) k s = k tt s.
Proof. by intros ->. Qed.

Lemma bind_run {S E A B} (m : SM S E A) (k : A -> SM S E B) s s' a :
  m s = (s', inr a) -> bind m k s = k a s'.
Proof. unfold bind. by intros ->. Qed.

(** Reading a successful run backwards. *)
Section success.
Context {S E : Type}.
Implicit Types (s : S).

Lemma bind_inr {A B} (m : SM S E A) (f : A -> SM S E B) s s' b :
  bind m f s = (s', inr b) -> exists a s1, m s = (s1, inr a) /\ f a s1 = (s', inr b).
Proof. unfold bind. destruct (m s) as [s1 [e|a]]; [done|]. intros Hf. by exists a, s1. Qed.

Lemma get_inr s s' x : get_state (S := S) (E := E) s = (s', inr x) -> s' = s /\ x = s.
Proof. by intros [= -> ->]. Qed.

Lemma ret_inr {A} (a b : A) s s' : ret (S := S) (E := E) a s = (s', inr b) -> s' = s /\ a = b.
Proof. by intros [= -> ->]. Qed.

Lemma lift_val_inr {A} (r : E + A) (a : A) s s' : lift_val r s = (s', inr a) -> s' = s /\ r = inr a.
Proof. destruct r; [done|]. by intros [= -> ->]. Qed.

Lemma lift_inr (r : E + unit) u s s' : lift r s = (s', inr u) -> s' = s /\ r = inr tt.
Proof. destruct r as [|[]]; [done|]. by intros [= -> _]. Qed.

Lemma raise_if_inr c (e : E) u s s' : raise_if c e s = (s', inr u) -> s' = s /\ c = false.
Proof. destruct c; [done|]. by intros [= -> _]. Qed.

Lemma from_option_inr {A} (o : option A) (e : E) a s s' :
  from_option o e s = (s', inr a) -> s' = s /\ o = Some a.
Proof. destruct o; [|done]. by intros [= -> ->]. Qed.

End success.

(** Splits the hypothesis that a sequence of statements returned. *)
Ltac invert_run :=
  repeat match goal with
  | H : bind _ _ _ = (_, inr _) |- _ => apply bind_inr in H; destruct H as (? & ? & ? & H)
  | H : get_state _ = (_, inr _) |- _ => apply get_inr in H; destruct H; subst
  | H : ret _ _ = (_, inr _) |- _ => apply ret_inr in H; destruct H; subst
  | H : lift_val _ _ = (_, inr _) |- _ => apply lift_val_inr in H; destruct H; subst
  | H : lift _ _ = (_, inr _) |- _ => apply lift_inr in H; destruct H; subst
  | H : raise_if _ _ _ = (_, inr _) |- _ => apply raise_if_inr in H; destruct H; subst
  | H : from_option _ _ _ = (_, inr _) |- _ => apply from_option_inr in H; destruct H; subst
  end.

Create HintDb keeps_db.
#[export] Hint Resolve keeps_ret keeps_raise keeps_raise_if keeps_lift keeps_lift_val
  keeps_from_option : keeps_db.

(** ** Lists *)
Section lists.
Context {A : Type}.
Implicit Types (l : list A) (p : A -> bool).

Definition bfilter p l : list A := List.filter p l.

(** [sum(p(x) for x in l)] *)
Definition bcount p l : Z := Z.of_nat (length (List.filter p l)).

Definition zlen l : Z := Z.of_nat (length l).

Lemma zlen_length l : zlen l = Z.of_nat (length l).
Proof. done. Qed.

Lemma zlen_nonneg l : 0 <= zlen l.
Proof. unfold zlen. lia. Qed.

Lemma bcount_nonneg p l : 0 <= bcount p l.
Proof. unfold bcount. lia. Qed.

Lemma bcount_app p l1 l2 : bcount p (l1 ++ l2) = bcount p l1 + bcount p l2.
Proof. unfold bcount. rewrite List.filter_app, length_app. lia. Qed.

Lemma bcount_cons p x l : bcount p (x :: l) = (if p x then 1 else 0) + bcount p l.
Proof. unfold bcount. simpl. destruct (p x); simpl; lia. Qed.

Lemma bcount_nil p : bcount p [] = 0.
Proof. done. Qed.

Lemma bcount_le_zlen p l : bcount p l <= zlen l.
Proof.
  unfold zlen. induction l as [|x l IH]; [done|]. rewrite bcount_cons.
  simpl length. destruct (p x); lia.
Qed.

Lemma zlen_app l1 l2 : zlen (l1 ++ l2) = zlen l1 + zlen l2.
Proof. unfold zlen. rewrite length_app. lia. Qed.

Lemma zlen_cons x l : zlen (x :: l) = 1 + zlen l.
Proof. unfold zlen. simpl length. lia. Qed.

Lemma bfilter_app p l1 l2 : bfilter p (l1 ++ l2) = bfilter p l1 ++ bfilter p l2.
Proof. apply List.filter_app. Qed.

Lemma elem_of_bfilter p l x : x ∈ bfilter p l <-> x ∈ l /\ p x = true.
Proof. unfold bfilter. rewrite !list_elem_of_In. apply List.filter_In. Qed.

Lemma bfilter_ext p1 p2 l :
  (forall x, x ∈ l -> p1 x = p2 x) -> bfilter p1 l = bfilter p2 l.
Proof. intros H. apply List.filter_ext_in. intros x Hx. apply H. by apply list_elem_of_In. Qed.

Lemma bfilter_sublist p l : bfilter p l `sublist_of` l.
Proof.
  unfold bfilter. induction l as [|x l IH]; simpl; [constructor|].
  destruct (p x); [by apply sublist_skip|by apply sublist_cons].
Qed.

Lemma bfilter_id p l : (forall x, x ∈ l -> p x = true) -> bfilter p l = l.
Proof.
  unfold bfilter. induction l as [|x l IH]; intros H; simpl; [done|].
  rewrite (H x) by left. f_equal. apply IH. intros y Hy. apply H. by right.
Qed.

Lemma bfilter_comm p1 p2 l : bfilter p1 (bfilter p2 l) = bfilter p2 (bfilter p1 l).
Proof.
  unfold bfilter. induction l as [|x l IH]; simpl; [done|].
  destruct (p1 x) eqn:E1, (p2 x) eqn:E2; simpl; rewrite ?E1, ?E2, IH; done.
Qed.

(** [sorted(l, key=...)] is stable, so insertion sort gives the same list. *)
Fixpoint sorted_insert (leb : A -> A -> bool) (x : A) l : list A :=
  match l with
  | [] => [x]
  | y :: l' => if leb x y then x :: y :: l' else y :: sorted_insert leb x l'
  end.

Fixpoint py_sorted (leb : A -> A -> bool) l : list A :=
  match l with
  | [] => []
  | x :: l' => sorted_insert leb x (py_sorted leb l')
  end.

Lemma sorted_insert_perm leb x l : sorted_insert leb x l ≡ₚ x :: l.
Proof.
  induction l as [|y l IH]; simpl; [done|]. destruct (leb x y); [done|].
  rewrite IH. constructor.
Qed.

Lemma py_sorted_perm leb l : py_sorted leb l ≡ₚ l.
Proof.
  induction l as [|x l IH]; simpl; [done|]. by rewrite sorted_insert_perm, IH.
Qed.

(** [sorted] sorts, for a total and transitive comparison. *)
Lemma py_sorted_sorted leb l :
  (forall x y, leb x y = false -> leb y x = true) ->
  (forall x y z, leb x y = true -> leb y z = true -> leb x z = true) ->
  StronglySorted (fun x y => leb x y = true) (py_sorted leb l).
Proof.
  intros Htot Htr. induction l as [|x l IH]; simpl; [constructor|].
  induction IH as [|y l' Hs IHs Hy]; simpl; [repeat constructor|].
  destruct (leb x y) eqn:E.
  - constructor; [by constructor|]. constructor; [done|].
    eapply List.Forall_impl; [|exact Hy]. intros z Hz. by eapply Htr.
  - constructor; [done|]. apply List.Forall_forall. intros z Hz.
    apply list_elem_of_In in Hz. rewrite sorted_insert_perm in Hz.
    apply elem_of_cons in Hz as [->|Hz]; [by apply Htot|].
    rewrite List.Forall_forall in Hy. apply Hy. by apply list_elem_of_In.
Qed.

Lemma elem_of_py_sorted leb l x : x ∈ py_sorted leb l <-> x ∈ l.
Proof. by rewrite py_sorted_perm. Qed.

End lists.

Lemma StronglySorted_map {A B} (R : A -> A -> Prop) (R' : B -> B -> Prop) (f : A -> B) l :
  StronglySorted R l -> (forall x y, x ∈ l -> y ∈ l -> R x y -> R' (f x) (f y)) ->
  StronglySorted R' (map f l).
Proof.
  induction 1 as [|x l Hs IH Hx]; intros Hf; simpl; constructor.
  - apply IH. intros y z Hy Hz. apply Hf; by right.
  - apply List.Forall_forall. intros y Hy. apply list_elem_of_In, list_elem_of_fmap in Hy as (z & -> & Hz).
    rewrite List.Forall_forall in Hx. apply Hf; [left|by right|]. apply Hx. by apply list_elem_of_In.
Qed.

(** [bool_decide] normalisation shared by the case analyses. *)
Ltac bdestruct :=
  repeat match goal with
  | H : bool_decide _ = true |- _ => apply bool_decide_eq_true_1 in H
  | H : bool_decide _ = false |- _ => apply bool_decide_eq_false_1 in H
  | H : _ && _ = true |- _ => apply andb_true_iff in H; destruct H
  | H : _ || _ = false |- _ => apply orb_false_iff in H; destruct H
  | H : negb _ = true |- _ => apply negb_true_iff in H
  | H : negb _ = false |- _ => apply negb_false_iff in H
  end.

(** * The exceptions a function can end in

    [raises P m]: whatever the state, an exception of [m] is in [P].  The rules are
    those of the monad; [raising] applies them and leaves the calls and the exceptions
    that are raised. *)

Definition eraises {E A} (P : E -> Prop) (r : E + A) : Prop :=
  match r with inl e => P e | inr _ => True end.

Definition raises {S E A} (P : E -> Prop) (m : SM S E A) : Prop :=
  forall s, eraises P (m s).2.

Section rules.
Context {S E : Type} (P : E -> Prop).
Implicit Types (s : S).

Lemma raises_ret {A} (a : A) : raises P (ret (S := S) a).
Proof. done. Qed.

Lemma raises_raise {A} e : P e -> raises P (raise (S := S) (A := A) e).
Proof. by intros He s. Qed.

Lemma raises_bind {A B} (m : SM S E A) (f : A -> SM S E B) :
  raises P m -> (forall a, raises P (f a)) -> raises P (bind m f).
Proof.
  intros Hm Hf s. specialize (Hm s). unfold bind. destruct (m s) as [s' [e|a]]; [done|]. apply Hf.
Qed.

Lemma raises_get : raises P (get_state (S := S)).
Proof. done. Qed.

Lemma raises_put s : raises P (put_state s).
Proof. done. Qed.

Lemma raises_modify (f : S -> S) : raises P (modify f).
Proof. done. Qed.

Lemma raises_raise_if (c : bool) e : (c = true -> P e) -> raises P (raise_if (S := S) c e).
Proof. intros He s. destruct c; [by apply He|done]. Qed.

Lemma raises_lift r : eraises P r -> raises P (lift (S := S) r).
Proof. destruct r; by intros Hr s. Qed.

Lemma raises_lift_val {A} (r : E + A) : eraises P r -> raises P (lift_val (S := S) r).
Proof. destruct r; by intros Hr s. Qed.

Lemma raises_from_option {A} (o : option A) e : P e -> raises P (from_option (S := S) o e).
Proof. destruct o; by intros He s. Qed.

Lemma raises_if {A} (b : bool) (m n : SM S E A) :
  raises P m -> raises P n -> raises P (if b then m else n).
Proof. by destruct b. Qed.

Lemma raises_for_each {X} (l : list X) body :
  (forall x, raises P (body x)) -> raises P (for_each (S := S) l body).
Proof.
  intros Hb. induction l as [|x l IH]; [apply raises_ret|]. apply raises_bind; [apply Hb|]. by intros _.
Qed.

(** A handler sees the exceptions it catches. *)
Lemma raises_try_except {A} (Q : E -> Prop) (m : SM S E A) (p : E -> bool) h :
  raises Q m -> (forall e, Q e -> p e = false -> P e) -> raises P h -> raises P (try_except m p h).
Proof.
  intros Hm Hp Hh s. specialize (Hm s). unfold try_except. destruct (m s) as [s' [e|a]]; [|done].
  destruct (p e) eqn:Ep; [apply Hh|]. by apply Hp.
Qed.

Lemma eraises_bind {A B} (r : E + A) (f : A -> E + B) :
  eraises P r -> (forall a, eraises P (f a)) -> eraises P (ebind r f).
Proof. destruct r as [e|a]; [done|]. intros _ Hf. apply Hf. Qed.

Lemma eraises_raise_if (c : bool) e : (c = true -> P e) -> eraises P (eraise_if c e).
Proof. destruct c; simpl; auto. Qed.

Lemma eraises_for_each {X} (l : list X) (body : X -> E + unit) :
  (forall x, eraises P (body x)) -> eraises P (efor_each l body).
Proof. intros Hb. induction l as [|x l IH]; [done|]. by apply eraises_bind. Qed.

End rules.

Lemma raises_weaken {S E A} (P Q : E -> Prop) (m : SM S E A) :
  raises P m -> (forall e, P e -> Q e) -> raises Q m.
Proof. intros Hm HPQ s. specialize (Hm s). destruct (m s) as [s' [e|a]]; [by apply HPQ|done]. Qed.

Lemma eraises_weaken {E A} (P Q : E -> Prop) (r : E + A) :
  eraises P r -> (forall e, P e -> Q e) -> eraises Q r.
Proof. destruct r; simpl; auto. Qed.

Lemma raises_run {S E A} (P : E -> Prop) (m : SM S E A) s s' e :
  raises P m -> m s = (s', inl e) -> P e.
Proof. intros Hm He. specialize (Hm s). by rewrite He in Hm. Qed.

(** The other outcome: a result of [m] is in [Q]. *)
Definition returns {S E A} (Q : A -> Prop) (m : SM S E A) : Prop :=
  forall s, match (m s).2 with inr a => Q a | inl _ => True end.

Lemma returns_bind {S E A B} (Q : B -> Prop) (m : SM S E A) (f : A -> SM S E B) :
  (forall a, returns Q (f a)) -> returns Q (bind m f).
Proof. intros Hf s. unfold bind. destruct (m s) as [s' [e|a]]; [done|]. apply Hf. Qed.

Create HintDb raises.
#[export] Hint Resolve raises_ret raises_get raises_put raises_modify : raises.

(** One rule at a time, along the structure of the program *)
Ltac raising_step :=
  match goal with
  | |- forall _, _ => intros ?
  | |- raises _ (bind _ _) => apply raises_bind
  | |- raises _ (raise _) => apply raises_raise
  | |- raises _ (raise_if _ _) => apply raises_raise_if; intros _
  | |- raises _ (lift _) => apply raises_lift
  | |- raises _ (lift_val _) => apply raises_lift_val
  | |- raises _ (from_option _ _) => apply raises_from_option
  | |- raises _ (for_each _ _) => apply raises_for_each
  | |- raises _ (if ?b then _ else _) => destruct b
  | |- raises _ (match ?x with _ => _ end) => destruct x
  | |- raises _ (let '_ := ?x in _) => destruct x
  | |- eraises _ (inl _) => cbn [eraises]
  | |- eraises _ (inr _) => exact I
  | |- eraises _ (ebind _ _) => apply eraises_bind
  | |- eraises _ (eraise_if _ _) => apply eraises_raise_if; intros _
  | |- eraises _ (efor_each _ _) => apply eraises_for_each
  | |- eraises _ (if ?b then _ else _) => destruct b
  | |- eraises _ (match ?x with _ => _ end) => destruct x
  | |- _ => solve [eauto with raises]
  end.

Ltac raising := repeat (cbv zeta; raising_step).
