(* ===== verification/PyFloat.v ===== *)
(** * Python floats

    IEEE 754 binary64 values as the specification floats of the Standard
    Library, with the operations the relay uses: comparison, addition with
    round-to-nearest-even, conversion of an integer, [math.isfinite], [min] and
    the big-endian [struct.pack("!d", x)].  The order lemmas hold for every
    finite value, so theorems about deadlines need no rounding argument. *)

From S2P Require Import Prelude.
From Stdlib Require Import Floats.SpecFloat.
From Stdlib Require Export Init.Byte Strings.Byte.

Definition float64 : Set := spec_float.

#[export] Instance float64_eq_dec : EqDecision float64.
Proof. solve_decision. Defined.

Definition prec64 : Z := 53.
Definition emax64 : Z := 1024.

Definition fadd (x y : float64) : float64 := SFadd prec64 emax64 x y.
Definition fsub (x y : float64) : float64 := SFsub prec64 emax64 x y.
Definition fmul (x y : float64) : float64 := SFmul prec64 emax64 x y.
Definition fdiv (x y : float64) : float64 := SFdiv prec64 emax64 x y.
Definition flt (x y : float64) : bool := SFltb x y.
Definition fle (x y : float64) : bool := SFleb x y.
Definition feq (x y : float64) : bool := SFeqb x y.

(** [math.isfinite] *)
Definition is_finite (x : float64) : bool :=
  match x with
  | S754_zero _ | S754_finite _ _ _ => true
  | _ => false
  end.

(** [min(x, y)] keeps its first argument unless the second is smaller. *)
Definition fmin (x y : float64) : float64 := if flt y x then y else x.

(** [max(x, y)] keeps its first argument unless the second is larger. *)
Definition fmax (x y : float64) : float64 := if flt x y then y else x.

(** The nearest binary64 of an integer; beyond the range, an infinity. *)
Definition float_near (z : Z) : float64 := binary_normalize prec64 emax64 z 0 false.

(** [float(z)]; [None] is the [OverflowError]. *)
Definition float_of_int (z : Z) : option float64 :=
  let f := float_near z in if is_finite f then Some f else None.

Definition f0 : float64 := S754_zero false.
(** The literals the source writes; [0.001] is its nearest binary64. *)
Definition f0_001 : float64 := S754_finite false 4611686018427388 (-62).
Definition f1 : float64 := S754_finite false 4503599627370496 (-52).
Definition f15 : float64 := S754_finite false 8444249301319680 (-49).
Definition f30 : float64 := S754_finite false 8444249301319680 (-48).
Definition f300 : float64 := S754_finite false 5277655813324800 (-44).
Definition f3600 : float64 := S754_finite false 7916483719987200 (-41).
Definition f86400 : float64 := S754_finite false 5937362789990400 (-36).
Definition f604800 : float64 := S754_finite false 5195192441241600 (-33).

(** The 64-bit pattern of a float: sign, biased exponent, fraction. *)
Definition bits_of_float (x : float64) : Z :=
  match x with
  | S754_zero s => if s then Z.shiftl 1 63 else 0
  | S754_infinity s => Z.lor (if s then Z.shiftl 1 63 else 0) (Z.shiftl 2047 52)
  | S754_nan => Z.lor (Z.shiftl 2047 52) (Z.shiftl 1 51)
  | S754_finite s m e =>
      let sign := if s then Z.shiftl 1 63 else 0 in
      if Z.ltb (Zpos m) (Z.shiftl 1 52)
      then Z.lor sign (Zpos m)
      else Z.lor sign (Z.lor (Z.shiftl (e + 1075) 52) (Zpos m - Z.shiftl 1 52))
  end.

Definition byte_of_Z (z : Z) : byte :=
  match Byte.of_N (Z.to_N (Z.land z 255)) with Some b => b | None => x00 end.

(** Big-endian bytes, most significant first. *)
Fixpoint be_bytes (n : nat) (z : Z) : list byte :=
  match n with
  | O => []
  | S n' => byte_of_Z (Z.shiftr z (8 * Z.of_nat n')) :: be_bytes n' z
  end.

(** [struct.pack("!d", x)] *)
Definition pack_double (x : float64) : list byte := be_bytes 8 (bits_of_float x).

Lemma length_be_bytes n z : length (be_bytes n z) = n.
Proof. induction n; simpl; auto. Qed.

Lemma length_pack_double x : length (pack_double x) = 8%nat.
Proof. apply length_be_bytes. Qed.

Example float_of_int_3600 : float_of_int 3600 = Some f3600.
Proof. reflexivity. Qed.

Example fadd_15_15 : fadd f15 f15 = f30.
Proof. reflexivity. Qed.

Example pack_one : pack_double f1 = [x3f; xf0; x00; x00; x00; x00; x00; x00].
Proof. reflexivity. Qed.

(** ** Order *)

Lemma pos_compare_cont_antisym m1 m2 :
  Pos.compare_cont Eq m2 m1 = CompOpp (Pos.compare_cont Eq m1 m2).
Proof. change (Pos.compare m2 m1 = CompOpp (Pos.compare m1 m2)). apply Pos.compare_antisym. Qed.

(** The order as a relation on a finite value's sign, exponent and mantissa. *)
Definition fkey (x : float64) : Z * Z * Z :=
  match x with
  | S754_finite false m e => (1, e, Zpos m)
  | S754_finite true m e => (-1, - e, - Zpos m)
  | _ => (0, 0, 0)
  end.

Definition key_lt (k1 k2 : Z * Z * Z) : Prop :=
  k1.1.1 < k2.1.1 \/
  (k1.1.1 = k2.1.1 /\ (k1.1.2 < k2.1.2 \/ (k1.1.2 = k2.1.2 /\ k1.2 < k2.2))).

Lemma SFcompare_key x y :
  is_finite x = true -> is_finite y = true ->
  match SFcompare x y with
  | Some Lt => key_lt (fkey x) (fkey y)
  | Some Gt => key_lt (fkey y) (fkey x)
  | Some Eq => fkey x = fkey y
  | None => False
  end.
Proof.
  destruct x as [s| | |s m e], y as [s'| | |s' m' e']; try done; intros _ _.
  - destruct s'; unfold key_lt; simpl; lia.
  - destruct s; unfold key_lt; simpl; lia.
  - destruct s, s'; simpl; try (unfold key_lt; simpl; lia).
    + destruct (Z.compare_spec e e') as [->|?|?]; simpl; try (unfold key_lt; simpl; lia).
      change (Pos.compare_cont Eq m m') with (Pos.compare m m').
      destruct (Pos.compare_spec m m') as [->|?|?]; simpl; unfold key_lt; simpl; try lia; done.
    + destruct (Z.compare_spec e e') as [->|?|?]; simpl; try (unfold key_lt; simpl; lia).
      change (Pos.compare_cont Eq m m') with (Pos.compare m m').
      destruct (Pos.compare_spec m m') as [->|?|?]; simpl; unfold key_lt; simpl; try lia; done.
Qed.

Lemma flt_key x y :
  is_finite x = true -> is_finite y = true ->
  flt x y = true <-> key_lt (fkey x) (fkey y).
Proof.
  intros Hx Hy. pose proof (SFcompare_key x y Hx Hy) as H. unfold flt, SFltb.
  destruct (SFcompare x y) as [[]|]; [| | |done].
  - split; [done|]. rewrite H. unfold key_lt. lia.
  - split; done.
  - split; [done|]. revert H. unfold key_lt. lia.
Qed.

Lemma fle_key x y :
  is_finite x = true -> is_finite y = true ->
  fle x y = true <-> ~ key_lt (fkey y) (fkey x).
Proof.
  intros Hx Hy. pose proof (SFcompare_key x y Hx Hy) as H. unfold fle, SFleb.
  destruct (SFcompare x y) as [[]|]; [| | |done].
  - split; [|done]. rewrite H. unfold key_lt. lia.
  - split; [|done]. revert H. unfold key_lt. lia.
  - split; [done|]. intros []. done.
Qed.

Lemma fle_false_flt x y :
  is_finite x = true -> is_finite y = true -> fle x y = false <-> flt y x = true.
Proof.
  intros Hx Hy. rewrite flt_key by done. pose proof (fle_key x y Hx Hy) as H.
  destruct (fle x y).
  - split; [done|]. intros ?. exfalso. by apply H.
  - split; [|done]. intros _. revert H. unfold key_lt. intros H.
    destruct (decide ((fkey y).1.1 < (fkey x).1.1 \/
      (fkey y).1.1 = (fkey x).1.1 /\ ((fkey y).1.2 < (fkey x).1.2 \/
      (fkey y).1.2 = (fkey x).1.2 /\ (fkey y).2 < (fkey x).2))) as [?|Hn]; [done|].
    destruct H as [_ H]. by specialize (H Hn).
Qed.

Lemma flt_irrefl x : flt x x = false.
Proof.
  unfold flt, SFltb. destruct x as [|s| |s m e]; try done; [by destruct s|].
  simpl. destruct s; rewrite Z.compare_refl;
    change (Pos.compare_cont Eq m m) with (Pos.compare m m); by rewrite Pos.compare_refl.
Qed.

Lemma flt_trans x y z :
  is_finite x = true -> is_finite y = true -> is_finite z = true ->
  flt x y = true -> flt y z = true -> flt x z = true.
Proof. intros Hx Hy Hz. rewrite !flt_key by done. unfold key_lt. lia. Qed.

Lemma fle_trans x y z :
  is_finite x = true -> is_finite y = true -> is_finite z = true ->
  fle x y = true -> fle y z = true -> fle x z = true.
Proof. intros Hx Hy Hz. rewrite !fle_key by done. unfold key_lt. lia. Qed.

Lemma flt_fle x y : flt x y = true -> fle x y = true.
Proof. unfold flt, fle, SFltb, SFleb. by destruct (SFcompare x y) as [[]|]. Qed.

(** Strictly before and not after exclude each other, for every pair of values. *)
Lemma flt_not_fle x y : flt x y = true -> fle y x = false.
Proof.
  intros Hxy. destruct (fle y x) eqn:E; [|done]. exfalso. revert Hxy E.
  destruct (is_finite x) eqn:Fx, (is_finite y) eqn:Fy.
  - rewrite flt_key, fle_key by done. tauto.
  - destruct y as [| [] | |]; try done; by destruct x as [[]| | |[] ? ?].
  - destruct x as [| [] | |]; try done; by destruct y as [[]| | |[] ? ?].
  - destruct x as [| [] | |], y as [| [] | |]; done.
Qed.

Lemma fle_refl x : is_finite x = true -> fle x x = true.
Proof. intros Hx. apply fle_key; [done|done|]. unfold key_lt. lia. Qed.

(** [x <= now] is monotone in [now]: an expired deadline stays expired. *)
Lemma fle_mono_r x now now' :
  is_finite x = true -> is_finite now = true -> is_finite now' = true ->
  fle now now' = true -> fle x now = true -> fle x now' = true.
Proof. intros ??? H1 H2. by apply (fle_trans x now now'). Qed.

(** The smaller of two finite deadlines bounds both. *)
Lemma fmin_le_r x y : is_finite x = true -> is_finite y = true -> fle (fmin x y) y = true.
Proof.
  intros Hx Hy. unfold fmin. destruct (flt y x) eqn:E; [by apply fle_refl|].
  destruct (fle x y) eqn:E'; [done|]. apply fle_false_flt in E'; [|done|done].
  by rewrite E' in E.
Qed.

Lemma fmin_le_l x y : is_finite x = true -> is_finite y = true -> fle (fmin x y) x = true.
Proof.
  intros Hx Hy. unfold fmin. destruct (flt y x) eqn:E; [by apply flt_fle|by apply fle_refl].
Qed.

Lemma is_finite_fmin x y : is_finite x = true -> is_finite y = true -> is_finite (fmin x y) = true.
Proof. intros. unfold fmin. by destruct (flt y x). Qed.

(** ** Rounding stays in range

    A mantissa and an exponent far from the largest float round to a finite float of the same
    sign; the bounds are crude, as much as the callers need. *)

Lemma iter_pos_inv {A} (P : A -> Prop) (f : A -> A) n x :
  (forall y, P y -> P (f y)) -> P x -> P (iter_pos f n x).
Proof. intros Hf. revert x. induction n; intros x Hx; cbn [iter_pos]; auto. Qed.

Lemma digits2_pow p : 2 ^ (Zpos (digits2_pos p) - 1) <= Zpos p.
Proof.
  induction p as [p IH|p IH|]; cbn [digits2_pos]; [| |done];
    rewrite Pos2Z.inj_succ; unfold Z.succ; rewrite Z.add_simpl_r;
    replace (Zpos (digits2_pos p)) with (Z.succ (Zpos (digits2_pos p) - 1)) by lia;
    rewrite Z.pow_succ_r by lia; lia.
Qed.

Lemma digits2_bound p D : 0 <= D -> Zpos p < 2 ^ D -> Zpos (digits2_pos p) <= D.
Proof.
  intros HD Hp. pose proof (digits2_pow p) as Hd. apply Z.lt_pred_le.
  apply (Z.pow_lt_mono_r_iff 2); lia.
Qed.

Lemma Zdigits2_bound m D : 0 <= D -> 0 <= m < 2 ^ D -> Zdigits2 m <= D.
Proof. intros HD Hm. destruct m as [|p|p]; cbn [Zdigits2]; [done|apply digits2_bound; lia|lia]. Qed.

Lemma shr_1_small r M : 0 <= shr_m r <= M -> 0 <= shr_m (shr_1 r) <= M.
Proof. destruct r as [[|[p|p|]|p] r s]; cbn; lia. Qed.

Lemma shr_fexp_small m e l D :
  0 <= D -> 0 <= m < 2 ^ D ->
  0 <= shr_m (fst (shr_fexp prec64 emax64 m e l)) <= m /\
  snd (shr_fexp prec64 emax64 m e l) <= Z.max e (Z.max (D + e - 53) (-1074)).
Proof.
  intros HD Hm. pose proof (Zdigits2_bound m D HD Hm) as Hd.
  assert (Hr : 0 <= shr_m (shr_record_of_loc m l) <= m) by (destruct l as [|[]]; cbn; lia).
  unfold shr_fexp, shr. destruct (_ - e) as [|n|n] eqn:En; cbn [fst snd]; [lia| |lia].
  split; [apply (iter_pos_inv (fun r => 0 <= shr_m r <= m)); [|done]; intros r; apply shr_1_small|].
  rewrite <- En. unfold fexp, emin, prec64, emax64. lia.
Qed.

(** A finite float with the sign [sx], whose mantissa and exponent are at most these *)
Definition rounds_to (sx : bool) (M E : Z) (x : float64) : Prop :=
  match x with
  | S754_zero s => s = sx
  | S754_finite s m e => s = sx /\ Zpos m <= M /\ e <= E
  | _ => False
  end.

Lemma round_aux_small sx m e D :
  1 <= D -> 0 <= m < 2 ^ D -> D + D + Z.max e 0 <= 500 ->
  rounds_to sx (2 ^ D) (D + D + Z.max e 0) (binary_round_aux prec64 emax64 sx m e loc_Exact).
Proof.
  intros HD Hm He. unfold binary_round_aux.
  pose proof (shr_fexp_small m e loc_Exact D ltac:(lia) Hm) as [H1 H2].
  destruct (shr_fexp prec64 emax64 m e loc_Exact) as [r1 e1]. cbn [fst snd] in *.
  set (m1 := round_nearest_even (shr_m r1) (loc_of_shr_record r1)).
  assert (Hm1 : 0 <= m1 <= 2 ^ D).
  { unfold m1, round_nearest_even. repeat case_match; lia. }
  assert (Hs : 0 <= m1 < 2 ^ (D + 1)).
  { replace (2 ^ (D + 1)) with (2 * 2 ^ D); [lia|]. rewrite Z.add_1_r, Z.pow_succ_r; lia. }
  pose proof (shr_fexp_small m1 e1 loc_Exact (D + 1) ltac:(lia) Hs) as [H3 H4].
  destruct (shr_fexp prec64 emax64 m1 e1 loc_Exact) as [r2 e2]. cbn [fst snd] in *.
  destruct (shr_m r2) as [|p|p] eqn:Er; [done| |lia].
  replace (e2 <=? emax64 - prec64) with true by (unfold emax64, prec64; lia).
  cbn [rounds_to]. split; [done|]. clear -H3 H4 H2 Hm1 HD. lia.
Qed.

Lemma iter_xO m d : Zpos (Pos.iter xO m d) = Zpos m * 2 ^ Zpos d.
Proof.
  induction d as [|d IH] using Pos.peano_ind; [rewrite Z.pow_1_r; cbn; lia|].
  rewrite Pos.iter_succ, Pos2Z.inj_succ, Z.pow_succ_r by lia. lia.
Qed.

Lemma float_near_small z : 0 <= z < 2 ^ 64 -> rounds_to false (2 ^ 64) 128 (float_near z).
Proof.
  intros Hz. unfold float_near, binary_normalize. destruct z as [|m|m]; [done| |lia].
  unfold binary_round, shl_align. pose proof (digits2_bound m 64 ltac:(lia) ltac:(lia)) as Hd.
  set (f := fexp prec64 emax64 (Zpos (digits2_pos m) + 0)).
  assert (Hf : f = Zpos (digits2_pos m) - 53)
    by (unfold f, fexp, emin, prec64, emax64; lia).
  destruct (f - 0) as [|d|d] eqn:Ed.
  1-2: exact (round_aux_small false (Zpos m) 0 64 ltac:(lia) ltac:(lia) ltac:(lia)).
  assert (Hs : Zpos (Pos.iter xO m d) < 2 ^ 64).
  { rewrite iter_xO. assert (Hp : Zpos m < 2 ^ Zpos (digits2_pos m)).
    { clear. induction m as [p IH|p IH|]; cbn [digits2_pos]; [| |done];
        rewrite Pos2Z.inj_succ, Z.pow_succ_r; lia. }
    replace (2 ^ 64) with (2 ^ Zpos (digits2_pos m) * 2 ^ (64 - Zpos (digits2_pos m)))
      by (rewrite <- Z.pow_add_r by lia; f_equal; lia).
    apply (Z.lt_le_trans _ (2 ^ Zpos (digits2_pos m) * 2 ^ Zpos d)).
    - apply Z.mul_lt_mono_pos_r; [lia|done].
    - apply Z.mul_le_mono_nonneg_l; [lia|]. apply Z.pow_le_mono_r; lia. }
  pose proof (round_aux_small false (Zpos (Pos.iter xO m d)) f 64 ltac:(lia) ltac:(lia) ltac:(lia)) as H.
  replace (64 + 64 + Z.max f 0) with 128 in H by lia. exact H.
Qed.

(** The product with a positive float below one thousand *)
Lemma fmul_small x m e :
  rounds_to false (2 ^ 64) 128 x -> Zpos m < 2 ^ 53 -> e <= 0 ->
  exists M E, rounds_to false M E (fmul x (S754_finite false m e)).
Proof.
  intros Hx Hm He. destruct x as [s|s| |s mx ex]; cbn [rounds_to] in Hx; try done.
  - subst s. by exists 0, 0.
  - destruct Hx as (-> & Hmx & Hex). unfold fmul, SFmul.
    do 2 eexists. apply (round_aux_small false _ _ 118); try lia. rewrite Pos2Z.inj_mul.
    change (2 ^ 118) with (2 ^ 64 * 2 ^ 54). change (2 ^ 54) with (2 * 2 ^ 53). nia.
Qed.
