(* ===== verification/PyStr.v ===== *)
(** * Python strings and dynamically typed values

    A [str] is its sequence of Unicode code points, so [len] counts code points
    and [encode("utf-8")] is a partial function to bytes (lone surrogates raise).
    [pyval] is the value a caller may pass where the source checks
    [isinstance]; JSON documents are [pyval]s too. *)

From S2P Require Import Prelude PyFloat.
From Stdlib Require Import Floats.SpecFloat.

Inductive pystr : Set := PyStr (codes : list N).

Definition codes (s : pystr) : list N := let 'PyStr l := s in l.

#[export] Instance pystr_eq_dec : EqDecision pystr.
Proof. solve_decision. Defined.

Definition pystr_of_bytes (l : list byte) : option pystr :=
  Some (PyStr (map Byte.to_N l)).

Fixpoint bytes_of_codes (l : list N) : option (list byte) :=
  match l with
  | [] => Some []
  | c :: l' => match Byte.of_N c, bytes_of_codes l' with
               | Some b, Some bs => Some (b :: bs)
               | _, _ => None
               end
  end.

Definition pystr_to_bytes (s : pystr) : option (list byte) := bytes_of_codes (codes s).

Declare Scope pystr_scope.
Delimit Scope pystr_scope with pystr.
Bind Scope pystr_scope with pystr.
String Notation pystr pystr_of_bytes pystr_to_bytes : pystr_scope.
#[global] Open Scope pystr_scope.

Definition py_app (a b : pystr) : pystr := PyStr (codes a ++ codes b).
Notation "a +++ b" := (py_app a b) (at level 60, right associativity) : pystr_scope.

(** [len(s)] *)
Definition py_len (s : pystr) : Z := zlen (codes s).

(** [not s] *)
Definition py_empty (s : pystr) : bool := match codes s with [] => true | _ => false end.

(** String order is by code point. *)
Fixpoint codes_leb (a b : list N) : bool :=
  match a, b with
  | [], _ => true
  | _ :: _, [] => false
  | x :: a', y :: b' => if N.ltb x y then true else if N.ltb y x then false else codes_leb a' b'
  end.

Definition pystr_leb (a b : pystr) : bool := codes_leb (codes a) (codes b).

(** [x in {..}] for a literal collection *)
Definition pystr_in (x : pystr) (l : list pystr) : bool := bool_decide (x ∈ l).

(** ** [str.encode("utf-8")] *)
Definition utf8_code (c : N) : option (list byte) :=
  let z := Z.of_N c in
  if Z.ltb z 128 then Some [byte_of_Z z]
  else if Z.ltb z 2048 then
    Some [byte_of_Z (192 + Z.shiftr z 6); byte_of_Z (128 + Z.land z 63)]
  else if (55296 <=? z) && (z <=? 57343) then None
  else if Z.ltb z 65536 then
    Some [byte_of_Z (224 + Z.shiftr z 12); byte_of_Z (128 + Z.land (Z.shiftr z 6) 63);
          byte_of_Z (128 + Z.land z 63)]
  else if Z.ltb z 1114112 then
    Some [byte_of_Z (240 + Z.shiftr z 18); byte_of_Z (128 + Z.land (Z.shiftr z 12) 63);
          byte_of_Z (128 + Z.land (Z.shiftr z 6) 63); byte_of_Z (128 + Z.land z 63)]
  else None.

Fixpoint utf8_codes (l : list N) : option (list byte) :=
  match l with
  | [] => Some []
  | c :: l' => match utf8_code c, utf8_codes l' with
               | Some bs, Some bs' => Some (bs ++ bs')
               | _, _ => None
               end
  end.

Definition utf8_encode (s : pystr) : option (list byte) := utf8_codes (codes s).

(** [bytes] literals of the source: ASCII. *)
Definition b_lit (s : pystr) : list byte := default [] (utf8_encode s).

(** ** [str.strip()] and [str.lower()] *)
Definition is_py_space (c : N) : bool :=
  bool_decide (c ∈ ([9; 10; 11; 12; 13; 28; 29; 30; 31; 32; 133; 160; 5760; 8192; 8193; 8194;
    8195; 8196; 8197; 8198; 8199; 8200; 8201; 8202; 8232; 8233; 8239; 8287; 12288]%N : list N)).

Fixpoint drop_space (l : list N) : list N :=
  match l with
  | [] => []
  | c :: l' => if is_py_space c then drop_space l' else l
  end.

Definition py_strip (s : pystr) : pystr :=
  PyStr (rev (drop_space (rev (drop_space (codes s))))).

Definition is_ascii (s : pystr) : bool := forallb (fun c => N.ltb c 128) (codes s).

Definition ascii_lower_code (c : N) : N :=
  if (N.leb 65 c && N.leb c 90)%bool then (c + 32)%N else c.

Definition ascii_lower (s : pystr) : pystr := PyStr (map ascii_lower_code (codes s)).

(** [str.lower] consults the Unicode database; on ASCII text it is fixed. *)
Class PyUnicode : Type := {
  py_lower : pystr -> pystr;
  py_lower_ascii : forall s, is_ascii s = true -> py_lower s = ascii_lower s
}.

(** The instance that lower-cases ASCII letters only. *)
Definition ascii_unicode : PyUnicode :=
  {| py_lower := ascii_lower; py_lower_ascii := fun _ _ => eq_refl |}.

(** ** Hexadecimal digits *)
Definition is_hex_lower (c : N) : bool :=
  ((N.leb 48 c && N.leb c 57) || (N.leb 97 c && N.leb c 102))%bool.

(** [re.fullmatch(r"[0-9a-f]{64}", s)] *)
Definition is_sha256_hex (s : pystr) : bool :=
  bool_decide (length (codes s) = 64%nat) && forallb is_hex_lower (codes s).

Definition hex_digit (z : Z) : N :=
  if Z.ltb z 10 then Z.to_N (48 + z) else Z.to_N (87 + z).

Definition hex_of_byte (b : byte) : list N :=
  let z := Z.of_N (Byte.to_N b) in [hex_digit (z / 16); hex_digit (z mod 16)].

(** [bytes.hex()] *)
Definition hex_of_bytes (l : list byte) : pystr := PyStr (concat (map hex_of_byte l)).

Definition hex_value (c : N) : Z :=
  if N.leb c 57 then Z.of_N c - 48 else Z.of_N c - 87.

Fixpoint bytes_of_hex_codes (l : list N) : list byte :=
  match l with
  | h :: l0 :: l' => byte_of_Z (16 * hex_value h + hex_value l0) :: bytes_of_hex_codes l'
  | _ => []
  end.

(** [bytes.fromhex(s)] on lowercase hexadecimal text of even length. *)
Definition bytes_fromhex (s : pystr) : list byte := bytes_of_hex_codes (codes s).

(** ** [str(int)] *)
Fixpoint dec_digits (fuel : nat) (z : Z) (acc : list N) : list N :=
  match fuel with
  | O => acc
  | S f => let acc' := Z.to_N (48 + z mod 10) :: acc in
           if z / 10 =? 0 then acc' else dec_digits f (z / 10) acc'
  end.

Definition py_str_int (z : Z) : pystr :=
  let d := dec_digits (S (Z.to_nat (Z.log2 (Z.abs z)))) (Z.abs z) [] in
  PyStr (if z <? 0 then 45%N :: d else d).

(** ** [json.dumps(s, ensure_ascii=False)] of a string *)
Definition json_escape (c : N) : list N :=
  match c with
  | 34%N => [92; 34]%N
  | 92%N => [92; 92]%N
  | 10%N => [92; 110]%N
  | 13%N => [92; 114]%N
  | 9%N => [92; 116]%N
  | 8%N => [92; 98]%N
  | 12%N => [92; 102]%N
  | _ => if N.ltb c 32
         then [92; 117; 48; 48; hex_digit (Z.of_N c / 16); hex_digit (Z.of_N c mod 16)]%N
         else [c]
  end.

Definition json_str (s : pystr) : pystr :=
  PyStr (34%N :: concat (map json_escape (codes s)) ++ [34%N]).

(** ** Values of unknown type *)
#[warnings="-register-all"]
Inductive pyval : Set :=
| PyNone
| PyBool (b : bool)
| PyInt (z : Z)
| PyFloat (f : float64)
| PyS (s : pystr)
| PyBytes (l : list byte)
| PyTuple (l : list pyval)
| PyList (l : list pyval)
| PyDict (d : list (pystr * pyval))
| PyOther (tag : N).

(** An argument the source tests with [isinstance(x, C)]. *)
Inductive instance_of (A : Type) : Type :=
| IsInst (a : A)
| NotInst (v : pyval).
Arguments IsInst {A}.
Arguments NotInst {A}.

(** [isinstance(v, int) and not isinstance(v, bool)] *)
Definition strict_int (v : pyval) : option Z :=
  match v with PyInt z => Some z | _ => None end.

(** ** Lemmas *)

Lemma codes_inj a b : codes a = codes b -> a = b.
Proof. destruct a, b. simpl. by intros ->. Qed.

Lemma codes_leb_refl l : codes_leb l l = true.
Proof. induction l as [|x l IH]; simpl; [done|]. by rewrite N.ltb_irrefl. Qed.

Lemma codes_leb_total a b : codes_leb a b = true \/ codes_leb b a = true.
Proof.
  revert b. induction a as [|x a IH]; intros [|y b]; simpl; auto.
  destruct (N.ltb_spec x y), (N.ltb_spec y x); auto.
Qed.

Lemma pystr_leb_total a b : pystr_leb a b = false -> pystr_leb b a = true.
Proof.
  unfold pystr_leb. intros Hf. destruct (codes_leb_total (codes a) (codes b)); congruence.
Qed.

Lemma codes_leb_antisym a b : codes_leb a b = true -> codes_leb b a = true -> a = b.
Proof.
  revert b. induction a as [|x a IH]; intros [|y b]; simpl; try done.
  destruct (N.ltb_spec x y), (N.ltb_spec y x); try done; try lia.
  intros H1 H2. replace y with x by lia. f_equal. by apply IH.
Qed.

Lemma codes_leb_trans a b c :
  codes_leb a b = true -> codes_leb b c = true -> codes_leb a c = true.
Proof.
  revert b c. induction a as [|x a IH]; intros [|y b] [|z c]; simpl; try done.
  destruct (N.ltb_spec x y), (N.ltb_spec y x), (N.ltb_spec y z), (N.ltb_spec z y),
    (N.ltb_spec x z), (N.ltb_spec z x); try done; try lia. apply IH.
Qed.

Lemma utf8_code_length c bs :
  utf8_code c = Some bs -> (1 <= length bs <= 4)%nat.
Proof.
  unfold utf8_code. repeat case_match; intros ?; simplify_eq; simpl; lia.
Qed.

(** A string's byte bound caps its length as well. *)
Lemma utf8_encode_length s bs :
  utf8_encode s = Some bs -> py_len s <= zlen bs <= 4 * py_len s.
Proof.
  unfold utf8_encode, py_len, zlen. destruct s as [l]. simpl. revert bs.
  induction l as [|c l IH]; intros bs; simpl; intros H; [simplify_eq; simpl; lia|].
  destruct (utf8_code c) as [b|] eqn:Ec; [|done].
  destruct (utf8_codes l) as [bs'|] eqn:El; [|done]. simplify_eq.
  apply utf8_code_length in Ec. specialize (IH bs' eq_refl).
  rewrite length_app. lia.
Qed.

Lemma is_sha256_hex_length s : is_sha256_hex s = true -> py_len s = 64.
Proof. unfold is_sha256_hex, py_len, zlen. intros H. bdestruct. lia. Qed.

Lemma hex_of_byte_hex b : forallb is_hex_lower (hex_of_byte b) = true.
Proof. by destruct b. Qed.

Lemma length_hex_of_bytes l : length (codes (hex_of_bytes l)) = (2 * length l)%nat.
Proof. unfold hex_of_bytes. simpl. induction l; simpl; lia. Qed.

Lemma hex_of_bytes_hex l : forallb is_hex_lower (codes (hex_of_bytes l)) = true.
Proof.
  unfold hex_of_bytes. simpl. induction l as [|b l IH]; [done|]. cbn [map concat].
  rewrite forallb_app, hex_of_byte_hex, IH. done.
Qed.

Lemma hex_of_bytes_sha l : length l = 32%nat -> is_sha256_hex (hex_of_bytes l) = true.
Proof.
  intros H. unfold is_sha256_hex. rewrite length_hex_of_bytes, hex_of_bytes_hex, H. done.
Qed.

(** [bytes.fromhex] inverts [bytes.hex]. *)
Lemma bytes_fromhex_hex l : bytes_fromhex (hex_of_bytes l) = l.
Proof.
  unfold bytes_fromhex, hex_of_bytes. simpl. induction l as [|b l IH]; [done|].
  cbn [map concat hex_of_byte app bytes_of_hex_codes]. rewrite IH. f_equal. by destruct b.
Qed.

Lemma forallb_rev {A} (p : A -> bool) l : forallb p (rev l) = forallb p l.
Proof.
  induction l as [|x l IH]; simpl; [done|]. rewrite forallb_app, IH. simpl.
  destruct (p x), (forallb p l); done.
Qed.

Lemma drop_space_suffix l : exists k, l = k ++ drop_space l.
Proof.
  induction l as [|c l [k IH]]; [by exists []|]. simpl. destruct (is_py_space c).
  - exists (c :: k). simpl. by rewrite <- IH.
  - by exists [].
Qed.

Lemma drop_space_idem l : drop_space (drop_space l) = drop_space l.
Proof.
  induction l as [|c l IH]; simpl; [done|]. destruct (is_py_space c) eqn:E; [done|].
  simpl. by rewrite E.
Qed.

Lemma drop_space_id l : match l with c :: _ => is_py_space c = false | [] => True end ->
  drop_space l = l.
Proof. destruct l; simpl; [done|]. by intros ->. Qed.

Lemma drop_space_head l :
  match drop_space l with c :: _ => is_py_space c = false | [] => True end.
Proof.
  induction l as [|c l IH]; simpl; [done|]. destruct (is_py_space c) eqn:E; [done|]. done.
Qed.

(** Stripping twice is stripping once. *)
Lemma py_strip_idem s : py_strip (py_strip s) = py_strip s.
Proof.
  unfold py_strip. simpl. set (m := drop_space (codes s)).
  assert (Hh : match rev (drop_space (rev m)) with
               | c :: _ => is_py_space c = false | [] => True end).
  { destruct (drop_space_suffix (rev m)) as [k Hk].
    assert (Hm : m = rev (drop_space (rev m)) ++ rev k).
    { rewrite <- (rev_involutive m) at 1. rewrite Hk at 1. by rewrite rev_app_distr. }
    pose proof (drop_space_head (codes s)) as Hd. fold m in Hd.
    destruct (rev (drop_space (rev m))) as [|c r]; [done|].
    rewrite Hm in Hd. simpl in Hd. done. }
  rewrite (drop_space_id (rev (drop_space (rev m)))) by done.
  rewrite rev_involutive, drop_space_idem. done.
Qed.

Example strip_lit : py_strip "  a b " = "a b".
Proof. reflexivity. Qed.

Example json_lit : json_str (PyStr [97; 34; 98]%N) = PyStr [34; 97; 92; 34; 98; 34]%N.
Proof. reflexivity. Qed.

Example str_int_lit : py_str_int (-1050) = "-1050".
Proof. reflexivity. Qed.
