(* ===== verification/PyDict.v ===== *)
(** * Python dictionaries

    A [dict] keeps insertion order: assigning to an existing key keeps its
    position, a new key goes to the end, and deleting then re-inserting moves the
    key to the end.  The relay iterates over its dictionaries in that order (it
    decides which due request reaches a bounded table first), so they are
    association lists.  [nodup_keys] is the representation invariant. *)

From S2P Require Import Prelude.

Definition dict (K V : Type) : Type := list (K * V).

Section dict.
Context {K V : Type} `{EqDecision K}.
Implicit Types (d : dict K V) (k : K) (v : V).

(** [d.get(k)] *)
Fixpoint dget d k : option V :=
  match d with
  | [] => None
  | (k', v) :: d' => if bool_decide (k = k') then Some v else dget d' k
  end.

(** [d[k] = v] *)
Fixpoint dset d k v : dict K V :=
  match d with
  | [] => [(k, v)]
  | (k', v') :: d' => if bool_decide (k = k') then (k', v) :: d' else (k', v') :: dset d' k v
  end.

(** [d.pop(k, None)] *)
Fixpoint ddel d k : dict K V :=
  match d with
  | [] => []
  | (k', v') :: d' => if bool_decide (k = k') then d' else (k', v') :: ddel d' k
  end.

(** [k in d] *)
Definition dmem d k : bool := match dget d k with Some _ => true | None => false end.

Definition dkeys d : list K := map fst d.
Definition dvalues d : list V := map snd d.

(** [len(d)] *)
Definition dlen d : Z := zlen d.

(** [d.get(k, dflt)] *)
Definition dget_or d k (dflt : V) : V := default dflt (dget d k).

Definition nodup_keys d : Prop := NoDup (dkeys d).

Lemma dget_nil k : dget [] k = None.
Proof. done. Qed.

Lemma dget_dset d k k' v :
  dget (dset d k v) k' = if bool_decide (k' = k) then Some v else dget d k'.
Proof.
  induction d as [|[k0 v0] d IH]; simpl.
  - repeat case_bool_decide; congruence.
  - destruct (bool_decide (k = k0)) eqn:E; simpl.
    + bdestruct. subst k0. by repeat case_bool_decide.
    + rewrite IH. bdestruct. repeat case_bool_decide; subst; done.
Qed.

Lemma dget_dset_eq d k v : dget (dset d k v) k = Some v.
Proof. rewrite dget_dset. by case_bool_decide. Qed.

Lemma dget_dset_ne d k k' v : k' ≠ k -> dget (dset d k v) k' = dget d k'.
Proof. intros. rewrite dget_dset. by case_bool_decide. Qed.

Lemma dget_None d k : dget d k = None <-> k ∉ dkeys d.
Proof.
  induction d as [|[k0 v0] d IH]; simpl; [split; [intros _; apply not_elem_of_nil|done]|].
  rewrite not_elem_of_cons. case_bool_decide as Hk; [|rewrite IH; tauto].
  split; [done|]. by intros [? _].
Qed.

Lemma dget_is_Some d k : is_Some (dget d k) <-> k ∈ dkeys d.
Proof.
  rewrite <- not_eq_None_Some, dget_None. split; [|tauto].
  intros H. destruct (decide (k ∈ dkeys d)); [done|]. by destruct H.
Qed.

Lemma dmem_true d k : dmem d k = true <-> is_Some (dget d k).
Proof. unfold dmem. destruct (dget d k); split; intros H; [eauto|done|done|by destruct H]. Qed.

Lemma dmem_false d k : dmem d k = false <-> dget d k = None.
Proof. unfold dmem. by destruct (dget d k). Qed.

Lemma dget_elem_of d k v : dget d k = Some v -> (k, v) ∈ d.
Proof.
  induction d as [|[k0 v0] d IH]; simpl; [done|]. case_bool_decide; intros; simplify_eq.
  - left.
  - right. by apply IH.
Qed.

Lemma elem_of_dget d k v : nodup_keys d -> (k, v) ∈ d -> dget d k = Some v.
Proof.
  unfold nodup_keys. induction d as [|[k0 v0] d IH]; simpl; [by intros _ ?%not_elem_of_nil|].
  intros [Hk Hd]%NoDup_cons [?|Hin]%elem_of_cons; simplify_eq.
  - by rewrite bool_decide_eq_true_2.
  - case_bool_decide; subst; [|by apply IH]. destruct Hk.
    apply (list_elem_of_fmap_2 fst) in Hin. done.
Qed.

Lemma elem_of_dvalues d v : nodup_keys d -> v ∈ dvalues d <-> exists k, dget d k = Some v.
Proof.
  intros Hn. unfold dvalues. rewrite list_elem_of_fmap. split.
  - intros ([k v'] & -> & Hin). exists k. by apply elem_of_dget.
  - intros [k Hk]. exists (k, v). split; [done|]. by apply dget_elem_of.
Qed.

Lemma dkeys_dset d k v :
  dkeys (dset d k v) = if dmem d k then dkeys d else dkeys d ++ [k].
Proof.
  unfold dmem. induction d as [|[k0 v0] d IH]; simpl; [done|].
  case_bool_decide; simpl; [done|]. rewrite IH. by destruct (dget d k).
Qed.

Lemma nodup_dset d k v : nodup_keys d -> nodup_keys (dset d k v).
Proof.
  unfold nodup_keys. rewrite dkeys_dset. destruct (dmem d k) eqn:E; [done|].
  apply dmem_false in E. apply dget_None in E. intros H. apply NoDup_app.
  split; [done|]. split; [|apply NoDup_singleton].
  intros x Hx ->%list_elem_of_singleton. done.
Qed.

Lemma ddel_sublist d k : ddel d k `sublist_of` d.
Proof.
  induction d as [|[k0 v0] d IH]; simpl; [constructor|].
  case_bool_decide; [by apply sublist_cons|by apply sublist_skip].
Qed.

Lemma nodup_ddel d k : nodup_keys d -> nodup_keys (ddel d k).
Proof.
  unfold nodup_keys, dkeys. intros Hn. eapply sublist_NoDup; [exact Hn|].
  apply fmap_sublist. apply ddel_sublist.
Qed.

Lemma dget_ddel d k k' : nodup_keys d ->
  dget (ddel d k) k' = if bool_decide (k' = k) then None else dget d k'.
Proof.
  unfold nodup_keys. induction d as [|[k0 v0] d IH]; simpl.
  - intros _. by case_bool_decide.
  - intros [Hk Hd]%NoDup_cons. destruct (bool_decide (k = k0)) eqn:E.
    + bdestruct. subst k0. case_bool_decide; [|done]. subst. by apply dget_None.
    + simpl. rewrite IH by done. bdestruct. repeat case_bool_decide; subst; done.
Qed.

Lemma dget_ddel_eq d k : nodup_keys d -> dget (ddel d k) k = None.
Proof. intros. rewrite dget_ddel by done. by case_bool_decide. Qed.

Lemma dget_ddel_ne d k k' : nodup_keys d -> k' ≠ k -> dget (ddel d k) k' = dget d k'.
Proof. intros. rewrite dget_ddel by done. by case_bool_decide. Qed.

Lemma ddel_notin d k : dget d k = None -> ddel d k = d.
Proof.
  induction d as [|[k0 v0] d IH]; simpl; [done|]. case_bool_decide; [done|].
  intros. by rewrite IH.
Qed.

(** The order of the remaining values does not change. *)
Lemma dvalues_dset_fresh d k v : dget d k = None -> dvalues (dset d k v) = dvalues d ++ [v].
Proof.
  unfold dvalues. induction d as [|[k0 v0] d IH]; simpl; [done|].
  case_bool_decide; [done|]. simpl. intros. by rewrite IH.
Qed.

Lemma dset_fresh d k v : dget d k = None -> dset d k v = d ++ [(k, v)].
Proof.
  induction d as [|[k0 v0] d IH]; simpl; [done|].
  case_bool_decide; [done|]. simpl. intros. by rewrite IH.
Qed.

Lemma dlen_dset d k v : dlen (dset d k v) = if dmem d k then dlen d else dlen d + 1.
Proof.
  unfold dlen, zlen, dmem. induction d as [|[k0 v0] d IH]; simpl; [done|].
  case_bool_decide; simpl; [done|]. destruct (dget d k); lia.
Qed.

Lemma dlen_ddel d k : dlen (ddel d k) = if dmem d k then dlen d - 1 else dlen d.
Proof.
  unfold dlen, zlen, dmem. induction d as [|[k0 v0] d IH]; simpl; [done|].
  case_bool_decide; simpl; [lia|]. destruct (dget d k); lia.
Qed.

Lemma dlen_ddel_le d k : dlen (ddel d k) <= dlen d.
Proof. rewrite dlen_ddel. destruct (dmem d k); lia. Qed.

(** [sum(p(x) for x in d.values())] *)
Definition dcount (p : V -> bool) d : Z := bcount p (dvalues d).

Lemma dcount_le_dlen p d : dcount p d <= dlen d.
Proof.
  unfold dcount, dlen. etransitivity; [apply bcount_le_zlen|].
  unfold zlen, dvalues. rewrite length_map. done.
Qed.

Lemma dcount_nonneg p d : 0 <= dcount p d.
Proof. apply bcount_nonneg. Qed.

Lemma dcount_dset_fresh p d k v :
  dget d k = None -> dcount p (dset d k v) = dcount p d + if p v then 1 else 0.
Proof.
  intros. unfold dcount. rewrite dvalues_dset_fresh by done.
  rewrite bcount_app, bcount_cons, bcount_nil. lia.
Qed.

Lemma dcount_dset_old p d k v v' :
  dget d k = Some v -> p v' = p v -> dcount p (dset d k v') = dcount p d.
Proof.
  unfold dcount, dvalues. induction d as [|[k0 v0] d IH]; simpl; [done|].
  intros Hk Hp. case_bool_decide; simplify_eq; simpl; rewrite !bcount_cons.
  - by rewrite Hp.
  - by rewrite IH.
Qed.

Lemma dcount_dset_replace p d k v v' :
  dget d k = Some v ->
  dcount p (dset d k v') = dcount p d - (if p v then 1 else 0) + (if p v' then 1 else 0).
Proof.
  unfold dcount, dvalues. induction d as [|[k0 v0] d IH]; simpl; [done|].
  intros Hk. case_bool_decide; simplify_eq; simpl; rewrite !bcount_cons; [lia|].
  rewrite IH by done. lia.
Qed.

Lemma dcount_ddel p d k :
  dcount p (ddel d k) =
    dcount p d - match dget d k with Some v => if p v then 1 else 0 | None => 0 end.
Proof.
  unfold dcount, dvalues. induction d as [|[k0 v0] d IH]; simpl; [done|].
  case_bool_decide; simpl; rewrite !bcount_cons; [lia|]. rewrite IH.
  destruct (dget d k) as [v|]; [|lia]. destruct (p v), (p v0); lia.
Qed.

Lemma dcount_ddel_le p d k : dcount p (ddel d k) <= dcount p d.
Proof.
  rewrite dcount_ddel. destruct (dget d k) as [v|]; [|lia]. destruct (p v); lia.
Qed.

Lemma dcount_dset_le p d k v :
  dcount p (dset d k v) <= dcount p d + (if p v then 1 else 0).
Proof.
  unfold dcount, dvalues. induction d as [|[k0 v0] d IH]; simpl.
  - rewrite bcount_cons, bcount_nil. destruct (p v); lia.
  - case_bool_decide; simpl; rewrite !bcount_cons.
    + destruct (p v), (p v0); lia.
    + destruct (p v); lia.
Qed.

Lemma dlen_dset_le d k v : dlen (dset d k v) <= dlen d + 1.
Proof. rewrite dlen_dset. destruct (dmem d k); lia. Qed.

(** Filtering the values of a dictionary after one key left it. *)
Lemma dvalues_ddel_filter d k (p : V -> bool) v :
  nodup_keys d -> dget d k = Some v ->
  (forall k' v', dget d k' = Some v' -> p v' = negb (bool_decide (k' = k))) ->
  dvalues (ddel d k) = bfilter p (dvalues d).
Proof.
  unfold nodup_keys, dvalues, bfilter. induction d as [|[k0 v0] d IH]; [done|].
  cbn [dkeys map fst]. intros [Hk0 Hn]%NoDup_cons Hk Hp. cbn [dget ddel] in *.
  assert (Hp0 := Hp k0 v0). rewrite (bool_decide_eq_true_2 (k0 = k0)) in Hp0 by done.
  specialize (Hp0 eq_refl). cbn [map snd List.filter]. rewrite Hp0.
  assert (Hrest : forall k' v', dget d k' = Some v' -> p v' = negb (bool_decide (k' = k))).
  { intros k' v' Hk'. apply Hp. destruct (decide (k' = k0)) as [->|Hne].
    - apply dget_None in Hk0. congruence.
    - by rewrite bool_decide_eq_false_2. }
  destruct (bool_decide (k = k0)) eqn:E; bdestruct.
  - subst k0. rewrite bool_decide_eq_true_2 by done. cbn [negb]. symmetry.
    apply bfilter_id. intros x Hx. apply elem_of_dvalues in Hx as [k' Hk']; [|done].
    rewrite (Hrest _ _ Hk'). rewrite bool_decide_eq_false_2; [done|].
    intros ->. apply dget_None in Hk0. congruence.
  - rewrite bool_decide_eq_false_2 by congruence. simpl. f_equal. by apply IH.
Qed.

End dict.

(** ** Derived facts *)

Lemma is_Some_dset {K V} `{EqDecision K} (d : dict K V) k v k' :
  is_Some (dget (dset d k v) k') <-> k' = k \/ is_Some (dget d k').
Proof.
  rewrite dget_dset. case_bool_decide; [split; eauto|tauto].
Qed.

Lemma is_Some_ddel {K V} `{EqDecision K} (d : dict K V) k k' :
  nodup_keys d -> is_Some (dget (ddel d k) k') <-> k' ≠ k /\ is_Some (dget d k').
Proof.
  intros Hn. rewrite dget_ddel by done. case_bool_decide; [|tauto].
  split; [by intros []|tauto].
Qed.

Lemma dget_ddel_Some {K V} `{EqDecision K} (d : dict K V) k k' v :
  nodup_keys d -> dget (ddel d k) k' = Some v <-> k' ≠ k /\ dget d k' = Some v.
Proof.
  intros Hn. rewrite dget_ddel by done. case_bool_decide; [|tauto].
  split; [done|tauto].
Qed.

Lemma dget_ddel_None {K V} `{EqDecision K} (d : dict K V) k k' :
  nodup_keys d -> dget d k' = None -> dget (ddel d k) k' = None.
Proof. intros Hn Hk. rewrite dget_ddel by done. by case_bool_decide. Qed.

Lemma bfilter_bfilter_imp {A} (p1 p2 : A -> bool) l :
  (forall x, x ∈ l -> p1 x = true -> p2 x = true) ->
  bfilter p1 (bfilter p2 l) = bfilter p1 l.
Proof.
  unfold bfilter. induction l as [|x l IH]; intros Hp; simpl; [done|].
  assert (Hl : forall y, y ∈ l -> p1 y = true -> p2 y = true) by (intros; apply Hp; [by right|done]).
  destruct (p1 x) eqn:E1.
  - rewrite (Hp x) by (done || left). simpl. rewrite E1. by rewrite IH.
  - destruct (p2 x); simpl; rewrite ?E1; by apply IH.
Qed.

Lemma dget_or_nil_None {K V} `{EqDecision K} (d : dict K (list V)) k :
  dget d k ≠ Some [] -> dget_or d k [] = [] -> dget d k = None.
Proof. unfold dget_or. destruct (dget d k); simpl; [|done]. by intros ? ->. Qed.

Lemma nodup_bfilter {K V} (p : K * V -> bool) (d : dict K V) :
  nodup_keys d -> nodup_keys (bfilter p d).
Proof.
  unfold nodup_keys, dkeys, bfilter. induction d as [|[k v] d IH]; simpl; [done|].
  intros [Hk Hd]%NoDup_cons. destruct (p (k, v)); simpl; [|by apply IH].
  apply NoDup_cons. split; [|by apply IH]. contradict Hk.
  apply list_elem_of_fmap in Hk as ([k' v'] & -> & Hin). apply list_elem_of_fmap.
  exists (k', v'). split; [done|]. by apply elem_of_bfilter in Hin as [? _].
Qed.

Lemma dget_bfilter {K V} `{EqDecision K} (p : K * V -> bool) (d : dict K V) k :
  nodup_keys d ->
  dget (bfilter p d) k =
    match dget d k with Some v => if p (k, v) then Some v else None | None => None end.
Proof.
  unfold nodup_keys, bfilter. induction d as [|[k0 v0] d IH]; simpl; [done|].
  intros [Hk Hd]%NoDup_cons. specialize (IH Hd). destruct (p (k0, v0)) eqn:E; simpl.
  - case_bool_decide; subst; [by rewrite E|done].
  - case_bool_decide; [|done]. subst. rewrite E, IH.
    apply dget_None in Hk. by rewrite Hk.
Qed.

Lemma dget_bfilter_Some {K V} `{EqDecision K} (p : K * V -> bool) (d : dict K V) k v :
  nodup_keys d -> dget (bfilter p d) k = Some v <-> dget d k = Some v /\ p (k, v) = true.
Proof.
  intros Hn. rewrite dget_bfilter by done. destruct (dget d k) as [v'|]; [|split; [done|by intros []]].
  destruct (p (k, v')) eqn:E; split; intros Hv.
  - by simplify_eq.
  - by destruct Hv.
  - done.
  - destruct Hv as [[= ->] ?]. congruence.
Qed.

Lemma dlen_bfilter {K V} (p : K * V -> bool) (d : dict K V) : dlen (bfilter p d) <= dlen d.
Proof.
  unfold dlen, zlen, bfilter. induction d as [|x d IH]; simpl; [lia|].
  destruct (p x); simpl; lia.
Qed.

Lemma dcount_bfilter {K V} (q : V -> bool) (p : K * V -> bool) (d : dict K V) :
  dcount q (bfilter p d) <= dcount q d.
Proof.
  unfold dcount, dvalues, bfilter. induction d as [|x d IH]; simpl; [lia|].
  destruct (p x); simpl; rewrite !bcount_cons; destruct (q x.2); lia.
Qed.

Lemma zlen_bfilter {A} (p : A -> bool) l : zlen (bfilter p l) = bcount p l.
Proof. done. Qed.

Lemma dset_id {K V} `{EqDecision K} (d : dict K V) k v : dget d k = Some v -> dset d k v = d.
Proof.
  induction d as [|[k0 v0] d IH]; simpl; [done|].
  case_bool_decide; intros Hk; [by simplify_eq|by rewrite IH].
Qed.

Lemma dset_dset {K V} `{EqDecision K} (d : dict K V) k v w :
  dset (dset d k v) k w = dset d k w.
Proof.
  induction d as [|[k0 v0] d IH]; simpl; [by rewrite bool_decide_eq_true_2|].
  case_bool_decide as E; simpl.
  - by rewrite bool_decide_eq_true_2.
  - rewrite bool_decide_eq_false_2 by done. by rewrite IH.
Qed.

Lemma ddel_idem {K V} `{EqDecision K} (d : dict K V) k :
  nodup_keys d -> ddel (ddel d k) k = ddel d k.
Proof. intros Hn. apply ddel_notin. by apply dget_ddel_eq. Qed.

(** A comprehension that rewrites the values, key by key. *)
Lemma dkeys_map {K V W} (f : K -> V -> W) (d : dict K V) :
  dkeys (map (fun kv => (kv.1, f kv.1 kv.2)) d) = dkeys d.
Proof. unfold dkeys. rewrite map_map. done. Qed.

Lemma nodup_map {K V W} (f : K -> V -> W) (d : dict K V) :
  nodup_keys d -> nodup_keys (map (fun kv => (kv.1, f kv.1 kv.2)) d).
Proof. unfold nodup_keys. by rewrite dkeys_map. Qed.

Lemma dget_map {K V W} `{EqDecision K} (f : K -> V -> W) (d : dict K V) k :
  dget (map (fun kv => (kv.1, f kv.1 kv.2)) d) k = f k <$> dget d k.
Proof.
  induction d as [|[k0 v0] d IH]; simpl; [done|]. case_bool_decide; [by subst|done].
Qed.

(** The last insertion of a key wins. *)
Lemma dget_fold_dset {X K V} `{EqDecision K} (key : X -> K) (val : X -> V) (l : list X) acc x :
  x ∈ l -> (forall y, y ∈ l -> key y = key x -> val y = val x) ->
  dget (fold_left (fun d y => dset d (key y) (val y)) l acc) (key x) = Some (val x).
Proof.
  induction l as [|z l IH] using rev_ind; [by intros ?%not_elem_of_nil|].
  intros Hx Hv. rewrite fold_left_app. simpl. rewrite dget_dset. case_bool_decide as Hk.
  - f_equal. apply Hv; [|done]. apply elem_of_app. right. by apply list_elem_of_singleton.
  - apply IH.
    + apply elem_of_app in Hx as [?|Hx]; [done|]. apply list_elem_of_singleton in Hx. by subst.
    + intros y Hy. apply Hv. apply elem_of_app. by left.
Qed.

Lemma dlen_nonneg {K V} (d : dict K V) : 0 <= dlen d.
Proof. apply zlen_nonneg. Qed.

Lemma dlen_nil {K V} : dlen (K := K) (V := V) [] = 0.
Proof. done. Qed.

Lemma dcount_nil {K V} (p : V -> bool) : dcount (K := K) p [] = 0.
Proof. done. Qed.

Lemma dlen_cons {K V} (x : K * V) (d : dict K V) : dlen (x :: d) = 1 + dlen d.
Proof. apply zlen_cons. Qed.

Lemma dcount_cons {K V} (p : V -> bool) (x : K * V) (d : dict K V) :
  dcount p (x :: d) = (if p x.2 then 1 else 0) + dcount p d.
Proof. unfold dcount, dvalues. cbn [map]. by rewrite bcount_cons. Qed.

Lemma zlen_nil {A} : zlen ([] : list A) = 0.
Proof. done. Qed.

Lemma zlen_map {A B} (f : A -> B) l : zlen (map f l) = zlen l.
Proof. unfold zlen. by rewrite length_map. Qed.

#[global] Opaque bcount dlen dcount zlen.
Create HintDb dict_db.
#[export] Hint Resolve nodup_dset nodup_ddel : dict_db.

(** Looks up through [dset] and [ddel], splitting on key equality. *)
Ltac dict_simpl :=
  repeat match goal with
  | |- context [dget (dset _ _ _) _] => rewrite dget_dset
  | |- context [dget (ddel _ _) _] => rewrite dget_ddel by auto with dict_db
  | H : context [dget (dset _ _ _) _] |- _ => rewrite dget_dset in H
  | H : context [dget (ddel _ _) _] |- _ => rewrite dget_ddel in H by auto with dict_db
  end.

(** Membership tests as facts about lookups. *)
Ltac dmem_simpl :=
  repeat match goal with
  | H : dmem _ _ = true |- _ => apply dmem_true in H
  | H : dmem _ _ = false |- _ => apply dmem_false in H
  | H : orb (dmem _ _) _ = false |- _ => apply orb_false_iff in H; destruct H
  end.
