(* ===== verification/Sha256.v ===== *)
(** * hashlib: SHA-256 and HMAC-SHA-256

    The relay stores digests of identities, tokens and credentials only.
    [Crypto] is the interface the store is written against: two functions to
    lowercase hexadecimal text and the one fact about their output the store uses
    (64 hexadecimal digits, so [bytes.fromhex] and the digest checks succeed).
    [sha256_crypto] is the instance that computes the real functions. *)

From S2P Require Import Prelude PyFloat PyStr.

Class Crypto : Type := {
  sha256_hexdigest : list byte -> pystr;
  hmac_sha256_hexdigest : list byte -> list byte -> pystr;
  sha256_hexdigest_hex : forall m, is_sha256_hex (sha256_hexdigest m) = true;
  hmac_sha256_hexdigest_hex : forall k m, is_sha256_hex (hmac_sha256_hexdigest k m) = true
}.

(** ** 32-bit words *)
Definition w32 (x : Z) : Z := Z.land x 4294967295.

Definition rotr (n x : Z) : Z := Z.lor (Z.shiftr x n) (w32 (Z.shiftl x (32 - n))).

Definition sha_ch (x y z : Z) : Z := Z.lxor (Z.land x y) (Z.land (Z.lxor x 4294967295) z).
Definition sha_maj (x y z : Z) : Z :=
  Z.lxor (Z.lxor (Z.land x y) (Z.land x z)) (Z.land y z).
Definition sha_S0 (x : Z) : Z := Z.lxor (Z.lxor (rotr 2 x) (rotr 13 x)) (rotr 22 x).
Definition sha_S1 (x : Z) : Z := Z.lxor (Z.lxor (rotr 6 x) (rotr 11 x)) (rotr 25 x).
Definition sha_s0 (x : Z) : Z := Z.lxor (Z.lxor (rotr 7 x) (rotr 18 x)) (Z.shiftr x 3).
Definition sha_s1 (x : Z) : Z := Z.lxor (Z.lxor (rotr 17 x) (rotr 19 x)) (Z.shiftr x 10).

Definition sha_k : list Z :=
  [1116352408; 1899447441; 3049323471; 3921009573; 961987163; 1508970993; 2453635748; 2870763221;
   3624381080; 310598401; 607225278; 1426881987; 1925078388; 2162078206; 2614888103; 3248222580;
   3835390401; 4022224774; 264347078; 604807628; 770255983; 1249150122; 1555081692; 1996064986;
   2554220882; 2821834349; 2952996808; 3210313671; 3336571891; 3584528711; 113926993; 338241895;
   666307205; 773529912; 1294757372; 1396182291; 1695183700; 1986661051; 2177026350; 2456956037;
   2730485921; 2820302411; 3259730800; 3345764771; 3516065817; 3600352804; 4094571909; 275423344;
   430227734; 506948616; 659060556; 883997877; 958139571; 1322822218; 1537002063; 1747873779;
   1955562222; 2024104815; 2227730452; 2361852424; 2428436474; 2756734187; 3204031479; 3329325298].

(** The eight working variables. *)
Record sha_state := ShaState {
  sha_a : Z; sha_b : Z; sha_c : Z; sha_d : Z;
  sha_e : Z; sha_f : Z; sha_g : Z; sha_h : Z
}.

Definition sha_init : sha_state :=
  ShaState 1779033703 3144134277 1013904242 2773480762 1359893119 2600822924 528734635 1541459225.

Definition sha_round (st : sha_state) (kw : Z * Z) : sha_state :=
  let t1 := w32 (sha_h st + sha_S1 (sha_e st) + sha_ch (sha_e st) (sha_f st) (sha_g st)
                 + fst kw + snd kw) in
  let t2 := w32 (sha_S0 (sha_a st) + sha_maj (sha_a st) (sha_b st) (sha_c st)) in
  ShaState (w32 (t1 + t2)) (sha_a st) (sha_b st) (sha_c st)
           (w32 (sha_d st + t1)) (sha_e st) (sha_f st) (sha_g st).

(** The message schedule, newest word first: extended [n] times. *)
Fixpoint sha_extend (n : nat) (ws : list Z) : list Z :=
  match n with
  | O => ws
  | S n' =>
      let at_ i := nth i ws 0 in
      sha_extend n' (w32 (sha_s1 (at_ 1%nat) + at_ 6%nat + sha_s0 (at_ 14%nat) + at_ 15%nat) :: ws)
  end.

Definition sha_block (st : sha_state) (block : list Z) : sha_state :=
  let ws := rev (sha_extend 48 (rev block)) in
  let r := fold_left sha_round (combine sha_k ws) st in
  ShaState (w32 (sha_a st + sha_a r)) (w32 (sha_b st + sha_b r)) (w32 (sha_c st + sha_c r))
           (w32 (sha_d st + sha_d r)) (w32 (sha_e st + sha_e r)) (w32 (sha_f st + sha_f r))
           (w32 (sha_g st + sha_g r)) (w32 (sha_h st + sha_h r)).

Definition z_of_byte (b : byte) : Z := Z.of_N (Byte.to_N b).

(** Big-endian 32-bit words of a byte string whose length is a multiple of 4. *)
Fixpoint words_of_bytes (l : list byte) : list Z :=
  match l with
  | b0 :: b1 :: b2 :: b3 :: l' =>
      (Z.shiftl (z_of_byte b0) 24 + Z.shiftl (z_of_byte b1) 16
       + Z.shiftl (z_of_byte b2) 8 + z_of_byte b3) :: words_of_bytes l'
  | _ => []
  end.

(** One [1] bit, zeros up to 56 modulo 64 bytes, the bit length in 8 bytes. *)
Definition sha_pad (m : list byte) : list byte :=
  let n := Z.of_nat (length m) in
  m ++ x80 :: repeat x00 (Z.to_nat ((55 - n) mod 64)) ++ be_bytes 8 (8 * n).

Fixpoint sha_blocks (fuel : nat) (st : sha_state) (ws : list Z) : sha_state :=
  match fuel, ws with
  | S f, _ :: _ => sha_blocks f (sha_block st (firstn 16 ws)) (skipn 16 ws)
  | _, _ => st
  end.

Definition sha_state_bytes (st : sha_state) : list byte :=
  be_bytes 4 (sha_a st) ++ be_bytes 4 (sha_b st) ++ be_bytes 4 (sha_c st) ++ be_bytes 4 (sha_d st)
  ++ be_bytes 4 (sha_e st) ++ be_bytes 4 (sha_f st) ++ be_bytes 4 (sha_g st)
  ++ be_bytes 4 (sha_h st).

(** [hashlib.sha256(m).digest()]; one unit of fuel per padded word is enough. *)
Definition sha256_digest (m : list byte) : list byte :=
  let ws := words_of_bytes (sha_pad m) in
  sha_state_bytes (sha_blocks (length ws) sha_init ws).

Definition xor_bytes (c : Z) (l : list byte) : list byte :=
  map (fun b => byte_of_Z (Z.lxor (z_of_byte b) c)) l.

(** [hmac.new(key, m, hashlib.sha256).digest()] *)
Definition hmac_sha256_digest (key m : list byte) : list byte :=
  let key0 := if Nat.ltb 64 (length key) then sha256_digest key else key in
  let key1 := key0 ++ repeat x00 (64 - length key0) in
  sha256_digest (xor_bytes 92 key1 ++ sha256_digest (xor_bytes 54 key1 ++ m)).

Lemma length_sha_state_bytes st : length (sha_state_bytes st) = 32%nat.
Proof. unfold sha_state_bytes. rewrite !length_app, !length_be_bytes. done. Qed.

Lemma length_sha256_digest m : length (sha256_digest m) = 32%nat.
Proof. apply length_sha_state_bytes. Qed.

(** The padded message fills whole 64-byte blocks. *)
Lemma length_sha_pad m : Z.of_nat (length (sha_pad m)) mod 64 = 0.
Proof.
  unfold sha_pad. rewrite length_app. cbn [length].
  rewrite length_app, repeat_length, length_be_bytes.
  rewrite Nat2Z.inj_add, Nat2Z.inj_succ, Nat2Z.inj_add, Z2Nat.id
    by (apply Z.mod_pos_bound; lia).
  pose proof (Z.div_mod (55 - Z.of_nat (length m)) 64 ltac:(lia)) as Hd.
  replace (Z.of_nat (length m) + Z.succ ((55 - Z.of_nat (length m)) mod 64 + Z.of_nat 8))
    with (64 * (1 - (55 - Z.of_nat (length m)) / 64)) by lia.
  rewrite Z.mul_comm. apply Z.mod_mul. lia.
Qed.

Definition sha256_crypto : Crypto := {|
  sha256_hexdigest m := hex_of_bytes (sha256_digest m);
  hmac_sha256_hexdigest k m := hex_of_bytes (hmac_sha256_digest k m);
  sha256_hexdigest_hex m := hex_of_bytes_sha _ (length_sha256_digest m);
  hmac_sha256_hexdigest_hex k m := hex_of_bytes_sha _ (length_sha256_digest _)
|}.

(** FIPS 180-4 and RFC 4231 test vectors. *)
Example sha256_abc :
  hex_of_bytes (sha256_digest (b_lit "abc")) =
  "ba7816bf8f01cfea414140de5dae2223b00361a396177a9cb410ff61f20015ad".
Proof. vm_compute. reflexivity. Qed.

Example hmac_jefe :
  hex_of_bytes (hmac_sha256_digest (b_lit "Jefe") (b_lit "what do ya want for nothing?")) =
  "5bdcc146bf60754e6a042426089575c75a003f089d2739839dec58b964ec3843".
Proof. vm_compute. reflexivity. Qed.
