(* ===== verification/StoreTypes.v ===== *)
(** * relay_state_store.py: configuration, capabilities and records

    The frozen dataclasses of [src/relay_state_store.py].  A class whose
    [__post_init__] validates or normalises its arguments is a raw argument
    record of [pyval]s, the typed record and the [post_init] function between
    them; the typed records carry exactly the values the checks let through. *)

From S2P Require Import Prelude PyFloat PyStr PyDict.
From Stdlib Require Import Floats.SpecFloat.

(** ** Exceptions *)
Inductive store_error : Set :=
| RelayStateStoreError (msg : pystr)
| RelayStateCapacityExceeded (msg : pystr)
| RelayStateCredentialMismatch (msg : pystr)
| RelayStateConflict (msg : pystr)
| RelayStateNoCapacity (msg : pystr)
| RelayStateInvalidReservation (msg : pystr)
| OverflowError
| UnicodeEncodeError
| KeyError.

(** [except RelayStateCapacityExceeded] *)
Definition is_capacity_exceeded (e : store_error) : bool :=
  match e with RelayStateCapacityExceeded _ => true | _ => false end.

(** [except (RelayStateStoreError, UnicodeError)]: the base class and its subclasses. *)
Definition is_store_or_unicode_error (e : store_error) : bool :=
  match e with OverflowError | KeyError => false | _ => true end.

(** ** Numeric argument checks *)

(** [isinstance(v, bool) or not isinstance(v, (int, float)) or
    not math.isfinite(float(v))], then [float(v)]. *)
Definition finite_number (v : pyval) (e : store_error) : store_error + float64 :=
  match v with
  | PyInt z => match float_of_int z with Some f => inr f | None => inl OverflowError end
  | PyFloat f => if is_finite f then inr f else inl e
  | _ => inl e
  end.

Definition _validate_int_bound (value : pyval) (name : pystr) (maximum : Z) : store_error + Z :=
  match strict_int value with
  | Some z =>
      if (1 <=? z) && (z <=? maximum) then inr z
      else inl (RelayStateStoreError (name +++ " must be an integer between 1 and "
                                      +++ py_str_int maximum))
  | None => inl (RelayStateStoreError (name +++ " must be an integer between 1 and "
                                       +++ py_str_int maximum))
  end.

(** The message prints the bounds, so they come with their [repr]. *)
Definition _validate_float_bound (value : pyval) (name : pystr)
  (minimum maximum : float64) (min_repr max_repr : pystr) : store_error + float64 :=
  let e := RelayStateStoreError (name +++ " must be finite and between " +++ min_repr
                                 +++ " and " +++ max_repr) in
  let? f := finite_number value e in
  if fle minimum f && fle f maximum then inr f else inl e.

(** ** RelayStateStoreConfig

    One record type at two instances: the constructor's arguments
    ([pyval] everywhere) and the validated object. *)
Record ConfigOf (S I F : Set) : Set := MkConfig {
  namespace : S;
  schema_version : I;
  lease_ttl_seconds : F;
  max_compute_nodes : I;
  max_node_id_bytes : I;
  reservation_ttl_seconds : F;
  max_request_ttl_seconds : F;
  max_reservations : I;
  max_reservations_per_client : I;
  max_reservations_per_node : I;
  max_queue_depth_per_node : I;
  max_request_lifecycles : I;
  max_queued_requests : I;
  max_queued_requests_per_client : I;
  max_identity_bytes : I;
  max_model_id_bytes : I;
  max_scheduler_fingerprints : I;
  max_envelope_bytes : I;
  claim_ttl_seconds : F;
  max_claims : I;
  max_claims_per_node : I;
  max_consumer_identity_bytes : I;
  max_response_envelope_bytes : I;
  max_responses : I;
  max_responses_per_client : I;
  response_replay_ttl_seconds : F;
  max_terminal_records : I;
  max_terminal_records_per_client : I;
  terminal_retention_seconds : F;
  max_cancellation_token_bytes : I;
  control_tombstone_ttl_seconds : F;
  max_control_tombstones : I;
  max_control_tombstones_per_node : I;
  node_transition_batch_size : I;
  max_pending_node_transitions : I;
  max_node_tombstones : I;
  node_tombstone_ttl_seconds : F;
  max_removed_owner_fences : I
}.
Arguments MkConfig {S I F}.
Arguments namespace {S I F}.
Arguments schema_version {S I F}.
Arguments lease_ttl_seconds {S I F}.
Arguments max_compute_nodes {S I F}.
Arguments max_node_id_bytes {S I F}.
Arguments reservation_ttl_seconds {S I F}.
Arguments max_request_ttl_seconds {S I F}.
Arguments max_reservations {S I F}.
Arguments max_reservations_per_client {S I F}.
Arguments max_reservations_per_node {S I F}.
Arguments max_queue_depth_per_node {S I F}.
Arguments max_request_lifecycles {S I F}.
Arguments max_queued_requests {S I F}.
Arguments max_queued_requests_per_client {S I F}.
Arguments max_identity_bytes {S I F}.
Arguments max_model_id_bytes {S I F}.
Arguments max_scheduler_fingerprints {S I F}.
Arguments max_envelope_bytes {S I F}.
Arguments claim_ttl_seconds {S I F}.
Arguments max_claims {S I F}.
Arguments max_claims_per_node {S I F}.
Arguments max_consumer_identity_bytes {S I F}.
Arguments max_response_envelope_bytes {S I F}.
Arguments max_responses {S I F}.
Arguments max_responses_per_client {S I F}.
Arguments response_replay_ttl_seconds {S I F}.
Arguments max_terminal_records {S I F}.
Arguments max_terminal_records_per_client {S I F}.
Arguments terminal_retention_seconds {S I F}.
Arguments max_cancellation_token_bytes {S I F}.
Arguments control_tombstone_ttl_seconds {S I F}.
Arguments max_control_tombstones {S I F}.
Arguments max_control_tombstones_per_node {S I F}.
Arguments node_transition_batch_size {S I F}.
Arguments max_pending_node_transitions {S I F}.
Arguments max_node_tombstones {S I F}.
Arguments node_tombstone_ttl_seconds {S I F}.
Arguments max_removed_owner_fences {S I F}.

Definition ConfigArgs : Set := ConfigOf pyval pyval pyval.
Definition RelayStateStoreConfig : Set := ConfigOf pystr Z float64.

Definition RELAY_STATE_SCHEMA_VERSION : Z := 1.

(** The dataclass defaults; only [namespace] is required. *)
Definition default_config_args (ns : pyval) : ConfigArgs :=
  MkConfig ns (PyInt RELAY_STATE_SCHEMA_VERSION) (PyFloat f30) (PyInt 1024) (PyInt 8192)
    (PyFloat f15) (PyFloat f3600) (PyInt 4096) (PyInt 8) (PyInt 128) (PyInt 128) (PyInt 4096)
    (PyInt 4096) (PyInt 8) (PyInt 8192) (PyInt 128) (PyInt 4096) (PyInt 1048576) (PyFloat f30)
    (PyInt 4096) (PyInt 128) (PyInt 1024) (PyInt 1048576) (PyInt 4096) (PyInt 8) (PyFloat f300)
    (PyInt 4096) (PyInt 8) (PyFloat f3600) (PyInt 1024) (PyFloat f300) (PyInt 4096) (PyInt 128)
    (PyInt 64) (PyInt 1024) (PyInt 1024) (PyFloat f300) (PyInt 4096).

Definition is_ns_first (c : N) : bool :=
  ((N.leb 97 c && N.leb c 122) || (N.leb 48 c && N.leb c 57))%bool.
Definition is_ns_char (c : N) : bool :=
  (is_ns_first c || N.eqb c 46 || N.eqb c 95 || N.eqb c 45)%bool.

(** [_NAMESPACE_RE.fullmatch] *)
Definition namespace_matches (s : pystr) : bool :=
  match codes s with
  | c :: l => is_ns_first c && forallb is_ns_char l && (zlen l <=? 127)
  | [] => false
  end.

(** [__post_init__], check by check in the source's order. *)
Definition config_post_init (a : ConfigArgs) : store_error + RelayStateStoreConfig :=
  let? ns := match namespace a with
             | PyS s => if namespace_matches s then inr s
                        else inl (RelayStateStoreError
                               "namespace must be 1-128 lowercase routing-safe characters")
             | _ => inl (RelayStateStoreError
                      "namespace must be 1-128 lowercase routing-safe characters")
             end in
  let? sv := match strict_int (schema_version a) with
             | Some z => if z =? RELAY_STATE_SCHEMA_VERSION then inr z
                         else inl (RelayStateStoreError "unsupported relay state schema version")
             | None => inl (RelayStateStoreError "unsupported relay state schema version")
             end in
  let? lease := finite_number (lease_ttl_seconds a)
                  (RelayStateStoreError "lease TTL must be a finite positive number") in
  let? _ := eraise_if (fle lease f0)
              (RelayStateStoreError "lease TTL must be a finite positive number") in
  let? nodes := match strict_int (max_compute_nodes a) with
                | Some z => if (1 <=? z) && (z <=? 1000000) then inr z
                            else inl (RelayStateStoreError
                                   "compute-node bound must be between 1 and 1,000,000")
                | None => inl (RelayStateStoreError
                            "compute-node bound must be between 1 and 1,000,000")
                end in
  let? node_id := match strict_int (max_node_id_bytes a) with
                  | Some z => if (1 <=? z) && (z <=? 65536) then inr z
                              else inl (RelayStateStoreError
                                     "node-id bound must be between 1 and 65,536 bytes")
                  | None => inl (RelayStateStoreError
                              "node-id bound must be between 1 and 65,536 bytes")
                  end in
  let? res_ttl := _validate_float_bound (reservation_ttl_seconds a) "reservation TTL"
                    f0_001 f300 "0.001" "300.0" in
  let? req_ttl := _validate_float_bound (max_request_ttl_seconds a) "request TTL"
                    f0_001 f86400 "0.001" "86400.0" in
  let? claim_ttl := _validate_float_bound (claim_ttl_seconds a) "claim TTL"
                      f0_001 f3600 "0.001" "3600.0" in
  let? replay_ttl := _validate_float_bound (response_replay_ttl_seconds a)
                       "response replay TTL" f0_001 f86400 "0.001" "86400.0" in
  let? retention := _validate_float_bound (terminal_retention_seconds a)
                      "terminal retention" f0_001 f604800 "0.001" "604800.0" in
  let? tomb_ttl := _validate_float_bound (control_tombstone_ttl_seconds a)
                     "control tombstone TTL" f0_001 f300 "0.001" "300.0" in
  let? node_tomb_ttl := _validate_float_bound (node_tombstone_ttl_seconds a)
                          "node tombstone TTL" f0_001 f300 "0.001" "300.0" in
  let? _ := eraise_if (flt retention replay_ttl)
              (RelayStateStoreError "terminal retention must cover response replay retention") in
  let? _ := eraise_if (flt retention tomb_ttl)
              (RelayStateStoreError "terminal retention must cover control tombstone TTL") in
  let? reservations := _validate_int_bound (max_reservations a) "reservation bound" 1000000 in
  let? res_client := _validate_int_bound (max_reservations_per_client a)
                       "per-client reservation bound" 10000 in
  let? res_node := _validate_int_bound (max_reservations_per_node a)
                     "per-node reservation bound" 10000 in
  let? depth := _validate_int_bound (max_queue_depth_per_node a) "per-node queue bound" 1000000 in
  let? lifecycles := _validate_int_bound (max_request_lifecycles a)
                       "request lifecycle bound" 1000000 in
  let? queued := _validate_int_bound (max_queued_requests a) "global queue bound" 1000000 in
  let? queued_client := _validate_int_bound (max_queued_requests_per_client a)
                          "per-client queued-work bound" 10000 in
  let? identity := _validate_int_bound (max_identity_bytes a) "identity byte bound" 65536 in
  let? model := _validate_int_bound (max_model_id_bytes a) "model-id byte bound" 1024 in
  let? fingerprints := _validate_int_bound (max_scheduler_fingerprints a)
                         "scheduler fingerprint bound" 1000000 in
  let? envelope := _validate_int_bound (max_envelope_bytes a)
                     "encrypted-envelope byte bound" (64 * 1024 * 1024) in
  let? claims := _validate_int_bound (max_claims a) "claim bound" 1000000 in
  let? claims_node := _validate_int_bound (max_claims_per_node a) "per-node claim bound" 10000 in
  let? consumer := _validate_int_bound (max_consumer_identity_bytes a)
                     "consumer identity byte bound" 65536 in
  let? resp_env := _validate_int_bound (max_response_envelope_bytes a)
                     "response encrypted-envelope byte bound" (64 * 1024 * 1024) in
  let? responses := _validate_int_bound (max_responses a) "response bound" 1000000 in
  let? resp_client := _validate_int_bound (max_responses_per_client a)
                        "per-client response bound" 10000 in
  let? terminals := _validate_int_bound (max_terminal_records a) "terminal-record bound" 1000000 in
  let? cancel := _validate_int_bound (max_cancellation_token_bytes a)
                   "cancellation-token byte bound" 65536 in
  let? tombs := _validate_int_bound (max_control_tombstones a)
                  "control-tombstone bound" 1000000 in
  let? batch := _validate_int_bound (node_transition_batch_size a)
                  "node-transition batch bound" 10000 in
  let? pend := _validate_int_bound (max_pending_node_transitions a)
                 "pending node-transition bound" 1000000 in
  let? node_tombs := _validate_int_bound (max_node_tombstones a) "node-tombstone bound" 1000000 in
  let? fences := _validate_int_bound (max_removed_owner_fences a)
                   "removed-owner fence bound" 1000000 in
  let? tombs_node := _validate_int_bound (max_control_tombstones_per_node a)
                       "per-node control-tombstone bound" 10000 in
  let? terms_client := _validate_int_bound (max_terminal_records_per_client a)
                         "per-client terminal-record bound" 10000 in
  inr (MkConfig ns sv lease nodes node_id res_ttl req_ttl reservations res_client res_node depth
         lifecycles queued queued_client identity model fingerprints envelope claim_ttl claims
         claims_node consumer resp_env responses resp_client replay_ttl terminals terms_client
         retention cancel tomb_ttl tombs tombs_node batch pend node_tombs node_tomb_ttl fences).

(** ** Context tiers: the keys of [CONTEXT_TIER_TOKEN_BOUNDS] *)
Inductive context_tier : Set := tier_8k_fast | tier_64k_full.

#[export] Instance context_tier_eq_dec : EqDecision context_tier.
Proof. solve_decision. Defined.

Definition tier_name (t : context_tier) : pystr :=
  match t with tier_8k_fast => "8k-fast" | tier_64k_full => "64k-full" end.

(** [CONTEXT_TIER_TOKEN_BOUNDS[t]] *)
Definition tier_tokens (t : context_tier) : Z :=
  match t with tier_8k_fast => 8192 | tier_64k_full => 65536 end.

(** [s in CONTEXT_TIER_TOKEN_BOUNDS] *)
Definition parse_tier (s : pystr) : option context_tier :=
  if bool_decide (s = "8k-fast") then Some tier_8k_fast
  else if bool_decide (s = "64k-full") then Some tier_64k_full
  else None.

Definition ALLOWED_BACKEND_CLASSES : list pystr :=
  ["cpu"; "cuda"; "metal"; "vulkan"; "gpu"; "unknown"].

(** ** ComputeNodeCapabilities *)
Record CapabilityArgs : Set := MkCapabilityArgs {
  arg_supported_model_ids : pyval;
  arg_active_context_tier : pyval;
  arg_maximum_total_context_tokens : pyval;
  arg_default_output_token_reservation : pyval;
  arg_maximum_output_tokens : pyval;
  arg_max_concurrency : pyval;
  arg_backend_class : pyval;
  arg_api_version : pyval
}.

Record ComputeNodeCapabilities : Set := MkCapabilities {
  supported_model_ids : list pystr;
  active_context_tier : context_tier;
  maximum_total_context_tokens : Z;
  default_output_token_reservation : Z;
  maximum_output_tokens : Z;
  max_concurrency : Z;
  backend_class : pystr
}.

Section capabilities.
Context `{!PyUnicode}.

(** The loop over [self.supported_model_ids] with its [normalized] and [seen]. *)
Fixpoint normalize_model_ids (ids : list pyval) (normalized : list pystr)
  : store_error + list pystr :=
  match ids with
  | [] => inr normalized
  | PyS model_id :: ids' =>
      if py_empty (py_strip model_id) || (128 <? py_len (py_strip model_id))
      then inl (RelayStateStoreError
             "model IDs must be non-empty strings of at most 128 characters")
      else let value := py_lower (py_strip model_id) in
           normalize_model_ids ids'
             (if pystr_in value normalized then normalized else normalized ++ [value])
  | _ :: _ => inl (RelayStateStoreError
                "model IDs must be non-empty strings of at most 128 characters")
  end.

(** [value.strip().lower() if isinstance(value, str) else ""] *)
Definition normalized_text (v : pyval) : pystr :=
  match v with PyS s => py_lower (py_strip s) | _ => "" end.

Definition capabilities_post_init (a : CapabilityArgs) : store_error + ComputeNodeCapabilities :=
  let? _ := match arg_api_version a with
            | PyS s => eraise_if (negb (bool_decide (s = "v1")))
                         (RelayStateStoreError "capability API version must be v1")
            | _ => inl (RelayStateStoreError "capability API version must be v1")
            end in
  let? ids := match arg_supported_model_ids a with
              | PyTuple l => if (1 <=? zlen l) && (zlen l <=? 64) then inr l
                             else inl (RelayStateStoreError
                                    "supported model IDs must be a tuple containing 1-64 values")
              | _ => inl (RelayStateStoreError
                       "supported model IDs must be a tuple containing 1-64 values")
              end in
  let? models := normalize_model_ids ids [] in
  let? tier := match parse_tier (normalized_text (arg_active_context_tier a)) with
               | Some t => inr t
               | None => inl (RelayStateStoreError "unsupported active context tier")
               end in
  let? total := _validate_int_bound (arg_maximum_total_context_tokens a)
                  "maximum context tokens" 1000000 in
  let? _ := eraise_if (total <? tier_tokens tier)
              (RelayStateStoreError "maximum context tokens are below the active tier") in
  let? dflt := _validate_int_bound (arg_default_output_token_reservation a)
                 "default output reservation" 1000000 in
  let? out := _validate_int_bound (arg_maximum_output_tokens a)
                "maximum output tokens" 1000000 in
  let? _ := eraise_if (out <? dflt)
              (RelayStateStoreError "default output reservation exceeds maximum output tokens") in
  let? conc := _validate_int_bound (arg_max_concurrency a) "maximum concurrency" 128 in
  let backend := normalized_text (arg_backend_class a) in
  inr (MkCapabilities models tier total dflt out conc
         (if pystr_in backend ALLOWED_BACKEND_CLASSES then backend else "unknown")).

End capabilities.

(** ** Node records *)
Record ComputeNodeRegistration : Set := MkRegistration {
  node_id : pystr;
  capabilities : ComputeNodeCapabilities;
  control_credential_digest : pystr;
  registered_at_epoch : float64;
  lease_expires_at_epoch : float64
}.

Record SchedulerNodeState : Set := MkSchedulerNodeState {
  healthy : bool;
  draining : bool;
  claimed_work : Z
}.

Definition default_scheduler_state : SchedulerNodeState := MkSchedulerNodeState true false 0.

Definition scheduler_state_post_init (h d w : pyval) : store_error + SchedulerNodeState :=
  match h, d with
  | PyBool h', PyBool d' =>
      match strict_int w with
      | Some z => if (0 <=? z) && (z <=? 1000000) then inr (MkSchedulerNodeState h' d' z)
                  else inl (RelayStateStoreError
                         "claimed work must be an integer between 0 and 1,000,000")
      | None => inl (RelayStateStoreError
                  "claimed work must be an integer between 0 and 1,000,000")
      end
  | _, _ => inl (RelayStateStoreError "scheduler health flags must be booleans")
  end.

(** ** Encrypted envelopes

    [version] must compare equal to 1 without being a [bool]: the integer [1] or
    the float [1.0], which print differently and compare equal. *)
Inductive version_one : Set := version_int | version_float.

Definition parse_version (v : pyval) : option version_one :=
  match v with
  | PyInt z => if z =? 1 then Some version_int else None
  | PyFloat f => if feq f f1 then Some version_float else None
  | _ => None
  end.

Definition version_repr (v : version_one) : pystr :=
  match v with version_int => "1" | version_float => "1.0" end.

Record EncryptedEnvelope : Set := MkEnvelope {
  env_protocol : pystr;
  env_version : version_one;
  env_ciphertext : pystr;
  env_cipherkey : pystr;
  env_iv : pystr
}.

(** Request and response envelopes are two classes with the same fields and checks. *)
Record EncryptedRequestEnvelope : Set := RequestEnvelope { request_env : EncryptedEnvelope }.
Record EncryptedResponseEnvelope : Set := ResponseEnvelope { response_env : EncryptedEnvelope }.

Definition e2ee_protocol : pystr := "tokenplace_api_v1_relay_e2ee".

Definition nonempty_str (v : pyval) : option pystr :=
  match v with PyS s => if py_empty s then None else Some s | _ => None end.

Definition envelope_post_init (protocol_msg version_msg values_msg : pystr)
  (protocol version ciphertext cipherkey iv : pyval) : store_error + EncryptedEnvelope :=
  match protocol with
  | PyS p =>
      if bool_decide (p = e2ee_protocol) then
        match parse_version version with
        | Some v =>
            match nonempty_str ciphertext, nonempty_str cipherkey, nonempty_str iv with
            | Some c, Some k, Some i => inr (MkEnvelope p v c k i)
            | _, _, _ => inl (RelayStateStoreError values_msg)
            end
        | None => inl (RelayStateStoreError version_msg)
        end
      else inl (RelayStateStoreError protocol_msg)
  | _ => inl (RelayStateStoreError protocol_msg)
  end.

Definition request_envelope_post_init (protocol version ciphertext cipherkey iv : pyval)
  : store_error + EncryptedRequestEnvelope :=
  let? e := envelope_post_init "unsupported encrypted-envelope protocol"
              "unsupported encrypted-envelope version"
              "encrypted-envelope values must be non-empty strings"
              protocol version ciphertext cipherkey iv in
  inr (RequestEnvelope e).

Definition response_envelope_post_init (protocol version ciphertext cipherkey iv : pyval)
  : store_error + EncryptedResponseEnvelope :=
  let? e := envelope_post_init "unsupported encrypted response protocol"
              "unsupported encrypted response version"
              "encrypted response values must be non-empty strings"
              protocol version ciphertext cipherkey iv in
  inr (ResponseEnvelope e).

(** Dataclass [==]: the two representations of version one are equal. *)
Definition envelope_eqb (a b : EncryptedRequestEnvelope) : bool :=
  let a := request_env a in
  let b := request_env b in
  bool_decide (env_protocol a = env_protocol b)
  && bool_decide (env_ciphertext a = env_ciphertext b)
  && bool_decide (env_cipherkey a = env_cipherkey b)
  && bool_decide (env_iv a = env_iv b).

(** ** Request lifecycle records *)

(** [(client_identity_digest, request_identity_digest)] *)
Definition identity : Set := pystr * pystr.

Record ReservationRecord : Set := MkReservation {
  res_client_identity_digest : pystr;
  res_request_identity_digest : pystr;
  res_scheduler_fingerprint : pystr;
  res_selected_node_id : pystr;
  res_requested_model_id : pystr;
  res_requested_context_tier : context_tier;
  res_request_deadline_epoch : float64;
  res_reservation_expires_at_epoch : float64;
  res_token_digest : pystr
}.

Record SelectionResult : Set := MkSelectionResult {
  sel_selected_node_id : pystr;
  sel_requested_model_id : pystr;
  sel_requested_context_tier : context_tier;
  sel_request_deadline_epoch : float64;
  sel_reservation_expires_at_epoch : option float64;
  sel_reservation_token : option pystr;
  sel_created : bool;
  sel_state : pystr
}.

Record QueuedRequest : Set := MkQueued {
  q_client_identity_digest : pystr;
  q_request_identity_digest : pystr;
  q_client_public_key : pystr;
  q_request_id : pystr;
  q_selected_node_id : pystr;
  q_requested_model_id : pystr;
  q_requested_context_tier : context_tier;
  q_request_deadline_epoch : float64;
  q_envelope : EncryptedRequestEnvelope;
  q_enqueued_at_epoch : float64;
  q_sequence : Z
}.

(** Element comparison inside a dataclass [==]: identical, or [==]. *)
Definition float_item_eqb (x y : float64) : bool := bool_decide (x = y) || feq x y.

Definition queued_eqb (a b : QueuedRequest) : bool :=
  bool_decide (q_client_identity_digest a = q_client_identity_digest b)
  && bool_decide (q_request_identity_digest a = q_request_identity_digest b)
  && bool_decide (q_client_public_key a = q_client_public_key b)
  && bool_decide (q_request_id a = q_request_id b)
  && bool_decide (q_selected_node_id a = q_selected_node_id b)
  && bool_decide (q_requested_model_id a = q_requested_model_id b)
  && bool_decide (q_requested_context_tier a = q_requested_context_tier b)
  && float_item_eqb (q_request_deadline_epoch a) (q_request_deadline_epoch b)
  && envelope_eqb (q_envelope a) (q_envelope b)
  && float_item_eqb (q_enqueued_at_epoch a) (q_enqueued_at_epoch b)
  && (q_sequence a =? q_sequence b).

Record ControlTombstoneRecord : Set := MkControlTombstone {
  ct_client_identity_digest : pystr;
  ct_request_identity_digest : pystr;
  ct_selected_node_id : pystr;
  ct_control_credential_digest : pystr;
  ct_consumer_identity_digest : pystr;
  ct_generation : Z;
  ct_status : pystr;
  ct_reason : pystr;
  ct_request_deadline_epoch : float64;
  ct_acknowledged : bool;
  ct_expires_at_epoch : float64
}.

Record NodeTombstoneRecord : Set := MkNodeTombstone {
  nt_node_identity_digest : pystr;
  nt_control_credential_digest : pystr;
  nt_cause : pystr;
  nt_status : pystr;
  nt_transition_epoch : float64;
  nt_completed : bool;
  nt_expires_at_epoch : float64
}.

Record NodeTransitionResult : Set := MkNodeTransitionResult {
  ntr_state : pystr;
  ntr_cause : pystr;
  ntr_transition_epoch : option float64;
  ntr_processed_count : Z;
  ntr_reservations_terminalized : Z;
  ntr_queued_terminalized : Z;
  ntr_claims_terminalized : Z;
  ntr_new_outcomes : Z;
  ntr_continuation_required : bool
}.

Record PendingNodeTransition : Set := MkPending {
  pt_node_id : pystr;
  pt_node_identity_digest : pystr;
  pt_control_credential_digest : pystr;
  pt_cause : pystr;
  pt_status : pystr;
  pt_reason : pystr;
  pt_transition_epoch : float64
}.

Record FormerNodeAuthority : Set := MkFormerAuthority {
  fa_control_credential_digest : pystr;
  fa_cause : pystr;
  fa_status : pystr;
  fa_transition_epoch : float64;
  fa_expires_at_epoch : float64
}.

Record TerminalTransitionResult : Set := MkTerminalTransitionResult {
  ttr_state : pystr;
  ttr_reason : pystr;
  ttr_new_outcome : bool
}.

Record EnqueueResult : Set := MkEnqueueResult {
  enq_state : pystr;
  enq_selected_node_id : pystr;
  enq_request_deadline_epoch : float64;
  enq_sequence : Z;
  enq_created : bool
}.

Record ClaimRecord : Set := MkClaim {
  cl_client_identity_digest : pystr;
  cl_request_identity_digest : pystr;
  cl_consumer_identity_digest : pystr;
  cl_selected_node_id : pystr;
  cl_control_credential_digest : pystr;
  cl_request_deadline_epoch : float64;
  cl_envelope : EncryptedRequestEnvelope;
  cl_sequence : Z;
  cl_generation : Z;
  cl_lease_expires_at_epoch : float64
}.

Record ClaimResult : Set := MkClaimResult {
  clr_state : pystr;
  clr_generation : option Z;
  clr_lease_expires_at_epoch : option float64;
  clr_request_deadline_epoch : option float64;
  clr_client_public_key : option pystr;
  clr_request_id : option pystr;
  clr_envelope : option EncryptedRequestEnvelope
}.

Record ClaimRenewalResult : Set := MkClaimRenewalResult {
  crr_state : pystr;
  crr_generation : option Z;
  crr_lease_expires_at_epoch : option float64;
  crr_reason : option pystr;
  crr_acknowledged : bool
}.

Record ResponseRecord : Set := MkResponse {
  rsp_client_identity_digest : pystr;
  rsp_request_identity_digest : pystr;
  rsp_client_public_key : pystr;
  rsp_request_id : pystr;
  rsp_selected_node_id : pystr;
  rsp_consumer_identity_digest : pystr;
  rsp_generation : Z;
  rsp_envelope : EncryptedResponseEnvelope;
  rsp_accepted_at_epoch : float64;
  rsp_response_digest : pystr;
  rsp_replay_expires_at_epoch : float64;
  rsp_status : pystr
}.

Record TerminalOutcomeRecord : Set := MkTerminal {
  t_client_identity_digest : pystr;
  t_request_identity_digest : pystr;
  t_selected_node_id : pystr;
  t_control_credential_digest : pystr;
  t_consumer_identity_digest : pystr;
  t_generation : Z;
  t_response_digest : pystr;
  t_accepted_at_epoch : float64;
  t_replay_expires_at_epoch : float64;
  t_expires_at_epoch : float64;
  t_outcome : pystr;
  t_retrieval_state : pystr;
  t_retrieval_credential_digest : pystr;
  t_acknowledgement_digest : pystr;
  t_reason : pystr;
  t_cancellation_token_digest : pystr
}.

Record ResponseAcceptanceResult : Set := MkAcceptance {
  acc_state : pystr;
  acc_generation : Z;
  acc_accepted_at_epoch : float64;
  acc_replay_expires_at_epoch : float64;
  acc_new_outcome : bool
}.

Record ResponseRetrievalResult : Set := MkRetrieval {
  ret_state : pystr;
  ret_envelope : option EncryptedResponseEnvelope;
  ret_acknowledgement_token : option pystr;
  ret_replay_expires_at_epoch : option float64
}.

(** [replace(registration, capabilities=..., lease_expires_at_epoch=...)] and the
    other [dataclasses.replace] calls of the source. *)
Definition renewed_registration (r : ComputeNodeRegistration) (caps : ComputeNodeCapabilities)
  (lease : float64) : ComputeNodeRegistration :=
  MkRegistration (node_id r) caps (control_credential_digest r) (registered_at_epoch r) lease.

Definition claim_with_lease (c : ClaimRecord) (lease : float64) : ClaimRecord :=
  MkClaim (cl_client_identity_digest c) (cl_request_identity_digest c)
    (cl_consumer_identity_digest c) (cl_selected_node_id c) (cl_control_credential_digest c)
    (cl_request_deadline_epoch c) (cl_envelope c) (cl_sequence c) (cl_generation c) lease.

Definition tombstone_acknowledged (t : ControlTombstoneRecord) : ControlTombstoneRecord :=
  MkControlTombstone (ct_client_identity_digest t) (ct_request_identity_digest t)
    (ct_selected_node_id t) (ct_control_credential_digest t) (ct_consumer_identity_digest t)
    (ct_generation t) (ct_status t) (ct_reason t) (ct_request_deadline_epoch t) true
    (ct_expires_at_epoch t).

Definition node_tombstone_completed (t : NodeTombstoneRecord) : NodeTombstoneRecord :=
  MkNodeTombstone (nt_node_identity_digest t) (nt_control_credential_digest t) (nt_cause t)
    (nt_status t) (nt_transition_epoch t) true (nt_expires_at_epoch t).

Definition authority_with_expiry (a : FormerNodeAuthority) (e : float64) : FormerNodeAuthority :=
  MkFormerAuthority (fa_control_credential_digest a) (fa_cause a) (fa_status a)
    (fa_transition_epoch a) e.

Definition terminal_with_retrieval_state (t : TerminalOutcomeRecord) (st : pystr)
  : TerminalOutcomeRecord :=
  MkTerminal (t_client_identity_digest t) (t_request_identity_digest t) (t_selected_node_id t)
    (t_control_credential_digest t) (t_consumer_identity_digest t) (t_generation t)
    (t_response_digest t) (t_accepted_at_epoch t) (t_replay_expires_at_epoch t)
    (t_expires_at_epoch t) (t_outcome t) st (t_retrieval_credential_digest t)
    (t_acknowledgement_digest t) (t_reason t) (t_cancellation_token_digest t).
