(* ===== verification/StoreState.v ===== *)
(** * InMemoryRelayStateStore: state and digests

    The attributes of the store object, one update function per attribute, and
    the methods that turn a caller's strings into validated values and digests.
    None of these methods touches the state; the lock is the atomicity of each
    operation, so an operation is one function of the state. *)

From S2P Require Import Prelude PyFloat PyStr PyDict Sha256 StoreTypes.
From Stdlib Require Import Floats.SpecFloat.

#[projections(primitive)] Record store : Type := MkStore {
  _records : dict pystr ComputeNodeRegistration;
  _scheduler_states : dict pystr SchedulerNodeState;
  _registration_order : dict pystr Z;
  _next_registration_order : Z;
  _reservations : dict identity ReservationRecord;
  _queued : dict identity QueuedRequest;
  _queued_token_digests : dict identity pystr;
  _cancellation_token_digests : dict identity pystr;
  _node_queues : dict pystr (list QueuedRequest);
  _claims : dict identity ClaimRecord;
  _responses : dict identity ResponseRecord;
  _terminals : dict identity TerminalOutcomeRecord;
  _control_tombstones : dict identity ControlTombstoneRecord;
  _node_tombstones : dict pystr NodeTombstoneRecord;
  _pending_node_transitions : dict pystr PendingNodeTransition;
  _former_node_authorities : dict pystr (dict pystr FormerNodeAuthority);
  _node_work_identities : dict pystr (dict identity unit);
  _deferred_deadline_identities : list identity;
  _next_claim_generation : Z;
  _fairness_cursors : dict pystr (pystr * Z);
  _fairness_activity : Z;
  _next_queue_sequence : Z
}.

Definition set_records (v : dict pystr ComputeNodeRegistration) (s : store) : store :=
  MkStore v (_scheduler_states s) (_registration_order s) (_next_registration_order s)
    (_reservations s) (_queued s) (_queued_token_digests s) (_cancellation_token_digests s)
    (_node_queues s) (_claims s) (_responses s) (_terminals s) (_control_tombstones s)
    (_node_tombstones s) (_pending_node_transitions s) (_former_node_authorities s)
    (_node_work_identities s) (_deferred_deadline_identities s) (_next_claim_generation s)
    (_fairness_cursors s) (_fairness_activity s) (_next_queue_sequence s).

Definition set_scheduler_states (v : dict pystr SchedulerNodeState) (s : store) : store :=
  MkStore (_records s) v (_registration_order s) (_next_registration_order s) (_reservations s)
    (_queued s) (_queued_token_digests s) (_cancellation_token_digests s) (_node_queues s)
    (_claims s) (_responses s) (_terminals s) (_control_tombstones s) (_node_tombstones s)
    (_pending_node_transitions s) (_former_node_authorities s) (_node_work_identities s)
    (_deferred_deadline_identities s) (_next_claim_generation s) (_fairness_cursors s)
    (_fairness_activity s) (_next_queue_sequence s).

Definition set_registration_order (v : dict pystr Z) (s : store) : store :=
  MkStore (_records s) (_scheduler_states s) v (_next_registration_order s) (_reservations s)
    (_queued s) (_queued_token_digests s) (_cancellation_token_digests s) (_node_queues s)
    (_claims s) (_responses s) (_terminals s) (_control_tombstones s) (_node_tombstones s)
    (_pending_node_transitions s) (_former_node_authorities s) (_node_work_identities s)
    (_deferred_deadline_identities s) (_next_claim_generation s) (_fairness_cursors s)
    (_fairness_activity s) (_next_queue_sequence s).

Definition set_next_registration_order (v : Z) (s : store) : store :=
  MkStore (_records s) (_scheduler_states s) (_registration_order s) v (_reservations s)
    (_queued s) (_queued_token_digests s) (_cancellation_token_digests s) (_node_queues s)
    (_claims s) (_responses s) (_terminals s) (_control_tombstones s) (_node_tombstones s)
    (_pending_node_transitions s) (_former_node_authorities s) (_node_work_identities s)
    (_deferred_deadline_identities s) (_next_claim_generation s) (_fairness_cursors s)
    (_fairness_activity s) (_next_queue_sequence s).

Definition set_reservations (v : dict identity ReservationRecord) (s : store) : store :=
  MkStore (_records s) (_scheduler_states s) (_registration_order s)
    (_next_registration_order s) v (_queued s) (_queued_token_digests s)
    (_cancellation_token_digests s) (_node_queues s) (_claims s) (_responses s) (_terminals s)
    (_control_tombstones s) (_node_tombstones s) (_pending_node_transitions s)
    (_former_node_authorities s) (_node_work_identities s) (_deferred_deadline_identities s)
    (_next_claim_generation s) (_fairness_cursors s) (_fairness_activity s)
    (_next_queue_sequence s).

Definition set_queued (v : dict identity QueuedRequest) (s : store) : store :=
  MkStore (_records s) (_scheduler_states s) (_registration_order s)
    (_next_registration_order s) (_reservations s) v (_queued_token_digests s)
    (_cancellation_token_digests s) (_node_queues s) (_claims s) (_responses s) (_terminals s)
    (_control_tombstones s) (_node_tombstones s) (_pending_node_transitions s)
    (_former_node_authorities s) (_node_work_identities s) (_deferred_deadline_identities s)
    (_next_claim_generation s) (_fairness_cursors s) (_fairness_activity s)
    (_next_queue_sequence s).

Definition set_queued_token_digests (v : dict identity pystr) (s : store) : store :=
  MkStore (_records s) (_scheduler_states s) (_registration_order s)
    (_next_registration_order s) (_reservations s) (_queued s) v (_cancellation_token_digests s)
    (_node_queues s) (_claims s) (_responses s) (_terminals s) (_control_tombstones s)
    (_node_tombstones s) (_pending_node_transitions s) (_former_node_authorities s)
    (_node_work_identities s) (_deferred_deadline_identities s) (_next_claim_generation s)
    (_fairness_cursors s) (_fairness_activity s) (_next_queue_sequence s).

Definition set_cancellation_token_digests (v : dict identity pystr) (s : store) : store :=
  MkStore (_records s) (_scheduler_states s) (_registration_order s)
    (_next_registration_order s) (_reservations s) (_queued s) (_queued_token_digests s) v
    (_node_queues s) (_claims s) (_responses s) (_terminals s) (_control_tombstones s)
    (_node_tombstones s) (_pending_node_transitions s) (_former_node_authorities s)
    (_node_work_identities s) (_deferred_deadline_identities s) (_next_claim_generation s)
    (_fairness_cursors s) (_fairness_activity s) (_next_queue_sequence s).

Definition set_node_queues (v : dict pystr (list QueuedRequest)) (s : store) : store :=
  MkStore (_records s) (_scheduler_states s) (_registration_order s)
    (_next_registration_order s) (_reservations s) (_queued s) (_queued_token_digests s)
    (_cancellation_token_digests s) v (_claims s) (_responses s) (_terminals s)
    (_control_tombstones s) (_node_tombstones s) (_pending_node_transitions s)
    (_former_node_authorities s) (_node_work_identities s) (_deferred_deadline_identities s)
    (_next_claim_generation s) (_fairness_cursors s) (_fairness_activity s)
    (_next_queue_sequence s).

Definition set_claims (v : dict identity ClaimRecord) (s : store) : store :=
  MkStore (_records s) (_scheduler_states s) (_registration_order s)
    (_next_registration_order s) (_reservations s) (_queued s) (_queued_token_digests s)
    (_cancellation_token_digests s) (_node_queues s) v (_responses s) (_terminals s)
    (_control_tombstones s) (_node_tombstones s) (_pending_node_transitions s)
    (_former_node_authorities s) (_node_work_identities s) (_deferred_deadline_identities s)
    (_next_claim_generation s) (_fairness_cursors s) (_fairness_activity s)
    (_next_queue_sequence s).

Definition set_responses (v : dict identity ResponseRecord) (s : store) : store :=
  MkStore (_records s) (_scheduler_states s) (_registration_order s)
    (_next_registration_order s) (_reservations s) (_queued s) (_queued_token_digests s)
    (_cancellation_token_digests s) (_node_queues s) (_claims s) v (_terminals s)
    (_control_tombstones s) (_node_tombstones s) (_pending_node_transitions s)
    (_former_node_authorities s) (_node_work_identities s) (_deferred_deadline_identities s)
    (_next_claim_generation s) (_fairness_cursors s) (_fairness_activity s)
    (_next_queue_sequence s).

Definition set_terminals (v : dict identity TerminalOutcomeRecord) (s : store) : store :=
  MkStore (_records s) (_scheduler_states s) (_registration_order s)
    (_next_registration_order s) (_reservations s) (_queued s) (_queued_token_digests s)
    (_cancellation_token_digests s) (_node_queues s) (_claims s) (_responses s) v
    (_control_tombstones s) (_node_tombstones s) (_pending_node_transitions s)
    (_former_node_authorities s) (_node_work_identities s) (_deferred_deadline_identities s)
    (_next_claim_generation s) (_fairness_cursors s) (_fairness_activity s)
    (_next_queue_sequence s).

Definition set_control_tombstones (v : dict identity ControlTombstoneRecord) (s : store) : store :=
  MkStore (_records s) (_scheduler_states s) (_registration_order s)
    (_next_registration_order s) (_reservations s) (_queued s) (_queued_token_digests s)
    (_cancellation_token_digests s) (_node_queues s) (_claims s) (_responses s) (_terminals s) v
    (_node_tombstones s) (_pending_node_transitions s) (_former_node_authorities s)
    (_node_work_identities s) (_deferred_deadline_identities s) (_next_claim_generation s)
    (_fairness_cursors s) (_fairness_activity s) (_next_queue_sequence s).

Definition set_node_tombstones (v : dict pystr NodeTombstoneRecord) (s : store) : store :=
  MkStore (_records s) (_scheduler_states s) (_registration_order s)
    (_next_registration_order s) (_reservations s) (_queued s) (_queued_token_digests s)
    (_cancellation_token_digests s) (_node_queues s) (_claims s) (_responses s) (_terminals s)
    (_control_tombstones s) v (_pending_node_transitions s) (_former_node_authorities s)
    (_node_work_identities s) (_deferred_deadline_identities s) (_next_claim_generation s)
    (_fairness_cursors s) (_fairness_activity s) (_next_queue_sequence s).

Definition set_pending_node_transitions (v : dict pystr PendingNodeTransition) (s : store) : store :=
  MkStore (_records s) (_scheduler_states s) (_registration_order s)
    (_next_registration_order s) (_reservations s) (_queued s) (_queued_token_digests s)
    (_cancellation_token_digests s) (_node_queues s) (_claims s) (_responses s) (_terminals s)
    (_control_tombstones s) (_node_tombstones s) v (_former_node_authorities s)
    (_node_work_identities s) (_deferred_deadline_identities s) (_next_claim_generation s)
    (_fairness_cursors s) (_fairness_activity s) (_next_queue_sequence s).

Definition set_former_node_authorities (v : dict pystr (dict pystr FormerNodeAuthority)) (s : store) : store :=
  MkStore (_records s) (_scheduler_states s) (_registration_order s)
    (_next_registration_order s) (_reservations s) (_queued s) (_queued_token_digests s)
    (_cancellation_token_digests s) (_node_queues s) (_claims s) (_responses s) (_terminals s)
    (_control_tombstones s) (_node_tombstones s) (_pending_node_transitions s) v
    (_node_work_identities s) (_deferred_deadline_identities s) (_next_claim_generation s)
    (_fairness_cursors s) (_fairness_activity s) (_next_queue_sequence s).

Definition set_node_work_identities (v : dict pystr (dict identity unit)) (s : store) : store :=
  MkStore (_records s) (_scheduler_states s) (_registration_order s)
    (_next_registration_order s) (_reservations s) (_queued s) (_queued_token_digests s)
    (_cancellation_token_digests s) (_node_queues s) (_claims s) (_responses s) (_terminals s)
    (_control_tombstones s) (_node_tombstones s) (_pending_node_transitions s)
    (_former_node_authorities s) v (_deferred_deadline_identities s) (_next_claim_generation s)
    (_fairness_cursors s) (_fairness_activity s) (_next_queue_sequence s).

Definition set_deferred_deadline_identities (v : list identity) (s : store) : store :=
  MkStore (_records s) (_scheduler_states s) (_registration_order s)
    (_next_registration_order s) (_reservations s) (_queued s) (_queued_token_digests s)
    (_cancellation_token_digests s) (_node_queues s) (_claims s) (_responses s) (_terminals s)
    (_control_tombstones s) (_node_tombstones s) (_pending_node_transitions s)
    (_former_node_authorities s) (_node_work_identities s) v (_next_claim_generation s)
    (_fairness_cursors s) (_fairness_activity s) (_next_queue_sequence s).

Definition set_next_claim_generation (v : Z) (s : store) : store :=
  MkStore (_records s) (_scheduler_states s) (_registration_order s)
    (_next_registration_order s) (_reservations s) (_queued s) (_queued_token_digests s)
    (_cancellation_token_digests s) (_node_queues s) (_claims s) (_responses s) (_terminals s)
    (_control_tombstones s) (_node_tombstones s) (_pending_node_transitions s)
    (_former_node_authorities s) (_node_work_identities s) (_deferred_deadline_identities s) v
    (_fairness_cursors s) (_fairness_activity s) (_next_queue_sequence s).

Definition set_fairness_cursors (v : dict pystr (pystr * Z)) (s : store) : store :=
  MkStore (_records s) (_scheduler_states s) (_registration_order s)
    (_next_registration_order s) (_reservations s) (_queued s) (_queued_token_digests s)
    (_cancellation_token_digests s) (_node_queues s) (_claims s) (_responses s) (_terminals s)
    (_control_tombstones s) (_node_tombstones s) (_pending_node_transitions s)
    (_former_node_authorities s) (_node_work_identities s) (_deferred_deadline_identities s)
    (_next_claim_generation s) v (_fairness_activity s) (_next_queue_sequence s).

Definition set_fairness_activity (v : Z) (s : store) : store :=
  MkStore (_records s) (_scheduler_states s) (_registration_order s)
    (_next_registration_order s) (_reservations s) (_queued s) (_queued_token_digests s)
    (_cancellation_token_digests s) (_node_queues s) (_claims s) (_responses s) (_terminals s)
    (_control_tombstones s) (_node_tombstones s) (_pending_node_transitions s)
    (_former_node_authorities s) (_node_work_identities s) (_deferred_deadline_identities s)
    (_next_claim_generation s) (_fairness_cursors s) v (_next_queue_sequence s).

Definition set_next_queue_sequence (v : Z) (s : store) : store :=
  MkStore (_records s) (_scheduler_states s) (_registration_order s)
    (_next_registration_order s) (_reservations s) (_queued s) (_queued_token_digests s)
    (_cancellation_token_digests s) (_node_queues s) (_claims s) (_responses s) (_terminals s)
    (_control_tombstones s) (_node_tombstones s) (_pending_node_transitions s)
    (_former_node_authorities s) (_node_work_identities s) (_deferred_deadline_identities s)
    (_next_claim_generation s) (_fairness_cursors s) (_fairness_activity s) v.

(** The store [__init__] creates. *)
Definition empty_store : store :=
  MkStore [] [] [] 0 [] [] [] [] [] [] [] [] [] [] [] [] [] [] 0 [] 0 0.

Definition identity_mem (i : identity) (l : list identity) : bool := bool_decide (i ∈ l).

(** [set.add] and [set.discard] *)
Definition identity_add (i : identity) (l : list identity) : list identity :=
  if identity_mem i l then l else l ++ [i].
Definition identity_discard (i : identity) (l : list identity) : list identity :=
  bfilter (fun j => negb (bool_decide (j = i))) l.

(** [hmac.compare_digest]: every compared string is ASCII. *)
Definition compare_digest (a b : pystr) : bool := bool_decide (a = b).

(** [__init__]: the key check; the store starts empty. *)
Definition store_init (acknowledgement_key : pyval) : store_error + (list byte * store) :=
  match acknowledgement_key with
  | PyBytes k =>
      if zlen k <? 32
      then inl (RelayStateStoreError
             "acknowledgement key must be bytes containing at least 256 bits")
      else inr (k, empty_store)
  | _ => inl (RelayStateStoreError
           "acknowledgement key must be bytes containing at least 256 bits")
  end.

(** [value.encode("utf-8")] *)
Definition encode_utf8 (s : pystr) : store_error + list byte :=
  match utf8_encode s with Some b => inr b | None => inl UnicodeEncodeError end.

Definition zero_digest : pystr := PyStr (repeat 48%N 64).

Section digests.
Context `{!Crypto} `{!PyUnicode}.
Variable config : RelayStateStoreConfig.
Variable acknowledgement_key : list byte.

(** A non-empty string of bounded UTF-8 length, digested under a domain prefix. *)
Definition bounded_digest (value : pyval) (bound : Z) (domain : list byte) (msg : pystr)
  : store_error + pystr :=
  match nonempty_str value with
  | Some s =>
      let? encoded := encode_utf8 s in
      let? _ := eraise_if (bound <? zlen encoded) (RelayStateStoreError msg) in
      inr (sha256_hexdigest (domain ++ encoded))
  | None => inl (RelayStateStoreError msg)
  end.

Definition _identity_digest (value : pyval) (domain : list byte) : store_error + pystr :=
  bounded_digest value (max_identity_bytes config) domain "request identity is invalid".

Definition client_domain : list byte := b_lit "client" ++ [x00].
Definition request_domain : list byte := b_lit "request" ++ [x00].
Definition consumer_domain : list byte := b_lit "consumer" ++ [x00].
Definition cancel_domain : list byte := b_lit "cancel" ++ [x00].
Definition node_domain : list byte := b_lit "node" ++ [x00].

Definition _identity (client_public_key request_id : pyval) : store_error + identity :=
  let? c := _identity_digest client_public_key client_domain in
  let? r := _identity_digest request_id request_domain in
  inr (c, r).

Definition _consumer_digest (value : pyval) : store_error + pystr :=
  bounded_digest value (max_consumer_identity_bytes config) consumer_domain
    "consumer identity is invalid".

Definition _cancellation_token_digest (token : pyval) : store_error + pystr :=
  bounded_digest token (max_cancellation_token_bytes config) cancel_domain
    "cancellation proof is invalid".

Definition _safe_cancellation_token_digest (token : pyval) : pystr :=
  match _cancellation_token_digest token with
  | inr d => d
  | inl _ => zero_digest
  end.

Definition _model_id (value : pyval) : store_error + pystr :=
  match value with
  | PyS s =>
      let normalized := py_lower (py_strip s) in
      if py_empty normalized then inl (RelayStateStoreError "requested model is invalid")
      else
        let? encoded := encode_utf8 normalized in
        let? _ := eraise_if (max_model_id_bytes config <? zlen encoded)
                    (RelayStateStoreError "requested model is invalid") in
        inr normalized
  | _ => inl (RelayStateStoreError "requested model is invalid")
  end.

Definition _context_tier (value : pyval) : store_error + context_tier :=
  match parse_tier (normalized_text value) with
  | Some t => inr t
  | None => inl (RelayStateStoreError "requested context tier is invalid")
  end.

Definition _deadline (value : pyval) : store_error + float64 :=
  finite_number value (RelayStateStoreError "request deadline must be finite").

Definition _scheduler_fingerprint (model_id : pystr) (tier : context_tier) : pystr :=
  sha256_hexdigest (default [] (utf8_encode model_id) ++ [x00] ++ b_lit (tier_name tier)).

(** [hashlib.sha256(token.encode("ascii")).hexdigest()] of hexadecimal text *)
Definition ascii_digest (token : pystr) : pystr :=
  sha256_hexdigest (default [] (utf8_encode token)).

Definition _token_digest (token : pyval) : store_error + pystr :=
  match token with
  | PyS s => if is_sha256_hex s then inr (ascii_digest s)
             else inl (RelayStateInvalidReservation "reservation invalid")
  | _ => inl (RelayStateInvalidReservation "reservation invalid")
  end.

Definition _acknowledgement_digest (token : pystr) : pystr := ascii_digest token.

Definition _safe_acknowledgement_digest (token : pyval) : pystr :=
  match token with
  | PyS s => if is_sha256_hex s then _acknowledgement_digest s else zero_digest
  | _ => zero_digest
  end.

Definition _safe_retrieval_credential_digest (credential : pyval) : pystr :=
  match credential with
  | PyS s => if is_sha256_hex s then ascii_digest s else zero_digest
  | _ => zero_digest
  end.

Definition ack_domain : list byte := b_lit "token.place/relay-response-ack/v1" ++ [x00].

Definition _derive_acknowledgement_token (i : identity) (accepted_at : float64)
  (response_digest : pystr) : pystr :=
  hmac_sha256_hexdigest acknowledgement_key
    (ack_domain ++ bytes_fromhex i.1 ++ bytes_fromhex i.2 ++ pack_double accepted_at
     ++ bytes_fromhex response_digest).

Definition _acknowledgement_matches (i : identity) (terminal : TerminalOutcomeRecord)
  (supplied_token : pyval) : bool :=
  let expected_token := _derive_acknowledgement_token i (t_accepted_at_epoch terminal)
                          (t_response_digest terminal) in
  compare_digest (_acknowledgement_digest expected_token) (t_acknowledgement_digest terminal)
  && compare_digest (_safe_acknowledgement_digest supplied_token)
       (t_acknowledgement_digest terminal).

Definition _node_digest (n : pystr) : pystr :=
  sha256_hexdigest (node_domain ++ default [] (utf8_encode n)).

Definition _validate_node_id (value : pyval) : store_error + pystr :=
  match nonempty_str value with
  | Some s =>
      let? encoded := encode_utf8 s in
      let? _ := eraise_if (max_node_id_bytes config <? zlen encoded)
                  (RelayStateStoreError
                     "node ID is empty or exceeds its configured byte bound") in
      inr s
  | None => inl (RelayStateStoreError "node ID is empty or exceeds its configured byte bound")
  end.

Definition _validate_digest (digest : pyval) : store_error + pystr :=
  match digest with
  | PyS s => if is_sha256_hex s then inr s
             else inl (RelayStateStoreError
                    "control credential digest must be lowercase SHA-256 hex")
  | _ => inl (RelayStateStoreError "control credential digest must be lowercase SHA-256 hex")
  end.

Definition _require_digest (record : ComputeNodeRegistration) (digest : pystr)
  : store_error + unit :=
  eraise_if (negb (compare_digest (control_credential_digest record) digest))
    (RelayStateCredentialMismatch "control credential digest does not own this registration").

(** [_require_same_parameters] reads three attributes of a reservation or a
    queued request; [==] on finite floats is IEEE equality. *)
Definition _require_same_parameters (rec_model : pystr) (rec_tier : context_tier)
  (rec_deadline : float64) (model_id : pystr) (tier : context_tier) (deadline : float64)
  : store_error + unit :=
  eraise_if (negb (bool_decide (rec_model = model_id)) || negb (bool_decide (rec_tier = tier))
             || negb (feq rec_deadline deadline))
    (RelayStateConflict "request identity conflict").

Definition _validate_generation (generation : pyval) : store_error + Z :=
  match strict_int generation with
  | Some z => if z <? 1 then inl (RelayStateStoreError "claim generation is invalid") else inr z
  | None => inl (RelayStateStoreError "claim generation is invalid")
  end.

(** ** JSON serialisation with [separators=(",", ":")] *)
Fixpoint json_members (l : list (pystr * pystr)) : pystr :=
  match l with
  | [] => ""
  | [(k, v)] => json_str k +++ ":" +++ v
  | (k, v) :: l' => json_str k +++ ":" +++ v +++ "," +++ json_members l'
  end.

Definition json_object (l : list (pystr * pystr)) : pystr := "{" +++ json_members l +++ "}".

Definition request_envelope_json (e : EncryptedEnvelope) : pystr :=
  json_object
    [("protocol", json_str (env_protocol e)); ("version", version_repr (env_version e));
     ("ciphertext", json_str (env_ciphertext e)); ("cipherkey", json_str (env_cipherkey e));
     ("iv", json_str (env_iv e))].

Definition _validate_envelope_size (envelope : EncryptedRequestEnvelope) : store_error + unit :=
  let? serialized := encode_utf8 (request_envelope_json (request_env envelope)) in
  eraise_if (max_envelope_bytes config <? zlen serialized)
    (RelayStateStoreError "encrypted envelope exceeds its configured byte bound").

(** [sort_keys=True] *)
Definition _serialized_response_envelope (envelope : EncryptedResponseEnvelope)
  : store_error + list byte :=
  let e := response_env envelope in
  encode_utf8 (json_object
    [("cipherkey", json_str (env_cipherkey e)); ("ciphertext", json_str (env_ciphertext e));
     ("iv", json_str (env_iv e)); ("protocol", json_str (env_protocol e));
     ("version", version_repr (env_version e))]).

(** ** Clock *)
Definition _now (epoch_time : pyval) : store_error + float64 :=
  finite_number epoch_time (RelayStateStoreError "epoch clock must return a finite number").

Definition _lease_deadline (now : float64) : store_error + float64 :=
  let deadline := fadd now (lease_ttl_seconds config) in
  if is_finite deadline then inr deadline
  else inl (RelayStateStoreError "lease deadline must be finite").

(** ** Results *)
Definition _selection_result (r : ReservationRecord) (token : option pystr) (created : bool)
  : SelectionResult :=
  MkSelectionResult (res_selected_node_id r) (res_requested_model_id r)
    (res_requested_context_tier r) (res_request_deadline_epoch r)
    (Some (res_reservation_expires_at_epoch r)) token created "reserved".

Definition _enqueue_result (q : QueuedRequest) (created : bool) (state : pystr)
  : EnqueueResult :=
  MkEnqueueResult state (q_selected_node_id q) (q_request_deadline_epoch q) (q_sequence q)
    created.

Definition _response_result (r : ResponseRecord) (new_outcome : bool)
  : ResponseAcceptanceResult :=
  MkAcceptance "response_ready" (rsp_generation r) (rsp_accepted_at_epoch r)
    (rsp_replay_expires_at_epoch r) new_outcome.

Definition _terminal_response_result (t : TerminalOutcomeRecord) : ResponseAcceptanceResult :=
  MkAcceptance "response_ready" (t_generation t) (t_accepted_at_epoch t)
    (t_replay_expires_at_epoch t) false.

End digests.
