(* ===== verification/StoreCore.v ===== *)
(** * InMemoryRelayStateStore: internal transitions

    The methods every public operation is built from: removing work from the
    indexes, terminalising a lifecycle, removing a node with its work in batches,
    lease expiry and reaping.  Each is a computation over the store that may
    raise, and leaves its earlier updates in place when it does. *)

From S2P Require Import Prelude PyFloat PyStr PyDict Sha256 StoreTypes StoreState.

(** A store computation. *)
Notation M := (SM store store_error).

(** The record a lifecycle is terminalised from: [reservation or queued]. *)
Inductive lifecycle_record : Set :=
| LReservation (r : ReservationRecord)
| LQueued (q : QueuedRequest).

Definition lr_selected_node_id (r : lifecycle_record) : pystr :=
  match r with
  | LReservation r => res_selected_node_id r
  | LQueued q => q_selected_node_id q
  end.

Definition lr_request_deadline_epoch (r : lifecycle_record) : float64 :=
  match r with
  | LReservation r => res_request_deadline_epoch r
  | LQueued q => q_request_deadline_epoch q
  end.

(** [self._reservations.get(i) or self._queued.get(i)] *)
Definition live_record (s : store) (i : identity) : option lifecycle_record :=
  match dget (_reservations s) i with
  | Some r => Some (LReservation r)
  | None => match dget (_queued s) i with
            | Some q => Some (LQueued q)
            | None => None
            end
  end.

(** [min(items, default=None)] for a total order. *)
Fixpoint min_by {A} (leb : A -> A -> bool) (l : list A) : option A :=
  match l with
  | [] => None
  | x :: l' => match min_by leb l' with
               | None => Some x
               | Some y => Some (if leb x y then x else y)
               end
  end.

(** [max(items, key=..., default=None)]: the first of the largest. *)
Definition max_by_epoch (l : list FormerNodeAuthority) : option FormerNodeAuthority :=
  match l with
  | [] => None
  | a :: l' => Some (fold_left (fun best x =>
                 if flt (fa_transition_epoch best) (fa_transition_epoch x) then x else best) l' a)
  end.

(** ** Index maintenance *)

Definition discard_work (works : dict pystr (dict identity unit)) (n : pystr) (i : identity)
  : dict pystr (dict identity unit) :=
  match dget works n with
  | None => works
  | Some identities =>
      match ddel identities i with
      | [] => ddel works n
      | rest => dset works n rest
      end
  end.

Definition _discard_node_work_identity_locked (n : pystr) (i : identity) : M unit :=
  modify (fun s => set_node_work_identities (discard_work (_node_work_identities s) n i) s).

(** [remaining = [item for item in queue if item != queued]], and the empty list is popped. *)
Definition remove_from_queue (queues : dict pystr (list QueuedRequest)) (q : QueuedRequest)
  : dict pystr (list QueuedRequest) :=
  match bfilter (fun item => negb (queued_eqb item q))
          (dget_or queues (q_selected_node_id q) []) with
  | [] => ddel queues (q_selected_node_id q)
  | remaining => dset queues (q_selected_node_id q) remaining
  end.

Definition _remove_queued_identity_locked (i : identity) (q : QueuedRequest) : M unit :=
  let* _ := modify (fun s => set_queued (ddel (_queued s) i) s) in
  let* _ := modify (fun s => set_queued_token_digests (ddel (_queued_token_digests s) i) s) in
  let* _ := modify (fun s =>
    set_cancellation_token_digests (ddel (_cancellation_token_digests s) i) s) in
  let* _ := modify (fun s => set_node_queues (remove_from_queue (_node_queues s) q) s) in
  let* _ := modify (fun s => set_claims (ddel (_claims s) i) s) in
  _discard_node_work_identity_locked (q_selected_node_id q) i.

Definition _remove_node_reservations_locked (n : pystr) : M unit :=
  let* s := get_state in
  for_each (_reservations s) (fun '(i, reservation) =>
    if bool_decide (res_selected_node_id reservation = n) then
      let* s := get_state in
      if identity_mem i (_deferred_deadline_identities s) then ret tt
      else
        let* _ := modify (fun s => set_reservations (ddel (_reservations s) i) s) in
        let* _ := modify (fun s =>
          set_cancellation_token_digests (ddel (_cancellation_token_digests s) i) s) in
        _discard_node_work_identity_locked n i
    else ret tt).

Definition _remove_node_queue_locked (n : pystr) : M unit :=
  let* s := get_state in
  let* _ := modify (fun s => set_node_queues (ddel (_node_queues s) n) s) in
  for_each (dget_or (_node_queues s) n []) (fun q =>
    let i := (q_client_identity_digest q, q_request_identity_digest q) in
    let* s := get_state in
    if identity_mem i (_deferred_deadline_identities s) then
      modify (fun s =>
        set_node_queues (dset (_node_queues s) n (dget_or (_node_queues s) n [] ++ [q])) s)
    else
      let* _ := modify (fun s => set_queued (ddel (_queued s) i) s) in
      let* _ := modify (fun s => set_queued_token_digests (ddel (_queued_token_digests s) i) s) in
      let* _ := modify (fun s =>
        set_cancellation_token_digests (ddel (_cancellation_token_digests s) i) s) in
      let* _ := modify (fun s => set_claims (ddel (_claims s) i) s) in
      _discard_node_work_identity_locked n i).

Section transitions.
Context `{!Crypto}.
Variable config : RelayStateStoreConfig.

(** ** Terminalisation *)

(** The claim that must leave a stop-compute tombstone, if any. *)
Definition tombstone_claim (s : store) (i : identity) (record : lifecycle_record)
  (status : pystr) (now : float64) (force_claim_tombstone : bool) : option ClaimRecord :=
  match dget (_claims s) i with
  | Some claim =>
      if force_claim_tombstone
         || (bool_decide (status = "cancelled") && flt now (cl_lease_expires_at_epoch claim))
         || (bool_decide (status = "expired")
             && fle (lr_request_deadline_epoch record) (cl_lease_expires_at_epoch claim))
      then Some claim else None
  | None => None
  end.

Definition terminal_capacity_full (s : store) (client : pystr) : bool :=
  (max_terminal_records config <=? dlen (_terminals s))
  || (max_terminal_records_per_client config <=?
      dcount (fun t => bool_decide (t_client_identity_digest t = client)) (_terminals s)).

Definition tombstone_capacity_full (s : store) (n : pystr) : bool :=
  (max_control_tombstones config <=? dlen (_control_tombstones s))
  || (max_control_tombstones_per_node config <=?
      dcount (fun t => bool_decide (ct_selected_node_id t = n)) (_control_tombstones s)).

Definition cancelled_terminal (s : store) (i : identity) (record : lifecycle_record)
  (tc : option ClaimRecord) (status reason : pystr) (now : float64) : TerminalOutcomeRecord :=
  MkTerminal i.1 i.2 (lr_selected_node_id record)
    (match tc with Some c => cl_control_credential_digest c | None => "" end)
    (match tc with Some c => cl_consumer_identity_digest c | None => "" end)
    (match tc with Some c => cl_generation c | None => 0 end)
    "" now now (fadd now (terminal_retention_seconds config))
    status "completed_unavailable" "" "" reason
    (dget_or (_cancellation_token_digests s) i "").

Definition claim_tombstone (i : identity) (c : ClaimRecord) (status reason : pystr)
  (now : float64) : ControlTombstoneRecord :=
  MkControlTombstone i.1 i.2 (cl_selected_node_id c) (cl_control_credential_digest c)
    (cl_consumer_identity_digest c) (cl_generation c) status reason
    (cl_request_deadline_epoch c) false
    (fmin (fadd now (control_tombstone_ttl_seconds config)) (fadd now f300)).

Definition _terminalize_locked (i : identity) (record : lifecycle_record) (status reason : pystr)
  (now : float64) (force_claim_tombstone : bool) : M TerminalTransitionResult :=
  let* s := get_state in
  let tc := tombstone_claim s i record status now force_claim_tombstone in
  let* _ := raise_if (terminal_capacity_full s i.1)
              (RelayStateCapacityExceeded "terminal lifecycle capacity reached") in
  let* _ := match tc with
            | Some c => raise_if (tombstone_capacity_full s (cl_selected_node_id c))
                          (RelayStateCapacityExceeded "control tombstone capacity reached")
            | None => ret tt
            end in
  let terminal := cancelled_terminal s i record tc status reason now in
  let* _ := modify (fun s => set_terminals (dset (_terminals s) i terminal) s) in
  let* _ := match tc with
            | Some c => modify (fun s =>
                set_control_tombstones
                  (dset (_control_tombstones s) i (claim_tombstone i c status reason now)) s)
            | None => ret tt
            end in
  let* _ := modify (fun s => set_reservations (ddel (_reservations s) i) s) in
  let* s := get_state in
  let* _ := match dget (_queued s) i with
            | Some q => _remove_queued_identity_locked i q
            | None => ret tt
            end in
  let* _ := modify (fun s =>
    set_cancellation_token_digests (ddel (_cancellation_token_digests s) i) s) in
  let* _ := modify (fun s => set_queued_token_digests (ddel (_queued_token_digests s) i) s) in
  let* _ := modify (fun s =>
    set_deferred_deadline_identities
      (identity_discard i (_deferred_deadline_identities s)) s) in
  let* _ := _discard_node_work_identity_locked (lr_selected_node_id record) i in
  ret (MkTerminalTransitionResult status reason true).

(** ** Node removal *)

Definition transition_result (state cause : pystr) (epoch : option float64)
  : NodeTransitionResult :=
  MkNodeTransitionResult state cause epoch 0 0 0 0 0 false.

Definition explicit_unregister : pystr := "explicit_unregister".
Definition registration_lease_expired : pystr := "registration_lease_expired".

(** The node has no registration and no pending transition: report what is
    retained about it. *)
Definition _completed_transition (n : pystr) (supplied_digest : option pystr) (cause : pystr)
  : M NodeTransitionResult :=
  let* s := get_state in
  let supplied := default "" supplied_digest in
  let explicit := bool_decide (cause = explicit_unregister) in
  let from_authorities :=
    let former := dget_or (_former_node_authorities s) (_node_digest n) [] in
    let matching :=
      if explicit
      then dvalues (bfilter (fun '(owner_digest, _) => compare_digest owner_digest supplied) former)
      else bfilter (fun a => bool_decide (fa_cause a = cause)) (dvalues former) in
    match max_by_epoch matching with
    | Some completed =>
        ret (transition_result "already_complete" (fa_cause completed)
               (Some (fa_transition_epoch completed)))
    | None => ret (transition_result "not_found" cause None)
    end in
  match dget (_node_tombstones s) (_node_digest n) with
  | Some tombstone =>
      if explicit then
        let* _ := raise_if (negb (compare_digest (nt_control_credential_digest tombstone) supplied))
                    (RelayStateCredentialMismatch
                       "control credential digest does not own this transition") in
        ret (transition_result "already_complete" (nt_cause tombstone)
               (Some (nt_transition_epoch tombstone)))
      else from_authorities
  | None => from_authorities
  end.

(** [sum(len(authorities) for authorities in self._former_node_authorities.values())] *)
Definition fences_total (former : dict pystr (dict pystr FormerNodeAuthority)) : Z :=
  fold_right (fun a acc => dlen a + acc) 0 (dvalues former).

Definition fence_count (s : store) : Z := fences_total (_former_node_authorities s).

(** Eligibility is removed, and the transition's records are created. *)
Definition _begin_node_transition (n : pystr) (record : ComputeNodeRegistration) (cause : pystr)
  (now : float64) : M PendingNodeTransition :=
  let* s := get_state in
  let* _ := raise_if (max_pending_node_transitions config <=? dlen (_pending_node_transitions s))
              (RelayStateCapacityExceeded "pending node-transition capacity reached") in
  let node_digest := _node_digest n in
  let owner_fences := dget_or (_former_node_authorities s) node_digest [] in
  let owner_key := control_credential_digest record in
  let* _ := raise_if (negb (dmem owner_fences owner_key)
                      && (max_removed_owner_fences config <=? fence_count s))
              (RelayStateCapacityExceeded "removed-owner fencing capacity reached") in
  let* _ := raise_if (negb (dmem (_node_tombstones s) node_digest)
                      && (max_node_tombstones config <=? dlen (_node_tombstones s)))
              (RelayStateCapacityExceeded "node tombstone capacity reached") in
  let pending := MkPending n node_digest owner_key cause "cancelled" "server_unregistered" now in
  let* _ := modify (fun s => set_records (ddel (_records s) n) s) in
  let* _ := modify (fun s => set_scheduler_states (ddel (_scheduler_states s) n) s) in
  let* _ := modify (fun s => set_registration_order (ddel (_registration_order s) n) s) in
  let* _ := modify (fun s =>
    set_fairness_cursors
      (bfilter (fun '(_, cursor) => negb (bool_decide (cursor.1 = n))) (_fairness_cursors s)) s) in
  let* _ := modify (fun s =>
    set_pending_node_transitions (dset (_pending_node_transitions s) n pending) s) in
  let fence_expiry := fadd now (terminal_retention_seconds config) in
  let* _ := modify (fun s =>
    set_former_node_authorities
      (dset (_former_node_authorities s) node_digest
         (dset (dget_or (_former_node_authorities s) node_digest []) owner_key
            (MkFormerAuthority owner_key cause "cancelled" now fence_expiry))) s) in
  let* _ := modify (fun s =>
    set_node_tombstones
      (dset (_node_tombstones s) node_digest
         (MkNodeTombstone node_digest owner_key cause "cancelled" now
            (match dget_or (_node_work_identities s) n [] with [] => true | _ => false end)
            (fmin (fadd now (node_tombstone_ttl_seconds config)) (fadd now f300)))) s) in
  ret pending.

(** [processed], [reservations], [queued_count], [claims], [outcomes] *)
Record batch_counts : Set := MkCounts {
  bc_processed : Z;
  bc_reservations : Z;
  bc_queued : Z;
  bc_claims : Z;
  bc_outcomes : Z
}.

Definition count_skipped (c : batch_counts) : batch_counts :=
  MkCounts (bc_processed c + 1) (bc_reservations c) (bc_queued c) (bc_claims c) (bc_outcomes c).

Definition b2z (b : bool) : Z := if b then 1 else 0.

(** The loop over the batch; a capacity failure breaks out of it. *)
Fixpoint transition_batch (n : pystr) (pending : PendingNodeTransition) (now : float64)
  (batch : list identity) (c : batch_counts) : M batch_counts :=
  match batch with
  | [] => ret c
  | i :: batch' =>
      let* s := get_state in
      if dmem (_terminals s) i then
        let* _ := _discard_node_work_identity_locked n i in
        transition_batch n pending now batch' (count_skipped c)
      else
        match live_record s i with
        | None =>
            let* _ := _discard_node_work_identity_locked n i in
            transition_batch n pending now batch' (count_skipped c)
        | Some work =>
            let* result := try_except
              (let* r := _terminalize_locked i work (pt_status pending) (pt_reason pending) now
                           (dmem (_claims s) i) in
               ret (Some r))
              is_capacity_exceeded (ret None) in
            match result with
            | None => ret c
            | Some r =>
                transition_batch n pending now batch'
                  (MkCounts (bc_processed c + 1)
                     (bc_reservations c + b2z (dmem (_reservations s) i))
                     (bc_queued c + b2z (dmem (_queued s) i))
                     (bc_claims c + b2z (dmem (_claims s) i))
                     (bc_outcomes c + b2z (ttr_new_outcome r)))
            end
        end
  end.

(** The tail of [_transition_node_locked], from [node_work = ...] on. *)
Definition _advance_node_transition (n : pystr) (pending : PendingNodeTransition) (now : float64)
  : M NodeTransitionResult :=
  let* s := get_state in
  let batch := firstn (Z.to_nat (node_transition_batch_size config))
                 (dkeys (dget_or (_node_work_identities s) n [])) in
  let* c := transition_batch n pending now batch (MkCounts 0 0 0 0 0) in
  let* s := get_state in
  let continuation := match dget_or (_node_work_identities s) n [] with
                      | [] => false | _ => true end in
  let* _ :=
    if continuation then
      modify (fun s =>
        set_pending_node_transitions (dset (_pending_node_transitions s) n pending) s)
    else
      let fence_expiry := fadd now (terminal_retention_seconds config) in
      let* _ := raise_if (negb (is_finite fence_expiry))
                  (RelayStateStoreError "former-owner retention deadline must be finite") in
      let owner_fences := dget_or (_former_node_authorities s)
                            (pt_node_identity_digest pending) [] in
      let* _ := modify (fun s =>
        set_former_node_authorities
          (dset (_former_node_authorities s) (pt_node_identity_digest pending) owner_fences) s) in
      let* authority := from_option
                          (dget owner_fences (pt_control_credential_digest pending)) KeyError in
      let* _ := modify (fun s =>
        set_former_node_authorities
          (dset (_former_node_authorities s) (pt_node_identity_digest pending)
             (dset owner_fences (pt_control_credential_digest pending)
                (authority_with_expiry authority fence_expiry))) s) in
      let* _ := modify (fun s =>
        set_pending_node_transitions (ddel (_pending_node_transitions s) n) s) in
      match dget (_node_tombstones s) (pt_node_identity_digest pending) with
      | Some tombstone => modify (fun s =>
          set_node_tombstones
            (dset (_node_tombstones s) (pt_node_identity_digest pending)
               (node_tombstone_completed tombstone)) s)
      | None => ret tt
      end in
  ret (MkNodeTransitionResult (if continuation then "transitioning" else "complete")
         (pt_cause pending) (Some (pt_transition_epoch pending)) (bc_processed c)
         (bc_reservations c) (bc_queued c) (bc_claims c) (bc_outcomes c) continuation).

Definition _transition_node_locked (n : pystr) (supplied_digest : option pystr) (cause : pystr)
  (now : float64) : M NodeTransitionResult :=
  let* s := get_state in
  let supplied := default "" supplied_digest in
  let explicit := bool_decide (cause = explicit_unregister) in
  match dget (_pending_node_transitions s) n with
  | None =>
      match dget (_records s) n with
      | None => _completed_transition n supplied_digest cause
      | Some record =>
          let* _ := if explicit then lift (_require_digest record supplied) else ret tt in
          if negb explicit && flt now (lease_expires_at_epoch record)
          then ret (transition_result "lease_active" cause None)
          else
            let* pending := _begin_node_transition n record cause now in
            _advance_node_transition n pending now
      end
  | Some pending =>
      let* _ := raise_if (negb (bool_decide (cause = pt_cause pending)))
                  (RelayStateConflict "node transition cause conflicts") in
      let* _ := raise_if (explicit
                          && negb (compare_digest (pt_control_credential_digest pending) supplied))
                  (RelayStateCredentialMismatch
                     "control credential digest does not own this transition") in
      _advance_node_transition n pending now
  end.

(** ** Reaping *)

Definition reap_response (now : float64) (ir : identity * ResponseRecord) : M unit :=
  let '(i, response) := ir in
  if fle (rsp_replay_expires_at_epoch response) now then
    let* _ := modify (fun s => set_responses (ddel (_responses s) i) s) in
    let* s := get_state in
    match dget (_terminals s) i with
    | Some terminal =>
        if bool_decide (t_retrieval_state terminal = "response_ready")
        then modify (fun s =>
               set_terminals (dset (_terminals s) i
                 (terminal_with_retrieval_state terminal "retrieval_expired")) s)
        else ret tt
    | None => ret tt
    end
  else ret tt.

(** Deletes the entries [expired] selects: a snapshot loop with [del d[k]]. *)
Definition drop_expired {K V} (expired : V -> bool) (d : dict K V) : dict K V :=
  bfilter (fun kv => negb (expired kv.2)) d.

(** [pending_authorities]: a dict comprehension, so a later transition with the
    same node digest wins. *)
Definition pending_authorities (s : store) : dict pystr pystr :=
  fold_left (fun d t => dset d (pt_node_identity_digest t) (pt_control_credential_digest t))
    (dvalues (_pending_node_transitions s)) [].

Definition reap_authorities (now : float64) (pending_owner : option pystr)
  (authorities : dict pystr FormerNodeAuthority) : dict pystr FormerNodeAuthority :=
  bfilter (fun '(owner_digest, authority) =>
    let reserved_by_pending := match pending_owner with
                               | Some p => compare_digest p owner_digest
                               | None => false
                               end in
    negb (fle (fa_expires_at_epoch authority) now && negb reserved_by_pending)) authorities.

Definition reap_former (now : float64) (s : store) : dict pystr (dict pystr FormerNodeAuthority) :=
  bfilter (fun kv => match kv.2 with [] => false | _ => true end)
    (map (fun kv => (kv.1, reap_authorities now (dget (pending_authorities s) kv.1) kv.2))
       (_former_node_authorities s)).

Definition _reap_retained_locked (now : float64) : M unit :=
  let* s := get_state in
  let* _ := for_each (_responses s) (reap_response now) in
  let* _ := modify (fun s =>
    set_terminals (drop_expired (fun t => fle (t_expires_at_epoch t) now) (_terminals s)) s) in
  let* _ := modify (fun s =>
    set_control_tombstones
      (drop_expired (fun t => fle (ct_expires_at_epoch t) now) (_control_tombstones s)) s) in
  let* _ := modify (fun s =>
    set_node_tombstones
      (drop_expired (fun t => fle (nt_expires_at_epoch t) now) (_node_tombstones s)) s) in
  modify (fun s => set_former_node_authorities (reap_former now s) s).

Definition registration_leb (a b : ComputeNodeRegistration) : bool :=
  pystr_leb (node_id a) (node_id b).

Definition expired_records (s : store) (now : float64) : list ComputeNodeRegistration :=
  py_sorted registration_leb
    (bfilter (fun r => fle (lease_expires_at_epoch r) now) (dvalues (_records s))).

Definition _expire_locked (now : float64) (continue_pending : bool)
  : M (list ComputeNodeRegistration) :=
  let* _ := _reap_retained_locked now in
  let* s := get_state in
  let expired := expired_records s now in
  let* _ := for_each expired (fun record =>
    let* _ := _transition_node_locked (node_id record) None registration_lease_expired now in
    ret tt) in
  let* s := get_state in
  let continuation := if continue_pending
                      then head (py_sorted pystr_leb (dkeys (_pending_node_transitions s)))
                      else None in
  let* _ := match continuation with
            | Some n =>
                if existsb (fun r => bool_decide (node_id r = n)) expired then ret tt
                else
                  let* pending := from_option (dget (_pending_node_transitions s) n) KeyError in
                  let* _ := _transition_node_locked n
                    (if bool_decide (pt_cause pending = explicit_unregister)
                     then Some (pt_control_credential_digest pending) else None)
                    (pt_cause pending) now in
                  ret tt
            | None => ret tt
            end in
  ret expired.

(** Reservations, then queued requests, whose absolute deadline has passed. *)
Definition due_lifecycles (s : store) (now : float64) : list (identity * lifecycle_record) :=
  map (fun kv => (kv.1, LReservation kv.2))
    (bfilter (fun kv => fle (res_request_deadline_epoch kv.2) now) (_reservations s))
  ++ map (fun kv => (kv.1, LQueued kv.2))
    (bfilter (fun kv => fle (q_request_deadline_epoch kv.2) now) (_queued s)).

Definition reap_due (now : float64) (ir : identity * lifecycle_record) : M unit :=
  let '(i, record) := ir in
  let* s := get_state in
  if negb (dmem (_terminals s) i) && (dmem (_reservations s) i || dmem (_queued s) i) then
    try_except
      (let* _ := _terminalize_locked i record "expired" "request_deadline_expired" now false in
       ret tt)
      is_capacity_exceeded
      (modify (fun s =>
         set_deferred_deadline_identities
           (identity_add i (_deferred_deadline_identities s)) s))
  else ret tt.

Definition reap_reservation (now : float64) (ir : identity * ReservationRecord) : M unit :=
  let '(i, reservation) := ir in
  let* s := get_state in
  if fle (res_reservation_expires_at_epoch reservation) now
     && negb (identity_mem i (_deferred_deadline_identities s)) then
    let* _ := modify (fun s => set_reservations (ddel (_reservations s) i) s) in
    let* _ := modify (fun s =>
      set_cancellation_token_digests (ddel (_cancellation_token_digests s) i) s) in
    _discard_node_work_identity_locked (res_selected_node_id reservation) i
  else ret tt.

Definition _reap_locked (now : float64) : M unit :=
  let* _ := _reap_retained_locked now in
  let* s := get_state in
  let* _ := for_each (due_lifecycles s now) (reap_due now) in
  let* _ := _expire_locked now false in
  let* s := get_state in
  for_each (_reservations s) (reap_reservation now).

(** ** Fairness cursors *)

Definition _active_fairness_fingerprints_locked (s : store) : list pystr :=
  map res_scheduler_fingerprint (dvalues (_reservations s))
  ++ map (fun q => _scheduler_fingerprint (q_requested_model_id q)
                     (q_requested_context_tier q)) (dvalues (_queued s)).

(** Tuple order on [(activity, fingerprint)]. *)
Definition cursor_leb (a b : Z * pystr) : bool :=
  (a.1 <? b.1) || ((a.1 =? b.1) && pystr_leb a.2 b.2).

Definition _cursor_eviction_candidate_locked (fingerprint : pystr) : M (option pystr) :=
  let* s := get_state in
  if dmem (_fairness_cursors s) fingerprint then ret None
  else if dlen (_fairness_cursors s) <? max_scheduler_fingerprints config then ret None
  else
    let active := _active_fairness_fingerprints_locked s in
    match min_by cursor_leb
            (map (fun '(fp, (_, activity)) => (activity, fp))
               (bfilter (fun '(fp, _) => negb (pystr_in fp active)) (_fairness_cursors s))) with
    | None => raise (RelayStateNoCapacity "no scheduler capacity")
    | Some candidate => ret (Some candidate.2)
    end.

End transitions.
