(* ===== verification/StoreOps.v ===== *)
(** * InMemoryRelayStateStore: the public operations

    One definition per method of the [RelayStateStore] protocol.  The clock
    reading of the operation ([self._epoch_time()], called once per operation) is
    its last argument, and the random token [secrets.token_hex(32)] of a selection
    is an argument too.  Arguments the source tests with [isinstance] are
    [pyval]s; the others have the annotated type. *)

From S2P Require Import Prelude PyFloat PyStr PyDict Sha256 StoreTypes StoreState StoreCore.

Section operations.
Context `{!Crypto} `{!PyUnicode}.
Variable config : RelayStateStoreConfig.
Variable acknowledgement_key : list byte.

Definition as_instance {A} (v : instance_of A) (msg : pystr) : store_error + A :=
  match v with IsInst a => inr a | NotInst _ => inl (RelayStateStoreError msg) end.

(** ** Registration and leases *)

Definition register (node_id_arg : pyval) (capabilities_arg : instance_of ComputeNodeCapabilities)
  (digest_arg : pyval) (epoch_time : pyval) : M ComputeNodeRegistration :=
  let* n := lift_val (_validate_node_id config node_id_arg) in
  let* digest := lift_val (_validate_digest digest_arg) in
  let* caps := lift_val (as_instance capabilities_arg
                           "capabilities must be ComputeNodeCapabilities") in
  let* now := lift_val (_now epoch_time) in
  let* lease_deadline := lift_val (_lease_deadline config now) in
  let* _ := _reap_retained_locked now in
  let* _ := _expire_locked config now false in
  let* s := get_state in
  let* _ := raise_if (dmem (_pending_node_transitions s) n)
              (RelayStateConflict "node transition is incomplete") in
  let existing := dget (_records s) n in
  let* _ := raise_if (negb (dmem (_records s) n)
                      && (max_compute_nodes config <=? dlen (_records s)))
              (RelayStateCapacityExceeded "compute-node registration capacity reached") in
  let* _ := match existing with
            | Some r => lift (_require_digest r digest)
            | None =>
                raise_if (existsb (fun removed => compare_digest removed digest)
                            (dkeys (dget_or (_former_node_authorities s) (_node_digest n) [])))
                  (RelayStateCredentialMismatch
                     "control credential digest has stale registration authority")
            end in
  let record :=
    MkRegistration n caps
      (match existing with Some r => control_credential_digest r | None => digest end)
      (match existing with Some r => registered_at_epoch r | None => now end)
      lease_deadline in
  let* _ := modify (fun s => set_records (dset (_records s) n record) s) in
  let* _ := match existing with
            | Some _ => ret tt
            | None =>
                let* _ := modify (fun s =>
                  set_scheduler_states
                    (dset (_scheduler_states s) n default_scheduler_state) s) in
                let* _ := modify (fun s =>
                  set_registration_order
                    (dset (_registration_order s) n (_next_registration_order s)) s) in
                modify (fun s =>
                  set_next_registration_order (_next_registration_order s + 1) s)
            end in
  ret record.

Definition renew (node_id_arg digest_arg : pyval)
  (capabilities_arg : option (instance_of ComputeNodeCapabilities)) (epoch_time : pyval)
  : M (option ComputeNodeRegistration) :=
  let* n := lift_val (_validate_node_id config node_id_arg) in
  let* digest := lift_val (_validate_digest digest_arg) in
  let* caps := match capabilities_arg with
               | None => ret None
               | Some v =>
                   let* c := lift_val (as_instance v
                               "capabilities must be ComputeNodeCapabilities") in
                   ret (Some c)
               end in
  let* now := lift_val (_now epoch_time) in
  let* _ := _expire_locked config now false in
  let* s := get_state in
  match dget (_records s) n with
  | None => ret None
  | Some existing =>
      let* _ := lift (_require_digest existing digest) in
      let* lease_deadline := lift_val (_lease_deadline config now) in
      let renewed := renewed_registration existing (default (capabilities existing) caps)
                       lease_deadline in
      let* _ := modify (fun s => set_records (dset (_records s) n renewed) s) in
      ret (Some renewed)
  end.

Definition get (node_id_arg epoch_time : pyval) : M (option ComputeNodeRegistration) :=
  let* n := lift_val (_validate_node_id config node_id_arg) in
  let* now := lift_val (_now epoch_time) in
  let* _ := _expire_locked config now false in
  let* s := get_state in
  ret (dget (_records s) n).

Definition list_ (epoch_time : pyval) : M (list ComputeNodeRegistration) :=
  let* now := lift_val (_now epoch_time) in
  let* _ := _expire_locked config now false in
  let* s := get_state in
  ret (map snd (py_sorted (fun a b => pystr_leb a.1 b.1) (_records s))).

Definition expire (epoch_time : pyval) : M (list ComputeNodeRegistration) :=
  let* now := lift_val (_now epoch_time) in
  _expire_locked config now true.

(** The digest is validated only for an explicit unregister, and read only then. *)
Definition unregister_node_and_transition_work (node_id_arg digest_arg : pyval) (cause : pystr)
  (epoch_time : pyval) : M NodeTransitionResult :=
  let* n := lift_val (_validate_node_id config node_id_arg) in
  let* _ := raise_if (negb (pystr_in cause [explicit_unregister; registration_lease_expired]))
              (RelayStateStoreError "node transition cause is invalid") in
  let* digest := if bool_decide (cause = explicit_unregister) then
                   let* d := lift_val (_validate_digest digest_arg) in
                   ret (Some d)
                 else ret None in
  let* now := lift_val (_now epoch_time) in
  let* _ := _reap_retained_locked now in
  _transition_node_locked config n digest cause now.

Definition unregister (node_id_arg digest_arg epoch_time : pyval) : M bool :=
  let* result := unregister_node_and_transition_work node_id_arg digest_arg
                   explicit_unregister epoch_time in
  ret (negb (pystr_in (ntr_state result) ["not_found"; "already_complete"])).

Definition set_scheduler_state (node_id_arg digest_arg : pyval)
  (state_arg : instance_of SchedulerNodeState) (epoch_time : pyval) : M bool :=
  let* n := lift_val (_validate_node_id config node_id_arg) in
  let* digest := lift_val (_validate_digest digest_arg) in
  let* state := lift_val (as_instance state_arg "scheduler state must be SchedulerNodeState") in
  let* now := lift_val (_now epoch_time) in
  let* _ := _expire_locked config now false in
  let* s := get_state in
  match dget (_records s) n with
  | None => ret false
  | Some record =>
      let* _ := lift (_require_digest record digest) in
      let* _ := modify (fun s => set_scheduler_states (dset (_scheduler_states s) n state) s) in
      ret true
  end.

(** ** Selection *)

(** [(tier_size, load, registration_order, node_id)] *)
Record candidate : Set := MkCandidate {
  cand_tier_size : Z;
  cand_load : Z;
  cand_order : Z;
  cand_node_id : pystr
}.

(** Capability, health and capacity tests of one node, then its tuple. *)
Definition node_candidate (s : store) (model_id : pystr) (tier : context_tier)
  (nr : pystr * ComputeNodeRegistration) : store_error + option candidate :=
  let '(n, record) := nr in
  let caps := capabilities record in
  match dget (_scheduler_states s) n with
  | None => inl KeyError
  | Some state =>
      if negb (pystr_in model_id (supported_model_ids caps))
         || (tier_tokens (active_context_tier caps) <? tier_tokens tier)
         || (maximum_total_context_tokens caps <? tier_tokens tier)
         || negb (healthy state) || draining state
      then inr None
      else
        let reservations := dcount (fun r => bool_decide (res_selected_node_id r = n))
                              (_reservations s) in
        let queued_count := zlen (dget_or (_node_queues s) n []) in
        let load := reservations + queued_count + claimed_work state in
        if (max_concurrency caps <=? load)
           || (max_reservations_per_node config <=? reservations)
           || (max_queue_depth_per_node config <=? reservations + queued_count)
        then inr None
        else
          match dget (_registration_order s) n with
          | None => inl KeyError
          | Some order => inr (Some (MkCandidate (tier_tokens (active_context_tier caps))
                                       load order n))
          end
  end.

Fixpoint eligible_nodes (s : store) (model_id : pystr) (tier : context_tier)
  (l : list (pystr * ComputeNodeRegistration)) : store_error + list candidate :=
  match l with
  | [] => inr []
  | nr :: l' =>
      let? c := node_candidate s model_id tier nr in
      let? cs := eligible_nodes s model_id tier l' in
      inr (match c with Some c => c :: cs | None => cs end)
  end.

Definition min_of (f : candidate -> Z) (c : candidate) (l : list candidate) : Z :=
  fold_right (fun x acc => Z.min (f x) acc) (f c) l.

(** The smallest tier, then the least load, by registration order. *)
Definition tied_candidates (c : candidate) (l : list candidate) : list candidate :=
  let smallest_tier := min_of cand_tier_size c (c :: l) in
  let eligible := bfilter (fun x => cand_tier_size x =? smallest_tier) (c :: l) in
  match eligible with
  | [] => []
  | e :: es =>
      let least_load := min_of cand_load e (e :: es) in
      py_sorted (fun a b => cand_order a <=? cand_order b)
        (bfilter (fun x => cand_load x =? least_load) eligible)
  end.

(** Round robin: the first tied node after the cursor, else the first. *)
Definition pick_candidate (s : store) (fingerprint : pystr) (tied : list candidate)
  : option candidate :=
  match dget (_fairness_cursors s) fingerprint with
  | None => head tied
  | Some (cursor, _) =>
      let cursor_order := dget_or (_registration_order s) cursor (-1) in
      match List.find (fun x => cursor_order <? cand_order x) tied with
      | Some c => Some c
      | None => head tied
      end
  end.

(** The answer to a retry of a request that is already queued. *)
Definition select_queued (s : store) (i : identity) (queued : QueuedRequest) (model_id : pystr)
  (tier : context_tier) (deadline : float64) (cancellation_digest : option pystr) (now : float64)
  : M SelectionResult :=
  let* _ := lift (_require_same_parameters (q_requested_model_id queued)
                    (q_requested_context_tier queued) (q_request_deadline_epoch queued)
                    model_id tier deadline) in
  let* _ := raise_if (match dget (_cancellation_token_digests s) i, cancellation_digest with
                      | Some stored, Some supplied => negb (compare_digest stored supplied)
                      | _, _ => false
                      end)
              (RelayStateConflict "request identity conflict") in
  let lifecycle_state := match dget (_claims s) i with
                         | Some claim => if flt now (cl_lease_expires_at_epoch claim)
                                         then "claimed" else "queued"
                         | None => "queued"
                         end in
  ret (MkSelectionResult (q_selected_node_id queued) model_id tier deadline None None false
         lifecycle_state).

(** The answer to a retry of a request that still holds its reservation. *)
Definition select_reserved (s : store) (i : identity) (existing : ReservationRecord)
  (model_id : pystr) (tier : context_tier) (deadline : float64)
  (cancellation_digest : option pystr) : M SelectionResult :=
  let* _ := lift (_require_same_parameters (res_requested_model_id existing)
                    (res_requested_context_tier existing) (res_request_deadline_epoch existing)
                    model_id tier deadline) in
  let* _ := raise_if (match dget (_cancellation_token_digests s) i, cancellation_digest with
                      | Some stored, Some supplied => negb (compare_digest stored supplied)
                      | Some _, None => true
                      | None, _ => false
                      end)
              (RelayStateConflict "request identity conflict") in
  ret (_selection_result existing None false).

Definition no_capacity : store_error := RelayStateNoCapacity "no scheduler capacity".

Definition client_lifecycles (s : store) (client : pystr) : Z :=
  dcount (fun r => bool_decide (res_client_identity_digest r = client)) (_reservations s)
  + dcount (fun q => bool_decide (q_client_identity_digest q = client)) (_queued s).

(** The new reservation of a request that has none. *)
Definition reserve_new (i : identity) (model_id : pystr) (tier : context_tier)
  (deadline : float64) (fingerprint : pystr) (cancellation_digest : option pystr)
  (raw_token : pystr) (now : float64) : M SelectionResult :=
  let* s := get_state in
  let* _ := raise_if (max_reservations config <=? dlen (_reservations s)) no_capacity in
  let* _ := raise_if (max_request_lifecycles config <=?
                      dlen (_reservations s) + dlen (_queued s)) no_capacity in
  let* _ := raise_if (max_reservations_per_client config <=? client_lifecycles s i.1)
              no_capacity in
  let* eligible := lift_val (eligible_nodes s model_id tier (_records s)) in
  let* selected := from_option (match eligible with
                                | [] => None
                                | c :: l => pick_candidate s fingerprint (tied_candidates c l)
                                end) no_capacity in
  let n := cand_node_id selected in
  let* evicted_fingerprint := _cursor_eviction_candidate_locked config fingerprint in
  let expires := fmin (fadd now (reservation_ttl_seconds config)) deadline in
  let* _ := raise_if (negb (is_finite expires))
              (RelayStateStoreError "reservation deadline must be finite") in
  let record := MkReservation i.1 i.2 fingerprint n model_id tier deadline expires
                  (ascii_digest raw_token) in
  let* _ := match evicted_fingerprint with
            | Some fp => modify (fun s => set_fairness_cursors (ddel (_fairness_cursors s) fp) s)
            | None => ret tt
            end in
  let* _ := modify (fun s => set_reservations (dset (_reservations s) i record) s) in
  let* _ := modify (fun s =>
    set_node_work_identities
      (dset (_node_work_identities s) n (dset (dget_or (_node_work_identities s) n []) i tt)) s) in
  let* _ := match cancellation_digest with
            | Some d => modify (fun s =>
                set_cancellation_token_digests (dset (_cancellation_token_digests s) i d) s)
            | None => ret tt
            end in
  let* _ := modify (fun s => set_fairness_activity (_fairness_activity s + 1) s) in
  let* _ := modify (fun s =>
    set_fairness_cursors (dset (_fairness_cursors s) fingerprint (n, _fairness_activity s)) s) in
  ret (_selection_result record (Some raw_token) true).

Definition select_and_reserve (client_public_key request_id requested_model_id
  requested_context_tier request_deadline_epoch : pyval) (cancellation_token : option pyval)
  (raw_token : pystr) (epoch_time : pyval) : M SelectionResult :=
  let* i := lift_val (_identity config client_public_key request_id) in
  let* model_id := lift_val (_model_id config requested_model_id) in
  let* tier := lift_val (_context_tier requested_context_tier) in
  let* deadline := lift_val (_deadline request_deadline_epoch) in
  let fingerprint := _scheduler_fingerprint model_id tier in
  let* cancellation_digest :=
    match cancellation_token with
    | Some t => let* d := lift_val (_cancellation_token_digest config t) in ret (Some d)
    | None => ret None
    end in
  let* now := lift_val (_now epoch_time) in
  let* _ := _reap_locked config now in
  let* _ := raise_if (fle deadline now)
              (RelayStateInvalidReservation "request deadline expired") in
  let* _ := raise_if (flt (fadd now (max_request_ttl_seconds config)) deadline)
              (RelayStateStoreError "request deadline exceeds its configured bound") in
  let* s := get_state in
  let* _ := raise_if (dmem (_terminals s) i)
              (RelayStateConflict "request lifecycle is terminal") in
  match dget (_queued s) i with
  | Some queued => select_queued s i queued model_id tier deadline cancellation_digest now
  | None =>
      match dget (_reservations s) i with
      | Some existing => select_reserved s i existing model_id tier deadline cancellation_digest
      | None => reserve_new i model_id tier deadline fingerprint cancellation_digest raw_token now
      end
  end.

(** ** Enqueueing *)

(** The answer to a retry of a request that is already queued. *)
Definition enqueue_existing (s : store) (i : identity) (existing : QueuedRequest)
  (selected_node_id model_id : pystr) (tier : context_tier) (deadline : float64)
  (envelope : EncryptedRequestEnvelope) (token_digest cancellation_digest : pystr)
  (now : float64) : M EnqueueResult :=
  let* _ := lift (_require_same_parameters (q_requested_model_id existing)
                    (q_requested_context_tier existing) (q_request_deadline_epoch existing)
                    model_id tier deadline) in
  let* _ := raise_if (negb (bool_decide (q_selected_node_id existing = selected_node_id))
                      || negb (envelope_eqb (q_envelope existing) envelope))
              (RelayStateConflict "request identity conflict") in
  let* stored_token := from_option (dget (_queued_token_digests s) i) KeyError in
  let* _ := raise_if (negb (compare_digest stored_token token_digest))
              (RelayStateInvalidReservation "reservation invalid") in
  let* stored_cancel := from_option (dget (_cancellation_token_digests s) i) KeyError in
  let* _ := raise_if (negb (compare_digest stored_cancel cancellation_digest))
              (RelayStateConflict "request identity conflict") in
  ret (_enqueue_result existing false
         (match dget (_claims s) i with
          | Some claim => if flt now (cl_lease_expires_at_epoch claim) then "claimed" else "queued"
          | None => "queued"
          end)).

(** Consumes the reservation: the request enters its node's queue. *)
Definition enqueue_reserved (i : identity) (client_public_key request_id : pystr)
  (reservation : ReservationRecord) (selected_node_id model_id : pystr) (tier : context_tier)
  (deadline : float64) (envelope : EncryptedRequestEnvelope)
  (token_digest cancellation_digest : pystr) (now : float64) : M EnqueueResult :=
  let* s := get_state in
  let* _ := raise_if (match dget (_records s) (res_selected_node_id reservation) with
                      | None => true
                      | Some registration => fle (lease_expires_at_epoch registration) now
                      end || dmem (_pending_node_transitions s) (res_selected_node_id reservation))
              (RelayStateInvalidReservation "reservation invalid") in
  let* _ := lift (_require_same_parameters (res_requested_model_id reservation)
                    (res_requested_context_tier reservation)
                    (res_request_deadline_epoch reservation) model_id tier deadline) in
  let* _ := raise_if (match dget (_cancellation_token_digests s) i with
                      | Some reserved => negb (compare_digest reserved cancellation_digest)
                      | None => false
                      end)
              (RelayStateConflict "request identity conflict") in
  let* _ := raise_if (negb (bool_decide (res_selected_node_id reservation = selected_node_id))
                      || negb (compare_digest (res_token_digest reservation) token_digest))
              (RelayStateInvalidReservation "reservation invalid") in
  let* _ := raise_if (max_queue_depth_per_node config <=?
                      zlen (dget_or (_node_queues s) selected_node_id [])) no_capacity in
  let* _ := raise_if ((max_queued_requests config <=? dlen (_queued s))
                      || (max_queued_requests_per_client config <=?
                          dcount (fun q => bool_decide (q_client_identity_digest q = i.1))
                            (_queued s))) no_capacity in
  let* _ := modify (fun s => set_next_queue_sequence (_next_queue_sequence s + 1) s) in
  let* s := get_state in
  let queued := MkQueued i.1 i.2 client_public_key request_id selected_node_id model_id tier
                  deadline envelope now (_next_queue_sequence s) in
  let* _ := modify (fun s => set_queued (dset (_queued s) i queued) s) in
  let* _ := modify (fun s =>
    set_queued_token_digests (dset (_queued_token_digests s) i token_digest) s) in
  let* _ := modify (fun s =>
    set_cancellation_token_digests
      (dset (_cancellation_token_digests s) i cancellation_digest) s) in
  let* _ := modify (fun s =>
    set_node_queues (dset (_node_queues s) selected_node_id
      (dget_or (_node_queues s) selected_node_id [] ++ [queued])) s) in
  let* _ := modify (fun s => set_reservations (ddel (_reservations s) i) s) in
  ret (_enqueue_result queued true "queued").

(** A validated [str] argument; [_identity] has already rejected anything else. *)
Definition str_arg (v : pyval) : pystr := match v with PyS s => s | _ => "" end.

Definition enqueue_encrypted_request (client_public_key request_id reservation_token
  selected_node_id_arg requested_model_id requested_context_tier request_deadline_epoch : pyval)
  (envelope_arg : instance_of EncryptedRequestEnvelope) (cancellation_token epoch_time : pyval)
  : M EnqueueResult :=
  let* i := lift_val (_identity config client_public_key request_id) in
  let* selected_node_id := lift_val (_validate_node_id config selected_node_id_arg) in
  let* model_id := lift_val (_model_id config requested_model_id) in
  let* tier := lift_val (_context_tier requested_context_tier) in
  let* deadline := lift_val (_deadline request_deadline_epoch) in
  let* envelope := lift_val (as_instance envelope_arg
                               "envelope must be EncryptedRequestEnvelope") in
  let* _ := lift (_validate_envelope_size config envelope) in
  let* token_digest := lift_val (_token_digest reservation_token) in
  let* cancellation_digest := lift_val (_cancellation_token_digest config cancellation_token) in
  let* now := lift_val (_now epoch_time) in
  let* _ := _reap_locked config now in
  let* _ := raise_if (fle deadline now) (RelayStateInvalidReservation "reservation invalid") in
  let* s := get_state in
  let* _ := raise_if (dmem (_terminals s) i)
              (RelayStateConflict "request lifecycle is terminal") in
  match dget (_queued s) i with
  | Some existing =>
      enqueue_existing s i existing selected_node_id model_id tier deadline envelope token_digest
        cancellation_digest now
  | None =>
      let* _ := raise_if (flt (fadd now (max_request_ttl_seconds config)) deadline)
                  (RelayStateStoreError "request deadline exceeds its configured bound") in
      let* reservation := from_option (dget (_reservations s) i)
                            (RelayStateInvalidReservation "reservation invalid") in
      enqueue_reserved i (str_arg client_public_key) (str_arg request_id) reservation
        selected_node_id model_id tier deadline envelope token_digest cancellation_digest now
  end.

Definition list_reservations (epoch_time : pyval) : M (list ReservationRecord) :=
  let* now := lift_val (_now epoch_time) in
  let* _ := _reap_locked config now in
  let* s := get_state in
  ret (bfilter (fun r => flt now (res_request_deadline_epoch r)) (dvalues (_reservations s))).

(** [None], or no longer leased *)
Definition claim_free (s : store) (i : identity) (now : float64) : bool :=
  match dget (_claims s) i with
  | None => true
  | Some claim => fle (cl_lease_expires_at_epoch claim) now
  end.

Definition queued_identity (q : QueuedRequest) : identity :=
  (q_client_identity_digest q, q_request_identity_digest q).

Definition queued_requests (node_id_arg epoch_time : pyval) : M (list QueuedRequest) :=
  let* n := lift_val (_validate_node_id config node_id_arg) in
  let* now := lift_val (_now epoch_time) in
  let* _ := _reap_locked config now in
  let* s := get_state in
  ret (bfilter (fun q => flt now (q_request_deadline_epoch q)
                         && claim_free s (queued_identity q) now)
         (dget_or (_node_queues s) n [])).

(** ** Claims *)

(** The first queued request of the node that is live and not actively claimed. *)
Definition claimable (s : store) (now : float64) (q : QueuedRequest) : bool :=
  negb (fle (q_request_deadline_epoch q) now)
  && negb (match dget (_claims s) (queued_identity q) with
           | Some existing => flt now (cl_lease_expires_at_epoch existing)
           | None => false
           end).

Definition active_claims_at (s : store) (now : float64) : list ClaimRecord :=
  bfilter (fun c => flt now (cl_lease_expires_at_epoch c)) (dvalues (_claims s)).

Definition claim_queued_request (node_id_arg digest_arg consumer_identity epoch_time : pyval)
  : M ClaimResult :=
  let* n := lift_val (_validate_node_id config node_id_arg) in
  let* digest := lift_val (_validate_digest digest_arg) in
  let* consumer_digest := lift_val (_consumer_digest config consumer_identity) in
  let* now := lift_val (_now epoch_time) in
  let* _ := _reap_locked config now in
  let* s := get_state in
  let* registration := from_option (dget (_records s) n)
                         (RelayStateCredentialMismatch "claim owner is invalid") in
  let* _ := lift (_require_digest registration digest) in
  let active := active_claims_at s now in
  let node_claims := bcount (fun c => bool_decide (cl_selected_node_id c = n)) active in
  match List.find (claimable s now) (dget_or (_node_queues s) n []) with
  | None => ret (MkClaimResult "empty" None None None None None None)
  | Some queued =>
      let i := queued_identity queued in
      let* _ := raise_if ((max_claims config <=? zlen active)
                          || (max_claims_per_node config <=? node_claims))
                  (RelayStateCapacityExceeded "claim capacity reached") in
      let* _ := modify (fun s => set_next_claim_generation (_next_claim_generation s + 1) s) in
      let lease := fmin (fadd now (claim_ttl_seconds config)) (q_request_deadline_epoch queued) in
      let* _ := raise_if (negb (is_finite lease))
                  (RelayStateStoreError "claim deadline must be finite") in
      let claim := MkClaim (q_client_identity_digest queued) (q_request_identity_digest queued)
                     consumer_digest n (control_credential_digest registration)
                     (q_request_deadline_epoch queued) (q_envelope queued) (q_sequence queued)
                     (_next_claim_generation s + 1) lease in
      let* _ := modify (fun s => set_claims (dset (_claims s) i claim) s) in
      ret (MkClaimResult (if dmem (_claims s) i then "reclaimed" else "claimed")
             (Some (cl_generation claim)) (Some lease) (Some (cl_request_deadline_epoch claim))
             (Some (q_client_public_key queued)) (Some (q_request_id queued))
             (Some (q_envelope queued)))
  end.

Definition renewal (state : pystr) : ClaimRenewalResult :=
  MkClaimRenewalResult state None None None false.

(** Reads, and on request acknowledges, the tombstone of the caller's own claim. *)
Definition read_control (i : identity) (tombstone : ControlTombstoneRecord) (n digest
  consumer_digest : pystr) (generation : Z) (acknowledge : bool) : M ClaimRenewalResult :=
  if negb (bool_decide (ct_selected_node_id tombstone = n)
           && (ct_generation tombstone =? generation)
           && compare_digest (ct_control_credential_digest tombstone) digest
           && compare_digest (ct_consumer_identity_digest tombstone) consumer_digest)
  then ret (renewal "owner_mismatch")
  else
    let* tombstone :=
      if acknowledge && negb (ct_acknowledged tombstone) then
        let t := tombstone_acknowledged tombstone in
        let* _ := modify (fun s =>
          set_control_tombstones (dset (_control_tombstones s) i t) s) in
        ret t
      else ret tombstone in
    ret (MkClaimRenewalResult
           (if ct_acknowledged tombstone then "acknowledged" else ct_status tombstone)
           (Some generation) None (Some (ct_reason tombstone)) (ct_acknowledged tombstone)).

(** Renews the live claim of the caller. *)
Definition renew_live (s : store) (i : identity) (n digest consumer_digest : pystr)
  (generation : Z) (now : float64) : M ClaimRenewalResult :=
  if match dget (_records s) n with
     | None => true
     | Some registration => negb (compare_digest (control_credential_digest registration) digest)
     end
  then ret (renewal "owner_mismatch")
  else
    match dget (_claims s) i with
    | None => ret (renewal "missing_or_expired")
    | Some claim =>
        if fle (cl_request_deadline_epoch claim) now then ret (renewal "missing_or_expired")
        else if negb (cl_generation claim =? generation) then
          ret (MkClaimRenewalResult "stale_generation" (Some (cl_generation claim)) None None false)
        else if negb (bool_decide (cl_selected_node_id claim = n))
                || negb (compare_digest (cl_consumer_identity_digest claim) consumer_digest)
        then ret (renewal "owner_mismatch")
        else if fle (cl_lease_expires_at_epoch claim) now then ret (renewal "missing_or_expired")
        else
          let lease := fmin (fadd now (claim_ttl_seconds config))
                         (cl_request_deadline_epoch claim) in
          let* _ := modify (fun s =>
            set_claims (dset (_claims s) i (claim_with_lease claim lease)) s) in
          ret (MkClaimRenewalResult "continued" (Some generation) (Some lease) None false)
    end.

Definition renew_claim_or_read_control (node_id_arg digest_arg consumer_identity client_public_key
  request_id generation_arg : pyval) (acknowledge : bool) (epoch_time : pyval)
  : M ClaimRenewalResult :=
  let* n := lift_val (_validate_node_id config node_id_arg) in
  let* digest := lift_val (_validate_digest digest_arg) in
  let* consumer_digest := lift_val (_consumer_digest config consumer_identity) in
  let* i := lift_val (_identity config client_public_key request_id) in
  let* generation := lift_val (_validate_generation generation_arg) in
  let* now := lift_val (_now epoch_time) in
  let* _ := _reap_locked config now in
  let* s := get_state in
  match dget (_control_tombstones s) i with
  | Some tombstone => read_control i tombstone n digest consumer_digest generation acknowledge
  | None => renew_live s i n digest consumer_digest generation now
  end.

Definition renew_claim (node_id_arg digest_arg consumer_identity client_public_key
  request_id generation_arg epoch_time : pyval) : M ClaimRenewalResult :=
  renew_claim_or_read_control node_id_arg digest_arg consumer_identity client_public_key
    request_id generation_arg false epoch_time.

Definition active_claims (node_id_arg epoch_time : pyval) : M (list ClaimRecord) :=
  let* n := lift_val (_validate_node_id config node_id_arg) in
  let* now := lift_val (_now epoch_time) in
  let* _ := _reap_locked config now in
  let* s := get_state in
  ret (bfilter (fun c => bool_decide (cl_selected_node_id c = n)
                         && flt now (cl_lease_expires_at_epoch c))
         (py_sorted (fun a b => cl_sequence a <=? cl_sequence b) (dvalues (_claims s)))).

(** ** Responses *)

Definition response_capacity_full (s : store) (client : pystr) : bool :=
  (max_responses config <=? dlen (_responses s))
  || (max_responses_per_client config <=?
      dcount (fun r => bool_decide (rsp_client_identity_digest r = client)) (_responses s))
  || terminal_capacity_full config s client.

(** The retry test against the retained outcome. *)
Definition same_acceptance (terminal : TerminalOutcomeRecord) (n digest consumer_digest : pystr)
  (generation : Z) (response_digest : pystr) : bool :=
  bool_decide (t_selected_node_id terminal = n)
  && (t_generation terminal =? generation)
  && compare_digest (t_control_credential_digest terminal) digest
  && compare_digest (t_consumer_identity_digest terminal) consumer_digest
  && compare_digest (t_response_digest terminal) response_digest.

(** Finalises the live fenced claim. *)
Definition accept_live (i : identity) (n digest consumer_digest client_public_key request_id
  : pystr) (generation : Z) (envelope : EncryptedResponseEnvelope) (response_digest : pystr)
  (now : float64) : M ResponseAcceptanceResult :=
  let* s := get_state in
  let* registration := from_option (dget (_records s) n)
                         (RelayStateCredentialMismatch "response owner is invalid") in
  let* _ := raise_if (negb (compare_digest (control_credential_digest registration) digest))
              (RelayStateCredentialMismatch "response owner is invalid") in
  let* claim := from_option (dget (_claims s) i)
                  (RelayStateConflict "response claim is missing or expired") in
  let* _ := raise_if (negb (cl_generation claim =? generation))
              (RelayStateConflict "response claim generation is stale") in
  let* _ := raise_if (negb (bool_decide (cl_selected_node_id claim = n))
                      || negb (compare_digest (cl_consumer_identity_digest claim)
                                 consumer_digest))
              (RelayStateCredentialMismatch "response owner is invalid") in
  let* _ := raise_if (fle (cl_lease_expires_at_epoch claim) now
                      || fle (cl_request_deadline_epoch claim) now)
              (RelayStateConflict "response claim is missing or expired") in
  let* queued := from_option (dget (_queued s) i)
                   (RelayStateConflict "response lifecycle identity conflict") in
  let* _ := raise_if (negb (bool_decide (q_selected_node_id queued = n))
                      || negb (bool_decide (q_client_public_key queued = client_public_key))
                      || negb (bool_decide (q_request_id queued = request_id)))
              (RelayStateConflict "response lifecycle identity conflict") in
  let* _ := raise_if (response_capacity_full s i.1)
              (RelayStateCapacityExceeded "response lifecycle capacity reached") in
  let replay_expires := fadd now (response_replay_ttl_seconds config) in
  let terminal_expires := fadd now (terminal_retention_seconds config) in
  let* _ := raise_if (negb (is_finite replay_expires) || negb (is_finite terminal_expires))
              (RelayStateStoreError "response retention deadline must be finite") in
  let response := MkResponse i.1 i.2 (q_client_public_key queued) (q_request_id queued) n
                    consumer_digest generation envelope now response_digest replay_expires
                    "response_ready" in
  let* token_digest := from_option (dget (_queued_token_digests s) i) KeyError in
  let* cancel_digest := from_option (dget (_cancellation_token_digests s) i) KeyError in
  let terminal := MkTerminal i.1 i.2 n (control_credential_digest registration) consumer_digest
                    generation response_digest now replay_expires terminal_expires "completed"
                    "response_ready" token_digest
                    (_acknowledgement_digest
                       (_derive_acknowledgement_token acknowledgement_key i now response_digest))
                    "response_completed" cancel_digest in
  let* _ := modify (fun s => set_responses (dset (_responses s) i response) s) in
  let* _ := modify (fun s => set_terminals (dset (_terminals s) i terminal) s) in
  let* _ := _remove_queued_identity_locked i queued in
  ret (_response_result response true).

Definition accept_encrypted_response (node_id_arg digest_arg consumer_identity client_public_key
  request_id generation_arg : pyval) (envelope_arg : instance_of EncryptedResponseEnvelope)
  (epoch_time : pyval) : M ResponseAcceptanceResult :=
  let* n := lift_val (_validate_node_id config node_id_arg) in
  let* digest := lift_val (_validate_digest digest_arg) in
  let* consumer_digest := lift_val (_consumer_digest config consumer_identity) in
  let* i := lift_val (_identity config client_public_key request_id) in
  let* generation := lift_val (_validate_generation generation_arg) in
  let* envelope := lift_val (as_instance envelope_arg
                               "response envelope must be EncryptedResponseEnvelope") in
  let* serialized := lift_val (_serialized_response_envelope envelope) in
  let* _ := raise_if (max_response_envelope_bytes config <? zlen serialized)
              (RelayStateStoreError "encrypted response exceeds its configured byte bound") in
  let response_digest := sha256_hexdigest serialized in
  let* now := lift_val (_now epoch_time) in
  let* _ := _reap_locked config now in
  let* s := get_state in
  match dget (_terminals s) i with
  | Some terminal =>
      if same_acceptance terminal n digest consumer_digest generation response_digest
      then ret (_terminal_response_result terminal)
      else raise (RelayStateConflict "response lifecycle conflict")
  | None =>
      accept_live i n digest consumer_digest (str_arg client_public_key) (str_arg request_id)
        generation envelope response_digest now
  end.

Definition retrieval (state : pystr) : ResponseRetrievalResult :=
  MkRetrieval state None None None.

(** Replay, or acknowledgement, of a response whose outcome is [response_ready]. *)
Definition retrieve_ready (i : identity) (terminal : TerminalOutcomeRecord)
  (acknowledgement_token : option pyval) : M ResponseRetrievalResult :=
  let* s := get_state in
  match dget (_responses s) i with
  | None =>
      let* _ := modify (fun s =>
        set_terminals (dset (_terminals s) i
          (terminal_with_retrieval_state terminal "retrieval_expired")) s) in
      ret (retrieval "retrieval_expired")
  | Some response =>
      let raw_token := _derive_acknowledgement_token acknowledgement_key i
                         (t_accepted_at_epoch terminal) (t_response_digest terminal) in
      match acknowledgement_token with
      | None =>
          ret (MkRetrieval "response_ready" (Some (rsp_envelope response)) (Some raw_token)
                 (Some (rsp_replay_expires_at_epoch response)))
      | Some token =>
          let supplied_digest := _safe_acknowledgement_digest token in
          let expected_digest := _acknowledgement_digest raw_token in
          if negb (compare_digest expected_digest (t_acknowledgement_digest terminal)
                   && compare_digest supplied_digest (t_acknowledgement_digest terminal))
          then ret (retrieval "invalid_acknowledgement")
          else
            let* _ := modify (fun s => set_responses (ddel (_responses s) i) s) in
            let* _ := modify (fun s =>
              set_terminals (dset (_terminals s) i
                (terminal_with_retrieval_state terminal "acknowledged")) s) in
            ret (retrieval "acknowledged")
      end
  end.

(** An [acknowledgement_token] that is [None] is absent. *)
Definition retrieve_encrypted_response (client_public_key request_id retrieval_credential : pyval)
  (acknowledgement_token : option pyval) (epoch_time : pyval) : M ResponseRetrievalResult :=
  let* i := lift_val (_identity config client_public_key request_id) in
  let* now := lift_val (_now epoch_time) in
  let* _ := _reap_locked config now in
  let* s := get_state in
  match dget (_terminals s) i with
  | None => ret (retrieval "invalid_retrieval_credential")
  | Some terminal =>
      if negb (compare_digest (_safe_retrieval_credential_digest retrieval_credential)
                 (t_retrieval_credential_digest terminal))
      then ret (retrieval "invalid_retrieval_credential")
      else if negb (bool_decide (t_retrieval_state terminal = "response_ready")) then
        if bool_decide (t_retrieval_state terminal = "acknowledged")
           && match acknowledgement_token with
              | Some token => negb (_acknowledgement_matches acknowledgement_key i terminal token)
              | None => false
              end
        then ret (retrieval "invalid_acknowledgement")
        else ret (retrieval (t_retrieval_state terminal))
      else retrieve_ready i terminal acknowledgement_token
  end.

Definition response_records (epoch_time : pyval) : M (list ResponseRecord) :=
  let* now := lift_val (_now epoch_time) in
  let* _ := _reap_locked config now in
  let* s := get_state in
  ret (dvalues (_responses s)).

(** ** Cancellation and deadline expiry *)

Definition invalid_proof : TerminalTransitionResult :=
  MkTerminalTransitionResult "invalid_cancellation_proof" "invalid_cancellation_proof" false.

Definition cancel_live (s : store) (i : identity) (supplied status reason : pystr)
  (now : float64) : M TerminalTransitionResult :=
  if bool_decide (status = "cancelled")
     && match dget (_cancellation_token_digests s) i with
        | None => true
        | Some expected => negb (compare_digest expected supplied)
        end
  then ret invalid_proof
  else
    match live_record s i with
    | None => ret invalid_proof
    | Some record =>
        if bool_decide (status = "expired") && flt now (lr_request_deadline_epoch record)
        then ret (MkTerminalTransitionResult "not_expired" "request_deadline_active" false)
        else _terminalize_locked config i record status reason now false
    end.

Definition cancel_or_expire_request (client_public_key request_id cancellation_token : pyval)
  (status reason : pystr) (epoch_time : pyval) : M TerminalTransitionResult :=
  let* _ := raise_if (negb (bool_decide ((status, reason) = ("cancelled", "requester_cancelled"))
                            || bool_decide ((status, reason)
                                            = ("expired", "request_deadline_expired"))))
              (RelayStateStoreError "terminal status or reason is invalid") in
  match _identity config client_public_key request_id with
  | inl e => if is_store_or_unicode_error e then ret invalid_proof else raise e
  | inr i =>
      let supplied := _safe_cancellation_token_digest config cancellation_token in
      let* now := lift_val (_now epoch_time) in
      let* _ := _reap_locked config now in
      let* s := get_state in
      match dget (_terminals s) i with
      | Some terminal =>
          if bool_decide (status = "cancelled")
             && negb (compare_digest (t_cancellation_token_digest terminal) supplied)
          then ret invalid_proof
          else ret (MkTerminalTransitionResult (t_outcome terminal) (t_reason terminal) false)
      | None => cancel_live s i supplied status reason now
      end
  end.

(** ** Read-only views *)

Definition control_tombstones (epoch_time : pyval) : M (list ControlTombstoneRecord) :=
  let* now := lift_val (_now epoch_time) in
  let* _ := _reap_locked config now in
  let* s := get_state in
  ret (dvalues (_control_tombstones s)).

Definition node_tombstones (epoch_time : pyval) : M (list NodeTombstoneRecord) :=
  let* now := lift_val (_now epoch_time) in
  let* _ := _reap_locked config now in
  let* s := get_state in
  ret (map snd (py_sorted (fun a b => pystr_leb a.1 b.1) (_node_tombstones s))).

Definition terminal_records (epoch_time : pyval) : M (list TerminalOutcomeRecord) :=
  let* now := lift_val (_now epoch_time) in
  let* _ := _reap_locked config now in
  let* s := get_state in
  ret (dvalues (_terminals s)).

End operations.
