(* ===== verification/StoreInv.v ===== *)
(** * The representation invariant of the store

    [Inv] is what every public operation relies on and restores: the indexes
    agree with one another ([wf_*]), and every table respects the bound its
    configuration sets ([bounded]).  Each conjunct is stated over the attributes
    it concerns, so an operation only has to re-establish the conjuncts of the
    attributes it assigns.

    [known] is the set of node identifiers ever registered; the only fact about
    SHA-256 the invariant needs is that two of them do not share a digest. *)

From Stdlib Require Import Sorting.Sorted.
From stdpp Require Import relations.
From S2P Require Import Prelude PyFloat PyStr PyDict Sha256 StoreTypes StoreState StoreCore StoreOps.
#[local] Open Scope Z_scope.

Section invariant.
Context `{!Crypto}.
Variable config : RelayStateStoreConfig.
Variable known : pystr -> Prop.

(** ** Nodes *)
Record wf_nodes (records : dict pystr ComputeNodeRegistration)
  (sched : dict pystr SchedulerNodeState) (order : dict pystr Z) (next : Z)
  (pending : dict pystr PendingNodeTransition) : Prop := {
  wn_records : nodup_keys records;
  wn_sched : nodup_keys sched;
  wn_order : nodup_keys order;
  wn_pending : nodup_keys pending;
  wn_known : forall n, is_Some (dget records n) \/ is_Some (dget pending n) -> known n;
  wn_key : forall n r, dget records n = Some r -> node_id r = n;
  wn_sched_dom : forall n, is_Some (dget records n) <-> is_Some (dget sched n);
  wn_order_dom : forall n, is_Some (dget records n) <-> is_Some (dget order n);
  wn_order_lt : forall n k, dget order n = Some k -> 0 <= k < next;
  wn_order_inj : forall n1 n2 k, dget order n1 = Some k -> dget order n2 = Some k -> n1 = n2;
  wn_pending_key : forall n p, dget pending n = Some p ->
    pt_node_id p = n /\ pt_node_identity_digest p = _node_digest n;
  wn_disjoint : forall n, is_Some (dget pending n) -> dget records n = None;
  wn_next : 0 <= next
}.

(** A pending transition still owns its fence. *)
Record wf_fences (pending : dict pystr PendingNodeTransition)
  (former : dict pystr (dict pystr FormerNodeAuthority)) : Prop := {
  wfc_former : nodup_keys former;
  wfc_inner : forall d a, dget former d = Some a -> nodup_keys a;
  wfc_owned : forall n p, dget pending n = Some p ->
    is_Some (dget (dget_or former (pt_node_identity_digest p) []) (pt_control_credential_digest p))
}.

(** ** Live requests *)
Definition claim_of (q : QueuedRequest) (c : ClaimRecord) : Prop :=
  cl_client_identity_digest c = q_client_identity_digest q /\
  cl_request_identity_digest c = q_request_identity_digest q /\
  cl_selected_node_id c = q_selected_node_id q /\
  cl_sequence c = q_sequence q /\
  cl_request_deadline_epoch c = q_request_deadline_epoch q /\
  cl_envelope c = q_envelope q.

Record wf_live (res : dict identity ReservationRecord) (queued : dict identity QueuedRequest)
  (qtok cancel : dict identity pystr) (claims : dict identity ClaimRecord)
  (terms : dict identity TerminalOutcomeRecord) (next_gen : Z) : Prop := {
  wl_res : nodup_keys res;
  wl_queued : nodup_keys queued;
  wl_qtok : nodup_keys qtok;
  wl_cancel : nodup_keys cancel;
  wl_claims : nodup_keys claims;
  wl_terms : nodup_keys terms;
  wl_res_key : forall i r, dget res i = Some r ->
    (res_client_identity_digest r, res_request_identity_digest r) = i;
  wl_queued_key : forall i q, dget queued i = Some q -> queued_identity q = i;
  wl_res_queued : forall i, is_Some (dget res i) -> dget queued i = None;
  wl_term_live : forall i, is_Some (dget terms i) -> dget res i = None /\ dget queued i = None;
  wl_term_key : forall i t, dget terms i = Some t ->
    (t_client_identity_digest t, t_request_identity_digest t) = i;
  wl_qtok_dom : forall i, is_Some (dget qtok i) <-> is_Some (dget queued i);
  wl_cancel_dom : forall i, is_Some (dget cancel i) ->
    is_Some (dget res i) \/ is_Some (dget queued i);
  wl_queued_cancel : forall i, is_Some (dget queued i) -> is_Some (dget cancel i);
  wl_claim : forall i c, dget claims i = Some c ->
    exists q, dget queued i = Some q /\ claim_of q c;
  wl_gen : forall i c, dget claims i = Some c -> 1 <= cl_generation c <= next_gen;
  wl_gen_inj : forall i j c c', dget claims i = Some c -> dget claims j = Some c' ->
    cl_generation c = cl_generation c' -> i = j;
  wl_next_gen : 0 <= next_gen
}.

Definition at_node (n : pystr) (q : QueuedRequest) : bool :=
  bool_decide (q_selected_node_id q = n).

(** The per-node queues partition the queued requests, in arrival order. *)
Record wf_queue (queued : dict identity QueuedRequest)
  (queues : dict pystr (list QueuedRequest)) (next_seq : Z) : Prop := {
  wq_queues : nodup_keys queues;
  wq_partition : forall n, dget_or queues n [] = bfilter (at_node n) (dvalues queued);
  wq_nonempty : forall n, dget queues n ≠ Some [];
  wq_sorted : StronglySorted Z.lt (map q_sequence (dvalues queued));
  wq_bound : forall q, q ∈ dvalues queued -> 1 <= q_sequence q <= next_seq;
  wq_next : 0 <= next_seq
}.

(** [i] is live at node [n]. *)
Definition live_at (res : dict identity ReservationRecord) (queued : dict identity QueuedRequest)
  (n : pystr) (i : identity) : Prop :=
  (exists r, dget res i = Some r /\ res_selected_node_id r = n) \/
  (exists q, dget queued i = Some q /\ q_selected_node_id q = n).

(** The work index is the live requests by node, and every such node is
    registered or being removed. *)
Record wf_work (res : dict identity ReservationRecord) (queued : dict identity QueuedRequest)
  (work : dict pystr (dict identity unit)) (records : dict pystr ComputeNodeRegistration)
  (pending : dict pystr PendingNodeTransition) : Prop := {
  ww_work : nodup_keys work;
  ww_inner : forall n d, dget work n = Some d -> nodup_keys d /\ d ≠ [];
  ww_live : forall n i, is_Some (dget (dget_or work n []) i) <-> live_at res queued n i;
  ww_node : forall n i, live_at res queued n i ->
    is_Some (dget records n) \/ is_Some (dget pending n)
}.

(** ** Outcomes *)
Record wf_outcomes (terms : dict identity TerminalOutcomeRecord)
  (responses : dict identity ResponseRecord) (tombs : dict identity ControlTombstoneRecord)
  (ntombs : dict pystr NodeTombstoneRecord) (cursors : dict pystr (pystr * Z)) : Prop := {
  wo_responses : nodup_keys responses;
  wo_tombs : nodup_keys tombs;
  wo_ntombs : nodup_keys ntombs;
  wo_cursors : nodup_keys cursors;
  wo_ready : forall i t, dget terms i = Some t ->
    t_retrieval_state t = "response_ready" -> is_Some (dget responses i);
  wo_rsp_key : forall i r, dget responses i = Some r ->
    (rsp_client_identity_digest r, rsp_request_identity_digest r) = i
}.

(** ** Bounds *)
Record bounded (s : store) : Prop := {
  bd_records : dlen (_records s) <= max_compute_nodes config;
  bd_pending : dlen (_pending_node_transitions s) <= max_pending_node_transitions config;
  bd_reservations : dlen (_reservations s) <= max_reservations config;
  bd_lifecycles : dlen (_reservations s) + dlen (_queued s) <= max_request_lifecycles config;
  bd_client : forall c,
    dcount (fun r => bool_decide (res_client_identity_digest r = c)) (_reservations s)
    + dcount (fun q => bool_decide (q_client_identity_digest q = c)) (_queued s)
      <= max_reservations_per_client config;
  bd_queued : dlen (_queued s) <= max_queued_requests config;
  bd_queued_client : forall c,
    dcount (fun q => bool_decide (q_client_identity_digest q = c)) (_queued s)
      <= max_queued_requests_per_client config;
  bd_node_queue : forall n, dcount (at_node n) (_queued s) <= max_queue_depth_per_node config;
  bd_responses : dlen (_responses s) <= max_responses config;
  bd_rsp_client : forall c,
    dcount (fun r => bool_decide (rsp_client_identity_digest r = c)) (_responses s)
      <= max_responses_per_client config;
  bd_terminals : dlen (_terminals s) <= max_terminal_records config;
  bd_term_client : forall c,
    dcount (fun t => bool_decide (t_client_identity_digest t = c)) (_terminals s)
      <= max_terminal_records_per_client config;
  bd_tombs : dlen (_control_tombstones s) <= max_control_tombstones config;
  bd_tombs_node : forall n,
    dcount (fun t => bool_decide (ct_selected_node_id t = n)) (_control_tombstones s)
      <= max_control_tombstones_per_node config;
  bd_ntombs : dlen (_node_tombstones s) <= max_node_tombstones config;
  bd_fences : fences_total (_former_node_authorities s) <= max_removed_owner_fences config;
  bd_cursors : dlen (_fairness_cursors s) <= max_scheduler_fingerprints config
}.

Record Inv (s : store) : Prop := {
  inv_nodes : wf_nodes (_records s) (_scheduler_states s) (_registration_order s)
                (_next_registration_order s) (_pending_node_transitions s);
  inv_fences : wf_fences (_pending_node_transitions s) (_former_node_authorities s);
  inv_live : wf_live (_reservations s) (_queued s) (_queued_token_digests s)
               (_cancellation_token_digests s) (_claims s) (_terminals s)
               (_next_claim_generation s);
  inv_queue : wf_queue (_queued s) (_node_queues s) (_next_queue_sequence s);
  inv_work : wf_work (_reservations s) (_queued s) (_node_work_identities s) (_records s)
               (_pending_node_transitions s);
  inv_outcomes : wf_outcomes (_terminals s) (_responses s) (_control_tombstones s)
                   (_node_tombstones s) (_fairness_cursors s);
  inv_bounded : bounded s
}.

(** ** The abstract lifecycle of a request *)
Inductive phase : Type :=
| Absent
| Reserved (n : pystr)
| Queued (n : pystr) (generation : option Z)
| Terminal (outcome : pystr).

Definition phase_of (s : store) (i : identity) : phase :=
  match dget (_terminals s) i with
  | Some t => Terminal (t_outcome t)
  | None =>
      match dget (_reservations s) i with
      | Some r => Reserved (res_selected_node_id r)
      | None =>
          match dget (_queued s) i with
          | Some q => Queued (q_selected_node_id q) (cl_generation <$> dget (_claims s) i)
          | None => Absent
          end
      end
  end.

(** The moves the specification allows; a claim is only ever superseded by a
    later generation, and an outcome is only ever forgotten. *)
Inductive phase_step : phase -> phase -> Prop :=
| step_reserve n : phase_step Absent (Reserved n)
| step_release n : phase_step (Reserved n) Absent
| step_enqueue n : phase_step (Reserved n) (Queued n None)
| step_claim n g : phase_step (Queued n None) (Queued n (Some g))
| step_reclaim n g g' : g < g' -> phase_step (Queued n (Some g)) (Queued n (Some g'))
| step_end_reserved n o : phase_step (Reserved n) (Terminal o)
| step_end_queued n g o : phase_step (Queued n g) (Terminal o)
| step_forget o : phase_step (Terminal o) Absent.

(** What any piece of store code may do to a state. *)
Record evolves (s s' : store) : Prop := {
  ev_phase : forall i, rtc phase_step (phase_of s i) (phase_of s' i);
  ev_gen : _next_claim_generation s <= _next_claim_generation s';
  ev_seq : _next_queue_sequence s <= _next_queue_sequence s';
  ev_order : _next_registration_order s <= _next_registration_order s'
}.

#[export] Instance evolves_preorder : PreOrder evolves.
Proof.
  split.
  - intros s. split; try lia. intros i. apply rtc_refl.
  - intros s1 s2 s3 [P1 G1 Q1 O1] [P2 G2 Q2 O2]. split; try lia.
    intros i. etransitivity; [apply P1|apply P2].
Qed.

(** Code that touches none of the four lifecycle tables. *)
Lemma evolves_same s s' :
  _terminals s' = _terminals s -> _reservations s' = _reservations s ->
  _queued s' = _queued s -> _claims s' = _claims s ->
  _next_claim_generation s <= _next_claim_generation s' ->
  _next_queue_sequence s <= _next_queue_sequence s' ->
  _next_registration_order s <= _next_registration_order s' -> evolves s s'.
Proof.
  intros Ht Hr Hq Hc ???. split; try done. intros i. unfold phase_of.
  rewrite Ht, Hr, Hq, Hc. apply rtc_refl.
Qed.

(** At most one step per identity. *)
Lemma evolves_step s s' :
  (forall i, phase_of s i = phase_of s' i \/ phase_step (phase_of s i) (phase_of s' i)) ->
  _next_claim_generation s <= _next_claim_generation s' ->
  _next_queue_sequence s <= _next_queue_sequence s' ->
  _next_registration_order s <= _next_registration_order s' -> evolves s s'.
Proof.
  intros Hi ???. split; try done. intros i. destruct (Hi i) as [->|Hs].
  - apply rtc_refl.
  - by apply rtc_once.
Qed.

(** ** Specified computations

    [sound P m]: from an invariant state satisfying [P], [m] ends in an invariant
    state the start evolves to, and it never raises [KeyError]. *)
Definition ok_state (s0 s' : store) : Prop := Inv s' /\ evolves s0 s'.

Definition sound_at {A} (m : M A) (s : store) : Prop :=
  wp m (fun _ s' => ok_state s s') (fun e s' => ok_state s s' /\ e ≠ KeyError) s.

Definition sound {A} (m : M A) : Prop := forall s, Inv s -> sound_at m s.

Lemma ok_refl s : Inv s -> ok_state s s.
Proof. intros Hs. by split. Qed.

Lemma ok_trans s1 s2 s3 : ok_state s1 s2 -> ok_state s2 s3 -> ok_state s1 s3.
Proof. intros [_ H1] [H2 H3]. split; [done|]. etransitivity; [exact H1|exact H3]. Qed.

Lemma sound_ret {A} (a : A) : sound (ret a).
Proof. intros s Hs. by apply wp_ret, ok_refl. Qed.

Lemma sound_raise {A} (e : store_error) : e ≠ KeyError -> sound (raise (A := A) e).
Proof. intros He s Hs. apply wp_raise. split; [by apply ok_refl|done]. Qed.

Lemma sound_raise_if c (e : store_error) : e ≠ KeyError -> sound (raise_if c e).
Proof. intros He. destruct c; [by apply sound_raise|apply sound_ret]. Qed.

Lemma sound_from_option {A} (o : option A) (e : store_error) :
  e ≠ KeyError -> sound (from_option o e).
Proof. intros He. destruct o; [apply sound_ret|by apply sound_raise]. Qed.

(** The continuation runs in an invariant state reached from the start. *)
Lemma sound_at_bind {A B} (m : M A) (f : A -> M B) s :
  sound_at m s ->
  (forall a s', m s = (s', inr a) -> ok_state s s' -> sound_at (f a) s') ->
  sound_at (bind m f) s.
Proof.
  unfold sound_at, wp, bind. intros Hm Hf. destruct (m s) as [s1 [e|a]]; [done|].
  specialize (Hf a s1 eq_refl Hm). destruct (f a s1) as [s2 [e|b]].
  - destruct Hf as [H1 H2]. split; [|done]. by eapply ok_trans.
  - by eapply ok_trans.
Qed.

Lemma sound_bind {A B} (m : M A) (f : A -> M B) :
  sound m -> (forall a, sound (f a)) -> sound (bind m f).
Proof.
  intros Hm Hf s Hs. apply sound_at_bind; [by apply Hm|].
  intros a s' _ [Hs' _]. by apply Hf.
Qed.

Lemma sound_get {B} (f : store -> M B) :
  (forall s, Inv s -> sound_at (f s) s) -> sound (bind get_state f).
Proof. intros Hf s Hs. exact (Hf s Hs). Qed.

Lemma sound_if {A} (b : bool) (m1 m2 : M A) : sound m1 -> sound m2 -> sound (if b then m1 else m2).
Proof. by destruct b. Qed.

Lemma sound_modify (f : store -> store) :
  (forall s, Inv s -> ok_state s (f s)) -> sound (modify f).
Proof. intros Hf s Hs. apply wp_modify. by apply Hf. Qed.

Lemma sound_for_each {X} (l : list X) (body : X -> M unit) :
  (forall x, x ∈ l -> sound (body x)) -> sound (for_each l body).
Proof.
  induction l as [|x l IH]; intros Hb; simpl; [apply sound_ret|].
  apply sound_bind; [apply Hb; left|]. intros _. apply IH. intros y Hy. apply Hb. by right.
Qed.

(** A loop whose body needs a further invariant [I]. *)
Lemma sound_at_for_each {X} (I : store -> Prop) (l : list X) (body : X -> M unit) s :
  Inv s -> I s ->
  (forall x s', x ∈ l -> ok_state s s' -> I s' ->
     wp (body x) (fun _ s'' => ok_state s' s'' /\ I s'')
       (fun e s'' => ok_state s' s'' /\ e ≠ KeyError) s') ->
  wp (for_each l body) (fun _ s' => ok_state s s' /\ I s')
    (fun e s' => ok_state s s' /\ e ≠ KeyError) s.
Proof.
  intros HInv HI Hb.
  assert (Hgen : forall s1, ok_state s s1 -> I s1 ->
    wp (for_each l body) (fun _ s' => ok_state s s' /\ I s')
      (fun e s' => ok_state s s' /\ e ≠ KeyError) s1).
  { induction l as [|x l IH]; intros s1 H1 HI1; simpl; [done|]. apply wp_bind.
    eapply wp_mono; [apply (Hb x s1); [left|done|done]| |].
    - intros a s2 [H2 HI2]. apply IH; [|by eapply ok_trans|done].
      intros y s' Hy. apply Hb. by right.
    - intros e s2 [H2 He]. split; [by eapply ok_trans|done]. }
  apply Hgen; [by apply ok_refl|done].
Qed.

Lemma sound_at_loop {X} (I : store -> Prop) (l : list X) (body : X -> M unit) s :
  Inv s -> I s ->
  (forall x s', x ∈ l -> ok_state s s' -> I s' ->
     wp (body x) (fun _ s'' => ok_state s' s'' /\ I s'')
       (fun e s'' => ok_state s' s'' /\ e ≠ KeyError) s') ->
  sound_at (for_each l body) s.
Proof.
  intros Hs HI Hb. pose proof (sound_at_for_each I l body s Hs HI Hb) as Hw.
  unfold sound_at, wp in *. destruct (for_each l body s) as [s' [e|a]]; [done|apply Hw].
Qed.

Lemma sound_try_except {A} (m : M A) p h : sound m -> sound h -> sound (try_except m p h).
Proof.
  intros Hm Hh s Hs. specialize (Hm s Hs). unfold sound_at, wp, try_except in *.
  destruct (m s) as [s1 [e|a]]; [|done]. destruct Hm as [H1 He].
  destruct (p e); [|done]. destruct H1 as [H1 H1'].
  specialize (Hh s1 H1). unfold sound_at, wp in Hh.
  assert (Hok : ok_state s s1) by done.
  destruct (h s1) as [s2 [e'|a]].
  - destruct Hh as [H2 He']. split; [by eapply ok_trans|done].
  - by eapply ok_trans.
Qed.

End invariant.
