(* ===== verification/StoreAtoms.v ===== *)
(** * Elementary transitions and the invariant

    How each conjunct of [Inv] survives the elementary updates the operations
    are made of: a request leaving the live tables, an outcome being recorded or
    forgotten, a node being registered, removed or completed.  The operations'
    proofs only combine these lemmas. *)

From Stdlib Require Import Sorting.Sorted.
From stdpp Require Import relations.
From S2P Require Import Prelude PyFloat PyStr PyDict Sha256 StoreTypes StoreState.
From S2P Require Import StoreCore StoreOps StoreInv.
#[local] Open Scope Z_scope.

Lemma StronglySorted_bfilter {A} (f : A -> Z) p (l : list A) :
  StronglySorted Z.lt (map f l) -> StronglySorted Z.lt (map f (bfilter p l)).
Proof.
  unfold bfilter. induction l as [|x l IH]; simpl; [done|].
  intros [Hs Hx]%StronglySorted_inv. destruct (p x); simpl; [|by apply IH].
  constructor; [by apply IH|]. rewrite Forall_forall in Hx |- *.
  intros y Hy. apply Hx. apply list_elem_of_fmap in Hy as (z & -> & Hz).
  apply list_elem_of_fmap. exists z. split; [done|]. by apply elem_of_bfilter in Hz as [? _].
Qed.

Lemma queued_eqb_refl q : queued_eqb q q = true.
Proof.
  unfold queued_eqb, float_item_eqb, envelope_eqb.
  rewrite !bool_decide_eq_true_2 by done. by rewrite Z.eqb_refl.
Qed.

Lemma queued_eqb_true a b :
  queued_eqb a b = true ->
  queued_identity a = queued_identity b /\ q_selected_node_id a = q_selected_node_id b.
Proof. unfold queued_eqb, queued_identity. intros H. bdestruct. by split; [f_equal|]. Qed.

(** ** The work index *)

Definition works_ok (work : dict pystr (dict identity unit)) : Prop :=
  nodup_keys work /\ forall n d, dget work n = Some d -> nodup_keys d /\ d ≠ [].

Lemma works_ok_discard work n i : works_ok work -> works_ok (discard_work work n i).
Proof.
  intros [Hw Hi]. unfold discard_work. destruct (dget work n) as [d|] eqn:E; [|done].
  destruct (Hi _ _ E) as [Hd _].
  destruct (ddel d i) as [|x rest] eqn:Ed; split; auto with dict_db.
  - intros n' d'. rewrite dget_ddel_Some by done. intros [_ ?]. by apply Hi in H.
  - intros n' d'. rewrite dget_dset. case_bool_decide; [|by intros ?%Hi].
    intros [= <-]. split; [|done]. rewrite <- Ed. by apply nodup_ddel.
Qed.

Lemma dget_or_discard work n i n' :
  works_ok work ->
  dget_or (discard_work work n i) n' [] =
    if bool_decide (n' = n) then ddel (dget_or work n []) i else dget_or work n' [].
Proof.
  intros [Hw Hi]. unfold discard_work, dget_or. destruct (dget work n) as [d|] eqn:E; simpl.
  - destruct (ddel d i) as [|x rest] eqn:Ed; case_bool_decide; subst.
    + by rewrite dget_ddel_eq.
    + by rewrite dget_ddel_ne.
    + by rewrite dget_dset_eq.
    + by rewrite dget_dset_ne.
  - case_bool_decide; [|done]. subst. by rewrite E.
Qed.

Lemma works_ok_inner work n : works_ok work -> nodup_keys (dget_or work n []).
Proof.
  intros [_ Hi]. unfold dget_or. destruct (dget work n) as [d|] eqn:E; simpl; [|constructor].
  by apply Hi in E as [? _].
Qed.

Lemma work_discard work n i n' i' :
  works_ok work ->
  is_Some (dget (dget_or (discard_work work n i) n' []) i') <->
  is_Some (dget (dget_or work n' []) i') /\ ~ (n' = n /\ i' = i).
Proof.
  intros Hw. rewrite dget_or_discard by done. case_bool_decide; [subst|tauto].
  rewrite is_Some_ddel by (by apply works_ok_inner). tauto.
Qed.

Lemma discard_work_absent work n i :
  works_ok work -> dget (dget_or work n []) i = None -> discard_work work n i = work.
Proof.
  intros [Hw Hi] Hn. unfold discard_work, dget_or in *.
  destruct (dget work n) as [d|] eqn:E; [|done]. simpl in Hn.
  destruct (Hi _ _ E) as [_ Hne]. rewrite ddel_notin by done.
  destruct d; [done|]. by apply dset_id.
Qed.

Lemma discard_work_idem work n i :
  works_ok work -> discard_work (discard_work work n i) n i = discard_work work n i.
Proof.
  intros Hw. apply discard_work_absent; [by apply works_ok_discard|].
  rewrite dget_or_discard, bool_decide_eq_true_2 by done.
  apply dget_ddel_eq. by apply works_ok_inner.
Qed.

Section atoms.
Context `{!Crypto}.
Variable config : RelayStateStoreConfig.
Variable known : pystr -> Prop.

(** ** A request leaves the live tables *)

Lemma wf_live_drop res queued qtok cancel claims terms g i :
  wf_live res queued qtok cancel claims terms g ->
  wf_live (ddel res i) (ddel queued i) (ddel qtok i) (ddel cancel i) (ddel claims i) terms g.
Proof.
  intros [?????? Hrk Hk Hrq Htl ? Hqt Hc Hqc Hcl Hg Hgi ?]. split; auto with dict_db.
  - intros j r. rewrite dget_ddel_Some by done. intros [_ ?]. by apply Hrk.
  - intros j q. rewrite dget_ddel_Some by done. intros [_ ?]. by apply Hk.
  - intros j. rewrite is_Some_ddel by done. intros [_ ?]. by apply dget_ddel_None; [|apply Hrq].
  - intros j Hj. destruct (Htl j Hj). split; by apply dget_ddel_None.
  - intros j. rewrite !is_Some_ddel by done. by rewrite Hqt.
  - intros j. rewrite !is_Some_ddel by done. intros [? Hj]. destruct (Hc j Hj); tauto.
  - intros j. rewrite !is_Some_ddel by done. intros [? Hj]. split; [done|by apply Hqc].
  - intros j c. rewrite dget_ddel_Some by done. intros [Hj Hjc].
    destruct (Hcl j c Hjc) as (q & Hq & ?). exists q. by rewrite dget_ddel_ne.
  - intros j c. rewrite dget_ddel_Some by done. intros [_ ?]. by eapply Hg.
  - intros j k c c'. rewrite !dget_ddel_Some by done. intros [_ ?] [_ ?]. by eapply Hgi.
Qed.

(** Outside the live tables, an outcome may be recorded or updated. *)
Lemma wf_live_terminal res queued qtok cancel claims terms g i t :
  wf_live res queued qtok cancel claims terms g ->
  dget res i = None -> dget queued i = None ->
  (t_client_identity_digest t, t_request_identity_digest t) = i ->
  wf_live res queued qtok cancel claims (dset terms i t) g.
Proof.
  intros [????????? Htl Htk ???????] Hr Hq Ht. split; auto with dict_db.
  - intros j. rewrite is_Some_dset. intros [->|Hj]; [done|by apply Htl].
  - intros j t'. rewrite dget_dset. case_bool_decide; [|by apply Htk]. by intros [= <-]; subst.
Qed.

(** Outcomes may be forgotten. *)
Lemma wf_live_fewer_terminals res queued qtok cancel claims terms g p :
  wf_live res queued qtok cancel claims terms g ->
  wf_live res queued qtok cancel claims (bfilter p terms) g.
Proof.
  intros []. split; auto using nodup_bfilter.
  - intros j [t Hj]. apply dget_bfilter_Some in Hj as [Hj _]; [|done]. eauto.
  - intros j t Hj. apply dget_bfilter_Some in Hj as [Hj _]; [|done]. eauto.
Qed.

Lemma dvalues_ddel_queued res queued qtok cancel claims terms g i q :
  wf_live res queued qtok cancel claims terms g -> dget queued i = Some q ->
  dvalues (ddel queued i) = bfilter (fun x => negb (queued_eqb x q)) (dvalues queued).
Proof.
  intros Hl Hq. apply dvalues_ddel_filter with (v := q); [apply Hl|done|].
  intros j q' Hj. f_equal. pose proof (wl_queued_key _ _ _ _ _ _ _ Hl) as Hkey.
  destruct (decide (j = i)) as [->|Hne].
  - rewrite bool_decide_eq_true_2 by done. replace q' with q by congruence.
    apply queued_eqb_refl.
  - rewrite bool_decide_eq_false_2 by done. apply not_true_is_false. intros Heq.
    apply queued_eqb_true in Heq as [Heq _]. apply Hne.
    rewrite <- (Hkey _ _ Hj), <- (Hkey _ _ Hq). done.
Qed.

Lemma wf_queue_drop res queued qtok cancel claims terms g queues seq i q :
  wf_live res queued qtok cancel claims terms g -> wf_queue queued queues seq ->
  dget queued i = Some q -> wf_queue (ddel queued i) (remove_from_queue queues q) seq.
Proof.
  intros Hl [Hn Hp Hne Hs Hb Hnx] Hq.
  pose proof (dvalues_ddel_queued _ _ _ _ _ _ _ _ _ Hl Hq) as Hv.
  assert (Hpart : forall n, dget_or (remove_from_queue queues q) n [] =
                            bfilter (at_node n) (dvalues (ddel queued i))).
  { intros n. rewrite Hv. unfold remove_from_queue. rewrite Hp.
    destruct (decide (n = q_selected_node_id q)) as [->|Hnq].
    - rewrite bfilter_comm. unfold dget_or.
      case_match; [by rewrite dget_ddel_eq|by rewrite dget_dset_eq].
    - rewrite (bfilter_bfilter_imp (at_node n)).
      + rewrite <- (Hp n). unfold dget_or.
        case_match; [by rewrite dget_ddel_ne|by rewrite dget_dset_ne].
      + intros x _ Hx. apply negb_true_iff, not_true_is_false. intros Heq.
        apply queued_eqb_true in Heq as [_ Heq]. unfold at_node in Hx. bdestruct. congruence. }
  split; try done.
  - unfold remove_from_queue. case_match; auto with dict_db.
  - intros n. unfold remove_from_queue.
    case_match.
    + rewrite dget_ddel by done. by case_bool_decide.
    + rewrite dget_dset. by case_bool_decide.
  - rewrite Hv. by apply StronglySorted_bfilter.
  - intros x. rewrite Hv, elem_of_bfilter. intros [? _]. by apply Hb.
Qed.

Definition queues_without (s : store) (i : identity) : dict pystr (list QueuedRequest) :=
  match dget (_queued s) i with
  | Some q => remove_from_queue (_node_queues s) q
  | None => _node_queues s
  end.

(** The live tables without request [i] of node [n]. *)
Definition drop_live (i : identity) (n : pystr) (s : store) : store :=
  set_reservations (ddel (_reservations s) i)
    (set_queued (ddel (_queued s) i)
      (set_queued_token_digests (ddel (_queued_token_digests s) i)
        (set_cancellation_token_digests (ddel (_cancellation_token_digests s) i)
          (set_node_queues (queues_without s i)
            (set_claims (ddel (_claims s) i)
              (set_node_work_identities (discard_work (_node_work_identities s) n i) s)))))).

Lemma live_at_ddel res queued n i j :
  nodup_keys res -> nodup_keys queued ->
  live_at (ddel res i) (ddel queued i) n j <-> live_at res queued n j /\ j ≠ i.
Proof.
  intros Hr Hq. unfold live_at. split.
  - intros [(r & Hr' & ?)|(q & Hq' & ?)].
    + apply dget_ddel_Some in Hr' as [? ?]; [|done]. split; eauto.
    + apply dget_ddel_Some in Hq' as [? ?]; [|done]. split; eauto.
  - intros [[(r & Hr' & ?)|(q & Hq' & ?)] Hne].
    + left. exists r. by rewrite dget_ddel_ne.
    + right. exists q. by rewrite dget_ddel_ne.
Qed.

Lemma wf_work_drop res queued work recs pend n i :
  nodup_keys res -> nodup_keys queued ->
  (forall j, is_Some (dget res j) -> dget queued j = None) ->
  wf_work res queued work recs pend ->
  (forall n', live_at res queued n' i -> n' = n) ->
  wf_work (ddel res i) (ddel queued i) (discard_work work n i) recs pend.
Proof.
  intros Hr Hq Hrq [Hw Hi Hl Hnode] Hn.
  destruct (works_ok_discard work n i (conj Hw Hi)) as [Hw' Hi'].
  assert (Hlive : forall n' j, live_at (ddel res i) (ddel queued i) n' j <->
                               live_at res queued n' j /\ j ≠ i).
  { intros n' j. apply live_at_ddel; done. }
  split; try done.
  - intros n' j. rewrite work_discard, Hl, Hlive by (split; done).
    split; intros [Hlj Hnj]; split; try done.
    + intros ->. apply Hnj. split; [by apply Hn|done].
    + by intros [_ ?].
  - intros n' j [Hj _]%Hlive. by apply (Hnode n' j).
Qed.

Lemma bd_node_queue_zlen s : Inv config known s -> forall n,
  zlen (dget_or (_node_queues s) n []) = dcount (at_node n) (_queued s).
Proof. intros Hs n. rewrite (wq_partition _ _ _ (inv_queue _ _ _ Hs)). done. Qed.

Lemma bounded_drop i n s : bounded config s -> bounded config (drop_live i n s).
Proof.
  intros [].
  split; simpl; try assumption.
  - etransitivity; [apply dlen_ddel_le|done].
  - etransitivity; [|exact bd_lifecycles]. apply Z.add_le_mono; apply dlen_ddel_le.
  - intros c. etransitivity; [|exact (bd_client c)]. apply Z.add_le_mono; apply dcount_ddel_le.
  - etransitivity; [apply dlen_ddel_le|done].
  - intros c. etransitivity; [apply dcount_ddel_le|done].
  - intros m. etransitivity; [apply dcount_ddel_le|done].
Qed.

(** [i] is live at no node but [n]. *)
Definition live_only_at (s : store) (i : identity) (n : pystr) : Prop :=
  forall n', live_at (_reservations s) (_queued s) n' i -> n' = n.

Lemma Inv_drop i n s : Inv config known s -> live_only_at s i n -> Inv config known (drop_live i n s).
Proof.
  intros [Hnd Hf Hl Hq Hw Ho Hb] Hn. split; try done.
  - by apply wf_live_drop.
  - simpl. unfold queues_without. destruct (dget (_queued s) i) as [q|] eqn:E.
    + by eapply wf_queue_drop.
    + by rewrite ddel_notin.
  - simpl. apply wf_work_drop; try done; apply Hl.
  - by apply bounded_drop.
Qed.

Lemma live_record_only_at s i r :
  Inv config known s -> live_record s i = Some r -> live_only_at s i (lr_selected_node_id r).
Proof.
  intros Hs Hr n' Hl. pose proof (wl_res_queued _ _ _ _ _ _ _ (inv_live _ _ _ Hs)) as Hrq.
  unfold live_record in Hr. destruct Hl as [(r' & Hr' & <-)|(q & Hq & <-)].
  - rewrite Hr' in Hr. by simplify_eq.
  - destruct (dget (_reservations s) i) eqn:E.
    + specialize (Hrq i ltac:(eauto)). congruence.
    + rewrite Hq in Hr. by simplify_eq.
Qed.

Lemma live_record_None s i :
  live_record s i = None <-> dget (_reservations s) i = None /\ dget (_queued s) i = None.
Proof.
  unfold live_record. destruct (dget (_reservations s) i); [by split; [|intros []]|].
  destruct (dget (_queued s) i); split; try done. by intros [].
Qed.

Lemma not_live_only_at s i n : live_record s i = None -> live_only_at s i n.
Proof.
  intros [Hr Hq]%live_record_None n' [(r & Hr' & _)|(q & Hq' & _)]; congruence.
Qed.

(** Only phases of [i] move when [i] is dropped. *)
Lemma phase_drop_other i n s j :
  Inv config known s -> j ≠ i -> phase_of (drop_live i n s) j = phase_of s j.
Proof.
  intros Hs Hj. pose proof (inv_live _ _ _ Hs) as Hl. unfold phase_of, drop_live. simpl.
  rewrite !dget_ddel_ne by (apply Hl || done). done.
Qed.

Lemma phase_live s i r :
  Inv config known s -> live_record s i = Some r ->
  match r with
  | LReservation r => phase_of s i = Reserved (res_selected_node_id r)
  | LQueued q => phase_of s i = Queued (q_selected_node_id q) (cl_generation <$> dget (_claims s) i)
  end.
Proof.
  intros Hs Hr. pose proof (wl_term_live _ _ _ _ _ _ _ (inv_live _ _ _ Hs) i) as Ht.
  unfold live_record in Hr. unfold phase_of.
  destruct (dget (_terminals s) i) eqn:Et.
  - destruct Ht as [Hr1 Hq1]; [eauto|]. rewrite Hr1, Hq1 in Hr. done.
  - destruct (dget (_reservations s) i) as [r0|]; simplify_eq; [done|].
    destruct (dget (_queued s) i); by simplify_eq.
Qed.

Lemma not_live_terminal s i :
  Inv config known s -> is_Some (live_record s i) -> dget (_terminals s) i = None.
Proof.
  intros Hs [r Hr]. pose proof (wl_term_live _ _ _ _ _ _ _ (inv_live _ _ _ Hs) i) as Ht.
  destruct (dget (_terminals s) i) eqn:Et; [|done].
  destruct Ht as [Hr1 Hq1]; [eauto|]. unfold live_record in Hr. rewrite Hr1, Hq1 in Hr. done.
Qed.

(** ** Recording the outcome of a live request *)

Definition terminalized (i : identity) (record : lifecycle_record) (status reason : pystr)
  (now : float64) (force : bool) (s : store) : store :=
  let tc := tombstone_claim s i record status now force in
  set_deferred_deadline_identities (identity_discard i (_deferred_deadline_identities s))
    (set_control_tombstones
       (match tc with
        | Some c => dset (_control_tombstones s) i (claim_tombstone config i c status reason now)
        | None => _control_tombstones s
        end)
       (set_terminals
          (dset (_terminals s) i (cancelled_terminal config s i record tc status reason now))
          (drop_live i (lr_selected_node_id record) s))).

Lemma Inv_works_ok s : Inv config known s -> works_ok (_node_work_identities s).
Proof. intros Hs. pose proof (inv_work _ _ _ Hs) as []. by split. Qed.

Lemma no_claim_unqueued s i :
  Inv config known s -> dget (_queued s) i = None -> dget (_claims s) i = None.
Proof.
  intros Hs Hq. destruct (dget (_claims s) i) eqn:E; [|done].
  destruct (wl_claim _ _ _ _ _ _ _ (inv_live _ _ _ Hs) _ _ E) as (q & ? & _). congruence.
Qed.

Lemma terminalize_eq i record status reason now force s :
  Inv config known s -> live_record s i = Some record ->
  _terminalize_locked config i record status reason now force s =
    if terminal_capacity_full config s i.1
    then (s, inl (RelayStateCapacityExceeded "terminal lifecycle capacity reached"))
    else if match tombstone_claim s i record status now force with
            | Some c => tombstone_capacity_full config s (cl_selected_node_id c)
            | None => false
            end
    then (s, inl (RelayStateCapacityExceeded "control tombstone capacity reached"))
    else (terminalized i record status reason now force s,
          inr (MkTerminalTransitionResult status reason true)).
Proof.
  intros Hs Hr. pose proof (inv_live _ _ _ Hs) as Hl.
  unfold _terminalize_locked. cbn [bind get_state].
  destruct (terminal_capacity_full config s i.1); [done|]. cbn [bind raise_if ret].
  unfold terminalized. set (tc := tombstone_claim s i record status now force).
  assert (Hsel : forall q, dget (_queued s) i = Some q ->
                   q_selected_node_id q = lr_selected_node_id record).
  { intros q Hq. apply (live_record_only_at _ _ _ Hs Hr). right. by exists q. }
  destruct (dget (_queued s) i) as [q|] eqn:Eq.
  - specialize (Hsel q eq_refl).
    destruct tc as [c|]; [destruct (tombstone_capacity_full _ _ _); [done|]|];
      unfold bind, modify, get_state; simpl; rewrite Eq;
      unfold _remove_queued_identity_locked, _discard_node_work_identity_locked, bind, modify, ret;
      simpl; unfold drop_live, queues_without; simpl; rewrite Eq, Hsel;
      rewrite !ddel_idem by apply Hl;
      rewrite !discard_work_idem by (by apply Inv_works_ok); done.
  - destruct tc as [c|]; [destruct (tombstone_capacity_full _ _ _); [done|]|];
      unfold bind, modify, get_state; simpl; rewrite Eq;
      unfold _discard_node_work_identity_locked, bind, modify, ret;
      simpl; unfold drop_live, queues_without; simpl; rewrite Eq;
      rewrite (ddel_notin (_queued s)) by done;
      rewrite (ddel_notin (_claims s)) by (by apply no_claim_unqueued); done.
Qed.

(** A bounded table stays bounded when an insertion was guarded. *)
Lemma guarded_dlen {K V} `{EqDecision K} (d : dict K V) k v bound :
  (bound <=? dlen d) = false -> dlen (dset d k v) <= bound.
Proof. intros ?%Z.leb_gt. pose proof (dlen_dset_le d k v). lia. Qed.

Lemma guarded_dcount {K V} `{EqDecision K} (f : V -> pystr) (d : dict K V) k v bound c :
  dcount (fun x => bool_decide (f x = c)) d <= bound ->
  (bound <=? dcount (fun x => bool_decide (f x = f v)) d) = false ->
  dcount (fun x => bool_decide (f x = c)) (dset d k v) <= bound.
Proof.
  intros Hle ?%Z.leb_gt. pose proof (dcount_dset_le (fun x => bool_decide (f x = c)) d k v) as Hd.
  cbv beta in Hd. case_bool_decide; subst; lia.
Qed.

Lemma terminalized_outcomes terms responses tombs ntombs cursors i t tombs' :
  wf_outcomes terms responses tombs ntombs cursors -> nodup_keys tombs' ->
  t_retrieval_state t ≠ "response_ready" ->
  wf_outcomes (dset terms i t) responses tombs' ntombs cursors.
Proof.
  intros [? ? ? ? Hready Hrk] Ht Hst. split; try assumption.
  intros j t'. rewrite dget_dset. case_bool_decide; [|by apply Hready]. by intros [= <-].
Qed.

Lemma terminalized_bounded i record status reason now force s :
  bounded config s ->
  terminal_capacity_full config s i.1 = false ->
  match tombstone_claim s i record status now force with
  | Some c => tombstone_capacity_full config s (cl_selected_node_id c)
  | None => false
  end = false ->
  bounded config (terminalized i record status reason now force s).
Proof.
  intros Hb Hcap Htomb. apply orb_false_iff in Hcap as [Hcap1 Hcap2].
  pose proof (bounded_drop i (lr_selected_node_id record) s Hb) as [].
  unfold terminalized. split; try assumption.
  - simpl. by apply guarded_dlen.
  - intros c. apply (guarded_dcount t_client_identity_digest); [apply Hb|]. done.
  - simpl. destruct (tombstone_claim _ _ _ _ _ _) as [c|]; [|done].
    apply orb_false_iff in Htomb as [? _]. by apply guarded_dlen.
  - intros n. simpl. destruct (tombstone_claim _ _ _ _ _ _) as [c|]; [|apply Hb].
    apply orb_false_iff in Htomb as [_ ?].
    apply (guarded_dcount ct_selected_node_id); [apply Hb|done].
Qed.

Lemma terminalized_Inv i record status reason now force s :
  Inv config known s -> live_record s i = Some record ->
  terminal_capacity_full config s i.1 = false ->
  match tombstone_claim s i record status now force with
  | Some c => tombstone_capacity_full config s (cl_selected_node_id c)
  | None => false
  end = false ->
  Inv config known (terminalized i record status reason now force s).
Proof.
  intros Hs Hr Hcap Htomb.
  pose proof (Inv_drop _ _ _ Hs (live_record_only_at _ _ _ Hs Hr))
    as [Hnd Hf Hl Hq Hw Ho _].
  pose proof (inv_live _ _ _ Hs) as Hl0.
  split; [exact Hnd|exact Hf| |exact Hq|exact Hw| |].
  - apply wf_live_terminal; [exact Hl|apply dget_ddel_eq; apply Hl0
      |apply dget_ddel_eq; apply Hl0|]. by destruct i.
  - simpl. eapply terminalized_outcomes; [exact Ho| |done].
    destruct (tombstone_claim _ _ _ _ _ _); [apply nodup_dset|]; apply Ho.
  - apply terminalized_bounded; [apply Hs|done|done].
Qed.

Lemma terminalized_evolves i record status reason now force s :
  Inv config known s -> live_record s i = Some record ->
  evolves s (terminalized i record status reason now force s).
Proof.
  intros Hs Hr. apply evolves_step; try (simpl; lia). intros j.
  destruct (decide (j = i)) as [->|Hj].
  - right. pose proof (phase_live _ _ _ Hs Hr) as Hp.
    assert (Ht : phase_of (terminalized i record status reason now force s) i = Terminal status).
    { unfold phase_of. simpl. by rewrite dget_dset_eq. }
    rewrite Ht. destruct record; rewrite Hp; constructor.
  - left. rewrite <- (phase_drop_other i (lr_selected_node_id record) s j Hs Hj).
    unfold phase_of. simpl. by rewrite dget_dset_ne.
Qed.

Lemma terminalized_ok i record status reason now force s :
  Inv config known s -> live_record s i = Some record ->
  terminal_capacity_full config s i.1 = false ->
  match tombstone_claim s i record status now force with
  | Some c => tombstone_capacity_full config s (cl_selected_node_id c)
  | None => false
  end = false ->
  ok_state config known s (terminalized i record status reason now force s).
Proof. split; [by apply terminalized_Inv|by apply terminalized_evolves]. Qed.

(** What terminalisation guarantees to the loops that call it. *)
Lemma terminalize_wp i record status reason now force s :
  Inv config known s -> live_record s i = Some record ->
  wp (_terminalize_locked config i record status reason now force)
    (fun r s' => ok_state config known s s' /\ r = MkTerminalTransitionResult status reason true /\
                 s' = terminalized i record status reason now force s)
    (fun e s' => s' = s /\ is_capacity_exceeded e = true) s.
Proof.
  intros Hs Hr. unfold wp. rewrite terminalize_eq by done.
  destruct (terminal_capacity_full _ _ _) eqn:E1; [done|].
  match goal with |- context [if ?b then (s, inl _) else _] => destruct b eqn:E2 end; [done|].
  split; [|done]. by apply terminalized_ok.
Qed.

Lemma is_capacity_not_key e : is_capacity_exceeded e = true -> e ≠ KeyError.
Proof. by intros ? ->. Qed.

(** Terminalisation only removes live requests, and only [i]. *)
Lemma live_record_terminalized i record status reason now force s j :
  Inv config known s ->
  live_record (terminalized i record status reason now force s) j =
    if bool_decide (j = i) then None else live_record s j.
Proof.
  intros Hs. pose proof (inv_live _ _ _ Hs) as Hl. unfold live_record, terminalized, drop_live.
  simpl. rewrite !dget_ddel by apply Hl. by case_bool_decide.
Qed.

End atoms.

(** * Reaping and node removal preserve the invariant

    The internal transitions of StoreCore, shown [sound]: retained outcomes are
    forgotten, due lifecycles are terminalised, expired reservations are released,
    and nodes are removed in batches.  The retained owner fence of a pending
    removal is never reaped, because two registered node identifiers do not share
    a digest ([known_inj]). *)

Section reap.
Context `{!Crypto}.
Variable config : RelayStateStoreConfig.
Variable known : pystr -> Prop.

(** ** Sequencing a guard, a lookup or a pure check *)

Lemma sound_at_raise_if {A} c (e : store_error) (k : unit -> M A) s :
  Inv config known s -> e ≠ KeyError -> (c = false -> sound_at config known (k tt) s) ->
  sound_at config known (bind (raise_if c e) k) s.
Proof.
  intros Hs He Hk. destruct c; [|by apply Hk].
  apply wp_raise. split; [by apply ok_refl|done].
Qed.

Lemma sound_at_lift {A} (r : store_error + unit) (k : unit -> M A) s :
  Inv config known s -> r ≠ inl KeyError -> (r = inr tt -> sound_at config known (k tt) s) ->
  sound_at config known (bind (lift r) k) s.
Proof.
  intros Hs He Hk. destruct r as [e|[]]; [|by apply Hk].
  apply wp_raise. split; [by apply ok_refl|by intros ->].
Qed.

Lemma sound_at_lift_val {A B} (r : store_error + A) (k : A -> M B) s :
  Inv config known s -> r ≠ inl KeyError ->
  (forall a, r = inr a -> sound_at config known (k a) s) ->
  sound_at config known (bind (lift_val r) k) s.
Proof.
  intros Hs He Hk. destruct r as [e|a]; [|by apply Hk].
  apply wp_raise. split; [by apply ok_refl|by intros ->].
Qed.

Lemma sound_at_from_option {A B} (o : option A) e (k : A -> M B) s :
  Inv config known s -> (e = KeyError -> is_Some o) ->
  (forall a, o = Some a -> sound_at config known (k a) s) ->
  sound_at config known (bind (from_option o e) k) s.
Proof.
  intros Hs He Hk. destruct o as [a|]; [by apply Hk|].
  apply wp_raise. split; [by apply ok_refl|]. intros Heq. destruct (He Heq) as [? ?]. done.
Qed.

(** Straight-line code whose final state is known. *)
Lemma sound_at_final {A} (m : M A) s s' a :
  m s = (s', inr a) -> ok_state config known s s' -> sound_at config known m s.
Proof. unfold sound_at, wp. by intros ->. Qed.

(** ** The retained outcome of a request changes its retrieval state *)

Lemma wf_outcomes_settle terms responses tombs ntombs cursors i t :
  wf_outcomes terms responses tombs ntombs cursors ->
  t_retrieval_state t ≠ "response_ready" ->
  wf_outcomes (dset terms i t) (ddel responses i) tombs ntombs cursors.
Proof.
  intros [? ? ? ? Hready Hrk] Hst. split; auto with dict_db.
  - intros j t'. rewrite dget_dset. case_bool_decide; [by intros [= <-]|].
    intros Hj Hr. rewrite dget_ddel_ne by done. by eapply Hready.
  - intros j r. rewrite dget_ddel_Some by done. intros [_ ?]. by apply Hrk.
Qed.

Lemma bounded_settle i t t' s :
  bounded config s -> dget (_terminals s) i = Some t ->
  t_client_identity_digest t' = t_client_identity_digest t ->
  bounded config (set_terminals (dset (_terminals s) i t')
                    (set_responses (ddel (_responses s) i) s)).
Proof.
  intros [] Ht Hc. split; simpl; try assumption.
  - etransitivity; [apply dlen_ddel_le|done].
  - intros c. etransitivity; [apply dcount_ddel_le|done].
  - rewrite dlen_dset, (proj2 (dmem_true _ _)) by eauto. done.
  - intros c. rewrite (dcount_dset_old _ _ _ t); [apply bd_term_client|done|]. cbv beta. by rewrite Hc.
Qed.

Definition settled (i : identity) (t : TerminalOutcomeRecord) (st : pystr) (s : store) : store :=
  set_terminals (dset (_terminals s) i (terminal_with_retrieval_state t st))
    (set_responses (ddel (_responses s) i) s).

Lemma settled_ok i t st s :
  Inv config known s -> dget (_terminals s) i = Some t -> st ≠ "response_ready" ->
  ok_state config known s (settled i t st s).
Proof.
  intros Hs Ht Hst. pose proof (inv_live _ _ _ Hs) as Hl.
  destruct (wl_term_live _ _ _ _ _ _ _ Hl i) as [Hr Hq]; [eauto|]. unfold settled.
  split; [destruct Hs; split; try assumption|].
  - simpl. apply wf_live_terminal; [done|done|done|].
    exact (wl_term_key _ _ _ _ _ _ _ Hl i t Ht).
  - by apply wf_outcomes_settle.
  - by apply bounded_settle with t.
  - apply evolves_step; try (simpl; lia). intros j. left. unfold phase_of. simpl.
    rewrite dget_dset. case_bool_decide; [|done]. subst. by rewrite Ht.
Qed.

(** A response without a ready outcome may be dropped. *)
Lemma drop_response_ok i s :
  Inv config known s ->
  (forall t, dget (_terminals s) i = Some t -> t_retrieval_state t ≠ "response_ready") ->
  ok_state config known s (set_responses (ddel (_responses s) i) s).
Proof.
  intros Hs Hn. split; [|by apply evolves_same]. destruct Hs as [? ? ? ? ? [? ? ? ? Hready Hrk] []].
  split; try assumption.
  - split; simpl; auto with dict_db.
    + intros j t Hj Hr. rewrite dget_ddel_ne; [by eapply Hready|done|].
      intros ->. by apply (Hn t).
    + intros j r. rewrite dget_ddel_Some by done. intros [_ ?]. by apply Hrk.
  - split; simpl; try assumption.
    + etransitivity; [apply dlen_ddel_le|done].
    + intros c. etransitivity; [apply dcount_ddel_le|done].
Qed.

Lemma reap_response_sound now ir : sound config known (reap_response now ir).
Proof.
  destruct ir as [i response]. intros s Hs. unfold reap_response.
  destruct (fle _ _); [|by apply sound_ret].
  unfold sound_at, wp, bind, modify, get_state, ret; simpl.
  destruct (dget (_terminals s) i) as [t|] eqn:Et.
  - case_bool_decide as Hst.
    + by apply (settled_ok i t "retrieval_expired" s Hs Et).
    + apply drop_response_ok; [done|]. intros t' Ht'. congruence.
  - apply drop_response_ok; [done|]. intros t' Ht'. congruence.
Qed.

(** ** Retention periods end *)

Lemma forget_terminals_ok p s :
  Inv config known s -> ok_state config known s (set_terminals (bfilter p (_terminals s)) s).
Proof.
  intros Hs. pose proof (inv_live _ _ _ Hs) as Hl.
  pose proof (wl_terms _ _ _ _ _ _ _ Hl) as Hn.
  split; [destruct Hs as [? ? ? ? ? [? ? ? ? Hready Hrk] []]; split; try assumption|].
  - by apply wf_live_fewer_terminals.
  - split; try assumption. intros j t Hj Hr. apply dget_bfilter_Some in Hj as [Hj _]; [|done].
    by eapply Hready.
  - split; simpl; try assumption.
    + etransitivity; [apply dlen_bfilter|done].
    + intros c. etransitivity; [apply dcount_bfilter|done].
  - apply evolves_step; try (simpl; lia). intros j. unfold phase_of. simpl.
    rewrite dget_bfilter by done. destruct (dget (_terminals s) j) as [t|] eqn:Et; [|by left].
    destruct (p (j, t)); [by left|right].
    destruct (wl_term_live _ _ _ _ _ _ _ Hl j) as [-> ->]; [eauto|]. constructor.
Qed.

Lemma forget_tombstones_ok p s :
  Inv config known s ->
  ok_state config known s (set_control_tombstones (bfilter p (_control_tombstones s)) s).
Proof.
  intros Hs. split; [|by apply evolves_same]. destruct Hs as [? ? ? ? ? [] []].
  split; try assumption.
  - split; try assumption. by apply nodup_bfilter.
  - split; simpl; try assumption.
    + etransitivity; [apply dlen_bfilter|done].
    + intros n. etransitivity; [apply dcount_bfilter|done].
Qed.

Lemma forget_node_tombstones_ok p s :
  Inv config known s ->
  ok_state config known s (set_node_tombstones (bfilter p (_node_tombstones s)) s).
Proof.
  intros Hs. split; [|by apply evolves_same]. destruct Hs as [? ? ? ? ? [] []].
  split; try assumption.
  - split; try assumption. by apply nodup_bfilter.
  - split; simpl; try assumption. etransitivity; [apply dlen_bfilter|done].
Qed.

(** ** Owner fences *)

Lemma fences_total_cons d a (l : dict pystr (dict pystr FormerNodeAuthority)) :
  fences_total ((d, a) :: l) = dlen a + fences_total l.
Proof. done. Qed.

Lemma fences_total_dset former d a :
  fences_total (dset former d a) = fences_total former - dlen (dget_or former d []) + dlen a.
Proof.
  unfold dget_or. induction former as [|[d0 a0] former IH]; simpl.
  - rewrite fences_total_cons. unfold fences_total. simpl.
    pose proof (dlen_nil (K := pystr) (V := FormerNodeAuthority)). lia.
  - case_bool_decide; rewrite !fences_total_cons; [simpl; lia|]. rewrite IH. lia.
Qed.

Lemma fences_total_map f (former : dict pystr (dict pystr FormerNodeAuthority)) :
  (forall d a, dlen (f d a) <= dlen a) ->
  fences_total (map (fun kv => (kv.1, f kv.1 kv.2)) former) <= fences_total former.
Proof.
  intros Hf. induction former as [|[d a] former IH]; [done|].
  simpl map. rewrite !fences_total_cons. specialize (Hf d a). lia.
Qed.

Lemma fences_total_bfilter p (former : dict pystr (dict pystr FormerNodeAuthority)) :
  fences_total (bfilter p former) <= fences_total former.
Proof.
  unfold bfilter. induction former as [|[d a] former IH]; [done|].
  simpl. pose proof (dlen_nonneg a). destruct (p (d, a)); rewrite !fences_total_cons; lia.
Qed.

Hypothesis known_inj : forall n m, known n -> known m -> _node_digest n = _node_digest m -> n = m.
#[local] Set Default Proof Using "Type*".

Lemma pending_authorities_owner s n p :
  Inv config known s -> dget (_pending_node_transitions s) n = Some p ->
  dget (pending_authorities s) (pt_node_identity_digest p) = Some (pt_control_credential_digest p).
Proof.
  intros Hs Hp. pose proof (inv_nodes _ _ _ Hs) as Hn.
  pose proof (wn_pending _ _ _ _ _ _ Hn) as Hnd.
  apply (dget_fold_dset pt_node_identity_digest pt_control_credential_digest).
  - apply elem_of_dvalues; [done|]. by exists n.
  - intros p' [n' Hp']%elem_of_dvalues Heq; [|done].
    destruct (wn_pending_key _ _ _ _ _ _ Hn _ _ Hp) as [_ Hd].
    destruct (wn_pending_key _ _ _ _ _ _ Hn _ _ Hp') as [_ Hd'].
    assert (n' = n) as ->; [|congruence].
    apply known_inj; [| |congruence]; apply (wn_known _ _ _ _ _ _ Hn); right; by eexists.
Qed.

Lemma dget_reap_former now s d :
  nodup_keys (_former_node_authorities s) ->
  dget (reap_former now s) d =
    match dget (_former_node_authorities s) d with
    | Some a => match reap_authorities now (dget (pending_authorities s) d) a with
                | [] => None
                | rest => Some rest
                end
    | None => None
    end.
Proof.
  intros Hn. unfold reap_former.
  rewrite dget_bfilter by
    (by apply (nodup_map (fun d => reap_authorities now (dget (pending_authorities s) d)))).
  rewrite (dget_map (fun d => reap_authorities now (dget (pending_authorities s) d))).
  destruct (dget (_former_node_authorities s) d) as [a|]; [|done]. simpl.
  by destruct (reap_authorities _ _ _).
Qed.

Lemma reap_former_ok now s :
  Inv config known s -> ok_state config known s (set_former_node_authorities (reap_former now s) s).
Proof.
  intros Hs. split; [|by apply evolves_same]. pose proof (inv_fences _ _ _ Hs) as [Hf Hi Ho].
  assert (Hown := pending_authorities_owner s).
  split; try apply Hs; simpl.
  - split.
    + apply nodup_bfilter.
      by apply (nodup_map (fun d => reap_authorities now (dget (pending_authorities s) d))).
    + intros d a. rewrite dget_reap_former by done.
      destruct (dget _ d) as [a0|] eqn:E; [|done]. intros Ha.
      assert (a = reap_authorities now (dget (pending_authorities s) d) a0) as ->
        by (by destruct (reap_authorities _ _ _); simplify_eq).
      apply nodup_bfilter. by apply (Hi d).
    + intros n p Hp. specialize (Ho n p Hp). specialize (Hown n p Hs Hp).
      unfold dget_or in *. rewrite dget_reap_former, Hown by done.
      destruct (dget _ (pt_node_identity_digest p)) as [a0|] eqn:E; simpl in Ho;
        [|by destruct Ho].
      assert (Hk : is_Some (dget (reap_authorities now (Some (pt_control_credential_digest p)) a0)
                              (pt_control_credential_digest p))).
      { unfold reap_authorities. rewrite dget_bfilter by (by apply (Hi _ _ E)).
        destruct Ho as [x Hx]. rewrite Hx. unfold compare_digest.
        rewrite bool_decide_eq_true_2, andb_false_r by done. by eexists. }
      destruct (reap_authorities now _ a0); [by destruct Hk|done].
  - destruct (inv_bounded _ _ _ Hs). split; try assumption. simpl.
    etransitivity; [apply fences_total_bfilter|]. etransitivity; [|exact bd_fences].
    apply (fences_total_map (fun d => reap_authorities now (dget (pending_authorities s) d))).
    intros d a. apply dlen_bfilter.
Qed.

Lemma reap_retained_sound now : sound config known (_reap_retained_locked now).
Proof.
  apply sound_get. intros s Hs. apply sound_bind; [..|done].
  { apply sound_for_each. intros ir _. apply reap_response_sound. }
  intros _. apply sound_bind; [apply sound_modify; intros; by apply forget_terminals_ok|].
  intros _. apply sound_bind; [apply sound_modify; intros; by apply forget_tombstones_ok|].
  intros _. apply sound_bind; [apply sound_modify; intros; by apply forget_node_tombstones_ok|].
  intros _. apply sound_modify. intros s' Hs'. by apply reap_former_ok.
Qed.

End reap.
