(* ===== verification/StoreNodes.v ===== *)
(** * Node removal preserves the invariant

    A removal begins by withdrawing the node's eligibility and leaving a pending
    transition, an owner fence and a tombstone; each call then terminalises one
    batch of the node's work, and the call that finds none left completes it. *)

From Stdlib Require Import Sorting.Sorted.
From stdpp Require Import relations.
From S2P Require Import Prelude PyFloat PyStr PyDict Sha256 StoreTypes StoreState.
From S2P Require Import StoreCore StoreOps StoreInv StoreAtoms.
#[local] Open Scope Z_scope.

Section nodes.
Context `{!Crypto}.
Variable config : RelayStateStoreConfig.
Variable known : pystr -> Prop.

(** ** Beginning a removal *)

Lemma wf_nodes_begin recs sched order next pend n p :
  wf_nodes known recs sched order next pend -> is_Some (dget recs n) ->
  pt_node_id p = n -> pt_node_identity_digest p = _node_digest n ->
  wf_nodes known (ddel recs n) (ddel sched n) (ddel order n) next (dset pend n p).
Proof.
  intros [? ? ? ? Hk Hkey Hsd Hod Hlt Hinj Hpk Hdis ?] Hn Hp1 Hp2. split; auto with dict_db.
  - intros m. rewrite is_Some_ddel, is_Some_dset by done. intros [[_ ?]|[->|?]]; apply Hk; tauto.
  - intros m r. rewrite dget_ddel_Some by done. intros [_ ?]. by apply Hkey.
  - intros m. rewrite !is_Some_ddel, Hsd by done. done.
  - intros m. rewrite !is_Some_ddel, Hod by done. done.
  - intros m k. rewrite dget_ddel_Some by done. intros [_ ?]. by apply (Hlt m).
  - intros m1 m2 k. rewrite !dget_ddel_Some by done. intros [_ ?] [_ ?]. by apply (Hinj m1 m2 k).
  - intros m p'. rewrite dget_dset. case_bool_decide; [|by apply Hpk]. by intros [= <-]; subst m.
  - intros m. rewrite is_Some_dset. intros [->|Hm]; [by apply dget_ddel_eq|].
    by apply dget_ddel_None; [|apply Hdis].
Qed.

Lemma wf_fences_dset pend former d k a :
  wf_fences pend former ->
  wf_fences pend (dset former d (dset (dget_or former d []) k a)) /\
  is_Some (dget (dget_or (dset former d (dset (dget_or former d []) k a)) d []) k).
Proof.
  intros [Hf Hi Ho]. split; [split|].
  - by apply nodup_dset.
  - intros d' a'. rewrite dget_dset. case_bool_decide; [|by apply Hi].
    intros [= <-]. apply nodup_dset. unfold dget_or.
    destruct (dget former d) as [x|] eqn:E; simpl; [by apply (Hi _ _ E)|constructor].
  - intros n p Hp. specialize (Ho n p Hp). unfold dget_or in *. rewrite dget_dset.
    case_bool_decide as E; [|done]. simpl. rewrite is_Some_dset. right. by rewrite E in Ho.
  - unfold dget_or. rewrite dget_dset_eq. simpl. rewrite dget_dset_eq. by eexists.
Qed.

Lemma wf_fences_pending pend former n p :
  wf_fences pend former ->
  is_Some (dget (dget_or former (pt_node_identity_digest p) []) (pt_control_credential_digest p)) ->
  wf_fences (dset pend n p) former.
Proof.
  intros [Hf Hi Ho] Hp. split; [done|done|].
  intros m p'. rewrite dget_dset. case_bool_decide; [|by apply Ho]. by intros [= <-].
Qed.

Lemma guarded_dlen_mem {K V} `{EqDecision K} (d : dict K V) k v bound :
  dlen d <= bound -> negb (dmem d k) && (bound <=? dlen d) = false -> dlen (dset d k v) <= bound.
Proof. intros Hle Hg. rewrite dlen_dset. destruct (dmem d k); [done|]. simpl in Hg. lia. Qed.

(** The state a successful beginning leaves. *)
Definition begun (n : pystr) (record : ComputeNodeRegistration) (cause : pystr) (now : float64)
  (s : store) : store :=
  let key := control_credential_digest record in
  let d := _node_digest n in
  set_node_tombstones
    (dset (_node_tombstones s) d
       (MkNodeTombstone d key cause "cancelled" now
          (match dget_or (_node_work_identities s) n [] with [] => true | _ => false end)
          (fmin (fadd now (node_tombstone_ttl_seconds config)) (fadd now f300))))
    (set_former_node_authorities
       (dset (_former_node_authorities s) d
          (dset (dget_or (_former_node_authorities s) d []) key
             (MkFormerAuthority key cause "cancelled" now
                (fadd now (terminal_retention_seconds config)))))
       (set_pending_node_transitions
          (dset (_pending_node_transitions s) n
             (MkPending n d key cause "cancelled" "server_unregistered" now))
          (set_fairness_cursors
             (bfilter (fun '(_, cursor) => negb (bool_decide (cursor.1 = n))) (_fairness_cursors s))
             (set_registration_order (ddel (_registration_order s) n)
                (set_scheduler_states (ddel (_scheduler_states s) n)
                   (set_records (ddel (_records s) n) s)))))).

Definition begin_full (n : pystr) (record : ComputeNodeRegistration) (s : store) : bool :=
  (max_pending_node_transitions config <=? dlen (_pending_node_transitions s))
  || (negb (dmem (dget_or (_former_node_authorities s) (_node_digest n) [])
              (control_credential_digest record))
      && (max_removed_owner_fences config <=? fence_count s))
  || (negb (dmem (_node_tombstones s) (_node_digest n))
      && (max_node_tombstones config <=? dlen (_node_tombstones s))).

Lemma begin_eq n record cause now s :
  if begin_full n record s
  then exists msg, _begin_node_transition config n record cause now s =
                   (s, inl (RelayStateCapacityExceeded msg))
  else _begin_node_transition config n record cause now s =
       (begun n record cause now s,
        inr (MkPending n (_node_digest n) (control_credential_digest record) cause "cancelled"
               "server_unregistered" now)).
Proof.
  unfold _begin_node_transition, begin_full. cbn [bind get_state].
  destruct (max_pending_node_transitions config <=? _); [by eexists|].
  destruct (negb (dmem (dget_or _ _ _) _) && _); [by eexists|].
  destruct (negb (dmem (_node_tombstones s) _) && _); [by eexists|]. done.
Qed.

Lemma bounded_begun n record cause now s :
  bounded config s -> begin_full n record s = false ->
  bounded config (begun n record cause now s).
Proof.
  intros [] Hg. unfold begin_full in Hg. apply orb_false_iff in Hg as [[Hg1 Hg2]%orb_false_iff Hg3].
  unfold begun. split; try assumption; simpl.
  - etransitivity; [apply dlen_ddel_le|done].
  - by apply guarded_dlen.
  - by apply guarded_dlen_mem.
  - unfold fence_count in Hg2. rewrite fences_total_dset, dlen_dset.
    destruct (dmem (dget_or _ _ _) _); simpl in Hg2; lia.
  - etransitivity; [apply dlen_bfilter|done].
Qed.

Lemma begun_ok n record cause now s :
  Inv config known s -> dget (_records s) n = Some record -> begin_full n record s = false ->
  ok_state config known s (begun n record cause now s).
Proof.
  intros Hs Hr Hg. split; [|by apply evolves_same]. pose proof (bounded_begun n record cause now s
    (inv_bounded _ _ _ Hs) Hg) as Hb.
  destruct Hs as [Hn Hf Hl Hq [? ? Hwl Hwn] [] _]. split; try assumption; unfold begun; simpl.
  - by apply wf_nodes_begin; [|eexists| |].
  - edestruct (wf_fences_dset _ _ (_node_digest n) (control_credential_digest record)
      (MkFormerAuthority (control_credential_digest record) cause "cancelled" now
         (fadd now (terminal_retention_seconds config))) Hf) as [Hf1 Hf2].
    by apply wf_fences_pending.
  - split; try assumption. intros m i Hm. rewrite is_Some_dset, is_Some_ddel by apply Hn.
    destruct (decide (m = n)) as [->|]; [by right; left|]. destruct (Hwn m i Hm); tauto.
  - split; try assumption; [by apply nodup_dset|by apply nodup_bfilter].
Qed.

(** ** One batch of a removal *)

Definition work_at (n : pystr) (s : store) : list identity :=
  dkeys (dget_or (_node_work_identities s) n []).

Definition capacity_reached (s : store) : Prop :=
  (exists client, terminal_capacity_full config s client = true) \/
  (exists n, tombstone_capacity_full config s n = true).

(** Requests only stop being live, and a live request stays deferred. *)
Record tightens (s s' : store) : Prop := {
  tg_live : forall i r, live_record s' i = Some r -> live_record s i = Some r;
  tg_deferred : forall i, is_Some (live_record s' i) ->
    i ∈ _deferred_deadline_identities s -> i ∈ _deferred_deadline_identities s'
}.

#[export] Instance tightens_preorder : PreOrder tightens.
Proof.
  split; [by split|]. intros s1 s2 s3 [L1 D1] [L2 D2]. split; [by auto|].
  intros i Hi Hd. apply D2; [done|]. apply D1; [|done]. destruct Hi as [r Hr]. exists r. by apply L2.
Qed.

(** Code that touches neither the live tables nor the deferred set. *)
Lemma tightens_frame s s' :
  _reservations s' = _reservations s -> _queued s' = _queued s ->
  _deferred_deadline_identities s' = _deferred_deadline_identities s -> tightens s s'.
Proof. intros Hr Hq Hd. split; unfold live_record; rewrite ?Hr, ?Hq, ?Hd; done. Qed.

Lemma elem_of_identity_discard i j l : j ∈ identity_discard i l <-> j ∈ l /\ j ≠ i.
Proof.
  unfold identity_discard. rewrite elem_of_bfilter, negb_true_iff, bool_decide_eq_false. done.
Qed.

Lemma terminalized_tightens i record status reason now force s :
  Inv config known s -> tightens s (terminalized config i record status reason now force s).
Proof.
  intros Hs. split.
  - intros j r. erewrite live_record_terminalized by done. by case_bool_decide.
  - intros j [r Hr] Hj. erewrite live_record_terminalized in Hr by done. case_bool_decide; [done|].
    unfold terminalized. simpl. by apply elem_of_identity_discard.
Qed.

(** The first [k] requests of the batch left the node's work with an outcome;
    nothing else about the removal changed. *)
Record batch_done (n : pystr) (p : PendingNodeTransition) (batch rest : list identity)
  (k : nat) (s s' : store) : Prop := {
  bdn_ok : ok_state config known s s';
  bdn_tight : tightens s s';
  bdn_pending : _pending_node_transitions s' = _pending_node_transitions s;
  bdn_former : _former_node_authorities s' = _former_node_authorities s;
  bdn_ntombs : _node_tombstones s' = _node_tombstones s;
  bdn_records : _records s' = _records s;
  bdn_work : work_at n s' = drop k batch ++ rest;
  bdn_outcome : forall i, i ∈ take k batch ->
    exists t, dget (_terminals s') i = Some t /\ t_outcome t = pt_status p;
  bdn_other : forall i, i ∉ take k batch -> dget (_terminals s') i = dget (_terminals s) i;
  bdn_full : (k < length batch)%nat -> capacity_reached s'
}.

Lemma work_live n i s :
  Inv config known s -> i ∈ work_at n s <-> live_at (_reservations s) (_queued s) n i.
Proof.
  intros Hs. rewrite <- (ww_live _ _ _ _ _ (inv_work _ _ _ Hs)). symmetry. apply dget_is_Some.
Qed.

Lemma live_at_record s n i :
  Inv config known s -> live_at (_reservations s) (_queued s) n i ->
  exists r, live_record s i = Some r /\ lr_selected_node_id r = n.
Proof.
  intros Hs Hl. unfold live_record.
  pose proof (wl_res_queued _ _ _ _ _ _ _ (inv_live _ _ _ Hs) i) as Hrq.
  destruct Hl as [(r & Hr & <-)|(q & Hq & <-)].
  - rewrite Hr. by eexists.
  - destruct (dget (_reservations s) i); [rewrite Hrq in Hq by eauto; done|].
    rewrite Hq. by eexists.
Qed.

Lemma dkeys_ddel_head {K V} `{EqDecision K} (d : dict K V) k l :
  nodup_keys d -> dkeys d = k :: l -> dkeys (ddel d k) = l.
Proof.
  destruct d as [|[k0 v0] d]; [done|]. simpl. intros _ [= -> Hl].
  by rewrite bool_decide_eq_true_2.
Qed.

Lemma work_at_terminalized n i batch record status reason now force s :
  Inv config known s -> work_at n s = i :: batch -> lr_selected_node_id record = n ->
  work_at n (terminalized config i record status reason now force s) = batch.
Proof.
  intros Hs Hw Hn. pose proof (Inv_works_ok _ _ _ Hs) as Hok.
  unfold work_at, terminalized, drop_live. simpl.
  rewrite dget_or_discard, bool_decide_eq_true_2, Hn by done.
  apply dkeys_ddel_head; [by apply works_ok_inner|done].
Qed.

Lemma batch_done_nil n p rest s :
  Inv config known s -> work_at n s = rest -> batch_done n p [] rest 0 s s.
Proof.
  intros Hs Hw. split; try done.
  - intros i Hi. by apply not_elem_of_nil in Hi.
  - simpl. lia.
Qed.

(** The capacity tests of a failed terminalisation. *)
Lemma terminalize_cases i record status reason now force s :
  Inv config known s -> live_record s i = Some record ->
  (capacity_reached s /\ exists msg, _terminalize_locked config i record status reason now force s =
     (s, inl (RelayStateCapacityExceeded msg))) \/
  (ok_state config known s (terminalized config i record status reason now force s) /\
   _terminalize_locked config i record status reason now force s =
     (terminalized config i record status reason now force s,
      inr (MkTerminalTransitionResult status reason true))).
Proof.
  intros Hs Hr. rewrite (terminalize_eq _ _ _ _ _ _ _ _ _ Hs Hr).
  destruct (terminal_capacity_full _ _ _) eqn:E1.
  { left. split; [left|]; by eexists. }
  match goal with |- context [if ?b then (s, inl _) else _] => destruct b eqn:E2 end.
  { left. split; [|by eexists].
    destruct (tombstone_claim s i record status now force) as [c|]; [|done].
    right. by eexists. }
  right. split; [|done]. by apply terminalized_ok.
Qed.

(** A live request is reserved or queued, never both. *)
Lemma live_exclusive s i r :
  Inv config known s -> live_record s i = Some r ->
  b2z (dmem (_reservations s) i) + b2z (dmem (_queued s) i) = 1.
Proof.
  intros Hs Hr. pose proof (wl_res_queued _ _ _ _ _ _ _ (inv_live _ _ _ Hs) i) as Hrq.
  unfold live_record, dmem in *. destruct (dget (_reservations s) i).
  - by rewrite Hrq by eauto.
  - by destruct (dget (_queued s) i).
Qed.

Lemma batch_done_cons n p i record batch rest k now force s s2 :
  let s1 := terminalized config i record (pt_status p) (pt_reason p) now force s in
  Inv config known s -> ok_state config known s s1 -> i ∉ batch ++ rest ->
  batch_done n p batch rest k s1 s2 -> batch_done n p (i :: batch) rest (S k) s s2.
Proof.
  intros s1 Hs Hok Hni [Hok2 Htg Hp Hf Hnt Hrec Hw Ho Hoth Hfull].
  assert (Hik : i ∉ take k batch).
  { intros Hi. apply Hni. apply elem_of_app. left. apply (subseteq_take k batch). exact Hi. }
  split; try assumption.
  - by eapply ok_trans.
  - etransitivity; [by apply terminalized_tightens|exact Htg].
  - intros j [->|Hj]%elem_of_cons; [|by apply Ho]. rewrite Hoth by done.
    unfold s1, terminalized. simpl. rewrite dget_dset_eq. by eexists.
  - intros j [Hj Hjk]%not_elem_of_cons. rewrite Hoth by done.
    unfold s1, terminalized. simpl. by rewrite dget_dset_ne.
  - simpl. intros. apply Hfull. lia.
Qed.

Lemma transition_batch_done n p now batch rest : forall c s,
  Inv config known s -> NoDup (batch ++ rest) -> work_at n s = batch ++ rest ->
  exists k s' c', transition_batch config n p now batch c s = (s', inr c') /\
    batch_done n p batch rest k s s' /\ (k <= length batch)%nat /\
    bc_processed c' = bc_processed c + Z.of_nat k /\
    bc_outcomes c' = bc_outcomes c + Z.of_nat k /\
    bc_reservations c' + bc_queued c' = bc_reservations c + bc_queued c + Z.of_nat k.
Proof.
  induction batch as [|i batch IH]; intros c s Hs Hnd Hw.
  { exists 0%nat, s, c. split; [done|]. split; [by apply batch_done_nil|]. lia. }
  assert (Hi : live_at (_reservations s) (_queued s) n i).
  { apply work_live; [done|]. rewrite Hw. left. }
  destruct (live_at_record _ _ _ Hs Hi) as (record & Hr & Hn).
  simpl transition_batch. unfold bind at 1, get_state at 1.
  rewrite (proj2 (dmem_false _ _) (not_live_terminal _ _ _ _ Hs (mk_is_Some _ _ Hr))), Hr.
  destruct (terminalize_cases i record (pt_status p) (pt_reason p) now (dmem (_claims s) i) s Hs Hr)
    as [[Hcap [msg Hm]]|[Hok Hm]].
  { exists 0%nat, s, c. split.
    - unfold bind at 1, try_except, bind at 1. by rewrite Hm.
    - split; [|simpl; lia]. split; try done.
      intros j Hj. by apply not_elem_of_nil in Hj. }
  set (s1 := terminalized _ _ _ _ _ _ _ _) in *.
  assert (Hw1 : work_at n s1 = batch ++ rest) by (by apply work_at_terminalized).
  apply NoDup_cons in Hnd as [Hni Hnd].
  edestruct (IH (MkCounts (bc_processed c + 1)
       (bc_reservations c + b2z (dmem (_reservations s) i))
       (bc_queued c + b2z (dmem (_queued s) i))
       (bc_claims c + b2z (dmem (_claims s) i))
       (bc_outcomes c + b2z true)) s1 (proj1 Hok) Hnd Hw1)
    as (k & s2 & c2 & Heq & Hd & Hk & Hc).
  exists (S k), s2, c2. split; [|split; [|split; [simpl; lia|]]].
  - unfold bind at 1, try_except, bind at 1. rewrite Hm. exact Heq.
  - eapply batch_done_cons; [exact Hs|exact Hok|exact Hni|exact Hd].
  - pose proof (live_exclusive _ _ _ Hs Hr). simpl in Hc. lia.
Qed.

(** ** Completing a removal *)

Definition completed (n : pystr) (p : PendingNodeTransition) (a : FormerNodeAuthority)
  (now : float64) (s : store) : store :=
  let d := pt_node_identity_digest p in
  let key := pt_control_credential_digest p in
  let fences := dget_or (_former_node_authorities s) d [] in
  let s1 := set_pending_node_transitions (ddel (_pending_node_transitions s) n)
    (set_former_node_authorities
       (dset (_former_node_authorities s) d
          (dset fences key (authority_with_expiry a (fadd now (terminal_retention_seconds config)))))
       s) in
  match dget (_node_tombstones s) d with
  | Some t => set_node_tombstones (dset (_node_tombstones s) d (node_tombstone_completed t)) s1
  | None => s1
  end.

Lemma completed_frame n p a now s :
  work_at n (completed n p a now s) = work_at n s /\
  _terminals (completed n p a now s) = _terminals s /\
  _pending_node_transitions (completed n p a now s) = ddel (_pending_node_transitions s) n.
Proof. unfold completed. by destruct (dget (_node_tombstones s) _). Qed.

Lemma wf_nodes_complete recs sched order next pend n :
  wf_nodes known recs sched order next pend ->
  wf_nodes known recs sched order next (ddel pend n).
Proof.
  intros [? ? ? ? Hk ? ? ? ? ? Hpk Hdis ?]. split; auto with dict_db.
  - intros m. rewrite is_Some_ddel by done. intros Hm. apply Hk. tauto.
  - intros m p. rewrite dget_ddel_Some by done. intros [_ ?]. by apply Hpk.
  - intros m. rewrite is_Some_ddel by done. intros [_ ?]. by apply Hdis.
Qed.

Lemma wf_fences_ddel pend former n :
  nodup_keys pend -> wf_fences pend former -> wf_fences (ddel pend n) former.
Proof.
  intros Hn [? ? Ho]. split; try done.
  intros m p. rewrite dget_ddel_Some by done. intros [_ ?]. by apply (Ho m).
Qed.

Lemma completed_ok n p a now s :
  Inv config known s -> dget (_pending_node_transitions s) n = Some p -> work_at n s = [] ->
  dget (dget_or (_former_node_authorities s) (pt_node_identity_digest p) [])
    (pt_control_credential_digest p) = Some a ->
  ok_state config known s (completed n p a now s).
Proof.
  intros Hs Hp Hw Ha.
  assert (Hnowork : forall i, ~ live_at (_reservations s) (_queued s) n i).
  { intros i Hi. apply work_live in Hi; [|done]. rewrite Hw in Hi. by apply not_elem_of_nil in Hi. }
  pose proof (inv_nodes _ _ _ Hs) as Hn. pose proof (wn_pending _ _ _ _ _ _ Hn) as Hpn.
  set (d := pt_node_identity_digest p) in *. set (key := pt_control_credential_digest p) in *.
  set (a' := authority_with_expiry a (fadd now (terminal_retention_seconds config))).
  set (former' := dset (_former_node_authorities s) d
                    (dset (dget_or (_former_node_authorities s) d []) key a')).
  assert (Hok : ok_state config known s
    (set_pending_node_transitions (ddel (_pending_node_transitions s) n)
       (set_former_node_authorities former' s))).
  { split; [|by apply evolves_same]. destruct Hs as [_ Hf Hl Hq [? ? Hwl Hwn] Ho []].
    split; try assumption; simpl.
    - by apply wf_nodes_complete.
    - apply wf_fences_ddel; [done|]. by apply wf_fences_dset.
    - split; try assumption. intros m i Hm. rewrite is_Some_ddel by done.
      destruct (decide (m = n)) as [->|]; [by destruct (Hnowork i)|]. destruct (Hwn m i Hm); tauto.
    - split; try assumption; simpl; [etransitivity; [apply dlen_ddel_le|done]|].
      unfold former'. rewrite fences_total_dset, dlen_dset, (proj2 (dmem_true _ _)) by eauto. lia. }
  unfold completed. fold d key. fold a' former'.
  destruct (dget (_node_tombstones s) d) as [t|] eqn:Et; [|done].
  eapply ok_trans; [exact Hok|]. destruct Hok as [Hs1 _].
  split; [|by apply evolves_same]. destruct Hs1 as [? ? ? ? ? [] []].
  split; try assumption; (split; simpl; try assumption); [by apply nodup_dset|].
  rewrite dlen_dset, (proj2 (dmem_true _ _)) by eauto. done.
Qed.

Definition advance_batch (n : pystr) (s : store) : list identity :=
  firstn (Z.to_nat (node_transition_batch_size config)) (work_at n s).

Definition advance_rest (n : pystr) (s : store) : list identity :=
  skipn (Z.to_nat (node_transition_batch_size config)) (work_at n s).

Definition advance_result (p : PendingNodeTransition) (c : batch_counts) (continuation : bool)
  : NodeTransitionResult :=
  MkNodeTransitionResult (if continuation then "transitioning" else "complete")
    (pt_cause p) (Some (pt_transition_epoch p)) (bc_processed c)
    (bc_reservations c) (bc_queued c) (bc_claims c) (bc_outcomes c) continuation.

Lemma work_at_nodup n s : Inv config known s -> NoDup (work_at n s).
Proof. intros Hs. apply works_ok_inner. by eapply Inv_works_ok. Qed.

(** The whole behaviour of one call on a pending removal. *)
Lemma advance_eq n p now s :
  Inv config known s -> dget (_pending_node_transitions s) n = Some p ->
  exists k s1 c a,
    batch_done n p (advance_batch n s) (advance_rest n s) k s s1 /\
    (k <= length (advance_batch n s))%nat /\
    bc_processed c = Z.of_nat k /\ bc_outcomes c = Z.of_nat k /\
    bc_reservations c + bc_queued c = Z.of_nat k /\
    dget (dget_or (_former_node_authorities s1) (pt_node_identity_digest p) [])
      (pt_control_credential_digest p) = Some a /\
    _advance_node_transition config n p now s =
      match work_at n s1 with
      | [] => if is_finite (fadd now (terminal_retention_seconds config))
              then (completed n p a now s1, inr (advance_result p c false))
              else (s1, inl (RelayStateStoreError "former-owner retention deadline must be finite"))
      | _ => (s1, inr (advance_result p c true))
      end.
Proof.
  intros Hs Hp.
  destruct (transition_batch_done n p now (advance_batch n s) (advance_rest n s)
    (MkCounts 0 0 0 0 0) s Hs) as (k & s1 & c & Heq & Hd & Hk & Hc1 & Hc2 & Hc3).
  { unfold advance_batch, advance_rest. rewrite take_drop. by apply work_at_nodup. }
  { unfold advance_batch, advance_rest. by rewrite take_drop. }
  destruct (bdn_ok _ _ _ _ _ _ _ Hd) as [Hs1 _].
  pose proof Hp as Hp1. rewrite <- (bdn_pending _ _ _ _ _ _ _ Hd) in Hp1.
  destruct (wfc_owned _ _ (inv_fences _ _ _ Hs1) _ _ Hp1) as [a Ha].
  exists k, s1, c, a. split; [done|]. split; [done|]. split; [done|]. split; [done|].
  split; [done|]. split; [done|].
  unfold _advance_node_transition. unfold bind at 1, get_state at 1. unfold bind at 1.
  fold (work_at n s). fold (advance_batch n s). rewrite Heq. unfold bind at 1, get_state at 1.
  unfold work_at. destruct (dget_or (_node_work_identities s1) n []) as [|w ws].
  - simpl. destruct (is_finite _); [|done].
    unfold bind, modify, from_option, ret, raise_if. simpl. rewrite Ha. unfold completed. simpl.
    rewrite dset_dset. by destruct (dget (_node_tombstones s1) _).
  - simpl. unfold bind, modify, ret. by rewrite dset_id.
Qed.

Lemma advance_sound n p now s :
  Inv config known s -> dget (_pending_node_transitions s) n = Some p ->
  sound_at config known (_advance_node_transition config n p now) s.
Proof.
  intros Hs Hp.
  destruct (advance_eq n p now s Hs Hp) as (k & s1 & c & a & Hd & _ & _ & _ & _ & Ha & Heq).
  unfold sound_at, wp. rewrite Heq. pose proof (bdn_ok _ _ _ _ _ _ _ Hd) as Hok.
  destruct (work_at n s1) as [|w ws] eqn:Ew; [|done].
  destruct (is_finite _); [|done].
  eapply ok_trans; [exact Hok|]. apply completed_ok; [by apply Hok| |done|done].
  by rewrite (bdn_pending _ _ _ _ _ _ _ Hd).
Qed.

(** ** The whole transition *)

(** A computation that starts where an earlier one ended. *)
Lemma sound_at_after {A} (m : M A) s s' :
  ok_state config known s s' -> sound_at config known m s' ->
  match m s' with
  | (s2, inr _) => ok_state config known s s2
  | (s2, inl e) => ok_state config known s s2 /\ e ≠ KeyError
  end.
Proof.
  unfold sound_at, wp. intros H1 H2. destruct (m s') as [s2 [e|x]].
  - split; [eapply ok_trans; [exact H1|]|]; apply H2.
  - eapply ok_trans; [exact H1|exact H2].
Qed.

Lemma require_digest_no_key r d : _require_digest r d ≠ inl KeyError.
Proof. unfold _require_digest, eraise_if. by case_match. Qed.

Lemma completed_transition_sound n d cause :
  sound config known (_completed_transition n d cause).
Proof.
  unfold _completed_transition. apply sound_get. intros s Hs.
  set (from := match max_by_epoch _ with Some _ => _ | None => _ end).
  assert (Hfrom : sound config known from) by (unfold from; case_match; apply sound_ret).
  destruct (dget (_node_tombstones s) (_node_digest n)) as [t|]; [|by apply Hfrom].
  case_bool_decide; [|by apply Hfrom].
  apply sound_at_raise_if; [done|done|]. intros _. by apply sound_ret.
Qed.

Lemma transition_node_sound n d cause now :
  sound config known (_transition_node_locked config n d cause now).
Proof.
  unfold _transition_node_locked. apply sound_get. intros s Hs.
  destruct (dget (_pending_node_transitions s) n) as [p|] eqn:Ep.
  { apply sound_at_raise_if; [done|done|]. intros _.
    apply sound_at_raise_if; [done|done|]. intros _. by apply advance_sound. }
  destruct (dget (_records s) n) as [r|] eqn:Er; [|by apply completed_transition_sound].
  assert (Hgo : sound_at config known
    (bind (_begin_node_transition config n r cause now)
       (fun pending => _advance_node_transition config n pending now)) s).
  { pose proof (begin_eq n r cause now s) as Hb. unfold sound_at, wp, bind at 1.
    destruct (begin_full n r s) eqn:Ef.
    - destruct Hb as [msg ->]. split; [by apply ok_refl|done].
    - rewrite Hb. pose proof (begun_ok n r cause now s Hs Er Ef) as Hok.
      apply (sound_at_after _ _ _ Hok). apply advance_sound; [by apply Hok|].
      unfold begun. simpl. by rewrite dget_dset_eq. }
  case_bool_decide; simpl; [|by destruct (flt _ _); [apply sound_ret|]].
  apply sound_at_lift; [done|apply require_digest_no_key|]. by intros _.
Qed.

End nodes.

(** * Lease expiry and reaping preserve the invariant

    [_expire_locked] removes the nodes whose lease has ended and continues one
    pending removal; [_reap_locked], run by every operation on requests, then
    ends the lifecycles whose deadline has passed and releases expired
    reservations. *)

Section expiry.
Context `{!Crypto}.
Variable config : RelayStateStoreConfig.
Variable known : pystr -> Prop.

(** ** Deadlines *)

Lemma defer_ok l s : Inv config known s -> ok_state config known s (set_deferred_deadline_identities l s).
Proof. intros [? ? ? ? ? ? []]. split; [split; try assumption; by split|by apply evolves_same]. Qed.

(** During a reap loop requests only stop being live. *)
Definition shrinks (s0 s : store) : Prop :=
  forall i r, live_record s i = Some r -> live_record s0 i = Some r.

Lemma reap_due_wp now s0 s i r :
  Inv config known s -> shrinks s0 s -> live_record s0 i = Some r ->
  wp (reap_due config now (i, r))
    (fun _ s' => ok_state config known s s' /\ shrinks s0 s')
    (fun e s' => ok_state config known s s' /\ e ≠ KeyError) s.
Proof.
  intros Hs Hsh Hr. unfold reap_due. apply wp_bind, wp_get.
  destruct (negb (dmem (_terminals s) i) && _) eqn:E; [|split; [by apply ok_refl|done]].
  apply andb_true_iff in E as [_ E].
  assert (Hlive : live_record s i = Some r).
  { destruct (live_record s i) as [r'|] eqn:Er.
    - apply Hsh in Er. congruence.
    - apply live_record_None in Er as [Hn1 Hn2].
      apply orb_true_iff in E as [[? ?]%dmem_true|[? ?]%dmem_true]; congruence. }
  apply wp_try_except, wp_bind. eapply wp_mono; [by apply terminalize_wp| |].
  - intros _ s' (Hok & _ & ->). split; [done|]. intros j r' Hj.
    erewrite live_record_terminalized in Hj by done. case_bool_decide; [done|by apply Hsh].
  - intros e s' [-> ->]. split; [by apply defer_ok|exact Hsh].
Qed.

Lemma due_lifecycles_live now s i r :
  Inv config known s -> (i, r) ∈ due_lifecycles s now -> live_record s i = Some r.
Proof.
  intros Hs Hin. pose proof (inv_live _ _ _ Hs) as Hl. unfold due_lifecycles, live_record in *.
  apply elem_of_app in Hin as [Hin|Hin]; apply list_elem_of_fmap in Hin as ([j r'] & [= -> ->] & Hin);
    apply elem_of_bfilter in Hin as [Hin _]; apply elem_of_dget in Hin; try apply Hl; simpl.
  - by rewrite Hin.
  - destruct (dget (_reservations s) j) eqn:E; [|by rewrite Hin].
    rewrite (wl_res_queued _ _ _ _ _ _ _ Hl) in Hin by eauto. done.
Qed.

Lemma reap_due_sound now s :
  Inv config known s ->
  sound_at config known (for_each (due_lifecycles s now) (reap_due config now)) s.
Proof.
  intros Hs. apply (sound_at_loop config known (shrinks s)); [done|by intros i r ?|].
  intros [i r] s' Hin [Hs' _] Hsh. apply reap_due_wp; [done|done|].
  by apply due_lifecycles_live in Hin.
Qed.

(** ** Expired reservations *)

(** Releasing a reservation; a request that is not queued has nothing else. *)
Lemma release_eq s i n :
  Inv config known s -> dget (_queued s) i = None ->
  set_node_work_identities (discard_work (_node_work_identities s) n i)
    (set_cancellation_token_digests (ddel (_cancellation_token_digests s) i)
       (set_reservations (ddel (_reservations s) i) s)) = drop_live i n s.
Proof.
  intros Hs Hq. unfold drop_live, queues_without. rewrite Hq.
  rewrite (ddel_notin (_queued s)), (ddel_notin (_claims s)), (ddel_notin (_queued_token_digests s));
    [done| | |done].
  - pose proof (wl_qtok_dom _ _ _ _ _ _ _ (inv_live _ _ _ Hs) i) as Hd.
    destruct (dget (_queued_token_digests s) i); [|done].
    destruct (proj1 Hd) as [? ?]; [eauto|congruence].
  - by eapply no_claim_unqueued.
Qed.

Lemma release_ok s i n :
  Inv config known s -> dget (_queued s) i = None -> live_only_at s i n ->
  ok_state config known s (drop_live i n s).
Proof.
  intros Hs Hq Hn. split; [by apply Inv_drop|]. pose proof (inv_live _ _ _ Hs) as Hl.
  apply evolves_step; try (simpl; lia). intros j. destruct (decide (j = i)) as [->|Hj].
  - unfold phase_of, drop_live. simpl. rewrite !dget_ddel_eq, Hq by apply Hl.
    destruct (dget (_terminals s) i); [by left|].
    destruct (dget (_reservations s) i); [right; constructor|by left].
  - left. symmetry. by eapply phase_drop_other.
Qed.

Definition reservations_within (s0 s : store) : Prop :=
  _queued s = _queued s0 /\
  forall i r, dget (_reservations s) i = Some r -> dget (_reservations s0) i = Some r.

Lemma reap_reservation_wp now s0 s i r :
  Inv config known s0 -> Inv config known s -> reservations_within s0 s ->
  dget (_reservations s0) i = Some r ->
  wp (reap_reservation now (i, r))
    (fun _ s' => ok_state config known s s' /\ reservations_within s0 s')
    (fun e s' => ok_state config known s s' /\ e ≠ KeyError) s.
Proof.
  intros Hs0 Hs [Hqs Hrs] Hr. unfold reap_reservation. apply wp_bind, wp_get.
  destruct (_ && _); [|split; [by apply ok_refl|done]].
  assert (Hq : dget (_queued s) i = None).
  { rewrite Hqs. apply (wl_res_queued _ _ _ _ _ _ _ (inv_live _ _ _ Hs0)). eauto. }
  unfold _discard_node_work_identity_locked, wp, bind, modify. simpl.
  rewrite release_eq by done. split.
  - apply release_ok; [done|done|]. intros n' [(r' & Hr' & <-)|(q & Hq' & _)]; [|congruence].
    apply Hrs in Hr'. by simplify_eq.
  - split.
    + simpl. by rewrite ddel_notin.
    + simpl. intros j r'. rewrite dget_ddel_Some by (eapply wl_res, inv_live, Hs). intros [_ ?].
      by apply Hrs.
Qed.

Lemma reap_reservations_sound now s :
  Inv config known s -> sound_at config known (for_each (_reservations s) (reap_reservation now)) s.
Proof.
  intros Hs. apply (sound_at_loop config known (reservations_within s)); [done|by split|].
  intros [i r] s' Hin [Hs' _] Hsh. apply (reap_reservation_wp now s); [done|done|done|].
  apply elem_of_dget; [eapply wl_res, inv_live, Hs|done].
Qed.

(** ** Lease expiry *)

Lemma transition_unit_sound n d cause now :
  sound config known
    (let* _ := _transition_node_locked config n d cause now in ret tt).
Proof. apply sound_bind; [apply transition_node_sound|]. intros _. apply sound_ret. Qed.

Lemma head_sorted_elem {A} leb (l : list A) x : head (py_sorted leb l) = Some x -> x ∈ l.
Proof.
  intros Hh. apply (elem_of_py_sorted leb). destruct (py_sorted leb l); simplify_eq/=. left.
Qed.

Hypothesis known_inj : forall n m, known n -> known m -> _node_digest n = _node_digest m -> n = m.
#[local] Set Default Proof Using "Type*".

Lemma expire_sound now continue_pending :
  sound config known (_expire_locked config now continue_pending).
Proof.
  unfold _expire_locked. apply sound_bind; [by apply reap_retained_sound|]. intros _.
  apply sound_get. intros s Hs. apply sound_at_bind.
  { apply sound_for_each; [|done]. intros r _. apply transition_unit_sound. }
  intros _ s1 _ [Hs1 _]. apply (sound_get config known); [|done]. clear s1 Hs1. intros s1 Hs1.
  apply sound_at_bind; [|intros _ s2 _ [Hs2 _]; by apply sound_ret].
  destruct continue_pending; [|by apply sound_ret].
  destruct (head _) as [n|] eqn:Hh; [|by apply sound_ret].
  apply head_sorted_elem, dget_is_Some in Hh as [p Hp]. destruct (existsb _ _); [by apply sound_ret|].
  rewrite Hp. by apply transition_unit_sound.
Qed.

(** ** Reaping *)

Lemma reap_sound now : sound config known (_reap_locked config now).
Proof.
  unfold _reap_locked. apply sound_bind; [by apply reap_retained_sound|]. intros _.
  apply sound_get. intros s Hs. apply sound_at_bind; [by apply reap_due_sound|].
  intros _ s1 _ [Hs1 _]. apply sound_at_bind; [by apply expire_sound|].
  intros _ s2 _ [Hs2 _]. by apply (reap_reservations_sound now s2).
Qed.

End expiry.
