(* ===== verification/StoreReapSpec.v ===== *)
(** * What lease expiry and reaping achieve

    After [_expire_locked] returns, every registered node holds an unexpired
    lease; after [_reap_locked] returns, every live request is within its deadline,
    or is deferred because the outcome tables were full when its deadline was
    enforced. *)

From stdpp Require Import relations.
From S2P Require Import Prelude PyFloat PyStr PyDict Sha256 StoreTypes StoreState StoreCore.
From S2P Require Import StoreOps StoreInv StoreAtoms StoreNodes.
#[local] Open Scope Z_scope.

Section reap_spec.
Context `{!Crypto}.
Variable config : RelayStateStoreConfig.
Variable known : pystr -> Prop.

(** ** Node removal *)

Definition records_within (s s' : store) : Prop :=
  forall n r, dget (_records s') n = Some r -> dget (_records s) n = Some r.

Lemma records_within_trans s1 s2 s3 :
  records_within s1 s2 -> records_within s2 s3 -> records_within s1 s3.
Proof. intros H1 H2 n r Hr. by apply H1, H2. Qed.

Lemma records_same_within s s' : _records s' = _records s -> records_within s s'.
Proof. intros He n r. by rewrite He. Qed.

(** The effect of one call on a pending removal, whatever it returns. *)
Lemma advance_frame n p now s :
  Inv config known s -> dget (_pending_node_transitions s) n = Some p ->
  tightens s (_advance_node_transition config n p now s).1 /\
  _records (_advance_node_transition config n p now s).1 = _records s.
Proof.
  intros Hs Hp.
  destruct (advance_eq config known n p now s Hs Hp) as (k & s1 & c & a & Hd & _ & _ & _ & _ & _ & ->).
  pose proof (bdn_tight _ _ _ _ _ _ _ _ _ Hd) as Ht. pose proof (bdn_records _ _ _ _ _ _ _ _ _ Hd) as Hr.
  destruct (work_at n s1); [|done]. destruct (is_finite _); [|done]. simpl.
  assert (Hc : tightens s1 (completed config n p a now s1) /\
               _records (completed config n p a now s1) = _records s1).
  { unfold completed. destruct (dget (_node_tombstones s1) _); split; try done;
      by apply tightens_frame. }
  split; [etransitivity; [exact Ht|apply Hc]|]. rewrite <- Hr. apply Hc.
Qed.

Lemma begin_frame n r cause now s :
  let s' := (_begin_node_transition config n r cause now s).1 in
  tightens s s' /\ (s' = s \/ _records s' = ddel (_records s) n).
Proof.
  pose proof (begin_eq config n r cause now s) as Hb. destruct (begin_full config n r s).
  - destruct Hb as [msg ->]. split; [done|by left].
  - rewrite Hb. split; [by apply tightens_frame|by right].
Qed.

(** The node leaves the registrations, or nothing about them changes. *)
Definition node_gone (n : pystr) (s s' : store) : Prop :=
  tightens s s' /\ (_records s' = _records s \/ _records s' = ddel (_records s) n).

Lemma node_gone_refl n s : node_gone n s s.
Proof. split; [done|by left]. Qed.

Lemma transition_wp n d cause now s :
  Inv config known s ->
  wp (_transition_node_locked config n d cause now)
    (fun _ s' => node_gone n s s' /\
       (cause = registration_lease_expired -> forall r, dget (_records s) n = Some r ->
          fle (lease_expires_at_epoch r) now = true -> _records s' = ddel (_records s) n))
    (fun _ s' => node_gone n s s') s.
Proof.
  intros Hs. unfold _transition_node_locked. apply wp_bind, wp_get. cbv zeta.
  destruct (dget (_pending_node_transitions s) n) as [p|] eqn:Ep.
  { assert (Hnone : dget (_records s) n = None).
    { eapply wn_disjoint; [apply (inv_nodes _ _ _ Hs)|by eexists]. }
    apply wp_bind, wp_raise_if; [intros _; apply node_gone_refl|intros _].
    apply wp_bind, wp_raise_if; [intros _; apply node_gone_refl|intros _].
    pose proof (advance_frame n p now s Hs Ep) as [Ht Hr].
    assert (Hg : node_gone n s (_advance_node_transition config n p now s).1) by (split; [done|by left]).
    apply wp_state in Hg. eapply wp_mono; [exact Hg| |done].
    intros ? s' Hg'. split; [done|]. intros _ r Hr'. congruence. }
  destruct (dget (_records s) n) as [r|] eqn:Er.
  2:{ assert (Hsame : keeps (fun s' => s' = s) (_completed_transition n d cause)).
      { unfold _completed_transition. apply keeps_get_bind. intros s' ->.
        cbv zeta. destruct (dget (_node_tombstones s) _); [case_bool_decide|];
          try (by destruct (max_by_epoch _)). unfold bind, raise_if. by destruct (negb _). }
      specialize (Hsame s eq_refl). apply wp_state in Hsame.
      eapply wp_mono; [exact Hsame| |intros ? s' ->; apply node_gone_refl].
      intros ? s' ->. split; [apply node_gone_refl|done]. }
  apply wp_bind. eapply wp_mono with (Q := fun _ s' => s' = s) (R := fun _ s' => s' = s);
    [|  |intros ? s' ->; apply node_gone_refl].
  { destruct (bool_decide _); [|done]. unfold wp, lift. by destruct (_require_digest _ _). }
  intros ? s' ->. destruct (negb _ && _) eqn:E.
  { split; [apply node_gone_refl|]. intros -> r' [= <-] Hle.
    apply andb_true_iff in E as [_ E]. apply flt_not_fle in E. congruence. }
  apply wp_bind. pose proof (begin_eq config n r cause now s) as Hb. unfold wp at 1.
  destruct (begin_full config n r s) eqn:Ef.
  { destruct Hb as [msg ->]. apply node_gone_refl. }
  rewrite Hb. pose proof (begun_ok config known n r cause now s Hs Er Ef) as [Hs1 _].
  set (p := MkPending _ _ _ _ _ _ _).
  assert (Hp : dget (_pending_node_transitions (begun config n r cause now s)) n = Some p)
    by (unfold begun; simpl; by rewrite dget_dset_eq).
  pose proof (advance_frame n p now _ Hs1 Hp) as [Ht Hr].
  assert (Hg : (fun s' => tightens s s' /\ _records s' = ddel (_records s) n)
                 (_advance_node_transition config n p now (begun config n r cause now s)).1).
  { split; [|exact Hr]. etransitivity; [|exact Ht]. by apply tightens_frame. }
  apply wp_state in Hg. eapply wp_mono; [exact Hg| |].
  - intros ? s' [? ?]. split; [split; [done|by right]|done].
  - intros ? s' [? ?]. split; [done|by right].
Qed.

Lemma node_gone_within n s s' :
  nodup_keys (_records s) -> node_gone n s s' -> records_within s s'.
Proof.
  intros Hn [_ [He|He]] m r; rewrite He; [done|]. rewrite dget_ddel_Some by done. by intros [_ ?].
Qed.

(** ** Lease expiry *)

Definition expire_one (now : float64) (record : ComputeNodeRegistration) : M unit :=
  let* _ := _transition_node_locked config (node_id record) None registration_lease_expired now in
  ret tt.

Lemma expire_loop_wp now l : forall s,
  Inv config known s ->
  (forall r, r ∈ l -> fle (lease_expires_at_epoch r) now = true) ->
  wp (for_each l (expire_one now))
    (fun _ s' => tightens s s' /\ records_within s s' /\
       forall r, r ∈ l -> dget (_records s') (node_id r) ≠ Some r)
    (fun _ s' => tightens s s') s.
Proof.
  induction l as [|r l IH]; intros s Hs Hl; simpl.
  { split; [done|]. split; [by intros n r|]. by intros r ?%not_elem_of_nil. }
  apply wp_bind. unfold expire_one at 1. apply wp_bind.
  pose proof (transition_wp (node_id r) None registration_lease_expired now s Hs) as Hw.
  pose proof (transition_node_sound config known (node_id r) None registration_lease_expired now s Hs)
    as Hok.
  unfold wp in *. unfold sound_at, wp in Hok.
  destruct (_transition_node_locked _ _ _ _ _ s) as [s1 [e|x]]; [apply Hw|].
  destruct Hw as [Hg Hgone]. destruct Hok as [Hs1 _].
  assert (Hl' : forall x, x ∈ l -> fle (lease_expires_at_epoch x) now = true)
    by (intros y Hy; apply Hl; by right).
  specialize (IH s1 Hs1 Hl'). unfold wp in IH. simpl.
  pose proof (wn_records _ _ _ _ _ _ (inv_nodes _ _ _ Hs)) as Hn.
  pose proof (node_gone_within _ _ _ Hn Hg) as Hwi.
  destruct (for_each l (expire_one now) s1) as [s2 [e|u]];
    [etransitivity; [apply Hg|exact IH]|].
  destruct IH as (Ht & Hw2 & Hend). split; [etransitivity; [apply Hg|exact Ht]|].
  split; [by eapply records_within_trans|]. intros y [->|Hy]%elem_of_cons; [|by apply Hend].
  intros Hsome. apply Hw2 in Hsome. pose proof (Hwi _ _ Hsome) as Hs0.
  rewrite (Hgone eq_refl r Hs0) in Hsome by (apply Hl; left).
  rewrite dget_ddel_eq in Hsome; done.
Qed.

(** The retained records hold nothing live. *)
Definition retained_frame (s s' : store) : Prop :=
  _records s' = _records s /\ _reservations s' = _reservations s /\ _queued s' = _queued s /\
  _deferred_deadline_identities s' = _deferred_deadline_identities s.

Lemma reap_retained_frame now s : retained_frame s (_reap_retained_locked now s).1.
Proof.
  assert (Hk : keeps (retained_frame s) (_reap_retained_locked now)); [|by apply Hk].
  unfold _reap_retained_locked. apply keeps_get_bind. intros s0 Hs0.
  eapply (keeps_bind (retained_frame s)); [| |exact Hs0]; clear.
  - apply keeps_for_each. intros [i r]. unfold reap_response.
    apply keeps_if; [|apply keeps_ret]. apply keeps_bind; [by apply keeps_modify|]. intros _.
    apply keeps_get_bind. intros s1 Hs1. destruct (dget _ _); [|done]. by case_bool_decide.
  - intros _. repeat (apply keeps_bind; [by apply keeps_modify|]; intros _). by apply keeps_modify.
Qed.

Definition all_leased (now : float64) (s : store) : Prop :=
  forall n r, dget (_records s) n = Some r -> fle (lease_expires_at_epoch r) now = false.

Lemma expired_in_records s now r :
  r ∈ expired_records s now <->
  r ∈ dvalues (_records s) /\ fle (lease_expires_at_epoch r) now = true.
Proof. unfold expired_records. by rewrite elem_of_py_sorted, elem_of_bfilter. Qed.

Lemma expired_gone now s s' :
  Inv config known s -> records_within s s' ->
  (forall r, r ∈ expired_records s now -> dget (_records s') (node_id r) ≠ Some r) ->
  all_leased now s'.
Proof.
  intros Hs Hw Hgone n r Hr. destruct (fle _ now) eqn:E; [|done]. exfalso.
  pose proof (Hw _ _ Hr) as Hr0. pose proof (inv_nodes _ _ _ Hs) as Hn.
  apply (Hgone r).
  - apply expired_in_records. split; [|done]. apply elem_of_dvalues; [apply Hn|by exists n].
  - by rewrite (wn_key _ _ _ _ _ _ Hn _ _ Hr0).
Qed.

Lemma all_leased_within now s s' : records_within s s' -> all_leased now s -> all_leased now s'.
Proof. intros Hw Hl n r Hr. by eapply Hl, Hw. Qed.

Hypothesis known_inj : forall n m, known n -> known m -> _node_digest n = _node_digest m -> n = m.
#[local] Set Default Proof Using "Type*".

Lemma expire_wp now c s :
  Inv config known s ->
  wp (_expire_locked config now c)
    (fun _ s' => tightens s s' /\ all_leased now s') (fun _ s' => tightens s s') s.
Proof.
  intros Hs. unfold _expire_locked. apply wp_bind.
  pose proof (reap_retained_sound config known known_inj now s Hs) as Hok.
  pose proof (reap_retained_frame now s) as Hf. unfold wp. unfold sound_at, wp in Hok.
  destruct (_reap_retained_locked now s) as [s1 [e|[]]];
    destruct Hf as (Hrec & Hr & Hq & Hd); assert (Ht : tightens s s1) by (by apply tightens_frame);
    [done|].
  destruct Hok as [Hs1 _]. cbn [bind get_state].
  set (l := expired_records s1 now).
  assert (Hl : forall r, r ∈ l -> fle (lease_expires_at_epoch r) now = true)
    by (intros r Hr'; by apply expired_in_records in Hr' as [_ ?]).
  pose proof (expire_loop_wp now l s1 Hs1 Hl) as Hw.
  pose proof (sound_for_each config known l (expire_one now)
    (fun r _ => transition_unit_sound config known _ _ _ now) s1 Hs1) as Hok2.
  unfold wp in Hw. unfold sound_at, wp in Hok2. unfold bind at 1. fold (expire_one now).
  change (fun record => bind (_transition_node_locked config (node_id record) None
    registration_lease_expired now) (fun _ => ret tt)) with (expire_one now).
  destruct (for_each l (expire_one now) s1) as [s2 [e|[]]];
    [etransitivity; [exact Ht|exact Hw]|].
  destruct Hw as (Ht2 & Hwi & Hgone). destruct Hok2 as [Hs2 _].
  pose proof (expired_gone now s1 s2 Hs1 Hwi Hgone) as Hall.
  assert (Ht12 : tightens s s2) by (etransitivity; [exact Ht|exact Ht2]).
  cbn [bind get_state]. destruct (if c then _ else _) as [n|]; [|done].
  destruct (existsb _ _); [done|].
  destruct (dget (_pending_node_transitions s2) n) as [p|]; [|done].
  unfold from_option, bind, ret.
  pose proof (transition_wp n (if bool_decide (pt_cause p = explicit_unregister)
    then Some (pt_control_credential_digest p) else None) (pt_cause p) now s2 Hs2) as Hw3.
  unfold wp in Hw3. pose proof (wn_records _ _ _ _ _ _ (inv_nodes _ _ _ Hs2)) as Hn2.
  destruct (_transition_node_locked _ _ _ _ _ s2) as [s3 [e|x]].
  - etransitivity; [exact Ht12|apply Hw3].
  - destruct Hw3 as [Hg _]. split; [etransitivity; [exact Ht12|apply Hg]|].
    eapply all_leased_within; [|exact Hall]. by eapply node_gone_within.
Qed.

(** ** Reaping *)

(** Every live request is within its deadline, or deferred. *)
Definition none_due (now : float64) (s : store) : Prop :=
  forall i r, live_record s i = Some r ->
    fle (lr_request_deadline_epoch r) now = true -> i ∈ _deferred_deadline_identities s.

Lemma none_due_tightens now s s' : tightens s s' -> none_due now s -> none_due now s'.
Proof.
  intros [Hl Hd] Hn i r Hr Hle. apply Hd; [by eexists|]. by eapply Hn, Hle; apply Hl.
Qed.

(** Enforcing the deadlines of a list of live requests. *)
Lemma reap_due_tight now s0 s i r :
  Inv config known s -> shrinks s0 s -> live_record s0 i = Some r ->
  wp (reap_due config now (i, r))
    (fun _ s' => tightens s s' /\ shrinks s0 s' /\ Inv config known s' /\
       (is_Some (live_record s' i) -> i ∈ _deferred_deadline_identities s'))
    (fun _ _ => False) s.
Proof.
  intros Hs Hsh Hr. unfold reap_due. apply wp_bind, wp_get.
  destruct (negb (dmem (_terminals s) i) && _) eqn:E.
  2:{ split; [done|]. split; [done|]. split; [done|]. intros Hlive. exfalso.
      pose proof (not_live_terminal config known s i Hs Hlive) as Ht.
      rewrite (proj2 (dmem_false _ _) Ht) in E. simpl in E. apply orb_false_iff in E as [E1 E2].
      dmem_simpl. destruct Hlive as [x Hx]. unfold live_record in Hx. by rewrite E1, E2 in Hx. }
  apply andb_true_iff in E as [_ E].
  assert (Hlive : live_record s i = Some r).
  { destruct (live_record s i) as [r'|] eqn:Er.
    - apply Hsh in Er. congruence.
    - apply live_record_None in Er as [Hn1 Hn2].
      apply orb_true_iff in E as [[? ?]%dmem_true|[? ?]%dmem_true]; congruence. }
  apply wp_try_except, wp_bind. eapply wp_mono; [by apply terminalize_wp| |].
  - intros ? s' (Hok & _ & ->).
    pose proof (terminalized_tightens config known i r "expired" "request_deadline_expired" now false
      s Hs) as Ht.
    split; [exact Ht|]. split; [intros j x Hx; by apply Hsh, Ht|]. split; [apply Hok|].
    erewrite live_record_terminalized by done. rewrite bool_decide_eq_true_2 by done.
    by intros [? ?].
  - intros e s' [-> ->].
    split; [|split; [exact Hsh|split; [by apply defer_ok|]]]; unfold identity_add, identity_mem; simpl.
    + split; [done|]. intros j _ Hj. simpl. case_bool_decide; [done|].
      apply elem_of_app. by left.
    + intros _. case_bool_decide; [done|]. apply elem_of_app. right. by apply list_elem_of_singleton.
Qed.

Lemma due_loop_wp now s0 l : forall s,
  Inv config known s -> shrinks s0 s -> (forall i r, (i, r) ∈ l -> live_record s0 i = Some r) ->
  wp (for_each l (reap_due config now))
    (fun _ s' => tightens s s' /\ shrinks s0 s' /\ Inv config known s' /\
       forall i r, (i, r) ∈ l -> is_Some (live_record s' i) ->
         i ∈ _deferred_deadline_identities s')
    (fun _ _ => False) s.
Proof.
  induction l as [|[i r] l IH]; intros s Hs Hsh Hl; simpl.
  { do 3 (split; [done|]). by intros i r ?%not_elem_of_nil. }
  apply wp_bind. eapply wp_mono;
    [apply (reap_due_tight now s0 s i r Hs Hsh); apply Hl; left| |done].
  intros ? s1 (Ht & Hsh1 & Hs1 & Hd).
  eapply wp_mono; [apply (IH s1 Hs1 Hsh1); intros j x Hx; apply Hl; by right| |done].
  intros ? s2 (Ht2 & Hsh2 & Hs2 & Hd2). split; [etransitivity; [exact Ht|exact Ht2]|].
  do 2 (split; [done|]). intros j x [[= -> ->]|Hx]%elem_of_cons Hlive; [|by eapply Hd2].
  apply Ht2; [done|]. apply Hd. destruct Hlive as [y Hy]. exists y. by apply Ht2.
Qed.

Lemma due_lifecycles_all now s i r :
  live_record s i = Some r -> fle (lr_request_deadline_epoch r) now = true ->
  (i, r) ∈ due_lifecycles s now.
Proof.
  unfold live_record, due_lifecycles. intros Hr Hle. apply elem_of_app.
  destruct (dget (_reservations s) i) as [x|] eqn:Er; [left|right].
  - injection Hr as <-. apply list_elem_of_fmap. exists (i, x). split; [done|].
    apply elem_of_bfilter. split; [by apply dget_elem_of|done].
  - destruct (dget (_queued s) i) as [q|] eqn:Eq; [|done]. injection Hr as <-.
    apply list_elem_of_fmap. exists (i, q). split; [done|].
    apply elem_of_bfilter. split; [by apply dget_elem_of|done].
Qed.

(** Expired reservations are released, unless their deadline is deferred. *)
Definition none_lapsed (now : float64) (s : store) : Prop :=
  forall i r, dget (_reservations s) i = Some r ->
    fle (res_reservation_expires_at_epoch r) now = true -> i ∈ _deferred_deadline_identities s.

Lemma drop_live_tightens i n s : Inv config known s -> tightens s (drop_live i n s).
Proof.
  intros Hs. pose proof (inv_live _ _ _ Hs) as Hl. split; [|done].
  intros j r. unfold live_record, drop_live. simpl. rewrite !dget_ddel by apply Hl.
  by case_bool_decide.
Qed.

Lemma release_loop_wp now s0 l : forall s,
  Inv config known s0 -> Inv config known s -> reservations_within s0 s ->
  (forall i r, (i, r) ∈ l -> dget (_reservations s0) i = Some r) ->
  wp (for_each l (reap_reservation now))
    (fun _ s' => tightens s s' /\ _records s' = _records s /\
       _deferred_deadline_identities s' = _deferred_deadline_identities s /\
       (forall i r, dget (_reservations s') i = Some r -> dget (_reservations s) i = Some r) /\
       forall i r, (i, r) ∈ l -> fle (res_reservation_expires_at_epoch r) now = true ->
         is_Some (dget (_reservations s') i) -> i ∈ _deferred_deadline_identities s')
    (fun _ _ => False) s.
Proof.
  induction l as [|[i r] l IH]; intros s Hs0 Hs Hw Hl; cbn [for_each].
  { do 4 (split; [done|]). by intros i r ?%not_elem_of_nil. }
  apply wp_bind. pose proof (reap_reservation_wp config known now s0 s i r Hs0 Hs Hw) as Hwp.
  specialize (Hwp (Hl i r ltac:(left))).
  assert (Hone : wp (reap_reservation now (i, r))
    (fun _ s' => (s' = s \/ s' = drop_live i (res_selected_node_id r) s) /\
       (fle (res_reservation_expires_at_epoch r) now = true ->
        is_Some (dget (_reservations s') i) -> i ∈ _deferred_deadline_identities s'))
    (fun _ _ => False) s).
  { unfold reap_reservation. apply wp_bind, wp_get. unfold identity_mem.
    destruct (fle _ now) eqn:E1; [|by split; [left|]]. case_bool_decide; [by split; [left|]|].
    simpl. unfold _discard_node_work_identity_locked, wp, bind, modify. simpl.
    rewrite (release_eq config known) by (done || (rewrite (proj1 Hw);
      eapply wl_res_queued; [apply (inv_live _ _ _ Hs0)|]; eexists; apply Hl; left)).
    split; [by right|]. intros _. simpl.
    rewrite dget_ddel_eq by (eapply wl_res, inv_live, Hs). by intros [? ?]. }
  unfold wp in Hwp, Hone |- *. destruct (reap_reservation now (i, r) s) as [s1 [e|[]]]; [done|].
  destruct Hwp as [[Hs1 _] Hw1]. destruct Hone as [Hcase Hdef].
  assert (Ht : tightens s s1) by (destruct Hcase as [->| ->]; [done|by apply drop_live_tightens]).
  assert (Hsame : _records s1 = _records s /\
    _deferred_deadline_identities s1 = _deferred_deadline_identities s /\
    forall j x, dget (_reservations s1) j = Some x -> dget (_reservations s) j = Some x).
  { destruct Hcase as [->| ->]; [done|]. do 2 (split; [done|]). intros j x. simpl.
    rewrite dget_ddel_Some by (eapply wl_res, inv_live, Hs). by intros [_ ?]. }
  destruct Hsame as (Hrec & Hd & Hres).
  specialize (IH s1 Hs0 Hs1 Hw1 (fun j x Hx => Hl j x ltac:(by right))). unfold wp in IH.
  destruct (for_each l (reap_reservation now) s1) as [s2 [e|[]]]; [done|].
  destruct IH as (Ht2 & Hrec2 & Hd2 & Hres2 & Hend).
  split; [etransitivity; [exact Ht|exact Ht2]|]. split; [congruence|]. split; [congruence|].
  split; [by auto|]. intros j x [[= -> ->]|Hx]%elem_of_cons Hle Hlive; [|by eapply Hend].
  rewrite Hd2. apply Hdef; [done|]. destruct Hlive as [y Hy]. eexists. by apply Hres2.
Qed.

(** What an operation on requests may rely on once reaping has returned. *)
Record reaped (now : float64) (s : store) : Prop := {
  rp_leased : all_leased now s;
  rp_due : none_due now s;
  rp_lapsed : none_lapsed now s
}.

Lemma reap_wp now s :
  Inv config known s ->
  wp (_reap_locked config now) (fun _ s' => tightens s s' /\ reaped now s') (fun _ _ => True) s.
Proof.
  intros Hs. unfold _reap_locked. apply wp_bind.
  pose proof (reap_retained_sound config known known_inj now s Hs) as Hok.
  pose proof (reap_retained_frame now s) as (_ & Hr & Hq & Hd).
  unfold wp. unfold sound_at, wp in Hok.
  destruct (_reap_retained_locked now s) as [s1 [e|[]]]; [done|]. simpl in Hr, Hq, Hd.
  assert (Ht1 : tightens s s1) by (by apply tightens_frame). destruct Hok as [Hs1 _].
  cbn [bind get_state].
  pose proof (due_loop_wp now s1 (due_lifecycles s1 now) s1 Hs1 (fun i r H => H)
    (fun i r Hin => due_lifecycles_live config known now s1 i r Hs1 Hin)) as Hdue.
  unfold wp in Hdue. unfold bind at 1.
  destruct (for_each (due_lifecycles s1 now) (reap_due config now) s1) as [s2 [e|[]]]; [done|].
  destruct Hdue as (Ht2 & Hsh & Hs2 & Hall).
  assert (Hnd : none_due now s2).
  { intros i r Hlive Hle. eapply Hall; [|by eexists].
    apply due_lifecycles_all; [by apply Hsh|done]. }
  pose proof (expire_wp now false s2 Hs2) as He.
  pose proof (expire_sound config known known_inj now false s2 Hs2) as Hok3.
  unfold wp in He. unfold sound_at, wp in Hok3. unfold bind at 1.
  destruct (_expire_locked config now false s2) as [s3 [e|l]]; [done|].
  destruct He as [Ht3 Hleased]. destruct Hok3 as [Hs3 _]. cbn [bind get_state].
  pose proof (release_loop_wp now s3 (_reservations s3) s3 Hs3 Hs3) as Hrel.
  unfold wp in Hrel.
  destruct (for_each (_reservations s3) (reap_reservation now) s3) as [s4 [e|[]]]; [done|].
  destruct Hrel as (Ht4 & Hrec4 & Hd4 & Hres4 & Hend).
  { by split. }
  { intros i r Hin. apply elem_of_dget; [eapply wl_res, inv_live, Hs3|done]. }
  assert (Ht : tightens s2 s4) by (etransitivity; [exact Ht3|exact Ht4]).
  split; [etransitivity; [exact Ht1|etransitivity; [exact Ht2|exact Ht]]|]. split.
  - intros n r. rewrite Hrec4. apply Hleased.
  - by eapply none_due_tightens.
  - intros i r Hi Hle. eapply Hend; [|exact Hle|by eexists]. by apply dget_elem_of, Hres4.
Qed.

End reap_spec.
