(* ===== verification/StoreSelect.v ===== *)
(** * Scheduling: which node a request is reserved on

    The pure part of [select_and_reserve]: which nodes are eligible, and which of
    them is chosen.  A node is eligible when it supports the model and the tier,
    is healthy and not draining, and has room; the chosen node has the smallest
    sufficient tier, then the least load, and ties are broken round robin by
    registration order. *)

From Stdlib Require Import Sorting.Sorted.
From stdpp Require Import relations.
From S2P Require Import Prelude PyFloat PyStr PyDict Sha256 StoreTypes StoreState StoreCore.
From S2P Require Import StoreOps StoreInv.
#[local] Open Scope Z_scope.

(** ** The best candidates *)

Definition best (l : list candidate) (x : candidate) : Prop :=
  x ∈ l /\
  (forall y, y ∈ l -> cand_tier_size x <= cand_tier_size y) /\
  (forall y, y ∈ l -> cand_tier_size y = cand_tier_size x -> cand_load x <= cand_load y).

Lemma min_of_le f c l x : x ∈ l -> min_of f c l <= f x.
Proof.
  unfold min_of. induction l as [|y l IH]; [by intros ?%not_elem_of_nil|].
  intros [->|Hx]%elem_of_cons; simpl; [lia|]. specialize (IH Hx). lia.
Qed.

Lemma min_of_elem f c l : exists x, (x = c \/ x ∈ l) /\ f x = min_of f c l.
Proof.
  unfold min_of. induction l as [|y l (x & Hx & Hf)]; simpl; [by exists c; split; [left|]|].
  destruct (Z.le_ge_cases (f y) (fold_right (fun x acc => Z.min (f x) acc) (f c) l)).
  - exists y. split; [right; left|lia].
  - exists x. split; [destruct Hx; [by left|right; by right]|lia].
Qed.

(** A minimum over the list that starts with its default is attained in it. *)
Lemma min_of_attained f c l : exists x, x ∈ c :: l /\ f x = min_of f c (c :: l).
Proof.
  destruct (min_of_elem f c (c :: l)) as (x & [->|Hx] & Hf); exists x || exists c; split; try done.
  left.
Qed.

Lemma min_of_filter f c l :
  exists e es, bfilter (fun x => f x =? min_of f c (c :: l)) (c :: l) = e :: es.
Proof.
  destruct (min_of_attained f c l) as (x & Hx & Hf).
  destruct (bfilter _ (c :: l)) as [|e es] eqn:E; [|by exists e, es].
  assert (x ∈ bfilter (fun x => f x =? min_of f c (c :: l)) (c :: l)) as Hin.
  { apply elem_of_bfilter. split; [done|]. lia. }
  rewrite E in Hin. by apply not_elem_of_nil in Hin.
Qed.

(** The tied candidates are the best ones. *)
Lemma elem_of_tied c l x : x ∈ tied_candidates c l <-> best (c :: l) x.
Proof.
  unfold tied_candidates. destruct (min_of_filter cand_tier_size c l) as (e & es & E). rewrite E.
  assert (Hel : forall y, y ∈ e :: es <->
    y ∈ c :: l /\ cand_tier_size y = min_of cand_tier_size c (c :: l)).
  { intros y. rewrite <- E, elem_of_bfilter. by rewrite Z.eqb_eq. }
  rewrite elem_of_py_sorted, elem_of_bfilter, Hel, Z.eqb_eq. unfold best. split.
  - intros [[Hx Ht] Hload]. split; [done|]. split.
    + intros y Hy. rewrite Ht. by apply min_of_le.
    + intros y Hy Hty. rewrite Hload. apply min_of_le. apply Hel. split; [done|lia].
  - intros (Hx & Ht & Hload).
    destruct (min_of_attained cand_tier_size c l) as (y & Hy & Hfy).
    assert (Htx : cand_tier_size x = min_of cand_tier_size c (c :: l)).
    { pose proof (min_of_le cand_tier_size c (c :: l) x Hx). specialize (Ht y Hy). lia. }
    split; [done|]. destruct (min_of_attained cand_load e es) as (z & Hz & Hfz).
    pose proof (min_of_le cand_load e (e :: es) x (proj2 (Hel x) (conj Hx Htx))).
    apply Hel in Hz as [Hz Htz]. specialize (Hload z Hz). lia.
Qed.

Lemma tied_sorted c l :
  StronglySorted (fun a b => (cand_order a <=? cand_order b) = true) (tied_candidates c l).
Proof.
  unfold tied_candidates. destruct (bfilter _ _) as [|e es]; [constructor|].
  apply (py_sorted_sorted (fun a b => cand_order a <=? cand_order b)); lia.
Qed.

Lemma tied_nonempty c l : tied_candidates c l ≠ [].
Proof.
  unfold tied_candidates. destruct (min_of_filter cand_tier_size c l) as (e & es & ->).
  destruct (min_of_filter cand_load e es) as (x & xs & ->). simpl.
  destruct (py_sorted _ xs); simpl; [done|]. by destruct (_ <=? _).
Qed.

(** ** Round robin *)

(** [x] is the first of [l] after position [o], wrapping around. *)
Definition next_after (o : Z) (l : list candidate) (x : candidate) : Prop :=
  (o < cand_order x /\ forall y, y ∈ l -> o < cand_order y -> cand_order x <= cand_order y) \/
  ((forall y, y ∈ l -> cand_order y <= o) /\ forall y, y ∈ l -> cand_order x <= cand_order y).

Definition cursor_order (s : store) (fingerprint : pystr) : Z :=
  match dget (_fairness_cursors s) fingerprint with
  | None => -1
  | Some (n, _) => dget_or (_registration_order s) n (-1)
  end.

(** The first element of a sorted list that passes a test is the least that does. *)
Lemma find_sorted_least o l x :
  StronglySorted (fun a b => (cand_order a <=? cand_order b) = true) l ->
  List.find (fun y => o <? cand_order y) l = Some x ->
  o < cand_order x /\ forall y, y ∈ l -> o < cand_order y -> cand_order x <= cand_order y.
Proof.
  induction 1 as [|a l Hs IH Ha]; simpl; [done|]. destruct (o <? cand_order a) eqn:E.
  - intros [= ->]. split; [lia|]. intros y [->|Hy]%elem_of_cons _; [lia|].
    rewrite List.Forall_forall in Ha. apply list_elem_of_In in Hy. specialize (Ha y Hy). lia.
  - intros Hx. destruct (IH Hx) as [H1 H2]. split; [done|].
    intros y [->|Hy]%elem_of_cons Hy'; [lia|by apply H2].
Qed.

Lemma head_sorted_least l x :
  StronglySorted (fun a b => (cand_order a <=? cand_order b) = true) l -> head l = Some x ->
  forall y, y ∈ l -> cand_order x <= cand_order y.
Proof.
  destruct 1 as [|a l Hs Ha]; simpl; [done|]. intros [= ->] y [->|Hy]%elem_of_cons; [lia|].
  rewrite List.Forall_forall in Ha. apply list_elem_of_In in Hy. specialize (Ha y Hy). lia.
Qed.

Lemma find_none_le o l :
  List.find (fun y => o <? cand_order y) l = None -> forall y, y ∈ l -> cand_order y <= o.
Proof.
  intros Hn y Hy. apply list_elem_of_In in Hy. pose proof (List.find_none _ _ Hn y Hy). simpl in *. lia.
Qed.

Definition nonneg_orders (l : list candidate) : Prop := forall x, x ∈ l -> 0 <= cand_order x.

Lemma pick_next s fp l x :
  StronglySorted (fun a b => (cand_order a <=? cand_order b) = true) l -> nonneg_orders l ->
  pick_candidate s fp l = Some x -> x ∈ l /\ next_after (cursor_order s fp) l x.
Proof.
  intros Hs Hnn. unfold pick_candidate, cursor_order.
  assert (Hhead : head l = Some x -> x ∈ l) by (destruct l; simpl; [done|]; intros [= ->]; left).
  destruct (dget _ _) as [[n act]|].
  - destruct (List.find _ l) as [y|] eqn:E.
    + intros [= ->]. split; [apply list_elem_of_In; by apply List.find_some in E as [? _]|].
      left. by apply find_sorted_least.
    + intros Hx. split; [by apply Hhead|]. right. split; [by apply find_none_le|].
      by apply head_sorted_least.
  - intros Hx. split; [by apply Hhead|]. left. split.
    + specialize (Hnn x (Hhead Hx)). lia.
    + intros y Hy _. by eapply head_sorted_least.
Qed.

Lemma pick_total s fp l : l ≠ [] -> exists x, pick_candidate s fp l = Some x.
Proof.
  intros Hl. unfold pick_candidate. assert (exists x, head l = Some x) as [x Hx].
  { destruct l; [done|]. by eexists. }
  destruct (dget _ _) as [[n act]|]; [|by eexists]. destruct (List.find _ l); by eexists.
Qed.

(** ** Eligibility *)

Record node_eligible (config : RelayStateStoreConfig) (s : store) (model_id : pystr)
  (tier : context_tier) (n : pystr) (r : ComputeNodeRegistration) (st : SchedulerNodeState) : Prop := {
  ne_model : pystr_in model_id (supported_model_ids (capabilities r)) = true;
  ne_tier : tier_tokens tier <= tier_tokens (active_context_tier (capabilities r));
  ne_tokens : tier_tokens tier <= maximum_total_context_tokens (capabilities r);
  ne_healthy : healthy st = true;
  ne_serving : draining st = false;
  ne_concurrency :
    dcount (fun x => bool_decide (res_selected_node_id x = n)) (_reservations s)
    + zlen (dget_or (_node_queues s) n []) + claimed_work st < max_concurrency (capabilities r);
  ne_reservations :
    dcount (fun x => bool_decide (res_selected_node_id x = n)) (_reservations s)
      < max_reservations_per_node config;
  ne_depth :
    dcount (fun x => bool_decide (res_selected_node_id x = n)) (_reservations s)
    + zlen (dget_or (_node_queues s) n []) < max_queue_depth_per_node config
}.

Definition node_load (s : store) (n : pystr) (st : SchedulerNodeState) : Z :=
  dcount (fun x => bool_decide (res_selected_node_id x = n)) (_reservations s)
  + zlen (dget_or (_node_queues s) n []) + claimed_work st.

Section eligibility.
Context `{!Crypto}.
Variable config : RelayStateStoreConfig.
Variable known : pystr -> Prop.

Lemma node_candidate_Some s m t n r c :
  node_candidate config s m t (n, r) = inr (Some c) <->
  exists st o, dget (_scheduler_states s) n = Some st /\ dget (_registration_order s) n = Some o /\
    node_eligible config s m t n r st /\
    c = MkCandidate (tier_tokens (active_context_tier (capabilities r))) (node_load s n st) o n.
Proof.
  unfold node_candidate. destruct (dget (_scheduler_states s) n) as [st|].
  2:{ split; [done|]. by intros (? & ? & ? & _). }
  destruct (negb (pystr_in m _) || _ || _ || _ || _) eqn:E1.
  { split; [done|]. intros (? & ? & [= <-] & _ & [Hm ? ? Hh Hd _ _ _] & _).
    rewrite Hm, Hh, Hd in E1. lia. }
  destruct ((_ <=? _) || _ || _) eqn:E2.
  { split; [done|]. intros (? & ? & [= <-] & _ & [] & _). lia. }
  bdestruct. destruct (dget (_registration_order s) n) as [o|].
  2:{ split; [done|]. by intros (? & ? & _ & ? & _). }
  split.
  - intros [= <-]. exists st, o. split; [done|]. split; [done|]. split; [|done].
    split; (done || lia).
  - by intros (? & ? & [= <-] & [= <-] & _ & ->).
Qed.

(** The per-node indexes never miss, so no [KeyError] is raised. *)
Lemma node_candidate_total s m t n r :
  Inv config known s -> dget (_records s) n = Some r ->
  exists o, node_candidate config s m t (n, r) = inr o.
Proof.
  intros Hs Hr. pose proof (inv_nodes _ _ _ Hs) as Hn. unfold node_candidate.
  destruct (proj1 (wn_sched_dom _ _ _ _ _ _ Hn n)) as [st ->]; [by eexists|].
  destruct (_ || _); [by eexists|]. destruct (_ || _); [by eexists|].
  destruct (proj1 (wn_order_dom _ _ _ _ _ _ Hn n)) as [o ->]; by eexists.
Qed.

Lemma eligible_total s m t l :
  Inv config known s -> (forall n r, (n, r) ∈ l -> dget (_records s) n = Some r) ->
  exists cs, eligible_nodes config s m t l = inr cs /\
    forall c, c ∈ cs <-> exists n r, (n, r) ∈ l /\ node_candidate config s m t (n, r) = inr (Some c).
Proof.
  intros Hs. induction l as [|[n r] l IH]; intros Hl; cbn [eligible_nodes].
  { exists []. split; [done|]. intros c. split; [by intros ?%not_elem_of_nil|].
    by intros (n & r & Hin%not_elem_of_nil & _). }
  destruct (node_candidate_total s m t n r Hs) as [o Ho]; [apply Hl; left|].
  destruct IH as (cs & Hcs & Hel); [intros ???; apply Hl; by right|].
  rewrite Ho. cbn [ebind]. rewrite Hcs. cbn [ebind]. eexists. split; [done|]. intros c. split.
  - destruct o as [c'|].
    + intros [->|(n' & r' & ? & ?)%Hel]%elem_of_cons; [by exists n, r; split; [left|]|].
      exists n', r'. split; [by right|done].
    + intros (n' & r' & ? & ?)%Hel. exists n', r'. split; [by right|done].
  - intros (n' & r' & [[= -> ->]|Hin]%elem_of_cons & Hc).
    + rewrite Ho in Hc. injection Hc as ->. left.
    + assert (c ∈ cs) by (apply Hel; eauto). destruct o; [by right|done].
Qed.

(** [n] is the node the scheduler must choose. *)
Definition chosen (s : store) (m : pystr) (t : context_tier) (fp n : pystr) : Prop :=
  exists (cs : list candidate) x, cand_node_id x = n /\ best cs x /\
    (forall c, c ∈ cs <-> exists k r, (k, r) ∈ _records s /\
       node_candidate config s m t (k, r) = inr (Some c)) /\
    exists tied : list candidate, (forall y, y ∈ tied <-> best cs y) /\ next_after (cursor_order s fp) tied x.

Lemma candidate_in_store s m t c (cs : list candidate) :
  Inv config known s ->
  (forall c, c ∈ cs <-> exists k r, (k, r) ∈ _records s /\
     node_candidate config s m t (k, r) = inr (Some c)) ->
  c ∈ cs -> exists r, dget (_records s) (cand_node_id c) = Some r /\ 0 <= cand_order c.
Proof.
  intros Hs Hcs (k & r & Hin & (st & o & _ & Ho & _ & ->)%node_candidate_Some)%Hcs. simpl.
  pose proof (inv_nodes _ _ _ Hs) as Hn. exists r.
  split; [by apply elem_of_dget; [apply Hn|]|].
  by apply (wn_order_lt _ _ _ _ _ _ Hn) in Ho as [? _].
Qed.

(** Selection among the eligible nodes fails only when there is none. *)
Lemma selection_spec s m t fp :
  Inv config known s ->
  exists cs, eligible_nodes config s m t (_records s) = inr cs /\
    match cs with
    | [] => forall k r c, dget (_records s) k = Some r ->
              node_candidate config s m t (k, r) ≠ inr (Some c)
    | c :: l => exists x, pick_candidate s fp (tied_candidates c l) = Some x /\
                  chosen s m t fp (cand_node_id x) /\ is_Some (dget (_records s) (cand_node_id x))
    end.
Proof.
  intros Hs. pose proof (wn_records _ _ _ _ _ _ (inv_nodes _ _ _ Hs)) as Hnd.
  destruct (eligible_total s m t (_records s) Hs) as (cs & Hcs & Hel).
  { intros n r Hin. by apply elem_of_dget. }
  exists cs. split; [done|]. destruct cs as [|c l].
  - intros k r c Hk Hc. eapply (not_elem_of_nil c), Hel. exists k, r.
    split; [by apply dget_elem_of|done].
  - destruct (pick_total s fp (tied_candidates c l) (tied_nonempty c l)) as [x Hx].
    exists x. split; [done|].
    destruct (pick_next s fp (tied_candidates c l) x) as [Hin Hnext]; [apply tied_sorted| |done|].
    { intros y Hy. apply elem_of_tied in Hy as [Hy _].
      by destruct (candidate_in_store s m t y (c :: l) Hs Hel Hy) as (_ & _ & ?). }
    apply elem_of_tied in Hin. split.
    + exists (c :: l), x. split; [done|]. split; [done|]. split; [done|].
      exists (tied_candidates c l). split; [|done]. intros y. apply elem_of_tied.
    + destruct Hin as [Hin _].
      destruct (candidate_in_store s m t x (c :: l) Hs Hel Hin) as (r & ? & _). by eexists.
Qed.

End eligibility.
