(* ===== verification/StoreSound.v ===== *)
(** * Every operation preserves the invariant and refines the lifecycle

    For each public operation: from an invariant state it ends, returning or
    raising, in an invariant state the start evolves to by the moves of
    [phase_step], and it never raises [KeyError]. *)

From Stdlib Require Import Sorting.Sorted.
From stdpp Require Import relations.
From S2P Require Import Prelude PyFloat PyStr PyDict Sha256 StoreTypes StoreState StoreCore.
From S2P Require Import StoreOps StoreInv StoreAtoms StoreNodes.
From S2P Require Import StoreSelect.
#[local] Open Scope Z_scope.

(** ** Argument checks do not raise [KeyError] *)

Create HintDb nokey_db.

Ltac nokey := repeat (simpl in *; case_match); try discriminate.

Lemma ebind_no_key {A B} (m : store_error + A) (f : A -> store_error + B) :
  m ≠ inl KeyError -> (forall a, f a ≠ inl KeyError) -> ebind m f ≠ inl KeyError.
Proof. destruct m; simpl; [congruence|auto]. Qed.

Lemma eraise_if_no_key c e : e ≠ KeyError -> eraise_if c e ≠ inl KeyError.
Proof. intros He. destruct c; [|done]. simpl. congruence. Qed.

Lemma encode_utf8_no_key s : encode_utf8 s ≠ inl KeyError.
Proof. unfold encode_utf8. by case_match. Qed.

Lemma finite_number_no_key v e : e ≠ KeyError -> finite_number v e ≠ inl KeyError.
Proof. unfold finite_number. intros He. repeat case_match; congruence. Qed.

Lemma as_instance_no_key {A} (v : instance_of A) msg : as_instance v msg ≠ inl KeyError.
Proof. by destruct v. Qed.

#[export] Hint Resolve ebind_no_key eraise_if_no_key encode_utf8_no_key finite_number_no_key
  as_instance_no_key require_digest_no_key : nokey_db.
#[export] Hint Extern 1 (_ ≠ KeyError) => discriminate : nokey_db.
#[export] Hint Extern 1 (inr _ ≠ inl _) => discriminate : nokey_db.
#[export] Hint Extern 1 (inl _ ≠ inl _) => discriminate : nokey_db.

Section checks.
Context `{!Crypto} `{!PyUnicode}.
Variable config : RelayStateStoreConfig.

Lemma bounded_digest_no_key v b d m : bounded_digest v b d m ≠ inl KeyError.
Proof. unfold bounded_digest. case_match; auto 7 with nokey_db. Qed.

Lemma identity_no_key c r : _identity config c r ≠ inl KeyError.
Proof.
  unfold _identity, _identity_digest. pose proof bounded_digest_no_key. auto 7 with nokey_db.
Qed.

Lemma validate_node_id_no_key v : _validate_node_id config v ≠ inl KeyError.
Proof. unfold _validate_node_id. case_match; auto 7 with nokey_db. Qed.

Lemma validate_digest_no_key v : _validate_digest v ≠ inl KeyError.
Proof. unfold _validate_digest. by repeat case_match. Qed.

Lemma token_digest_no_key v : _token_digest v ≠ inl KeyError.
Proof. unfold _token_digest. by repeat case_match. Qed.

Lemma model_id_no_key v : _model_id config v ≠ inl KeyError.
Proof. unfold _model_id. repeat case_match; auto 7 with nokey_db. Qed.

Lemma context_tier_no_key v : _context_tier v ≠ inl KeyError.
Proof. unfold _context_tier. by case_match. Qed.

Lemma deadline_no_key v : _deadline v ≠ inl KeyError.
Proof. by apply finite_number_no_key. Qed.

Lemma now_no_key v : _now v ≠ inl KeyError.
Proof. by apply finite_number_no_key. Qed.

Lemma lease_deadline_no_key now : _lease_deadline config now ≠ inl KeyError.
Proof. unfold _lease_deadline. by case_match. Qed.

Lemma same_parameters_no_key a b c d e f : _require_same_parameters a b c d e f ≠ inl KeyError.
Proof. unfold _require_same_parameters. auto with nokey_db. Qed.

Lemma generation_no_key v : _validate_generation v ≠ inl KeyError.
Proof. unfold _validate_generation. by repeat case_match. Qed.

Lemma envelope_size_no_key e : _validate_envelope_size config e ≠ inl KeyError.
Proof. unfold _validate_envelope_size. auto with nokey_db. Qed.

Lemma response_envelope_no_key e : _serialized_response_envelope e ≠ inl KeyError.
Proof. apply encode_utf8_no_key. Qed.

End checks.

#[export] Hint Resolve bounded_digest_no_key identity_no_key validate_node_id_no_key
  validate_digest_no_key token_digest_no_key model_id_no_key context_tier_no_key
  deadline_no_key now_no_key lease_deadline_no_key same_parameters_no_key generation_no_key
  envelope_size_no_key response_envelope_no_key : nokey_db.

Section sound_operations.
Context `{!Crypto} `{!PyUnicode}.
Variable config : RelayStateStoreConfig.
Variable acknowledgement_key : list byte.
Variable known : pystr -> Prop.
Hypothesis known_inj : forall n m, known n -> known m -> _node_digest n = _node_digest m -> n = m.
#[local] Set Default Proof Using "Type*".

Lemma sound_at_get {B} (f : store -> M B) s :
  sound_at config known (f s) s -> sound_at config known (bind get_state f) s.
Proof. done. Qed.

Lemma sound_at_expire {B} (f : list ComputeNodeRegistration -> M B) now c s :
  Inv config known s ->
  (forall a s', Inv config known s' -> sound_at config known (f a) s') ->
  sound_at config known (bind (_expire_locked config now c) f) s.
Proof.
  intros Hs Hf. apply sound_at_bind; [by apply expire_sound|]. intros a s' _ [Hs' _]. by apply Hf.
Qed.

Lemma sound_at_reap {B} (f : unit -> M B) now s :
  Inv config known s ->
  (forall s', Inv config known s' -> sound_at config known (f tt) s') ->
  sound_at config known (bind (_reap_locked config now) f) s.
Proof.
  intros Hs Hf. apply sound_at_bind; [by apply reap_sound|]. intros [] s' _ [Hs' _]. by apply Hf.
Qed.

Lemma sound_at_retained {B} (f : unit -> M B) now s :
  Inv config known s ->
  (forall s', Inv config known s' -> sound_at config known (f tt) s') ->
  sound_at config known (bind (_reap_retained_locked now) f) s.
Proof.
  intros Hs Hf. apply sound_at_bind; [by apply reap_retained_sound|].
  intros [] s' _ [Hs' _]. by apply Hf.
Qed.

(** One statement of an operation. *)
Ltac sound_step :=
  lazymatch goal with
  | |- sound_at _ _ (bind (lift_val _) _) _ =>
      apply sound_at_lift_val; [assumption|auto with nokey_db|intros ? ?]
  | |- sound_at _ _ (bind (lift _) _) _ =>
      apply sound_at_lift; [assumption|auto with nokey_db|intros ?]
  | |- sound_at _ _ (bind (raise_if _ _) _) _ =>
      apply sound_at_raise_if; [assumption|discriminate|intros ?]
  | |- sound_at _ _ (bind get_state _) _ => apply sound_at_get
  | |- sound_at _ _ (bind (_expire_locked _ _ _) _) _ =>
      apply sound_at_expire; [assumption|]
  | |- sound_at _ _ (bind (_reap_locked _ _) _) _ =>
      apply sound_at_reap; [assumption|]
  | |- sound_at _ _ (bind (_reap_retained_locked _) _) _ =>
      apply sound_at_retained; [assumption|]
  | |- sound_at _ _ (ret _) _ => by apply sound_ret
  | |- sound_at _ _ (raise _) _ => by apply sound_raise
  | |- sound_at _ _ (if ?b then ret _ else _) _ => destruct b; [by apply sound_ret|]
  end.

(** ** Registration *)

Lemma wf_nodes_register recs sched order next pend n r :
  wf_nodes known recs sched order next pend -> known n -> node_id r = n ->
  dget recs n = None -> dget pend n = None ->
  wf_nodes known (dset recs n r) (dset sched n default_scheduler_state) (dset order n next)
    (next + 1) pend.
Proof.
  intros [? ? ? ? Hk Hkey Hsd Hod Hlt Hinj Hpk Hdis ?] Hn Hr Hnone Hpn.
  split; auto with dict_db; try lia.
  - intros m. rewrite is_Some_dset. intros [[->|?]|?]; [done|apply Hk; tauto..].
  - intros m r'. rewrite dget_dset. case_bool_decide; [|by apply Hkey]. by intros [= <-]; subst m.
  - intros m. by rewrite !is_Some_dset, Hsd.
  - intros m. by rewrite !is_Some_dset, Hod.
  - intros m k. rewrite dget_dset. case_bool_decide; [intros [= <-]; lia|].
    intros Hm. specialize (Hlt m k Hm). lia.
  - intros m1 m2 k. rewrite !dget_dset. repeat case_bool_decide; subst; try done.
    + intros [= <-] Hm%Hlt. lia.
    + intros Hm%Hlt [= <-]. lia.
    + by apply Hinj.
  - intros m Hm. rewrite dget_dset. case_bool_decide; [|by apply Hdis].
    subst. destruct Hm as [? ?]. congruence.
Qed.

Lemma wf_nodes_update recs sched order next pend n r r' :
  wf_nodes known recs sched order next pend -> dget recs n = Some r -> node_id r' = n ->
  wf_nodes known (dset recs n r') sched order next pend.
Proof.
  intros [? ? ? ? Hk Hkey Hsd Hod Hlt Hinj Hpk Hdis ?] Hn Hr.
  assert (Hdom : forall m, is_Some (dget (dset recs n r') m) <-> is_Some (dget recs m)).
  { intros m. rewrite is_Some_dset. split; [intros [->|?]; eauto|tauto]. }
  split; auto with dict_db.
  - intros m. rewrite Hdom. apply Hk.
  - intros m x. rewrite dget_dset. case_bool_decide; [|by apply Hkey]. by intros [= <-]; subst m.
  - intros m. by rewrite Hdom.
  - intros m. by rewrite Hdom.
  - intros m Hm. specialize (Hdis m Hm). destruct (dget (dset recs n r') m) eqn:E; [|done].
    assert (is_Some (dget recs m)) as [? ?] by (apply Hdom; eauto). congruence.
Qed.

Lemma wf_nodes_sched recs sched order next pend n st :
  wf_nodes known recs sched order next pend -> is_Some (dget recs n) ->
  wf_nodes known recs (dset sched n st) order next pend.
Proof.
  intros [? ? ? ? Hk Hkey Hsd Hod Hlt Hinj Hpk Hdis ?] Hn. split; auto with dict_db.
  intros m. rewrite is_Some_dset, Hsd. split; [tauto|]. intros [->|?]; [by apply Hsd|done].
Qed.

Lemma wf_work_more_nodes res queued work recs recs' pend :
  wf_work res queued work recs pend ->
  (forall n, is_Some (dget recs n) -> is_Some (dget recs' n)) ->
  wf_work res queued work recs' pend.
Proof.
  intros [? ? ? Hn] Hr. split; try done. intros n i Hi. destruct (Hn n i Hi); [left|right]; auto.
Qed.

Lemma update_record_ok n r r' s :
  Inv config known s -> dget (_records s) n = Some r -> node_id r' = n ->
  ok_state config known s (set_records (dset (_records s) n r') s).
Proof.
  intros Hs Hr Hn. split; [|by apply evolves_same]. destruct Hs as [? ? ? ? ? ? []].
  split; try assumption; simpl.
  - by apply wf_nodes_update with r.
  - eapply wf_work_more_nodes; [done|]. intros m Hm. rewrite is_Some_dset. by right.
  - split; try assumption. simpl. rewrite dlen_dset, (proj2 (dmem_true _ _)) by eauto. done.
Qed.

Definition registered_new (n : pystr) (r : ComputeNodeRegistration) (s : store) : store :=
  set_next_registration_order (_next_registration_order s + 1)
    (set_registration_order (dset (_registration_order s) n (_next_registration_order s))
       (set_scheduler_states (dset (_scheduler_states s) n default_scheduler_state)
          (set_records (dset (_records s) n r) s))).

Lemma registered_new_ok n r s :
  Inv config known s -> known n -> node_id r = n -> dget (_records s) n = None ->
  dget (_pending_node_transitions s) n = None -> dlen (_records s) < max_compute_nodes config ->
  ok_state config known s (registered_new n r s).
Proof.
  intros Hs Hk Hr Hn Hp Hb. unfold registered_new.
  split; [|apply evolves_same; simpl; (done || lia)]. destruct Hs as [? ? ? ? ? ? []].
  split; try assumption; simpl.
  - by apply wf_nodes_register.
  - eapply wf_work_more_nodes; [done|]. intros m Hm. rewrite is_Some_dset. by right.
  - split; try assumption. simpl. rewrite dlen_dset, (proj2 (dmem_false _ _)) by done. lia.
Qed.

Lemma register_sound v caps d t :
  (forall n, _validate_node_id config v = inr n -> known n) ->
  sound config known (register config v caps d t).
Proof.
  intros Hkn s Hs. unfold register. do 6 sound_step. clear s Hs. intros s Hs.
  sound_step. clear s Hs. intros _ s Hs. do 3 sound_step. dmem_simpl.
  destruct (dget (_records s) a) as [r|] eqn:Er.
  - apply sound_at_lift; [done|auto with nokey_db|intros _].
    apply (sound_at_final _ _ _ _ _ _ eq_refl). by apply update_record_ok with r.
  - sound_step. eapply (sound_at_final _ _ _ _ (registered_new a _ s)); [reflexivity|].
    apply registered_new_ok; try done; [by apply Hkn|].
    rewrite (proj2 (dmem_false _ _)) in * by done. simpl in *. lia.
Qed.

Lemma renew_sound v d caps t : sound config known (renew config v d caps t).
Proof.
  intros s Hs. unfold renew. do 2 sound_step. apply sound_at_bind.
  { destruct caps; [|by apply sound_ret]. do 2 sound_step. }
  intros c s1 _ [Hs1 _]. clear s Hs. do 2 sound_step. clear s1 Hs1. intros _ s Hs. sound_step.
  destruct (dget (_records s) a) as [r|] eqn:Er; [|by apply sound_ret].
  do 2 sound_step. apply (sound_at_final _ _ _ _ _ _ eq_refl).
  apply update_record_ok with r; try done. simpl. by apply (wn_key _ _ _ _ _ _ (inv_nodes _ _ _ Hs)).
Qed.

Lemma get_sound v t : sound config known (get config v t).
Proof.
  intros s Hs. unfold get. do 3 sound_step. clear s Hs. intros _ s Hs. do 2 sound_step.
Qed.

Lemma list_sound t : sound config known (list_ config t).
Proof. intros s Hs. unfold list_. do 2 sound_step. clear s Hs. intros _ s Hs. do 2 sound_step. Qed.

Lemma expire_op_sound t : sound config known (expire config t).
Proof. intros s Hs. unfold expire. sound_step. by apply expire_sound. Qed.

Lemma unregister_node_sound v d cause t :
  sound config known (unregister_node_and_transition_work config v d cause t).
Proof.
  intros s Hs. unfold unregister_node_and_transition_work. do 2 sound_step. apply sound_at_bind.
  { case_bool_decide; [|by apply sound_ret]. do 2 sound_step. }
  intros c s1 _ [Hs1 _]. clear s Hs. do 2 sound_step. clear s1 Hs1. intros s Hs.
  by apply transition_node_sound.
Qed.

Lemma unregister_sound v d t : sound config known (unregister config v d t).
Proof. apply sound_bind; [apply unregister_node_sound|]. intros r. apply sound_ret. Qed.

Lemma set_scheduler_state_sound v d st t :
  sound config known (set_scheduler_state config v d st t).
Proof.
  intros s Hs. unfold set_scheduler_state. do 5 sound_step. clear s Hs. intros _ s Hs. sound_step.
  destruct (dget (_records s) a) as [r|] eqn:Er; [|by apply sound_ret].
  sound_step. apply (sound_at_final _ _ _ _ _ _ eq_refl). split; [|by apply evolves_same].
  destruct Hs as [? ? ? ? ? ? []]. split; try assumption; simpl; [|by split].
  apply wf_nodes_sched; [done|by eexists].
Qed.

(** ** Selection *)

Lemma live_at_reserve res queued i r n j :
  dget res i = None -> dget queued i = None ->
  live_at (dset res i r) queued n j <->
    (j = i /\ n = res_selected_node_id r) \/ live_at res queued n j.
Proof.
  intros Hr Hq. unfold live_at. split.
  - intros [(x & Hx & Hn)|?]; [|tauto]. rewrite dget_dset in Hx. case_bool_decide; [|eauto].
    injection Hx as <-. by left.
  - intros [[-> ->]|[(x & Hx & Hn)|?]]; [left|left|by right].
    + exists r. by rewrite dget_dset_eq.
    + exists x. rewrite dget_dset_ne; [done|congruence].
Qed.

Lemma works_ok_add work n i :
  works_ok work -> works_ok (dset work n (dset (dget_or work n []) i tt)).
Proof.
  intros Hw. pose proof (works_ok_inner work n Hw) as Hin. destruct Hw as [Hn Hi].
  split; [by apply nodup_dset|]. intros m d. rewrite dget_dset.
  case_bool_decide; [|by apply Hi]. intros [= <-]. split; [by apply nodup_dset|].
  intros Hd. pose proof (dget_dset_eq (dget_or work n []) i tt) as He. by rewrite Hd in He.
Qed.

Lemma wf_work_reserve res queued work recs pend i r n :
  wf_work res queued work recs pend -> dget res i = None -> dget queued i = None ->
  res_selected_node_id r = n -> is_Some (dget recs n) ->
  wf_work (dset res i r) queued (dset work n (dset (dget_or work n []) i tt)) recs pend.
Proof.
  intros [Hw Hi Hl Hn] Hr Hq <- Hrec.
  destruct (works_ok_add work (res_selected_node_id r) i (conj Hw Hi)) as [Hw' Hi'].
  split; try done.
  - intros m j. rewrite live_at_reserve, <- Hl by done. unfold dget_or at 1. rewrite dget_dset.
    case_bool_decide as E; simpl; [|tauto]. rewrite is_Some_dset. subst m. tauto.
  - intros m j. rewrite live_at_reserve by done. intros [[-> ->]|Hj]; [by left|by apply (Hn m j)].
Qed.

Lemma wf_live_reserve res queued qtok cancel claims terms g i r c :
  wf_live res queued qtok cancel claims terms g ->
  dget res i = None -> dget queued i = None -> dget terms i = None ->
  (res_client_identity_digest r, res_request_identity_digest r) = i ->
  wf_live (dset res i r) queued qtok
    (match c with Some d => dset cancel i d | None => cancel end) claims terms g.
Proof.
  intros [?????? Hrk Hk Hrq Htl Htk Hqt Hc Hqc Hcl Hg Hgi ?] Hr Hq Ht Hi. split; auto with dict_db.
  - destruct c; auto with dict_db.
  - intros j r'. rewrite dget_dset. case_bool_decide; [|by apply Hrk]. by intros [= <-]; subst.
  - intros j. rewrite is_Some_dset. intros [->|?]; [done|by apply Hrq].
  - intros j Hj. destruct (Htl j Hj) as [Hj1 Hj2]. split; [|done].
    rewrite dget_dset_ne; [done|]. intros ->. destruct Hj. congruence.
  - intros j. rewrite is_Some_dset. destruct c; [rewrite is_Some_dset|].
    + intros [->|Hj]; [by left; left|]. destruct (Hc j Hj); tauto.
    + intros Hj. destruct (Hc j Hj); tauto.
  - intros j Hj. destruct c; [|by apply Hqc]. rewrite is_Some_dset. right. by apply Hqc.
Qed.

Definition reserved (i : identity) (r : ReservationRecord) (c evicted : option pystr) (fp : pystr)
  (s : store) : store :=
  let n := res_selected_node_id r in
  set_fairness_cursors
    (dset (match evicted with
           | Some f => ddel (_fairness_cursors s) f
           | None => _fairness_cursors s
           end) fp (n, _fairness_activity s + 1))
    (set_fairness_activity (_fairness_activity s + 1)
       (set_cancellation_token_digests
          (match c with
           | Some d => dset (_cancellation_token_digests s) i d
           | None => _cancellation_token_digests s
           end)
          (set_node_work_identities
             (dset (_node_work_identities s) n (dset (dget_or (_node_work_identities s) n []) i tt))
             (set_reservations (dset (_reservations s) i r) s)))).

(** The cursor table has room for one more fingerprint. *)
Definition cursor_room (s : store) (fp : pystr) (evicted : option pystr) : Prop :=
  match evicted with
  | Some f => is_Some (dget (_fairness_cursors s) f)
  | None => dmem (_fairness_cursors s) fp = true \/
            dlen (_fairness_cursors s) < max_scheduler_fingerprints config
  end.

Lemma bounded_cursors s fp v evicted :
  dlen (_fairness_cursors s) <= max_scheduler_fingerprints config -> cursor_room s fp evicted ->
  dlen (dset (match evicted with
              | Some f => ddel (_fairness_cursors s) f
              | None => _fairness_cursors s
              end) fp v) <= max_scheduler_fingerprints config.
Proof.
  intros Hle Hroom. destruct evicted as [f|]; simpl in Hroom.
  - pose proof (dlen_dset_le (ddel (_fairness_cursors s) f) fp v).
    rewrite dlen_ddel, (proj2 (dmem_true _ _)) in * by done. lia.
  - rewrite dlen_dset. destruct (dmem _ _); [done|]. destruct Hroom; [done|lia].
Qed.

Definition room_to_reserve (s : store) (client : pystr) : Prop :=
  dlen (_reservations s) < max_reservations config /\
  dlen (_reservations s) + dlen (_queued s) < max_request_lifecycles config /\
  client_lifecycles s client < max_reservations_per_client config.

Lemma bounded_reserved i r c evicted fp s :
  bounded config s -> dget (_reservations s) i = None ->
  room_to_reserve s (res_client_identity_digest r) -> cursor_room s fp evicted ->
  bounded config (reserved i r c evicted fp s).
Proof.
  intros [] Hi (Hr1 & Hr2 & Hr3) Hroom. unfold reserved. unfold client_lifecycles in Hr3.
  split; try assumption; simpl.
  - rewrite dlen_dset, (proj2 (dmem_false _ _)) by done. lia.
  - rewrite dlen_dset, (proj2 (dmem_false _ _)) by done. lia.
  - intros cl. rewrite dcount_dset_fresh by done. specialize (bd_client cl).
    case_bool_decide; [subst; lia|lia].
  - by apply bounded_cursors.
Qed.

Lemma reserved_ok i r c evicted fp s :
  Inv config known s -> live_record s i = None -> dget (_terminals s) i = None ->
  (res_client_identity_digest r, res_request_identity_digest r) = i ->
  is_Some (dget (_records s) (res_selected_node_id r)) ->
  room_to_reserve s (res_client_identity_digest r) -> cursor_room s fp evicted ->
  ok_state config known s (reserved i r c evicted fp s).
Proof.
  intros Hs [Hr Hq]%live_record_None Ht Hi Hn Hroom Hc. split.
  - pose proof (bounded_reserved i r c evicted fp s (inv_bounded _ _ _ Hs) Hr Hroom Hc).
    destruct Hs as [? ? ? ? ? [] _]. split; try assumption; unfold reserved; simpl.
    + by apply wf_live_reserve.
    + by apply wf_work_reserve.
    + split; try assumption. apply nodup_dset. destruct evicted; [by apply nodup_ddel|done].
  - apply evolves_step; try (simpl; lia). intros j. unfold phase_of, reserved. simpl.
    rewrite dget_dset. case_bool_decide; [|by left]. subst j. right. rewrite Ht, Hr, Hq.
    constructor.
Qed.

Lemma min_by_elem {A} leb (l : list A) x : min_by leb l = Some x -> x ∈ l.
Proof.
  revert x. induction l as [|y l IH]; intros x; simpl; [done|].
  destruct (min_by leb l) as [z|]; intros [= <-]; [|left].
  destruct (leb y z); [left|right; by apply IH].
Qed.

Lemma eviction_candidate_wp fp s :
  wp (_cursor_eviction_candidate_locked config fp)
    (fun evicted s' => s' = s /\ cursor_room s fp evicted)
    (fun e s' => s' = s /\ e = no_capacity) s.
Proof.
  unfold _cursor_eviction_candidate_locked. apply wp_bind, wp_get.
  destruct (dmem _ _) eqn:E1; [split; [done|by left]|].
  destruct (dlen _ <? _) eqn:E2; [split; [done|right; lia]|].
  destruct (min_by _ _) as [[a f]|] eqn:E3; [|done]. split; [done|]. simpl.
  apply min_by_elem, list_elem_of_fmap in E3 as ([f' [n a']] & [= -> ->] & Hin).
  apply elem_of_bfilter in Hin as [Hin _]. apply dget_is_Some.
  unfold dkeys. apply list_elem_of_fmap. by exists (f', (n, a')).
Qed.

(** A new request is reserved on the chosen node, or refused without a change. *)
Lemma reserve_new_wp i m t deadline fp c raw now s :
  Inv config known s ->
  wp (reserve_new config i m t deadline fp c raw now)
    (fun res s' => exists n evicted,
       let r := MkReservation i.1 i.2 fp n m t deadline
                  (fmin (fadd now (reservation_ttl_seconds config)) deadline) (ascii_digest raw) in
       chosen config s m t fp n /\ is_Some (dget (_records s) n) /\ room_to_reserve s i.1 /\
       cursor_room s fp evicted /\ s' = reserved i r c evicted fp s /\
       res = _selection_result r (Some raw) true)
    (fun e s' => s' = s /\ e ≠ KeyError) s.
Proof.
  intros Hs. unfold reserve_new. apply wp_bind, wp_get.
  apply wp_bind, wp_raise_if; [done|intros E1]. apply wp_bind, wp_raise_if; [done|intros E2].
  apply wp_bind, wp_raise_if; [done|intros E3].
  destruct (selection_spec config known s m t fp Hs) as (cs & Hcs & Hsel). rewrite Hcs.
  apply wp_bind, wp_ret. apply wp_bind, wp_from_option; [done|]. intros y Hy.
  destruct cs as [|x l]; [done|]. destruct Hsel as (y' & Hy' & Hch & Hreg).
  replace y' with y in * by congruence.
  apply wp_bind. eapply wp_mono; [apply eviction_candidate_wp| |by intros e s' [-> ->]].
  intros evicted s' [-> Hroom]. apply wp_bind, wp_raise_if; [done|intros _].
  assert (Hr : room_to_reserve s i.1) by (unfold room_to_reserve; lia).
  destruct evicted, c; (exists (cand_node_id y); eexists; do 4 (split; [eassumption|]); done).
Qed.

Lemma select_sound a b m t d c raw now :
  sound config known (select_and_reserve config a b m t d c raw now).
Proof.
  intros s Hs. unfold select_and_reserve. do 4 sound_step. apply sound_at_bind.
  { destruct c; [|by apply sound_ret]. unfold _cancellation_token_digest. do 2 sound_step. }
  intros cd s1 _ [Hs1 _]. clear s Hs. do 2 sound_step. clear s1 Hs1. intros s Hs.
  do 4 sound_step. dmem_simpl. destruct (dget (_queued s) a0) as [q|] eqn:Eq.
  { unfold select_queued. do 3 sound_step. }
  destruct (dget (_reservations s) a0) as [r|] eqn:Er.
  { unfold select_reserved. do 3 sound_step. }
  unfold sound_at. eapply wp_mono; [by apply reserve_new_wp| |].
  - intros res s' (n & ev & _ & Hn & Hroom & Hc & -> & _).
    apply reserved_ok; try done; [by apply live_record_None|by destruct a0].
  - intros e s' [-> He]. split; [by apply ok_refl|done].
Qed.

(** ** Enqueueing *)

Lemma live_at_enqueue res queued i r q n j :
  nodup_keys res -> dget res i = Some r -> dget queued i = None ->
  q_selected_node_id q = res_selected_node_id r ->
  live_at (ddel res i) (dset queued i q) n j <-> live_at res queued n j.
Proof.
  intros Hn Hr Hq Hsel. unfold live_at. destruct (decide (j = i)) as [->|Hj].
  - rewrite dget_ddel_eq, dget_dset_eq, Hr, Hq by done. split.
    + intros [(? & ? & _)|(? & [= <-] & <-)]; [done|]. left. by exists r.
    + intros [(? & [= <-] & <-)|(? & ? & _)]; [|done]. right. by exists q.
  - by rewrite dget_ddel_ne, dget_dset_ne by done.
Qed.

Lemma wf_live_enqueue res queued qtok cancel claims terms g i r q td cd :
  wf_live res queued qtok cancel claims terms g -> dget res i = Some r ->
  queued_identity q = i ->
  wf_live (ddel res i) (dset queued i q) (dset qtok i td) (dset cancel i cd) claims terms g.
Proof.
  intros [?????? Hrk Hk Hrq Htl Htk Hqt Hc Hqc Hcl Hg Hgi ?] Hr Hi.
  assert (Hqi : dget queued i = None) by (apply Hrq; eauto). split; auto with dict_db.
  - intros j r'. rewrite dget_ddel_Some by done. intros [_ ?]. by apply Hrk.
  - intros j q'. rewrite dget_dset. case_bool_decide; [|by apply Hk]. by intros [= <-]; subst.
  - intros j. rewrite is_Some_ddel by done. intros [Hj ?]. rewrite dget_dset_ne by done. by apply Hrq.
  - intros j Hj. destruct (Htl j Hj) as [Hj1 Hj2].
    assert (j ≠ i) by (intros ->; congruence). rewrite dget_ddel_ne, dget_dset_ne by done. done.
  - intros j. by rewrite !is_Some_dset, Hqt.
  - intros j. rewrite !is_Some_dset, is_Some_ddel by done.
    intros [->|Hj]; [tauto|]. destruct (decide (j = i)); [tauto|]. destruct (Hc j Hj); tauto.
  - intros j. rewrite !is_Some_dset. intros [->|Hj]; [by left|right; by apply Hqc].
  - intros j c Hj. destruct (Hcl j c Hj) as (q' & Hq' & ?). exists q'.
    rewrite dget_dset_ne; [done|congruence].
Qed.

Lemma StronglySorted_snoc l (x : Z) :
  StronglySorted Z.lt l -> (forall y, y ∈ l -> y < x) -> StronglySorted Z.lt (l ++ [x]).
Proof.
  induction 1 as [|a l Hs IH Ha]; intros Hx; simpl; [repeat constructor|].
  constructor; [apply IH; intros y Hy; apply Hx; by right|].
  apply List.Forall_app. split; [done|]. repeat constructor. apply Hx. left.
Qed.

Lemma wf_queue_enqueue queued queues seq i q n :
  wf_queue queued queues seq -> dget queued i = None -> q_selected_node_id q = n ->
  q_sequence q = seq + 1 ->
  wf_queue (dset queued i q) (dset queues n (dget_or queues n [] ++ [q])) (seq + 1).
Proof.
  intros [Hn Hp Hne Hs Hb Hnx] Hi <- Hseq.
  pose proof (dvalues_dset_fresh queued i q Hi) as Hv.
  split; auto with dict_db; try lia.
  - intros m. rewrite Hv, bfilter_app, <- Hp. unfold dget_or at 1. rewrite dget_dset. simpl.
    unfold at_node. case_bool_decide as E; simpl.
    + subst m. by rewrite bool_decide_eq_true_2.
    + rewrite bool_decide_eq_false_2 by done. by rewrite app_nil_r.
  - intros m. rewrite dget_dset. case_bool_decide; [|done]. by destruct (dget_or _ _ _).
  - rewrite Hv, map_app. simpl. apply StronglySorted_snoc; [done|].
    intros y (x & -> & Hx%Hb)%list_elem_of_fmap. lia.
  - intros x. rewrite Hv, elem_of_app. intros [Hx%Hb| ->%list_elem_of_singleton]; lia.
Qed.

Definition enqueued (i : identity) (q : QueuedRequest) (td cd : pystr) (s : store) : store :=
  let n := q_selected_node_id q in
  set_reservations (ddel (_reservations s) i)
    (set_node_queues (dset (_node_queues s) n (dget_or (_node_queues s) n [] ++ [q]))
       (set_cancellation_token_digests (dset (_cancellation_token_digests s) i cd)
          (set_queued_token_digests (dset (_queued_token_digests s) i td)
             (set_queued (dset (_queued s) i q)
                (set_next_queue_sequence (_next_queue_sequence s + 1) s))))).

Definition room_to_enqueue (s : store) (client n : pystr) : Prop :=
  zlen (dget_or (_node_queues s) n []) < max_queue_depth_per_node config /\
  dlen (_queued s) < max_queued_requests config /\
  dcount (fun q => bool_decide (q_client_identity_digest q = client)) (_queued s)
    < max_queued_requests_per_client config.

Lemma bounded_enqueued i r q td cd s :
  Inv config known s -> dget (_reservations s) i = Some r -> queued_identity q = i ->
  room_to_enqueue s (q_client_identity_digest q) (q_selected_node_id q) ->
  bounded config (enqueued i q td cd s).
Proof.
  intros Hs Hr Hi (Hd1 & Hd2 & Hd3). pose proof (inv_live _ _ _ Hs) as Hl.
  assert (Hq : dget (_queued s) i = None) by (apply (wl_res_queued _ _ _ _ _ _ _ Hl); eauto).
  assert (Hc : res_client_identity_digest r = q_client_identity_digest q).
  { pose proof (wl_res_key _ _ _ _ _ _ _ Hl _ _ Hr). unfold queued_identity in *. congruence. }
  pose proof (wq_partition _ _ _ (inv_queue _ _ _ Hs) (q_selected_node_id q)) as Hpart.
  assert (Hd1' : dcount (at_node (q_selected_node_id q)) (_queued s) < max_queue_depth_per_node config).
  { rewrite Hpart in Hd1. exact Hd1. }
  pose proof (inv_bounded _ _ _ Hs) as []. unfold enqueued.
  assert (Hlen : dlen (dset (_queued s) i q) = dlen (_queued s) + 1).
  { rewrite dlen_dset, (proj2 (dmem_false _ _)) by done. done. }
  assert (Hlen' : dlen (ddel (_reservations s) i) = dlen (_reservations s) - 1).
  { rewrite dlen_ddel, (proj2 (dmem_true _ _)) by eauto. done. }
  split; try assumption; simpl; rewrite ?Hlen, ?Hlen'; try lia.
  - intros c. rewrite dcount_ddel, Hr, dcount_dset_fresh, Hc by done. specialize (bd_client c).
    simpl. case_bool_decide; lia.
  - intros c. rewrite dcount_dset_fresh by done. specialize (bd_queued_client c).
    simpl. case_bool_decide; [subst; lia|lia].
  - intros m. rewrite dcount_dset_fresh by done. specialize (bd_node_queue m).
    unfold at_node at 2. case_bool_decide; [subst; lia|lia].
Qed.

Lemma enqueued_ok i r q td cd s :
  Inv config known s -> dget (_reservations s) i = Some r -> queued_identity q = i ->
  q_selected_node_id q = res_selected_node_id r -> q_sequence q = _next_queue_sequence s + 1 ->
  room_to_enqueue s (q_client_identity_digest q) (q_selected_node_id q) ->
  ok_state config known s (enqueued i q td cd s).
Proof.
  intros Hs Hr Hi Hsel Hseq Hroom.
  pose proof (bounded_enqueued i r q td cd s Hs Hr Hi Hroom) as Hb.
  pose proof (inv_live _ _ _ Hs) as Hl.
  assert (Hq : dget (_queued s) i = None) by (apply (wl_res_queued _ _ _ _ _ _ _ Hl); eauto).
  pose proof (no_claim_unqueued _ _ _ _ Hs Hq) as Hcl. split.
  - destruct Hs as [? ? _ ? [? ? Hwl Hwn] ? _]. split; try assumption; unfold enqueued; simpl.
    + by eapply wf_live_enqueue.
    + by apply wf_queue_enqueue.
    + split; try assumption; intros n j; rewrite (live_at_enqueue _ _ _ r) by (done || apply Hl);
        [apply Hwl|apply Hwn].
  - apply evolves_step; try (simpl; lia). intros j. unfold phase_of, enqueued. simpl.
    destruct (decide (j = i)) as [->|Hj].
    + right. pose proof (not_live_terminal config known s i Hs) as Ht.
      rewrite Ht by (unfold live_record; rewrite Hr; eauto).
      rewrite Hr, dget_ddel_eq, dget_dset_eq, Hcl, Hsel by apply Hl. constructor.
    + left. by rewrite dget_ddel_ne, dget_dset_ne by (done || apply Hl).
Qed.

(** Consuming a reservation: into its own node's queue, or refused without a change. *)
Lemma enqueue_reserved_wp i cpk rid r n m t deadline e td cd now s :
  Inv config known s -> dget (_reservations s) i = Some r ->
  wp (enqueue_reserved config i cpk rid r n m t deadline e td cd now)
    (fun res s' =>
       let q := MkQueued i.1 i.2 cpk rid n m t deadline e now (_next_queue_sequence s + 1) in
       res_selected_node_id r = n /\ res_token_digest r = td /\ room_to_enqueue s i.1 n /\
       s' = enqueued i q td cd s /\ res = _enqueue_result q true "queued")
    (fun e s' => s' = s /\ e ≠ KeyError) s.
Proof.
  intros Hs Hr. unfold enqueue_reserved. apply wp_bind, wp_get.
  apply wp_bind, wp_raise_if; [done|intros _].
  apply wp_bind, wp_lift; [intros e' He; split; [done|]; intros ->;
    by apply same_parameters_no_key in He|intros _].
  apply wp_bind, wp_raise_if; [done|intros _]. apply wp_bind, wp_raise_if; [done|intros E1].
  apply wp_bind, wp_raise_if; [done|intros E2]. apply wp_bind, wp_raise_if; [done|intros E3].
  unfold compare_digest in E1. bdestruct. unfold room_to_enqueue.
  do 2 (split; [done|]). split; [lia|]. done.
Qed.

Lemma queued_tokens s i q :
  Inv config known s -> dget (_queued s) i = Some q ->
  is_Some (dget (_queued_token_digests s) i) /\ is_Some (dget (_cancellation_token_digests s) i).
Proof.
  intros Hs Hq. pose proof (inv_live _ _ _ Hs) as Hl. split.
  - apply (wl_qtok_dom _ _ _ _ _ _ _ Hl). eauto.
  - apply (wl_queued_cancel _ _ _ _ _ _ _ Hl). eauto.
Qed.

Lemma enqueue_sound a b tok v m t d env c now :
  sound config known (enqueue_encrypted_request config a b tok v m t d env c now).
Proof.
  intros s Hs. unfold enqueue_encrypted_request, _cancellation_token_digest.
  do 11 sound_step. clear s Hs. intros s Hs. do 3 sound_step. dmem_simpl.
  destruct (dget (_queued s) a0) as [q|] eqn:Eq.
  { destruct (queued_tokens s a0 q Hs Eq) as [[x Hx] [y Hy]]. unfold enqueue_existing.
    do 2 sound_step. rewrite Hx. apply sound_at_from_option; [done|by eexists|]. intros ? _.
    sound_step. rewrite Hy. apply sound_at_from_option; [done|by eexists|]. intros ? _.
    do 2 sound_step. }
  sound_step. apply sound_at_from_option; [done|done|]. intros r Hr. unfold sound_at.
  eapply wp_mono; [by apply enqueue_reserved_wp| |].
  - intros res s' (Hn & _ & Hroom & -> & _). apply enqueued_ok with r; try done.
    by destruct a0.
  - intros e s' [-> He]. split; [by apply ok_refl|done].
Qed.

Lemma list_reservations_sound t : sound config known (list_reservations config t).
Proof.
  intros s Hs. unfold list_reservations. do 2 sound_step. clear s Hs. intros s Hs.
  do 2 sound_step.
Qed.

Lemma queued_requests_sound v t : sound config known (queued_requests config v t).
Proof.
  intros s Hs. unfold queued_requests. do 3 sound_step. clear s Hs. intros s Hs. do 2 sound_step.
Qed.

(** ** Claims *)

Definition claimed (i : identity) (c : ClaimRecord) (s : store) : store :=
  set_claims (dset (_claims s) i c)
    (set_next_claim_generation (_next_claim_generation s + 1) s).

Lemma wf_live_claim res queued qtok cancel claims terms g i q c :
  wf_live res queued qtok cancel claims terms g -> dget queued i = Some q -> claim_of q c ->
  cl_generation c = g + 1 ->
  wf_live res queued qtok cancel (dset claims i c) terms (g + 1).
Proof.
  intros [?????? Hrk Hk Hrq Htl Htk Hqt Hc Hqc Hcl Hg Hgi ?] Hq Hof Hgen.
  split; auto with dict_db; try lia.
  - intros j c'. rewrite dget_dset. case_bool_decide; [|by apply Hcl].
    intros [= <-]. subst. by exists q.
  - intros j c'. rewrite dget_dset. case_bool_decide; [intros [= <-]; lia|].
    intros Hj%Hg. lia.
  - intros j k c1 c2. rewrite !dget_dset. repeat case_bool_decide; subst; try done.
    + intros [= <-] Hk2%Hg. lia.
    + intros Hj2%Hg [= <-]. lia.
    + by apply Hgi.
Qed.

Lemma wf_live_next_gen res queued qtok cancel claims terms g g' :
  wf_live res queued qtok cancel claims terms g -> g <= g' ->
  wf_live res queued qtok cancel claims terms g'.
Proof.
  intros [?????? Hrk Hk Hrq Htl Htk Hqt Hc Hqc Hcl Hg Hgi ?] Hle. split; try done; [|lia].
  intros i c Hi. specialize (Hg i c Hi). lia.
Qed.

Lemma next_gen_ok s :
  Inv config known s ->
  ok_state config known s (set_next_claim_generation (_next_claim_generation s + 1) s).
Proof.
  intros Hs. split; [|apply evolves_same; simpl; (done || lia)].
  destruct Hs as [? ? ? ? ? ? []]. split; try assumption; [|by split].
  eapply wf_live_next_gen; [done|]. simpl. lia.
Qed.

Lemma claimed_ok i q c s :
  Inv config known s -> dget (_queued s) i = Some q -> claim_of q c ->
  cl_generation c = _next_claim_generation s + 1 ->
  ok_state config known s (claimed i c s).
Proof.
  intros Hs Hq Hof Hgen. pose proof (inv_live _ _ _ Hs) as Hl. split.
  - destruct Hs as [? ? ? ? ? ? []]. split; try assumption; [|by split].
    by eapply wf_live_claim.
  - apply evolves_step; try (simpl; lia). intros j. unfold phase_of, claimed. simpl.
    rewrite dget_dset. case_bool_decide; [|by left]. subst j. right.
    rewrite (not_live_terminal config known s i Hs)
      by (unfold live_record; rewrite Hq; destruct (dget (_reservations s) i); eauto).
    destruct (dget (_reservations s) i) eqn:Er.
    { pose proof (wl_res_queued _ _ _ _ _ _ _ Hl i) as Hrq. rewrite Hrq in Hq by eauto. done. }
    rewrite Hq. simpl. destruct (dget (_claims s) i) as [c0|] eqn:Ec; simpl; constructor.
    pose proof (wl_gen _ _ _ _ _ _ _ Hl _ _ Ec). lia.
Qed.

(** Entries of a node's queue are that node's queued requests. *)
Lemma queue_entry s n q :
  Inv config known s -> q ∈ dget_or (_node_queues s) n [] ->
  dget (_queued s) (queued_identity q) = Some q /\ q_selected_node_id q = n.
Proof.
  intros Hs. rewrite (wq_partition _ _ _ (inv_queue _ _ _ Hs)). intros [Hin Hn]%elem_of_bfilter.
  pose proof (inv_live _ _ _ Hs) as Hl.
  apply elem_of_dvalues in Hin as [i Hi]; [|apply Hl].
  rewrite (wl_queued_key _ _ _ _ _ _ _ Hl _ _ Hi). split; [done|]. unfold at_node in Hn. by bdestruct.
Qed.

Lemma claim_sound v d c t : sound config known (claim_queued_request config v d c t).
Proof.
  intros s Hs. unfold claim_queued_request, _consumer_digest. do 5 sound_step. clear s Hs.
  intros s Hs. sound_step. apply sound_at_from_option; [done|done|]. intros r Hr. sound_step.
  destruct (List.find _ _) as [q|] eqn:Ef; [|by apply sound_ret].
  apply List.find_some in Ef as [Hin _]. apply list_elem_of_In in Hin.
  destruct (queue_entry _ _ _ Hs Hin) as [Hq Hn]. sound_step.
  unfold sound_at. apply wp_bind, wp_modify. apply wp_bind, wp_raise_if.
  { intros _. split; [by apply next_gen_ok|done]. }
  intros _. apply wp_bind, wp_modify. apply wp_ret.
  change (ok_state config known s (claimed (queued_identity q) (MkClaim
    (q_client_identity_digest q) (q_request_identity_digest q) a1 a (control_credential_digest r)
    (q_request_deadline_epoch q) (q_envelope q) (q_sequence q) (_next_claim_generation s + 1)
    (fmin (fadd a2 (claim_ttl_seconds config)) (q_request_deadline_epoch q))) s)).
  by apply (claimed_ok _ q).
Qed.

(** A lease renewal keeps the claim's generation. *)
Lemma renewed_claim_ok i c lease s :
  Inv config known s -> dget (_claims s) i = Some c ->
  ok_state config known s (set_claims (dset (_claims s) i (claim_with_lease c lease)) s).
Proof.
  intros Hs Hc. pose proof (inv_live _ _ _ Hs) as Hl. split.
  - destruct Hs as [? ? _ ? ? ? []]. split; try assumption; [|by split]. simpl.
    destruct Hl as [?????? Hrk Hk Hrq Htl Htk Hqt Hcn Hqc Hcl Hg Hgi ?]. split; auto with dict_db.
    + intros j c'. rewrite dget_dset. case_bool_decide; [|by apply Hcl].
      intros [= <-]. subst. exact (Hcl _ c Hc).
    + intros j c'. rewrite dget_dset. case_bool_decide; [|by apply Hg].
      intros [= <-]. subst. exact (Hg _ c Hc).
    + intros j k c1 c2. rewrite !dget_dset. repeat case_bool_decide; subst; try done.
      * intros [= <-]. exact (Hgi _ _ _ _ Hc).
      * intros Hj [= <-]. exact (Hgi _ _ _ _ Hj Hc).
      * by apply Hgi.
  - apply evolves_step; try (simpl; lia). intros j. left. unfold phase_of. simpl.
    rewrite dget_dset. case_bool_decide; [|done]. subst. by rewrite Hc.
Qed.

Lemma acknowledge_ok i t s :
  Inv config known s -> dget (_control_tombstones s) i = Some t ->
  ok_state config known s
    (set_control_tombstones (dset (_control_tombstones s) i (tombstone_acknowledged t)) s).
Proof.
  intros Hs Ht. split; [|by apply evolves_same]. destruct Hs as [? ? ? ? ? [] []].
  split; try assumption; split; try assumption; simpl; auto with dict_db.
  - rewrite dlen_dset, (proj2 (dmem_true _ _)) by eauto. done.
  - intros n. rewrite (dcount_dset_old _ _ _ t); [done|done|done].
Qed.

Lemma renew_control_sound v d c a b g ack t :
  sound config known (renew_claim_or_read_control config v d c a b g ack t).
Proof.
  intros s Hs. unfold renew_claim_or_read_control, _consumer_digest. do 7 sound_step.
  clear s Hs. intros s Hs. sound_step.
  destruct (dget (_control_tombstones s) _) as [tomb|] eqn:Et.
  - unfold read_control. case_match; [by apply sound_ret|]. destruct (ack && _).
    + unfold sound_at. apply wp_bind, wp_bind, wp_modify, wp_ret, wp_ret. by apply acknowledge_ok.
    + by apply sound_ret.
  - unfold renew_live. case_match; [by apply sound_ret|].
    destruct (dget (_claims s) _) as [cl|] eqn:Ec; [|by apply sound_ret].
    do 4 sound_step.
    unfold sound_at. apply wp_bind, wp_modify, wp_ret. by apply renewed_claim_ok.
Qed.

Lemma renew_claim_sound v d c a b g t :
  sound config known (renew_claim config v d c a b g t).
Proof. apply renew_control_sound. Qed.

Lemma active_claims_sound v t : sound config known (active_claims config v t).
Proof.
  intros s Hs. unfold active_claims. do 3 sound_step. clear s Hs. intros s Hs. do 2 sound_step.
Qed.

(** ** Responses *)

Definition accepted (i : identity) (q : QueuedRequest) (r : ResponseRecord)
  (t : TerminalOutcomeRecord) (s : store) : store :=
  set_responses (dset (_responses s) i r)
    (set_terminals (dset (_terminals s) i t) (drop_live i (q_selected_node_id q) s)).

Lemma accepted_eq i q r t s :
  Inv config known s -> dget (_queued s) i = Some q ->
  (let* _ := modify (fun s => set_responses (dset (_responses s) i r) s) in
   let* _ := modify (fun s => set_terminals (dset (_terminals s) i t) s) in
   _remove_queued_identity_locked i q) s = (accepted i q r t s, inr tt).
Proof.
  intros Hs Hq. pose proof (inv_live _ _ _ Hs) as Hl.
  assert (Hr : dget (_reservations s) i = None).
  { destruct (dget (_reservations s) i) eqn:E; [|done].
    rewrite (wl_res_queued _ _ _ _ _ _ _ Hl) in Hq by eauto. done. }
  unfold accepted, drop_live, queues_without. rewrite Hq, (ddel_notin (_reservations s)) by done.
  reflexivity.
Qed.

Lemma accepted_bounded i q r t s :
  bounded config s -> response_capacity_full config s i.1 = false ->
  rsp_client_identity_digest r = i.1 -> t_client_identity_digest t = i.1 ->
  bounded config (accepted i q r t s).
Proof.
  intros Hb Hcap Hr Ht. unfold response_capacity_full, terminal_capacity_full in Hcap.
  apply orb_false_iff in Hcap as [[Hc1 Hc2]%orb_false_iff [Hc3 Hc4]%orb_false_iff].
  pose proof (bounded_drop config i (q_selected_node_id q) s Hb) as [].
  unfold accepted. split; try assumption; simpl.
  - by apply guarded_dlen.
  - intros c. apply (guarded_dcount rsp_client_identity_digest); [apply Hb|]. by rewrite Hr.
  - by apply guarded_dlen.
  - intros c. apply (guarded_dcount t_client_identity_digest); [apply Hb|]. by rewrite Ht.
Qed.

Lemma accepted_ok i q r t s :
  Inv config known s -> dget (_queued s) i = Some q ->
  response_capacity_full config s i.1 = false ->
  (rsp_client_identity_digest r, rsp_request_identity_digest r) = i ->
  (t_client_identity_digest t, t_request_identity_digest t) = i ->
  ok_state config known s (accepted i q r t s).
Proof.
  intros Hs Hq Hcap Hr Ht. pose proof (inv_live _ _ _ Hs) as Hl.
  assert (Hlive : exists x, live_record s i = Some x).
  { unfold live_record. rewrite Hq. destruct (dget (_reservations s) i); eauto. }
  destruct Hlive as [x Hx]. assert (Hnode : live_only_at s i (q_selected_node_id q)).
  { replace (q_selected_node_id q) with (lr_selected_node_id x);
      [by eapply live_record_only_at|]. symmetry.
    apply (live_record_only_at _ _ _ _ _ Hs Hx). right. by exists q. }
  pose proof (accepted_bounded i q r t s (inv_bounded _ _ _ Hs) Hcap) as Hb. split.
  - pose proof (Inv_drop _ _ _ _ _ Hs Hnode) as [Hnd Hf Hl' Hq' Hw [? ? ? ? Hready Hkey] _].
    split; [exact Hnd|exact Hf| |exact Hq'|exact Hw| |].
    + apply wf_live_terminal; [exact Hl'|apply dget_ddel_eq; apply Hl..|done].
    + unfold accepted. split; simpl; auto with dict_db.
      * intros j t'. rewrite is_Some_dset, dget_dset. case_bool_decide; [by left|].
        intros Hj Hst. right. by eapply Hready.
      * intros j r'. rewrite dget_dset. case_bool_decide; [|by apply Hkey]. by intros [= <-]; subst j.
    + destruct i. apply Hb; simpl; congruence.
  - apply evolves_step; try (simpl; lia). intros j. destruct (decide (j = i)) as [->|Hj].
    + right. assert (Ht' : phase_of (accepted i q r t s) i = Terminal (t_outcome t)).
      { unfold phase_of, accepted. simpl. by rewrite dget_dset_eq. }
      rewrite Ht'. pose proof (phase_live _ _ _ _ _ Hs Hx) as Hp.
      destruct x; rewrite Hp; constructor.
    + left. rewrite <- (phase_drop_other config known i (q_selected_node_id q) s j Hs Hj).
      unfold phase_of, accepted. simpl. by rewrite dget_dset_ne.
Qed.

(** What acceptance demands of the claim. *)
Record acceptable (s : store) (i : identity) (n d c : pystr) (g : Z) (now : float64)
  (q : QueuedRequest) (cl : ClaimRecord) : Prop := {
  ac_owner : exists r, dget (_records s) n = Some r /\ control_credential_digest r = d;
  ac_claim : dget (_claims s) i = Some cl;
  ac_generation : cl_generation cl = g;
  ac_node : cl_selected_node_id cl = n;
  ac_consumer : cl_consumer_identity_digest cl = c;
  ac_lease : fle (cl_lease_expires_at_epoch cl) now = false;
  ac_deadline : fle (cl_request_deadline_epoch cl) now = false;
  ac_queued : dget (_queued s) i = Some q;
  ac_capacity : response_capacity_full config s i.1 = false
}.

(** The response and the outcome acceptance records. *)
Record acceptance (s : store) (i : identity) (n d c : pystr) (g : Z)
  (e : EncryptedResponseEnvelope) (rd : pystr) (now : float64) (r : ResponseRecord)
  (t : TerminalOutcomeRecord) : Prop := {
  an_response : (rsp_client_identity_digest r, rsp_request_identity_digest r) = i;
  an_envelope : rsp_envelope r = e;
  an_response_generation : rsp_generation r = g;
  an_response_times : rsp_accepted_at_epoch r = now /\
    rsp_replay_expires_at_epoch r = fadd now (response_replay_ttl_seconds config);
  an_terminal : (t_client_identity_digest t, t_request_identity_digest t) = i;
  an_outcome : t_outcome t = "completed" /\ t_retrieval_state t = "response_ready";
  an_owner : t_selected_node_id t = n /\ t_generation t = g /\
    t_control_credential_digest t = d /\ t_consumer_identity_digest t = c /\
    t_response_digest t = rd;
  an_times : t_accepted_at_epoch t = now /\
    t_replay_expires_at_epoch t = fadd now (response_replay_ttl_seconds config) /\
    t_expires_at_epoch t = fadd now (terminal_retention_seconds config);
  an_credential : dget (_queued_token_digests s) i = Some (t_retrieval_credential_digest t);
  an_acknowledgement : t_acknowledgement_digest t =
    _acknowledgement_digest (_derive_acknowledgement_token acknowledgement_key i now rd)
}.

Lemma accept_live_wp i n d c cpk rid g e rd now s :
  Inv config known s -> dget (_terminals s) i = None ->
  wp (accept_live config acknowledgement_key i n d c cpk rid g e rd now)
    (fun res s' => exists q cl r t, acceptable s i n d c g now q cl /\
       acceptance s i n d c g e rd now r t /\
       s' = accepted i q r t s /\ res = _response_result r true)
    (fun x s' => s' = s /\ x ≠ KeyError) s.
Proof.
  intros Hs Ht. unfold accept_live. apply wp_bind, wp_get.
  apply wp_bind, wp_from_option; [done|intros reg Hreg]. apply wp_bind, wp_raise_if; [done|intros Ho].
  apply wp_bind, wp_from_option; [done|intros cl Hcl]. apply wp_bind, wp_raise_if; [done|intros Hg].
  apply wp_bind, wp_raise_if; [done|intros Hn]. apply wp_bind, wp_raise_if; [done|intros Hle].
  apply wp_bind, wp_from_option; [done|intros q Hq]. apply wp_bind, wp_raise_if; [done|intros _].
  apply wp_bind, wp_raise_if; [done|intros Hcap]. apply wp_bind, wp_raise_if; [done|intros _].
  destruct (queued_tokens s i q Hs Hq) as [[x Hx] [y Hy]]. rewrite Hx, Hy.
  do 2 apply wp_bind, wp_ret.
  match goal with
  | |- wp (bind (modify (fun s => set_responses (dset _ _ ?r) _))
            (fun _ => bind (modify (fun s' => set_terminals (dset _ _ ?t) _)) _)) _ _ _ =>
      pose proof (accepted_eq i q r t s Hs Hq) as Hacc; exists q, cl, r, t
  end.
  unfold compare_digest in *. bdestruct.
  split; [|split; [|split; [exact (f_equal fst Hacc)|done]]].
  - split; try done; [by exists reg|lia].
  - split; try done; by destruct i.
Qed.

Lemma accept_sound v d c a b g e t :
  sound config known (accept_encrypted_response config acknowledgement_key v d c a b g e t).
Proof.
  intros s Hs. unfold accept_encrypted_response, _consumer_digest. do 10 sound_step.
  clear s Hs. intros s Hs. sound_step. destruct (dget (_terminals s) _) as [term|] eqn:Et.
  { do 2 sound_step. }
  unfold sound_at. eapply wp_mono; [by apply accept_live_wp| |].
  - intros res s' (q & cl & r & tm & [] & [] & -> & _). by apply accepted_ok.
  - intros x s' [-> Hx]. split; [by apply ok_refl|done].
Qed.

(** A ready outcome still has its response, so this branch of the source is never taken. *)
Lemma retrieve_ready_sound i t ack s :
  Inv config known s -> dget (_terminals s) i = Some t -> t_retrieval_state t = "response_ready" ->
  sound_at config known (retrieve_ready acknowledgement_key i t ack) s.
Proof.
  intros Hs Ht Hst. unfold retrieve_ready. sound_step.
  destruct (wo_ready _ _ _ _ _ (inv_outcomes _ _ _ Hs) i t Ht Hst) as [r Hr]. rewrite Hr.
  destruct ack as [tok|]; [|sound_step]. sound_step.
  unfold sound_at. apply wp_bind, wp_modify. apply wp_bind, wp_modify, wp_ret.
  by apply (settled_ok config known i t "acknowledged" s Hs Ht).
Qed.

Lemma retrieve_sound a b cred ack t :
  sound config known (retrieve_encrypted_response config acknowledgement_key a b cred ack t).
Proof.
  intros s Hs. unfold retrieve_encrypted_response. do 3 sound_step. clear s Hs. intros s Hs.
  sound_step. destruct (dget (_terminals s) _) as [term|] eqn:Et; [|sound_step].
  sound_step. destruct (negb (bool_decide (t_retrieval_state _ = _))) eqn:Est.
  - do 2 sound_step.
  - bdestruct. by apply retrieve_ready_sound.
Qed.

Lemma response_records_sound t : sound config known (response_records config t).
Proof.
  intros s Hs. unfold response_records. do 2 sound_step. clear s Hs. intros s Hs. do 2 sound_step.
Qed.

(** ** Cancellation *)

Lemma cancel_live_sound i sup status reason now s :
  Inv config known s -> sound_at config known (cancel_live config s i sup status reason now) s.
Proof.
  intros Hs. unfold cancel_live. sound_step.
  destruct (live_record s i) as [r|] eqn:Er; [|sound_step]. sound_step.
  unfold sound_at. eapply wp_mono; [by apply terminalize_wp| |].
  - by intros x s' [Hok _].
  - intros e s' [-> He]. split; [by apply ok_refl|by apply is_capacity_not_key].
Qed.

Lemma cancel_sound a b tok status reason t :
  sound config known (cancel_or_expire_request config a b tok status reason t).
Proof.
  intros s Hs. unfold cancel_or_expire_request. sound_step.
  pose proof (identity_no_key config a b) as Hk. destruct (_identity config a b) as [e|i].
  { destruct (is_store_or_unicode_error e); [sound_step|]. apply sound_raise; [congruence|done]. }
  do 2 sound_step. clear s Hs. intros s Hs. sound_step.
  destruct (dget (_terminals s) i); [do 2 sound_step|by apply cancel_live_sound].
Qed.

(** ** Views *)

Lemma control_tombstones_sound t : sound config known (control_tombstones config t).
Proof.
  intros s Hs. unfold control_tombstones. do 2 sound_step. clear s Hs. intros s Hs. do 2 sound_step.
Qed.

Lemma node_tombstones_sound t : sound config known (node_tombstones config t).
Proof.
  intros s Hs. unfold node_tombstones. do 2 sound_step. clear s Hs. intros s Hs. do 2 sound_step.
Qed.

Lemma terminal_records_sound t : sound config known (terminal_records config t).
Proof.
  intros s Hs. unfold terminal_records. do 2 sound_step. clear s Hs. intros s Hs. do 2 sound_step.
Qed.

End sound_operations.
