(* ===== verification/StoreConfig.v ===== *)
(** * Configuration and capabilities: what validation accepts

    [config_ok] lists the range of every field; a configuration built by the
    constructor lies in it, and every configuration in it is accepted as it is.
    The same for the capabilities a node registers. *)

From Stdlib Require Import Floats.SpecFloat.
From S2P Require Import Prelude PyFloat PyStr PyDict Sha256 StoreTypes.
#[local] Open Scope Z_scope.

(** ** Inverting a chain of checks *)

Definition int_in (lo z hi : Z) : Prop := lo <= z <= hi.

Definition float_in (lo f hi : float64) : Prop :=
  is_finite f = true /\ fle lo f = true /\ fle f hi = true.

Lemma int_bound_inr v name hi z :
  _validate_int_bound v name hi = inr z <-> strict_int v = Some z /\ int_in 1 z hi.
Proof.
  unfold _validate_int_bound, int_in. destruct (strict_int v) as [y|]; [|split; [done|by intros []]].
  destruct ((1 <=? y) && (y <=? hi)) eqn:E; split.
  - intros [= ->]. split; [done|lia].
  - by intros [[= ->] _].
  - done.
  - intros [[= ->] ?]. lia.
Qed.

Lemma float_of_int_finite z f : float_of_int z = Some f -> is_finite f = true.
Proof. unfold float_of_int. repeat case_match; try done; by intros [= <-]. Qed.

Lemma finite_number_finite v e f : finite_number v e = inr f -> is_finite f = true.
Proof.
  unfold finite_number. repeat case_match; try done; intros [= <-]; [|done].
  by eapply float_of_int_finite.
Qed.

Lemma float_bound_inr v name lo hi r1 r2 f :
  _validate_float_bound v name lo hi r1 r2 = inr f -> float_in lo f hi.
Proof.
  unfold _validate_float_bound. intros (g & Hg & Hr)%ebind_inr.
  destruct (fle lo g && fle g hi) eqn:E; [|done]. injection Hr as ->.
  apply andb_true_iff in E as [? ?]. by split; [eapply finite_number_finite|].
Qed.

Lemma float_bound_ok name lo hi r1 r2 f :
  float_in lo f hi -> _validate_float_bound (PyFloat f) name lo hi r1 r2 = inr f.
Proof.
  intros (H1 & H2 & H3). unfold _validate_float_bound, finite_number. rewrite H1. cbn [ebind].
  by rewrite H2, H3.
Qed.

Lemma int_bound_ok name hi z : int_in 1 z hi -> _validate_int_bound (PyInt z) name hi = inr z.
Proof. intros Hz. by apply int_bound_inr. Qed.

(** ** RelayStateStoreConfig *)

Record config_ok (c : RelayStateStoreConfig) : Prop := {
  co_namespace : namespace_matches (namespace c) = true;
  co_schema_version : schema_version c = RELAY_STATE_SCHEMA_VERSION;
  co_lease : is_finite (lease_ttl_seconds c) = true /\ fle (lease_ttl_seconds c) f0 = false;
  co_nodes : int_in 1 (max_compute_nodes c) 1000000;
  co_node_id : int_in 1 (max_node_id_bytes c) 65536;
  co_reservation_ttl : float_in f0_001 (reservation_ttl_seconds c) f300;
  co_request_ttl : float_in f0_001 (max_request_ttl_seconds c) f86400;
  co_reservations : int_in 1 (max_reservations c) 1000000;
  co_reservations_client : int_in 1 (max_reservations_per_client c) 10000;
  co_reservations_node : int_in 1 (max_reservations_per_node c) 10000;
  co_depth : int_in 1 (max_queue_depth_per_node c) 1000000;
  co_lifecycles : int_in 1 (max_request_lifecycles c) 1000000;
  co_queued : int_in 1 (max_queued_requests c) 1000000;
  co_queued_client : int_in 1 (max_queued_requests_per_client c) 10000;
  co_identity : int_in 1 (max_identity_bytes c) 65536;
  co_model : int_in 1 (max_model_id_bytes c) 1024;
  co_fingerprints : int_in 1 (max_scheduler_fingerprints c) 1000000;
  co_envelope : int_in 1 (max_envelope_bytes c) (64 * 1024 * 1024);
  co_claim_ttl : float_in f0_001 (claim_ttl_seconds c) f3600;
  co_claims : int_in 1 (max_claims c) 1000000;
  co_claims_node : int_in 1 (max_claims_per_node c) 10000;
  co_consumer : int_in 1 (max_consumer_identity_bytes c) 65536;
  co_response_envelope : int_in 1 (max_response_envelope_bytes c) (64 * 1024 * 1024);
  co_responses : int_in 1 (max_responses c) 1000000;
  co_responses_client : int_in 1 (max_responses_per_client c) 10000;
  co_replay_ttl : float_in f0_001 (response_replay_ttl_seconds c) f86400;
  co_terminals : int_in 1 (max_terminal_records c) 1000000;
  co_terminals_client : int_in 1 (max_terminal_records_per_client c) 10000;
  co_retention : float_in f0_001 (terminal_retention_seconds c) f604800;
  co_cancellation : int_in 1 (max_cancellation_token_bytes c) 65536;
  co_tombstone_ttl : float_in f0_001 (control_tombstone_ttl_seconds c) f300;
  co_tombstones : int_in 1 (max_control_tombstones c) 1000000;
  co_tombstones_node : int_in 1 (max_control_tombstones_per_node c) 10000;
  co_batch : int_in 1 (node_transition_batch_size c) 10000;
  co_pending : int_in 1 (max_pending_node_transitions c) 1000000;
  co_node_tombstones : int_in 1 (max_node_tombstones c) 1000000;
  co_node_tombstone_ttl : float_in f0_001 (node_tombstone_ttl_seconds c) f300;
  co_fences : int_in 1 (max_removed_owner_fences c) 1000000;
  co_retention_replay : flt (terminal_retention_seconds c) (response_replay_ttl_seconds c) = false;
  co_retention_tombstone :
    flt (terminal_retention_seconds c) (control_tombstone_ttl_seconds c) = false
}.

(** Splits a successful chain of checks into its facts. *)
Ltac invert_checks :=
  repeat match goal with
  | H : ebind _ _ = inr _ |- _ => apply ebind_inr in H; destruct H as (? & ? & H)
  | H : eraise_if _ _ = inr _ |- _ => apply eraise_if_inr in H
  | H : _validate_int_bound _ _ _ = inr _ |- _ => apply int_bound_inr in H; destruct H
  | H : _validate_float_bound _ _ _ _ _ _ = inr _ |- _ => apply float_bound_inr in H
  end.

Lemma checked_int_range v lo hi e z :
  match strict_int v with
  | Some z => if (lo <=? z) && (z <=? hi) then inr z else inl e
  | None => inl e
  end = inr (A := store_error) z -> int_in lo z hi.
Proof.
  destruct (strict_int v) as [y|]; [|done]. destruct (_ && _) eqn:E; [|done].
  intros [= ->]. unfold int_in. lia.
Qed.

Lemma config_post_init_ok a c : config_post_init a = inr c -> config_ok c.
Proof.
  unfold config_post_init. intros Hc. invert_checks. injection Hc as <-.
  repeat match goal with
  | H : match strict_int _ with _ => _ end = inr _ |- _ => first
      [ apply checked_int_range in H
      | destruct (strict_int (schema_version a)); [|done]; destruct (_ =? _) eqn:?; [|done] ]
  | H : finite_number _ _ = inr _ |- _ => apply finite_number_finite in H
  end.
  split; simpl; try assumption; try done.
  - destruct (namespace a) as [| | | |ns| | | | |]; try done.
    destruct (namespace_matches ns) eqn:E; [|done]. by simplify_eq.
  - simplify_eq. by apply Z.eqb_eq.
Qed.

(** The arguments that spell a configuration out. *)
Definition config_args (c : RelayStateStoreConfig) : ConfigArgs :=
  MkConfig (PyS (namespace c)) (PyInt (schema_version c)) (PyFloat (lease_ttl_seconds c))
    (PyInt (max_compute_nodes c)) (PyInt (max_node_id_bytes c))
    (PyFloat (reservation_ttl_seconds c)) (PyFloat (max_request_ttl_seconds c))
    (PyInt (max_reservations c)) (PyInt (max_reservations_per_client c))
    (PyInt (max_reservations_per_node c)) (PyInt (max_queue_depth_per_node c))
    (PyInt (max_request_lifecycles c)) (PyInt (max_queued_requests c))
    (PyInt (max_queued_requests_per_client c)) (PyInt (max_identity_bytes c))
    (PyInt (max_model_id_bytes c)) (PyInt (max_scheduler_fingerprints c))
    (PyInt (max_envelope_bytes c)) (PyFloat (claim_ttl_seconds c)) (PyInt (max_claims c))
    (PyInt (max_claims_per_node c)) (PyInt (max_consumer_identity_bytes c))
    (PyInt (max_response_envelope_bytes c)) (PyInt (max_responses c))
    (PyInt (max_responses_per_client c)) (PyFloat (response_replay_ttl_seconds c))
    (PyInt (max_terminal_records c)) (PyInt (max_terminal_records_per_client c))
    (PyFloat (terminal_retention_seconds c)) (PyInt (max_cancellation_token_bytes c))
    (PyFloat (control_tombstone_ttl_seconds c)) (PyInt (max_control_tombstones c))
    (PyInt (max_control_tombstones_per_node c)) (PyInt (node_transition_batch_size c))
    (PyInt (max_pending_node_transitions c)) (PyInt (max_node_tombstones c))
    (PyFloat (node_tombstone_ttl_seconds c)) (PyInt (max_removed_owner_fences c)).

Lemma checked_int_ok {E} lo z hi (e : E) :
  int_in lo z hi -> (if (lo <=? z) && (z <=? hi) then inr z else inl e) = inr z.
Proof. unfold int_in. intros Hz. destruct (_ && _) eqn:H; [done|lia]. Qed.

Lemma config_ok_accepted c : config_ok c -> config_post_init (config_args c) = inr c.
Proof.
  intros [Hns Hsv [Hl1 Hl2]]. unfold config_post_init, config_args. simpl.
  rewrite Hns, Hsv, Z.eqb_refl. cbn [ebind]. rewrite Hl1. cbn [ebind]. rewrite Hl2. cbn [ebind eraise_if].
  repeat first
    [ rewrite checked_int_ok by assumption
    | rewrite int_bound_ok by assumption
    | erewrite float_bound_ok by eassumption
    | match goal with H : flt _ _ = false |- _ => rewrite H end
    | progress cbn [ebind eraise_if] ].
  rewrite <- Hsv. by destruct c.
Qed.

(** ** ComputeNodeCapabilities *)

Section capabilities.
Context `{!PyUnicode}.

(** A stored model identifier: the normal form of one of the supplied ones. *)
Definition normal_model_id (ids : list pyval) (m : pystr) : Prop :=
  exists raw, PyS raw ∈ ids /\ m = py_lower (py_strip raw) /\
    py_empty (py_strip raw) = false /\ py_len (py_strip raw) <= 128.

Record capabilities_ok (ids : list pyval) (c : ComputeNodeCapabilities) : Prop := {
  cap_nonempty : supported_model_ids c ≠ [];
  cap_count : zlen (supported_model_ids c) <= 64;
  cap_nodup : NoDup (supported_model_ids c);
  cap_normal : forall m, m ∈ supported_model_ids c <-> normal_model_id ids m;
  cap_tier : tier_tokens (active_context_tier c) <= maximum_total_context_tokens c <= 1000000;
  cap_output : 1 <= default_output_token_reservation c <= maximum_output_tokens c;
  cap_output_max : maximum_output_tokens c <= 1000000;
  cap_concurrency : int_in 1 (max_concurrency c) 128;
  cap_backend : pystr_in (backend_class c) ALLOWED_BACKEND_CLASSES = true
}.

Lemma pystr_in_true x l : pystr_in x l = true <-> x ∈ l.
Proof. unfold pystr_in. apply bool_decide_eq_true. Qed.

Lemma normalize_model_ids_inr ids : forall acc l,
  normalize_model_ids ids acc = inr l -> NoDup acc ->
  NoDup l /\ zlen l <= zlen acc + zlen ids /\
  (forall m, m ∈ l <-> m ∈ acc \/ normal_model_id ids m).
Proof.
  induction ids as [|v ids IH]; intros acc l Hl Hn; simpl in Hl.
  - injection Hl as ->. split; [done|]. split; [pose proof (zlen_nonneg (@nil pyval)); lia|].
    intros m. split; [by left|]. intros [?|(? & []%not_elem_of_nil & _)]; done.
  - destruct v as [| | | |raw| | | | |]; try done.
    destruct (py_empty _ || _) eqn:E; [done|]. apply orb_false_iff in E as [E1 E2].
    set (x := py_lower (py_strip raw)) in *.
    assert (Hx : normal_model_id (PyS raw :: ids) x) by (exists raw; repeat split; [left|done|lia]).
    assert (Htail : forall m, normal_model_id (PyS raw :: ids) m <-> m = x \/ normal_model_id ids m).
    { intros m. split.
      - intros (r & [[= ->]|Hin]%elem_of_cons & -> & ? & ?); [by left|right]. by exists r.
      - intros [->|(r & Hin & Hr)]; [done|]. exists r. split; [by right|done]. }
    rewrite zlen_cons. destruct (pystr_in x acc) eqn:Ein.
    + apply pystr_in_true in Ein. destruct (IH _ _ Hl Hn) as (H1 & H2 & H3).
      split; [done|]. split; [lia|]. intros m. rewrite H3, Htail.
      split; [tauto|]. intros [?|[->|?]]; tauto.
    + assert (x ∉ acc) as Hnin by (rewrite <- pystr_in_true, Ein; done).
      destruct (IH _ _ Hl) as (H1 & H2 & H3).
      { apply NoDup_app. split; [done|]. split; [|apply NoDup_singleton].
        intros y Hy ->%list_elem_of_singleton. done. }
      split; [done|]. rewrite zlen_app, zlen_cons in H2. split.
      * pose proof (zlen_nonneg (@nil pystr)). change (zlen (@nil pystr)) with 0 in *. lia.
      * intros m. rewrite H3, elem_of_app, list_elem_of_singleton, Htail. tauto.
Qed.

Lemma normalize_nonempty ids l :
  normalize_model_ids ids [] = inr l -> 1 <= zlen ids -> l ≠ [].
Proof.
  intros Hl Hn ->. destruct (normalize_model_ids_inr _ _ _ Hl (NoDup_nil_2)) as (_ & _ & Hel).
  destruct ids as [|v ids]; [change (zlen (@nil pyval)) with 0 in Hn; lia|].
  simpl in Hl. destruct v as [| | | |raw| | | | |]; try done.
  destruct (py_empty _ || _) eqn:E; [done|]. apply orb_false_iff in E as [E1 E2].
  apply (not_elem_of_nil (py_lower (py_strip raw))), Hel. right.
  exists raw. repeat split; [left|done|lia].
Qed.

Lemma capabilities_post_init_ok a c :
  capabilities_post_init a = inr c ->
  exists ids, arg_supported_model_ids a = PyTuple ids /\ capabilities_ok ids c.
Proof.
  unfold capabilities_post_init. intros Hc. invert_checks. injection Hc as <-.
  destruct (arg_supported_model_ids a) as [| | | | | |ids| | |]; try done.
  exists ids. split; [done|]. destruct ((1 <=? zlen ids) && _) eqn:El; [|done]. simplify_eq.
  match goal with Hm : normalize_model_ids _ _ = inr _ |- _ =>
    destruct (normalize_model_ids_inr _ _ _ Hm (NoDup_nil_2)) as (Hnd & Hlen & Hel);
    pose proof (normalize_nonempty _ _ Hm ltac:(lia)) end.
  change (zlen (@nil pystr)) with 0 in Hlen. unfold int_in in *. split; simpl; try done; try lia.
  - intros m. rewrite Hel. split; [intros [[]%not_elem_of_nil|?]; done|by right].
  - by destruct (pystr_in (normalized_text _) _) eqn:E.
Qed.

End capabilities.
