(* ===== verification/StoreOutcome.v ===== *)
(** * A recorded outcome stays until its retention ends

    Once a request has an outcome, every operation whose clock reads before the
    end of its retention leaves that outcome in place; only its retrieval state
    may move.  The proof follows the guards of the source: each call of
    [_terminalize_locked] is made for a request that has no outcome yet. *)

From Stdlib Require Import Floats.SpecFloat.
From S2P Require Import Prelude PyFloat PyStr PyDict Sha256 StoreTypes StoreState StoreCore StoreOps.
#[local] Open Scope Z_scope.

Section outcome.
Context `{!Crypto}.
Variable config : RelayStateStoreConfig.
Variable i : identity.
Variable t : TerminalOutcomeRecord.

(** The retrieval states an outcome may move to. *)
Definition later_state (st : pystr) : Prop :=
  st = t_retrieval_state t \/ st = "retrieval_expired" \/ st = "acknowledged".

(** The outcome [t] of request [i], with only its retrieval state moved. *)
Definition kept (s : store) : Prop :=
  nodup_keys (_terminals s) /\
  exists st, dget (_terminals s) i = Some (terminal_with_retrieval_state t st) /\ later_state st.

Lemma kept_refl s :
  nodup_keys (_terminals s) -> dget (_terminals s) i = Some t -> kept s.
Proof. intros Hn Ht. split; [done|]. exists (t_retrieval_state t). rewrite Ht.
  split; [by destruct t|by left]. Qed.

Lemma keeps_frame f :
  (forall s, _terminals (f s) = _terminals s) -> keeps kept (modify (E := store_error) f).
Proof. intros Hf. apply keeps_modify. intros s. unfold kept. by rewrite Hf. Qed.

(** Updating the table at a request that has no outcome, or only its retrieval state. *)
Lemma kept_dset_fresh s j x :
  kept s -> dget (_terminals s) j = None -> kept (set_terminals (dset (_terminals s) j x) s).
Proof.
  intros [Hn (st & Ht & Hst)] Hj. split; [by apply nodup_dset|]. exists st. simpl.
  rewrite dget_dset_ne; [done|congruence].
Qed.

Lemma kept_dset_state s j x st :
  kept s -> dget (_terminals s) j = Some x -> st = "retrieval_expired" \/ st = "acknowledged" ->
  kept (set_terminals (dset (_terminals s) j (terminal_with_retrieval_state x st)) s).
Proof.
  intros [Hn (st0 & Ht & Hst0)] Hj Hst. split; [by apply nodup_dset|]. simpl. rewrite dget_dset.
  case_bool_decide; [|by exists st0]. subst j. rewrite Ht in Hj. injection Hj as <-.
  exists st. split; [done|by right].
Qed.

Lemma keeps_get {B} (f : store -> M B) :
  (forall s0, keeps kept (f s0)) -> keeps kept (bind get_state f).
Proof. intros Hf. apply keeps_get_bind. intros s Hs. by apply Hf. Qed.

End outcome.

(** One statement that does not assign the outcome table. *)
Ltac keep_step :=
  match goal with
  | |- keeps (kept _ _) (bind get_state _) => apply keeps_get; intros ?
  | |- keeps (kept _ _) (bind _ _) => apply keeps_bind; [|intros ?]
  | |- keeps (kept _ _) (modify _) => apply keeps_frame; intros ?; reflexivity
  | |- keeps (kept _ _) (if _ then _ else _) => apply keeps_if
  | |- keeps (kept _ _) (match ?x with _ => _ end) => destruct x
  | |- keeps (kept _ _) (let _ := _ in _) => cbv zeta
  | |- keeps (kept _ _) (for_each _ _) => apply keeps_for_each; intros ?
  | |- keeps (kept _ _) (try_except _ _ _) => apply keeps_try_except
  | |- keeps (kept _ _) (ret _) => apply keeps_ret
  | |- keeps (kept _ _) (raise _) => apply keeps_raise
  | |- keeps (kept _ _) (raise_if _ _) => apply keeps_raise_if
  | |- keeps (kept _ _) (lift _) => apply keeps_lift
  | |- keeps (kept _ _) (lift_val _) => apply keeps_lift_val
  | |- keeps (kept _ _) (from_option _ _) => apply keeps_from_option
  end.
Ltac keep := repeat keep_step.

Section reap_keeps.
Context `{!Crypto}.
Variable config : RelayStateStoreConfig.
Variable i : identity.
Variable t : TerminalOutcomeRecord.
Notation kept := (kept i t).

Lemma discard_keeps n j : keeps kept (_discard_node_work_identity_locked n j).
Proof. unfold _discard_node_work_identity_locked. keep. Qed.

Lemma remove_queued_keeps j q : keeps kept (_remove_queued_identity_locked j q).
Proof. unfold _remove_queued_identity_locked, _discard_node_work_identity_locked. keep. Qed.

(** Running on from a state the first part leaves. *)
Lemma outcome_kept_bind {A B} (m : M A) (f : A -> M B) s :
  kept (m s).1 -> (forall a, keeps kept (f a)) -> kept (bind m f s).1.
Proof.
  unfold bind. destruct (m s) as [s' [e|a]]; [done|]. intros Hs Hf. by apply Hf.
Qed.

Lemma kept_wp {A} (m : M A) s : wp m (fun _ => kept) (fun _ => kept) s <-> kept (m s).1.
Proof. unfold wp. by destruct (m s) as [s' [e|a]]. Qed.

Lemma outcome_kept_get {B} (f : store -> M B) s : kept (f s s).1 -> kept (bind get_state f s).1.
Proof. done. Qed.

Lemma outcome_kept_raise_if {B} c (e : store_error) (f : unit -> M B) s :
  kept s -> kept (f tt s).1 -> kept (bind (raise_if c e) f s).1.
Proof. destruct c; done. Qed.

Lemma kept_try_keeps {A} (m : M A) p (h : M A) s :
  kept (m s).1 -> keeps kept h -> kept (try_except m p h s).1.
Proof.
  unfold try_except. destruct (m s) as [s' [e|a]]; [|done]. destruct (p e); [|done]. auto.
Qed.

Lemma kept_try {A} (m : M A) p (a : A) s : kept (m s).1 -> kept (try_except m p (ret a) s).1.
Proof. intros Hm. by apply kept_try_keeps; [|apply keeps_ret]. Qed.

Lemma outcome_kept_ret {A B} (a : A) (f : A -> M B) s : kept (f a s).1 -> kept (bind (ret a) f s).1.
Proof. done. Qed.

Lemma terminalize_keeps j record status reason now force s :
  kept s -> dget (_terminals s) j = None ->
  kept (_terminalize_locked config j record status reason now force s).1.
Proof.
  intros Hs Hj. unfold _terminalize_locked. apply outcome_kept_get. apply outcome_kept_raise_if; [done|].
  set (tc := tombstone_claim _ _ _ _ _ _). clearbody tc.
  assert (Htail : kept (bind (modify (fun s1 => set_terminals
    (dset (_terminals s1) j (cancelled_terminal config s j record tc status reason now)) s1))
      (fun _ => ret (E := store_error) tt) s).1) by (by apply kept_dset_fresh).
  destruct tc as [c|]; [apply outcome_kept_raise_if; [done|]|apply outcome_kept_ret];
    (apply outcome_kept_bind; [exact Htail|intros _]); clear;
    keep;
    match goal with
    | |- keeps kept (_remove_queued_identity_locked _ _) => apply remove_queued_keeps
    | |- keeps kept (_discard_node_work_identity_locked _ _) => apply discard_keeps
    end.
Qed.

(** ** Reaping *)

Variable now : float64.
Hypothesis retained : fle (t_expires_at_epoch t) now = false.
#[local] Set Default Proof Using "Type*".

Lemma reap_response_keeps ir : keeps kept (reap_response now ir).
Proof.
  destruct ir as [j r]. unfold reap_response. keep_step; [|keep].
  apply keeps_bind; [keep|intros _]. apply keeps_get_bind. intros s Hs.
  destruct (dget (_terminals s) j) as [x|] eqn:Ex; [|done].
  case_bool_decide; [|done]. apply kept_dset_state; [done|done|by left].
Qed.

Lemma drop_terminals_keeps :
  keeps kept (modify (E := store_error) (fun s =>
    set_terminals (drop_expired (fun x => fle (t_expires_at_epoch x) now) (_terminals s)) s)).
Proof.
  apply keeps_modify. intros s [Hn (st & Ht & Hst)]. unfold drop_expired. split; simpl.
  - by apply nodup_bfilter.
  - exists st. split; [|done]. apply dget_bfilter_Some; [done|]. split; [done|]. simpl.
    by rewrite retained.
Qed.

Lemma reap_retained_keeps : keeps kept (_reap_retained_locked now).
Proof.
  unfold _reap_retained_locked. apply keeps_get. intros s0.
  apply keeps_bind; [apply keeps_for_each; apply reap_response_keeps|intros _].
  apply keeps_bind; [apply drop_terminals_keeps|intros _]. keep.
Qed.

Lemma transition_batch_keeps n p batch : forall c,
  keeps kept (transition_batch config n p now batch c).
Proof.
  induction batch as [|j batch IH]; intros c; simpl; [keep|].
  apply keeps_get_bind. intros s Hs. destruct (dmem (_terminals s) j) eqn:Ej.
  { apply outcome_kept_bind; [by apply discard_keeps|]. intros _. apply IH. }
  destruct (live_record s j) as [w|].
  2:{ apply outcome_kept_bind; [by apply discard_keeps|]. intros _. apply IH. }
  dmem_simpl. apply outcome_kept_bind.
  - apply kept_try. apply outcome_kept_bind; [by apply terminalize_keeps|]. intros r. keep.
  - intros [r|]; [apply IH|keep].
Qed.

Lemma begin_keeps n r cause : keeps kept (_begin_node_transition config n r cause now).
Proof. unfold _begin_node_transition. keep. Qed.

Lemma advance_keeps n p : keeps kept (_advance_node_transition config n p now).
Proof.
  unfold _advance_node_transition. apply keeps_get. intros s0. cbv zeta.
  apply keeps_bind; [apply transition_batch_keeps|intros c]. keep.
Qed.

Lemma completed_transition_keeps n d cause : keeps kept (_completed_transition n d cause).
Proof. unfold _completed_transition. keep. Qed.

Lemma transition_keeps n d cause : keeps kept (_transition_node_locked config n d cause now).
Proof.
  unfold _transition_node_locked. keep_step. cbv zeta. destruct (dget _ _) as [p|].
  - keep_step; [keep|]. keep_step; [keep|]. apply advance_keeps.
  - destruct (dget _ _) as [r|]; [|apply completed_transition_keeps].
    keep_step; [keep|]. keep_step; [keep|].
    apply keeps_bind; [apply begin_keeps|]. intros p. apply advance_keeps.
Qed.

Lemma expire_keeps c : keeps kept (_expire_locked config now c).
Proof.
  unfold _expire_locked. apply keeps_bind; [apply reap_retained_keeps|intros _].
  apply keeps_get. intros s0. cbv zeta. apply keeps_bind.
  { apply keeps_for_each. intros r. apply keeps_bind; [apply transition_keeps|intros ?; keep]. }
  intros _. apply keeps_get. intros s1. apply keeps_bind; [|intros ?; keep].
  destruct (if c then _ else _) as [n|]; [|keep]. destruct (existsb _ _); [keep|].
  apply keeps_bind; [keep|]. intros p. apply keeps_bind; [apply transition_keeps|intros ?; keep].
Qed.

Lemma reap_due_keeps jr : keeps kept (reap_due config now jr).
Proof.
  destruct jr as [j r]. unfold reap_due. apply keeps_get_bind. intros s Hs.
  destruct (_ && _) eqn:E; [|done]. apply andb_true_iff in E as [E _]. bdestruct. dmem_simpl.
  apply kept_try_keeps; [|keep]. apply outcome_kept_bind; [by apply terminalize_keeps|intros ?; keep].
Qed.

Lemma reap_reservation_keeps jr : keeps kept (reap_reservation now jr).
Proof.
  destruct jr as [j r]. unfold reap_reservation, _discard_node_work_identity_locked. keep.
Qed.

Lemma reap_keeps : keeps kept (_reap_locked config now).
Proof.
  unfold _reap_locked. apply keeps_bind; [apply reap_retained_keeps|intros _].
  apply keeps_get. intros s0. apply keeps_bind.
  { apply keeps_for_each. apply reap_due_keeps. }
  intros _. apply keeps_bind; [apply expire_keeps|intros _]. apply keeps_get. intros s1.
  apply keeps_for_each. apply reap_reservation_keeps.
Qed.

End reap_keeps.

(** ** The operations *)

Section operation_keeps.
Context `{!Crypto} `{!PyUnicode}.
Variable config : RelayStateStoreConfig.
Variable acknowledgement_key : list byte.
Variable i : identity.
Variable t : TerminalOutcomeRecord.
Notation kept := (kept i t).
Variable clock : pyval.
Variable now : float64.
Hypothesis clock_now : _now clock = inr now.
Hypothesis retained : fle (t_expires_at_epoch t) now = false.
#[local] Set Default Proof Using "Type*".

Lemma keeps_now {A} (f : float64 -> M A) :
  keeps kept (f now) -> keeps kept (bind (lift_val (_now clock)) f).
Proof. rewrite clock_now. intros Hf s Hs. by apply Hf. Qed.

Ltac keep_now := lazymatch goal with
  | |- keeps _ (bind (lift_val (_now _)) _) => apply keeps_now
  | |- keeps _ (bind (_reap_locked _ _) _) =>
      apply keeps_bind; [by apply reap_keeps|intros _]
  | |- keeps _ (bind (_expire_locked _ _ _) _) =>
      apply keeps_bind; [by apply expire_keeps|intros ?]
  | |- keeps _ (bind (_reap_retained_locked _) _) =>
      apply keeps_bind; [by apply reap_retained_keeps|intros _]
  | |- keeps _ (bind (lift_val _) _) => apply keeps_bind; [apply keeps_lift_val|intros ?]
  | |- keeps _ (bind (raise_if _ _) _) => apply keeps_bind; [apply keeps_raise_if|intros _]
  | |- keeps _ (bind (lift _) _) => apply keeps_bind; [apply keeps_lift|intros _]
  end.

Lemma register_keeps v caps d : keeps kept (register config v caps d clock).
Proof. unfold register. repeat keep_now. keep. Qed.

Lemma renew_keeps v d caps : keeps kept (renew config v d caps clock).
Proof.
  unfold renew. do 2 keep_now. apply keeps_bind; [keep|intros ?]. repeat keep_now. keep.
Qed.

Lemma get_keeps v : keeps kept (get config v clock).
Proof. unfold get. repeat keep_now. keep. Qed.

Lemma list_keeps : keeps kept (list_ config clock).
Proof. unfold list_. repeat keep_now. keep. Qed.

Lemma expire_op_keeps : keeps kept (expire config clock).
Proof. unfold expire. repeat keep_now. by apply expire_keeps. Qed.

Lemma unregister_node_keeps v d cause :
  keeps kept (unregister_node_and_transition_work config v d cause clock).
Proof.
  unfold unregister_node_and_transition_work. do 2 keep_now.
  apply keeps_bind; [keep|intros ?]. repeat keep_now. by apply transition_keeps.
Qed.

Lemma unregister_keeps v d : keeps kept (unregister config v d clock).
Proof. unfold unregister. apply keeps_bind; [apply unregister_node_keeps|intros ?; keep]. Qed.

Lemma set_scheduler_state_keeps v d st : keeps kept (set_scheduler_state config v d st clock).
Proof. unfold set_scheduler_state. repeat keep_now. keep. Qed.

Lemma select_keeps a b m tr dl c raw :
  keeps kept (select_and_reserve config a b m tr dl c raw clock).
Proof.
  unfold select_and_reserve. do 4 keep_now. cbv zeta. apply keeps_bind; [keep|intros ?].
  repeat keep_now. unfold select_queued, select_reserved, reserve_new,
    _cursor_eviction_candidate_locked. keep.
Qed.

Lemma enqueue_keeps a b tok v m tr dl e c :
  keeps kept (enqueue_encrypted_request config a b tok v m tr dl e c clock).
Proof.
  unfold enqueue_encrypted_request. repeat keep_now.
  unfold enqueue_existing, enqueue_reserved. keep.
Qed.

Lemma list_reservations_keeps : keeps kept (list_reservations config clock).
Proof. unfold list_reservations. repeat keep_now. keep. Qed.

Lemma queued_requests_keeps v : keeps kept (queued_requests config v clock).
Proof. unfold queued_requests. repeat keep_now. keep. Qed.

Lemma claim_keeps v d c : keeps kept (claim_queued_request config v d c clock).
Proof. unfold claim_queued_request. repeat keep_now. keep. Qed.

Lemma renew_control_keeps v d c a b g ack :
  keeps kept (renew_claim_or_read_control config v d c a b g ack clock).
Proof.
  unfold renew_claim_or_read_control. repeat keep_now. unfold read_control, renew_live. keep.
Qed.

Lemma active_claims_keeps v : keeps kept (active_claims config v clock).
Proof. unfold active_claims. repeat keep_now. keep. Qed.

Lemma accept_live_keeps j n d c cpk rid g e rd s :
  kept s -> dget (_terminals s) j = None ->
  kept (accept_live config acknowledgement_key j n d c cpk rid g e rd now s).1.
Proof.
  intros Hs Hj. unfold accept_live. apply kept_wp, wp_bind, wp_get.
  apply wp_bind, wp_from_option; [done|intros reg _]. apply wp_bind, wp_raise_if; [done|intros _].
  apply wp_bind, wp_from_option; [done|intros cl _]. do 3 (apply wp_bind, wp_raise_if; [done|intros _]).
  apply wp_bind, wp_from_option; [done|intros q _]. do 3 (apply wp_bind, wp_raise_if; [done|intros _]).
  do 2 (apply wp_bind, wp_from_option; [done|intros ? _]).
  apply wp_bind, wp_modify, wp_bind, wp_modify. apply kept_wp.
  apply outcome_kept_bind; [|intros _; keep]. apply remove_queued_keeps.
  by apply kept_dset_fresh; [|done].
Qed.

Lemma accept_keeps v d c a b g e :
  keeps kept (accept_encrypted_response config acknowledgement_key v d c a b g e clock).
Proof.
  unfold accept_encrypted_response. repeat keep_now. apply keeps_get_bind. intros s Hs.
  destruct (dget (_terminals s) _) eqn:E; [|by apply accept_live_keeps].
  by destruct (same_acceptance _ _ _ _ _ _).
Qed.

Lemma retrieve_ready_keeps j x ack s :
  kept s -> dget (_terminals s) j = Some x ->
  kept (retrieve_ready acknowledgement_key j x ack s).1.
Proof.
  intros Hs Hj. unfold retrieve_ready. apply outcome_kept_get. destruct (dget (_responses s) j).
  - destruct ack as [tok|]; [|done]. destruct (negb _); [done|].
    apply (kept_dset_state i t (set_responses (ddel (_responses s) j) s) j x);
      [done|done|by right].
  - apply kept_dset_state; [done|done|by left].
Qed.

Lemma retrieve_keeps a b cred ack :
  keeps kept (retrieve_encrypted_response config acknowledgement_key a b cred ack clock).
Proof.
  unfold retrieve_encrypted_response. repeat keep_now. apply keeps_get_bind. intros s Hs.
  destruct (dget (_terminals s) _) as [x|] eqn:E; [|done].
  destruct (negb (compare_digest _ _)); [done|]. destruct (negb (bool_decide _)).
  - by destruct (_ && _).
  - by apply retrieve_ready_keeps.
Qed.

Lemma response_records_keeps : keeps kept (response_records config clock).
Proof. unfold response_records. repeat keep_now. keep. Qed.

Lemma cancel_keeps a b tok status reason :
  keeps kept (cancel_or_expire_request config a b tok status reason clock).
Proof.
  unfold cancel_or_expire_request. keep_now. destruct (_identity config a b) as [e|j]; [keep|].
  cbv zeta. repeat keep_now. apply keeps_get_bind. intros s Hs.
  destruct (dget (_terminals s) j) eqn:E; [by destruct (_ && _)|].
  unfold cancel_live. destruct (_ && _); [done|]. destruct (live_record s j); [|done].
  destruct (_ && _); [done|]. by apply terminalize_keeps.
Qed.

Lemma control_tombstones_keeps : keeps kept (control_tombstones config clock).
Proof. unfold control_tombstones. repeat keep_now. keep. Qed.

Lemma node_tombstones_keeps : keeps kept (node_tombstones config clock).
Proof. unfold node_tombstones. repeat keep_now. keep. Qed.

Lemma terminal_records_keeps : keeps kept (terminal_records config clock).
Proof. unfold terminal_records. repeat keep_now. keep. Qed.

End operation_keeps.
