(* ===== verification/StoreRun.v ===== *)
(** * Histories of the store

    Every public method as one [operation], a history as a list of them, and the
    demonstration configuration the witnesses run.  A history goes on after an
    operation raises: the store keeps the state the exception left. *)

From Stdlib Require Import Floats.SpecFloat.
From stdpp Require Import relations.
From S2P Require Import Prelude PyFloat PyStr PyDict Sha256 StoreTypes StoreState.
From S2P Require Import StoreCore StoreOps StoreInv StoreAtoms StoreNodes.
From S2P Require Import StoreSelect StoreSound StoreConfig StoreOutcome.
#[local] Open Scope Z_scope.

(** One call: the method, its arguments, the clock reading and, for a selection,
    the token drawn. *)
Inductive operation : Type :=
| OpRegister (v : pyval) (caps : instance_of ComputeNodeCapabilities) (digest now : pyval)
| OpRenew (v digest : pyval) (caps : option (instance_of ComputeNodeCapabilities)) (now : pyval)
| OpGet (v now : pyval)
| OpList (now : pyval)
| OpExpire (now : pyval)
| OpUnregisterNode (v digest : pyval) (cause : pystr) (now : pyval)
| OpUnregister (v digest now : pyval)
| OpSetSchedulerState (v digest : pyval) (state : instance_of SchedulerNodeState) (now : pyval)
| OpSelect (client request model tier deadline : pyval) (cancellation : option pyval)
    (raw_token : pystr) (now : pyval)
| OpEnqueue (client request token node model tier deadline : pyval)
    (envelope : instance_of EncryptedRequestEnvelope) (cancellation now : pyval)
| OpListReservations (now : pyval)
| OpQueuedRequests (v now : pyval)
| OpClaim (v digest consumer now : pyval)
| OpRenewControl (v digest consumer client request generation : pyval) (ack : bool) (now : pyval)
| OpRenewClaim (v digest consumer client request generation now : pyval)
| OpActiveClaims (v now : pyval)
| OpAccept (v digest consumer client request generation : pyval)
    (envelope : instance_of EncryptedResponseEnvelope) (now : pyval)
| OpRetrieve (client request credential : pyval) (ack : option pyval) (now : pyval)
| OpResponseRecords (now : pyval)
| OpCancel (client request token : pyval) (status reason : pystr) (now : pyval)
| OpControlTombstones (now : pyval)
| OpNodeTombstones (now : pyval)
| OpTerminalRecords (now : pyval).

Definition ignore {A} (m : M A) : M unit := let* _ := m in ret tt.

Section run.
Context `{!Crypto} `{!PyUnicode}.
Variable config : RelayStateStoreConfig.
Variable acknowledgement_key : list byte.

Definition run_op (op : operation) : M unit :=
  match op with
  | OpRegister v caps d t => ignore (register config v caps d t)
  | OpRenew v d caps t => ignore (renew config v d caps t)
  | OpGet v t => ignore (get config v t)
  | OpList t => ignore (list_ config t)
  | OpExpire t => ignore (expire config t)
  | OpUnregisterNode v d c t => ignore (unregister_node_and_transition_work config v d c t)
  | OpUnregister v d t => ignore (unregister config v d t)
  | OpSetSchedulerState v d st t => ignore (set_scheduler_state config v d st t)
  | OpSelect a b m tr dl c raw t => ignore (select_and_reserve config a b m tr dl c raw t)
  | OpEnqueue a b tok v m tr dl e c t =>
      ignore (enqueue_encrypted_request config a b tok v m tr dl e c t)
  | OpListReservations t => ignore (list_reservations config t)
  | OpQueuedRequests v t => ignore (queued_requests config v t)
  | OpClaim v d c t => ignore (claim_queued_request config v d c t)
  | OpRenewControl v d c a b g ack t =>
      ignore (renew_claim_or_read_control config v d c a b g ack t)
  | OpRenewClaim v d c a b g t => ignore (renew_claim config v d c a b g t)
  | OpActiveClaims v t => ignore (active_claims config v t)
  | OpAccept v d c a b g e t =>
      ignore (accept_encrypted_response config acknowledgement_key v d c a b g e t)
  | OpRetrieve a b cred ack t =>
      ignore (retrieve_encrypted_response config acknowledgement_key a b cred ack t)
  | OpResponseRecords t => ignore (response_records config t)
  | OpCancel a b tok status reason t =>
      ignore (cancel_or_expire_request config a b tok status reason t)
  | OpControlTombstones t => ignore (control_tombstones config t)
  | OpNodeTombstones t => ignore (node_tombstones config t)
  | OpTerminalRecords t => ignore (terminal_records config t)
  end.

Definition run (ops : list operation) (s : store) : store :=
  fold_left (fun s op => (run_op op s).1) ops s.

(** The node identifiers a history tries to register. *)
Definition op_registers (op : operation) : option pystr :=
  match op with
  | OpRegister v _ _ _ => match _validate_node_id config v with inr n => Some n | inl _ => None end
  | _ => None
  end.

Definition registered_in (ops : list operation) : list pystr := omap op_registers ops.

(** No two of them have the same SHA-256 node digest. *)
Definition no_collision (ops : list operation) : Prop :=
  forall n m, n ∈ registered_in ops -> m ∈ registered_in ops ->
    _node_digest n = _node_digest m -> n = m.

#[export] Instance no_collision_dec ops : Decision (no_collision ops).
Proof.
  refine (cast_if (decide (Forall (fun n => Forall (fun m =>
    _node_digest n = _node_digest m -> n = m) (registered_in ops)) (registered_in ops)))).
  - intros n m Hn Hm. rewrite Forall_forall in f. specialize (f n Hn).
    rewrite Forall_forall in f. by apply f.
  - contradict n. rewrite Forall_forall. intros a Ha. rewrite Forall_forall. intros b Hb.
    by apply n.
Defined.

Variable known : pystr -> Prop.
Hypothesis known_inj : forall n m, known n -> known m -> _node_digest n = _node_digest m -> n = m.

Lemma ignore_sound {A} (m : M A) : sound config known m -> sound config known (ignore m).
Proof using Type. intros Hm. apply sound_bind; [done|]. intros a. apply sound_ret. Qed.

Lemma run_op_sound op :
  (forall n, op_registers op = Some n -> known n) -> sound config known (run_op op).
Proof using known_inj.
  intros Hk. destruct op; apply ignore_sound; auto using renew_sound, get_sound, list_sound,
    expire_op_sound, unregister_node_sound, unregister_sound, set_scheduler_state_sound,
    select_sound, enqueue_sound, list_reservations_sound, queued_requests_sound, claim_sound,
    renew_control_sound, renew_claim_sound, active_claims_sound, accept_sound, retrieve_sound,
    response_records_sound, cancel_sound, control_tombstones_sound, node_tombstones_sound,
    terminal_records_sound.
  apply register_sound; [done|]. intros n Hn. apply Hk. simpl. by rewrite Hn.
Qed.

Lemma sound_state {A} (m : M A) s :
  sound config known m -> Inv config known s -> ok_state config known s (m s).1.
Proof using Type.
  intros Hm Hs. specialize (Hm s Hs). unfold sound_at, wp in Hm.
  destruct (m s) as [s' [e|a]]; [apply Hm|done].
Qed.

Lemma run_ok ops s :
  (forall n, n ∈ registered_in ops -> known n) -> Inv config known s ->
  ok_state config known s (run ops s).
Proof using known_inj.
  revert s. induction ops as [|op ops IH]; intros s Hk Hs; [by apply ok_refl|].
  assert (Hop : ok_state config known s (run_op op s).1).
  { apply sound_state; [|done]. apply run_op_sound. intros n Hn. apply Hk.
    unfold registered_in. simpl. rewrite Hn. left. }
  eapply ok_trans; [exact Hop|]. apply IH; [|apply Hop].
  intros n Hn. apply Hk. unfold registered_in in *. simpl. by destruct (op_registers op); [right|].
Qed.

(** A fact about an entry of an empty table. *)
Ltac empty_table :=
  unfold live_at, dget_or, is_Some; simpl; intros;
  repeat match goal with
  | H : _ \/ _ |- _ => destruct H
  | H : exists _, _ |- _ => destruct H
  | H : _ /\ _ |- _ => destruct H
  | H : _ ∈ [] |- _ => by apply not_elem_of_nil in H
  | |- _ <-> _ => split; intros
  end; done || (by constructor).

Lemma Inv_empty : config_ok config -> Inv config known empty_store.
Proof using Type.
  intros []. unfold int_in in *. split; simpl; try (split; simpl; empty_table).
  split; simpl; intros; unfold fences_total;
    repeat match goal with
    | |- context [dlen ?d] => replace (dlen d) with 0 by (symmetry; exact dlen_nil)
    | |- context [dcount ?p ?d] => replace (dcount p d) with 0 by (symmetry; exact (dcount_nil _))
    end; simpl; lia.
Qed.

End run.

(** ** Reachable states *)

Section reachable.
Context `{!Crypto} `{!PyUnicode}.
Variable config : RelayStateStoreConfig.
Variable acknowledgement_key : list byte.

(** What a validated store may be after some history. *)
Definition reachable (s : store) : Prop :=
  config_ok config /\
  exists ops, no_collision config ops /\ s = run config acknowledgement_key ops empty_store.

Lemma reachable_known s :
  reachable s -> exists known, (forall n m, known n -> known m ->
    _node_digest n = _node_digest m -> n = m) /\ Inv config known s.
Proof.
  intros (Hc & ops & Hops & ->). exists (fun n => n ∈ registered_in config ops).
  split; [exact Hops|]. apply run_ok; [exact Hops|done|]. by apply Inv_empty.
Qed.

Lemma run_app ops1 ops2 s :
  run config acknowledgement_key (ops1 ++ ops2) s =
    run config acknowledgement_key ops2 (run config acknowledgement_key ops1 s).
Proof. apply fold_left_app. Qed.

(** The clock reading of an operation. *)
Definition op_clock (op : operation) : pyval :=
  match op with
  | OpRegister _ _ _ t | OpRenew _ _ _ t | OpGet _ t | OpList t | OpExpire t
  | OpUnregisterNode _ _ _ t | OpUnregister _ _ t | OpSetSchedulerState _ _ _ t
  | OpSelect _ _ _ _ _ _ _ t | OpEnqueue _ _ _ _ _ _ _ _ _ t | OpListReservations t
  | OpQueuedRequests _ t | OpClaim _ _ _ t | OpRenewControl _ _ _ _ _ _ _ t
  | OpRenewClaim _ _ _ _ _ _ t | OpActiveClaims _ t | OpAccept _ _ _ _ _ _ _ t
  | OpRetrieve _ _ _ _ t | OpResponseRecords t | OpCancel _ _ _ _ _ t | OpControlTombstones t
  | OpNodeTombstones t | OpTerminalRecords t => t
  end.

Lemma run_op_keeps i t op now :
  _now (op_clock op) = inr now -> fle (t_expires_at_epoch t) now = false ->
  keeps (kept i t) (run_op config acknowledgement_key op).
Proof.
  intros Hnow Hret. unfold run_op, ignore.
  destruct op; simpl in Hnow; (apply keeps_bind; [|intros ?; apply keeps_ret]);
    eauto using register_keeps, renew_keeps, get_keeps, list_keeps, expire_op_keeps,
      unregister_node_keeps, unregister_keeps, set_scheduler_state_keeps, select_keeps,
      enqueue_keeps, list_reservations_keeps, queued_requests_keeps, claim_keeps,
      renew_control_keeps, active_claims_keeps, accept_keeps, retrieve_keeps,
      response_records_keeps, cancel_keeps, control_tombstones_keeps, node_tombstones_keeps,
      terminal_records_keeps.
Qed.

End reachable.

(** * A concrete history

    A store with the default configuration, real SHA-256 digests and ASCII
    identifiers, taken through one request from registration to retrieval.  The
    witnesses of the theorems apply them at the states of this history. *)

#[global] Existing Instance sha256_crypto.
#[global] Existing Instance ascii_unicode.

Definition demo_config : RelayStateStoreConfig :=
  match config_post_init (default_config_args (PyS "relay")) with
  | inr c => c
  | inl _ => MkConfig "" 0 f0 0 0 f0 f0 0 0 0 0 0 0 0 0 0 0 0 f0 0 0 0 0 0 0 f0 0 0 f0 0 f0 0 0 0 0 0 f0 0
  end.

Lemma demo_config_eq : config_post_init (default_config_args (PyS "relay")) = inr demo_config.
Proof. vm_compute. reflexivity. Qed.

Lemma demo_config_ok : config_ok demo_config.
Proof. eapply config_post_init_ok. exact demo_config_eq. Qed.

Definition demo_key : list byte := repeat x2a 32.

Definition node_digest_hex : pystr := ascii_digest "node-credential".

Definition demo_caps : ComputeNodeCapabilities :=
  MkCapabilities ["llama-3"] tier_8k_fast 8192 512 1024 2 "cuda".

Definition demo_envelope : EncryptedRequestEnvelope :=
  RequestEnvelope (MkEnvelope e2ee_protocol version_int "Y2lwaGVy" "a2V5" "aXY=").

Definition demo_response : EncryptedResponseEnvelope :=
  ResponseEnvelope (MkEnvelope e2ee_protocol version_int "YW5zd2Vy" "a2V5" "aXY=").

(** The token a selection draws. *)
Definition demo_token : pystr := ascii_digest "token".

Definition at_time (z : Z) : pyval := PyInt z.

Definition op_register : operation :=
  OpRegister (PyS "node-a") (IsInst demo_caps) (PyS node_digest_hex) (at_time 100).
Definition op_select : operation :=
  OpSelect (PyS "client-key") (PyS "request-1") (PyS "llama-3") (PyS "8k-fast") (at_time 200)
    (Some (PyS "cancel-proof")) demo_token (at_time 100).
Definition op_enqueue : operation :=
  OpEnqueue (PyS "client-key") (PyS "request-1") (PyS demo_token) (PyS "node-a") (PyS "llama-3")
    (PyS "8k-fast") (at_time 200) (IsInst demo_envelope) (PyS "cancel-proof") (at_time 101).
Definition op_claim : operation :=
  OpClaim (PyS "node-a") (PyS node_digest_hex) (PyS "worker-1") (at_time 102).
Definition op_accept : operation :=
  OpAccept (PyS "node-a") (PyS node_digest_hex) (PyS "worker-1") (PyS "client-key")
    (PyS "request-1") (PyInt 1) (IsInst demo_response) (at_time 103).

Definition demo_run (ops : list operation) : store := run demo_config demo_key ops empty_store.

Definition registered_store : store := demo_run [op_register].
Definition reserved_store : store := demo_run [op_register; op_select].
Definition queued_store : store := demo_run [op_register; op_select; op_enqueue].
Definition claimed_store : store := demo_run [op_register; op_select; op_enqueue; op_claim].
Definition answered_store : store :=
  demo_run [op_register; op_select; op_enqueue; op_claim; op_accept].

Lemma demo_reachable ops :
  bool_decide (no_collision demo_config ops) = true ->
  reachable demo_config demo_key (demo_run ops).
Proof.
  intros Hn. split; [exact demo_config_ok|]. exists ops.
  split; [by apply bool_decide_eq_true in Hn|done].
Qed.

Definition demo_identity : identity :=
  match _identity demo_config (PyS "client-key") (PyS "request-1") with
  | inr i => i
  | inl _ => ("", "")
  end.

Example demo_phases :
  map (fun s => phase_of s demo_identity)
    [empty_store; registered_store; reserved_store; queued_store; claimed_store; answered_store] =
  [Absent; Absent; Reserved "node-a"; Queued "node-a" None; Queued "node-a" (Some 1);
   Terminal "completed"].
Proof. vm_compute. reflexivity. Qed.

Definition demo_now (z : Z) : float64 := default f0 (float_of_int z).

Definition no_terminal : TerminalOutcomeRecord :=
  MkTerminal "" "" "" "" "" 0 "" f0 f0 f0 "" "" "" "" "" "".

Definition answered_terminal : TerminalOutcomeRecord :=
  dget_or (_terminals answered_store) demo_identity no_terminal.

(** A store that removes one request of a node at a time and keeps one node
    tombstone. *)
Definition small_args : ConfigArgs :=
  let a := default_config_args (PyS "relay") in
  MkConfig (namespace a) (schema_version a) (lease_ttl_seconds a) (max_compute_nodes a)
    (max_node_id_bytes a) (reservation_ttl_seconds a) (max_request_ttl_seconds a)
    (max_reservations a) (max_reservations_per_client a) (max_reservations_per_node a)
    (max_queue_depth_per_node a) (max_request_lifecycles a) (max_queued_requests a)
    (max_queued_requests_per_client a) (max_identity_bytes a) (max_model_id_bytes a)
    (max_scheduler_fingerprints a) (max_envelope_bytes a) (claim_ttl_seconds a) (max_claims a)
    (max_claims_per_node a) (max_consumer_identity_bytes a) (max_response_envelope_bytes a)
    (max_responses a) (max_responses_per_client a) (response_replay_ttl_seconds a)
    (max_terminal_records a) (max_terminal_records_per_client a) (terminal_retention_seconds a)
    (max_cancellation_token_bytes a) (control_tombstone_ttl_seconds a) (max_control_tombstones a)
    (max_control_tombstones_per_node a) (PyInt 1) (max_pending_node_transitions a) (PyInt 1)
    (node_tombstone_ttl_seconds a) (max_removed_owner_fences a).

Definition small_config : RelayStateStoreConfig :=
  match config_post_init small_args with inr c => c | inl _ => demo_config end.

Lemma small_config_ok : config_ok small_config.
Proof. apply (config_post_init_ok small_args). vm_compute. reflexivity. Qed.

Definition op_select_2 : operation :=
  OpSelect (PyS "client-key") (PyS "request-2") (PyS "llama-3") (PyS "8k-fast") (at_time 200)
    None demo_token (at_time 100).
Definition op_unregister : operation :=
  OpUnregister (PyS "node-a") (PyS node_digest_hex) (at_time 102).

Definition removing_store : store :=
  run small_config demo_key [op_register; op_select; op_select_2; op_unregister] empty_store.

Lemma small_reachable ops :
  bool_decide (no_collision small_config ops) = true ->
  reachable small_config demo_key (run small_config demo_key ops empty_store).
Proof.
  intros Hn. split; [exact small_config_ok|]. exists ops.
  split; [by apply bool_decide_eq_true in Hn|done].
Qed.

Definition no_pending : PendingNodeTransition := MkPending "" "" "" "" "" "" f0.

Definition removing_pending : PendingNodeTransition :=
  dget_or (_pending_node_transitions removing_store) "node-a" no_pending.
