(* ===== verification/StoreHistory.v ===== *)
(** * What every history of the store guarantees

    The representation invariant, the refinement of the request lifecycle, the
    absence of internal lookup errors, the permanence of outcomes and the effect
    of lease expiry and reaping, for every reachable state. *)

From Stdlib Require Import Floats.SpecFloat.
From stdpp Require Import relations.
From S2P Require Import Prelude PyFloat PyStr PyDict Sha256 StoreTypes StoreState.
From S2P Require Import StoreCore StoreOps StoreInv StoreAtoms StoreNodes.
From S2P Require Import StoreReapSpec StoreSelect StoreSound StoreConfig.
From S2P Require Import StoreOutcome StoreRun.
#[local] Open Scope Z_scope.

Section history.
Context `{!Crypto} `{!PyUnicode}.
Variable config : RelayStateStoreConfig.
Variable acknowledgement_key : list byte.



(** C13: No operation on a reachable store raises [KeyError]: every subscript of
    the source finds its key. *)
Theorem operation_never_misses_a_key ops op :
  config_ok config -> no_collision config (ops ++ [op]) ->
  (run_op config acknowledgement_key op (run config acknowledgement_key ops empty_store)).2
    ≠ inl KeyError.
Proof.
  intros Hc Hops. set (s := run _ _ _ _).
  set (known := fun n => n ∈ registered_in config (ops ++ [op])).
  assert (Hs : Inv config known s).
  { apply (run_ok config acknowledgement_key known Hops); [|by apply Inv_empty].
    intros n Hn. unfold known, registered_in. rewrite omap_app. apply elem_of_app. by left. }
  assert (Hop : sound config known (run_op config acknowledgement_key op)).
  { apply run_op_sound; [exact Hops|]. intros n Hn. unfold known, registered_in.
    rewrite omap_app. apply elem_of_app. right. simpl. rewrite Hn. left. }
  specialize (Hop s Hs). unfold sound_at, wp in Hop.
  destruct (run_op config acknowledgement_key op s) as [s' [e|a]]; [|done].
  destruct Hop as [_ He]. simpl. congruence.
Qed.

(** C3: While its retention lasts, the recorded outcome of a request survives
    every operation unchanged, except that its retrieval state may become
    [retrieval_expired] or [acknowledged]. *)
Theorem outcome_is_permanent s op i t now :
  reachable config acknowledgement_key s -> dget (_terminals s) i = Some t ->
  _now (op_clock op) = inr now -> fle (t_expires_at_epoch t) now = false ->
  exists st, dget (_terminals (run_op config acknowledgement_key op s).1) i =
    Some (terminal_with_retrieval_state t st) /\ later_state t st.
Proof.
  intros Hs Ht Hnow Hret. destruct (reachable_known _ _ _ Hs) as (known & _ & Hinv).
  assert (Hk : kept i t (run_op config acknowledgement_key op s).1); [|apply Hk].
  apply (run_op_keeps config acknowledgement_key i t op now Hnow Hret).
  apply kept_refl; [|done]. eapply wl_terms, inv_live, Hinv.
Qed.


(** [list] returns exactly the registered nodes, ordered by identifier, each
    with a lease that the clock reading has not reached. *)
Theorem list_returns_leased_nodes s clock s' l :
  reachable config acknowledgement_key s -> list_ config clock s = (s', inr l) ->
  exists now, _now clock = inr now /\
    (forall r, r ∈ l <-> dget (_records s') (node_id r) = Some r) /\
    (forall r, r ∈ l -> fle (lease_expires_at_epoch r) now = false) /\
    Sorted.StronglySorted (fun a b => pystr_leb (node_id a) (node_id b) = true) l.
Proof.
  intros Hs Hl. destruct (reachable_known _ _ _ Hs) as (known & Hinj & Hinv).
  unfold list_ in Hl. invert_run.
  match goal with Hx : _expire_locked _ ?t _ _ = (?y, _) |- _ =>
    rename Hx into He; exists t; rename y into s1; rename t into now end.
  pose proof (wp_result _ _ _ _ _ _ (expire_wp config known Hinj now false s Hinv) He) as [_ Hall].
  assert (Hs1 : Inv config known s1).
  { pose proof (sound_state config known _ s (expire_sound config known Hinj now false) Hinv) as [Ho _].
    by rewrite He in Ho. }
  pose proof (inv_nodes _ _ _ Hs1) as Hn. split; [done|].
  assert (Hel : forall r, r ∈ map snd (py_sorted (fun a b => pystr_leb a.1 b.1) (_records s1)) <->
                          dget (_records s1) (node_id r) = Some r).
  { intros r. rewrite list_elem_of_fmap. split.
    - intros ([n r'] & -> & Hin%elem_of_py_sorted%elem_of_dget); [|apply Hn]. simpl.
      by rewrite (wn_key _ _ _ _ _ _ Hn _ _ Hin).
    - intros Hr. exists (node_id r, r). split; [done|].
      by apply elem_of_py_sorted, dget_elem_of. }
  split; [exact Hel|]. split; [intros r Hr%Hel; by apply (Hall (node_id r))|].
  eapply StronglySorted_map; [apply py_sorted_sorted|].
  - intros x y. apply pystr_leb_total.
  - intros x y z. apply codes_leb_trans.
  - intros [n r] [m q] Hx Hy.
    apply elem_of_py_sorted, elem_of_dget in Hx; [|apply Hn].
    apply elem_of_py_sorted, elem_of_dget in Hy; [|apply Hn]. simpl.
    by rewrite (wn_key _ _ _ _ _ _ Hn _ _ Hx), (wn_key _ _ _ _ _ _ Hn _ _ Hy).
Qed.

End history.

(** ** The theorems at the states of the demonstration *)



Lemma operation_never_misses_a_key_witness :
  (run_op demo_config demo_key op_accept claimed_store).2 ≠ inl KeyError.
Proof.
  exact (operation_never_misses_a_key demo_config demo_key
    [op_register; op_select; op_enqueue; op_claim] op_accept
    demo_config_ok ltac:(apply (bool_decide_unpack _); vm_compute; exact I)).
Defined.

(** A retrieval after the replay period moves the retrieval state of the outcome. *)
Definition op_late_retrieve : operation :=
  OpRetrieve (PyS "client-key") (PyS "request-1") (PyS demo_token) None (at_time 1000).

Lemma outcome_is_permanent_witness :
  exists st,
    dget (_terminals (run_op demo_config demo_key op_late_retrieve answered_store).1) demo_identity
      = Some (terminal_with_retrieval_state answered_terminal st) /\ later_state answered_terminal st.
Proof.
  apply (outcome_is_permanent demo_config demo_key answered_store op_late_retrieve demo_identity
    answered_terminal (demo_now 1000)).
  - apply demo_reachable. vm_compute. reflexivity.
  - vm_compute. reflexivity.
  - vm_compute. reflexivity.
  - vm_compute. reflexivity.
Defined.


Lemma list_returns_leased_nodes_witness :
  let l := [MkRegistration "node-a" demo_caps node_digest_hex (demo_now 100) (demo_now 130)] in
  exists now, _now (at_time 110) = inr now /\
    (forall r, r ∈ l <->
       dget (_records (list_ demo_config (at_time 110) queued_store).1) (node_id r) = Some r) /\
    (forall r, r ∈ l -> fle (lease_expires_at_epoch r) now = false) /\
    Sorted.StronglySorted (fun a b => pystr_leb (node_id a) (node_id b) = true) l.
Proof.
  apply (list_returns_leased_nodes demo_config demo_key queued_store (at_time 110)).
  - apply demo_reachable. vm_compute. reflexivity.
  - vm_compute. reflexivity.
Defined.

(** * What the constructors accept, and a full tombstone table

    The validated configuration and capabilities as exact characterisations, and
    the behaviour of an unrelated call once the bounded table of node tombstones
    is full. *)

(** The configurations the constructor can produce are exactly those whose
    every field lies within its documented range, with the cross-field bounds
    (per-client and per-node limits below the totals) included. *)
Theorem config_is_exactly_within_bounds c :
  (exists a, config_post_init a = inr c) <-> config_ok c.
Proof.
  split; [intros [a Ha]; by eapply config_post_init_ok|].
  intros Hc. exists (config_args c). by apply config_ok_accepted.
Qed.

(** Accepted capabilities list every requested model once, stripped and
    lower-cased, in a non-empty list within the documented bounds. *)
Theorem capabilities_are_normal `{!PyUnicode} a c :
  capabilities_post_init a = inr c ->
  exists ids, arg_supported_model_ids a = PyTuple ids /\ capabilities_ok ids c.
Proof. apply capabilities_post_init_ok. Qed.

Definition op_register_at (node : pystr) (digest : pystr) (z : Z) : operation :=
  OpRegister (PyS node) (IsInst demo_caps) (PyS digest) (at_time z).

(** Two nodes register, both leases end, and the table keeps one tombstone. *)
Definition full_tombstones_store : store :=
  run small_config demo_key
    [op_register_at "node-a" (ascii_digest "credential-a") 100;
     op_register_at "node-b" (ascii_digest "credential-b") 100] empty_store.

(** Once the node tombstone table is full, looking up a third, unrelated node
    raises the capacity error that the expiry of the second node's lease met. *)
Theorem full_tombstones_block_an_unrelated_lookup :
  (get small_config (PyS "node-c") (at_time 200) full_tombstones_store).2
    = inl (RelayStateCapacityExceeded "node tombstone capacity reached").
Proof. vm_compute. reflexivity. Qed.

(** ** Capabilities at a concrete registration *)

Definition demo_capability_args : CapabilityArgs :=
  MkCapabilityArgs (PyTuple [PyS " Llama-3 "; PyS "llama-3"; PyS "Qwen3"]) (PyS "8K-FAST")
    (PyInt 8192) (PyInt 512) (PyInt 1024) (PyInt 2) (PyS "abacus") (PyS "v1").

Lemma capabilities_are_normal_witness :
  exists ids, arg_supported_model_ids demo_capability_args = PyTuple ids /\
    capabilities_ok ids
      (MkCapabilities ["llama-3"; "qwen3"] tier_8k_fast 8192 512 1024 2 "unknown").
Proof. apply (capabilities_are_normal demo_capability_args). vm_compute. reflexivity. Defined.
