(* ===== verification/StoreContract.v ===== *)
(** * What each operation promises its caller

    The result of a successful call and the state it leaves, for selection,
    enqueueing, claiming, renewal, acceptance, retrieval, cancellation,
    registration and node removal.  Each statement names the state [s1] that
    reaping left, and says what the operation did from there. *)

From Stdlib Require Import Floats.SpecFloat.
From stdpp Require Import relations.
From S2P Require Import Prelude PyFloat PyStr PyDict Sha256 StoreTypes StoreState StoreCore.
From S2P Require Import StoreOps StoreInv StoreAtoms StoreNodes.
From S2P Require Import StoreReapSpec StoreSelect StoreSound StoreConfig StoreOutcome StoreRun.

#[local] Open Scope Z_scope.

Section contract.
Context `{!Crypto} `{!PyUnicode}.
Variable config : RelayStateStoreConfig.
Variable acknowledgement_key : list byte.

Lemma reaped_state known s now s1 :
  (forall n m, known n -> known m -> _node_digest n = _node_digest m -> n = m) ->
  Inv config known s -> _reap_locked config now s = (s1, inr tt) ->
  Inv config known s1 /\ reaped now s1.
Proof.
  intros Hinj Hs Hr. split.
  - pose proof (sound_state config known _ s (reap_sound config known Hinj now) Hs) as [Ho _].
    by rewrite Hr in Ho.
  - exact (proj2 (wp_result _ _ _ _ _ _ (reap_wp config known Hinj now s Hs) Hr)).
Qed.

Lemma require_digest_inr r d : _require_digest r d = inr tt -> control_credential_digest r = d.
Proof.
  unfold _require_digest, compare_digest. intros Hr%eraise_if_inr. by bdestruct.
Qed.

Lemma modify_inr (f : store -> store) s s' u :
  modify (E := store_error) f s = (s', inr u) -> s' = f s.
Proof. by intros [= -> _]. Qed.

(** ** Claiming *)

(** The first element a search finds in a list sorted by sequence number. *)
Lemma find_first_sequence p l q :
  Sorted.StronglySorted Z.lt (map q_sequence l) -> List.find p l = Some q ->
  q ∈ l /\ p q = true /\ forall q', q' ∈ l -> p q' = true -> q_sequence q <= q_sequence q'.
Proof.
  induction l as [|x l IH]; simpl; [done|]. intros [Hs Hx]%Sorted.StronglySorted_inv.
  destruct (p x) eqn:E.
  - intros [= ->]. split; [left|]. split; [done|]. intros q' [->|Hq']%elem_of_cons _; [lia|].
    rewrite List.Forall_forall in Hx. apply Z.lt_le_incl, Hx, list_elem_of_In.
    by apply list_elem_of_fmap_2.
  - intros Hf. destruct (IH Hs Hf) as (H1 & H2 & H3). split; [by right|]. split; [done|].
    intros q' [->|Hq']%elem_of_cons Hp; [congruence|by apply H3].
Qed.

Lemma find_none_elem {A} (p : A -> bool) l x : List.find p l = None -> x ∈ l -> p x = false.
Proof. intros Hn Hx. eapply List.find_none; [done|]. by apply list_elem_of_In. Qed.

Lemma node_queue_sorted known s n :
  Inv config known s ->
  Sorted.StronglySorted Z.lt (map q_sequence (dget_or (_node_queues s) n [])).
Proof.
  intros Hs. pose proof (inv_queue _ _ _ Hs) as Hq. rewrite (wq_partition _ _ _ Hq).
  apply StronglySorted_bfilter, (wq_sorted _ _ _ Hq).
Qed.

(** The request is within its deadline and under no unexpired claim. *)
Definition awaits_claim (s : store) (now : float64) (q : QueuedRequest) : Prop :=
  fle (q_request_deadline_epoch q) now = false /\
  forall cl, dget (_claims s) (queued_identity q) = Some cl ->
    flt now (cl_lease_expires_at_epoch cl) = false.

Lemma claimable_iff s now q : claimable s now q = true <-> awaits_claim s now q.
Proof.
  unfold claimable, awaits_claim. rewrite andb_true_iff, !negb_true_iff. split.
  - intros [? Hc]. split; [done|]. intros cl Hcl. by rewrite Hcl in Hc.
  - intros [? Hc]. split; [done|]. destruct (dget (_claims s) _); [by apply Hc|done].
Qed.


(** ** Accepting a response *)

Lemma claimed_phase known s i q cl :
  Inv config known s -> dget (_queued s) i = Some q -> dget (_claims s) i = Some cl ->
  phase_of s i = Queued (cl_selected_node_id cl) (Some (cl_generation cl)).
Proof.
  intros Hs Hq Hcl. pose proof (inv_live _ _ _ Hs) as Hl.
  destruct (wl_claim _ _ _ _ _ _ _ Hl _ _ Hcl) as (q' & Hq' & (_ & _ & Hn & _)).
  assert (Hlive : live_record s i = Some (LQueued q)).
  { unfold live_record. destruct (dget (_reservations s) i) eqn:Er; [|by rewrite Hq].
    rewrite (wl_res_queued _ _ _ _ _ _ _ Hl) in Hq by eauto. done. }
  rewrite (phase_live _ _ _ _ _ Hs Hlive), Hcl. simpl. congruence.
Qed.

(** What a successful acceptance did. *)
Definition acceptance_outcome (s : store) (v d c a b g : pyval)
  (e : instance_of EncryptedResponseEnvelope) (clock : pyval) (s' : store)
  (res : ResponseAcceptanceResult) : Prop :=
  exists n digest consumer i gen env bytes now s1,
    _validate_node_id config v = inr n /\ _validate_digest d = inr digest /\
    _consumer_digest config c = inr consumer /\ _identity config a b = inr i /\
    _validate_generation g = inr gen /\ e = IsInst env /\
    _serialized_response_envelope env = inr bytes /\
    (max_response_envelope_bytes config <? zlen bytes) = false /\ _now clock = inr now /\
    _reap_locked config now s = (s1, inr tt) /\
    match dget (_terminals s1) i with
    | Some t => s' = s1 /\ res = _terminal_response_result t /\
        same_acceptance t n digest consumer gen (sha256_hexdigest bytes) = true
    | None => exists q cl r t,
        acceptable config s1 i n digest consumer gen now q cl /\
        acceptance config acknowledgement_key s1 i n digest consumer gen env
          (sha256_hexdigest bytes) now r t /\
        s' = accepted i q r t s1 /\ res = _response_result r true /\
        phase_of s1 i = Queued n (Some gen) /\ phase_of s' i = Terminal "completed"
    end.

Lemma accept_inv s v d c a b g e clock s' res :
  reachable config acknowledgement_key s ->
  accept_encrypted_response config acknowledgement_key v d c a b g e clock s = (s', inr res) ->
  acceptance_outcome s v d c a b g e clock s' res.
Proof.
  intros Hreach Hc. destruct (reachable_known _ _ _ Hreach) as (known & Hinj & Hs).
  unfold accept_encrypted_response in Hc. invert_run.
  match goal with Hr : _reap_locked _ ?t _ = (?y, inr ?u) |- _ =>
    destruct u; rename Hr into Hreap, y into s1, t into now end.
  destruct (reaped_state known s now s1 Hinj Hs Hreap) as [Hs1 _].
  assert (He : exists env, e = IsInst env) by (destruct e; [by eexists|done]).
  destruct He as [env ->].
  match goal with H1 : as_instance _ _ = inr ?x |- _ => injection H1 as <- end.
  do 5 eexists. exists env. do 3 eexists. do 10 (split; [eassumption || reflexivity|]).
  match type of Hc with context [dget (_terminals s1) ?i] =>
    destruct (dget (_terminals s1) i) as [t|] eqn:Et end.
  - destruct (same_acceptance _ _ _ _ _ _) eqn:Esame; invert_run; [done|]. done.
  - match type of Hc with accept_live _ _ ?i ?n ?d ?c ?cpk ?rid ?g ?e ?rd ?now ?s = _ =>
      destruct (wp_result _ _ _ _ _ _
        (accept_live_wp config acknowledgement_key known Hinj i n d c cpk rid g e rd now s Hs1 Et) Hc)
        as (q & cl & r & t & Hac & Han & -> & ->) end.
    exists q, cl, r, t. do 4 (split; [done|]). split.
    + destruct Hac. rewrite (claimed_phase known s1 _ q cl) by done. congruence.
    + destruct Han as [_ _ _ _ _ [Ho _] _ _ _ _]. unfold phase_of, accepted. simpl.
      by rewrite dget_dset_eq, Ho.
Qed.

(** C4: Acceptance records an outcome only for the request's current claim: the
    node, its credential, the consumer and the generation must be the claim's, and
    claim and request unexpired; the request then leaves the queue as completed.
    When an outcome exists already, a successful answer repeats it unchanged. *)
Theorem response_is_accepted_once s v d c a b g e clock s' res :
  reachable config acknowledgement_key s ->
  accept_encrypted_response config acknowledgement_key v d c a b g e clock s = (s', inr res) ->
  acceptance_outcome s v d c a b g e clock s' res.
Proof. apply accept_inv. Qed.

(** The validated arguments determine the whole call after its checks. *)
Lemma accept_unfold v d c a b g env clock s n digest consumer i gen bytes now :
  _validate_node_id config v = inr n -> _validate_digest d = inr digest ->
  _consumer_digest config c = inr consumer -> _identity config a b = inr i ->
  _validate_generation g = inr gen -> _serialized_response_envelope env = inr bytes ->
  (max_response_envelope_bytes config <? zlen bytes) = false -> _now clock = inr now ->
  accept_encrypted_response config acknowledgement_key v d c a b g (IsInst env) clock s =
    bind (_reap_locked config now) (fun _ => bind get_state (fun s =>
      match dget (_terminals s) i with
      | Some terminal =>
          if same_acceptance terminal n digest consumer gen (sha256_hexdigest bytes)
          then ret (_terminal_response_result terminal)
          else raise (RelayStateConflict "response lifecycle conflict")
      | None =>
          accept_live config acknowledgement_key i n digest consumer (str_arg a) (str_arg b)
            gen env (sha256_hexdigest bytes) now
      end)) s.
Proof.
  intros H1 H2 H3 H4 H5 H6 H7 H8. unfold accept_encrypted_response.
  rewrite (bind_val _ _ _ _ H1), (bind_val _ _ _ _ H2), (bind_val _ _ _ _ H3),
    (bind_val _ _ _ _ H4), (bind_val _ _ _ _ H5). cbn [as_instance].
  rewrite (bind_val _ env) by done.
  rewrite (bind_val _ _ _ _ H6), (bind_pass _ _ _ _ H7), (bind_val _ _ _ _ H8). done.
Qed.

(** Repeating an accepted call while the outcome is retained never conflicts
    and never accepts twice: unless reaping itself raises, the retry answers with
    the generation and the times of the first acceptance, and changes nothing. *)
Theorem acceptance_retry_is_idempotent s v d c a b g e clock s1 res clock2 now2 s2 :
  reachable config acknowledgement_key s ->
  accept_encrypted_response config acknowledgement_key v d c a b g e clock s = (s1, inr res) ->
  acc_new_outcome res = true -> _now clock2 = inr now2 ->
  fle (fadd (acc_accepted_at_epoch res) (terminal_retention_seconds config)) now2 = false ->
  _reap_locked config now2 s1 = (s2, inr tt) ->
  accept_encrypted_response config acknowledgement_key v d c a b g e clock2 s1 =
    (s2, inr (MkAcceptance (acc_state res) (acc_generation res) (acc_accepted_at_epoch res)
                (acc_replay_expires_at_epoch res) false)).
Proof.
  intros Hreach Hc Hnew Hnow2 Hret Hreap2.
  destruct (reachable_known _ _ _ Hreach) as (known & Hinj & Hs).
  destruct (accept_inv _ _ _ _ _ _ _ _ _ _ _ Hreach Hc)
    as (n & digest & consumer & i & gen & env & bytes & now & s0 & H1 & H2 & H3 & H4 & H5 & -> &
        H6 & H7 & H8 & Hreap & Hcase).
  destruct (dget (_terminals s0) i) as [t|] eqn:Et;
    [destruct Hcase as (_ & -> & _); discriminate|].
  destruct Hcase as (q & cl & r & t & _ & Han & -> & -> & _ & _).
  destruct (reaped_state known s now s0 Hinj Hs Hreap) as [Hs0 _].
  destruct Han as [_ _ Hrg [Hra Hrr] _ _ (Hn & Hg & Hd & Hcs & Hrd) (Ha & Hr & Hx) _ _].
  rewrite (accept_unfold _ _ _ _ _ _ _ _ _ n digest consumer i gen bytes now2) by done.
  rewrite (bind_run _ _ _ _ _ Hreap2). unfold bind at 1, get_state at 1.
  assert (Hk : kept i t s2).
  { assert (Hk0 : kept i t (accepted i q r t s0)).
    { apply kept_refl; unfold accepted; simpl; [|by rewrite dget_dset_eq].
      apply nodup_dset. eapply wl_terms, inv_live, Hs0. }
    assert (Hretain : fle (t_expires_at_epoch t) now2 = false).
    { rewrite Hx. simpl in Hret. by rewrite Hra in Hret. }
    pose proof (reap_keeps config i t now2 Hretain _ Hk0) as Hk. by rewrite Hreap2 in Hk. }
  destruct Hk as [_ (st & Hst & _)]. rewrite Hst.
  assert (Hsame : same_acceptance (terminal_with_retrieval_state t st) n digest consumer gen
                    (sha256_hexdigest bytes) = true).
  { unfold same_acceptance, compare_digest. simpl. rewrite Hn, Hg, Hd, Hcs, Hrd, Z.eqb_refl.
    by rewrite !bool_decide_eq_true_2. }
  rewrite Hsame. unfold ret, _terminal_response_result, _response_result. simpl. congruence.
Qed.

(** ** Selecting and enqueueing *)


(** An enqueue that creates work consumes the request's own reservation: the
    token's digest is the reservation's, the node is the reserved one, and the
    request moves to the end of that node's queue with a fresh sequence number and
    without its reservation.  An enqueue that answers for existing work finds the
    same envelope queued on the same node, and changes nothing. *)
Theorem enqueue_consumes_its_reservation s a b tok v m tr dl e c clock s' res :
  reachable config acknowledgement_key s ->
  enqueue_encrypted_request config a b tok v m tr dl e c clock s = (s', inr res) ->
  exists i n td cd env now s1,
    _identity config a b = inr i /\ _validate_node_id config v = inr n /\
    _token_digest tok = inr td /\ _cancellation_token_digest config c = inr cd /\
    e = IsInst env /\ _now clock = inr now /\ _reap_locked config now s = (s1, inr tt) /\
    dget (_terminals s1) i = None /\
    if enq_created res
    then exists r q, dget (_reservations s1) i = Some r /\ res_token_digest r = td /\
           res_selected_node_id r = n /\ q_envelope q = env /\
           q_sequence q = _next_queue_sequence s1 + 1 /\ enq_sequence res = q_sequence q /\
           s' = enqueued i q td cd s1 /\
           dget_or (_node_queues s') n [] = dget_or (_node_queues s1) n [] ++ [q] /\
           phase_of s1 i = Reserved n /\ phase_of s' i = Queued n None
    else s' = s1 /\ exists q, dget (_queued s1) i = Some q /\ q_selected_node_id q = n /\
           envelope_eqb (q_envelope q) env = true /\ enq_sequence res = q_sequence q.
Proof.
  intros Hreach Hc. destruct (reachable_known _ _ _ Hreach) as (known & Hinj & Hs).
  unfold enqueue_encrypted_request in Hc. invert_run.
  match goal with Hr : _reap_locked _ ?t _ = (?y, inr ?u) |- _ =>
    destruct u; rename Hr into Hreap, y into s1, t into now end.
  destruct (reaped_state known s now s1 Hinj Hs Hreap) as [Hs1 _]. dmem_simpl.
  match goal with Ht : dget (_terminals s1) ?j = None |- _ =>
    rename Ht into Hterm; rename j into i end.
  assert (He : exists env, e = IsInst env) by (destruct e; [by eexists|done]). destruct He as [env ->].
  match goal with H1 : as_instance _ _ = inr ?x |- _ => injection H1 as <- end.
  exists i. do 3 eexists. exists env, now, s1. do 8 (split; [eassumption || reflexivity|]).
  destruct (dget (_queued s1) i) as [q|] eqn:Eq.
  { unfold enqueue_existing in Hc. invert_run. simpl. split; [done|]. exists q. bdestruct. done. }
  invert_run.
  match type of Hc with enqueue_reserved _ ?i ?cpk ?rid ?r ?n ?m ?t ?dl ?e ?td ?cd ?now _ = _ =>
    match goal with Hr : dget (_reservations s1) i = Some r |- _ =>
      pose proof (wp_result _ _ _ _ _ _
        (enqueue_reserved_wp config known Hinj i cpk rid r n m t dl e td cd now s1 Hs1 Hr) Hc)
        as Hw; rename Hr into Hres end end.
  cbv zeta in Hw. destruct Hw as (Hn & Htd & Hroom & -> & ->).
  match goal with |- context [enqueued i ?q _ _ s1] => set (q0 := q) end.
  simpl. eexists _, q0. do 3 (split; [eassumption|]). do 3 (split; [done|]). split; [done|].
  split; [unfold dget_or at 1; by rewrite dget_dset_eq|]. split.
  - unfold phase_of. rewrite Hterm, Hres. by rewrite Hn.
  - pose proof (inv_live _ _ _ Hs1) as Hl. unfold phase_of, enqueued. simpl.
    rewrite Hterm, dget_ddel_eq, dget_dset_eq by apply Hl.
    by rewrite (no_claim_unqueued config known s1 i Hs1 Eq).
Qed.

(** ** Retrieving and acknowledging *)

(** What a successful retrieval did. *)
Definition retrieval_outcome (s : store) (a b cred : pyval) (ack : option pyval) (clock : pyval)
  (s' : store) (res : ResponseRetrievalResult) : Prop :=
  exists i now s1, _identity config a b = inr i /\ _now clock = inr now /\
    _reap_locked config now s = (s1, inr tt) /\
    ((s' = s1 /\ ret_envelope res = None /\ ret_acknowledgement_token res = None) \/
     exists t r, dget (_terminals s1) i = Some t /\
       _safe_retrieval_credential_digest cred = t_retrieval_credential_digest t /\
       t_retrieval_state t = "response_ready" /\ dget (_responses s1) i = Some r /\
       match ack with
       | None => s' = s1 /\ ret_state res = "response_ready" /\
           ret_envelope res = Some (rsp_envelope r) /\
           ret_acknowledgement_token res = Some (_derive_acknowledgement_token acknowledgement_key i
             (t_accepted_at_epoch t) (t_response_digest t))
       | Some token => ret_state res = "acknowledged" /\ ret_envelope res = None /\
           _acknowledgement_matches acknowledgement_key i t token = true /\
           s' = settled i t "acknowledged" s1
       end).

Lemma retrieve_inv s a b cred ack clock s' res :
  reachable config acknowledgement_key s ->
  retrieve_encrypted_response config acknowledgement_key a b cred ack clock s = (s', inr res) ->
  retrieval_outcome s a b cred ack clock s' res.
Proof.
  intros Hreach Hc. destruct (reachable_known _ _ _ Hreach) as (known & Hinj & Hs).
  unfold retrieve_encrypted_response in Hc. invert_run.
  match goal with Hr : _reap_locked _ ?t _ = (?y, inr ?u) |- _ =>
    destruct u; rename Hr into Hreap, y into s1, t into now end.
  destruct (reaped_state known s now s1 Hinj Hs Hreap) as [Hs1 _].
  match type of Hc with context [dget (_terminals s1) ?j] => rename j into i end.
  exists i, now, s1. do 3 (split; [done|]).
  destruct (dget (_terminals s1) i) as [t|] eqn:Et; [|invert_run; by left].
  destruct (negb (compare_digest _ _)) eqn:Ecred; [invert_run; by left|].
  destruct (negb (bool_decide (t_retrieval_state t = _))) eqn:Est.
  { destruct (_ && _); invert_run; by left. }
  unfold compare_digest in Ecred. bdestruct. unfold retrieve_ready in Hc. invert_run.
  destruct (wo_ready _ _ _ _ _ (inv_outcomes _ _ _ Hs1) i t Et Est) as [r Hr].
  rewrite Hr in Hc. destruct ack as [token|].
  - destruct (negb (_ && _)) eqn:Ematch; [invert_run; by left|]. apply negb_false_iff in Ematch.
    invert_run. repeat match goal with Hm : modify _ _ = _ |- _ => apply modify_inr in Hm end.
    subst. right. exists t, r. done.
  - invert_run. right. exists t, r. done.
Qed.

(** Without the request's retrieval credential a call reveals nothing and
    changes nothing.  With it, an unacknowledged call on a ready response returns
    the stored envelope and changes nothing, and only the matching acknowledgement
    token removes the response, once. *)
Theorem retrieval_is_gated s a b cred ack clock s' res :
  reachable config acknowledgement_key s ->
  retrieve_encrypted_response config acknowledgement_key a b cred ack clock s = (s', inr res) ->
  retrieval_outcome s a b cred ack clock s' res.
Proof. apply retrieve_inv. Qed.

Lemma retrieve_unfold a b cred ack clock s i now s1 t :
  _identity config a b = inr i -> _now clock = inr now ->
  _reap_locked config now s = (s1, inr tt) -> dget (_terminals s1) i = Some t ->
  _safe_retrieval_credential_digest cred = t_retrieval_credential_digest t ->
  retrieve_encrypted_response config acknowledgement_key a b cred ack clock s =
    (if negb (bool_decide (t_retrieval_state t = "response_ready")) then
       if bool_decide (t_retrieval_state t = "acknowledged")
          && match ack with
             | Some token => negb (_acknowledgement_matches acknowledgement_key i t token)
             | None => false
             end
       then ret (retrieval "invalid_acknowledgement")
       else ret (retrieval (t_retrieval_state t))
     else retrieve_ready acknowledgement_key i t ack) s1.
Proof.
  intros H1 H2 H3 H4 H5. unfold retrieve_encrypted_response.
  rewrite (bind_val _ _ _ _ H1), (bind_val _ _ _ _ H2), (bind_run _ _ _ _ _ H3).
  unfold bind at 1, get_state at 1. rewrite H4. unfold compare_digest.
  by rewrite bool_decide_eq_true_2.
Qed.

(** The token of an outcome acknowledges it. *)
Lemma derived_token_matches i t :
  t_acknowledgement_digest t = _acknowledgement_digest (_derive_acknowledgement_token
    acknowledgement_key i (t_accepted_at_epoch t) (t_response_digest t)) ->
  _acknowledgement_matches acknowledgement_key i t
    (PyS (_derive_acknowledgement_token acknowledgement_key i (t_accepted_at_epoch t)
       (t_response_digest t))) = true.
Proof.
  intros Ht. unfold _acknowledgement_matches, compare_digest. rewrite Ht.
  rewrite bool_decide_eq_true_2 by done. simpl. apply bool_decide_eq_true.
  unfold _derive_acknowledgement_token at 1. by rewrite hmac_sha256_hexdigest_hex.
Qed.


(** ** Cancelling, expiring and renewing *)

(** A cancellation ends a live request only with the digest it was given when
    the request was selected or enqueued, an expiry only at the request's deadline;
    without that, and for a request that is not live, nothing changes and no new
    outcome is reported. *)
Theorem cancellation_needs_proof s a b tok status reason clock s' res :
  reachable config acknowledgement_key s ->
  cancel_or_expire_request config a b tok status reason clock s = (s', inr res) ->
  (status = "cancelled" /\ reason = "requester_cancelled" \/
   status = "expired" /\ reason = "request_deadline_expired") /\
  ((exists e, _identity config a b = inl e) /\ s' = s /\ res = invalid_proof \/
   exists i now s1, _identity config a b = inr i /\ _now clock = inr now /\
     _reap_locked config now s = (s1, inr tt) /\
     (s' = s1 /\ ttr_new_outcome res = false \/
      exists r, live_record s1 i = Some r /\ ttr_new_outcome res = true /\
        s' = terminalized config i r status reason now false s1 /\
        phase_of s' i = Terminal status /\
        (status = "cancelled" -> dget (_cancellation_token_digests s1) i =
           Some (_safe_cancellation_token_digest config tok)) /\
        (status = "expired" -> flt now (lr_request_deadline_epoch r) = false))).
Proof.
  intros Hreach Hc. destruct (reachable_known _ _ _ Hreach) as (known & Hinj & Hs).
  unfold cancel_or_expire_request in Hc. apply bind_inr in Hc as (u & s0 & Hg & Hc).
  apply raise_if_inr in Hg as [-> Hg]. split.
  { apply negb_false_iff, orb_true_iff in Hg as [Hg|Hg]; bdestruct; simplify_eq; tauto. }
  destruct (_identity config a b) as [e|i] eqn:Ei.
  { left. destruct (is_store_or_unicode_error e); [|done]. invert_run. split; [by eexists|done]. }
  right. invert_run.
  match goal with Hr : _reap_locked _ ?t _ = (?y, inr ?u) |- _ =>
    destruct u; rename Hr into Hreap, y into s1, t into now end.
  destruct (reaped_state known s now s1 Hinj Hs Hreap) as [Hs1 _].
  exists i, now, s1. do 3 (split; [done|]).
  destruct (dget (_terminals s1) i) as [t|] eqn:Et.
  { destruct (_ && _); invert_run; by left. }
  unfold cancel_live in Hc. destruct (bool_decide (status = "cancelled") && _) eqn:Ep;
    [invert_run; by left|].
  destruct (live_record s1 i) as [r|] eqn:Er; [|invert_run; by left].
  destruct (bool_decide (status = "expired") && _) eqn:Ex; [invert_run; by left|].
  destruct (wp_result _ _ _ _ _ _ (terminalize_wp config known i r status reason now false s1 Hs1 Er) Hc)
    as (_ & -> & ->).
  right. exists r. do 3 (split; [done|]). split.
  { unfold phase_of, terminalized. simpl. by rewrite dget_dset_eq. }
  split; intros ->; rewrite bool_decide_eq_true_2 in * by done; simpl in *; [|done].
  destruct (dget (_cancellation_token_digests s1) i) as [x|]; [|done].
  unfold compare_digest in Ep. bdestruct. congruence.
Qed.

(** A claim is renewed only for its own node credential, consumer and
    generation while its lease and its request run, and only its lease moves, to
    the earlier of the claim period and the request deadline; a stop-compute
    tombstone is shown to, and acknowledged by, the claim's owner alone. *)
Theorem renewal_is_fenced s v d c a b g ack clock s' res :
  reachable config acknowledgement_key s ->
  renew_claim_or_read_control config v d c a b g ack clock s = (s', inr res) ->
  exists n digest consumer i gen now s1,
    _validate_node_id config v = inr n /\ _validate_digest d = inr digest /\
    _consumer_digest config c = inr consumer /\ _identity config a b = inr i /\
    _validate_generation g = inr gen /\ _now clock = inr now /\
    _reap_locked config now s = (s1, inr tt) /\
    (s' = s1 /\ (crr_state res ≠ "continued" /\ crr_reason res = None) \/
     (exists t, dget (_control_tombstones s1) i = Some t /\ ct_selected_node_id t = n /\
        ct_generation t = gen /\ ct_control_credential_digest t = digest /\
        ct_consumer_identity_digest t = consumer /\ crr_reason res = Some (ct_reason t) /\
        crr_acknowledged res = ack || ct_acknowledged t /\
        s' = if ack && negb (ct_acknowledged t)
             then set_control_tombstones
                    (dset (_control_tombstones s1) i (tombstone_acknowledged t)) s1
             else s1) \/
     (exists r cl, dget (_records s1) n = Some r /\ control_credential_digest r = digest /\
        dget (_claims s1) i = Some cl /\ cl_generation cl = gen /\ cl_selected_node_id cl = n /\
        cl_consumer_identity_digest cl = consumer /\
        fle (cl_lease_expires_at_epoch cl) now = false /\
        fle (cl_request_deadline_epoch cl) now = false /\ crr_state res = "continued" /\
        let lease := fmin (fadd now (claim_ttl_seconds config)) (cl_request_deadline_epoch cl) in
        crr_lease_expires_at_epoch res = Some lease /\
        s' = set_claims (dset (_claims s1) i (claim_with_lease cl lease)) s1)).
Proof.
  intros Hreach Hc. unfold renew_claim_or_read_control in Hc. invert_run.
  match goal with Hr : _reap_locked _ ?t _ = (?y, inr ?u) |- _ =>
    destruct u; rename Hr into Hreap, y into s1, t into now end.
  do 5 eexists. exists now, s1. do 7 (split; [eassumption|]).
  destruct (dget (_control_tombstones s1) _) as [t|] eqn:Et.
  - unfold read_control in Hc. destruct (negb _) eqn:Eown; [invert_run; by left|].
    apply negb_false_iff in Eown. unfold compare_digest in Eown. bdestruct.
    right. left. exists t. apply bind_inr in Hc as (t' & s2 & Hack & Hc). invert_run. simpl.
    do 2 (split; [done|]). split; [lia|]. do 2 (split; [done|]).
    destruct (ack && negb (ct_acknowledged t)) eqn:Ea.
    + apply andb_true_iff in Ea as [-> Ea]. invert_run.
      match goal with Hm : modify _ _ = _ |- _ => apply modify_inr in Hm end. subst. done.
    + invert_run. split; [done|]. split; [|done]. destruct ack, (ct_acknowledged t'); done.
  - unfold renew_live in Hc. destruct (dget (_records s1) _) as [r|] eqn:Er; [|invert_run; by left].
    destruct (negb (compare_digest _ _)) eqn:Ed; [invert_run; by left|].
    destruct (dget (_claims s1) _) as [cl|] eqn:Ec; [|invert_run; by left].
    destruct (fle (cl_request_deadline_epoch cl) now) eqn:E1; [invert_run; by left|].
    destruct (negb (cl_generation cl =? _)) eqn:E2; [invert_run; by left|].
    destruct (negb _ || negb _) eqn:E3; [invert_run; by left|].
    destruct (fle (cl_lease_expires_at_epoch cl) now) eqn:E4; [invert_run; by left|].
    invert_run. match goal with Hm : modify _ _ = _ |- _ => apply modify_inr in Hm end. subst.
    unfold compare_digest in *. bdestruct. right. right. exists r, cl. simpl.
    do 3 (split; [done|]). split; [lia|]. done.
Qed.

(** ** Registering and removing nodes *)

(** A registration belongs to its credential: a node that is registered keeps
    its first registration time and accepts only its own digest, a node that is
    not is admitted below the capacity only with a digest no removal has fenced
    off, and in both cases the lease runs from the clock reading. *)
Theorem registration_is_owned s v caps d clock s' r :
  register config v caps d clock s = (s', inr r) ->
  exists n digest now s0 s1 l, _validate_node_id config v = inr n /\ _validate_digest d = inr digest /\
    _now clock = inr now /\ _reap_retained_locked now s = (s0, inr tt) /\
    _expire_locked config now false s0 = (s1, inr l) /\
    caps = IsInst (capabilities r) /\ node_id r = n /\ control_credential_digest r = digest /\
    lease_expires_at_epoch r = fadd now (lease_ttl_seconds config) /\
    dget (_pending_node_transitions s1) n = None /\
    match dget (_records s1) n with
    | Some old => control_credential_digest old = digest /\
        registered_at_epoch r = registered_at_epoch old /\
        s' = set_records (dset (_records s1) n r) s1
    | None => registered_at_epoch r = now /\ dlen (_records s1) < max_compute_nodes config /\
        digest ∉ dkeys (dget_or (_former_node_authorities s1) (_node_digest n) []) /\
        s' = registered_new n r s1
    end.
Proof.
  intros Hc. unfold register in Hc. invert_run.
  match goal with Hr : _reap_retained_locked ?t _ = (?y, inr ?u),
    He : _expire_locked _ _ _ _ = (?z, inr ?l) |- _ =>
    destruct u; rename Hr into Hret, He into Hexp, y into s0, z into s1, t into now end.
  assert (He : exists cp, caps = IsInst cp) by (destruct caps; [by eexists|done]). destruct He as [cp ->].
  match goal with H1 : as_instance _ _ = inr ?x |- _ => injection H1 as <- end.
  assert (Hlease : forall z, _lease_deadline config now = inr z -> z = fadd now (lease_ttl_seconds config)).
  { unfold _lease_deadline. intros z. cbv zeta.
    destruct (is_finite _); [by intros [= <-]|done]. }
  do 2 eexists. exists now, s0, s1. eexists. do 5 (split; [eassumption|]). dmem_simpl.
  match goal with Hl : _lease_deadline _ _ = inr _ |- _ => apply Hlease in Hl; subst end.
  destruct (dget (_records s1) _) as [old|] eqn:Eold; simpl in *; invert_run.
  - repeat match goal with Hm : modify _ _ = _ |- _ => apply modify_inr in Hm end.
    match goal with Hreq : _require_digest _ _ = _ |- _ => apply require_digest_inr in Hreq end.
    subst. simpl. done.
  - repeat match goal with Hm : modify _ _ = _ |- _ => apply modify_inr in Hm end. subst. simpl.
    do 5 (split; [done|]). split; [done|].
    rewrite (proj2 (dmem_false _ _) Eold) in *. simpl in *. split; [lia|]. split; [|done].
    match goal with Hx : existsb _ _ = false |- _ => rename Hx into Hfence end.
    intros Hin. apply not_true_iff_false in Hfence. apply Hfence, existsb_exists.
    eexists. split; [by apply list_elem_of_In|]. unfold compare_digest.
    by apply bool_decide_eq_true.
Qed.


End contract.

(** ** The contracts at the states of the demonstration *)

Definition claim_result : ClaimResult :=
  MkClaimResult "claimed" (Some 1) (Some (demo_now 132)) (Some (demo_now 200)) (Some ("client-key" : pystr))
    (Some ("request-1" : pystr)) (Some demo_envelope).


Lemma response_is_accepted_once_witness :
  acceptance_outcome demo_config demo_key claimed_store (PyS "node-a") (PyS node_digest_hex)
    (PyS "worker-1") (PyS "client-key") (PyS "request-1") (PyInt 1) (IsInst demo_response)
    (at_time 103) answered_store
    (MkAcceptance "response_ready" 1 (demo_now 103) (demo_now 403) true).
Proof.
  apply response_is_accepted_once.
  - apply demo_reachable. vm_compute. reflexivity.
  - vm_compute. reflexivity.
Defined.

Lemma acceptance_retry_is_idempotent_witness :
  accept_encrypted_response demo_config demo_key (PyS "node-a") (PyS node_digest_hex)
    (PyS "worker-1") (PyS "client-key") (PyS "request-1") (PyInt 1) (IsInst demo_response)
    (at_time 104) answered_store =
  ((_reap_locked demo_config (demo_now 104) answered_store).1,
   inr (MkAcceptance "response_ready" 1 (demo_now 103) (demo_now 403) false)).
Proof.
  apply (acceptance_retry_is_idempotent demo_config demo_key claimed_store (PyS "node-a")
    (PyS node_digest_hex) (PyS "worker-1") (PyS "client-key") (PyS "request-1") (PyInt 1)
    (IsInst demo_response) (at_time 103) answered_store
    (MkAcceptance "response_ready" 1 (demo_now 103) (demo_now 403) true) (at_time 104) (demo_now 104)).
  - apply demo_reachable. vm_compute. reflexivity.
  - vm_compute. reflexivity.
  - reflexivity.
  - vm_compute. reflexivity.
  - vm_compute. reflexivity.
  - vm_compute. reflexivity.
Defined.


Lemma enqueue_consumes_its_reservation_witness :
  exists i s1, _identity demo_config (PyS "client-key") (PyS "request-1") = inr i /\
    phase_of s1 i = Reserved "node-a" /\ phase_of queued_store i = Queued "node-a" None.
Proof.
  destruct (enqueue_consumes_its_reservation demo_config demo_key reserved_store
    (PyS "client-key") (PyS "request-1") (PyS demo_token) (PyS "node-a") (PyS "llama-3")
    (PyS "8k-fast") (at_time 200) (IsInst demo_envelope) (PyS "cancel-proof") (at_time 101)
    queued_store (MkEnqueueResult "queued" "node-a" (demo_now 200) 1 true))
    as (i & n & td & cd & env & now & s1 & Hi & Hn & _ & _ & _ & _ & _ & _ & Hcase).
  - apply demo_reachable. vm_compute. reflexivity.
  - vm_compute. reflexivity.
  - destruct Hcase as (r & q & _ & _ & _ & _ & _ & _ & _ & _ & H1 & H2).
    assert (Hna : _validate_node_id demo_config (PyS "node-a") = inr ("node-a" : pystr))
      by (vm_compute; reflexivity).
    rewrite Hna in Hn. injection Hn as <-. exists i, s1. exact (conj Hi (conj H1 H2)).
Defined.

(** The token the retrieval of the demonstration hands out. *)
Definition demo_ack_token : pystr :=
  _derive_acknowledgement_token demo_key demo_identity (t_accepted_at_epoch answered_terminal)
    (t_response_digest answered_terminal).

Definition demo_retrieval : ResponseRetrievalResult :=
  MkRetrieval "response_ready" (Some demo_response) (Some demo_ack_token) (Some (demo_now 403)).

Definition retrieved_store : store :=
  (retrieve_encrypted_response demo_config demo_key (PyS "client-key") (PyS "request-1")
     (PyS demo_token) None (at_time 104) answered_store).1.

Lemma retrieval_is_gated_witness :
  retrieval_outcome demo_config demo_key answered_store (PyS "client-key") (PyS "request-1")
    (PyS demo_token) None (at_time 104) retrieved_store demo_retrieval.
Proof.
  apply retrieval_is_gated.
  - apply demo_reachable. vm_compute. reflexivity.
  - vm_compute. reflexivity.
Defined.


Definition cancelled_store : store :=
  (cancel_or_expire_request demo_config (PyS "client-key") (PyS "request-1") (PyS "cancel-proof")
     "cancelled" "requester_cancelled" (at_time 102) queued_store).1.

Lemma cancellation_needs_proof_witness :
  ("cancelled" = "cancelled" /\ "requester_cancelled" = "requester_cancelled" \/
   "cancelled" = "expired" /\ "requester_cancelled" = "request_deadline_expired") /\
  exists i s1 r, live_record s1 i = Some r /\ phase_of cancelled_store i = Terminal "cancelled".
Proof.
  destruct (cancellation_needs_proof demo_config demo_key queued_store (PyS "client-key")
    (PyS "request-1") (PyS "cancel-proof") "cancelled" "requester_cancelled" (at_time 102)
    cancelled_store (MkTerminalTransitionResult "cancelled" "requester_cancelled" true))
    as (_ & [(_ & _ & Hbad)|(i & now & s1 & _ & _ & _ & [[_ Hbad]|(r & H1 & _ & _ & H2 & _)])]).
  - apply demo_reachable. vm_compute. reflexivity.
  - vm_compute. reflexivity.
  - exact (False_ind _ (diff_true_false (f_equal ttr_new_outcome Hbad))).
  - exact (False_ind _ (diff_true_false Hbad)).
  - split; [left; split; reflexivity|]. exists i, s1, r. exact (conj H1 H2).
Defined.

Definition renewed_store : store :=
  (renew_claim_or_read_control demo_config (PyS "node-a") (PyS node_digest_hex) (PyS "worker-1")
     (PyS "client-key") (PyS "request-1") (PyInt 1) false (at_time 110) claimed_store).1.

Lemma renewal_is_fenced_witness :
  exists n s1, _validate_node_id demo_config (PyS "node-a") = inr n /\
    _reap_locked demo_config (demo_now 110) claimed_store = (s1, inr tt) /\
    exists r, dget (_records s1) n = Some r.
Proof.
  destruct (renewal_is_fenced demo_config demo_key claimed_store (PyS "node-a")
    (PyS node_digest_hex) (PyS "worker-1") (PyS "client-key") (PyS "request-1") (PyInt 1) false
    (at_time 110) renewed_store
    (MkClaimRenewalResult "continued" (Some 1) (Some (demo_now 140)) None false))
    as (n & dg & k & i & g & now & s1 & Hn & _ & _ & _ & _ & Hnow & Hreap & Hcase).
  - apply demo_reachable. vm_compute. reflexivity.
  - vm_compute. reflexivity.
  - exists n, s1. assert (Hnow' : _now (at_time 110) = inr (demo_now 110)) by (vm_compute; reflexivity).
    rewrite Hnow' in Hnow. injection Hnow as <-. do 2 (split; [assumption|]).
    destruct Hcase as [(_ & Hbad & _)|[(t & _ & _ & _ & _ & _ & Hbad & _)|(r & cl & Hr & _)]].
    + by destruct Hbad.
    + discriminate Hbad.
    + exists r. exact Hr.
Defined.

Lemma registration_is_owned_witness :
  exists now s1 l, _expire_locked demo_config now false empty_store = (s1, inr l) /\
    dget (_pending_node_transitions s1) "node-a" = None /\
    demo_caps = capabilities (MkRegistration "node-a" demo_caps node_digest_hex (demo_now 100)
                                (demo_now 130)).
Proof.
  destruct (registration_is_owned demo_config empty_store (PyS "node-a") (IsInst demo_caps)
    (PyS node_digest_hex) (at_time 100) registered_store
    (MkRegistration "node-a" demo_caps node_digest_hex (demo_now 100) (demo_now 130)))
    as (n & dg & now & s0 & s1 & l & Hn & _ & _ & H0 & H1 & H2 & _ & _ & _ & H3 & _).
  - vm_compute. reflexivity.
  - assert (Hna : _validate_node_id demo_config (PyS "node-a") = inr ("node-a" : pystr))
      by (vm_compute; reflexivity).
    rewrite Hna in Hn. injection Hn as <-.
    assert (Hs0 : s0 = empty_store) by (injection H0 as <-; reflexivity). subst s0.
    exists now, s1, l. split; [assumption|]. split; [assumption|reflexivity].
Defined.

