(* ===== verification/Base64.v ===== *)
(** * base64, as the standard library reads and writes it

    [base64.b64encode] and [base64.b64decode], with [validate=True] and without:
    the state machine of [binascii.a2b_base64], which scans the characters once and
    keeps the bits of the current quad.  Strict, it refuses a character outside the
    alphabet, a character after padding, padding at the start and an incomplete
    quad; lenient, only the last. *)

From Stdlib Require Import ZArith Lia.
From S2P Require Import Prelude PyFloat PyStr.

#[export] Instance byte_eq_dec : EqDecision byte := Byte.byte_eq_dec.

(** ** Encoding *)
Definition b64_char (v : Z) : N :=
  if v <? 26 then Z.to_N (65 + v)
  else if v <? 52 then Z.to_N (97 + (v - 26))
  else if v <? 62 then Z.to_N (48 + (v - 52))
  else if v =? 62 then 43%N else 47%N.

Definition b64_pad : N := 61%N.

Definition byte_val (b : byte) : Z := Z.of_N (Byte.to_N b).

Fixpoint b64_codes (l : list byte) : list N :=
  match l with
  | [] => []
  | [a] =>
      let x := byte_val a in
      [b64_char (Z.shiftr x 2); b64_char (Z.shiftl (Z.land x 3) 4); b64_pad; b64_pad]
  | [a; b] =>
      let x := byte_val a in let y := byte_val b in
      [b64_char (Z.shiftr x 2); b64_char (Z.lor (Z.shiftl (Z.land x 3) 4) (Z.shiftr y 4));
       b64_char (Z.shiftl (Z.land y 15) 2); b64_pad]
  | a :: b :: c :: l' =>
      let x := byte_val a in let y := byte_val b in let z := byte_val c in
      [b64_char (Z.shiftr x 2); b64_char (Z.lor (Z.shiftl (Z.land x 3) 4) (Z.shiftr y 4));
       b64_char (Z.lor (Z.shiftl (Z.land y 15) 2) (Z.shiftr z 6)); b64_char (Z.land z 63)]
      ++ b64_codes l'
  end.

Definition b64encode (l : list byte) : pystr := PyStr (b64_codes l).

(** [base64.b64encode(l)] as the bytes it is, the characters being ASCII. *)
Definition b64_bytes (l : list byte) : list byte :=
  map (fun c => byte_of_Z (Z.of_N c)) (b64_codes l).

(** ** Strict decoding *)
Definition b64_value (c : N) : option Z :=
  let z := Z.of_N c in
  if (65 <=? z) && (z <=? 90) then Some (z - 65)
  else if (97 <=? z) && (z <=? 122) then Some (z - 71)
  else if (48 <=? z) && (z <=? 57) then Some (z + 4)
  else if z =? 43 then Some 62
  else if z =? 47 then Some 63
  else None.

Inductive b64_error : Set :=
| NonAscii
| LeadingPadding
| ExcessData
| NotInAlphabet
| DiscontinuousPadding
| IncorrectPadding.

(** The scanner's state: the position in the quad, the bits left over from the
    previous character, the padding seen. *)
Record b64_state : Set := mkB64 {
  quad_pos : Z;
  leftchar : Z;
  pads : Z;
  padding_started : bool
}.

Definition b64_init : b64_state := mkB64 0 0 0 false.

(** One alphabet character: the byte it completes, if any, and the new state. *)
Definition b64_step (st : b64_state) (v : Z) : list byte * b64_state :=
  let mk q l := mkB64 q l 0 (padding_started st) in
  if quad_pos st =? 0 then ([], mk 1 v)
  else if quad_pos st =? 1 then
    ([byte_of_Z (Z.lor (Z.shiftl (leftchar st) 2) (Z.shiftr v 4))], mk 2 (Z.land v 15))
  else if quad_pos st =? 2 then
    ([byte_of_Z (Z.lor (Z.shiftl (leftchar st) 4) (Z.shiftr v 2))], mk 3 (Z.land v 3))
  else ([byte_of_Z (Z.lor (Z.shiftl (leftchar st) 6) v)], mk 0 0).

Fixpoint b64_scan (st : b64_state) (l : list N) : b64_error + list byte :=
  match l with
  | [] => if quad_pos st =? 0 then inr [] else inl IncorrectPadding
  | c :: l' =>
      if N.eqb c b64_pad then
        let seen := if 2 <=? quad_pos st then pads st + 1 else pads st in
        if (2 <=? quad_pos st) && (4 <=? quad_pos st + seen) then
          match l' with [] => inr [] | _ => inl ExcessData end
        else b64_scan (mkB64 (quad_pos st) (leftchar st) seen true) l'
      else
        match b64_value c with
        | None => inl NotInAlphabet
        | Some v =>
            if padding_started st then inl DiscontinuousPadding
            else let '(out, st') := b64_step st v in
                 let? rest := b64_scan st' l' in inr (out ++ rest)
        end
  end.

(** [base64.b64decode(s, validate=True)] *)
Definition b64decode_strict (s : pystr) : b64_error + list byte :=
  if is_ascii s then
    match codes s with
    | c :: _ => if N.eqb c b64_pad then inl LeadingPadding else b64_scan b64_init (codes s)
    | [] => b64_scan b64_init []
    end
  else inl NonAscii.

(** ** Lenient decoding

    Without [validate=True] a character outside the alphabet is skipped, and a
    complete padding ends the input. *)
Fixpoint b64_scan_lenient (st : b64_state) (l : list N) : b64_error + list byte :=
  match l with
  | [] => if quad_pos st =? 0 then inr [] else inl IncorrectPadding
  | c :: l' =>
      if N.eqb c b64_pad then
        let seen := if 2 <=? quad_pos st then pads st + 1 else pads st in
        if (2 <=? quad_pos st) && (4 <=? quad_pos st + seen) then inr []
        else b64_scan_lenient (mkB64 (quad_pos st) (leftchar st) seen true) l'
      else
        match b64_value c with
        | None => b64_scan_lenient st l'
        | Some v =>
            let '(out, st') := b64_step st v in
            let? rest := b64_scan_lenient st' l' in inr (out ++ rest)
        end
  end.

(** [base64.b64decode(s)] of bytes and of text *)
Definition b64decode_bytes (l : list byte) : b64_error + list byte :=
  b64_scan_lenient b64_init (map Byte.to_N l).

Definition b64decode (s : pystr) : b64_error + list byte :=
  if is_ascii s then b64_scan_lenient b64_init (codes s) else inl NonAscii.

(** ** The round trip *)

(** A claim about a sextet is checked on all sixty-four. *)
Lemma sextet_all (p : Z -> bool) v :
  forallb p (map Z.of_nat (seq 0 64)) = true -> 0 <= v < 64 -> p v = true.
Proof.
  rewrite forallb_forall. intros Hp Hv. apply Hp. apply in_map_iff. exists (Z.to_nat v).
  split; [lia|]. apply in_seq. lia.
Qed.

Lemma b64_char_value v : 0 <= v < 64 -> b64_value (b64_char v) = Some v.
Proof.
  intros Hv.
  assert (Hc : match b64_value (b64_char v) with Some w => w =? v | None => false end = true).
  { apply (sextet_all (fun v => match b64_value (b64_char v) with
                                | Some w => w =? v | None => false end)); [|done].
    vm_compute. reflexivity. }
  destruct (b64_value (b64_char v)); [|done]. f_equal. lia.
Qed.

Lemma b64_char_not_pad v : 0 <= v < 64 -> N.eqb (b64_char v) b64_pad = false.
Proof.
  intros Hv. apply N.eqb_neq. intros Heq. pose proof (b64_char_value v Hv) as H.
  rewrite Heq in H. discriminate.
Qed.

Lemma byte_val_range b : 0 <= byte_val b < 256.
Proof. unfold byte_val. pose proof (Byte.to_N_bounded b). lia. Qed.

(** The sextets of a byte group. *)
Definition hi6 (a : byte) : Z := Z.shiftr (byte_val a) 2.
Definition mid6 (a b : byte) : Z :=
  Z.lor (Z.shiftl (Z.land (byte_val a) 3) 4) (Z.shiftr (byte_val b) 4).
Definition low6 (b c : byte) : Z :=
  Z.lor (Z.shiftl (Z.land (byte_val b) 15) 2) (Z.shiftr (byte_val c) 6).
Definition end6 (c : byte) : Z := Z.land (byte_val c) 63.

Definition all_bytes : list byte := map byte_of_Z (map Z.of_nat (seq 0 256)).

Lemma elem_all_bytes b : In b all_bytes.
Proof.
  replace b with (byte_of_Z (byte_val b)) by (destruct b; reflexivity).
  apply in_map, in_map_iff. exists (Z.to_nat (byte_val b)). pose proof (byte_val_range b).
  split; [lia|]. apply in_seq. lia.
Qed.

(** A claim about two bytes is checked on all pairs. *)
Lemma bytes_all (p : byte -> byte -> bool) a b :
  forallb (fun a => forallb (p a) all_bytes) all_bytes = true -> p a b = true.
Proof.
  intros Hp. rewrite forallb_forall in Hp. specialize (Hp a (elem_all_bytes a)).
  rewrite forallb_forall in Hp. exact (Hp b (elem_all_bytes b)).
Qed.

Definition same_byte (a b : byte) : bool := Byte.eqb a b.

Lemma same_byte_eq a b : same_byte a b = true -> a = b.
Proof. apply Byte.byte_dec_bl. Qed.

Lemma first_byte a b : byte_of_Z (Z.lor (Z.shiftl (hi6 a) 2) (Z.shiftr (mid6 a b) 4)) = a.
Proof.
  apply same_byte_eq.
  apply (bytes_all (fun a b =>
    same_byte (byte_of_Z (Z.lor (Z.shiftl (hi6 a) 2) (Z.shiftr (mid6 a b) 4))) a)).
  vm_compute. reflexivity.
Qed.

Lemma second_byte a b c :
  byte_of_Z (Z.lor (Z.shiftl (Z.land (mid6 a b) 15) 4) (Z.shiftr (low6 b c) 2)) = b.
Proof.
  assert (Hm : Z.land (mid6 a b) 15 = Z.shiftr (byte_val b) 4).
  { apply Z.eqb_eq. apply (bytes_all (fun a b => Z.land (mid6 a b) 15 =? Z.shiftr (byte_val b) 4)).
    vm_compute. reflexivity. }
  rewrite Hm. apply same_byte_eq.
  apply (bytes_all (fun b c =>
    same_byte (byte_of_Z (Z.lor (Z.shiftl (Z.shiftr (byte_val b) 4) 4) (Z.shiftr (low6 b c) 2))) b)).
  vm_compute. reflexivity.
Qed.

Lemma third_byte b c :
  byte_of_Z (Z.lor (Z.shiftl (Z.land (low6 b c) 3) 6) (end6 c)) = c.
Proof.
  apply same_byte_eq.
  apply (bytes_all (fun b c =>
    same_byte (byte_of_Z (Z.lor (Z.shiftl (Z.land (low6 b c) 3) 6) (end6 c))) c)).
  vm_compute. reflexivity.
Qed.

Lemma sextets_range a b c :
  (0 <= hi6 a < 64 /\ 0 <= mid6 a b < 64) /\ (0 <= low6 b c < 64 /\ 0 <= end6 c < 64).
Proof.
  pose (in6 z := (0 <=? z) && (z <? 64)).
  assert (H1 : in6 (hi6 a) && in6 (mid6 a b) = true).
  { apply (bytes_all (fun a b => in6 (hi6 a) && in6 (mid6 a b))). vm_compute. reflexivity. }
  assert (H2 : in6 (low6 b c) && in6 (end6 c) = true).
  { apply (bytes_all (fun b c => in6 (low6 b c) && in6 (end6 c))). vm_compute. reflexivity. }
  unfold in6 in *. bdestruct. lia.
Qed.

(** One alphabet character is read back. *)
Lemma b64_scan_char st v l :
  0 <= v < 64 -> padding_started st = false ->
  b64_scan st (b64_char v :: l) =
    (let? rest := b64_scan (b64_step st v).2 l in inr ((b64_step st v).1 ++ rest)).
Proof.
  intros Hv Hp. cbn [b64_scan]. rewrite b64_char_not_pad, b64_char_value, Hp by done.
  by destruct (b64_step st v).
Qed.

(** Whole groups, from the start of a quad. *)
Fixpoint b64_bytes_ind (P : list byte -> Prop) (H0 : P []) (H1 : forall a, P [a])
  (H2 : forall a b, P [a; b]) (H3 : forall a b c l, P l -> P (a :: b :: c :: l))
  (l : list byte) : P l :=
  match l with
  | [] => H0
  | [a] => H1 a
  | [a; b] => H2 a b
  | a :: b :: c :: l' => H3 a b c l' (b64_bytes_ind P H0 H1 H2 H3 l')
  end.

Lemma b64_scan_encoded l : b64_scan b64_init (b64_codes l) = inr l.
Proof.
  induction l as [|a|a b|a b c l IH] using b64_bytes_ind; [done|..].
  - pose proof (sextets_range a Byte.x00 Byte.x00) as [[Ha Hab] _].
    pose proof (first_byte a Byte.x00) as Hb.
    unfold mid6 in *. change (Z.shiftr (byte_val Byte.x00) 4) with 0 in *. rewrite Z.lor_0_r in *.
    cbn [b64_codes]. fold (hi6 a). rewrite b64_scan_char by done. cbn [b64_step b64_init fst snd].
    rewrite b64_scan_char by done. cbn. by rewrite Hb.
  - pose proof (sextets_range a b Byte.x00) as [[Ha Hab] [Hbc _]].
    pose proof (first_byte a b) as H1. pose proof (second_byte a b Byte.x00) as H2.
    unfold low6 in *. change (Z.shiftr (byte_val Byte.x00) 6) with 0 in *. rewrite Z.lor_0_r in *.
    cbn [b64_codes]. fold (hi6 a) (mid6 a b). do 3 (rewrite b64_scan_char by done).
    cbn. by rewrite H1, H2.
  - pose proof (sextets_range a b c) as [[Ha Hab] [Hbc Hc]].
    cbn [b64_codes app]. fold (hi6 a) (mid6 a b) (low6 b c) (end6 c).
    do 4 (rewrite b64_scan_char by done).
    cbn. rewrite first_byte, second_byte, third_byte. cbn.
    change (mkB64 0 0 0 false) with b64_init. by rewrite IH.
Qed.

(** A property of the alphabet and of the padding holds throughout the text. *)
Lemma b64_codes_all (p : N -> bool) l :
  forallb (fun v => p (b64_char v)) (map Z.of_nat (seq 0 64)) = true -> p b64_pad = true ->
  forallb p (b64_codes l) = true.
Proof.
  intros Hp Hpad.
  assert (Hc : forall v, 0 <= v < 64 -> p (b64_char v) = true).
  { intros v. by apply (sextet_all (fun v => p (b64_char v))). }
  induction l as [|a|a b|a b c l IH] using b64_bytes_ind; [done|..].
  - pose proof (sextets_range a Byte.x00 Byte.x00) as [[Ha Hab] _].
    unfold mid6 in *. change (Z.shiftr (byte_val Byte.x00) 4) with 0 in *. rewrite Z.lor_0_r in *.
    cbn [b64_codes forallb]. fold (hi6 a). by rewrite !Hc, Hpad.
  - pose proof (sextets_range a b Byte.x00) as [[Ha Hab] [Hbc _]].
    unfold low6 in *. change (Z.shiftr (byte_val Byte.x00) 6) with 0 in *. rewrite Z.lor_0_r in *.
    cbn [b64_codes forallb]. fold (hi6 a) (mid6 a b). by rewrite !Hc, Hpad.
  - pose proof (sextets_range a b c) as [[Ha Hab] [Hbc Hd]].
    cbn [b64_codes app forallb]. fold (hi6 a) (mid6 a b) (low6 b c) (end6 c).
    by rewrite !Hc, IH.
Qed.

Lemma b64_codes_ascii l : forallb (fun c => N.ltb c 128) (b64_codes l) = true.
Proof. apply b64_codes_all; vm_compute; reflexivity. Qed.

Lemma b64_head_not_pad l c r : b64_codes l = c :: r -> N.eqb c b64_pad = false.
Proof.
  destruct l as [|a [|b [|d l]]]; cbn [b64_codes app]; intros [= <- <-];
    apply b64_char_not_pad; apply (sextets_range a Byte.x00 Byte.x00).
Qed.

(** Decoding what was encoded gives the bytes back. *)
Lemma b64_roundtrip l : b64decode_strict (b64encode l) = inr l.
Proof.
  unfold b64decode_strict, is_ascii, b64encode. simpl codes. rewrite b64_codes_ascii.
  pose proof (b64_scan_encoded l) as Hs. destruct (b64_codes l) as [|c r] eqn:E; [done|].
  by rewrite (b64_head_not_pad l c r E).
Qed.

Lemma byte_val_of_Z z : 0 <= z <= 255 -> byte_val (byte_of_Z z) = z.
Proof.
  intros Hz. apply Z.eqb_eq.
  assert (Hall : forallb (fun n => byte_val (byte_of_Z (Z.of_nat n)) =? Z.of_nat n) (seq 0 256)
                 = true) by (vm_compute; reflexivity).
  rewrite forallb_forall in Hall. specialize (Hall (Z.to_nat z)).
  rewrite Z2Nat.id in Hall by lia. apply Hall, in_seq. lia.
Qed.

(** An ASCII character and its byte *)
Lemma ascii_byte c : N.lt c 128 -> Byte.to_N (byte_of_Z (Z.of_N c)) = c.
Proof.
  intros Hc. apply N.eqb_eq.
  assert (Hall : forallb (fun n => let c := N.of_nat n in
    N.eqb (Byte.to_N (byte_of_Z (Z.of_N c))) c) (seq 0 128) = true) by (vm_compute; reflexivity).
  rewrite forallb_forall in Hall. specialize (Hall (N.to_nat c)). cbv zeta in Hall.
  rewrite N2Nat.id in Hall. apply Hall, in_seq. lia.
Qed.

(** What the strict scanner reads, the lenient one reads too. *)
Lemma lenient_scan st l out : b64_scan st l = inr out -> b64_scan_lenient st l = inr out.
Proof.
  revert st out. induction l as [|c l IH]; intros st out; [done|]. cbn [b64_scan b64_scan_lenient].
  destruct (N.eqb c b64_pad).
  - destruct ((2 <=? quad_pos st) && _); [by destruct l|]. apply IH.
  - destruct (b64_value c) as [v|]; [|done]. destruct (padding_started st); [done|].
    destruct (b64_step st v) as [o st'].
    destruct (b64_scan st' l) as [e|rest] eqn:E; [done|]. by rewrite (IH _ _ E).
Qed.

Lemma b64_lenient_roundtrip l : b64decode (b64encode l) = inr l.
Proof.
  unfold b64decode, is_ascii, b64encode. simpl codes. rewrite b64_codes_ascii.
  apply lenient_scan, b64_scan_encoded.
Qed.

Lemma b64_bytes_roundtrip l : b64decode_bytes (b64_bytes l) = inr l.
Proof.
  unfold b64decode_bytes, b64_bytes. rewrite map_map.
  replace (map _ (b64_codes l)) with (b64_codes l); [apply lenient_scan, b64_scan_encoded|].
  pose proof (b64_codes_ascii l) as Ha. rewrite forallb_forall in Ha.
  rewrite <- (map_id (b64_codes l)) at 1. apply map_ext_in. intros c Hc%Ha%N.ltb_lt.
  symmetry. by apply ascii_byte.
Qed.

Example decode_lit : b64decode_strict "aGk=" = inr [Byte.x68; Byte.x69].
Proof. vm_compute. reflexivity. Qed.

Example decode_excess : b64decode_strict "aGk=x" = inl ExcessData.
Proof. vm_compute. reflexivity. Qed.

(** * UTF-8, strictly

    [bytes.decode("utf-8")]: [None] is the [UnicodeDecodeError].  Overlong forms,
    surrogates and values past the last code point are refused, so decoding is the
    inverse of [PyStr.utf8_encode]. *)

(** A continuation byte and the six bits it carries *)
Definition continuation (b : byte) : option Z :=
  let v := byte_val b in
  if (128 <=? v) && (v <? 192) then Some (v - 128) else None.

(** A code point within [low] and [high] that is no surrogate *)
Definition code_between (low high z : Z) : option N :=
  if (low <=? z) && (z <=? high) && negb ((55296 <=? z) && (z <=? 57343))
  then Some (Z.to_N z) else None.

Fixpoint utf8_decode_bytes (l : list byte) : option (list N) :=
  match l with
  | [] => Some []
  | a :: l1 =>
      let x := byte_val a in
      if x <? 128 then
        cons (Z.to_N x) <$> utf8_decode_bytes l1
      else if x <? 194 then None
      else if x <? 224 then
        match l1 with
        | b :: l2 =>
            y ← continuation b;
            c ← code_between 128 2047 ((x - 192) * 64 + y);
            cons c <$> utf8_decode_bytes l2
        | _ => None
        end
      else if x <? 240 then
        match l1 with
        | b :: b' :: l2 =>
            y ← continuation b;
            y' ← continuation b';
            c ← code_between 2048 65535 ((x - 224) * 4096 + y * 64 + y');
            cons c <$> utf8_decode_bytes l2
        | _ => None
        end
      else if x <? 245 then
        match l1 with
        | b :: b' :: b'' :: l2 =>
            y ← continuation b;
            y' ← continuation b';
            y'' ← continuation b'';
            c ← code_between 65536 1114111 ((x - 240) * 262144 + y * 4096 + y' * 64 + y'');
            cons c <$> utf8_decode_bytes l2
        | _ => None
        end
      else None
  end.

Definition utf8_decode (l : list byte) : option pystr := PyStr <$> utf8_decode_bytes l.

(** ** Decoding inverts encoding *)

#[local] Ltac Zify.zify_post_hook ::= Z.to_euclidean_division_equations.

Lemma continuation_byte z : 0 <= z < 64 -> continuation (byte_of_Z (128 + z)) = Some z.
Proof.
  intros Hz. unfold continuation. rewrite byte_val_of_Z by lia.
  replace (128 <=? 128 + z) with true by lia. replace (128 + z <? 192) with true by lia.
  cbn [andb]. f_equal. lia.
Qed.

Lemma code_between_ok low high c :
  low <= Z.of_N c <= high -> (55296 <=? Z.of_N c) && (Z.of_N c <=? 57343) = false ->
  code_between low high (Z.of_N c) = Some c.
Proof.
  intros Hr Hs. unfold code_between. rewrite Hs.
  replace (low <=? Z.of_N c) with true by lia. replace (Z.of_N c <=? high) with true by lia.
  cbn [andb negb]. by rewrite N2Z.id.
Qed.

Lemma low_bits z : 0 <= Z.land z 63 < 64 /\ Z.land z 63 = z mod 64.
Proof. change 63 with (Z.ones 6). rewrite Z.land_ones by lia. change (2 ^ 6) with 64. pose proof (Z.mod_pos_bound z 64). lia. Qed.

Lemma shift_div z n : 0 <= n -> Z.shiftr z n = z / 2 ^ n.
Proof. apply Z.shiftr_div_pow2. Qed.

(** The equation of the decoder *)
Lemma utf8_decode_step a l1 :
  utf8_decode_bytes (a :: l1) =
    let x := byte_val a in
    if x <? 128 then
      cons (Z.to_N x) <$> utf8_decode_bytes l1
    else if x <? 194 then None
    else if x <? 224 then
      match l1 with
      | b :: l2 =>
          y ← continuation b;
          c ← code_between 128 2047 ((x - 192) * 64 + y);
          cons c <$> utf8_decode_bytes l2
      | _ => None
      end
    else if x <? 240 then
      match l1 with
      | b :: b' :: l2 =>
          y ← continuation b;
          y' ← continuation b';
          c ← code_between 2048 65535 ((x - 224) * 4096 + y * 64 + y');
          cons c <$> utf8_decode_bytes l2
      | _ => None
      end
    else if x <? 245 then
      match l1 with
      | b :: b' :: b'' :: l2 =>
          y ← continuation b;
          y' ← continuation b';
          y'' ← continuation b'';
          c ← code_between 65536 1114111 ((x - 240) * 262144 + y * 4096 + y' * 64 + y'');
          cons c <$> utf8_decode_bytes l2
      | _ => None
      end
    else None.
Proof. done. Qed.

(** One code point *)
Lemma decode_code c bs r :
  utf8_code c = Some bs -> utf8_decode_bytes (bs ++ r) = cons c <$> utf8_decode_bytes r.
Proof.
  unfold utf8_code. set (z := Z.of_N c). assert (Hz : 0 <= z) by lia.
  rewrite !shift_div by lia.
  pose proof (low_bits z) as [H0 E0]. pose proof (low_bits (z / 2 ^ 6)) as [H1 E1].
  pose proof (low_bits (z / 2 ^ 12)) as [H2 E2].
  change (2 ^ 6) with 64 in *. change (2 ^ 12) with 4096 in *. change (2 ^ 18) with 262144 in *.
  destruct (z <? 128) eqn:L1; [|destruct (z <? 2048) eqn:L2;
    [|destruct ((55296 <=? z) && (z <=? 57343)) eqn:Ls; [done|destruct (z <? 65536) eqn:L3;
      [|destruct (z <? 1114112) eqn:L4; [|done]]]]]; intros [= <-]; cbn [app];
    rewrite utf8_decode_step, byte_val_of_Z by lia; cbv zeta.
  - rewrite L1. unfold z. by rewrite N2Z.id.
  - replace (192 + z / 64 <? 128) with false by lia. replace (192 + z / 64 <? 194) with false by lia.
    replace (192 + z / 64 <? 224) with true by lia.
    rewrite continuation_byte by done. cbn [mbind option_bind].
    replace ((192 + z / 64 - 192) * 64 + Z.land z 63) with z by lia.
    unfold z. by rewrite code_between_ok by lia.
  - replace (224 + z / 4096 <? 128) with false by lia. replace (224 + z / 4096 <? 194) with false by lia.
    replace (224 + z / 4096 <? 224) with false by lia. replace (224 + z / 4096 <? 240) with true by lia.
    rewrite !continuation_byte by done. cbn [mbind option_bind].
    replace ((224 + z / 4096 - 224) * 4096 + Z.land (z / 64) 63 * 64 + Z.land z 63) with z by lia.
    unfold z. by rewrite code_between_ok by lia.
  - replace (240 + z / 262144 <? 128) with false by lia. replace (240 + z / 262144 <? 194) with false by lia.
    replace (240 + z / 262144 <? 224) with false by lia. replace (240 + z / 262144 <? 240) with false by lia.
    replace (240 + z / 262144 <? 245) with true by lia.
    rewrite !continuation_byte by done. cbn [mbind option_bind].
    replace ((240 + z / 262144 - 240) * 262144 + Z.land (z / 4096) 63 * 4096
             + Z.land (z / 64) 63 * 64 + Z.land z 63) with z by lia.
    unfold z. by rewrite code_between_ok by lia.
Qed.

(** [s.encode("utf-8").decode("utf-8") == s] *)
Lemma utf8_round_trip s bs : utf8_encode s = Some bs -> utf8_decode bs = Some s.
Proof.
  unfold utf8_encode, utf8_decode. destruct s as [l]. cbn [codes].
  revert bs. induction l as [|c l IH]; intros bs; cbn [utf8_codes]; [by intros [= <-]|].
  destruct (utf8_code c) as [b|] eqn:Ec; [|done]. destruct (utf8_codes l) as [bs'|]; [|done].
  intros [= <-]. rewrite (decode_code _ _ _ Ec). specialize (IH bs' eq_refl).
  destruct (utf8_decode_bytes bs') as [l'|]; [|done]. by injection IH as ->.
Qed.

Example decode_euro : utf8_decode [Byte.xe2; Byte.x82; Byte.xac] = Some (PyStr [8364%N]).
Proof. vm_compute. reflexivity. Qed.

Example decode_overlong : utf8_decode [Byte.xc0; Byte.x80] = None.
Proof. vm_compute. reflexivity. Qed.

Example decode_surrogate : utf8_decode [Byte.xed; Byte.xa0; Byte.x80] = None.
Proof. vm_compute. reflexivity. Qed.
