(* ===== verification/PyText.v ===== *)
(** * String operations of the API layer

    Substring search, [str.split] on one character, [str.join], decimal digits
    and the lemmas that relate them to stripping and lower-casing. *)

From S2P Require Import Prelude PyFloat PyStr.

(** [t in s] on code points *)
Fixpoint codes_contain (t l : list N) : bool :=
  bool_decide (t `prefix_of` l) ||
  match l with
  | [] => false
  | _ :: l' => codes_contain t l'
  end.

(** [t in s] *)
Definition py_contains (t s : pystr) : bool := codes_contain (codes t) (codes s).

(** [s.startswith(p)] *)
Definition py_startswith (s p : pystr) : bool := bool_decide (codes p `prefix_of` codes s).

(** [s.split(c)] for a one-character separator *)
Fixpoint split_codes (c : N) (l : list N) : list (list N) :=
  match l with
  | [] => [[]]
  | x :: l' =>
      if N.eqb x c then [] :: split_codes c l'
      else match split_codes c l' with
           | [] => [[x]]
           | w :: ws => (x :: w) :: ws
           end
  end.

Definition py_split (s : pystr) (c : N) : list pystr := map PyStr (split_codes c (codes s)).

(** [s.split(c, 1)[1]]; [None] is the [IndexError]. *)
Fixpoint after_codes (c : N) (l : list N) : option (list N) :=
  match l with
  | [] => None
  | x :: l' => if N.eqb x c then Some l' else after_codes c l'
  end.

Definition py_after (s : pystr) (c : N) : option pystr := PyStr <$> after_codes c (codes s).

(** [s.rstrip(c)] and [s.replace(a, b)] for single characters *)
Fixpoint drop_char (c : N) (l : list N) : list N :=
  match l with
  | x :: l' => if N.eqb x c then drop_char c l' else l
  | [] => []
  end.

Definition py_rstrip (s : pystr) (c : N) : pystr := PyStr (rev (drop_char c (rev (codes s)))).

Definition py_replace (s : pystr) (a b : N) : pystr :=
  PyStr (map (fun c => if N.eqb c a then b else c) (codes s)).

(** [sep.join(l)] *)
Fixpoint join_codes (sep : list N) (l : list (list N)) : list N :=
  match l with
  | [] => []
  | [x] => x
  | x :: l' => x ++ sep ++ join_codes sep l'
  end.

Definition py_join (sep : pystr) (l : list pystr) : pystr :=
  PyStr (join_codes (codes sep) (map codes l)).

(** ["\n\n".join] separates paragraphs. *)
Definition newline : N := 10%N.
Definition paragraph_break : pystr := PyStr [newline; newline].

(** [\d] and [int()] read the decimal digits of the Unicode database; on ASCII
    text those are ['0'] to ['9']. *)
Definition ascii_digit (c : N) : option Z :=
  if (N.leb 48 c && N.leb c 57)%bool then Some (Z.of_N c - 48) else None.

Class PyDigits : Type := {
  py_digit : N -> option Z;
  py_digit_ascii : forall c, N.lt c 128 -> py_digit c = ascii_digit c;
  py_digit_range : forall c d, py_digit c = Some d -> 0 <= d <= 9
}.

Lemma ascii_digit_range c d : ascii_digit c = Some d -> 0 <= d <= 9.
Proof.
  unfold ascii_digit. destruct (N.leb_spec 48 c), (N.leb_spec c 57); simpl; [|done..].
  intros [= <-]. lia.
Qed.

(** The instance that reads ASCII digits only. *)
Definition ascii_digits : PyDigits :=
  {| py_digit := ascii_digit; py_digit_ascii := fun _ _ => eq_refl;
     py_digit_range := ascii_digit_range |}.

(** A Python [float] prints as its [repr], the shortest decimal that reads back. *)
Class FloatRepr : Type := float_repr : float64 -> pystr.

(** [float(text)] and [int(text)]; [None] is the [ValueError]. *)
Class PyNumbers : Type := {
  parse_float : pystr -> option float64;
  parse_int : pystr -> option Z
}.

(** ** Substrings *)

Definition infix (t l : list N) : Prop := exists p q, l = p ++ t ++ q.

Lemma codes_contain_infix t l : codes_contain t l = true <-> infix t l.
Proof.
  induction l as [|x l IH]; simpl; rewrite orb_true_iff, bool_decide_eq_true.
  - split; [intros [[q Hq]|]; [by exists [], q|done]|].
    intros (p & q & Hl). left. symmetry in Hl. apply app_eq_nil in Hl as [_ Hl].
    apply app_eq_nil in Hl as [-> _]. by exists [].
  - rewrite IH. split.
    + intros [[q Hq]|(p & q & ->)]; [by exists [], q|by exists (x :: p), q].
    + intros ([|y p] & q & Hl); simpl in Hl; simplify_eq; [left; by exists q|].
      right. by exists p, q.
Qed.

Lemma py_contains_infix t s : py_contains t s = true <-> infix (codes t) (codes s).
Proof. apply codes_contain_infix. Qed.

Lemma infix_trans t l m : infix t l -> infix l m -> infix t m.
Proof.
  intros (p & q & ->) (p' & q' & ->). exists (p' ++ p), (q ++ q'). by rewrite <- !app_assoc.
Qed.

(** A prefix without the separator ends before it. *)
Lemma prefix_split (t : list N) x q a b :
  x ∉ t -> t ++ q = a ++ x :: b -> exists r, a = t ++ r.
Proof.
  revert a. induction t as [|z t IH]; intros a Hx Heq; [by exists a|].
  apply not_elem_of_cons in Hx as [Hz Hx]. destruct a as [|y a]; injection Heq as -> Heq; [done|].
  destruct (IH a Hx) as [r ->]; [done|]. by exists r.
Qed.

(** A substring without the separator lies on one side of it. *)
Lemma infix_split t a x b : x ∉ t -> infix t (a ++ x :: b) -> infix t a \/ infix t b.
Proof.
  intros Hx (p & q & Heq). revert a Heq.
  induction p as [|y p IH]; intros a Heq; simpl in Heq.
  - symmetry in Heq. apply prefix_split in Heq as [r ->]; [|done]. left. by exists [], r.
  - destruct a as [|z a]; [injection Heq as -> ->; right; by exists p, q|].
    injection Heq as -> Heq.
    destruct (IH a) as [(p' & q' & ->)|]; [done| |by right]. left. by exists (y :: p'), q'.
Qed.

Lemma infix_nil_r t : infix t [] -> t = [].
Proof.
  intros (p & q & Hl). symmetry in Hl. apply app_eq_nil in Hl as [_ Hl].
  by apply app_eq_nil in Hl as [-> _].
Qed.

(** A term that does not hold the separator lies in one of the joined parts. *)
Lemma infix_join t l :
  t ≠ [] -> newline ∉ t -> infix t (join_codes [newline; newline] l) ->
  exists s, s ∈ l /\ infix t s.
Proof.
  intros Ht Hn. induction l as [|s [|s' l] IH]; simpl.
  - intros H%infix_nil_r. done.
  - intros Hs. exists s. split; [left|done].
  - intros Hs. destruct (infix_split _ _ _ _ Hn Hs) as [Hs1|Hs2].
    { exists s. split; [left|done]. }
    destruct (infix_split _ [] newline _ Hn Hs2) as [Hs1|Hs3]; [by apply infix_nil_r in Hs1|].
    destruct (IH Hs3) as (u & Hu & Htu). exists u. split; [by right|done].
Qed.

Lemma strip_infix s : infix (codes (py_strip s)) (codes s).
Proof.
  unfold py_strip. simpl. destruct (drop_space_suffix (codes s)) as [k Hk].
  set (m := drop_space (codes s)) in *. destruct (drop_space_suffix (rev m)) as [k' Hk'].
  exists k, (rev k'). rewrite Hk at 1. f_equal. rewrite <- rev_app_distr, <- Hk'.
  by rewrite rev_involutive.
Qed.

Lemma infix_map (f : N -> N) t l : infix t (map f l) -> exists t', t = map f t' /\ infix t' l.
Proof.
  intros (p & q & Heq).
  apply List.map_eq_app in Heq as (p' & r & -> & _ & Hr).
  apply List.map_eq_app in Hr as (t' & q' & -> & <- & _). exists t'. split; [done|]. by exists p', q'.
Qed.

Lemma infix_map_mono (f : N -> N) t l : infix t l -> infix (map f t) (map f l).
Proof. intros (p & q & ->). exists (map f p), (map f q). by rewrite !map_app. Qed.

(** ** ASCII text *)

Lemma is_ascii_all s : is_ascii s = true <-> Forall (fun c => N.lt c 128) (codes s).
Proof.
  unfold is_ascii. rewrite forallb_forall, Forall_forall.
  split; intros H x Hx; [apply list_elem_of_In in Hx; by apply N.ltb_lt, H|].
  apply N.ltb_lt, H. by apply list_elem_of_In.
Qed.

Lemma is_ascii_infix s t : infix (codes s) (codes t) -> is_ascii t = true -> is_ascii s = true.
Proof.
  rewrite !is_ascii_all. intros (p & q & ->). rewrite !Forall_app. tauto.
Qed.

Lemma is_ascii_join sep l :
  is_ascii sep = true -> Forall (fun s => is_ascii s = true) l -> is_ascii (py_join sep l) = true.
Proof.
  intros Hs Hl. apply is_ascii_all. unfold py_join. simpl. apply is_ascii_all in Hs.
  induction Hl as [|s l Ha _ IH]; simpl; [constructor|]. apply is_ascii_all in Ha.
  destruct l as [|s' l]; simpl in *; [done|]. rewrite !Forall_app. done.
Qed.

(** Only a newline lower-cases to a newline. *)
Lemma ascii_lower_newline c : ascii_lower_code c = newline -> c = newline.
Proof.
  unfold ascii_lower_code, newline. destruct (N.leb_spec 65 c), (N.leb_spec c 90); simpl; lia.
Qed.

Lemma py_lower_codes `{!PyUnicode} s :
  is_ascii s = true -> codes (py_lower s) = map ascii_lower_code (codes s).
Proof. intros Hs. by rewrite py_lower_ascii. Qed.

(** Lower-casing a join of stripped ASCII parts creates no new occurrence of a
    term without newlines. *)
Lemma lower_join_strip `{!PyUnicode} term (l : list pystr) :
  py_empty term = false -> newline ∉ codes term ->
  Forall (fun s => is_ascii s = true) l ->
  py_contains term (py_lower (py_join paragraph_break (map py_strip l))) = true ->
  exists s, s ∈ l /\ py_contains term (py_lower s) = true.
Proof.
  intros Hne Hnl Hl. rewrite py_contains_infix, py_lower_codes.
  2: { apply is_ascii_join; [done|]. apply Forall_map. eapply Forall_impl; [exact Hl|].
       intros s Hs. eapply is_ascii_infix; [apply strip_infix|done]. }
  unfold py_join. intros Ht. apply infix_map in Ht as (t' & Ht' & Hin).
  apply infix_join in Hin as (u & Hu & Htu).
  - rewrite map_map in Hu. apply list_elem_of_fmap in Hu as (s & -> & Hs). exists s. split; [done|].
    apply py_contains_infix. rewrite py_lower_codes by (rewrite Forall_forall in Hl; by apply Hl).
    rewrite Ht'. apply infix_map_mono. eapply infix_trans; [exact Htu|apply strip_infix].
  - intros ->. destruct term as [[|]]; done.
  - intros Hin'. apply Hnl. rewrite Ht'. apply list_elem_of_fmap. by exists newline.
Qed.

Example contains_lit : py_contains "kill" "skilled" = true.
Proof. vm_compute. reflexivity. Qed.

Example split_lit : py_split "a,b,,c" 44 = ["a"; "b"; ""; "c"]%pystr.
Proof. vm_compute. reflexivity. Qed.

Example join_lit : py_join ", " ["a"; "b"]%pystr = "a, b".
Proof. vm_compute. reflexivity. Qed.
