(* ===== verification/PyRegex.v ===== *)
(** * The regular expressions of [re]

    The constructs the source's patterns use, matched as [re] matches them: by
    backtracking, an alternative's first branch and one more turn of a repetition tried
    before the others.  [matches] says which stretches of a text a pattern describes, whatever
    the order in which they are tried; the matcher finds one exactly when there is one.  The
    repeated patterns of the source never match the empty text. *)

From S2P Require Import Prelude PyFloat PyStr PyText.

Inductive regex : Type :=
| Chr (p : N -> bool)
| Eps
| Seq (r1 r2 : regex)
| Alt (r1 r2 : regex)
| Star (r : regex)
| Cap (n : nat) (r : regex)
| WordEdge.

(** [\w]; on ASCII text letters, digits and the underscore *)
Definition ascii_word (c : N) : bool :=
  ((N.leb 48 c && N.leb c 57) || (N.leb 65 c && N.leb c 90) || (N.leb 97 c && N.leb c 122)
   || N.eqb c 95)%bool.

Class PyWords : Type := {
  is_word : N -> bool;
  is_word_ascii : forall c, N.lt c 128 -> is_word c = ascii_word c;
  is_word_space : forall c, is_py_space c = true -> is_word c = false
}.

Lemma ascii_word_space c : is_py_space c = true -> ascii_word c = false.
Proof.
  unfold is_py_space. intros Hc%bool_decide_eq_true. revert c Hc. apply Forall_forall.
  repeat constructor.
Qed.

Definition ascii_words : PyWords :=
  {| is_word := ascii_word; is_word_ascii := fun _ _ => eq_refl; is_word_space := ascii_word_space |}.

(** A position: the character before it, and the text after it *)
Definition pos : Type := option N * list N.

Definition start_of (l : list N) : pos := (None, l).

(** The groups matched so far, the latest first: where each begins and ends *)
Definition groups : Type := list (nat * (list N * list N)).

Section matching.
Context `{!PyWords}.

Definition word_at (o : option N) : bool := match o with Some c => is_word c | None => false end.

(** [\b] *)
Definition at_edge (p : pos) : bool := xorb (word_at p.1) (word_at (head p.2)).

(** [k] is tried at the end of each match of [r] from [p], in order. *)
Fixpoint run_regex {A} (r : regex) (p : pos) (g : groups) (k : pos -> groups -> option A) : option A :=
  match r with
  | Chr f => match p.2 with
             | c :: l => if f c then k (Some c, l) g else None
             | [] => None
             end
  | Eps => k p g
  | Seq r1 r2 => run_regex r1 p g (fun q g' => run_regex r2 q g' k)
  | Alt r1 r2 => match run_regex r1 p g k with Some a => Some a | None => run_regex r2 p g k end
  | Star r1 =>
      (fix turns (fuel : nat) (p : pos) (g : groups) : option A :=
         match fuel with
         | O => k p g
         | S fuel' =>
             match run_regex r1 p g (fun q g' =>
                     if (length q.2 <? length p.2)%nat then turns fuel' q g' else None) with
             | Some a => Some a
             | None => k p g
             end
         end) (length p.2) p g
  | Cap n r1 => run_regex r1 p g (fun q g' => k q ((n, (p.2, q.2)) :: g'))
  | WordEdge => if at_edge p then k p g else None
  end.

(** The end of a match, and its groups *)
Definition re_match (r : regex) (p : pos) : option (pos * groups) :=
  run_regex r p [] (fun q g => Some (q, g)).

(** [re.fullmatch(r, s)] *)
Definition re_fullmatch (r : regex) (s : pystr) : bool :=
  match run_regex r (start_of (codes s)) [] (fun q _ => if q.2 is [] then Some tt else None) with
  | Some _ => true
  | None => false
  end.

(** The leftmost match: where it begins, where it ends, its groups *)
Fixpoint search_from (r : regex) (before : option N) (l : list N) : option (pos * pos * groups) :=
  match re_match r (before, l) with
  | Some (q, g) => Some ((before, l), q, g)
  | None => match l with [] => None | c :: l' => search_from r (Some c) l' end
  end.

Definition re_search (r : regex) (s : pystr) : option (pos * pos * groups) := search_from r None (codes s).

(** The text from the position with the rest [a] to that with the rest [b] *)
Definition span (a b : list N) : pystr := PyStr (firstn (length a - length b) a).

(** [m.group(n)] *)
Fixpoint group (g : groups) (n : nat) : option pystr :=
  match g with
  | [] => None
  | (m, (a, b)) :: g' => if (m =? n)%nat then Some (span a b) else group g' n
  end.

(** [re.sub(r, replacement, s)] for a pattern that never matches the empty text *)
Fixpoint sub_from (fuel : nat) (r : regex) (replacement : groups -> list N) (p : pos) : list N :=
  match fuel, p.2 with
  | S fuel', c :: l =>
      match re_match r p with
      | Some (q, g) => replacement g ++ sub_from fuel' r replacement q
      | None => c :: sub_from fuel' r replacement (Some c, l)
      end
  | _, l => l
  end.

Definition re_sub (r : regex) (replacement : groups -> list N) (s : pystr) : pystr :=
  PyStr (sub_from (length (codes s)) r replacement (start_of (codes s))).

(** ** What a pattern describes *)
Inductive matches : regex -> pos -> pos -> Prop :=
| match_chr f c b l : f c = true -> matches (Chr f) (b, c :: l) (Some c, l)
| match_eps p : matches Eps p p
| match_seq r1 r2 p q t : matches r1 p q -> matches r2 q t -> matches (Seq r1 r2) p t
| match_alt_l r1 r2 p q : matches r1 p q -> matches (Alt r1 r2) p q
| match_alt_r r1 r2 p q : matches r2 p q -> matches (Alt r1 r2) p q
| match_star_end r p : matches (Star r) p p
| match_star_turn r p q t : matches r p q -> matches (Star r) q t -> matches (Star r) p t
| match_cap n r p q : matches r p q -> matches (Cap n r) p q
| match_edge p : at_edge p = true -> matches WordEdge p p.

(** What was read lies between the positions. *)
Lemma matches_suffix r p q : matches r p q -> exists l, p.2 = l ++ q.2 /\
  q.1 = match last l with Some c => Some c | None => p.1 end.
Proof.
  induction 1 as [f c b l _|p|r1 r2 p q t _ (l1 & H1 & E1) _ (l2 & H2 & E2)| | |r p
                 |r p q t _ (l1 & H1 & E1) _ (l2 & H2 & E2)|n r p q _ IH|p _];
    try done; try (by exists []); [by exists [c]| |].
  all: exists (l1 ++ l2); rewrite H1, H2, E2, last_app, app_assoc; split; [done|];
    destruct (last l2); [done|]; by rewrite E1.
Qed.

Lemma matches_shorter r p q : matches r p q -> (length q.2 <= length p.2)%nat.
Proof. intros (l & -> & _)%matches_suffix. rewrite length_app. lia. Qed.

(** A match that reads nothing ends where it began. *)
Lemma matches_empty r p q : matches r p q -> length q.2 = length p.2 -> q = p.
Proof.
  intros (l & Hl & E)%matches_suffix Hlen. destruct p as [b u], q as [b' u']. simpl in *. subst u.
  rewrite length_app in Hlen. destruct l; [simpl in *; by subst|simpl in Hlen; lia].
Qed.

Ltac unfold_star := cbn [run_regex].

Lemma run_sound {A} r : forall p g (k : pos -> groups -> option A) a,
  run_regex r p g k = Some a -> exists q g', matches r p q /\ k q g' = Some a.
Proof.
  induction r as [f| |r1 IH1 r2 IH2|r1 IH1 r2 IH2|r IH|n r IH|]; intros p g k a; simpl.
  - destruct p as [b [|c l]]; simpl; [done|]. destruct (f c) eqn:E; [|done].
    intros Hk. eexists _, _. split; [by constructor|done].
  - intros Hk. eexists _, _. split; [constructor|done].
  - intros (q & g' & Hm & (t & g'' & Hm' & Hk)%IH2)%IH1. eexists _, _. split; [by econstructor|done].
  - destruct (run_regex r1 p g k) eqn:E; [intros [= ->]|intros Hk].
    + destruct (IH1 _ _ _ _ E) as (q & g' & ? & ?). exists q, g'. split; [by apply match_alt_l|done].
    + destruct (IH2 _ _ _ _ Hk) as (q & g' & ? & ?). exists q, g'. split; [by apply match_alt_r|done].
  - generalize (length p.2) as fuel. intros fuel. revert p g. induction fuel as [|fuel IHf]; intros p g.
    { intros Hk. eexists _, _. split; [constructor|done]. }
    case_eq (run_regex r p g (fun q g' => if (length q.2 <? length p.2)%nat then
        (fix turns (fuel : nat) (p : pos) (g : groups) : option A :=
           match fuel with
           | O => k p g
           | S fuel' =>
               match run_regex r p g (fun q g' =>
                       if (length q.2 <? length p.2)%nat then turns fuel' q g' else None) with
               | Some a => Some a
               | None => k p g
               end
           end) fuel q g' else None)).
    + intros a' E [= ->]. destruct (IH _ _ _ _ E) as (q & g' & Hm & Hk).
      destruct (_ <? _)%nat; [|done]. destruct (IHf _ _ Hk) as (t & g'' & Hm' & Hk').
      exists t, g''. split; [by apply match_star_turn with q|done].
    + intros _ Hk. eexists _, _. split; [constructor|done].
  - intros (q & g' & Hm & Hk)%IH. eexists _, _. split; [by constructor|done].
  - destruct (at_edge p) eqn:E; [|done]. intros Hk. eexists _, _. split; [by constructor|done].
Qed.

(** A repetition's turns that read something, one after the other *)
Lemma star_ind_progress r (P : pos -> pos -> Prop) :
  (forall p, P p p) ->
  (forall p q t, matches r p q -> (length q.2 < length p.2)%nat -> matches (Star r) q t -> P q t -> P p t) ->
  forall p q, matches (Star r) p q -> P p q.
Proof.
  intros Hend Hturn p q Hm. remember (Star r) as s eqn:Es.
  induction Hm as [ | | | | |r' p|r' p q t Hm _ Hs IHs| |]; try discriminate; injection Es as ->; [apply Hend|].
  destruct (decide (length q.2 = length p.2)) as [Heq|Hne].
  - rewrite <- (matches_empty _ _ _ Hm Heq). by apply IHs.
  - apply Hturn with q; [done| |done|by apply IHs]. pose proof (matches_shorter _ _ _ Hm). lia.
Qed.

Lemma run_complete {A} r : forall p q g (k : pos -> groups -> option A),
  matches r p q -> (forall g', is_Some (k q g')) -> is_Some (run_regex r p g k).
Proof.
  induction r as [f| |r1 IH1 r2 IH2|r1 IH1 r2 IH2|r IH|n r IH|]; intros p q g k Hm Hk; simpl.
  - inversion Hm as [? c b l Hf| | | | | | | |]; subst. simpl. by rewrite Hf.
  - by inversion Hm; subst.
  - inversion Hm as [| |? ? ? t ? H1 H2| | | | | |]; subst. eapply IH1; [done|]. intros g'. by eapply IH2.
  - destruct (run_regex r1 p g k) eqn:E; [done|]. inversion Hm; subst; [|by eapply IH2].
    destruct (IH1 p q g k) as [x Hx]; [done|done|congruence].
  - assert (length p.2 <= length p.2)%nat as Hl by lia. revert Hl.
    generalize (length p.2) at 2 3 as fuel. intros fuel Hl. revert fuel g Hl Hk.
    revert p q Hm. apply (star_ind_progress r (fun p q => forall fuel g, (length p.2 <= fuel)%nat ->
      (forall g', is_Some (k q g')) -> is_Some _)).
    + intros p fuel g Hl Hk. destruct fuel as [|fuel]; [apply Hk|]. by destruct (run_regex r p g _).
    + intros p q t Hm Hlt _ IHt fuel g Hl Hk. destruct fuel as [|fuel]; [lia|].
      match goal with |- is_Some (match ?x with _ => _ end) => assert (is_Some x) as [a ->]; [|done] end.
      eapply IH; [exact Hm|]. intros g'. rewrite (proj2 (Nat.ltb_lt _ _) Hlt). apply IHt; [lia|done].
  - inversion Hm; subst. eapply IH; [done|]. intros g'. apply Hk.
  - inversion Hm as [| | | | | | | |? E]; subst. by rewrite E.
Qed.

Lemma re_match_sound r p q g : re_match r p = Some (q, g) -> matches r p q.
Proof. intros (q' & g' & Hm & [= -> ->])%run_sound. done. Qed.

Lemma re_match_none r p : re_match r p = None <-> forall q, ~ matches r p q.
Proof.
  split.
  - intros Hn q Hm. destruct (run_complete r p q [] (fun q g => Some (q, g)) Hm) as [x Hx]; [by eexists|].
    unfold re_match in Hn. congruence.
  - intros Hn. destruct (re_match r p) as [[q g]|] eqn:E; [|done]. by apply re_match_sound, Hn in E.
Qed.

(** The position after the prefix [l], from [before] *)
Definition after (before : option N) (l : list N) : option N :=
  match last l with Some c => Some c | None => before end.

Lemma after_cons b c l : after b (c :: l) = after (Some c) l.
Proof. unfold after. destruct l as [|x l]; [done|]. change (last (c :: x :: l)) with (last (x :: l)). by destruct (last (x :: l)) eqn:E; [|apply last_None in E]. Qed.

(** A search fails exactly when the pattern matches from no position. *)
Lemma search_none r l : forall b,
  search_from r b l = None <-> forall l1 l2 q, l = l1 ++ l2 -> ~ matches r (after b l1, l2) q.
Proof.
  induction l as [|c l IH]; intros b; simpl.
  - destruct (re_match r (b, [])) as [[q g]|] eqn:E.
    + split; [done|]. intros Hn. apply re_match_sound in E. by destruct (Hn [] [] q eq_refl).
    + split; [|done]. intros _ l1 l2 q Hl. symmetry in Hl. apply app_eq_nil in Hl as [-> ->].
      by apply re_match_none.
  - destruct (re_match r (b, c :: l)) as [[q g]|] eqn:E.
    + split; [done|]. intros Hn. apply re_match_sound in E. by destruct (Hn [] (c :: l) q eq_refl).
    + rewrite IH. split; intros Hn l1 l2 q Hl.
      * destruct l1 as [|c' l1]; [simpl in Hl; subst l2; by apply re_match_none|].
        injection Hl as <- Hl. rewrite after_cons. by apply Hn.
      * rewrite <- (after_cons b). apply Hn. by rewrite Hl.
Qed.

Lemma re_search_none r s :
  re_search r s = None <-> forall l1 l2 q, codes s = l1 ++ l2 -> ~ matches r (last l1, l2) q.
Proof.
  assert (forall l1, after None l1 = last l1) as E by (intros l1; unfold after; by destruct (last l1)).
  unfold re_search. split.
  - intros Hs l1 l2 q Hl. rewrite <- E. by apply (proj1 (search_none _ _ _) Hs).
  - intros Hs. apply search_none. intros l1 l2 q Hl. rewrite E. by apply Hs.
Qed.

(** A match stays one when the text goes on with something that is no part of a word. *)
Lemma matches_extend r p q rest :
  matches r p q -> word_at (head rest) = false -> matches r (p.1, p.2 ++ rest) (q.1, q.2 ++ rest).
Proof.
  intros Hm Hr. induction Hm as [f c b l Hf|p|r1 r2 p q t _ IH1 _ IH2|r1 r2 p q _ IH|r1 r2 p q _ IH|r p
                                |r p q t _ IH1 _ IH2|n r p q _ IH|p He]; simpl.
  - by constructor.
  - constructor.
  - by econstructor.
  - by apply match_alt_l.
  - by apply match_alt_r.
  - apply match_star_end.
  - by eapply match_star_turn.
  - by constructor.
  - constructor. destruct p as [b l]. unfold at_edge in *. simpl in *. destruct l as [|c l]; [|done].
    simpl. by rewrite Hr.
Qed.

(** A text without a match has none in a beginning that ends at the end of a word. *)
Lemma re_search_prefix r s t rest :
  codes t = codes s ++ rest -> word_at (head rest) = false -> re_search r t = None -> re_search r s = None.
Proof.
  rewrite !re_search_none. intros Ht Hr Hn l1 l2 q Hl Hm.
  apply (Hn l1 (l2 ++ rest) (q.1, q.2 ++ rest)); [by rewrite Ht, Hl, app_assoc|].
  by apply (matches_extend _ _ _ _ Hm).
Qed.

Lemma re_fullmatch_true r s :
  re_fullmatch r s = true <-> exists b, matches r (start_of (codes s)) (b, []).
Proof.
  unfold re_fullmatch. split.
  - destruct (run_regex _ _ _ _) eqn:E; [|done]. intros _.
    apply run_sound in E as ([b [|c l]] & g & Hm & Hk); [by exists b|done].
  - intros (b & Hm).
    destruct (run_complete r _ _ [] (fun q _ => if q.2 is [] then Some tt else None) Hm) as [x ->]; [by eexists|done].
Qed.
End matching.

(** ** The constructs of the source's patterns *)
Definition chr (c : N) : regex := Chr (N.eqb c).

Fixpoint seqs (l : list regex) : regex :=
  match l with [] => Eps | [r] => r | r :: l' => Seq r (seqs l') end.

Fixpoint alts (l : list regex) : regex :=
  match l with [] => Chr (fun _ => false) | [r] => r | r :: l' => Alt r (alts l') end.

(** Literal text *)
Definition lit (s : pystr) : regex := seqs (map chr (codes s)).

(** [[...]] *)
Definition one_of (s : pystr) : regex := Chr (fun c => bool_decide (c ∈ codes s)).
Definition none_of (s : pystr) : regex := Chr (fun c => bool_decide (c ∉ codes s)).

(** A letter under [re.IGNORECASE]: its two cases, and the characters whose lower case it is
    (the dotted and the dotless i, the long s, the Kelvin sign) *)
Definition letter_folds (c x : N) : bool :=
  (N.eqb (ascii_lower_code x) (ascii_lower_code c)
   || (N.eqb (ascii_lower_code c) 105 && bool_decide (x ∈ [304; 305]%N))
   || (N.eqb (ascii_lower_code c) 115 && N.eqb x 383)
   || (N.eqb (ascii_lower_code c) 107 && N.eqb x 8490))%bool.

Definition ilit (s : pystr) : regex := seqs (map (fun c => Chr (letter_folds c)) (codes s)).

Definition Opt (r : regex) : regex := Alt r Eps.
Definition Plus (r : regex) : regex := Seq r (Star r).
Definition space : regex := Chr is_py_space.

(** [r{0,n}] *)
Fixpoint up_to (n : nat) (r : regex) : regex :=
  match n with O => Eps | S n' => Opt (Seq r (up_to n' r)) end.

(** [[A-Za-z_][A-Za-z0-9_]*] *)
Definition is_letter_ (c : N) : bool :=
  ((N.leb 65 c && N.leb c 90) || (N.leb 97 c && N.leb c 122) || N.eqb c 95)%bool.
Definition identifier : regex := Seq (Chr is_letter_) (Star (Chr ascii_word)).

Section findall.
Context `{!PyWords}.

(** [re.findall(r, s)] for a pattern without groups that never matches the empty text *)
Fixpoint find_from (fuel : nat) (r : regex) (p : pos) : list pystr :=
  match fuel, p.2 with
  | S fuel', c :: l =>
      match re_match r p with
      | Some (q, _) => span p.2 q.2 :: find_from fuel' r q
      | None => find_from fuel' r (Some c, l)
      end
  | _, _ => []
  end.

Definition re_findall (r : regex) (s : pystr) : list pystr :=
  find_from (length (codes s)) r (start_of (codes s)).

(** [s.replace(old, new)] for a non-empty [old] *)
Definition replace_text (old new : pystr) (s : pystr) : pystr := re_sub (lit old) (fun _ => codes new) s.
End findall.
