(* ===== verification/PyUrl.v ===== *)
(** * URLs

    [urllib.parse] as far as the source uses it: [urlparse] with the attributes of its
    result that are read, and [urlunparse] of a scheme, a location and a path.  The checks it
    makes of a location in brackets and of one with characters outside ASCII are the class
    [NetlocCheck]. *)

From S2P Require Import Prelude PyStr PyText.

Class NetlocCheck : Type := netloc_check : list N -> bool.

Fixpoint drop_control (l : list N) : list N :=
  match l with
  | c :: l' => if N.leb c 32 then drop_control l' else l
  | [] => []
  end.

(** Letters, digits, and [+-.] *)
Definition scheme_char (c : N) : bool :=
  (N.leb 97 c && N.leb c 122) || (N.leb 65 c && N.leb c 90) || (N.leb 48 c && N.leb c 57)
  || N.eqb c 43 || N.eqb c 45 || N.eqb c 46.

Definition ascii_alpha (c : N) : bool := (N.leb 97 c && N.leb c 122) || (N.leb 65 c && N.leb c 90).

(** [l] up to the first [c], and what follows it *)
Fixpoint split_at (c : N) (l : list N) : option (list N * list N) :=
  match l with
  | [] => None
  | x :: l' => if N.eqb x c then Some ([], l')
               else '(a, b) ← split_at c l'; Some (x :: a, b)
  end.

(** [str.partition] and [str.rpartition]: what comes before the separator, whether it is
    there, and what comes after *)
Definition partition (c : N) (l : list N) : list N * bool * list N :=
  match split_at c l with
  | Some (a, b) => (a, true, b)
  | None => (l, false, [])
  end.
Definition rpartition (c : N) (l : list N) : list N * bool * list N :=
  match split_at c (rev l) with
  | Some (a, b) => (rev b, true, rev a)
  | None => ([], false, l)
  end.

(** The scheme, in lower case, and the rest *)
Definition split_scheme (l : list N) : list N * list N :=
  match split_at 58 l with
  | Some (x :: scheme, rest) =>
      if ascii_alpha x && forallb scheme_char (x :: scheme)
      then (map ascii_lower_code (x :: scheme), rest) else ([], l)
  | _ => ([], l)
  end.

(** Up to the first of [/?#] *)
Fixpoint take_netloc (l : list N) : list N :=
  match l with
  | c :: l' => if N.eqb c 47 || N.eqb c 63 || N.eqb c 35 then [] else c :: take_netloc l'
  | [] => []
  end.

Definition has_code (c : N) (l : list N) : bool := existsb (N.eqb c) l.

Section urlparse.
Context `{!NetlocCheck}.

Definition netloc_accepted (netloc : list N) : bool :=
  if negb (Bool.eqb (has_code 91 netloc) (has_code 93 netloc)) then false
  else if has_code 91 netloc || existsb (fun c => N.leb 128 c) netloc then netloc_check netloc
  else true.

(** The text after the characters that are removed first *)
Definition cleaned_url (url : pystr) : list N :=
  bfilter (fun c => negb (N.eqb c 9 || N.eqb c 13 || N.eqb c 10)) (drop_control (codes url)).

(** The scheme and the network location; [None] is the [ValueError]. *)
Definition urlparse (url : pystr) : option (pystr * pystr) :=
  let l := cleaned_url url in
  let '(scheme, rest) := split_scheme l in
  let netloc := match rest with
                | a :: b :: rest' => if N.eqb a 47 && N.eqb b 47 then take_netloc rest' else []
                | _ => []
                end in
  if netloc_accepted netloc then Some (PyStr scheme, PyStr netloc) else None.

(** The parameters are what follows the first [;] of the last segment. *)
Definition without_params (path : list N) : list N :=
  match rpartition 47 path with
  | (before, true, last) => before ++ [47%N] ++ (partition 59 last).1.1
  | (_, false, last) => (partition 59 last).1.1
  end.

(** Schemes whose URLs have parameters *)
Definition uses_params : list pystr :=
  [""; "ftp"; "hdl"; "prospero"; "http"; "https"; "shttp"; "rtsp"; "rtsps"; "rtspu"; "sip"; "sips"; "mms"; "sftp";
   "tel"]%pystr.

(** [urlparse(url).path] *)
Definition url_path (url : pystr) : pystr :=
  let '(scheme, rest) := split_scheme (cleaned_url url) in
  let after := match rest with
               | a :: b :: rest' =>
                   if N.eqb a 47 && N.eqb b 47 then skipn (length (take_netloc rest')) rest' else rest
               | _ => rest
               end in
  let path := (partition 63 (partition 35 after).1.1).1.1 in
  PyStr (if pystr_in (PyStr scheme) uses_params && has_code 59 path then without_params path else path).
End urlparse.

(** ** The parts of a network location *)

(** [_hostinfo]: the host and the text of the port *)
Definition hostinfo (netloc : pystr) : list N * list N :=
  let '(_, _, info) := rpartition 64 (codes netloc) in
  let '(_, have_open_br, bracketed) := partition 91 info in
  if have_open_br then
    let '(hostname, _, port) := partition 93 bracketed in
    (hostname, (partition 58 port).2)
  else
    let '(hostname, _, port) := partition 58 info in
    (hostname, port).

Section parts.
Context `{!PyUnicode}.

(** [.hostname]: lower case but for a zone; the empty text stands for [None]. *)
Definition url_hostname (netloc : pystr) : pystr :=
  let '(host, percent, zone) := partition 37 (hostinfo netloc).1 in
  py_lower (PyStr host) +++ PyStr (if percent then 37%N :: zone else []).
End parts.

Definition is_digit_code (c : N) : bool := N.leb 48 c && N.leb c 57.

Definition decimal_value (l : list N) : Z := fold_left (fun n c => 10 * n + (Z.of_N c - 48)) l 0.

(** [.port]: [inl] is the [ValueError]. *)
Definition url_port (netloc : pystr) : unit + option Z :=
  match (hostinfo netloc).2 with
  | [] => inr None
  | port => if forallb is_digit_code port && (decimal_value port <=? 65535)
            then inr (Some (decimal_value port)) else inl tt
  end.

(** [.username] and [.password] *)
Definition url_userinfo (netloc : pystr) : option pystr * option pystr :=
  let '(userinfo, have_info, _) := rpartition 64 (codes netloc) in
  if have_info then
    let '(username, have_password, password) := partition 58 userinfo in
    (Some (PyStr username), if have_password then Some (PyStr password) else None)
  else (None, None).

(** ** Facts *)

Lemma split_at_Some c l a b : split_at c l = Some (a, b) -> l = a ++ c :: b /\ c ∉ a.
Proof.
  revert a b. induction l as [|x l IH]; intros a b; simpl; [done|]. destruct (N.eqb_spec x c) as [->|Hx].
  - intros [= <- <-]. split; [done|]. by intros ?%elem_of_nil.
  - destruct (split_at c l) as [[a' b']|]; [|done]. intros [= <- <-]. destruct (IH a' b' eq_refl) as [-> Hn].
    split; [done|]. by intros [->|?]%elem_of_cons.
Qed.

Lemma split_at_None c l : split_at c l = None -> c ∉ l.
Proof.
  induction l as [|x l IH]; simpl; [by intros _ ?%elem_of_nil|]. destruct (N.eqb_spec x c) as [->|Hx]; [done|].
  destruct (split_at c l) as [[a b]|]; [done|]. intros _ [->|?]%elem_of_cons; [done|]. by apply IH.
Qed.

(** A text is what its partitions say. *)
Lemma partition_joined c l :
  let '(a, found, b) := partition c l in l = a ++ (if found then [c] else []) ++ b /\ c ∉ a.
Proof.
  unfold partition. destruct (split_at c l) as [[a b]|] eqn:H; simpl; [by apply split_at_Some|].
  rewrite app_nil_r. split; [done|by apply split_at_None].
Qed.

Lemma elem_of_rev {A} (x : A) l : x ∈ rev l <-> x ∈ l.
Proof. by rewrite !list_elem_of_In, <- in_rev. Qed.

Lemma rpartition_joined c l :
  let '(a, found, b) := rpartition c l in l = a ++ (if found then [c] else []) ++ b /\ c ∉ b.
Proof.
  unfold rpartition. destruct (split_at c (rev l)) as [[a b]|] eqn:H; simpl.
  - apply split_at_Some in H as [Hl Hn]. rewrite elem_of_rev. split; [|done].
    rewrite <- (rev_involutive l), Hl, rev_app_distr. simpl. by rewrite <- app_assoc.
  - split; [done|]. apply split_at_None in H. by rewrite elem_of_rev in H.
Qed.
