(* ===== verification/Gguf.v ===== *)
(** * The model file's header

    [_read_gguf_metadata] of [utils/llm/model_manager.py]: what the model manager reads of a
    GGUF file before it plans the memory of a runtime.  A file is the bytes that remain to be
    read; every read answers with the value and the rest.  [encode_file] is the format as a
    writer produces it, and the reader inverts it. *)

From stdpp Require Import list.
From Stdlib Require Import Floats.SpecFloat.
From S2P Require Import Prelude PyFloat PyStr PyDict PyText Base64.

(** The exceptions of the memory planner *)
Inductive plan_error : Set :=
| ValueError (msg : pystr)
| OverflowError (msg : pystr)
| KeyError (key : pystr)
| TypeError (msg : pystr)
| OSError (name : pystr).

(** [type(exc).__name__] *)
Definition error_name (e : plan_error) : pystr :=
  match e with
  | ValueError _ => "ValueError"
  | OverflowError _ => "OverflowError"
  | KeyError _ => "KeyError"
  | TypeError _ => "TypeError"
  | OSError name => name
  end.

(** ** Integers and floats of a byte string *)

(** [int.from_bytes(b, "little", signed=False)] *)
Fixpoint le_int (l : list byte) : Z :=
  match l with
  | [] => 0
  | b :: l' => byte_val b + 256 * le_int l'
  end.

Fixpoint le_bytes (n : nat) (z : Z) : list byte :=
  match n with
  | O => []
  | S n' => byte_of_Z z :: le_bytes n' (z / 256)
  end.

(** The two's complement reading of [w] bits *)
Definition signed (w z : Z) : Z := if z <? 2 ^ (w - 1) then z else z - 2 ^ w.

(** The IEEE interchange format with [mw] fraction bits and [ew] exponent bits *)
Definition float_of_bits (mw ew z : Z) : float64 :=
  let sign := Z.testbit z (mw + ew) in
  let e := Z.land (Z.shiftr z mw) (2 ^ ew - 1) in
  let m := Z.land z (2 ^ mw - 1) in
  let bias := 2 ^ (ew - 1) - 1 in
  let value m e := binary_normalize prec64 emax64 (if sign then - m else m) e sign in
  if e =? 2 ^ ew - 1 then (if m =? 0 then S754_infinity sign else S754_nan)
  else if e =? 0 then (if m =? 0 then S754_zero sign else value m (1 - bias - mw))
  else value (m + 2 ^ mw) (e - bias - mw).

(** ** [bytes.decode("utf-8", errors="replace")] *)

Definition replacement : N := 65533%N.

(** [value] when the continuation bytes are right, else one replacement for the bytes of the
    ill-formed stretch *)
Definition is_continuation (b : byte) : bool :=
  match continuation b with Some _ => true | None => false end.

Definition low6bits (b : byte) : Z := default 0 (continuation b).

(** The second byte of a three-byte sequence, and of a four-byte one *)
Definition second_of_three (x : Z) (b : byte) : bool :=
  is_continuation b && negb (if byte_val b <? 160 then x =? 224 else x =? 237).

Definition second_of_four (x : Z) (b : byte) : bool :=
  is_continuation b && negb (if byte_val b <? 144 then x =? 240 else x =? 244).

(** The first code point of [a :: l] and the number of bytes it takes *)
Definition utf8_head (a : byte) (l : list byte) : N * nat :=
  let x := byte_val a in
  if x <? 128 then (Z.to_N x, 1%nat)
  else if x <? 194 then (replacement, 1%nat)
  else if x <? 224 then
    match l with
    | b :: _ => if is_continuation b then (Z.to_N ((x - 192) * 64 + low6bits b), 2%nat)
                else (replacement, 1%nat)
    | [] => (replacement, 1%nat)
    end
  else if x <? 240 then
    match l with
    | [] => (replacement, 1%nat)
    | b :: l1 =>
        if negb (second_of_three x b) then (replacement, 1%nat)
        else match l1 with
             | b' :: _ =>
                 if is_continuation b'
                 then (Z.to_N ((x - 224) * 4096 + low6bits b * 64 + low6bits b'), 3%nat)
                 else (replacement, 2%nat)
             | [] => (replacement, 2%nat)
             end
    end
  else if x <? 245 then
    match l with
    | [] => (replacement, 1%nat)
    | b :: l1 =>
        if negb (second_of_four x b) then (replacement, 1%nat)
        else match l1 with
             | [] => (replacement, 2%nat)
             | b' :: l2 =>
                 if negb (is_continuation b') then (replacement, 2%nat)
                 else match l2 with
                      | b'' :: _ =>
                          if is_continuation b''
                          then (Z.to_N ((x - 240) * 262144 + low6bits b * 4096
                                        + low6bits b' * 64 + low6bits b''), 4%nat)
                          else (replacement, 3%nat)
                      | [] => (replacement, 3%nat)
                      end
             end
    end
  else (replacement, 1%nat).

(** [fuel] is the length of the bytes: every code point takes at least one. *)
Fixpoint utf8_replace_from (fuel : nat) (l : list byte) : list N :=
  match fuel, l with
  | S fuel', a :: l' =>
      let '(c, n) := utf8_head a l' in c :: utf8_replace_from fuel' (skipn (n - 1) l')
  | _, _ => []
  end.

Definition utf8_decode_replace (l : list byte) : pystr := PyStr (utf8_replace_from (length l) l).

(** ** The reader *)

(** A stored value: what [struct] unpacks, or text *)
Inductive meta_value : Set :=
| MInt (z : Z)
| MBool (b : bool)
| MFloat (f : float64)
| MStr (s : pystr).

Definition metadata : Type := dict pystr meta_value.

(** What is left of an open file *)
Notation file := (list byte).
Notation reads A := (plan_error + A * file)%type.

Definition GGUF_MAGIC : list byte := b_lit "GGUF".

(** The [struct] format of a scalar type and its size *)
Definition scalar_formats (t : Z) : option (pystr * Z) :=
  if t =? 0 then Some ("<B"%pystr, 1) else if t =? 1 then Some ("<b"%pystr, 1)
  else if t =? 2 then Some ("<H"%pystr, 2) else if t =? 3 then Some ("<h"%pystr, 2)
  else if t =? 4 then Some ("<I"%pystr, 4) else if t =? 5 then Some ("<i"%pystr, 4)
  else if t =? 6 then Some ("<f"%pystr, 4) else if t =? 7 then Some ("?"%pystr, 1)
  else if t =? 10 then Some ("<Q"%pystr, 8) else if t =? 11 then Some ("<q"%pystr, 8)
  else if t =? 12 then Some ("<d"%pystr, 8) else None.

(** [struct.unpack(fmt, data)[0]] *)
Definition struct_unpack (fmt : pystr) (data : list byte) : meta_value :=
  let z := le_int data in
  if bool_decide (fmt = "<b"%pystr) then MInt (signed 8 z)
  else if bool_decide (fmt = "<h"%pystr) then MInt (signed 16 z)
  else if bool_decide (fmt = "<i"%pystr) then MInt (signed 32 z)
  else if bool_decide (fmt = "<q"%pystr) then MInt (signed 64 z)
  else if bool_decide (fmt = "<f"%pystr) then MFloat (float_of_bits 23 8 z)
  else if bool_decide (fmt = "<d"%pystr) then MFloat (float_of_bits 52 11 z)
  else if bool_decide (fmt = "?"%pystr) then MBool (negb (z =? 0))
  else MInt z.

Definition required_suffixes : list pystr :=
  ["block_count"; "attention.head_count"; "attention.head_count_kv";
   "attention.key_length"; "attention.value_length"; "embedding_length"]%pystr.

Definition UNSUPPORTED_KV_LAYOUT_SUFFIXES : list pystr :=
  ["attention.sliding_window"; "attention.layer_types"; "attention.recurrent";
   "attention.mla"; "attention.no_v"; "attention.shared_layers"]%pystr.

Definition read_exact (f : file) (length : Z) : reads (list byte) :=
  if zlen f <? length then inl (ValueError "gguf_metadata_truncated")
  else inr (firstn (Z.to_nat length) f, skipn (Z.to_nat length) f).

Definition read_uint (f : file) (size : Z) : reads Z :=
  let? '(data, f) := read_exact f size in inr (le_int data, f).

Definition read_string (f : file) : reads pystr :=
  let? '(length, f) := read_uint f 8 in
  let? _ := eraise_if (Z.shiftl 1 20 <? length) (ValueError "gguf_string_too_large") in
  let? '(data, f) := read_exact f length in
  inr (utf8_decode_replace data, f).

(** A regular file is seekable: the target is checked against the end of the file. *)
Definition skip_bytes (f : file) (length : Z) : plan_error + file :=
  let? _ := eraise_if ((length <? 0) || (Z.shiftl 1 34 <? length))
                      (ValueError "gguf_metadata_value_too_large") in
  if zlen f <? length then inl (ValueError "gguf_metadata_truncated")
  else inr (skipn (Z.to_nat length) f).

Definition read_scalar (f : file) (format : pystr * Z) : reads meta_value :=
  let '(fmt, size) := format in
  let? '(data, f) := read_exact f size in inr (struct_unpack fmt data, f).

(** [for _ in range(array_length): _ = read_string(f)] *)
Fixpoint skip_strings (n : nat) (f : file) : plan_error + file :=
  match n with
  | O => inr f
  | S n' => let? '(_, f) := read_string f in skip_strings n' f
  end.

Definition skip_array (f : file) (array_type array_length : Z) : plan_error + file :=
  match scalar_formats array_type with
  | Some (_, size) => skip_bytes f (size * array_length)
  | None =>
      if array_type =? 8 then skip_strings (Z.to_nat array_length) f
      else inl (ValueError "gguf_metadata_type_unsupported")
  end.

(** A value that is skipped is [None]. *)
Definition read_or_skip_value (f : file) (value_type : Z) (store : bool) : reads (option meta_value) :=
  match scalar_formats value_type with
  | Some format =>
      let? '(value, f) := read_scalar f format in
      inr (if store then Some value else None, f)
  | None =>
      if value_type =? 8 then
        let? '(value, f) := read_string f in
        inr (if store then Some (MStr value) else None, f)
      else if value_type =? 9 then
        let? '(array_type, f) := read_uint f 4 in
        let? '(array_length, f) := read_uint f 8 in
        let? _ := eraise_if (Z.shiftl 1 24 <? array_length) (ValueError "gguf_array_too_large") in
        let? f := skip_array f array_type array_length in
        let? _ := eraise_if store (ValueError "gguf_required_metadata_array_unsupported") in
        inr (None, f)
      else inl (ValueError "gguf_metadata_type_unsupported")
  end.

(** [key.split('.', 1)[1] if '.' in key else key] *)
Definition suffix_of (key : pystr) : pystr := default key (py_after key 46%N).

Definition should_store (key : pystr) : bool :=
  bool_decide (key = "general.architecture"%pystr) || pystr_in (suffix_of key) required_suffixes
  || pystr_in (suffix_of key) UNSUPPORTED_KV_LAYOUT_SUFFIXES.

(** [if should_store and value is not None: metadata[key] = value] *)
Definition keep_value (m : metadata) (key : pystr) (value : option meta_value) : metadata :=
  match value with
  | Some v => if should_store key then dset m key v else m
  | None => m
  end.

(** [for _ in range(kv_count): ...] *)
Fixpoint read_entries (n : nat) (m : metadata) (f : file) : plan_error + metadata :=
  match n with
  | O => inr m
  | S n' =>
      let? '(key, f) := read_string f in
      let? '(value_type, f) := read_uint f 4 in
      let? '(value, f) := read_or_skip_value f value_type (should_store key) in
      read_entries n' (keep_value m key value) f
  end.

(** The body of [with open(path, 'rb') as f] up to the cache *)
Definition read_header (f : file) (max_kv : Z) : plan_error + metadata :=
  let? '(magic, f) := read_exact f 4 in
  let? _ := eraise_if (bool_decide (magic ≠ GGUF_MAGIC)) (ValueError "gguf_magic_missing") in
  let? '(version, f) := read_uint f 4 in
  let? _ := eraise_if (negb ((version =? 2) || (version =? 3)))
                      (ValueError "gguf_version_unsupported") in
  let? '(_, f) := read_uint f 8 in
  let? '(kv_count, f) := read_uint f 8 in
  let? _ := eraise_if (max_kv <? kv_count) (ValueError "gguf_kv_count_too_large") in
  read_entries (Z.to_nat kv_count) [] f.

(** ** The cache of the last header *)

(** What the file system answers for a path: [stat], [resolve] and [open]. *)
Record model_file : Type := mkFile {
  file_stat : plan_error + (Z * Z);
  file_resolved : plan_error + pystr;
  file_open : plan_error + file
}.

(** The resolved path, the size, the modification time and [max_kv] *)
Definition cache_key : Type := pystr * Z * Z * Z.
Definition gguf_cache : Type := dict cache_key metadata.

Definition _read_gguf_metadata (path : model_file) (max_kv : Z) : SM gguf_cache plan_error metadata :=
  let* '(size, mtime) := lift_val (file_stat path) in
  let* resolved := lift_val (file_resolved path) in
  let cache_key := (resolved, size, mtime, max_kv) in
  let* cache := get_state in
  match dget cache cache_key with
  | Some cached => ret cached
  | None =>
      let* f := lift_val (file_open path) in
      let* m := lift_val (read_header f max_kv) in
      put_state (dset [] cache_key m);;;
      ret m
  end.

(** ** Well-formed text is decoded as the strict decoder does *)

Lemma continuation_range b y : continuation b = Some y -> byte_val b = 128 + y /\ 0 <= y < 64.
Proof. unfold continuation. cbv zeta. destruct (_ && _) eqn:E; [|done]. intros [= <-]. lia. Qed.

Lemma code_between_some low high z c :
  code_between low high z = Some c -> c = Z.to_N z /\ low <= z <= high /\ ~ (55296 <= z <= 57343).
Proof. unfold code_between. destruct (_ && _) eqn:E; [|done]. intros [= <-]. lia. Qed.

Ltac strict_step :=
  match goal with
  | H : mbind _ (continuation ?b) = Some _ |- _ =>
      let y := fresh "y" in let E := fresh "E" in
      destruct (continuation b) as [y|] eqn:E; cbn [mbind option_bind] in H; [|discriminate H]
  | H : mbind _ (code_between ?a ?b ?z) = Some _ |- _ =>
      let c := fresh "c" in let E := fresh "E" in
      destruct (code_between a b z) as [c|] eqn:E; cbn [mbind option_bind] in H; [|discriminate H];
      apply code_between_some in E as (-> & ? & ?)
  | H : cons ?c <$> utf8_decode_bytes ?l = Some _ |- _ =>
      let E := fresh "E" in
      destruct (utf8_decode_bytes l) eqn:E; cbn [fmap option_fmap option_map] in H;
      [injection H as <-|discriminate H]
  end.

Lemma utf8_head_strict a l cs :
  utf8_decode_bytes (a :: l) = Some cs ->
  exists c n cs', utf8_head a l = (c, S n) /\ cs = c :: cs' /\
    utf8_decode_bytes (skipn n l) = Some cs'.
Proof.
  rewrite utf8_decode_step. cbv zeta. unfold utf8_head. cbv zeta. intros H.
  set (x := byte_val a) in *.
  destruct (x <? 128). { strict_step. by exists (Z.to_N x), 0%nat, l0. }
  destruct (x <? 194); [done|].
  destruct (x <? 224).
  { destruct l as [|b l2]; [done|]. repeat strict_step.
    unfold is_continuation, low6bits. rewrite E. by do 3 eexists. }
  destruct (x <? 240) eqn:Ex.
  { destruct l as [|b [|b' l2]]; try done. repeat strict_step.
    unfold second_of_three, is_continuation, low6bits. rewrite E, E0. cbn [default andb id].
    apply continuation_range in E as [Eb ?]. apply continuation_range in E0 as [? ?].
    rewrite Eb. assert (S : (if 128 + y <? 160 then x =? 224 else x =? 237) = false)
      by (destruct (128 + y <? 160) eqn:?; lia).
    rewrite S. cbn [negb].
    by do 3 eexists. }
  destruct (x <? 245) eqn:Ey; [|done].
  destruct l as [|b [|b' [|b'' l2]]]; try done. repeat strict_step.
  unfold second_of_four, is_continuation, low6bits. rewrite E, E0, E1. cbn [default andb id negb].
  apply continuation_range in E as [Eb ?]. apply continuation_range in E0 as [? ?].
  apply continuation_range in E1 as [? ?].
  rewrite Eb. assert (S : (if 128 + y <? 144 then x =? 240 else x =? 244) = false)
      by (destruct (128 + y <? 144) eqn:?; lia).
    rewrite S. cbn [negb].
  by do 3 eexists.
Qed.

Lemma utf8_replace_strict fuel l cs :
  (length l <= fuel)%nat -> utf8_decode_bytes l = Some cs -> utf8_replace_from fuel l = cs.
Proof.
  revert l cs. induction fuel as [|fuel IH]; intros [|a l] cs Hf H; simpl in Hf; try lia;
    try (by injection H as <-).
  destruct (utf8_head_strict _ _ _ H) as (c & n & cs' & Eh & -> & Hr).
  cbn [utf8_replace_from]. rewrite Eh. f_equal. apply IH; [rewrite length_skipn; lia|].
  by replace (S n - 1)%nat with n by lia.
Qed.

Lemma utf8_replace_decode l s : utf8_decode l = Some s -> utf8_decode_replace l = s.
Proof.
  unfold utf8_decode, utf8_decode_replace. destruct (utf8_decode_bytes l) as [cs|] eqn:E; [|done].
  intros [= <-]. f_equal. by apply utf8_replace_strict.
Qed.

(** What a writer encodes is read back. *)
Lemma utf8_replace_encode s l : utf8_encode s = Some l -> utf8_decode_replace l = s.
Proof. intros H%utf8_round_trip. by apply utf8_replace_decode. Qed.

(** ** The format as a writer produces it *)

Inductive gguf_value : Set :=
| GUint (t : Z) (z : Z)
| GSint (t : Z) (z : Z)
| GBool (b : bool)
| GFloat (double : bool) (bits : Z)
| GString (s : pystr)
| GArray (t : Z) (payload : list byte) (length : Z)
| GStrings (l : list pystr).

(** The width of an integer type *)
Definition width (t : Z) : nat := Z.to_nat (default 0 (snd <$> scalar_formats t)).

Definition encode_string (s : pystr) : list byte := le_bytes 8 (zlen (b_lit s)) ++ b_lit s.

Definition encode_value (v : gguf_value) : list byte :=
  match v with
  | GUint t z => le_bytes 4 t ++ le_bytes (width t) z
  | GSint t z => le_bytes 4 t ++ le_bytes (width t) (z mod 2 ^ (8 * Z.of_nat (width t)))
  | GBool b => le_bytes 4 7 ++ le_bytes 1 (if b then 1 else 0)
  | GFloat false bits => le_bytes 4 6 ++ le_bytes 4 bits
  | GFloat true bits => le_bytes 4 12 ++ le_bytes 8 bits
  | GString s => le_bytes 4 8 ++ encode_string s
  | GArray t payload n => le_bytes 4 9 ++ le_bytes 4 t ++ le_bytes 8 n ++ payload
  | GStrings l => le_bytes 4 9 ++ le_bytes 4 8 ++ le_bytes 8 (zlen l) ++ concat (map encode_string l)
  end.

Definition gguf_entry : Type := pystr * gguf_value.

Definition encode_entry (e : gguf_entry) : list byte := encode_string e.1 ++ encode_value e.2.

Definition encode_file (version tensors : Z) (entries : list gguf_entry) : list byte :=
  GGUF_MAGIC ++ le_bytes 4 version ++ le_bytes 8 tensors ++ le_bytes 8 (zlen entries)
  ++ concat (map encode_entry entries).

(** The Python value of an entry; an array is never stored. *)
Definition value_of (v : gguf_value) : option meta_value :=
  match v with
  | GUint _ z | GSint _ z => Some (MInt z)
  | GBool b => Some (MBool b)
  | GFloat false bits => Some (MFloat (float_of_bits 23 8 bits))
  | GFloat true bits => Some (MFloat (float_of_bits 52 11 bits))
  | GString s => Some (MStr s)
  | GArray _ _ _ | GStrings _ => None
  end.

Definition string_ok (s : pystr) : Prop := is_Some (utf8_encode s) /\ zlen (b_lit s) <= 2 ^ 20.

(** Values in the range of their type, and lengths the reader accepts *)
Definition value_ok (v : gguf_value) : Prop :=
  match v with
  | GUint t z => t ∈ [0; 2; 4; 10] /\ 0 <= z < 2 ^ (8 * Z.of_nat (width t))
  | GSint t z =>
      t ∈ [1; 3; 5; 11] /\
      - 2 ^ (8 * Z.of_nat (width t) - 1) <= z < 2 ^ (8 * Z.of_nat (width t) - 1)
  | GBool _ => True
  | GFloat false bits => 0 <= bits < 2 ^ 32
  | GFloat true bits => 0 <= bits < 2 ^ 64
  | GString s => string_ok s
  | GArray t payload n =>
      t ∈ [0; 1; 2; 3; 4; 5; 6; 7; 10; 11; 12] /\ 0 <= n <= 2 ^ 24 /\
      zlen payload = n * Z.of_nat (width t)
  | GStrings l => zlen l <= 2 ^ 24 /\ Forall string_ok l
  end.

Definition is_array (v : gguf_value) : bool :=
  match v with GArray _ _ _ | GStrings _ => true | _ => false end.

(** A key the reader keeps does not hold an array. *)
Definition entry_ok (e : gguf_entry) : Prop :=
  string_ok e.1 /\ value_ok e.2 /\ (should_store e.1 = true -> is_array e.2 = false).

Definition add_entry (m : metadata) (e : gguf_entry) : metadata :=
  match value_of e.2 with Some v => dset m e.1 v | None => m end.

(** What the planner needs of the entries, later ones winning *)
Definition stored (entries : list gguf_entry) : metadata :=
  foldl add_entry [] (bfilter (fun e => should_store e.1) entries).

(** ** Reading what was written *)

Lemma length_le_bytes n z : length (le_bytes n z) = n.
Proof. revert z. induction n; intros z; simpl; auto. Qed.

Lemma le_int_bytes n z : 0 <= z < 256 ^ Z.of_nat n -> le_int (le_bytes n z) = z.
Proof.
  revert z. induction n as [|n IH]; intros z Hz; [simpl in *; lia|].
  rewrite Nat2Z.inj_succ, Z.pow_succ_r in Hz by lia. cbn [le_bytes le_int].
  rewrite IH by (split; [apply Z.div_pos; lia|apply Z.div_lt_upper_bound; lia]).
  assert (E : byte_of_Z z = byte_of_Z (z mod 256)).
  { unfold byte_of_Z. change 255 with (Z.ones 8). rewrite !Z.land_ones by lia.
    change (2 ^ 8) with 256. by rewrite Z.mod_mod. }
  rewrite E, byte_val_of_Z by (pose proof (Z.mod_pos_bound z 256); lia).
  rewrite Z.add_comm. symmetry. apply Z.div_mod. done.
Qed.

Lemma pow_256 n : 256 ^ Z.of_nat n = 2 ^ (8 * Z.of_nat n).
Proof. change 256 with (2 ^ 8). rewrite <- Z.pow_mul_r by lia. done. Qed.

Lemma read_exact_app a f n : zlen a = n -> read_exact (a ++ f) n = inr (a, f).
Proof.
  intros <-. unfold read_exact. rewrite zlen_app. pose proof (zlen_nonneg f).
  replace (zlen a + zlen f <? zlen a) with false by lia.
  rewrite zlen_length, Nat2Z.id, take_app_length, drop_app_length. done.
Qed.

Lemma read_uint_app n z f size :
  size = Z.of_nat n -> 0 <= z < 256 ^ size -> read_uint (le_bytes n z ++ f) size = inr (z, f).
Proof.
  intros -> Hz. unfold read_uint. rewrite read_exact_app by (by rewrite zlen_length, length_le_bytes).
  cbn [ebind]. by rewrite le_int_bytes.
Qed.

Lemma b_lit_encode s : is_Some (utf8_encode s) -> utf8_encode s = Some (b_lit s).
Proof. unfold b_lit. by intros [l ->]. Qed.

Lemma read_string_app s f : string_ok s -> read_string (encode_string s ++ f) = inr (s, f).
Proof.
  intros [He Hl]. unfold read_string, encode_string. rewrite <- app_assoc.
  pose proof (zlen_nonneg (b_lit s)).
  rewrite read_uint_app by lia. cbn [ebind].
  replace (Z.shiftl 1 20 <? zlen (b_lit s)) with false by (change (Z.shiftl 1 20) with (2 ^ 20); lia).
  cbn [eraise_if ebind]. rewrite read_exact_app by done. cbn [ebind].
  by rewrite (utf8_replace_encode s _ (b_lit_encode s He)).
Qed.

Lemma skip_strings_app l f :
  Forall string_ok l -> skip_strings (length l) (concat (map encode_string l) ++ f) = inr f.
Proof.
  induction 1 as [|s l Hs _ IH]; [done|]. cbn [length map concat skip_strings].
  by rewrite <- app_assoc, read_string_app.
Qed.

Lemma skip_bytes_app a f n :
  zlen a = n -> n <= 2 ^ 34 -> skip_bytes (a ++ f) n = inr f.
Proof.
  intros <- Hn. unfold skip_bytes. pose proof (zlen_nonneg a). pose proof (zlen_nonneg f).
  replace (zlen a <? 0) with false by lia.
  replace (Z.shiftl 1 34 <? zlen a) with false by (change (Z.shiftl 1 34) with (2 ^ 34); lia).
  cbn [orb eraise_if ebind]. rewrite zlen_app.
  replace (zlen a + zlen f <? zlen a) with false by lia.
  by rewrite zlen_length, Nat2Z.id, drop_app_length.
Qed.

Lemma signed_wrap w z :
  0 < w -> - 2 ^ (w - 1) <= z < 2 ^ (w - 1) -> signed w (z mod 2 ^ w) = z.
Proof.
  intros Hw Hz. unfold signed. replace (2 ^ w) with (2 * 2 ^ (w - 1)) in * by
    (rewrite <- Z.pow_succ_r by lia; f_equal; lia).
  destruct (Z.ltb_spec z 0).
  - replace (z mod (2 * 2 ^ (w - 1))) with (z + 2 * 2 ^ (w - 1)).
    + destruct (Z.ltb_spec (z + 2 * 2 ^ (w - 1)) (2 ^ (w - 1))); lia.
    + rewrite <- (Z.mod_small (z + 2 * 2 ^ (w - 1)) (2 * 2 ^ (w - 1))) by lia.
      rewrite <- (Z.mod_add z 1) by lia. f_equal. lia.
  - rewrite Z.mod_small by lia. destruct (Z.ltb_spec z (2 ^ (w - 1))); lia.
Qed.

Lemma scalar_formats_range t fmt size :
  scalar_formats t = Some (fmt, size) -> 0 <= t < 13 /\ 1 <= size <= 8.
Proof.
  unfold scalar_formats. repeat (case_match; [intros [= <- <-]; lia|]). done.
Qed.

Lemma width_size t fmt size : scalar_formats t = Some (fmt, size) -> Z.of_nat (width t) = size.
Proof. intros H. unfold width. rewrite H. apply scalar_formats_range in H. simpl. lia. Qed.

(** Where a scalar of a known type is read *)
Lemma read_scalar_app t fmt size z f store :
  scalar_formats t = Some (fmt, size) -> 0 <= z < 2 ^ (8 * size) ->
  read_or_skip_value (le_bytes (width t) z ++ f) t store
  = inr (if store then Some (struct_unpack fmt (le_bytes (width t) z)) else None, f).
Proof.
  intros H Hz. unfold read_or_skip_value. rewrite H. unfold read_scalar.
  by rewrite read_exact_app by (by rewrite zlen_length, length_le_bytes, (width_size _ _ _ H)).
Qed.

Lemma struct_unpack_uint t z :
  t ∈ [0; 2; 4; 10] -> 0 <= z < 2 ^ (8 * Z.of_nat (width t)) ->
  exists fmt, scalar_formats t = Some (fmt, Z.of_nat (width t)) /\
    struct_unpack fmt (le_bytes (width t) z) = MInt z.
Proof.
  intros Ht Hz. assert (Hw : 0 <= z < 256 ^ Z.of_nat (width t)) by (by rewrite pow_256).
  rewrite !elem_of_cons in Ht.
  destruct Ht as [->|[->|[->|[->|[]%elem_of_nil]]]];
    eexists; (split; [reflexivity|]); unfold struct_unpack;
    by rewrite le_int_bytes.
Qed.

Lemma struct_unpack_sint t z :
  t ∈ [1; 3; 5; 11] ->
  - 2 ^ (8 * Z.of_nat (width t) - 1) <= z < 2 ^ (8 * Z.of_nat (width t) - 1) ->
  exists fmt, scalar_formats t = Some (fmt, Z.of_nat (width t)) /\
    struct_unpack fmt (le_bytes (width t) (z mod 2 ^ (8 * Z.of_nat (width t)))) = MInt z.
Proof.
  intros Ht Hz.
  assert (Hw : 0 <= z mod 2 ^ (8 * Z.of_nat (width t)) < 256 ^ Z.of_nat (width t))
    by (rewrite pow_256; apply Z.mod_pos_bound, Z.pow_pos_nonneg; lia).
  rewrite !elem_of_cons in Ht.
  destruct Ht as [->|[->|[->|[->|[]%elem_of_nil]]]];
    eexists; (split; [reflexivity|]); unfold struct_unpack;
    (rewrite le_int_bytes by exact Hw);
    f_equal; apply signed_wrap; done.
Qed.

(** Ranges and widths given by literals *)
Ltac in_width := first [done | lia | cbn in *; lia].

(** An array whose elements can be skipped *)
Lemma read_array_app t n body f :
  0 <= t < 2 ^ 32 -> 0 <= n <= 2 ^ 24 -> skip_array (body ++ f) t n = inr f ->
  read_or_skip_value (le_bytes 4 t ++ le_bytes 8 n ++ body ++ f) 9 false = inr (None, f).
Proof.
  intros Ht Hn Hs. unfold read_or_skip_value. cbn [scalar_formats Z.eqb Pos.eqb].
  rewrite read_uint_app by in_width. cbn [ebind]. rewrite read_uint_app by in_width. cbn [ebind].
  replace (Z.shiftl 1 24 <? n) with false by (change (Z.shiftl 1 24) with (2 ^ 24); lia).
  cbn [eraise_if ebind]. by rewrite Hs.
Qed.

Lemma skip_scalars_app t payload n f :
  t ∈ [0; 1; 2; 3; 4; 5; 6; 7; 10; 11; 12] -> 0 <= n <= 2 ^ 24 ->
  zlen payload = n * Z.of_nat (width t) ->
  0 <= t < 2 ^ 32 /\ skip_array (payload ++ f) t n = inr f.
Proof.
  intros Ht Hn Hl.
  assert (exists fmt size, scalar_formats t = Some (fmt, size)) as (fmt & size & Hs).
  { rewrite !elem_of_cons in Ht.
    repeat (destruct Ht as [->|Ht]; [by do 2 eexists|]). by apply elem_of_nil in Ht. }
  pose proof (scalar_formats_range _ _ _ Hs) as [? ?]. rewrite (width_size _ _ _ Hs) in Hl.
  split; [lia|]. unfold skip_array. rewrite Hs. apply skip_bytes_app; [lia|].
  change (2 ^ 24) with 16777216 in *. change (2 ^ 34) with 17179869184. nia.
Qed.

(** The type code in front of a value, then the value *)
Lemma read_value_app key v f :
  value_ok v -> (should_store key = true -> is_array v = false) ->
  (let? '(t, f) := read_uint (encode_value v ++ f) 4 in
   read_or_skip_value f t (should_store key))
  = inr (if should_store key then value_of v else None, f).
Proof.
  intros Hv Hk.
  assert (Hcode : forall t g, 0 <= t < 2 ^ 32 ->
    (let? '(t, f) := read_uint (le_bytes 4 t ++ g) 4 in read_or_skip_value f t (should_store key))
    = read_or_skip_value g t (should_store key)) by (intros t g Ht; by rewrite read_uint_app by in_width).
  assert (Hskip : is_array v = true -> should_store key = false).
  { destruct (should_store key); [|done]. by rewrite Hk. }
  destruct v as [t z|t z|b|[] bits|s|t payload n|l]; cbn [encode_value value_ok value_of is_array] in *;
    rewrite <- ?app_assoc.
  - destruct Hv as [Ht Hz]. destruct (struct_unpack_uint _ _ Ht Hz) as (fmt & Hs & Hu).
    rewrite Hcode by (apply scalar_formats_range in Hs; lia).
    by rewrite (read_scalar_app _ _ _ _ _ _ Hs), Hu.
  - destruct Hv as [Ht Hz]. destruct (struct_unpack_sint _ _ Ht Hz) as (fmt & Hs & Hu).
    rewrite Hcode by (apply scalar_formats_range in Hs; lia).
    rewrite (read_scalar_app _ _ _ _ _ _ Hs), Hu; [done|].
    apply Z.mod_pos_bound. apply Z.pow_pos_nonneg; lia.
  - rewrite Hcode by in_width. change 1%nat with (width 7).
    rewrite (read_scalar_app 7 "?" 1) by (destruct b; in_width). by destruct b.
  - rewrite Hcode by in_width. change 8%nat with (width 12).
    rewrite (read_scalar_app 12 "<d" 8) by in_width.
    unfold struct_unpack. by rewrite le_int_bytes by in_width.
  - rewrite Hcode by in_width. change 4%nat with (width 6) at 1.
    rewrite (read_scalar_app 6 "<f" 4) by in_width.
    unfold struct_unpack. by rewrite le_int_bytes by in_width.
  - rewrite Hcode by in_width. unfold read_or_skip_value. cbn [scalar_formats Z.eqb Pos.eqb].
    by rewrite read_string_app by done.
  - rewrite Hcode, Hskip by in_width. destruct Hv as (Ht & Hn & Hl).
    destruct (skip_scalars_app _ _ _ f Ht Hn Hl). by apply read_array_app.
  - rewrite Hcode, Hskip by in_width. destruct Hv as [Hn Hl]. pose proof (zlen_nonneg l).
    apply read_array_app; [done|done|]. unfold skip_array. cbn [scalar_formats Z.eqb Pos.eqb].
    by rewrite zlen_length, Nat2Z.id, skip_strings_app.
Qed.

Lemma read_entries_app entries m f :
  Forall entry_ok entries ->
  read_entries (length entries) m (concat (map encode_entry entries) ++ f)
  = inr (foldl add_entry m (bfilter (fun e => should_store e.1) entries)).
Proof.
  intros Hok. revert m. induction Hok as [|[key v] entries (Hs & Hv & Ha) _ IH]; intros m; [done|].
  cbn [length map concat read_entries fst snd] in *. unfold encode_entry at 1. cbn [fst snd].
  rewrite <- !app_assoc, read_string_app by done. cbn [ebind].
  pose proof (read_value_app key v (concat (map encode_entry entries) ++ f) Hv Ha) as Hr.
  destruct (read_uint (encode_value v ++ _) 4) as [|[t g]]; [done|]. cbn [ebind] in *.
  rewrite Hr. cbn [ebind]. rewrite IH. f_equal. unfold bfilter. cbn [List.filter fst].
  unfold keep_value. destruct (should_store key) eqn:Hk; [|done].
  done.
Qed.

(** A header as a writer encodes it, whatever bytes follow, is read back: the architecture
    and the sizes the planner needs, and nothing else. *)
Lemma read_header_encoded version tensors entries max_kv rest :
  version = 2 \/ version = 3 -> 0 <= tensors < 2 ^ 64 -> zlen entries <= max_kv < 2 ^ 64 ->
  Forall entry_ok entries ->
  read_header (encode_file version tensors entries ++ rest) max_kv = inr (stored entries).
Proof.
  intros Hv Ht Hn Hok. pose proof (zlen_nonneg entries). unfold read_header, encode_file.
  rewrite <- !app_assoc, read_exact_app by done. cbn [ebind].
  rewrite bool_decide_false by (intros []; done). cbn [eraise_if ebind].
  rewrite read_uint_app by (destruct Hv as [->| ->]; done). cbn [ebind].
  replace ((version =? 2) || (version =? 3)) with true by lia. cbn [negb eraise_if ebind].
  rewrite read_uint_app by in_width. cbn [ebind]. rewrite read_uint_app by in_width. cbn [ebind].
  replace (max_kv <? zlen entries) with false by lia. cbn [eraise_if ebind].
  rewrite zlen_length, Nat2Z.id. by apply read_entries_app.
Qed.

(** ** What the reader answers *)

(** The header as it is on disk now *)
Definition uncached (path : model_file) (max_kv : Z) : plan_error + metadata :=
  let? _ := file_stat path in
  let? _ := file_resolved path in
  let? f := file_open path in
  read_header f max_kv.

Ltac cached_or_read m E :=
  match goal with |- context [@dget ?K ?V ?D ?c ?k] => destruct (@dget K V D c k) as [m|] eqn:E end.

(** The cache holds nothing else for a file than what the file holds. *)
Definition cache_agrees (cache : gguf_cache) (path : model_file) (max_kv : Z) : Prop :=
  forall size mtime resolved m,
    file_stat path = inr (size, mtime) -> file_resolved path = inr resolved ->
    dget cache (resolved, size, mtime, max_kv) = Some m -> uncached path max_kv = inr m.

Lemma read_uncached path max_kv cache :
  cache_agrees cache path max_kv -> snd (_read_gguf_metadata path max_kv cache) = uncached path max_kv.
Proof.
  intros Hc. unfold _read_gguf_metadata, uncached, bind, lift_val, ret, get_state, put_state.
  unfold cache_agrees, uncached in Hc.
  destruct (file_stat path) as [|[size mtime]]; [done|]. cbn [ebind] in *.
  destruct (file_resolved path) as [|resolved]; [done|]. cbn [ebind] in *.
  cached_or_read m Eg; cbn [snd].
  { exact (eq_sym (Hc size mtime resolved m eq_refl eq_refl Eg)). }
  destruct (file_open path) as [|f]; [done|]. cbn [ebind] in *.
  by destruct (read_header f max_kv).
Qed.

(** The cache a read leaves still agrees with the file. *)
Lemma cache_agrees_after path max_kv cache :
  cache_agrees cache path max_kv ->
  cache_agrees (fst (_read_gguf_metadata path max_kv cache)) path max_kv.
Proof.
  intros Hc. unfold _read_gguf_metadata, bind, lift_val, ret, get_state, put_state.
  destruct (file_stat path) as [|[size mtime]] eqn:Es; [done|].
  destruct (file_resolved path) as [|resolved] eqn:Er; [done|].
  cached_or_read m Eg; [done|].
  destruct (file_open path) as [|f] eqn:Ef; [done|].
  destruct (read_header f max_kv) as [|m] eqn:Eh; [done|]. cbn [fst].
  intros size' mtime' resolved' m' Hs Hr. rewrite Es in Hs. rewrite Er in Hr.
  injection Hs as <- <-. injection Hr as <-.
  cbn [dset dget]. rewrite bool_decide_true by done. intros [= <-].
  unfold uncached. by rewrite Es, Er, Ef.
Qed.

Lemma cache_is_small path max_kv cache :
  dlen cache <= 1 -> dlen (fst (_read_gguf_metadata path max_kv cache)) <= 1.
Proof.
  intros Hc. unfold _read_gguf_metadata, bind, lift_val, ret, get_state, put_state.
  destruct (file_stat path) as [|[size mtime]]; [done|].
  destruct (file_resolved path) as [|resolved]; [done|].
  cached_or_read m E; [done|].
  destruct (file_open path) as [|f]; [done|]. by destruct (read_header f max_kv).
Qed.

Section same_file.
#[local] Set Default Proof Using "Type*".
Context (path : model_file) (size mtime max_kv : Z) (resolved : pystr).
Hypothesis Hstat : file_stat path = inr (size, mtime).
Hypothesis Hresolved : file_resolved path = inr resolved.

Lemma cached_answer cache m :
  dget cache (resolved, size, mtime, max_kv) = Some m ->
  _read_gguf_metadata path max_kv cache = (cache, inr m).
Proof.
  intros Hm. unfold _read_gguf_metadata, bind, lift_val, get_state, ret.
  rewrite Hstat, Hresolved. by rewrite Hm.
Qed.

Lemma answer_is_cached cache m :
  snd (_read_gguf_metadata path max_kv cache) = inr m ->
  dget (fst (_read_gguf_metadata path max_kv cache)) (resolved, size, mtime, max_kv) = Some m.
Proof.
  unfold _read_gguf_metadata, bind, lift_val, get_state, ret, put_state.
  rewrite Hstat, Hresolved.
  cached_or_read m' Em; [by intros [= <-]|].
  destruct (file_open path) as [|f]; [done|]. destruct (read_header f max_kv) as [|m']; [done|].
  intros [= <-]. cbn [fst dset dget]. by rewrite bool_decide_true.
Qed.
End same_file.


(** Qwen3's attention layout among entries the planner does not use *)
Definition demo_entries : list gguf_entry :=
  [("general.architecture", GString "qwen3"); ("general.name", GString "Qwen3 8B");
   ("qwen3.block_count", GUint 4 36); ("qwen3.attention.head_count", GUint 4 32);
   ("qwen3.attention.head_count_kv", GUint 4 8); ("qwen3.rope.freq_base", GFloat false 1232348160);
   ("qwen3.attention.key_length", GUint 4 128); ("qwen3.attention.value_length", GUint 4 128);
   ("tokenizer.ggml.tokens", GStrings ["a"; "b"]); ("tokenizer.ggml.scores", GArray 6 (le_bytes 8 0) 2);
   ("general.quantized", GBool true); ("general.offset", GSint 5 (-3))]%pystr.

Definition demo_file : list byte := encode_file 3 0 demo_entries.

Definition demo_path : model_file :=
  mkFile (inr (5000000000, 17)) (inr "/models/qwen3-8b.gguf"%pystr) (inr (demo_file ++ [x00; xff])).

(** The conditions on an entry, decided *)
Definition string_okb (s : pystr) : bool :=
  match utf8_encode s with Some l => zlen l <=? 2 ^ 20 | None => false end.

Definition within (low high z : Z) : bool := (low <=? z) && (z <? high).

Definition value_okb (v : gguf_value) : bool :=
  match v with
  | GUint t z => existsb (Z.eqb t) [0; 2; 4; 10] && within 0 (2 ^ (8 * Z.of_nat (width t))) z
  | GSint t z =>
      existsb (Z.eqb t) [1; 3; 5; 11]
      && within (- 2 ^ (8 * Z.of_nat (width t) - 1)) (2 ^ (8 * Z.of_nat (width t) - 1)) z
  | GBool _ => true
  | GFloat false bits => within 0 (2 ^ 32) bits
  | GFloat true bits => within 0 (2 ^ 64) bits
  | GString s => string_okb s
  | GArray t payload n =>
      existsb (Z.eqb t) [0; 1; 2; 3; 4; 5; 6; 7; 10; 11; 12] && within 0 (2 ^ 24 + 1) n
      && (zlen payload =? n * Z.of_nat (width t))
  | GStrings l => (zlen l <=? 2 ^ 24) && forallb string_okb l
  end.

Definition entry_okb (e : gguf_entry) : bool :=
  string_okb e.1 && value_okb e.2 && (negb (should_store e.1) || negb (is_array e.2)).

Lemma string_okb_ok s : string_okb s = true -> string_ok s.
Proof.
  unfold string_okb, string_ok, b_lit. destruct (utf8_encode s) as [l|]; [|done].
  cbn [default id]. intros H. split; [by eexists|lia].
Qed.

Lemma existsb_elem t l : existsb (Z.eqb t) l = true -> t ∈ l.
Proof. intros (x & Hx & E)%existsb_exists. apply Z.eqb_eq in E as ->. by apply list_elem_of_In. Qed.

Lemma within_range low high z : within low high z = true -> low <= z < high.
Proof. unfold within. lia. Qed.

Lemma value_okb_ok v : value_okb v = true -> value_ok v.
Proof.
  destruct v as [t z|t z|b|[] bits|s|t payload n|l]; cbn [value_okb value_ok]; try done;
    rewrite ?andb_true_iff.
  1-2: intros [?%existsb_elem ?%within_range]; done.
  1-2: apply within_range.
  - apply string_okb_ok.
  - intros [[?%existsb_elem H%within_range] ?%Z.eqb_eq]. split_and!; [done|lia|lia|done].
  - intros [? Hl]. rewrite forallb_forall in Hl. split; [lia|]. apply Forall_forall. intros s Hs%list_elem_of_In.
    by apply string_okb_ok, Hl.
Qed.

Lemma entries_okb_ok entries : forallb entry_okb entries = true -> Forall entry_ok entries.
Proof.
  rewrite forallb_forall. intros H. apply Forall_forall. intros e He%list_elem_of_In%H.
  unfold entry_okb in He. rewrite !andb_true_iff, orb_true_iff, !negb_true_iff in He.
  destruct He as [[?%string_okb_ok ?%value_okb_ok] [Hs|Ha]]; split_and!; try done.
  by rewrite Hs.
Qed.

Example demo_stored :
  stored demo_entries =
    [("general.architecture", MStr "qwen3"); ("qwen3.block_count", MInt 36);
     ("qwen3.attention.head_count", MInt 32); ("qwen3.attention.head_count_kv", MInt 8);
     ("qwen3.attention.key_length", MInt 128); ("qwen3.attention.value_length", MInt 128)]%pystr.
Proof. vm_compute. reflexivity. Qed.

(** A truncated header, another magic and another version *)
Example demo_refused :
  read_header (firstn 100 demo_file) 4096 = inl (ValueError "gguf_metadata_truncated") /\
  read_header (b_lit "GGML" ++ skipn 4 demo_file) 4096 = inl (ValueError "gguf_magic_missing") /\
  read_header (encode_file 1 0 []) 4096 = inl (ValueError "gguf_version_unsupported") /\
  read_header demo_file 3 = inl (ValueError "gguf_kv_count_too_large").
Proof. vm_compute. done. Qed.

