(* ===== verification/Json.v ===== *)
(** * JSON values

    The documents the API handlers receive: what [request.get_json()] and
    [json.loads] return.  An object is a Python [dict] with string keys, so
    [PyDict.dict pystr json]; [bool] is a subclass of [int]; a list or a
    dictionary is not hashable, so testing it for membership in a set literal
    raises [TypeError]. *)

From S2P Require Import Prelude PyFloat PyStr PyDict PyText.

#[warnings="-register-all"]
Inductive json : Set :=
| JNull
| JBool (b : bool)
| JInt (z : Z)
| JFloat (f : float64)
| JStr (s : pystr)
| JList (l : list json)
| JDict (d : list (pystr * json)).

Definition jdict : Type := dict pystr json.

(** [d.get(k)] *)
Definition jget (d : jdict) (k : pystr) : json := default JNull (dget d k).

Definition is_JStr (j : json) : bool := match j with JStr _ => true | _ => false end.
Definition is_JDict (j : json) : bool := match j with JDict _ => true | _ => false end.
Definition is_JNull (j : json) : bool := match j with JNull => true | _ => false end.

(** The text of a value that has passed [isinstance(j, str)] *)
Definition str_value (j : json) : pystr := match j with JStr s => s | _ => "" end.

(** [isinstance(j, str) and j] *)
Definition is_nonempty_str (j : json) : bool :=
  match j with JStr s => negb (py_empty s) | _ => false end.

(** [j == s] for a string literal *)
Definition jeq_str (j : json) (s : pystr) : bool :=
  match j with JStr t => bool_decide (t = s) | _ => false end.

(** [bool(j)] *)
Definition truthy (j : json) : bool :=
  match j with
  | JNull => false
  | JBool b => b
  | JInt z => negb (z =? 0)
  | JFloat f => negb (feq f f0)
  | JStr s => negb (py_empty s)
  | JList l => match l with [] => false | _ => true end
  | JDict d => match d with [] => false | _ => true end
  end.

(** [a or b] *)
Definition json_or (a b : json) : json := if truthy a then a else b.

(** A hashable value *)
Inductive scalar : Set :=
| SNone
| SBool (b : bool)
| SInt (z : Z)
| SFloat (f : float64)
| SStr (s : pystr).

(** [hash(j)]; [None] is the [TypeError] of a list or a dictionary. *)
Definition hashable (j : json) : option scalar :=
  match j with
  | JNull => Some SNone
  | JBool b => Some (SBool b)
  | JInt z => Some (SInt z)
  | JFloat f => Some (SFloat f)
  | JStr s => Some (SStr s)
  | JList _ | JDict _ => None
  end.

(** The text of that [TypeError] *)
Definition unhashable_text (j : json) : pystr :=
  match j with JList _ => "unhashable type: 'list'" | _ => "unhashable type: 'dict'" end.

(** The [type] of a text block, in validation and in normalisation alike *)
Definition text_types : list pystr := ["input_text"; "text"]%pystr.

(** [x in {"a", "b"}] *)
Definition scalar_in (x : scalar) (l : list pystr) : bool :=
  match x with SStr s => pystr_in s l | _ => false end.

(** [str(x)] *)
Definition scalar_text `{!FloatRepr} (x : scalar) : pystr :=
  match x with
  | SNone => "None"
  | SBool b => if b then "True" else "False"
  | SInt z => py_str_int z
  | SFloat f => float_repr f
  | SStr s => s
  end.

(** What the validators and the runtime accept as content: text, or a list of
    text blocks, each a dictionary with a text [type] and a non-empty [text]. *)
Definition text_block (item : json) : Prop :=
  exists d ty t, item = JDict d /\ jget d "type" = JStr ty /\ ty ∈ text_types /\
    jget d "text" = JStr t /\ py_empty t = false.

Definition content_ok (content : json) : Prop :=
  (exists s, content = JStr s) \/
  (exists l, content = JList l /\ l ≠ [] /\ Forall text_block l).

(** [enumerate(l)] *)
Fixpoint enumerate_from {A} (i : Z) (l : list A) : list (Z * A) :=
  match l with
  | [] => []
  | x :: l' => (i, x) :: enumerate_from (i + 1) l'
  end.

Definition py_enumerate {A} (l : list A) : list (Z * A) := enumerate_from 0 l.

(** ** Induction through lists and dictionaries *)
Section json_ind.
Context (P : json -> Prop).
Context (HNull : P JNull) (HBool : forall b, P (JBool b)) (HInt : forall z, P (JInt z))
  (HFloat : forall f, P (JFloat f)) (HStr : forall s, P (JStr s))
  (HList : forall l, Forall P l -> P (JList l))
  (HDict : forall d, Forall (fun kv => P kv.2) d -> P (JDict d)).

Fixpoint json_nested_ind (j : json) : P j :=
  match j with
  | JNull => HNull
  | JBool b => HBool b
  | JInt z => HInt z
  | JFloat f => HFloat f
  | JStr s => HStr s
  | JList l =>
      HList l ((fix go l : Forall P l :=
        match l with
        | [] => List.Forall_nil _
        | x :: l' => List.Forall_cons _ _ _ (json_nested_ind x) (go l')
        end) l)
  | JDict d =>
      HDict d ((fix go d : Forall (fun kv => P kv.2) d :=
        match d with
        | [] => List.Forall_nil _
        | kv :: d' => List.Forall_cons _ _ _ (json_nested_ind kv.2) (go d')
        end) d)
  end.
End json_ind.

(** ** Lemmas *)

Lemma enumerate_from_elem {A} (l : list A) i k x :
  (k, x) ∈ enumerate_from i l -> x ∈ l.
Proof.
  revert i. induction l as [|y l IH]; simpl; intros i; [by intros ?%not_elem_of_nil|].
  intros [[= -> ->]|H]%elem_of_cons; [left|]. right. by eapply IH.
Qed.

Lemma elem_enumerate_from {A} (l : list A) i x :
  x ∈ l -> exists k, (k, x) ∈ enumerate_from i l.
Proof.
  revert i. induction l as [|y l IH]; simpl; intros i; [by intros ?%not_elem_of_nil|].
  intros [->|H]%elem_of_cons; [exists i; left|]. destruct (IH (i + 1) H) as [k Hk].
  exists k. by right.
Qed.

Lemma py_enumerate_elem {A} (l : list A) k x : (k, x) ∈ py_enumerate l -> x ∈ l.
Proof. apply enumerate_from_elem. Qed.

Lemma elem_py_enumerate {A} (l : list A) x : x ∈ l -> exists k, (k, x) ∈ py_enumerate l.
Proof. apply elem_enumerate_from. Qed.

Lemma scalar_in_str s l : scalar_in s l = true <-> exists t, s = SStr t /\ t ∈ l.
Proof.
  destruct s as [| | | |t]; simpl; try (split; [done|by intros (? & ? & _)]).
  unfold pystr_in. rewrite bool_decide_eq_true. split; [eauto|by intros (? & [= ->] & ?)].
Qed.

Lemma jeq_str_true j s : jeq_str j s = true <-> j = JStr s.
Proof.
  destruct j; simpl; try (split; [done|by intros [=]]). rewrite bool_decide_eq_true.
  split; [by intros ->|by intros [= ->]].
Qed.

Lemma is_JNull_true j : is_JNull j = true <-> j = JNull.
Proof. destruct j; simpl; split; congruence. Qed.

Lemma hashable_str j t : hashable j = Some (SStr t) <-> j = JStr t.
Proof. destruct j; simpl; split; intros H; simplify_eq; done. Qed.

Lemma jget_some d k j : dget d k = Some j -> jget d k = j.
Proof. unfold jget. by intros ->. Qed.

Lemma jget_dset d k v k' : jget (dset d k v) k' = if bool_decide (k' = k) then v else jget d k'.
Proof. unfold jget. rewrite dget_dset. by case_bool_decide. Qed.

Lemma dmem_jget d k : dmem d k = true -> dget d k = Some (jget d k).
Proof. intros [j Hj]%dmem_true. unfold jget. by rewrite Hj. Qed.

Lemma jget_absent d k : dmem d k = false -> jget d k = JNull.
Proof. intros H%dmem_false. unfold jget. by rewrite H. Qed.

(** A loop of checks passes exactly when every check passes. *)
Lemma efor_each_inr {E X} (l : list X) (body : X -> E + unit) :
  efor_each l body = inr tt <-> forall x, x ∈ l -> body x = inr tt.
Proof.
  induction l as [|x l IH]; simpl; [split; [intros _ x ?%not_elem_of_nil|]; done|].
  destruct (body x) as [err|[]] eqn:Ex; simpl.
  - split; [done|]. intros H. rewrite H in Ex by left. done.
  - rewrite IH. split; [|intros H y Hy; apply H; by right].
    intros H y [->|Hy]%elem_of_cons; [done|by apply H].
Qed.

Lemma efor_each_inl {E X} (l : list X) (body : X -> E + unit) e :
  efor_each l body = inl e -> exists x, x ∈ l /\ body x = inl e.
Proof.
  induction l as [|x l IH]; simpl; [done|].
  destruct (body x) as [e'|[]] eqn:Ex; simpl.
  - intros [= ->]. exists x. split; [left|done].
  - intros (y & Hy & He)%IH. exists y. split; [by right|done].
Qed.

Lemma efor_each_enumerate {E X} (l : list X) (body : Z * X -> E + unit) (ok : X -> Prop) :
  (forall i x, body (i, x) = inr tt <-> ok x) ->
  efor_each (py_enumerate l) body = inr tt <-> Forall ok l.
Proof.
  intros Hb. rewrite efor_each_inr, Forall_forall. split.
  - intros H x Hx. apply elem_py_enumerate in Hx as [k Hk]. by apply (Hb k), H.
  - intros H [k x] Hx. apply Hb, H. by eapply py_enumerate_elem.
Qed.
