(* ===== verification/JsonText.v ===== *)
(** * JSON as text

    [json.dumps] with its default separators, with [ensure_ascii] or without, and
    [json.loads]: the scanner of the standard library, which reads a document,
    skips white space and refuses anything left over.  [None] is the
    [JSONDecodeError].

    Floats are printed and read by [FloatRepr] and [PyNumbers].  The interpreter's
    limits on the nesting of a document and on the digits of an integer are not
    modelled.  The scanner's recursion takes fuel; [scan_once_enough] shows that the
    length of the text is enough. *)

From Stdlib Require Import Floats.SpecFloat.
From S2P Require Import Prelude PyFloat PyStr PyDict Base64 PyText Json.

(** ** Printing *)

(** [\uXXXX] *)
Definition json_u (z : Z) : list N :=
  [92%N; 117%N; hex_digit (z / 4096 mod 16); hex_digit (z / 256 mod 16);
   hex_digit (z / 16 mod 16); hex_digit (z mod 16)].

(** The escape of a character when the output is to be ASCII; a character past the
    basic plane becomes a surrogate pair. *)
Definition json_escape_ascii (c : N) : list N :=
  if N.eqb c 34 then [92; 34]%N
  else if N.eqb c 92 then [92; 92]%N
  else if N.eqb c 10 then [92; 110]%N
  else if N.eqb c 13 then [92; 114]%N
  else if N.eqb c 9 then [92; 116]%N
  else if N.eqb c 8 then [92; 98]%N
  else if N.eqb c 12 then [92; 102]%N
  else if (N.leb 32 c && N.leb c 126)%bool then [c]
  else
    let z := Z.of_N c in
    if z <? 65536 then json_u z
    else json_u (55296 + Z.land (Z.shiftr (z - 65536) 10) 1023)
         ++ json_u (56320 + Z.land (z - 65536) 1023).

Definition json_quoted (ensure_ascii : bool) (s : pystr) : list N :=
  34%N :: concat (map (if ensure_ascii then json_escape_ascii else json_escape) (codes s))
  ++ [34%N].

Section text.
Context `{!FloatRepr, !PyNumbers}.

(** [float.__repr__], and the names of the values that are not finite *)
Definition json_float (f : float64) : list N :=
  match f with
  | S754_nan => codes "NaN"
  | S754_infinity sign => codes (if sign then "-Infinity" else "Infinity")
  | _ => codes (float_repr f)
  end.

(** The characters of [json.dumps(j, ensure_ascii=ensure_ascii)] *)
Fixpoint dumps_codes (ensure_ascii : bool) (j : json) : list N :=
  match j with
  | JNull => codes "null"
  | JBool b => codes (if b then "true" else "false")
  | JInt z => codes (py_str_int z)
  | JFloat f => json_float f
  | JStr s => json_quoted ensure_ascii s
  | JList l => 91%N :: join_codes [44; 32]%N (map (dumps_codes ensure_ascii) l) ++ [93%N]
  | JDict d =>
      123%N :: join_codes [44; 32]%N
        (map (fun kv => json_quoted ensure_ascii kv.1 ++ [58; 32]%N ++ dumps_codes ensure_ascii kv.2) d)
      ++ [125%N]
  end.

Definition json_dumps (ensure_ascii : bool) (j : json) : pystr := PyStr (dumps_codes ensure_ascii j).

(** ** Reading *)

Definition json_hex (c : N) : option Z :=
  if (N.leb 48 c && N.leb c 57)%bool then Some (Z.of_N c - 48)
  else if (N.leb 97 c && N.leb c 102)%bool then Some (Z.of_N c - 87)
  else if (N.leb 65 c && N.leb c 70)%bool then Some (Z.of_N c - 55)
  else None.

(** The four digits of [\uXXXX] *)
Definition hex4 (a b c d : N) : option Z :=
  a' ← json_hex a; b' ← json_hex b; c' ← json_hex c; d' ← json_hex d;
  Some (4096 * a' + 256 * b' + 16 * c' + d').

(** The character after a backslash, but for [u] *)
Definition unescape (c : N) : option N :=
  if N.eqb c 34 then Some 34%N
  else if N.eqb c 92 then Some 92%N
  else if N.eqb c 47 then Some 47%N
  else if N.eqb c 98 then Some 8%N
  else if N.eqb c 102 then Some 12%N
  else if N.eqb c 110 then Some 10%N
  else if N.eqb c 114 then Some 13%N
  else if N.eqb c 116 then Some 9%N
  else None.

Definition high_surrogate (z : Z) : bool := (55296 <=? z) && (z <=? 56319).
Definition low_surrogate (z : Z) : bool := (56320 <=? z) && (z <=? 57343).

(** After the opening quote: the text and what follows the closing one *)
Fixpoint scan_string (l : list N) : option (list N * list N) :=
  match l with
  | [] => None
  | c :: l1 =>
      if N.eqb c 34 then Some ([], l1)
      else if N.eqb c 92 then
        match l1 with
        | [] => None
        | e :: l2 =>
            if N.eqb e 117 then
              match l2 with
              | x1 :: x2 :: x3 :: x4 :: l3 =>
                  z ← hex4 x1 x2 x3 x4;
                  let alone := '(s, r) ← scan_string l3; Some (Z.to_N z :: s, r) in
                  match l3 with
                  | b :: u :: y1 :: y2 :: y3 :: y4 :: l4 =>
                      if high_surrogate z && N.eqb b 92 && N.eqb u 117 then
                        z2 ← hex4 y1 y2 y3 y4;
                        if low_surrogate z2 then
                          '(s, r) ← scan_string l4;
                          Some (Z.to_N (65536 + Z.shiftl (z - 55296) 10 + (z2 - 56320)) :: s, r)
                        else alone
                      else alone
                  | _ => alone
                  end
              | _ => None
              end
            else
              x ← unescape e;
              '(s, r) ← scan_string l2;
              Some (x :: s, r)
        end
      else if N.ltb c 32 then None
      else '(s, r) ← scan_string l1; Some (c :: s, r)
  end.

(** A run of decimal digits *)
Fixpoint span_digits (l : list N) : list N * list N :=
  match l with
  | [] => ([], [])
  | c :: l' => match ascii_digit c with
               | Some _ => let '(ds, r) := span_digits l' in (c :: ds, r)
               | None => ([], l)
               end
  end.

(** [int] of decimal digits *)
Definition digits_int (ds : list N) : Z :=
  fold_left (fun acc c => 10 * acc + (Z.of_N c - 48)) ds 0.

(** [0] alone, or digits that do not start with it *)
Definition int_part (l : list N) : option (list N * list N) :=
  match l with
  | c :: l' => if N.eqb c 48 then Some ([c], l')
               else match ascii_digit c with
                    | Some _ => Some (span_digits l)
                    | None => None
                    end
  | [] => None
  end.

(** A point and at least one digit *)
Definition fraction_part (l : list N) : list N * list N :=
  match l with
  | p :: d :: _ => if N.eqb p 46 && bool_decide (is_Some (ascii_digit d))
                   then let '(ds, r) := span_digits (tail l) in (p :: ds, r)
                   else ([], l)
  | _ => ([], l)
  end.

(** [e] or [E], a sign or none, and at least one digit *)
Definition exponent_part (l : list N) : list N * list N :=
  match l with
  | e :: l1 =>
      if N.eqb e 101 || N.eqb e 69 then
        let '(sign, l2) := match l1 with
                           | s :: l2 => if N.eqb s 43 || N.eqb s 45 then ([s], l2) else ([], l1)
                           | [] => ([], l1)
                           end in
        match span_digits l2 with
        | ([], _) => ([], l)
        | (ds, r) => (e :: sign ++ ds, r)
        end
      else ([], l)
  | [] => ([], l)
  end.

(** An integer, or a float when there is a fraction or an exponent *)
Definition scan_number (l : list N) : option (json * list N) :=
  let '(minus, l0) := match l with
                      | c :: l' => if N.eqb c 45 then ([c], l') else ([], l)
                      | [] => ([], l)
                      end in
  '(ds, l1) ← int_part l0;
  let '(fraction, l2) := fraction_part l1 in
  let '(exponent, l3) := exponent_part l2 in
  match fraction, exponent with
  | [], [] =>
      let z := digits_int ds in
      Some (JInt (match minus with [] => z | _ => - z end), l3)
  | _, _ =>
      f ← parse_float (PyStr (minus ++ ds ++ fraction ++ exponent));
      Some (JFloat f, l3)
  end.

Definition is_json_space (c : N) : bool := bool_decide (c ∈ ([32; 9; 10; 13] : list N)%N).

Fixpoint skip_space (l : list N) : list N :=
  match l with
  | c :: l' => if is_json_space c then skip_space l' else l
  | [] => []
  end.

(** [l] when the text starts with [word], after it *)
Definition keyword (word : list N) (j : json) (l : list N) : option (json * list N) :=
  if bool_decide (word `prefix_of` l) then Some (j, skipn (length word) l) else None.

Definition float_infinity : float64 := S754_infinity false.
Definition float_minus_infinity : float64 := S754_infinity true.

(** A value that is no string, list or dictionary *)
Definition scan_plain (c : N) (l : list N) : option (json * list N) :=
  if N.eqb c 110 then keyword (codes "null") JNull l
  else if N.eqb c 116 then keyword (codes "true") (JBool true) l
  else if N.eqb c 102 then keyword (codes "false") (JBool false) l
  else if N.eqb c 78 then keyword (codes "NaN") (JFloat S754_nan) l
  else if N.eqb c 73 then keyword (codes "Infinity") (JFloat float_infinity) l
  else if bool_decide (codes "-Infinity" `prefix_of` l)
  then keyword (codes "-Infinity") (JFloat float_minus_infinity) l
  else scan_number l.

Fixpoint scan_once (fuel : nat) (l : list N) {struct fuel} : option (json * list N) :=
  match fuel, l with
  | S f, c :: l1 =>
      if N.eqb c 34 then '(s, r) ← scan_string l1; Some (JStr (PyStr s), r)
      else if N.eqb c 123 then
        match skip_space l1 with
        | x :: r => if N.eqb x 125 then Some (JDict [], r) else scan_members f [] (x :: r)
        | [] => None
        end
      else if N.eqb c 91 then
        match skip_space l1 with
        | x :: r => if N.eqb x 93 then Some (JList [], r) else scan_items f [] (x :: r)
        | [] => None
        end
      else scan_plain c l
  | _, _ => None
  end
(** The members of an object, after its brace or a comma *)
with scan_members (fuel : nat) (d : jdict) (l : list N) {struct fuel} : option (json * list N) :=
  match fuel, l with
  | S f, c :: l1 =>
      if N.eqb c 34 then
        '(k, l2) ← scan_string l1;
        match skip_space l2 with
        | x :: l3 =>
            if N.eqb x 58 then
              '(v, l4) ← scan_once f (skip_space l3);
              match skip_space l4 with
              | y :: r => if N.eqb y 125 then Some (JDict (dset d (PyStr k) v), r)
                          else if N.eqb y 44 then scan_members f (dset d (PyStr k) v) (skip_space r)
                          else None
              | [] => None
              end
            else None
        | [] => None
        end
      else None
  | _, _ => None
  end
(** The items of a list, after its bracket or a comma *)
with scan_items (fuel : nat) (items : list json) (l : list N) {struct fuel} : option (json * list N) :=
  match fuel with
  | S f =>
      '(v, l1) ← scan_once f l;
      match skip_space l1 with
      | y :: r => if N.eqb y 93 then Some (JList (items ++ [v]), r)
                  else if N.eqb y 44 then scan_items f (items ++ [v]) (skip_space r)
                  else None
      | [] => None
      end
  | O => None
  end.

Definition byte_order_mark : N := 65279%N.

(** [json.loads(s)] *)
Definition json_loads (s : pystr) : option json :=
  match codes s with
  | c :: _ =>
      if N.eqb c byte_order_mark then None
      else
        '(j, r) ← scan_once (2 * length (codes s)) (skip_space (codes s));
        match skip_space r with [] => Some j | _ => None end
  | [] => None
  end.

(** ** The scanner consumes its input *)

Lemma skip_space_length l : (length (skip_space l) <= length l)%nat.
Proof. induction l as [|c l IH]; simpl; [lia|]. destruct (is_json_space c); simpl in *; lia. Qed.

(** What follows a character that was read *)
Lemma scan_more_inv (m : option (list N * list N)) x s r :
  ('(s', r') ← m; Some (x :: s', r')) = Some (s, r) -> exists s', m = Some (s', r).
Proof. destruct m as [[s' r']|]; [|done]. intros [= _ <-]. by exists s'. Qed.

Lemma scan_string_length l s r : scan_string l = Some (s, r) -> (length r < length l)%nat.
Proof.
  assert (Hn : forall n l s r, (length l <= n)%nat -> scan_string l = Some (s, r) ->
    (length r < length l)%nat); [|by apply (Hn (length l))].
  clear l s r. induction n as [|n IH]; intros [|c l1] s r Hl Hs; try done; [simpl in Hl; lia|].
  assert (Hrec : forall x l' s r, (length l' <= length l1)%nat ->
    ('(s', r') ← scan_string l'; Some (x :: s', r')) = Some (s, r) ->
    (length r < length (c :: l1))%nat).
  { intros x l' s0 r0 Hl' [s' Hs']%scan_more_inv. simpl in Hl.
    specialize (IH l' s' r0 ltac:(lia) Hs'). simpl. lia. }
  clear IH Hl. cbn [scan_string] in Hs.
  destruct (N.eqb c 34); [injection Hs as _ <-; simpl; lia|].
  destruct (N.eqb c 92); [|destruct (N.ltb c 32); [done|by apply (Hrec c l1 s r)]].
  destruct l1 as [|e l2]; [done|]. destruct (N.eqb e 117).
  2: { destruct (unescape e) as [x|]; [|done]. by apply (Hrec x l2 s r); [simpl; lia|]. }
  destruct l2 as [|x1 [|x2 [|x3 [|x4 l3]]]]; try done.
  destruct (hex4 x1 x2 x3 x4) as [z|]; [|done]. cbn [mbind option_bind] in Hs.
  assert (Halone : ('(s', r') ← scan_string l3; Some (Z.to_N z :: s', r')) = Some (s, r) ->
    (length r < length (c :: e :: x1 :: x2 :: x3 :: x4 :: l3))%nat).
  { apply Hrec. simpl. lia. }
  destruct l3 as [|b [|u [|y1 [|y2 [|y3 [|y4 l4]]]]]]; try by apply Halone.
  destruct (high_surrogate z && N.eqb b 92 && N.eqb u 117); [|by apply Halone].
  destruct (hex4 y1 y2 y3 y4) as [z2|]; [|done]. cbn [mbind option_bind] in Hs.
  destruct (low_surrogate z2); [|by apply Halone]. eapply Hrec; [|exact Hs]. simpl. lia.
Qed.

Lemma span_digits_length l : (length (span_digits l).2 <= length l)%nat.
Proof.
  induction l as [|c l IH]; simpl; [lia|]. destruct (ascii_digit c); [|simpl; lia].
  destruct (span_digits l). simpl in *. lia.
Qed.

Lemma int_part_length l ds r : int_part l = Some (ds, r) -> (length r < length l)%nat.
Proof.
  destruct l as [|c l]; [done|]. cbn [int_part]. destruct (N.eqb c 48); [intros [= _ <-]; simpl; lia|].
  destruct (ascii_digit c) eqn:Ec; [|done]. cbn [span_digits]. rewrite Ec.
  pose proof (span_digits_length l). destruct (span_digits l). intros [= _ <-]. simpl in *. lia.
Qed.

Lemma fraction_part_length l : (length (fraction_part l).2 <= length l)%nat.
Proof.
  destruct l as [|p [|d l]]; simpl; [lia..|]. destruct (_ && _); [|simpl; lia].
  pose proof (span_digits_length (d :: l)). simpl in *.
  destruct (ascii_digit d); [destruct (span_digits l)|]; simpl in *; lia.
Qed.

Lemma exponent_part_length l : (length (exponent_part l).2 <= length l)%nat.
Proof.
  destruct l as [|e l1]; [simpl; lia|]. unfold exponent_part. destruct (_ || _); [|simpl; lia].
  set (q := match l1 with
            | s :: l2 => if N.eqb s 43 || N.eqb s 45 then ([s], l2) else ([], l1)
            | [] => ([], l1)
            end).
  assert (Hq : (length q.2 <= length l1)%nat)
    by (unfold q; destruct l1 as [|s l2]; [done|]; destruct (_ || _); simpl; lia).
  destruct q as [sign l2]. pose proof (span_digits_length l2).
  destruct (span_digits l2) as [[|d ds] r]; simpl in *; lia.
Qed.

Lemma scan_number_length l j r : scan_number l = Some (j, r) -> (length r < length l)%nat.
Proof.
  unfold scan_number.
  set (q := match l with
            | c :: l' => if N.eqb c 45 then ([c], l') else ([], l)
            | [] => ([], l)
            end).
  assert (Hq : (length q.2 <= length l)%nat)
    by (unfold q; destruct l as [|c l']; [done|]; destruct (N.eqb c 45); simpl; lia).
  destruct q as [minus l0]. cbn [snd] in Hq.
  destruct (int_part l0) as [[ds l1]|] eqn:Ei; [|done]. apply int_part_length in Ei.
  cbn [mbind option_bind].
  pose proof (fraction_part_length l1) as Hf. destruct (fraction_part l1) as [fraction l2].
  pose proof (exponent_part_length l2) as He. destruct (exponent_part l2) as [exponent l3].
  cbn [snd] in *. assert (Hr : (length l3 < length l)%nat) by lia. clear -Hr.
  destruct fraction, exponent; [by intros [= _ <-]|..];
    (destruct (parse_float _); [|done]; by intros [= _ <-]).
Qed.

Lemma keyword_length word j l j' r :
  word <> [] -> keyword word j l = Some (j', r) -> (length r < length l)%nat.
Proof.
  intros Hw. unfold keyword. case_bool_decide as Hp; [|done]. intros [= _ <-].
  apply prefix_length in Hp. rewrite length_skipn. destruct word; [done|]. simpl in *. lia.
Qed.

Lemma scan_plain_length c l j r : scan_plain c l = Some (j, r) -> (length r < length l)%nat.
Proof.
  unfold scan_plain.
  repeat match goal with |- context [if ?b then _ else _] => destruct b end;
    first [by apply keyword_length|by apply scan_number_length].
Qed.

(** A scan of a value or of a list's items leaves less; so do an object's members. *)
Lemma scan_length f :
  (forall l j r, scan_once f l = Some (j, r) -> (length r < length l)%nat) /\
  (forall d l j r, scan_members f d l = Some (j, r) -> (length r < length l)%nat) /\
  (forall items l j r, scan_items f items l = Some (j, r) -> (length r < length l)%nat).
Proof.
  induction f as [|f (IHo & IHm & IHi)]; [done|]. split; [|split].
  - intros [|c l1] j r; [done|]. cbn [scan_once].
    destruct (N.eqb c 34).
    { destruct (scan_string l1) as [[s r']|] eqn:Es; [|done]. apply scan_string_length in Es.
      intros [= _ <-]. simpl. lia. }
    pose proof (skip_space_length l1) as Hsp.
    destruct (N.eqb c 123); [|destruct (N.eqb c 91); [|apply scan_plain_length]];
      (destruct (skip_space l1) as [|x r0]; [done|]); simpl in Hsp.
    + destruct (N.eqb x 125); [intros [= _ <-]; simpl; lia|].
      intros Hr%IHm. simpl in *. lia.
    + destruct (N.eqb x 93); [intros [= _ <-]; simpl; lia|].
      intros Hr%IHi. simpl in *. lia.
  - intros d [|c l1] j r; [done|]. cbn [scan_members]. destruct (N.eqb c 34); [|done].
    destruct (scan_string l1) as [[k l2]|] eqn:Es; [|done]. apply scan_string_length in Es.
    cbn [mbind option_bind]. pose proof (skip_space_length l2) as H2.
    destruct (skip_space l2) as [|x l3]; [done|]. destruct (N.eqb x 58); [|done].
    pose proof (skip_space_length l3) as H3.
    destruct (scan_once f (skip_space l3)) as [[v l4]|] eqn:Ev; [|done]. apply IHo in Ev.
    cbn [mbind option_bind]. pose proof (skip_space_length l4) as H4.
    destruct (skip_space l4) as [|y r0]; [done|]. simpl in *.
    destruct (N.eqb y 125); [intros [= _ <-]; lia|]. destruct (N.eqb y 44); [|done].
    pose proof (skip_space_length r0). intros Hr%IHm. lia.
  - intros items l j r. cbn [scan_items].
    destruct (scan_once f l) as [[v l1]|] eqn:Ev; [|done]. apply IHo in Ev. cbn [mbind option_bind].
    pose proof (skip_space_length l1) as H1. destruct (skip_space l1) as [|y r0]; [done|].
    simpl in H1. destruct (N.eqb y 93); [intros [= _ <-]; lia|]. destruct (N.eqb y 44); [|done].
    pose proof (skip_space_length r0). intros Hr%IHi. lia.
Qed.

(** Fuel past twice the length of the text changes nothing. *)
Lemma scan_fuel n :
  (forall l f g, (2 * length l <= n)%nat -> (2 * length l <= f)%nat -> (2 * length l <= g)%nat ->
    scan_once f l = scan_once g l) /\
  (forall d l f g, (2 * length l < n)%nat -> (2 * length l < f)%nat -> (2 * length l < g)%nat ->
    scan_members f d l = scan_members g d l) /\
  (forall items l f g, (2 * length l < n)%nat -> (2 * length l < f)%nat -> (2 * length l < g)%nat ->
    scan_items f items l = scan_items g items l).
Proof.
  induction n as [|n (IHo & IHm & IHi)].
  { split; [|split; intros; lia]. intros [|c l] f g; simpl; [|lia]. by destruct f, g. }
  split; [|split].
  - intros [|c l1] f g Hn Hf Hg; [by destruct f, g|]. simpl in *.
    destruct f as [|f], g as [|g]; try lia. cbn [scan_once].
    pose proof (skip_space_length l1) as Hsp.
    destruct (N.eqb c 34); [done|]. destruct (N.eqb c 123); [|destruct (N.eqb c 91); [|done]];
      (destruct (skip_space l1) as [|x r0]; [done|]); simpl in Hsp.
    + destruct (N.eqb x 125); [done|]. apply IHm; simpl; lia.
    + destruct (N.eqb x 93); [done|]. apply IHi; simpl; lia.
  - intros d [|c l1] f g Hn Hf Hg; [by destruct f, g|]. simpl in *.
    destruct f as [|f], g as [|g]; try lia. cbn [scan_members]. destruct (N.eqb c 34); [|done].
    destruct (scan_string l1) as [[k l2]|] eqn:Es; [|done]. apply scan_string_length in Es.
    cbn [mbind option_bind]. pose proof (skip_space_length l2) as H2.
    destruct (skip_space l2) as [|x l3]; [done|]. destruct (N.eqb x 58); [|done].
    pose proof (skip_space_length l3) as H3. simpl in *.
    rewrite (IHo (skip_space l3) f g) by lia.
    destruct (scan_once g (skip_space l3)) as [[v l4]|] eqn:Ev; [|done].
    apply scan_length in Ev. cbn [mbind option_bind]. pose proof (skip_space_length l4) as H4.
    destruct (skip_space l4) as [|y r0]; [done|]. simpl in *.
    destruct (N.eqb y 125); [done|]. destruct (N.eqb y 44); [|done].
    pose proof (skip_space_length r0). apply IHm; lia.
  - intros items l f g Hn Hf Hg. destruct f as [|f], g as [|g]; try lia. cbn [scan_items].
    rewrite (IHo l f g) by lia. destruct (scan_once g l) as [[v l1]|] eqn:Ev; [|done].
    apply scan_length in Ev. cbn [mbind option_bind].
    pose proof (skip_space_length l1) as H1. destruct (skip_space l1) as [|y r0]; [done|].
    simpl in H1. destruct (N.eqb y 93); [done|]. destruct (N.eqb y 44); [|done].
    pose proof (skip_space_length r0). apply IHi; lia.
Qed.

Lemma scan_once_enough l f : (2 * length l <= f)%nat -> scan_once f l = scan_once (2 * length l) l.
Proof. intros Hf. by eapply scan_fuel. Qed.

End text.

(** * JSON round trips

    A document that is printed as ASCII JSON is read back as it was, provided its
    strings are proper Unicode text, the keys of its objects are distinct and the
    representation of each of its floats reads back. *)

#[local] Ltac Zify.zify_post_hook ::= Z.to_euclidean_division_equations.

(** A code point that is no surrogate *)
Definition scalar_code (c : N) : Prop :=
  Z.of_N c < 1114112 /\ high_surrogate (Z.of_N c) = false /\ low_surrogate (Z.of_N c) = false.

Definition unicode_text (s : pystr) : Prop := Forall scalar_code (codes s).

Lemma unicode_text_check s :
  forallb (fun c => (Z.of_N c <? 1114112) && negb (high_surrogate (Z.of_N c))
                    && negb (low_surrogate (Z.of_N c))) (codes s) = true -> unicode_text s.
Proof.
  rewrite forallb_forall. intros Hs. apply Forall_forall. intros c Hc%list_elem_of_In%Hs.
  unfold scalar_code. bdestruct. destruct (high_surrogate _), (low_surrogate _); try done. lia.
Qed.

(** What may follow a value inside a printed document *)
Definition stops (l : list N) : Prop :=
  match l with [] => True | c :: _ => c = 44%N \/ c = 93%N \/ c = 125%N end.

(** ** Strings *)

Lemma hex_digit_read z : 0 <= z < 16 -> json_hex (hex_digit z) = Some z.
Proof.
  intros Hz. assert (Hall : forallb (fun n => bool_decide
    (json_hex (hex_digit (Z.of_nat n)) = Some (Z.of_nat n))) (seq 0 16) = true) by (vm_compute; done).
  rewrite forallb_forall in Hall. specialize (Hall (Z.to_nat z)).
  rewrite Z2Nat.id, bool_decide_eq_true in Hall by lia. apply Hall, in_seq. lia.
Qed.

Lemma hex4_read z :
  0 <= z < 65536 ->
  hex4 (hex_digit (z / 4096 mod 16)) (hex_digit (z / 256 mod 16)) (hex_digit (z / 16 mod 16))
    (hex_digit (z mod 16)) = Some z.
Proof.
  intros Hz. unfold hex4. rewrite !hex_digit_read by lia. cbn [mbind option_bind]. f_equal. lia.
Qed.

Lemma scan_u_step x1 x2 x3 x4 l3 :
  scan_string (92%N :: 117%N :: x1 :: x2 :: x3 :: x4 :: l3) =
    (z ← hex4 x1 x2 x3 x4;
     let alone := '(s, r) ← scan_string l3; Some (Z.to_N z :: s, r) in
     match l3 with
     | b :: u :: y1 :: y2 :: y3 :: y4 :: l4 =>
         if high_surrogate z && N.eqb b 92 && N.eqb u 117 then
           z2 ← hex4 y1 y2 y3 y4;
           if low_surrogate z2 then
             '(s, r) ← scan_string l4;
             Some (Z.to_N (65536 + Z.shiftl (z - 55296) 10 + (z2 - 56320)) :: s, r)
           else alone
         else alone
     | _ => alone
     end).
Proof. done. Qed.

(** One [\uXXXX] that is no high surrogate *)
Lemma scan_u z l :
  0 <= z < 65536 -> high_surrogate z = false ->
  scan_string (json_u z ++ l) = ('(s, r) ← scan_string l; Some (Z.to_N z :: s, r)).
Proof.
  intros Hz Hh. unfold json_u. cbn [app]. rewrite scan_u_step, hex4_read by done.
  cbn [mbind option_bind]. cbv zeta. rewrite Hh. cbn [andb].
  by destruct l as [|b [|u [|y1 [|y2 [|y3 [|y4 l4]]]]]].
Qed.

(** Two of them that join *)
Lemma scan_pair z1 z2 l :
  high_surrogate z1 = true -> low_surrogate z2 = true ->
  scan_string (json_u z1 ++ json_u z2 ++ l) =
    ('(s, r) ← scan_string l;
     Some (Z.to_N (65536 + Z.shiftl (z1 - 55296) 10 + (z2 - 56320)) :: s, r)).
Proof.
  intros H1 H2. assert (R1 : 0 <= z1 < 65536) by (unfold high_surrogate in H1; lia).
  assert (R2 : 0 <= z2 < 65536) by (unfold low_surrogate in H2; lia).
  unfold json_u. cbn [app]. rewrite scan_u_step, (hex4_read z1), (hex4_read z2) by done.
  cbn [mbind option_bind]. cbv zeta. rewrite H1. cbn [andb N.eqb Pos.eqb].
  cbn [mbind option_bind]. by rewrite H2.
Qed.

Lemma land_1023 z : 0 <= z -> Z.land z 1023 = z mod 1024.
Proof. intros Hz. change 1023 with (Z.ones 10). rewrite Z.land_ones by lia. done. Qed.

Lemma scan_escaped c l :
  scalar_code c ->
  scan_string (json_escape_ascii c ++ l) = ('(s, r) ← scan_string l; Some (c :: s, r)).
Proof.
  intros (Hmax & Hh & Hl). unfold json_escape_ascii.
  destruct (N.eqb_spec c 34) as [->|Hq]; [done|]. destruct (N.eqb_spec c 92) as [->|Hb]; [done|].
  repeat (match goal with |- context [N.eqb ?c ?k] =>
    let E := fresh in destruct (N.eqb_spec c k) as [->|E]; [done|] end).
  destruct (N.leb 32 c && N.leb c 126)%bool eqn:Ep.
  { cbn [app scan_string]. rewrite (proj2 (N.eqb_neq _ _) Hq), (proj2 (N.eqb_neq _ _) Hb).
    apply andb_true_iff in Ep as [Ep%N.leb_le _]. by rewrite (proj2 (N.ltb_ge c 32) Ep). }
  cbv zeta. destruct (Z.of_N c <? 65536) eqn:E16.
  { rewrite scan_u by (done || lia). by rewrite N2Z.id. }
  rewrite <- app_assoc.
  rewrite Z.shiftr_div_pow2, !land_1023 by lia. change (2 ^ 10) with 1024.
  rewrite scan_pair.
  - rewrite Z.shiftl_mul_pow2 by lia. change (2 ^ 10) with 1024.
    replace (65536 + _ + _) with (Z.of_N c) by lia. by rewrite N2Z.id.
  - unfold high_surrogate. lia.
  - unfold low_surrogate. lia.
Qed.

Lemma scan_quoted s l :
  unicode_text s ->
  scan_string (concat (map json_escape_ascii (codes s)) ++ 34%N :: l) = Some (codes s, l).
Proof.
  unfold unicode_text. destruct s as [cs]. cbn [codes]. induction 1 as [|c cs Hc _ IH]; [done|].
  cbn [map concat]. rewrite <- app_assoc, scan_escaped by done. by rewrite IH.
Qed.

(** ** Numbers *)

Definition digit_code (c : N) : Prop := is_Some (ascii_digit c).

Lemma digit_code_of z : 0 <= z <= 9 -> digit_code (Z.to_N (48 + z)).
Proof.
  intros Hz. unfold digit_code, ascii_digit. rewrite (proj2 (N.leb_le _ _)) by lia.
  rewrite (proj2 (N.leb_le _ _)) by lia. by eexists.
Qed.

Lemma digits_int_snoc ds c : digits_int (ds ++ [c]) = 10 * digits_int ds + (Z.of_N c - 48).
Proof. unfold digits_int. by rewrite fold_left_app. Qed.

(** Printing in decimal: digits, without a zero in front, of the same value *)
Lemma dec_digits_spec f z acc :
  (1 <= f)%nat -> 0 <= z < 2 ^ Z.of_nat f ->
  exists ds, dec_digits f z acc = ds ++ acc /\ Forall digit_code ds /\ digits_int ds = z /\
    (z = 0 -> ds = [48%N]) /\ (0 < z -> exists c r, ds = c :: r /\ c <> 48%N).
Proof.
  revert z acc. induction f as [|f IH]; intros z acc Hf Hz; [lia|].
  cbn [dec_digits]. cbv zeta. destruct (Z.eqb_spec (z / 10) 0) as [E|E].
  - exists [Z.to_N (48 + z mod 10)]. split; [done|]. split; [constructor; [|done]|].
    { apply digit_code_of. lia. }
    split; [unfold digits_int; simpl; lia|]. split; [by intros ->|].
    intros Hp. eexists _, []. split; [done|]. lia.
  - rewrite Nat2Z.inj_succ, Z.pow_succ_r in Hz by lia.
    destruct (IH (z / 10) (Z.to_N (48 + z mod 10) :: acc)) as (ds & He & Hd & Hv & _ & Hh).
    { destruct f; [simpl in Hz; lia|lia]. }
    { lia. }
    exists (ds ++ [Z.to_N (48 + z mod 10)]). rewrite He, <- app_assoc. split; [done|].
    split; [apply Forall_app; split; [done|]; constructor; [apply digit_code_of; lia|done]|].
    split; [rewrite digits_int_snoc, Hv; lia|]. split; [lia|]. intros _.
    destruct Hh as (c & r & -> & Hc); [lia|]. by exists c, (r ++ [Z.to_N (48 + z mod 10)]).
Qed.

Lemma span_digits_app ds l :
  Forall digit_code ds -> match l with c :: _ => ascii_digit c = None | [] => True end ->
  span_digits (ds ++ l) = (ds, l).
Proof.
  intros Hd Hl. induction Hd as [|c ds Hc _ IH]; cbn [app span_digits].
  - destruct l as [|c l]; [done|]. cbn [span_digits]. by rewrite Hl.
  - destruct Hc as [x Hx]. by rewrite Hx, IH.
Qed.

Lemma stops_no_digit l : stops l -> match l with c :: _ => ascii_digit c = None | [] => True end.
Proof. destruct l as [|c l]; [done|]. by intros [-> | [-> | ->]]. Qed.

Lemma stops_no_fraction l : stops l -> fraction_part l = ([], l).
Proof. destruct l as [|c [|d l]]; [done..|]. by intros [-> | [-> | ->]]. Qed.

Lemma stops_no_exponent l : stops l -> exponent_part l = ([], l).
Proof. destruct l as [|c l]; [done|]. by intros [-> | [-> | ->]]. Qed.

Lemma int_part_digits ds l :
  Forall digit_code ds -> stops l ->
  (ds = [48%N] \/ exists c r, ds = c :: r /\ c <> 48%N) ->
  int_part (ds ++ l) = Some (ds, l).
Proof.
  intros Hd Hl Hz. destruct Hz as [->|(c & r & -> & Hc)]; [done|]. cbn [app int_part].
  rewrite (proj2 (N.eqb_neq c 48) Hc). destruct (proj1 (Forall_cons _ _ _) Hd) as [[x Hx] _]. rewrite Hx.
  f_equal. by apply (span_digits_app (c :: r)), stops_no_digit.
Qed.

Section round.
Context `{!FloatRepr, !PyNumbers}.

Lemma scan_number_int z l : stops l -> scan_number (codes (py_str_int z) ++ l) = Some (JInt z, l).
Proof.
  intros Hl. unfold py_str_int. set (f := S (Z.to_nat (Z.log2 (Z.abs z)))).
  destruct (dec_digits_spec f (Z.abs z) []) as (ds & -> & Hd & Hv & Hz0 & Hz1).
  { lia. }
  { split; [lia|]. unfold f. rewrite Nat2Z.inj_succ, Z2Nat.id by apply Z.log2_nonneg.
    destruct (Z.eq_dec (Z.abs z) 0) as [->|Hn]; [done|]. apply Z.log2_spec. lia. }
  rewrite app_nil_r. assert (Hi : int_part (ds ++ l) = Some (ds, l)).
  { apply int_part_digits; [done..|]. destruct (Z.eq_dec (Z.abs z) 0); [left; auto|right; apply Hz1; lia]. }
  assert (Hne : forall c r, ds = c :: r -> N.eqb c 45 = false).
  { intros c r ->. apply Forall_cons in Hd as [[x Hx] _]. apply N.eqb_neq. by intros ->. }
  unfold scan_number. destruct (z <? 0) eqn:Es; cbn [codes app N.eqb Pos.eqb].
  - rewrite Hi. cbn [mbind option_bind N.eqb Pos.eqb].
    rewrite stops_no_fraction, stops_no_exponent by done. cbv zeta. rewrite Hv. f_equal. f_equal.
    f_equal. lia.
  - assert (Hsplit : match ds ++ l with
            | c :: l' => if N.eqb c 45 then ([c], l') else ([], ds ++ l)
            | [] => ([], ds ++ l) end = ([], ds ++ l)).
    { destruct ds as [|c r]; [|cbn [app]; by rewrite (Hne c r)].
      destruct (Z.eq_dec (Z.abs z) 0) as [Hz|Hz]; [by specialize (Hz0 Hz)|].
      destruct Hz1 as (? & ? & ? & _); [lia|done]. }
    rewrite Hsplit, Hi. cbn [mbind option_bind].
    rewrite stops_no_fraction, stops_no_exponent by done. cbv zeta. rewrite Hv. f_equal. f_equal.
    f_equal. lia.
Qed.

(** ** Scanning is the same before a separator *)

Lemma span_digits_extend t ds r l :
  span_digits t = (ds, r) -> stops l -> span_digits (t ++ l) = (ds, r ++ l).
Proof.
  intros Ht Hl. revert ds r Ht. induction t as [|c t IH]; intros ds r; cbn [app span_digits].
  - intros [= <- <-]. by apply (span_digits_app []), stops_no_digit.
  - destruct (ascii_digit c); [|by intros [= <- <-]]. destruct (span_digits t) as [ds' r'].
    intros [= <- <-]. by rewrite (IH ds' r').
Qed.

Lemma int_part_extend t ds r l :
  int_part t = Some (ds, r) -> stops l -> int_part (t ++ l) = Some (ds, r ++ l).
Proof.
  destruct t as [|c t]; [done|]. cbn [app int_part].
  destruct (N.eqb c 48); [by intros [= <- <-]|]. destruct (ascii_digit c); [|done].
  intros [= Ht] Hl. f_equal. by apply (span_digits_extend (c :: t)).
Qed.

Lemma fraction_part_extend t ds r l :
  fraction_part t = (ds, r) -> stops l -> fraction_part (t ++ l) = (ds, r ++ l).
Proof.
  destruct t as [|p [|d t]]; intros Ht Hl.
  - injection Ht as <- <-. by apply stops_no_fraction.
  - injection Ht as <- <-. destruct l as [|c l]; [done|]. cbn [app fraction_part].
    apply stops_no_digit in Hl. cbn [stops] in Hl. rewrite Hl.
    rewrite (bool_decide_eq_false_2 (is_Some None)) by by intros []. by rewrite andb_false_r.
  - cbn [app fraction_part tail] in *. destruct (_ && _); [|by injection Ht as <- <-].
    destruct (span_digits (d :: t)) as [ds' r'] eqn:E. injection Ht as <- <-.
    change (d :: t ++ l) with ((d :: t) ++ l). by rewrite (span_digits_extend _ ds' r').
Qed.

Lemma exponent_part_extend t ds r l :
  exponent_part t = (ds, r) -> stops l -> exponent_part (t ++ l) = (ds, r ++ l).
Proof.
  destruct t as [|x t]; intros Ht Hl; [injection Ht as <- <-; by apply stops_no_exponent|].
  cbn [app exponent_part] in *. destruct (_ || _); [|by injection Ht as <- <-].
  assert (Hs : forall sign t', (let '(ds', r') := span_digits t' in
      match ds' with [] => ([], x :: t) | _ => (x :: sign ++ ds', r') end) = (ds, r) ->
    (let '(ds', r') := span_digits (t' ++ l) in
      match ds' with [] => ([], x :: t ++ l) | _ => (x :: sign ++ ds', r') end) = (ds, r ++ l)).
  { intros sign t'. destruct (span_digits t') as [ds' r'] eqn:E.
    rewrite (span_digits_extend _ ds' r') by done. destruct ds'; by intros [= <- <-]. }
  destruct t as [|s t]; cbn [app] in *.
  - injection Ht as <- <-. destruct l as [|c l]; [done|].
    assert (Hsign : (N.eqb c 43 || N.eqb c 45)%bool = false) by (by destruct Hl as [-> | [-> | ->]]).
    rewrite Hsign. apply stops_no_digit in Hl. cbn [span_digits]. cbn in Hl. by rewrite Hl.
  - destruct (N.eqb s 43 || N.eqb s 45)%bool.
    + specialize (Hs [s] t). cbn [app] in *. destruct (span_digits t) as [[|? ?] ?], (span_digits (t ++ l)) as [[|? ?] ?]; auto.
    + specialize (Hs [] (s :: t)). cbn [app] in *.
      destruct (span_digits (s :: t)) as [[|? ?] ?], (span_digits (s :: t ++ l)) as [[|? ?] ?]; auto.
Qed.

Lemma scan_number_extend t j l :
  scan_number t = Some (j, []) -> stops l -> scan_number (t ++ l) = Some (j, l).
Proof.
  intros Ht Hl. unfold scan_number in *.
  destruct t as [|c t]; [done|]. cbn [app].
  set (q := if N.eqb c 45 then ([c], t) else ([], c :: t)) in Ht.
  assert (Hq : (if N.eqb c 45 then ([c], t ++ l) else ([], c :: t ++ l)) = (q.1, q.2 ++ l)).
  { unfold q. by destruct (N.eqb c 45). }
  rewrite Hq. destruct q as [minus l0]. cbn [fst snd].
  destruct (int_part l0) as [[ds l1]|] eqn:Ei; [|done]. rewrite (int_part_extend _ ds l1) by done.
  cbn [mbind option_bind] in *.
  destruct (fraction_part l1) as [fraction l2] eqn:Ef. rewrite (fraction_part_extend _ fraction l2) by done.
  destruct (exponent_part l2) as [exponent l3] eqn:Ee. rewrite (exponent_part_extend _ exponent l3) by done.
  destruct fraction, exponent; [by injection Ht as <- ->|..];
    (destruct (parse_float _); [|done]; by injection Ht as <- ->).
Qed.

(** A number starts with a digit or a minus sign, and a minus with a digit. *)
Lemma scan_number_head t j r :
  scan_number t = Some (j, r) -> exists c t', t = c :: t' /\
    (digit_code c \/ (c = 45%N /\ exists d t'', t' = d :: t'' /\ digit_code d)).
Proof.
  unfold scan_number. destruct t as [|c t]; [done|].
  assert (Hi : forall l ds r, int_part l = Some (ds, r) -> exists d t', l = d :: t' /\ digit_code d).
  { intros [|d l] ds0 r0; [done|]. cbn [int_part]. intros Hd. exists d, l. split; [done|].
    destruct (N.eqb_spec d 48) as [->|_]; [by eexists|]. unfold digit_code.
    by destruct (ascii_digit d). }
  destruct (N.eqb_spec c 45) as [->|_].
  - destruct (int_part t) as [[ds l1]|] eqn:Ei; [|done]. intros _.
    apply Hi in Ei as (d & t' & -> & Hd). exists 45%N, (d :: t'). split; [done|]. right.
    split; [done|]. by exists d, t'.
  - destruct (int_part (c :: t)) as [[ds l1]|] eqn:Ei; [|done]. intros _.
    apply Hi in Ei as (d & t' & [= <- <-] & Hd). exists c, t. split; [done|]. by left.
Qed.

Lemma digit_code_range c : digit_code c -> N.le 48 c /\ N.le c 57.
Proof.
  unfold digit_code, ascii_digit. intros [x Hx]. destruct (N.leb_spec 48 c), (N.leb_spec c 57); done.
Qed.

(** The scanner takes the branch of numbers on them. *)
Lemma scan_once_number t j r f :
  scan_number t = Some (j, r) -> scan_once (S f) t = Some (j, r).
Proof.
  intros Hs. destruct (scan_number_head _ _ _ Hs) as (c & t' & -> & Hc).
  assert (Hn : forall k, k <> 45%N -> ~ (N.le 48 k /\ N.le k 57) -> N.eqb c k = false).
  { intros k Hk Hr. apply N.eqb_neq. intros ->. destruct Hc as [Hc%digit_code_range|[? _]]; done. }
  cbn [scan_once]. unfold scan_plain. rewrite !Hn by (done || lia).
  rewrite bool_decide_eq_false_2; [done|]. intros [k Hk]. cbn [codes app] in Hk.
  injection Hk as -> ->. destruct Hc as [Hc%digit_code_range|(_ & d & t'' & [= <- _] & Hd)]; [lia|].
  apply digit_code_range in Hd. lia.
Qed.

(** ** Documents *)
#[local] Set Default Proof Using "All".

Definition float_reads (f : float64) : Prop :=
  match f with
  | S754_nan | S754_infinity _ => True
  | _ => scan_number (codes (float_repr f)) = Some (JFloat f, [])
  end.

(** The documents that survive the trip *)
Inductive document_ok : json -> Prop :=
| ok_null : document_ok JNull
| ok_bool b : document_ok (JBool b)
| ok_int z : document_ok (JInt z)
| ok_float f : float_reads f -> document_ok (JFloat f)
| ok_str s : unicode_text s -> document_ok (JStr s)
| ok_list l : Forall document_ok l -> document_ok (JList l)
| ok_dict d : NoDup (dkeys d) -> Forall (fun kv => unicode_text kv.1 /\ document_ok kv.2) d ->
    document_ok (JDict d).

Definition reads_back (j : json) : Prop :=
  forall r f, stops r -> (2 * length (dumps_codes true j ++ r) <= f)%nat ->
    scan_once f (dumps_codes true j ++ r) = Some (j, r).

Lemma json_float_number f : float_reads f ->
  match f with S754_nan | S754_infinity _ => True | _ =>
    exists c t, json_float f = c :: t /\ (digit_code c \/ c = 45%N) end.
Proof.
  destruct f; try done; intros Hf;
    apply scan_number_head in Hf as (c & t & Hc & Hd); exists c, t; (split; [exact Hc|]); tauto.
Qed.

Lemma int_head z : exists c t, codes (py_str_int z) = c :: t /\ (digit_code c \/ c = 45%N).
Proof.
  pose proof (scan_number_int z [] I) as Hs. rewrite app_nil_r in Hs.
  apply scan_number_head in Hs as (c & t & Hc & Hd). exists c, t. tauto.
Qed.

Lemma number_char c : digit_code c \/ c = 45%N -> is_json_space c = false /\ c <> 93%N /\ c <> byte_order_mark.
Proof.
  unfold is_json_space, byte_order_mark. intros Hc. rewrite bool_decide_eq_false.
  assert (Hr : N.le 45 c /\ N.le c 57) by (destruct Hc as [Hc%digit_code_range|]; lia).
  split; [|split; lia]. rewrite !elem_of_cons, elem_of_nil. lia.
Qed.

(** A printed value starts with no white space, no bracket that closes a list and no
    byte order mark. *)
Lemma dumps_head j : document_ok j ->
  exists c t, dumps_codes true j = c :: t /\ is_json_space c = false /\ c <> 93%N /\
    c <> byte_order_mark.
Proof.
  destruct 1 as [|[]|z|f Hf|s Hs|l Hl|d Hd Hall]; cbn [dumps_codes]; try (by eexists _, _).
  - destruct (int_head z) as (c & t & -> & Hc). exists c, t. split; [done|]. by apply number_char.
  - pose proof (json_float_number f Hf) as Hn.
    destruct f as [sign|[]| |sign m e]; try (by eexists _, _);
      destruct Hn as (c & t & -> & Hc); exists c, t; (split; [done|]); by apply number_char.
Qed.

Lemma skip_space_head c t : is_json_space c = false -> skip_space (c :: t) = c :: t.
Proof. cbn [skip_space]. by intros ->. Qed.

Lemma skip_space_value j r : document_ok j -> skip_space (dumps_codes true j ++ r) = dumps_codes true j ++ r.
Proof. intros Hj. destruct (dumps_head j Hj) as (c & t & -> & Hc & _). by apply skip_space_head. Qed.

(** The printed items of a list and members of an object *)
Definition member_codes (kv : pystr * json) : list N :=
  json_quoted true kv.1 ++ [58; 32]%N ++ dumps_codes true kv.2.

Definition separated (parts : list (list N)) : list N := join_codes [44; 32]%N parts.

Lemma separated_cons x y l : separated (x :: y :: l) = x ++ 44%N :: 32%N :: separated (y :: l).
Proof. done. Qed.

(** After a comma, the next part *)
Lemma skip_separator x l r :
  (forall r', skip_space (x ++ r') = x ++ r') ->
  skip_space (32%N :: separated (x :: l) ++ r) = separated (x :: l) ++ r.
Proof.
  intros Hx. change (skip_space (32%N :: ?t)) with (skip_space t).
  destruct l as [|y l]; [apply Hx|]. rewrite separated_cons, <- app_assoc. apply Hx.
Qed.

Lemma items_read l : forall x items r f,
  Forall document_ok (x :: l) -> Forall reads_back (x :: l) ->
  (2 * length (separated (map (dumps_codes true) (x :: l)) ++ 93%N :: r) < f)%nat ->
  scan_items f items (separated (map (dumps_codes true) (x :: l)) ++ 93%N :: r)
    = Some (JList (items ++ x :: l), r).
Proof.
  induction l as [|y l IH]; intros x items r [|f] [Hok Hoks]%Forall_cons [Hx Hl]%Forall_cons Hf;
    try lia; cbn [scan_items].
  - change (separated (map (dumps_codes true) [x])) with (dumps_codes true x) in *.
    rewrite Hx; [done|by right; left|lia].
  - cbn [map] in Hf |- *. rewrite separated_cons, <- app_assoc in Hf |- *. cbn [app] in Hf |- *.
    rewrite Hx; [|by left|lia]. cbn [mbind option_bind]. rewrite skip_space_head by done.
    cbn [N.eqb Pos.eqb]. rewrite skip_separator.
    2: { intros r'. apply skip_space_value. by apply Forall_cons in Hoks as [? _]. }
    change (dumps_codes true y :: map (dumps_codes true) l) with (map (dumps_codes true) (y :: l)).
    rewrite IH; [by rewrite <- app_assoc|done|done|].
    cbn [map]. rewrite !length_app in *. cbn [length] in *. rewrite !length_app in *.
    cbn [length] in *. lia.
Qed.

(** One member, up to what follows its value *)
Lemma member_read k v acc rest f :
  unicode_text k -> document_ok v -> reads_back v -> stops rest ->
  (2 * length (member_codes (k, v) ++ rest) < S f)%nat ->
  scan_members (S f) acc (member_codes (k, v) ++ rest) =
    match skip_space rest with
    | y :: r => if N.eqb y 125 then Some (JDict (dset acc k v), r)
                else if N.eqb y 44 then scan_members f (dset acc k v) (skip_space r)
                else None
    | [] => None
    end.
Proof.
  intros Hk Hv Hr Hs Hf. unfold member_codes, json_quoted in *. cbn [fst snd app] in *.
  cbn [scan_members N.eqb Pos.eqb]. rewrite <- !app_assoc in *. cbn [app] in *.
  rewrite scan_quoted by done. cbn [mbind option_bind].
  rewrite skip_space_head by done. cbn [N.eqb Pos.eqb].
  change (skip_space (32%N :: ?t)) with (skip_space t). rewrite skip_space_value by done.
  rewrite Hr; [by destruct k|done|]. cbn [length] in Hf. rewrite length_app in Hf.
  cbn [length] in Hf. lia.
Qed.

Lemma dset_last (acc : jdict) k v d : NoDup (dkeys (acc ++ (k, v) :: d)) -> dset acc k v = acc ++ [(k, v)].
Proof.
  intros Hnd. apply dset_fresh, dget_None. unfold dkeys in *. rewrite map_app in Hnd.
  apply NoDup_app in Hnd as (_ & Hd & _). intros Hin. apply (Hd k Hin). left.
Qed.

Lemma members_read d : forall kv acc r f,
  NoDup (dkeys (acc ++ kv :: d)) ->
  Forall (fun kv => unicode_text kv.1 /\ document_ok kv.2 /\ reads_back kv.2) (kv :: d) ->
  (2 * length (separated (map member_codes (kv :: d)) ++ 125%N :: r) < f)%nat ->
  scan_members f acc (separated (map member_codes (kv :: d)) ++ 125%N :: r)
    = Some (JDict (acc ++ kv :: d), r).
Proof.
  induction d as [|kv' d IH]; intros [k v] acc r [|f] Hnd [(Hk & Hv & Hr) Hall]%Forall_cons Hf;
    try lia.
  - change (separated (map member_codes [(k, v)])) with (member_codes (k, v)) in *.
    rewrite member_read by (done || by right; right). rewrite skip_space_head by done.
    cbn [N.eqb Pos.eqb]. by erewrite dset_last.
  - cbn [map] in Hf |- *. rewrite separated_cons, <- app_assoc in Hf |- *. cbn [app] in Hf |- *.
    rewrite member_read by (done || by left). rewrite skip_space_head by done.
    cbn [N.eqb Pos.eqb]. erewrite dset_last by done. rewrite skip_separator by done.
    change (member_codes kv' :: map member_codes d) with (map member_codes (kv' :: d)).
    rewrite IH; [by rewrite <- app_assoc|by rewrite <- app_assoc|done|].
    cbn [map]. rewrite !length_app in *. cbn [length] in *. rewrite !length_app in *.
    cbn [length] in *. lia.
Qed.

Lemma keyword_read word j r : keyword word j (word ++ r) = Some (j, r).
Proof.
  unfold keyword. rewrite bool_decide_eq_true_2 by by exists r. by rewrite skipn_app, skipn_all, Nat.sub_diag.
Qed.

(** Every document is read back before a separator. *)
Lemma document_read j : document_ok j -> reads_back j.
Proof.
  assert (Hn : forall t j r f, scan_number (t ++ r) = Some (j, r) -> t <> [] ->
    (2 * length (t ++ r) <= f)%nat -> scan_once f (t ++ r) = Some (j, r)).
  { intros t j' r [|f] Hs Ht Hf; [destruct t; [done|simpl in Hf; lia]|]. by apply scan_once_number. }
  induction j as [|b|z|x|s|l IH|d IH] using json_nested_ind; intros Hok r f Hr Hf;
    (destruct f as [|f];
     [destruct (dumps_head _ Hok) as (c & t & Hd & _); rewrite Hd in Hf; simpl in Hf; lia|]);
    inversion Hok as [| | |x' Hx|s' Hs|l' Hl|d' Hd Hall]; subst.
  - apply (keyword_read (codes "null")).
  - destruct b; [apply (keyword_read (codes "true"))|apply (keyword_read (codes "false"))].
  - destruct (int_head z) as (c & t & Hc & _). apply Hn; [by apply scan_number_int| |done].
    cbn [dumps_codes]. by rewrite Hc.
  - destruct x as [sign|[]| |sign m e].
    2: { apply (keyword_read (codes "-Infinity")). }
    2: { apply (keyword_read (codes "Infinity")). }
    2: { apply (keyword_read (codes "NaN")). }
    all: apply Hn; [by apply scan_number_extend| |done];
      destruct (json_float_number _ Hx) as (c & t & Hc & _); cbn [dumps_codes]; by rewrite Hc.
  - cbn [dumps_codes]. unfold json_quoted. cbn [app scan_once N.eqb Pos.eqb].
    rewrite <- app_assoc. cbn [app]. rewrite scan_quoted by done. by destruct s.
  - cbn [dumps_codes app scan_once N.eqb Pos.eqb] in *. rewrite <- app_assoc in *. cbn [app] in *.
    fold (separated (map (dumps_codes true) l)) in *. destruct l as [|x l]; [done|].
    assert (Hsp : skip_space (separated (map (dumps_codes true) (x :: l)) ++ 93%N :: r)
      = separated (map (dumps_codes true) (x :: l)) ++ 93%N :: r).
    { apply (skip_separator _ _ (93%N :: r)). intros r'. apply skip_space_value.
      by apply Forall_cons in Hl as [? _]. }
    rewrite Hsp. destruct (dumps_head x) as (c & t & Hc & _ & H93 & _); [by apply Forall_cons in Hl as [? _]|].
    assert (Hhead : exists t', separated (map (dumps_codes true) (x :: l)) ++ 93%N :: r = c :: t').
    { destruct l; cbn [map]; [|rewrite separated_cons]; rewrite ?Hc; cbn; rewrite ?Hc; by eexists. }
    destruct Hhead as [t' Hhead]. rewrite Hhead, (proj2 (N.eqb_neq c 93) H93), <- Hhead.
    apply (items_read l x []); [done| |].
    + rewrite Forall_forall in *. auto.
    + cbn [length] in Hf. lia.
  - cbn [dumps_codes app scan_once N.eqb Pos.eqb] in *. rewrite <- app_assoc in *. cbn [app] in *.
    change (join_codes _ _) with (separated (map member_codes d)) in *. destruct d as [|kv d]; [done|].
    assert (Hhead : exists t', separated (map member_codes (kv :: d)) ++ 125%N :: r = 34%N :: t').
    { destruct d; cbn [map]; [|rewrite separated_cons]; by eexists. }
    destruct Hhead as [t' Hhead]. rewrite Hhead, skip_space_head by done. cbn [N.eqb Pos.eqb].
    rewrite <- Hhead. apply (members_read d kv []); [done| |].
    + rewrite Forall_forall in *. intros kv' Hkv. destruct (Hall kv' Hkv) as [? Hok']. auto.
    + cbn [length] in Hf. lia.
Qed.

(** [json.loads(json.dumps(j)) == j] *)
Lemma json_round_trip j : document_ok j -> json_loads (json_dumps true j) = Some j.
Proof.
  intros Hok. unfold json_loads, json_dumps. cbn [codes].
  destruct (dumps_head j Hok) as (c & t & Hd & Hc & _ & Hbom). rewrite Hd.
  rewrite (proj2 (N.eqb_neq _ _) Hbom), skip_space_head, <- Hd by done.
  pose proof (document_read j Hok [] (2 * length (dumps_codes true j))%nat I) as Hr.
  rewrite app_nil_r in Hr. by rewrite Hr.
Qed.

End round.
