(* ===== verification/MemoryPlan.v ===== *)
(** * Planning the memory of a long context

    The part of [utils/llm/model_manager.py] that decides with which runtime profile a 64K
    context is started: the size of a key/value cache as llama.cpp allocates it, the estimate
    of a runtime's memory, the profiles the installed runtime supports, and the profile tried
    after one has failed.  A dictionary of diagnostics is a record whose fields are its keys. *)

From S2P Require Import Prelude PyFloat PyStr PyDict PyText Json Gguf.
From Stdlib Require Import Floats.SpecFloat.

(** ** Batch profiles *)

Record batch_values : Set := mkBatch { n_batch : Z; n_ubatch : Z }.

Definition QWEN_64K_BATCH_PROFILES : dict pystr batch_values :=
  [("safe", mkBatch 256 128); ("balanced", mkBatch 512 256); ("experimental", mkBatch 1024 512)]%pystr.

Definition QWEN_64K_BATCH_PROFILE_DEFAULT : pystr := "balanced".

Definition QWEN_64K_RUNTIME_PROFILE_F16 : pystr := "qwen64k_f16_fa_small_batch".
Definition QWEN_64K_RUNTIME_PROFILE_Q8 : pystr := "qwen64k_kv_q8_fa_small_batch".
Definition QWEN_64K_RUNTIME_PROFILE_Q4 : pystr := "qwen64k_kv_q4_fa_small_batch".

Definition normalize_qwen_64k_batch_profile (value : json) : pystr :=
  match value with
  | JStr s => if dmem QWEN_64K_BATCH_PROFILES s then s else QWEN_64K_BATCH_PROFILE_DEFAULT
  | _ => QWEN_64K_BATCH_PROFILE_DEFAULT
  end.

Definition small_batch_ids : dict pystr pystr :=
  [("q8", QWEN_64K_RUNTIME_PROFILE_Q8); ("f16", QWEN_64K_RUNTIME_PROFILE_F16);
   ("q4", QWEN_64K_RUNTIME_PROFILE_Q4)]%pystr.

Definition _qwen_64k_profile_id (kv_precision batch_profile : pystr) : plan_error + pystr :=
  if bool_decide (batch_profile = "safe"%pystr) then
    match dget small_batch_ids kv_precision with
    | Some profile_id => inr profile_id
    | None => inl (KeyError kv_precision)
    end
  else
    let prefix := if bool_decide (kv_precision = "f16"%pystr) then "qwen64k_f16"%pystr
                  else ("qwen64k_kv_" +++ kv_precision)%pystr in
    inr (prefix +++ "_fa_" +++ batch_profile +++ "_batch")%pystr.

(** ** Checked arithmetic *)

Definition int64_max : Z := Z.shiftl 1 63 - 1.

Definition _checked_positive_int (value : meta_value) (name : pystr) (maximum : Z) : plan_error + Z :=
  match value with
  | MInt result =>
      if (result <=? 0) || (maximum <? result) then inl (ValueError (name +++ "_invalid"))
      else inr result
  | _ => inl (ValueError (name +++ "_invalid"))
  end.

Definition _checked_add (left right : Z) (name : pystr) (maximum : Z) : plan_error + Z :=
  let result := left + right in
  if maximum <? result then inl (OverflowError (name +++ "_overflow")) else inr result.

Definition _checked_mul (left right : Z) (name : pystr) (maximum : Z) : plan_error + Z :=
  let result := left * right in
  if maximum <? result then inl (OverflowError (name +++ "_overflow")) else inr result.

Definition _align_up (value alignment maximum : Z) : plan_error + Z :=
  let? value := _checked_positive_int (MInt value) "value" maximum in
  let? alignment := _checked_positive_int (MInt alignment) "alignment" (Z.shiftl 1 20) in
  let? padded := _checked_add value (alignment - 1) "aligned_value" maximum in
  inr (padded / alignment * alignment).

(** ** GGML tensors *)

Record layout : Set := mkLayout { block_size : Z; type_size : Z; ggml_type : pystr }.

Definition GGML_KV_TYPE_LAYOUTS : dict pystr layout :=
  [("f16", mkLayout 1 2 "F16"); ("q8", mkLayout 32 34 "Q8_0"); ("q4", mkLayout 32 18 "Q4_0")]%pystr.

Definition GGML_KV_BACKEND_ALIGNMENT_BYTES : dict pystr Z :=
  [("cpu", 32); ("metal", 32); ("cuda", 128)]%pystr.

Definition GGML_KV_CONTEXT_ALLOCATION_ALIGNMENT_TOKENS : Z := 256.
Definition GGML_CUDA_QUANTIZED_MATRIX_ROW_PADDING : Z := 512.

(** The bound of [_checked_positive_int] where the code names none *)
Definition count_max : Z := Z.shiftl 1 40.

(** [str(x)] of a list or a dictionary *)
Class ContainerText : Type := container_text : json -> pystr.

Section plan.
Context {uni : PyUnicode} {frepr : FloatRepr} {ctext : ContainerText}.

Definition layout_of (ggml_type : pystr) : plan_error + layout :=
  match dget GGML_KV_TYPE_LAYOUTS (py_lower ggml_type) with
  | Some l => inr l
  | None => inl (ValueError "ggml_type_unsupported")
  end.

Definition _ggml_row_size_bytes (element_count : Z) (ggml_type : pystr) : plan_error + Z :=
  let? element_count := _checked_positive_int (MInt element_count) "element_count" count_max in
  let? l := layout_of ggml_type in
  if negb (element_count mod block_size l =? 0)
  then inl (ValueError "ggml_row_width_not_block_divisible")
  else
    let blocks := element_count / block_size l in
    _checked_mul blocks (type_size l) "ggml_row_size_bytes" int64_max.

(** [str(x)] *)
Definition text_of (j : json) : pystr :=
  match hashable j with Some x => scalar_text x | None => container_text j end.

(** [str(x or '')] *)
Definition text_or_empty (j : json) : pystr := if truthy j then text_of j else "".

Definition _normalize_kv_backend (backend : json) : option pystr :=
  let normalized := py_lower (py_strip (text_or_empty backend)) in
  if pystr_in normalized ["cpu"; "metal"; "cuda"]%pystr then Some normalized else None.

Definition _allocated_context_tokens (n_ctx : Z) : plan_error + Z :=
  _align_up n_ctx GGML_KV_CONTEXT_ALLOCATION_ALIGNMENT_TOKENS int64_max.

Record allocation : Set := mkAllocation {
  row_payload_bytes : Z;
  logical_payload_bytes : Z;
  backend_tail_padding_bytes : Z;
  allocator_alignment_padding_bytes : Z;
  allocation_bytes : Z
}.

(** The alignment of a backend that [_normalize_kv_backend] answers *)
Definition alignment_of (backend : pystr) : plan_error + Z :=
  match dget GGML_KV_BACKEND_ALIGNMENT_BYTES backend with
  | Some a => inr a
  | None => inl (KeyError backend)
  end.

Definition _ggml_tensor_2d_allocation_breakdown (rows columns : Z) (ggml_type : pystr) (backend : json)
  : plan_error + allocation :=
  match _normalize_kv_backend backend with
  | None => inl (ValueError "kv_backend_unsupported")
  | Some normalized_backend =>
      let? checked_rows := _checked_positive_int (MInt rows) "rows" count_max in
      let? row_size := _ggml_row_size_bytes checked_rows ggml_type in
      let? checked_columns := _checked_positive_int (MInt columns) "columns" count_max in
      let? payload := _checked_mul row_size checked_columns "ggml_tensor_payload_bytes" int64_max in
      let? l := layout_of ggml_type in
      let? backend_tail_padding :=
        if bool_decide (normalized_backend = "cuda"%pystr) && (1 <? block_size l)
           && negb (checked_rows mod GGML_CUDA_QUANTIZED_MATRIX_ROW_PADDING =? 0)
        then
          let tail_elements := GGML_CUDA_QUANTIZED_MATRIX_ROW_PADDING
                               - checked_rows mod GGML_CUDA_QUANTIZED_MATRIX_ROW_PADDING in
          _ggml_row_size_bytes tail_elements ggml_type
        else inr 0 in
      let? logical_plus_tail :=
        _checked_add payload backend_tail_padding "ggml_tensor_backend_payload_bytes" int64_max in
      let? alignment := alignment_of normalized_backend in
      let? allocation := _align_up logical_plus_tail alignment int64_max in
      inr (mkAllocation row_size payload backend_tail_padding (allocation - logical_plus_tail) allocation)
  end.

(** ** The attention layout of a model *)

Record kv_shape : Set := mkShape {
  architecture : pystr;
  layer_count : Z;
  attention_head_count : Z;
  attention_head_count_kv : Z;
  gqa_groups : Z;
  key_length : Z;
  value_length : Z;
  n_embd_k_gqa : Z;
  n_embd_v_gqa : Z
}.

Definition SUPPORTED_STANDARD_KV_ARCHITECTURES : list pystr := ["qwen3"]%pystr.

(** [str(v or '')] of a stored value *)
Definition meta_text (v : option meta_value) : pystr :=
  match v with
  | None => ""
  | Some (MInt z) => if z =? 0 then "" else py_str_int z
  | Some (MBool b) => if b then "True" else ""
  | Some (MFloat f) => if feq f f0 then "" else float_repr f
  | Some (MStr s) => s
  end.

Definition arch_char (c : N) : bool :=
  ((N.leb 48 c && N.leb c 57) || (N.leb 65 c && N.leb c 90) || (N.leb 97 c && N.leb c 122)
   || N.eqb c 95)%bool.

(** [re.fullmatch(r'[A-Za-z0-9_][A-Za-z0-9_.-]{0,63}', arch)] *)
Definition arch_name (arch : pystr) : bool :=
  match codes arch with
  | [] => false
  | c :: l => arch_char c && forallb (fun c => arch_char c || N.eqb c 46 || N.eqb c 45) l
              && (zlen l <=? 63)
  end.

Definition meta_key (prefix suffix : pystr) : pystr := (prefix +++ "." +++ suffix)%pystr.

(** [meta_int] with one suffix, as every call has it *)
Definition meta_int (m : metadata) (prefix suffix name : pystr) (dflt : option Z) : plan_error + Z :=
  match dget m (meta_key prefix suffix), dflt with
  | Some value, _ => _checked_positive_int value name (Z.shiftl 1 30)
  | None, Some d => inr d
  | None, None => inl (ValueError (name +++ "_missing"))
  end.

(** [meta_int(...) if f'{prefix}.{suffix}' in metadata else None] *)
Definition meta_int_present (m : metadata) (prefix suffix name : pystr) : plan_error + option Z :=
  if dmem m (meta_key prefix suffix)
  then let? z := meta_int m prefix suffix name None in inr (Some z)
  else inr None.

(** [dim or fallback] *)
Definition dim_or (dim : option Z) (fallback : Z) : Z :=
  match dim with Some d => if d =? 0 then fallback else d | None => fallback end.

(** The dimensions of a head, from the embedding when the header does not give both *)
Definition head_dims (m : metadata) (prefix : pystr) (head_count : Z) (key_dim value_dim : option Z)
  : plan_error + (Z * Z) :=
  match key_dim, value_dim with
  | Some k, Some v => inr (k, v)
  | _, _ =>
      let? embd := meta_int m prefix "embedding_length" "embedding_length" None in
      let? _ := eraise_if (negb (embd mod head_count =? 0))
                          (ValueError "embedding_length_not_divisible_by_head_count") in
      inr (dim_or key_dim (embd / head_count), dim_or value_dim (embd / head_count))
  end.

Definition _derive_kv_cache_metadata (m : metadata) : plan_error + kv_shape :=
  let arch := py_strip (meta_text (dget m "general.architecture"%pystr)) in
  let? _ := eraise_if (negb (arch_name arch)) (ValueError "architecture_missing_or_invalid") in
  let prefix := arch in
  let? _ := eraise_if (negb (pystr_in arch SUPPORTED_STANDARD_KV_ARCHITECTURES))
                      (ValueError "kv_layout_architecture_unsupported") in
  let? _ := efor_each UNSUPPORTED_KV_LAYOUT_SUFFIXES (fun suffix =>
              eraise_if (dmem m (meta_key prefix suffix)) (ValueError "kv_layout_unsupported")) in
  let? layers := meta_int m prefix "block_count" "layer_count" None in
  let? head_count := meta_int m prefix "attention.head_count" "attention_head_count" None in
  let? kv_heads := meta_int m prefix "attention.head_count_kv" "attention_head_count_kv"
                            (Some head_count) in
  let? key_dim := meta_int_present m prefix "attention.key_length" "key_length" in
  let? value_dim := meta_int_present m prefix "attention.value_length" "value_length" in
  let? _ := eraise_if (negb (head_count mod kv_heads =? 0))
                      (ValueError "attention_head_count_not_divisible_by_kv_heads") in
  let? '(key_dim, value_dim) := head_dims m prefix head_count key_dim value_dim in
  inr (mkShape arch layers head_count kv_heads (head_count / kv_heads) key_dim value_dim
               (kv_heads * key_dim) (kv_heads * value_dim)).

Definition _fallback_qwen3_8b_kv_metadata : metadata :=
  [("general.architecture", MStr "qwen3"); ("qwen3.block_count", MInt 36);
   ("qwen3.attention.head_count", MInt 32); ("qwen3.attention.head_count_kv", MInt 8);
   ("qwen3.attention.key_length", MInt 128); ("qwen3.attention.value_length", MInt 128);
   ("qwen3.embedding_length", MInt 4096)]%pystr.

(** ** The size of a cache *)

Record kv_estimate : Set := mkEstimate {
  kv_shape_of : kv_shape;
  requested_context_size_tokens : Z;
  context_size_tokens : Z;
  kv_backend : pystr;
  backend_allocation_mode : pystr;
  exact_allocation_available : bool;
  type_k : pystr;
  type_v : pystr;
  k_row_size_bytes : Z;
  v_row_size_bytes : Z;
  k_tensor_payload_bytes_per_layer : Z;
  v_tensor_payload_bytes_per_layer : Z;
  k_tensor_payload_bytes_total : Z;
  v_tensor_payload_bytes_total : Z;
  k_tensor : allocation;
  v_tensor : allocation;
  kv_cache_bytes : Z;
  ggml_tensor_alignment_bytes : Z
}.

(** The branch of a known backend *)
Definition estimate_known (m : metadata) (requested_n_ctx n_ctx : Z) (type_k type_v : pystr)
    (normalized_backend : pystr) : plan_error + kv_estimate :=
  let? arch := _derive_kv_cache_metadata m in
  let k_rows := n_embd_k_gqa arch in
  let v_rows := n_embd_v_gqa arch in
  let layers := layer_count arch in
  let? k_row_payload := _ggml_row_size_bytes k_rows type_k in
  let? v_row_payload := _ggml_row_size_bytes v_rows type_v in
  let? k_payload := _checked_mul k_row_payload n_ctx "k_tensor_payload_bytes" int64_max in
  let? v_payload := _checked_mul v_row_payload n_ctx "v_tensor_payload_bytes" int64_max in
  let? k_tensor :=
    _ggml_tensor_2d_allocation_breakdown k_rows n_ctx type_k (JStr normalized_backend) in
  let? v_tensor :=
    _ggml_tensor_2d_allocation_breakdown v_rows n_ctx type_v (JStr normalized_backend) in
  let? kv_per_layer := _checked_add (allocation_bytes k_tensor) (allocation_bytes v_tensor)
                                    "kv_cache_bytes_per_layer" int64_max in
  let? kv_bytes := _checked_mul kv_per_layer layers "kv_cache_bytes" int64_max in
  let? _ := eraise_if (int64_max <? kv_bytes) (OverflowError "kv_cache_bytes_overflow") in
  let? k_total := _checked_mul k_payload layers "k_tensor_payload_bytes_total" int64_max in
  let? v_total := _checked_mul v_payload layers "v_tensor_payload_bytes_total" int64_max in
  let? alignment := alignment_of normalized_backend in
  inr (mkEstimate arch requested_n_ctx n_ctx normalized_backend "exact" true type_k type_v
                  k_row_payload v_row_payload k_payload v_payload k_total v_total
                  k_tensor v_tensor kv_bytes alignment).

(** [max(candidates, key=...)]: the first of the greatest *)
Definition max_estimate (a b : kv_estimate) : kv_estimate :=
  if kv_cache_bytes a <? kv_cache_bytes b then b else a.

(** [{**conservative, 'backend': 'unknown', ...}] *)
Definition unknown_backend (e : kv_estimate) : kv_estimate :=
  mkEstimate (kv_shape_of e) (requested_context_size_tokens e) (context_size_tokens e)
             "unknown" "conservative_max_supported_backend" false (type_k e) (type_v e)
             (k_row_size_bytes e) (v_row_size_bytes e)
             (k_tensor_payload_bytes_per_layer e) (v_tensor_payload_bytes_per_layer e)
             (k_tensor_payload_bytes_total e) (v_tensor_payload_bytes_total e)
             (k_tensor e) (v_tensor e) (kv_cache_bytes e) (ggml_tensor_alignment_bytes e).

(** The requested and the allocated context, checked on every call *)
Definition context_sizes (n_ctx : Z) : plan_error + (Z * Z) :=
  let? requested_n_ctx := _checked_positive_int (MInt n_ctx) "context_size_tokens" (Z.shiftl 1 30) in
  let? n_ctx := _allocated_context_tokens requested_n_ctx in
  inr (requested_n_ctx, n_ctx).

(** The recursive call names a known backend, so it takes the other branch. *)
Definition estimate_for (m : metadata) (n_ctx : Z) (type_k type_v known : pystr) : plan_error + kv_estimate :=
  let? '(requested_n_ctx, n_ctx) := context_sizes n_ctx in
  estimate_known m requested_n_ctx n_ctx type_k type_v known.

Definition _estimate_kv_cache_bytes_from_metadata (m : metadata) (n_ctx : Z) (type_k type_v : pystr)
    (backend : json) : plan_error + kv_estimate :=
  let? '(requested_n_ctx, n_ctx) := context_sizes n_ctx in
  match _normalize_kv_backend backend with
  | None =>
      let? cpu := estimate_for m requested_n_ctx type_k type_v "cpu" in
      let? metal := estimate_for m requested_n_ctx type_k type_v "metal" in
      let? cuda := estimate_for m requested_n_ctx type_k type_v "cuda" in
      inr (unknown_backend (max_estimate (max_estimate cpu metal) cuda))
  | Some normalized_backend =>
      estimate_known m requested_n_ctx n_ctx type_k type_v normalized_backend
  end.

(** ** The memory of a runtime *)

(** Rounded towards zero; [None] for what [int] refuses *)
Definition truncated (x : float64) : option Z :=
  match x with
  | S754_zero _ => Some 0
  | S754_finite s m e =>
      let z := if 0 <=? e then Zpos m * 2 ^ e else Zpos m / 2 ^ (- e) in
      Some (if s then - z else z)
  | _ => None
  end.

(** [int(z * c)] *)
Definition scaled (z : Z) (c : float64) : plan_error + Z :=
  match float_of_int z with
  | None => inl (OverflowError "int too large to convert to float")
  | Some f =>
      match truncated (fmul f c) with
      | Some t => inr t
      | None => inl (OverflowError "cannot convert float infinity to integer")
      end
  end.

Definition f0_04 : float64 := S754_finite false 5764607523034235 (-57).
Definition f0_08 : float64 := S754_finite false 5764607523034235 (-56).
Definition f0_10 : float64 := S754_finite false 7205759403792794 (-56).

Definition QWEN_64K_LEGACY_BYTES_PER_TOKEN : dict pystr Z :=
  [("f16", 524288); ("q8", 262144); ("q4", 131072)]%pystr.

Definition mib : Z := 1024 * 1024.

(** What the file system answers for the model's path *)
Record planned_model : Type := mkModel {
  model_header : model_file;
  os_path_getsize : plan_error + Z
}.

Record memory_estimate : Set := mkMemory {
  model_file_size_bytes : option Z;
  estimated_kv_cache_bytes : Z;
  exact_kv_cache_bytes : option Z;
  exact_kv_payload_bytes : option Z;
  fallback_assumed_shape_kv_cache_bytes : option Z;
  legacy_compatibility_floor_bytes : option Z;
  estimated_non_kv_runtime_bytes : option Z;
  compute_scratch_estimate_bytes : Z;
  batch_dependent_buffer_bytes : Z;
  allocator_headroom_bytes : Z;
  safety_reserve_bytes : Z;
  memory_batch_profile : pystr;
  estimated_total_runtime_bytes : option Z;
  estimated_total_model_plus_kv_bytes : option Z;
  memory_n_ctx : Z;
  memory_backend : json;
  memory_kv_precision : pystr;
  metadata_source : pystr;
  conservative_fallback_used : bool;
  conservative_fallback_reason : option pystr;
  kv_cache_breakdown : kv_estimate
}.

(** [{**kv_breakdown, 'kv_cache_bytes': kv_bytes, ..., 'exact_allocation_available': False}] *)
Definition fallback_breakdown (e : kv_estimate) (kv_bytes : Z) : kv_estimate :=
  mkEstimate (kv_shape_of e) (requested_context_size_tokens e) (context_size_tokens e)
             (kv_backend e) (backend_allocation_mode e) false (type_k e) (type_v e)
             (k_row_size_bytes e) (v_row_size_bytes e)
             (k_tensor_payload_bytes_per_layer e) (v_tensor_payload_bytes_per_layer e)
             (k_tensor_payload_bytes_total e) (v_tensor_payload_bytes_total e)
             (k_tensor e) (v_tensor e) kv_bytes (ggml_tensor_alignment_bytes e).

(** Any exception of the attempt is caught, by name. *)
Definition attempt {A} (m : SM gguf_cache plan_error A) : SM gguf_cache plan_error (pystr + A) :=
  fun s => let '(s', r) := m s in
           (s', inr (match r with inl e => inl (error_name e) | inr a => inr a end)).

(** The breakdown, and the name of the last exception when it is of the assumed shape *)
Definition breakdown_or_fallback (header : model_file) (n_ctx : Z) (kv_precision : pystr) (backend : json)
  : SM gguf_cache plan_error (kv_estimate * option pystr) :=
  let* read := attempt (_read_gguf_metadata header 4096) in
  let '(m, reason) := match read with
                      | inr m => (m, None)
                      | inl name => (_fallback_qwen3_8b_kv_metadata, Some name)
                      end in
  match _estimate_kv_cache_bytes_from_metadata m n_ctx kv_precision kv_precision backend with
  | inr e => ret (e, reason)
  | inl exc =>
      let* e := lift_val (_estimate_kv_cache_bytes_from_metadata _fallback_qwen3_8b_kv_metadata
                            n_ctx kv_precision kv_precision backend) in
      ret (e, Some (error_name exc))
  end.

(** [os.path.getsize], an [OSError] caught *)
Definition model_size_of (getsize : plan_error + Z) : plan_error + option Z :=
  match getsize with
  | inr z => inr (Some z)
  | inl (OSError _) => inr None
  | inl e => inl e
  end.

Definition _qwen_64k_memory_estimate (path : planned_model) (n_ctx : Z) (kv_precision : pystr)
    (backend batch_profile : json) : SM gguf_cache plan_error memory_estimate :=
  let* model_size := lift_val (model_size_of (os_path_getsize path)) in
  let* '(kv_breakdown, fallback_reason) :=
    breakdown_or_fallback (model_header path) n_ctx kv_precision backend in
  let fallback_used := match fallback_reason with Some _ => true | None => false end in
  let exact := exact_allocation_available kv_breakdown && negb fallback_used in
  let assumed_shape_kv_bytes := kv_cache_bytes kv_breakdown in
  let* floor := lift_val (
    let? n := _checked_positive_int (MInt n_ctx) "context_size_tokens" (Z.shiftl 1 30) in
    match dget QWEN_64K_LEGACY_BYTES_PER_TOKEN kv_precision with
    | Some per_token => _checked_mul n per_token "legacy_kv_cache_floor_bytes" int64_max
    | None => inl (KeyError kv_precision)
    end) in
  let kv_bytes := if fallback_used then Z.max assumed_shape_kv_bytes floor else assumed_shape_kv_bytes in
  let kv_breakdown := if fallback_used then fallback_breakdown kv_breakdown kv_bytes else kv_breakdown in
  let selected_batch := normalize_qwen_64k_batch_profile batch_profile in
  let* batch := from_option (dget QWEN_64K_BATCH_PROFILES selected_batch) (KeyError selected_batch) in
  let batch_bytes := n_batch batch * n_ubatch batch * 2048 in
  let scratch := Z.max (256 * mib) batch_bytes in
  let* headroom := lift_val (scaled kv_bytes f0_04) in
  let headroom := Z.max (256 * mib) headroom in
  let* non_kv := match model_size with
                 | Some size =>
                     let* s := lift_val (scaled size f0_08) in
                     ret (Some (Z.max (512 * mib) s + batch_bytes))
                 | None => ret None
                 end in
  let* reserve := lift_val (scaled kv_bytes f0_10) in
  let reserve := Z.max (1024 * mib) reserve in
  let total := match model_size with
               | Some size => Some (size + kv_bytes + default 0 non_kv + scratch + headroom + reserve)
               | None => None
               end in
  ret (mkMemory model_size kv_bytes
         (if exact then Some kv_bytes else None)
         (if exact then Some (k_tensor_payload_bytes_total kv_breakdown
                              + v_tensor_payload_bytes_total kv_breakdown) else None)
         (if fallback_used then Some assumed_shape_kv_bytes else None)
         (if fallback_used then Some floor else None)
         non_kv scratch batch_bytes headroom reserve selected_batch total
         (match model_size with Some size => Some (size + kv_bytes) | None => None end)
         n_ctx (if truthy backend then backend else JStr "unknown") kv_precision
         (if fallback_used then "conservative_qwen3_8b_compatibility_fallback" else "gguf_header")
         fallback_used fallback_reason kv_breakdown).

(** ** What the installed runtime supports *)

(** [llama_cpp] as the planner inspects it: the attributes of the module and of its nested
    module, the capabilities a worker reported, when they are a dictionary, the version, the
    file, and the name of its type when it stands for a worker. *)
Record llama_module : Type := mkModule {
  top_level : dict pystr pyval;
  nested : option (dict pystr pyval);
  worker_capabilities : option jdict;
  module_version : option pystr;
  module_file : option pystr;
  facade_type : option pystr
}.

(** The constructor: the facade's list of keywords, or its signature's parameters, each with
    whether it is [**kwargs]; and the other attributes of the class *)
Record llama_class : Type := mkClass {
  facade_kwargs : option (list pyval);
  cls_callable : bool;
  cls_parameters : dict pystr bool;
  cls_attributes : dict pystr pyval
}.

Definition _constructor_accepts_kwarg (cls : llama_class) (kwarg : pystr) : bool :=
  cls_callable cls
  && (dmem (cls_parameters cls) kwarg || existsb id (dvalues (cls_parameters cls))).

Definition is_py_str (name : pystr) (v : pyval) : bool :=
  match v with PyS s => bool_decide (s = name) | _ => false end.

Definition _llama_constructor_supports_kwargs (cls : llama_class) (required_kwargs : list pystr)
  : dict pystr bool :=
  match facade_kwargs cls with
  | Some supported => map (fun name => (name, existsb (is_py_str name) supported)) required_kwargs
  | None => map (fun name => (name, _constructor_accepts_kwarg cls name)) required_kwargs
  end.

Definition LLAMA_CPP_CONSTRUCTOR_CAPABILITY_KWARGS : list pystr :=
  ["type_k"; "type_v"; "flash_attn"; "offload_kqv"; "n_batch"; "n_ubatch";
   "rope_scaling_type"; "yarn_ext_factor"; "yarn_attn_factor"; "yarn_beta_fast";
   "yarn_beta_slow"; "yarn_orig_ctx"; "rope_freq_base"; "rope_freq_scale"]%pystr.

Definition _coerce_strict_bool (value : json) : option bool :=
  match value with
  | JBool b => Some b
  | JInt z => if z =? 0 then Some false else if z =? 1 then Some true else None
  | JStr s =>
      let lowered := py_lower (py_strip s) in
      if bool_decide (lowered = "true"%pystr) then Some true
      else if bool_decide (lowered = "false"%pystr) then Some false else None
  | _ => None
  end.

(** [re.fullmatch] of [sha256:] and sixty-four hexadecimal digits *)
Definition valid_llama_module_identity (value : json) : option pystr :=
  match value with
  | JStr s =>
      let text := py_strip s in
      if py_startswith text "sha256:" && is_sha256_hex (PyStr (skipn 7 (codes text)))
      then Some text else None
  | _ => None
  end.

Definition llama_module_identity_supplied (value : json) : bool :=
  match value with JStr s => negb (py_empty (py_strip s)) | _ => false end.

Definition copied_fields : list pystr :=
  ["capability_source"; "backend"; "gpu_offload_supported"; "llama_cpp_python_version";
   "constructor_has_var_kwargs"; "constructor_signature_inspectable"; "qwen_64k_yarn_support";
   "yarn_resolver_source"; "llama_module_path"; "llama_module_path_present";
   "llama_module_identity_match"; "llama_module_identity_verified";
   "child_probe_reprobe_attempted"; "child_probe_reprobe_skipped_reason"]%pystr.

(** [if isinstance(value, int) and not isinstance(value, bool): payload[key] = value] *)
Definition copy_int (capabilities payload : jdict) (key : pystr) : jdict :=
  match jget capabilities key with JInt z => dset payload key (JInt z) | _ => payload end.

Definition payload_support (support : jdict) : jdict :=
  foldl (fun acc '(name, value) =>
           if pystr_in name LLAMA_CPP_CONSTRUCTOR_CAPABILITY_KWARGS then
             match _coerce_strict_bool value with
             | Some b => dset acc name (JBool b)
             | None => acc
             end
           else acc) [] support.

Definition copy_identity (capabilities payload : jdict) : jdict :=
  let identity := jget capabilities "llama_module_identity" in
  match valid_llama_module_identity identity with
  | Some valid_identity => dset payload "llama_module_identity"%pystr (JStr valid_identity)
  | None =>
      if llama_module_identity_supplied identity
         || (match jget capabilities "llama_module_identity_malformed" with JBool true => true | _ => false end)
      then dset payload "llama_module_identity_malformed"%pystr (JBool true) else payload
  end.

Definition _safe_constructor_capability_payload (m : llama_module) : jdict :=
  match worker_capabilities m with
  | None => []
  | Some capabilities =>
      let payload := match jget capabilities "constructor_kwarg_support" with
                     | JDict support =>
                         dset [] "constructor_kwarg_support"%pystr (JDict (payload_support support))
                     | _ => []
                     end in
      let payload := foldl (copy_int capabilities) payload
                       ["q8_kv_cache_type_value"; "q4_kv_cache_type_value";
                        "f16_kv_cache_type_value"]%pystr in
      let payload := copy_identity capabilities payload in
      let payload := foldl (fun acc field =>
                              match dget capabilities field with
                              | Some v => dset acc field v
                              | None => acc
                              end) payload copied_fields in
      copy_int capabilities payload "yarn_enum_value"
  end.

(** [installed] is the version [importlib.metadata] knows. *)
Definition _llama_cpp_python_version (m : llama_module) (installed : option pystr) : option pystr :=
  match module_version m with
  | Some v => if py_empty v then installed else Some v
  | None => installed
  end.

(** *** The scaling of positions *)

Definition LLAMA_ROPE_SCALING_TYPE_YARN_NUMERIC_FALLBACK : Z := 2.

(** [getattr(owner, name, None)], when it is not [None] *)
Definition attribute (owner : dict pystr pyval) (name : pystr) : option pyval :=
  match dget owner name with Some PyNone | None => None | Some v => Some v end.

(** The first owner that exports the constant; a missing nested module is passed over. *)
Fixpoint exported_by (owners : list (option (dict pystr pyval) * pystr)) (name : pystr)
  : option (pyval * pystr) :=
  match owners with
  | [] => None
  | (owner, source) :: owners' =>
      match (attributes ← owner; attribute attributes name) with
      | Some value => Some (value, source)
      | None => exported_by owners' name
      end
  end.

(** [worker_yarn_source in {...}]; a list or an object is not hashable. *)
Definition known_yarn_source (source : json) : plan_error + option pystr :=
  match hashable source with
  | None => inl (TypeError (unhashable_text source))
  | Some (SStr s) =>
      inr (if pystr_in s ["top_level_enum"; "nested_enum"; "llama_class_enum"; "numeric_fallback"]%pystr
           then Some s else None)
  | Some _ => inr None
  end.

Definition numeric_yarn : option pyval * pystr :=
  (Some (PyInt LLAMA_ROPE_SCALING_TYPE_YARN_NUMERIC_FALLBACK), "numeric_fallback"%pystr).

(** The branches after a worker's own value *)
Definition yarn_by_support (m : llama_module) (cls : llama_class) : option pyval * pystr :=
  let worker := _safe_constructor_capability_payload m in
  if jeq_str (jget worker "yarn_resolver_source") "numeric_fallback" then numeric_yarn
  else
    match jget worker "constructor_kwarg_support" with
    | JDict support =>
        match jget support "rope_scaling_type" with
        | JBool false => (None, "unsupported"%pystr)
        | _ => if _constructor_accepts_kwarg cls "rope_scaling_type" then numeric_yarn
               else (None, "unsupported"%pystr)
        end
    | _ => if _constructor_accepts_kwarg cls "rope_scaling_type" then numeric_yarn
           else (None, "unsupported"%pystr)
    end.

Definition _resolve_yarn_rope_scaling_type (m : llama_module) (cls : llama_class)
  : plan_error + (option pyval * pystr) :=
  let locations := [(Some (top_level m), "top_level_enum"); (nested m, "nested_enum");
                    (Some (cls_attributes cls), "llama_class_enum")]%pystr in
  match exported_by locations "LLAMA_ROPE_SCALING_TYPE_YARN" with
  | Some (value, source) => inr (Some value, source)
  | None =>
      let worker := _safe_constructor_capability_payload m in
      match jget worker "yarn_enum_value" with
      | JInt value =>
          let? source := known_yarn_source (jget worker "yarn_resolver_source") in
          match source with
          | Some source => inr (Some (PyInt value), source)
          | None => inr (yarn_by_support m cls)
          end
      | _ => inr (yarn_by_support m cls)
      end
  end.

Definition legacy_locations : dict pystr pystr :=
  [("top_level_enum", "llama_cpp.LLAMA_ROPE_SCALING_TYPE_YARN");
   ("nested_enum", "llama_cpp.llama_cpp.LLAMA_ROPE_SCALING_TYPE_YARN");
   ("llama_class_enum", "Llama.LLAMA_ROPE_SCALING_TYPE_YARN");
   ("numeric_fallback", "numeric_fallback")]%pystr.

Definition _resolve_llama_cpp_rope_scaling_type_yarn (m : llama_module) (cls : llama_class)
  : plan_error + (option pyval * option pystr) :=
  let? '(value, source) := _resolve_yarn_rope_scaling_type m cls in
  inr (value, dget legacy_locations source).

Definition _safe_llama_cpp_enum (m : llama_module) (name : pystr) : option pyval :=
  fst <$> exported_by [(Some (top_level m), ""); (nested m, "")]%pystr name.

(** *** The types of a cache *)

Definition QWEN_64K_KV_CACHE_TYPE_NAMES : dict pystr (list pystr) :=
  [("f16", ["GGML_TYPE_F16"; "LLAMA_TYPE_F16"]); ("q8", ["GGML_TYPE_Q8_0"; "LLAMA_TYPE_Q8_0"]);
   ("q4", ["GGML_TYPE_Q4_0"; "LLAMA_TYPE_Q4_0"])]%pystr.

(** A constant of the precision that a module exports as an integer *)
Fixpoint exported_constant (attributes : dict pystr pyval) (names : list pystr) : option (pystr * Z) :=
  match names with
  | [] => None
  | name :: names' =>
      match dget attributes name with
      | Some (PyInt z) => Some (name, z)
      | _ => exported_constant attributes names'
      end
  end.

(** The resolved constant and its diagnostics *)
Record kv_constant : Set := mkConstant {
  constant_value : option Z;
  constant_precision : pystr;
  constant_names : list pystr;
  constant_source : pystr;
  constant_name : option pystr;
  constant_reason : option pystr
}.

Definition numeric_fallbacks : dict pystr Z := [("f16", 1); ("q4", 2); ("q8", 8)]%pystr.

Definition supports (support : dict pystr bool) (name : pystr) : bool := default false (dget support name).

(** [kwarg_support or _llama_constructor_supports_kwargs(llama_cls, ('type_k', 'type_v'))] *)
Definition support_or_probe (kwarg_support : option (dict pystr bool)) (cls : llama_class) : dict pystr bool :=
  match kwarg_support with
  | Some (x :: l) => x :: l
  | _ => _llama_constructor_supports_kwargs cls ["type_k"; "type_v"]%pystr
  end.

Definition _resolve_ggml_kv_cache_type (m : llama_module) (cls : llama_class) (precision : pystr)
    (kwarg_support : option (dict pystr bool)) : kv_constant :=
  let names := dget_or QWEN_64K_KV_CACHE_TYPE_NAMES precision [] in
  let found source name value := mkConstant (Some value) precision names source (Some name) None in
  match exported_constant (top_level m) names with
  | Some (name, value) => found "top_level"%pystr name value
  | None =>
      match (attributes ← nested m; exported_constant attributes names) with
      | Some (name, value) => found "nested"%pystr name value
      | None =>
          let capability_key := (precision +++ "_kv_cache_type_value")%pystr in
          match jget (_safe_constructor_capability_payload m) capability_key with
          | JInt value => found "worker_probe"%pystr capability_key value
          | _ =>
              let support := support_or_probe kwarg_support cls in
              match dget numeric_fallbacks precision with
              | Some value =>
                  if supports support "type_k" || supports support "type_v"
                  then found "verified_numeric_fallback"%pystr
                             (precision +++ "_numeric_fallback")%pystr value
                  else mkConstant None precision names "unavailable" None
                         (Some "constant_unavailable_or_constructor_support_unverified"%pystr)
              | None => mkConstant None precision names "unavailable" None
                          (Some "constant_unavailable_or_constructor_support_unverified"%pystr)
              end
          end
      end
  end.

Definition opt_jstr (o : option pystr) : json := match o with Some s => JStr s | None => JNull end.

Definition probe_kwargs : list pystr :=
  ["type_k"; "type_v"; "flash_attn"; "offload_kqv"; "n_batch"; "n_ubatch"]%pystr.

Record runtime_capabilities : Type := mkCapabilities {
  constructor_kwarg_support : dict pystr bool;
  capability_source : json;
  capability_backend : json;
  capability_version : json;
  kv_constants : dict pystr kv_constant
}.

Definition _qwen_64k_runtime_capabilities (m : llama_module) (cls : llama_class) (installed : option pystr)
  : runtime_capabilities :=
  let worker := _safe_constructor_capability_payload m in
  let worker_kwarg_support := jget worker "constructor_kwarg_support" in
  let kwarg_support := match worker_kwarg_support with
                       | JDict d => map (fun name => (name, truthy (jget d name))) probe_kwargs
                       | _ => _llama_constructor_supports_kwargs cls probe_kwargs
                       end in
  mkCapabilities kwarg_support
    (json_or (jget worker "capability_source")
       (JStr (if is_JDict worker_kwarg_support then "worker_probe" else "local_constructor_signature")))
    (jget worker "backend")
    (json_or (jget worker "llama_cpp_python_version")
       (opt_jstr (_llama_cpp_python_version m installed)))
    (map (fun precision => (precision, _resolve_ggml_kv_cache_type m cls precision (Some kwarg_support)))
         ["f16"; "q8"; "q4"]%pystr).

(** *** Whether a long context is supported *)

Definition rope_kwargs : list pystr :=
  ["rope_scaling_type"; "yarn_ext_factor"; "yarn_attn_factor"; "yarn_beta_fast";
   "yarn_beta_slow"; "yarn_orig_ctx"; "rope_freq_base"; "rope_freq_scale"]%pystr.

Definition required_kwargs : list pystr := ["rope_scaling_type"; "rope_freq_scale"; "yarn_orig_ctx"]%pystr.

(** [constructor_kwargs_attempted] is read of a worker but never copied from one, so it is the
    required keywords when supported. *)
Record rope_support : Type := mkRope {
  rope_supported : bool;
  support_classification : pystr;
  yarn_enum_value : option pyval;
  yarn_resolver_source : json;
  accepted_constructor_kwargs : list pystr;
  rope_kwarg_support : dict pystr bool;
  missing_required_kwargs : list pystr;
  missing_reason : option pystr;
  llama_module_path : json;
  llama_module_path_present : bool;
  llama_module_identity_match : json;
  rope_version : json;
  constructor_has_var_kwargs : bool;
  constructor_signature_inspectable : json;
  rope_capability_source : json;
  parent_facade_type : option pystr;
  child_probe_reprobe_attempted : bool;
  constructor_kwargs_attempted : list pystr
}.

Definition missing_enum_reason : pystr :=
  "missing LLAMA_ROPE_SCALING_TYPE_YARN enum constant and rope_scaling_type constructor support".

Definition missing_kwargs_reason (names : list pystr) : pystr :=
  ("missing constructor kwargs: " +++ py_join ", " names)%pystr.

(** [missing_reasons], before the worker's own classification is looked at *)
Definition missing_reasons_of (resolver_source : pystr) (missing_kwargs : list pystr) : list pystr :=
  let unsupported := bool_decide (resolver_source = "unsupported"%pystr) in
  let for_reason := if unsupported
                    then bfilter (fun n => negb (bool_decide (n = "rope_scaling_type"%pystr))) missing_kwargs
                    else missing_kwargs in
  let remaining := bfilter (fun n => negb (bool_decide (n = "rope_freq_scale"%pystr))) for_reason in
  (if unsupported then [missing_enum_reason] else [])
  ++ (if pystr_in "rope_freq_scale" for_reason
      then ["runtime_qwen_64k_yarn_rope_freq_scale_unavailable"%pystr] else [])
  ++ (match remaining with [] => [] | _ => [missing_kwargs_reason remaining] end).

(** [support_classification], a worker's own when it is one of the three *)
Definition classification_of (reported : json) (missing_reasons : list pystr) : plan_error + pystr :=
  let derived := match missing_reasons with [] => "supported"%pystr | _ => "unsupported"%pystr end in
  match hashable reported with
  | None => inl (TypeError (unhashable_text reported))
  | Some (SStr s) =>
      inr (if pystr_in s ["supported"; "unknown"; "unsupported"]%pystr then s else derived)
  | Some _ => inr derived
  end.

(** An unknown probe: the value, its source and the reasons are taken again. *)
Definition unknown_probe (worker : jdict) (yarn_value : option pyval) (resolver_source : pystr)
    (missing_kwargs : list pystr) : option pyval * json * list pystr :=
  let no_value := is_JNull (jget worker "yarn_enum_value")
                  || bool_decide (resolver_source = "unsupported"%pystr) in
  let for_kwargs := match missing_kwargs with [] => [] | _ => [missing_kwargs_reason missing_kwargs] end in
  if no_value
  then (None, json_or (jget worker "yarn_resolver_source") (JStr resolver_source),
        "missing concrete YaRN enum value from unknown child probe"%pystr :: for_kwargs)
  else (yarn_value, JStr resolver_source, for_kwargs).

Definition is_JBool_true (j : json) : bool := match j with JBool b => b | _ => false end.

Definition _qwen_64k_rope_support_diagnostics (m : llama_module) (cls : llama_class) (installed : option pystr)
  : plan_error + rope_support :=
  let worker := _safe_constructor_capability_payload m in
  let worker_kwarg_support := jget worker "constructor_kwarg_support" in
  let kwarg_support := match worker_kwarg_support with
                       | JDict d => map (fun name => (name, truthy (jget d name))) rope_kwargs
                       | _ => _llama_constructor_supports_kwargs cls rope_kwargs
                       end in
  let accepted := py_sorted pystr_leb (map fst (bfilter snd kwarg_support)) in
  let? '(yarn_value, resolver_source) := _resolve_yarn_rope_scaling_type m cls in
  let has_var_kwargs := is_JBool_true (jget worker "constructor_has_var_kwargs") in
  let missing_kwargs := if has_var_kwargs then []
                        else bfilter (fun name => negb (supports kwarg_support name)) required_kwargs in
  let missing_reasons := missing_reasons_of resolver_source missing_kwargs in
  let? classification := classification_of (jget worker "qwen_64k_yarn_support") missing_reasons in
  let '(yarn_value, resolver_source, missing_reasons) :=
    if bool_decide (classification = "unknown"%pystr)
    then unknown_probe worker yarn_value resolver_source missing_kwargs
    else (yarn_value, JStr resolver_source, missing_reasons) in
  let supported := pystr_in classification ["supported"; "unknown"]%pystr
                   && (match missing_reasons with [] => true | _ => false end)
                   && (match yarn_value with Some _ => true | None => false end) in
  inr (mkRope supported classification yarn_value resolver_source accepted kwarg_support missing_kwargs
    (match missing_reasons with [] => None | _ => Some (py_join "; " missing_reasons) end)
    (json_or (jget worker "llama_module_path") (opt_jstr (module_file m)))
    (match jget worker "llama_module_path_present" with
     | JBool b => b
     | _ => truthy (jget worker "llama_module_path")
     end)
    (jget worker "llama_module_identity_match")
    (json_or (jget worker "llama_cpp_python_version") (opt_jstr (_llama_cpp_python_version m installed)))
    has_var_kwargs (jget worker "constructor_signature_inspectable")
    (json_or (jget worker "capability_source")
       (JStr (if is_JDict worker_kwarg_support then "worker_probe" else "local_constructor_signature")))
    (facade_type m) (truthy (jget worker "child_probe_reprobe_attempted"))
    (if supported then required_kwargs else [])).

(** ** The ordered profiles *)

Record profile_diagnostics : Type := mkDiagnostics {
  diag_profile_id : pystr;
  preferred_profile_id : pystr;
  enabled : bool;
  applied : jdict;
  omitted : dict pystr pystr;
  kv_precision : pystr;
  batch_profile : pystr;
  batch_profile_requested : pystr;
  kv_cache_type : option kv_constant;
  diag_kwarg_support : dict pystr bool;
  diag_capability_source : json;
  diag_version : json;
  diag_memory_estimate : memory_estimate;
  kqv_offload_allowed : bool;
  diag_backend : json
}.

(** A profile; [skipped_profiles] and [fallback_reason] are the two keys its diagnostics gain
    after it was built. *)
Record runtime_profile : Type := mkProfile {
  profile_id : pystr;
  profile_kwargs : jdict;
  diagnostics : profile_diagnostics;
  skipped_profiles : option (list profile_diagnostics);
  fallback_reason : option pystr
}.

Definition all_batches : list pystr := ["experimental"; "balanced"; "safe"]%pystr.

(** [batch_order[batch_order.index(requested):]] *)
Fixpoint from_batch (requested : pystr) (l : list pystr) : list pystr :=
  match l with
  | [] => []
  | b :: l' => if bool_decide (b = requested) then b :: l' else from_batch requested l'
  end.

Definition combinations (requested : pystr) : list (pystr * pystr) :=
  concat (map (fun selected => [("q8", selected); ("f16", selected)]%pystr)
              (from_batch requested all_batches)) ++ [("q4", "safe")]%pystr.

(** The keywords every profile has, the unsupported ones omitted *)
Definition _base_kwargs (support : dict pystr bool) (enable_kqv_offload : bool) (batch : batch_values)
  : jdict * dict pystr pystr :=
  let '(kwargs, omitted) :=
    foldl (fun '(kwargs, omitted) '(key, value) =>
             if supports support key then (dset kwargs key value, omitted)
             else (kwargs, dset omitted key "constructor_kwarg_unsupported"%pystr))
          ([], [])
          [("flash_attn", JBool true); ("offload_kqv", JBool true);
           ("n_batch", JInt (n_batch batch)); ("n_ubatch", JInt (n_ubatch batch))]%pystr in
  if enable_kqv_offload then (kwargs, omitted)
  else (ddel kwargs "offload_kqv"%pystr,
        dset omitted "offload_kqv"%pystr "gpu_offload_disabled"%pystr).

(** The keywords of a quantized cache *)
Definition quantized_kwargs (support : dict pystr bool) (kv_value : option Z)
    (kwargs : jdict) (omitted : dict pystr pystr) : jdict * dict pystr pystr :=
  let unsupported := "constructor_kwarg_unsupported"%pystr in
  let omitted := if supports support "flash_attn" then omitted
                 else dset omitted "profile"%pystr "quantized_v_requires_flash_attn_support"%pystr in
  match kv_value with
  | None => (kwargs, dset (dset omitted "type_k"%pystr "kv_type_constant_unavailable"%pystr)
                          "type_v"%pystr "kv_type_constant_unavailable"%pystr)
  | Some value =>
      let '(kwargs, omitted) :=
        if supports support "type_k" then (dset kwargs "type_k"%pystr (JInt value), omitted)
        else (kwargs, dset omitted "type_k"%pystr unsupported) in
      if supports support "type_v" && supports support "flash_attn"
      then (dset kwargs "type_v"%pystr (JInt value), omitted)
      else if negb (supports support "type_v") then (kwargs, dset omitted "type_v"%pystr unsupported)
      else (kwargs, dset omitted "type_v"%pystr "flash_attn_required"%pystr)
  end.

Definition has_all (kwargs : jdict) (keys : list pystr) : bool := forallb (dmem kwargs) keys.

(** [not omitted.get('profile') and all(...)] and, when the cache is quantized, both types *)
Definition is_enabled (precision : pystr) (kwargs : jdict) (omitted : dict pystr pystr) : bool :=
  (match dget omitted "profile"%pystr with Some reason => py_empty reason | None => true end)
  && has_all kwargs ["flash_attn"; "offload_kqv"; "n_batch"; "n_ubatch"]%pystr
  && (bool_decide (precision = "f16"%pystr) || has_all kwargs ["type_k"; "type_v"]%pystr).

Record planner : Type := mkPlanner {
  plan_capabilities : runtime_capabilities;
  plan_model : planned_model;
  plan_n_ctx : Z;
  plan_kqv_offload : bool;
  plan_requested : pystr
}.

(** The keywords and the omissions of one combination *)
Definition combination_kwargs (p : planner) (precision : pystr) (batch : batch_values)
  : jdict * dict pystr pystr :=
  let support := constructor_kwarg_support (plan_capabilities p) in
  let kv_value := dget (kv_constants (plan_capabilities p)) precision ≫= constant_value in
  let '(kwargs, omitted) := _base_kwargs support (plan_kqv_offload p) batch in
  if bool_decide (precision = "f16"%pystr) then (kwargs, omitted)
  else quantized_kwargs support kv_value kwargs omitted.

Definition lower_backend (p : planner) : pystr :=
  py_lower (text_or_empty (capability_backend (plan_capabilities p))).

Definition combination_diagnostics (p : planner) (precision selected : pystr)
  : SM gguf_cache plan_error profile_diagnostics :=
  let capabilities := plan_capabilities p in
  let* profile_id := lift_val (_qwen_64k_profile_id precision selected) in
  let* batch := from_option (dget QWEN_64K_BATCH_PROFILES selected) (KeyError selected) in
  let '(kwargs, omitted) := combination_kwargs p precision batch in
  let* preferred := lift_val (_qwen_64k_profile_id "q8" (plan_requested p)) in
  let* memory_estimate :=
    _qwen_64k_memory_estimate (plan_model p) (plan_n_ctx p) precision
      (json_or (capability_backend capabilities) (JStr "")) (JStr selected) in
  ret (mkDiagnostics profile_id preferred (is_enabled precision kwargs omitted) kwargs omitted
         precision selected (plan_requested p)
         (dget (kv_constants capabilities) precision) (constructor_kwarg_support capabilities)
         (capability_source capabilities) (capability_version capabilities) memory_estimate
         (plan_kqv_offload p)
         (JStr (if py_empty (lower_backend p) then "unknown" else lower_backend p))).

(** The loop over the combinations: the profiles and the skipped ones, in order *)
Fixpoint build_combinations (p : planner) (l : list (pystr * pystr))
  : SM gguf_cache plan_error (list runtime_profile * list profile_diagnostics) :=
  match l with
  | [] => ret ([], [])
  | (precision, selected) :: l' =>
      let* d := combination_diagnostics p precision selected in
      let* '(profiles, skipped) := build_combinations p l' in
      ret (if enabled d
           then (mkProfile (diag_profile_id d) (applied d) d None None :: profiles, skipped)
           else (profiles, d :: skipped))
  end.

(** The first profile tells what was skipped before and after it. *)
Definition with_skipped (profiles : list runtime_profile) (skipped : list profile_diagnostics)
  : list runtime_profile :=
  match profiles, skipped with
  | first :: rest, _ :: _ =>
      mkProfile (profile_id first) (profile_kwargs first) (diagnostics first) (Some skipped)
        (if bool_decide (kv_precision (diagnostics first) = "f16"%pystr)
         then Some "capability_incompatibility"%pystr else fallback_reason first) :: rest
  | _, _ => profiles
  end.

Definition _build_qwen_64k_runtime_profiles (m : llama_module) (cls : llama_class) (installed : option pystr)
    (model : planned_model) (n_ctx : Z) (enable_kqv_offload : bool) (batch_profile : json)
  : SM gguf_cache plan_error (list runtime_profile) :=
  let requested := normalize_qwen_64k_batch_profile batch_profile in
  let p := mkPlanner (_qwen_64k_runtime_capabilities m cls installed) model n_ctx
                     enable_kqv_offload requested in
  let* '(profiles, skipped) := build_combinations p (combinations requested) in
  ret (with_skipped profiles skipped).

(** What the helper below tells of the profile it chose: none was enabled, or those of a
    profile, or those of the first skipped one *)
Inductive chosen_diagnostics : Type :=
| NotEnabled
| OfProfile (q : runtime_profile)
| OfSkipped (d : profile_diagnostics).

Definition with_omitted (d : profile_diagnostics) (o : dict pystr pystr) : profile_diagnostics :=
  mkDiagnostics (diag_profile_id d) (preferred_profile_id d) (enabled d) (applied d) o
    (kv_precision d) (batch_profile d) (batch_profile_requested d) (kv_cache_type d)
    (diag_kwarg_support d) (diag_capability_source d) (diag_version d) (diag_memory_estimate d)
    (kqv_offload_allowed d) (diag_backend d).

(** A worker's probe, not the constructor, is what does not support a keyword. *)
Definition worker_omissions (d : profile_diagnostics) : profile_diagnostics :=
  if jeq_str (diag_capability_source d) "worker_probe" then
    with_omitted d (map (fun '(key, value) =>
      (key, if bool_decide (value = "constructor_kwarg_unsupported"%pystr)
            then "worker_capability_unsupported"%pystr else value)) (omitted d))
  else d.

(** [model] is what the file system answers for the empty path. *)
Definition _qwen_64k_memory_profile_kwargs (m : llama_module) (cls : llama_class) (installed : option pystr)
    (model : planned_model) (enable_kqv_offload : bool)
  : SM gguf_cache plan_error (jdict * chosen_diagnostics) :=
  let* profiles := _build_qwen_64k_runtime_profiles m cls installed model 65536 enable_kqv_offload
                     (JStr QWEN_64K_BATCH_PROFILE_DEFAULT) in
  match List.find (fun q => bool_decide (profile_id q = QWEN_64K_RUNTIME_PROFILE_Q8)) profiles with
  | Some q => ret (profile_kwargs q, OfProfile q)
  | None =>
      match profiles with
      | [] => ret ([], NotEnabled)
      | first :: _ =>
          match skipped_profiles first with
          | Some (d :: _) => ret ([], OfSkipped (worker_omissions d))
          | _ => ret ([], OfProfile first)
          end
      end
  end.

(** ** After a failure *)

Definition QWEN_64K_MEMORY_PRESSURE_FAILURE_CATEGORIES : list pystr :=
  ["runtime_context_create_metal_memory"; "runtime_context_create_kv_cache_allocation";
   "runtime_context_create_metal_buffer_limit"; "runtime_context_create_cuda_memory";
   "runtime_context_create_cuda_buffer_limit"; "backend_allocation_failure";
   "kv_slot_unavailable"; "metal_command_buffer_out_of_memory"; "cuda_memory_allocation"]%pystr.

Definition is_qwen_64k_memory_pressure_failure_category (category : pystr) : bool :=
  pystr_in category QWEN_64K_MEMORY_PRESSURE_FAILURE_CATEGORIES.

(** [list.index] *)
Fixpoint index_of (x : pystr) (l : list pystr) : option nat :=
  match l with
  | [] => None
  | y :: l' => if bool_decide (y = x) then Some 0%nat else S <$> index_of x l'
  end.

Definition downshift (batch : pystr) : option pystr :=
  if bool_decide (batch = "experimental"%pystr) then Some "balanced"%pystr
  else if bool_decide (batch = "balanced"%pystr) then Some "safe"%pystr else None.

(** The profile the policy names, if it names one *)
Definition fallback_target (d : profile_diagnostics) (failure_category : pystr) : plan_error + option pystr :=
  let precision := kv_precision d in
  if is_qwen_64k_memory_pressure_failure_category failure_category then
    match downshift (batch_profile d) with
    | Some lower => let? target := _qwen_64k_profile_id precision lower in inr (Some target)
    | None => inr (Some QWEN_64K_RUNTIME_PROFILE_Q4)
    end
  else if bool_decide (precision = "q8"%pystr) then
    let? target := _qwen_64k_profile_id "f16" (batch_profile d) in inr (Some target)
  else inr None.

Definition _next_qwen_64k_runtime_profile_index (profiles : list runtime_profile)
    (active_profile_id failure_category : pystr) : plan_error + option nat :=
  match List.find (fun p => bool_decide (profile_id p = active_profile_id)) profiles with
  | None => inr None
  | Some active_profile =>
      let? target := fallback_target (diagnostics active_profile) failure_category in
      match target with
      | None => inr None
      | Some target =>
          if bool_decide (target = active_profile_id) then inr None
          else inr (index_of target (map profile_id profiles))
      end
  end.

End plan.
