(* ===== verification/MemorySound.v ===== *)
(** * The memory plan is what it says

    The cache estimate against its closed form, the estimate of a runtime for every file the
    disk may hold, the profiles the builder enables, and the order in which they are tried
    after failures. *)

From Stdlib Require Import Floats.SpecFloat Sorting.Sorted.
From S2P Require Import Prelude PyFloat PyStr PyDict PyText Json Gguf MemoryPlan.

#[local] Set Default Proof Using "Type*".

(** ** Checked arithmetic *)

Lemma positive_inr z name M r :
  _checked_positive_int (MInt z) name M = inr r <-> r = z /\ 0 < z <= M.
Proof.
  unfold _checked_positive_int. destruct (_ || _) eqn:E; split; try done; [lia|intros [= <-]; lia|].
  intros [-> _]. done.
Qed.

Lemma add_inr l r name M x : _checked_add l r name M = inr x <-> x = l + r /\ l + r <= M.
Proof.
  unfold _checked_add. destruct (Z.ltb_spec M (l + r)); split; try done; [lia|by intros [= <-]|].
  by intros [-> _].
Qed.

Lemma mul_inr l r name M x : _checked_mul l r name M = inr x <-> x = l * r /\ l * r <= M.
Proof.
  unfold _checked_mul. destruct (Z.ltb_spec M (l * r)); split; try done; [lia|by intros [= <-]|].
  by intros [-> _].
Qed.

(** The least multiple of [a] that is at least [v] *)
Definition round_up (v a : Z) : Z := (v + (a - 1)) / a * a.

Lemma round_up_least v a :
  0 < a -> (a | round_up v a) /\ v <= round_up v a < v + a.
Proof.
  intros Ha. unfold round_up. split; [by apply Z.divide_factor_r|].
  pose proof (Z.div_mod (v + (a - 1)) a). pose proof (Z.mod_pos_bound (v + (a - 1)) a). lia.
Qed.

Lemma align_inr v a M r :
  _align_up v a M = inr r <->
  0 < v <= M /\ 0 < a <= 2 ^ 20 /\ v + (a - 1) <= M /\ r = round_up v a.
Proof.
  unfold _align_up. rewrite ebind_inr. setoid_rewrite ebind_inr. setoid_rewrite positive_inr.
  split.
  - intros (? & [-> ?] & ? & [-> ?] & Hr). apply ebind_inr in Hr as (p & Hp & [= <-]).
    apply add_inr in Hp as [-> ?]. done.
  - intros (? & ? & ? & ->). exists v. split; [done|]. exists a. split; [done|].
    apply ebind_inr. exists (v + (a - 1)). by rewrite add_inr.
Qed.

(** Successful checks, unfolded *)
Ltac checks :=
  repeat match goal with
  | H : ebind _ _ = inr _ |- _ =>
      let x := fresh "x" in let E := fresh "E" in apply ebind_inr in H as (x & E & H); cbv beta zeta in H
  | H : _checked_positive_int _ _ _ = inr _ |- _ => apply positive_inr in H as [-> ?]
  | H : _checked_add _ _ _ _ = inr _ |- _ => apply add_inr in H as [-> ?]
  | H : _checked_mul _ _ _ _ = inr _ |- _ => apply mul_inr in H as [-> ?]
  | H : inr _ = inr _ |- _ => injection H as <-
  end.

Lemma positive_ok z name M : 0 < z <= M -> _checked_positive_int (MInt z) name M = inr z.
Proof. intros. by apply positive_inr. Qed.

Lemma add_ok l r name M : l + r <= M -> _checked_add l r name M = inr (l + r).
Proof. intros. by apply add_inr. Qed.

Lemma mul_ok l r name M : l * r <= M -> _checked_mul l r name M = inr (l * r).
Proof. intros. by apply mul_inr. Qed.

Section plan.
Context {uni : PyUnicode} {frepr : FloatRepr} {ctext : ContainerText}.

(** ** Tensors *)

Lemma layout_cases t l :
  layout_of t = inr l -> l = mkLayout 1 2 "F16" \/ l = mkLayout 32 34 "Q8_0" \/ l = mkLayout 32 18 "Q4_0".
Proof.
  unfold layout_of, GGML_KV_TYPE_LAYOUTS. cbn [dget]. repeat case_bool_decide; naive_solver.
Qed.

Lemma layout_facts t l :
  layout_of t = inr l ->
  1 <= block_size l <= 32 /\ (block_size l | 512) /\ 2 <= type_size l <= 34.
Proof.
  intros [->|[->| ->]]%layout_cases; cbn [block_size type_size]; split_and!; try lia.
  - by exists 512.
  - by exists 16.
  - by exists 16.
Qed.

Lemma alignment_cases b a :
  alignment_of b = inr a ->
  (b = "cpu"%pystr /\ a = 32) \/ (b = "metal"%pystr /\ a = 32) \/ (b = "cuda"%pystr /\ a = 128).
Proof.
  unfold alignment_of, GGML_KV_BACKEND_ALIGNMENT_BYTES. cbn [dget].
  repeat case_bool_decide; intros [= <-]; auto.
Qed.

Lemma known_backends b a : alignment_of b = inr a -> _normalize_kv_backend (JStr b) = Some b.
Proof.
  intros [[-> _]|[[-> _]|[-> _]]]%alignment_cases; unfold _normalize_kv_backend, text_or_empty;
    cbn -[pystr_in py_strip]; rewrite py_lower_ascii by (by vm_compute); by vm_compute.
Qed.

Lemma normalized_is_known j b : _normalize_kv_backend j = Some b -> exists a, alignment_of b = inr a.
Proof.
  unfold _normalize_kv_backend. destruct (pystr_in _ _) eqn:E; [|done]. intros [= <-].
  apply bool_decide_eq_true in E. rewrite !elem_of_cons in E.
  destruct E as [->|[->|[->|[]%elem_of_nil]]]; by eexists.
Qed.

Lemma row_size_inr n t l r :
  layout_of t = inr l ->
  _ggml_row_size_bytes n t = inr r <->
  0 < n <= 2 ^ 40 /\ (block_size l | n) /\ r = n / block_size l * type_size l.
Proof.
  intros Hl. pose proof (layout_facts t l Hl) as (Hb & _ & Hs). unfold _ggml_row_size_bytes.
  rewrite Hl. split.
  - intros H. checks. cbn [ebind] in H. destruct (n mod block_size l =? 0) eqn:E; [|done].
    cbn [negb] in H. checks. split_and!; [by change (2 ^ 40) with count_max; lia..| |done].
    apply Z.mod_divide; lia.
  - intros (Hn & Hd & ->). rewrite positive_ok by (change count_max with (2 ^ 40); lia).
    cbn [ebind]. apply Z.mod_divide in Hd; [|lia]. rewrite Hd. cbn [Z.eqb negb].
    apply mul_ok. assert (n / block_size l <= 2 ^ 40) by
      (apply Z.div_le_upper_bound; [lia|]; change (2 ^ 40) with 1099511627776 in *; nia).
    change int64_max with 9223372036854775807. change (2 ^ 40) with 1099511627776 in *. nia.
Qed.

(** The closed form of an allocation *)
Definition payload_bytes (l : layout) (rows columns : Z) : Z :=
  rows / block_size l * type_size l * columns.

Definition tail_bytes (b : pystr) (l : layout) (rows : Z) : Z :=
  if bool_decide (b = "cuda"%pystr) && (1 <? block_size l) && negb (rows mod 512 =? 0)
  then (512 - rows mod 512) / block_size l * type_size l else 0.

Definition tensor_bytes (b : pystr) (a : Z) (l : layout) (rows columns : Z) : Z :=
  round_up (payload_bytes l rows columns + tail_bytes b l rows) a.

Lemma tail_small b t l rows :
  layout_of t = inr l -> 0 <= tail_bytes b l rows <= 17408.
Proof.
  intros (Hb & _ & Hs)%layout_facts. unfold tail_bytes. case_match; [|lia].
  pose proof (Z.mod_pos_bound rows 512 ltac:(lia)).
  assert (0 <= (512 - rows mod 512) / block_size l <= 512).
  { split; [apply Z.div_pos; lia|]. apply Z.div_le_upper_bound; [lia|]. nia. }
  nia.
Qed.

Lemma tail_row_size b t l rows :
  layout_of t = inr l -> (block_size l | rows) ->
  (if bool_decide (b = "cuda"%pystr) && (1 <? block_size l)
      && negb (rows mod GGML_CUDA_QUANTIZED_MATRIX_ROW_PADDING =? 0)
   then _ggml_row_size_bytes (GGML_CUDA_QUANTIZED_MATRIX_ROW_PADDING
                              - rows mod GGML_CUDA_QUANTIZED_MATRIX_ROW_PADDING) t
   else inr 0) = inr (tail_bytes b l rows).
Proof.
  intros Hl Hd. change GGML_CUDA_QUANTIZED_MATRIX_ROW_PADDING with 512. unfold tail_bytes.
  destruct (_ && _); [|done]. apply (row_size_inr _ _ _ _ Hl).
  pose proof (layout_facts t l Hl) as (Hb & H512 & Hs).
  pose proof (Z.mod_pos_bound rows 512 ltac:(lia)). split_and!; [lia|lia| |done].
  apply Z.divide_sub_r; [done|]. rewrite Z.mod_eq by lia.
  apply Z.divide_sub_r; [done|]. by apply Z.divide_mul_l.
Qed.

(** What a tensor of an allocatable size takes; any other size raises. *)
Lemma breakdown_inr rows columns t l b a A :
  layout_of t = inr l -> alignment_of b = inr a ->
  _ggml_tensor_2d_allocation_breakdown rows columns t (JStr b) = inr A <->
  0 < rows <= 2 ^ 40 /\ (block_size l | rows) /\ 0 < columns <= 2 ^ 40 /\
  payload_bytes l rows columns + tail_bytes b l rows + (a - 1) <= int64_max /\
  A = mkAllocation (rows / block_size l * type_size l) (payload_bytes l rows columns)
        (tail_bytes b l rows)
        (tensor_bytes b a l rows columns - (payload_bytes l rows columns + tail_bytes b l rows))
        (tensor_bytes b a l rows columns).
Proof.
  intros Hl Ha. unfold _ggml_tensor_2d_allocation_breakdown.
  rewrite (known_backends b a Ha), Hl, Ha.
  pose proof (layout_facts t l Hl) as (Hb & _ & Hs). pose proof (tail_small b t l rows Hl) as Ht.
  assert (Ha' : 0 < a <= 128) by (destruct (alignment_cases b a Ha) as [[_ ->]|[[_ ->]|[_ ->]]]; lia).
  split.
  - intros Hrun. checks.
    match goal with H : _ggml_row_size_bytes rows t = inr _ |- _ =>
      apply (row_size_inr _ _ _ _ Hl) in H as (Hr & Hd & ->) end.
    match goal with H : (if _ then _ else _) = inr _ |- _ =>
      rewrite (tail_row_size b t l rows Hl Hd) in H; injection H as <- end.
    match goal with H : _align_up _ _ _ = inr _ |- _ => apply align_inr in H as (? & ? & ? & ->) end.
    split_and!; try done; try lia. change count_max with (2 ^ 40) in *. lia.
  - intros (Hr & Hd & Hc & Hsize & ->).
    rewrite positive_ok by (change count_max with (2 ^ 40); lia). cbn [ebind].
    assert (Erow : _ggml_row_size_bytes rows t = inr (rows / block_size l * type_size l))
      by (by apply (row_size_inr _ _ _ _ Hl)).
    rewrite Erow. cbn [ebind].
    rewrite positive_ok by (change count_max with (2 ^ 40); lia). cbn [ebind].
    assert (0 < rows / block_size l).
    { destruct Hd as [q ->]. rewrite Z.div_mul by lia. nia. }
    fold (payload_bytes l rows columns). unfold payload_bytes in *.
    rewrite mul_ok by lia. cbn [ebind]. rewrite (tail_row_size b t l rows Hl Hd). cbn [ebind].
    rewrite add_ok by lia. cbn [ebind].
    assert (Ealign : _align_up (rows / block_size l * type_size l * columns + tail_bytes b l rows) a int64_max
                     = inr (tensor_bytes b a l rows columns)).
    { apply align_inr. split_and!; try lia; try done; nia. }
    by rewrite Ealign.
Qed.

(** ** The attention layout *)

(** What the planner relies on of a derived shape *)
Record shape_ok (s : kv_shape) : Prop := {
  layers_positive : 0 < layer_count s <= 2 ^ 30;
  groups_exact : attention_head_count s = gqa_groups s * attention_head_count_kv s;
  heads_positive : 0 < attention_head_count_kv s <= attention_head_count s;
  keys_exact : n_embd_k_gqa s = attention_head_count_kv s * key_length s;
  values_exact : n_embd_v_gqa s = attention_head_count_kv s * value_length s;
  keys_positive : 0 < key_length s <= 2 ^ 30;
  values_positive : 0 < value_length s <= 2 ^ 30
}.

Lemma meta_positive_inr v name r :
  _checked_positive_int v name (Z.shiftl 1 30) = inr r -> 0 < r <= 2 ^ 30.
Proof.
  destruct v as [z| | |]; try done. intros [-> ?]%positive_inr. by change (2 ^ 30) with (Z.shiftl 1 30).
Qed.

Lemma meta_int_inr m prefix suffix name dflt r :
  (forall d, dflt = Some d -> 0 < d <= 2 ^ 30) ->
  meta_int m prefix suffix name dflt = inr r -> 0 < r <= 2 ^ 30.
Proof.
  intros Hd. unfold meta_int. destruct (dget _ _) as [v|]; [apply meta_positive_inr|].
  destruct dflt as [d|]; [|done]. intros [= <-]. by apply Hd.
Qed.

Lemma meta_int_required m prefix suffix name r :
  meta_int m prefix suffix name None = inr r -> 0 < r <= 2 ^ 30.
Proof. by apply meta_int_inr. Qed.

Lemma meta_int_defaulted m prefix suffix name d r :
  0 < d <= 2 ^ 30 -> meta_int m prefix suffix name (Some d) = inr r -> 0 < r <= 2 ^ 30.
Proof. intros Hd. apply meta_int_inr. by intros ? [= <-]. Qed.

Definition dim_ok (d : option Z) : Prop := match d with Some d => 0 < d <= 2 ^ 30 | None => True end.

Lemma meta_int_present_inr m prefix suffix name r :
  meta_int_present m prefix suffix name = inr r ->
  dim_ok r.
Proof.
  unfold meta_int_present. destruct (dmem _ _); [|by intros [= <-]].
  intros (z & Hz & [= <-])%ebind_inr. by apply meta_int_required in Hz.
Qed.

Lemma dim_or_positive dim q d :
  dim_ok dim -> 0 < q <= 2 ^ 30 -> dim_or dim q = d -> 0 < d <= 2 ^ 30.
Proof. intros Hd Hq <-. destruct dim as [d'|]; cbn [dim_or dim_ok] in *; [case_match; lia|done]. Qed.

Lemma head_dims_inr m prefix heads k v kd vd :
  0 < heads -> dim_ok k -> dim_ok v -> head_dims m prefix heads k v = inr (kd, vd) ->
  0 < kd <= 2 ^ 30 /\ 0 < vd <= 2 ^ 30.
Proof.
  intros Hh Hk Hv. unfold head_dims.
  assert (Hslow : (let? embd := meta_int m prefix "embedding_length" "embedding_length" None in
     let? _ := eraise_if (negb (embd mod heads =? 0))
                         (ValueError "embedding_length_not_divisible_by_head_count") in
     inr (dim_or k (embd / heads), dim_or v (embd / heads))) = inr (kd, vd) ->
     0 < kd <= 2 ^ 30 /\ 0 < vd <= 2 ^ 30).
  { intros Hrun. apply ebind_inr in Hrun as (embd & He%meta_int_required & Hrun).
    apply ebind_inr in Hrun as (u & Hu%eraise_if_inr & [= Ek Ev]).
    apply negb_false_iff, Z.eqb_eq, Z.mod_divide in Hu as [q ->]; [|lia].
    rewrite Z.div_mul in Ek, Ev by lia.
    split; [apply (dim_or_positive k q)|apply (dim_or_positive v q)]; (done || nia). }
  destruct k as [k|]; [|done]. destruct v as [v|]; [|done]. by intros [= <- <-].
Qed.

Lemma derived_shape m s : _derive_kv_cache_metadata m = inr s -> shape_ok s.
Proof.
  unfold _derive_kv_cache_metadata. cbv zeta. intros Hrun. checks.
  repeat match goal with
  | H : meta_int _ _ _ _ None = inr _ |- _ => apply meta_int_required in H
  | H : meta_int_present _ _ _ _ = inr _ |- _ => apply meta_int_present_inr in H
  | H : eraise_if (negb (_ mod _ =? 0)) _ = inr _ |- _ =>
      apply eraise_if_inr in H; apply negb_false_iff, Z.eqb_eq in H
  end.
  match goal with H : meta_int _ _ _ _ (Some ?d) = inr _ |- _ =>
    apply meta_int_defaulted in H; [|done] end.
  match goal with H : head_dims _ _ _ _ _ = inr ?p |- _ =>
    destruct p as [kd vd]; apply head_dims_inr in H as [Hk Hv]; [|lia|done|done] end.
  injection Hrun as <-.
  match goal with H : _ mod _ = 0 |- _ => apply Z.mod_divide in H as [q Hq]; [|lia] end.
  split; cbn [layer_count attention_head_count gqa_groups attention_head_count_kv n_embd_k_gqa
              n_embd_v_gqa key_length value_length]; try done.
  - rewrite Hq, Z.div_mul by lia. lia.
  - split; [lia|]. apply Z.divide_pos_le; [lia|]. by exists q.
Qed.

(** ** The cache *)

Lemma context_sizes_inr n p :
  context_sizes n = inr p <-> p = (n, round_up n 256) /\ 0 < n <= 2 ^ 30.
Proof.
  unfold context_sizes, _allocated_context_tokens. split.
  - intros Hrun. checks.
    match goal with H : _align_up _ _ _ = inr _ |- _ => apply align_inr in H as (? & ? & ? & ->) end.
    split; [done|]. by change (2 ^ 30) with (Z.shiftl 1 30).
  - intros [-> Hn]. rewrite positive_ok by done. cbn [ebind].
    assert (E : _align_up n GGML_KV_CONTEXT_ALLOCATION_ALIGNMENT_TOKENS int64_max = inr (round_up n 256)).
    { apply align_inr. change int64_max with 9223372036854775807.
      change GGML_KV_CONTEXT_ALLOCATION_ALIGNMENT_TOKENS with 256. split_and!; try lia. }
    by rewrite E.
Qed.

(** An estimate in closed form *)
Record exact_estimate (s : kv_shape) (b : pystr) (a : Z) (lk lv : layout) (n ctx : Z)
    (e : kv_estimate) : Prop := {
  of_shape : kv_shape_of e = s;
  of_request : requested_context_size_tokens e = n;
  of_context : context_size_tokens e = ctx;
  k_payload_exact : k_tensor_payload_bytes_total e
                    = payload_bytes lk (n_embd_k_gqa s) ctx * layer_count s;
  v_payload_exact : v_tensor_payload_bytes_total e
                    = payload_bytes lv (n_embd_v_gqa s) ctx * layer_count s;
  cache_exact : kv_cache_bytes e
                = (tensor_bytes b a lk (n_embd_k_gqa s) ctx + tensor_bytes b a lv (n_embd_v_gqa s) ctx)
                  * layer_count s;
  cache_fits : kv_cache_bytes e <= int64_max
}.

Lemma estimate_known_inr m n ctx tk tv b a e :
  alignment_of b = inr a -> estimate_known m n ctx tk tv b = inr e ->
  exists s lk lv, _derive_kv_cache_metadata m = inr s /\ layout_of tk = inr lk /\
    layout_of tv = inr lv /\ (block_size lk | n_embd_k_gqa s) /\ (block_size lv | n_embd_v_gqa s) /\
    0 < ctx /\ exact_estimate s b a lk lv n ctx e /\
    kv_backend e = b /\ exact_allocation_available e = true.
Proof.
  intros Ha. unfold estimate_known. cbv zeta. intros Hrun.
  apply ebind_inr in Hrun as (s & Hs & Hrun). cbv zeta in Hrun.
  destruct (layout_of tk) as [|lk] eqn:Hk.
  { apply ebind_inr in Hrun as (r & Hr & _). unfold _ggml_row_size_bytes in Hr. rewrite Hk in Hr.
    checks. done. }
  destruct (layout_of tv) as [|lv] eqn:Hv.
  { apply ebind_inr in Hrun as (r & _ & Hrun). apply ebind_inr in Hrun as (r' & Hr & _).
    unfold _ggml_row_size_bytes in Hr. rewrite Hv in Hr. checks. done. }
  checks.
  repeat match goal with
  | H : _ggml_row_size_bytes _ tk = inr _ |- _ => apply (row_size_inr _ _ _ _ Hk) in H as (? & ? & ->)
  | H : _ggml_row_size_bytes _ tv = inr _ |- _ => apply (row_size_inr _ _ _ _ Hv) in H as (? & ? & ->)
  | H : _ggml_tensor_2d_allocation_breakdown _ _ tk _ = inr _ |- _ =>
      apply (breakdown_inr _ _ _ _ _ _ _ Hk Ha) in H as (? & ? & ? & ? & ->)
  | H : _ggml_tensor_2d_allocation_breakdown _ _ tv _ = inr _ |- _ =>
      apply (breakdown_inr _ _ _ _ _ _ _ Hv Ha) in H as (? & ? & ? & ? & ->)
  end.
  exists s, lk, lv. split_and!; try done; try lia.
Qed.

(** Between the payload and the allocation: at most a tail and an alignment per tensor *)
Lemma tensor_bytes_bounds b a t l rows ctx :
  layout_of t = inr l -> alignment_of b = inr a -> 0 < rows -> (block_size l | rows) -> 0 < ctx ->
  0 < payload_bytes l rows ctx /\
  payload_bytes l rows ctx <= tensor_bytes b a l rows ctx < payload_bytes l rows ctx + 17408 + a.
Proof.
  intros Hl Ha Hr [q ->] Hc. pose proof (layout_facts t l Hl) as (Hb & _ & Hs).
  pose proof (tail_small b t l (q * block_size l) Hl).
  assert (0 < a) by (destruct (alignment_cases b a Ha) as [[_ ->]|[[_ ->]|[_ ->]]]; lia).
  unfold tensor_bytes.
  pose proof (round_up_least (payload_bytes l (q * block_size l) ctx
                              + tail_bytes b l (q * block_size l)) a ltac:(lia)).
  assert (0 < payload_bytes l (q * block_size l) ctx); [|lia].
  unfold payload_bytes. rewrite Z.div_mul by lia. assert (0 < q) by nia. nia.
Qed.

Lemma shape_rows_positive s : shape_ok s -> 0 < n_embd_k_gqa s /\ 0 < n_embd_v_gqa s.
Proof.
  intros H. destruct (heads_positive s H), (keys_positive s H), (values_positive s H).
  rewrite (keys_exact s H), (values_exact s H). nia.
Qed.

Lemma estimate_of_known m n tk tv b a :
  alignment_of b = inr a ->
  _estimate_kv_cache_bytes_from_metadata m n tk tv (JStr b) = estimate_for m n tk tv b.
Proof.
  intros Ha. unfold _estimate_kv_cache_bytes_from_metadata, estimate_for.
  by rewrite (known_backends b a Ha).
Qed.

Lemma max_estimate_l x y : kv_cache_bytes x <= kv_cache_bytes (max_estimate x y).
Proof. unfold max_estimate. case_match; lia. Qed.

Lemma max_estimate_r x y : kv_cache_bytes y <= kv_cache_bytes (max_estimate x y).
Proof. unfold max_estimate. case_match; lia. Qed.

Lemma max_estimate_one x y : max_estimate x y = x \/ max_estimate x y = y.
Proof. unfold max_estimate. case_match; auto. Qed.

(** An unknown backend: the largest of the three, and marked as inexact *)
Lemma unknown_inr m n tk tv backend e :
  _normalize_kv_backend backend = None ->
  _estimate_kv_cache_bytes_from_metadata m n tk tv backend = inr e ->
  (exists b a e', alignment_of b = inr a /\ estimate_for m n tk tv b = inr e' /\ e = unknown_backend e') /\
  forall b a, alignment_of b = inr a ->
    exists e', estimate_for m n tk tv b = inr e' /\ kv_cache_bytes e' <= kv_cache_bytes e.
Proof.
  intros Hb. unfold _estimate_kv_cache_bytes_from_metadata. rewrite Hb. intros Hrun.
  apply ebind_inr in Hrun as (p & [-> Hn]%context_sizes_inr & Hrun). cbv beta zeta iota in Hrun.
  apply ebind_inr in Hrun as (cpu & Hcpu & Hrun). apply ebind_inr in Hrun as (metal & Hmetal & Hrun).
  apply ebind_inr in Hrun as (cuda & Hcuda & [= <-]).
  change (kv_cache_bytes (unknown_backend ?x)) with (kv_cache_bytes x).
  pose proof (max_estimate_l cpu metal). pose proof (max_estimate_r cpu metal).
  pose proof (max_estimate_l (max_estimate cpu metal) cuda).
  pose proof (max_estimate_r (max_estimate cpu metal) cuda).
  split.
  - destruct (max_estimate_one (max_estimate cpu metal) cuda) as [->| ->];
      [destruct (max_estimate_one cpu metal) as [->| ->]|];
      [exists "cpu"%pystr, 32, cpu|exists "metal"%pystr, 32, metal|exists "cuda"%pystr, 128, cuda];
      done.
  - intros b a [[-> _]|[[-> _]|[-> _]]]%alignment_cases; eexists; (split; [eassumption|]);
      cbn [kv_cache_bytes unknown_backend]; lia.
Qed.

Lemma estimate_for_inr m n tk tv b a e :
  alignment_of b = inr a -> estimate_for m n tk tv b = inr e ->
  0 < n <= 2 ^ 30 /\ estimate_known m n (round_up n 256) tk tv b = inr e.
Proof.
  intros Ha. unfold estimate_for. intros Hrun.
  by apply ebind_inr in Hrun as (p & [-> Hn]%context_sizes_inr & Hrun).
Qed.

(** An estimate of either kind, reduced to a known backend *)
Lemma estimate_cases m n tk tv backend e :
  _estimate_kv_cache_bytes_from_metadata m n tk tv backend = inr e ->
  exists b a e', alignment_of b = inr a /\ estimate_for m n tk tv b = inr e' /\
    (e = e' \/ e = unknown_backend e').
Proof.
  intros He. destruct (_normalize_kv_backend backend) as [b|] eqn:Hb.
  - destruct (normalized_is_known _ _ Hb) as [a Ha]. exists b, a, e. split; [done|]. split; [|by left].
    revert He. unfold _estimate_kv_cache_bytes_from_metadata, estimate_for. by rewrite Hb.
  - destruct (unknown_inr _ _ _ _ _ _ Hb He) as [(b & a & e' & ? & ? & ->) _].
    exists b, a, e'. auto.
Qed.

Definition payload_total (e : kv_estimate) : Z :=
  k_tensor_payload_bytes_total e + v_tensor_payload_bytes_total e.

(** C31: a cache estimate is the allocation llama.cpp makes.  The context is rounded up to a
    multiple of 256 tokens; every layer has a key and a value tensor of whole quantization
    blocks, each padded to the backend's alignment (on CUDA after its quantized tail); the
    cache is that times the layers, more than its payload by at most the padding and never
    past the signed 64-bit range.  For an unknown backend it is an allocation of one of the
    three and at least that of each, and it is not called exact. *)
Theorem kv_estimate_is_exact m n tk tv backend e :
  _estimate_kv_cache_bytes_from_metadata m n tk tv backend = inr e ->
  exists s lk lv b a,
    _derive_kv_cache_metadata m = inr s /\ shape_ok s /\
    layout_of tk = inr lk /\ layout_of tv = inr lv /\ alignment_of b = inr a /\
    0 < n <= 2 ^ 30 /\ (256 | context_size_tokens e) /\ n <= context_size_tokens e < n + 256 /\
    exact_estimate s b a lk lv n (round_up n 256) e /\
    0 < payload_total e <= kv_cache_bytes e /\
    kv_cache_bytes e < payload_total e + 2 * (17408 + a) * layer_count s /\
    match _normalize_kv_backend backend with
    | Some b' => b' = b /\ exact_allocation_available e = true
    | None => exact_allocation_available e = false /\
        forall b' a', alignment_of b' = inr a' -> exists e',
          _estimate_kv_cache_bytes_from_metadata m n tk tv (JStr b') = inr e' /\
          kv_cache_bytes e' <= kv_cache_bytes e
    end.
Proof.
  intros He. destruct (estimate_cases _ _ _ _ _ _ He) as (b & a & e' & Ha & He' & Hor).
  destruct (estimate_for_inr _ _ _ _ _ _ _ Ha He') as [Hn Hk].
  destruct (estimate_known_inr _ _ _ _ _ _ _ _ Ha Hk)
    as (s & lk & lv & Hs & Hlk & Hlv & Hdk & Hdv & Hc & Hx & Hb & Hexact).
  assert (Hxe : exact_estimate s b a lk lv n (round_up n 256) e).
  { destruct Hor as [->| ->]; [done|]. destruct Hx. by split. }
  pose proof (derived_shape _ _ Hs) as Hok. destruct (shape_rows_positive s Hok) as [Hrk Hrv].
  pose proof (tensor_bytes_bounds b a tk lk _ _ Hlk Ha Hrk Hdk Hc) as [Hk0 Hk1].
  pose proof (tensor_bytes_bounds b a tv lv _ _ Hlv Ha Hrv Hdv Hc) as [Hv0 Hv1].
  destruct (layers_positive s Hok) as [Hlayers _].
  exists s, lk, lv, b, a. unfold payload_total.
  rewrite (of_context _ _ _ _ _ _ _ _ Hxe), (k_payload_exact _ _ _ _ _ _ _ _ Hxe),
    (v_payload_exact _ _ _ _ _ _ _ _ Hxe), (cache_exact _ _ _ _ _ _ _ _ Hxe).
  destruct (round_up_least n 256 ltac:(lia)) as [Hdiv Hround].
  split_and!; try done; try nia.
  destruct (_normalize_kv_backend backend) as [b'|] eqn:Hnorm.
  - assert (Hsame : estimate_for m n tk tv b' = inr e).
    { revert He. unfold _estimate_kv_cache_bytes_from_metadata, estimate_for. by rewrite Hnorm. }
    destruct (normalized_is_known _ _ Hnorm) as [a' Ha'].
    destruct (estimate_for_inr _ _ _ _ _ _ _ Ha' Hsame) as [_ Hk'].
    destruct (estimate_known_inr _ _ _ _ _ _ _ _ Ha' Hk') as (? & ? & ? & _ & _ & _ & _ & _ & _ & _ & Hb' & Hexact').
    split; [|done]. rewrite <- Hb'. destruct Hor as [->| ->]; [done|by cbn in Hexact'].
  - destruct (unknown_inr _ _ _ _ _ _ Hnorm He) as [(? & ? & ? & _ & _ & ->) Hmax].
    split; [done|]. intros b' a' Ha'. rewrite (estimate_of_known _ _ _ _ _ _ Ha'). 
    destruct (Hmax b' a' Ha') as (e2 & ? & Hle). exists e2. split; [done|].
    rewrite <- (cache_exact _ _ _ _ _ _ _ _ Hxe). exact Hle.
Qed.

(** ** The estimate of a runtime always comes *)

(** Enough for every check of [estimate_known] to pass *)
Lemma estimate_known_total m s n ctx tk tv lk lv b a :
  _derive_kv_cache_metadata m = inr s -> shape_ok s ->
  layout_of tk = inr lk -> layout_of tv = inr lv -> alignment_of b = inr a ->
  (block_size lk | n_embd_k_gqa s) -> (block_size lv | n_embd_v_gqa s) ->
  n_embd_k_gqa s <= 2 ^ 40 -> n_embd_v_gqa s <= 2 ^ 40 -> 0 < ctx <= 2 ^ 40 ->
  (tensor_bytes b a lk (n_embd_k_gqa s) ctx + tensor_bytes b a lv (n_embd_v_gqa s) ctx)
    * layer_count s + 17408 + a <= int64_max ->
  exists e, estimate_known m n ctx tk tv b = inr e.
Proof.
  intros Hs Hok Hlk Hlv Ha Hdk Hdv Hk Hv Hctx Hsize. unfold estimate_known.
  rewrite Hs. cbn [ebind]. cbv zeta.
  destruct (shape_rows_positive s Hok) as [Hrk Hrv]. destruct (layers_positive s Hok) as [Hlayers _].
  pose proof (tensor_bytes_bounds b a tk lk _ ctx Hlk Ha Hrk Hdk ltac:(lia)) as [Hk0 Hk1].
  pose proof (tensor_bytes_bounds b a tv lv _ ctx Hlv Ha Hrv Hdv ltac:(lia)) as [Hv0 Hv1].
  pose proof (tail_small b tk lk (n_embd_k_gqa s) Hlk).
  pose proof (tail_small b tv lv (n_embd_v_gqa s) Hlv).
  set (K := tensor_bytes b a lk (n_embd_k_gqa s) ctx) in *.
  set (V := tensor_bytes b a lv (n_embd_v_gqa s) ctx) in *.
  set (PK := payload_bytes lk (n_embd_k_gqa s) ctx) in *.
  set (PV := payload_bytes lv (n_embd_v_gqa s) ctx) in *.
  assert (Hrow_k : _ggml_row_size_bytes (n_embd_k_gqa s) tk
                   = inr (n_embd_k_gqa s / block_size lk * type_size lk))
    by (by apply (row_size_inr _ _ _ _ Hlk)).
  assert (Hrow_v : _ggml_row_size_bytes (n_embd_v_gqa s) tv
                   = inr (n_embd_v_gqa s / block_size lv * type_size lv))
    by (by apply (row_size_inr _ _ _ _ Hlv)).
  rewrite Hrow_k, Hrow_v. cbn [ebind].
  assert (PK + PV <= (K + V) * layer_count s) by nia.
  assert (PK * layer_count s + PV * layer_count s <= (K + V) * layer_count s) by nia.
  assert (K + V <= (K + V) * layer_count s) by nia.
  assert (EK : forall name, _checked_mul (n_embd_k_gqa s / block_size lk * type_size lk) ctx name int64_max
                            = inr PK)
    by (intros; apply mul_inr; split; [done|];
        change (n_embd_k_gqa s / block_size lk * type_size lk * ctx) with PK; lia).
  assert (EV : forall name, _checked_mul (n_embd_v_gqa s / block_size lv * type_size lv) ctx name int64_max
                            = inr PV)
    by (intros; apply mul_inr; split; [done|];
        change (n_embd_v_gqa s / block_size lv * type_size lv * ctx) with PV; lia).
  rewrite EK, EV. cbn [ebind].
  rewrite (proj2 (breakdown_inr _ ctx tk lk b a _ Hlk Ha))
    by (split_and!; try done; change (payload_bytes lk (n_embd_k_gqa s) ctx) with PK; lia).
  rewrite (proj2 (breakdown_inr _ ctx tv lv b a _ Hlv Ha))
    by (split_and!; try done; change (payload_bytes lv (n_embd_v_gqa s) ctx) with PV; lia).
  cbn [ebind allocation_bytes]. fold K V.
  rewrite add_ok by lia. cbn [ebind]. rewrite mul_ok by lia. cbn [ebind].
  replace (int64_max <? (K + V) * layer_count s) with false by lia. cbn [eraise_if ebind].
  rewrite !mul_ok by nia. cbn [ebind]. rewrite Ha. by eexists.
Qed.

(** Qwen3 8B, the shape that is assumed *)
Definition qwen3_8b : kv_shape := mkShape "qwen3" 36 32 8 4 128 128 1024 1024.

Lemma fallback_shape : _derive_kv_cache_metadata _fallback_qwen3_8b_kv_metadata = inr qwen3_8b.
Proof. by vm_compute. Qed.

Lemma fallback_estimate_total n t l b a :
  layout_of t = inr l -> alignment_of b = inr a -> 0 < n <= 2 ^ 30 ->
  exists e, estimate_for _fallback_qwen3_8b_kv_metadata n t t b = inr e.
Proof.
  intros Hl Ha Hn. unfold estimate_for. rewrite (proj2 (context_sizes_inr n _)) by done. cbn [ebind].
  destruct (round_up_least n 256 ltac:(lia)) as [_ Hr].
  pose proof (derived_shape _ _ fallback_shape) as Hok.
  assert (Hd : (block_size l | 1024)).
  { destruct (layout_facts t l Hl) as (_ & H512 & _). change 1024 with (2 * 512). by apply Z.divide_mul_r. }
  pose proof (tensor_bytes_bounds b a t l 1024 (round_up n 256) Hl Ha ltac:(lia) Hd ltac:(lia)) as Hb.
  apply (estimate_known_total _ qwen3_8b _ _ _ _ l l b a); try done;
    cbn [n_embd_k_gqa n_embd_v_gqa layer_count qwen3_8b]; try lia.
  destruct (alignment_cases b a Ha) as [[_ ->]|[[_ ->]|[_ ->]]];
  destruct (layout_cases t l Hl) as [->|[->| ->]]; unfold payload_bytes in Hb;
    cbn [block_size type_size] in Hb;
    change (1024 / 1) with 1024 in Hb; change (1024 / 32) with 32 in Hb;
    change int64_max with 9223372036854775807; change (2 ^ 30) with 1073741824 in *; lia.
Qed.

Lemma fallback_total n t l backend :
  layout_of t = inr l -> 0 < n <= 2 ^ 30 ->
  exists e, _estimate_kv_cache_bytes_from_metadata _fallback_qwen3_8b_kv_metadata n t t backend = inr e.
Proof.
  intros Hl Hn. destruct (_normalize_kv_backend backend) as [b|] eqn:Hb.
  - destruct (normalized_is_known _ _ Hb) as [a Ha].
    destruct (fallback_estimate_total n t l b a Hl Ha Hn) as [e He]. exists e.
    revert He. unfold _estimate_kv_cache_bytes_from_metadata, estimate_for. by rewrite Hb.
  - unfold _estimate_kv_cache_bytes_from_metadata. rewrite Hb, (proj2 (context_sizes_inr n _)) by done.
    cbn [ebind].
    destruct (fallback_estimate_total n t l "cpu" 32 Hl eq_refl Hn) as [e1 ->].
    destruct (fallback_estimate_total n t l "metal" 32 Hl eq_refl Hn) as [e2 ->].
    destruct (fallback_estimate_total n t l "cuda" 128 Hl eq_refl Hn) as [e3 ->]. by eexists.
Qed.

Lemma per_token_range p per_token :
  dget QWEN_64K_LEGACY_BYTES_PER_TOKEN p = Some per_token -> 0 < per_token <= 524288.
Proof.
  unfold QWEN_64K_LEGACY_BYTES_PER_TOKEN. cbn [dget]. repeat case_bool_decide; intros [= <-]; lia.
Qed.

Lemma precision_layout p per_token :
  dget QWEN_64K_LEGACY_BYTES_PER_TOKEN p = Some per_token -> exists l, layout_of p = inr l.
Proof.
  unfold QWEN_64K_LEGACY_BYTES_PER_TOKEN. cbn [dget].
  repeat case_bool_decide; intros [= <-]; subst p; unfold layout_of;
    rewrite py_lower_ascii by (by vm_compute); by eexists.
Qed.

(** [int(z * 0.04)] and its like *)
Lemma scaled_total z m e :
  0 <= z < 2 ^ 64 -> Zpos m < 2 ^ 53 -> e <= 0 ->
  exists t, scaled z (S754_finite false m e) = inr t /\ 0 <= t.
Proof.
  intros Hz Hm He. pose proof (float_near_small z Hz) as Hn. unfold scaled, float_of_int.
  assert (is_finite (float_near z) = true) as -> by (by destruct (float_near z)).
  destruct (fmul_small _ m e Hn Hm He) as (M & E & Hr).
  destruct (fmul (float_near z) (S754_finite false m e)) as [s|s| |s mx ex]; cbn [rounds_to truncated] in *;
    try done; [by exists 0|].
  destruct Hr as (-> & _). eexists; split; [done|]. cbv zeta.
  case_match; [apply Z.mul_nonneg_nonneg; [lia|apply Z.pow_nonneg; lia]|].
  apply Z.div_pos; [lia|]. apply Z.pow_pos_nonneg; lia.
Qed.

(** The breakdown: of the header, or of the assumed shape with the reason *)
Lemma breakdown_total header n p l backend cache :
  layout_of p = inr l -> 0 < n <= 2 ^ 30 ->
  exists cache' e reason,
    breakdown_or_fallback header n p backend cache = (cache', inr (e, reason)) /\
    match reason with
    | None => exists m, snd (_read_gguf_metadata header 4096 cache) = inr m /\
                _estimate_kv_cache_bytes_from_metadata m n p p backend = inr e
    | Some _ =>
        _estimate_kv_cache_bytes_from_metadata _fallback_qwen3_8b_kv_metadata n p p backend = inr e
    end.
Proof.
  intros Hl Hn. destruct (fallback_total n p l backend Hl Hn) as [e He].
  unfold breakdown_or_fallback, bind, attempt.
  destruct (_read_gguf_metadata header 4096 cache) as [cache' [exc|m]].
  - exists cache', e, (Some (error_name exc)). by rewrite He.
  - destruct (_estimate_kv_cache_bytes_from_metadata m n p p backend) as [exc|e'] eqn:Em.
    + exists cache', e, (Some (error_name exc)). by rewrite He.
    + exists cache', e', None. split; [done|]. by exists m.
Qed.

(** Every estimate of a cache is a positive 64-bit integer. *)
Lemma estimate_range m n tk tv backend e :
  _estimate_kv_cache_bytes_from_metadata m n tk tv backend = inr e -> 0 < kv_cache_bytes e <= int64_max.
Proof.
  intros He. destruct (estimate_cases _ _ _ _ _ _ He) as (b & a & e' & Ha & He' & Hor).
  destruct (estimate_for_inr _ _ _ _ _ _ _ Ha He') as [Hn Hk].
  destruct (estimate_known_inr _ _ _ _ _ _ _ _ Ha Hk)
    as (s & lk & lv & Hs & Hlk & Hlv & Hdk & Hdv & Hc & Hx & Hb & Hexact).
  assert (kv_cache_bytes e = kv_cache_bytes e') as -> by (by destruct Hor as [->| ->]).
  pose proof (derived_shape _ _ Hs) as Hok. destruct (shape_rows_positive s Hok) as [Hrk Hrv].
  pose proof (tensor_bytes_bounds b a tk lk _ _ Hlk Ha Hrk Hdk Hc) as [? ?].
  pose proof (tensor_bytes_bounds b a tv lv _ _ Hlv Ha Hrv Hdv Hc) as [? ?].
  destruct (layers_positive s Hok) as [Hlayers _].
  split; [|by apply (cache_fits _ _ _ _ _ _ _ _ Hx)].
  rewrite (cache_exact _ _ _ _ _ _ _ _ Hx). nia.
Qed.

(** The file system can say how large the model is, or that it is not there. *)
Definition size_known (getsize : plan_error + Z) : Prop :=
  match getsize with inr z => 0 <= z < 2 ^ 63 | inl (OSError _) => True | inl _ => False end.

Lemma model_size_inr getsize :
  size_known getsize -> exists size, model_size_of getsize = inr size /\
    match size with Some z => 0 <= z < 2 ^ 63 | None => True end.
Proof.
  destruct getsize as [[m|m|k|m|name]|z]; try done; intros H; [by exists None|by exists (Some z)].
Qed.

Lemma batch_known j : exists b, dget QWEN_64K_BATCH_PROFILES (normalize_qwen_64k_batch_profile j) = Some b /\
  0 < n_batch b * n_ubatch b.
Proof.
  assert (Hdflt : exists b, dget QWEN_64K_BATCH_PROFILES QWEN_64K_BATCH_PROFILE_DEFAULT = Some b /\
                    0 < n_batch b * n_ubatch b) by (by exists (mkBatch 512 256)).
  destruct j as [| | | |s| |]; try exact Hdflt. cbn [normalize_qwen_64k_batch_profile].
  unfold dmem. destruct (dget QWEN_64K_BATCH_PROFILES s) as [b|] eqn:E; [|exact Hdflt].
  exists b. split; [done|]. revert E. unfold QWEN_64K_BATCH_PROFILES. cbn [dget].
  repeat case_bool_decide; intros [= <-]; done.
Qed.

(** The part of the estimate after the breakdown *)
Definition sound_estimate (header : model_file) (n : Z) (p : pystr) (per_token : Z) (backend : json)
    (cache : gguf_cache) (r : memory_estimate) : Prop :=
  let kv := estimated_kv_cache_bytes r in
  0 < kv <= int64_max /\ kv_cache_bytes (kv_cache_breakdown r) = kv /\
  (conservative_fallback_used r = false ->
     exists m, snd (_read_gguf_metadata header 4096 cache) = inr m /\
       _estimate_kv_cache_bytes_from_metadata m n p p backend = inr (kv_cache_breakdown r)) /\
  (conservative_fallback_used r = true ->
     n * per_token <= kv /\ is_Some (conservative_fallback_reason r)) /\
  (is_Some (exact_kv_cache_bytes r) <->
     conservative_fallback_used r = false /\
     exact_allocation_available (kv_cache_breakdown r) = true) /\
  match model_file_size_bytes r with
  | Some size => exists total, estimated_total_runtime_bytes r = Some total /\
                   size + kv + 2048 * mib <= total
  | None => estimated_total_runtime_bytes r = None
  end.

Lemma legacy_floor_total n p per_token :
  0 < n <= 2 ^ 30 -> dget QWEN_64K_LEGACY_BYTES_PER_TOKEN p = Some per_token ->
  (let? n := _checked_positive_int (MInt n) "context_size_tokens" (Z.shiftl 1 30) in
   match dget QWEN_64K_LEGACY_BYTES_PER_TOKEN p with
   | Some per_token => _checked_mul n per_token "legacy_kv_cache_floor_bytes" int64_max
   | None => inl (KeyError p)
   end) = inr (n * per_token).
Proof.
  intros Hn Hp. pose proof (per_token_range p per_token Hp) as Ht.
  rewrite positive_ok by (change (Z.shiftl 1 30) with (2 ^ 30); lia). cbn [ebind]. rewrite Hp.
  apply mul_ok. change int64_max with 9223372036854775807. change (2 ^ 30) with 1073741824 in Hn. nia.
Qed.

Lemma non_kv_total size batch_bytes (cache : gguf_cache) :
  match size with Some z => 0 <= z < 2 ^ 63 | None => True end -> 0 <= batch_bytes ->
  exists non_kv, (match size with
                  | Some size =>
                      let* s := lift_val (scaled size f0_08) in
                      ret (Some (Z.max (512 * mib) s + batch_bytes))
                  | None => ret None
                  end) cache = (cache, inr non_kv) /\
    match size with Some _ => 512 * mib <= default 0 non_kv | None => True end.
Proof.
  intros Hs Hb. destruct size as [z|]; [|by exists None].
  destruct (scaled_total z 5764607523034235 (-56) ltac:(lia) ltac:(done) ltac:(done)) as (t & Et & _).
  exists (Some (Z.max (512 * mib) t + batch_bytes)). unfold f0_08, bind, lift_val. rewrite Et.
  split; [done|]. cbn [default id]. lia.
Qed.


(** ** The profiles the builder enables *)

(** What a profile needs of the runtime: every keyword of the constructor it passes and, for a
    quantized cache, the constant of its type *)
Definition usable (p : planner) (precision : pystr) : bool :=
  let support := constructor_kwarg_support (plan_capabilities p) in
  plan_kqv_offload p && supports support "flash_attn" && supports support "offload_kqv"
  && supports support "n_batch" && supports support "n_ubatch"
  && (bool_decide (precision = "f16"%pystr)
      || (match dget (kv_constants (plan_capabilities p)) precision ≫= constant_value with
          | Some _ => true | None => false end
          && supports support "type_k" && supports support "type_v")).

(** The keywords of a usable profile *)
Definition profile_keywords (p : planner) (precision : pystr) (batch : batch_values) : jdict :=
  [("flash_attn", JBool true); ("offload_kqv", JBool true);
   ("n_batch", JInt (n_batch batch)); ("n_ubatch", JInt (n_ubatch batch))]%pystr ++
  if bool_decide (precision = "f16"%pystr) then []
  else match dget (kv_constants (plan_capabilities p)) precision ≫= constant_value with
       | Some v => [("type_k", JInt v); ("type_v", JInt v)]%pystr
       | None => []
       end.

Definition base_keys : list pystr := ["flash_attn"; "offload_kqv"; "n_batch"; "n_ubatch"]%pystr.

Definition base_usable (support : dict pystr bool) (offload : bool) : bool :=
  offload && supports support "flash_attn" && supports support "offload_kqv"
  && supports support "n_batch" && supports support "n_ubatch".

Lemma base_kwargs_spec support offload batch :
  if base_usable support offload
  then _base_kwargs support offload batch
       = ([("flash_attn", JBool true); ("offload_kqv", JBool true);
           ("n_batch", JInt (n_batch batch)); ("n_ubatch", JInt (n_ubatch batch))]%pystr, [])
  else has_all (fst (_base_kwargs support offload batch)) base_keys = false.
Proof.
  unfold base_usable, _base_kwargs. cbn [foldl].
  destruct offload, (supports support "flash_attn"), (supports support "offload_kqv"),
    (supports support "n_batch"), (supports support "n_ubatch"); vm_compute; reflexivity.
Qed.

Lemma base_no_profile support offload batch :
  dget (snd (_base_kwargs support offload batch)) "profile"%pystr = None.
Proof.
  unfold _base_kwargs. cbn [foldl].
  destruct offload, (supports support "flash_attn"), (supports support "offload_kqv"),
    (supports support "n_batch"), (supports support "n_ubatch"); vm_compute; reflexivity.
Qed.

Lemma has_all_dset (d : jdict) k v keys : k ∉ keys -> has_all (dset d k v) keys = has_all d keys.
Proof.
  intros Hk. unfold has_all. induction keys as [|x keys IH]; [done|]. cbn [forallb].
  rewrite IH by (intros ?; apply Hk; by right). f_equal. unfold dmem.
  rewrite dget_dset_ne; [done|]. intros ->. apply Hk. by left.
Qed.

(** The quantized keywords add no base keyword. *)
Lemma quantized_base support value kwargs omitted :
  has_all (fst (quantized_kwargs support value kwargs omitted)) base_keys = has_all kwargs base_keys.
Proof.
  assert (Hk : "type_k"%pystr ∉ base_keys) by (apply (bool_decide_unpack _); vm_compute; exact I).
  assert (Hv : "type_v"%pystr ∉ base_keys) by (apply (bool_decide_unpack _); vm_compute; exact I).
  unfold quantized_kwargs. cbv zeta.
  destruct value as [v|]; [|done]. destruct (supports support "type_k"), (supports support "type_v"),
    (supports support "flash_attn"); cbn [andb negb fst]; by rewrite ?has_all_dset.
Qed.

Lemma combination_kwargs_spec p precision batch :
  let '(kwargs, omitted) := combination_kwargs p precision batch in
  is_enabled precision kwargs omitted = usable p precision /\
  (usable p precision = true -> kwargs = profile_keywords p precision batch /\ omitted = []).
Proof.
  unfold combination_kwargs, usable, profile_keywords, is_enabled. fold base_keys.
  set (support := constructor_kwarg_support (plan_capabilities p)).
  set (constant := dget (kv_constants (plan_capabilities p)) precision ≫= constant_value).
  fold (base_usable support (plan_kqv_offload p)).
  pose proof (base_kwargs_spec support (plan_kqv_offload p) batch) as Hbase.
  pose proof (base_no_profile support (plan_kqv_offload p) batch) as Hprofile.
  destruct (base_usable support (plan_kqv_offload p)) eqn:Eb.
  - rewrite Hbase. destruct (bool_decide (precision = "f16"%pystr)); [done|].
    assert (Hflash : supports support "flash_attn" = true).
    { unfold base_usable in Eb. rewrite !andb_true_iff in Eb. tauto. }
    unfold quantized_kwargs. rewrite Hflash.
    destruct constant, (supports support "type_k"), (supports support "type_v"); by vm_compute.
  - destruct (_base_kwargs support (plan_kqv_offload p) batch) as [kwargs omitted]. cbn [fst snd] in *.
    destruct (bool_decide (precision = "f16"%pystr)).
    + by rewrite Hprofile, Hbase.
    + pose proof (quantized_base support constant kwargs omitted) as Hq.
      destruct (quantized_kwargs support constant kwargs omitted) as [k o]. cbn [fst] in Hq.
      rewrite Hq, Hbase, andb_false_r. done.
Qed.

(** The diagnostics of a combination *)
Definition describes (p : planner) (c : pystr * pystr) (d : profile_diagnostics) : Prop :=
  kv_precision d = c.1 /\ batch_profile d = c.2 /\
  _qwen_64k_profile_id c.1 c.2 = inr (diag_profile_id d) /\ enabled d = usable p c.1 /\
  exists batch, dget QWEN_64K_BATCH_PROFILES c.2 = Some batch /\
    (enabled d = true -> applied d = profile_keywords p c.1 batch /\ omitted d = []).

Lemma combination_described p c cache cache' d :
  combination_diagnostics p c.1 c.2 cache = (cache', inr d) -> describes p c d.
Proof.
  destruct c as [precision selected]. unfold combination_diagnostics. cbn [fst snd]. cbv zeta. intros Hrun.
  apply bind_inr in Hrun as (id & s1 & Hid & Hrun). apply lift_val_inr in Hid as [-> Hid].
  apply bind_inr in Hrun as (batch & s2 & Hb & Hrun). apply from_option_inr in Hb as [-> Hb].
  pose proof (combination_kwargs_spec p precision batch) as Hspec.
  destruct (combination_kwargs p precision batch) as [kwargs omitted']. destruct Hspec as [He Hk].
  apply bind_inr in Hrun as (pref & s3 & _ & Hrun). apply bind_inr in Hrun as (est & s4 & _ & Hrun).
  apply ret_inr in Hrun as [_ <-]. split_and!; try done. exists batch. split; [done|].
  cbn [enabled applied omitted]. rewrite He. exact Hk.
Qed.

Definition bare_profile (d : profile_diagnostics) : runtime_profile :=
  mkProfile (diag_profile_id d) (applied d) d None None.

(** The loop keeps the order: the enabled combinations are the profiles, the others skipped. *)
Lemma combinations_built p l cache cache' profiles skipped :
  build_combinations p l cache = (cache', inr (profiles, skipped)) ->
  exists ds, Forall2 (describes p) l ds /\ profiles = map bare_profile (bfilter enabled ds) /\
    skipped = bfilter (fun d => negb (enabled d)) ds.
Proof.
  revert cache cache' profiles skipped. induction l as [|[precision selected] l IH]; intros * Hrun.
  { cbn [build_combinations] in Hrun. apply ret_inr in Hrun as [_ [= <- <-]]. by exists []. }
  cbn [build_combinations] in Hrun. apply bind_inr in Hrun as (d & s1 & Hd & Hrun).
  apply bind_inr in Hrun as ([ps sk] & s2 & Hl & Hrun). apply IH in Hl as (ds & Hds & -> & ->).
  apply (combination_described p (precision, selected)) in Hd.
  apply ret_inr in Hrun as [_ Hrun]. exists (d :: ds). unfold bfilter in *. cbn [List.filter].
  destruct (enabled d); cbn [negb map]; injection Hrun as <- <-; split_and!; try done;
    by constructor.
Qed.

(** What a profile is, told by its diagnostics *)
Definition combination_of (q : runtime_profile) : pystr * pystr :=
  (kv_precision (diagnostics q), batch_profile (diagnostics q)).

Definition sound_profile (p : planner) (q : runtime_profile) : Prop :=
  _qwen_64k_profile_id (kv_precision (diagnostics q)) (batch_profile (diagnostics q)) = inr (profile_id q) /\
  usable p (kv_precision (diagnostics q)) = true /\ omitted (diagnostics q) = [] /\
  exists batch, dget QWEN_64K_BATCH_PROFILES (batch_profile (diagnostics q)) = Some batch /\
    profile_kwargs q = profile_keywords p (kv_precision (diagnostics q)) batch.

Lemma described_filter p l ds :
  Forall2 (describes p) l ds ->
  map combination_of (map bare_profile (bfilter enabled ds)) = bfilter (fun c => usable p c.1) l /\
  Forall (sound_profile p) (map bare_profile (bfilter enabled ds)).
Proof.
  induction 1 as [|c d l ds (Hp & Hb & Hid & He & batch & Hbatch & Hk) _ [IH1 IH2]]; [done|].
  unfold bfilter in *. cbn [List.filter]. rewrite <- He. destruct (enabled d) eqn:Ed; [|done].
  destruct (Hk eq_refl) as [Happ Hom]. cbn [map]. split.
  - rewrite IH1. unfold combination_of at 1. cbn [diagnostics bare_profile]. rewrite Hp, Hb.
    by destruct c.
  - constructor; [|done]. unfold sound_profile.
    cbn [diagnostics bare_profile profile_id profile_kwargs]. rewrite Hp, Hb.
    split_and!; try done. by exists batch.
Qed.

(** The note on the first profile changes neither its combination nor its keywords. *)
Lemma with_skipped_sound p profiles skipped :
  map combination_of (with_skipped profiles skipped) = map combination_of profiles /\
  map profile_id (with_skipped profiles skipped) = map profile_id profiles /\
  (Forall (sound_profile p) profiles -> Forall (sound_profile p) (with_skipped profiles skipped)).
Proof.
  destruct profiles as [|q profiles], skipped as [|d skipped]; try done.
  cbn [with_skipped map]. split_and!; [done|done|]. intros Hf. apply Forall_cons in Hf as [H1 H2].
  by constructor.
Qed.

Lemma normalized_batch j : normalize_qwen_64k_batch_profile j ∈ all_batches.
Proof.
  assert (Hd : QWEN_64K_BATCH_PROFILE_DEFAULT ∈ all_batches)
    by (apply (bool_decide_unpack _); vm_compute; exact I).
  destruct j as [| | | |s| |]; try exact Hd. cbn [normalize_qwen_64k_batch_profile].
  destruct (dmem QWEN_64K_BATCH_PROFILES s) eqn:E; [|exact Hd].
  apply dmem_true, dget_is_Some in E. unfold QWEN_64K_BATCH_PROFILES, dkeys in E. cbn [map fst] in E.
  rewrite !elem_of_cons in E. unfold all_batches. rewrite !elem_of_cons.
  destruct E as [->|[->|[->|[]%elem_of_nil]]]; auto.
Qed.

Lemma built_profiles m cls installed model n_ctx offload batch cache cache' profiles :
  let p := mkPlanner (_qwen_64k_runtime_capabilities m cls installed) model n_ctx offload
                     (normalize_qwen_64k_batch_profile batch) in
  _build_qwen_64k_runtime_profiles m cls installed model n_ctx offload batch cache = (cache', inr profiles) ->
  map combination_of profiles = bfilter (fun c => usable p c.1) (combinations (plan_requested p)) /\
  Forall (sound_profile p) profiles.
Proof.
  cbv zeta. unfold _build_qwen_64k_runtime_profiles. intros Hrun.
  apply bind_inr in Hrun as ([ps sk] & s1 & Hl & Hrun). apply ret_inr in Hrun as [_ <-].
  apply combinations_built in Hl as (ds & Hds & -> & ->).
  destruct (described_filter _ _ _ Hds) as [H1 H2].
  destruct (with_skipped_sound (mkPlanner (_qwen_64k_runtime_capabilities m cls installed) model n_ctx
    offload (normalize_qwen_64k_batch_profile batch)) (map bare_profile (bfilter enabled ds))
    (bfilter (fun d => negb (enabled d)) ds)) as (E1 & _ & E2).
  rewrite E1. split; [exact H1|exact (E2 H2)].
Qed.

(** The identifiers of the combinations *)
Definition id_of (c : pystr * pystr) : pystr :=
  match _qwen_64k_profile_id c.1 c.2 with inr s => s | inl _ => "" end.

Lemma sound_ids p profiles :
  Forall (sound_profile p) profiles -> map profile_id profiles = map id_of (map combination_of profiles).
Proof.
  induction 1 as [|q profiles (Hid & _) _ IH]; [done|]. cbn [map]. rewrite IH. f_equal.
  unfold id_of, combination_of. cbn [fst snd]. by rewrite Hid.
Qed.

Lemma combination_ids_distinct requested : requested ∈ all_batches -> NoDup (map id_of (combinations requested)).
Proof.
  unfold all_batches. rewrite !elem_of_cons.
  intros [->|[->|[->|[]%elem_of_nil]]]; apply (bool_decide_unpack _); vm_compute; exact I.
Qed.

Lemma sublist_ids requested (f : pystr * pystr -> bool) :
  requested ∈ all_batches -> NoDup (map id_of (bfilter f (combinations requested))).
Proof.
  intros Hr. eapply sublist_NoDup; [by apply combination_ids_distinct|].
  apply (fmap_sublist id_of), bfilter_sublist.
Qed.


(** A long context is only called supported with a value for the scaling and, unless the
    constructor takes any keyword, with every keyword it needs; no reason is then given. *)
Lemma rope_support_sound m cls installed r :
  _qwen_64k_rope_support_diagnostics m cls installed = inr r -> rope_supported r = true ->
  is_Some (yarn_enum_value r) /\ missing_reason r = None /\
  (constructor_has_var_kwargs r = true \/ missing_required_kwargs r = []).
Proof.
  unfold _qwen_64k_rope_support_diagnostics. cbv zeta. intros Hrun.
  apply ebind_inr in Hrun as ([v src] & Hv & Hrun). apply ebind_inr in Hrun as (c & Hc & Hrun).
  set (var := is_JBool_true _) in *. set (missing := if var then [] else _) in *.
  assert (Hm : forall reasons, (if bool_decide (c = "unknown"%pystr)
            then snd (unknown_probe (_safe_constructor_capability_payload m) v src missing)
            else missing_reasons_of src missing) = reasons -> reasons = [] -> missing = []).
  { intros reasons <-. clearbody missing. unfold unknown_probe, missing_reasons_of. cbv zeta.
    destruct (bool_decide (c = _)).
    - destruct (_ || _); cbn [snd]; [done|]. by destruct missing.
    - destruct (bool_decide (src = _)); [done|]. cbn [app].
      destruct (pystr_in "rope_freq_scale" missing) eqn:Ein; [done|]. cbn [app].
      destruct (bfilter _ missing) as [|x l] eqn:Ef; [|done]. intros _.
      destruct missing as [|y missing]; [done|]. exfalso.
      assert (Hy : y ∈ bfilter (fun n => negb (bool_decide (n = "rope_freq_scale"%pystr))) (y :: missing)).
      { apply elem_of_bfilter. split; [by left|]. apply negb_true_iff, bool_decide_eq_false.
        intros ->. apply bool_decide_eq_false in Ein. apply Ein. by left. }
      rewrite Ef in Hy. by apply elem_of_nil in Hy. }
  destruct (if bool_decide (c = _) then _ else _) as [[v' src'] reasons] eqn:E.
  injection Hrun as <-. cbn [rope_supported yarn_enum_value missing_reason constructor_has_var_kwargs
    missing_required_kwargs]. rewrite !andb_true_iff. intros [[_ Hr] Hv'].
  destruct reasons; [|done]. destruct v'; [|done]. split_and!; [by eexists|done|].
  right. apply (Hm []); [|done].
  destruct (bool_decide (c = _)); [by rewrite E|by injection E].
Qed.

(** ** The order in which profiles are tried *)

(** After [active] has failed, [next] is tried. *)
Definition falls_back (profiles : list runtime_profile) (active next : pystr) : Prop :=
  exists category i q, _next_qwen_64k_runtime_profile_index profiles active category = inr (Some i) /\
    profiles !! i = Some q /\ profile_id q = next.

(** How many profiles there may still be, this one included *)
Definition depths : dict pystr Z :=
  map (fun '(c, n) => (id_of c, n))
    [(("q8", "experimental"), 5); (("f16", "experimental"), 4); (("q8", "balanced"), 4);
     (("f16", "balanced"), 3); (("q8", "safe"), 3); (("f16", "safe"), 2); (("q4", "safe"), 1)]%pystr.

Definition depth (id : pystr) : Z := dget_or depths id 0.

Definition all_combinations : list (pystr * pystr) := combinations "experimental".

(** What the policy answers, for every combination and both kinds of failure *)
Definition target_of (c : pystr * pystr) (pressure : bool) : option pystr :=
  if pressure then
    match downshift c.2 with
    | Some lower => Some (id_of (c.1, lower))
    | None => Some QWEN_64K_RUNTIME_PROFILE_Q4
    end
  else if bool_decide (c.1 = "q8"%pystr) then Some (id_of ("f16"%pystr, c.2)) else None.

(** A target is the profile itself or one nearer the end. *)
Definition descends (c : pystr * pystr) : bool :=
  forallb (fun pressure =>
    match target_of c pressure with
    | None => true
    | Some target => bool_decide (target = id_of c) || ((1 <=? depth target) && (depth target <? depth (id_of c)))
    end) [true; false].

Lemma policy_descends c : c ∈ all_combinations -> descends c = true /\ 1 <= depth (id_of c) <= 5.
Proof.
  assert (H : forallb (fun c => descends c && (1 <=? depth (id_of c)) && (depth (id_of c) <=? 5))
                all_combinations = true) by (vm_compute; reflexivity).
  intros Hc. rewrite forallb_forall in H. apply list_elem_of_In, H in Hc.
  rewrite !andb_true_iff in Hc. destruct Hc as [[? ?] ?]. split; [done|lia].
Qed.

Lemma target_known q category :
  combination_of q ∈ all_combinations ->
  fallback_target (diagnostics q) category
  = inr (target_of (combination_of q) (is_qwen_64k_memory_pressure_failure_category category)).
Proof.
  intros Hc. unfold fallback_target, target_of, combination_of in *. cbn [fst snd] in *.
  set (precision := kv_precision (diagnostics q)) in *. set (b := batch_profile (diagnostics q)) in *.
  clearbody precision b. unfold all_combinations in Hc.
  change (combinations "experimental"%pystr) with
    [("q8", "experimental"); ("f16", "experimental"); ("q8", "balanced"); ("f16", "balanced");
     ("q8", "safe"); ("f16", "safe"); ("q4", "safe")]%pystr in Hc.
  rewrite !elem_of_cons in Hc.
  destruct (is_qwen_64k_memory_pressure_failure_category category);
    destruct Hc as [[= -> ->]|[[= -> ->]|[[= -> ->]|[[= -> ->]|[[= -> ->]|[[= -> ->]|[[= -> ->]|[]%elem_of_nil]]]]]]];
    by vm_compute.
Qed.

Lemma listed_subset (l k : list (pystr * pystr)) c :
  forallb (fun x => bool_decide (x ∈ k)) l = true -> c ∈ l -> c ∈ k.
Proof.
  intros H Hc. rewrite forallb_forall in H. apply list_elem_of_In, H in Hc.
  by apply bool_decide_eq_true in Hc.
Qed.

(** Profiles as the builder makes them *)
Definition planned (profiles : list runtime_profile) : Prop :=
  NoDup (map profile_id profiles) /\
  Forall (fun q => combination_of q ∈ all_combinations /\ profile_id q = id_of (combination_of q)) profiles.

Lemma built_are_planned m cls installed model n_ctx offload batch cache cache' profiles :
  _build_qwen_64k_runtime_profiles m cls installed model n_ctx offload batch cache = (cache', inr profiles) ->
  planned profiles.
Proof.
  intros Hrun. destruct (built_profiles _ _ _ _ _ _ _ _ _ _ Hrun) as [Hc Hs]. split.
  - rewrite (sound_ids _ _ Hs), Hc. apply sublist_ids, normalized_batch.
  - apply Forall_forall. intros q Hq. split.
    + assert (Hin : combination_of q ∈ map combination_of profiles) by (by apply list_elem_of_fmap_2).
      rewrite Hc in Hin. apply elem_of_bfilter in Hin as [Hin _]. cbn [plan_requested] in Hin.
      pose proof (normalized_batch batch) as Hb. unfold all_batches in Hb. rewrite !elem_of_cons in Hb.
      destruct Hb as [E|[E|[E|[]%elem_of_nil]]]; rewrite E in Hin; [exact Hin|..]; revert Hin;
        apply listed_subset; vm_compute; reflexivity.
    + rewrite Forall_forall in Hs. destruct (Hs q Hq) as [Hid _]. unfold id_of, combination_of.
      cbn [fst snd]. by rewrite Hid.
Qed.

Lemma find_profile profiles id q :
  List.find (fun p => bool_decide (profile_id p = id)) profiles = Some q -> q ∈ profiles /\ profile_id q = id.
Proof.
  intros [Hin Hid]%find_some. apply bool_decide_eq_true in Hid. split; [by apply list_elem_of_In|done].
Qed.

Lemma index_of_lookup profiles id i :
  index_of id (map profile_id profiles) = Some i -> exists q, profiles !! i = Some q /\ profile_id q = id.
Proof.
  revert i. induction profiles as [|q profiles IH]; intros i; [done|]. cbn [map index_of].
  case_bool_decide as E; [intros [= <-]; by exists q|].
  destruct (index_of id (map profile_id profiles)) as [j|]; [|done]. intros [= <-]. by apply IH.
Qed.

(** The policy answers with no exception, a valid index, another profile, one nearer the end. *)
Lemma next_profile profiles active category :
  planned profiles ->
  exists r, _next_qwen_64k_runtime_profile_index profiles active category = inr r /\
    forall i, r = Some i -> exists q, profiles !! i = Some q /\
      1 <= depth (profile_id q) < depth active /\ depth active <= 5.
Proof.
  intros [_ Hp]. rewrite Forall_forall in Hp. unfold _next_qwen_64k_runtime_profile_index.
  destruct (List.find _ profiles) as [a|] eqn:Ef; [|by exists None].
  apply find_profile in Ef as [Ha <-]. destruct (Hp a Ha) as [Hc Hid].
  rewrite (target_known a category Hc). cbn [ebind].
  destruct (policy_descends _ Hc) as [Hd H5]. unfold descends in Hd. rewrite forallb_forall in Hd.
  specialize (Hd (is_qwen_64k_memory_pressure_failure_category category)). cbv beta in Hd.
  destruct (target_of _ _) as [target|]; [|by exists None]. rewrite <- Hid in *.
  case_bool_decide as Eq; [by exists None|]. eexists. split; [done|]. intros i Hi.
  apply index_of_lookup in Hi as (q & Hq & Hqid). exists q. split; [done|]. rewrite Hqid.
  assert (Hin : In (is_qwen_64k_memory_pressure_failure_category category) [true; false])
    by (destruct (is_qwen_64k_memory_pressure_failure_category category); simpl; auto).
  specialize (Hd Hin). cbn [orb] in Hd. rewrite andb_true_iff in Hd. lia.
Qed.

Lemma chain_depth profiles id l :
  planned profiles -> Sorted (falls_back profiles) (id :: l) -> l ≠ [] ->
  StronglySorted (fun x y => depth y < depth x) (id :: l) /\ Forall (fun x => 1 <= depth x <= 5) (id :: l).
Proof.
  intros Hp Hs Hl.
  assert (Hstep : forall x y, falls_back profiles x y -> 1 <= depth y < depth x /\ depth x <= 5).
  { intros x y (category & i & q & Hn & Hq & <-).
    destruct (next_profile profiles x category Hp) as (r & Hr & Hi). rewrite Hr in Hn.
    injection Hn as ->. destruct (Hi i eq_refl) as (q' & Hq' & Hd & H5). rewrite Hq in Hq'.
    by injection Hq' as <-. }
  split.
  - apply Sorted_StronglySorted; [intros x y z; lia|].
    clear Hl. induction Hs as [|x l' _ IH Hh]; [constructor|]. constructor; [done|].
    destruct Hh as [|y l'' Hxy]; constructor. destruct (Hstep _ _ Hxy). lia.
  - destruct l as [|y l]; [done|]. clear Hl. revert id y Hs.
    induction l as [|z l IH]; intros id y Hs; inversion_clear Hs as [|? ? Hs' Hh];
      inversion_clear Hh as [|? ? Hxy]; destruct (Hstep _ _ Hxy).
    + repeat constructor; lia.
    + specialize (IH y z Hs'). constructor; [|done]. lia.
Qed.

(** Strictly falling numbers between one and five *)
Lemma falling_length (f : pystr -> Z) l :
  StronglySorted (fun x y => f y < f x) l -> Forall (fun x => 1 <= f x <= 5) l ->
  NoDup l /\ zlen l <= 5.
Proof.
  intros Hs Hf.
  assert (Hgen : NoDup l /\ match l with [] => True | x :: _ => zlen l <= f x end).
  { induction Hs as [|x l Hs IH Hx]; [by split; [constructor|]|].
    apply Forall_cons in Hf as [Hfx Hf]. specialize (IH Hf) as [Hnd Hlen]. split.
    - constructor; [|done]. intros Hin. rewrite Forall_forall in Hx. specialize (Hx x Hin). lia.
    - rewrite zlen_cons. destruct l as [|y l]; [rewrite zlen_nil; lia|].
      apply Forall_cons in Hx as [Hxy _]. lia. }
  destruct Hgen as [Hnd Hlen]. split; [done|].
  destruct l as [|x l]; [rewrite zlen_nil; lia|]. apply Forall_cons in Hf as [? _]. lia.
Qed.

(** C32: trying profiles ends.  Whatever the failures and their categories, the policy never
    raises, never names the profile that has just failed or an index outside the list, and
    no sequence of profiles tried one after another has a repetition or more than five
    members: it goes to smaller batches, from the 8-bit to the 16-bit cache at one batch, and
    to the 4-bit cache last. *)
Theorem fallback_is_bounded m cls installed model n_ctx offload batch cache cache' profiles :
  _build_qwen_64k_runtime_profiles m cls installed model n_ctx offload batch cache = (cache', inr profiles) ->
  (forall active category, exists r,
     _next_qwen_64k_runtime_profile_index profiles active category = inr r /\
     forall i, r = Some i -> exists q, profiles !! i = Some q /\ profile_id q ≠ active) /\
  forall ids, Sorted (falls_back profiles) ids -> NoDup ids /\ zlen ids <= 5.
Proof.
  intros Hp%built_are_planned. split.
  - intros active category. destruct (next_profile profiles active category Hp) as (r & Hr & Hi).
    exists r. split; [done|]. intros i Hri. destruct (Hi i Hri) as (q & Hq & Hd & _). exists q.
    split; [done|]. intros E. rewrite E in Hd. lia.
  - intros [|id [|y l]] Hs; [split; [constructor|rewrite zlen_nil; lia]| |].
    + split; [apply NoDup_singleton|rewrite zlen_cons, zlen_nil; lia].
    + destruct (chain_depth profiles id (y :: l) Hp Hs ltac:(done)) as [H1 H2].
      by apply (falling_length depth).
Qed.
End plan.

(** ** The statements at concrete inputs *)

Definition plain_floats : FloatRepr := fun _ => "0.5"%pystr.
Definition plain_text : ContainerText := fun _ => "[]"%pystr.

#[local] Existing Instance ascii_unicode.
#[local] Existing Instance plain_floats.
#[local] Existing Instance plain_text.

Definition demo_metadata : metadata := stored demo_entries.

(** A 64K context of Qwen3 8B: an eight-bit cache on CUDA *)
Definition demo_estimate : plan_error + kv_estimate :=
  _estimate_kv_cache_bytes_from_metadata
    demo_metadata 65500 "q8" "q8" (JStr " CUDA ").

Example demo_estimate_value :
  match demo_estimate with inr e => kv_cache_bytes e | inl _ => 0 end = 5133828096.
Proof. vm_compute. reflexivity. Qed.

(** Half a block, a shape no planner knows, and more than sixty-three bits *)
Example demo_estimates_refused :
  _ggml_row_size_bytes 48 "Q8" = inl (ValueError "ggml_row_width_not_block_divisible") /\
  _derive_kv_cache_metadata [("general.architecture"%pystr, MStr "llama")]
    = inl (ValueError "kv_layout_architecture_unsupported") /\
  _checked_mul (2 ^ 40) (2 ^ 23) "k_tensor_payload_bytes" int64_max
    = inl (OverflowError "k_tensor_payload_bytes_overflow").
Proof. vm_compute. done. Qed.

Lemma kv_estimate_is_exact_witness :
  match demo_estimate with inr e => 0 < payload_total e <= kv_cache_bytes e | inl _ => False end.
Proof.
  destruct demo_estimate as [x|e] eqn:E; [vm_compute in E; discriminate E|]. unfold demo_estimate in E.
  destruct (kv_estimate_is_exact demo_metadata 65500 "q8" "q8" (JStr " CUDA ") e E)
    as (s & lk & lv & b & a & _ & _ & _ & _ & _ & _ & _ & _ & _ & H & _).
  exact H.
Defined.

Definition demo_model : planned_model := mkModel demo_path (inr 5027783488).
Definition missing_model : planned_model :=
  mkModel (mkFile (inl (OSError "FileNotFoundError")) (inr "/models/none"%pystr)
                  (inl (OSError "FileNotFoundError"))) (inl (OSError "FileNotFoundError")).


(** A runtime whose worker reports every keyword, and exports one constant *)
Definition demo_module : llama_module :=
  mkModule [("GGML_TYPE_Q8_0"%pystr, PyInt 8)] None
    (Some [("constructor_kwarg_support",
            JDict (map (fun k => (k, JBool true)) probe_kwargs));
           ("backend", JStr "Metal"); ("q4_kv_cache_type_value", JInt 2)]%pystr)
    (Some "0.3.32"%pystr) None None.

Definition demo_class : llama_class := mkClass None true [] [].

Definition demo_build : gguf_cache * (plan_error + list runtime_profile) :=
  _build_qwen_64k_runtime_profiles
    demo_module demo_class None demo_model 65536 true (JStr "experimental") [].

Definition demo_profiles : list runtime_profile :=
  match snd demo_build with inr l => l | inl _ => [] end.

Lemma demo_built :
  _build_qwen_64k_runtime_profiles demo_module demo_class None demo_model 65536 true
    (JStr "experimental") [] = (fst demo_build, inr demo_profiles).
Proof. vm_compute. reflexivity. Qed.

(** The longest run of failures *)
Definition demo_attempts : list pystr :=
  ["qwen64k_kv_q8_fa_experimental_batch"; "qwen64k_kv_q8_fa_balanced_batch";
   "qwen64k_kv_q8_fa_small_batch"; "qwen64k_f16_fa_small_batch"; "qwen64k_kv_q4_fa_small_batch"]%pystr.

(** One fall, decided *)
Definition falls_backb (profiles : list runtime_profile) (category active next : pystr) : bool :=
  match _next_qwen_64k_runtime_profile_index profiles active category with
  | inr (Some i) =>
      match profiles !! i with Some q => bool_decide (profile_id q = next) | None => false end
  | _ => false
  end.

Lemma falls_backb_ok profiles category active next :
  falls_backb profiles category active next = true -> falls_back profiles active next.
Proof.
  unfold falls_backb. intros H.
  destruct (_next_qwen_64k_runtime_profile_index profiles active category) as [|[i|]] eqn:En; try done.
  destruct (profiles !! i) as [q|] eqn:Eq; [|done]. apply bool_decide_eq_true in H.
  by exists category, i, q.
Qed.

Lemma fallback_is_bounded_witness :
  Sorted (falls_back demo_profiles) demo_attempts /\ NoDup demo_attempts /\ zlen demo_attempts <= 5.
Proof.
  assert (Hs : Sorted (falls_back demo_profiles) demo_attempts).
  { unfold demo_attempts.
    repeat (apply Sorted_cons; [|first [apply HdRel_nil|apply HdRel_cons]]); try apply Sorted_nil;
      first [apply (falls_backb_ok _ "kv_slot_unavailable"); vm_compute; reflexivity
            |apply (falls_backb_ok _ "decode_aborted"); vm_compute; reflexivity]. }
  split; [exact Hs|].
  exact (proj2 (fallback_is_bounded
           demo_module demo_class None demo_model 65536 true (JStr "experimental") [] (fst demo_build)
           demo_profiles demo_built) demo_attempts Hs).
Defined.


(** The helper's profile is the small batch's, while the preferred one is the balanced batch's. *)
Example memory_profile_is_small :
  match snd (_qwen_64k_memory_profile_kwargs demo_module demo_class None demo_model true []) with
  | inr (kwargs, OfProfile q) =>
      jget kwargs "n_batch" = JInt 256 /\
      preferred_profile_id (diagnostics q) = "qwen64k_kv_q8_fa_balanced_batch"%pystr
  | _ => False
  end.
Proof. vm_compute. done. Qed.

(** A worker's value is used with a known source; a list as the source escapes as [TypeError]. *)
Example demo_yarn :
  _resolve_yarn_rope_scaling_type (mkModule [] None (Some [("yarn_enum_value", JInt 2);
    ("yarn_resolver_source", JStr "nested_enum")]%pystr) None None None) demo_class
    = inr (Some (PyInt 2), "nested_enum"%pystr) /\
  _resolve_yarn_rope_scaling_type (mkModule [] None (Some [("yarn_enum_value", JInt 2);
    ("yarn_resolver_source", JList [])]%pystr) None None None) demo_class
    = inl (TypeError "unhashable type: 'list'") /\
  _resolve_yarn_rope_scaling_type (mkModule [] None None None None None) demo_class = inr (None, "unsupported"%pystr).
Proof. vm_compute. done. Qed.
