(* ===== verification/RuntimeReports.v ===== *)
(** * What a runtime says about itself

    The parts of [utils/llm/model_manager.py] that read llama.cpp's words: the sizes of the
    cache buffers it reports, summed with their precision, and the failures of its start and
    of its decoding, reduced to a closed list of categories that carry nothing of the text. *)

From S2P Require Import Prelude PyFloat PyStr PyDict PyText PyRegex Gguf MemoryPlan.

(** ** Reported cache buffers *)

Definition LLAMA_CPP_KV_DIAGNOSTIC_MAX_BYTES : Z := Z.shiftl 1 63.

Definition digit (c : N) : bool := (N.leb 48 c && N.leb c 57)%bool.

Definition device_char (c : N) : bool :=
  ((N.leb 65 c && N.leb c 90) || (N.leb 97 c && N.leb c 122) || digit c || N.eqb c 95 || N.eqb c 45)%bool.

(** Group 1 is the device, group 2 the value, group 3 the unit. *)
Definition _LLAMA_CPP_KV_BUFFER_RE : regex :=
  seqs [lit "llama_kv_cache"; Opt (alts [lit "_init"; lit "_unified"]); lit ":"; Plus space;
        Cap 1 (Plus (Chr device_char)); Plus space; lit "KV buffer size ="; Plus space;
        Cap 2 (Seq (Plus (Chr digit)) (Opt (seqs [lit "."; Chr digit; Opt (Chr digit)])));
        Plus space; Cap 3 (lit "MiB")].

Definition decimal_integer (l : list N) : Z := foldl (fun acc c => acc * 10 + (Z.of_N c - 48)) 0 l.

(** [sys.int_info.default_max_str_digits] *)
Definition max_str_digits : Z := 4300.

(** [int(text)] of ASCII digits *)
Definition int_of_digits (l : list N) : plan_error + Z :=
  if max_str_digits <? zlen l then inl (ValueError "Exceeds the limit (4300 digits) for integer string conversion")
  else inr (decimal_integer l).

Record kv_record : Set := mkRecord { device : pystr; center : Z; precision : Z; decimals : Z }.

(** [math.ceil(a / b)]; the quotients here, 524288, 52428.8 and 5242.88, round to themselves. *)
Definition ceil_div (a b : Z) : Z := - (- a / b).

Section reports.
Context {words : PyWords} {uni : PyUnicode} {pydigits : PyDigits}.

(** [_LLAMA_CPP_KV_BUFFER_RE.fullmatch(text)] *)
Definition fullmatch (r : regex) (s : pystr) : option groups :=
  run_regex r (start_of (codes s)) [] (fun q g => if q.2 is [] then Some g else None).

(** The record of a matched line *)
Definition record_of (name value : pystr) : plan_error + kv_record :=
  let decimals := match py_after value 46%N with Some d => py_len d | None => 0 end in
  let scale := 10 ^ decimals in
  let? units := int_of_digits (List.filter (fun c => negb (N.eqb c 46)) (codes value)) in
  let? numerator := _checked_mul units (1024 * 1024) "kv_diagnostic_bytes"
                                 (LLAMA_CPP_KV_DIAGNOSTIC_MAX_BYTES * scale) in
  inr (mkRecord (py_lower name) (numerator / scale)
                (Z.max 1 (ceil_div (1024 * 1024) (2 * scale))) decimals).

(** [for raw in lines]; a line that does not match is passed over. *)
Fixpoint kv_records (lines : list pystr) : plan_error + list kv_record :=
  match lines with
  | [] => inr []
  | raw :: lines' =>
      match fullmatch _LLAMA_CPP_KV_BUFFER_RE (py_strip raw) with
      | None => kv_records lines'
      | Some g =>
          let? r := record_of (default "" (group g 1)) (default "" (group g 2)) in
          let? records := kv_records lines' in
          inr (r :: records)
      end
  end.

Record kv_report : Set := mkReport {
  observed_bytes : Z;
  precision_bytes : Z;
  record_count : Z;
  decimal_places : Z
}.

Definition total_of (f : kv_record -> Z) (records : list kv_record) : Z :=
  foldl (fun acc r => acc + f r) 0 records.

(** The report's constant fields, the pinned versions and the unit, are left out. *)
Definition parse_llama_cpp_kv_allocation_diagnostics (lines : list pystr) : plan_error + kv_report :=
  let? records := kv_records lines in
  match records with
  | [] => inl (ValueError "kv_runtime_diagnostic_missing")
  | first :: _ =>
      let? _ := eraise_if (bool_decide (~ NoDup (map device records)))
                          (ValueError "kv_runtime_diagnostic_ambiguous") in
      let? _ := eraise_if (negb (forallb (fun r => decimals r =? decimals first) records))
                          (ValueError "kv_runtime_diagnostic_mixed_precision") in
      let observed := total_of center records in
      let precision := total_of precision records in
      let? _ := eraise_if ((observed <=? 0) || (LLAMA_CPP_KV_DIAGNOSTIC_MAX_BYTES <=? observed))
                          (ValueError "kv_runtime_diagnostic_out_of_range") in
      inr (mkReport observed precision (zlen records) (decimals first))
  end.

(** ** Failures of the start *)

Definition _INIT_SAFE_CATEGORY_ALIASES : dict pystr pystr :=
  [("cuda_memory_allocation", "runtime_context_create_cuda_memory");
   ("metal_memory_allocation", "runtime_context_create_metal_memory");
   ("kv_cache_allocation", "runtime_context_create_kv_cache_allocation");
   ("rope_yarn_eval_failure", "runtime_context_create_rope_yarn_config")]%pystr.

Definition _INIT_SAFE_CATEGORY_ALLOWLIST : list pystr :=
  ["runtime_init_unclassified"; "runtime_model_path_unavailable"; "runtime_model_load_failed";
   "runtime_model_vocab_failed"; "runtime_batch_create_failed"; "runtime_context_create_failed";
   "runtime_context_create_unsupported_kwarg"; "runtime_context_create_rope_yarn_config";
   "runtime_context_create_kv_cache_allocation"; "runtime_context_create_metal_memory";
   "runtime_context_create_metal_buffer_limit"; "runtime_context_create_cuda_memory";
   "runtime_context_create_cuda_buffer_limit"]%pystr.

Definition child_type_pattern : regex := Seq (Chr is_letter_) (up_to 79 (Chr ascii_word)).

(** [value] is the text or the empty text for [None]. *)
Definition _safe_child_exception_type (value : pystr) : pystr :=
  let text := if py_empty value then "RuntimeError"%pystr else value in
  if re_fullmatch child_type_pattern text then text else "RuntimeError".

(** [value] is text: the source calls [str(value or '')], whose value it is. *)
Definition _validated_init_safe_category (value : pystr) : pystr :=
  let text := py_strip value in
  let canonical := dget_or _INIT_SAFE_CATEGORY_ALIASES text text in
  if pystr_in canonical _INIT_SAFE_CATEGORY_ALLOWLIST then canonical else "runtime_init_unclassified".

Definition any_in (terms : list pystr) (text : pystr) : bool := existsb (fun t => py_contains t text) terms.

Definition category_marker : regex :=
  Seq (lit "safe_error_category=")
      (Cap 1 (Plus (Chr (fun c => (N.leb 97 c && N.leb c 122) || digit c || N.eqb c 95)%bool))).

Definition unsupported_keyword : regex :=
  alts [lit "unexpected keyword argument"; lit "got an unexpected keyword argument";
        Seq (lit "unsupported ") (alts [lit "parameter"; lit "kwarg"; lit "argument"])].

Definition found (r : regex) (s : pystr) : bool := match re_search r s with Some _ => true | None => false end.

(** The category a worker wrote into its message, unless it is one of the vague ones *)
Definition marked_category (text : pystr) : option pystr :=
  match re_search category_marker text with
  | Some (_, _, g) =>
      let marker := _validated_init_safe_category (default "" (group g 1)) in
      if pystr_in marker ["runtime_init_unclassified"; "runtime_context_create_failed"]%pystr
      then None else Some marker
  | None => None
  end.

Definition cuda_allocation_markers : list pystr :=
  ["cublas_status_alloc_failed"; "cudamalloc"; "cuda malloc"; "cuda oom"; "cuda out of memory"]%pystr.

(** The tests on the text, in order *)
Definition text_category (text : pystr) : pystr :=
  let has t := py_contains t text in
  if found unsupported_keyword text then "runtime_context_create_unsupported_kwarg"
  else if has "model path" && any_in ["not found"; "unavailable"; "does not exist"; "no such file"]%pystr text
  then "runtime_model_path_unavailable"
  else if has "vocab" && any_in ["fail"; "load"; "invalid"]%pystr text then "runtime_model_vocab_failed"
  else if has "llama_batch" || has "batch create" || has "failed to create batch"
  then "runtime_batch_create_failed"
  else if has "yarn" || (has "rope" && any_in ["scal"; "freq"; "orig"; "context"]%pystr text)
  then "runtime_context_create_rope_yarn_config"
  else if has "kv" && any_in ["alloc"; "cache"; "memory"; "oom"; "failed"]%pystr text
  then "runtime_context_create_kv_cache_allocation"
  else if has "metal" && any_in ["buffer"; "graph"; "max size"; "too large"]%pystr text
  then "runtime_context_create_metal_buffer_limit"
  else if has "metal" && any_in ["alloc"; "memory"; "oom"; "out of memory"; "failed to create llama_context"]%pystr text
  then "runtime_context_create_metal_memory"
  else if any_in cuda_allocation_markers text then "runtime_context_create_cuda_memory"
  else if has "ggml_cuda" && any_in ["alloc"; "memory"; "oom"; "out of memory"]%pystr text
  then "runtime_context_create_cuda_memory"
  else if has "cuda" && any_in ["out of memory"; "oom"; "cudamalloc"; "alloc failed"; "allocation failed";
                                "buffer allocation failed"]%pystr text
  then "runtime_context_create_cuda_memory"
  else if has "cuda" && any_in ["buffer"; "resource"; "allocation"]%pystr text
  then "runtime_context_create_cuda_buffer_limit"
  else if has "failed to create llama_context" || has "llamacontext" then "runtime_context_create_failed"
  else "runtime_init_unclassified".

(** [f'{error or ""}\n{child_stderr or ""}'.lower()] of an error's text *)
Definition failure_text (error child_stderr : pystr) : pystr :=
  py_lower (error +++ PyStr [newline] +++ child_stderr)%pystr.

(** The branch of any error but a worker's own *)
Definition classify_text (error child_stderr : pystr) : pystr :=
  let text := failure_text error child_stderr in
  match marked_category text with Some c => c | None => text_category text end.

(** An error: the structured one of a worker, with its category, its text and the tail of
    its output, or any other, with its text *)
Inductive init_error : Set :=
| LlamaCppRuntimeInitError (safe_error_category text child_stderr_tail : pystr)
| OtherError (text : pystr).

(** The text is passed on, so the inner call takes the other branch. *)
Definition _refine_init_category (current error child_stderr : pystr) : pystr :=
  let canonical := _validated_init_safe_category current in
  let refined := classify_text error child_stderr in
  if bool_decide (canonical = "runtime_init_unclassified"%pystr)
     || (bool_decide (canonical = "runtime_context_create_failed"%pystr)
         && negb (pystr_in refined ["runtime_init_unclassified"; "runtime_context_create_failed"]%pystr))
  then refined else canonical.

Definition _classify_runtime_context_create_error (error : init_error) (child_stderr : pystr) : pystr :=
  match error with
  | LlamaCppRuntimeInitError category text tail =>
      _refine_init_category category text (if py_empty child_stderr then tail else child_stderr)
  | OtherError text => classify_text text child_stderr
  end.

Definition init_error_text (error : init_error) : pystr :=
  match error with LlamaCppRuntimeInitError _ text _ | OtherError text => text end.

Definition _classify_runtime_initialization_error (error : init_error) (child_stderr : pystr) : pystr :=
  let text := failure_text (init_error_text error) child_stderr in
  let has t := py_contains t text in
  if has "failed to load model" || has "llama_model_load" then "runtime_model_load_failed"
  else if has "vocab" && any_in ["fail"; "load"; "invalid"]%pystr text then "runtime_model_vocab_failed"
  else if has "llama_batch" || has "batch create" || has "failed to create batch"
  then "runtime_batch_create_failed"
  else if any_in ["abi"; "incompatible gguf"; "unsupported gguf"]%pystr text then "runtime_model_load_failed"
  else _classify_runtime_context_create_error error child_stderr.

(** ** Failures of decoding *)

(** [-?[0-9]+] *)
Definition decode_pattern : regex :=
  seqs [ilit "llama_decode"; Plus (one_of (PyStr [32%N; 9%N])); ilit "returned";
        Plus (one_of (PyStr [32%N; 9%N])); Cap 1 (Seq (Opt (lit "-")) (Plus (Chr digit)))].

Definition signed_digits (l : list N) : plan_error + Z :=
  match l with
  | 45%N :: l' => let? z := int_of_digits l' in inr (- z)
  | _ => int_of_digits l
  end.

Definition _safe_plain_completion_eval_return_code (exc : pystr) : option Z :=
  match re_search decode_pattern exc with
  | None => None
  | Some (_, _, g) =>
      match signed_digits (codes (default "" (group g 1))) with inr z => Some z | inl _ => None end
  end.

Definition _generation_category_for_decode_return_code (return_code : option Z) : option pystr :=
  match return_code with
  | None => None
  | Some code =>
      if code =? -1 then Some "prompt_eval_invalid_batch"%pystr
      else if code =? -2 then Some "backend_allocation_failure"%pystr
      else if code =? -3 then Some "backend_graph_compute_failure"%pystr
      else if code =? 1 then Some "kv_slot_unavailable"%pystr
      else if code =? 2 then Some "decode_aborted"%pystr
      else if code <? 0 then Some "backend_decode_failure"%pystr
      else None
  end.

Definition safe_plain_completion_decode_failure_category_and_code (exc : pystr) : option pystr * option Z :=
  let return_code := _safe_plain_completion_eval_return_code exc in
  (_generation_category_for_decode_return_code return_code, return_code).

Definition QWEN_64K_CONTEXT_CREATE_RETRY_CATEGORIES : list pystr :=
  ["runtime_context_create_metal_memory"; "runtime_context_create_kv_cache_allocation";
   "runtime_context_create_metal_buffer_limit"; "runtime_context_create_cuda_memory";
   "runtime_context_create_cuda_buffer_limit"; "runtime_context_create_unsupported_kwarg";
   "runtime_context_create_failed"]%pystr.

Definition _FATAL_CURRENT_WORKER_GENERATION_CATEGORIES : list pystr :=
  ["backend_allocation_failure"; "backend_graph_compute_failure"; "cuda_memory_allocation";
   "metal_graph_compute_failure"; "kv_slot_unavailable"; "decode_aborted";
   "backend_decode_failure"]%pystr.

Definition _QWEN_64K_PROFILE_RECOVERABLE_FAILURE_CATEGORIES : list pystr :=
  ["backend_allocation_failure"; "backend_graph_compute_failure"; "metal_graph_compute_failure";
   "kv_slot_unavailable"; "decode_aborted"; "backend_decode_failure";
   "metal_command_buffer_out_of_memory"; "metal_command_buffer_timeout";
   "metal_command_buffer_page_fault"; "metal_command_buffer_execution_failure";
   "metal_backend_sticky_error"; "metal_graph_compute_failed"; "memory_context_apply_failed";
   "graph_initialization_failed"; "unknown_metal_backend_failure";
   "runtime_context_create_cuda_memory"; "runtime_context_create_cuda_buffer_limit";
   "cuda_memory_allocation"]%pystr.

Definition is_qwen_64k_profile_recoverable_failure_category (category : pystr) : bool :=
  pystr_in category _QWEN_64K_PROFILE_RECOVERABLE_FAILURE_CATEGORIES.

(** *** Metal *)

(** [.]* without a line break, as little of it as possible, then [status] *)
Fixpoint to_status (l : list N) : option (list N) :=
  if bool_decide (codes "status" `prefix_of` l) then Some (skipn 6 l)
  else match l with
       | [] => None
       | c :: l' => if N.eqb c newline then None else to_status l'
       end.

(** A run of decimal digits *)
Fixpoint take_digits (l : list N) : list Z :=
  match l with
  | c :: l' => match py_digit c with Some d => d :: take_digits l' | None => [] end
  | [] => []
  end.

(** [\D*(-?\d+)]: everything up to the first digit is skipped, a minus sign too. *)
Fixpoint first_number (l : list N) : option (list Z) :=
  match l with
  | [] => None
  | c :: l' => match py_digit c with Some _ => Some (take_digits l) | None => first_number l' end
  end.

(** The leftmost match of [_METAL_COMMAND_BUFFER_STATUS_RE] in lower-case text: its group *)
Fixpoint command_buffer_status (l : list N) : option (list Z) :=
  let here :=
    if bool_decide (codes "command buffer" `prefix_of` l) || bool_decide (codes "command-buffer" `prefix_of` l)
    then rest ← to_status (skipn 14 l); first_number rest else None in
  match here with
  | Some ds => Some ds
  | None => match l with [] => None | _ :: l' => command_buffer_status l' end
  end.

(** [int(group)]; too many digits are passed over. *)
Definition status_value (ds : list Z) : option Z :=
  if max_str_digits <? zlen ds then None else Some (foldl (fun acc d => acc * 10 + d) 0 ds).

Record metal_failure : Set := mkMetal {
  metal_error_category : pystr;
  metal_command_buffer_status : option Z;
  backend_failure_category : option pystr
}.

Definition metal_category (text : pystr) : option pystr :=
  let has t := py_contains t text in
  if has "backend is in error state" || has "has_error" then Some "metal_backend_sticky_error"%pystr
  else if has "page fault" then Some "metal_command_buffer_page_fault"%pystr
  else if has "timeout" || has "timed out" then Some "metal_command_buffer_timeout"%pystr
  else if any_in ["out of memory"; "insufficient memory"; "resource shortage"; "oom"]%pystr text
  then Some "metal_command_buffer_out_of_memory"%pystr
  else if has "command buffer" && any_in ["error"; "fail"; "completed with status"]%pystr text
  then Some "metal_command_buffer_execution_failure"%pystr
  else if has "ggml_metal_graph_compute" || (has "metal" && has "graph" && has "failed")
  then Some "metal_graph_compute_failed"%pystr
  else if has "memory_context_apply" then Some "memory_context_apply_failed"%pystr
  else if has "graph" && any_in ["init"; "initialization"]%pystr text && has "fail"
  then Some "graph_initialization_failed"%pystr
  else if has "metal" then Some "unknown_metal_backend_failure"%pystr
  else None.

Definition sticky_categories : list pystr :=
  ["metal_backend_sticky_error"; "metal_command_buffer_out_of_memory"; "metal_command_buffer_timeout";
   "metal_command_buffer_page_fault"; "metal_command_buffer_execution_failure";
   "metal_graph_compute_failed"]%pystr.

(** [(...)[-6000:].lower()]; [None] is the empty dictionary.  A sticky failure also sets the
    two flags that ask for a new backend, so they are not fields of their own. *)
Definition last_characters (n : Z) (s : pystr) : pystr :=
  PyStr (skipn (Z.to_nat (zlen (codes s) - n)) (codes s)).

Definition _classify_safe_metal_backend_failure (lines : list pystr) : option metal_failure :=
  let text := py_lower (last_characters 6000 (py_join (PyStr [newline]) lines)) in
  if py_empty text then None
  else
    match metal_category text with
    | None => None
    | Some category =>
        Some (mkMetal category (ds ← command_buffer_status (codes text); status_value ds)
          (if pystr_in category sticky_categories
           then Some (if bool_decide (category = "metal_graph_compute_failed"%pystr)
                      then "metal_graph_compute_failure"%pystr else category)
           else None))
    end.

(** ** What the reports carry *)

Lemma ceil_div_bound a b : 0 < b -> a <= ceil_div a b * b < a + b.
Proof.
  intros Hb. unfold ceil_div. pose proof (Z.div_mod (- a) b). pose proof (Z.mod_pos_bound (- a) b). lia.
Qed.

(** [value] is the text of a size in MiB with its decimals as [printf] rounds it: the size is
    within half a unit of its last place. *)
Definition printed (value : pystr) (size : Z) : Prop :=
  let decimals := match py_after value 46%N with Some d => py_len d | None => 0 end in
  let units := decimal_integer (List.filter (fun c => negb (N.eqb c 46)) (codes value)) in
  0 <= decimals <= 2 /\ Z.abs (size * 10 ^ decimals - units * 2 ^ 20) * 2 <= 2 ^ 20.

Lemma record_within name value r size :
  record_of name value = inr r -> printed value size -> Z.abs (center r - size) <= precision r.
Proof.
  unfold record_of, printed. cbv zeta.
  set (d := match py_after value 46%N with Some d => py_len d | None => 0 end).
  intros Hrun [Hd Hsize]. apply ebind_inr in Hrun as (units & Hu & Hrun).
  unfold int_of_digits in Hu. destruct (max_str_digits <? _); [done|]. injection Hu as Hu.
  rewrite Hu in Hsize. clear Hu. apply ebind_inr in Hrun as (num & Hn & [= <-]).
  unfold _checked_mul in Hn. cbv zeta in Hn. destruct (_ <? _) in Hn; [done|]. injection Hn as <-.
  cbn [center precision].
  change (1024 * 1024) with 1048576 in *. change (2 ^ 20) with 1048576 in *.
  assert (Hcases : d = 0 \/ d = 1 \/ d = 2) by lia.
  destruct Hcases as [->|[->| ->]].
  - change (10 ^ 0) with 1 in *. change (Z.max 1 (ceil_div 1048576 (2 * 1))) with 524288.
    rewrite Z.div_1_r. lia.
  - change (10 ^ 1) with 10 in *. change (Z.max 1 (ceil_div 1048576 (2 * 10))) with 52429.
    pose proof (Z.div_mod (units * 1048576) 10). pose proof (Z.mod_pos_bound (units * 1048576) 10). lia.
  - change (10 ^ 2) with 100 in *. change (Z.max 1 (ceil_div 1048576 (2 * 100))) with 5243.
    pose proof (Z.div_mod (units * 1048576) 100). pose proof (Z.mod_pos_bound (units * 1048576) 100). lia.
Qed.

(** The devices and the sizes of the lines that are reports *)
Definition reported (lines : list pystr) : list (pystr * pystr) :=
  omap (fun raw => (fun g => (default "" (group g 1), default "" (group g 2)))
                   <$> fullmatch _LLAMA_CPP_KV_BUFFER_RE (py_strip raw)) lines.

Lemma kv_records_reported lines records :
  kv_records lines = inr records ->
  Forall2 (fun nv r => record_of nv.1 nv.2 = inr r) (reported lines) records.
Proof.
  unfold reported. revert records. induction lines as [|raw lines IH]; intros records; cbn [kv_records].
  { intros [= <-]. constructor. }
  cbn [omap list_omap]. destruct (fullmatch _LLAMA_CPP_KV_BUFFER_RE (py_strip raw)) as [g|]; [|exact (IH records)].
  cbn [fmap option_fmap option_map]. intros Hrun. apply ebind_inr in Hrun as (r & Hr & Hrun).
  apply ebind_inr in Hrun as (rs & Hrs & [= <-]). constructor; [exact Hr|by apply IH].
Qed.

Lemma record_device name value r : record_of name value = inr r -> device r = py_lower name.
Proof.
  unfold record_of. cbv zeta. intros Hrun. apply ebind_inr in Hrun as (u & _ & Hrun).
  by apply ebind_inr in Hrun as (n & _ & [= <-]).
Qed.

Lemma total_acc f records acc :
  foldl (fun acc r => acc + f r) acc records = acc + total_of f records.
Proof.
  unfold total_of. revert acc. induction records as [|r records IH]; intros acc; cbn [foldl]; [lia|].
  rewrite IH, (IH (0 + f r)). lia.
Qed.

Lemma total_cons f r records : total_of f (r :: records) = f r + total_of f records.
Proof. unfold total_of at 1. cbn [foldl]. rewrite total_acc. lia. Qed.

Definition sum (l : list Z) : Z := foldr Z.add 0 l.

Lemma totals_within reports records sizes :
  Forall2 (fun nv r => record_of nv.1 nv.2 = inr r) reports records ->
  Forall2 (fun nv size => printed nv.2 size) reports sizes ->
  Z.abs (total_of center records - sum sizes) <= total_of precision records.
Proof.
  intros Hr. revert sizes. induction Hr as [|nv r reports records Hr _ IH]; intros sizes Hs;
    inversion_clear Hs as [|? size ? sizes' Hsize Hsizes]; [done|].
  rewrite !total_cons. specialize (IH sizes' Hsizes).
  pose proof (record_within _ _ _ _ Hr Hsize). unfold sum in *. cbn [foldr]. lia.
Qed.

(** C35: the size read from llama.cpp's report is right within the precision it is given with.
    Whatever lines surround them, when the reports of the cache buffers are accepted, each of
    another device and all with as many decimals, the sum of any buffer sizes that print as
    those reports differs from the observed bytes by at most the stated precision; what is
    observed is a positive size below two to the sixty-third. *)
Theorem observed_within_precision lines report sizes :
  parse_llama_cpp_kv_allocation_diagnostics lines = inr report ->
  Forall2 (fun nv size => printed nv.2 size) (reported lines) sizes ->
  Z.abs (observed_bytes report - sum sizes) <= precision_bytes report /\
  0 < observed_bytes report < 2 ^ 63 /\
  NoDup (map (fun nv => py_lower nv.1) (reported lines)) /\
  record_count report = zlen (reported lines) /\ 1 <= record_count report.
Proof.
  unfold parse_llama_cpp_kv_allocation_diagnostics. intros Hrun Hsizes.
  apply ebind_inr in Hrun as (records & Hr & Hrun). apply kv_records_reported in Hr.
  destruct records as [|first records]; [done|]. set (all := first :: records) in *.
  apply ebind_inr in Hrun as (u1 & Hnd%eraise_if_inr & Hrun).
  apply ebind_inr in Hrun as (u2 & _ & Hrun). cbv zeta in Hrun.
  apply ebind_inr in Hrun as (u3 & Hrange%eraise_if_inr & [= <-]).
  apply bool_decide_eq_false, dec_stable in Hnd. apply orb_false_iff in Hrange as [H1 H2].
  cbn [observed_bytes precision_bytes record_count].
  assert (Hdev : map device all = map (fun nv => py_lower nv.1) (reported lines)).
  { clearbody all. clear -Hr. induction Hr as [|nv r reports rs Hr _ IH]; [done|]. cbn [map].
    by rewrite IH, (record_device _ _ _ Hr). }
  assert (Hlen : zlen all = zlen (reported lines)) by
    (rewrite !zlen_length; f_equal; symmetry; by eapply Forall2_length).
  change LLAMA_CPP_KV_DIAGNOSTIC_MAX_BYTES with (2 ^ 63) in H2.
  split_and!; [by eapply totals_within|lia|lia|by rewrite <- Hdev|done|].
  unfold all. rewrite zlen_cons. pose proof (zlen_nonneg records). lia.
Qed.

(** *** Categories *)

Lemma allowed_literal s : pystr_in s _INIT_SAFE_CATEGORY_ALLOWLIST = true -> s ∈ _INIT_SAFE_CATEGORY_ALLOWLIST.
Proof. apply bool_decide_eq_true. Qed.

Lemma validated_allowed value : _validated_init_safe_category value ∈ _INIT_SAFE_CATEGORY_ALLOWLIST.
Proof.
  unfold _validated_init_safe_category. cbv zeta.
  destruct (pystr_in _ _) eqn:E; apply allowed_literal; [exact E|by vm_compute].
Qed.

Lemma text_category_allowed text : text_category text ∈ _INIT_SAFE_CATEGORY_ALLOWLIST.
Proof.
  unfold text_category. cbv zeta.
  repeat match goal with |- (if ?b then _ else _) ∈ _ =>
    destruct b; [apply allowed_literal; vm_compute; reflexivity|] end.
  apply allowed_literal. vm_compute. reflexivity.
Qed.

Lemma classify_text_allowed error child_stderr : classify_text error child_stderr ∈ _INIT_SAFE_CATEGORY_ALLOWLIST.
Proof.
  unfold classify_text, marked_category. cbv zeta.
  destruct (re_search _ _) as [[[p q] g]|]; [|apply text_category_allowed].
  destruct (pystr_in _ _); [apply text_category_allowed|apply validated_allowed].
Qed.

Lemma create_error_allowed error child_stderr :
  _classify_runtime_context_create_error error child_stderr ∈ _INIT_SAFE_CATEGORY_ALLOWLIST.
Proof.
  destruct error as [category text tail|text]; cbn [_classify_runtime_context_create_error];
    [|apply classify_text_allowed].
  unfold _refine_init_category. cbv zeta.
  destruct (_ || _); [apply classify_text_allowed|apply validated_allowed].
Qed.

(** Whatever an error and a worker's output say, the category is one of the closed list: no
    path, prompt or key of theirs is in it. *)
Theorem initialization_category_allowed error child_stderr :
  _classify_runtime_initialization_error error child_stderr ∈ _INIT_SAFE_CATEGORY_ALLOWLIST.
Proof.
  unfold _classify_runtime_initialization_error. cbv zeta.
  repeat match goal with |- (if ?b then _ else _) ∈ _ =>
    destruct b; [apply allowed_literal; vm_compute; reflexivity|] end.
  apply create_error_allowed.
Qed.

(** A category that names a cause is never overruled by the text; a vague one only by the text. *)
Lemma refined_keeps_specific current error child_stderr :
  _validated_init_safe_category current ∉
    ["runtime_init_unclassified"; "runtime_context_create_failed"]%pystr ->
  _refine_init_category current error child_stderr = _validated_init_safe_category current.
Proof.
  intros Hc. unfold _refine_init_category. cbv zeta.
  rewrite !bool_decide_false; [done| |]; intros E; apply Hc; rewrite E; rewrite !elem_of_cons; auto.
Qed.

(** Every category a decoding can end in but that of an invalid batch ends the worker, and
    what ends a worker may be recovered from before registration. *)
Lemma fatal_categories code category :
  _generation_category_for_decode_return_code (Some code) = Some category ->
  category = "prompt_eval_invalid_batch"%pystr \/ category ∈ _FATAL_CURRENT_WORKER_GENERATION_CATEGORIES.
Proof.
  unfold _generation_category_for_decode_return_code.
  repeat case_match; intros [= <-]; try (by left); right;
    apply (bool_decide_unpack _); vm_compute; exact I.
Qed.

Lemma fatal_are_recoverable :
  forallb is_qwen_64k_profile_recoverable_failure_category _FATAL_CURRENT_WORKER_GENERATION_CATEGORIES = true.
Proof. by vm_compute. Qed.

(** Whatever retries a start is a category a start can have. *)
Lemma retried_are_allowed :
  forallb (fun c => pystr_in c _INIT_SAFE_CATEGORY_ALLOWLIST) QWEN_64K_CONTEXT_CREATE_RETRY_CATEGORIES = true.
Proof. by vm_compute. Qed.

(** Every failing return code but those above two has a category. *)
Lemma decode_code_category code :
  is_Some (_generation_category_for_decode_return_code (Some code)) <-> code <> 0 /\ code <= 2.
Proof.
  unfold _generation_category_for_decode_return_code.
  repeat case_match; split; try (intros _; lia); try (by eexists); try done; try lia; by intros [].
Qed.
End reports.

(** ** The statements at concrete inputs *)

#[local] Existing Instance ascii_words.
#[local] Existing Instance ascii_unicode.
#[local] Existing Instance ascii_digits.

Definition demo_lines : list pystr :=
  ["llama_context: n_ctx = 65536"; "llama_kv_cache: CUDA0 KV buffer size =  2448.00 MiB ";
   "llama_kv_cache_unified: CUDA1 KV buffer size = 2448.13 MiB"; "llama_kv_cache: size = 4896.13 MiB"]%pystr.

Lemma observed_within_precision_witness :
  match parse_llama_cpp_kv_allocation_diagnostics demo_lines with
  | inr report => Z.abs (observed_bytes report - sum [2566914048; 2567045120]) <= precision_bytes report
  | inl _ => False
  end.
Proof.
  destruct (parse_llama_cpp_kv_allocation_diagnostics demo_lines) as [x|report] eqn:E;
    [vm_compute in E; discriminate E|].
  refine (proj1 (observed_within_precision demo_lines report [2566914048; 2567045120] E _)).
  change (reported demo_lines) with [("CUDA0", "2448.00"); ("CUDA1", "2448.13")]%pystr.
  repeat constructor; vm_compute; congruence.
Defined.

Example demo_reports_refused :
  parse_llama_cpp_kv_allocation_diagnostics ["llama_kv_cache: size = 4896.13 MiB"]%pystr
    = inl (ValueError "kv_runtime_diagnostic_missing") /\
  parse_llama_cpp_kv_allocation_diagnostics
    ["llama_kv_cache: Metal KV buffer size = 1.0 MiB"; "llama_kv_cache: metal KV buffer size = 1.0 MiB"]%pystr
    = inl (ValueError "kv_runtime_diagnostic_ambiguous") /\
  parse_llama_cpp_kv_allocation_diagnostics
    ["llama_kv_cache: Metal KV buffer size = 1.0 MiB"; "llama_kv_cache: CPU KV buffer size = 1 MiB"]%pystr
    = inl (ValueError "kv_runtime_diagnostic_mixed_precision").
Proof. vm_compute. done. Qed.

(** The minus sign of a status is skipped with the characters before the number. *)
Example negative_status_loses_its_sign :
  command_buffer_status (codes "metal: command buffer 0 failed with status -5") = Some [5].
Proof. vm_compute. reflexivity. Qed.

Example demo_decode :
  safe_plain_completion_decode_failure_category_and_code "RuntimeError: llama_decode returned -3"
  = (Some "backend_graph_compute_failure"%pystr, Some (-3)).
Proof. vm_compute. reflexivity. Qed.

Example demo_classified :
  _classify_runtime_initialization_error
    (LlamaCppRuntimeInitError "runtime_context_create_failed" "worker failed" "ggml_metal: failed to allocate buffer")
    "" = "runtime_context_create_metal_buffer_limit"%pystr.
Proof. vm_compute. reflexivity. Qed.
