(* ===== verification/Encrypt.v ===== *)
(** * encrypt.py: hybrid encryption

    [src/encrypt.py]: a message is encrypted with AES under a fresh session key,
    and the session key with RSA.  The class [Cryptography] is the [cryptography]
    package and [secrets.token_bytes]; everything else is here: argument checks,
    PKCS#7 padding, the choice of mode and padding, the fallback of the session
    key, and the stream sessions that refuse a repeated initialization vector.

    [PyBytes] stands for [bytes] and [bytearray], which the code treats alike.
    The state of a computation is the number of random draws made so far.  A
    session object is mutated only after the last statement that can raise, so it
    is an argument and a result. *)

From S2P Require Import Prelude PyFloat PyStr PyDict Base64.

(** ** Exceptions *)
Inductive crypto_error : Set :=
| CryptoTypeError (message : pystr)
| CryptoValueError (message : pystr)
| CryptoRuntimeError (message : pystr)
| UnsupportedMode (cipher_mode : pyval)
| UnsupportedType (argument : pystr)
| NotEncodable
| NoAttribute
| Failure (text : pystr).

(** ** The cryptography package *)
Inductive rsa_padding : Set := PKCS1v15 | OAEP.

(** The first argument of a randomised function is the number of draws before it.
    An AES call includes the construction of the cipher; [aad] is empty when no
    associated data is authenticated.  Key pairs are in PEM. *)
Class Cryptography : Type := {
  private_key : Type;
  token_bytes : nat -> Z -> list byte;
  aes_cbc_encrypt : list byte -> list byte -> list byte -> pystr + list byte;
  aes_cbc_decrypt : list byte -> list byte -> list byte -> pystr + list byte;
  aes_gcm_encrypt : list byte -> list byte -> list byte -> list byte ->
    pystr + (list byte * list byte);
  aes_gcm_decrypt : list byte -> list byte -> list byte -> list byte -> list byte ->
    pystr + list byte;
  generate_private_key : nat -> Z -> list byte * list byte;
  load_pem_private_key : list byte -> pystr + private_key;
  rsa_encrypt : nat -> rsa_padding -> list byte -> list byte -> pystr + list byte;
  rsa_decrypt : rsa_padding -> private_key -> list byte -> pystr + list byte
}.

Definition MIN_RSA_KEY_SIZE : Z := 2048.
Definition RSA_KEY_SIZE : Z := 2048.
Definition AES_KEY_SIZE : Z := 32.
Definition IV_SIZE : Z := 16.
Definition GCM_IV_SIZE : Z := 12.

(** ** Arguments *)

Definition as_bytes (v : pyval) : option (list byte) :=
  match v with PyBytes b => Some b | _ => None end.

Definition _ensure_bytes (value : pyval) (field_name : pystr) : crypto_error + list byte :=
  match as_bytes value with
  | Some b => inr b
  | None => inl (CryptoTypeError (field_name +++ " must be bytes-like"))
  end.

(** [isinstance(v, int)]; a [bool] is one. *)
Definition any_int (v : pyval) : option Z :=
  match v with
  | PyInt z => Some z
  | PyBool b => Some (if b then 1 else 0)
  | _ => None
  end.

Inductive aes_mode : Set := CBC | GCM.

#[export] Instance aes_mode_eq_dec : EqDecision aes_mode.
Proof. solve_decision. Defined.

Definition mode_name (m : aes_mode) : pystr := match m with CBC => "CBC" | GCM => "GCM" end.

(** [str.upper] of the ASCII letters.  No letter outside ASCII has an upper case
    among the letters of the two mode names. *)
Definition ascii_upper_code (c : N) : N :=
  if (N.leb 97 c && N.leb c 122)%bool then (c - 32)%N else c.

Definition ascii_upper (s : pystr) : pystr := PyStr (map ascii_upper_code (codes s)).

(** A value without an [upper] method has no attribute of that name; [bytes] have
    one, and are not among the modes. *)
Definition _normalise_mode (cipher_mode : pyval) : crypto_error + aes_mode :=
  match cipher_mode with
  | PyNone => inr CBC
  | PyS s =>
      if py_empty s then inr CBC
      else if bool_decide (ascii_upper s = "CBC"%pystr) then inr CBC
      else if bool_decide (ascii_upper s = "GCM"%pystr) then inr GCM
      else inl (UnsupportedMode cipher_mode)
  | PyBytes [] | PyBool false | PyTuple [] | PyList [] | PyDict [] => inr CBC
  | PyBytes _ => inl (UnsupportedMode cipher_mode)
  | PyInt z => if z =? 0 then inr CBC else inl NoAttribute
  | PyFloat f => if feq f f0 then inr CBC else inl NoAttribute
  | _ => inl NoAttribute
  end.

(** [associated_data is not None and not isinstance(associated_data, (bytes, bytearray))] *)
Definition check_associated_data (associated_data : pyval) : crypto_error + unit :=
  match associated_data with
  | PyNone | PyBytes _ => inr tt
  | _ => inl (CryptoTypeError "associated_data must be bytes-like when provided")
  end.

(** The bytes that are authenticated: none when the data is missing or empty. *)
Definition aad_of (associated_data : pyval) : list byte :=
  match associated_data with PyBytes b => b | _ => [] end.

(** ** PKCS#7 padding *)

(** The checks both functions make of their arguments *)
Definition padding_arguments (data block_size : pyval) : crypto_error + (list byte * Z) :=
  match as_bytes data with
  | None => inl (CryptoTypeError "data must be bytes-like")
  | Some d =>
      match any_int block_size with
      | None => inl (CryptoTypeError "block_size must be an integer")
      | Some n =>
          if (n <=? 0) || (255 <? n)
          then inl (CryptoValueError "Block size must be between 1 and 255")
          else inr (d, n)
      end
  end.

Definition pkcs7_pad (data block_size : pyval) : crypto_error + list byte :=
  let? '(d, n) := padding_arguments data block_size in
  let padding_length := n - zlen d mod n in
  inr (d ++ repeat (byte_of_Z padding_length) (Z.to_nat padding_length)).

(** [padded_data[-1]] of a non-empty list *)
Definition last_byte (l : list byte) : Z := byte_val (List.last l Byte.x00).

(** With [0 < k <= len(l)], [l[:-k]] and [l[-k:]] *)
Definition without_last (k : Z) (l : list byte) : list byte :=
  firstn (length l - Z.to_nat k) l.
Definition last_bytes (k : Z) (l : list byte) : list byte :=
  skipn (length l - Z.to_nat k) l.

Definition pkcs7_unpad (padded_data block_size : pyval) : crypto_error + list byte :=
  let? '(p, n) := padding_arguments padded_data block_size in
  if bool_decide (p = []) then inl (CryptoValueError "Invalid padding")
  else if negb (zlen p mod n =? 0) then inl (CryptoValueError "Invalid padding length")
  else
    let padding_length := last_byte p in
    if (padding_length =? 0) || (n <? padding_length)
    then inl (CryptoValueError "Invalid padding")
    else if bool_decide (last_bytes padding_length p
                         = repeat (byte_of_Z padding_length) (Z.to_nat padding_length))
    then inr (without_last padding_length p)
    else inl (CryptoValueError "Invalid padding").

(** ** Session keys and messages *)
Notation CM := (SM nat crypto_error).

(** [except]-free calls of the package: a failure carries the exception's text. *)
Definition package {A} (r : pystr + A) : crypto_error + A :=
  match r with inl text => inl (Failure text) | inr a => inr a end.

(** What [encrypt] returns beside the wrapped key, and [ciphertext_dict] *)
Definition cipher_dict : Type := dict pystr pyval.

Section encrypt.
Context `{!Cryptography}.

(** [secrets.token_bytes(size)] *)
Definition draw (size : Z) : CM (list byte) := fun n => (S n, inr (token_bytes n size)).

(** A randomised call of the package *)
Definition randomised {A} (f : nat -> pystr + A) : CM A :=
  fun n => (S n, package (f n)).

Definition _encrypt_with_key (plaintext aes_key cipher_mode associated_data : pyval) :
  CM cipher_dict :=
  let* plaintext_bytes := lift_val (_ensure_bytes plaintext "plaintext") in
  let* aes_bytes := lift_val (_ensure_bytes aes_key "aes_key") in
  let* mode := lift_val (_normalise_mode cipher_mode) in
  lift (check_associated_data associated_data) ;;;
  match mode with
  | CBC =>
      let* iv := draw IV_SIZE in
      let* padded_data := lift_val (pkcs7_pad (PyBytes plaintext_bytes) (PyInt 16)) in
      let* ciphertext := lift_val (package (aes_cbc_encrypt aes_bytes iv padded_data)) in
      ret [("ciphertext", PyBytes ciphertext); ("iv", PyBytes iv)]%pystr
  | GCM =>
      let* iv := draw GCM_IV_SIZE in
      let* '(ciphertext, tag) := lift_val (package
        (aes_gcm_encrypt aes_bytes iv (aad_of associated_data) plaintext_bytes)) in
      ret [("ciphertext", PyBytes ciphertext); ("iv", PyBytes iv); ("tag", PyBytes tag);
           ("mode", PyS "GCM")]%pystr
  end.

Definition required_fields (mode : aes_mode) : list pystr :=
  match mode with CBC => ["ciphertext"; "iv"] | GCM => ["ciphertext"; "iv"; "tag"] end%pystr.

Definition check_fields (ciphertext_dict : cipher_dict) (mode : aes_mode) : crypto_error + unit :=
  efor_each (required_fields mode) (fun field =>
    match dget ciphertext_dict field with
    | None => inl (CryptoValueError ("Missing required field: " +++ field))
    | Some v => match as_bytes v with
                | Some _ => inr tt
                | None => inl (CryptoTypeError (field +++ " must be bytes-like"))
                end
    end).

(** [bytes(d[k])] of a field that was checked *)
Definition field_bytes (d : cipher_dict) (k : pystr) : list byte :=
  match dget d k with Some (PyBytes b) => b | _ => [] end.

Definition _decrypt_with_key (ciphertext_dict : cipher_dict)
  (aes_key cipher_mode associated_data : pyval) : crypto_error + list byte :=
  let? aes_bytes := _ensure_bytes aes_key "aes_key" in
  let? mode := _normalise_mode cipher_mode in
  let? _ := check_fields ciphertext_dict mode in
  let ciphertext := field_bytes ciphertext_dict "ciphertext" in
  let iv := field_bytes ciphertext_dict "iv" in
  match mode with
  | CBC =>
      let? padded_plaintext := package (aes_cbc_decrypt aes_bytes iv ciphertext) in
      pkcs7_unpad (PyBytes padded_plaintext) (PyInt 16)
  | GCM =>
      package (aes_gcm_decrypt aes_bytes iv (field_bytes ciphertext_dict "tag")
                 (aad_of associated_data) ciphertext)
  end.

Definition _encrypt_session_key (aes_key : pyval) (public_key_pem : list byte)
  (use_pkcs1v15 : bool) : CM (list byte) :=
  let* aes_bytes := lift_val (_ensure_bytes aes_key "aes_key") in
  randomised (fun n => rsa_encrypt n (if use_pkcs1v15 then PKCS1v15 else OAEP)
                         public_key_pem (b64_bytes aes_bytes)).

(** OAEP first; any failure falls back to PKCS#1 v1.5. *)
Definition _decrypt_session_key (encrypted_key private_key_pem : list byte) :
  crypto_error + list byte :=
  let? key := package (load_pem_private_key private_key_pem) in
  let? aes_key_b64 := package (match rsa_decrypt OAEP key encrypted_key with
                               | inr b => inr b
                               | inl _ => rsa_decrypt PKCS1v15 key encrypted_key
                               end) in
  match b64decode_bytes aes_key_b64 with
  | inr b => inr b
  | inl _ => inl (Failure "binascii.Error")
  end.

Definition generate_keys : CM (list byte * list byte) :=
  raise_if (RSA_KEY_SIZE <? MIN_RSA_KEY_SIZE)
    (CryptoValueError ("RSA_KEY_SIZE must be at least " +++ py_str_int MIN_RSA_KEY_SIZE
                       +++ " bits for secure operation")) ;;;
  raise_if (negb (RSA_KEY_SIZE mod 256 =? 0))
    (CryptoValueError "RSA_KEY_SIZE must be a multiple of 256 bits") ;;;
  fun n => (S n, inr (generate_private_key n RSA_KEY_SIZE)).

(** The result: the ciphertext's dictionary, the wrapped key, the vector. *)
Definition encrypt (plaintext public_key_pem : pyval) (use_pkcs1v15 : bool)
  (cipher_mode associated_data : pyval) : CM (cipher_dict * list byte * list byte) :=
  let* pem := lift_val (_ensure_bytes public_key_pem "public_key_pem") in
  let* mode := lift_val (_normalise_mode cipher_mode) in
  let* aes_key := draw AES_KEY_SIZE in
  let* ciphertext_dict :=
    _encrypt_with_key plaintext (PyBytes aes_key) (PyS (mode_name mode)) associated_data in
  let* encrypted_key := _encrypt_session_key (PyBytes aes_key) pem use_pkcs1v15 in
  ret (ciphertext_dict, encrypted_key, field_bytes ciphertext_dict "iv").

(** [x or y] on values that are text or missing *)
Definition mode_or (a b : pyval) : pyval :=
  match a with
  | PyNone | PyBool false | PyBytes [] | PyTuple [] | PyList [] | PyDict [] => b
  | PyS s => if py_empty s then b else a
  | PyInt z => if z =? 0 then b else a
  | PyFloat f => if feq f f0 then b else a
  | _ => a
  end.

Definition dict_get (d : cipher_dict) (k : pystr) : pyval := default PyNone (dget d k).

(** [None]: the source's own [try] turns every failure below it into [None]. *)
Definition decrypt (ciphertext_dict encrypted_key private_key_pem : pyval)
  (cipher_mode associated_data : pyval) : crypto_error + option (list byte) :=
  match ciphertext_dict with
  | PyDict d =>
      let? key := _ensure_bytes encrypted_key "encrypted_key" in
      let? pem := _ensure_bytes private_key_pem "private_key_pem" in
      let? _ := check_associated_data associated_data in
      let hint := mode_or cipher_mode (dict_get d "mode") in
      let hint := match hint with
                  | PyNone => if dmem d "tag" then PyS "GCM" else hint
                  | _ => hint
                  end in
      let? mode := _normalise_mode hint in
      let? _ := check_fields d mode in
      inr (match (let? aes_key := _decrypt_session_key key pem in
                  _decrypt_with_key d (PyBytes aes_key) (PyS (mode_name mode)) associated_data) with
           | inr plaintext => Some plaintext
           | inl _ => None
           end)
  | _ => inl (CryptoTypeError "ciphertext_dict must be a mapping with ciphertext and iv entries")
  end.

(** ** Stream sessions *)
Record StreamSession : Set := MkSession {
  ss_aes_key : list byte;
  ss_cipher_mode : aes_mode;
  ss_associated_data : option (list byte);
  ss_last_iv : option (list byte);
  ss_chunk_index : Z;
  ss_used_ivs : list (list byte)
}.

(** [s.add(x)] on a set *)
Definition set_add (x : list byte) (l : list (list byte)) : list (list byte) :=
  if bool_decide (x ∈ l) then l else l ++ [x].

(** [__post_init__]; the fields without a check have the annotated type. *)
Definition session_post_init (aes_key cipher_mode : pyval) (associated_data last_iv : option (list byte))
  (chunk_index : Z) (used_ivs : list (list byte)) : crypto_error + StreamSession :=
  let? key := _ensure_bytes aes_key "aes_key" in
  let? mode := _normalise_mode cipher_mode in
  let used := match last_iv with Some iv => set_add iv used_ivs | None => used_ivs end in
  inr (MkSession key mode associated_data last_iv chunk_index used).

(** [StreamSession(aes_key=..., cipher_mode=..., associated_data=...)] *)
Definition new_session (aes_key cipher_mode : pyval) (associated_data : option (list byte)) :
  crypto_error + StreamSession :=
  session_post_init aes_key cipher_mode associated_data None 0 [].

Definition of_optional (o : option (list byte)) : pyval :=
  match o with Some b => PyBytes b | None => PyNone end.

(** [session is not None and not isinstance(session, StreamSession)] *)
Definition check_session (session : option (instance_of StreamSession)) :
  crypto_error + option StreamSession :=
  match session with
  | None => inr None
  | Some (IsInst s) => inr (Some s)
  | Some (NotInst _) => inl (CryptoTypeError "session must be a StreamSession instance")
  end.

(** The checks of both functions when a session goes on *)
Definition check_same_session (s : StreamSession) (cipher_mode associated_data : pyval) :
  crypto_error + unit :=
  let? _ := match cipher_mode with
            | PyNone => inr tt
            | _ => let? mode := _normalise_mode cipher_mode in
                   eraise_if (negb (bool_decide (mode = ss_cipher_mode s)))
                     (CryptoValueError "cipher_mode mismatch for existing streaming session")
            end in
  match as_bytes associated_data with
  | Some b => eraise_if (negb (bool_decide (b = default [] (ss_associated_data s))))
                (CryptoValueError "associated_data mismatch for existing streaming session")
  | None => inr tt
  end.

(** The vector joins the used ones and the chunk is counted. *)
Definition advance_session (iv : list byte) (s : StreamSession) : StreamSession :=
  MkSession (ss_aes_key s) (ss_cipher_mode s) (ss_associated_data s) (Some iv)
    (ss_chunk_index s + 1) (set_add iv (ss_used_ivs s)).

Definition max_iv_attempts : nat := 5.

(** The [for] loop: the first ciphertext with an unused vector *)
Fixpoint encrypt_fresh (attempts : nat) (plaintext : pyval) (s : StreamSession) : CM cipher_dict :=
  match attempts with
  | O => raise (CryptoRuntimeError "Failed to derive a unique IV for the streaming chunk")
  | S attempts' =>
      let* d := _encrypt_with_key plaintext (PyBytes (ss_aes_key s))
                  (PyS (mode_name (ss_cipher_mode s))) (of_optional (ss_associated_data s)) in
      match as_bytes (dict_get d "iv") with
      | None => raise (CryptoValueError
                  "Streaming encryption must include an initialization vector")
      | Some iv => if bool_decide (iv ∈ ss_used_ivs s) then encrypt_fresh attempts' plaintext s
                   else ret d
      end
  end.

(** The session of the chunk, and the wrapped key when the session is new *)
Definition sender_session (pem : list byte) (session : option StreamSession) (use_pkcs1v15 : bool)
  (cipher_mode associated_data : pyval) : CM (StreamSession * option (list byte)) :=
  match session with
  | None =>
      let* mode := lift_val (_normalise_mode cipher_mode) in
      let* aes_key := draw AES_KEY_SIZE in
      let* s := lift_val (new_session (PyBytes aes_key) (PyS (mode_name mode))
                            (as_bytes associated_data)) in
      let* encrypted_key := _encrypt_session_key (PyBytes (ss_aes_key s)) pem use_pkcs1v15 in
      ret (s, Some encrypted_key)
  | Some s =>
      lift (check_same_session s cipher_mode associated_data) ;;;
      ret (s, None)
  end.

Definition encrypt_stream_chunk (plaintext public_key_pem : pyval)
  (session : option (instance_of StreamSession)) (use_pkcs1v15 : bool)
  (cipher_mode associated_data : pyval) : CM (cipher_dict * option (list byte) * StreamSession) :=
  let* session := lift_val (check_session session) in
  let* pem := lift_val (_ensure_bytes public_key_pem "public_key_pem") in
  lift (check_associated_data associated_data) ;;;
  let* '(s, encrypted_key) :=
    sender_session pem session use_pkcs1v15 cipher_mode associated_data in
  let* d := encrypt_fresh max_iv_attempts plaintext s in
  ret (d, encrypted_key, advance_session (field_bytes d "iv") s).

Definition receiver_session (d : cipher_dict) (pem : list byte) (session : option StreamSession)
  (encrypted_key : option (list byte)) (cipher_mode associated_data : pyval) :
  crypto_error + StreamSession :=
  match session with
  | None =>
      match encrypted_key with
      | None => inl (CryptoValueError "encrypted_key is required for the first streaming chunk")
      | Some key =>
          let? mode := _normalise_mode (mode_or cipher_mode (dict_get d "mode")) in
          let? aes_key := _decrypt_session_key key pem in
          new_session (PyBytes aes_key) (PyS (mode_name mode)) (as_bytes associated_data)
      end
  | Some s =>
      let? _ := check_same_session s cipher_mode associated_data in
      match encrypted_key with
      | None => inr s
      | Some _ => inl (CryptoValueError
                    "encrypted_key should be omitted when reusing a streaming session")
      end
  end.

(** The dictionary and the wrapped key have the annotated types. *)
Definition decrypt_stream_chunk (ciphertext_dict : cipher_dict) (private_key_pem : pyval)
  (session : option (instance_of StreamSession)) (encrypted_key : option (list byte))
  (cipher_mode associated_data : pyval) : crypto_error + (list byte * StreamSession) :=
  let? session := check_session session in
  let? pem := _ensure_bytes private_key_pem "private_key_pem" in
  let? _ := check_associated_data associated_data in
  let? s := receiver_session ciphertext_dict pem session encrypted_key cipher_mode associated_data in
  let? plaintext := _decrypt_with_key ciphertext_dict (PyBytes (ss_aes_key s))
    (PyS (mode_name (ss_cipher_mode s))) (of_optional (ss_associated_data s)) in
  let iv_bytes := field_bytes ciphertext_dict "iv" in
  if bool_decide (iv_bytes ∈ ss_used_ivs s)
  then inl (CryptoValueError "Repeated IV detected for streaming chunk")
  else inr (plaintext, advance_session iv_bytes s).

End encrypt.
