(* ===== verification/EncryptSound.v ===== *)
(** * encrypt.py: padding, keys and single messages

    PKCS#7 unpadding accepts exactly what padding produces; a message encrypted for
    a key pair is decrypted by it, in both modes and with both paddings.  What the
    [cryptography] package is relied on for is the class [CryptographyLaws]. *)

From S2P Require Import Prelude PyFloat PyStr PyDict Base64 PyText Json JsonText.
From S2P Require Import Encrypt.

(** AES inverts itself on keys, vectors and data of the right size, and CBC keeps
    the length; RSA inverts itself on short data under a generated key pair and its
    ciphertexts have the length of the modulus; OAEP unpadding rejects a PKCS#1 v1.5
    ciphertext.  The bounds are those of AES-GCM and of OAEP with SHA-256 and a key
    of 2048 bits. *)
Definition gcm_limit : Z := 2 ^ 36 - 32.
Definition oaep_limit : Z := 190.

Class CryptographyLaws `{!Cryptography} : Prop := {
  token_length : forall n size, 0 <= size -> zlen (token_bytes n size) = size;
  cbc_inverse : forall key iv data,
    zlen key = 32 -> zlen iv = 16 -> zlen data mod 16 = 0 ->
    exists c, aes_cbc_encrypt key iv data = inr c /\ aes_cbc_decrypt key iv c = inr data /\
      zlen c = zlen data;
  gcm_inverse : forall key iv aad data,
    zlen key = 32 -> zlen iv = 12 -> zlen data <= gcm_limit ->
    exists c tag, aes_gcm_encrypt key iv aad data = inr (c, tag) /\
      aes_gcm_decrypt key iv tag aad c = inr data;
  rsa_inverse : forall k n padding data,
    zlen data <= oaep_limit ->
    exists key c, load_pem_private_key (generate_private_key k RSA_KEY_SIZE).1 = inr key /\
      rsa_encrypt n padding (generate_private_key k RSA_KEY_SIZE).2 data = inr c /\
      rsa_decrypt padding key c = inr data /\ zlen c = RSA_KEY_SIZE / 8 /\
      (padding = PKCS1v15 -> exists e, rsa_decrypt OAEP key c = inl e)
}.

(** A key pair [generate_keys] returned: the private and the public PEM *)
Definition key_pair `{!Cryptography} (private public : list byte) : Prop :=
  exists k, generate_private_key k RSA_KEY_SIZE = (private, public).

(** ** Padding *)

Lemma zlen_repeat {A} (x : A) k : 0 <= k -> zlen (repeat x (Z.to_nat k)) = k.
Proof. intros Hk. rewrite zlen_length, repeat_length. lia. Qed.

Lemma padding_arguments_inr v n d z :
  padding_arguments v n = inr (d, z) ->
  v = PyBytes d /\ 1 <= z <= 255 /\ forall d', padding_arguments (PyBytes d') n = inr (d', z).
Proof.
  unfold padding_arguments. destruct v; try done. cbn [as_bytes].
  destruct (any_int n) as [m|]; [|done].
  destruct ((m <=? 0) || (255 <? m)) eqn:E; [done|]. intros [= <- <-].
  apply orb_false_iff in E as [?%Z.leb_gt ?%Z.ltb_ge]. split; [done|]. split; [lia|done].
Qed.

(** The number of bytes the padding adds *)
Lemma padding_length_range l n : 1 <= n -> 1 <= n - l mod n <= n.
Proof. intros Hn. pose proof (Z.mod_pos_bound l n). lia. Qed.

Lemma padding_length_mod l n : 1 <= n -> (l + (n - l mod n)) mod n = 0.
Proof.
  intros Hn. rewrite (Z.div_mod l n) at 1 by lia.
  replace (n * (l / n) + l mod n + (n - l mod n)) with ((l / n + 1) * n) by lia.
  apply Z.mod_mul. lia.
Qed.

Lemma padding_length_of l n k : 1 <= k <= n -> (l + k) mod n = 0 -> n - l mod n = k.
Proof.
  intros Hk Hm.
  assert (Hl : l mod n = (n - k) mod n).
  { replace l with ((l + k) + (- k)) by lia. rewrite <- Zplus_mod_idemp_l, Hm.
    replace (n - k) with (- k + 1 * n) by lia. by rewrite Z.mod_add by lia. }
  rewrite Hl. rewrite Z.mod_small by lia. lia.
Qed.

Lemma without_last_app k d r : zlen r = k -> without_last k (d ++ r) = d.
Proof.
  intros <-. unfold without_last. rewrite zlen_length, Nat2Z.id, length_app, Nat.add_sub.
  by rewrite firstn_app, Nat.sub_diag, firstn_all, app_nil_r.
Qed.

Lemma last_bytes_app k d r : zlen r = k -> last_bytes k (d ++ r) = r.
Proof.
  intros <-. unfold last_bytes. rewrite zlen_length, Nat2Z.id, length_app, Nat.add_sub.
  by rewrite skipn_app, Nat.sub_diag, skipn_all.
Qed.

Lemma last_byte_repeat d x k : 1 <= k -> last_byte (d ++ repeat x (Z.to_nat k)) = byte_val x.
Proof.
  intros Hk. unfold last_byte. f_equal. replace (Z.to_nat k) with (Z.to_nat (k - 1) + 1)%nat by lia.
  rewrite repeat_app. cbn [repeat]. by rewrite app_assoc, List.last_last.
Qed.

Lemma split_last k l : 0 <= k <= zlen l ->
  l = without_last k l ++ last_bytes k l /\ zlen (without_last k l) + k = zlen l.
Proof.
  unfold without_last, last_bytes. rewrite !zlen_length. intros Hk. rewrite firstn_skipn. split; [done|].
  rewrite length_firstn. lia.
Qed.

(** Unpadding undoes padding, and accepts nothing else. *)
Lemma padding_exact d p n :
  pkcs7_pad (PyBytes d) n = inr p <-> pkcs7_unpad (PyBytes p) n = inr d.
Proof.
  unfold pkcs7_pad, pkcs7_unpad. split.
  - rewrite ebind_inr. intros ([d' z] & Ha & [= <-]).
    apply padding_arguments_inr in Ha as ([= <-] & Hz & Ha).
    rewrite Ha. cbn [ebind]. set (k := z - zlen d mod z).
    pose proof (padding_length_range (zlen d) z ltac:(lia)) as Hk. fold k in Hk.
    rewrite bool_decide_eq_false_2.
    2: { intros [_ Hr]%app_eq_nil. apply (f_equal zlen) in Hr. rewrite zlen_repeat in Hr by lia.
         rewrite zlen_nil in Hr. lia. }
    rewrite zlen_app, zlen_repeat by lia. unfold k at 1. rewrite padding_length_mod by lia.
    cbn [Z.eqb negb]. cbv zeta. rewrite last_byte_repeat, byte_val_of_Z by lia.
    rewrite (proj2 (Z.eqb_neq k 0)) by lia. rewrite (proj2 (Z.ltb_ge z k)) by lia. cbn [orb].
    rewrite last_bytes_app by (apply zlen_repeat; lia). rewrite bool_decide_eq_true_2 by done.
    by rewrite without_last_app by (apply zlen_repeat; lia).
  - rewrite ebind_inr. intros ([p' z] & Ha & Hu).
    apply padding_arguments_inr in Ha as ([= <-] & Hz & Ha). rewrite Ha. cbn [ebind].
    case_bool_decide as Hnil; [done|].
    destruct (zlen p mod z =? 0) eqn:Em; [|done]. cbn [negb] in Hu. cbv zeta in Hu.
    set (k := last_byte p) in *.
    destruct ((k =? 0) || (z <? k)) eqn:Ek; [done|]. case_bool_decide as Hr; [|done].
    injection Hu as <-. apply orb_false_iff in Ek as [Ek1%Z.eqb_neq Ek2%Z.ltb_ge].
    apply Z.eqb_eq in Em. assert (Hk0 : 0 <= k) by (unfold k, last_byte; pose proof (byte_val_range (List.last p Byte.x00)); lia).
    assert (Hlen : z <= zlen p).
    { assert (0 < zlen p) by (destruct p as [|b p]; [done|rewrite zlen_cons; pose proof (zlen_nonneg p); lia]).
      destruct (Z.le_gt_cases z (zlen p)) as [|Hlt]; [done|]. rewrite Z.mod_small in Em by lia. lia. }
    destruct (split_last k p ltac:(lia)) as [Hp Hsum].
    rewrite (padding_length_of _ z k) by (rewrite ?Hsum; lia).
    f_equal. rewrite <- Hr. by symmetry.
Qed.

Lemma pad_16 d : exists p, pkcs7_pad (PyBytes d) (PyInt 16) = inr p /\ zlen p mod 16 = 0.
Proof.
  eexists. split; [reflexivity|]. cbv zeta.
  pose proof (padding_length_range (zlen d) 16 ltac:(lia)) as Hk.
  rewrite zlen_app, zlen_repeat by lia. apply padding_length_mod. lia.
Qed.

(** ** Single messages *)
Section messages.
Context `{!Cryptography}.

Lemma draw_bind {A} size (k : list byte -> CM A) n :
  bind (draw size) k n = k (token_bytes n size) (S n).
Proof. done. Qed.

Lemma normalise_name m : _normalise_mode (PyS (mode_name m)) = inr m.
Proof. by destruct m. Qed.

Lemma decrypt_with_key_eq d key m ad :
  check_fields d m = inr tt ->
  _decrypt_with_key d (PyBytes key) (PyS (mode_name m)) ad =
    let ciphertext := field_bytes d "ciphertext" in
    let iv := field_bytes d "iv" in
    match m with
    | CBC => let? padded := package (aes_cbc_decrypt key iv ciphertext) in
             pkcs7_unpad (PyBytes padded) (PyInt 16)
    | GCM => package (aes_gcm_decrypt key iv (field_bytes d "tag") (aad_of ad) ciphertext)
    end.
Proof.
  intros Hf. unfold _decrypt_with_key. cbn [_ensure_bytes as_bytes ebind].
  rewrite normalise_name. cbn [ebind]. by rewrite Hf.
Qed.

(** The associated data of a checked argument *)
Lemma checked_data ad :
  check_associated_data ad = inr tt -> ad = of_optional (as_bytes ad).
Proof. by destruct ad. Qed.

Lemma aad_optional o : aad_of (of_optional o) = default [] o.
Proof. by destruct o. Qed.

Definition iv_size (m : aes_mode) : Z := match m with CBC => IV_SIZE | GCM => GCM_IV_SIZE end.

(** The mode a dictionary announces: GCM ciphertexts only *)
Definition announced (m : aes_mode) : pyval := match m with CBC => PyNone | GCM => PyS "GCM" end.

(** What a ciphertext dictionary of mode [m] is, for its receiver *)
Record sealed (key : list byte) (m : aes_mode) (ad : option (list byte)) (plaintext iv : list byte)
  (d : cipher_dict) : Prop := {
  sealed_opens : _decrypt_with_key d (PyBytes key) (PyS (mode_name m)) (of_optional ad)
                 = inr plaintext;
  sealed_iv : dget d "iv" = Some (PyBytes iv);
  sealed_mode : dict_get d "mode" = announced m;
  sealed_fields : check_fields d m = inr tt;
  sealed_cbc : m = CBC -> exists c, c <> [] /\
    d = [("ciphertext", PyBytes c); ("iv", PyBytes iv)]%pystr
}.

Lemma sealed_field_iv key m ad plaintext iv d :
  sealed key m ad plaintext iv d -> field_bytes d "iv" = iv.
Proof. intros Hd. unfold field_bytes. by rewrite (sealed_iv _ _ _ _ _ _ Hd). Qed.

Lemma length_b64 l : zlen (b64_bytes l) <= 4 * ((zlen l + 2) / 3).
Proof.
  unfold b64_bytes. rewrite zlen_map. induction l as [|a|a b|a b c l IH] using b64_bytes_ind; [done..|].
  cbn [b64_codes]. rewrite zlen_app. rewrite !zlen_cons. rewrite zlen_nil.
  replace (1 + (1 + (1 + zlen l)) + 2) with (zlen l + 2 + 1 * 3) by lia. rewrite Z.div_add by lia. lia.
Qed.

Lemma decrypt_run d wrapped private key m ad plaintext iv :
  _decrypt_session_key wrapped private = inr key -> check_associated_data ad = inr tt ->
  sealed key m (as_bytes ad) plaintext iv d ->
  decrypt (PyDict d) (PyBytes wrapped) (PyBytes private) PyNone ad = inr (Some plaintext).
Proof.
  intros Hk Had Hd. unfold decrypt. cbn [_ensure_bytes as_bytes ebind mode_or].
  rewrite Had. cbn [ebind]. rewrite (sealed_mode _ _ _ _ _ _ Hd).
  assert (Hm : _normalise_mode match announced m with
     | PyNone => if dmem d "tag" then PyS "GCM" else announced m | _ => announced m end = inr m).
  { destruct m; [|done]. destruct (sealed_cbc _ _ _ _ _ _ Hd) as (c & _ & ->); done. }
  rewrite Hm. cbn [ebind]. rewrite (sealed_fields _ _ _ _ _ _ Hd), Hk. cbn [ebind].
  rewrite (checked_data ad Had) at 1. by rewrite (sealed_opens _ _ _ _ _ _ Hd).
Qed.

(** The lemmas below rely on the package's laws. *)
Context `{!CryptographyLaws}.
#[local] Set Default Proof Using "Type*".

Lemma encrypt_with_key_run plaintext key m ad n :
  zlen key = AES_KEY_SIZE -> zlen plaintext <= gcm_limit ->
  exists d, _encrypt_with_key (PyBytes plaintext) (PyBytes key) (PyS (mode_name m)) (of_optional ad) n
      = (S n, inr d) /\
    sealed key m ad plaintext (token_bytes n (iv_size m)) d.
Proof.
  intros Hk Hp. unfold _encrypt_with_key. cbn [_ensure_bytes as_bytes].
  rewrite !bind_val with (a := _) by reflexivity.
  rewrite (bind_val _ m) by apply normalise_name.
  replace (check_associated_data (of_optional ad)) with (inr (A := crypto_error) tt) by (by destruct ad).
  unfold bind at 1, lift, ret. destruct m.
  - destruct (pad_16 plaintext) as (p & Hpad & Hmod).
    destruct (cbc_inverse key (token_bytes n IV_SIZE) p) as (c & He & Hd & Hl);
      [done|by apply token_length|done|].
    exists [("ciphertext", PyBytes c); ("iv", PyBytes (token_bytes n IV_SIZE))]%pystr. split.
    + rewrite draw_bind, (bind_val _ p) by done. by rewrite He.
    + split; try (intros; done).
      2: { intros _. exists c. split; [|done]. intros ->. rewrite zlen_nil in Hl.
           assert (0 < zlen p); [|lia]. apply padding_exact in Hpad.
           destruct p as [|b p]; [done|]. rewrite zlen_cons. pose proof (zlen_nonneg p). lia. }
      rewrite decrypt_with_key_eq by reflexivity. cbv zeta.
      change (field_bytes _ "iv") with (token_bytes n IV_SIZE). change (field_bytes _ _) with c.
      rewrite Hd. by apply padding_exact.
  - destruct (gcm_inverse key (token_bytes n GCM_IV_SIZE) (default [] ad) plaintext)
      as (c & tag & He & Hd); [done|by apply token_length|done|].
    exists [("ciphertext", PyBytes c); ("iv", PyBytes (token_bytes n GCM_IV_SIZE));
            ("tag", PyBytes tag); ("mode", PyS "GCM")]%pystr. split.
    + rewrite draw_bind, aad_optional, He. done.
    + split; try (intros; done). rewrite decrypt_with_key_eq, aad_optional by reflexivity. cbv zeta.
      change (field_bytes _ "iv") with (token_bytes n GCM_IV_SIZE).
      change (field_bytes _ "tag") with tag. change (field_bytes _ _) with c. by rewrite Hd.
Qed.

(** A wrapped session key is unwrapped, with either padding. *)
Lemma session_key_run key private public use_pkcs1v15 n :
  key_pair private public -> zlen key = AES_KEY_SIZE ->
  exists wrapped, _encrypt_session_key (PyBytes key) public use_pkcs1v15 n = (S n, inr wrapped) /\
    _decrypt_session_key wrapped private = inr key /\ wrapped <> [].
Proof.
  intros [k Hkp] Hk.
  destruct (rsa_inverse k n (if use_pkcs1v15 then PKCS1v15 else OAEP) (b64_bytes key))
    as (rsa & c & Hl & He & Hd & Hc & Ho).
  { pose proof (length_b64 key) as Hb. rewrite Hk in Hb. unfold AES_KEY_SIZE, oaep_limit in *.
    change (4 * ((32 + 2) / 3)) with 44 in Hb. lia. }
  rewrite Hkp in *. cbn [fst snd] in *. exists c. split.
  - unfold _encrypt_session_key. cbn [_ensure_bytes as_bytes]. rewrite bind_val with (a := key) by done.
    unfold randomised. by rewrite He.
  - unfold _decrypt_session_key. rewrite Hl. cbn [package ebind].
    assert (Hr : match rsa_decrypt OAEP rsa c with
                 | inr b => inr b | inl _ => rsa_decrypt PKCS1v15 rsa c end = inr (b64_bytes key)).
    { destruct use_pkcs1v15; [|by rewrite Hd]. destruct Ho as [e ->]; done. }
    rewrite Hr. cbn [package ebind]. rewrite b64_bytes_roundtrip. split; [done|].
    intros ->. by rewrite zlen_nil in Hc.
Qed.

(** A message encrypted for a key pair: the dictionary, the wrapped key, the vector *)
Lemma encrypt_run plaintext private public use_pkcs1v15 mode m ad n :
  key_pair private public -> _normalise_mode mode = inr m -> check_associated_data ad = inr tt ->
  zlen plaintext <= gcm_limit ->
  exists d wrapped iv,
    encrypt (PyBytes plaintext) (PyBytes public) use_pkcs1v15 mode ad n
      = (S (S (S n)), inr (d, wrapped, iv)) /\
    sealed (token_bytes n AES_KEY_SIZE) m (as_bytes ad) plaintext iv d /\
    _decrypt_session_key wrapped private = inr (token_bytes n AES_KEY_SIZE) /\ wrapped <> [] /\
    iv = token_bytes (S n) (iv_size m).
Proof.
  intros Hkp Hm Had Hp. pose proof (token_length n AES_KEY_SIZE ltac:(done)) as Hlen.
  destruct (encrypt_with_key_run plaintext (token_bytes n AES_KEY_SIZE) m (as_bytes ad) (S n))
    as (d & He & Hd); [done..|].
  destruct (session_key_run (token_bytes n AES_KEY_SIZE) private public use_pkcs1v15 (S (S n)))
    as (wrapped & Hw & Hu & Hne); [done..|].
  exists d, wrapped, (token_bytes (S n) (iv_size m)). split; [|done].
  rewrite <- checked_data in He by done.
  unfold encrypt. cbn [_ensure_bytes as_bytes]. rewrite (bind_val _ public) by done.
  rewrite (bind_val _ m), draw_bind by done.
  rewrite (bind_run _ _ _ _ _ He), (bind_run _ _ _ _ _ Hw).
  unfold ret. by rewrite (sealed_field_iv _ _ _ _ _ _ Hd).
Qed.

End messages.

(** * A concrete cipher

    A stand-in for the [cryptography] package with its laws: CBC and GCM reverse the
    data, GCM's tag is the associated data, RSA prefixes the padding's name and the
    length and fills up to the modulus.  The witnesses evaluate it. *)

Definition padding_tag (p : rsa_padding) : byte := match p with PKCS1v15 => Byte.x01 | OAEP => Byte.x02 end.

Definition toy_rsa_encrypt (p : rsa_padding) (data : list byte) : pystr + list byte :=
  if zlen data <=? oaep_limit
  then inr (padding_tag p :: byte_of_Z (zlen data) ::
            data ++ repeat Byte.x00 (Z.to_nat (254 - zlen data)))
  else inl "data too long"%pystr.

Definition toy_rsa_decrypt (p : rsa_padding) (c : list byte) : pystr + list byte :=
  match c with
  | t :: n :: rest => if bool_decide (t = padding_tag p) then inr (firstn (Z.to_nat (byte_val n)) rest)
                      else inl "Decryption failed"%pystr
  | _ => inl "Decryption failed"%pystr
  end.

#[export] Instance toy_cryptography : Cryptography := {
  private_key := list byte;
  token_bytes n size := repeat (byte_of_Z (Z.of_nat n mod 256)) (Z.to_nat size);
  aes_cbc_encrypt key iv data := inr (rev data);
  aes_cbc_decrypt key iv data := inr (rev data);
  aes_gcm_encrypt key iv aad data := inr (rev data, aad);
  aes_gcm_decrypt key iv tag aad data :=
    if bool_decide (tag = aad) then inr (rev data) else inl "InvalidTag"%pystr;
  generate_private_key n size := ([byte_of_Z (Z.of_nat n mod 256)], [byte_of_Z (Z.of_nat n mod 256)]);
  load_pem_private_key pem := inr pem;
  rsa_encrypt n p pem data := toy_rsa_encrypt p data;
  rsa_decrypt p key c := toy_rsa_decrypt p c
}.

#[export] Instance toy_laws : CryptographyLaws.
Proof.
  split.
  - intros n size Hs. by apply zlen_repeat.
  - intros key iv data _ _ _. exists (rev data). cbn. rewrite rev_involutive. split; [done|].
    split; [done|]. by rewrite !zlen_length, length_rev.
  - intros key iv aad data _ _ _. exists (rev data), aad. cbn.
    rewrite bool_decide_eq_true_2, rev_involutive by done. done.
  - intros k n p data Hd. unfold oaep_limit in Hd. eexists _, _. split; [reflexivity|].
    cbn [rsa_encrypt rsa_decrypt toy_cryptography]. unfold toy_rsa_encrypt, toy_rsa_decrypt.
    unfold oaep_limit. rewrite (proj2 (Z.leb_le _ _) Hd). split; [reflexivity|].
    pose proof (zlen_nonneg data) as H0. split; [|split].
    + rewrite bool_decide_eq_true_2, byte_val_of_Z by (done || lia). f_equal.
      rewrite zlen_length, Nat2Z.id. by rewrite firstn_app, Nat.sub_diag, firstn_all, app_nil_r.
    + rewrite !zlen_cons, zlen_app, zlen_repeat by lia. change (RSA_KEY_SIZE / 8) with 256. lia.
    + intros ->. by eexists.
Qed.

(** The key pair of the first draw *)
Definition toy_private : list byte := [Byte.x00].
Definition toy_public : list byte := [Byte.x00].

Lemma toy_pair : key_pair toy_private toy_public.
Proof. by exists 0%nat. Qed.

(** * encrypt.py: streams of chunks

    A sender's session carries one AES key through a stream and never uses an
    initialization vector twice; the receiver, which is given the wrapped key with
    the first chunk, recovers the chunks in order and arrives at the same session. *)

(** A session that began without vectors and was only ever advanced *)
Record session_ok (s : StreamSession) : Prop := {
  so_key : zlen (ss_aes_key s) = AES_KEY_SIZE;
  so_distinct : NoDup (ss_used_ivs s);
  so_count : ss_chunk_index s = zlen (ss_used_ivs s);
  so_last : ss_last_iv s = last (ss_used_ivs s)
}.

Definition fresh_session (key : list byte) (m : aes_mode) (ad : option (list byte)) : StreamSession :=
  MkSession key m ad None 0 [].

Definition no_fresh_iv : crypto_error :=
  CryptoRuntimeError "Failed to derive a unique IV for the streaming chunk".

Definition replayed : crypto_error :=
  CryptoValueError "Repeated IV detected for streaming chunk".

Lemma fresh_session_ok key m ad : zlen key = AES_KEY_SIZE -> session_ok (fresh_session key m ad).
Proof. intros Hk. split; [done|by apply NoDup_nil|symmetry; apply zlen_nil|done]. Qed.

Lemma set_add_fresh iv l : iv ∉ l -> set_add iv l = l ++ [iv].
Proof. intros Hiv. unfold set_add. by rewrite bool_decide_eq_false_2. Qed.

Lemma advance_ok s iv : session_ok s -> iv ∉ ss_used_ivs s -> session_ok (advance_session iv s).
Proof.
  intros [Hk Hd Hc Hl] Hiv. split; cbn [ss_aes_key ss_used_ivs ss_chunk_index ss_last_iv advance_session].
  - done.
  - rewrite set_add_fresh by done. apply NoDup_app. split; [done|]. split; [|apply NoDup_singleton].
    by intros x Hx ->%list_elem_of_singleton.
  - rewrite set_add_fresh, zlen_app, zlen_cons, zlen_nil by done. lia.
  - rewrite set_add_fresh by done. by rewrite last_snoc.
Qed.

Section streams.
Context `{!Cryptography}.

(** What a client of the module does with a stream: the first chunk opens the
    session, every later one goes on with it. *)
Fixpoint send_rest (public : list byte) (chunks : list (list byte)) (s : StreamSession) :
  CM (list cipher_dict * StreamSession) :=
  match chunks with
  | [] => ret ([], s)
  | chunk :: rest =>
      let* '(d, _, s1) := encrypt_stream_chunk (PyBytes chunk) (PyBytes public)
                            (Some (IsInst s)) true PyNone PyNone in
      let* '(ds, s2) := send_rest public rest s1 in
      ret (d :: ds, s2)
  end.

Definition send_stream (public : list byte) (use_pkcs1v15 : bool) (mode ad : pyval)
  (chunk : list byte) (rest : list (list byte)) :
  CM (list cipher_dict * option (list byte) * StreamSession) :=
  let* '(d, wrapped, s1) := encrypt_stream_chunk (PyBytes chunk) (PyBytes public)
                              None use_pkcs1v15 mode ad in
  let* '(ds, s2) := send_rest public rest s1 in
  ret (d :: ds, wrapped, s2).

Fixpoint receive_rest (private : list byte) (ds : list cipher_dict) (s : StreamSession) :
  crypto_error + (list (list byte) * StreamSession) :=
  match ds with
  | [] => inr ([], s)
  | d :: rest =>
      let? '(chunk, s1) := decrypt_stream_chunk d (PyBytes private) (Some (IsInst s)) None
                             PyNone PyNone in
      let? '(chunks, s2) := receive_rest private rest s1 in
      inr (chunk :: chunks, s2)
  end.

Definition receive_stream (private : list byte) (wrapped : option (list byte)) (ad : pyval)
  (ds : list cipher_dict) : crypto_error + (list (list byte) * StreamSession) :=
  match ds with
  | [] => inl (CryptoValueError "encrypted_key is required for the first streaming chunk")
  | d :: rest =>
      let? '(chunk, s1) := decrypt_stream_chunk d (PyBytes private) None wrapped PyNone ad in
      let? '(chunks, s2) := receive_rest private rest s1 in
      inr (chunk :: chunks, s2)
  end.

(** A chunk that is open under the session's key, with an unused vector, is
    delivered; one whose vector was used is refused. *)
Lemma chunk_received d private s chunk iv :
  sealed (ss_aes_key s) (ss_cipher_mode s) (ss_associated_data s) chunk iv d ->
  decrypt_stream_chunk d (PyBytes private) (Some (IsInst s)) None PyNone PyNone =
    if bool_decide (iv ∈ ss_used_ivs s) then inl replayed else inr (chunk, advance_session iv s).
Proof.
  intros Hd. unfold decrypt_stream_chunk.
  cbn [check_session _ensure_bytes as_bytes check_associated_data receiver_session
       check_same_session ebind].
  rewrite (sealed_opens _ _ _ _ _ _ Hd). cbn [ebind]. by rewrite (sealed_field_iv _ _ _ _ _ _ Hd).
Qed.

Context `{!CryptographyLaws}.
#[local] Set Default Proof Using "Type*".

(** The loop ends with an unused vector or with the error. *)
Lemma encrypt_fresh_spec attempts chunk s n :
  zlen (ss_aes_key s) = AES_KEY_SIZE -> zlen chunk <= gcm_limit ->
  wp (encrypt_fresh attempts (PyBytes chunk) s)
    (fun d _ => exists iv, iv ∉ ss_used_ivs s /\
       sealed (ss_aes_key s) (ss_cipher_mode s) (ss_associated_data s) chunk iv d)
    (fun e _ => e = no_fresh_iv) n.
Proof.
  intros Hk Hc. revert n. induction attempts as [|attempts IH]; intros n; [done|].
  cbn [encrypt_fresh].
  destruct (encrypt_with_key_run chunk (ss_aes_key s) (ss_cipher_mode s) (ss_associated_data s) n)
    as (d & He & Hd); [done..|].
  apply wp_bind. unfold wp at 1. rewrite He.
  assert (Hiv : as_bytes (dict_get d "iv") = Some (token_bytes n (iv_size (ss_cipher_mode s)))).
  { unfold dict_get. by rewrite (sealed_iv _ _ _ _ _ _ Hd). }
  rewrite Hiv. case_bool_decide as Hin; [apply IH|]. by eexists.
Qed.

Lemma chunk_sent public use_pkcs1v15 chunk s n :
  zlen (ss_aes_key s) = AES_KEY_SIZE -> zlen chunk <= gcm_limit ->
  wp (encrypt_stream_chunk (PyBytes chunk) (PyBytes public) (Some (IsInst s)) use_pkcs1v15
        PyNone PyNone)
    (fun '(d, _, s') _ => exists iv, iv ∉ ss_used_ivs s /\ s' = advance_session iv s /\
       sealed (ss_aes_key s) (ss_cipher_mode s) (ss_associated_data s) chunk iv d)
    (fun e _ => e = no_fresh_iv) n.
Proof.
  intros Hk Hc.
  change (encrypt_stream_chunk _ _ _ _ _ _) with
    (bind (encrypt_fresh max_iv_attempts (PyBytes chunk) s)
       (fun d => ret (d, None (A := list byte), advance_session (field_bytes d "iv") s))).
  apply wp_bind. eapply wp_mono; [by apply encrypt_fresh_spec| |done].
  intros d n1 (iv & Hiv & Hd). exists iv. by rewrite (sealed_field_iv _ _ _ _ _ _ Hd).
Qed.

Lemma rest_delivered public private rest s n :
  session_ok s -> Forall (fun c => zlen c <= gcm_limit) rest ->
  wp (send_rest public rest s)
    (fun '(ds, s') _ => receive_rest private ds s = inr (rest, s') /\ session_ok s' /\
       ss_used_ivs s' = ss_used_ivs s ++ map (fun d => field_bytes d "iv") ds)
    (fun e _ => e = no_fresh_iv) n.
Proof.
  intros Hs Hall. revert s n Hs. induction Hall as [|chunk rest Hc Hall IH]; intros s n Hs.
  { cbn. split; [done|]. by rewrite app_nil_r. }
  cbn [send_rest]. apply wp_bind. eapply wp_mono; [apply chunk_sent; [apply Hs|done]| |done].
  intros [[d k] s1] n1 (iv & Hiv & -> & Hd). apply wp_bind.
  eapply wp_mono; [apply IH, advance_ok; done| |done].
  intros [ds s'] n2 (Hr & Hs' & Hu). cbn -[receive_rest].
  cbn [receive_rest]. rewrite (chunk_received _ _ _ _ _ Hd), bool_decide_eq_false_2 by done.
  cbn [ebind]. rewrite Hr. split; [done|]. split; [done|].
  rewrite Hu. cbn [ss_used_ivs advance_session map]. rewrite set_add_fresh by done.
  rewrite (sealed_field_iv _ _ _ _ _ _ Hd). by rewrite <- app_assoc.
Qed.

(** A new session, and the wrapped key its receiver opens it with *)
Lemma sender_session_run public private use_pkcs1v15 mode m ad n :
  key_pair private public -> _normalise_mode mode = inr m ->
  let s := fresh_session (token_bytes n AES_KEY_SIZE) m (as_bytes ad) in
  exists wrapped, sender_session public None use_pkcs1v15 mode ad n = (S (S n), inr (s, Some wrapped)) /\
    forall d, dict_get d "mode" = announced m ->
      receiver_session d private None (Some wrapped) PyNone ad = inr s.
Proof.
  intros Hkp Hm s. set (key := token_bytes n AES_KEY_SIZE) in *.
  assert (Hnew : new_session (PyBytes key) (PyS (mode_name m)) (as_bytes ad) = inr s).
  { unfold new_session, session_post_init. cbn [_ensure_bytes as_bytes ebind].
    by rewrite normalise_name. }
  destruct (session_key_run key private public use_pkcs1v15 (S n)) as (wrapped & Hw & Hu & _);
    [done|by apply token_length|].
  exists wrapped. split.
  - unfold sender_session. rewrite (bind_val _ m), draw_bind by done. fold key.
    rewrite (bind_val _ s) by done. by rewrite (bind_run _ _ _ _ _ Hw).
  - intros d Hd. cbn [receiver_session mode_or]. rewrite Hd.
    replace (_normalise_mode (announced m)) with (inr (A := crypto_error) m) by (by destruct m).
    cbn [ebind]. rewrite Hu. exact Hnew.
Qed.

(** The first chunk opens the same session on both sides. *)
Lemma first_delivered public private use_pkcs1v15 mode m ad chunk n :
  key_pair private public -> _normalise_mode mode = inr m -> check_associated_data ad = inr tt ->
  zlen chunk <= gcm_limit ->
  wp (encrypt_stream_chunk (PyBytes chunk) (PyBytes public) None use_pkcs1v15 mode ad)
    (fun '(d, wrapped, s) _ =>
       decrypt_stream_chunk d (PyBytes private) None wrapped PyNone ad = inr (chunk, s) /\
       session_ok s /\ ss_used_ivs s = [field_bytes d "iv"])
    (fun e _ => e = no_fresh_iv) n.
Proof.
  intros Hkp Hm Had Hc.
  destruct (sender_session_run public private use_pkcs1v15 mode m ad n) as (wrapped & Hsend & Hrecv);
    [done..|].
  set (s := fresh_session _ m (as_bytes ad)) in *.
  assert (Hs : session_ok s) by (by apply fresh_session_ok, token_length).
  unfold encrypt_stream_chunk. apply wp_bind, wp_lift_val; [done|]. intros _ [= <-].
  apply wp_bind, wp_lift_val; [done|]. intros _ [= <-].
  apply wp_bind, wp_lift; [by rewrite Had|]. intros _.
  apply wp_bind. unfold wp at 1. rewrite Hsend.
  apply wp_bind. eapply wp_mono; [apply encrypt_fresh_spec; [apply Hs|done]| |done].
  intros d n1 (iv & Hiv & Hd). unfold wp, ret. rewrite (sealed_field_iv _ _ _ _ _ _ Hd).
  split; [|split; [by apply advance_ok|done]].
  unfold decrypt_stream_chunk. cbn [check_session _ensure_bytes as_bytes ebind]. rewrite Had.
  cbn [ebind]. rewrite (Hrecv d (sealed_mode _ _ _ _ _ _ Hd)). cbn [ebind].
  rewrite (sealed_opens _ _ _ _ _ _ Hd). cbn [ebind]. rewrite (sealed_field_iv _ _ _ _ _ _ Hd).
  by rewrite bool_decide_eq_false_2.
Qed.

(** The whole stream *)
Lemma stream_delivered public private use_pkcs1v15 mode m ad chunk rest n :
  key_pair private public -> _normalise_mode mode = inr m -> check_associated_data ad = inr tt ->
  Forall (fun c => zlen c <= gcm_limit) (chunk :: rest) ->
  wp (send_stream public use_pkcs1v15 mode ad chunk rest)
    (fun '(ds, wrapped, s) _ =>
       receive_stream private wrapped ad ds = inr (chunk :: rest, s) /\ session_ok s /\
       ss_used_ivs s = map (fun d => field_bytes d "iv") ds)
    (fun e _ => e = no_fresh_iv) n.
Proof.
  intros Hkp Hm Had [Hc Hrest]%Forall_cons. unfold send_stream. apply wp_bind.
  eapply wp_mono; [by eapply first_delivered| |done].
  intros [[d wrapped] s] n1 (Hd & Hs & Hu). apply wp_bind.
  eapply wp_mono; [by apply (rest_delivered public private)| |done].
  intros [ds s'] n2 (Hr & Hs' & Hu'). unfold wp, ret. cbn [receive_stream]. rewrite Hd. cbn [ebind].
  rewrite Hr. split; [done|]. split; [done|]. by rewrite Hu', Hu.
Qed.

End streams.
