(* ===== verification/CryptoManager.v ===== *)
(** * Encrypted envelopes

    [src/utils/crypto/crypto_manager.py]: the envelopes a compute node and the
    distributed provider exchange through the relay, and [src/api/v1/encryption.py]:
    those of the API itself.  Both serialise a message, encrypt it with
    [encrypt.py] and carry the pieces as base64 text.

    A manager is the record of its keys.  Performance samples and logging are left
    out; the caches of decoded and of parsed keys do not change what is returned. *)

From S2P Require Import Prelude PyFloat PyStr PyDict Base64 PyText Json JsonText.
From S2P Require Import Encrypt EncryptSound.

(** What callers hand over or get back: a document or a text, bytes, or something
    else.  [None] is [MValue JNull]. *)
Inductive message : Set :=
| MValue (j : json)
| MBytes (b : list byte)
| MOther.

Section manager.
Context `{!Cryptography, !FloatRepr, !PyNumbers}.

(** [s.encode("utf-8")] *)
Definition encoded (s : pystr) : crypto_error + list byte :=
  match utf8_encode s with Some b => inr b | None => inl NotEncodable end.

Definition _coerce_message_bytes (m : message) : crypto_error + list byte :=
  match m with
  | MValue (JDict _ as j) | MValue (JList _ as j) => encoded (json_dumps true j)
  | MValue (JStr s) => encoded s
  | MBytes b => inr b
  | _ => inl (UnsupportedType "message")
  end.

(** [re.sub(r"\s+", "", s)] *)
Definition without_space (s : pystr) : pystr :=
  PyStr (bfilter (fun c => negb (is_py_space c)) (codes s)).

Definition _decode_client_public_key (cleaned_key : pystr) : crypto_error + list byte :=
  match b64decode_strict cleaned_key with
  | inr b => inr b
  | inl _ => inl (CryptoValueError "Invalid base64-encoded public key")
  end.

(** With the [except (binascii.Error, ValueError)] of the caller: the failures of
    decoding and of encoding become its [ValueError]. *)
Definition _normalize_client_public_key (client_public_key : pyval) : crypto_error + list byte :=
  match client_public_key with
  | PyBytes b => inr b
  | PyS s =>
      if py_contains "-----BEGIN" s then
        match encoded s with
        | inr b => inr b
        | inl _ => inl (CryptoValueError "Invalid base64-encoded public key")
        end
      else _decode_client_public_key (without_space s)
  | _ => inl (UnsupportedType "client public key")
  end.

Definition is_PyNone (v : pyval) : bool := match v with PyNone => true | _ => false end.
Definition is_no_message (m : message) : bool := match m with MValue JNull => true | _ => false end.

(** The ciphertext of the dictionary [encrypt] returned *)
Definition ciphertext_of (d : cipher_dict) : list byte := field_bytes d "ciphertext".

Definition envelope (ciphertext cipherkey iv : list byte) : jdict :=
  [("chat_history", JStr (b64encode ciphertext)); ("cipherkey", JStr (b64encode cipherkey));
   ("iv", JStr (b64encode iv))]%pystr.

Definition encrypt_message (m : message) (client_public_key : pyval) : CM jdict :=
  raise_if (is_no_message m) (CryptoValueError "Message cannot be None") ;;;
  raise_if (is_PyNone client_public_key) (CryptoValueError "Client public key cannot be None") ;;;
  let* message_bytes := lift_val (_coerce_message_bytes m) in
  let* key := lift_val (_normalize_client_public_key client_public_key) in
  let* '(encrypted_data, encrypted_key, iv) :=
    encrypt (PyBytes message_bytes) (PyBytes key) true (PyS "CBC") PyNone in
  ret (envelope (ciphertext_of encrypted_data) encrypted_key iv).

(** A dictionary, or the text of one *)
Definition _coerce_encrypted_payload (encrypted_data : message) : option jdict :=
  match encrypted_data with
  | MValue (JStr s) => match json_loads s with Some (JDict d) => Some d | _ => None end
  | MValue (JDict d) => Some d
  | _ => None
  end.

(** [base64.b64decode(payload[k])]; [None] is any of its exceptions. *)
Definition decoded_field (payload : jdict) (k : pystr) : option (list byte) :=
  match jget payload k with
  | JStr s => match b64decode s with inr b => Some b | inl _ => None end
  | _ => None
  end.

(** The ciphertext's dictionary and the wrapped key *)
Definition _deserialize_encrypted_payload (payload : jdict) : option (cipher_dict * list byte) :=
  if existsb (fun k => negb (truthy (jget payload k))) ["chat_history"; "cipherkey"; "iv"]%pystr
  then None
  else
    iv ← decoded_field payload "iv";
    ciphertext ← decoded_field payload "chat_history";
    cipherkey ← decoded_field payload "cipherkey";
    Some ([("ciphertext", PyBytes ciphertext); ("iv", PyBytes iv)]%pystr, cipherkey).

(** What decrypted bytes are taken for: a document, else text, else bytes *)
Definition parsed_message (decrypted : list byte) : message :=
  match utf8_decode decrypted with
  | None => MBytes decrypted
  | Some text => MValue (default (JStr text) (json_loads text))
  end.

(** Whatever goes wrong, the result is [None]. *)
Definition decrypt_message (private_key : list byte) (encrypted_data : message) : message :=
  default (MValue JNull)
    (payload ← _coerce_encrypted_payload encrypted_data;
     '(ciphertext_dict, cipherkey) ← _deserialize_encrypted_payload payload;
     match decrypt (PyDict ciphertext_dict) (PyBytes cipherkey) (PyBytes private_key) PyNone PyNone with
     | inr (Some decrypted) => Some (parsed_message decrypted)
     | _ => None
     end).

(** ** The keys of a manager *)
Record CryptoKeys : Set := MkCryptoKeys {
  ck_private_key : list byte;
  ck_public_key : list byte;
  ck_public_key_b64 : pystr
}.

(** A failure leaves the keys of the manager as they were. *)
Definition initialize_keys : CM CryptoKeys := fun n =>
  match generate_keys n with
  | (n', inr (private, public)) => (n', inr (MkCryptoKeys private public (b64encode public)))
  | (n', inl _) => (n', inl (CryptoRuntimeError "Failed to initialize cryptography keys"))
  end.

(** ** The manager of the API *)

(** Its constructor and [rotate_keys] *)
Definition api_rotate_keys : CM CryptoKeys :=
  let* '(private, public) := generate_keys in
  ret (MkCryptoKeys private public (b64encode public)).

(** [except Exception: return None] *)
Definition or_none {A} (m : CM A) : CM (option A) := fun n =>
  match m n with
  | (n', inr a) => (n', inr (Some a))
  | (n', inl _) => (n', inr None)
  end.

Definition api_envelope (ciphertext cipherkey iv : list byte) : jdict :=
  [("encrypted", JBool true); ("ciphertext", JStr (b64encode ciphertext));
   ("cipherkey", JStr (b64encode cipherkey)); ("iv", JStr (b64encode iv))]%pystr.

(** [isinstance(client_public_key, str)]: base64 text is decoded, anything else is
    given to [encrypt] as it is. *)
Definition decoded_public_key (client_public_key : pyval) : crypto_error + pyval :=
  match client_public_key with
  | PyS s => match b64decode s with
             | inr b => inr (PyBytes b)
             | inl _ => inl (Failure "binascii.Error")
             end
  | _ => inr client_public_key
  end.

Definition api_encrypt_message (data : jdict) (client_public_key : pyval) : CM (option jdict) :=
  or_none
    (let* json_data := lift_val (encoded (json_dumps true (JDict data))) in
     let* key := lift_val (decoded_public_key client_public_key) in
     let* '(ciphertext_dict, cipherkey, iv) :=
       encrypt (PyBytes json_data) key true (PyS "CBC") PyNone in
     ret (api_envelope (ciphertext_of ciphertext_dict) cipherkey iv)).

Definition api_decrypt_message (private_key : list byte) (ciphertext_dict : cipher_dict)
  (cipherkey : list byte) : option (list byte) :=
  match decrypt (PyDict ciphertext_dict) (PyBytes cipherkey) (PyBytes private_key) PyNone PyNone with
  | inr r => r
  | inl _ => None
  end.

End manager.

(** * Envelopes are opened by the key they were sealed for *)

(** [isinstance(j, list)] *)
Definition isinstance_list (j : json) : bool := match j with JList _ => true | _ => false end.

(** ** Base64 text as a key and as a field *)

Lemma b64_without_space l : without_space (b64encode l) = b64encode l.
Proof.
  unfold without_space, b64encode. cbn [codes]. f_equal.
  assert (Hs : forallb (fun c => negb (is_py_space c)) (b64_codes l) = true)
    by (apply b64_codes_all; vm_compute; reflexivity).
  unfold bfilter. rewrite forallb_forall in Hs. induction (b64_codes l) as [|c r IH]; [done|].
  cbn [List.filter]. rewrite Hs by (by left). f_equal. apply IH. intros x Hx. apply Hs. by right.
Qed.

Lemma b64_no_marker l : py_contains "-----BEGIN" (b64encode l) = false.
Proof.
  apply not_true_iff_false. rewrite py_contains_infix. intros (p & q & Heq).
  assert (Hd : forallb (fun c => negb (N.eqb c 45)) (b64_codes l) = true)
    by (apply b64_codes_all; vm_compute; reflexivity).
  unfold b64encode in Heq. cbn [codes] in Heq. rewrite Heq in Hd.
  rewrite !forallb_app in Hd. cbn in Hd. by rewrite andb_false_r in Hd.
Qed.

Lemma b64_key l : _normalize_client_public_key (PyS (b64encode l)) = inr l.
Proof.
  unfold _normalize_client_public_key. rewrite b64_no_marker, b64_without_space.
  unfold _decode_client_public_key. by rewrite b64_roundtrip.
Qed.

Lemma b64_nonempty l : l <> [] -> py_empty (b64encode l) = false.
Proof. by destruct l as [|a [|b [|c l]]]. Qed.

Lemma b64_unicode l : unicode_text (b64encode l).
Proof.
  apply Forall_forall. intros c Hc%list_elem_of_In.
  pose proof (b64_codes_ascii l) as Ha. rewrite forallb_forall in Ha. apply Ha, N.ltb_lt in Hc.
  unfold scalar_code, high_surrogate, low_surrogate. lia.
Qed.

(** ** Opening an envelope *)
Section sound.
Context `{!Cryptography, !CryptographyLaws, !FloatRepr, !PyNumbers}.
#[local] Set Default Proof Using "All".

(** The pieces of a message encrypted as both managers and the client do *)
Lemma cbc_run use_pkcs1v15 plaintext private public n :
  key_pair private public -> zlen plaintext <= gcm_limit ->
  exists ciphertext wrapped iv,
    let d := [("ciphertext", PyBytes ciphertext); ("iv", PyBytes iv)]%pystr in
    encrypt (PyBytes plaintext) (PyBytes public) use_pkcs1v15 (PyS "CBC") PyNone n
      = (S (S (S n)), inr (d, wrapped, iv)) /\
    decrypt (PyDict d) (PyBytes wrapped) (PyBytes private) PyNone PyNone = inr (Some plaintext) /\
    ciphertext <> [] /\ wrapped <> [] /\ iv <> [].
Proof.
  intros Hkp Hp.
  destruct (encrypt_run plaintext private public use_pkcs1v15 (PyS "CBC") CBC PyNone n)
    as (d & wrapped & iv & He & Hd & Hu & Hw & Hiv); [done..|].
  destruct (sealed_cbc _ _ _ _ _ _ Hd eq_refl) as (c & Hc & ->).
  exists c, wrapped, iv. cbv zeta. split; [done|]. split; [by eapply decrypt_run|].
  split; [done|]. split; [done|]. intros ->.
  pose proof (token_length (S n) IV_SIZE ltac:(done)) as Hlen. cbn [iv_size] in Hiv.
  rewrite <- Hiv, zlen_nil in Hlen. done.
Qed.

Lemma field_decoded payload k b : jget payload k = JStr (b64encode b) -> decoded_field payload k = Some b.
Proof. intros Hk. unfold decoded_field. by rewrite Hk, b64_lenient_roundtrip. Qed.

Lemma envelope_deserialized c w iv :
  c <> [] -> w <> [] -> iv <> [] ->
  _deserialize_encrypted_payload (envelope c w iv)
    = Some ([("ciphertext", PyBytes c); ("iv", PyBytes iv)]%pystr, w).
Proof.
  intros Hc Hw Hiv. unfold _deserialize_encrypted_payload.
  change (existsb _ _) with (negb (truthy (JStr (b64encode c))) ||
    (negb (truthy (JStr (b64encode w))) || (negb (truthy (JStr (b64encode iv))) || false))).
  cbn [truthy]. rewrite !b64_nonempty by done. cbn [negb orb].
  rewrite (field_decoded (envelope c w iv) "iv" iv) by done.
  rewrite (field_decoded (envelope c w iv) "chat_history" c) by done.
  by rewrite (field_decoded (envelope c w iv) "cipherkey" w).
Qed.

(** The envelope as a document *)
Lemma envelope_ok c w iv : document_ok (JDict (envelope c w iv)).
Proof.
  apply ok_dict; [apply (bool_decide_unpack _); vm_compute; exact I|].
  repeat (apply Forall_cons; split; [split; [by apply unicode_text_check|apply ok_str, b64_unicode]|]).
  by apply Forall_nil.
Qed.

(** A message sealed for a key is opened by its private half, whether the envelope
    arrives as a dictionary or as its JSON text. *)
Lemma envelope_opens m bytes private public n :
  key_pair private public -> _coerce_message_bytes m = inr bytes -> zlen bytes <= gcm_limit ->
  exists env, encrypt_message m (PyS (b64encode public)) n = (S (S (S n)), inr env) /\
    decrypt_message private (MValue (JDict env)) = parsed_message bytes /\
    decrypt_message private (MValue (JStr (json_dumps true (JDict env)))) = parsed_message bytes.
Proof.
  intros Hkp Hm Hlen.
  destruct (cbc_run true bytes private public n Hkp Hlen) as (c & w & iv & He & Hd & Hc & Hw & Hiv).
  cbv zeta in *. exists (envelope c w iv).
  assert (Hopen : forall payload, _coerce_encrypted_payload payload = Some (envelope c w iv) ->
    decrypt_message private payload = parsed_message bytes).
  { intros payload Hpl. unfold decrypt_message. rewrite Hpl. cbn [mbind option_bind].
    rewrite envelope_deserialized by done. cbn [mbind option_bind]. by rewrite Hd. }
  split; [|split; [by apply Hopen|apply Hopen; unfold _coerce_encrypted_payload;
    by rewrite json_round_trip by apply envelope_ok]].
  unfold encrypt_message. rewrite bind_pass; [|by destruct m as [[]| |]]. rewrite bind_pass by done.
  rewrite (bind_val _ _ _ _ Hm), (bind_val _ _ _ _ (b64_key public)).
  by rewrite (bind_run _ _ _ _ _ He).
Qed.

(** What the receiver takes the bytes for *)
Lemma document_parsed j bytes :
  document_ok j -> is_JDict j = true \/ isinstance_list j = true ->
  _coerce_message_bytes (MValue j) = inr bytes -> parsed_message bytes = MValue j.
Proof.
  intros Hj Ht Hm. unfold parsed_message.
  assert (Hb : utf8_encode (json_dumps true j) = Some bytes).
  { destruct j; try (by destruct Ht); cbn [_coerce_message_bytes encoded] in Hm;
      unfold encoded in Hm; destruct (utf8_encode _); by simplify_eq. }
  rewrite (utf8_round_trip _ _ Hb). by rewrite json_round_trip.
Qed.

Lemma text_parsed s bytes :
  _coerce_message_bytes (MValue (JStr s)) = inr bytes ->
  parsed_message bytes = MValue (default (JStr s) (json_loads s)).
Proof.
  cbn [_coerce_message_bytes]. unfold encoded, parsed_message.
  destruct (utf8_encode s) as [b|] eqn:Es; [|done]. intros [= <-]. by rewrite (utf8_round_trip _ _ Es).
Qed.

(** The API's own envelopes: the route decodes the three fields and decrypts. *)
Lemma api_envelope_opens data bytes private public n :
  key_pair private public -> utf8_encode (json_dumps true (JDict data)) = Some bytes ->
  zlen bytes <= gcm_limit ->
  exists c w iv,
    api_encrypt_message data (PyS (b64encode public)) n
      = (S (S (S n)), inr (Some (api_envelope c w iv))) /\
    api_decrypt_message private [("ciphertext", PyBytes c); ("iv", PyBytes iv)]%pystr w = Some bytes.
Proof.
  intros Hkp Hb Hlen.
  destruct (cbc_run true bytes private public n Hkp Hlen) as (c & w & iv & He & Hd & _).
  cbv zeta in *. exists c, w, iv. split.
  - unfold api_encrypt_message, or_none, encoded. rewrite Hb.
    rewrite bind_val with (a := bytes) by done. cbn [decoded_public_key].
    rewrite b64_lenient_roundtrip, (bind_val _ (PyBytes public)) by done.
    by rewrite (bind_run _ _ _ _ _ He).
  - unfold api_decrypt_message. by rewrite Hd.
Qed.

End sound.
