(* ===== verification/EncryptContract.v ===== *)
(** * What encryption guarantees

    Messages, envelopes and streams come back as they were sent; padding is exact;
    a replayed chunk is refused. *)

From S2P Require Import Prelude PyFloat PyStr PyDict PyText Json JsonText Base64.
From S2P Require Import Encrypt EncryptSound CryptoManager.
From Stdlib Require Import Floats.SpecFloat.

(** PKCS#7 unpadding accepts exactly the padded byte strings: it returns [data]
    for [padded] when, and only when, padding [data] gives [padded], for every block
    size, valid or not. *)
Theorem unpadding_inverts_padding data padded block_size :
  pkcs7_pad (PyBytes data) block_size = inr padded <->
  pkcs7_unpad (PyBytes padded) block_size = inr data.
Proof. apply padding_exact. Qed.

Section contract.
Context `{!Cryptography}.

(** A receiver accepts no vector twice: once a session has used the vector of a
    chunk, no chunk with that vector is decrypted in that session. *)
Theorem replayed_chunk_is_refused d private s wrapped mode ad result :
  field_bytes d "iv" ∈ ss_used_ivs s ->
  decrypt_stream_chunk d private (Some (IsInst s)) wrapped mode ad <> inr result.
Proof.
  intros Hiv. unfold decrypt_stream_chunk. cbn [check_session ebind].
  rewrite !ebind_inr. intros (pem & _ & Hrun). apply ebind_inr in Hrun as ([] & _ & Hrun).
  apply ebind_inr in Hrun as (s1 & Hs & Hrun). apply ebind_inr in Hrun as (plaintext & _ & Hrun).
  cbn [receiver_session] in Hs. apply ebind_inr in Hs as ([] & _ & Hs).
  destruct wrapped; [done|]. injection Hs as <-. by rewrite bool_decide_eq_true_2 in Hrun.
Qed.

Context `{!CryptographyLaws}.
#[local] Set Default Proof Using "Type*".

(** A message encrypted for a public key is decrypted by its private key, in
    either mode, with either RSA padding and with any associated data. *)
Theorem encryption_round_trip plaintext private public use_pkcs1v15 mode m ad n :
  key_pair private public -> _normalise_mode mode = inr m -> check_associated_data ad = inr tt ->
  zlen plaintext <= gcm_limit ->
  exists n' d wrapped iv,
    encrypt (PyBytes plaintext) (PyBytes public) use_pkcs1v15 mode ad n = (n', inr (d, wrapped, iv)) /\
    decrypt (PyDict d) (PyBytes wrapped) (PyBytes private) PyNone ad = inr (Some plaintext).
Proof.
  intros Hkp Hm Had Hp.
  destruct (encrypt_run plaintext private public use_pkcs1v15 mode m ad n)
    as (d & wrapped & iv & He & Hd & Hu & _); [done..|].
  eexists _, d, wrapped, iv. split; [exact He|]. by eapply decrypt_run.
Qed.

(** C39: A stream is delivered: sending either stops because five vectors in a row
    were used before, or the receiver, given the wrapped key, recovers every chunk in
    order and ends in the sender's session, whose vectors are distinct and as many as
    the chunks. *)
Theorem stream_is_delivered public private use_pkcs1v15 mode m ad chunk rest n :
  key_pair private public -> _normalise_mode mode = inr m -> check_associated_data ad = inr tt ->
  Forall (fun c => zlen c <= gcm_limit) (chunk :: rest) ->
  wp (send_stream public use_pkcs1v15 mode ad chunk rest)
    (fun '(ds, wrapped, s) _ =>
       receive_stream private wrapped ad ds = inr (chunk :: rest, s) /\
       NoDup (map (fun d => field_bytes d "iv") ds) /\ ss_chunk_index s = zlen ds)
    (fun e _ => e = no_fresh_iv) n.
Proof.
  intros Hkp Hm Had Hall. eapply wp_mono; [by apply (stream_delivered public private _ _ m)| |done].
  intros [[ds wrapped] s] n' (Hr & [_ Hd Hc _] & Hu). rewrite Hu in Hd, Hc. rewrite zlen_map in Hc. done.
Qed.

Context `{!FloatRepr, !PyNumbers}.
#[local] Set Default Proof Using "All".

(** C40: A document or a list sealed for a compute node's key is opened as the same
    document, whether the envelope arrives as a dictionary or as JSON text. *)
Theorem envelope_round_trip j bytes private public n :
  key_pair private public -> document_ok j -> is_JDict j = true \/ isinstance_list j = true ->
  _coerce_message_bytes (MValue j) = inr bytes -> zlen bytes <= gcm_limit ->
  exists n' env, encrypt_message (MValue j) (PyS (b64encode public)) n = (n', inr env) /\
    decrypt_message private (MValue (JDict env)) = MValue j /\
    decrypt_message private (MValue (JStr (json_dumps true (JDict env)))) = MValue j.
Proof.
  intros Hkp Hj Ht Hm Hlen.
  destruct (envelope_opens (MValue j) bytes private public n) as (env & He & Hd & Ht2); [done..|].
  rewrite (document_parsed j bytes) in Hd, Ht2 by done. by eexists _, env.
Qed.

(** A text sealed for a key comes back as what its characters parse to: as
    itself only when it is not JSON. *)
Theorem text_message_is_reparsed s bytes private public n :
  key_pair private public -> utf8_encode s = Some bytes -> zlen bytes <= gcm_limit ->
  exists n' env, encrypt_message (MValue (JStr s)) (PyS (b64encode public)) n = (n', inr env) /\
    decrypt_message private (MValue (JDict env)) = MValue (default (JStr s) (json_loads s)).
Proof.
  intros Hkp Hs Hlen.
  assert (Hm : _coerce_message_bytes (MValue (JStr s)) = inr bytes).
  { cbn [_coerce_message_bytes]. unfold encoded. by rewrite Hs. }
  destruct (envelope_opens (MValue (JStr s)) bytes private public n) as (env & He & Hd & _); [done..|].
  rewrite (text_parsed s bytes) in Hd by done. by eexists _, env.
Qed.

End contract.

(** JSON text read back: a document printed as ASCII JSON is read as the same
    document, nested to any depth. *)
Theorem json_text_round_trip `{!FloatRepr, !PyNumbers} j :
  document_ok j -> json_loads (json_dumps true j) = Some j.
Proof. apply json_round_trip. Qed.

(** ** The theorems at concrete messages *)

(** One float, one half, with its representation *)
Definition one_half : float64 := S754_finite false 4503599627370496 (-53).

#[local] Instance half_repr : FloatRepr := fun _ => "0.5"%pystr.
#[local] Instance half_numbers : PyNumbers := {
  parse_float s := if bool_decide (s = "0.5"%pystr) then Some one_half else None;
  parse_int _ := None
}.

Definition hello : list byte := [Byte.x68; Byte.x65; Byte.x6c; Byte.x6c; Byte.x6f].

(** A chat request with a float option, a nested list and a character past the basic
    plane *)
Definition chat_document : json :=
  JDict [("messages", JList [JDict [("role", JStr "user"); ("content", JStr (PyStr [128075%N; 34%N]))]]);
         ("options", JDict [("temperature", JFloat one_half); ("max_tokens", JInt (-12))]);
         ("stream", JBool false); ("seed", JNull)]%pystr.

Lemma chat_document_ok : document_ok chat_document.
Proof.
  repeat first
    [ apply ok_dict; [apply (bool_decide_unpack _); vm_compute; exact I|]
    | apply ok_list | apply ok_float; reflexivity | apply ok_str; by apply unicode_text_check
    | constructor; [split; [by apply unicode_text_check|]|] | constructor ].
Qed.

Lemma encryption_round_trip_witness :
  exists n' d wrapped iv,
    encrypt (PyBytes hello) (PyBytes toy_public) false (PyS "gcm") (PyBytes [Byte.x01]) 7%nat
      = (n', inr (d, wrapped, iv)) /\
    decrypt (PyDict d) (PyBytes wrapped) (PyBytes toy_private) PyNone (PyBytes [Byte.x01])
      = inr (Some hello).
Proof.
  exact (encryption_round_trip hello toy_private toy_public false (PyS "gcm") GCM (PyBytes [Byte.x01]) 7%nat
    toy_pair eq_refl eq_refl ltac:(vm_compute; discriminate)).
Defined.

Lemma stream_is_delivered_witness :
  (exists ds wrapped s n', send_stream toy_public true PyNone PyNone hello [[]; hello] 7%nat
     = (n', inr (ds, wrapped, s)) /\ length ds = 3%nat) /\
  wp (send_stream toy_public true PyNone PyNone hello [[]; hello])
    (fun '(ds, wrapped, s) _ =>
       receive_stream toy_private wrapped PyNone ds = inr ([hello; []; hello], s) /\
       NoDup (map (fun d => field_bytes d "iv") ds) /\ ss_chunk_index s = zlen ds)
    (fun e _ => e = no_fresh_iv) 7%nat.
Proof.
  split; [eexists _, _, _, _; split; [vm_compute; reflexivity|reflexivity]|].
  apply (stream_is_delivered toy_public toy_private true PyNone CBC PyNone hello [[]; hello] 7%nat toy_pair);
    [reflexivity..|]. repeat constructor; vm_compute; discriminate.
Defined.

Definition used_session : StreamSession :=
  advance_session hello (fresh_session (repeat Byte.x00 32) CBC None).

Lemma replayed_chunk_is_refused_witness :
  decrypt_stream_chunk [("ciphertext", PyBytes (repeat Byte.x10 16)); ("iv", PyBytes hello)]%pystr
    (PyBytes toy_private) (Some (IsInst used_session)) None PyNone PyNone <> inr ([], used_session).
Proof.
  apply (replayed_chunk_is_refused
    [("ciphertext", PyBytes (repeat Byte.x10 16)); ("iv", PyBytes hello)]%pystr).
  vm_compute. left.
Defined.

Definition bytes_of (m : message) : list byte :=
  match _coerce_message_bytes m with inr b => b | inl _ => [] end.

Lemma envelope_round_trip_witness :
  exists n' env, encrypt_message (MValue chat_document) (PyS (b64encode toy_public)) 7%nat = (n', inr env) /\
    decrypt_message toy_private (MValue (JDict env)) = MValue chat_document /\
    decrypt_message toy_private (MValue (JStr (json_dumps true (JDict env)))) = MValue chat_document.
Proof.
  apply (envelope_round_trip chat_document (bytes_of (MValue chat_document)) toy_private toy_public 7%nat).
  - exact toy_pair.
  - exact chat_document_ok.
  - left. reflexivity.
  - vm_compute. reflexivity.
  - vm_compute. discriminate.
Defined.

Lemma text_message_is_reparsed_witness :
  exists n' env, encrypt_message (MValue (JStr "42")) (PyS (b64encode toy_public)) 7%nat = (n', inr env) /\
    decrypt_message toy_private (MValue (JDict env)) = MValue (JInt 42).
Proof.
  exact (text_message_is_reparsed "42" [Byte.x34; Byte.x32] toy_private toy_public 7%nat toy_pair
    eq_refl ltac:(vm_compute; discriminate)).
Defined.

Lemma json_text_round_trip_witness :
  json_loads (json_dumps true chat_document) = Some chat_document.
Proof. apply (json_text_round_trip chat_document). exact chat_document_ok. Defined.
