(* ===== verification/Validation.v ===== *)
(** * api/v1/validation.py: request validation

    Every validator of [src/api/v1/validation.py] as a function to
    [request_error + result].  A [ValidationError] carries the message, the
    field and the code that the routes put into the error response; the other
    constructor is the [TypeError] Python raises when a list or a dictionary is
    tested for membership in a set literal.  [validate_json_string] is not here:
    no route calls it. *)

From S2P Require Import Prelude PyFloat PyStr PyDict PyText Json Base64.

Record validation_error : Set := mkValidationError {
  message : pystr;
  field : option pystr;
  code : pystr
}.

(** [ValidationError(message, field=None, code="invalid_request_error")] *)
Definition ValidationError (message : pystr) (field : option pystr) : validation_error :=
  mkValidationError message field "invalid_request_error".

Inductive request_error : Set :=
| Invalid (e : validation_error)
| TypeError (msg : pystr).

Definition invalid (message : pystr) (field : pystr) : request_error :=
  Invalid (ValidationError message (Some field)).

(** The [expected_type] arguments in use *)
Inductive pytype : Set := TStr | TInt | TList | TDict.

(** [t.__name__] *)
Definition type_name (t : pytype) : pystr :=
  match t with TStr => "str" | TInt => "int" | TList => "list" | TDict => "dict" end.

(** [isinstance(j, t)]; a [bool] is an [int]. *)
Definition isinstance (j : json) (t : pytype) : bool :=
  match t, j with
  | TStr, JStr _ => true
  | TInt, (JInt _ | JBool _) => true
  | TList, JList _ => true
  | TDict, JDict _ => true
  | _, _ => false
  end.

(** The value of an [int], [True] and [False] being 1 and 0 *)
Definition int_value (j : json) : option Z :=
  match j with
  | JInt z => Some z
  | JBool b => Some (if b then 1 else 0)
  | _ => None
  end.

Definition validate_required_fields (data : jdict) (required_fields : list pystr) :
  request_error + unit :=
  efor_each required_fields (fun field =>
    eraise_if (negb (dmem data field))
      (invalid ("Missing required parameter: " +++ field) field)).

Definition validate_field_type (data : jdict) (field : pystr) (expected_type : pytype)
  (allow_none : bool) : request_error + unit :=
  match dget data field with
  | None => inr tt
  | Some value =>
      if is_JNull value && allow_none then inr tt
      else eraise_if (negb (isinstance value expected_type))
             (invalid ("Invalid type for " +++ field +++ ": expected " +++ type_name expected_type)
                      field)
  end.

Definition validate_string_length (data : jdict) (field : pystr)
  (min_length max_length : option Z) : request_error + unit :=
  match dget data field with
  | Some (JStr value) =>
      let length := py_len value in
      let? _ := match min_length with
                | Some m => eraise_if (length <? m)
                    (invalid (field +++ " must be at least " +++ py_str_int m +++ " characters") field)
                | None => inr tt
                end in
      match max_length with
      | Some m => eraise_if (m <? length)
          (invalid (field +++ " must be at most " +++ py_str_int m +++ " characters") field)
      | None => inr tt
      end
  | _ => inr tt
  end.

(** Every failure of the decoder is the same [ValidationError]. *)
Definition validate_base64 (data : jdict) (field : pystr) : request_error + unit :=
  match dget data field with
  | Some (JStr value) =>
      match b64decode_strict value with
      | inr _ => inr tt
      | inl _ => inl (invalid ("Invalid base64 encoding for " +++ field) field)
      end
  | _ => inr tt
  end.

(** ** Image dimensions *)
Definition _DIMENSION_RANGE : Z * Z := (32, 1024).

Definition _ensure_dimension (value : json) (field : pystr) : request_error + Z :=
  match int_value value with
  | None => inl (invalid (field +++ " must be an integer") field)
  | Some z =>
      let '(low, high) := _DIMENSION_RANGE in
      if (z <? low) || (high <? z) then
        inl (invalid (field +++ " must be between " +++ py_str_int low +++ " and "
                      +++ py_str_int high +++ " pixels") field)
      else inr z
  end.

(** The maximal run of decimal digits at the head; a digit is never the letter
    that follows the run, so the pattern cannot give back any of it. *)
Fixpoint digit_run `{!PyDigits} (l : list N) : list Z * list N :=
  match l with
  | [] => ([], [])
  | c :: l' =>
      match py_digit c with
      | Some d => let '(ds, r) := digit_run l' in (d :: ds, r)
      | None => ([], l)
      end
  end.

(** [\d{2,4}] *)
Definition two_to_four (ds : list Z) : bool := (2 <=? zlen ds) && (zlen ds <=? 4).

(** [int(s)] of decimal digits *)
Definition digits_value (ds : list Z) : Z := fold_left (fun acc d => 10 * acc + d) ds 0.

(** [_SIZE_PATTERN.match(s)]: the width and height groups.  [$] also matches
    before a newline that ends the string. *)
Definition _SIZE_PATTERN `{!PyDigits} (s : pystr) : option (list Z * list Z) :=
  let '(w, r) := digit_run (codes s) in
  match r with
  | 120%N :: r' =>
      let '(h, e) := digit_run r' in
      if two_to_four w && two_to_four h && (bool_decide (e = []) || bool_decide (e = [newline]))
      then Some (w, h) else None
  | _ => None
  end.

Section validators.
Context `{!PyUnicode, !PyDigits, !FloatRepr}.

Definition _parse_size_field (size_value : json) : request_error + (Z * Z) :=
  match size_value with
  | JStr size =>
      match _SIZE_PATTERN (py_lower (py_strip size)) with
      | None => inl (invalid "size must follow the WIDTHxHEIGHT format" "size")
      | Some (w, h) =>
          let? width := _ensure_dimension (JInt (digits_value w)) "size" in
          let? height := _ensure_dimension (JInt (digits_value h)) "size" in
          inr (width, height)
      end
  | _ => inl (invalid "size must be a string formatted as WIDTHxHEIGHT" "size")
  end.

Definition _derive_dimensions (payload : jdict) : request_error + (Z * Z) :=
  if dmem payload "size" && negb (is_JNull (jget payload "size")) then
    _parse_size_field (jget payload "size")
  else
    let width := jget payload "width" in
    let height := jget payload "height" in
    if is_JNull width && is_JNull height then inr (512, 512)
    else if is_JNull width then
      inl (invalid "Missing required parameter: width" "width")
    else if is_JNull height then
      inl (invalid "Missing required parameter: height" "height")
    else
      let? width := _ensure_dimension width "width" in
      let? height := _ensure_dimension height "height" in
      inr (width, height).

(** The normalised payload; [seed] is [None] or an [int]. *)
Record image_payload : Set := mkImage {
  prompt : pystr;
  seed : json;
  width : Z;
  height : Z
}.

Definition validate_image_generation_payload (data : json) : request_error + image_payload :=
  match data with
  | JDict data =>
      let? _ := validate_required_fields data ["prompt"%pystr] in
      let? _ := validate_field_type data "prompt" TStr false in
      let prompt := py_strip (str_value (jget data "prompt")) in
      if py_empty prompt then inl (invalid "prompt must be a non-empty string" "prompt")
      else
        let? _ := validate_field_type data "seed" TInt true in
        let seed := jget data "seed" in
        let? _ := match int_value seed with
                  | Some z => eraise_if (z <? 0)
                                (invalid "seed must be a non-negative integer" "seed")
                  | None => inr tt
                  end in
        let? '(width, height) := _derive_dimensions data in
        inr (mkImage prompt seed width height)
  | _ => inl (Invalid (ValidationError "Invalid request body: expected a JSON object" None))
  end.

(** ** Chat messages *)
Definition chat_roles : list pystr := ["system"; "user"; "assistant"; "function"]%pystr.
Definition image_types : list pystr := ["image_url"; "input_image"; "image"]%pystr.

(** [x in {...}], which hashes [x] first *)
Definition hash_value (j : json) : request_error + scalar :=
  match hashable j with
  | Some x => inr x
  | None => inl (TypeError (unhashable_text j))
  end.

(** The body of the loop over the blocks of one message *)
Definition validate_content_block (i j : Z) (item : json) : request_error + unit :=
  let place := "messages[" +++ py_str_int i +++ "].content[" +++ py_str_int j +++ "]" in
  match item with
  | JDict item =>
      let? item_type := hash_value (jget item "type") in
      if scalar_in item_type text_types then
        eraise_if (negb (is_nonempty_str (jget item "text")))
          (invalid (place +++ ".text must be a non-empty string") "messages")
      else if scalar_in item_type image_types then
        inl (invalid "API v1 chat completions are text-only and do not support image content"
                     "messages")
      else
        inl (invalid ("Unsupported content type in messages[" +++ py_str_int i +++ "]: "
                      +++ scalar_text item_type) "messages")
  | _ => inl (invalid (place +++ " must be an object") "messages")
  end.

(** The body of the loop over the messages *)
Definition validate_chat_message (i : Z) (message : json) : request_error + unit :=
  let place := "messages[" +++ py_str_int i +++ "]" in
  match message with
  | JDict message =>
      let? _ := validate_required_fields message ["role"; "content"]%pystr in
      let? _ := validate_field_type message "role" TStr false in
      let role := str_value (jget message "role") in
      if negb (pystr_in role chat_roles) then
        inl (invalid ("Invalid role in " +++ place +++ ": " +++ role) "messages")
      else
        match jget message "content" with
        | JStr _ => inr tt
        | JList [] =>
            inl (invalid (place +++ ".content must contain at least one item") "messages")
        | JList content =>
            efor_each (py_enumerate content) (fun '(j, item) => validate_content_block i j item)
        | _ =>
            inl (invalid (place +++ ".content must be a string or array of text content blocks")
                         "messages")
        end
  | _ => inl (invalid (place +++ " must be an object") "messages")
  end.

Definition validate_chat_messages (messages : json) : request_error + unit :=
  match messages with
  | JList [] => inl (invalid "messages must contain at least one item" "messages")
  | JList messages =>
      efor_each (py_enumerate messages) (fun '(i, message) => validate_chat_message i message)
  | _ => inl (invalid "messages must be an array" "messages")
  end.

(** ** Encrypted requests and model names *)
Definition envelope_fields : list pystr := ["ciphertext"; "cipherkey"; "iv"]%pystr.

Definition validate_encrypted_request (data : jdict) : request_error + unit :=
  let? _ := validate_required_fields data ["client_public_key"; "messages"]%pystr in
  let? _ := validate_field_type data "client_public_key" TStr false in
  match jget data "messages" with
  | JDict messages =>
      let? _ := validate_required_fields messages envelope_fields in
      efor_each envelope_fields (fun field =>
        if dmem messages field then validate_base64 messages field else inr tt)
  | _ => inl (invalid "messages must be an object for encrypted requests" "messages")
  end.

Definition validate_model_name (model_name : pystr) (available_models : list pystr) :
  request_error + unit :=
  if pystr_in model_name available_models then inr tt
  else inl (Invalid (mkValidationError ("Model '" +++ model_name +++ "' not found")
                       (Some "model"%pystr) "model_not_found")).

End validators.

(** ** What the validators let through *)

Definition chat_message_ok (message : json) : Prop :=
  exists d role, message = JDict d /\ dget d "role" = Some (JStr role) /\ role ∈ chat_roles /\
    content_ok (jget d "content").

Definition chat_messages_ok (messages : json) : Prop :=
  exists l, messages = JList l /\ l ≠ [] /\ Forall chat_message_ok l.

Section lemmas.
Context `{!PyUnicode, !PyDigits, !FloatRepr}.

Lemma required_fields_inr d l :
  validate_required_fields d l = inr tt <-> forall k, k ∈ l -> dmem d k = true.
Proof.
  unfold validate_required_fields. rewrite efor_each_inr. split; intros Hall k Hk.
  - apply negb_false_iff. eapply eraise_if_inr. by apply Hall.
  - rewrite Hall by done. done.
Qed.

Lemma required_fields_inl d l e :
  validate_required_fields d l = inl e -> exists v, e = Invalid v.
Proof.
  intros (k & _ & Hk)%efor_each_inl. destruct (negb (dmem d k)); [|done].
  injection Hk as <-. by eexists.
Qed.

Lemma field_type_inr d k t none j :
  dget d k = Some j -> is_JNull j && none = false ->
  validate_field_type d k t none = inr tt <-> isinstance j t = true.
Proof.
  intros Hj Hn. unfold validate_field_type. rewrite Hj, Hn, eraise_if_inr.
  by rewrite negb_false_iff.
Qed.

Lemma field_type_inl d k t none e :
  validate_field_type d k t none = inl e -> exists v, e = Invalid v.
Proof.
  unfold validate_field_type. destruct (dget d k) as [j|]; [|done].
  destruct (is_JNull j && none); [done|]. destruct (isinstance j t); simpl; [done|].
  intros [= <-]. by eexists.
Qed.

Lemma isinstance_str j : isinstance j TStr = true <-> exists s, j = JStr s.
Proof. destruct j; simpl; split; try done; try (by intros [? ?]). by eexists. Qed.

Lemma nonempty_str_inv j : is_nonempty_str j = true <-> exists t, j = JStr t /\ py_empty t = false.
Proof.
  destruct j; simpl; try (split; [done|by intros (? & ? & _)]).
  rewrite negb_true_iff. split; [eauto|by intros (? & [= ->] & ?)].
Qed.

(** A block passes exactly when it is a text block. *)
Lemma content_block_inr i j item : validate_content_block i j item = inr tt <-> text_block item.
Proof.
  unfold validate_content_block. destruct item as [| | | | | |d];
    try (split; [done|by intros (? & ? & ? & ? & _)]).
  unfold hash_value. destruct (hashable (jget d "type")) as [x|] eqn:Hh; simpl.
  - destruct (scalar_in x text_types) eqn:Hx.
    + rewrite eraise_if_inr, negb_false_iff, nonempty_str_inv.
      apply scalar_in_str in Hx as (ty & -> & Hty). apply hashable_str in Hh. split.
      * intros (t & Ht & Hne). by exists d, ty, t.
      * intros (d' & ty' & t & [= <-] & _ & _ & Ht & Hne). by exists t.
    + split; [by destruct (scalar_in x image_types)|].
      intros (d' & ty & t & [= <-] & Hty & Hin & _). rewrite Hty in Hh. injection Hh as <-.
      rewrite (proj2 (scalar_in_str _ _)) in Hx; [done|eauto].
  - split; [done|]. intros (d' & ty & t & [= <-] & Hty & _). by rewrite Hty in Hh.
Qed.

Lemma chat_message_inr i m : validate_chat_message i m = inr tt <-> chat_message_ok m.
Proof.
  unfold validate_chat_message. destruct m as [| | | | | |d];
    try (split; [done|by intros (? & ? & ? & _)]).
  rewrite ebind_unit, required_fields_inr, ebind_unit. split.
  - intros (Hreq & Hty & Hrest). assert (Hr := Hreq "role"%pystr ltac:(left)).
    apply dmem_jget in Hr. apply (field_type_inr d "role" TStr false _ Hr (andb_false_r _)) in Hty.
    apply isinstance_str in Hty as [role Hrole]. rewrite Hrole in *. cbn [str_value] in Hrest.
    destruct (pystr_in role chat_roles) eqn:Hin; simpl in Hrest; [|done].
    exists d, role. split; [done|]. split; [done|]. unfold pystr_in in Hin. bdestruct. split; [done|].
    destruct (jget d "content") as [| | | |s|l|]; try done; [left; by eexists|].
    right. exists l. split; [done|]. destruct l as [|x l]; [done|]. split; [done|].
    revert Hrest. apply efor_each_enumerate. intros; apply content_block_inr.
  - intros (d' & role & [= <-] & Hr & Hin & Hc). split.
    { intros k [->|[->|[]%elem_of_nil]%elem_of_cons]%elem_of_cons.
      - apply dmem_true. by eexists.
      - destruct (dmem d "content") eqn:E; [done|]. apply jget_absent in E. rewrite E in Hc.
        destruct Hc as [[? ?]|(? & ? & _)]; done. }
    split; [by apply (field_type_inr d "role" TStr false _ Hr)|].
    rewrite (jget_some _ _ _ Hr). cbn [str_value]. unfold pystr_in. rewrite bool_decide_eq_true_2 by done.
    cbn [negb]. destruct Hc as [[s ->]|(l & -> & Hne & Hl)]; [done|]. destruct l as [|x l]; [done|].
    apply (efor_each_enumerate _ _ text_block); [|done]. intros; apply content_block_inr.
Qed.

Lemma chat_messages_inr ms : validate_chat_messages ms = inr tt <-> chat_messages_ok ms.
Proof.
  unfold validate_chat_messages. destruct ms as [| | | | |l|]; try (split; [done|by intros (? & ? & _)]).
  destruct l as [|m l]; [split; [done|by intros (? & [= <-] & [] & _)]|].
  rewrite (efor_each_enumerate _ _ chat_message_ok) by (intros; apply chat_message_inr). split.
  - intros Hl. by exists (m :: l).
  - by intros (? & [= <-] & _ & ?).
Qed.

(** Every failure but one is a [ValidationError]: hashing a block's [type]. *)
Definition unhashable_type (item : json) : Prop :=
  exists d, item = JDict d /\ hashable (jget d "type") = None.

Lemma content_block_inl i j item e :
  validate_content_block i j item = inl e -> (exists v, e = Invalid v) \/ unhashable_type item.
Proof.
  unfold validate_content_block. destruct item as [| | | | | |d];
    try (intros [= <-]; left; by eexists).
  unfold hash_value. destruct (hashable (jget d "type")) as [x|] eqn:Hh; simpl.
  - intros He. left. destruct (scalar_in x text_types).
    + destruct (is_nonempty_str (jget d "text")); simpl in He; [done|].
      injection He as <-. by eexists.
    + destruct (scalar_in x image_types); injection He as <-; by eexists.
  - intros _. right. by exists d.
Qed.

Lemma chat_message_inl i m e :
  validate_chat_message i m = inl e ->
  (exists v, e = Invalid v) \/
  exists d l item, m = JDict d /\ jget d "content" = JList l /\ item ∈ l /\ unhashable_type item.
Proof.
  unfold validate_chat_message. destruct m as [| | | | | |d];
    try (intros [= <-]; left; by eexists).
  destruct (validate_required_fields d _) as [e1|[]] eqn:E1; simpl.
  { intros [= <-]. left. by eapply required_fields_inl. }
  destruct (validate_field_type d _ _ _) as [e2|[]] eqn:E2; simpl.
  { intros [= <-]. left. by eapply field_type_inl. }
  destruct (negb _); [intros [= <-]; left; by eexists|].
  destruct (jget d "content") as [| | | |s|l|] eqn:Ec;
    try (intros [= <-]; left; by eexists).
  destruct l as [|x l]; [intros [= <-]; left; by eexists|].
  intros ([j item] & Hin & He)%efor_each_inl. apply content_block_inl in He as [|Hu]; [by left|].
  right. exists d, (x :: l), item. apply py_enumerate_elem in Hin. done.
Qed.

Lemma chat_messages_inl ms e :
  validate_chat_messages ms = inl e ->
  (exists v, e = Invalid v) \/
  exists l d content item, ms = JList l /\ JDict d ∈ l /\ jget d "content" = JList content /\
    item ∈ content /\ unhashable_type item.
Proof.
  unfold validate_chat_messages. destruct ms as [| | | | |l|];
    try (intros [= <-]; left; by eexists).
  destruct l as [|m l]; [intros [= <-]; left; by eexists|].
  intros ([i x] & Hin & He)%efor_each_inl. apply py_enumerate_elem in Hin.
  apply chat_message_inl in He as [|(d & c & item & -> & Hc & Hi & Hu)]; [by left|].
  right. by exists (m :: l), d, c, item.
Qed.

(** ** Image dimensions *)

Lemma ensure_dimension_inr j f z :
  _ensure_dimension j f = inr z <-> int_value j = Some z /\ 32 <= z <= 1024.
Proof.
  unfold _ensure_dimension. destruct (int_value j) as [n|]; [|split; [done|by intros [? _]]].
  cbn [_DIMENSION_RANGE]. destruct (Z.ltb_spec n 32), (Z.ltb_spec 1024 n); simpl; split;
    try (intros [= ->]; split; [done|lia]); try done; intros [[= ->] ?]; try lia; done.
Qed.

Lemma derive_dimensions_range d w h :
  _derive_dimensions d = inr (w, h) -> 32 <= w <= 1024 /\ 32 <= h <= 1024.
Proof.
  unfold _derive_dimensions.
  assert (Hpair : forall j1 f1 j2 f2,
    (let? w := _ensure_dimension j1 f1 in let? h := _ensure_dimension j2 f2 in inr (w, h))
      = inr (w, h) -> 32 <= w <= 1024 /\ 32 <= h <= 1024).
  { intros j1 f1 j2 f2 (w' & Hw & (h' & Hh & [= <- <-])%ebind_inr)%ebind_inr.
    apply ensure_dimension_inr in Hw as [_ ?], Hh as [_ ?]. done. }
  destruct (dmem d "size" && _).
  - unfold _parse_size_field. destruct (jget d "size"); try done.
    destruct (_SIZE_PATTERN _) as [[dw dh]|]; [|done]. apply Hpair.
  - destruct (is_JNull (jget d "width")), (is_JNull (jget d "height")); simpl; try done.
    + intros [= <- <-]. lia.
    + apply Hpair.
Qed.

(** What an accepted image request holds. *)
Record image_payload_ok (d : jdict) (p : image_payload) : Prop := {
  ip_prompt : exists s, dget d "prompt" = Some (JStr s) /\ prompt p = py_strip s /\
                py_empty (prompt p) = false;
  ip_seed : seed p = jget d "seed" /\
    (seed p = JNull \/ exists z, int_value (seed p) = Some z /\ 0 <= z);
  ip_width : 32 <= width p <= 1024;
  ip_height : 32 <= height p <= 1024
}.

Lemma seed_ok d :
  validate_field_type d "seed" TInt true = inr tt ->
  match int_value (jget d "seed") with
  | Some z => eraise_if (z <? 0) (invalid "seed must be a non-negative integer" "seed")
  | None => inr tt
  end = inr tt ->
  jget d "seed" = JNull \/ exists z, int_value (jget d "seed") = Some z /\ 0 <= z.
Proof.
  unfold validate_field_type, jget. destruct (dget d "seed") as [j|]; [|by left].
  intros Ht Hs. destruct (is_JNull j) eqn:En; [left; by destruct j|]. right.
  cbn [andb default] in *. rewrite eraise_if_inr, negb_false_iff in Ht.
  destruct j as [|b|z| | | |]; try done; cbn [id int_value] in *; rewrite eraise_if_inr in Hs;
    eexists; (split; [reflexivity|lia]).
Qed.

Lemma image_payload_sound data p :
  validate_image_generation_payload data = inr p ->
  exists d, data = JDict d /\ image_payload_ok d p.
Proof.
  unfold validate_image_generation_payload. destruct data as [| | | | | |d]; try done.
  intros [Hreq [Hty Hrest]%ebind_unit]%ebind_unit. exists d. split; [done|].
  rewrite required_fields_inr in Hreq. specialize (Hreq "prompt"%pystr ltac:(left)).
  apply dmem_jget in Hreq. apply (field_type_inr d "prompt" TStr false _ Hreq (andb_false_r _)) in Hty.
  apply isinstance_str in Hty as [s Hs]. rewrite Hs in *. cbn [str_value] in Hrest.
  destruct (py_empty (py_strip s)) eqn:Hne; [done|].
  apply ebind_unit in Hrest as [Hseed [Hneg Hrest]%ebind_unit].
  apply ebind_inr in Hrest as ([w h] & Hd & [= <-]).
  apply derive_dimensions_range in Hd as [Hw Hh].
  constructor; cbn [prompt seed width height]; [by exists s| |done..].
  split; [done|by apply seed_ok].
Qed.

(** ** The size syntax *)

(** The decimal digits of a printed number. *)
Definition digit_codes (l : list N) : Prop := Forall (fun c => is_Some (ascii_digit c)) l.

Lemma digit_run_ascii l r :
  digit_codes l -> match r with c :: _ => py_digit c = None | [] => True end ->
  digit_run (l ++ r) = (map (fun c => Z.of_N c - 48) l, r).
Proof.
  intros Hl Hr. induction Hl as [|c l Hc _ IH]; simpl.
  - destruct r as [|c r]; [done|]. simpl. by rewrite Hr.
  - assert (Ha := Hc). unfold ascii_digit in Ha.
    destruct (N.leb_spec 48 c), (N.leb_spec c 57); simpl in Ha; try (by destruct Ha).
    rewrite py_digit_ascii by lia. unfold ascii_digit.
    rewrite (proj2 (N.leb_le 48 c)), (proj2 (N.leb_le c 57)) by lia. simpl. by rewrite IH.
Qed.

(** A pixel count prints as two to four digits that read back. *)
Definition printed_dimension (z : Z) : bool :=
  let l := codes (py_str_int z) in
  forallb (fun c => match ascii_digit c with Some _ => true | None => false end) l &&
  two_to_four (map (fun c => Z.of_N c - 48) l) &&
  (digits_value (map (fun c => Z.of_N c - 48) l) =? z).

Lemma printed_dimension_ok z : 32 <= z <= 1024 -> printed_dimension z = true.
Proof.
  intros Hz. assert (Hall : forallb printed_dimension (map Z.of_nat (seq 32 993)) = true).
  { vm_compute. reflexivity. }
  rewrite forallb_forall in Hall. apply Hall, in_map_iff. exists (Z.to_nat z).
  split; [lia|]. apply in_seq. lia.
Qed.

Lemma printed_dimension_inv z :
  32 <= z <= 1024 -> let l := codes (py_str_int z) in
  digit_codes l /\ two_to_four (map (fun c => Z.of_N c - 48) l) = true /\
  digits_value (map (fun c => Z.of_N c - 48) l) = z.
Proof.
  intros Hz. apply printed_dimension_ok in Hz. unfold printed_dimension in Hz.
  apply andb_true_iff in Hz as [[Hd Hl]%andb_true_iff Hv]. split; [|split; [done|lia]].
  apply Forall_forall. intros c Hc%list_elem_of_In. rewrite forallb_forall in Hd. apply Hd in Hc.
  destruct (ascii_digit c); [by eexists|done].
Qed.

(** The characters of a size are neither spaces nor upper-case letters. *)
Definition size_code (c : N) : Prop := is_Some (ascii_digit c) \/ c = 120%N.

Lemma size_code_plain c :
  size_code c -> is_py_space c = false /\ N.ltb c 128 = true /\ ascii_lower_code c = c.
Proof.
  intros [[d Hd]| ->]; [|vm_compute; done]. unfold ascii_digit in Hd.
  destruct (N.leb_spec 48 c), (N.leb_spec c 57); simpl in Hd; try done.
  assert (Hc : exists k : nat, c = (48 + N.of_nat k)%N /\ (k < 10)%nat).
  { exists (N.to_nat (c - 48)). lia. }
  destruct Hc as (k & -> & Hk). do 10 (destruct k as [|k]; [vm_compute; done|]). lia.
Qed.

Lemma drop_space_plain l : Forall (fun c => is_py_space c = false) l -> drop_space l = l.
Proof. intros Hl. apply drop_space_id. by destruct Hl. Qed.

Lemma size_text_plain s : Forall size_code (codes s) -> py_lower (py_strip s) = s.
Proof.
  intros Hs.
  assert (Hp : Forall (fun c => is_py_space c = false) (codes s)).
  { eapply Forall_impl; [exact Hs|]. intros c Hc. by apply size_code_plain in Hc as [? _]. }
  assert (Hst : py_strip s = s).
  { apply codes_inj. unfold py_strip. cbn [codes]. rewrite (drop_space_plain (codes s)) by done.
    rewrite drop_space_plain by (by apply Forall_rev). apply rev_involutive. }
  rewrite Hst, py_lower_ascii.
  - apply codes_inj. unfold ascii_lower. cbn [codes]. rewrite <- (map_id (codes s)) at 2.
    apply map_ext_in. intros c Hc%list_elem_of_In. rewrite Forall_forall in Hs.
    by apply Hs, size_code_plain in Hc as (_ & _ & ?).
  - apply is_ascii_all. eapply Forall_impl; [exact Hs|]. intros c Hc.
    apply size_code_plain in Hc as (_ & Hc & _). by apply N.ltb_lt.
Qed.

(** ["WIDTHxHEIGHT"] *)
Definition size_text (w h : Z) : pystr := py_str_int w +++ "x" +++ py_str_int h.

Lemma parse_size_text w h :
  32 <= w <= 1024 -> 32 <= h <= 1024 -> _parse_size_field (JStr (size_text w h)) = inr (w, h).
Proof.
  intros Hw Hh. pose proof (printed_dimension_inv w Hw) as (Hwd & Hwl & Hwv).
  pose proof (printed_dimension_inv h Hh) as (Hhd & Hhl & Hhv).
  assert (Hx : py_digit 120 = None) by (rewrite py_digit_ascii; [reflexivity|lia]).
  unfold _parse_size_field. rewrite size_text_plain.
  2: { unfold size_text, py_app. cbn [codes]. apply Forall_app. split.
       - eapply Forall_impl; [exact Hwd|]. by left.
       - constructor; [by right|]. eapply Forall_impl; [exact Hhd|]. by left. }
  unfold _SIZE_PATTERN, size_text, py_app. cbn [codes app].
  rewrite digit_run_ascii by done. rewrite <- (app_nil_r (codes (py_str_int h))).
  rewrite digit_run_ascii by done. rewrite Hwl, Hhl. cbn [andb orb bool_decide].
  rewrite bool_decide_eq_true_2 by done. cbn [orb]. rewrite Hwv, Hhv.
  rewrite (proj2 (ensure_dimension_inr (JInt w) "size" w)) by done. cbn [ebind].
  rewrite (proj2 (ensure_dimension_inr (JInt h) "size" h)) by done. done.
Qed.

(** ** Encrypted requests *)

Lemma validate_base64_inr d k j :
  dget d k = Some j ->
  validate_base64 d k = inr tt <->
  forall s, j = JStr s -> exists bs, b64decode_strict s = inr bs.
Proof.
  intros Hk. unfold validate_base64. rewrite Hk.
  destruct j as [| | | |s| |]; try (by split).
  destruct (b64decode_strict s) as [err|bs] eqn:Es; split; try done.
  - intros Hs. destruct (Hs s eq_refl) as [bs Hbs]. congruence.
  - intros _ s' [= <-]. by exists bs.
Qed.

(** What passes: a string key, an envelope object with its three fields, each of
    which is base64 text or not a string at all. *)
Definition envelope_ok (m : jdict) : Prop :=
  forall f, f ∈ envelope_fields ->
  exists j, dget m f = Some j /\ (forall s, j = JStr s -> exists bs, b64decode_strict s = inr bs).

Definition encrypted_request_ok (data : jdict) : Prop :=
  exists k m, dget data "client_public_key" = Some (JStr k) /\
    dget data "messages" = Some (JDict m) /\ envelope_ok m.

Lemma envelope_inr m :
  (let? _ := validate_required_fields m envelope_fields in
   efor_each envelope_fields (fun field =>
     if dmem m field then validate_base64 m field else inr tt)) = inr tt <-> envelope_ok m.
Proof.
  rewrite ebind_unit, required_fields_inr, efor_each_inr. split.
  - intros [Hreq Hb] f Hf. specialize (Hb f Hf). specialize (Hreq f Hf). cbn in Hb.
    rewrite Hreq in Hb. apply dmem_jget in Hreq. exists (jget m f). split; [done|].
    by apply (validate_base64_inr _ _ _ Hreq).
  - intros Hok. assert (Hmem : forall f, f ∈ envelope_fields -> dmem m f = true).
    { intros f Hf. apply dmem_true. destruct (Hok f Hf) as (j & -> & _). by eexists. }
    split; [done|]. intros f Hf. cbn. rewrite Hmem by done. destruct (Hok f Hf) as (j & Hj & Hd).
    by apply (validate_base64_inr _ _ _ Hj).
Qed.

Lemma encrypted_request_inr data :
  validate_encrypted_request data = inr tt <-> encrypted_request_ok data.
Proof.
  unfold validate_encrypted_request. rewrite ebind_unit, required_fields_inr, ebind_unit. split.
  - intros (Hreq & Hty & Hrest). assert (Hk := Hreq "client_public_key"%pystr ltac:(left)).
    assert (Hm := Hreq "messages"%pystr ltac:(right; left)). apply dmem_jget in Hk, Hm.
    apply (field_type_inr data "client_public_key" TStr false _ Hk (andb_false_r _)) in Hty.
    apply isinstance_str in Hty as [k Hkk]. rewrite Hkk in Hk.
    destruct (jget data "messages") as [| | | | | |m]; try done.
    exists k, m. split; [done|]. split; [done|]. by apply envelope_inr.
  - intros (k & m & Hk & Hm & Hok). split.
    { intros f [->|[->|[]%elem_of_nil]%elem_of_cons]%elem_of_cons; apply dmem_true; by eexists. }
    split; [by apply (field_type_inr data "client_public_key" TStr false _ Hk)|].
    rewrite (jget_some _ _ _ Hm). by apply envelope_inr.
Qed.

End lemmas.
