(* ===== verification/Profiles.v ===== *)
(** * Context profiles and model profiles

    [src/utils/context_profiles.py]: the two context tiers and the selection of
    one on a runtime manager.  [src/utils/llm/model_profiles.py]: the table of
    model profiles, the resolution of a requested profile and the alias table.
    Profiles are the dictionaries of the source, in insertion order. *)

From S2P Require Import Prelude PyFloat PyStr PyDict PyText Json.
From Stdlib Require Import Floats.SpecFloat.

(** ** Context tiers *)
Definition DEFAULT_CONTEXT_TIER : pystr := "8k-fast".

Record ContextProfile : Set := MkContextProfile {
  cp_profile_id : pystr;
  cp_display_label : pystr;
  cp_total_context_tokens : Z;
  cp_default_output_reservation_tokens : Z;
  cp_enabled : bool
}.

Definition _CONTEXT_PROFILES : list ContextProfile :=
  [MkContextProfile "8k-fast" "8K Fast" 8192 1024 true;
   MkContextProfile "64k-full" "64K Full" 65536 1024 true].

(** [{profile.profile_id: profile for profile in _CONTEXT_PROFILES}] *)
Definition CONTEXT_PROFILES : dict pystr ContextProfile :=
  fold_left (fun d p => dset d (cp_profile_id p) p) _CONTEXT_PROFILES [].

(** [x or y] on an optional string *)
Definition str_or (x : option pystr) (y : pystr) : pystr :=
  match x with Some s => if py_empty s then y else s | None => y end.

(** [f"{x}"] *)
Definition opt_text (x : option pystr) : pystr := default "None"%pystr x.

(** The table lookup of [get_context_profile] and [normalize_context_tier]:
    [None] when the profile is missing or disabled. *)
Definition enabled_profile (profile_id : option pystr) : option ContextProfile :=
  match dget CONTEXT_PROFILES (str_or profile_id DEFAULT_CONTEXT_TIER) with
  | Some profile => if cp_enabled profile then Some profile else None
  | None => None
  end.

(** [inl] is the [ValueError]'s message. *)
Definition get_context_profile (profile_id : option pystr) : pystr + ContextProfile :=
  match enabled_profile profile_id with
  | Some profile => inr profile
  | None => inl ("unknown or disabled context profile: " +++ opt_text profile_id)
  end.

Definition normalize_context_tier (profile_id : option pystr) : pystr :=
  match enabled_profile profile_id with
  | Some profile => cp_profile_id profile
  | None => DEFAULT_CONTEXT_TIER
  end.

(** A manager's [config]: absent, an object with a [set] method (which records
    the settings it was given), a dictionary, or anything else. *)
Inductive manager_config : Type :=
| NoConfig
| ConfigObject (settings : list (pystr * Z))
| ConfigDict (settings : dict pystr Z)
| OtherConfig.

Record manager : Type := mkManager {
  config : manager_config;
  context_tier : option pystr;
  context_window_tokens : option Z;
  default_output_reservation : option Z
}.

(** Raises before it touches the manager, or sets all of it. *)
Definition apply_context_profile (profile_id : option pystr) :
  SM manager pystr ContextProfile :=
  let* profile := lift_val (get_context_profile profile_id) in
  let tokens := cp_total_context_tokens profile in
  modify (fun m => mkManager
    (match config m with
     | ConfigObject l => ConfigObject (l ++ [("model.context_size"%pystr, tokens)])
     | ConfigDict d => ConfigDict (dset d "model.context_size" tokens)
     | c => c
     end)
    (Some (cp_profile_id profile)) (Some tokens)
    (Some (cp_default_output_reservation_tokens profile))) ;;;
  ret profile.

(** ** Model profiles *)
Definition LLAMA_3_1_8B_PROFILE_ID : pystr := "llama-3.1-8b-q4-k-m".
Definition LLAMA_3_1_API_MODEL_ID : pystr := "llama-3.1-8b-instruct".
Definition CANONICAL_API_V1_MODEL_ID : pystr := "qwen3-8b-instruct".
Definition QWEN3_8B_PROFILE_ID : pystr := "qwen3-8b-q4-k-m".
Definition QWEN3_API_MODEL_ID : pystr := CANONICAL_API_V1_MODEL_ID.

Definition LLAMA_DOWNLOAD_URL : pystr :=
  "https://huggingface.co/bartowski/Meta-Llama-3.1-8B-Instruct-GGUF/resolve/main/"
  +++ "Meta-Llama-3.1-8B-Instruct-Q4_K_M.gguf".
Definition LLAMA_FILENAME : pystr := "Meta-Llama-3.1-8B-Instruct-Q4_K_M.gguf".
Definition LLAMA_FAMILY_URL : pystr := "https://huggingface.co/meta-llama/Meta-Llama-3-8B".

(** The float literals of the table: their nearest binary64 values. *)
Definition f0_7 : float64 := S754_finite false 6305039478318694 (-53).
Definition f0_8 : float64 := S754_finite false 7205759403792794 (-53).
Definition f2 : float64 := S754_finite false 4503599627370496 (-51).

Definition jstrs (l : list pystr) : json := JList (map JStr l).

Definition llama_profile : jdict := [
  ("profile_id", JStr LLAMA_3_1_8B_PROFILE_ID);
  ("api_model_id", JStr LLAMA_3_1_API_MODEL_ID);
  ("display_name", JStr "Meta Llama 3.1 8B Instruct");
  ("description", JStr ("Meta's July 2024 refresh of the 8B instruction-tuned model using the "
    +++ "Q4_K_M quantisation that comfortably fits within a 24 GB RTX 4090."));
  ("owner", JStr "Meta");
  ("provider", JStr "meta");
  ("source_model", JStr "meta-llama/Llama-3.1-8B-Instruct");
  ("parameters", JStr "8B");
  ("quantization", JStr "Q4_K_M");
  ("license", JStr "llama3.1");
  ("gguf_repo", JStr "bartowski/Meta-Llama-3.1-8B-Instruct-GGUF");
  ("filename", JStr LLAMA_FILENAME);
  ("download_url", JStr LLAMA_DOWNLOAD_URL);
  ("canonical_family_url", JStr LLAMA_FAMILY_URL);
  ("native_context_tokens", JInt 8192);
  ("maximum_validated_context_tokens", JInt 8192);
  ("default_context_tokens", JInt 8192);
  ("supported_context_tiers", jstrs ["8k-fast"]);
  ("chat_template_policy", JStr "llama-3");
  ("thinking_mode", JStr "not-applicable");
  ("generation_defaults", JDict []);
  ("aliases", jstrs []);
  ("rope_scaling_policy", JNull);
  ("public_catalog", JBool false);
  ("runnable", JBool true)]%pystr.

Definition qwen_profile : jdict := [
  ("profile_id", JStr QWEN3_8B_PROFILE_ID);
  ("api_model_id", JStr QWEN3_API_MODEL_ID);
  ("display_name", JStr "Qwen3 8B Instruct");
  ("description", JStr "Qwen3 8B Instruct Q4_K_M with API v1 non-thinking mode enforced and validated 8K/64K context tiers.");
  ("owner", JStr "Qwen");
  ("provider", JStr "qwen");
  ("source_model", JStr "Qwen/Qwen3-8B");
  ("parameters", JStr "8.2B");
  ("quantization", JStr "Q4_K_M");
  ("license", JStr "apache-2.0");
  ("gguf_repo", JStr "Qwen/Qwen3-8B-GGUF");
  ("filename", JStr "Qwen3-8B-Q4_K_M.gguf");
  ("download_url", JStr "https://huggingface.co/Qwen/Qwen3-8B-GGUF/resolve/6a569868d07d3bd59e8b97fb001bf8c0b254bb20/Qwen3-8B-Q4_K_M.gguf");
  ("artifact_revision", JStr "6a569868d07d3bd59e8b97fb001bf8c0b254bb20");
  ("artifact_size_bytes", JInt 5027783488);
  ("artifact_sha256", JStr "d98cdcbd03e17ce47681435b5150e34c1417f50b5c0019dd560e4882c5745785");
  ("canonical_family_url", JStr "https://huggingface.co/Qwen/Qwen3-8B");
  ("native_context_tokens", JInt 32768);
  ("maximum_validated_context_tokens", JInt 65536);
  ("default_context_tokens", JInt 8192);
  ("supported_context_tiers", jstrs ["8k-fast"; "64k-full"]);
  ("chat_template_policy", JStr "gguf-jinja");
  ("thinking_mode", JStr "disabled");
  ("generation_defaults", JDict [("temperature", JFloat f0_7); ("top_p", JFloat f0_8);
                                 ("top_k", JInt 20); ("min_p", JFloat f0)]);
  ("aliases", jstrs ["llama-3.1-8b-instruct"; "llama-3-8b-instruct"; "gpt-3.5-turbo";
                     "gpt-5-chat-latest"]);
  ("rope_scaling_policy", JDict [("type", JStr "yarn"); ("required_for_tier", JStr "64k-full");
                                 ("factor", JFloat f2); ("original_context_tokens", JInt 32768)]);
  ("public_catalog", JBool true);
  ("runnable", JBool true)]%pystr.

Definition MODEL_PROFILES : dict pystr jdict :=
  [(LLAMA_3_1_8B_PROFILE_ID, llama_profile); (QWEN3_8B_PROFILE_ID, qwen_profile)].

Definition get_model_profile (profile_id : pystr) : option jdict :=
  match dget MODEL_PROFILES profile_id with
  | Some [] | None => None
  | Some profile => Some profile
  end.

(** [inl] is the [RuntimeError]'s message. *)
Definition get_default_model_profile : pystr + jdict :=
  match get_model_profile QWEN3_8B_PROFILE_ID with
  | None => inl ("Default model profile '" +++ QWEN3_8B_PROFILE_ID
                 +++ "' not found in MODEL_PROFILES. Ensure the Qwen profile has not been removed.")
  | Some profile => inr profile
  end.

(** [profile.get("public_catalog", False)] *)
Definition is_public (profile : jdict) : bool :=
  truthy (default (JBool false) (dget profile "public_catalog")).

Definition iter_model_profiles (public_only : bool) : list jdict :=
  bfilter (fun profile => negb (public_only && negb (is_public profile))) (dvalues MODEL_PROFILES).

(** The first profile that serves an API model. *)
Fixpoint profile_serving (api_model_id : pystr) (l : dict pystr jdict) : option pystr :=
  match l with
  | [] => None
  | (candidate_id, profile) :: l' =>
      if jeq_str (jget profile "api_model_id") api_model_id then Some candidate_id
      else profile_serving api_model_id l'
  end.

Definition resolve_profile_id (profile_id api_model_id : option pystr) : pystr :=
  let by_id := match profile_id with
               | Some p => if negb (py_empty p) && dmem MODEL_PROFILES p then Some p else None
               | None => None
               end in
  let by_model := match api_model_id with
                  | Some a => if py_empty a then None else profile_serving a MODEL_PROFILES
                  | None => None
                  end in
  match by_id, by_model with
  | Some p, _ => p
  | None, Some p => p
  | None, None => QWEN3_8B_PROFILE_ID
  end.

(** [list(profile.get("aliases", []))] *)
Definition profile_aliases (profile : jdict) : list pystr :=
  match jget profile "aliases" with JList l => map str_value l | _ => [] end.

Definition build_model_aliases : dict pystr pystr :=
  fold_left (fun aliases profile =>
    fold_left (fun aliases alias => dset aliases alias (str_value (jget profile "api_model_id")))
      (profile_aliases profile) aliases)
    (dvalues MODEL_PROFILES) [].

(** ** Lemmas *)

Lemma dget_CONTEXT_PROFILES k p :
  dget CONTEXT_PROFILES k = Some p -> cp_profile_id p = k /\ p ∈ _CONTEXT_PROFILES.
Proof.
  unfold CONTEXT_PROFILES, _CONTEXT_PROFILES. cbn [fold_left dset dget]. simpl.
  repeat case_bool_decide; intros Hp; simplify_eq; (split; [done|]).
  - left.
  - right. left.
Qed.

(** A tier that was accepted names an enabled profile of the table. *)
Lemma enabled_profile_in k p :
  enabled_profile k = Some p ->
  p ∈ _CONTEXT_PROFILES /\ cp_enabled p = true /\
  cp_profile_id p = str_or k DEFAULT_CONTEXT_TIER.
Proof.
  unfold enabled_profile. destruct (dget CONTEXT_PROFILES _) as [q|] eqn:Eq; [|done].
  destruct (cp_enabled q) eqn:Een; [|done]. intros [= <-].
  apply dget_CONTEXT_PROFILES in Eq as [Hid Hin]. done.
Qed.

(** Every profile of the table selects itself. *)
Lemma profile_selects_itself p :
  p ∈ _CONTEXT_PROFILES -> enabled_profile (Some (cp_profile_id p)) = Some p.
Proof.
  unfold _CONTEXT_PROFILES. intros [->|[->|[]%elem_of_nil]%elem_of_cons]%elem_of_cons; reflexivity.
Qed.

Lemma profile_serving_known a p : profile_serving a MODEL_PROFILES = Some p ->
  dmem MODEL_PROFILES p = true.
Proof.
  cbn [profile_serving MODEL_PROFILES]. repeat destruct (jeq_str _ _); intros [= <-]; reflexivity.
Qed.

(** Whatever is asked for, a profile of the table is selected. *)
Lemma resolve_profile_id_known p a : dmem MODEL_PROFILES (resolve_profile_id p a) = true.
Proof.
  unfold resolve_profile_id.
  assert (Hb : dmem MODEL_PROFILES (match (match a with
      | Some a => if py_empty a then None else profile_serving a MODEL_PROFILES
      | None => None end) with Some p => p | None => QWEN3_8B_PROFILE_ID end) = true).
  { destruct a as [a|]; [|reflexivity]. destruct (py_empty a); [reflexivity|].
    destruct (profile_serving a MODEL_PROFILES) as [q|] eqn:Eq; [|reflexivity].
    by eapply profile_serving_known. }
  destruct p as [p|]; [|done]. destruct (negb (py_empty p) && dmem MODEL_PROFILES p) eqn:Ep; [|done].
  by apply andb_true_iff in Ep as [_ ?].
Qed.
