(* ===== verification/Catalog.v ===== *)
(** * api/v1/models.py: the model catalogue and response generation

    The catalogue built from the public model profiles, alias resolution, the
    cache of loaded models and [generate_response], which rewrites the caller's
    message list in place.  The model runtime is [llama-cpp-python]: the
    [Runtime] record holds its constructor and its [create_chat_completion], and
    [random.choice] is an index chosen by the caller.  Logging is left out. *)

From S2P Require Import Prelude PyFloat PyStr PyDict PyText Json Profiles.

(** ** Exceptions *)
Inductive model_error : Set :=
| ModelError (message : pystr) (status_code : Z) (error_type : pystr)
| OtherError (text : pystr).

(** [str(e)] *)
Definition error_text (e : model_error) : pystr :=
  match e with ModelError message _ _ => message | OtherError text => text end.

Definition bad_request (message : pystr) : model_error :=
  ModelError message 400 "invalid_request_error".

(** [d[k]]; the [KeyError]'s text is the key's [repr]. *)
Definition index (d : jdict) (k : pystr) : model_error + json :=
  match dget d k with Some j => inr j | None => inl (OtherError ("'" +++ k +++ "'")) end.

(** ** Message normalisation *)
(** [x in {"input_text", "text"}] *)
Definition is_text_type (j : json) : model_error + bool :=
  match hashable j with
  | Some x => inr (scalar_in x text_types)
  | None => inl (OtherError (unhashable_text j))
  end.

(** The segments a list of blocks contributes *)
Fixpoint block_segments (content : list json) : model_error + list pystr :=
  match content with
  | [] => inr []
  | JDict block :: rest =>
      let? text_type := is_text_type (jget block "type") in
      let? segments := block_segments rest in
      match jget block "text" with
      | JStr text =>
          inr (if text_type && negb (py_empty (py_strip text))
               then py_strip text :: segments else segments)
      | _ => inr segments
      end
  | _ :: rest => block_segments rest
  end.

Definition _stringify_content_blocks (content : json) : model_error + json :=
  match content with
  | JList blocks =>
      let? segments := block_segments blocks in
      inr (JStr (match segments with [] => ""%pystr | _ => py_join paragraph_break segments end))
  | _ => inr content
  end.

Definition normalise_message (message : json) : model_error + json :=
  match message with
  | JDict d =>
      let? content := _stringify_content_blocks (jget d "content") in
      inr (JDict (dset d "content" content))
  | _ => inr message
  end.

(** The new list; the source assigns it to [messages[:]] when all went well. *)
Fixpoint _normalise_chat_messages (messages : list json) : model_error + list json :=
  match messages with
  | [] => inr []
  | m :: rest =>
      let? m' := normalise_message m in
      let? rest' := _normalise_chat_messages rest in
      inr (m' :: rest')
  end.

(** ** The catalogue *)

(** [profile.get(k)] and [profile[k]] of the entry, in the order of the literal *)
Definition _profile_to_catalog_entry (profile : jdict) : model_error + jdict :=
  let? api_model_id := index profile "api_model_id" in
  let? profile_id := index profile "profile_id" in
  let? display_name := index profile "display_name" in
  let? description := index profile "description" in
  let? owner := index profile "owner" in
  let? provider := index profile "provider" in
  let? source_model := index profile "source_model" in
  let? parameters := index profile "parameters" in
  let? quantization := index profile "quantization" in
  let? default_context_tokens := index profile "default_context_tokens" in
  let? native_context_tokens := index profile "native_context_tokens" in
  let? maximum_validated_context_tokens := index profile "maximum_validated_context_tokens" in
  let? supported_context_tiers := index profile "supported_context_tiers" in
  let? chat_template_policy := index profile "chat_template_policy" in
  let? thinking_mode := index profile "thinking_mode" in
  let? download_url := index profile "download_url" in
  let? filename := index profile "filename" in
  inr [("id", api_model_id);
       ("profile_id", profile_id);
       ("name", display_name);
       ("display_name", display_name);
       ("description", description);
       ("owner", owner);
       ("owned_by", owner);
       ("provider", provider);
       ("source_model", source_model);
       ("parameters", parameters);
       ("quantization", quantization);
       ("license", jget profile "license");
       ("gguf_repo", jget profile "gguf_repo");
       ("context_length", default_context_tokens);
       ("native_context_tokens", native_context_tokens);
       ("maximum_validated_context_tokens", maximum_validated_context_tokens);
       ("supported_context_tiers", supported_context_tiers);
       ("chat_template_policy", chat_template_policy);
       ("thinking_mode", thinking_mode);
       ("runnable", default (JBool false) (dget profile "runnable"));
       ("url", download_url);
       ("file_name", filename);
       ("adapters", JList [])]%pystr.

Fixpoint emap {E A B} (f : A -> E + B) (l : list A) : E + list B :=
  match l with
  | [] => inr []
  | x :: l' => let? y := f x in let? ys := emap f l' in inr (y :: ys)
  end.

(** The module-level [AVAILABLE_MODELS]; building it raises nothing
    ([catalogue_builds]). *)
Definition build_catalogue : model_error + list jdict :=
  emap _profile_to_catalog_entry (iter_model_profiles true).

Definition AVAILABLE_MODELS : list jdict :=
  match build_catalogue with inr l => l | inl _ => [] end.

Definition MODEL_ALIASES : dict pystr pystr := build_model_aliases.

Definition without_adapters (base : jdict) : jdict :=
  bfilter (fun kv => negb (bool_decide (kv.1 = "adapters"%pystr))) base.

(** [adapter.get(k, dflt)] *)
Definition get_or (d : jdict) (k : pystr) (dflt : json) : json := default dflt (dget d k).

(** The entry derived from one adapter of a base model *)
Definition adapter_entry (base base_entry adapter : jdict) : model_error + jdict :=
  let? id := index adapter "id" in
  let? base_name := index base_entry "name" in
  let? base_description := index base_entry "description" in
  let? base_id := index base "id" in
  let d := dset (without_adapters base) "id" id in
  let d := dset d "name" (get_or adapter "name" base_name) in
  let d := dset d "description" (get_or adapter "description" base_description) in
  let d := dset d "file_name" (get_or adapter "file_name" (jget base_entry "file_name")) in
  let d := dset d "parameters" (get_or adapter "parameters" (jget base_entry "parameters")) in
  let d := dset d "quantization" (get_or adapter "quantization" (jget base_entry "quantization")) in
  let d := dset d "context_length" (get_or adapter "context_length" (jget base_entry "context_length")) in
  let d := dset d "url" (get_or adapter "url" (jget base_entry "url")) in
  let d := dset d "base_model_id" base_id in
  inr (dset d "adapter" (JDict [
    ("id", id);
    ("instructions", jget adapter "instructions");
    ("prompt_template", jget adapter "prompt_template");
    ("share_base", get_or adapter "share_base" (JBool false))]%pystr)).

(** The catalogues hold lists of dictionaries; Python refuses to index anything
    else with a string. *)
Definition not_a_mapping : model_error := OtherError "indices must be integers or slices, not str".

Definition as_mapping (j : json) : model_error + jdict :=
  match j with JDict d => inr d | _ => inl not_a_mapping end.

(** [base.get("adapters", [])] *)
Definition adapters_of (base : jdict) : model_error + list jdict :=
  match get_or base "adapters" (JList []) with
  | JList l => emap as_mapping l
  | _ => inl not_a_mapping
  end.

Definition base_entries (base : jdict) : model_error + list jdict :=
  let? id := index base "id" in
  let base_entry := dset (without_adapters base) "base_model_id" id in
  let? adapters := adapters_of base in
  let? derived := emap (adapter_entry base base_entry) adapters in
  inr (base_entry :: derived).

Section catalogue.
(** The [AVAILABLE_MODELS] in force *)
Context (available : list jdict).

Definition _iter_model_entries : model_error + list jdict :=
  let? groups := emap base_entries available in inr (concat groups).

Definition get_models_info : model_error + list jdict := _iter_model_entries.

Definition _get_model_metadata (model_id : pystr) : model_error + option jdict :=
  let? entries := _iter_model_entries in
  inr (List.find (fun entry => jeq_str (jget entry "id") model_id) entries).

Definition resolve_model_alias (model_id : pystr) : model_error + option pystr :=
  match dget MODEL_ALIASES model_id with
  | None => inr None
  | Some target_id =>
      if py_empty target_id then inr None
      else
        let? metadata := _get_model_metadata target_id in
        inr (match metadata with None => None | Some _ => Some target_id end)
  end.

(** [resolve_model_alias(model_id) or model_id] *)
Definition canonical_model_id (model_id : pystr) : model_error + pystr :=
  let? target := resolve_model_alias model_id in
  inr (str_or target model_id).

End catalogue.

(** ** Loading and running models *)

(** The choices of a completion: the [message] of each. *)
Definition completion : Set := list json.

(** The runtime: a model instance is an identifier, the constructor is called
    with the number of calls made so far and the path, and a failure carries the
    exception's text. *)
Record Runtime : Type := mkRuntime {
  USE_MOCK_LLM : bool;
  Llama : option (Z -> pystr -> pystr + N);
  create_chat_completion : N -> list json -> pystr + completion;
  random_choice : nat
}.

(** What the functions mutate: the module's [_loaded_models], the constructor
    calls made and the caller's [messages] list. *)
Record model_state : Type := mkModels {
  loaded_models : dict pystr N;
  constructed : list pystr;
  messages : list json
}.

Inductive model_handle : Set :=
| MockModel
| Instance (n : N).

Notation MM := (SM model_state model_error).

Definition set_messages (l : list json) : MM unit :=
  modify (fun s => mkModels (loaded_models s) (constructed s) l).

Definition add_loaded (k : pystr) (n : N) : MM unit :=
  modify (fun s => mkModels (dset (loaded_models s) k n) (constructed s) (messages s)).

Section runtime.
Context (available : list jdict) (rt : Runtime).

(** [Llama(model_path=model_path)] *)
Definition construct (llama : Z -> pystr -> pystr + N) (path : pystr) : MM N :=
  let* s := get_state in
  put_state (mkModels (loaded_models s) (constructed s ++ [path]) (messages s)) ;;;
  lift_val (match llama (zlen (constructed s)) path with
            | inl text => inl (OtherError text)
            | inr n => inr n
            end).

(** [except Exception as e: raise describe(str(e))] *)
Definition wrap_failure {A} (describe : pystr -> model_error) (m : MM A) : MM A :=
  fun s => match m s with
           | (s', inl e) => (s', inl (describe (error_text e)))
           | r => r
           end.

(** [except ModelError: raise], then as above *)
Definition wrap_other {A} (describe : pystr -> model_error) (m : MM A) : MM A :=
  fun s => match m s with
           | (s', inl (OtherError text)) => (s', inl (describe text))
           | r => r
           end.

(** [adapter_meta and adapter_meta.get("share_base")] *)
Definition shares_base (model_meta : jdict) : bool :=
  match jget model_meta "adapter" with
  | JDict adapter => truthy (JDict adapter) && truthy (jget adapter "share_base")
  | _ => false
  end.

(** [os.path.isabs] and [os.path.join("models", p)] on POSIX *)
Definition local_model_path (p : pystr) : pystr :=
  if py_startswith p "/" then p else "models/" +++ p.

(** The file of a model, or of its base when it shares it *)
Definition model_path_of (model_meta : jdict) (base_meta : option jdict) : model_error + pystr :=
  let path := if shares_base model_meta
              then match base_meta with
                   | Some base => jget base "file_name"
                   | None => jget model_meta "file_name"
                   end
              else jget model_meta "file_name" in
  match path with
  | JStr p => if py_empty p then inl (OtherError "Model metadata missing file name")
              else inr (local_model_path p)
  | _ => inl (OtherError "Model metadata missing file name")
  end.

Definition load_failed (model_id text : pystr) : model_error :=
  ModelError ("Failed to load model '" +++ model_id +++ "': " +++ text) 500 "model_load_error".

(** The [try] block that loads a model from disk *)
Definition load_model (model_id : pystr) (model_meta : jdict) (cache_key : pystr)
  (llama : Z -> pystr -> pystr + N) : MM model_handle :=
  wrap_failure (load_failed model_id)
    (let* base_meta :=
       if shares_base model_meta
       then lift_val (_get_model_metadata available (str_value (jget model_meta "base_model_id")))
       else ret None in
     let* path := lift_val (model_path_of model_meta base_meta) in
     let* n := construct llama path in
     add_loaded cache_key n ;;;
     add_loaded model_id n ;;;
     ret (Instance n)).

Definition get_model_instance (model_id : pystr) : MM model_handle :=
  if py_empty model_id then raise (bad_request "Model ID cannot be empty")
  else
    let* model_id := lift_val (canonical_model_id available model_id) in
    let* metadata := lift_val (_get_model_metadata available model_id) in
    match metadata with
    | None =>
        let* entries := lift_val (_iter_model_entries available) in
        raise (ModelError
          ("Model '" +++ model_id +++ "' not found. Available models: "
           +++ py_join ", " (map (fun m => str_value (jget m "id")) entries)) 400 "model_not_found")
    | Some model_meta =>
        if USE_MOCK_LLM rt then ret MockModel
        else
          match Llama rt with
          | None => raise (ModelError
              ("llama-cpp-python is not installed. "
               +++ "Install full server dependencies to load local models.") 503 "model_unavailable")
          | Some llama =>
              let cache_key := if shares_base model_meta
                               then str_value (jget model_meta "base_model_id") else model_id in
              let* s := get_state in
              match dget (loaded_models s) cache_key with
              | Some n => add_loaded model_id n ;;; ret (Instance n)
              | None =>
                  load_model model_id model_meta cache_key llama
              end
          end
    end.

(** ** generate_response *)

(** The block test of the format check: the conjuncts in order *)
Definition text_only_block (block : json) : model_error + bool :=
  match block with
  | JDict d =>
      let? text_type := is_text_type (jget d "type") in
      inr (text_type && is_nonempty_str (jget d "text"))
  | _ => inr false
  end.

Definition message_position (idx : Z) : pystr := "messages[" +++ py_str_int idx +++ "]".

Definition check_message_format (idx : Z) (msg : json) : model_error + unit :=
  match msg with
  | JDict d =>
      if negb (dmem d "role") || negb (dmem d "content") then
        inl (bad_request ("Invalid message format at position " +++ py_str_int idx
          +++ ". Each message must have 'role' and 'content' fields."))
      else
        match jget d "content" with
        | JStr _ => inr tt
        | JList content =>
            efor_each (py_enumerate content) (fun '(block_idx, block) =>
              let? ok := text_only_block block in
              eraise_if (negb ok) (bad_request
                ("Invalid text-only content block at " +++ message_position idx +++ ".content["
                 +++ py_str_int block_idx +++ "]. "
                 +++ "API v1 chat completions do not support image content.")))
        | _ => inl (bad_request ("Invalid content type at " +++ message_position idx
                                 +++ ". API v1 chat content must be text-only."))
        end
  | _ => inl (bad_request ("Invalid message format at position " +++ py_str_int idx
                           +++ ". Each message must have 'role' and 'content' fields."))
  end.

Definition mock_responses : list pystr := [
  "Mock response: Paris is the capital of France and one of the most visited cities in the world.";
  "Mock response: The capital of France is Paris, known for its iconic Eiffel Tower and the Louvre Museum.";
  "Mock response: Paris, the City of Light, serves as France's capital and cultural center."]%pystr.

(** [random.choice(mock_responses)] *)
Definition mock_response (n : nat) : pystr := nth (n mod length mock_responses) mock_responses "".

Definition assistant_message (content : pystr) : json :=
  JDict [("role", JStr "assistant"); ("content", JStr content)]%pystr.

(** The system message an adapter's instructions are injected as, unless a
    message already carries its name *)
Definition inject_instructions (model_id : pystr) (adapter : json) (messages : list json) :
  list json :=
  match adapter with
  | JDict adapter =>
      if truthy (jget adapter "instructions") then
        let adapter_name := "adapter:" +++ str_value (get_or adapter "id" (JStr model_id)) in
        let injected msg := match msg with
                            | JDict d => jeq_str (jget d "role") "system" &&
                                         jeq_str (jget d "name") adapter_name
                            | _ => false
                            end in
        if existsb injected messages then messages
        else JDict [("role", JStr "system"); ("name", JStr adapter_name);
                    ("content", jget adapter "instructions")]%pystr :: messages
      else messages
  | _ => messages
  end.

Definition inference_failed (text : pystr) : model_error :=
  ModelError ("Failed to generate response: " +++ text) 500 "model_inference_error".

(** [messages.append(m); return messages] *)
Definition append_message (m : json) : MM (list json) :=
  let* s := get_state in
  set_messages (messages s ++ [m]) ;;;
  ret (messages s ++ [m]).

(** Everything inside the [try]. *)
Definition run_model (model_id : pystr) (adapter : json) : MM (list json) :=
  let* s := get_state in
  let* normalised := lift_val (_normalise_chat_messages (messages s)) in
  set_messages normalised ;;;
  let* model := get_model_instance model_id in
  set_messages (inject_instructions model_id adapter normalised) ;;;
  match model with
  | MockModel =>
      append_message (assistant_message (mock_response (random_choice rt)))
  | Instance n =>
      let* s := get_state in
      let* choices := lift_val (match create_chat_completion rt n (messages s) with
                                | inl text => inl (OtherError text)
                                | inr choices => inr choices
                                end) in
      match choices with
      | message :: _ => append_message message
      | [] => raise (ModelError "Model returned an invalid response structure" 500
                                "model_response_error")
      end
  end.

Definition generate_response (model_id : pystr) : MM (list json) :=
  let* model_id := lift_val (canonical_model_id available model_id) in
  let* s := get_state in
  raise_if (match messages s with [] => true | _ => false end)
    (bad_request "Messages cannot be empty") ;;;
  lift (efor_each (py_enumerate (messages s)) (fun '(idx, msg) => check_message_format idx msg)) ;;;
  let* model_meta := lift_val (_get_model_metadata available model_id) in
  let adapter_meta := match model_meta with Some m => jget m "adapter" | None => JNull end in
  wrap_other inference_failed (run_model model_id adapter_meta).

End runtime.

(** ** The published catalogue *)

(** Importing the module raises nothing. *)
Lemma catalogue_builds : build_catalogue = inr AVAILABLE_MODELS.
Proof. vm_compute. reflexivity. Qed.

(** The entries the catalogue flattens to. *)
Definition catalogue_entries : list jdict :=
  match _iter_model_entries AVAILABLE_MODELS with inr l => l | inl _ => [] end.

Lemma entries_build : _iter_model_entries AVAILABLE_MODELS = inr catalogue_entries.
Proof. vm_compute. reflexivity. Qed.

Lemma metadata_find id :
  _get_model_metadata AVAILABLE_MODELS id =
    inr (List.find (fun entry => jeq_str (jget entry "id") id) catalogue_entries).
Proof. unfold _get_model_metadata. by rewrite entries_build. Qed.

Lemma canonical_listed : exists entry,
  _get_model_metadata AVAILABLE_MODELS CANONICAL_API_V1_MODEL_ID = inr (Some entry).
Proof. eexists. vm_compute. reflexivity. Qed.

Lemma alias_targets id target :
  dget MODEL_ALIASES id = Some target -> target = CANONICAL_API_V1_MODEL_ID.
Proof.
  change MODEL_ALIASES with (map (fun a => (a, CANONICAL_API_V1_MODEL_ID))
    ["llama-3.1-8b-instruct"; "llama-3-8b-instruct"; "gpt-3.5-turbo"; "gpt-5-chat-latest"]%pystr).
  cbn [map dget]. repeat case_bool_decide; intros Hk; congruence.
Qed.

(** An alias stands for the canonical model; every other name for itself. *)
Lemma canonical_model_id_eq id :
  canonical_model_id AVAILABLE_MODELS id =
    inr (if dmem MODEL_ALIASES id then CANONICAL_API_V1_MODEL_ID else id).
Proof.
  unfold canonical_model_id, resolve_model_alias, dmem.
  destruct (dget MODEL_ALIASES id) as [target|] eqn:Et; [|done].
  apply alias_targets in Et as ->. destruct canonical_listed as [entry He].
  cbn [py_empty codes CANONICAL_API_V1_MODEL_ID]. by rewrite He.
Qed.

Lemma canonical_is_no_alias : dmem MODEL_ALIASES CANONICAL_API_V1_MODEL_ID = false.
Proof. vm_compute. reflexivity. Qed.

(** Only the canonical model is listed. *)
Lemma metadata_some id entry :
  _get_model_metadata AVAILABLE_MODELS id = inr (Some entry) -> id = CANONICAL_API_V1_MODEL_ID.
Proof.
  rewrite metadata_find. intros Hf%(inj inr). apply find_some in Hf as [Hin Hid].
  assert (Hall : forallb (fun e => jeq_str (jget e "id") CANONICAL_API_V1_MODEL_ID)
                   catalogue_entries = true) by (vm_compute; reflexivity).
  rewrite forallb_forall in Hall. specialize (Hall entry Hin).
  apply jeq_str_true in Hid, Hall. congruence.
Qed.

(** ** Validated messages *)

(** The plain text the runtime is given for a content. *)
Definition block_text (item : json) : pystr :=
  match item with JDict d => str_value (jget d "text") | _ => "" end.

Definition plain_text (content : json) : pystr :=
  match content with
  | JList l =>
      py_join paragraph_break
        (bfilter (fun s => negb (py_empty s)) (map (fun item => py_strip (block_text item)) l))
  | _ => str_value content
  end.

Definition plain_message (message : json) : json :=
  match message with
  | JDict d => JDict (dset d "content" (JStr (plain_text (jget d "content"))))
  | _ => message
  end.

Lemma text_type_block d ty :
  jget d "type" = JStr ty -> ty ∈ text_types -> is_text_type (jget d "type") = inr true.
Proof.
  intros -> Hty. unfold is_text_type. cbn [hashable]. f_equal. apply scalar_in_str. eauto.
Qed.

Lemma block_segments_text l :
  Forall text_block l ->
  block_segments l =
    inr (bfilter (fun s => negb (py_empty s)) (map (fun item => py_strip (block_text item)) l)).
Proof.
  induction 1 as [|x l (d & ty & t & -> & Hty & Hin & Ht & _) _ IH]; [done|].
  cbn [block_segments]. rewrite (text_type_block d ty) by done. cbn [ebind]. rewrite IH. cbn [ebind].
  rewrite Ht. cbn [map block_text andb]. rewrite Ht. cbn [str_value]. unfold bfilter. cbn [List.filter].
  by destruct (negb (py_empty (py_strip t))).
Qed.

Lemma stringify_ok content :
  content_ok content -> _stringify_content_blocks content = inr (JStr (plain_text content)).
Proof.
  intros [[s ->]|(l & -> & _ & Hl)]; [done|]. unfold _stringify_content_blocks, plain_text.
  rewrite block_segments_text by done. cbn [ebind].
  by destruct (bfilter _ _).
Qed.

(** A message with a role and an acceptable content. *)
Definition runnable_message (message : json) : Prop :=
  exists d, message = JDict d /\ dmem d "role" = true /\ content_ok (jget d "content").

Lemma normalise_messages_ok ms :
  Forall runnable_message ms -> _normalise_chat_messages ms = inr (map plain_message ms).
Proof.
  induction 1 as [|m ms (d & -> & _ & Hc) _ IH]; [done|].
  cbn [_normalise_chat_messages normalise_message]. rewrite stringify_ok by done. cbn [ebind].
  by rewrite IH.
Qed.

Lemma content_present d : content_ok (jget d "content") -> dmem d "content" = true.
Proof.
  intros Hc. destruct (dmem d "content") eqn:E; [done|]. apply jget_absent in E. rewrite E in Hc.
  destruct Hc as [[? ?]|(? & ? & _)]; done.
Qed.

(** The format check lets every such message through. *)
Lemma check_format_ok idx m : runnable_message m -> check_message_format idx m = inr tt.
Proof.
  intros (d & -> & Hr & Hc). cbn [check_message_format]. rewrite Hr, (content_present d) by done.
  cbn [negb orb]. destruct Hc as [[s ->]|(l & -> & _ & Hl)]; [done|].
  apply (efor_each_enumerate _ _ text_block); [|done]. intros i x. split.
  - unfold text_only_block. destruct x as [| | | | | |b]; try done.
    intros (ok & Hb & Hok)%ebind_inr. apply ebind_inr in Hb as (tt' & Htt & [= <-]).
    rewrite eraise_if_inr, negb_false_iff, andb_true_iff in Hok. destruct Hok as [-> Hne].
    unfold is_text_type in Htt. destruct (hashable (jget b "type")) as [sc|] eqn:Eh; [|done].
    injection Htt as Htt. apply scalar_in_str in Htt as (ty & -> & Hin). apply hashable_str in Eh.
    destruct (jget b "text") as [| | | |t| |] eqn:Et; try done. cbn [is_nonempty_str] in Hne.
    apply negb_true_iff in Hne. by exists b, ty, t.
  - intros (b & ty & t & -> & Hty & Hin & Ht & Hne). cbn [text_only_block].
    rewrite (text_type_block b ty) by done. cbn [ebind]. rewrite Ht. cbn [is_nonempty_str].
    by rewrite Hne.
Qed.

Lemma check_all_ok ms :
  Forall runnable_message ms ->
  efor_each (py_enumerate ms) (fun '(idx, msg) => check_message_format idx msg) = inr tt.
Proof.
  intros Hms. apply efor_each_inr. intros [i m] Hin%py_enumerate_elem.
  apply check_format_ok. rewrite Forall_forall in Hms. by apply Hms.
Qed.

(** ** Loading *)

(** The failures the runtime part can end in. *)
Definition runtime_failures : list pystr :=
  ["model_not_found"; "model_unavailable"; "model_load_error"; "model_inference_error";
   "model_response_error"]%pystr.

Definition runtime_failure (e : model_error) : Prop :=
  exists message status kind, e = ModelError message status kind /\ kind ∈ runtime_failures.

Lemma runtime_failure_intro message status kind :
  pystr_in kind runtime_failures = true -> runtime_failure (ModelError message status kind).
Proof.
  unfold pystr_in. intros Hk%bool_decide_eq_true. by exists message, status, kind.
Qed.

Section loading.
Context (rt : Runtime).

Lemma add_loaded_wp k n s Q R :
  Q tt (mkModels (dset (loaded_models s) k n) (constructed s) (messages s)) ->
  wp (add_loaded k n) Q R s.
Proof. done. Qed.

Lemma wrap_failure_wp {A} describe (m : MM A) Q R s :
  wp m Q (fun e s' => R (describe (error_text e)) s') s -> wp (wrap_failure describe m) Q R s.
Proof. unfold wp, wrap_failure. by destruct (m s) as [s' [e|a]]. Qed.

(** The outcome of a load: two cache entries for the new instance, or an
    unchanged cache; at most one constructor call either way. *)
Definition load_outcome (id key : pystr) (s s' : model_state) (r : model_error + model_handle) : Prop :=
  messages s' = messages s /\
  (constructed s' = constructed s \/ exists path, constructed s' = constructed s ++ [path]) /\
  match r with
  | inl e => loaded_models s' = loaded_models s /\ runtime_failure e
  | inr h => exists n, h = Instance n /\
      loaded_models s' = dset (dset (loaded_models s) key n) id n
  end.

Lemma load_model_spec available id meta key llama s :
  wp (load_model available id meta key llama)
    (fun h s' => load_outcome id key s s' (inr h))
    (fun e s' => load_outcome id key s s' (inl e)) s.
Proof.
  assert (Hfail : forall e, runtime_failure (load_failed id (error_text e)))
    by (intros e; by apply runtime_failure_intro).
  assert (Hsame : forall e, load_outcome id key s s (inl (load_failed id (error_text e)))).
  { intros e. split; [done|]. split; [by left|]. split; [done|apply Hfail]. }
  apply wrap_failure_wp, wp_bind.
  assert (Hrest : forall base_meta, wp
    (let* path := lift_val (model_path_of meta base_meta) in
     let* n := construct llama path in
     add_loaded key n ;;; add_loaded id n ;;; ret (Instance n))
    (fun h s' => load_outcome id key s s' (inr h))
    (fun e s' => load_outcome id key s s' (inl (load_failed id (error_text e)))) s).
  { intros base_meta. apply wp_bind, wp_lift_val; [intros e _; apply Hsame|]. intros path _.
    unfold construct. apply wp_bind, wp_bind, wp_get, wp_bind, wp_put, wp_lift_val.
    - intros e _. split; [done|]. split; [right; by exists path|]. split; [done|apply Hfail].
    - intros n _. apply wp_bind, add_loaded_wp, wp_bind, add_loaded_wp, wp_ret.
      split; [done|]. split; [right; by exists path|]. by exists n. }
  destruct (shares_base meta); [|apply wp_ret, Hrest].
  apply wp_lift_val; [intros e _; apply Hsame|]. intros base _. apply Hrest.
Qed.

(** Loading leaves the caller's messages alone and fails only as a runtime. *)
Lemma get_model_instance_wp id s :
  py_empty id = false ->
  wp (get_model_instance AVAILABLE_MODELS rt id)
    (fun _ s' => messages s' = messages s)
    (fun e s' => messages s' = messages s /\ runtime_failure e) s.
Proof.
  intros Hid. unfold get_model_instance. rewrite Hid, canonical_model_id_eq.
  apply wp_bind, wp_ret. rewrite metadata_find. apply wp_bind, wp_ret.
  destruct (List.find _ catalogue_entries) as [meta|].
  2: { rewrite entries_build. apply wp_bind, wp_ret, wp_raise. split; [done|].
       by apply runtime_failure_intro. }
  destruct (USE_MOCK_LLM rt); [by apply wp_ret|].
  destruct (Llama rt) as [llama|].
  2: { apply wp_raise. split; [done|]. by apply runtime_failure_intro. }
  apply wp_bind, wp_get.
  destruct (dget (loaded_models s) _) as [n|]; [by apply wp_bind, add_loaded_wp, wp_ret|].
  eapply wp_mono; [apply load_model_spec|intros h s' [? _]; done|intros e s' (? & _ & _ & ?); done].
Qed.

(** The two writes after a load put the instance under both keys. *)
Lemma add_both_again (d : dict pystr N) k1 k2 n :
  dget (dset (dset d k1 n) k2 n) k1 = Some n /\
  dset (dset (dset d k1 n) k2 n) k2 n = dset (dset d k1 n) k2 n.
Proof.
  split; [|apply dset_id, dget_dset_eq].
  rewrite dget_dset, dget_dset_eq. by case_bool_decide.
Qed.

(** A model that was loaded is found again without another constructor call. *)
Lemma loaded_again available id s s' n :
  get_model_instance available rt id s = (s', inr (Instance n)) ->
  get_model_instance available rt id s' = (s', inr (Instance n)).
Proof.
  unfold get_model_instance. destruct (py_empty id); [done|].
  destruct (canonical_model_id available id) as [e|cid]; [done|].
  rewrite !bind_val with (a := cid) by done.
  destruct (_get_model_metadata available cid) as [e|metadata]; [done|].
  rewrite !bind_val with (a := metadata) by done.
  destruct metadata as [meta|]; [|by destruct (_iter_model_entries available)].
  destruct (USE_MOCK_LLM rt); [done|]. destruct (Llama rt) as [llama|]; [|done].
  set (key := if shares_base meta then _ else cid).
  assert (Hagain : forall s1, dget (loaded_models s1) key = Some n ->
    dset (loaded_models s1) cid n = loaded_models s1 ->
    (let* s := get_state in
     match dget (loaded_models s) key with
     | Some n => add_loaded cid n ;;; ret (Instance n)
     | None => load_model available cid meta key llama
     end) s1 = (s1, inr (Instance n))).
  { intros s1 Hk Hs. unfold bind at 1, get_state. rewrite Hk. unfold bind, add_loaded, modify, ret.
    rewrite Hs. by destruct s1. }
  intros Hrun. apply Hagain; revert Hrun; unfold bind at 1, get_state;
    destruct (dget (loaded_models s) key) as [m|] eqn:Ek.
  - intros [= <- ->]. cbn [loaded_models]. rewrite dget_dset. by case_bool_decide.
  - intros Hrun. pose proof (wp_result _ _ _ _ _ _ (load_model_spec available cid meta key llama s) Hrun)
      as (_ & _ & n' & [= <-] & ->). apply add_both_again.
  - intros [= <- ->]. cbn [loaded_models]. apply dset_id, dget_dset_eq.
  - intros Hrun. pose proof (wp_result _ _ _ _ _ _ (load_model_spec available cid meta key llama s) Hrun)
      as (_ & _ & n' & [= <-] & ->). apply add_both_again.
Qed.

End loading.

(** ** Answering *)

(** No entry of the catalogue is an adapter. *)
Lemma no_adapter id entry :
  _get_model_metadata AVAILABLE_MODELS id = inr (Some entry) -> jget entry "adapter" = JNull.
Proof.
  rewrite metadata_find. intros Hf%(inj inr). apply find_some in Hf as [Hin _].
  assert (Hall : forallb (fun e => is_JNull (jget e "adapter")) catalogue_entries = true)
    by (vm_compute; reflexivity).
  rewrite forallb_forall in Hall. specialize (Hall entry Hin).
  by apply is_JNull_true.
Qed.

(** Where a reply comes from: a canned text in mock mode, else the first choice
    of a completion of exactly these messages. *)
Definition reply_of (rt : Runtime) (plain : list json) (reply : json) : Prop :=
  reply = assistant_message (mock_response (random_choice rt)) \/
  exists n rest, create_chat_completion rt n plain = inr (reply :: rest).

Section answering.
Context (rt : Runtime).

Lemma wrap_other_wp {A} describe (m : MM A) Q R s :
  wp m Q (fun e s' => R (match e with OtherError t => describe t | _ => e end) s') s ->
  wp (wrap_other describe m) Q R s.
Proof. unfold wp, wrap_other. by destruct (m s) as [s' [[]|a]]. Qed.

Lemma append_message_wp reply s Q R :
  Q (messages s ++ [reply]) (mkModels (loaded_models s) (constructed s) (messages s ++ [reply])) ->
  wp (append_message reply) Q R s.
Proof. done. Qed.

Lemma run_model_wp id s plain :
  py_empty id = false -> _normalise_chat_messages (messages s) = inr plain ->
  wp (run_model AVAILABLE_MODELS rt id JNull)
    (fun l s' => messages s' = l /\ exists reply, l = plain ++ [reply] /\ reply_of rt plain reply)
    (fun e s' => messages s' = plain /\
       runtime_failure (match e with OtherError t => inference_failed t | _ => e end)) s.
Proof.
  intros Hid Hn. unfold run_model. apply wp_bind, wp_get, wp_bind. rewrite Hn.
  apply wp_ret, wp_bind, wp_modify, wp_bind.
  eapply wp_mono; [apply get_model_instance_wp, Hid| |].
  2: { intros e s' [Hm (msg & st & kind & -> & Hk)]. split; [done|]. by exists msg, st, kind. }
  intros h s1 _. apply wp_bind, wp_modify. cbn [inject_instructions].
  destruct h as [|n].
  - apply append_message_wp. cbn [messages]. split; [done|].
    exists (assistant_message (mock_response (random_choice rt))). split; [done|by left].
  - apply wp_bind, wp_get, wp_bind. cbn [messages].
    destruct (create_chat_completion rt n plain) as [text|choices] eqn:Ec.
    + apply wp_raise. split; [done|]. by apply runtime_failure_intro.
    + apply wp_ret. destruct choices as [|reply rest].
      * apply wp_raise. split; [done|]. by apply runtime_failure_intro.
      * apply append_message_wp. cbn [messages]. split; [done|]. exists reply. split; [done|].
        right. by exists n, rest.
Qed.

Lemma generate_response_wp id s :
  py_empty id = false -> messages s ≠ [] -> Forall runnable_message (messages s) ->
  wp (generate_response AVAILABLE_MODELS rt id)
    (fun l s' => messages s' = l /\ exists reply,
       l = map plain_message (messages s) ++ [reply] /\
       reply_of rt (map plain_message (messages s)) reply)
    (fun e s' => messages s' = map plain_message (messages s) /\ runtime_failure e) s.
Proof.
  intros Hid Hne Hms. unfold generate_response. rewrite canonical_model_id_eq.
  apply wp_bind, wp_ret, wp_bind, wp_get, wp_bind, wp_raise_if; [by destruct (messages s)|].
  intros _. rewrite check_all_ok by done. apply wp_bind, wp_ret, wp_bind.
  set (cid := if dmem MODEL_ALIASES id then CANONICAL_API_V1_MODEL_ID else id).
  assert (Hcid : py_empty cid = false) by (unfold cid; by destruct (dmem MODEL_ALIASES id)).
  destruct (_get_model_metadata AVAILABLE_MODELS cid) as [e|meta] eqn:Em.
  { by rewrite metadata_find in Em. }
  apply wp_ret, wrap_other_wp.
  assert (Ha : match meta with Some m => jget m "adapter" | None => JNull end = JNull).
  { destruct meta as [m|]; [|done]. by eapply no_adapter. }
  rewrite Ha. apply run_model_wp; [done|]. by apply normalise_messages_ok.
Qed.

End answering.
