(* ===== verification/Moderation.v ===== *)
(** * api/v1/moderation.py: the content policy

    The policy reads its mode and its blocklist from the environment, so the
    environment ([os.getenv]) is an argument.  [_iter_text_fragments] is the list
    the generator yields. *)

From S2P Require Import Prelude PyFloat PyStr PyDict PyText Json.

Definition DEFAULT_BLOCKLIST : list pystr :=
  ["build a bomb"; "harm humans"; "kill"; "make a weapon"; "weaponize"]%pystr.

Record moderation_decision : Set := ModerationDecision {
  allowed : bool;
  reason : option pystr;
  matched_term : option pystr;
  flagged_text : option pystr
}.

(** The [status] property *)
Definition status (d : moderation_decision) : pystr := if allowed d then "allowed" else "blocked".

(** [ModerationDecision(allowed=True)] *)
Definition allow : moderation_decision := ModerationDecision true None None None.

(** [os.getenv] *)
Definition environment : Type := pystr -> option pystr.

Definition getenv (env : environment) (name dflt : pystr) : pystr := default dflt (env name).

(** The generator: nothing for a value that is neither text, a mapping nor a
    list; in a list, nested lists are skipped. *)
Fixpoint _iter_text_fragments (content : json) : list pystr :=
  match content with
  | JStr s => [s]
  | JDict d =>
      (fix text_of (d : list (pystr * json)) : list pystr :=
         match d with
         | [] => []
         | (k, text) :: d' =>
             if bool_decide ("text"%pystr = k) then
               match text with
               | JStr s => [s]
               | JList l => concat (map _iter_text_fragments l)
               | _ => []
               end
             else text_of d'
         end) d
  | JList l =>
      (fix each (l : list json) : list pystr :=
         match l with
         | [] => []
         | item :: l' =>
             match item with
             | JDict d =>
                 if jeq_str (jget d "type") "text" && is_JStr (jget d "text")
                 then [str_value (jget d "text")]
                 else _iter_text_fragments item
             | JStr s => [s]
             | _ => []
             end ++ each l'
         end) l
  | _ => []
  end.

Section policy.
Context `{!PyUnicode} (env : environment).

Definition _get_mode : pystr :=
  let mode := py_lower (py_strip (getenv env "CONTENT_MODERATION_MODE" "disabled")) in
  if pystr_in mode ["1"; "true"; "on"]%pystr then "block" else mode.

(** Deduplication that keeps the first occurrence, over the [seen] set *)
Fixpoint dedup (seen : list pystr) (l : list pystr) : list pystr :=
  match l with
  | [] => []
  | term :: l' =>
      if pystr_in term seen then dedup seen l' else term :: dedup (term :: seen) l'
  end.

Definition extra_terms : list pystr :=
  map (fun term => py_lower (py_strip term))
    (bfilter (fun term => negb (py_empty (py_strip term)))
       (py_split (getenv env "CONTENT_MODERATION_BLOCKLIST" "") 44)).

Definition _get_blocklist : list pystr :=
  let include_defaults :=
    py_lower (py_strip (getenv env "CONTENT_MODERATION_INCLUDE_DEFAULTS" "1")) in
  let use_defaults := negb (pystr_in include_defaults ["0"; "false"; "no"; "off"]%pystr) in
  dedup [] ((if use_defaults then map py_lower DEFAULT_BLOCKLIST else []) ++ extra_terms).

(** [term and term in normalized] *)
Definition term_matches (fragment term : pystr) : bool :=
  negb (py_empty term) && py_contains term (py_lower fragment).

Definition block (fragment term : pystr) : moderation_decision :=
  ModerationDecision false
    (Some ("Request blocked by content moderation policy: matched banned term '"
           +++ term +++ "'."))
    (Some term) (Some fragment).

(** The two inner loops: the first fragment and, within it, the first term *)
Fixpoint first_match (blocklist : list pystr) (fragments : list pystr) : option moderation_decision :=
  match fragments with
  | [] => None
  | fragment :: rest =>
      match List.find (term_matches fragment) blocklist with
      | Some term => Some (block fragment term)
      | None => first_match blocklist rest
      end
  end.

(** [message.get("content") if isinstance(message, Mapping) else None]; a
    missing content has no fragments. *)
Definition message_fragments (message : json) : list pystr :=
  match message with
  | JDict d => if is_JNull (jget d "content") then [] else _iter_text_fragments (jget d "content")
  | _ => []
  end.

Fixpoint scan_messages (blocklist : list pystr) (messages : list json) : moderation_decision :=
  match messages with
  | [] => allow
  | message :: rest =>
      match first_match blocklist (message_fragments message) with
      | Some decision => decision
      | None => scan_messages blocklist rest
      end
  end.

Definition policy_disabled : bool := pystr_in _get_mode ["disabled"; "off"; "none"; ""]%pystr.

Definition evaluate_messages_for_policy (messages : list json) : moderation_decision :=
  if policy_disabled then allow
  else match _get_blocklist with
       | [] => allow
       | blocklist => scan_messages blocklist messages
       end.

(** ** Lemmas *)

Lemma elem_of_dedup seen l x : x ∈ dedup seen l <-> x ∈ l /\ x ∉ seen.
Proof.
  revert seen. induction l as [|y l IH]; intros seen; simpl.
  - split; [by intros ?%not_elem_of_nil|by intros [?%not_elem_of_nil _]].
  - unfold pystr_in. case_bool_decide as Hy; rewrite ?elem_of_cons, IH, ?elem_of_cons.
    + split; [by intros []; split; [right|]|]. intros [[->|] ?]; [done|by split].
    + destruct (decide (x = y)) as [->|Hne]; tauto.
Qed.

Lemma NoDup_dedup seen l : NoDup (dedup seen l).
Proof.
  revert seen. induction l as [|y l IH]; intros seen; simpl; [constructor|].
  destruct (pystr_in y seen); [done|]. constructor; [|done].
  rewrite elem_of_dedup, not_elem_of_cons. tauto.
Qed.

Lemma first_match_some bl l d :
  first_match bl l = Some d ->
  exists fragment term, fragment ∈ l /\ term ∈ bl /\ term_matches fragment term = true /\
    d = block fragment term.
Proof.
  induction l as [|f l IH]; simpl; [done|].
  destruct (List.find (term_matches f) bl) as [term|] eqn:Ef.
  - intros [= <-]. apply find_some in Ef as [Hin Hm]. exists f, term.
    split; [left|]. split; [by apply list_elem_of_In|done].
  - intros (g & t & Hg & ?)%IH. exists g, t. split; [by right|done].
Qed.

Lemma first_match_none bl l :
  first_match bl l = None <->
  forall fragment term, fragment ∈ l -> term ∈ bl -> term_matches fragment term = false.
Proof.
  induction l as [|f l IH]; simpl; [split; [intros _ ? ? ?%not_elem_of_nil|]; done|].
  destruct (List.find (term_matches f) bl) as [term|] eqn:Ef.
  - split; [done|]. intros Hall. apply find_some in Ef as [Hin%list_elem_of_In Hm].
    rewrite (Hall f term) in Hm by (done || left). done.
  - rewrite IH. split.
    + intros Hall g t [->|Hg]%elem_of_cons Ht; [|by apply Hall].
      apply list_elem_of_In in Ht. by apply (find_none _ _ Ef).
    + intros Hall g t Hg. apply Hall. by right.
Qed.

(** A blocked request names a banned term and the text that holds it. *)
Lemma scan_messages_blocked bl ms :
  allowed (scan_messages bl ms) = false ->
  exists m fragment term, m ∈ ms /\ fragment ∈ message_fragments m /\ term ∈ bl /\
    term_matches fragment term = true /\ scan_messages bl ms = block fragment term.
Proof.
  induction ms as [|m ms IH]; simpl; [done|].
  destruct (first_match bl (message_fragments m)) as [d|] eqn:Em.
  - apply first_match_some in Em as (f & t & Hf & Ht & Hm & ->). intros _.
    exists m, f, t. split; [left|done].
  - intros (m' & f & t & Hm' & ?)%IH. exists m', f, t. split; [by right|done].
Qed.

Lemma scan_messages_allowed bl ms :
  allowed (scan_messages bl ms) = true <->
  forall m fragment term, m ∈ ms -> fragment ∈ message_fragments m -> term ∈ bl ->
    term_matches fragment term = false.
Proof.
  induction ms as [|m ms IH]; simpl; [split; [intros _ ? ? ? ?%not_elem_of_nil|]; done|].
  destruct (first_match bl (message_fragments m)) as [d|] eqn:Em.
  - assert (Hs := Em). apply first_match_some in Em as (f & t & Hf & Ht & Hm & ->).
    split; [done|]. intros Hall. rewrite (Hall m f t) in Hm by (done || left). done.
  - rewrite IH. rewrite first_match_none in Em. split.
    + intros Hall m' f t [->|Hm']%elem_of_cons; [by apply Em|by apply Hall].
    + intros Hall m' f t Hm'. apply Hall. by right.
Qed.

End policy.

(** ** The fragments of each shape of content *)

Lemma fragments_dict d :
  _iter_text_fragments (JDict d) =
    match jget d "text" with
    | JStr s => [s]
    | JList l => concat (map _iter_text_fragments l)
    | _ => []
    end.
Proof.
  unfold jget. simpl. induction d as [|[k v] d IH]; [done|].
  cbn [dget]. case_bool_decide; [by destruct v|]. exact IH.
Qed.

(** The text of every block of a list is yielded. *)
Lemma fragments_block d l t :
  JDict d ∈ l -> jget d "text" = JStr t -> t ∈ _iter_text_fragments (JList l).
Proof.
  intros Hin Ht. induction l as [|x l IH]; [by apply not_elem_of_nil in Hin|].
  cbn [_iter_text_fragments]. apply elem_of_app.
  apply elem_of_cons in Hin as [<-|Hin]; [left|by right; apply IH].
  destruct (jeq_str (jget d "type") "text" && is_JStr (jget d "text")).
  - rewrite Ht. left.
  - rewrite fragments_dict, Ht. left.
Qed.

Example fragments_lit :
  _iter_text_fragments (JList [JStr "a"; JDict [("type", JStr "text"); ("text", JStr "b")];
                               JDict [("text", JList [JStr "c"; JInt 1])]; JList [JStr "d"]])%pystr
  = ["a"; "b"; "c"]%pystr.
Proof. vm_compute. reflexivity. Qed.
