(* ===== verification/OperatorAuth.v ===== *)
(** * api/security.py: the operator guard

    [ensure_operator_access] decides on the environment and on the request's
    headers, which Flask supplies: both are lookup functions here.  The response
    formatter is the caller's; its arguments are the result. *)

From S2P Require Import Prelude PyFloat PyStr PyDict PyText Moderation.

Definition OPERATOR_TOKEN_HEADER : pystr := "X-Token-Place-Operator".

Definition _OPERATOR_TOKEN_ENV_VARS : list pystr :=
  ["TOKEN_PLACE_OPERATOR_TOKEN"; "TOKEN_PLACE_KEY_ROTATION_TOKEN"; "PUBLIC_KEY_ROTATION_TOKEN"]%pystr.

(** The arguments of [format_error_response] *)
Record error_response : Set := mkErrorResponse {
  response_message : pystr;
  error_type : pystr;
  error_code : pystr;
  status_code : Z
}.

(** The first variable whose stripped value is not empty *)
Fixpoint first_token (env : environment) (vars : list pystr) : option pystr :=
  match vars with
  | [] => None
  | env_var :: rest =>
      match env env_var with
      | None => first_token env rest
      | Some raw =>
          if py_empty raw then first_token env rest
          else let token := py_strip raw in
               if py_empty token then first_token env rest else Some token
      end
  end.

Definition _expected_operator_token (env : environment) : option pystr :=
  first_token env _OPERATOR_TOKEN_ENV_VARS.

(** The token the request carries: the operator header, else a bearer token *)
Definition provided_operator_token (headers : pystr -> option pystr) : option pystr :=
  let provided := headers OPERATOR_TOKEN_HEADER in
  match provided with
  | Some t => if py_empty t then
                let auth_header := default ""%pystr (headers "Authorization"%pystr) in
                if py_startswith auth_header "Bearer " then py_after auth_header 32 else provided
              else provided
  | None =>
      let auth_header := default ""%pystr (headers "Authorization"%pystr) in
      if py_startswith auth_header "Bearer " then py_after auth_header 32 else provided
  end.

(** [None] grants access. *)
Definition ensure_operator_access (env : environment) (headers : pystr -> option pystr) :
  option error_response :=
  match _expected_operator_token env with
  | None => Some (mkErrorResponse "Operator authentication is not configured"
                    "authentication_error" "operator_auth_not_configured" 503)
  | Some expected =>
      if bool_decide (provided_operator_token headers = Some expected) then None
      else Some (mkErrorResponse "Operator token missing or invalid"
                   "authentication_error" "operator_token_invalid" 401)
  end.

Lemma first_token_some env vars t :
  first_token env vars = Some t ->
  py_empty t = false /\ exists v raw, v ∈ vars /\ env v = Some raw /\ t = py_strip raw.
Proof.
  induction vars as [|v vars IH]; simpl; [done|].
  assert (Hrest : first_token env vars = Some t ->
    py_empty t = false /\ exists v' raw, v' ∈ v :: vars /\ env v' = Some raw /\ t = py_strip raw).
  { intros (Hne & v' & raw & Hin & ?)%IH. split; [done|]. exists v', raw. split; [by right|done]. }
  destruct (env v) as [raw|] eqn:Ev; [|done]. destruct (py_empty raw); [done|].
  destruct (py_empty (py_strip raw)) eqn:Ep; [done|]. intros [= <-]. split; [done|].
  exists v, raw. split; [left|done].
Qed.

(** The prefix ["Bearer "] and the token split apart again. *)
Lemma bearer_token t : py_after ("Bearer " +++ t) 32 = Some t.
Proof. destruct t as [l]. reflexivity. Qed.

Lemma bearer_starts t : py_startswith ("Bearer " +++ t) "Bearer " = true.
Proof. unfold py_startswith. apply bool_decide_eq_true. destruct t as [l]. by exists l. Qed.
