(* ===== verification/Config.v ===== *)
(** * config.py: the configuration tree

    [src/config.py] over the defaults of [src/utils/config_schema.py]: dotted access,
    the recursive merge of overrides, the environment's overrides, the relay pool and
    the copy that is written to disk.  The tree is a JSON document.

    The process environment, the environment's name, the platform's directories and
    the document read from the user's file are arguments: [utils/env_loader.py] and
    [utils/path_handling.py] supply them from files.  Logging and the creation of
    directories are left out. *)

From S2P Require Import Prelude PyFloat PyStr PyDict PyText Json JsonText Profiles Moderation.

(** The exceptions that escape: an index or assignment into a value that is no
    dictionary, a method a value does not have, a missing key *)
Inductive config_error : Set :=
| ConfigTypeError
| ConfigAttributeError
| ConfigKeyError (key : pystr).

(** ** Defaults *)

Definition profile_field (profile : jdict) (k : pystr) : config_error + json :=
  match dget profile k with Some v => inr v | None => inl (ConfigKeyError k) end.

(** [get_default_model_profile()]; a missing profile is its [KeyError]. *)
Definition _DEFAULT_MODEL_PROFILE : config_error + jdict :=
  match get_default_model_profile with inr p => inr p | inl k => inl (ConfigKeyError k) end.

Definition model_section : config_error + jdict :=
  let? profile := _DEFAULT_MODEL_PROFILE in
  let? profile_id := profile_field profile "profile_id" in
  let? api_model_id := profile_field profile "api_model_id" in
  let? filename := profile_field profile "filename" in
  let? url := profile_field profile "download_url" in
  let? family_url := profile_field profile "canonical_family_url" in
  let? context_size := profile_field profile "default_context_tokens" in
  let? template := profile_field profile "chat_template_policy" in
  let? thinking := profile_field profile "thinking_mode" in
  let? native := profile_field profile "native_context_tokens" in
  let? validated := profile_field profile "maximum_validated_context_tokens" in
  let? tiers := profile_field profile "supported_context_tiers" in
  let? scaling := profile_field profile "rope_scaling_policy" in
  inr [("default_model", JStr "gpt-5-chat-latest"); ("fallback_model", JStr "gpt-5-chat-latest");
       ("temperature", JFloat f0_7); ("max_tokens", JInt 1000); ("use_mock", JBool false);
       ("profile_id", profile_id); ("api_model_id", api_model_id); ("filename", filename);
       ("url", url); ("canonical_family_url", family_url); ("context_size", context_size);
       ("chat_format", JStr "llama-3"); ("chat_template_policy", template);
       ("thinking_mode", thinking); ("native_context_tokens", native);
       ("maximum_validated_context_tokens", validated); ("supported_context_tiers", tiers);
       ("rope_scaling_policy", scaling); ("download_chunk_size_mb", JInt 10)]%pystr.

Definition server_section : jdict :=
  [("host", JStr "127.0.0.1"); ("port", JInt 5000); ("debug", JBool false); ("workers", JInt 4);
   ("timeout", JInt 30); ("base_url", JStr "http://localhost")]%pystr.

Definition DEFAULT_SERVER_URL : pystr := "https://token.place".

Definition relay_section : jdict :=
  [("host", JStr "127.0.0.1"); ("port", JInt 5000); ("server_url", JStr DEFAULT_SERVER_URL);
   ("server_pool", JList []); ("server_pool_secondary", JList []); ("workers", JInt 2);
   ("additional_servers", JList []); ("server_registration_token", JNull);
   ("cluster_only", JBool false); ("cloudflare_fallback_urls", JList [])]%pystr.

Definition api_section : jdict :=
  [("host", JStr "127.0.0.1"); ("port", JInt 3000); ("relay_url", JStr "https://token.place");
   ("cors_origins", JList [JStr "*"])]%pystr.

Definition security_section : jdict :=
  [("encryption_enabled", JBool true); ("key_size", JInt 2048); ("key_expiry_days", JInt 30)]%pystr.

Definition paths_section : jdict :=
  [("data_dir", JStr ""); ("models_dir", JStr ""); ("logs_dir", JStr ""); ("cache_dir", JStr "");
   ("keys_dir", JStr ""); ("config_dir", JStr "")]%pystr.

Definition constants_section : jdict :=
  [("KB", JInt 1024); ("MB", JInt (1024 * 1024)); ("GB", JInt (1024 * 1024 * 1024))]%pystr.

Definition DEFAULT_CONFIG : config_error + jdict :=
  let? model := model_section in
  inr [("server", JDict server_section); ("relay", JDict relay_section); ("api", JDict api_section);
       ("security", JDict security_section); ("paths", JDict paths_section); ("model", JDict model);
       ("constants", JDict constants_section)]%pystr.

Definition ENV_OVERRIDES : dict pystr jdict :=
  [("development",
      [("server", JDict [("debug", JBool true)]);
       ("security", JDict [("encryption_enabled", JBool true)])]);
   ("testing",
      [("server", JDict [("debug", JBool true); ("port", JInt 8001)]);
       ("relay", JDict [("port", JInt 5001); ("server_url", JStr "http://localhost:8001")]);
       ("api", JDict [("port", JInt 3001); ("relay_url", JStr "http://localhost:5001")]);
       ("security", JDict [("encryption_enabled", JBool true); ("key_size", JInt 1024)])]);
   ("production",
      [("server", JDict [("debug", JBool false); ("workers", JInt 8)]);
       ("security", JDict [("encryption_enabled", JBool true)])])]%pystr.

(** ** Dotted access *)

Definition key_path (key : pystr) : list pystr := py_split key 46.

(** [value[k]] along a path; [None] is the [KeyError] or [TypeError] of a step. *)
Fixpoint get_path (value : json) (keys : list pystr) : option json :=
  match keys with
  | [] => Some value
  | k :: keys' => match value with
                  | JDict d => v ← dget d k; get_path v keys'
                  | _ => None
                  end
  end.

(** [Config.get] *)
Definition config_get (config : jdict) (key : pystr) (dflt : json) : json :=
  default dflt (get_path (JDict config) (key_path key)).

(** Assignment along a path, the missing dictionaries created on the way.  A step
    into a value that is no dictionary raises [TypeError]. *)
Fixpoint set_path (config : jdict) (keys : list pystr) (value : json) : config_error + jdict :=
  match keys with
  | [] => inr config
  | [k] => inr (dset config k value)
  | k :: keys' =>
      match default (JDict []) (dget config k) with
      | JDict sub => let? sub' := set_path sub keys' value in inr (dset config k (JDict sub'))
      | _ => inl ConfigTypeError
      end
  end.

(** [Config.set] *)
Definition config_set (config : jdict) (key : pystr) (value : json) : config_error + jdict :=
  set_path config (key_path key) value.

(** ** Merging *)

(** [d.setdefault(k, v)] *)
Definition setdefault (d : jdict) (k : pystr) (v : json) : jdict := if dmem d k then d else dset d k v.

(** The loop over [override.items()], where [merge] is the recursive call *)
Section items.
Context (merge : json -> json -> json).

Fixpoint merge_items (override : list (pystr * json)) (base : jdict) : jdict :=
  match override with
  | [] => base
  | (k, v) :: override' =>
      merge_items override'
        (dset base k (match dget base k with Some old => merge v old | None => v end))
  end.

End items.

(** [_merge_configs(base, override)], an override being a value of the document:
    two dictionaries are merged key by key, anything else is replaced. *)
Fixpoint merge_value (override base : json) {struct override} : json :=
  match override, base with
  | JDict o, JDict b => JDict (merge_items merge_value o b)
  | _, _ => override
  end.

Definition _merge_configs (base override : jdict) : jdict :=
  match merge_value (JDict override) (JDict base) with JDict d => d | _ => base end.

Definition _apply_production_defaults (environ : environment) (overrides : jdict) :
  config_error + jdict :=
  let host section var d :=
    match default (JDict []) (dget d section) with
    | JDict sub => inr (dset d section (JDict (setdefault sub "host" (JStr (getenv environ var "127.0.0.1")))))
    | _ => inl ConfigAttributeError
    end in
  let? overrides := host "server" "PROD_SERVER_HOST" overrides in
  let? overrides := host "relay" "PROD_RELAY_HOST" overrides in
  host "api" "PROD_API_HOST" overrides.

(** ** Relay URLs *)

(** [_normalise_url]: a falsy value is the empty text; another value that is not
    text has no [strip]. *)
Definition _normalise_url (value : json) : config_error + pystr :=
  if negb (truthy value) then inr ""%pystr
  else match value with
       | JStr s => inr (py_rstrip (py_strip s) 47)
       | _ => inl ConfigAttributeError
       end.

(** [if url] for the URLs of a list: the normalised ones that are not empty *)
Fixpoint nonempty_urls (l : list json) : config_error + list pystr :=
  match l with
  | [] => inr []
  | v :: l' =>
      let? url := _normalise_url v in
      let? urls := nonempty_urls l' in
      inr (if py_empty url then urls else url :: urls)
  end.

(** Text is always normalised. *)
Definition text_urls (l : list pystr) : list pystr :=
  bfilter (fun u => negb (py_empty u)) (map (fun s => py_rstrip (py_strip s) 47) l).

(** [for x in value] *)
Definition iterate (value : json) : config_error + list json :=
  match value with
  | JList l => inr l
  | JStr s => inr (map (fun c => JStr (PyStr [c])) (codes s))
  | JDict d => inr (map (fun kv => JStr kv.1) d)
  | _ => inl ConfigTypeError
  end.

(** [value or []], iterated *)
Definition iterate_or_empty (value : json) : config_error + list json :=
  if truthy value then iterate value else inr [].

(** The [deduped] loops: the first occurrence of each *)
Definition dedup_urls (l : list pystr) : list pystr := dedup [] (bfilter (fun u => negb (py_empty u)) l).

Section environment.
Context `{!PyUnicode, !PyNumbers} (environ : environment).

(** JSON text, or entries separated by commas and line breaks *)
Definition _parse_relay_upstreams (raw_value : pystr) : list pystr :=
  match json_loads raw_value with
  | None => text_urls (py_split (py_replace raw_value 10 44) 44)
  | Some (JStr s) => text_urls [s]
  | Some (JList l) => text_urls (omap (fun v => match v with JStr s => Some s | _ => None end) l)
  | Some _ => []
  end.

Definition _gather_configured_relay_upstreams : list pystr :=
  let raw_pool := py_strip (getenv environ "TOKEN_PLACE_RELAY_UPSTREAMS" "") in
  let upstreams := if py_empty raw_pool then [] else _parse_relay_upstreams raw_pool in
  let legacy := text_urls [getenv environ "PERSONAL_GAMING_PC_URL" ""%pystr] in
  dedup_urls (legacy ++ upstreams).

Definition _gather_cloudflare_fallbacks (config : jdict) : config_error + list pystr :=
  let env_value := py_strip (getenv environ "TOKEN_PLACE_RELAY_CLOUDFLARE_URLS" "") in
  let single_env := py_strip (getenv environ "TOKEN_PLACE_RELAY_CLOUDFLARE_URL" "") in
  let? configured := iterate_or_empty (config_get config "relay.cloudflare_fallback_urls" (JList [])) in
  let? candidates := nonempty_urls configured in
  let listed := if py_empty env_value then [] else _parse_relay_upstreams env_value in
  inr (dedup_urls (candidates ++ listed ++ text_urls [single_env])).

(** [_parse_bool] *)
Definition _parse_bool (value : pystr) : option bool :=
  let lowered := py_lower (py_strip value) in
  if pystr_in lowered ["1"; "true"; "yes"; "on"]%pystr then Some true
  else if pystr_in lowered ["0"; "false"; "no"; "off"]%pystr then Some false
  else None.

(** The URL and the pool agree: the URL first, and the rest of the pool apart. *)
Definition consistent_pool (server_url : pystr) (pool : list pystr) : pystr * list pystr :=
  if negb (py_empty server_url) then
    (server_url,
     match pool with
     | first :: _ => if bool_decide (first = server_url) then pool
                     else server_url :: bfilter (fun e => negb (bool_decide (e = server_url))) pool
     | [] => [server_url]
     end)
  else match pool with
       | first :: _ => (first, pool)
       | [] => (DEFAULT_SERVER_URL, [DEFAULT_SERVER_URL])
       end.

Definition _normalise_relay_server_pool (config : jdict) : config_error + jdict :=
  match default (JDict []) (dget config "relay") with
  | JDict relay_config =>
      let? server_url := _normalise_url (default (JStr "") (dget relay_config "server_url")) in
      let? entries := iterate_or_empty (jget relay_config "server_pool") in
      let? pool := nonempty_urls entries in
      let '(server_url, pool) := consistent_pool server_url pool in
      let relay_config := dset relay_config "server_url" (JStr server_url) in
      let relay_config := dset relay_config "server_pool" (jstrs pool) in
      let relay_config := dset relay_config "server_pool_secondary" (jstrs (tail pool)) in
      inr (dset config "relay" (JDict relay_config))
  | _ => inl ConfigAttributeError
  end.

Definition _apply_runtime_env_overrides (config : jdict) : config_error + jdict :=
  let relay_upstreams := _gather_configured_relay_upstreams in
  let? config := match relay_upstreams with
                 | first :: _ =>
                     let? config := config_set config "relay.server_pool" (jstrs relay_upstreams) in
                     config_set config "relay.server_url" (JStr first)
                 | [] => inr config
                 end in
  let? config := match environ "TOKEN_PLACE_RELAY_SERVER_TOKEN"%pystr with
                 | Some token => if py_empty token then inr config
                                 else config_set config "relay.server_registration_token"
                                        (JStr (py_strip token))
                 | None => inr config
                 end in
  let? cf_env := _gather_cloudflare_fallbacks config in
  let? config := config_set config "relay.cloudflare_fallback_urls" (jstrs cf_env) in
  let? config := match environ "TOKEN_PLACE_RELAY_CLUSTER_ONLY"%pystr with
                 | Some text => match _parse_bool text with
                                | Some b => config_set config "relay.cluster_only" (JBool b)
                                | None => inr config
                                end
                 | None => inr config
                 end in
  _normalise_relay_server_pool config.

(** [self.config['paths'].update(...)] *)
Definition _configure_platform_paths (paths : jdict) (config : jdict) : config_error + jdict :=
  match dget config "paths" with
  | None => inl (ConfigKeyError "paths")
  | Some (JDict current) =>
      inr (dset config "paths" (JDict (fold_left (fun d kv => dset d kv.1 kv.2) paths current)))
  | Some _ => inl ConfigAttributeError
  end.

(** What the user's file holds: [None] when there is none or it is no JSON.  A
    document that is no dictionary has no [items], an error the loader logs. *)
Definition _load_user_config (user : option json) (config : jdict) : jdict :=
  match user with
  | Some (JDict user_config) => _merge_configs config user_config
  | _ => config
  end.

(** [_initialise_config_tree], which the constructor and [reset] run *)
Definition _initialise_config_tree (env : pystr) (paths : jdict) (user : option json) :
  config_error + jdict :=
  let? config := DEFAULT_CONFIG in
  let? config := match dget ENV_OVERRIDES env with
                 | Some overrides =>
                     let? overrides := if bool_decide (env = "production"%pystr)
                                       then _apply_production_defaults environ overrides
                                       else inr overrides in
                     inr (_merge_configs config overrides)
                 | None => inr config
                 end in
  let? config := _configure_platform_paths paths config in
  let config := _load_user_config user config in
  _apply_runtime_env_overrides config.

End environment.

(** ** The copy that is saved *)

Definition SENSITIVE_CONFIG_KEYS : list pystr := ["relay.server_registration_token"]%pystr.

(** Sets the leaf of a path to [None] when every step is a dictionary that has it. *)
Fixpoint redact_path (config : jdict) (keys : list pystr) : jdict :=
  match keys with
  | [] => config
  | [k] => if dmem config k then dset config k JNull else config
  | k :: keys' => match dget config k with
                  | Some (JDict sub) => dset config k (JDict (redact_path sub keys'))
                  | _ => config
                  end
  end.

Definition _redacted_config_copy (config : jdict) : jdict :=
  fold_left (fun c key => redact_path c (key_path key)) SENSITIVE_CONFIG_KEYS config.
