(* ===== verification/ConfigSound.v ===== *)
(** * The configuration tree: lookups

    What a path holds after an assignment, a merge, a redaction and the
    initialisation of the tree.  Paths [p] and [q] are apart when neither extends the
    other. *)

From S2P Require Import Prelude PyFloat PyStr PyDict PyText Json JsonText Profiles.
From S2P Require Import Moderation Config.

Definition apart (p q : list pystr) : Prop := ~ p `prefix_of` q /\ ~ q `prefix_of` p.

Lemma apart_cons k p q : apart (k :: p) (k :: q) <-> apart p q.
Proof. unfold apart. split; intros [H1 H2]; split; intros H; [apply H1|apply H2|apply H1|apply H2];
  solve [by apply prefix_cons | by eapply prefix_cons_inv_2]. Qed.

(** Two paths that are apart part at some key. *)
Lemma apart_inv k p q : apart (k :: p) q ->
  exists k' q', q = k' :: q' /\ (k' = k -> p ≠ [] /\ q' ≠ [] /\ apart p q').
Proof.
  destruct q as [|k' q']; intros Ha; [by destruct Ha as [_ []]; apply prefix_nil|].
  exists k', q'. split; [done|]. intros ->. apply apart_cons in Ha.
  split_and!; [| |done]; intros ->; destruct Ha as [H1 H2]; [apply H1|apply H2]; apply prefix_nil.
Qed.

Lemma get_path_app v p q : get_path v (p ++ q) = get_path v p ≫= fun w => get_path w q.
Proof.
  revert v. induction p as [|k p IH]; intros v; [done|]. destruct v; simpl; try done.
  destruct (dget d k); [apply IH|done].
Qed.

Lemma get_path_dset d k v k' p :
  get_path (JDict (dset d k v)) (k' :: p) =
  if bool_decide (k' = k) then get_path v p else get_path (JDict d) (k' :: p).
Proof. simpl. rewrite dget_dset. by case_bool_decide. Qed.

Lemma get_path_empty p : p ≠ [] -> get_path (JDict []) p = None.
Proof. by destruct p. Qed.

Lemma key_path_cons key : exists k p, key_path key = k :: p.
Proof.
  unfold key_path, py_split. destruct (split_codes 46 (codes key)) as [|k p] eqn:E; [|by eexists _, _].
  exfalso. revert E. induction (codes key) as [|c l IH]; simpl; [done|].
  destruct (N.eqb _ _); [done|]. by destruct (split_codes 46 l).
Qed.

(** ** Assignment *)

Lemma set_path_cons c k k2 p v c' : set_path c (k :: k2 :: p) v = inr c' ->
  exists sub sub', default (JDict []) (dget c k) = JDict sub /\
    set_path sub (k2 :: p) v = inr sub' /\ c' = dset c k (JDict sub').
Proof.
  intros Hs. cbn [set_path] in Hs. destruct (default _ _) as [| | | | | |sub]; try done.
  apply ebind_inr in Hs as (sub' & Hs & [= <-]). by exists sub, sub'.
Qed.

Lemma get_set_path p c v c' : p ≠ [] -> set_path c p v = inr c' -> get_path (JDict c') p = Some v.
Proof.
  revert c c'. induction p as [|k [|k2 p] IH]; intros c c' Hp Hs; [done| |].
  - injection Hs as <-. by rewrite get_path_dset, bool_decide_eq_true_2.
  - apply set_path_cons in Hs as (sub & sub' & _ & Hs & ->).
    rewrite get_path_dset, bool_decide_eq_true_2 by done. by eapply IH.
Qed.

Lemma get_set_path_apart p q c v c' : apart p q -> set_path c p v = inr c' ->
  get_path (JDict c') q = get_path (JDict c) q.
Proof.
  revert q c c'. induction p as [|k p IH]; intros q c c' Ha Hs; [by injection Hs as <-|].
  apply apart_inv in Ha as (k' & q' & -> & Hk). destruct p as [|k2 p].
  - injection Hs as <-. rewrite get_path_dset. case_bool_decide as E; [by destruct (Hk E)|done].
  - apply set_path_cons in Hs as (sub & sub' & Hd & Hs & ->). rewrite get_path_dset.
    case_bool_decide as E; [|done]. destruct (Hk E) as (_ & Hq & Ha). subst k'.
    rewrite (IH _ _ _ Ha Hs). simpl. destruct (dget c k) as [w|]; simpl in *; [by subst|].
    injection Hd as <-. by rewrite get_path_empty.
Qed.

(** ** Merging *)

(** No dictionary of the document has a key twice, as no Python dictionary can. *)
Inductive distinct_keys : json -> Prop :=
| dk_leaf j : is_JDict j = false -> distinct_keys j
| dk_dict d : NoDup (dkeys d) -> Forall (fun kv => distinct_keys kv.2) d -> distinct_keys (JDict d).

Lemma dget_merge_items merge o b k : NoDup (dkeys o) ->
  dget (merge_items merge o b) k =
  match dget o k with
  | Some v => Some (match dget b k with Some old => merge v old | None => v end)
  | None => dget b k
  end.
Proof.
  revert b. induction o as [|[k0 v0] o IH]; intros b Hd; [done|]. simpl in *.
  apply NoDup_cons in Hd as [Hn Hd]. rewrite IH by done. rewrite dget_dset.
  case_bool_decide as E; [|done]. subst. apply dget_None in Hn. by rewrite Hn.
Qed.

Lemma merge_value_leaf v b : is_JDict v = false -> merge_value v b = v.
Proof. by destruct v. Qed.

Lemma merge_value_over v b : is_JDict b = false -> merge_value v b = v.
Proof. by destruct v, b. Qed.

(** An override says nothing about a path when one of its dictionaries on the way
    lacks the next key. *)
Fixpoint silent (override : json) (p : list pystr) : Prop :=
  match p with
  | [] => False
  | k :: p' => match override with
               | JDict d => match dget d k with None => True | Some v => silent v p' end
               | _ => False
               end
  end.

Lemma silent_get v p : silent v p -> get_path v p = None.
Proof.
  revert v. induction p as [|k p IH]; intros v; [done|]. destruct v; simpl; try done.
  destruct (dget d k); [apply IH|done].
Qed.

Lemma distinct_sub d k v : distinct_keys (JDict d) -> dget d k = Some v ->
  NoDup (dkeys d) /\ distinct_keys v.
Proof.
  intros Hd Hg. inversion Hd as [?|? Hn Hf]; subst; [done|]. split; [done|].
  apply dget_elem_of in Hg. rewrite Forall_forall in Hf. by apply (Hf (k, v)).
Qed.

Lemma distinct_nodup d : distinct_keys (JDict d) -> NoDup (dkeys d).
Proof. by inversion 1. Qed.

Lemma merge_override_wins p o b v : distinct_keys o -> get_path o p = Some v ->
  is_JDict v = false -> get_path (merge_value o b) p = Some v.
Proof.
  revert o b. induction p as [|k p IH]; intros o b Hd Hg Hv.
  - injection Hg as ->. by rewrite merge_value_leaf.
  - destruct o as [| | | | | |o]; try done. destruct b as [| | | | | |b]; try done.
    simpl in *. rewrite dget_merge_items by by apply distinct_nodup.
    destruct (dget o k) as [w|] eqn:Ek; [|done]. simpl in *.
    destruct (distinct_sub _ _ _ Hd Ek) as [_ Hw]. destruct (dget b k); [by apply IH|done].
Qed.

Lemma merge_default_stays p o b : distinct_keys o -> is_JDict b = true -> silent o p ->
  get_path (merge_value o b) p = get_path b p.
Proof.
  revert o b. induction p as [|k p IH]; intros o b Hd Hb Hs; [done|].
  destruct o as [| | | | | |o]; try done. destruct b as [| | | | | |b]; try done.
  simpl in *. rewrite dget_merge_items by by apply distinct_nodup.
  destruct (dget o k) as [w|] eqn:Ek; [|done]. simpl.
  destruct (distinct_sub _ _ _ Hd Ek) as [_ Hw].
  destruct (dget b k) as [old|]; simpl; [|by apply silent_get].
  destruct (is_JDict old) eqn:Eo; [by apply IH|]. rewrite merge_value_over by done.
  rewrite silent_get by done. destruct p; [done|]. by destruct old.
Qed.

(** ** Redaction *)

Lemma get_redact_path p c : p ≠ [] -> default JNull (get_path (JDict (redact_path c p)) p) = JNull.
Proof.
  revert c. induction p as [|k [|k2 p] IH]; intros c Hp; [done| |].
  - cbn [redact_path]. unfold dmem. destruct (dget c k) eqn:E; [|simpl; by rewrite E].
    by rewrite get_path_dset, bool_decide_eq_true_2.
  - cbn [redact_path]. destruct (dget c k) as [w|] eqn:E; [|simpl; by rewrite E].
    destruct w as [| | | | | |sub]; try (simpl; by rewrite E).
    rewrite get_path_dset, bool_decide_eq_true_2 by done. by apply IH.
Qed.

Lemma get_redact_path_apart p q c : apart p q ->
  get_path (JDict (redact_path c p)) q = get_path (JDict c) q.
Proof.
  revert q c. induction p as [|k p IH]; intros q c Ha; [done|].
  apply apart_inv in Ha as (k' & q' & -> & Hk). destruct p as [|k2 p].
  - cbn [redact_path]. destruct (dmem c k); [|done]. rewrite get_path_dset.
    case_bool_decide as E; [by destruct (Hk E)|done].
  - cbn [redact_path]. destruct (dget c k) as [[| | | | | |sub]|] eqn:E; try done.
    rewrite get_path_dset. case_bool_decide as Ek; [|done].
    destruct (Hk Ek) as (_ & _ & Ha). subst k'. etransitivity; [by apply (IH q' sub)|]. simpl. by rewrite E.
Qed.

(** * The configuration tree: initialisation

    The relay section of the tree the constructor builds, and when it is built. *)

#[export] Instance apart_dec p q : Decision (apart p q).
Proof. unfold apart. apply _. Defined.

(** A closed membership test *)
Ltac by_evaluation :=
  solve [ done | apply (bool_decide_eq_false_1 _); done
        | intros Hin; exfalso; revert Hin; apply (bool_decide_eq_false_1 _); done ].

(** The kinds of value the relay section needs *)
Definition is_text (v : json) : Prop := exists s, v = JStr s.
Definition is_texts (v : json) : Prop := exists l, v = jstrs l.

Definition url_keys : list pystr := ["server_url"]%pystr.
Definition url_list_keys : list pystr := ["server_pool"; "cloudflare_fallback_urls"]%pystr.

(** A relay section whose URLs are texts, absent keys aside *)
Definition texts_where_present (relay : jdict) : Prop :=
  (forall k v, k ∈ url_keys -> dget relay k = Some v -> is_text v) /\
  (forall k v, k ∈ url_list_keys -> dget relay k = Some v -> is_texts v).

(** A tree whose relay section is such a dictionary, with [Q] *)
Definition relay_typed (Q : jdict -> Prop) (config : jdict) : Prop :=
  exists relay, dget config "relay" = Some (JDict relay) /\ texts_where_present relay /\ Q relay.

(** The section names the upstreams of the environment, when there are any. *)
Definition pool_from (upstreams : list pystr) (relay : jdict) : Prop :=
  match upstreams with
  | [] => True
  | first :: _ => dget relay "server_url" = Some (JStr first) /\
                  dget relay "server_pool" = Some (jstrs upstreams)
  end.

(** A user's file that keeps the section so *)
Definition relay_override_ok (user : option json) : Prop :=
  forall u section, user = Some (JDict u) -> distinct_keys (JDict u) /\
    (dget u "relay" = Some section -> exists r, section = JDict r /\ texts_where_present r).

#[local] Instance JStr_inj : Inj (=) (=) JStr.
Proof. by intros ? ? [=]. Qed.

Lemma nonempty_urls_texts l : nonempty_urls (map JStr l) = inr (text_urls l).
Proof.
  unfold text_urls. induction l as [|s l IH]; [done|]. cbn [map nonempty_urls bfilter List.filter].
  rewrite IH. unfold _normalise_url. simpl truthy.
  destruct (py_empty s) eqn:E; cbn [negb ebind].
  - destruct s as [[|c s]]; [|done]. done.
  - by destruct (py_empty (py_rstrip (py_strip s) 47)).
Qed.

Lemma text_urls_cons s l : text_urls (s :: l) =
  if py_empty (py_rstrip (py_strip s) 47) then text_urls l
  else py_rstrip (py_strip s) 47 :: text_urls l.
Proof. unfold text_urls, bfilter. simpl. by destruct (py_empty _). Qed.

Lemma urls_of_texts v : is_texts v -> exists l,
  v = jstrs l /\ (let? entries := iterate_or_empty v in nonempty_urls entries) = inr (text_urls l).
Proof.
  intros [l ->]. exists l. split; [done|]. unfold iterate_or_empty, jstrs. simpl truthy.
  destruct l; [done|]. apply nonempty_urls_texts.
Qed.

Lemma normalise_url_text v : is_text v -> exists s, v = JStr s /\
  _normalise_url v = inr (py_rstrip (py_strip s) 47).
Proof.
  intros [s ->]. exists s. split; [done|]. unfold _normalise_url. simpl.
  destruct (py_empty s) eqn:E; [|done]. by destruct s as [[|c s]].
Qed.

Lemma text_urls_nonempty l : Forall (fun u => py_empty u = false) (text_urls l).
Proof.
  unfold text_urls. apply Forall_forall. intros u Hu. apply elem_of_bfilter in Hu as [_ Hu].
  by apply negb_true_iff in Hu.
Qed.

Lemma nonempty_urls_nonempty l us : nonempty_urls l = inr us -> Forall (fun u => py_empty u = false) us.
Proof.
  revert us. induction l as [|v l IH]; intros us; [by intros [= <-]|]. simpl.
  rewrite ebind_inr. intros (url & _ & Hr). apply ebind_inr in Hr as (urls & Hl & [= <-]).
  apply IH in Hl. destruct (py_empty url) eqn:E; [done|by constructor].
Qed.

Lemma consistent_pool_head u pool u' pool' : Forall (fun x => py_empty x = false) pool ->
  consistent_pool u pool = (u', pool') -> py_empty u' = false /\ exists rest, pool' = u' :: rest.
Proof.
  unfold consistent_pool. intros Hp. destruct (py_empty u) eqn:Eu; simpl.
  - destruct Hp; intros [= <- <-]; eauto.
  - destruct pool as [|x pool]; intros Hc; [injection Hc as <- <-; eauto|].
    case_bool_decide; injection Hc as <- <-; subst; eauto.
Qed.

(** ** The pool *)

(** A relay section in which URL, pool and the rest of the pool agree *)
Definition pool_agrees (relay : jdict) (url : pystr) (rest : list pystr) : Prop :=
  py_empty url = false /\ dget relay "server_url" = Some (JStr url) /\
  dget relay "server_pool" = Some (jstrs (url :: rest)) /\
  dget relay "server_pool_secondary" = Some (jstrs rest).

Lemma pool_made config config' : _normalise_relay_server_pool config = inr config' ->
  exists relay relay' server_url pool url rest,
    default (JDict []) (dget config "relay") = JDict relay /\
    _normalise_url (default (JStr "") (dget relay "server_url")) = inr server_url /\
    (let? entries := iterate_or_empty (jget relay "server_pool") in nonempty_urls entries) = inr pool /\
    consistent_pool server_url pool = (url, url :: rest) /\
    config' = dset config "relay" (JDict relay') /\ pool_agrees relay' url rest.
Proof.
  unfold _normalise_relay_server_pool. destruct (default _ _) as [| | | | | |relay]; try done.
  rewrite ebind_inr. intros (server_url & Hu & Hrun). apply ebind_inr in Hrun as (entries & He & Hrun).
  apply ebind_inr in Hrun as (pool & Hp & Hrun).
  destruct (consistent_pool server_url pool) as [url pool'] eqn:Ec. injection Hrun as <-.
  pose proof (nonempty_urls_nonempty _ _ Hp) as Hne.
  destruct (consistent_pool_head _ _ _ _ Hne Ec) as [Hn [rest ->]].
  eexists relay, _, server_url, pool, url, rest.
  split; [done|]. split; [done|]. split; [by rewrite He|]. split; [done|]. split; [done|].
  split; [done|]. by rewrite !dget_dset.
Qed.

(** ** Setting a key of the relay section *)

Lemma set_relay config relay k v : dget config "relay" = Some (JDict relay) ->
  set_path config ["relay"%pystr; k] v = inr (dset config "relay" (JDict (dset relay k v))).
Proof. intros Hr. cbn [set_path]. by rewrite Hr. Qed.

Lemma set_relay_typed (Q Q' : jdict -> Prop) config key k v :
  key_path key = ["relay"%pystr; k] -> relay_typed Q config ->
  (k ∈ url_keys -> is_text v) -> (k ∈ url_list_keys -> is_texts v) ->
  (forall relay, Q relay -> Q' (dset relay k v)) ->
  exists config', config_set config key v = inr config' /\ relay_typed Q' config'.
Proof.
  intros Hk (relay & Hr & [Hu Hl] & HQ) Hv Hvs HQ'. unfold config_set.
  rewrite Hk, (set_relay _ relay) by done. eexists. split; [done|]. eexists.
  split; [apply dget_dset_eq|]. split; [|by apply HQ'].
  split; intros k' w Hin; rewrite dget_dset; case_bool_decide as E; subst.
  - intros [= <-]. auto.
  - by apply Hu.
  - intros [= <-]. auto.
  - by apply Hl.
Qed.

Lemma ebind_total {E A B} (P : A -> Prop) (R : B -> Prop) (m : E + A) (f : A -> E + B) :
  (exists a, m = inr a /\ P a) -> (forall a, P a -> exists b, f a = inr b /\ R b) ->
  exists b, ebind m f = inr b /\ R b.
Proof. intros (a & -> & Ha) Hf. apply (Hf a Ha). Qed.

Lemma normalise_pool_total Q config : relay_typed Q config ->
  exists config', _normalise_relay_server_pool config = inr config' /\ exists relay url rest,
    dget config' "relay" = Some (JDict relay) /\ pool_agrees relay url rest.
Proof.
  intros (relay & Hr & [Hu Hl] & _).
  assert (exists config', _normalise_relay_server_pool config = inr config') as [config' Hc].
  { unfold _normalise_relay_server_pool. rewrite Hr. simpl default.
    destruct (normalise_url_text (default (JStr "") (dget relay "server_url"))) as (s & _ & ->).
    { destruct (dget relay _) eqn:E; simpl; [|by eexists]. eapply Hu; [|done]. by left. }
    assert (exists l, (let? entries := iterate_or_empty (jget relay "server_pool") in
      nonempty_urls entries) = inr l) as (l & Hp).
    { unfold jget. destruct (dget relay "server_pool") eqn:E; simpl default; [|by eexists].
      destruct (urls_of_texts j) as (l & _ & Hv); [|by eexists].
      eapply Hl; [|done]. by left. }
    apply ebind_inr in Hp as (entries & He & Hp). simpl ebind. rewrite He. simpl. rewrite Hp. simpl.
    destruct (consistent_pool _ _). by eexists. }
  exists config'. split; [done|].
  apply pool_made in Hc as (r & relay' & ? & ? & url & rest & _ & _ & _ & _ & -> & Hp).
  exists relay', url, rest. by rewrite dget_dset_eq.
Qed.

(** Upstreams that the environment gives become the pool, normalised once more. *)
Lemma normalise_pool_from ups config config' : ups ≠ [] -> relay_typed (pool_from ups) config ->
  _normalise_relay_server_pool config = inr config' -> exists relay,
    dget config' "relay" = Some (JDict relay) /\
    dget relay "server_pool" =
      Some (jstrs (match text_urls ups with [] => [DEFAULT_SERVER_URL] | l => l end)).
Proof.
  intros Hne (relay & Hr & _ & Hf) Hc. destruct ups as [|first ups]; [done|]. destruct Hf as [Hu Hp].
  apply pool_made in Hc as (r & relay' & server & pool & url & rest & Hd & Hs & Hl & Hcp & -> & Ha).
  rewrite Hr in Hd. injection Hd as <-. rewrite Hu in Hs. unfold jget in Hl. rewrite Hp in Hl.
  exists relay'. split; [apply dget_dset_eq|]. destruct Ha as (_ & _ & -> & _). f_equal. f_equal.
  simpl default in *. destruct (normalise_url_text (JStr first)) as (? & [= <-] & Hn); [by eexists|].
  rewrite Hn in Hs. injection Hs as <-.
  destruct (urls_of_texts (jstrs (first :: ups))) as (l & Hj & Ht); [by eexists|].
  rewrite Ht in Hl. injection Hl as <-. injection Hj as Hj. destruct l as [|x l]; [done|].
  injection Hj as <- Hj. apply (inj (map JStr)) in Hj as <-.
  revert Hcp. unfold consistent_pool. destruct (py_empty _) eqn:E; simpl.
  - destruct (text_urls (first :: ups)); intros Hcp; congruence.
  - rewrite text_urls_cons, E. rewrite bool_decide_eq_true_2 by done. intros Hcp; congruence.
Qed.

Section environment.
Context `{!PyUnicode, !PyNumbers} (environ : environment).

Lemma cloudflare_total Q config : relay_typed Q config ->
  exists l, _gather_cloudflare_fallbacks environ config = inr l.
Proof.
  intros (relay & Hr & [_ Hl] & _). unfold _gather_cloudflare_fallbacks.
  assert (is_texts (config_get config "relay.cloudflare_fallback_urls" (JList []))) as Hc.
  { unfold config_get. replace (key_path _) with ["relay"; "cloudflare_fallback_urls"]%pystr by done.
    simpl. rewrite Hr. simpl. destruct (dget relay _) eqn:E; [|by exists []].
    simpl. eapply Hl; [|done]. right. by left. }
  apply urls_of_texts in Hc as (l & _ & Hc). apply ebind_inr in Hc as (entries & He & Hc).
  rewrite He. simpl. rewrite Hc. by eexists.
Qed.

(** Keys the pool does not read *)
Lemma pool_from_set ups relay k v : k ∉ ["server_url"; "server_pool"]%pystr ->
  pool_from ups relay -> pool_from ups (dset relay k v).
Proof.
  rewrite !not_elem_of_cons. intros (H1 & H2 & _). destruct ups as [|first ups]; [done|].
  intros [Hu Hp]. by split; rewrite dget_dset_ne.
Qed.

#[local] Notation upstreams := (_gather_configured_relay_upstreams environ).

Lemma runtime_overrides_step1 config : relay_typed (fun _ => True) config ->
  exists config', match upstreams with
    | first :: _ =>
        let? config := config_set config "relay.server_pool" (jstrs upstreams) in
        config_set config "relay.server_url" (JStr first)
    | [] => inr config
    end = inr config' /\ relay_typed (pool_from upstreams) config'.
Proof.
  intros Ht. destruct upstreams as [|first rest]; [by eexists|].
  eapply ebind_total.
  - apply (set_relay_typed (fun _ => True)
      (fun relay => dget relay "server_pool" = Some (jstrs (first :: rest))) _ _ "server_pool"); [done..| | |].
    + by intros ?%list_elem_of_singleton.
    + by eexists.
    + intros r _. apply dget_dset_eq.
  - intros c Hc. eapply (set_relay_typed _ _ _ _ "server_url"); [done|exact Hc|..].
    + by eexists.
    + intros Hin. exfalso. revert Hin. by_evaluation.
    + intros r Hr. split; [apply dget_dset_eq|]. by rewrite dget_dset_ne.
Qed.

(** An assignment to another key of the section *)
Lemma set_other config key k v : key_path key = ["relay"%pystr; k] ->
  k ∉ ["server_url"; "server_pool"]%pystr -> (k ∈ url_list_keys -> is_texts v) ->
  relay_typed (pool_from upstreams) config ->
  exists config', config_set config key v = inr config' /\ relay_typed (pool_from upstreams) config'.
Proof.
  intros Hk Hn Hv Ht. eapply (set_relay_typed _ _ _ _ _ _ Hk Ht); [|done|].
  - intros Hin. destruct Hn. apply elem_of_cons in Hin as [->|[]%elem_of_nil]. by left.
  - intros r. by apply pool_from_set.
Qed.

Lemma runtime_overrides_total config : relay_typed (fun _ => True) config ->
  exists config', _apply_runtime_env_overrides environ config = inr config' /\ exists relay url rest,
    dget config' "relay" = Some (JDict relay) /\ pool_agrees relay url rest /\
    (upstreams ≠ [] -> url :: rest =
      match text_urls upstreams with [] => [DEFAULT_SERVER_URL] | l => l end).
Proof.
  intros Ht. unfold _apply_runtime_env_overrides. eapply ebind_total; [by apply runtime_overrides_step1|].
  intros c1 H1. eapply (ebind_total (relay_typed (pool_from upstreams))).
  { destruct (environ _); [|by eexists]. destruct (py_empty _); [by eexists|].
    eapply (set_other _ _ "server_registration_token"); [by_evaluation..|done]. }
  intros c2 H2. destruct (cloudflare_total _ _ H2) as [l Hl]. rewrite Hl. simpl ebind at 1.
  eapply (ebind_total (relay_typed (pool_from upstreams))).
  { eapply (set_other _ _ "cloudflare_fallback_urls"); [done|by_evaluation|by eexists|done]. }
  intros c3 H3. eapply (ebind_total (relay_typed (pool_from upstreams))).
  { destruct (environ _); [|by eexists]. destruct (_parse_bool _); [|by eexists].
    eapply (set_other _ _ "cluster_only"); [by_evaluation..|done]. }
  intros c4 H4. destruct (normalise_pool_total _ _ H4) as (c5 & Hc & relay & url & rest & Hr & Ha).
  exists c5. split; [done|]. exists relay, url, rest. split; [done|]. split; [done|]. intros Hne.
  destruct (normalise_pool_from _ _ _ Hne H4 Hc) as (relay' & Hr' & Hp).
  rewrite Hr in Hr'. injection Hr' as <-. destruct Ha as (_ & _ & Ha & _). rewrite Ha in Hp.
  injection Hp as Hp. by apply (inj (map JStr) (url :: rest)) in Hp.
Qed.

(** ** The stages before the environment's overrides *)

Definition tree_ready (config : jdict) : Prop :=
  relay_typed (fun _ => True) config /\ exists paths, dget config "paths" = Some (JDict paths).

Ltac ready_by_evaluation :=
  split; [|by eexists]; eexists; split; [by vm_compute|]; split; [|done];
  split; intros k v Hin;
  repeat (apply elem_of_cons in Hin as [->|Hin]; [|try by apply elem_of_nil in Hin]);
  vm_compute; intros [= <-]; solve [by eexists | by exists []].

Lemma environment_stage env : exists config,
  (let? config := DEFAULT_CONFIG in
   match dget ENV_OVERRIDES env with
   | Some overrides =>
       let? overrides := if bool_decide (env = "production"%pystr)
                         then _apply_production_defaults environ overrides
                         else inr overrides in
       inr (_merge_configs config overrides)
   | None => inr config
   end) = inr config /\ tree_ready config.
Proof.
  destruct (decide (env = "development"%pystr)) as [->|H1]; [|destruct (decide (env = "testing"%pystr)) as [->|H2];
    [|destruct (decide (env = "production"%pystr)) as [->|H3]]].
  1-3: eexists; split; [by vm_compute|ready_by_evaluation].
  replace (dget ENV_OVERRIDES env) with (@None jdict) by (simpl; by rewrite !bool_decide_eq_false_2).
  eexists. split; [by vm_compute|ready_by_evaluation].
Qed.

Lemma texts_merged base override : NoDup (dkeys override) ->
  texts_where_present base -> texts_where_present override ->
  texts_where_present (merge_items merge_value override base).
Proof.
  intros Hd [Hb1 Hb2] [Ho1 Ho2]. split; intros k v Hin; rewrite dget_merge_items by done;
    destruct (dget override k) as [w|] eqn:E; [|by eauto| |by eauto]; intros [= <-].
  - specialize (Ho1 _ _ Hin E). destruct (dget base k); [|done].
    rewrite merge_value_leaf; [done|]. by destruct Ho1 as [? ->].
  - specialize (Ho2 _ _ Hin E). destruct (dget base k); [|done].
    rewrite merge_value_leaf; [done|]. by destruct Ho2 as [? ->].
Qed.

Lemma user_stage user config : relay_override_ok user -> relay_typed (fun _ => True) config ->
  relay_typed (fun _ => True) (_load_user_config user config).
Proof.
  intros Ho (relay & Hr & Ht & _). destruct user as [[| | | | | |u]|]; try by exists relay.
  unfold _load_user_config, _merge_configs. cbn [merge_value].
  unfold relay_typed. destruct (dget u "relay") as [section|] eqn:E.
  - destruct (Ho u section eq_refl) as [Hd Hs]. destruct (Hs E) as (r & -> & Hro).
    rewrite dget_merge_items by by apply distinct_nodup. rewrite E, Hr. cbn [merge_value].
    eexists. split; [done|]. split; [|done]. apply texts_merged; [|done..].
    destruct (distinct_sub _ _ _ Hd E) as [_ Hn]. by apply distinct_nodup.
  - destruct (Ho u JNull eq_refl) as [Hd _].
    rewrite dget_merge_items by by apply distinct_nodup. rewrite E. by exists relay.
Qed.
End environment.

(** * What the configuration tree guarantees *)

(** An assignment by dotted key is read back under that key and under the keys
    that extend it, and no key that neither extends it nor is extended by it changes. *)
Theorem assignment_is_local config key value config' :
  config_set config key value = inr config' ->
  (forall key' rest dflt, key_path key' = key_path key ++ rest ->
     config_get config' key' dflt = default dflt (get_path value rest)) /\
  (forall key' dflt, apart (key_path key) (key_path key') ->
     config_get config' key' dflt = config_get config key' dflt).
Proof.
  intros Hs. unfold config_get. split.
  - intros key' rest dflt ->. rewrite get_path_app, (get_set_path _ config value config'); [done| |done].
    destruct (key_path_cons key) as (? & ? & ->). done.
  - intros key' dflt Ha. by rewrite (get_set_path_apart _ _ _ _ _ Ha Hs).
Qed.

Lemma assignment_is_local_witness :
  (forall dflt, config_get [("relay", JDict [("port", JInt 5000)]); ("api", JNull)]%pystr "api" dflt = JNull) /\
  exists config', config_set [("relay", JDict [("port", JInt 5000)]); ("api", JNull)]%pystr "relay.cluster.on" (JBool true)
    = inr config' /\ config_get config' "relay.cluster.on" JNull = JBool true /\
    config_get config' "relay.port" JNull = JInt 5000.
Proof.
  split; [done|]. eexists. split; [vm_compute; reflexivity|].
  edestruct (assignment_is_local [("relay", JDict [("port", JInt 5000)]); ("api", JNull)]%pystr
    "relay.cluster.on" (JBool true)) as [Hsame Hother]; [vm_compute; reflexivity|]. split.
  - exact (Hsame "relay.cluster.on"%pystr [] JNull eq_refl).
  - apply (Hother "relay.port"%pystr JNull). apply (bool_decide_eq_true_1 _). vm_compute. reflexivity.
Defined.

(** Merging lets every leaf of the override win, at any depth, and leaves what the
    override does not mention as it was. *)
Theorem merging_is_pointwise base override path :
  distinct_keys (JDict override) ->
  (forall leaf, get_path (JDict override) path = Some leaf -> is_JDict leaf = false ->
     get_path (JDict (_merge_configs base override)) path = Some leaf) /\
  (silent (JDict override) path ->
     get_path (JDict (_merge_configs base override)) path = get_path (JDict base) path).
Proof.
  intros Hd. assert (JDict (_merge_configs base override) = merge_value (JDict override) (JDict base)) as -> by done.
  split; [intros leaf Hg Hl; by apply merge_override_wins|intros Hs; by apply merge_default_stays].
Qed.

Lemma merging_is_pointwise_witness :
  let base := [("server", JDict [("host", JStr "a"); ("port", JInt 1)])]%pystr in
  let override := [("server", JDict [("port", JInt 2)])]%pystr in
  get_path (JDict (_merge_configs base override)) ["server"; "port"]%pystr = Some (JInt 2) /\
  get_path (JDict (_merge_configs base override)) ["server"; "host"]%pystr = Some (JStr "a").
Proof.
  intros base override.
  assert (distinct_keys (JDict override)) as Hd.
  { apply dk_dict; [apply (bool_decide_eq_true_1 _); vm_compute; reflexivity|].
    constructor; [|constructor]. apply dk_dict; [apply (bool_decide_eq_true_1 _); vm_compute; reflexivity|].
    constructor; [|constructor]. by apply dk_leaf. }
  split.
  - apply (merging_is_pointwise base override ["server"; "port"]%pystr Hd); reflexivity.
  - apply (merging_is_pointwise base override ["server"; "host"]%pystr Hd). exact I.
Defined.

(** A configuration is built for every environment name and process environment,
    unless the user's file gives the relay section URLs that are no text; in it
    [relay.server_url] is a non-empty text, the first of [relay.server_pool], whose
    rest is [relay.server_pool_secondary]; and upstreams named by the environment are
    the pool. *)
Theorem configuration_is_built `{!PyUnicode, !PyNumbers} environ env paths user :
  relay_override_ok user ->
  exists config, _initialise_config_tree environ env paths user = inr config /\
    exists relay url rest, dget config "relay" = Some (JDict relay) /\ pool_agrees relay url rest /\
      (_gather_configured_relay_upstreams environ ≠ [] ->
         url :: rest = match text_urls (_gather_configured_relay_upstreams environ) with
                       | [] => [DEFAULT_SERVER_URL]
                       | urls => urls
                       end).
Proof.
  intros Hu. destruct (environment_stage environ env) as (c & Hc & Ht & p & Hp).
  unfold _initialise_config_tree. apply ebind_inr in Hc as (d & -> & Hc). cbn [ebind].
  rewrite Hc. cbn [ebind]. unfold _configure_platform_paths. rewrite Hp. cbn [ebind].
  apply runtime_overrides_total, user_stage; [done|].
  destruct Ht as (relay & Hr & Htexts). exists relay. by rewrite dget_dset_ne.
Qed.

#[local] Instance no_floats : PyNumbers := { parse_float _ := None; parse_int _ := None }.

Lemma configuration_is_built_witness :
  let H := ascii_unicode in
  let environ := fun k : pystr => if bool_decide (k = "PERSONAL_GAMING_PC_URL"%pystr)
                                  then Some " http://gpu:8000/ "%pystr else None in
  let user := Some (JDict [("relay", JDict [("server_url", JStr "http://mine")])]%pystr) in
  exists config, _initialise_config_tree environ "production" [] user = inr config.
Proof.
  intros H environ user.
  destruct (configuration_is_built environ "production"%pystr [] user) as (config & Hc & _); [|by exists config].
  intros u section [= <-]. split.
  - apply dk_dict; [apply (bool_decide_eq_true_1 _); vm_compute; reflexivity|].
    constructor; [|constructor]. apply dk_dict; [apply (bool_decide_eq_true_1 _); vm_compute; reflexivity|].
    constructor; [|constructor]. by apply dk_leaf.
  - intros [= <-]. eexists. split; [reflexivity|]. split; intros k v Hin.
    + intros [= _ ->]%dget_elem_of%list_elem_of_singleton. by eexists.
    + intros [= -> _]%dget_elem_of%list_elem_of_singleton.
      exfalso. revert Hin. apply (bool_decide_eq_false_1 _). vm_compute. reflexivity.
Defined.

(** The copy that is written to disk never holds the registration token, and
    every key that is apart from the token's has its value. *)
Theorem saved_copy_is_redacted config :
  config_get (_redacted_config_copy config) "relay.server_registration_token" JNull = JNull /\
  (forall key dflt, apart (key_path "relay.server_registration_token") (key_path key) ->
     config_get (_redacted_config_copy config) key dflt = config_get config key dflt).
Proof.
  unfold _redacted_config_copy, SENSITIVE_CONFIG_KEYS. cbn [fold_left]. unfold config_get. split.
  - apply get_redact_path. by destruct (key_path_cons "relay.server_registration_token"%pystr) as (? & ? & ->).
  - intros key dflt Ha. by rewrite get_redact_path_apart.
Qed.
