(* ===== verification/Provider.v ===== *)
(** * api/v1/compute_provider.py: where a chat completion is computed

    The three providers, the exchange with a relay by which the distributed one runs
    a conversation on a compute node, and the choice among them.

    The relay at the other end, the clock and the random identifiers are the class
    [World]: the relay answers a request as a function of everything sent and slept
    before it, or not at all.  A request, with its timeout, and a sleep are events of
    a trace that is kept beside the state of the process.  The texts that only the
    log shows are left out of the exceptions.  [lru_cache] makes the choice of a
    provider once per set of arguments, which is the same provider as long as the
    environment stays the same.  The generator that tests may put in place of
    [generate_response] is left out. *)

From Stdlib Require Import Floats.SpecFloat.
From S2P Require Import Prelude PyFloat PyStr PyDict Base64 PyText PyUrl Json.
From S2P Require Import JsonText Encrypt CryptoManager Profiles Catalog Moderation.
From S2P Require Import Config.

(** ** Exceptions *)

(** [ComputeProviderError] and the exceptions of the code it calls; [StillPolling] is
    the fuel of the polling loop running out. *)
Inductive provider_error : Set :=
| ComputeProviderError (code error_type public_message : pystr) (status_code : Z)
| ModelFailure (e : model_error)
| CryptoFailure (e : crypto_error)
| ProviderValueError
| ProviderTypeError
| ProviderOverflowError
| StillPolling.

Definition default_public_message : pystr := "Unable to generate a response right now.".

(** [ComputeProviderError(message)] *)
Definition plain_provider_error : provider_error :=
  ComputeProviderError "compute_provider_error" "server_error" default_public_message 502.

Definition _RELAY_ERROR_MAP : dict pystr (pystr * pystr * Z) :=
  [("no_registered_compute_nodes", ("service_unavailable_error",
      "No LLM servers are available right now.", 503));
   ("compute_node_timeout", ("timeout_error",
      "The LLM server took too long to respond. Please try again.", 504));
   ("compute_node_request_cancelled", ("timeout_error",
      "The LLM server request expired before it could be answered. Please try again.", 504));
   ("compute_node_bridge_timeout", ("timeout_error",
      "The LLM server took too long to respond. Please try again.", 504));
   ("compute_node_unreachable", ("service_unavailable_error",
      "The LLM server is unavailable right now. Please try again.", 503));
   ("compute_node_bridge_error", ("server_error",
      "Unable to contact the LLM server right now. Please try again.", 502));
   ("compute_node_invalid_payload", ("server_error",
      "The LLM server returned an invalid response. Please try again.", 502))]%pystr.

Definition _error_from_code (code : pystr) : provider_error :=
  match dget _RELAY_ERROR_MAP code with
  | Some (error_type, public_message, status_code) =>
      ComputeProviderError code error_type public_message status_code
  | None => ComputeProviderError code "server_error" default_public_message 502
  end.

(** [except ComputeProviderError] *)
Definition is_provider_error (e : provider_error) : bool :=
  match e with ComputeProviderError _ _ _ _ => true | _ => false end.

(** ** Completions *)
Record CompletionResult : Type := MkCompletion {
  cr_message : jdict;
  cr_finish_reason : option pystr;
  cr_usage : option jdict;
  cr_output_budget : option jdict
}.

(** What a provider may return *)
Inductive completion_value : Type :=
| Completed (r : CompletionResult)
| LegacyMessage (message : jdict)
| NotACompletion.

Definition coerce_completion_result (value : completion_value) : provider_error + CompletionResult :=
  match value with
  | Completed r => inr r
  | LegacyMessage message => inr (MkCompletion message None None None)
  | NotACompletion => inl plain_provider_error
  end.

(** ** The world *)

(** [body] is [None] when the response's [json()] raises. *)
Record http_response : Set := MkResponse { status_code : Z; body : option json }.

Inductive event : Set :=
| Sent (url : pystr) (payload : json) (timeout : float64)
| Slept (seconds : float64).

Class World : Type := {
  time_time : nat -> float64;
  relay_reply : list event -> option http_response;
  uuid4_hex : nat -> pystr
}.

Record provider_state : Type := MkProviderState {
  p_models : model_state;
  _last_backend_path : pystr;
  p_ticks : nat;
  p_draws : nat;
  p_uuids : nat;
  p_trace : list event
}.

Notation PM := (SM provider_state provider_error).

Definition set_models (m : model_state) (s : provider_state) : provider_state :=
  MkProviderState m (_last_backend_path s) (p_ticks s) (p_draws s) (p_uuids s) (p_trace s).
Definition set_backend (b : pystr) (s : provider_state) : provider_state :=
  MkProviderState (p_models s) b (p_ticks s) (p_draws s) (p_uuids s) (p_trace s).
Definition set_draws (n : nat) (s : provider_state) : provider_state :=
  MkProviderState (p_models s) (_last_backend_path s) (p_ticks s) n (p_uuids s) (p_trace s).
Definition add_event (e : event) (s : provider_state) : provider_state :=
  MkProviderState (p_models s) (_last_backend_path s) (p_ticks s) (p_draws s) (p_uuids s)
    (p_trace s ++ [e]).

Definition tick (s : provider_state) : provider_state :=
  MkProviderState (p_models s) (_last_backend_path s) (S (p_ticks s)) (p_draws s) (p_uuids s) (p_trace s).

Definition f0_1 : float64 := S754_finite false 7205759403792794 (-56).
Definition f0_5 : float64 := S754_finite false 4503599627370496 (-53).
Definition f5 : float64 := S754_finite false 5629499534213120 (-50).
Definition f20 : float64 := S754_finite false 5629499534213120 (-48).
Definition f485 : float64 := S754_finite false 8532210231541760 (-44).

(** [DEFAULT_INFERENCE_TRANSPORT_TIMEOUT_SECONDS] and
    [INFERENCE_RESPONSE_GRACE_SECONDS] *)
Definition TRANSPORT_TIMEOUT_SECONDS : float64 := f485.
Definition RESPONSE_GRACE_SECONDS : float64 := f5.

(** [float(value)] of a document's value that is no [bool] *)
Definition _coerce_admitted_ttl `{!PyNumbers} (value : json) : provider_error + float64 :=
  match value with
  | JInt z => match float_of_int z with Some f => inr f | None => inl ProviderOverflowError end
  | JFloat f => inr f
  | JStr s => inr (default f0 (parse_float s))
  | _ => inr f0
  end.

Section provider.
Context `{!World, !Cryptography, !FloatRepr, !PyNumbers}.

Definition now : PM float64 := fun s => (tick s, inr (time_time (p_ticks s))).

Definition fresh_hex : PM pystr := fun s =>
  (MkProviderState (p_models s) (_last_backend_path s) (p_ticks s) (p_draws s) (S (p_uuids s))
     (p_trace s), inr (uuid4_hex (p_uuids s))).

(** A randomised computation of the crypto modules *)
Definition with_draws {A} (m : CM A) (wrap : crypto_error -> provider_error) : PM A := fun s =>
  match m (p_draws s) with
  | (n, inr a) => (set_draws n s, inr a)
  | (n, inl e) => (set_draws n s, inl (wrap e))
  end.

(** [requests.get] and [requests.post]; [None] is a [RequestException]. *)
Definition send (url : pystr) (payload : json) (timeout : float64) : PM (option http_response) :=
  fun s => let s' := add_event (Sent url payload timeout) s in (s', inr (relay_reply (p_trace s'))).

Definition sleep (seconds : float64) : PM unit := modify (add_event (Slept seconds)).

(** ** The distributed provider *)

Definition py_endswith (s p : pystr) : bool := bool_decide (codes p `suffix_of` codes s).

(** [s[n:]] *)
Definition py_drop (n : nat) (s : pystr) : pystr := PyStr (skipn n (codes s)).

Definition _relay_url (base_url path : pystr) : pystr :=
  let base_url := py_rstrip base_url 47 in
  let path := if py_endswith base_url "/api/v1" && py_startswith path "/api/v1/"
              then py_drop 7 path else path in
  base_url +++ path.

Definition _poll_interval_seconds (timeout_seconds : float64) : float64 :=
  fmin (fmax (fdiv timeout_seconds f20) f0_1) f0_5.

(** One request's crypto manager and identifiers *)
Record relay_call : Type := MkCall {
  c_base_url : pystr;
  c_keys : CryptoKeys;
  relay_request_id : pystr;
  relay_cancel_token : pystr;
  relay_timeout : float64;
  poll_interval : float64
}.

Definition PROTOCOL : pystr := "tokenplace_api_v1_relay_e2ee".

Definition timeout_error : provider_error := _error_from_code "compute_node_timeout".

Definition _remaining_timeout (deadline : float64) : PM float64 :=
  let* t := now in
  let remaining := fsub deadline t in
  raise_if (fle remaining f0) timeout_error ;;;
  ret remaining.

(** Every caller raises right after it, so the flag of [_cancel_relay_request_once] is
    never found set. *)
Definition _cancel_relay_request (c : relay_call) (status reason : pystr) : PM unit :=
  send (_relay_url (c_base_url c) "/api/v1/relay/requests/cancel")
    (JDict [("client_public_key", JStr (ck_public_key_b64 (c_keys c)));
            ("request_id", JStr (relay_request_id c)); ("status", JStr status);
            ("reason", JStr reason); ("cancel_token", JStr (relay_cancel_token c))]%pystr) f1 ;;;
  ret tt.

(** [_cancel_if_post_enqueue_timeout(exc); raise] *)
Definition abandon (c : relay_call) {A} : PM A :=
  _cancel_relay_request c "expired" "provider_timeout" ;;;
  raise timeout_error.

(** [payload.get(k)] of a payload that may be no object *)
Definition field_of (payload : json) (k : pystr) : json :=
  match payload with JDict d => jget d k | _ => JNull end.

Definition is_status (n : Z) (r : http_response) : bool := status_code r =? n.

(** Which node to send to *)
Definition choose_server (c : relay_call) (model_id : pystr) (deadline : float64) : PM pystr :=
  let* timeout := _remaining_timeout deadline in
  let model := if py_empty model_id then QWEN3_API_MODEL_ID else model_id in
  let* reply := send (_relay_url (c_base_url c) "/api/v1/relay/servers/next")
    (JDict [("model", JStr model); ("context_tier", JStr "8k-fast")]%pystr) timeout in
  match reply with
  | None => raise (_error_from_code "compute_node_unreachable")
  | Some r =>
      raise_if (is_status 503 r && jeq_str (field_of (field_of (default JNull (body r)) "error") "code")
                                     "no_registered_compute_nodes")
        (_error_from_code "no_registered_compute_nodes") ;;;
      raise_if (500 <=? status_code r) (_error_from_code "compute_node_unreachable") ;;;
      match body r with
      | Some (JDict payload) =>
          match jget payload "server_public_key" with
          | JStr key => raise_if (py_empty (py_strip key)) (_error_from_code "no_registered_compute_nodes") ;;;
                        ret key
          | _ => raise (_error_from_code "no_registered_compute_nodes")
          end
      | _ => raise (_error_from_code "compute_node_invalid_payload")
      end
  end.

Definition plaintext_envelope (c : relay_call) (model_id : pystr) (messages : list json)
  (options : jdict) : json :=
  JDict [("protocol", JStr PROTOCOL); ("version", JInt 1); ("request_id", JStr (relay_request_id c));
         ("client_public_key", JStr (ck_public_key_b64 (c_keys c)));
         ("api_v1_request", JDict [("model", JStr model_id); ("messages", JList messages);
                                   ("options", JDict options)])]%pystr.

(** [{..., **encrypted_envelope}] *)
Definition faucet_payload (c : relay_call) (server_public_key : pystr) (encrypted_envelope : jdict) : json :=
  JDict (fold_left (fun d kv => dset d kv.1 kv.2) encrypted_envelope
    [("client_public_key", JStr (ck_public_key_b64 (c_keys c)));
     ("server_public_key", JStr server_public_key); ("request_id", JStr (relay_request_id c));
     ("protocol", JStr PROTOCOL); ("version", JInt 1);
     ("cancel_token", JStr (relay_cancel_token c))]%pystr).

(** Submits the encrypted request; the deadline is counted again from its admission. *)
Definition enqueue (c : relay_call) (server_public_key model_id : pystr) (messages : list json)
  (options : jdict) (deadline : float64) : PM float64 :=
  let* encrypted_envelope := with_draws
    (encrypt_message (MValue (plaintext_envelope c model_id messages options)) (PyS server_public_key))
    (fun _ => _error_from_code "compute_node_invalid_payload") in
  let* timeout := _remaining_timeout deadline in
  let* reply := send (_relay_url (c_base_url c) "/api/v1/relay/requests")
                  (faucet_payload c server_public_key encrypted_envelope) timeout in
  match reply with
  | None => raise (_error_from_code "compute_node_unreachable")
  | Some r =>
      raise_if (is_status 404 r) (_error_from_code "no_registered_compute_nodes") ;;;
      raise_if (negb (is_status 200 r)) (_error_from_code "compute_node_bridge_error") ;;;
      match body r with
      | Some (JDict admission_payload) =>
          let* admitted_ttl := lift_val (_coerce_admitted_ttl (jget admission_payload "request_ttl_seconds")) in
          if flt f0 admitted_ttl then
            let* t := now in
            ret (fadd t (fmin (relay_timeout c) (fadd admitted_ttl RESPONSE_GRACE_SECONDS)))
          else ret deadline
      | _ => ret deadline
      end
  end.

(** [x if isinstance(x, dict) else None] *)
Definition dict_or_none (v : json) : option jdict := match v with JDict d => Some d | _ => None end.
Definition str_or_none (v : json) : option pystr := match v with JStr s => Some s | _ => None end.

(** The compute node's answer, once it is known to be for this request; [None]: look
    again later *)
Definition read_answer (c : relay_call) (decrypted_response : message) :
  provider_error + option CompletionResult :=
  match decrypted_response with
  | MValue JNull => inr None
  | MValue (JDict d) =>
      if negb (jeq_str (jget d "protocol") PROTOCOL) then inr None
      else if negb (jeq_str (jget d "request_id") (relay_request_id c)) then inr None
      else if negb (jeq_str (jget d "client_public_key") (ck_public_key_b64 (c_keys c)))
      then inl (_error_from_code "compute_node_invalid_payload")
      else match jget d "api_v1_response" with
           | JDict api_v1_response =>
               if truthy (jget api_v1_response "error")
               then inl (_error_from_code "compute_node_bridge_error")
               else match jget api_v1_response "message" with
                    | JDict assistant_message => inr (Some (MkCompletion assistant_message
                        (str_or_none (jget api_v1_response "finish_reason"))
                        (dict_or_none (jget api_v1_response "usage"))
                        (dict_or_none (jget api_v1_response "output_budget"))))
                    | _ => inl (_error_from_code "compute_node_invalid_payload")
                    end
           | _ => inl (_error_from_code "compute_node_invalid_payload")
           end
  | _ => inl (_error_from_code "compute_node_invalid_payload")
  end.

(** What the response to one retrieval amounts to *)
Definition read_retrieval (c : relay_call) (reply : option http_response) :
  provider_error + option CompletionResult :=
  match reply with
  | None => inr None
  | Some r =>
      if is_status 202 r then inr None
      else if is_status 410 r then inl (_error_from_code "compute_node_request_cancelled")
      else if is_status 404 r then inl (_error_from_code "compute_node_bridge_error")
      else if negb (is_status 200 r) then inr None
      else match body r with
           | Some (JDict retrieve_payload) =>
               let error_payload := jget retrieve_payload "error" in
               if truthy error_payload then
                 match error_payload with
                 | JDict e => match hashable (jget e "code") with
                              | None => inl ProviderTypeError
                              | Some x => if scalar_in x ["cancelled"; "expired"]%pystr
                                          then inl (_error_from_code "compute_node_request_cancelled")
                                          else inr None
                              end
                 | _ => inr None
                 end
               else if forallb (dmem retrieve_payload) ["chat_history"; "cipherkey"; "iv"]%pystr
               then read_answer c (decrypt_message (ck_private_key (c_keys c)) (MValue (JDict retrieve_payload)))
               else inr None
           | _ => inr None
           end
  end.

(** One turn of the loop, from the second reading of the clock on *)
Definition response_turn (c : relay_call) (deadline : float64) : PM (option CompletionResult) :=
  let* t := now in
  let remaining := fsub deadline t in
  if fle remaining f0 then abandon c
  else
    let* reply := send (_relay_url (c_base_url c) "/api/v1/relay/responses/retrieve")
      (JDict [("client_public_key", JStr (ck_public_key_b64 (c_keys c)));
              ("request_id", JStr (relay_request_id c))]%pystr)
      (fmin (fadd (poll_interval c) f0_5) remaining) in
    let* outcome := lift_val (read_retrieval c reply) in
    match outcome with
    | Some r => ret (Some r)
    | None =>
        let* t := now in
        sleep (fmin (poll_interval c) (fmax (fsub deadline t) f0)) ;;;
        ret None
    end.

Fixpoint response_loop (fuel : nat) (c : relay_call) (deadline : float64) : PM CompletionResult :=
  match fuel with
  | O => raise StillPolling
  | S fuel' =>
      let* t := now in
      if flt t deadline then
        let* outcome := response_turn c deadline in
        match outcome with
        | Some r => modify (set_backend "distributed_relay_e2ee") ;;; ret r
        | None => response_loop fuel' c deadline
        end
      else abandon c
  end.

(** The conversation is the caller's list. *)
Definition relayed_completion (fuel : nat) (c : relay_call) (model_id : pystr) (options : jdict)
  (deadline : float64) : PM CompletionResult :=
  let* server_public_key := choose_server c model_id deadline in
  let* s := get_state in
  let* deadline := enqueue c server_public_key model_id (messages (p_models s)) options deadline in
  response_loop fuel c deadline.

Definition distributed_complete_chat (fuel : nat) (base_url : pystr) (timeout_seconds : float64)
  (model_id : pystr) (options : jdict) : PM CompletionResult :=
  modify (set_backend "distributed_relay_e2ee_pending") ;;;
  let* keys := with_draws initialize_keys CryptoFailure in
  let relay_timeout := fmax timeout_seconds f1 in
  let* t := now in
  let* id := fresh_hex in
  let* token := fresh_hex in
  relayed_completion fuel
    (MkCall base_url keys ("api-v1-" +++ id) token relay_timeout (_poll_interval_seconds timeout_seconds))
    model_id options (fadd t relay_timeout).

(** ** The providers *)
Inductive provider : Set :=
| LocalApiV1ComputeProvider
| DistributedApiV1ComputeProvider (base_url : pystr) (timeout_seconds : float64)
| FallbackApiV1ComputeProvider (primary fallback : provider).

Section local.
(** The catalogue, and the runtime for the options of a call *)
Context (available : list jdict) (runtime : jdict -> Runtime).

Definition local_complete_chat (model_id : pystr) (options : jdict) : PM CompletionResult :=
  let* updated_messages := (fun s =>
    let '(m, r) := generate_response available (runtime options) model_id (p_models s) in
    (set_models m s, match r with inl e => inl (ModelFailure e) | inr l => inr l end)) in
  match List.last (map Some updated_messages) None with
  | None => raise plain_provider_error
  | Some (JDict assistant_message) =>
      modify (set_backend "local_in_process") ;;;
      ret (MkCompletion assistant_message None None None)
  | Some _ => raise plain_provider_error
  end.

(** [options or {}] is the options, which are a dictionary. *)
Fixpoint complete_chat (fuel : nat) (p : provider) (model_id : pystr) (options : jdict) :
  PM CompletionResult :=
  match p with
  | LocalApiV1ComputeProvider => local_complete_chat model_id options
  | DistributedApiV1ComputeProvider base_url timeout_seconds =>
      distributed_complete_chat fuel base_url timeout_seconds model_id options
  | FallbackApiV1ComputeProvider primary fallback =>
      try_except
        (let* r := complete_chat fuel primary model_id options in
         lift_val (coerce_completion_result (Completed r)))
        is_provider_error
        (let* r := complete_chat fuel fallback model_id options in
         modify (set_backend "fallback_local_in_process") ;;;
         lift_val (coerce_completion_result (Completed r)))
  end.

End local.
End provider.

(** * api/v1/compute_provider.py: the choice of a provider

    The relay a distributed provider talks to, and which provider serves a request,
    from the process environment and the configuration tree. *)

Section urlparse.
Context `{!NetlocCheck}.

(** ** Targets *)

Record DistributedTargetSelection : Set := MkSelection {
  sel_url : pystr;
  sel_source : pystr;
  sel_relay_only : bool
}.

Definition unset_target : DistributedTargetSelection := MkSelection "" "unset" false.

Definition _DEFAULT_PRODUCTION_RELAY_URL : pystr := "https://token.place".

Definition _EXPLICIT_DISTRIBUTED_TARGET_ENVS : list pystr :=
  ["TOKENPLACE_API_V1_DISTRIBUTED_RELAY_URL"; "TOKENPLACE_DISTRIBUTED_RELAY_URL";
   "TOKENPLACE_DISTRIBUTED_COMPUTE_URL"]%pystr.
Definition _RELAY_INTERNAL_URL_ENVS : list pystr :=
  ["TOKENPLACE_RELAY_INTERNAL_URL"; "TOKEN_PLACE_RELAY_INTERNAL_URL"; "RELAY_INTERNAL_URL"]%pystr.
Definition _RELAY_PUBLIC_URL_ENVS : list pystr :=
  ["TOKENPLACE_RELAY_PUBLIC_URL"; "TOKEN_PLACE_RELAY_PUBLIC_URL"; "RELAY_PUBLIC_URL"]%pystr.

Definition _normalise_target_url (value : option pystr) : pystr :=
  py_rstrip (py_strip (default ""%pystr value)) 47.

(** The source of the value only appears in the message. *)
Definition _validated_target_url (value : option pystr) : provider_error + pystr :=
  let target := _normalise_target_url value in
  if py_empty target then inr ""%pystr
  else match urlparse target with
       | None => inl ProviderValueError
       | Some (scheme, netloc) =>
           if pystr_in scheme ["http"; "https"]%pystr && negb (py_empty netloc) then inr target
           else inl plain_provider_error
       end.

Context `{!PyUnicode, !PyNumbers} (environ : environment) (config : jdict).

(** The first variable that names a target *)
Fixpoint first_target (names : list pystr) (label : pystr) (relay_only : bool) :
  provider_error + option DistributedTargetSelection :=
  match names with
  | [] => inr None
  | env_name :: names' =>
      let? target := _validated_target_url (environ env_name) in
      if py_empty target then first_target names' label relay_only
      else inr (Some (MkSelection target (label +++ ":" +++ env_name) relay_only))
  end.

Definition _current_token_place_env : pystr :=
  py_lower (py_strip (getenv environ "TOKEN_PLACE_ENV" "development")).

Definition _config_value (key : pystr) : pystr :=
  match config_get config key (JStr "") with JStr s => s | _ => "" end.

(** The configured targets that are not the production default *)
Fixpoint first_configured (keys : list pystr) : provider_error + option DistributedTargetSelection :=
  match keys with
  | [] => inr None
  | config_key :: keys' =>
      let? target := _validated_target_url (Some (_config_value config_key)) in
      if py_empty target || bool_decide (target = _DEFAULT_PRODUCTION_RELAY_URL)
      then first_configured keys'
      else inr (Some (MkSelection target ("config:" +++ config_key) false))
  end.

Definition _select_distributed_target : provider_error + DistributedTargetSelection :=
  let? explicit := first_target _EXPLICIT_DISTRIBUTED_TARGET_ENVS "explicit_env" false in
  match explicit with Some s => inr s | None =>
  let? internal := first_target _RELAY_INTERNAL_URL_ENVS "relay_internal_env" true in
  match internal with Some s => inr s | None =>
  let? public := first_target _RELAY_PUBLIC_URL_ENVS "relay_public_env" true in
  match public with Some s => inr s | None =>
  let? configured := first_configured ["api.relay_url"; "relay.server_url"]%pystr in
  match configured with Some s => inr s | None =>
  if bool_decide (_current_token_place_env = "production"%pystr)
  then inr (MkSelection _DEFAULT_PRODUCTION_RELAY_URL "production_default" false)
  else inr unset_target
  end end end end.

Definition _select_implicit_relay_public_target : provider_error + DistributedTargetSelection :=
  let? public := first_target _RELAY_PUBLIC_URL_ENVS "relay_public_env" true in
  inr (default unset_target public).

(** ** Providers *)

Definition timeout_from_env : float64 :=
  match environ "TOKENPLACE_API_V1_DISTRIBUTED_TIMEOUT_SECONDS"%pystr with
  | None => fmax TRANSPORT_TIMEOUT_SECONDS f1
  | Some raw => match parse_float raw with
                | Some t => fmax t f1
                | None => TRANSPORT_TIMEOUT_SECONDS
                end
  end.

(** Source and [relay_only] of the target only appear in the log. *)
Definition _build_api_v1_compute_provider (mode distributed_url : pystr)
  (distributed_fallback_enabled : bool) : provider_error + provider :=
  if negb (bool_decide (mode = "distributed"%pystr)) then inr LocalApiV1ComputeProvider
  else if py_empty distributed_url then
    if distributed_fallback_enabled then inr LocalApiV1ComputeProvider else inl plain_provider_error
  else
    let distributed_provider :=
      DistributedApiV1ComputeProvider (py_rstrip distributed_url 47) timeout_from_env in
    inr (if distributed_fallback_enabled
         then FallbackApiV1ComputeProvider distributed_provider LocalApiV1ComputeProvider
         else distributed_provider).

(** With a selection at hand *)
Definition is_implicit_relay_only (selection : DistributedTargetSelection) : bool :=
  py_empty (py_strip (getenv environ "TOKENPLACE_API_V1_COMPUTE_PROVIDER" ""))
  && negb (py_empty (sel_url selection)) && sel_relay_only selection
  && py_startswith (sel_source selection) "relay_public_env:".

Definition is_api_v1_implicit_relay_only_selection : provider_error + bool :=
  if negb (py_empty (py_strip (getenv environ "TOKENPLACE_API_V1_COMPUTE_PROVIDER" ""))) then inr false
  else let? selection := _select_implicit_relay_public_target in inr (is_implicit_relay_only selection).

Definition _read_api_v1_provider_env : provider_error + (pystr * DistributedTargetSelection * bool) :=
  let configured_mode :=
    py_lower (py_strip (getenv environ "TOKENPLACE_API_V1_COMPUTE_PROVIDER" "")) in
  let distributed_fallback_enabled :=
    negb (pystr_in (py_lower (py_strip (getenv environ "TOKENPLACE_API_V1_DISTRIBUTED_FALLBACK" "1")))
            ["0"; "false"; "no"; "off"]%pystr) in
  let? implicit := _select_implicit_relay_public_target in
  if is_implicit_relay_only implicit then inr ("distributed"%pystr, implicit, false)
  else
    let mode := if py_empty configured_mode then "local"%pystr else configured_mode in
    let? target_selection := _select_distributed_target in
    inr (mode, target_selection, distributed_fallback_enabled).

Definition get_api_v1_compute_provider : provider_error + provider :=
  let? '(mode, target_selection, distributed_fallback_enabled) := _read_api_v1_provider_env in
  _build_api_v1_compute_provider mode (sel_url target_selection) distributed_fallback_enabled.

(** The target of the override: a selection, else a URL, else the environment's *)
Definition get_api_v1_compute_provider_for_mode (mode : pystr) (distributed_url : option pystr)
  (distributed_fallback_enabled : option bool)
  (distributed_target_selection : option DistributedTargetSelection) : provider_error + provider :=
  let normalized_mode := py_lower (py_strip (if py_empty mode then "local"%pystr else mode)) in
  let? '(_, env_target_selection, fallback_enabled_from_env) := _read_api_v1_provider_env in
  let fallback_enabled := default fallback_enabled_from_env distributed_fallback_enabled in
  let target_selection := match distributed_target_selection, distributed_url with
    | Some selection, _ => selection
    | None, Some url => MkSelection (_normalise_target_url (Some url)) "request_override" false
    | None, None => env_target_selection
    end in
  _build_api_v1_compute_provider normalized_mode (sel_url target_selection) fallback_enabled.

End urlparse.

Definition get_api_v1_resolved_provider_path (p : provider) : pystr :=
  match p with
  | FallbackApiV1ComputeProvider _ _ => "distributed_with_local_fallback"
  | DistributedApiV1ComputeProvider _ _ => "distributed"
  | LocalApiV1ComputeProvider => "local"
  end.
