(* ===== verification/ProviderSound.v ===== *)
(** * The exchange of the distributed provider with a relay

    The protocol as a step relation on phases, and that a call is a path of it. *)

From S2P Require Import Prelude PyFloat PyStr PyDict Base64 PyText PyUrl Json JsonText.
From S2P Require Import Encrypt EncryptSound CryptoManager Profiles Catalog.
From S2P Require Import Moderation Config Provider.

(** Where a call stands: nothing sent, a node asked for, the request submitted, its
    response looked for, given up *)
Inductive call_phase : Set := Start | Asked | Waiting | Looked | Cancelled.

Section protocol.
Context `{!World, !Cryptography, !FloatRepr, !PyNumbers}.
Context (c : relay_call) (model_id : pystr) (conversation : list json) (options : jdict).

(** The conversation and the options leave the process in the encrypted envelope only. *)
Inductive call_step : call_phase -> event -> call_phase -> Prop :=
| step_ask query timeout :
    query = JDict [("model", JStr (if py_empty model_id then QWEN3_API_MODEL_ID else model_id));
                   ("context_tier", JStr "8k-fast")]%pystr ->
    call_step Start (Sent (_relay_url (c_base_url c) "/api/v1/relay/servers/next") query timeout) Asked
| step_submit key env n n' timeout :
    encrypt_message (MValue (plaintext_envelope c model_id conversation options)) (PyS key) n = (n', inr env) ->
    call_step Asked (Sent (_relay_url (c_base_url c) "/api/v1/relay/requests")
                       (faucet_payload c key env) timeout) Waiting
| step_look query timeout :
    query = JDict [("client_public_key", JStr (ck_public_key_b64 (c_keys c)));
                   ("request_id", JStr (relay_request_id c))]%pystr ->
    call_step Waiting (Sent (_relay_url (c_base_url c) "/api/v1/relay/responses/retrieve")
                         query timeout) Looked
| step_sleep seconds : call_step Looked (Slept seconds) Waiting
| step_cancel query timeout :
    query = JDict [("client_public_key", JStr (ck_public_key_b64 (c_keys c)));
                   ("request_id", JStr (relay_request_id c)); ("status", JStr "expired");
                   ("reason", JStr "provider_timeout"); ("cancel_token", JStr (relay_cancel_token c))]%pystr ->
    call_step Waiting (Sent (_relay_url (c_base_url c) "/api/v1/relay/requests/cancel")
                         query timeout) Cancelled.

Inductive call_path : call_phase -> list event -> call_phase -> Prop :=
| path_nil p : call_path p [] p
| path_cons p e p' l q : call_step p e p' -> call_path p' l q -> call_path p (e :: l) q.

Lemma path_one p e p' : call_step p e p' -> call_path p [e] p'.
Proof. intros Hs. eapply path_cons; [done|constructor]. Qed.

Lemma path_app p l q l' r : call_path p l q -> call_path q l' r -> call_path p (l ++ l') r.
Proof. induction 1; simpl; [done|]. intros. eapply path_cons; eauto. Qed.

(** The path from [p] to [q] that was taken since [s0] *)
Definition went (p : call_phase) (s0 : provider_state) (q : call_phase) (s : provider_state) : Prop :=
  exists l, p_trace s = p_trace s0 ++ l /\ call_path p l q.

Lemma went_refl p s0 s : p_trace s = p_trace s0 -> went p s0 p s.
Proof. intros Ht. exists []. rewrite app_nil_r. split; [done|constructor]. Qed.

Lemma went_step p s0 q s e r s' : went p s0 q s -> call_step q e r ->
  p_trace s' = p_trace s ++ [e] -> went p s0 r s'.
Proof.
  intros (l & Hl & Hp) Hs Ht. exists (l ++ [e]). rewrite Ht, Hl, app_assoc. split; [done|].
  eapply path_app; [done|]. by apply path_one.
Qed.

Lemma went_trans p s0 q s r s' : went p s0 q s -> went q s r s' -> went p s0 r s'.
Proof.
  intros (l & Hl & Hp) (l' & Hl' & Hp'). exists (l ++ l'). rewrite Hl', Hl, app_assoc.
  split; [done|]. by eapply path_app.
Qed.

(** A completion that the relay's last answer holds, decrypted with the call's key and
    bound to the call *)
Definition bound_answer (r : CompletionResult) (s : provider_state) : Prop :=
  exists payload d response,
    relay_reply (p_trace s) = Some (MkResponse 200 (Some (JDict payload))) /\
    decrypt_message (ck_private_key (c_keys c)) (MValue (JDict payload)) = MValue (JDict d) /\
    jget d "protocol" = JStr PROTOCOL /\ jget d "request_id" = JStr (relay_request_id c) /\
    jget d "client_public_key" = JStr (ck_public_key_b64 (c_keys c)) /\
    jget d "api_v1_response" = JDict response /\ truthy (jget response "error") = false /\
    jget response "message" = JDict (cr_message r) /\
    cr_finish_reason r = str_or_none (jget response "finish_reason") /\
    cr_usage r = dict_or_none (jget response "usage").

(** ** One retrieval *)

Lemma read_answer_bound m r : read_answer c m = inr (Some r) -> exists d response,
  m = MValue (JDict d) /\
  jget d "protocol" = JStr PROTOCOL /\ jget d "request_id" = JStr (relay_request_id c) /\
  jget d "client_public_key" = JStr (ck_public_key_b64 (c_keys c)) /\
  jget d "api_v1_response" = JDict response /\ truthy (jget response "error") = false /\
  jget response "message" = JDict (cr_message r) /\
  cr_finish_reason r = str_or_none (jget response "finish_reason") /\
  cr_usage r = dict_or_none (jget response "usage").
Proof.
  destruct m as [j| |]; simpl; try done. destruct j as [| | | | | |d]; try done.
  destruct (jeq_str (jget d "protocol") _) eqn:Hp; [|done].
  destruct (jeq_str (jget d "request_id") _) eqn:Hr; [|done].
  destruct (jeq_str (jget d "client_public_key") _) eqn:Hk; [|done]. simpl.
  destruct (jget d "api_v1_response") as [| | | | | |response] eqn:Ha; try done.
  destruct (truthy _) eqn:He; [done|].
  destruct (jget response "message") as [| | | | | |m] eqn:Hm; try done. intros [= <-].
  apply jeq_str_true in Hp, Hr, Hk. exists d, response. by rewrite Hp, Hr, Hk, Ha, Hm.
Qed.

Lemma retrieval_bound s reply r : relay_reply (p_trace s) = reply ->
  read_retrieval c reply = inr (Some r) -> bound_answer r s.
Proof.
  intros Hs. destruct reply as [[st body]|]; [|done]. unfold read_retrieval, is_status. cbn [status_code Provider.body].
  destruct (st =? 202); [done|]. destruct (st =? 410); [done|]. destruct (st =? 404); [done|].
  destruct (st =? 200) eqn:E; [|done]. apply Z.eqb_eq in E as ->. simpl.
  destruct body as [[| | | | | |payload]|]; try done.
  destruct (truthy _); [destruct (jget payload "error") as [| | | | | |e]; try done;
    destruct (hashable _); [by destruct (scalar_in _ _)|done]|].
  destruct (_ && _); [|done]. intros (d & response & Hd & Hrest)%read_answer_bound.
  by exists payload, d, response.
Qed.

Definition no_cancel_code (e : provider_error) : Prop := e <> timeout_error /\ e <> StillPolling.

Lemma error_code code : exists ty msg st, _error_from_code code = ComputeProviderError code ty msg st.
Proof.
  unfold _error_from_code. destruct (dget _ _) as [[[ty msg] st]|]; by eexists _, _, _.
Qed.

(** Two errors made from codes are equal only when the codes are. *)
Lemma code_no_cancel code : bool_decide (code = "compute_node_timeout"%pystr) = false ->
  no_cancel_code (_error_from_code code).
Proof.
  intros Hn%bool_decide_eq_false. unfold no_cancel_code, timeout_error.
  destruct (error_code code) as (ty & msg & st & ->).
  destruct (error_code "compute_node_timeout"%pystr) as (ty' & msg' & st' & ->). split; congruence.
Qed.

#[local] Opaque _error_from_code.
#[local] Ltac by_code :=
  match goal with
  | |- inl _ = inl _ -> _ => intros [= <-]; first [by apply code_no_cancel | by split]
  | |- _ => done
  end.

Lemma answer_error m e : read_answer c m = inl e -> no_cancel_code e.
Proof.
  unfold read_answer. destruct m as [j| |]; [|by_code..].
  destruct j as [| | | | | |d]; try by_code.
  destruct (negb _); [by_code|]. destruct (negb _); [by_code|]. destruct (negb _); [by_code|].
  destruct (jget d "api_v1_response"); try by_code.
  destruct (truthy _); [by_code|]. destruct (jget _ _); by_code.
Qed.

Lemma retrieval_error reply e : read_retrieval c reply = inl e -> no_cancel_code e.
Proof.
  unfold read_retrieval. destruct reply as [r|]; [|by_code].
  destruct (is_status 202 r); [by_code|]. destruct (is_status 410 r); [by_code|].
  destruct (is_status 404 r); [by_code|]. destruct (negb _); [by_code|].
  destruct (body r) as [[| | | | | |payload]|]; try by_code.
  destruct (truthy _).
  - destruct (jget payload "error") as [| | | | | |d]; try by_code.
    destruct (hashable _) as [x|]; [|by_code]. destruct (scalar_in x _); by_code.
  - destruct (forallb _ _); [apply answer_error|by_code].
Qed.

(** ** The statements of a call *)

Lemma wp_now (Q : float64 -> provider_state -> Prop) R s :
  Q (time_time (p_ticks s)) (tick s) -> wp now Q R s.
Proof. done. Qed.

Lemma wp_send url payload timeout (Q : option http_response -> provider_state -> Prop) R s :
  (let s' := add_event (Sent url payload timeout) s in Q (relay_reply (p_trace s')) s') ->
  wp (send url payload timeout) Q R s.
Proof. done. Qed.

(** How a call that raised has ended *)
Definition failed (s0 : provider_state) (e : provider_error) (s : provider_state) : Prop :=
  exists q, went Start s0 q s /\ (q = Cancelled -> e = timeout_error) /\
    (e = timeout_error -> q <> Waiting /\ q <> Looked).

Lemma failed_code s0 e q s : went Start s0 q s -> q <> Cancelled -> e <> timeout_error -> failed s0 e s.
Proof. intros Hw Hq He. exists q. split; [done|]. by split; intros ?. Qed.

Lemma remaining_wp deadline (Q : float64 -> provider_state -> Prop) (R : provider_error -> provider_state -> Prop) s :
  (forall f, Q f (tick s)) -> R timeout_error (tick s) -> wp (_remaining_timeout deadline) Q R s.
Proof.
  intros HQ HR. unfold _remaining_timeout. apply wp_bind, wp_now, wp_bind.
  apply wp_raise_if; intros _; [done|]. by apply wp_ret.
Qed.

Lemma next_server_wp s0 deadline s :
  went Start s0 Start s -> wp (choose_server c model_id deadline)
    (fun _ s' => went Start s0 Asked s' /\ p_models s' = p_models s)
    (failed s0) s.
Proof.
  intros Hw. unfold choose_server. apply wp_bind, remaining_wp.
  2:{ exists Start. split; [exact Hw|]. split; [done|]. by intros _. }
  intros timeout. apply wp_bind, wp_send. cbn zeta.
  set (s1 := add_event _ _).
  assert (went Start s0 Asked s1) as Ha by (eapply went_step; [exact Hw|by apply step_ask|done]).
  assert (forall code, bool_decide (code = "compute_node_timeout"%pystr) = false ->
    failed s0 (_error_from_code code) s1) as Hf.
  { intros code [He _]%code_no_cancel. by eapply failed_code. }
  destruct (relay_reply _) as [r|]; [|by apply wp_raise, Hf].
  apply wp_bind, wp_raise_if; intros _; [by apply Hf|].
  apply wp_bind, wp_raise_if; intros _; [by apply Hf|].
  destruct (body r) as [[| | | | | |payload]|]; try by apply wp_raise, Hf.
  destruct (jget _ _) as [| | | |key| |]; try by apply wp_raise, Hf.
  apply wp_bind, wp_raise_if; intros _; [by apply Hf|]. by apply wp_ret.
Qed.

Lemma with_draws_wp {A} (m : CM A) wrap (Q : A -> provider_state -> Prop) (R : provider_error -> provider_state -> Prop) s :
  (forall n a, m (p_draws s) = (n, inr a) -> Q a (set_draws n s)) ->
  (forall n e, R (wrap e) (set_draws n s)) -> wp (with_draws m wrap) Q R s.
Proof. intros HQ HR. unfold wp, with_draws. destruct (m (p_draws s)) as [n [e|a]] eqn:E; eauto. Qed.

Lemma enqueue_wp s0 key deadline s :
  went Start s0 Asked s -> wp (enqueue c key model_id conversation options deadline)
    (fun _ s' => went Start s0 Waiting s') (failed s0) s.
Proof.
  intros Hw. unfold enqueue. apply wp_bind, with_draws_wp.
  2:{ intros n e. eapply failed_code; [exact Hw|done|]. by apply code_no_cancel. }
  intros n env Henv. apply wp_bind, remaining_wp.
  2:{ exists Asked. split; [exact Hw|]. split; [done|]. by intros _. }
  intros timeout. apply wp_bind, wp_send. cbn zeta. set (s1 := add_event _ _).
  assert (went Start s0 Waiting s1) as Ha.
  { eapply went_step; [exact Hw|by eapply step_submit|done]. }
  assert (forall code, bool_decide (code = "compute_node_timeout"%pystr) = false ->
    failed s0 (_error_from_code code) s1) as Hf.
  { intros code [He _]%code_no_cancel. by eapply failed_code. }
  destruct (relay_reply _) as [r|]; [|by apply wp_raise, Hf].
  apply wp_bind, wp_raise_if; intros _; [by apply Hf|].
  apply wp_bind, wp_raise_if; intros _; [by apply Hf|].
  destruct (body r) as [[| | | | | |payload]|]; try by apply wp_ret.
  apply wp_bind, wp_lift_val.
  - intros e He. eapply failed_code; [exact Ha|done|]. unfold _coerce_admitted_ttl in He.
    destruct (jget _ _); try done. destruct (float_of_int _); [done|]. by injection He as <-.
  - intros ttl _. destruct (flt f0 ttl); [|by apply wp_ret]. by apply wp_bind, wp_now, wp_ret.
Qed.

Lemma abandon_wp {A} s0 (Q : A -> provider_state -> Prop) s :
  went Start s0 Waiting s -> wp (abandon c) Q (failed s0) s.
Proof.
  intros Hw. unfold abandon, _cancel_relay_request. apply wp_bind, wp_bind, wp_send.
  cbn zeta. apply wp_ret, wp_raise. exists Cancelled. split; [|done].
  eapply went_step; [exact Hw|by apply step_cancel|done].
Qed.

Lemma poll_turn_wp s0 deadline s :
  went Start s0 Waiting s -> wp (response_turn c deadline)
    (fun o s' => match o with
                 | Some r => went Start s0 Looked s' /\ bound_answer r s'
                 | None => went Start s0 Waiting s'
                 end) (failed s0) s.
Proof.
  intros Hw. unfold response_turn. apply wp_bind, wp_now. cbn zeta.
  destruct (fle _ _); [by apply abandon_wp|]. apply wp_bind, wp_send. cbn zeta.
  set (s1 := add_event _ _).
  assert (went Start s0 Looked s1) as Ha by (eapply went_step; [exact Hw|by apply step_look|done]).
  apply wp_bind, wp_lift_val.
  - intros e He. apply retrieval_error in He as [He _]. by eapply failed_code.
  - intros [r|] Hr; [apply wp_ret; split; [done|]; by eapply retrieval_bound|].
    apply wp_bind, wp_now, wp_bind, wp_modify, wp_ret.
    eapply went_step; [exact Ha|apply step_sleep|done].
Qed.

Lemma poll_loop_wp s0 fuel deadline s :
  went Start s0 Waiting s -> wp (response_loop fuel c deadline)
    (fun r s' => went Start s0 Looked s' /\ bound_answer r s' /\
                 _last_backend_path s' = "distributed_relay_e2ee"%pystr) (failed s0) s.
Proof.
  revert s. induction fuel as [|fuel IH]; intros s Hw; simpl.
  - apply wp_raise. by eapply failed_code.
  - apply wp_bind, wp_now. destruct (flt _ _); [|by apply abandon_wp].
    apply wp_bind. eapply wp_mono; [by apply poll_turn_wp| |done].
    intros [r|] s' Hs; [|by apply IH]. destruct Hs as [Hl Hb]. by apply wp_bind, wp_modify, wp_ret.
Qed.

Lemma relayed_wp fuel deadline s :
  conversation = messages (p_models s) ->
  wp (relayed_completion fuel c model_id options deadline)
    (fun r s' => went Start s Looked s' /\ bound_answer r s' /\
                 _last_backend_path s' = "distributed_relay_e2ee"%pystr) (failed s) s.
Proof.
  intros Hc. unfold relayed_completion. apply wp_bind.
  eapply wp_mono; [apply next_server_wp; by apply went_refl| |done].
  intros key s1 [Ha Hm]. apply wp_bind, wp_get, wp_bind. rewrite Hm, <- Hc.
  eapply wp_mono; [by apply enqueue_wp| |done]. intros d s2 Hs2. by apply poll_loop_wp.
Qed.
End protocol.

(** ** Termination *)
Section termination.
Context `{!World, !Cryptography, !FloatRepr, !PyNumbers}.
Context (c : relay_call).

#[local] Opaque _error_from_code.

Lemma turn_ticks deadline s :
  wp (response_turn c deadline) (fun _ s' => (p_ticks s < p_ticks s')%nat) (fun e _ => e <> StillPolling) s.
Proof.
  assert (timeout_error <> StillPolling) as Ht.
  { unfold timeout_error. by destruct (error_code "compute_node_timeout"%pystr) as (? & ? & ? & ->). }
  unfold response_turn. apply wp_bind, wp_now. cbn zeta. destruct (fle _ _).
  - unfold abandon, _cancel_relay_request. by apply wp_bind, wp_bind, wp_send, wp_ret, wp_raise.
  - apply wp_bind, wp_send. cbn zeta. apply wp_bind, wp_lift_val.
    + intros e He. by apply retrieval_error in He as [_ ?].
    + intros [r|] _; [apply wp_ret; simpl; lia|]. apply wp_bind, wp_now, wp_bind, wp_modify, wp_ret. simpl. lia.
Qed.

(** One turn reads the clock at least once, so the number of readings up to the
    deadline is fuel enough. *)
Lemma response_loop_ends_by N deadline fuel s :
  (forall n, (N <= n)%nat -> flt (time_time n) deadline = false) -> (N - p_ticks s < fuel)%nat ->
  wp (response_loop fuel c deadline) (fun _ _ => True) (fun e _ => e <> StillPolling) s.
Proof.
  intros HN. revert s. induction fuel as [|fuel IH]; intros s Hf; simpl; [lia|].
  apply wp_bind, wp_now. destruct (flt _ _) eqn:E.
  - apply wp_bind. eapply wp_mono; [apply turn_ticks| |done]. simpl.
    intros [r|] s' Hs; [by apply wp_bind, wp_modify, wp_ret|]. apply IH.
    destruct (decide (N <= p_ticks s)%nat) as [Hle|]; [by rewrite HN in E|lia].
  - unfold abandon, _cancel_relay_request. apply wp_bind, wp_bind, wp_send, wp_ret, wp_raise.
    unfold timeout_error. by destruct (error_code "compute_node_timeout"%pystr) as (? & ? & ? & ->).
Qed.

(** The deadlines a call of [T] seconds that starts at reading [k] can have *)
Definition call_deadline (T : float64) (k : nat) (d : float64) : Prop :=
  d = fadd (time_time k) T \/
  exists tr payload ttl,
    relay_reply tr = Some (MkResponse 200 (Some (JDict payload))) /\
    _coerce_admitted_ttl (jget payload "request_ttl_seconds") = inr ttl /\
    d = fadd (time_time (k + 3)) (fmin T (fadd ttl RESPONSE_GRACE_SECONDS)).

Lemma code_not_polling code : _error_from_code code <> StillPolling.
Proof. by destruct (error_code code) as (? & ? & ? & ->). Qed.

Lemma next_server_ticks model_id deadline s :
  wp (choose_server c model_id deadline) (fun _ s' => p_ticks s' = S (p_ticks s))
    (fun e _ => e <> StillPolling) s.
Proof.
  unfold choose_server. apply wp_bind, remaining_wp; [|apply code_not_polling].
  intros timeout. apply wp_bind, wp_send. cbn zeta.
  destruct (relay_reply _) as [r|]; [|apply wp_raise, code_not_polling].
  apply wp_bind, wp_raise_if; intros _; [apply code_not_polling|].
  apply wp_bind, wp_raise_if; intros _; [apply code_not_polling|].
  destruct (body r) as [[| | | | | |payload]|]; try apply wp_raise, code_not_polling.
  destruct (jget _ _); try apply wp_raise, code_not_polling.
  apply wp_bind, wp_raise_if; intros _; [apply code_not_polling|by apply wp_ret].
Qed.

Lemma enqueue_deadline key model_id conversation options k s :
  p_ticks s = (k + 2)%nat ->
  wp (enqueue c key model_id conversation options (fadd (time_time k) (relay_timeout c)))
    (fun d _ => call_deadline (relay_timeout c) k d) (fun e _ => e <> StillPolling) s.
Proof.
  intros Hk. unfold enqueue. apply wp_bind, with_draws_wp; [|intros; apply code_not_polling].
  intros n env _. apply wp_bind, remaining_wp; [|apply code_not_polling].
  intros timeout. apply wp_bind, wp_send. cbn zeta.
  destruct (relay_reply _) as [r|] eqn:Er; [|apply wp_raise, code_not_polling].
  apply wp_bind, wp_raise_if; intros _; [apply code_not_polling|].
  apply wp_bind, wp_raise_if; intros E; [apply code_not_polling|].
  apply negb_false_iff, Z.eqb_eq in E. destruct r as [st b]. simpl in E. subst st. cbn [body].
  destruct b as [[| | | | | |payload]|]; try (apply wp_ret; by left).
  apply wp_bind, wp_lift_val.
  - intros e He. unfold _coerce_admitted_ttl in He. destruct (jget _ _); try done.
    destruct (float_of_int _); [done|]. by injection He as <-.
  - intros ttl Httl. destruct (flt f0 ttl); [|apply wp_ret; by left].
    apply wp_bind, wp_now, wp_ret. right. eexists _, payload, ttl. split; [done|]. split; [done|].
    simpl. rewrite Hk. by rewrite <- Nat.add_succ_r.
Qed.
End termination.

(** * What the compute providers guarantee *)

(** The identifiers, the keys and the timeouts of the call a provider makes from [s] *)
Definition call_from `{!World, !Cryptography} (base_url : pystr) (timeout_seconds : float64)
  (s : provider_state) (keys : CryptoKeys) : relay_call :=
  MkCall base_url keys ("api-v1-" +++ uuid4_hex (p_uuids s)) (uuid4_hex (S (p_uuids s)))
    (fmax timeout_seconds f1) (_poll_interval_seconds timeout_seconds).

Section contract.
Context `{!World, !Cryptography, !FloatRepr, !PyNumbers}.
#[local] Set Default Proof Using "Type*".

(** The statements before the exchange *)
Lemma distributed_run fuel base_url timeout_seconds model_id options s :
  exists n, (exists e, initialize_keys (p_draws s) = (n, inl e) /\
      distributed_complete_chat fuel base_url timeout_seconds model_id options s
        = (set_draws n (set_backend "distributed_relay_e2ee_pending" s), inl (CryptoFailure e))) \/
  exists keys s1, initialize_keys (p_draws s) = (n, inr keys) /\
    p_trace s1 = p_trace s /\ p_models s1 = p_models s /\ p_ticks s1 = S (p_ticks s) /\ p_draws s1 = n /\
    distributed_complete_chat fuel base_url timeout_seconds model_id options s =
      relayed_completion fuel (call_from base_url timeout_seconds s keys) model_id options
        (fadd (time_time (p_ticks s)) (fmax timeout_seconds f1)) s1.
Proof.
  set (s0 := set_backend "distributed_relay_e2ee_pending" s).
  assert (forall k : unit -> PM CompletionResult,
    bind (modify (set_backend "distributed_relay_e2ee_pending")) k s = k tt s0) as Hs0 by done.
  unfold distributed_complete_chat. rewrite Hs0. clear Hs0.
  destruct (initialize_keys (p_draws s)) as [n [e|keys]] eqn:Ek; exists n; [left|right].
  - exists e. split; [done|]. unfold bind, with_draws. change (p_draws s0) with (p_draws s). by rewrite Ek.
  - exists keys, (MkProviderState (p_models s) "distributed_relay_e2ee_pending" (S (p_ticks s)) n
      (S (S (p_uuids s))) (p_trace s)).
    split; [done|]. do 4 (split; [done|]). rewrite (bind_run _ _ s0 (set_draws n s0) keys); [done|].
    unfold with_draws. change (p_draws s0) with (p_draws s). by rewrite Ek.
Qed.

(** The events of a call *)
Lemma distributed_wp fuel base_url timeout_seconds model_id options s :
  wp (distributed_complete_chat fuel base_url timeout_seconds model_id options)
    (fun _ s' => exists keys,
       went (call_from base_url timeout_seconds s keys) model_id (messages (p_models s)) options
         Start s Looked s')
    (fun e s' => p_trace s' = p_trace s \/ exists keys q,
       went (call_from base_url timeout_seconds s keys) model_id (messages (p_models s)) options
         Start s q s' /\
       (q = Cancelled -> e = timeout_error) /\ (e = timeout_error -> q <> Waiting /\ q <> Looked)) s.
Proof.
  unfold wp. destruct (distributed_run fuel base_url timeout_seconds model_id options s)
    as (n & [(e & _ & ->)|(keys & s1 & _ & Ht & Hm & _ & _ & ->)]); [by left|].
  assert (forall c conv q s', went c model_id conv options Start s1 q s' ->
    went c model_id conv options Start s q s') as Hw.
  { intros c conv q s' (l & Hl & Hp). exists l. by rewrite <- Ht. }
  epose proof (relayed_wp (call_from base_url timeout_seconds s keys) model_id (messages (p_models s))
    options fuel (fadd (time_time (p_ticks s)) (fmax timeout_seconds f1)) s1) as Hr.
  rewrite Hm in Hr. specialize (Hr eq_refl). unfold wp in Hr.
  destruct (relayed_completion _ _ _ _ _ s1) as [s' [e|r]].
  - right. destruct Hr as (q & Hq & Hrest). exists keys, q. split; [by apply Hw|done].
  - exists keys. apply Hw, Hr.
Qed.

(** C17: A call of the distributed provider is a path of the protocol: a node is asked
    for, one encrypted request submitted, then response looked up and sleep in turn.
    Nothing but the envelope depends on the conversation and the options.  A completion
    is returned after a look; an expired call has cancelled its request as its last
    act, once it was submitted, and no other call cancels. *)
Theorem exchange_follows_the_protocol fuel base_url timeout_seconds model_id options s :
  wp (distributed_complete_chat fuel base_url timeout_seconds model_id options)
    (fun _ s' => exists keys,
       went (call_from base_url timeout_seconds s keys) model_id (messages (p_models s)) options
         Start s Looked s')
    (fun e s' => p_trace s' = p_trace s \/ exists keys q,
       went (call_from base_url timeout_seconds s keys) model_id (messages (p_models s)) options
         Start s q s' /\
       (q = Cancelled -> e = timeout_error) /\ (e = timeout_error -> q <> Waiting /\ q <> Looked)) s.
Proof. apply distributed_wp. Qed.

(** C18: A completion the distributed provider returns is the message of a response that
    decrypts with the key made for this very call, names the call's request and key,
    and reports no error. *)
Theorem completion_is_bound fuel base_url timeout_seconds model_id options s s' r :
  distributed_complete_chat fuel base_url timeout_seconds model_id options s = (s', inr r) ->
  exists n keys, initialize_keys (p_draws s) = (n, inr keys) /\
    bound_answer (call_from base_url timeout_seconds s keys) r s' /\
    _last_backend_path s' = "distributed_relay_e2ee"%pystr.
Proof.
  destruct (distributed_run fuel base_url timeout_seconds model_id options s)
    as (n & [(e & _ & ->)|(keys & s1 & Hk & Ht & Hm & _ & _ & ->)]); [done|]. intros Hrun.
  epose proof (relayed_wp (call_from base_url timeout_seconds s keys) model_id (messages (p_models s))
    options fuel (fadd (time_time (p_ticks s)) (fmax timeout_seconds f1)) s1) as Hr.
  rewrite Hm in Hr. apply (wp_result _ _ _ _ _ _ (Hr eq_refl)) in Hrun. exists n, keys.
  by destruct Hrun as (_ & Hb & Hp).
Qed.

(** A call ends: when no deadline it can have is ahead of the clock from the [N]th
    reading on, more than [N] turns are never needed. *)
Theorem provider_call_ends fuel base_url timeout_seconds model_id options s N :
  (forall d n, call_deadline (fmax timeout_seconds f1) (p_ticks s) d -> (N <= n)%nat ->
     flt (time_time n) d = false) ->
  (N < fuel)%nat ->
  (distributed_complete_chat fuel base_url timeout_seconds model_id options s).2 <> inl StillPolling.
Proof.
  intros HN Hf. destruct (distributed_run fuel base_url timeout_seconds model_id options s)
    as (n & [(e & _ & ->)|(keys & s1 & Hk & Ht & Hm & Hti & _ & ->)]); [done|].
  set (c := call_from base_url timeout_seconds s keys).
  assert (wp (relayed_completion fuel c model_id options
    (fadd (time_time (p_ticks s)) (fmax timeout_seconds f1))) (fun _ _ => True) (fun e _ => e <> StillPolling) s1) as Hw.
  { unfold relayed_completion. apply wp_bind. eapply wp_mono; [apply next_server_ticks| |done]. simpl.
    intros key s2 Hs2. apply wp_bind, wp_get, wp_bind. eapply wp_mono.
    - apply (enqueue_deadline c key model_id _ options (p_ticks s)). rewrite Hs2, Hti. lia.
    - intros d s3 Hd. eapply response_loop_ends_by; [intros m Hm'; by apply HN|lia].
    - done. }
  unfold wp in Hw. destruct (relayed_completion _ _ _ _ _ s1) as [s' [e|r]]; [|done]. by intros [= ->].
Qed.

End contract.

(** ** Targets *)
Section targets.
Context `{!NetlocCheck, !PyUnicode} (environ : environment) (config : jdict).

(** An absolute HTTP(S) URL *)
Definition absolute_url (u : pystr) : Prop :=
  exists scheme netloc, urlparse u = Some (scheme, netloc) /\
    (scheme = "http"%pystr \/ scheme = "https"%pystr) /\ py_empty netloc = false.

Lemma validated_sound value target : _validated_target_url value = inr target ->
  py_empty target = false -> target = _normalise_target_url value /\ absolute_url target.
Proof.
  unfold _validated_target_url. destruct (py_empty (_normalise_target_url value)); [by intros [= <-]|].
  destruct (urlparse _) as [[scheme netloc]|] eqn:Eu; [|done].
  destruct (_ && _) eqn:E; [|done]. intros [= <-] _. split; [done|].
  apply andb_true_iff in E as [E1 E2]. apply bool_decide_eq_true, elem_of_cons in E1.
  apply negb_true_iff in E2. exists scheme, netloc. split; [done|]. split; [|done].
  destruct E1 as [->|E1]; [by left|right]. by apply list_elem_of_singleton in E1.
Qed.

Lemma first_target_sound names label relay_only sel :
  first_target environ names label relay_only = inr (Some sel) ->
  absolute_url (sel_url sel) /\
  exists name, name ∈ names /\ sel_url sel = _normalise_target_url (environ name).
Proof.
  induction names as [|name names IH]; [done|]. cbn [first_target]. rewrite ebind_inr.
  intros (target & Ht & Hrest). destruct (py_empty target) eqn:E.
  - destruct (IH Hrest) as [Ha (m & Hm & Hu)]. split; [done|]. exists m. split; [by right|done].
  - injection Hrest as <-. destruct (validated_sound _ _ Ht E) as [Hn Ha].
    split; [done|]. exists name. split; [by left|done].
Qed.

Lemma first_configured_sound keys sel : first_configured config keys = inr (Some sel) ->
  absolute_url (sel_url sel) /\ sel_url sel <> _DEFAULT_PRODUCTION_RELAY_URL.
Proof.
  induction keys as [|key keys IH]; [done|]. cbn [first_configured]. rewrite ebind_inr.
  intros (target & Ht & Hrest). destruct (py_empty target) eqn:E; [by apply IH|]. simpl in Hrest.
  case_bool_decide as Ep; [by apply IH|]. injection Hrest as <-.
  by destruct (validated_sound _ _ Ht E) as [_ Ha].
Qed.

(** The relay a distributed provider is pointed at is unset, and then the
    deployment is not production, or it is an absolute HTTP(S) URL; and it is the
    production relay only in a production deployment or when an environment variable
    names that very URL: a default or a configured value never leads another
    deployment there. *)
Theorem selected_target_is_sound sel :
  _select_distributed_target environ config = inr sel ->
  (sel = unset_target /\ _current_token_place_env environ <> "production"%pystr) \/
  (absolute_url (sel_url sel) /\
   (sel_url sel = _DEFAULT_PRODUCTION_RELAY_URL ->
      _current_token_place_env environ = "production"%pystr \/
      exists name, name ∈ _EXPLICIT_DISTRIBUTED_TARGET_ENVS ++ _RELAY_INTERNAL_URL_ENVS
                          ++ _RELAY_PUBLIC_URL_ENVS /\
        _normalise_target_url (environ name) = _DEFAULT_PRODUCTION_RELAY_URL)).
Proof.
  unfold _select_distributed_target.
  assert (forall names label ro s, names ⊆ _EXPLICIT_DISTRIBUTED_TARGET_ENVS ++ _RELAY_INTERNAL_URL_ENVS
    ++ _RELAY_PUBLIC_URL_ENVS -> first_target environ names label ro = inr (Some s) ->
    absolute_url (sel_url s) /\ (sel_url s = _DEFAULT_PRODUCTION_RELAY_URL ->
      exists name, name ∈ _EXPLICIT_DISTRIBUTED_TARGET_ENVS ++ _RELAY_INTERNAL_URL_ENVS
        ++ _RELAY_PUBLIC_URL_ENVS /\ _normalise_target_url (environ name) = _DEFAULT_PRODUCTION_RELAY_URL)) as Hfirst.
  { intros names label ro s Hsub (Ha & name & Hn & Hu)%first_target_sound. split; [done|].
    intros Hp. exists name. split; [by apply Hsub|]. by rewrite <- Hu. }
  rewrite ebind_inr. intros ([s1|] & H1 & Hrun).
  { injection Hrun as <-. right. apply Hfirst in H1 as [Ha Hp]; [eauto|]. intros ? ?. rewrite !elem_of_app. auto. }
  apply ebind_inr in Hrun as ([s2|] & H2 & Hrun).
  { injection Hrun as <-. right. apply Hfirst in H2 as [Ha Hp]; [eauto|]. intros ? ?. rewrite !elem_of_app. auto. }
  apply ebind_inr in Hrun as ([s3|] & H3 & Hrun).
  { injection Hrun as <-. right. apply Hfirst in H3 as [Ha Hp]; [eauto|]. intros ? ?. rewrite !elem_of_app. auto. }
  apply ebind_inr in Hrun as ([s4|] & H4 & Hrun).
  { injection Hrun as <-. right. apply first_configured_sound in H4 as [Ha Hp]. by split. }
  case_bool_decide as Ep; injection Hrun as <-; [|by left].
  right. split; [|by left]. exists "https"%pystr, "token.place"%pystr. split; [done|]. by split; [right|].
Qed.

End targets.
