(* ===== verification/ProviderHonest.v ===== *)
(** * A call that is answered

    A relay that forwards, and a compute node that decrypts the request and seals its
    reply for the key the request names: the two ends of the protocol composed. *)

From S2P Require Import Prelude PyFloat PyStr PyDict Base64 PyText PyUrl Json JsonText.
From S2P Require Import Encrypt EncryptSound CryptoManager.
From S2P Require Import Profiles Catalog Moderation Config Provider.
From S2P Require Import ProviderSound.

(** A document that fits an envelope *)
Definition sealable `{!FloatRepr, !PyNumbers} (j : json) : Prop :=
  document_ok j /\ exists bytes, _coerce_message_bytes (MValue j) = inr bytes /\ zlen bytes <= gcm_limit.

Section honest.
Context `{!World, !Cryptography, !FloatRepr, !PyNumbers}.
(** The node's keys, the draws it has made, its model and the relay's address *)
Context (node_private node_public : list byte) (node_draws : nat) (infer : json -> jdict) (base_url : pystr).

(** The plaintext of a node's answer to a decrypted request *)
Definition answer_document (request : jdict) : json :=
  JDict [("protocol", JStr PROTOCOL); ("request_id", jget request "request_id");
         ("client_public_key", jget request "client_public_key");
         ("api_v1_response", JDict [("message", JDict (infer (jget request "api_v1_request")))])]%pystr.

Definition node_answer (submitted : json) : option jdict :=
  match decrypt_message node_private (MValue submitted) with
  | MValue (JDict request) =>
      match encrypt_message (MValue (answer_document request))
              (PyS (str_value (jget request "client_public_key"))) node_draws with
      | (_, inr env) => Some env
      | _ => None
      end
  | _ => None
  end.

(** The relay names the node, accepts the request and gives out the node's answer to
    the request that was submitted before. *)
Definition forwards (trace : list event) : option http_response :=
  match rev trace with
  | Sent url _ _ :: before =>
      if bool_decide (url = _relay_url base_url "/api/v1/relay/servers/next") then
        Some (MkResponse 200 (Some (JDict [("server_public_key", JStr (b64encode node_public))]%pystr)))
      else if bool_decide (url = _relay_url base_url "/api/v1/relay/requests") then
        Some (MkResponse 200 (Some (JDict [])))
      else match before with
           | Sent _ submitted _ :: _ =>
               MkResponse 200 <$> (Some ∘ JDict <$> node_answer submitted)
           | _ => None
           end
  | _ => None
  end.

(** Only the three fields of the envelope are read. *)
Lemma decrypt_fields private payload env :
  (forall k, k ∈ ["chat_history"; "cipherkey"; "iv"]%pystr -> jget payload k = jget env k) ->
  decrypt_message private (MValue (JDict payload)) = decrypt_message private (MValue (JDict env)).
Proof.
  intros Hk. unfold decrypt_message. cbn [_coerce_encrypted_payload mbind option_bind].
  unfold _deserialize_encrypted_payload, decoded_field. cbn [existsb].
  rewrite !Hk; [done|..]; by apply (bool_decide_eq_true_1 _).
Qed.

Lemma answer_read c d m :
  jget d "protocol" = JStr PROTOCOL -> jget d "request_id" = JStr (relay_request_id c) ->
  jget d "client_public_key" = JStr (ck_public_key_b64 (c_keys c)) ->
  jget d "api_v1_response" = JDict [("message", JDict m)]%pystr ->
  read_answer c (MValue (JDict d)) = inr (Some (MkCompletion m None None None)).
Proof.
  intros Hp Hr Hk Ha. unfold read_answer. rewrite Hp, Hr, Hk, Ha. unfold jeq_str.
  by rewrite !bool_decide_eq_true_2.
Qed.

(** A relay path is recognised whatever the address is. *)
Lemma relay_url_inj p q :
  py_startswith p "/api/v1/" = true -> py_startswith q "/api/v1/" = true ->
  _relay_url base_url p = _relay_url base_url q -> p = q.
Proof.
  intros Hp Hq. unfold _relay_url. rewrite Hp, Hq, !andb_true_r.
  apply bool_decide_eq_true in Hp as [l Hl], Hq as [m Hm].
  destruct p as [p], q as [q]. cbn [codes] in *. subst p q.
  destruct (py_endswith _ _); intros [= He]; apply app_inv_head in He.
  - cbn in He. by simplify_eq.
  - by f_equal.
Qed.

Lemma strip_no_space s : forallb (fun x => negb (is_py_space x)) (codes s) = true -> py_strip s = s.
Proof.
  intros Hs. destruct s as [l]. unfold py_strip. cbn [codes] in *. f_equal.
  assert (forall m, forallb (fun x => negb (is_py_space x)) m = true -> drop_space m = m) as Hd.
  { intros m Hm. apply drop_space_id. destruct m; [done|]. apply andb_true_iff in Hm as [Hm _].
    by apply negb_true_iff. }
  rewrite (Hd l) by done. rewrite Hd; [apply rev_involutive|]. by rewrite forallb_rev.
Qed.

Lemma b64_strip l : py_strip (b64encode l) = b64encode l.
Proof. apply strip_no_space. apply b64_codes_all; vm_compute; reflexivity. Qed.

(** ** The statements of a call against this relay *)
Section run.
Context (Hrelay : forall trace, relay_reply trace = forwards trace) (Hpublic : node_public <> []).
#[local] Set Default Proof Using "All".

Lemma next_server_run c model_id deadline s :
  c_base_url c = base_url -> fle (fsub deadline (time_time (p_ticks s))) f0 = false ->
  exists query timeout, choose_server c model_id deadline s =
    (add_event (Sent (_relay_url base_url "/api/v1/relay/servers/next") query timeout) (tick s),
     inr (b64encode node_public)).
Proof.
  intros Hb Ht. eexists _, _. unfold choose_server, _remaining_timeout.
  unfold bind at 1 2, now, raise_if, bind at 1. rewrite Ht. cbn [ret bind].
  unfold bind at 1, send. rewrite Hb, Hrelay. cbn [p_trace add_event]. unfold forwards.
  rewrite rev_app_distr. cbn [rev app]. rewrite bool_decide_eq_true_2 by done. cbn -[jget].
  change (jget _ _) with (JStr (b64encode node_public)). cbn beta iota.
  by rewrite b64_strip, b64_nonempty.
Qed.

Lemma enqueue_run c model_id conversation options deadline n env s :
  c_base_url c = base_url -> fle (fsub deadline (time_time (p_ticks s))) f0 = false ->
  encrypt_message (MValue (plaintext_envelope c model_id conversation options))
    (PyS (b64encode node_public)) (p_draws s) = (n, inr env) ->
  exists timeout, enqueue c (b64encode node_public) model_id conversation options deadline s =
    (add_event (Sent (_relay_url base_url "/api/v1/relay/requests")
                  (faucet_payload c (b64encode node_public) env) timeout) (tick (set_draws n s)),
     inr deadline).
Proof.
  intros Hb Ht He. eexists. unfold enqueue.
  rewrite (bind_run _ _ s (set_draws n s) env) by (unfold with_draws; by rewrite He).
  unfold _remaining_timeout.
  unfold bind at 1 2, now, raise_if, bind at 1. cbn [p_ticks set_draws]. rewrite Ht. cbn [ret bind].
  unfold bind at 1, send. rewrite Hb, Hrelay. cbn [p_trace add_event]. unfold forwards.
  rewrite rev_app_distr. cbn [rev app]. rewrite bool_decide_eq_false_2, bool_decide_eq_true_2; [|done|].
  2:{ intros Heq%relay_url_inj; done. }
  reflexivity.
Qed.

Lemma look_run c deadline s url submitted timeout before answer r :
  c_base_url c = base_url -> 
  flt (time_time (p_ticks s)) deadline = true ->
  fle (fsub deadline (time_time (S (p_ticks s)))) f0 = false ->
  p_trace s = before ++ [Sent url submitted timeout] -> node_answer submitted = Some answer ->
  read_retrieval c (Some (MkResponse 200 (Some (JDict answer)))) = inr (Some r) ->
  exists s', response_loop 1 c deadline s = (s', inr r).
Proof.
  intros Hb Ht Ht' Htr Ha Hr. cbn [response_loop]. unfold bind at 1, now. rewrite Ht.
  unfold response_turn. unfold bind at 1 2, now. cbn [p_ticks tick]. rewrite Ht'.
  unfold bind at 1, send. rewrite Hb, Hrelay. cbn [p_trace add_event tick]. rewrite Htr. unfold forwards.
  rewrite !rev_app_distr. cbn [rev app].
  rewrite !bool_decide_eq_false_2 by (by intros Heq%relay_url_inj).
  rewrite Ha. cbn [fmap option_fmap option_map]. unfold lift_val. cbn [compose].
  rewrite Hr. by eexists.
Qed.
End run.

(** The plaintext of the request as a dictionary *)
Definition request_document (c : relay_call) (model_id : pystr) (conversation : list json)
  (options : jdict) : jdict :=
  match plaintext_envelope c model_id conversation options with JDict d => d | _ => [] end.

(** What the compute node is asked *)
Definition asked_of_node (model_id : pystr) (conversation : list json) (options : jdict) : json :=
  JDict [("model", JStr model_id); ("messages", JList conversation); ("options", JDict options)]%pystr.

(** The submitted payload holds the envelope. *)
Lemma faucet_fields c key ciphertext cipherkey iv : exists payload,
  faucet_payload c key (envelope ciphertext cipherkey iv) = JDict payload /\
  forall k, k ∈ ["chat_history"; "cipherkey"; "iv"]%pystr ->
    jget payload k = jget (envelope ciphertext cipherkey iv) k.
Proof.
  eexists. split; [done|]. intros k Hk.
  repeat (apply elem_of_cons in Hk as [->|Hk]; [done|]). by apply elem_of_nil in Hk.
Qed.

Lemma encrypt_message_shape m key n n' env : encrypt_message m key n = (n', inr env) ->
  exists ciphertext cipherkey iv, env = envelope ciphertext cipherkey iv.
Proof.
  unfold encrypt_message. intros Hrun. invert_run.
  repeat match goal with p : (_ * _)%type |- _ => destruct p end. invert_run. by eexists _, _, _.
Qed.

(** The keys made for a call are a pair. *)
Lemma made_keys m n keys : initialize_keys m = (n, inr keys) -> exists private public,
  keys = MkCryptoKeys private public (b64encode public) /\ key_pair private public.
Proof.
  unfold initialize_keys. assert (generate_keys m = (S m, inr (generate_private_key m RSA_KEY_SIZE))) as -> by done.
  destruct (generate_private_key m RSA_KEY_SIZE) as [private public] eqn:E. intros [= _ <-].
  exists private, public. split; [done|]. by exists m.
Qed.

Context `{!CryptographyLaws}.
#[local] Set Default Proof Using "All".

(** A document that is sealed for a key is opened by its private half. *)
Lemma sealed_for j private public n : key_pair private public -> sealable j -> is_JDict j = true ->
  exists env, encrypt_message (MValue j) (PyS (b64encode public)) n = (S (S (S n)), inr env) /\
    decrypt_message private (MValue (JDict env)) = MValue j.
Proof using Type*.
  intros Hkp (Hok & bytes & Hb & Hl) Hd.
  destruct (envelope_opens (MValue j) bytes private public n Hkp Hb Hl) as (env & He & Hopen & _).
  exists env. rewrite (document_parsed j bytes) in Hopen by auto. done.
Qed.

(** C16: A conversation makes the round trip.  When the relay forwards and the clock does
    not pass the deadline, the node decrypts exactly the model, the messages and the
    options the provider was called with, and the provider returns exactly the message
    the node inferred from them, in one turn of the loop. *)
Theorem conversation_round_trip timeout_seconds model_id options s n keys :
  (forall trace, relay_reply trace = forwards trace) ->
  key_pair node_private node_public -> node_public <> [] ->
  initialize_keys (p_draws s) = (n, inr keys) ->
  (forall k, (k <= 4)%nat ->
     let deadline := fadd (time_time (p_ticks s)) (fmax timeout_seconds f1) in
     flt (time_time (p_ticks s + k)) deadline = true /\
     fle (fsub deadline (time_time (p_ticks s + k))) f0 = false) ->
  let c := call_from base_url timeout_seconds s keys in
  let request := request_document c model_id (messages (p_models s)) options in
  sealable (JDict request) -> sealable (answer_document request) ->
  exists s', distributed_complete_chat 1 base_url timeout_seconds model_id options s =
    (s', inr (MkCompletion (infer (asked_of_node model_id (messages (p_models s)) options)) None None None)).
Proof.
  intros Hrelay Hkp Hne Hk Htime c request Hreq Hans.
  destruct (distributed_run 1 base_url timeout_seconds model_id options s)
    as (n' & [(e & He & _)|(keys' & s1 & Hk' & Ht & Hm & Hti & Hdr & ->)]); [by rewrite Hk in He|].
  rewrite Hk in Hk'. injection Hk' as <- <-. fold c.
  set (deadline := fadd _ _) in *. cbv zeta in Htime.
  destruct (made_keys _ _ _ Hk) as (private & public & Hkeys & Hck).
  destruct (sealed_for (JDict request) node_private node_public n Hkp Hreq eq_refl) as (env & Henv & Hnode).
  destruct (sealed_for (answer_document request) private public node_draws Hck Hans eq_refl)
    as (answer & Hanswer & Hopen).
  destruct (encrypt_message_shape _ _ _ _ _ Henv) as (ct & ck & iv & ->).
  destruct (faucet_fields c (b64encode node_public) ct ck iv) as (payload & Hpayload & Hfields).
  assert (node_answer (JDict payload) = Some answer) as Hna.
  { unfold node_answer. rewrite (decrypt_fields _ _ _ Hfields), Hnode.
    replace (str_value (jget request "client_public_key")) with (b64encode public) by by subst keys.
    by rewrite Hanswer. }
  unfold relayed_completion.
  assert (forall k, (k <= 4)%nat -> fle (fsub deadline (time_time (p_ticks s + k))) f0 = false) as Hrem
    by (intros; by apply Htime).
  destruct (next_server_run Hrelay Hne c model_id deadline s1) as (query & timeout & Hn); [done| |].
  { rewrite Hti, <- (Nat.add_1_r (p_ticks s)). apply Hrem. lia. }
  rewrite (bind_run _ _ _ _ _ Hn). set (s2 := add_event _ _).
  assert (forall k : provider_state -> PM CompletionResult, bind get_state k s2 = k s2 s2) as -> by done.
  destruct (enqueue_run Hrelay Hne c model_id (messages (p_models s2)) options deadline (S (S (S n)))
    (envelope ct ck iv) s2) as (timeout' & He); [done| | |].
  { simpl. rewrite Hti. replace (S (S (p_ticks s))) with (p_ticks s + 2)%nat by lia. apply Hrem. lia. }
  { simpl. rewrite Hm, Hdr. exact Henv. }
  rewrite (bind_run _ _ _ _ _ He). rewrite Hpayload.
  destruct (encrypt_message_shape _ _ _ _ _ Hanswer) as (ct' & ck' & iv' & ->).
  eapply (look_run Hrelay Hne); [done| | |reflexivity|exact Hna|].
  - simpl. rewrite Hti. replace (S (S (S (p_ticks s)))) with (p_ticks s + 3)%nat by lia. apply Htime. lia.
  - simpl. rewrite Hti. replace (S (S (S (S (p_ticks s))))) with (p_ticks s + 4)%nat by lia.
    apply Hrem. lia.
  - change (read_retrieval c _) with (read_answer c (decrypt_message (ck_private_key keys)
      (MValue (JDict (envelope ct' ck' iv'))))).
    replace (ck_private_key keys) with private by by subst keys. rewrite Hopen.
    subst keys. by apply answer_read.
Qed.
End honest.

(** * Calls of the providers, evaluated *)

#[local] Instance demo_repr : FloatRepr := fun _ => "0.0"%pystr.
#[local] Instance demo_numbers : PyNumbers := { parse_float _ := None; parse_int _ := None }.

(** A clock that stands still after five hundred readings *)
Definition demo_clock (n : nat) : float64 := float_near (Z.min 500 (Z.of_nat n)).

Definition demo_relay : pystr := "http://relay".

(** The node's key is the toy key of its first draw; it answers with what it is asked. *)
Definition echo (request : json) : jdict :=
  [("role", JStr "assistant"); ("content", JStr "Hello"); ("asked", request)]%pystr.

#[local] Instance honest_world : World := {
  time_time := demo_clock;
  relay_reply := forwards toy_private toy_public 9 echo demo_relay;
  uuid4_hex n := py_str_int (Z.of_nat n)
}.

Definition demo_state : provider_state :=
  MkProviderState (mkModels [] [] [JDict [("role", JStr "user"); ("content", JStr "Hi")]%pystr])
    "unknown" 0 0 0 [].

Definition demo_keys : CryptoKeys := MkCryptoKeys [Byte.x00] [Byte.x00] (b64encode [Byte.x00]).

Definition demo_call : relay_call := call_from demo_relay f30 demo_state demo_keys.

(** The documents of the call *)
Ltac document_by_evaluation :=
  repeat first
    [ apply ok_dict; [apply (bool_decide_unpack _); vm_compute; exact I|]
    | apply ok_list | apply ok_int | apply ok_str; by apply unicode_text_check
    | constructor; [split; [by apply unicode_text_check|]|] | constructor ].

Lemma demo_request_sealable :
  sealable (JDict (request_document demo_call "qwen" (messages (p_models demo_state)) [])).
Proof.
  split; [vm_compute; document_by_evaluation|]. eexists. split; [vm_compute; reflexivity|vm_compute; discriminate].
Qed.

Lemma demo_answer_sealable :
  sealable (answer_document echo (request_document demo_call "qwen" (messages (p_models demo_state)) [])).
Proof.
  split; [vm_compute; document_by_evaluation|]. eexists. split; [vm_compute; reflexivity|vm_compute; discriminate].
Qed.

Lemma conversation_round_trip_witness : exists s',
  distributed_complete_chat 1 demo_relay f30 "qwen" [] demo_state =
    (s', inr (MkCompletion (echo (asked_of_node "qwen" (messages (p_models demo_state)) [])) None None None)).
Proof.
  apply (conversation_round_trip toy_private toy_public 9 echo demo_relay f30 "qwen"%pystr []
    demo_state 1%nat demo_keys).
  - reflexivity.
  - exact toy_pair.
  - discriminate.
  - vm_compute. reflexivity.
  - intros k Hk. destruct k as [|[|[|[|[|k]]]]]; [vm_compute; split; reflexivity..|lia].
  - exact demo_request_sealable.
  - exact demo_answer_sealable.
Defined.

Definition demo_run : provider_state * (provider_error + CompletionResult) :=
  distributed_complete_chat 1 demo_relay f30 "qwen" [] demo_state.

Lemma completion_is_bound_witness : exists s' r n keys,
  demo_run = (s', inr r) /\ initialize_keys 0%nat = (n, inr keys) /\
  bound_answer (call_from demo_relay f30 demo_state keys) r s' /\
  _last_backend_path s' = "distributed_relay_e2ee"%pystr.
Proof.
  destruct demo_run as [s' [e|r]] eqn:Hrun; [vm_compute in Hrun; discriminate|].
  destruct (completion_is_bound 1 demo_relay f30 "qwen"%pystr [] demo_state s' r Hrun)
    as (n & keys & Hrest).
  exists s', r, n, keys. split; [reflexivity|exact Hrest].
Defined.

(** A relay whose node never answers *)
Definition never_answers (trace : list event) : option http_response :=
  match rev trace with
  | Sent url _ _ :: _ =>
      if bool_decide (url = _relay_url demo_relay "/api/v1/relay/servers/next") then
        Some (MkResponse 200 (Some (JDict [("server_public_key", JStr (b64encode toy_public))]%pystr)))
      else if bool_decide (url = _relay_url demo_relay "/api/v1/relay/requests") then
        Some (MkResponse 200 (Some (JDict [("request_ttl_seconds", JInt 30)]%pystr)))
      else Some (MkResponse 202 None)
  | _ => None
  end.

Lemma provider_call_ends_witness :
  let world := {| time_time := demo_clock; relay_reply := never_answers;
                  uuid4_hex n := py_str_int (Z.of_nat n) |} in
  (distributed_complete_chat (H := world) 501 demo_relay f30 "qwen" [] demo_state).2 <> inl StillPolling.
Proof.
  intros world. apply (provider_call_ends (H := world) 501 demo_relay f30 "qwen"%pystr [] demo_state 500);
    [|lia].
  intros d n Hd Hn. assert (time_time (World := world) n = float_near 500) as ->.
  { cbn. unfold demo_clock. by rewrite Z.min_l by lia. }
  destruct Hd as [->|(tr & payload & ttl & Hr & Ht & ->)]; [vm_compute; reflexivity|].
  cbn in Hr. unfold never_answers in Hr. destruct (rev tr) as [|[url q t|] before]; try discriminate.
  destruct (bool_decide _); [injection Hr as <-; injection Ht as <-; vm_compute; reflexivity|].
  destruct (bool_decide _); [injection Hr as <-; injection Ht as <-; vm_compute; reflexivity|discriminate].
Defined.

#[local] Instance any_netloc : NetlocCheck := fun _ => true.
#[local] Instance demo_unicode : PyUnicode := ascii_unicode.

Lemma selected_target_is_sound_witness :
  let environ := fun k : pystr => if bool_decide (k = "TOKENPLACE_RELAY_PUBLIC_URL"%pystr)
                                  then Some " HTTPS://relay.example/ "%pystr else None in
  let sel := MkSelection "HTTPS://relay.example" "relay_public_env:TOKENPLACE_RELAY_PUBLIC_URL" true in
  _select_distributed_target environ [] = inr sel /\ absolute_url (sel_url sel).
Proof.
  intros environ sel. assert (_select_distributed_target environ [] = inr sel) as Hs by (vm_compute; reflexivity).
  split; [exact Hs|]. destruct (selected_target_is_sound environ [] sel Hs) as [[Hu _]|[Ha _]]; [discriminate|exact Ha].
Defined.
