(* ===== verification/Routes.v ===== *)
(** * api/v1/routes.py: the completion handlers

    [_handle_chat_completion_request] and [_handle_text_completion_request], from the
    body of the request to the response: checks, decryption, moderation, the choice of
    a provider, the completion and the usage, and the translation of every exception.

    The keys of the API's encryption manager and the relay origin of a request that
    comes from the loopback interface, which [urllib] and [ipaddress] decide, are
    arguments; so are the environment and the configuration tree.  The texts of
    exceptions that Python or a library words are the class [ExceptionTexts].  Logging
    is left out. *)

From S2P Require Import Prelude PyFloat PyStr PyDict PyText PyUrl Json JsonText Base64.
From S2P Require Import Encrypt CryptoManager Validation Catalog Profiles Moderation Config.
From S2P Require Import Provider.
From Stdlib Require Import Floats.SpecFloat.

(** ** Responses *)
Record http_reply : Type := MkReply {
  reply_status : Z;
  reply_body : json;
  reply_headers : dict pystr pystr
}.

(** [if x is not None: obj["error"][k] = x] *)
Definition error_field (k : pystr) (x : option pystr) : jdict :=
  match x with Some v => [(k, JStr v)] | None => [] end.

Definition format_error_response (message error_type : pystr) (param code : option pystr)
  (status_code : Z) : http_reply :=
  MkReply status_code
    (JDict [("error", JDict ([("message", JStr message); ("type", JStr error_type)]
                             ++ error_field "param" param ++ error_field "code" code))]%pystr) [].

(** [format_error_response(e.message, param=e.field, code=e.code, status_code=400)] *)
Definition validation_reply (e : validation_error) : http_reply :=
  format_error_response (message e) "invalid_request_error" (field e) (Some (code e)) 400.

(** ** Exceptions *)

(** Exceptions whose text is not worded by the repository *)
Inductive unexpected : Set :=
| FromProvider (e : provider_error)
| NotUtf8 (decrypted : list byte)
| NotBase64 (value : json)
| NotANumberOfSeconds
| NotEncodableText (text : pystr).

Class ExceptionTexts : Type := exception_text : unexpected -> pystr.

(** What leaves the body of a handler's [try]: a response, or an exception *)
Inductive handler_exit : Type :=
| Replied (r : http_reply)
| Refused (e : request_error)
| Failed (e : provider_error)
| Raised (text : pystr)
| Unexpected (e : unexpected).

Notation HM := (SM provider_state handler_exit).

Definition reply_if (b : bool) (r : http_reply) : handler_exit + unit := eraise_if b (Replied r).

Definition checked {A} (r : request_error + A) : handler_exit + A :=
  match r with inr a => inr a | inl e => inl (Refused e) end.

Definition provided {A} (m : PM A) : HM A := fun s =>
  match m s with
  | (s', inr a) => (s', inr a)
  | (s', inl e) => (s', inl (Failed e))
  end.

(** A [ModelError] or another exception of the catalogue *)
Definition of_model {A} (r : model_error + A) : handler_exit + A :=
  match r with inr a => inr a | inl e => inl (Failed (ModelFailure e)) end.

(** ** Usage *)

Definition _extract_message_content_for_usage `{!FloatRepr} (message : json) : pystr :=
  match message with
  | JDict d => match get_or d "content" (JStr "") with
               | JStr s => s
               | content => json_dumps false content
               end
  | _ => ""
  end.

(** [max(1, math.ceil(len(stripped) / 4))], the division being exact *)
Definition _estimate_token_length (text : pystr) : Z :=
  let stripped := py_strip text in
  if py_empty stripped then 0 else Z.max 1 ((py_len stripped + 3) / 4).

(** [isinstance(v, int)]: the number, as it is put into the response *)
Definition is_int_value (v : json) : bool := match v with JInt _ | JBool _ => true | _ => false end.

Definition usage_keys : list pystr := ["prompt_tokens"; "completion_tokens"; "total_tokens"]%pystr.

(** The usage the compute node reported, when all its counts are integers *)
Definition authoritative_usage (usage : option jdict) : option jdict :=
  match usage with
  | Some d => if truthy (JDict d) && forallb (fun k => is_int_value (jget d k)) usage_keys
              then Some (map (fun k => (k, jget d k)) usage_keys) else None
  | None => None
  end.

Definition estimated_usage (prompt_tokens completion_tokens : Z) : jdict :=
  [("prompt_tokens", JInt prompt_tokens); ("completion_tokens", JInt completion_tokens);
   ("total_tokens", JInt (prompt_tokens + completion_tokens))]%pystr.

Definition sum_z (l : list Z) : Z := fold_left Z.add l 0.

(** ** Parts of a request *)

Definition passthrough_fields : list pystr :=
  ["temperature"; "top_p"; "max_tokens"; "frequency_penalty"; "presence_penalty"; "stop"; "tools";
   "tool_choice"; "response_format"; "seed"]%pystr.

Definition _extract_chat_completion_options (data : jdict) : jdict :=
  bfilter (fun kv => pystr_in kv.1 passthrough_fields && negb (is_JNull kv.2)) data.

Definition _should_force_desktop_bridge_distributed (request_metadata : json)
  (is_encrypted_request : bool) : bool :=
  match request_metadata with
  | JDict d => is_encrypted_request && jeq_str (jget d "inference_target") "desktop_bridge_api_v1_e2ee"
               && jeq_str (jget d "relay_path") "api_v1_e2ee"
  | _ => false
  end.

Definition _is_relay_capable_provider_path (path : pystr) : bool :=
  pystr_in path ["distributed"; "distributed_with_local_fallback"]%pystr.

(** [provider.__class__.__name__] *)
Definition provider_name (p : provider) : pystr :=
  match p with
  | LocalApiV1ComputeProvider => "LocalApiV1ComputeProvider"
  | DistributedApiV1ComputeProvider _ _ => "DistributedApiV1ComputeProvider"
  | FallbackApiV1ComputeProvider _ _ => "FallbackApiV1ComputeProvider"
  end.

Definition provider_headers (p : provider) (execution_backend_path : pystr) : dict pystr pystr :=
  [("X-Tokenplace-API-V1-Provider", provider_name p);
   ("X-Tokenplace-API-V1-Resolved-Provider-Path", get_api_v1_resolved_provider_path p);
   ("X-Tokenplace-API-V1-Execution-Backend-Path", execution_backend_path);
   ("X-Tokenplace-API-V1-Stream-Mode", "non-streaming")]%pystr.

(** [int(f)] of a float; [None]: it is no number or infinite. *)
Definition int_of_float (f : float64) : option Z :=
  match f with
  | S754_zero _ => Some 0
  | S754_finite s m e =>
      let magnitude := if 0 <=? e then Z.pos m * 2 ^ e else Z.pos m / 2 ^ (- e) in
      Some (if s then - magnitude else magnitude)
  | _ => None
  end.

(** [str(uuid)] from its hexadecimal digits *)
Definition uuid_text (hex : pystr) : pystr :=
  let piece from len := PyStr (firstn len (skipn from (codes hex))) in
  piece 0%nat 8%nat +++ "-" +++ piece 8%nat 4%nat +++ "-" +++ piece 12%nat 4%nat +++ "-"
    +++ piece 16%nat 4%nat +++ "-" +++ piece 20%nat 12%nat.

(** A value of the parsed body as an argument *)
Fixpoint py_of_json (j : json) : pyval :=
  match j with
  | JNull => PyNone
  | JBool b => PyBool b
  | JInt z => PyInt z
  | JFloat f => PyFloat f
  | JStr s => PyS s
  | JList l => PyList (map py_of_json l)
  | JDict d => PyDict (map (fun kv => (kv.1, py_of_json kv.2)) d)
  end.

(** The type of a JSON value *)
Definition json_type_name (j : json) : pystr :=
  match j with
  | JNull => "NoneType" | JBool _ => "bool" | JInt _ => "int" | JFloat _ => "float"
  | JStr _ => "str" | JList _ => "list" | JDict _ => "dict"
  end.

(** [field in data] of a body that is no object, which then has no [get] *)
Definition not_an_object (data : json) : handler_exit :=
  let has_model := match data with
                   | JStr s => Some (py_contains "model" s)
                   | JList l => Some (existsb (fun v => jeq_str v "model") l)
                   | _ => None
                   end in
  match has_model with
  | None => Raised ("argument of type '" +++ json_type_name data +++ "' is not iterable")
  | Some false => Refused (invalid "Missing required parameter: model" "model")
  | Some true => Raised ("'" +++ json_type_name data +++ "' object has no attribute 'get'")
  end.

Section handlers.
Context `{!World, !Cryptography, !FloatRepr, !PyNumbers, !PyUnicode, !NetlocCheck, !ExceptionTexts}.
Context (environ : environment) (config : jdict) (available : list jdict) (runtime : jdict -> Runtime)
  (fuel : nat) (keys : CryptoKeys) (loopback_origin : pystr).

(** [base64.b64decode(v)] *)
Definition decode_value (v : json) : handler_exit + list byte :=
  match v with
  | JStr s => match b64decode s with inr b => inr b | inl _ => inl (Unexpected (NotBase64 v)) end
  | _ => inl (Unexpected (NotBase64 v))
  end.

(** The messages of an encrypted request *)
Definition decrypted_messages (data : jdict) : handler_exit + json :=
  let? _ := checked (validate_encrypted_request data) in
  let encrypted_messages := match jget data "messages" with JDict d => d | _ => [] end in
  let? ciphertext := decode_value (jget encrypted_messages "ciphertext") in
  let? iv := decode_value (jget encrypted_messages "iv") in
  let? cipherkey := decode_value (jget encrypted_messages "cipherkey") in
  match api_decrypt_message (ck_private_key keys)
          [("ciphertext", PyBytes ciphertext); ("iv", PyBytes iv)]%pystr cipherkey with
  | None => inl (Replied (format_error_response "Failed to decrypt messages" "encryption_error"
                            None None 400))
  | Some decrypted =>
      match utf8_decode decrypted with
      | None => inl (Unexpected (NotUtf8 decrypted))
      | Some text =>
          match json_loads text with
          | None => inl (Replied (format_error_response
              "Failed to parse JSON from decrypted messages" "encryption_error" None None 400))
          | Some messages => inr messages
          end
      end
  end.

Definition plain_messages (data : jdict) : handler_exit + json :=
  let? _ := checked (validate_required_fields data ["messages"]%pystr) in
  let? _ := checked (validate_field_type data "messages" TList false) in
  inr (jget data "messages").

Definition moderated (messages : list json) : handler_exit + unit :=
  let decision := evaluate_messages_for_policy environ messages in
  reply_if (negb (allowed decision))
    (format_error_response (str_or (reason decision) "Request blocked by content moderation policy.")
       "content_policy_violation" None (Some "content_blocked"%pystr) 400).

(** A trusted relay for the desktop bridge *)
Definition _request_relay_target_selection : provider_error + DistributedTargetSelection :=
  let? target_selection := _select_distributed_target environ config in
  if negb (py_empty (sel_url target_selection)) && py_startswith (sel_source target_selection) "explicit_env:"
  then inr target_selection
  else if negb (py_empty loopback_origin)
  then inr (MkSelection loopback_origin "request_override:loopback_same_origin" true)
  else if negb (py_empty (sel_url target_selection)) then inr target_selection
  else inl (ComputeProviderError "untrusted_relay_origin" "invalid_request_error"
              "No trusted relay origin is configured for this request." 400).

Definition chat_provider (force_desktop_bridge_distributed : bool) : provider_error + provider :=
  if force_desktop_bridge_distributed then
    let? selection := _request_relay_target_selection in
    get_api_v1_compute_provider_for_mode environ config "distributed" None (Some false) (Some selection)
  else get_api_v1_compute_provider environ config.

(** A model that only the relay's nodes may know needs a provider that reaches them. *)
Definition check_supported (p : provider) (model_id : pystr) : handler_exit + unit :=
  if _is_relay_capable_provider_path (get_api_v1_resolved_provider_path p) then inr tt
  else
    let? entries := of_model (get_models_info available) in
    reply_if (negb (existsb (fun entry => jeq_str (jget entry "id") model_id) entries))
      (format_error_response ("Model '" +++ model_id +++ "' is not supported by API v1.")
         "invalid_request_error" (Some "model"%pystr) (Some "model_not_supported"%pystr) 400).

(** [_call_provider_complete_chat] with the messages of the request *)
Definition call_provider (p : provider) (model_id : pystr) (messages : list json) (options : jdict) :
  HM CompletionResult :=
  modify (fun s => set_models (mkModels (loaded_models (p_models s)) (constructed (p_models s)) messages) s) ;;;
  provided (complete_chat available runtime fuel p model_id options).

(** [int(time.time())] *)
Definition created_now : HM Z :=
  let* t := provided now in
  match int_of_float t with
  | Some z => ret z
  | None => raise (Unexpected NotANumberOfSeconds)
  end.

(** The response, sealed for the client that asked for it *)
Definition send_response (response_data : jdict) (client_public_key : json) (encrypted : bool)
  (failure_type : pystr) (p : provider) (execution_backend_path : pystr) : HM http_reply :=
  let headers := provider_headers p execution_backend_path in
  if encrypted && truthy client_public_key then
    let* sealed := provided (with_draws (api_encrypt_message response_data (py_of_json client_public_key))
                               CryptoFailure) in
    match sealed with
    | None => raise (Replied (format_error_response "Failed to encrypt response" failure_type
                                None None 500))
    | Some encrypted_response =>
        ret (MkReply 200 (JDict [("encrypted", JBool true); ("data", JDict encrypted_response)]%pystr) headers)
    end
  else ret (MkReply 200 (JDict response_data) headers).

(** ** Chat completions *)

(** The message of the response *)
Definition message_payload (assistant_message : jdict) : jdict :=
  [("role", get_or assistant_message "role" (JStr "assistant"));
   ("content", get_or assistant_message "content" (JStr ""))]%pystr
  ++ (if truthy (jget assistant_message "tool_calls")
      then [("tool_calls", jget assistant_message "tool_calls")]%pystr else []).

Definition chat_finish_reason (r : CompletionResult) : pystr :=
  str_or (cr_finish_reason r)
    (if truthy (jget (cr_message r) "tool_calls") then "tool_calls" else "stop").

Definition chat_usage (messages : list json) (r : CompletionResult) : jdict :=
  match authoritative_usage (cr_usage r) with
  | Some usage => usage
  | None =>
      let tool_calls := jget (cr_message r) "tool_calls" in
      let prompts := omap (fun m => match m with
                                    | JDict _ => Some (_extract_message_content_for_usage m)
                                    | _ => None
                                    end) messages in
      let segments := _extract_message_content_for_usage (JDict (cr_message r))
                      :: (if truthy tool_calls then [json_dumps false tool_calls] else []) in
      estimated_usage (sum_z (map _estimate_token_length prompts))
        (_estimate_token_length (py_join (PyStr [newline]) (bfilter (fun t => negb (py_empty t)) segments)))
  end.

(** [if isinstance(request_metadata, dict) and request_metadata] *)
Definition metadata_field (request_metadata : json) : jdict :=
  match request_metadata with
  | JDict (_ :: _) => [("metadata", request_metadata)]%pystr
  | _ => []
  end.

Definition chat_response (id : pystr) (created : Z) (requested_model_id : pystr) (messages : list json)
  (r : CompletionResult) (request_metadata : json) : jdict :=
  [("id", JStr ("chatcmpl-" +++ id)); ("object", JStr "chat.completion"); ("created", JInt created);
   ("model", JStr requested_model_id);
   ("choices", JList [JDict [("index", JInt 0); ("message", JDict (message_payload (cr_message r)));
                             ("finish_reason", JStr (chat_finish_reason r))]]);
   ("usage", JDict (chat_usage messages r))]%pystr ++ metadata_field request_metadata.

(** [data.get("stream")] *)
Definition refuse_stream (data : jdict) (what : pystr) : handler_exit + unit :=
  reply_if (truthy (jget data "stream"))
    (format_error_response ("Streaming is not supported for API v1 " +++ what +++ ". "
       +++ "Use /api/v2/chat/completions for Server-Sent Events.")
       "invalid_request_error" (Some "stream"%pystr) None 400).

(** From the validated conversation to the response *)
Definition complete_conversation (data : jdict) (encrypted : bool) (requested_model_id model_id : pystr)
  (messages : list json) : HM http_reply :=
  let request_metadata := jget data "metadata" in
  let force := _should_force_desktop_bridge_distributed request_metadata encrypted in
  let* p := provided (lift_val (chat_provider force)) in
  lift (check_supported p model_id) ;;;
  let* r := call_provider p model_id messages (_extract_chat_completion_options data) in
  let* s := get_state in
  let* hex := provided fresh_hex in
  let* created := created_now in
  send_response (chat_response (uuid_text hex) created requested_model_id messages r request_metadata)
    (jget data "client_public_key") encrypted "encryption_error" p (_last_backend_path s).

(** The canonical model and the conversation of a request that is let through *)
Definition chat_request (data : jdict) : handler_exit + (pystr * list json) :=
  let? _ := checked (validate_required_fields data ["model"]%pystr) in
  let encrypted := truthy (get_or data "encrypted" (JBool false)) in
  let? _ := refuse_stream data "chat completions" in
  let? _ := checked (validate_field_type data "model" TStr false) in
  let? model_id := of_model (canonical_model_id available (str_value (jget data "model"))) in
  let? messages := if encrypted then decrypted_messages data else plain_messages data in
  let? _ := checked (validate_chat_messages messages) in
  let messages := match messages with JList l => l | _ => [] end in
  let? _ := moderated messages in
  inr (model_id, messages).

Definition chat_body (data : jdict) : HM http_reply :=
  let* '(model_id, messages) := lift_val (chat_request data) in
  complete_conversation data (truthy (get_or data "encrypted" (JBool false)))
    (str_value (jget data "model")) model_id messages.

(** The [except] clauses: [public_code] is the code of a provider's error. *)
Definition reply_of_exit (public_code : pystr -> pystr) (default_status : Z) (e : handler_exit) : http_reply :=
  let internal text := format_error_response ("Internal server error: " +++ text)
    (if default_status =? 500 then "server_error" else "invalid_request_error") None None default_status in
  match e with
  | Replied r => r
  | Refused (Invalid e) => validation_reply e
  | Refused (TypeError text) => internal text
  | Failed (ComputeProviderError code error_type public_message status_code) =>
      format_error_response public_message error_type None (Some (public_code code)) status_code
  | Failed (ModelFailure (ModelError message status_code error_type)) =>
      format_error_response message error_type None None status_code
  | Failed (ModelFailure (OtherError text)) => internal text
  | Failed e => internal (exception_text (FromProvider e))
  | Raised text => internal text
  | Unexpected e => internal (exception_text e)
  end.

(** A relay-only deployment says that no compute node is there. *)
Definition chat_public_code (force_desktop_bridge_distributed : bool) (code : pystr) : pystr :=
  if bool_decide (code = "no_registered_compute_nodes"%pystr)
     && match is_api_v1_implicit_relay_only_selection environ with inr b => b | inl _ => false end
     && negb force_desktop_bridge_distributed
  then "no_compute_node_available" else code.

(** Runs the body of the [try]; its exceptions become responses. *)
Definition handled (body : HM http_reply) (translate : handler_exit -> http_reply) (s : provider_state) :
  provider_state * http_reply :=
  match body s with
  | (s', inr r) => (s', r)
  | (s', inl e) => (s', translate e)
  end.

Definition _handle_chat_completion_request (data : json) (s : provider_state) :
  provider_state * http_reply :=
  if negb (truthy data) then
    (s, format_error_response "Invalid request body: empty or not JSON" "invalid_request_error" None None 400)
  else match data with
       | JDict d =>
           let force := _should_force_desktop_bridge_distributed (jget d "metadata")
                          (truthy (get_or d "encrypted" (JBool false))) in
           handled (chat_body d) (reply_of_exit (chat_public_code force) 500) s
       | _ => (s, reply_of_exit id 500 (not_an_object data))
       end.

(** ** Text completions *)

Definition text_usage (prompt : json) (r : CompletionResult) : jdict :=
  match authoritative_usage (cr_usage r) with
  | Some usage => usage
  | None => estimated_usage
              (_estimate_token_length (_extract_message_content_for_usage prompt))
              (_estimate_token_length (_extract_message_content_for_usage (JDict (cr_message r))))
  end.

Definition text_response (id : pystr) (created : Z) (requested_model_id : pystr) (prompt : json)
  (r : CompletionResult) : jdict :=
  [("id", JStr ("cmpl-" +++ id)); ("object", JStr "text_completion"); ("created", JInt created);
   ("model", JStr requested_model_id);
   ("choices", JList [JDict [("index", JInt 0); ("text", get_or (cr_message r) "content" (JStr ""));
                             ("finish_reason", JStr (str_or (cr_finish_reason r) "stop"))]]);
   ("usage", JDict (text_usage prompt r))]%pystr.

Definition prompt_message (data : jdict) : json :=
  JDict [("role", JStr "user"); ("content", get_or data "prompt" (JStr ""))]%pystr.

(** The canonical model of a request that is let through *)
Definition text_request (data : jdict) : handler_exit + pystr :=
  let? _ := checked (validate_required_fields data ["model"]%pystr) in
  let? _ := checked (validate_field_type data "model" TStr false) in
  let? model_id := of_model (canonical_model_id available (str_value (jget data "model"))) in
  let? _ := refuse_stream data "completions" in
  let? _ := reply_if (py_empty model_id)
    (format_error_response "Missing required parameter: model" "invalid_request_error"
       (Some "model"%pystr) None 400) in
  let? _ := moderated [prompt_message data] in
  inr model_id.

(** The list of messages is the provider's to change: the usage is counted from its
    first message as it is after the call. *)
Definition text_body (data : jdict) : HM http_reply :=
  let* model_id := lift_val (text_request data) in
  let* p := provided (lift_val (get_api_v1_compute_provider environ config)) in
  lift (check_supported p model_id) ;;;
  let* r := call_provider p model_id [prompt_message data] (_extract_chat_completion_options data) in
  let* s := get_state in
  let* hex := provided fresh_hex in
  let* created := created_now in
  send_response (text_response (PyStr (firstn 12 (codes hex))) created (str_value (jget data "model"))
                   (default JNull (head (Catalog.messages (p_models s)))) r)
    (jget data "client_public_key") (truthy (get_or data "encrypted" (JBool false))) "server_error"
    p (_last_backend_path s).

Definition _handle_text_completion_request (data : json) (s : provider_state) :
  provider_state * http_reply :=
  if negb (truthy data) then
    (s, format_error_response "Invalid request body" "invalid_request_error" None None 400)
  else match data with
       | JDict d => handled (text_body d) (reply_of_exit id 400) s
       | _ => (s, reply_of_exit id 400 (Raised ("'" +++ json_type_name data +++ "' object has no attribute 'get'")))
       end.

End handlers.
