(* ===== verification/RoutesSound.v ===== *)
(** * What a handler's call does to the world

    Every check of a request comes before the provider, and what the provider sends is
    a path of the relay's protocol for the conversation that passed them. *)

From S2P Require Import Prelude PyFloat PyStr PyDict Base64 PyText PyUrl Json.
From S2P Require Import JsonText Encrypt EncryptSound CryptoManager Validation.
From S2P Require Import Profiles Catalog Moderation Config Provider ProviderSound.
From S2P Require Import Routes.

Section sound.
Context `{!World, !Cryptography, !FloatRepr, !PyNumbers, !PyUnicode, !NetlocCheck, !ExceptionTexts}.
Context (environ : environment) (config : jdict) (available : list jdict) (runtime : jdict -> Runtime)
  (fuel : nat) (keys : CryptoKeys) (loopback_origin : pystr).
#[local] Set Default Proof Using "Type*".

(** ** The network *)

(** Since [s], nothing was sent, or what one call of the distributed provider sends for
    the conversation *)
Definition sent_for (model_id : pystr) (conversation : list json) (options : jdict)
  (s s' : provider_state) : Prop :=
  p_trace s' = p_trace s \/
  exists c q, went c model_id conversation options Start s q s'.

(** What [_build_api_v1_compute_provider] makes *)
Definition built_provider (p : provider) : Prop :=
  match p with
  | LocalApiV1ComputeProvider | DistributedApiV1ComputeProvider _ _ => True
  | FallbackApiV1ComputeProvider (DistributedApiV1ComputeProvider _ _) LocalApiV1ComputeProvider => True
  | _ => False
  end.

Lemma build_built mode url fallback p :
  _build_api_v1_compute_provider environ mode url fallback = inr p -> built_provider p.
Proof.
  unfold _build_api_v1_compute_provider. destruct (negb _); [by intros [= <-]|].
  destruct (py_empty url); [destruct fallback; [by intros [= <-]|done]|].
  by destruct fallback; intros [= <-].
Qed.

Lemma default_built p : get_api_v1_compute_provider environ config = inr p -> built_provider p.
Proof.
  unfold get_api_v1_compute_provider. rewrite ebind_inr.
  by intros ([[mode sel] fb] & _ & Hb%build_built).
Qed.

Lemma mode_built mode url fallback selection p :
  get_api_v1_compute_provider_for_mode environ config mode url fallback selection = inr p -> built_provider p.
Proof.
  unfold get_api_v1_compute_provider_for_mode. rewrite ebind_inr.
  by intros ([[m sel] fb] & _ & Hb%build_built).
Qed.

Lemma chat_provider_built force p :
  chat_provider environ config loopback_origin force = inr p -> built_provider p.
Proof.
  unfold chat_provider. destruct force; [|apply default_built].
  rewrite ebind_inr. by intros (sel & _ & Hb%mode_built).
Qed.

Lemma local_trace model_id options s :
  p_trace (local_complete_chat available runtime model_id options s).1 = p_trace s.
Proof.
  unfold local_complete_chat. unfold bind at 1.
  destruct (generate_response _ _ _ _) as [m [e|l]]; [done|].
  by destruct (List.last _ _) as [[]|].
Qed.

Lemma sent_for_same model_id conversation options s0 s s' :
  sent_for model_id conversation options s0 s -> p_trace s' = p_trace s ->
  sent_for model_id conversation options s0 s'.
Proof.
  intros [Hs|(c & q & l & Hl & Hp)] Ht; [left; congruence|right].
  exists c, q, l. by rewrite Ht.
Qed.

(** A call of the provider that was chosen *)
Lemma provider_sends p model_id options s : built_provider p ->
  sent_for model_id (messages (p_models s)) options s (complete_chat available runtime fuel p model_id options s).1.
Proof.
  assert (forall base_url t, sent_for model_id (messages (p_models s)) options s
    (distributed_complete_chat fuel base_url t model_id options s).1) as Hd.
  { intros base_url t. pose proof (distributed_wp fuel base_url t model_id options s) as Hw. unfold wp in Hw.
    destruct (distributed_complete_chat _ _ _ _ _ s) as [s' [e|r]]; simpl.
    - destruct Hw as [?|(ks & q & Hq & _)]; [by left|right; by eexists _, q].
    - destruct Hw as (ks & Hq). right. by eexists _, Looked. }
  destruct p as [|base_url t|[|base_url t|] [| |]]; try done; intros _.
  - left. apply local_trace.
  - apply Hd.
  - specialize (Hd base_url t). cbn [complete_chat]. unfold try_except, bind.
    destruct (distributed_complete_chat _ _ _ _ _ s) as [s1 [e|r]]; [|done]. simpl in Hd.
    destruct (is_provider_error e); [|done].
    pose proof (local_trace model_id options s1) as Hl.
    destruct (local_complete_chat _ _ _ _ s1) as [s2 [e'|r']]; simpl in *;
      (eapply sent_for_same; [exact Hd|exact Hl]).
Qed.

(** ** The handlers *)

Lemma bind_state {E A B} (P : provider_state -> Prop) (m : SM provider_state E A)
  (k : A -> SM provider_state E B) s :
  P (m s).1 -> (forall a s1, P s1 -> P (k a s1).1) -> P (bind m k s).1.
Proof. unfold bind. destruct (m s) as [s1 [e|a]]; [done|]. simpl. intros Hs Hk. by apply Hk. Qed.

Lemma bind_lift_state {E A B} (P : provider_state -> Prop) (r : E + A)
  (k : A -> SM provider_state E B) s :
  P s -> (forall a, r = inr a -> P (k a s).1) -> P (bind (lift_val r) k s).1.
Proof. destruct r as [e|a]; [done|]. intros _ Hk. by apply Hk. Qed.

Lemma send_response_trace response key encrypted failure p path s :
  p_trace (send_response response key encrypted failure p path s).1 = p_trace s.
Proof.
  unfold send_response. destruct (encrypted && _); [|done].
  unfold bind, provided, with_draws. destruct (api_encrypt_message _ _ _) as [n [e|[env|]]]; done.
Qed.

Lemma call_provider_sends p model_id conversation options s : built_provider p ->
  sent_for model_id conversation options s
    (call_provider available runtime fuel p model_id conversation options s).1.
Proof.
  intros Hp. unfold call_provider, provided, bind, modify.
  set (s1 := set_models _ s). pose proof (provider_sends p model_id options s1 Hp) as Hs.
  assert (sent_for model_id conversation options s (complete_chat available runtime fuel p model_id options s1).1)
    as Hs'. { destruct Hs as [?|(c & q & Hq)]; [by left|right; by exists c, q]. }
  by destruct (complete_chat _ _ _ _ _ _ _) as [s2 [e|r]].
Qed.

(** The statements after the completion: identifiers, the time, the response *)
Lemma answer_sends model_id conversation options s0 s (response : pystr -> Z -> jdict) key encrypted failure p path :
  sent_for model_id conversation options s0 s ->
  sent_for model_id conversation options s0
    (bind (provided fresh_hex) (fun hex => bind created_now (fun created =>
       send_response (response hex created) key encrypted failure p path)) s).1.
Proof.
  intros Hs. apply (bind_state (fun s' => sent_for model_id conversation options s0 s')).
  { eapply sent_for_same; [exact Hs|done]. }
  intros hex s1 Hs1. apply (bind_state (fun s' => sent_for model_id conversation options s0 s')).
  { eapply sent_for_same; [exact Hs1|]. unfold created_now, bind, provided, now. simpl.
    by destruct (int_of_float _). }
  intros created s2 Hs2. eapply sent_for_same; [exact Hs2|]. apply send_response_trace.
Qed.

Lemma conversation_sends data encrypted requested model_id conversation s :
  (complete_conversation environ config available runtime fuel loopback_origin data encrypted requested
     model_id conversation s).1 <> s ->
  exists p, chat_provider environ config loopback_origin
      (_should_force_desktop_bridge_distributed (jget data "metadata") encrypted) = inr p /\
    check_supported available p model_id = inr tt /\
    sent_for model_id conversation (_extract_chat_completion_options data) s
      (complete_conversation environ config available runtime fuel loopback_origin data encrypted requested
         model_id conversation s).1.
Proof.
  unfold complete_conversation. destruct (chat_provider _ _ _ _) as [e|p] eqn:Hp; [done|].
  rewrite (bind_run _ _ s s p) by done.
  destruct (check_supported _ _ _) as [e|[]] eqn:Hc; [done|]. rewrite (bind_run _ _ s s tt) by done.
  intros _. exists p. split; [done|]. split; [done|].
  apply (bind_state (fun s' => sent_for model_id conversation (_extract_chat_completion_options data) s s')).
  { apply call_provider_sends. by eapply chat_provider_built. }
  intros r s1 Hs1. apply answer_sends. exact Hs1.
Qed.

(** What a request that is let through has passed *)
Definition let_through (data : jdict) (model_id : pystr) (conversation : list json) : Prop :=
  truthy (jget data "stream") = false /\
  canonical_model_id available (str_value (jget data "model")) = inr model_id /\
  (if truthy (get_or data "encrypted" (JBool false)) then decrypted_messages keys data
   else plain_messages data) = inr (JList conversation) /\
  validate_chat_messages (JList conversation) = inr tt /\
  allowed (evaluate_messages_for_policy environ conversation) = true.

Lemma chat_request_spec data model_id conversation :
  chat_request environ available keys data = inr (model_id, conversation) ->
  let_through data model_id conversation.
Proof.
  unfold chat_request. rewrite ebind_inr. intros ([] & _ & Hr). cbv zeta in Hr.
  apply ebind_inr in Hr as ([] & Hstream & Hr). apply ebind_inr in Hr as ([] & _ & Hr).
  apply ebind_inr in Hr as (m & Hm & Hr). apply ebind_inr in Hr as (j & Hj & Hr).
  apply ebind_inr in Hr as ([] & Hv & Hr). apply ebind_inr in Hr as ([] & Hp & Hr).
  injection Hr as -> <-. unfold of_model in Hm. destruct (canonical_model_id _ _) as [?|m] eqn:Em; [done|].
  injection Hm as ->. unfold checked in Hv. destruct (validate_chat_messages j) as [?|[]] eqn:Ev; [done|].
  destruct j as [| | | | |l|]; try done.
  unfold refuse_stream, reply_if in Hstream. apply eraise_if_inr in Hstream.
  unfold moderated, reply_if in Hp. apply eraise_if_inr, negb_false_iff in Hp.
  split; [done|]. split; [done|]. by split.
Qed.

Lemma text_request_spec data model_id :
  text_request environ available data = inr model_id ->
  truthy (jget data "stream") = false /\
  canonical_model_id available (str_value (jget data "model")) = inr model_id /\
  allowed (evaluate_messages_for_policy environ [prompt_message data]) = true.
Proof.
  unfold text_request. rewrite ebind_inr. intros ([] & _ & Hr). apply ebind_inr in Hr as ([] & _ & Hr).
  apply ebind_inr in Hr as (m & Hm & Hr). apply ebind_inr in Hr as ([] & Hstream & Hr).
  apply ebind_inr in Hr as ([] & _ & Hr). apply ebind_inr in Hr as ([] & Hp & Hr). injection Hr as ->.
  unfold of_model in Hm. destruct (canonical_model_id _ _) as [?|m'] eqn:Em; [done|]. injection Hm as ->.
  unfold refuse_stream, reply_if in Hstream. apply eraise_if_inr in Hstream.
  unfold moderated, reply_if in Hp. apply eraise_if_inr, negb_false_iff in Hp. done.
Qed.

End sound.

(** * The status of every reply

    Which HTTP status an exception is reported with, down to the errors of the model
    runtime and of the relay. *)

(** ** Errors of the model runtime *)

(** The request is refused, the runtime is missing, or the inference failed. *)
Definition model_statuses : list Z := [400; 500; 503].

Definition model_error_ok (e : model_error) : Prop :=
  match e with ModelError _ status_code _ => status_code ∈ model_statuses | OtherError _ => True end.

Lemma elem_of_status (x : Z) (l : list Z) : bool_decide (x ∈ l) = true -> x ∈ l.
Proof. apply bool_decide_eq_true. Qed.

#[export] Hint Extern 2 (model_error_ok _) => (first [exact I | apply elem_of_status; reflexivity]) : raises.

Lemma emap_raises {E A B} (P : E -> Prop) (f : A -> E + B) l :
  (forall x, eraises P (f x)) -> eraises P (emap f l).
Proof.
  intros Hf. induction l as [|x l IH]; [done|]. cbn [emap].
  apply eraises_bind; [apply Hf|]. intros y. by apply eraises_bind.
Qed.

#[export] Hint Extern 3 (eraises _ (emap _ _)) => (apply emap_raises; raising) : raises.

Section model.
Context (available : list jdict) (rt : Runtime).

Lemma index_raises d k : eraises model_error_ok (index d k).
Proof. unfold index. raising. Qed.
Hint Resolve index_raises : raises.

Lemma adapter_raises base entry adapter : eraises model_error_ok (adapter_entry base entry adapter).
Proof. unfold adapter_entry. raising. Qed.

Lemma mapping_raises j : eraises model_error_ok (as_mapping j).
Proof. unfold as_mapping. raising. Qed.
Hint Resolve adapter_raises mapping_raises : raises.

Lemma base_raises base : eraises model_error_ok (base_entries base).
Proof. unfold base_entries, adapters_of. raising. Qed.
Hint Resolve base_raises : raises.

Lemma entries_raise : eraises model_error_ok (_iter_model_entries available).
Proof. unfold _iter_model_entries. raising. Qed.
Hint Resolve entries_raise : raises.

Lemma metadata_raises id : eraises model_error_ok (_get_model_metadata available id).
Proof. unfold _get_model_metadata. raising. Qed.
Hint Resolve metadata_raises : raises.

Lemma canonical_raises id : eraises model_error_ok (canonical_model_id available id).
Proof. unfold canonical_model_id, resolve_model_alias. raising. Qed.
Hint Resolve canonical_raises : raises.

Lemma text_type_raises j : eraises model_error_ok (is_text_type j).
Proof. unfold is_text_type. raising. Qed.
Hint Resolve text_type_raises : raises.

Lemma segments_raise l : eraises model_error_ok (block_segments l).
Proof.
  induction l as [|j l IH]; [done|]. cbn [block_segments]. destruct j; try exact IH. raising.
Qed.
Hint Resolve segments_raise : raises.

Lemma normalise_raises l : eraises model_error_ok (_normalise_chat_messages l).
Proof.
  induction l as [|j l IH]; [done|]. cbn [_normalise_chat_messages].
  unfold normalise_message, _stringify_content_blocks. raising.
Qed.
Hint Resolve normalise_raises : raises.

Lemma wrap_failure_raises {A} describe (m : MM A) :
  (forall text, model_error_ok (describe text)) -> raises model_error_ok (wrap_failure describe m).
Proof. intros Hd s. unfold wrap_failure. destruct (m s) as [s' [e|a]]; [apply Hd|done]. Qed.

Lemma wrap_other_raises {A} describe (m : MM A) :
  (forall text, model_error_ok (describe text)) -> raises model_error_ok m ->
  raises model_error_ok (wrap_other describe m).
Proof.
  intros Hd Hm s. specialize (Hm s). unfold wrap_other.
  destruct (m s) as [s' [[msg st ty|text]|a]]; [done|apply Hd|done].
Qed.

Lemma instance_raises id : raises model_error_ok (get_model_instance available rt id).
Proof.
  unfold get_model_instance, load_model, add_loaded. raising.
  apply wrap_failure_raises. raising.
Qed.
Hint Resolve instance_raises : raises.

Lemma format_raises i msg : eraises model_error_ok (check_message_format i msg).
Proof. unfold check_message_format, text_only_block. raising. Qed.

Lemma generate_raises id : raises model_error_ok (generate_response available rt id).
Proof.
  unfold generate_response. raising; [apply format_raises|]. apply wrap_other_raises; [raising|].
  unfold run_model, set_messages, append_message. raising.
Qed.
End model.

#[export] Hint Resolve entries_raise canonical_raises generate_raises : raises.

(** ** Errors of the providers *)
Definition provider_statuses : list Z := [400; 502; 503; 504].

Definition provider_error_ok (e : provider_error) : Prop :=
  match e with
  | ComputeProviderError _ _ _ status_code => status_code ∈ provider_statuses
  | ModelFailure e => model_error_ok e
  | _ => True
  end.

Lemma code_ok code : provider_error_ok (_error_from_code code).
Proof.
  unfold _error_from_code, _RELAY_ERROR_MAP. cbn [dget].
  repeat (destruct (bool_decide _); [by apply elem_of_status|]). by apply elem_of_status.
Qed.

#[export] Hint Resolve code_ok : raises.
#[export] Hint Extern 2 (provider_error_ok _) =>
  (first [exact I | apply code_ok | apply elem_of_status; reflexivity]) : raises.

Section provider.
Context `{!World, !Cryptography, !FloatRepr, !PyNumbers}.
#[local] Set Default Proof Using "All".

Lemma now_raises : raises provider_error_ok now.
Proof. done. Qed.
Lemma send_raises url payload timeout : raises provider_error_ok (send url payload timeout).
Proof. done. Qed.
Lemma sleep_raises seconds : raises provider_error_ok (sleep seconds).
Proof. done. Qed.
Lemma hex_raises : raises provider_error_ok fresh_hex.
Proof. done. Qed.
Lemma draws_raise {A} (m : CM A) wrap : (forall e, provider_error_ok (wrap e)) ->
  raises provider_error_ok (with_draws m wrap).
Proof. intros Hw s. unfold with_draws. destruct (m _) as [n [e|a]]; [apply Hw|done]. Qed.
Hint Resolve now_raises send_raises sleep_raises hex_raises : raises.
Hint Extern 3 (raises _ (with_draws _ _)) => (apply draws_raise; raising) : raises.

Lemma remaining_raises deadline : raises provider_error_ok (_remaining_timeout deadline).
Proof. unfold _remaining_timeout. raising. Qed.
Hint Resolve remaining_raises : raises.

Lemma choose_server_raises c model_id deadline : raises provider_error_ok (choose_server c model_id deadline).
Proof. unfold choose_server. raising. Qed.

Lemma enqueue_raises c key model_id conversation options deadline :
  raises provider_error_ok (enqueue c key model_id conversation options deadline).
Proof. unfold enqueue, _coerce_admitted_ttl. raising. Qed.

Lemma abandon_raises {A} c : raises provider_error_ok (abandon c (A := A)).
Proof. unfold abandon, _cancel_relay_request. raising. Qed.
Hint Resolve choose_server_raises enqueue_raises abandon_raises : raises.

Lemma answer_raises c m : eraises provider_error_ok (read_answer c m).
Proof. unfold read_answer. raising. Qed.
Hint Resolve answer_raises : raises.

Lemma retrieval_raises c reply : eraises provider_error_ok (read_retrieval c reply).
Proof. unfold read_retrieval. raising. Qed.
Hint Resolve retrieval_raises : raises.

Lemma response_loop_raises fuel c deadline : raises provider_error_ok (response_loop fuel c deadline).
Proof.
  induction fuel as [|fuel IH]; [by apply raises_raise|]. cbn [response_loop]. unfold response_turn. raising.
Qed.
Hint Resolve response_loop_raises : raises.

Lemma distributed_raises fuel base_url t model_id options :
  raises provider_error_ok (distributed_complete_chat fuel base_url t model_id options).
Proof. unfold distributed_complete_chat, relayed_completion. raising. Qed.

End provider.

Section complete.
Context `{!World, !Cryptography, !FloatRepr, !PyNumbers}.
Context (available : list jdict) (runtime : jdict -> Runtime).
#[local] Set Default Proof Using "All".

Lemma local_raises model_id options :
  raises provider_error_ok (local_complete_chat available runtime model_id options).
Proof.
  unfold local_complete_chat. apply raises_bind.
  - intros s. pose proof (generate_raises available (runtime options) model_id (p_models s)) as Hg.
    destruct (generate_response _ _ _ _) as [m [e|l]]; [exact Hg|done].
  - raising.
Qed.
#[local] Hint Resolve distributed_raises local_raises : raises.

Lemma complete_chat_raises fuel p model_id options :
  raises provider_error_ok (complete_chat available runtime fuel p model_id options).
Proof.
  induction p as [| |primary IH1 fallback IH2]; cbn [complete_chat coerce_completion_result]; [raising..|].
  apply (raises_try_except _ provider_error_ok); [raising|done|raising].
Qed.

End complete.

(** ** Replies *)
Definition error_statuses : list Z := [400; 500; 502; 503; 504].

(** An error object with a message and a type, under an error status *)
Definition is_error_reply (r : http_reply) : Prop :=
  reply_status r ∈ error_statuses /\ reply_headers r = [] /\
  exists message kind details,
    reply_body r = JDict [("error", JDict (("message", JStr message) :: ("type", JStr kind) :: details))]%pystr.

(** A document that is no error, from a provider that is named *)
Definition is_answer (r : http_reply) : Prop :=
  reply_status r = 200 /\ (exists d, reply_body r = JDict d /\ dmem d "error" = false) /\
  exists p path, reply_headers r = provider_headers p path.

Definition exit_ok (e : handler_exit) : Prop :=
  match e with
  | Replied r => is_error_reply r
  | Failed e => provider_error_ok e
  | _ => True
  end.

Lemma error_reply_ok message kind param code st : st ∈ error_statuses ->
  is_error_reply (format_error_response message kind param code st).
Proof. intros Hst. split; [done|]. split; [done|]. by eexists message, kind, _. Qed.

#[export] Hint Extern 2 (exit_ok _) =>
  (first [exact I | apply error_reply_ok, elem_of_status; reflexivity]) : raises.

Lemma subset_statuses (st : Z) l : st ∈ l ->
  forallb (fun x => bool_decide (x ∈ error_statuses)) l = true -> st ∈ error_statuses.
Proof.
  intros Hst Hall. rewrite forallb_forall in Hall. apply list_elem_of_In in Hst.
  by apply Hall, bool_decide_eq_true in Hst.
Qed.

Section handlers.
Context `{!World, !Cryptography, !FloatRepr, !PyNumbers, !PyUnicode, !NetlocCheck, !ExceptionTexts}.
Context (environ : environment) (config : jdict) (available : list jdict) (runtime : jdict -> Runtime)
  (fuel : nat) (keys : CryptoKeys) (loopback_origin : pystr).
#[local] Set Default Proof Using "All".

Lemma exit_reply_ok public_code default_status e : default_status ∈ error_statuses -> exit_ok e ->
  is_error_reply (reply_of_exit public_code default_status e).
Proof using Type*.
  intros Hd He. destruct e as [r|[e|text]|e|text|e]; cbn [reply_of_exit]; try by apply error_reply_ok.
  - done.
  - by apply error_reply_ok, elem_of_status.
  - destruct e as [code ty msg st|[msg st ty|text]| | | | |]; simpl in He; try by apply error_reply_ok.
    + apply error_reply_ok. by eapply subset_statuses.
    + apply error_reply_ok. by eapply subset_statuses.
Qed.

Lemma checked_raises {A} (r : request_error + A) : eraises exit_ok (checked r).
Proof. by destruct r. Qed.

Lemma of_model_raises {A} (r : model_error + A) : eraises model_error_ok r -> eraises exit_ok (of_model r).
Proof. by destruct r. Qed.

Lemma provided_raises {A} (m : PM A) : raises provider_error_ok m -> raises exit_ok (provided m).
Proof. intros Hm s. specialize (Hm s). unfold provided. by destruct (m s) as [s' [e|a]]. Qed.

Lemma decode_raises v : eraises exit_ok (decode_value v).
Proof. unfold decode_value. raising. Qed.
Hint Resolve checked_raises of_model_raises provided_raises decode_raises : raises.

Lemma chat_request_raises data : eraises exit_ok (chat_request environ available keys data).
Proof.
  unfold chat_request, refuse_stream, moderated, reply_if, decrypted_messages, plain_messages. raising.
Qed.
Hint Resolve chat_request_raises : raises.

Lemma text_request_raises data : eraises exit_ok (text_request environ available data).
Proof. unfold text_request, refuse_stream, moderated, reply_if. raising. Qed.
Hint Resolve text_request_raises : raises.

(** ** The choice of a provider *)
Lemma validated_raises value : eraises provider_error_ok (_validated_target_url value).
Proof. unfold _validated_target_url. raising. Qed.
Hint Resolve validated_raises : raises.

Lemma first_target_raises names label relay_only :
  eraises provider_error_ok (first_target environ names label relay_only).
Proof. induction names as [|name names IH]; [done|]. cbn [first_target]. raising. Qed.

Lemma first_configured_raises names : eraises provider_error_ok (first_configured config names).
Proof. induction names as [|name names IH]; [done|]. cbn [first_configured]. raising. Qed.
Hint Resolve first_target_raises first_configured_raises : raises.

Lemma target_raises : eraises provider_error_ok (_select_distributed_target environ config).
Proof. unfold _select_distributed_target. raising. Qed.

Lemma implicit_raises : eraises provider_error_ok (_select_implicit_relay_public_target environ).
Proof. unfold _select_implicit_relay_public_target. raising. Qed.
Hint Resolve target_raises implicit_raises : raises.

Lemma env_raises : eraises provider_error_ok (_read_api_v1_provider_env environ config).
Proof. unfold _read_api_v1_provider_env. raising. Qed.

Lemma build_raises mode url fallback :
  eraises provider_error_ok (_build_api_v1_compute_provider environ mode url fallback).
Proof. unfold _build_api_v1_compute_provider. raising. Qed.
Hint Resolve env_raises build_raises : raises.

Lemma default_provider_raises : eraises provider_error_ok (get_api_v1_compute_provider environ config).
Proof. unfold get_api_v1_compute_provider. raising. Qed.
Hint Resolve default_provider_raises : raises.

Lemma chat_provider_raises force :
  eraises provider_error_ok (chat_provider environ config loopback_origin force).
Proof.
  unfold chat_provider, _request_relay_target_selection, get_api_v1_compute_provider_for_mode. raising.
Qed.
Hint Resolve chat_provider_raises : raises.

(** ** The handlers *)

Lemma now_exit : raises exit_ok created_now.
Proof.
  apply raises_bind; [apply provided_raises, now_raises|raising].
Qed.

Lemma supported_raises p model_id : eraises exit_ok (check_supported available p model_id).
Proof. unfold check_supported, get_models_info, reply_if. raising. Qed.

Lemma call_raises p model_id conversation options :
  raises exit_ok (call_provider available runtime fuel p model_id conversation options).
Proof. apply raises_bind; [raising|]. intros _. apply provided_raises, complete_chat_raises. Qed.

Lemma hex_exit : raises exit_ok (provided fresh_hex).
Proof. apply provided_raises, hex_raises. Qed.

(** [m] ends in an answer or in an exception that is reported as an error. *)
Definition answers (m : HM http_reply) : Prop := forall s,
  match (m s).2 with inl e => exit_ok e | inr r => is_answer r end.

Lemma answers_bind {A} (m : HM A) (f : A -> HM http_reply) :
  raises exit_ok m -> (forall a, answers (f a)) -> answers (bind m f).
Proof. intros Hm Hf s. specialize (Hm s). unfold bind. destruct (m s) as [s' [e|a]]; [done|apply Hf]. Qed.

Lemma send_response_answers response key encrypted failure p path :
  dmem response "error" = false -> answers (send_response response key encrypted failure p path).
Proof.
  intros Hr s. unfold send_response.
  destruct (encrypted && _); [|split; [done|]; split; [by exists response|by exists p, path]].
  unfold bind, provided, with_draws. destruct (api_encrypt_message _ _ _) as [n [e|[env|]]]; cbn.
  - done.
  - split; [done|]. split; [by eexists|by exists p, path].
  - by apply error_reply_ok, elem_of_status.
Qed.

Hint Resolve now_exit supported_raises call_raises hex_exit : raises.

Lemma conversation_answers data encrypted requested model_id conversation :
  answers (complete_conversation environ config available runtime fuel loopback_origin data encrypted
    requested model_id conversation).
Proof.
  unfold complete_conversation. apply answers_bind; [apply provided_raises; raising|]. intros p.
  do 3 (apply answers_bind; [raising|]; intros ?).
  apply answers_bind; [raising|]. intros hex. apply answers_bind; [raising|]. intros created.
  apply send_response_answers. unfold chat_response, metadata_field.
  by destruct (jget data "metadata") as [| | | | | |[|kv d]].
Qed.

Lemma chat_answers data :
  answers (chat_body environ config available runtime fuel keys loopback_origin data).
Proof. apply answers_bind; [raising|]. intros [model_id conversation]. apply conversation_answers. Qed.

Lemma text_answers data : answers (text_body environ config available runtime fuel data).
Proof.
  apply answers_bind; [raising|]. intros model_id.
  apply answers_bind; [apply provided_raises; raising|]. intros p.
  do 3 (apply answers_bind; [raising|]; intros ?).
  apply answers_bind; [raising|]. intros hex. apply answers_bind; [raising|]. intros created.
  by apply send_response_answers.
Qed.

(** An exception reported as an error makes a reply of the answers a body ends in. *)
Lemma handled_reply body translate s : answers body ->
  (forall e, exit_ok e -> is_error_reply (translate e)) ->
  is_answer (handled body translate s).2 \/ is_error_reply (handled body translate s).2.
Proof using Type*.
  intros Hb Ht. specialize (Hb s). unfold handled. destruct (body s) as [s' [e|r]]; [right|by left].
  by apply Ht.
Qed.

Lemma not_an_object_ok data : exit_ok (not_an_object data).
Proof using Type*. unfold not_an_object. by destruct data as [| | | | |l|]; try done; case_match. Qed.

End handlers.

(** * What the completion routes guarantee *)

Section contract.
Context `{!World, !Cryptography, !FloatRepr, !PyNumbers, !PyUnicode, !NetlocCheck, !ExceptionTexts}.
Context (environ : environment) (config : jdict) (available : list jdict) (runtime : jdict -> Runtime)
  (fuel : nat) (keys : CryptoKeys) (loopback_origin : pystr).
#[local] Set Default Proof Using "Type*".

#[local] Abbreviation chat := (_handle_chat_completion_request environ config available runtime fuel keys loopback_origin).
#[local] Abbreviation text := (_handle_text_completion_request environ config available runtime fuel).

(** C38: Whatever the body of a request and whatever fails below the handlers, the reply
    is either an answer under 200 that names its provider, or an error object with a
    message and a type under one of five error statuses. *)
Theorem every_reply_is_well_formed data s :
  (is_answer (chat data s).2 \/ is_error_reply (chat data s).2) /\
  (is_answer (text data s).2 \/ is_error_reply (text data s).2).
Proof using All.
  split.
  - unfold _handle_chat_completion_request. destruct (negb _); [right; by apply error_reply_ok, elem_of_status|].
    destruct data as [| | | | | |d];
      try (right; cbn [snd]; apply exit_reply_ok; [by apply elem_of_status|by apply not_an_object_ok]).
    apply handled_reply; [apply chat_answers|]. intros e He. by apply exit_reply_ok; [apply elem_of_status|].
  - unfold _handle_text_completion_request. destruct (negb _); [right; by apply error_reply_ok, elem_of_status|].
    destruct data as [| | | | | |d]; try (right; cbn [snd]; apply exit_reply_ok; [by apply elem_of_status|done]).
    apply handled_reply; [by apply (text_answers environ config available runtime fuel keys loopback_origin)|].
    intros e He. by apply exit_reply_ok; [apply elem_of_status|].
Qed.

(** C37: A chat request that leaves any mark, in the state of the process or on the
    network, asks for no stream and carries a conversation, decrypted if it was
    encrypted, that is valid and that the content policy allows; its model is known to
    the catalogue unless the provider reaches the relay; and all that was sent is a path
    of the relay's protocol for that very conversation, model and options. *)
Theorem only_screened_conversations_leave data s s' r :
  chat data s = (s', r) -> s' <> s ->
  exists d model_id conversation p,
    data = JDict d /\ let_through environ available keys d model_id conversation /\
    chat_provider environ config loopback_origin
      (_should_force_desktop_bridge_distributed (jget d "metadata") (truthy (get_or d "encrypted" (JBool false))))
      = inr p /\
    check_supported available p model_id = inr tt /\
    sent_for model_id conversation (_extract_chat_completion_options d) s s'.
Proof.
  unfold _handle_chat_completion_request. destruct (negb _); [by intros [= -> _]|].
  destruct data as [| | | | | |d]; try by intros [= -> _].
  intros Hrun Hs. assert (s' = (chat_body environ config available runtime fuel keys loopback_origin d s).1) as ->.
  { unfold handled in Hrun. destruct (chat_body _ _ _ _ _ _ _ _ _) as [s1 [e|a]]; by injection Hrun as <- _. }
  unfold chat_body in Hs |- *. destruct (chat_request _ _ _ d) as [e|[model_id conversation]] eqn:Hreq; [done|].
  rewrite (bind_run _ _ s s (model_id, conversation)) in Hs |- * by done.
  apply conversation_sends in Hs as (p & Hp & Hc & Hsent).
  exists d, model_id, conversation, p. split; [done|]. split; [by apply chat_request_spec|]. done.
Qed.

(** The same for a text completion: its prompt is the one message of the conversation. *)
Lemma text_run d s : negb (truthy (JDict d)) = false ->
  (text (JDict d) s).1 = (text_body environ config available runtime fuel d s).1.
Proof.
  intros Hd. unfold _handle_text_completion_request. rewrite Hd. unfold handled.
  by destruct (text_body _ _ _ _ _ _ _) as [s1 [e|a]].
Qed.

(** A text completion that leaves any mark asks for no stream and carries a prompt
    the content policy allows; its model is known to the catalogue unless the provider
    reaches the relay; and all that was sent is a path of the relay's protocol for that
    prompt as the only message. *)
Theorem only_screened_prompts_leave data s s' r :
  text data s = (s', r) -> s' <> s ->
  exists d model_id p,
    data = JDict d /\ truthy (jget d "stream") = false /\
    canonical_model_id available (str_value (jget d "model")) = inr model_id /\
    allowed (evaluate_messages_for_policy environ [prompt_message d]) = true /\
    get_api_v1_compute_provider environ config = inr p /\
    check_supported available p model_id = inr tt /\
    sent_for model_id [prompt_message d] (_extract_chat_completion_options d) s s'.
Proof.
  intros Hrun Hs. destruct (negb (truthy data)) eqn:Ht.
  { unfold _handle_text_completion_request in Hrun. rewrite Ht in Hrun. by injection Hrun as -> _. }
  destruct data as [| | | | | |d]; try (unfold _handle_text_completion_request in Hrun; rewrite Ht in Hrun;
    by injection Hrun as -> _).
  assert (s' = (text (JDict d) s).1) as -> by (by rewrite Hrun). clear Hrun. rewrite text_run in Hs |- * by done.
  unfold text_body in Hs |- *. destruct (text_request _ _ d) as [e|model_id] eqn:Hreq; [done|].
  rewrite (bind_run _ _ s s model_id) in Hs |- * by done.
  destruct (get_api_v1_compute_provider _ _) as [e|p] eqn:Hp; [done|].
  rewrite (bind_run _ _ s s p) in Hs |- * by done.
  destruct (check_supported _ _ _) as [e|[]] eqn:Hc; [done|].
  rewrite (bind_run _ _ s s tt) in Hs |- * by done.
  exists d, model_id, p. apply text_request_spec in Hreq as (Hstream & Hm & Ha).
  do 6 (split; [done|]). apply (bind_state (fun s' => sent_for model_id _ _ s s')).
  { apply call_provider_sends. by eapply default_built. }
  intros r1 s1 Hs1. apply answer_sends. exact Hs1.
Qed.

(** ** Sealed replies *)

Definition sealed_reply (r : http_reply) : Prop :=
  exists ciphertext cipherkey iv,
    reply_body r = JDict [("encrypted", JBool true); ("data", JDict (api_envelope ciphertext cipherkey iv))]%pystr.

Lemma api_encrypt_shape data key n n' env : api_encrypt_message data key n = (n', inr (Some env)) ->
  exists ciphertext cipherkey iv, env = api_envelope ciphertext cipherkey iv.
Proof.
  unfold api_encrypt_message, or_none, bind at 1. intros Hrun.
  destruct (lift_val (encoded _) n) as [n1 [e|json_data]]; [done|]. unfold bind at 1 in Hrun.
  destruct (lift_val (decoded_public_key key) n1) as [n2 [e|k]]; [done|]. unfold bind in Hrun.
  destruct (encrypt _ _ _ _ _ _) as [n3 [e|[[d cipherkey] iv]]]; [done|].
  injection Hrun as _ <-. by eexists _, _, _.
Qed.

Lemma send_sealed response key failure p path : truthy key = true ->
  returns sealed_reply (send_response response key true failure p path).
Proof.
  intros Hk s. unfold send_response. rewrite Hk. cbn [andb]. unfold bind, provided, with_draws.
  destruct (api_encrypt_message _ _ _) as [n [e|[env|]]] eqn:He; [done| |done].
  apply api_encrypt_shape in He as (c & w & iv & ->). by exists c, w, iv.
Qed.

(** The answer to an encrypted chat request that names a client key is sealed: its
    body is an envelope and nothing else. *)
Theorem encrypted_answer_is_sealed d s s' r :
  truthy (get_or d "encrypted" (JBool false)) = true -> truthy (jget d "client_public_key") = true ->
  chat (JDict d) s = (s', r) -> reply_status r = 200 -> sealed_reply r.
Proof using All.
  intros He Hk Hrun Hst. unfold _handle_chat_completion_request in Hrun.
  destruct (negb _); [by injection Hrun as _ <-|].
  assert (returns sealed_reply (chat_body environ config available runtime fuel keys loopback_origin d)) as Hs.
  { apply returns_bind. intros [model_id conversation]. rewrite He. apply returns_bind. intros p.
    do 5 (apply returns_bind; intros ?). by apply send_sealed. }
  specialize (Hs s). pose proof (chat_answers environ config available runtime fuel keys loopback_origin d s) as Ha.
  unfold handled in Hrun. destruct (chat_body _ _ _ _ _ _ _ _ _) as [s1 [e|a]].
  - injection Hrun as _ <-. cbn [snd] in Ha.
    apply (exit_reply_ok (chat_public_code environ (_should_force_desktop_bridge_distributed (jget d "metadata")
      (truthy (get_or d "encrypted" (JBool false))))) 500) in Ha as [Hin _]; [|by apply elem_of_status].
    rewrite Hst in Hin. by apply (bool_decide_eq_true (200 ∈ error_statuses)) in Hin.
  - by injection Hrun as _ <-.
Qed.

End contract.
