(* ===== verification/Client.v ===== *)
(** * utils/crypto_helpers.py: the client

    [CryptoClient] up to its streaming method: the keys, the two kinds of encrypted
    requests, through the relay and to the API, and the retrieval of a relayed response.

    The server at the other end of [requests] is the class [World], as for the
    providers: a request without a body is sent with [JNull].  [None] is [JNull], which
    is also what the JSON text [null] is parsed to.  The client's private key is set
    from the construction on.  Logging is left out. *)

From S2P Require Import Prelude PyFloat PyStr PyDict PyText Json JsonText Base64.
From S2P Require Import Encrypt CryptoManager Provider.
From Stdlib Require Import Floats.SpecFloat.

Definition DEFAULT_API_V1_MODEL_ID : pystr := "qwen3-8b-instruct".

(** ** Exceptions *)
Inductive client_error : Set :=
| ClientValueError (text : pystr)
| ClientTypeError
| ClientAttributeError
| ClientUnicodeError
| ClientOverflowError
| ClientCryptoError (e : crypto_error).

(** ** State *)
Record client_state : Type := MkClient {
  base_url : pystr;
  server_public_key : option (list byte);
  server_public_key_b64 : json;
  client_private_key : list byte;
  client_public_key : list byte;
  client_public_key_b64 : pystr;
  cl_ticks : nat;
  cl_draws : nat;
  cl_uuids : nat;
  cl_trace : list event
}.

Abbreviation CL := (SM client_state client_error).

Definition set_server_b64 (v : json) (s : client_state) : client_state :=
  MkClient (base_url s) (server_public_key s) v (client_private_key s) (client_public_key s)
    (client_public_key_b64 s) (cl_ticks s) (cl_draws s) (cl_uuids s) (cl_trace s).
Definition set_server_key (k : list byte) (s : client_state) : client_state :=
  MkClient (base_url s) (Some k) (server_public_key_b64 s) (client_private_key s) (client_public_key s)
    (client_public_key_b64 s) (cl_ticks s) (cl_draws s) (cl_uuids s) (cl_trace s).
Definition cl_tick (s : client_state) : client_state :=
  MkClient (base_url s) (server_public_key s) (server_public_key_b64 s) (client_private_key s)
    (client_public_key s) (client_public_key_b64 s) (S (cl_ticks s)) (cl_draws s) (cl_uuids s) (cl_trace s).
Definition cl_set_draws (n : nat) (s : client_state) : client_state :=
  MkClient (base_url s) (server_public_key s) (server_public_key_b64 s) (client_private_key s)
    (client_public_key s) (client_public_key_b64 s) (cl_ticks s) n (cl_uuids s) (cl_trace s).
Definition cl_next_uuid (s : client_state) : client_state :=
  MkClient (base_url s) (server_public_key s) (server_public_key_b64 s) (client_private_key s)
    (client_public_key s) (client_public_key_b64 s) (cl_ticks s) (cl_draws s) (S (cl_uuids s)) (cl_trace s).
Definition cl_add (e : event) (s : client_state) : client_state :=
  MkClient (base_url s) (server_public_key s) (server_public_key_b64 s) (client_private_key s)
    (client_public_key s) (client_public_key_b64 s) (cl_ticks s) (cl_draws s) (cl_uuids s) (cl_trace s ++ [e]).

(** ** Values *)

(** [k in data] of a document that may be no object; [None] is a [TypeError]. *)
Definition contains_key (data : json) (k : pystr) : option bool :=
  match data with
  | JDict d => Some (dmem d k)
  | JList l => Some (existsb (fun v => jeq_str v k) l)
  | JStr s => Some (py_contains k s)
  | _ => None
  end.

(** [needle in str(data)]: a text without quotes and escapes occurs in the text of a
    list or a dictionary when it occurs in one of its strings. *)
Fixpoint mentions (needle : pystr) (data : json) : bool :=
  match data with
  | JStr s => py_contains needle s
  | JList l => existsb (mentions needle) l
  | JDict d => existsb (fun kv => py_contains needle kv.1 || mentions needle kv.2) d
  | _ => false
  end.

(** [base64.b64decode(encrypted_data[k])] with any of its failures *)
Definition b64_field (encrypted_data : jdict) (k : pystr) : option (list byte) :=
  match jget encrypted_data k with
  | JStr s => match b64decode s with inr b => Some b | inl _ => None end
  | _ => None
  end.

Section client.
Context `{!World, !Cryptography, !FloatRepr, !PyNumbers}.

Definition cl_now : CL float64 := fun s => (cl_tick s, inr (time_time (cl_ticks s))).

Definition cl_uuid : CL pystr := fun s => (cl_next_uuid s, inr (uuid4_hex (cl_uuids s))).

(** A randomised computation of [encrypt.py] *)
Definition cl_crypto {A} (m : CM A) : CL A := fun s =>
  match m (cl_draws s) with
  | (n, inr a) => (cl_set_draws n s, inr a)
  | (n, inl e) => (cl_set_draws n s, inl (ClientCryptoError e))
  end.

(** [requests.get] and [requests.post]; [None] is a [RequestException]. *)
Definition cl_send (url : pystr) (payload : json) (timeout : float64) : CL (option http_response) := fun s =>
  let s' := cl_add (Sent url payload timeout) s in (s', inr (relay_reply (cl_trace s'))).

(** [time.sleep(n)]: the nanoseconds are a signed 64-bit integer. *)
Definition sleep_error (n : Z) : option client_error :=
  if (n * 10 ^ 9 <? - 2 ^ 63) || (2 ^ 63 <=? n * 10 ^ 9) then Some ClientOverflowError
  else if n <? 0 then Some (ClientValueError "sleep length must be non-negative") else None.

Definition cl_sleep (n : Z) : CL unit :=
  match sleep_error n with
  | Some e => raise e
  | None => modify (cl_add (Slept (float_near n)))
  end.

Definition f10 : float64 := S754_finite false 5629499534213120 (-49).

(** ** Keys *)

(** [CryptoClient(base_url)] *)
Definition init_client (base_url : pystr) (ticks draws uuids : nat) (trace : list event) :
  client_error + client_state :=
  let base_url := py_strip base_url in
  if py_empty base_url || negb (py_startswith base_url "http://" || py_startswith base_url "https://")
  then inl (ClientValueError "base_url must start with http:// or https://")
  else match generate_keys draws with
       | (draws', inr (private, public)) =>
           inr (MkClient (py_rstrip base_url 47) None JNull private public (b64encode public)
                  ticks draws' uuids trace)
       | (_, inl e) => inl (ClientCryptoError e)
       end.

Definition has_server_public_key (s : client_state) : bool :=
  match server_public_key s with Some _ => true | None => false end.

(** The document of a response with status 200 *)
Definition response_document (response : option http_response) : option json :=
  match response with
  | Some r => if status_code r =? 200 then body r else None
  | None => None
  end.

(** The encoded key is kept before it is decoded. *)
Definition fetch_server_public_key (endpoint : pystr) (timeout : float64) : CL bool :=
  let* s := get_state in
  let* response := cl_send (base_url s +++ endpoint) JNull timeout in
  match response_document response with
  | Some (JDict data) =>
      if dmem data "error" then ret false
      else
        let key_field := if dmem data "server_public_key" then "server_public_key"%pystr
                         else "public_key"%pystr in
        match dget data key_field with
        | None => ret false
        | Some value =>
            modify (set_server_b64 value) ;;;
            match value with
            | JStr text =>
                match b64decode text with
                | inr key => modify (set_server_key key) ;;; ret true
                | inl _ => ret false
                end
            | _ => ret false
            end
        end
  | _ => ret false
  end.

(** ** Messages *)

Definition message_plaintext (m : message) : client_error + list byte :=
  match m with
  | MValue (JDict _ as j) | MValue (JList _ as j) =>
      match utf8_encode (json_dumps true j) with Some b => inr b | None => inl ClientUnicodeError end
  | MValue (JStr s) => match utf8_encode s with Some b => inr b | None => inl ClientUnicodeError end
  | MBytes b => inr b
  | MValue JNull => inl (ClientValueError "message cannot be None")
  | _ => inl ClientTypeError
  end.

Definition sealed_fields (ciphertext cipherkey iv : list byte) : jdict :=
  [("ciphertext", JStr (b64encode ciphertext)); ("cipherkey", JStr (b64encode cipherkey));
   ("iv", JStr (b64encode iv))]%pystr.

Definition client_encrypt_message (m : message) : CL jdict :=
  let* s := get_state in
  let* key := from_option (server_public_key s)
    (ClientValueError "Server public key not available. Call fetch_server_public_key() first.") in
  let* plaintext := lift_val (message_plaintext m) in
  let* '(encrypted_dict, cipherkey, iv) :=
    cl_crypto (encrypt (PyBytes plaintext) (PyBytes key) false (PyS "CBC") PyNone) in
  ret (sealed_fields (ciphertext_of encrypted_dict) cipherkey iv).

Definition client_decrypt_message (private_key : list byte) (encrypted_data : jdict) : client_error + json :=
  if negb (forallb (dmem encrypted_data) ["ciphertext"; "cipherkey"; "iv"]%pystr) then inr JNull
  else match b64_field encrypted_data "ciphertext", b64_field encrypted_data "iv",
             b64_field encrypted_data "cipherkey" with
       | Some ciphertext, Some iv, Some encrypted_key =>
           match decrypt (PyDict [("ciphertext", PyBytes ciphertext); ("iv", PyBytes iv)]%pystr)
                   (PyBytes encrypted_key) (PyBytes private_key) PyNone PyNone with
           | inl e => inl (ClientCryptoError e)
           | inr None => inr JNull
           | inr (Some decrypted_bytes) =>
               match utf8_decode decrypted_bytes with
               | None => inl ClientUnicodeError
               | Some text => inr (default (JStr text) (json_loads text))
               end
           end
       | _, _, _ => inr JNull
       end.

(** [except Exception: return None] *)
Definition decrypted_or_none (private_key : list byte) (encrypted_data : jdict) : json :=
  match client_decrypt_message private_key encrypted_data with inr j => j | inl _ => JNull end.

Definition send_encrypted_message (endpoint : pystr) (payload : jdict) (timeout : float64) : CL json :=
  let* s := get_state in
  let* response := cl_send (base_url s +++ endpoint) (JDict payload) timeout in
  ret (default JNull (response_document response)).

(** [if not self.server_public_key and not self.fetch_server_public_key(...)] *)
Definition ensure_server_key (endpoint : pystr) : CL bool :=
  let* s := get_state in
  match server_public_key s with
  | Some (_ :: _) => ret true
  | _ => fetch_server_public_key endpoint f10
  end.

(** ** The API *)

(** Three fields of a document, for [decrypt_message]; [None]: one is missing, or it is
    no object. *)
Definition three_fields (content : json) (ciphertext_key : pystr) : option jdict :=
  match content with
  | JDict d =>
      ciphertext ← dget d ciphertext_key;
      cipherkey ← dget d "cipherkey"%pystr;
      iv ← dget d "iv"%pystr;
      Some [("ciphertext", ciphertext); ("cipherkey", cipherkey); ("iv", iv)]%pystr
  | _ => None
  end.

Definition open_content (private_key : list byte) (content : json) : json :=
  match three_fields content "ciphertext" with
  | Some fields => decrypted_or_none private_key fields
  | None => JNull
  end.

Definition api_request (model : pystr) (public_key_b64 : pystr) (encrypted_data : jdict) : jdict :=
  [("model", JStr model); ("encrypted", JBool true); ("client_public_key", JStr public_key_b64);
   ("messages", JDict [("ciphertext", jget encrypted_data "ciphertext");
                       ("cipherkey", jget encrypted_data "cipherkey");
                       ("iv", jget encrypted_data "iv")])]%pystr.

Definition open_api_response (private_key : list byte) (response : json) : client_error + json :=
  match response with
  | JDict d =>
      match jget d "data" with
      | JDict content =>
          if dmem content "encrypted" then inr (open_content private_key (JDict content))
          else if truthy (jget d "encrypted") && dmem d "encrypted_content"
          then inr (open_content private_key (jget d "encrypted_content")) else inr JNull
      | _ => if truthy (jget d "encrypted") && dmem d "encrypted_content"
             then inr (open_content private_key (jget d "encrypted_content")) else inr JNull
      end
  | _ => inl ClientAttributeError
  end.

Definition send_api_request (messages : list json) (model : pystr) : CL json :=
  let* found := ensure_server_key "/api/v1/public-key" in
  if negb found then ret JNull
  else
    let* encrypted := try_except (let* d := client_encrypt_message (MValue (JList messages)) in ret (Some d))
                        (fun _ => true) (ret None) in
    match encrypted with
    | None => ret JNull
    | Some encrypted_data =>
        let* s := get_state in
        let* response := send_encrypted_message "/api/v1/chat/completions"
          (api_request model (client_public_key_b64 s) encrypted_data) f10 in
        if negb (truthy response) then ret JNull
        else lift_val (open_api_response (client_private_key s) response)
    end.

(** ** Messages through the relay *)

Definition relay_envelope (public_key_b64 request_id : pystr) (chat_history : list json) : json :=
  JDict [("protocol", JStr PROTOCOL); ("version", JInt 1); ("request_id", JStr request_id);
         ("client_public_key", JStr public_key_b64);
         ("api_v1_request", JDict [("model", JStr DEFAULT_API_V1_MODEL_ID); ("messages", JList chat_history);
                                   ("options", JDict [])])]%pystr.

Definition relay_payload (s : client_state) (request_id : pystr) (encrypted_data : jdict) : jdict :=
  [("request_id", JStr request_id); ("protocol", JStr PROTOCOL); ("version", JInt 1);
   ("client_public_key", JStr (client_public_key_b64 s)); ("server_public_key", server_public_key_b64 s);
   ("chat_history", jget encrypted_data "ciphertext"); ("cipherkey", jget encrypted_data "cipherkey");
   ("iv", jget encrypted_data "iv")]%pystr.

(** What the response to one retrieval amounts to: look again, or return *)
Inductive retrieved : Type :=
| Again
| Return (j : json).

Definition well_formed_entry (msg : json) : bool :=
  match msg with JDict d => dmem d "role" && dmem d "content" | _ => false end.

(** The decrypted response; [chat_history] is the one of the request.  The delay after
    a response to another request is inside the [try], where a delay that cannot be slept is caught. *)
Definition read_decrypted (retry_delay : Z) (expected_request_id : option pystr)
  (chat_history : option (list json)) (decrypted_data : json) : retrieved :=
  match decrypted_data with
  | JDict d =>
      if negb (jeq_str (jget d "protocol") PROTOCOL) then Return JNull
      else if match expected_request_id with
              | Some id => negb (py_empty id) && negb (jeq_str (jget d "request_id") id)
              | None => false
              end then match sleep_error retry_delay with Some _ => Return JNull | None => Again end
      else match jget d "api_v1_response" with
           | JDict api_v1_response =>
               if truthy (jget api_v1_response "error") then Return JNull
               else match jget api_v1_response "message" with
                    | JDict assistant_message =>
                        if is_JStr (jget assistant_message "role") && is_JStr (jget assistant_message "content")
                        then Return (JList (default [] chat_history ++ [JDict assistant_message]))
                        else Return JNull
                    | _ => Return JNull
                    end
           | _ => Return JNull
           end
  | JList ((_ :: _) as l) => Return (if forallb well_formed_entry l then decrypted_data else JNull)
  | _ => Return JNull
  end.

Definition no_response_yet : pystr := "No response available".

(** [response['error']]: is it the answer of a relay that has no response yet? *)
Definition says_no_response (error : json) : client_error + bool :=
  match error with
  | JStr s => inr (py_contains no_response_yet s)
  | JDict d =>
      match dget d "message" with
      | Some error_msg => match contains_key error_msg no_response_yet with
                          | Some b => inr b
                          | None => inl ClientTypeError
                          end
      | None => inr (mentions no_response_yet error)
      end
  | _ => inr (mentions no_response_yet error)
  end.

Definition read_response (private_key : list byte) (retry_delay : Z) (expected_request_id : option pystr)
  (chat_history : option (list json)) (response : json) : client_error + retrieved :=
  match response with
  | JDict d =>
      match dget d "error" with
      | Some error =>
          let? pending := says_no_response error in
          inr (if pending then Again else Return JNull)
      | None =>
          match three_fields response "chat_history" with
          | Some fields =>
              match client_decrypt_message private_key fields with
              | inr decrypted_data => inr (read_decrypted retry_delay expected_request_id chat_history decrypted_data)
              | inl _ => inr (Return JNull)
              end
          | None => inr Again
          end
      end
  | _ => inl ClientAttributeError
  end.

(** One attempt, up to the delay *)
Definition retrieve_once (payload : jdict) (pending_deadline : float64) (retry_delay : Z)
  (expected_request_id : option pystr) (chat_history : option (list json)) : CL retrieved :=
  let* s := get_state in
  let* reply := cl_send (base_url s +++ "/api/v1/relay/responses/retrieve") (JDict payload) f10 in
  match reply with
  | None => ret Again
  | Some r =>
      if status_code r =? 202 then
        let* t := cl_now in
        ret (if fle pending_deadline t then Return JNull else Again)
      else if status_code r =? 404 then ret (Return JNull)
      else if negb (status_code r =? 200) then ret Again
      else match body r with
           | None => ret Again
           | Some response =>
               lift_val (read_response (client_private_key s) retry_delay expected_request_id chat_history response)
           end
  end.

Fixpoint retrieve_loop (attempts : nat) (payload : jdict) (pending_deadline : float64) (retry_delay : Z)
  (expected_request_id : option pystr) (chat_history : option (list json)) : CL json :=
  match attempts with
  | O => ret JNull
  | S attempts' =>
      let* outcome := retrieve_once payload pending_deadline retry_delay expected_request_id chat_history in
      match outcome with
      | Return j => ret j
      | Again =>
          cl_sleep retry_delay ;;;
          retrieve_loop attempts' payload pending_deadline retry_delay expected_request_id chat_history
      end
  end.

Definition retrieve_chat_response (max_retries retry_delay : Z) (expected_request_id : option pystr)
  (chat_history : option (list json)) : CL json :=
  let* s := get_state in
  let payload := ("client_public_key"%pystr, JStr (client_public_key_b64 s))
                 :: match expected_request_id with
                    | Some id => if py_empty id then [] else [("request_id"%pystr, JStr id)]
                    | None => []
                    end in
  let max_attempts := Z.max max_retries 1 in
  let* t := cl_now in
  let* patience := from_option (float_of_int (Z.max (max_attempts * Z.max retry_delay 0) 1)) ClientOverflowError in
  retrieve_loop (Z.to_nat max_attempts) payload (fadd t patience) retry_delay expected_request_id chat_history.

(** [message if isinstance(message, list) else [{"role": "user", "content": message}]];
    [None]: there is nothing to send. *)
Definition chat_history_of (message : pystr + list json) : option (list json) :=
  match message with
  | inl text => if py_empty (py_strip text) then None
                else Some [JDict [("role", JStr "user"); ("content", JStr text)]%pystr]
  | inr [] => None
  | inr history => Some history
  end.

(** [not ('message' not in response and not response.get('success', False))] *)
Definition accepted_by_relay (response : json) : client_error + bool :=
  match contains_key response "message" with
  | None => inl ClientTypeError
  | Some true => inr true
  | Some false => match response with
                  | JDict d => inr (truthy (jget d "success"))
                  | _ => inl ClientAttributeError
                  end
  end.

Definition send_chat_message (message : pystr + list json) (max_retries : Z) : CL json :=
  match chat_history_of message with
  | None => ret JNull
  | Some chat_history =>
      let* found := ensure_server_key "/api/v1/relay/servers/next" in
      if negb found then ret JNull
      else
        let* hex := cl_uuid in
        let request_id := "crypto-client-" +++ hex in
        let* s := get_state in
        let* encrypted := try_except
          (let* d := client_encrypt_message
                       (MValue (relay_envelope (client_public_key_b64 s) request_id chat_history)) in
           ret (Some d)) (fun _ => true) (ret None) in
        match encrypted with
        | None => ret JNull
        | Some encrypted_data =>
            let* response := send_encrypted_message "/api/v1/relay/requests"
              (relay_payload s request_id encrypted_data) f10 in
            if negb (truthy response) then ret JNull
            else
              let* accepted := lift_val (accepted_by_relay response) in
              if negb accepted then ret JNull
              else
                cl_sleep 3 ;;;
                retrieve_chat_response max_retries 2 (Some request_id) (Some chat_history)
        end
  end.

End client.
