(* ===== verification/ClientSound.v ===== *)
(** * A request of the client and the route that answers it *)

From S2P Require Import Prelude PyFloat PyStr PyDict Base64 PyText PyUrl Json JsonText.
From S2P Require Import Encrypt EncryptSound CryptoManager Validation Profiles.
From S2P Require Import Catalog Moderation Config Provider.
From S2P Require Import ProviderHonest Routes Client.

Section sealing.
Context `{!Cryptography, !CryptographyLaws, !FloatRepr, !PyNumbers}.
#[local] Set Default Proof Using "All".

(** What the client seals for a server, the server's keys open. *)
Lemma client_seals j bytes private public s :
  key_pair private public -> server_public_key s = Some public ->
  message_plaintext (MValue j) = inr bytes -> zlen bytes <= gcm_limit ->
  exists c w iv,
    client_encrypt_message (MValue j) s
      = (cl_set_draws (S (S (S (cl_draws s)))) s, inr (sealed_fields c w iv)) /\
    api_decrypt_message private [("ciphertext", PyBytes c); ("iv", PyBytes iv)]%pystr w = Some bytes.
Proof.
  intros Hkp Hs Hb Hl.
  destruct (cbc_run false bytes private public (cl_draws s) Hkp Hl) as (c & w & iv & He & Hd & _).
  cbv zeta in *. exists c, w, iv. split; [|unfold api_decrypt_message; by rewrite Hd].
  unfold client_encrypt_message. rewrite (bind_run _ _ s s s) by done. rewrite Hs.
  rewrite (bind_run _ _ s s public) by done. rewrite (bind_val _ _ _ _ Hb).
  rewrite (bind_run _ _ s (cl_set_draws (S (S (S (cl_draws s)))) s)
    ([("ciphertext", PyBytes c); ("iv", PyBytes iv)]%pystr, w, iv)); [done|].
  unfold cl_crypto. by rewrite He.
Qed.

(** The plaintext of a document is its JSON text. *)
Lemma document_plaintext j bytes :
  is_JDict j = true \/ isinstance_list j = true ->
  message_plaintext (MValue j) = inr bytes <-> utf8_encode (json_dumps true j) = Some bytes.
Proof.
  intros Hj. destruct j; try (by destruct Hj); cbn [message_plaintext];
    destruct (utf8_encode _); split; congruence.
Qed.

(** What the API seals for the client, the client opens. *)
Lemma client_opens data bytes private public n :
  key_pair private public -> utf8_encode (json_dumps true (JDict data)) = Some bytes ->
  zlen bytes <= gcm_limit -> document_ok (JDict data) ->
  exists c w iv,
    api_encrypt_message data (PyS (b64encode public)) n
      = (S (S (S n)), inr (Some (api_envelope c w iv))) /\
    open_content private (JDict (api_envelope c w iv)) = JDict data.
Proof.
  intros Hkp Hb Hl Hok.
  destruct (cbc_run true bytes private public n Hkp Hl) as (c & w & iv & He & Hd & _).
  cbv zeta in *. exists c, w, iv. split.
  - unfold api_encrypt_message, or_none, encoded. rewrite Hb.
    rewrite bind_val with (a := bytes) by done. cbn [decoded_public_key].
    rewrite b64_lenient_roundtrip, (bind_val _ (PyBytes public)) by done.
    by rewrite (bind_run _ _ _ _ _ He).
  - unfold open_content. change (three_fields _ _) with (Some (sealed_fields c w iv)).
    unfold decrypted_or_none, client_decrypt_message.
    change (forallb _ _) with true. cbn [negb].
    assert (forall k b, jget (sealed_fields c w iv) k = JStr (b64encode b) ->
      b64_field (sealed_fields c w iv) k = Some b) as Hf.
    { intros k b Hk. unfold b64_field. by rewrite Hk, b64_lenient_roundtrip. }
    rewrite (Hf "ciphertext" c), (Hf "iv" iv), (Hf "cipherkey" w) by done. rewrite Hd.
    rewrite (utf8_round_trip _ _ Hb). by rewrite json_round_trip.
Qed.

End sealing.

(** ** The route's side *)
Section route.
Context `{!Cryptography, !CryptographyLaws, !FloatRepr, !PyNumbers, !PyUnicode, !ExceptionTexts}.
Context (environ : environment) (available : list jdict) (keys : CryptoKeys).
#[local] Set Default Proof Using "Type*".

Lemma decode_encoded b : decode_value (JStr (b64encode b)) = inr b.
Proof. cbn [decode_value]. by rewrite b64_lenient_roundtrip. Qed.

(** The client's request passes the checks of an encrypted request. *)
Lemma api_request_valid model key c w iv :
  validate_encrypted_request (api_request model key (sealed_fields c w iv)) = inr tt.
Proof.
  apply encrypted_request_inr. exists key, (sealed_fields c w iv). split; [done|]. split; [done|].
  intros f Hf. unfold envelope_fields in Hf. rewrite !elem_of_cons in Hf.
  destruct Hf as [->|[->|[->|Hf%elem_of_nil]]]; [exists (JStr (b64encode c))|exists (JStr (b64encode w))
    |exists (JStr (b64encode iv))|done]; (split; [done|]; intros s [= <-]; rewrite b64_roundtrip; eauto).
Qed.

Lemma request_conversation model key c w iv bytes conversation :
  api_decrypt_message (ck_private_key keys) [("ciphertext", PyBytes c); ("iv", PyBytes iv)]%pystr w = Some bytes ->
  utf8_encode (json_dumps true (JList conversation)) = Some bytes -> document_ok (JList conversation) ->
  decrypted_messages keys (api_request model key (sealed_fields c w iv)) = inr (JList conversation).
Proof.
  intros Hd Hb Hok. unfold decrypted_messages. rewrite api_request_valid. cbn [checked ebind].
  change (jget (api_request _ _ _) "messages") with (JDict (sealed_fields c w iv)). cbv iota zeta.
  change (jget (sealed_fields c w iv) "ciphertext") with (JStr (b64encode c)).
  change (jget (sealed_fields c w iv) "iv") with (JStr (b64encode iv)).
  change (jget (sealed_fields c w iv) "cipherkey") with (JStr (b64encode w)).
  rewrite !decode_encoded. cbn [ebind]. rewrite Hd, (utf8_round_trip _ _ Hb), json_round_trip; done.
Qed.

Lemma request_let_through model model_id key c w iv bytes conversation :
  api_decrypt_message (ck_private_key keys) [("ciphertext", PyBytes c); ("iv", PyBytes iv)]%pystr w = Some bytes ->
  utf8_encode (json_dumps true (JList conversation)) = Some bytes -> document_ok (JList conversation) ->
  canonical_model_id available model = inr model_id ->
  validate_chat_messages (JList conversation) = inr tt ->
  allowed (evaluate_messages_for_policy environ conversation) = true ->
  chat_request environ available keys (api_request model key (sealed_fields c w iv)) = inr (model_id, conversation).
Proof.
  intros Hd Hb Hok Hm Hv Ha. unfold chat_request.
  change (checked (validate_required_fields _ _)) with (inr tt : handler_exit + unit). cbn [ebind].
  change (refuse_stream _ _) with (inr tt : handler_exit + unit). cbn [ebind].
  change (checked (validate_field_type _ _ _ _)) with (inr tt : handler_exit + unit). cbn [ebind].
  change (jget (api_request _ _ _) "model") with (JStr model). cbn [str_value]. rewrite Hm. cbn [of_model ebind].
  change (truthy (get_or _ _ _)) with true. cbv iota. rewrite (request_conversation _ _ _ _ _ bytes conversation) by done.
  cbn [ebind]. rewrite Hv. cbn [checked ebind]. unfold moderated. by rewrite Ha.
Qed.

End route.

(** * Retrieving a relayed response

    How often the client asks, and what it takes for the response. *)

Section retrieval.
Context `{!World, !Cryptography, !FloatRepr, !PyNumbers}.
#[local] Set Default Proof Using "Type*".

(** The events of at most [n] attempts *)
Inductive attempts_made (url : pystr) (payload : jdict) (delay : Z) : nat -> list event -> Prop :=
| made_none : attempts_made url payload delay 0 []
| made_last : attempts_made url payload delay 1 [Sent url (JDict payload) f10]
| made_slept n l : attempts_made url payload delay n l ->
    attempts_made url payload delay (S n) (Sent url (JDict payload) f10 :: Slept (float_near delay) :: l).

Lemma attempts_length url payload delay n l : attempts_made url payload delay n l -> (length l <= 2 * n)%nat.
Proof. induction 1; simpl; lia. Qed.

(** A response that was decrypted with the client's key for the request *)
Definition client_response (private_key : list byte) (request_id : option pystr) (history : option (list json))
  (reply : option http_response) (j : json) : Prop :=
  exists payload fields decrypted,
    reply = Some (MkResponse 200 (Some (JDict payload))) /\
    three_fields (JDict payload) "chat_history" = Some fields /\
    client_decrypt_message private_key fields = inr decrypted /\
    match decrypted with
    | JDict d => exists response m,
        jget d "protocol" = JStr PROTOCOL /\
        (forall id, request_id = Some id -> py_empty id = false -> jget d "request_id" = JStr id) /\
        jget d "api_v1_response" = JDict response /\ truthy (jget response "error") = false /\
        jget response "message" = JDict m /\ j = JList (default [] history ++ [JDict m])
    | JList l => l <> [] /\ forallb well_formed_entry l = true /\ j = decrypted
    | _ => False
    end.

Lemma read_decrypted_spec delay id history decrypted j :
  read_decrypted delay id history decrypted = Return j -> j <> JNull ->
  match decrypted with
  | JDict d => exists response m,
      jget d "protocol" = JStr PROTOCOL /\
      (forall i, id = Some i -> py_empty i = false -> jget d "request_id" = JStr i) /\
      jget d "api_v1_response" = JDict response /\ truthy (jget response "error") = false /\
      jget response "message" = JDict m /\ j = JList (default [] history ++ [JDict m])
  | JList l => l <> [] /\ forallb well_formed_entry l = true /\ j = decrypted
  | _ => False
  end.
Proof.
  destruct decrypted as [| | | | |l|d]; unfold read_decrypted; try congruence.
  - destruct l as [|x l]; [congruence|]. destruct (forallb well_formed_entry (x :: l)) eqn:E.
    + intros [= <-] _. by repeat split.
    + congruence.
  - destruct (jeq_str (jget d "protocol") PROTOCOL) eqn:Hp; [|simpl; congruence]. cbn [negb].
    destruct (match id with Some _ => _ | None => _ end) eqn:Hid; [by destruct (sleep_error _); simpl; congruence|].
    destruct (jget d "api_v1_response") as [| | | | | |response] eqn:Ha; try congruence.
    destruct (truthy _) eqn:He; [congruence|].
    destruct (jget response "message") as [| | | | | |m] eqn:Hm; try congruence.
    destruct (_ && _); [|congruence]. intros [= <-] _. exists response, m. apply jeq_str_true in Hp.
    split; [done|]. split; [|done]. intros i -> Hi. rewrite Hi in Hid. cbn [negb andb] in Hid.
    by apply negb_false_iff, jeq_str_true in Hid.
Qed.

Section loop.
Context (private_key : list byte) (url : pystr) (payload : jdict) (deadline : float64) (delay : Z)
  (id : option pystr) (history : option (list json)).

(** The state during the retrieval *)
Definition asking (s : client_state) : Prop :=
  client_private_key s = private_key /\ base_url s +++ "/api/v1/relay/responses/retrieve" = url.

Lemma retrieve_once_wp s : asking s ->
  wp (retrieve_once payload deadline delay id history)
    (fun outcome s' => asking s' /\ cl_trace s' = cl_trace s ++ [Sent url (JDict payload) f10] /\
       forall j, outcome = Return j -> j <> JNull ->
         client_response private_key id history (relay_reply (cl_trace s')) j)
    (fun _ s' => cl_trace s' = cl_trace s ++ [Sent url (JDict payload) f10]) s.
Proof.
  intros [Hk Hu]. unfold retrieve_once. apply wp_bind, wp_get, wp_bind. unfold wp at 1, cl_send. rewrite Hu.
  set (s1 := cl_add _ s). change (cl_trace s1) with (cl_trace s ++ [Sent url (JDict payload) f10]).
  destruct (relay_reply _) as [[st body]|] eqn:Hr; cbn [status_code Provider.body];
    [|by apply wp_ret].
  destruct (st =? 202); [apply wp_bind; unfold wp at 1, cl_now; apply wp_ret; repeat split; try done;
    intros j; destruct (fle _ _); congruence|].
  destruct (st =? 404); [apply wp_ret; repeat split; try done; congruence|].
  destruct (st =? 200) eqn:Est; [|by apply wp_ret]. apply Z.eqb_eq in Est as ->. cbn [negb].
  destruct body as [response|]; [|by apply wp_ret]. apply wp_lift_val; [done|].
  intros outcome Ho. repeat split; try done. intros j -> Hj. rewrite Hk in Ho.
  change (cl_trace s1) with (cl_trace s ++ [Sent url (JDict payload) f10]). rewrite Hr.
  destruct response as [| | | | | |d]; try done. cbn [read_response] in Ho.
  destruct (dget d "error"); [apply ebind_inr in Ho as ([] & _ & [= ?]); congruence|].
  destruct (three_fields _ _) as [fields|] eqn:Hf; [|done].
  destruct (client_decrypt_message _ _) as [e|decrypted] eqn:Hd; [congruence|]. injection Ho as Ho.
  exists d, fields, decrypted. repeat split; try done. by eapply read_decrypted_spec.
Qed.

Lemma retrieve_loop_wp n s : asking s ->
  wp (retrieve_loop n payload deadline delay id history)
    (fun j s' => (exists l k, cl_trace s' = cl_trace s ++ l /\ attempts_made url payload delay k l /\ (k <= n)%nat) /\
       (j <> JNull -> client_response private_key id history (relay_reply (cl_trace s')) j))
    (fun _ s' => exists l k, cl_trace s' = cl_trace s ++ l /\ attempts_made url payload delay k l /\ (k <= n)%nat) s.
Proof.
  revert s. induction n as [|n IH]; intros s Hs.
  - split; [|done]. exists [], 0%nat. rewrite app_nil_r. repeat split; [constructor|lia].
  - cbn [retrieve_loop]. apply wp_bind. eapply wp_mono; [by apply retrieve_once_wp| |].
    + intros outcome s1 (Hs1 & Ht & Hj). destruct outcome as [|j].
      * apply wp_bind. unfold cl_sleep. destruct (sleep_error delay) as [e|].
        { apply wp_raise. exists [Sent url (JDict payload) f10], 1%nat. repeat split; [done|constructor|lia]. }
        apply wp_modify. eapply wp_mono; [by apply (IH (cl_add (Slept (float_near delay)) s1))| |].
        -- intros j s2 [(l & k & Hl & Ha & Hk) Hr]. split; [|done].
           exists (Sent url (JDict payload) f10 :: Slept (float_near delay) :: l), (S k).
           split; [|split; [by constructor|lia]]. rewrite Hl. cbn [cl_add cl_trace]. rewrite Ht, <- !app_assoc. done.
        -- intros e s2 (l & k & Hl & Ha & Hk).
           exists (Sent url (JDict payload) f10 :: Slept (float_near delay) :: l), (S k).
           split; [|split; [by constructor|lia]]. rewrite Hl. cbn [cl_add cl_trace]. rewrite Ht, <- !app_assoc. done.
      * apply wp_ret. split; [|by apply Hj]. exists [Sent url (JDict payload) f10], 1%nat.
        repeat split; [done|constructor|lia].
    + intros e s1 Ht. exists [Sent url (JDict payload) f10], 1%nat. repeat split; [done|constructor|lia].
Qed.

End loop.
(** The retrieval of a response, from any state *)
Lemma retrieve_chat_response_wp max_retries delay id history s :
  let url := base_url s +++ "/api/v1/relay/responses/retrieve" in
  let made s' := exists payload l k, cl_trace s' = cl_trace s ++ l /\ attempts_made url payload delay k l /\
    Z.of_nat k <= Z.max max_retries 1 in
  wp (retrieve_chat_response max_retries delay id history)
    (fun j s' => made s' /\
       (j <> JNull -> client_response (client_private_key s) id history (relay_reply (cl_trace s')) j))
    (fun _ => made) s.
Proof.
  intros url made. unfold retrieve_chat_response. apply wp_bind, wp_get, wp_bind. unfold wp at 1, cl_now.
  set (payload := _ :: _). apply wp_bind, wp_from_option.
  { intros _. exists payload, [], 0%nat. split; [by rewrite app_nil_r|]. split; [constructor|lia]. }
  intros patience _. eapply wp_mono; [apply (retrieve_loop_wp (client_private_key s) url); by split| |].
  - intros j s' [(l & k & Hl & Ha & Hk) Hj]. split; [|done]. exists payload, l, k. split; [done|]. split; [done|lia].
  - intros e s' (l & k & Hl & Ha & Hk). exists payload, l, k. split; [done|]. split; [done|lia].
Qed.

(** ** Before the retrieval *)

(** The client's own half of the state *)
Definition same_client (s s' : client_state) : Prop :=
  base_url s' = base_url s /\ client_private_key s' = client_private_key s /\ cl_uuids s' = cl_uuids s.

Lemma fetch_wp endpoint timeout s :
  wp (fetch_server_public_key endpoint timeout) (fun _ s' => same_client s s') (fun _ s' => same_client s s') s.
Proof.
  unfold fetch_server_public_key. apply wp_bind, wp_get, wp_bind. unfold wp at 1, cl_send.
  destruct (response_document _) as [[| | | | | |data]|]; try by apply wp_ret.
  destruct (dmem data "error"); [by apply wp_ret|]. cbv zeta. destruct (dget data _) as [v|]; [|by apply wp_ret].
  apply wp_bind, wp_modify. destruct v as [| | | |text| |]; try by apply wp_ret.
  destruct (b64decode text); [by apply wp_ret|]. by apply wp_bind, wp_modify, wp_ret.
Qed.

Lemma ensure_wp endpoint s :
  wp (ensure_server_key endpoint) (fun _ s' => same_client s s') (fun _ s' => same_client s s') s.
Proof.
  unfold ensure_server_key. apply wp_bind, wp_get.
  destruct (server_public_key s) as [[|]|]; [apply fetch_wp|by apply wp_ret|apply fetch_wp].
Qed.

Lemma sealing_wp m s :
  wp (try_except (let* d := client_encrypt_message m in ret (Some d)) (fun _ => true) (ret None))
    (fun _ s' => same_client s s') (fun _ _ => False) s.
Proof.
  apply wp_try_except. apply wp_bind. unfold client_encrypt_message. apply wp_bind, wp_get, wp_bind, wp_from_option;
    [done|]. intros key _. apply wp_bind, wp_lift_val; [done|]. intros plaintext _. apply wp_bind.
  unfold wp at 1, cl_crypto. destruct (encrypt _ _ _ _ _ _) as [n [e|[[d c] iv]]]; [by apply wp_ret|].
  by apply wp_ret, wp_ret.
Qed.

Lemma submit_wp endpoint payload timeout s :
  wp (send_encrypted_message endpoint payload timeout) (fun _ s' => same_client s s') (fun _ s' => same_client s s') s.
Proof.
  unfold send_encrypted_message. apply wp_bind, wp_get, wp_bind. unfold wp at 1, cl_send. by apply wp_ret.
Qed.

End retrieval.

(** * What the client is promised *)

Section api.
(** The client's network and the server's *)
Context (Net Backend : World).
Context `{!Cryptography, !CryptographyLaws, !FloatRepr, !PyNumbers, !PyUnicode, !NetlocCheck, !ExceptionTexts}.
Context (environ : environment) (config : jdict) (available : list jdict) (runtime : jdict -> Runtime)
  (fuel : nat) (keys : CryptoKeys) (loopback_origin : pystr).
#[local] Set Default Proof Using "Type*".

#[local] Abbreviation chat :=
  (_handle_chat_completion_request (H := Backend) environ config available runtime fuel keys loopback_origin).

(** At the client's next request, the server answers from the state [server]. *)
Definition served_by (server : provider_state) (s : client_state) : Prop :=
  forall payload timeout,
    relay_reply (World := Net)
      (cl_trace s ++ [Sent (base_url s +++ "/api/v1/chat/completions") payload timeout]) =
    let r := (chat payload server).2 in Some (MkResponse (reply_status r) (Some (reply_body r))).

(** The statements after the completion, for a client whose key is a key *)
Lemma sealed_answer response private public failure p path n bytes s :
  key_pair private public -> public <> [] -> p_draws s = n ->
  utf8_encode (json_dumps true (JDict response)) = Some bytes -> zlen bytes <= gcm_limit ->
  document_ok (JDict response) ->
  exists env, send_response response (JStr (b64encode public)) true failure p path s =
      (set_draws (S (S (S n))) s,
       inr (MkReply 200 (JDict [("encrypted", JBool true); ("data", JDict env)]%pystr) (provider_headers p path))) /\
    dmem env "encrypted" = true /\ open_content private (JDict env) = JDict response.
Proof using All.
  intros Hkp Hne Hn Hb Hl Hok.
  destruct (client_opens response bytes private public n Hkp Hb Hl Hok) as (c & w & iv & He & Hopen).
  exists (api_envelope c w iv). split; [|by split].
  unfold send_response. cbn [truthy py_of_json]. rewrite b64_nonempty by done. cbn [negb andb].
  unfold bind, provided, with_draws. by rewrite Hn, He.
Qed.

Lemma sealable_text j : is_JDict j = true \/ isinstance_list j = true -> sealable j ->
  document_ok j /\ exists bytes, utf8_encode (json_dumps true j) = Some bytes /\ zlen bytes <= gcm_limit.
Proof using All.
  intros Hj (Hok & bytes & Hb & Hl). split; [done|]. exists bytes. split; [|done].
  destruct j; try (by destruct Hj); cbn in Hb; unfold encoded in Hb; destruct (utf8_encode _); by simplify_eq.
Qed.

(** The answer of the route to a conversation *)
Lemma conversation_answered data requested p model_id conversation server server' result created private public :
  jget data "metadata" = JNull -> jget data "client_public_key" = JStr (b64encode public) ->
  chat_provider environ config loopback_origin false = inr p ->
  check_supported available p model_id = inr tt ->
  call_provider (H := Backend) available runtime fuel p model_id conversation
    (_extract_chat_completion_options data) server = (server', inr result) ->
  int_of_float (time_time (World := Backend) (p_ticks server')) = Some created ->
  let response := chat_response (uuid_text (uuid4_hex (World := Backend) (p_uuids server'))) created requested
                    conversation result JNull in
  key_pair private public -> public <> [] -> sealable (JDict response) ->
  exists server'' env headers,
    complete_conversation (H := Backend) environ config available runtime fuel loopback_origin data true requested
      model_id conversation server
    = (server'', inr (MkReply 200 (JDict [("encrypted", JBool true); ("data", JDict env)]%pystr) headers)) /\
    dmem env "encrypted" = true /\ open_content private (JDict env) = JDict response.
Proof using All.
  intros Hmeta Hkey Hp Hc Hr Ht response Hkp Hne Hs.
  destruct (sealable_text (JDict response) ltac:(by left) Hs) as (Hok & bytes & Hb & Hl).
  unfold complete_conversation. rewrite Hmeta, Hkey. change (_should_force_desktop_bridge_distributed _ _) with false.
  rewrite Hp, (bind_run _ _ server server p) by done. rewrite Hc, (bind_run _ _ server server tt) by done.
  rewrite (bind_run _ _ _ _ _ Hr). rewrite (bind_run _ _ server' server' server') by done.
  set (s1 := MkProviderState (p_models server') (_last_backend_path server') (p_ticks server')
    (p_draws server') (S (p_uuids server')) (p_trace server')).
  rewrite (bind_run _ _ server' s1 (uuid4_hex (World := Backend) (p_uuids server'))) by done.
  rewrite (bind_run _ _ s1 (tick s1) created)
    by (unfold created_now, bind, provided, now; cbn; by rewrite Ht).
  destruct (sealed_answer response private public "encryption_error" p (_last_backend_path server')
    (p_draws server') bytes (tick s1)) as (env & He & Hrest); [done..|].
  eexists _, env, _. split; [exact He|exact Hrest].
Qed.

(** C36: A conversation that a client sends to a server whose key it has comes back as
    the document the server made for the completion: sealed by the client, decrypted and
    checked by the route, completed, sealed for the client and opened again, nothing is
    lost or changed on the way. *)
Theorem api_request_round_trip model model_id conversation p server server' result created client_public s :
  match server_public_key s with Some k => k <> [] /\ key_pair (ck_private_key keys) k | None => False end ->
  key_pair (client_private_key s) client_public -> client_public <> [] ->
  client_public_key_b64 s = b64encode client_public ->
  served_by server s ->
  sealable (JList conversation) ->
  canonical_model_id available model = inr model_id ->
  validate_chat_messages (JList conversation) = inr tt ->
  allowed (evaluate_messages_for_policy environ conversation) = true ->
  chat_provider environ config loopback_origin false = inr p ->
  check_supported available p model_id = inr tt ->
  call_provider (H := Backend) available runtime fuel p model_id conversation [] server = (server', inr result) ->
  int_of_float (time_time (World := Backend) (p_ticks server')) = Some created ->
  let response := chat_response (uuid_text (uuid4_hex (World := Backend) (p_uuids server'))) created model
                    conversation result JNull in
  sealable (JDict response) ->
  exists s', send_api_request (H := Net) conversation model s = (s', inr (JDict response)).
Proof using All.
  intros Hsk Hkp Hne Hb64 Hserved Hconv Hm Hv Ha Hp Hc Hr Ht response Hresp.
  destruct (server_public_key s) as [k|] eqn:Hk; [|done]. destruct Hsk as [Hkne Hskp].
  destruct (sealable_text (JList conversation) ltac:(by right) Hconv) as (Hok & bytes & Hb & Hl).
  destruct (client_seals (JList conversation) bytes (ck_private_key keys) k s) as (c & w & iv & He & Hd); [done|done| |done|].
  { by apply document_plaintext; [right|]. }
  set (s1 := cl_set_draws (S (S (S (cl_draws s)))) s) in *.
  set (data := api_request model (client_public_key_b64 s) (sealed_fields c w iv)).
  assert (chat_request environ available keys data = inr (model_id, conversation)) as Hreq
    by (by eapply request_let_through).
  destruct (conversation_answered data model p model_id conversation server server' result created
    (client_private_key s) client_public) as (server'' & env & headers & Hrun & Henv & Hopen);
    [done|by unfold data; rewrite Hb64|done|done|exact Hr|done..|].
  assert ((chat (JDict data) server).2
    = MkReply 200 (JDict [("encrypted", JBool true); ("data", JDict env)]%pystr) headers) as Hchat.
  { unfold _handle_chat_completion_request. change (negb (truthy (JDict data))) with false. cbv iota.
    unfold handled, chat_body. rewrite (bind_run _ _ server server (model_id, conversation)) by (by rewrite Hreq).
    change (truthy (get_or data "encrypted" (JBool false))) with true.
    change (str_value (jget data "model")) with model. by rewrite Hrun. }
  set (s2 := cl_add (Sent (base_url s +++ "/api/v1/chat/completions") (JDict data) f10) s1).
  exists s2. unfold send_api_request. rewrite (bind_run _ _ s s true).
  2: { unfold ensure_server_key. rewrite (bind_run _ _ s s s) by done. rewrite Hk. by destruct k. }
  cbn [negb]. rewrite (bind_run _ _ s s1 (Some (sealed_fields c w iv)))
    by (unfold try_except; by rewrite (bind_run _ _ _ _ _ He)).
  rewrite (bind_run _ _ s1 s1 s1) by done. change (client_public_key_b64 s1) with (client_public_key_b64 s). fold data.
  rewrite (bind_run _ _ s1 s2 (JDict [("encrypted", JBool true); ("data", JDict env)]%pystr)).
  2: { unfold send_encrypted_message. rewrite (bind_run _ _ s1 s1 s1) by done. unfold bind, cl_send.
       change (base_url s1) with (base_url s). fold s2.
       change (cl_trace s2) with (cl_trace s ++ [Sent (base_url s +++ "/api/v1/chat/completions") (JDict data) f10]).
       by rewrite (Hserved (JDict data) f10), Hchat. }
  cbn [truthy negb]. unfold open_api_response. change (jget _ "data") with (JDict env). cbv iota. rewrite Henv.
  change (client_private_key s1) with (client_private_key s). by rewrite Hopen.
Qed.

End api.

(** ** Messages through the relay *)
Section relay.
Context `{!World, !Cryptography, !FloatRepr, !PyNumbers}.
#[local] Set Default Proof Using "Type*".

(** What [send_chat_message] returns is the response to this very message: a document
    the relay handed over last, which the client's own key decrypts and which names the
    protocol and the identifier made for the message; its assistant message comes after
    the history that was sent.  (A bare list of messages is returned as it is.) *)
Theorem returned_history_answers_the_message message max_retries s s' j :
  send_chat_message message max_retries s = (s', inr j) -> j <> JNull ->
  exists history, chat_history_of message = Some history /\
    client_response (client_private_key s) (Some ("crypto-client-" +++ uuid4_hex (cl_uuids s))) (Some history)
      (relay_reply (cl_trace s')) j.
Proof.
  intros Hrun Hj. unfold send_chat_message in Hrun. destruct (chat_history_of message) as [history|];
    [|by injection Hrun as _ <-]. exists history. split; [done|].
  revert Hj. refine (wp_result _ (fun j s' => j <> JNull -> client_response _ _ _ (relay_reply (cl_trace s')) j)
    (fun _ _ => True) _ _ _ _ Hrun). clear Hrun s' j.
  apply wp_bind. eapply wp_mono; [apply ensure_wp| |done]. intros found s1 (Hb1 & Hk1 & Hu1).
  destruct found; [|by apply wp_ret]. apply wp_bind. unfold wp at 1, cl_uuid. apply wp_bind, wp_get, wp_bind.
  set (s2 := cl_next_uuid s1). eapply wp_mono; [apply sealing_wp| |done]. intros encrypted s3 (Hb3 & Hk3 & Hu3).
  destruct encrypted as [fields|]; [|by apply wp_ret]. apply wp_bind.
  eapply wp_mono; [apply submit_wp| |done]. intros response s4 (Hb4 & Hk4 & Hu4).
  destruct (negb (truthy response)); [by apply wp_ret|]. apply wp_bind, wp_lift_val; [done|]. intros [|] _;
    [|by apply wp_ret]. cbn [negb]. apply wp_bind. unfold cl_sleep. change (sleep_error 3) with (None : option client_error).
  apply wp_modify. set (s5 := cl_add _ s4). eapply wp_mono; [apply retrieve_chat_response_wp| |done].
  intros j s6 [_ Hr] Hj. specialize (Hr Hj). rewrite Hu1 in Hr.
  change (client_private_key s5) with (client_private_key s4) in Hr. rewrite Hk4, Hk3 in Hr.
  change (client_private_key s2) with (client_private_key s1) in Hr. by rewrite Hk1 in Hr.
Qed.

(** A retrieval ends after at most [max(max_retries, 1)] requests, all of them the
    same and to the relay's retrieval endpoint, with a delay after each but the last. *)
Theorem retrieval_is_bounded max_retries retry_delay expected_request_id chat_history s :
  exists payload l k,
    cl_trace (retrieve_chat_response max_retries retry_delay expected_request_id chat_history s).1 = cl_trace s ++ l /\
    attempts_made (base_url s +++ "/api/v1/relay/responses/retrieve") payload retry_delay k l /\
    Z.of_nat k <= Z.max max_retries 1.
Proof.
  pose proof (retrieve_chat_response_wp max_retries retry_delay expected_request_id chat_history s) as Hw.
  unfold wp in Hw. cbv zeta in Hw. destruct (retrieve_chat_response _ _ _ _ s) as [s' [e|j]]; [exact Hw|apply Hw].
Qed.

End relay.
