(* ===== verification/RoutesDemo.v ===== *)
(** * Requests of the completion routes and of the client, evaluated *)

From S2P Require Import Prelude PyFloat PyStr PyDict PyText PyUrl Json JsonText Base64.
From S2P Require Import Encrypt EncryptSound CryptoManager Validation Catalog Profiles.
From S2P Require Import Moderation Config Provider ProviderSound ProviderHonest.
From S2P Require Import Routes RoutesSound Client ClientSound.

#[local] Instance demo_repr : FloatRepr := fun _ => "0.0"%pystr.
#[local] Instance demo_numbers : PyNumbers := { parse_float _ := None; parse_int _ := None }.
#[local] Instance demo_unicode : PyUnicode := ascii_unicode.
#[local] Instance any_netloc : NetlocCheck := fun _ => true.
#[local] Instance demo_texts : ExceptionTexts := fun _ => "error"%pystr.

(** A server without a relay: the mock runtime answers. *)
#[local] Instance backend : World := {
  time_time n := float_near (1000 + Z.of_nat n);
  relay_reply _ := None;
  uuid4_hex _ := "0123456789abcdef0123456789abcdef"%pystr
}.

Definition no_environment : environment := fun _ => None.
Definition mock_runtime (options : jdict) : Runtime := mkRuntime true None (fun _ _ => inl "no model"%pystr) 0.
Definition server_keys : CryptoKeys := MkCryptoKeys toy_private toy_public (b64encode toy_public).
Definition server_state : provider_state := MkProviderState (mkModels [] [] []) "unknown" 0 0 0 [].

Definition demo_chat : json -> provider_state -> provider_state * http_reply :=
  _handle_chat_completion_request no_environment [] AVAILABLE_MODELS mock_runtime 1 server_keys "".
Definition demo_text : json -> provider_state -> provider_state * http_reply :=
  _handle_text_completion_request no_environment [] AVAILABLE_MODELS mock_runtime 1.

Definition hello : list json := [JDict [("role", JStr "user"); ("content", JStr "Hello there")]%pystr].

Definition plain_request : json :=
  JDict [("model", JStr CANONICAL_API_V1_MODEL_ID); ("messages", JList hello)]%pystr.

Example plain_request_is_answered : (reply_status (demo_chat plain_request server_state).2,
    match reply_body (demo_chat plain_request server_state).2 with
    | JDict d => jget d "usage" | _ => JNull end)
  = (200, JDict [("prompt_tokens", JInt 3); ("completion_tokens", JInt 24); ("total_tokens", JInt 27)]%pystr).
Proof. vm_compute. reflexivity. Qed.

Lemma only_screened_conversations_leave_witness :
  let s' := (demo_chat plain_request server_state).1 in
  s' <> server_state /\
  exists d model_id conversation p,
    plain_request = JDict d /\ let_through no_environment AVAILABLE_MODELS server_keys d model_id conversation /\
    chat_provider no_environment [] ""
      (_should_force_desktop_bridge_distributed (jget d "metadata") (truthy (get_or d "encrypted" (JBool false))))
      = inr p /\
    check_supported AVAILABLE_MODELS p model_id = inr tt /\
    sent_for model_id conversation (_extract_chat_completion_options d) server_state s'.
Proof.
  intros s'. assert (s' <> server_state) as Hs by (vm_compute; discriminate). split; [exact Hs|].
  exact (only_screened_conversations_leave no_environment [] AVAILABLE_MODELS mock_runtime 1 server_keys ""%pystr
    plain_request server_state s' (demo_chat plain_request server_state).2 (surjective_pairing _) Hs).
Defined.

Definition prompt_request : json :=
  JDict [("model", JStr CANONICAL_API_V1_MODEL_ID); ("prompt", JStr "Hello there")]%pystr.

Lemma only_screened_prompts_leave_witness :
  let s' := (demo_text prompt_request server_state).1 in
  s' <> server_state /\
  exists d model_id p,
    prompt_request = JDict d /\ truthy (jget d "stream") = false /\
    canonical_model_id AVAILABLE_MODELS (str_value (jget d "model")) = inr model_id /\
    allowed (evaluate_messages_for_policy no_environment [prompt_message d]) = true /\
    get_api_v1_compute_provider no_environment [] = inr p /\
    check_supported AVAILABLE_MODELS p model_id = inr tt /\
    sent_for model_id [prompt_message d] (_extract_chat_completion_options d) server_state s'.
Proof.
  intros s'. assert (s' <> server_state) as Hs by (vm_compute; discriminate). split; [exact Hs|].
  exact (only_screened_prompts_leave no_environment [] AVAILABLE_MODELS mock_runtime 1
    prompt_request server_state s' (demo_text prompt_request server_state).2 (surjective_pairing _) Hs).
Defined.

(** ** A client of this server *)

Definition demo_url : pystr := "http://server".

(** A client with the server's key; its own keys are those of the first draw. *)
Definition demo_client : client_state :=
  MkClient demo_url (Some toy_public) (JStr (b64encode toy_public)) toy_private toy_public (b64encode toy_public)
    0 0 0 [].

Definition sealed_request : jdict :=
  match (client_encrypt_message (MValue (JList hello)) demo_client).2 with
  | inr fields => api_request CANONICAL_API_V1_MODEL_ID (b64encode toy_public) fields
  | inl _ => []
  end.

Lemma encrypted_answer_is_sealed_witness :
  let r := (demo_chat (JDict sealed_request) server_state).2 in reply_status r = 200 /\ sealed_reply r.
Proof.
  intros r. assert (reply_status r = 200) as Hr by (vm_compute; reflexivity). split; [exact Hr|].
  apply (encrypted_answer_is_sealed no_environment [] AVAILABLE_MODELS mock_runtime 1 server_keys ""%pystr
    sealed_request server_state (demo_chat (JDict sealed_request) server_state).1);
    [vm_compute; reflexivity|vm_compute; reflexivity|apply surjective_pairing|exact Hr].
Defined.

(** An empty client key passes the checks, and the answer is not sealed. *)
Example empty_key_is_answered_in_plaintext :
  let request := dset sealed_request "client_public_key"%pystr (JStr "") in
  match reply_body (demo_chat (JDict request) server_state).2 with
  | JDict d => (jget d "object", dmem d "encrypted") = (JStr "chat.completion", false)
  | _ => False
  end.
Proof. vm_compute. reflexivity. Qed.

Definition net : World := {|
  time_time n := float_near (Z.of_nat n);
  relay_reply trace := match rev trace with
                       | Sent url payload _ :: _ =>
                           let r := (demo_chat payload server_state).2 in
                           Some (MkResponse (reply_status r) (Some (reply_body r)))
                       | _ => None
                       end;
  uuid4_hex n := py_str_int (Z.of_nat n)
|}.

Definition demo_completion : provider_state * (handler_exit + CompletionResult) :=
  call_provider AVAILABLE_MODELS mock_runtime 1 LocalApiV1ComputeProvider CANONICAL_API_V1_MODEL_ID hello [] server_state.

Definition demo_result : CompletionResult :=
  match demo_completion.2 with inr r => r | inl _ => MkCompletion [] None None None end.

Definition demo_response : jdict :=
  chat_response (uuid_text "0123456789abcdef0123456789abcdef") 1000 CANONICAL_API_V1_MODEL_ID hello demo_result JNull.

Lemma demo_sealable j : (exists bytes, _coerce_message_bytes (MValue j) = inr bytes /\ zlen bytes <= gcm_limit) ->
  document_ok j -> sealable j.
Proof. by split. Qed.

Lemma api_request_round_trip_witness :
  exists s', send_api_request (H := net) hello CANONICAL_API_V1_MODEL_ID demo_client = (s', inr (JDict demo_response)).
Proof.
  apply (api_request_round_trip net backend no_environment [] AVAILABLE_MODELS mock_runtime 1 server_keys ""%pystr
    CANONICAL_API_V1_MODEL_ID CANONICAL_API_V1_MODEL_ID hello LocalApiV1ComputeProvider server_state
    demo_completion.1 demo_result 1000 toy_public demo_client).
  - split; [discriminate|exact toy_pair].
  - exact toy_pair.
  - discriminate.
  - reflexivity.
  - intros payload timeout. reflexivity.
  - apply demo_sealable; [eexists; split; [vm_compute; reflexivity|vm_compute; discriminate]|].
    vm_compute. document_by_evaluation.
  - vm_compute. reflexivity.
  - vm_compute. reflexivity.
  - vm_compute. reflexivity.
  - vm_compute. reflexivity.
  - vm_compute. reflexivity.
  - vm_compute. reflexivity.
  - vm_compute. reflexivity.
  - apply demo_sealable; [eexists; split; [vm_compute; reflexivity|vm_compute; discriminate]|].
    vm_compute. document_by_evaluation.
Defined.

(** ** A relay that hands over the node's response at the second request *)
Definition node_document : json :=
  JDict [("protocol", JStr PROTOCOL); ("request_id", JStr "crypto-client-0");
         ("api_v1_response", JDict [("message", JDict [("role", JStr "assistant"); ("content", JStr "Hi")])])]%pystr.

Definition node_envelope : jdict :=
  match (encrypt_message (MValue node_document) (PyS (b64encode toy_public)) 9%nat).2 with inr e => e | inl _ => [] end.

Definition relay_net : World := {|
  time_time n := float_near (Z.of_nat n);
  relay_reply trace := match length trace with
                       | 1%nat => Some (MkResponse 200 (Some (JDict [("message", JStr "Request received")]%pystr)))
                       | 3%nat => Some (MkResponse 202 None)
                       | _ => Some (MkResponse 200 (Some (JDict node_envelope)))
                       end;
  uuid4_hex n := py_str_int (Z.of_nat n)
|}.

Definition demo_send : client_state * (client_error + json) :=
  send_chat_message (H := relay_net) (inl "Hello"%pystr) 5 demo_client.

Example second_look_is_answered :
  demo_send.2 = inr (JList [JDict [("role", JStr "user"); ("content", JStr "Hello")];
                            JDict [("role", JStr "assistant"); ("content", JStr "Hi")]]%pystr).
Proof. vm_compute. reflexivity. Qed.

Lemma returned_history_answers_the_message_witness : exists s' j history,
  demo_send = (s', inr j) /\ chat_history_of (inl "Hello"%pystr) = Some history /\
  client_response toy_private (Some "crypto-client-0"%pystr) (Some history)
    (relay_reply (World := relay_net) (cl_trace s')) j.
Proof.
  destruct demo_send as [s' [e|j]] eqn:Hrun; [vm_compute in Hrun; discriminate|].
  assert (j <> JNull) as Hj by (intros ->; vm_compute in Hrun; discriminate).
  destruct (returned_history_answers_the_message (H := relay_net) (inl "Hello"%pystr) 5 demo_client s' j Hrun Hj)
    as (history & Hh & Hr).
  exists s', j, history. split; [reflexivity|]. split; [exact Hh|exact Hr].
Defined.

(** The handlers report the same kind of failure with different statuses. *)
Example internal_errors_differ :
  (reply_status (demo_chat (JList [JStr "model"]%pystr) server_state).2,
   reply_status (demo_text (JList [JStr "model"]%pystr) server_state).2) = (500, 400).
Proof. vm_compute. reflexivity. Qed.
