(* ===== verification/NodeRequest.v ===== *)
(** * utils/networking/relay_client.py: what a compute node accepts

    The checks a decrypted request passes on the node: the metadata around it, the
    envelope of API v1 and the one of the first protocol, the messages and the options of
    a chat request, and the deadlines the relay names.

    Python exceptions that a client's document can cause are values of [node_error]:
    membership of a list or a dictionary in a set, and [float] of a huge integer;
    [NodeStillRunning] is the fuel of a supervision running out.  Log lines are left out. *)

From S2P Require Import Prelude PyFloat PyStr PyDict PyText Json Base64 Profiles.
From Stdlib Require Import Floats.SpecFloat.

Inductive node_error : Set := NodeTypeError | NodeOverflowError | NodeStillRunning.

Definition NODE_PROTOCOL : pystr := "tokenplace_api_v1_relay_e2ee".

(** ** Schemas *)

(** A schema of this module: the required keys, and the JSON type each property has *)
Record schema : Type := MkSchema {
  sc_required : list pystr;
  sc_properties : dict pystr pystr
}.

Definition MESSAGE_SCHEMA : schema := MkSchema
  ["client_public_key"; "chat_history"; "cipherkey"; "iv"]%pystr
  [("client_public_key", "string"); ("chat_history", "string"); ("cipherkey", "string");
   ("iv", "string")]%pystr.

Definition RELAY_RESPONSE_SCHEMA : schema := MkSchema
  ["next_ping_in_x_seconds"]%pystr
  [("next_ping_in_x_seconds", "number"); ("client_public_key", "string"); ("chat_history", "string");
   ("cipherkey", "string"); ("iv", "string"); ("api_v1_request", "object"); ("error", "string")]%pystr.

(** [isinstance(value, type_by_name[expected])] *)
Definition has_type (expected : pystr) (value : json) : bool :=
  if bool_decide (expected = "string"%pystr) then is_JStr value
  else if bool_decide (expected = "number"%pystr) then
    match value with JInt _ | JFloat _ | JBool _ => true | _ => false end
  else if bool_decide (expected = "object"%pystr) then is_JDict value
  else true.

(** [jsonschema] is the package's [validate], when it is installed; [inl tt] is the
    [ValueError]. *)
Definition _validate_with_fallback (jsonschema : option (json -> schema -> bool)) (instance_ : json)
  (sc : schema) : unit + unit :=
  match jsonschema with
  | Some validate => if validate instance_ sc then inr tt else inl tt
  | None =>
      match instance_ with
      | JDict d =>
          let? _ := efor_each (sc_required sc) (fun field => eraise_if (negb (dmem d field)) tt) in
          efor_each d (fun '(field, value) =>
            match dget (sc_properties sc) field with
            | Some expected => eraise_if (negb (has_type expected value)) tt
            | None => inr tt
            end)
      | _ => inl tt
      end
  end.

(** ** Keys and envelopes *)
Definition _normalize_client_public_key_b64 (client_public_key_b64 : json) : option pystr :=
  match client_public_key_b64 with
  | JStr s => let normalized := py_strip s in if py_empty normalized then None else Some normalized
  | _ => None
  end.

(** [base64.b64decode(key, validate=True)]; [None] is its [ValueError]. *)
Definition decoded_client_key (key : pystr) : option (list byte) :=
  match b64decode_strict key with inr b => Some b | inl _ => None end.

Definition _is_valid_chat_history (chat_history : json) : bool :=
  match chat_history with
  | JList l => forallb (fun message =>
      match message with
      | JDict m => is_JStr (jget m "role") && is_JStr (jget m "content")
      | _ => false
      end) l
  | _ => false
  end.

Definition _extract_chat_history_and_validate_key_binding (decrypted_payload : json)
  (expected_client_public_key_b64 : pystr) : option json :=
  match decrypted_payload with
  | JDict d =>
      let bound_client_key := jget d "client_public_key" in
      if negb (is_JNull bound_client_key) && negb (jeq_str bound_client_key expected_client_public_key_b64)
      then None
      else if negb (dmem d "chat_history") then None
      else if _is_valid_chat_history (jget d "chat_history") then Some (jget d "chat_history") else None
  | _ => if _is_valid_chat_history decrypted_payload then Some decrypted_payload else None
  end.

(** [normalize_context_tier(value)] of any value of a document *)
Definition normalize_tier_value (value : json) : node_error + pystr :=
  match value with
  | JStr s => inr (normalize_context_tier (Some s))
  | JNull => inr (normalize_context_tier None)
  | _ => if truthy value then
           match hashable value with
           | Some _ => inr DEFAULT_CONTEXT_TIER
           | None => inl NodeTypeError
           end
         else inr (normalize_context_tier None)
  end.

(** The request inside an accepted envelope *)
Record api_v1_payload : Type := MkPayload {
  ap_request_id : pystr;
  ap_model : pystr;
  ap_messages : list json;
  ap_options : jdict;
  ap_context_tier : pystr
}.

(** [d.get(k, {})], and what [routing] allows besides an object *)
Definition options_of (request : jdict) : option jdict :=
  match dget request "options" with
  | None => Some []
  | Some (JDict options) => Some options
  | Some _ => None
  end.

Definition routing_of (request : jdict) : option jdict :=
  match dget request "routing" with
  | None | Some JNull => Some []
  | Some (JDict routing) => Some routing
  | Some _ => None
  end.

(** A text with more than white space *)
Definition not_blank (v : json) : option pystr :=
  match v with JStr s => if py_empty (py_strip s) then None else Some s | _ => None end.

(** The tier a request names, when it is one of the node's *)
Definition requested_tier (routing : jdict) : node_error + option pystr :=
  let raw_context_tier := jget routing "context_tier" in
  let normalized_raw_context_tier :=
    match raw_context_tier with JStr s => JStr (py_strip s) | v => v end in
  let? context_tier := normalize_tier_value normalized_raw_context_tier in
  inr (if negb (is_JNull normalized_raw_context_tier)
          && negb (jeq_str normalized_raw_context_tier context_tier)
       then None else Some context_tier).

Definition _extract_api_v1_request_payload (decrypted_payload : json)
  (expected_client_public_key_b64 : pystr) : node_error + option api_v1_payload :=
  match decrypted_payload with
  | JDict d =>
      if negb (jeq_str (jget d "protocol") NODE_PROTOCOL) then inr None
      else if negb (jeq_str (jget d "client_public_key") expected_client_public_key_b64) then inr None
      else
        match not_blank (jget d "request_id"), jget d "api_v1_request" with
        | Some request_id, JDict api_v1_request =>
            match not_blank (jget api_v1_request "model"), jget api_v1_request "messages",
                  options_of api_v1_request, routing_of api_v1_request with
            | Some model, JList messages, Some options, Some routing =>
                let? tier := requested_tier routing in
                inr (context_tier ← tier;
                     Some (MkPayload request_id model messages options context_tier))
            | _, _, _, _ => inr None
            end
        | _, _ => inr None
        end
  | _ => inr None
  end.

(** ** Messages *)
Definition _API_V1_MAX_MESSAGES : Z := 64.
Definition _API_V1_MAX_TEXT_BLOCKS : Z := 32.
Definition _API_V1_MAX_TOTAL_MESSAGE_UTF8_BYTES : Z := 512 * 1024.
Definition _API_V1_MAX_TOTAL_REQUEST_CHARS : Z := 131072.
Definition _API_V1_ALLOWED_MESSAGE_ROLES : list pystr := ["system"; "user"; "assistant"]%pystr.

Definition is_nil {A} (l : list A) : bool := match l with [] => true | _ => false end.

(** Characters and bytes of a text; [None] when it has no UTF-8 encoding *)
Definition text_size (s : pystr) : option (Z * Z) :=
  match utf8_encode s with Some b => Some (py_len s, zlen b) | None => None end.

(** [set(d) - allowed] is not empty *)
Definition has_other_keys (allowed : list pystr) (d : jdict) : bool :=
  existsb (fun k => negb (pystr_in k allowed)) (dkeys d).

(** One block; the sizes so far are added up. *)
Definition block_size (item : json) : node_error + option (Z * Z) :=
  match item with
  | JDict d =>
      if has_other_keys ["type"; "text"]%pystr d then inr None
      else match hashable (jget d "type") with
           | None => inl NodeTypeError
           | Some item_type =>
               inr (if negb (scalar_in item_type text_types) then None
                    else match jget d "text" with
                         | JStr text => if py_empty text then None else text_size text
                         | _ => None
                         end)
           end
  | _ => inr None
  end.

Fixpoint blocks_size (l : list json) (chars bytes : Z) : node_error + option (Z * Z) :=
  match l with
  | [] => inr (Some (chars, bytes))
  | item :: l' =>
      let? size := block_size item in
      match size with
      | Some (c, b) => blocks_size l' (chars + c) (bytes + b)
      | None => inr None
      end
  end.

Definition _api_v1_content_validation_size (content : json) : node_error + option (Z * Z) :=
  match content with
  | JStr s => inr (text_size s)
  | JList l => if is_nil l || (_API_V1_MAX_TEXT_BLOCKS <? zlen l) then inr None
               else blocks_size l 0 0
  | _ => inr None
  end.

Record _ApiV1ChatValidationResult : Set := MkChatValidation {
  valid : bool;
  cv_code : option pystr;
  cv_reason : option pystr;
  cv_message_count : Z;
  cv_message_index : option Z;
  cv_message_content_chars : option Z;
  cv_total_content_chars : Z;
  cv_message_content_utf8_bytes : option Z;
  cv_total_content_utf8_bytes : Z
}.

(** A rejection at message [index], with the totals of the messages before it *)
Definition rejected_message (reason : pystr) (count index chars bytes : Z) : _ApiV1ChatValidationResult :=
  MkChatValidation false (Some "compute_node_invalid_request"%pystr) (Some reason) count (Some index)
    None chars None bytes.

(** What is wrong with a message apart from its content *)
Definition message_fault (message : json) : option pystr :=
  match message with
  | JDict m =>
      if has_other_keys ["role"; "content"; "name"]%pystr m then Some "unknown_message_keys"%pystr
      else if negb (match jget m "role" with
                    | JStr role => pystr_in role _API_V1_ALLOWED_MESSAGE_ROLES
                    | _ => false
                    end) then Some "invalid_role"%pystr
      else if negb (match jget m "name" with
                    | JNull => true
                    | JStr name => py_len name <=? 128
                    | _ => false
                    end) then Some "invalid_name"%pystr
      else if negb (dmem m "content") then Some "missing_content"%pystr
      else None
  | _ => Some "message_not_object"%pystr
  end.

Definition content_of (message : json) : json :=
  match message with JDict m => jget m "content" | _ => JNull end.

Fixpoint validate_messages (count index chars bytes : Z) (l : list json) :
  node_error + _ApiV1ChatValidationResult :=
  match l with
  | [] => inr (MkChatValidation true None None count None None chars None bytes)
  | message :: l' =>
      match message_fault message with
      | Some reason => inr (rejected_message reason count index chars bytes)
      | None =>
          let? content_size := _api_v1_content_validation_size (content_of message) in
          match content_size with
          | None => inr (rejected_message "invalid_content" count index chars bytes)
          | Some (content_chars, content_utf8_bytes) =>
              let chars' := chars + content_chars in
              let bytes' := bytes + content_utf8_bytes in
              if _API_V1_MAX_TOTAL_MESSAGE_UTF8_BYTES <? bytes' then
                inr (MkChatValidation false (Some "compute_node_request_too_large"%pystr)
                       (Some "aggregate_content_too_large"%pystr) count (Some index)
                       (Some content_chars) chars' (Some content_utf8_bytes) bytes')
              else validate_messages count (index + 1) chars' bytes' l'
          end
      end
  end.

Definition _validate_api_v1_chat_messages (messages : json) : node_error + _ApiV1ChatValidationResult :=
  let invalid_list count := MkChatValidation false (Some "compute_node_invalid_request"%pystr)
    (Some "invalid_message_list"%pystr) count None None 0 None 0 in
  match messages with
  | JList l => if is_nil l || (_API_V1_MAX_MESSAGES <? zlen l) then inr (invalid_list (zlen l))
               else validate_messages (zlen l) 0 0 0 l
  | _ => inr (invalid_list 0)
  end.

Definition _messages_are_valid_api_v1_chat (messages : json) : node_error + bool :=
  let? result := _validate_api_v1_chat_messages messages in inr (valid result).

Definition _api_v1_chat_validation_error (result : _ApiV1ChatValidationResult) : jdict :=
  if bool_decide (cv_code result = Some "compute_node_request_too_large"%pystr) then
    [("code", JStr "compute_node_request_too_large"); ("type", JStr "validation_error");
     ("message", JStr "API v1 request message content exceeds the aggregate safety limit");
     ("message_count", JInt (cv_message_count result));
     ("total_content_chars", JInt (cv_total_content_chars result));
     ("maximum_total_content_chars", JInt _API_V1_MAX_TOTAL_REQUEST_CHARS);
     ("total_content_utf8_bytes", JInt (cv_total_content_utf8_bytes result));
     ("maximum_total_content_utf8_bytes", JInt _API_V1_MAX_TOTAL_MESSAGE_UTF8_BYTES);
     ("retryable", JBool false)]%pystr
  else [("code", JStr "compute_node_invalid_request"); ("message", JStr "Invalid chat message format")]%pystr.

(** ** What the runtime is given *)

(** The texts of the text blocks, stripped; [inl]: an unhashable [type] *)
Fixpoint text_segments (l : list json) : node_error + list pystr :=
  match l with
  | [] => inr []
  | JDict d :: l' =>
      match hashable (jget d "type") with
      | None => inl NodeTypeError
      | Some block_type =>
          let? rest := text_segments l' in
          inr (match not_blank (jget d "text") with
               | Some text => if scalar_in block_type text_types then py_strip text :: rest else rest
               | None => rest
               end)
      end
  | _ :: l' => text_segments l'
  end.

Definition _api_v1_stringify_content_blocks (content : json) : node_error + json :=
  match content with
  | JList l => let? segments := text_segments l in inr (JStr (py_join paragraph_break segments))
  | _ => inr content
  end.

(** What is no dictionary raises. *)
Fixpoint _normalise_api_v1_chat_messages (l : list json) : node_error + list json :=
  match l with
  | [] => inr []
  | JDict m :: l' =>
      let? content := _api_v1_stringify_content_blocks (jget m "content") in
      let? rest := _normalise_api_v1_chat_messages l' in
      inr (JDict (dset m "content" content) :: rest)
  | _ :: _ => inl NodeTypeError
  end.

(** No model has adapter instructions. *)
Definition adapter_instructions : dict pystr pystr := [].

Section adapters.
Context `{!PyUnicode}.

Definition _api_v1_adapter_system_message (model_id : pystr) : option jdict :=
  match dget adapter_instructions (py_lower (py_strip model_id)) with
  | Some instructions =>
      if py_empty instructions then None
      else Some [("role", JStr "system"); ("name", JStr ("adapter:" +++ py_lower (py_strip model_id)));
                 ("content", JStr instructions)]%pystr
  | None => None
  end.

Definition _prepare_api_v1_runtime_messages (model_id : pystr) (l : list json) : node_error + list json :=
  let? prepared := _normalise_api_v1_chat_messages l in
  inr (match _api_v1_adapter_system_message model_id with
       | None => prepared
       | Some adapter_message =>
           if existsb (fun message => match message with
                | JDict m => jeq_str (jget m "role") "system"
                             && jeq_str (jget m "name") (str_value (jget adapter_message "name"))
                | _ => false
                end) prepared
           then prepared else JDict adapter_message :: prepared
       end).
End adapters.

(** ** Options *)
Definition _API_V1_MAX_STOP_SEQUENCES : Z := 16.
Definition _API_V1_MAX_STOP_CHARS : Z := 256.
Definition _API_V1_MAX_TOKENS_LIMIT : Z := 8192.
Definition _API_V1_MAX_SEED : Z := 2 ^ 32 - 1.

(** The value of a finite number as a float; [None] for anything else, [bool] included *)
Definition finite_number (value : json) : option float64 :=
  match value with
  | JInt z => float_of_int z
  | JFloat f => if is_finite f then Some f else None
  | _ => None
  end.

(** [_api_v1_is_finite_number] *)
Definition _api_v1_is_finite_number (value : json) : bool :=
  match finite_number value with Some _ => true | None => false end.

(** [_api_v1_normalise_numeric_option] with [integer=True] and without *)
Definition normalise_integer_option (value : json) (minimum maximum : Z) : option json :=
  match value with
  | JInt z => if (z <? minimum) || (maximum <? z) then None else Some (JInt z)
  | _ => None
  end.

Definition normalise_float_option (value : json) (minimum maximum : float64) : option json :=
  match finite_number value with
  | Some f => if flt f minimum || flt maximum f then None else Some (JFloat f)
  | None => None
  end.

(** A stop sequence *)
Definition stop_ok (item : json) : bool :=
  match item with
  | JStr s => negb (py_empty s) && (py_len s <=? _API_V1_MAX_STOP_CHARS)
  | _ => false
  end.

Definition _api_v1_normalise_stop_option (value : json) : option json :=
  match value with
  | JStr _ => if stop_ok value then Some value else None
  | JList l => if (zlen l <=? _API_V1_MAX_STOP_SEQUENCES) && forallb stop_ok l then Some value else None
  | _ => None
  end.

Definition _api_v1_rejected_options_summary (option_names : list pystr) : pystr :=
  let displayed := firstn 5 option_names in
  let remaining_count := zlen option_names - zlen displayed in
  let summary := py_join ", " displayed in
  if 0 <? remaining_count
  then summary +++ ", and " +++ py_str_int remaining_count +++ " more option(s)"
  else summary.

Definition supported_options : list pystr :=
  ["frequency_penalty"; "max_tokens"; "presence_penalty"; "seed"; "stop"; "stream"; "temperature";
   "top_p"]%pystr.

Definition intentionally_unsupported : list pystr :=
  ["function_call"; "functions"; "logit_bias"; "logprobs"; "n"; "parallel_tool_calls";
   "response_format"; "tool_choice"; "tools"; "top_logprobs"]%pystr.

Definition f_minus_2 : float64 := S754_finite true 4503599627370496 (-51).

(** What becomes of one supported option; [None]: it is invalid *)
Definition normalise_option (key : pystr) (value : json) : option json :=
  if bool_decide (key = "max_tokens"%pystr) then normalise_integer_option value 1 _API_V1_MAX_TOKENS_LIMIT
  else if bool_decide (key = "seed"%pystr) then normalise_integer_option value 0 _API_V1_MAX_SEED
  else if bool_decide (key = "temperature"%pystr) then normalise_float_option value f0 f2
  else if bool_decide (key = "top_p"%pystr) then normalise_float_option value f0 f1
  else if pystr_in key ["frequency_penalty"; "presence_penalty"]%pystr
  then normalise_float_option value f_minus_2 f2
  else if bool_decide (key = "stop"%pystr) then _api_v1_normalise_stop_option value
  else Some value.

(** The error code and the name of the rejected option *)
Definition option_rejection : Type := pystr * pystr.

Fixpoint normalise_options (options : jdict) (normalised : jdict) : option_rejection + jdict :=
  match options with
  | [] => inr normalised
  | (key, value) :: options' =>
      if bool_decide (key = "stream"%pystr) then
        match value with
        | JBool false => normalise_options options' normalised
        | _ => inl ("compute_node_options_unsupported"%pystr, "stream"%pystr)
        end
      else match normalise_option key value with
           | Some normalised_value => normalise_options options' (dset normalised key normalised_value)
           | None => inl ("compute_node_invalid_request"%pystr, key)
           end
  end.

Definition _api_v1_validate_and_normalise_options (options : jdict) : option_rejection + jdict :=
  let option_names := py_sorted pystr_leb (dkeys options) in
  let unsupported := bfilter (fun key => pystr_in key intentionally_unsupported) option_names in
  let unknown := bfilter (fun key => negb (pystr_in key supported_options)
                                     && negb (pystr_in key intentionally_unsupported)) option_names in
  match unsupported ++ unknown with
  | [] => normalise_options options []
  | rejected => inl ("compute_node_options_unsupported"%pystr, _api_v1_rejected_options_summary rejected)
  end.

(** ** Deadlines *)
Section seconds.
Context `{!PyNumbers}.

(** [float(value)] where [TypeError] and [ValueError] are caught: [None] is one of those. *)
Definition py_float (value : json) : node_error + option float64 :=
  match value with
  | JInt z => match float_of_int z with Some f => inr (Some f) | None => inl NodeOverflowError end
  | JBool b => inr (Some (if b then f1 else f0))
  | JFloat f => inr (Some f)
  | JStr s => inr (parse_float s)
  | _ => inr None
  end.

Definition is_JBool (v : json) : bool := match v with JBool _ => true | _ => false end.

(** The seconds a relay names, when they are finite and pass [ok] *)
Definition seconds_if (ok : float64 -> bool) (value : json) : node_error + option float64 :=
  if is_JBool value then inr None
  else let? seconds := py_float value in
       inr (f ← seconds; if is_finite f && ok f then Some f else None).

Definition _api_v1_valid_relative_seconds (value : json) : node_error + option float64 :=
  seconds_if (fun f => negb (flt f f0)) value.

Definition _api_v1_initial_relative_seconds (value : json) : node_error + option float64 :=
  seconds_if (fun f => flt f0 f) value.

(** [min(valid)] *)
Definition smallest (candidates : list (option float64)) : option float64 :=
  match omap id candidates with
  | [] => None
  | f :: l => Some (fold_left fmin l f)
  end.

Definition _API_V1_COMPATIBILITY_REQUEST_DEADLINE_SECONDS : float64 := f300.
Definition _API_V1_CONTROL_MIN_POLL_SECONDS : float64 := f1.
Definition _API_V1_CONTROL_MAX_POLL_SECONDS : float64 := S754_finite false 5629499534213120 (-49).

(** The two keys under which a relay names a deadline *)
Definition named_seconds (read : json -> node_error + option float64) (payload : jdict) :
  node_error + option float64 :=
  let? remaining := read (jget payload "request_deadline_remaining_seconds") in
  let? ttl := read (jget payload "request_ttl_seconds") in
  inr (smallest [remaining; ttl]).

Definition _api_v1_initial_deadline_from_metadata (request_payload : jdict) (now : float64) :
  node_error + float64 :=
  let? named := named_seconds _api_v1_initial_relative_seconds request_payload in
  inr (fadd now (default _API_V1_COMPATIBILITY_REQUEST_DEADLINE_SECONDS named)).

Definition _api_v1_deadline_after_response (current_deadline : float64) (response_payload : json)
  (now : float64) : node_error + float64 :=
  match response_payload with
  | JDict payload =>
      let? named := named_seconds _api_v1_valid_relative_seconds payload in
      inr (match named with
           | Some seconds => fmin current_deadline (fadd now seconds)
           | None => current_deadline
           end)
  | _ => inr current_deadline
  end.

Definition _api_v1_control_next_poll_seconds (value : json) : node_error + float64 :=
  let? seconds := seconds_if (fun _ => true) value in
  inr (match seconds with
       | Some f => fmin _API_V1_CONTROL_MAX_POLL_SECONDS (fmax _API_V1_CONTROL_MIN_POLL_SECONDS f)
       | None => _API_V1_CONTROL_MIN_POLL_SECONDS
       end).
End seconds.
