(* ===== verification/NodeDiagnostics.v ===== *)
(** * utils/networking/relay_client.py: what a compute node lets out

    The worker that runs the model reports its failures in free form, and a relay's error
    page may repeat what it was sent.  Before either is logged or put into an answer it is
    cut down: diagnostics to listed keys with listed or narrowly shaped values, bodies and
    texts with secrets and sensitive fields replaced. *)

From S2P Require Import Prelude PyFloat PyStr PyDict PyText PyRegex Json JsonText.

(** ** Diagnostics of the worker *)

Definition _SAFE_WORKER_DIAGNOSTIC_KEYS : list pystr :=
   ["code"; "reason"; "generation_exception_category"; "exception_type"; "rejected_option";
    "rejected_generation_kwarg"; "attempted_generation_kwargs";
    "attempted_plain_completion_methods"; "plain_completion_create_completion_callable";
    "plain_completion_llama_call_callable"; "plain_completion_signature_inspectable";
    "plain_completion_accepts_prompt_kwarg"; "plain_completion_accepts_max_tokens_kwarg";
    "plain_completion_accepts_var_kwargs"; "plain_completion_reset_after_failure_count";
    "plain_completion_prompt_tokenization_error_category";
    "plain_completion_prompt_tokenization_special"; "plain_completion_prompt_tokenization_method";
    "plain_completion_prompt_token_count"; "plain_completion_prompt_tokenization_attempted";
    "plain_completion_prompt_tokenization_variant_count";
    "plain_completion_prompt_tokenization_variant_ids";
    "plain_completion_prompt_tokenization_token_counts";
    "plain_completion_prompt_tokenization_special_values";
    "plain_completion_prompt_tokenization_selected_variant";
    "plain_completion_prompt_tokenization_selected_token_count";
    "plain_completion_prompt_tokenization_selected_special"; "plain_completion_attempt_methods";
    "plain_completion_attempt_categories"; "plain_completion_attempt_exception_types";
    "plain_completion_attempt_safe_summaries"; "plain_completion_attempt_rejected_kwargs";
    "plain_completion_attempt_result_shapes"; "plain_completion_attempt_tokenization_variants";
    "plain_completion_attempt_count"; "qwen_high_level_chat_fallback_attempted";
    "qwen_high_level_chat_fallback_supported"; "qwen_high_level_chat_fallback_succeeded";
    "qwen_high_level_chat_fallback_rejected_kwarg"; "qwen_high_level_chat_fallback_category";
    "plain_completion_eval_return_code"; "plain_completion_first_failure_method";
    "plain_completion_backend_failure_category"; "plain_completion_backend_state_sticky";
    "plain_completion_backend_recreation_required"; "plain_completion_metal_error_category";
    "plain_completion_metal_command_buffer_status"; "qwen_api_v1_non_thinking_template_fallback";
    "result_shape"; "method"; "stream"; "retryable"; "runtime_healthy"; "recovery_attempted";
    "recovery_succeeded"; "profile_id"; "context_tier"; "context_window_tokens"; "n_ctx";
    "max_tokens"; "temperature"; "top_p"; "top_k"; "kv_cache_mode"; "type_k"; "type_v";
    "stderr_tail"; "child_stderr_tail"; "sanitized_error_summary"]%pystr.

Definition _SAFE_WORKER_DIAGNOSTIC_ENUM_VALUES : dict pystr (list pystr) :=
  [("code",
     ["compute_node_internal_error"; "compute_node_options_unsupported";
      "compute_node_runtime_unavailable"]%pystr);
   ("reason",
     ["unsupported_generation_option"; "unsupported_render_kwarg";
      "runtime_chat_template_metadata_missing"; "runtime_chat_template_renderer_unavailable";
      "runtime_template_tokenizer_bridge_unavailable";
      "runtime_qwen_non_thinking_hard_switch_missing";
      "runtime_qwen_non_thinking_hard_switch_unavailable"; "malformed_completion_output";
      "empty_completion_output"; "thinking_leaked"]%pystr);
   ("generation_exception_category",
     ["metal_memory_allocation"; "cuda_memory_allocation"; "kv_cache_allocation";
      "rope_yarn_eval_failure"; "unsupported_generation_kwarg"; "unsupported_render_kwarg";
      "qwen_non_thinking_hard_switch_unavailable"; "unexpected_kwarg"; "unsupported_prompt_kwarg";
      "unsupported_stream_kwarg"; "unsupported_stop_kwarg"; "method_shape"; "worker_exception";
      "malformed_completion_output"; "empty_completion_output"; "thinking_leaked";
      "worker_timeout"; "worker_dead"; "unknown_generation_exception";
      "prompt_tokenization_failure"; "prompt_eval_failure"; "prompt_eval_decode_failure";
      "prompt_eval_invalid_batch"; "backend_allocation_failure"; "backend_graph_compute_failure";
      "metal_graph_compute_failure"; "kv_slot_unavailable"; "decode_aborted";
      "backend_decode_failure"; "prompt_eval_backend_failure"; "prompt_eval_invalid_token_failure";
      "prompt_eval_state_failure"; "prompt_eval_context_failure"; "sampling_failure"]%pystr);
   ("method",
     ["apply_chat_template"; "create_chat_completion"; "create_chat_completion_with_recovery";
      "create_chat_completion_from_rendered_prompt"; "create_completion_from_rendered_prompt";
      "create_completion_keyword_prompt"; "create_completion_positional_prompt";
      "llama_call_positional_prompt"; "create_completion_keyword_token_ids";
      "create_completion_positional_token_ids"; "create_chat_completion_qwen_non_thinking";
      "render_and_tokenize_chat"; "tokenize"]%pystr);
   ("kv_cache_mode",
     ["f16"; "q8_0"; "q4_0"; "auto"; "unknown"]%pystr);
   ("plain_completion_prompt_tokenization_error_category",
     [""; "context_length_exceeded"; "context_window_exceeded"; "tokenizer_unavailable";
      "method_shape"; "tokenizer_special_rejected"; "token_overflow";
      "prompt_tokenization_failure"; "prompt_eval_failure"; "prompt_eval_decode_failure";
      "prompt_eval_invalid_batch"; "backend_allocation_failure"; "backend_graph_compute_failure";
      "metal_graph_compute_failure"; "kv_slot_unavailable"; "decode_aborted";
      "backend_decode_failure"; "prompt_eval_backend_failure"; "prompt_eval_invalid_token_failure";
      "prompt_eval_state_failure"; "prompt_eval_context_failure"; "sampling_failure"]%pystr);
   ("plain_completion_prompt_tokenization_method",
     [""; "llama.tokenize"]%pystr)]%pystr.

Definition _SAFE_WORKER_DIAGNOSTIC_TAIL_WORDS : list pystr :=
   ["llama"; "llama_context"; "ggml"; "metal"; "kv"; "cache"; "alloc"; "allocation"; "memory";
    "oom"; "buffer"; "rope"; "yarn"; "flash_attn"; "type_k"; "type_v"; "n_ctx"; "context";
    "unsupported"; "keyword"; "argument"; "failed"; "error"; "runtime"; "worker"; "exception";
    "redacted"; "path"; "out"; "of"; "to"; "create"]%pystr.

(** [[A-Za-z0-9_.:/@+-]{1,128}] *)
Definition identifier_char : regex :=
  Chr (fun c => ascii_word c || bool_decide (c ∈ codes ".:/@+-"%pystr)).

Definition _SAFE_WORKER_DIAGNOSTIC_IDENTIFIER_RE : regex := Seq identifier_char (up_to 127 identifier_char).

(** [[A-Za-z_][A-Za-z0-9_.]{0,127}] *)
Definition _SAFE_WORKER_DIAGNOSTIC_CLASS_RE : regex :=
  Seq (Chr is_letter_) (up_to 127 (Chr (fun c => ascii_word c || N.eqb c 46))).

Definition _SAFE_WORKER_DIAGNOSTIC_REDACTED_SUMMARY_RE : regex :=
  seqs [_SAFE_WORKER_DIAGNOSTIC_CLASS_RE; chr 58;
        alts (map lit ["redacted"; "metal_memory_allocation"; "cuda_memory_allocation";
          "kv_cache_allocation"; "rope_yarn_eval_failure"; "unsupported_kwarg";
          "prompt_tokenization_failure"; "prompt_eval_failure"; "prompt_eval_decode_failure";
          "prompt_eval_backend_failure"; "prompt_eval_invalid_token_failure";
          "prompt_eval_state_failure"; "prompt_eval_context_failure"; "sampling_failure"]%pystr)].

(** [part for part in value.split(",") if part] *)
Definition csv_parts (value : pystr) : list pystr := bfilter (fun p => negb (py_empty p)) (py_split value 44).

Section diagnostics.
Context `{!PyWords, !PyUnicode}.

Definition identifier_shaped (s : pystr) : bool := re_fullmatch _SAFE_WORKER_DIAGNOSTIC_IDENTIFIER_RE s.
Definition summary_shaped (s : pystr) : bool := re_fullmatch _SAFE_WORKER_DIAGNOSTIC_REDACTED_SUMMARY_RE s.

Definition _is_controlled_redacted_diagnostic_tail (value : pystr) : bool :=
  if (1200 <? py_len value) || py_empty (py_strip value) then false
  else let words := re_findall (Plus (Chr is_letter_)) (py_lower value) in
       match words with
       | [] => false
       | _ => forallb (fun word => pystr_in word _SAFE_WORKER_DIAGNOSTIC_TAIL_WORDS) words
       end.

(** The parts again, when each has the shape; [Some ""] when there are none *)
Definition csv_of (shaped : pystr -> bool) (bounded : pystr) : option json :=
  match csv_parts bounded with
  | [] => Some (JStr "")
  | names => if forallb shaped names then Some (JStr (py_join "," (firstn 64 names))) else None
  end.

Definition identifier_keys : list pystr :=
  ["rejected_option"; "rejected_generation_kwarg"; "profile_id"; "context_tier"; "type_k"; "type_v";
   "result_shape"; "plain_completion_backend_failure_category";
   "plain_completion_metal_error_category"; "plain_completion_first_failure_method"]%pystr.

Definition csv_identifier_keys : list pystr :=
  ["attempted_generation_kwargs"; "attempted_plain_completion_methods";
   "plain_completion_prompt_tokenization_variant_ids";
   "plain_completion_prompt_tokenization_token_counts";
   "plain_completion_prompt_tokenization_special_values"; "plain_completion_attempt_methods";
   "plain_completion_attempt_categories"; "plain_completion_attempt_exception_types";
   "plain_completion_attempt_rejected_kwargs"; "plain_completion_attempt_result_shapes";
   "plain_completion_attempt_tokenization_variants"]%pystr.

Definition optional_identifier_keys : list pystr :=
  ["plain_completion_prompt_tokenization_selected_variant";
   "plain_completion_prompt_tokenization_special"; "qwen_high_level_chat_fallback_category";
   "qwen_high_level_chat_fallback_rejected_kwarg"]%pystr.

Definition keep_if (b : bool) (s : pystr) : option json := if b then Some (JStr s) else None.

(** [None] is Python's [None].  The two keys the source tests for [bool] and [int] have
    returned before with such a value, so that a text under them is dropped. *)
Definition _safe_worker_diagnostic_value (key : pystr) (value : json) : option json :=
  match value with
  | JBool _ | JInt _ | JFloat _ => Some value
  | JStr s =>
      let bounded := PyStr (firstn 256 (codes s)) in
      match dget _SAFE_WORKER_DIAGNOSTIC_ENUM_VALUES key with
      | Some enum_values => keep_if (pystr_in bounded enum_values) bounded
      | None =>
          if pystr_in key ["plain_completion_backend_state_sticky";
                           "plain_completion_backend_recreation_required";
                           "plain_completion_metal_command_buffer_status"]%pystr then None
          else if bool_decide (key = "exception_type"%pystr)
          then keep_if (re_fullmatch _SAFE_WORKER_DIAGNOSTIC_CLASS_RE bounded) bounded
          else if pystr_in key identifier_keys then keep_if (identifier_shaped bounded) bounded
          else if pystr_in key csv_identifier_keys then csv_of identifier_shaped bounded
          else if bool_decide (key = "plain_completion_attempt_safe_summaries"%pystr)
          then csv_of summary_shaped bounded
          else if pystr_in key optional_identifier_keys
          then keep_if (py_empty bounded || identifier_shaped bounded) bounded
          else if bool_decide (key = "sanitized_error_summary"%pystr)
          then keep_if (summary_shaped bounded) bounded
          else if pystr_in key ["stderr_tail"; "child_stderr_tail"]%pystr
          then keep_if (_is_controlled_redacted_diagnostic_tail bounded) bounded
          else None
      end
  | _ => None
  end.

(** One entry of the diagnostics: kept with its safe value, or dropped *)
Definition safe_entry (key : pystr) (value : json) : option json :=
  if pystr_in key _SAFE_WORKER_DIAGNOSTIC_KEYS then
    match _safe_worker_diagnostic_value key value with
    | Some safe_value => Some safe_value
    | None => if is_JNull value then Some JNull else None
    end
  else None.

Definition _safe_worker_diagnostics (diagnostics : json) : jdict :=
  match diagnostics with
  | JDict d => fold_left (fun safe kv => match safe_entry kv.1 kv.2 with
                                         | Some v => dset safe kv.1 v
                                         | None => safe
                                         end) d []
  | _ => []
  end.

(** ** What went wrong, by the text of the exception *)

Definition quote : regex := one_of (PyStr [39; 34]%N).
Definition spaces : regex := Star space.
Definition quoted_name (n : nat) : regex := seqs [quote; Cap n identifier; quote].
Definition colon_name (n : nat) : regex := seqs [spaces; chr 58; spaces; Cap n identifier].

Definition _UNSUPPORTED_GENERATION_KWARG_PATTERNS : list regex :=
  [seqs [Opt (lit "got an "); lit "unexpected keyword argument "; quoted_name 1];
   seqs [lit "unexpected keyword argument"; colon_name 1];
   seqs [lit "unsupported option"; Alt (Seq (Plus space) (quoted_name 1)) (colon_name 2)];
   seqs [lit "invalid keyword"; Opt (lit " argument"); Alt (Seq (Plus space) (quoted_name 1)) (colon_name 2)];
   seqs [lit "invalid keyword"; spaces; chr 61; spaces; Cap 1 identifier];
   seqs [lit "got multiple values for keyword argument "; quoted_name 1]].

(** [next((group for group in match.groups() if group), None)]; no pattern has more than
    two groups. *)
Definition first_group (g : groups) : option pystr :=
  match group g 1 with
  | Some s => if py_empty s then group g 2 else Some s
  | None => group g 2
  end.

Fixpoint rejected_kwarg (patterns : list regex) (text : pystr) (attempted : option (list pystr)) :
  option pystr :=
  match patterns with
  | [] => None
  | pattern :: patterns' =>
      match re_search pattern text with
      | Some (_, _, g) =>
          match first_group g with
          | Some rejected =>
              if negb (py_empty rejected)
                 && match attempted with Some l => pystr_in rejected l | None => true end
              then Some rejected else rejected_kwarg patterns' text attempted
          | None => rejected_kwarg patterns' text attempted
          end
      | None => rejected_kwarg patterns' text attempted
      end
  end.

Definition _extract_unsupported_generation_kwarg (text : pystr) (attempted : option (list pystr)) :
  option pystr :=
  rejected_kwarg _UNSUPPORTED_GENERATION_KWARG_PATTERNS text attempted.

(** The class of an exception by its name and its text, [f"{type(exc).__name__} {exc}"] *)
Definition _classify_safe_generation_exception (class_name message : pystr) : pystr :=
  let text := py_lower (class_name +++ " " +++ message) in
  let mentions s := py_contains s text in
  let any l := existsb mentions l in
  if mentions "metal" && any ["alloc"; "memory"; "out of memory"; "oom"]%pystr
  then "metal_memory_allocation"
  else if any ["cuda out of memory"; "cuda error: out of memory"; "cudamalloc"; "cuda malloc";
               "cublas_status_alloc_failed"; "cublas alloc"]%pystr
          || (mentions "cuda" && any ["allocation failed"; "failed to allocate"]%pystr)
          || (mentions "ggml_cuda" && any ["alloc"; "memory"; "oom"]%pystr)
  then "cuda_memory_allocation"
  else if mentions "kv" && any ["alloc"; "cache"; "memory"; "out of memory"; "oom"]%pystr
  then "kv_cache_allocation"
  else if mentions "yarn" || (mentions "rope" && any ["scal"; "freq"; "eval"]%pystr)
  then "rope_yarn_eval_failure"
  else if mentions "timeout" then "worker_timeout"
  else if any ["worker dead"; "broken pipe"; "eof"; "exited before"]%pystr then "worker_dead"
  else match _extract_unsupported_generation_kwarg message None with
       | Some _ => "unsupported_generation_kwarg"
       | None => "unknown_generation_exception"
       end.
End diagnostics.

(** ** Bodies of a relay's errors *)

Definition _API_V1_BODY_SNIPPET_LIMIT : Z := 512.
Definition _API_V1_REDACTED : pystr := "[redacted]".

Definition _API_V1_SENSITIVE_BODY_KEYS : list pystr :=
   ["x_relay_server_token"; "relay_server_token"; "server_registration_token";
    "registration_token"; "control_credential"; "controlcredential"; "control_cred"; "controlcred";
    "relay_control_credential"; "relay_controlcredential"; "relaycontrolcredential"; "token";
    "authorization"; "private_key"; "privatekey"; "public_key"; "publickey"; "client_public_key";
    "server_public_key"; "ciphertext"; "cipherkey"; "chat_history"; "iv"; "messages"; "prompt";
    "content"; "api_v1_request"; "api_v1_response"]%pystr.

Section redaction.
Context `{!PyWords, !PyUnicode, !FloatRepr, !PyNumbers}.

(** The two patterns of the source; group 1 is kept. *)
Definition token_pattern : regex :=
  seqs [Cap 1 (seqs [ilit "x-relay-server-token"; spaces; one_of ":="; spaces]);
        Cap 2 (Plus (Chr (fun c => negb (is_py_space c) && bool_decide (c ∉ [60; 62; 39; 34]%N))))].

Definition dash : regex := Opt (one_of "_-").

Definition field_pattern : regex :=
  seqs [Cap 1 (seqs [
    alts [seqs [ilit "private"; dash; ilit "key"]; seqs [ilit "public"; dash; ilit "key"];
          seqs [ilit "server"; dash; ilit "public"; dash; ilit "key"];
          seqs [ilit "client"; dash; ilit "public"; dash; ilit "key"];
          ilit "ciphertext"; ilit "cipherkey"; ilit "chat_history"; ilit "iv";
          seqs [ilit "control"; dash; ilit "credential"]; ilit "controlcred";
          seqs [ilit "control"; dash; ilit "cred"]; ilit "prompt"; ilit "content"];
    spaces; one_of "=:"; spaces]);
    Cap 2 (Plus (Chr (fun c => negb (is_py_space c) && bool_decide (c ∉ [44; 59; 125; 60]%N))))].

(** [\1[redacted]] *)
Definition kept_prefix (g : groups) : list N :=
  match group g 1 with Some s => codes s | None => [] end ++ codes _API_V1_REDACTED.

Definition line_break : regex := Plus (one_of (PyStr [13; 10; 0]%N)).

Definition _redact_sensitive_text (text : pystr) (secrets : list pystr) : pystr :=
  let rendered := fold_left (fun r secret => if py_empty secret then r
                                             else replace_text secret _API_V1_REDACTED r) secrets text in
  let rendered := re_sub field_pattern kept_prefix (re_sub token_pattern kept_prefix rendered) in
  let rendered := re_sub line_break (fun _ => [32%N]) rendered in
  if _API_V1_BODY_SNIPPET_LIMIT <? py_len rendered
  then PyStr (firstn (Z.to_nat _API_V1_BODY_SNIPPET_LIMIT) (codes rendered)) +++ "..."
  else rendered.

Definition is_sensitive_key (key : pystr) : bool :=
  pystr_in (py_replace (py_lower key) 45 95) _API_V1_SENSITIVE_BODY_KEYS.

Fixpoint _sanitize_api_v1_json_body (secrets : list pystr) (value : json) : json :=
  match value with
  | JDict d => JDict (map (fun kv => (kv.1,
      if is_sensitive_key kv.1 then JStr _API_V1_REDACTED else _sanitize_api_v1_json_body secrets kv.2)) d)
  | JList l => JList (firstn 10 (map (_sanitize_api_v1_json_body secrets) l))
  | JStr s => JStr (_redact_sensitive_text s secrets)
  | _ => value
  end.

(** [json.dumps(value, sort_keys=True, separators=(",", ":"))] *)
Fixpoint compact_codes (j : json) : list N :=
  match j with
  | JList l => 91%N :: join_codes [44%N] (map compact_codes l) ++ [93%N]
  | JDict d =>
      123%N :: join_codes [44%N]
        (map (fun kv => json_quoted true kv.1 ++ [58%N] ++ kv.2)
           (py_sorted (fun a b => pystr_leb a.1 b.1) (map (fun kv => (kv.1, compact_codes kv.2)) d)))
      ++ [125%N]
  | _ => dumps_codes true j
  end.

(** [parsed]: [response.json()], [None] when it raises or is [null]; [text]: the body *)
Definition _safe_api_v1_response_body_snippet (parsed : option json) (text : pystr) (secrets : list pystr) :
  pystr * option json :=
  match parsed with
  | Some JNull | None => (_redact_sensitive_text text secrets, None)
  | Some parsed_json =>
      let sanitized := _sanitize_api_v1_json_body secrets parsed_json in
      (_redact_sensitive_text (PyStr (compact_codes sanitized)) secrets, Some sanitized)
  end.
End redaction.
