(* ===== verification/NodeOutput.v ===== *)
(** * utils/networking/relay_client.py: what a compute node takes from its runtime

    A completion of the runtime becomes an assistant message or a reason why there is none.
    For a Qwen profile with thinking disabled the text must be free of reasoning: empty
    leading think wrappers are removed, anything else with a think tag or a reasoning field
    is refused. *)

From S2P Require Import Prelude PyFloat PyStr PyDict PyText PyRegex Json Profiles.
From S2P Require Import NodeRequest NodeDiagnostics.

Section output.
Context `{!PyWords}.

(** [_API_V1_QWEN_NON_THINKING_POLICY["thinking_mode"]] *)
Definition disabled_thinking : pystr := "disabled".

Definition _api_v1_qwen_non_thinking_required (model_profile : jdict) : bool :=
  jeq_str (jget model_profile "provider") "qwen"
  && jeq_str (jget model_profile "thinking_mode") disabled_thinking.

Definition spaced : regex := Star space.

(** [<\s*think\s*>\s*<\s*/\s*think\s*>], at the beginning *)
Definition empty_wrapper : regex :=
  seqs [chr 60; spaced; ilit "think"; spaced; chr 62; spaced;
        chr 60; spaced; chr 47; spaced; ilit "think"; spaced; chr 62].

(** [<\s*/?\s*think\b], anywhere *)
Definition think_tag : regex :=
  seqs [chr 60; spaced; Opt (chr 47); spaced; ilit "think"; WordEdge].

Definition py_lstrip (s : pystr) : pystr := PyStr (drop_space (codes s)).
Definition py_rstrip_space (s : pystr) : pystr := PyStr (rev (drop_space (rev (codes s)))).

(** The text after the leading wrappers, and whether there was one *)
Fixpoint strip_wrappers (fuel : nat) (cleaned : pystr) (stripped_any : bool) : pystr * bool :=
  match fuel with
  | O => (cleaned, stripped_any)
  | S fuel' =>
      match re_match empty_wrapper (start_of (codes cleaned)) with
      | Some (q, _) => strip_wrappers fuel' (py_lstrip (PyStr q.2)) true
      | None => (cleaned, stripped_any)
      end
  end.

Definition IM_END : pystr := "<|im_end|>".

Definition has_suffix (s p : pystr) : bool := bool_decide (codes p `suffix_of` codes s).

(** [s[: -n]] for a positive [n] *)
Definition py_butlast (n : nat) (s : pystr) : pystr := PyStr (firstn (length (codes s) - n) (codes s)).

Definition without_marker (cleaned : pystr) : pystr :=
  if has_suffix cleaned IM_END then py_rstrip_space (py_butlast (length (codes IM_END)) cleaned) else cleaned.

(** The text, or a reason that quotes nothing of it *)
Definition normalize_non_thinking (content : pystr) : pystr + pystr :=
  let '(cleaned, stripped_any) := strip_wrappers (length (codes content)) (py_lstrip content) false in
  let cleaned := py_strip cleaned in
  if py_empty cleaned then
    inl (if stripped_any then "qwen_empty_after_think_wrapper_strip" else "unsupported_completion_shape")%pystr
  else match re_search think_tag cleaned with
       | Some _ => inl "qwen_thinking_output_leaked"%pystr
       | None =>
           let cleaned := without_marker cleaned in
           if py_empty cleaned then inl "unsupported_completion_shape"%pystr else inr cleaned
       end.

Definition _api_v1_normalize_qwen_non_thinking_content (model_profile : jdict) (content : json) : pystr + pystr :=
  if negb (_api_v1_qwen_non_thinking_required model_profile) then
    match not_blank content with
    | Some s => inr s
    | None => inl "unsupported_completion_shape"%pystr
    end
  else match content with
       | JStr s => normalize_non_thinking s
       | _ => inl "unsupported_completion_shape"%pystr
       end.

Definition forbidden_reasoning_fields : list pystr := ["reasoning_content"; "reasoning"]%pystr.

(** A forbidden key at any depth *)
Fixpoint has_reasoning (payload : json) : bool :=
  match payload with
  | JDict d => existsb (fun field => dmem d field) forbidden_reasoning_fields
               || existsb (fun kv => has_reasoning kv.2) d
  | JList l => existsb has_reasoning l
  | _ => false
  end.

Definition _api_v1_qwen_reasoning_content_leaked (model_profile : jdict) (payload : json) : bool :=
  _api_v1_qwen_non_thinking_required model_profile && has_reasoning payload.

Definition _valid_api_v1_assistant_message (message : json) : option jdict :=
  match message with
  | JDict m =>
      if negb (jeq_str (jget m "role") "assistant") then None
      else match not_blank (jget m "content"), jget m "tool_calls" with
           | Some _, _ | None, JList (_ :: _) => Some m
           | _, _ => None
           end
  | _ => None
  end.

(** The first choice of a completion *)
Definition first_choice (completion : json) : option jdict :=
  match completion with
  | JDict c => match jget c "choices" with JList (JDict choice :: _) => Some choice | _ => None end
  | _ => None
  end.

(** A message without a role gets the assistant's. *)
Definition raw_message (choice : jdict) : json :=
  match jget choice "message" with
  | JDict m => if negb (dmem m "role") && dmem m "content"
               then JDict (dset m "role" (JStr "assistant")) else JDict m
  | v => v
  end.

(** [inl] is [_last_api_v1_invalid_model_output_reason]. *)
Definition _assistant_message_from_runtime_completion (model_profile : jdict) (completion : json) :
  pystr + jdict :=
  match first_choice completion with
  | Some choice =>
      if _api_v1_qwen_reasoning_content_leaked model_profile completion
      then inl "qwen_thinking_output_leaked"%pystr
      else
        let message :=
          match _valid_api_v1_assistant_message (raw_message choice) with
          | Some m => Some m
          | None =>
              if dmem choice "text" && negb (dmem choice "message") then
                match not_blank (jget choice "text") with
                | Some text => Some [("role", JStr "assistant"); ("content", JStr text)]%pystr
                | None => None
                end
              else None
          end in
        match message with
        | None => inl "unsupported_completion_shape"%pystr
        | Some m =>
            match not_blank (jget m "content") with
            | Some content =>
                let? cleaned := _api_v1_normalize_qwen_non_thinking_content model_profile (JStr content) in
                inr (dset m "content" (JStr cleaned))
            | None => inr m
            end
        end
  | None =>
      match not_blank completion with
      | Some content =>
          let? cleaned := _api_v1_normalize_qwen_non_thinking_content model_profile (JStr content) in
          inr [("role", JStr "assistant"); ("content", JStr cleaned)]%pystr
      | None => inl "unsupported_completion_shape"%pystr
      end
  end.

Definition _api_v1_completion_shape_category (model_profile : jdict) (completion : json) : pystr :=
  if _api_v1_qwen_reasoning_content_leaked model_profile completion then "reasoning_field_present"
  else match first_choice completion with
       | None => "missing_choices"
       | Some choice =>
           match jget choice "message", jget choice "text" with
           | JDict m, text =>
               match jget m "content", text with
               | JStr s, _ => if py_empty (py_strip s) then "empty_content" else "choices_message_content"
               | _, JStr s => if py_empty (py_strip s) then "empty_content" else "choices_text"
               | _, _ => "missing_choices"
               end
           | _, JStr s => if py_empty (py_strip s) then "empty_content" else "choices_text"
           | _, _ => "missing_choices"
           end
       end.

(** ** Answers *)

(** The envelope's body for a message; [output_budget] as it is reported *)
Definition response_envelope (request_id : pystr) (api_v1_response : jdict) : jdict :=
  [("protocol", JStr NODE_PROTOCOL); ("version", JInt 1); ("request_id", JStr request_id);
   ("api_v1_response", JDict api_v1_response)]%pystr.

(** [_api_v1_response_envelope(request_id, error=error)] *)
Definition error_envelope (request_id : pystr) (error : jdict) : jdict :=
  response_envelope request_id [("error", JDict error)]%pystr.

(** [{k: v}] unless [v] is [None] *)
Definition given (k : pystr) (v : option json) : jdict :=
  match v with Some x => [(k, x)] | None => [] end.

(** [_api_v1_response_envelope(request_id, message=..., ...)] *)
Definition message_envelope (request_id : pystr) (message : jdict) (finish_reason : option pystr)
  (usage output_budget : option jdict) : jdict :=
  response_envelope request_id
    ([("message"%pystr, JDict message)] ++ given "finish_reason" (JStr <$> finish_reason)
     ++ given "usage" (JDict <$> usage) ++ given "output_budget" (JDict <$> output_budget)).
End output.

(** * utils/networking/relay_client.py: whether a prompt fits

    The runtime a model manager holds, as the calls it offers and what they give; how the
    prompt of a conversation is rendered and counted with it; and the admission of a request
    to the active context window.

    [src/utils/llm/model_manager.py] is not modelled: a runtime is any record of outcomes.
    The observation that only benchmarks record is left out. *)

(** An exception of the runtime: its class, its text, its [diagnostics] and the class of
    its cause *)
Record runtime_exn : Type := MkRuntimeExn {
  ex_class : pystr;
  ex_text : pystr;
  ex_diagnostics : json;
  ex_cause : option pystr
}.

Definition _is_llama_cpp_inference_request_error (e : runtime_exn) : bool :=
  bool_decide (ex_class e = "LlamaCppInferenceRequestError"%pystr).

Inductive call_outcome : Type :=
| Gives (v : json)
| RaisesTypeError
| RaisesOther (e : runtime_exn).

(** The ways [tokenize] is tried *)
Inductive tokenize_call : Set := BytesNoBosKeyword | BytesNoBos | BytesOnly | TextOnly.

(** A loaded model, with the profile it carries itself.  A call that the object does not offer is [None]; the completions are
    given the number of the call. *)
Record llm_runtime : Type := MkLlm {
  lr_facade_type : pystr;
  lr_model_profile : jdict;
  lr_render_and_tokenize_chat : option (list json -> jdict -> call_outcome);
  lr_apply_chat_template : option (list json -> jdict -> call_outcome);
  lr_tokenizer_template : option (list json -> jdict -> call_outcome);
  lr_chat_formatter : option (list json -> option pystr);
  lr_tokenize : option (tokenize_call -> pystr -> call_outcome);
  lr_from_rendered_prompt : option (nat -> list json -> jdict -> runtime_exn + json);
  lr_create_chat_completion : option (nat -> list json -> jdict -> runtime_exn + json)
}.

(** The attributes of the manager that are read; the configured [max_tokens] is an
    integer. *)
Record node_manager : Type := MkManager {
  nm_context_tier : option pystr;
  nm_context_window_tokens : option Z;
  nm_model_profile : jdict;
  nm_api_model_id : option pystr;
  nm_model_id : option pystr;
  nm_file_name : option pystr;
  nm_model_path : option pystr;
  nm_use_mock_llm : bool;
  nm_supports_api_v1_model : option (pystr -> bool);
  nm_max_tokens : Z;
  nm_temperature : json;
  nm_top_p : json;
  nm_stop_tokens : json;
  nm_get_llm_instance : option (runtime_exn + option llm_runtime);
  nm_get_llm_instance_with_recovery : option (runtime_exn + option llm_runtime);
  nm_with_recovery : option (nat -> list json -> jdict -> runtime_exn + json)
}.

(** ** Rendering and counting *)

(** [{"tokenize": False, "add_generation_prompt": True}], and the hard switch *)
Definition template_kwargs (extra : jdict) (enable_thinking : option bool) : jdict :=
  [("tokenize", JBool false); ("add_generation_prompt", JBool true)]%pystr ++ extra
  ++ given "enable_thinking" (JBool <$> enable_thinking).

(** The entries of a profile the worker is told *)
Definition profile_kwargs (model_profile : jdict) : jdict :=
  let told k v := if truthy v then [(k, v)] else [] in
  told "token_place_provider"%pystr (jget model_profile "provider")
  ++ told "token_place_template_policy"%pystr (jget model_profile "chat_template_policy").

(** The diagnostics kept on the runtime: entries that are no list and no dictionary *)
Definition plain_entries (diagnostics : json) : jdict :=
  match diagnostics with
  | JDict d => bfilter (fun kv => match kv.2 with JList _ | JDict _ => false | _ => true end) d
  | _ => []
  end.

(** [_token_place_last_render_tokenize_error], threaded through *)
Notation render_error := (option jdict).

(** A truth value counts as its integer. *)
Definition _api_v1_render_and_tokenize_chat_prompt (llm : llm_runtime) (l : list json)
  (enable_thinking : option bool) (model_profile : jdict) (err : render_error) : option Z * render_error :=
  match lr_render_and_tokenize_chat llm with
  | None => (None, err)
  | Some call =>
      let profile := if is_nil model_profile then lr_model_profile llm else model_profile in
      match call l (template_kwargs (profile_kwargs profile) enable_thinking) with
      | RaisesTypeError => (None, err)
      | RaisesOther e => (None, if _is_llama_cpp_inference_request_error e
                                then Some (plain_entries (ex_diagnostics e)) else err)
      | Gives result =>
          match match result with JDict d => jget d "prompt_tokens" | v => v end with
          | JInt n => if 0 <=? n then (Some n, None) else (None, err)
          | JBool b => (Some (Z.b2z b), None)
          | _ => (None, err)
          end
      end
  end.

(** The first call that does not raise [TypeError] decides. *)
Fixpoint tokenize_attempts (tokenize : tokenize_call -> pystr -> call_outcome) (prompt : pystr)
  (attempts : list tokenize_call) : option Z :=
  match attempts with
  | [] => None
  | attempt :: attempts' =>
      match tokenize attempt prompt with
      | Gives (JList tokens) => Some (zlen tokens)
      | Gives _ | RaisesOther _ => None
      | RaisesTypeError => tokenize_attempts tokenize prompt attempts'
      end
  end.

Definition _api_v1_tokenize_rendered_prompt (llm : llm_runtime) (rendered_prompt : pystr) : option Z :=
  match lr_tokenize llm with
  | None => None
  | Some tokenize =>
      tokenize_attempts tokenize rendered_prompt [BytesNoBosKeyword; BytesNoBos; BytesOnly; TextOnly]
  end.

Definition hard_switch_rejection (method : pystr) : jdict :=
  [("code", JStr "compute_node_context_admission_unavailable");
   ("reason", JStr "runtime_qwen_non_thinking_hard_switch_unavailable");
   ("rejected_generation_kwarg", JStr "enable_thinking");
   ("generation_exception_category", JStr "qwen_non_thinking_hard_switch_unavailable");
   ("method", JStr method); ("retryable", JBool false)]%pystr.

Definition is_disabled (enable_thinking : option bool) : bool :=
  match enable_thinking with Some false => true | _ => false end.

(** What is tried when neither template rendered the prompt; [err0] is the error before
    rendering began. *)
Definition render_fallback (llm : llm_runtime) (l : list json) (enforce_thinking_disabled recorded : bool)
  (allow_chat_format_fallback : bool) (err0 err : render_error) : option pystr * render_error :=
  if enforce_thinking_disabled then
    (None, if recorded || (if err0 is Some _ then true else false) then err
           else Some (hard_switch_rejection "fallback_render"))
  else if negb allow_chat_format_fallback then (None, err)
  else match lr_chat_formatter llm with
       | Some formatter => (formatter l, err)
       | None => (None, err)
       end.

(** The tokenizer's template, after the runtime's own *)
Definition render_with_tokenizer (llm : llm_runtime) (l : list json) (enable_thinking : option bool)
  (allow_chat_format_fallback : bool) (err0 err : render_error) : option pystr * render_error :=
  let disabled := is_disabled enable_thinking in
  let fallback recorded err := render_fallback llm l disabled recorded allow_chat_format_fallback err0 err in
  match lr_tokenizer_template llm with
  | None => fallback false err
  | Some call =>
      match call l (template_kwargs [] enable_thinking) with
      | Gives (JStr rendered) => (Some rendered, None)
      | RaisesTypeError =>
          if disabled then fallback true (Some (hard_switch_rejection "tokenizer.apply_chat_template"))
          else fallback false err
      | Gives _ | RaisesOther _ => fallback false err
      end
  end.

Definition _api_v1_render_chat_prompt (llm : llm_runtime) (l : list json) (enable_thinking : option bool)
  (allow_chat_format_fallback : bool) (err : render_error) : option pystr * render_error :=
  let next err' := render_with_tokenizer llm l enable_thinking allow_chat_format_fallback err err' in
  match lr_apply_chat_template llm with
  | None => next err
  | Some call =>
      match call l (template_kwargs [] enable_thinking) with
      | Gives (JStr rendered) => (Some rendered, None)
      | Gives _ | RaisesOther _ => next err
      | RaisesTypeError =>
          match enable_thinking with
          | Some b => (None, if b then err else Some (hard_switch_rejection "apply_chat_template"))
          | None => match call l [] with
                    | Gives (JStr rendered) => (Some rendered, None)
                    | _ => next err
                    end
          end
      end
  end.

(** The tokens of the prompt, by the bridge or by rendering and tokenizing *)
Definition count_prompt (llm : option llm_runtime) (l : list json) (model_profile : jdict)
  (err : render_error) : option Z * render_error :=
  let non_thinking := _api_v1_qwen_non_thinking_required model_profile in
  let enable_thinking := if non_thinking then Some false else None in
  match llm with
  | None => (None, None)
  | Some llm =>
      match _api_v1_render_and_tokenize_chat_prompt llm l enable_thinking model_profile err with
      | (Some n, err') => (Some n, err')
      | (None, err') =>
          match _api_v1_render_chat_prompt llm l enable_thinking (negb non_thinking) err' with
          | (Some prompt, err'') => (_api_v1_tokenize_rendered_prompt llm prompt, err'')
          | (None, err'') => (None, err'')
          end
      end
  end.

(** ** The active window *)
Definition active_tier (m : node_manager) : pystr :=
  normalize_context_tier (Some (default DEFAULT_CONTEXT_TIER (nm_context_tier m))).

(** [get_context_profile] of a tier; a tier that is none raises. *)
Definition tier_tokens (tier : pystr) : option Z :=
  match get_context_profile (Some tier) with inr p => Some (cp_total_context_tokens p) | inl _ => None end.

(** [int(getattr(manager, "context_window_tokens", total) or total)] *)
Definition window_or (m : node_manager) (total : Z) : Z :=
  match nm_context_window_tokens m with
  | Some n => if n =? 0 then total else n
  | None => total
  end.

Definition _active_context_tier_can_satisfy (m : node_manager) (requested_context_tier : pystr) : bool :=
  match tier_tokens (active_tier m), tier_tokens requested_context_tier with
  | Some active, Some requested => requested <=? active
  | _, _ => false
  end.

Definition _api_v1_context_tier_unsupported_error (active requested_context_tier : pystr)
  (configured prompt_tokens output_tokens : Z) : jdict :=
  [("code", JStr "compute_node_context_tier_unsupported"); ("type", JStr "validation_error");
   ("message", JStr "Requested context tier is not active on this compute node");
   ("active_context_tier", JStr active); ("requested_context_tier", JStr requested_context_tier);
   ("configured_context_tokens", JInt configured); ("prompt_tokens", JInt prompt_tokens);
   ("requested_output_tokens", JInt output_tokens);
   ("required_total_tokens", JInt (prompt_tokens + output_tokens));
   ("retryable", JBool false)]%pystr.

(** The larger tier is named when it would hold the prompt and the reservation. *)
Definition recommended_tier (configured required : Z) (requested_context_tier : pystr) : option pystr :=
  match tier_tokens "64k-full", tier_tokens requested_context_tier with
  | Some full, Some requested =>
      if (required <=? full) && (configured <? full) && (requested <=? full)
      then Some "64k-full"%pystr else None
  | _, _ => None
  end.

Definition _api_v1_context_admission_error (active : pystr) (configured prompt_tokens output_tokens : Z)
  (requested_context_tier : pystr) : jdict :=
  let required_total := prompt_tokens + output_tokens in
  let recommended := recommended_tier configured required_total requested_context_tier in
  [("code", JStr "compute_node_context_window_exceeded"); ("type", JStr "validation_error");
   ("message", JStr "Requested prompt and output reservation exceed the active context window");
   ("active_context_tier", JStr active); ("configured_context_tokens", JInt configured);
   ("prompt_tokens", JInt prompt_tokens); ("requested_output_tokens", JInt output_tokens);
   ("required_total_tokens", JInt required_total);
   ("retryable", JBool (if recommended is Some _ then true else false))]%pystr
  ++ given "recommended_context_tier" (JStr <$> recommended).

Definition opt_json (x : option pystr) : json := match x with Some s => JStr s | None => JNull end.

(** The entries of the worker's diagnostics that are reported *)
Definition admission_worker_keys : list pystr :=
  ["rejected_option"; "rejected_generation_kwarg"; "attempted_generation_kwargs";
   "generation_exception_category"; "method"; "retryable"]%pystr.

Definition copy_keys (keys : list pystr) (from onto : jdict) : jdict :=
  fold_left (fun d k => match dget from k with Some v => dset d k v | None => d end) keys onto.

Definition _api_v1_context_admission_unavailable_error (active : pystr) (configured : Z)
  (requested_context_tier internal_reason : pystr) (diagnostics : jdict) : jdict :=
  copy_keys
    (["active_model_id"; "active_profile_id"; "context_tier"; "template_policy"; "non_thinking_mode";
      "runtime_facade_type"; "direct_apply_chat_template_available"; "metadata_template_available";
      "jinja_renderer_available"]%pystr ++ admission_worker_keys)
    diagnostics
    [("code", JStr "compute_node_context_admission_unavailable"); ("type", JStr "validation_error");
     ("message", JStr "Compute node cannot authoritatively render and tokenize the API v1 prompt for context admission");
     ("active_context_tier", JStr active); ("requested_context_tier", JStr requested_context_tier);
     ("configured_context_tokens", JInt configured); ("retryable", JBool false);
     ("internal_reason", JStr internal_reason)]%pystr.

Record token_budget : Set := MkBudget {
  tb_prompt_tokens : Z;
  tb_active_context_tokens : Z;
  tb_requested_output_tokens : Z;
  tb_available_output_tokens : Z;
  tb_effective_output_tokens : Z
}.

(** What is told of the manager and of a runtime that could not count the prompt *)
Definition unavailable_facts (m : node_manager) (llm : option llm_runtime) (internal_reason : pystr) : jdict :=
  let model_profile := nm_model_profile m in
  [("active_model_id", opt_json (nm_api_model_id m));
   ("active_profile_id", json_or (jget model_profile "id") (jget model_profile "model_id"));
   ("context_tier", JStr (active_tier m));
   ("template_policy", json_or (jget model_profile "chat_template_policy") (JStr "llama-3"));
   ("non_thinking_mode", JBool (_api_v1_qwen_non_thinking_required model_profile));
   ("runtime_facade_type", JStr (match llm with Some r => lr_facade_type r | None => "NoneType" end));
   ("direct_apply_chat_template_available",
      JBool (match llm with
             | Some r => if lr_apply_chat_template r is Some _ then true else false
             | None => false
             end));
   ("metadata_template_available",
      JBool (negb (bool_decide (internal_reason = "runtime_chat_template_metadata_missing"%pystr))));
   ("jinja_renderer_available",
      JBool (negb (bool_decide (internal_reason = "runtime_chat_template_renderer_unavailable"%pystr))))]%pystr.

(** The error when the prompt could not be counted *)
Definition uncounted_error (m : node_manager) (llm : option llm_runtime) (configured : Z)
  (requested_context_tier : pystr) (worker_diagnostics : render_error) : jdict :=
  let internal_reason := match worker_diagnostics with
    | Some d => match jget d "reason" with
                | JStr s => s
                | _ => "runtime_template_tokenizer_bridge_unavailable"%pystr
                end
    | None => "runtime_template_tokenizer_bridge_unavailable"%pystr
    end in
  match worker_diagnostics with
  | Some d =>
      if jeq_str (jget d "code") "compute_node_invalid_request" then
        [("code", JStr "compute_node_invalid_request"); ("type", JStr "validation_error");
         ("message", JStr "API v1 chat completions are text-only and do not support non-text content blocks. Use text-only messages or API v2 for multimodal requests.");
         ("retryable", JBool false); ("internal_reason", JStr internal_reason)]%pystr
      else
        _api_v1_context_admission_unavailable_error (active_tier m) configured requested_context_tier
          internal_reason (copy_keys admission_worker_keys d (unavailable_facts m llm internal_reason))
  | None =>
      _api_v1_context_admission_unavailable_error (active_tier m) configured requested_context_tier
        internal_reason (unavailable_facts m llm internal_reason)
  end.

(** Which of the two errors a counted request that is not admitted gets *)
Definition counted_error (m : node_manager) (configured prompt_tokens output_tokens : Z)
  (requested_context_tier : pystr) : jdict :=
  if negb (_active_context_tier_can_satisfy m requested_context_tier)
  then _api_v1_context_tier_unsupported_error (active_tier m) requested_context_tier configured
         prompt_tokens output_tokens
  else _api_v1_context_admission_error (active_tier m) configured prompt_tokens output_tokens
         requested_context_tier.

Definition budget_of (configured prompt_tokens output_tokens : Z) : token_budget :=
  let available := Z.max (configured - prompt_tokens) 0 in
  MkBudget prompt_tokens configured output_tokens available (Z.min output_tokens available).

(** [inl]: not admitted, with the error and the budget, if there is one.  The tier that is
    active is always one of the table. *)
Definition _api_v1_authoritative_context_admission (m : node_manager) (llm : option llm_runtime)
  (l : list json) (output_tokens : Z) (requested_context_tier : pystr) (err : render_error) :
  ((jdict * option token_budget) + token_budget) * render_error :=
  let configured := window_or m (default 0 (tier_tokens (active_tier m))) in
  match count_prompt llm l (nm_model_profile m) err with
  | (None, err') => (inl (uncounted_error m llm configured requested_context_tier err', None), err')
  | (Some prompt_tokens, err') =>
      let budget := budget_of configured prompt_tokens output_tokens in
      (if _active_context_tier_can_satisfy m requested_context_tier
          && (0 <? tb_effective_output_tokens budget)
       then inr budget
       else inl (counted_error m configured prompt_tokens output_tokens requested_context_tier,
                 Some budget), err')
  end.
