(* ===== verification/NodeGenerate.v ===== *)
(** * utils/networking/relay_client.py: the answer of a compute node

    Which models the node serves, the keyword arguments a completion is called with, the
    retries without those the runtime does not know, and the answer to one request, errors
    included.

    The state is what the client object keeps between calls: the arguments the runtime has
    refused and taken, its last render error, the arguments of every completion so far, and
    the counts an exception may find known or not.  [catalogue] is the API's table of models
    when it can be imported; without it, or when it raises, no entry and no alias of it is
    used. *)

From S2P Require Import Prelude PyFloat PyStr PyDict PyText PyRegex Json Profiles Catalog.
From S2P Require Import NodeRequest NodeDiagnostics NodeOutput.

(** ** Models *)
Section models.
Context `{!PyUnicode, !FloatRepr}.
Variable catalogue : option (list jdict).

(** [os.path.basename] *)
Definition basename (path : pystr) : pystr :=
  PyStr (default [] (last (split_codes 47 (codes path)))).

Definition _api_v1_model_path_basename (model_path : option pystr) : option pystr :=
  match model_path with
  | Some path => if py_empty (basename path) then None else Some (basename path)
  | None => None
  end.

(** [{str(value).strip().lower() for value in l if value}] of texts *)
Definition normalised_ids (l : list pystr) : list pystr :=
  map (fun s => py_lower (py_strip s)) (bfilter (fun s => negb (py_empty s)) l).

(** The texts of an entry; the catalogue holds texts under these keys. *)
Definition _normalised_model_ids_from_api_v1_entry (entry : jdict) : list pystr :=
  let file_name := str_value (jget entry "file_name") in
  bfilter (fun s => negb (py_empty s))
    (normalised_ids [str_value (jget entry "id"); str_value (jget entry "base_model_id");
                     file_name; basename file_name]).

Definition meets (a b : list pystr) : bool := existsb (fun x => pystr_in x b) a.

Definition _api_v1_catalogue_ids_for_configured_runtime (configured_ids : list pystr) : list pystr :=
  match catalogue with
  | None => []
  | Some entries =>
      concat (map (fun entry =>
        let entry_ids := _normalised_model_ids_from_api_v1_entry entry in
        if meets entry_ids configured_ids then entry_ids else []) entries)
  end.

(** The alias table's word for a model, when the catalogue lists its target; the alias
    table itself otherwise *)
Definition _api_v1_catalogue_resolved_model_id (model_id : pystr) : pystr :=
  match catalogue with
  | None => model_id
  | Some _ => match dget MODEL_ALIASES model_id with
              | Some target => if py_empty (py_strip target) then model_id else py_lower (py_strip target)
              | None => model_id
              end
  end.

Definition _api_v1_requested_model_ids (model_id : pystr) : list pystr :=
  let normalized_model := py_lower (py_strip model_id) in
  bfilter (fun s => negb (py_empty s))
    ([normalized_model] ++ match dget build_model_aliases normalized_model with
                           | Some target => [target]
                           | None => []
                           end
     ++ [_api_v1_catalogue_resolved_model_id normalized_model]).

(** The names the manager was configured with *)
Definition configured_names (m : node_manager) : list pystr :=
  omap id [nm_api_model_id m; nm_model_id m; nm_file_name m;
           _api_v1_model_path_basename (nm_model_path m)].

Definition _runtime_model_can_satisfy (m : node_manager) (model_id : pystr) : bool :=
  let normalized_model := py_lower (py_strip model_id) in
  if py_empty normalized_model then false
  else
    let requested_ids := _api_v1_requested_model_ids normalized_model in
    match nm_supports_api_v1_model m with
    | Some supports => existsb supports requested_ids
    | None =>
        if nm_use_mock_llm m then true
        else
          let configured_ids := normalised_ids (configured_names m) in
          meets requested_ids configured_ids
          || meets requested_ids (_api_v1_catalogue_ids_for_configured_runtime configured_ids)
    end.

(** [sorted] of a set *)
Definition sorted_set (l : list pystr) : list pystr := py_sorted pystr_leb (remove_dups l).

Definition _api_v1_supported_model_ids (m : node_manager) : list pystr :=
  let model_ids := map (fun s => py_lower (py_strip s))
    (bfilter (fun s => negb (py_empty (py_strip s))) (configured_names m)) in
  let model_ids := match nm_supports_api_v1_model m with
    | Some supports => bfilter supports (model_ids ++ dkeys build_model_aliases ++ dvalues build_model_aliases)
    | None => model_ids ++ _api_v1_catalogue_ids_for_configured_runtime model_ids
    end in
  sorted_set (bfilter (fun s => negb (has_suffix s ".gguf")) model_ids).

(** [diagnostics]: [last_compute_diagnostics], when it is a dictionary; its entries are
    texts. *)
Definition _api_v1_compute_node_capabilities (m : node_manager) (diagnostics : option jdict) : jdict :=
  let context_tier := active_tier m in
  let profile := match get_context_profile (Some context_tier) with
                 | inr p => p
                 | inl _ => MkContextProfile context_tier "" 0 0 false
                 end in
  let backend_class := match diagnostics with
    | Some d => py_lower (py_strip (str_value
        (json_or (json_or (json_or (jget d "backend_used") (jget d "backend_selected"))
                          (jget d "backend_available")) (JStr "unknown"))))
    | None => "unknown"%pystr
    end in
  [("api_version", JStr "v1"); ("supported_model_ids", jstrs (_api_v1_supported_model_ids m));
   ("active_context_tier", JStr (cp_profile_id profile));
   ("maximum_total_context_tokens", JInt (cp_total_context_tokens profile));
   ("default_output_token_reservation", JInt (cp_default_output_reservation_tokens profile));
   ("maximum_output_tokens", JInt (Z.max (cp_default_output_reservation_tokens profile) _API_V1_MAX_TOKENS_LIMIT));
   ("max_concurrency", JInt 1);
   ("backend_class", JStr (if pystr_in backend_class
        ["cpu"; "cuda"; "metal"; "vulkan"; "gpu"; "unknown"]%pystr then backend_class else "unknown"))]%pystr.
End models.

(** ** The arguments of a completion *)

Record runtime_health : Set := MkHealth {
  runtime_healthy : bool;
  recovery_attempted : bool;
  recovery_succeeded : bool
}.

Record gen_state : Type := MkGen {
  gs_filtered : list pystr;
  gs_supported : list pystr;
  gs_render_error : option jdict;
  gs_calls : list jdict;
  gs_health : runtime_health;
  gs_prompt_tokens : option Z;
  gs_requested : option Z
}.

Notation GM := (SM gen_state runtime_exn).

Definition set_filters (f s : list pystr) (g : gen_state) : gen_state :=
  MkGen f s (gs_render_error g) (gs_calls g) (gs_health g) (gs_prompt_tokens g) (gs_requested g).
Definition set_render_error (e : option jdict) (g : gen_state) : gen_state :=
  MkGen (gs_filtered g) (gs_supported g) e (gs_calls g) (gs_health g) (gs_prompt_tokens g) (gs_requested g).
Definition add_call (kwargs : jdict) (g : gen_state) : gen_state :=
  MkGen (gs_filtered g) (gs_supported g) (gs_render_error g) (gs_calls g ++ [kwargs]) (gs_health g)
    (gs_prompt_tokens g) (gs_requested g).
Definition set_health (h : runtime_health) (g : gen_state) : gen_state :=
  MkGen (gs_filtered g) (gs_supported g) (gs_render_error g) (gs_calls g) h (gs_prompt_tokens g) (gs_requested g).
Definition set_counts (prompt requested : option Z) (g : gen_state) : gen_state :=
  MkGen (gs_filtered g) (gs_supported g) (gs_render_error g) (gs_calls g) (gs_health g) prompt requested.

Definition json_of (v : json) : jdict := match v with JDict d => d | _ => [] end.

(** [for key in keys: if key in from: onto[key] = from[key]], then what was refused is
    left out and the client's options win. *)
Definition _api_v1_runtime_completion_kwargs (m : node_manager) (filtered : list pystr) (safe_options : jdict) :
  jdict :=
  let completion_kwargs := [("max_tokens", JInt (nm_max_tokens m)); ("temperature", nm_temperature m);
    ("top_p", nm_top_p m); ("stop", nm_stop_tokens m); ("stream", JBool false)]%pystr in
  let completion_kwargs := copy_keys ["temperature"; "top_p"; "top_k"; "stop"]%pystr
    (json_of (jget (nm_model_profile m) "generation_defaults")) completion_kwargs in
  let completion_kwargs := fold_left (fun d key =>
    if negb (dmem safe_options key) && negb (pystr_in key ["messages"; "max_tokens"; "stream"]%pystr)
    then ddel d key else d) filtered completion_kwargs in
  dset (fold_left (fun d kv => dset d kv.1 kv.2) safe_options completion_kwargs) "stream" (JBool false).

(** Every key but [messages] *)
Definition _api_v1_attempted_generation_kwargs (kwargs : jdict) : list pystr :=
  py_sorted pystr_leb (bfilter (fun k => negb (bool_decide (k = "messages"%pystr))) (dkeys kwargs)).

Definition set_add (x : pystr) (l : list pystr) : list pystr := if pystr_in x l then l else l ++ [x].

Definition _api_v1_remember_generation_kwargs (attempted : list pystr) (rejected : option pystr) : GM unit :=
  modify (fun g =>
    let filtered := match rejected with Some r => set_add r (gs_filtered g) | None => gs_filtered g end in
    let supported := bfilter (fun k => negb (pystr_in k filtered)) attempted in
    set_filters filtered (fold_left (fun l k => set_add k l) supported (gs_supported g)) g).

(** [text(d[k])] when it is a text *)
Definition text_at (d : jdict) (k : pystr) : option pystr :=
  match jget d k with JStr s => Some s | _ => None end.

Section generation.
Context `{!PyUnicode, !PyWords, !FloatRepr}.

(** The safe part of what a request error of the worker reports *)
Definition worker_report (e : runtime_exn) : jdict :=
  if _is_llama_cpp_inference_request_error e then _safe_worker_diagnostics (ex_diagnostics e) else [].

(** The argument the runtime refused, if it is one of those it was called with *)
Definition rejected_argument (e : runtime_exn) (attempted : list pystr) : option pystr :=
  let safe_worker := worker_report e in
  let rejected := match text_at safe_worker "rejected_generation_kwarg" with
    | Some r => Some r
    | None => match text_at safe_worker "rejected_option" with
              | Some r => Some r
              | None => _extract_unsupported_generation_kwarg (ex_text e) (Some attempted)
              end
    end in
  match rejected with
  | Some r => if pystr_in r attempted then Some r else None
  | None => None
  end.

Definition failure_category (e : runtime_exn) : pystr :=
  match text_at (worker_report e) "generation_exception_category" with
  | Some c => c
  | None => _classify_safe_generation_exception (ex_class e) (ex_text e)
  end.

(** One completion: the next answer of the runtime *)
Definition call_runtime (complete : nat -> list json -> jdict -> runtime_exn + json) (l : list json)
  (kwargs : jdict) : GM json :=
  fun g => (add_call kwargs g, complete (length (gs_calls g)) l kwargs).

(** [try: m except Exception as exc: h exc] *)
Definition catch {A} (m : GM A) (h : runtime_exn -> GM A) : GM A := fun g =>
  match m g with
  | (g', inl e) => h e g'
  | r => r
  end.

(** An attempt that is repeated without a refused argument at most [n] more times.
    [removable]: what may be left out on this failure *)
Fixpoint filtered_calls (n : nat) (kwargs_of : list pystr -> list pystr -> jdict)
  (complete : nat -> list json -> jdict -> runtime_exn + json)
  (removable : runtime_exn -> list pystr -> runtime_exn + pystr) (l : list json) (removed : list pystr) : GM json :=
  let* g := get_state in
  let kwargs := kwargs_of (gs_filtered g) removed in
  let attempted := _api_v1_attempted_generation_kwargs kwargs in
  catch
    (let* result := call_runtime complete l kwargs in
     _api_v1_remember_generation_kwargs attempted None ;;;
     ret result)
    (fun e =>
       match removable e attempted, n with
       | inl e', _ => raise e'
       | inr _, O => raise e
       | inr rejected, S n' =>
           _api_v1_remember_generation_kwargs attempted (Some rejected) ;;;
           filtered_calls n' kwargs_of complete removable l (removed ++ [rejected])
       end).

(** A direct completion leaves out what the client did not ask for. *)
Definition removable_direct (client_option_names : list pystr) (e : runtime_exn) (attempted : list pystr) :
  runtime_exn + pystr :=
  match rejected_argument e attempted with
  | Some rejected =>
      if negb (bool_decide (failure_category e = "unsupported_generation_kwarg"%pystr))
         || py_empty rejected || pystr_in rejected client_option_names
         || pystr_in rejected ["messages"; "max_tokens"; "stream"]%pystr
      then inl e else inr rejected
  | None => inl e
  end.

Definition _api_v1_create_chat_completion_filtered (m : node_manager)
  (create_chat_completion : nat -> list json -> jdict -> runtime_exn + json) (l : list json)
  (safe_options : jdict) : GM json :=
  filtered_calls 3 (fun filtered _ => _api_v1_runtime_completion_kwargs m filtered safe_options)
    create_chat_completion (removable_direct (dkeys safe_options)) l [].

(** The hard switch cannot be left out. *)
Definition hard_switch_error : runtime_exn :=
  MkRuntimeExn "LlamaCppInferenceRequestError" "runtime_qwen_non_thinking_hard_switch_unavailable"
    (JDict [("code", JStr "compute_node_runtime_unavailable");
            ("reason", JStr "runtime_qwen_non_thinking_hard_switch_unavailable");
            ("internal_reason", JStr "runtime_qwen_non_thinking_hard_switch_unavailable");
            ("rejected_generation_kwarg", JStr "enable_thinking");
            ("generation_exception_category", JStr "qwen_non_thinking_hard_switch_unavailable");
            ("retryable", JBool false)]%pystr) None.

Definition removable_rendered (model_profile : jdict) (client_option_names : list pystr) (e : runtime_exn)
  (attempted : list pystr) : runtime_exn + pystr :=
  match rejected_argument e attempted with
  | Some rejected =>
      if _api_v1_qwen_non_thinking_required model_profile && bool_decide (rejected = "enable_thinking"%pystr)
      then inl hard_switch_error
      else if negb (pystr_in (failure_category e)
                     ["unsupported_generation_kwarg"; "unsupported_render_kwarg"]%pystr)
              || py_empty rejected
              || (pystr_in rejected client_option_names && negb (bool_decide (rejected = "top_k"%pystr)))
              || pystr_in rejected ["messages"; "max_tokens"; "stream"; "seed"; "enable_thinking"]%pystr
      then inl e else inr rejected
  | None => inl e
  end.

(** Left out since the runtime refused it, now or before *)
Definition is_removed (non_thinking : bool) (safe_options : jdict) (filtered removed : list pystr) (k : pystr) : bool :=
  (pystr_in k removed || (pystr_in k filtered && negb (dmem safe_options k)))
  && negb (non_thinking && bool_decide (k = "enable_thinking"%pystr)).

(** The prompt's length limit and what the renderer is told *)
Definition rendered_kwargs (m : node_manager) (safe_options : jdict) (filtered removed : list pystr) : jdict :=
  let model_profile := nm_model_profile m in
  let non_thinking := _api_v1_qwen_non_thinking_required model_profile in
  let limit := match jget (_api_v1_runtime_completion_kwargs m filtered safe_options) "max_tokens" with
               | JInt n => if n =? 0 then 64 else n
               | _ => 64
               end in
  bfilter (fun kv => negb (is_removed non_thinking safe_options filtered removed kv.1))
    ([("max_tokens"%pystr, JInt limit)] ++ profile_kwargs model_profile
     ++ (if non_thinking then [("enable_thinking"%pystr, JBool false)] else [])).

Definition _api_v1_create_completion_from_rendered_prompt_filtered (m : node_manager)
  (complete : nat -> list json -> jdict -> runtime_exn + json) (l : list json) (safe_options : jdict) : GM json :=
  filtered_calls 3 (rendered_kwargs m safe_options) complete
    (removable_rendered (nm_model_profile m) (dkeys safe_options)) l [].

(** ** Errors *)

(** [d.setdefault(k, v)] *)
Definition set_default (k : pystr) (v : json) (d : jdict) : jdict := if dmem d k then d else dset d k v.

Definition set_default_opt (k : pystr) (v : option json) (d : jdict) : jdict :=
  match v with Some x => set_default k x d | None => d end.

(** A count that is reported: an integer that is not negative *)
Definition reported_count (n : option Z) : option json :=
  match n with Some z => if 0 <=? z then Some (JInt z) else None | None => None end.

(** A text that is reported: not empty *)
Definition reported_text (s : option pystr) : option json :=
  match s with Some x => if py_empty x then None else Some (JStr x) | None => None end.

Definition _api_v1_enrich_safe_error (m : node_manager) (health : runtime_health) (error : jdict)
  (request_id requested_context_tier : pystr) (prompt_tokens requested_output_tokens : option Z)
  (internal_reason rejected_option : option pystr) (retryable : option bool) : jdict :=
  let enriched := dset error "request_id" (JStr request_id) in
  let enriched := set_default "active_context_tier" (JStr (active_tier m)) enriched in
  let enriched := set_default "requested_context_tier"
                    (JStr (normalize_context_tier (Some requested_context_tier))) enriched in
  let total := match tier_tokens (str_value (jget enriched "active_context_tier")) with
               | Some total => total
               | None => default 0 (tier_tokens DEFAULT_CONTEXT_TIER)
               end in
  let enriched := set_default "configured_context_tokens" (JInt (window_or m total)) enriched in
  let enriched := set_default_opt "prompt_tokens" (reported_count prompt_tokens) enriched in
  let enriched := set_default_opt "requested_output_tokens" (reported_count requested_output_tokens) enriched in
  let enriched := set_default_opt "internal_reason" (reported_text internal_reason) enriched in
  let enriched := set_default_opt "rejected_option" (reported_text rejected_option) enriched in
  let enriched := set_default_opt "retryable" (JBool <$> retryable) enriched in
  let enriched := set_default "runtime_healthy" (JBool (runtime_healthy health)) enriched in
  let enriched := set_default "recovery_attempted" (JBool (recovery_attempted health)) enriched in
  set_default "recovery_succeeded" (JBool (recovery_succeeded health)) enriched.

Definition healthy : runtime_health := MkHealth true false false.

Definition coded (code message : pystr) : jdict := [("code", JStr code); ("message", JStr message)]%pystr.

(** The reason that a request error of the worker is reported with *)
Definition request_error_reason (safe : jdict) : pystr :=
  match text_at safe "generation_exception_category" with
  | Some c =>
      if pystr_in c ["metal_memory_allocation"; "kv_cache_allocation"; "rope_yarn_eval_failure";
                     "worker_timeout"; "worker_dead"; "unsupported_render_kwarg";
                     "prompt_tokenization_failure"; "prompt_eval_failure"; "sampling_failure"]%pystr
      then "runtime_" +++ c
      else if bool_decide (c = "unsupported_generation_kwarg"%pystr) then "unsupported_generation_option"
      else default "runtime_rejected_generation_options"%pystr (text_at safe "reason")
  | None => default "runtime_rejected_generation_options"%pystr (text_at safe "reason")
  end.

Definition request_error_code (safe : jdict) : pystr :=
  if jeq_str (jget safe "code") "compute_node_invalid_request" then "compute_node_invalid_request"
  else if jeq_str (jget safe "code") "compute_node_options_unsupported"
          || bool_decide (request_error_reason safe = "unsupported_generation_option"%pystr)
  then "compute_node_options_unsupported"
  else "compute_node_internal_error".

Definition reported_keys : list pystr :=
   ["rejected_generation_kwarg"; "attempted_generation_kwargs";
    "attempted_plain_completion_methods"; "method"; "generation_exception_category";
    "result_shape"; "plain_completion_create_completion_callable";
    "plain_completion_llama_call_callable"; "plain_completion_signature_inspectable";
    "plain_completion_accepts_prompt_kwarg"; "plain_completion_accepts_max_tokens_kwarg";
    "plain_completion_accepts_var_kwargs"; "plain_completion_reset_after_failure_count";
    "plain_completion_prompt_tokenization_attempted";
    "plain_completion_prompt_tokenization_variant_count";
    "plain_completion_prompt_tokenization_variant_ids";
    "plain_completion_prompt_tokenization_token_counts";
    "plain_completion_prompt_tokenization_special_values";
    "plain_completion_prompt_tokenization_selected_variant";
    "plain_completion_prompt_tokenization_selected_token_count";
    "plain_completion_prompt_tokenization_selected_special"; "plain_completion_attempt_methods";
    "plain_completion_attempt_categories"; "plain_completion_attempt_exception_types";
    "plain_completion_attempt_safe_summaries"; "plain_completion_attempt_rejected_kwargs";
    "plain_completion_attempt_result_shapes"; "plain_completion_attempt_tokenization_variants";
    "plain_completion_attempt_count"; "qwen_high_level_chat_fallback_attempted";
    "qwen_high_level_chat_fallback_supported"; "qwen_high_level_chat_fallback_succeeded";
    "qwen_high_level_chat_fallback_rejected_kwarg"; "qwen_high_level_chat_fallback_category";
    "plain_completion_eval_return_code"; "plain_completion_first_failure_method";
    "plain_completion_backend_failure_category"; "plain_completion_backend_state_sticky";
    "plain_completion_backend_recreation_required"; "plain_completion_metal_error_category";
    "plain_completion_metal_command_buffer_status"; "plain_completion_prompt_token_count";
    "plain_completion_prompt_tokenization_method"; "plain_completion_prompt_tokenization_special";
    "plain_completion_prompt_tokenization_error_category";
    "qwen_api_v1_non_thinking_template_fallback"]%pystr.

(** What is reported of a request error *)
Definition request_error (safe : jdict) : jdict :=
  fold_left (fun d k => match jget safe k with JNull => d | v => dset d k v end) reported_keys
    [("code", JStr (request_error_code safe));
     ("message", JStr "Desktop runtime rejected the inference request");
     ("exception_category", opt_json (text_at safe "generation_exception_category"));
     ("exception_type", jget safe "exception_type"); ("worker_diagnostics", JDict safe)]%pystr.

(** [exc.__class__.__name__.startswith("LlamaCpp") and "Worker" in ...] *)
Definition _is_llama_cpp_restartable_worker_error (class_name : pystr) : bool :=
  py_startswith class_name "LlamaCpp" && py_contains "Worker" class_name.

(** Did the failure make the manager replace its worker? *)
Definition replaced_worker (e : runtime_exn) : bool :=
  let text := py_lower (ex_text e) in
  py_contains "replacement" text || py_contains "restart" text
  || match ex_cause e with Some c => _is_llama_cpp_restartable_worker_error c | None => false end.

(** The length limit was reached, or tools are asked for, or the model is done. *)
Definition inferred_finish_reason (message : jdict) (usage : option jdict) (effective : Z) : pystr :=
  let stopped := if truthy (jget message "tool_calls") then "tool_calls"%pystr else "stop"%pystr in
  match match usage with Some u => jget u "completion_tokens" | None => JNull end with
  | JInt n => if effective <=? n then "length"%pystr else stopped
  | JBool b => if effective <=? Z.b2z b then "length"%pystr else stopped
  | _ => stopped
  end.

Definition finish_reason_of (completion : json) (message : jdict) (usage : option jdict) (effective : Z) : pystr :=
  match match first_choice completion with Some choice => jget choice "finish_reason" | None => JNull end with
  | JStr s => if py_empty s then inferred_finish_reason message usage effective else s
  | _ => inferred_finish_reason message usage effective
  end.

(** ** The answer to a request *)
Section answer.
Context (catalogue : option (list jdict)) (m : node_manager).

(** An error envelope, with what is known when it is made *)
Definition error_answer (request_id tier : pystr) (error : jdict) (reason rejected : option pystr)
  (retryable : option bool) (g : gen_state) : jdict :=
  error_envelope request_id
    (_api_v1_enrich_safe_error m (gs_health g) error request_id tier (gs_prompt_tokens g) (gs_requested g)
       reason rejected retryable).

Definition answer_error (request_id tier : pystr) (error : jdict) (reason rejected : option pystr)
  (retryable : option bool) : GM jdict :=
  fun g => (g, inr (error_answer request_id tier error reason rejected retryable g)).

(** The [except Exception] of the answer *)
Definition failure_answer (request_id tier : pystr) (e : runtime_exn) (g : gen_state) : gen_state * jdict :=
  if _is_llama_cpp_inference_request_error e then
    let safe := _safe_worker_diagnostics (ex_diagnostics e) in
    let g := set_health healthy g in
    let rejected := match text_at safe "rejected_option" with
                    | Some o => Some o
                    | None => text_at safe "rejected_generation_kwarg"
                    end in
    (g, error_answer request_id tier (request_error safe) (Some (request_error_reason safe)) rejected None g)
  else
    let replaced := replaced_worker e in
    let g := set_health (MkHealth (negb replaced) replaced false) g in
    let category := _classify_safe_generation_exception (ex_class e) (ex_text e) in
    let unsupported := bool_decide (category = "unsupported_generation_kwarg"%pystr) in
    let reason := if unsupported then "unsupported_generation_option"%pystr
      else if pystr_in category ["metal_memory_allocation"; "kv_cache_allocation"; "rope_yarn_eval_failure";
                                 "worker_timeout"; "worker_dead"]%pystr
      then "runtime_" +++ category else "runtime_inference_failed"%pystr in
    (g, error_answer request_id tier
      [("code", JStr (if unsupported then "compute_node_options_unsupported" else "compute_node_internal_error"));
       ("message", JStr "Desktop runtime inference failed"); ("exception_type", JStr (ex_class e));
       ("exception_category", JStr category)]%pystr
      (Some reason) (if unsupported then _extract_unsupported_generation_kwarg (ex_text e) None else None) None g).

(** The loaded model: the manager's, else the one its recovery finds *)
Definition obtain_llm : GM (option llm_runtime) :=
  let* llm := match nm_get_llm_instance m with Some r => lift_val r | None => ret None end in
  match llm, nm_with_recovery m, nm_get_llm_instance_with_recovery m with
  | None, Some _, Some recover =>
      modify (fun g => set_health (MkHealth (runtime_healthy (gs_health g)) true
                                     (recovery_succeeded (gs_health g))) g) ;;;
      let* llm := lift_val recover in
      modify (fun g => set_health (MkHealth (runtime_healthy (gs_health g)) (recovery_attempted (gs_health g))
                                     (if llm is Some _ then true else false)) g) ;;;
      ret llm
  | _, _, _ => ret llm
  end.

(** An error with its reason, the rejected option and whether a retry may help *)
Definition refusal : Type := jdict * option pystr * option pystr * option bool.

Definition bridge_unavailable : refusal :=
  ([("code", JStr "compute_node_runtime_unavailable");
    ("message", JStr "Qwen API v1 render-complete bridge is unavailable");
    ("internal_reason", JStr "qwen_render_complete_bridge_unavailable")]%pystr, None, None, None).

Definition plain_option_unsupported (rejected_option : pystr) : refusal :=
  ([("code", JStr "compute_node_options_unsupported");
    ("message", JStr ("Requested option is unsupported by the Qwen plain completion runtime: "
                      +++ rejected_option));
    ("exception_category", JStr "unsupported_generation_kwarg")]%pystr,
   Some "unsupported_generation_option"%pystr, Some rejected_option, Some false).

(** The completion for an admitted conversation *)
Definition complete_admitted (llm : option llm_runtime) (l : list json) (safe_options : jdict) :
  GM (refusal + json) :=
  if _api_v1_qwen_non_thinking_required (nm_model_profile m) then
    match llm ≫= lr_from_rendered_prompt with
    | None => ret (inl bridge_unavailable)
    | Some complete =>
        match py_sorted pystr_leb
                (bfilter (fun k => negb (pystr_in k ["max_tokens"; "stream"]%pystr)) (dkeys safe_options)) with
        | rejected_option :: _ => ret (inl (plain_option_unsupported rejected_option))
        | [] =>
            let* completion :=
              _api_v1_create_completion_from_rendered_prompt_filtered m complete l safe_options in
            ret (inr completion)
        end
    end
  else
    match match nm_with_recovery m with Some c => Some c | None => llm ≫= lr_create_chat_completion end with
    | None => ret (inr JNull)
    | Some complete =>
        let* completion := _api_v1_create_chat_completion_filtered m complete l safe_options in
        ret (inr completion)
    end.

(** The envelope for a completion *)
Definition read_completion (request_id tier : pystr) (budget : token_budget) (completion : json) : GM jdict :=
  match _assistant_message_from_runtime_completion (nm_model_profile m) completion with
  | inl invalid_reason =>
      answer_error request_id tier
        (coded "compute_node_invalid_model_output" "Desktop runtime returned invalid assistant output")
        (Some invalid_reason) None None
  | inr message =>
      let usage := match completion with
                   | JDict c => match jget c "usage" with JDict u => Some u | _ => None end
                   | _ => None
                   end in
      ret (message_envelope request_id message
        (Some (finish_reason_of completion message usage (tb_effective_output_tokens budget))) usage
        (Some [("requested_tokens", JInt (tb_requested_output_tokens budget));
               ("available_tokens", JInt (tb_available_output_tokens budget));
               ("effective_tokens", JInt (tb_effective_output_tokens budget))]%pystr))
  end.

(** Admission with the runtime that was found, and the completion *)
Definition admit_and_complete (request_id tier : pystr) (l : list json) (safe_options : jdict)
  (llm : option llm_runtime) : GM jdict :=
  let* g := get_state in
  let output_tokens :=
    match jget (_api_v1_runtime_completion_kwargs m (gs_filtered g) safe_options) "max_tokens" with
    | JInt n => n
    | _ => 0
    end in
  let '(admission, err) :=
    _api_v1_authoritative_context_admission m llm l output_tokens tier (gs_render_error g) in
  modify (set_render_error err) ;;;
  match admission with
  | inl (admission_error, budget) =>
      modify (set_counts (tb_prompt_tokens <$> budget) (Some output_tokens)) ;;;
      answer_error request_id tier admission_error None None None
  | inr budget =>
      modify (set_counts (Some (tb_prompt_tokens budget)) (Some output_tokens)) ;;;
      let* result := complete_admitted llm l
        (dset safe_options "max_tokens" (JInt (tb_effective_output_tokens budget))) in
      match result with
      | inl (error, reason, rejected, retryable) => answer_error request_id tier error reason rejected retryable
      | inr completion => read_completion request_id tier budget completion
      end
  end.

(** The part of the answer whose exceptions are answered *)
Definition runtime_answer (request_id tier : pystr) (l : list json) (safe_options : jdict) : GM jdict :=
  let* llm := obtain_llm in
  match llm, nm_with_recovery m with
  | None, None =>
      modify (set_health (MkHealth false false false)) ;;;
      answer_error request_id tier (coded "compute_node_internal_error" "Desktop runtime inference failed")
        (Some "runtime_initialization_failed"%pystr) None None
  | _, _ => admit_and_complete request_id tier l safe_options llm
  end.

Definition answered (request_id tier : pystr) (l : list json) (safe_options : jdict) (g : gen_state) :
  gen_state * jdict :=
  match runtime_answer request_id tier l safe_options g with
  | (g', inr envelope) => (g', envelope)
  | (g', inl e) => failure_answer request_id tier e g'
  end.

(** The error for rejected options *)
Definition option_error (rejection : option_rejection) : refusal :=
  let '(code, name) := rejection in
  let invalid := bool_decide (code = "compute_node_invalid_request"%pystr) in
  (coded code ((if invalid then "Requested option is invalid for the desktop runtime: "
                else "Requested option is unsupported by the desktop runtime: ") +++ name),
   Some (if invalid then "invalid_generation_option" else "unsupported_generation_option")%pystr,
   Some name, Some false).

Definition refused (request_id tier : pystr) (r : refusal) (g : gen_state) : jdict :=
  let '(error, reason, rejected, retryable) := r in
  error_answer request_id tier error reason rejected retryable g.

Definition model_unsupported : refusal :=
  (coded "compute_node_model_unsupported" "Requested model is not available in the desktop runtime",
   None, None, None).

Definition no_direct_completion : refusal :=
  (coded "compute_node_model_unsupported"
     "Desktop runtime does not expose API v1 non-streaming chat completion",
   Some "direct_runtime_completion_unavailable"%pystr, None, Some false).

(** The errors of [node_error] are raised before anything is generated. *)
Definition _generate_api_v1_response_with_runtime_model (request_id model_id : pystr) (l : list json)
  (options : jdict) (tier : pystr) : SM gen_state node_error jdict :=
  modify (fun g => set_counts None None (set_health healthy g)) ;;;
  let* g := get_state in
  let* validation_result := lift_val (_validate_api_v1_chat_messages (JList l)) in
  if negb (valid validation_result) then
    ret (error_envelope request_id (_api_v1_chat_validation_error validation_result))
  else if negb (_runtime_model_can_satisfy catalogue m model_id) then
    ret (refused request_id tier model_unsupported g)
  else
    match _api_v1_validate_and_normalise_options options with
    | inl rejection => ret (refused request_id tier (option_error rejection) g)
    | inr safe_options =>
        match nm_get_llm_instance m, nm_with_recovery m with
        | None, None => ret (refused request_id tier no_direct_completion g)
        | _, _ =>
            let* runtime_messages := lift_val (_prepare_api_v1_runtime_messages model_id l) in
            fun g => let '(g', envelope) := answered request_id tier runtime_messages safe_options g in
                     (g', inr envelope)
        end
    end.
End answer.
End generation.
