(* ===== verification/NodeSupervise.v ===== *)
(** * utils/networking/relay_client.py: supervising an inference

    While the model runs in its own thread, the supervisor watches four things that change
    without it: the clock, the operator's stop, whether the inference is done, and the
    relay's word on the request.  It ends with the answer or with a reason to end the
    worker.

    Every look at the outside is one reading of [Watch], so that the readings of a run can
    be any interleaving.  The loop is a step that is repeated until it raises how it ends;
    waiting itself has no effect but that time passes.  The supervisor's log lines and the
    executors' teardown, which changes no outcome, are left out. *)

From S2P Require Import Prelude PyFloat PyStr PyDict PyText PyRegex Json Profiles NodeRequest.
From S2P Require Import NodeDiagnostics NodeOutput NodeGenerate.
From Stdlib Require Import Floats.SpecFloat.

(** What one request for the relay's word came to *)
Inductive control_outcome : Type :=
| ControlGives (control : jdict)
| ControlForbidden
| ControlFails.

(** One look at the outside *)
Record reading : Type := MkReading {
  rd_time : float64;
  rd_stopped : bool;
  rd_latched : bool;
  rd_inference_done : bool;
  rd_control_done : bool;
  rd_woken : bool
}.

(** The readings in order, and what the k-th control request comes to *)
Class Watch : Type := {
  watch : nat -> reading;
  control_result : nat -> control_outcome
}.

(** The deadline, the relay's turn, the pause after a failure, the control request under way
    and the timeouts of all so far *)
Record sup_state : Type := MkSup {
  ss_looks : nat;
  ss_deadline : float64;
  ss_next_poll_at : float64;
  ss_backoff : float64;
  ss_control_future : option nat;
  ss_controls : list float64
}.

Definition look_once (s : sup_state) : sup_state :=
  MkSup (S (ss_looks s)) (ss_deadline s) (ss_next_poll_at s) (ss_backoff s) (ss_control_future s) (ss_controls s).
Definition set_deadline (d : float64) (s : sup_state) : sup_state :=
  MkSup (ss_looks s) d (ss_next_poll_at s) (ss_backoff s) (ss_control_future s) (ss_controls s).
Definition set_next_poll (t : float64) (s : sup_state) : sup_state :=
  MkSup (ss_looks s) (ss_deadline s) t (ss_backoff s) (ss_control_future s) (ss_controls s).
Definition set_backoff (b : float64) (s : sup_state) : sup_state :=
  MkSup (ss_looks s) (ss_deadline s) (ss_next_poll_at s) b (ss_control_future s) (ss_controls s).
Definition set_control (c : option nat) (s : sup_state) : sup_state :=
  MkSup (ss_looks s) (ss_deadline s) (ss_next_poll_at s) (ss_backoff s) c (ss_controls s).
Definition add_control (timeout : float64) (s : sup_state) : sup_state :=
  MkSup (ss_looks s) (ss_deadline s) (ss_next_poll_at s) (ss_backoff s) (ss_control_future s)
    (ss_controls s ++ [timeout]).

(** How the loop ends: with the inference's result, or with a terminal reason; [StillWatching]
    is the fuel running out. *)
Inductive sup_exit : Type :=
| Inferred (envelope : jdict)
| Terminal (status reason : pystr)
| StillWatching.

Notation WM := (SM sup_state sup_exit).

Definition _API_V1_TERMINAL_CONTROL_STATUS_MAP : dict pystr pystr :=
  [("cancelled", "cancelled"); ("expired", "expired"); ("completed", "completed");
   ("unavailable", "unavailable"); ("completed/unavailable", "completed_unavailable")]%pystr.

Definition f0_002 : float64 := S754_finite false 4611686018427388 (-61).
Definition f4 : float64 := S754_finite false 4503599627370496 (-50).

(** [_API_V1_MAX_CONTROL_TIMEOUT_SECONDS] *)
Definition _API_V1_MAX_CONTROL_TIMEOUT_SECONDS : float64 := f4.

Section supervise.
Context `{!PyUnicode, !PyNumbers, !Watch}.

Definition look {A} (field : reading -> A) : WM A := fun s => (look_once s, inr (field (watch (ss_looks s)))).

Definition clock : WM float64 := look rd_time.

Definition terminal {A} (reason : pystr) : WM A := raise (Terminal reason reason).

(** [str(control.get("status") or "").lower()] of a text, which is all a relay sends *)
Definition control_status (control : jdict) : pystr :=
  py_lower (match json_or (jget control "status") (JStr "") with JStr s => s | _ => "" end).

(** A stop that has not latched yet ends the supervision. *)
Definition stop_check : WM unit :=
  let* stopped := look rd_stopped in
  if stopped then
    let* latched := look rd_latched in
    if latched then ret tt else terminal "operator_stop"
  else ret tt.

Definition deadline_check (now : float64) : WM unit :=
  let* s := get_state in
  if fle (ss_deadline s) now then terminal "local_deadline" else ret tt.

(** The inference has raised: a terminal word of the relay that is there already wins. *)
Definition inference_raised : WM unit :=
  let* s := get_state in
  match ss_control_future s with
  | None => terminal "inference_failure"
  | Some k =>
      let* done := look rd_control_done in
      match done, control_result k with
      | true, ControlGives control =>
          match dget _API_V1_TERMINAL_CONTROL_STATUS_MAP (control_status control) with
          | Some reason => raise (Terminal (control_status control) reason)
          | None => terminal "inference_failure"
          end
      | _, _ => terminal "inference_failure"
      end
  end.

Section loop.
Context (control_available : bool) (future : node_error + jdict) (request_timeout : float64).

(** [future.done()], and what follows from it *)
Definition inference_check : WM unit :=
  let* done := look rd_inference_done in
  if done then
    stop_check ;;;
    match future with
    | inr envelope => raise (Inferred envelope)
    | inl _ => inference_raised
    end
  else ret tt.

(** Between the looks at a control request that is not done *)
Fixpoint await_control (fuel : nat) : WM unit :=
  match fuel with
  | O => raise StillWatching
  | S fuel' =>
      let* done := look rd_control_done in
      if done then ret tt
      else
        let* stopped := look rd_stopped in
        if stopped then terminal "operator_stop"
        else
          let* now := clock in
          deadline_check now ;;;
          await_control fuel'
  end.

(** The timeout of a control request *)
Definition control_timeout (remaining : float64) : float64 :=
  fmax f0_001 (fmin (fmin (fmin (if feq request_timeout f0 then float_near 10 else request_timeout)
                                _API_V1_MAX_CONTROL_TIMEOUT_SECONDS)
                          (fmul remaining f0_8))
                    (fmax f0_001 (fsub remaining f0_001))).

(** [except Exception]: again after a pause that doubles *)
Definition control_failed : WM unit :=
  modify (set_control None) ;;;
  let* now := clock in
  modify (fun s => set_next_poll (fmin (fadd now (ss_backoff s)) (ss_deadline s)) s) ;;;
  modify (fun s => set_backoff (fmin _API_V1_CONTROL_MAX_POLL_SECONDS (fmul (ss_backoff s) f2)) s).

(** The next look at the relay is at [now + pause] or at the deadline. *)
Definition poll_after (pause : float64) : WM unit :=
  let* now := clock in
  modify (fun s => set_next_poll (fmin (fadd now pause) (ss_deadline s)) s).

(** The relay's word; [true]: the loop starts over without waiting. *)
Definition read_control (control : jdict) : WM bool :=
  modify (set_backoff f1) ;;;
  let* now := clock in
  let* s := get_state in
  match _api_v1_deadline_after_response (ss_deadline s) (JDict control) now with
  | inl _ => control_failed ;;; ret false
  | inr deadline =>
      modify (set_deadline deadline) ;;;
      let status := control_status control in
      if bool_decide (status = "active"%pystr) then
        match _api_v1_control_next_poll_seconds (jget control "next_poll_seconds") with
        | inl _ => control_failed ;;; ret false
        | inr hint => poll_after hint ;;; ret true
        end
      else match dget _API_V1_TERMINAL_CONTROL_STATUS_MAP status with
           | Some reason => raise (Terminal status reason)
           | None => poll_after _API_V1_CONTROL_MIN_POLL_SECONDS ;;; ret false
           end
  end.

(** One control request, a new one unless one is under way *)
Definition poll_control (fuel : nat) : WM bool :=
  let* now := clock in
  let* s := get_state in
  let remaining := fmax f0 (fsub (ss_deadline s) now) in
  if fle remaining f0_002 then terminal "local_deadline"
  else
    let k := default (length (ss_controls s)) (ss_control_future s) in
    modify (fun s => if ss_control_future s is Some _ then s
                     else add_control (control_timeout remaining) (set_control (Some k) s)) ;;;
    await_control fuel ;;;
    match control_result k with
    | ControlForbidden => modify (set_control None) ;;; terminal "owner_proof_failed"
    | ControlFails => control_failed ;;; ret false
    | ControlGives control =>
        modify (set_control None) ;;;
        let* stopped := look rd_stopped in
        if stopped then terminal "operator_stop"
        else
          let* now := clock in
          deadline_check now ;;;
          read_control control
    end.

(** The wait at the end of a turn, and the last look at the inference; here a stop is not
    looked for. *)
Definition end_of_turn : WM unit :=
  let* _ := clock in
  let* woken := look rd_woken in
  if woken then ret tt
  else
    let* done := look rd_inference_done in
    if done then
      match future with
      | inr envelope => raise (Inferred envelope)
      | inl _ => terminal "inference_failure"
      end
    else ret tt.

Definition supervise_turn (fuel : nat) : WM unit :=
  let* now := clock in
  stop_check ;;;
  inference_check ;;;
  deadline_check now ;;;
  let* s := get_state in
  let* again := if control_available && fle (ss_next_poll_at s) now then poll_control fuel else ret false in
  if again then ret tt else end_of_turn.

Fixpoint supervise_loop (fuel : nat) : WM unit :=
  match fuel with
  | O => raise StillWatching
  | S fuel' => supervise_turn fuel' ;;; supervise_loop fuel'
  end.
End loop.
End supervise.

(** ** The outcome *)
Record _ApiV1SupervisorOutcome : Type := MkOutcome {
  so_response_envelope : option jdict;
  so_terminal_code : option pystr;
  so_runtime_healthy : bool;
  so_recovery_attempted : bool;
  so_recovery_succeeded : bool;
  so_submission_allowed : bool
}.

(** What ending the worker came to: whether it was replaced ([None]: ending it raised),
    whether the inference stopped in time, and what the teardown that is the last resort
    said about it *)
Record teardown : Set := MkTeardown {
  td_replaced : bool -> option bool;
  td_quiesced : bool;
  td_fatal : bool
}.

(** What the supervisor does to the world beside watching it *)
Inductive sup_action : Set :=
| TerminateWorker (reason : pystr) (recreate : bool)
| Acknowledge
| StopPolling.

Definition terminal_outcome (t : teardown) (status reason : pystr) : _ApiV1SupervisorOutcome * list sup_action :=
  let recreate := negb (bool_decide (status = "operator_stop"%pystr)) in
  let replaced := default false (td_replaced t recreate) in
  let recovered := replaced && td_quiesced t in
  let quiesced := td_quiesced t || td_fatal t in
  (MkOutcome None (Some reason) (recovered && quiesced) true (recovered && quiesced) false,
   [TerminateWorker reason recreate]
   ++ (if pystr_in status ["cancelled"; "expired"]%pystr then [Acknowledge] else [])
   ++ (if td_quiesced t then [] else [StopPolling])).

Section outcome.
Context `{!PyUnicode, !PyNumbers, !Watch}.

(** The supervisor's state before its first turn *)
Definition supervision_start (control_available : bool) (local_deadline : float64) : sup_state :=
  MkSup (if control_available then 1 else 0)%nat local_deadline
    (if control_available then rd_time (watch 0) else local_deadline) f1 None [].

(** [None]: the fuel ran out.  [health] is the runtime's as the inference left it. *)
Definition _supervise_api_v1_inference (fuel : nat) (control_available has_credential : bool)
  (local_deadline request_timeout : float64) (future : node_error + jdict) (health : runtime_health)
  (t : teardown) : option (_ApiV1SupervisorOutcome * list sup_action) :=
  if control_available && negb has_credential then
    Some (MkOutcome None (Some "missing_control_credential"%pystr) true false false false, [])
  else
    match (supervise_loop control_available future request_timeout fuel
             (supervision_start control_available local_deadline)).2 with
    | inl (Inferred envelope) =>
        Some (MkOutcome (Some envelope) None (runtime_healthy health) (recovery_attempted health)
                (recovery_succeeded health) true, [])
    | inl (Terminal status reason) => Some (terminal_outcome t status reason)
    | inl StillWatching | inr _ => None
    end.
End outcome.
