(* ===== verification/NodeProcess.v ===== *)
(** * utils/networking/relay_client.py: one work item, from the relay and back

    A request that a poll brought is checked, decrypted, answered by the model under
    supervision, sealed for the client and posted to the relay it came from.

    The network is [NodeNet]: what a post comes to, after all posts before it.  The flags
    and the clock that other threads change are handed in where they are read.  The
    heartbeat and the progress reports that run beside an inference are left out. *)

From S2P Require Import Prelude PyFloat PyStr PyDict PyText PyRegex Json JsonText Base64.
From S2P Require Import Encrypt CryptoManager Profiles NodeRequest NodeDiagnostics NodeOutput.
From S2P Require Import NodeGenerate NodeSupervise.

(** ** The network *)

(** A [requests.post]: its headers hold the registration token or nothing. *)
Record posted : Type := MkPosted {
  po_url : pystr;
  po_payload : json;
  po_timeout : float64;
  po_token : option pystr
}.

Inductive post_outcome : Type :=
| Replied_with (status : Z) (text : pystr)
| PostConnectionError
| PostTimeout
| PostRequestException.

Class NodeNet : Type := post_reply : list posted -> post_outcome.

Record node_state : Type := MkNode {
  ns_gen : gen_state;
  ns_draws : nat;
  ns_posts : list posted
}.

Definition set_gen (g : gen_state) (s : node_state) : node_state := MkNode g (ns_draws s) (ns_posts s).
Definition set_node_draws (n : nat) (s : node_state) : node_state := MkNode (ns_gen s) n (ns_posts s).
Definition add_post (p : posted) (s : node_state) : node_state :=
  MkNode (ns_gen s) (ns_draws s) (ns_posts s ++ [p]).

(** Exceptions that reach [process_client_request_result] *)
Inductive process_exn : Set :=
| ConnectionFailed
| TimedOut
| RequestFailed
| OtherFailure
| OutOfFuel.

Notation PR := (SM node_state process_exn).

(** The outcome of one work item *)
Record RelayProcessingResult : Set := MkResult {
  pr_inference_succeeded : bool;
  pr_submitted : bool;
  pr_safe_error_code : option pystr;
  pr_runtime_healthy : bool;
  pr_recovery_attempted : bool;
  pr_recovery_succeeded : bool;
  pr_submission_allowed : bool
}.

(** [RelayProcessingResult.submission_failed] and [__bool__] *)
Definition submission_failed (safe_error_code : pystr) (healthy : bool) : RelayProcessingResult :=
  MkResult false false (Some safe_error_code) healthy false false true.

Definition result_bool (r : RelayProcessingResult) : bool := pr_submitted r.

(** The process's own keys and settings *)
Record node_setup : Type := MkSetup {
  nd_keys : CryptoKeys;
  nd_registration_token : option pystr;
  nd_request_timeout : float64;
  nd_work_relay_url : option pystr;
  nd_relay_url : pystr
}.

(** What other threads have set, and the clock, when a response is about to be sent *)
Record guard : Type := MkGuard {
  gd_latched : bool;
  gd_stopped : bool;
  gd_now : float64;
  gd_cancelled : bool
}.

Record _PostApiV1Outcome : Set := MkPost {
  submitted : bool;
  suppressed : bool;
  transport_failed : bool;
  suppressed_code : option pystr
}.

Section process.
Context `{!PyUnicode, !PyWords, !Cryptography, !FloatRepr, !PyNumbers, !NodeNet}.
Context (setup : node_setup).

Definition _auth_headers : option pystr :=
  match nd_registration_token setup with
  | Some t => if py_empty t then None else Some t
  | None => None
  end.

Definition _api_v1_response_relay_url : pystr := str_or (nd_work_relay_url setup) (nd_relay_url setup).

Definition _build_api_v1_url (relay_url route : pystr) : pystr :=
  let base := py_rstrip relay_url 47 in
  let normalized_route := if py_startswith route "/" then route else "/" +++ route in
  if has_suffix base "/api/v1" then base +++ normalized_route else base +++ "/api/v1" +++ normalized_route.

Definition post (url : pystr) (payload : json) : PR post_outcome := fun s =>
  let s' := add_post (MkPosted url payload (nd_request_timeout setup) _auth_headers) s in
  (s', inr (post_reply (ns_posts s'))).

(** [requests.post] whose exceptions are not caught here *)
Definition post_or_raise (url : pystr) (payload : json) : PR (Z * pystr) :=
  let* reply := post url payload in
  match reply with
  | Replied_with status text => ret (status, text)
  | PostConnectionError => raise ConnectionFailed
  | PostTimeout => raise TimedOut
  | PostRequestException => raise RequestFailed
  end.

(** [crypto_manager.encrypt_message] *)
Definition seal (m : message) (key : list byte) : PR jdict := fun s =>
  match encrypt_message m (PyBytes key) (ns_draws s) with
  | (n, inr env) => (set_node_draws n s, inr env)
  | (n, inl _) => (set_node_draws n s, inl OtherFailure)
  end.

(** [{**a, **b}] *)
Definition merged (a b : jdict) : jdict := fold_left (fun d kv => dset d kv.1 kv.2) b a.

Definition not_submitted (code : pystr) : _PostApiV1Outcome := MkPost false true false (Some code).

(** The body of the [try] *)
Definition send_api_v1_response (response_envelope : jdict) (client_pub_key_b64 : pystr)
  (client_pub_key : list byte) (local_deadline : option float64) (g : guard) : PR _PostApiV1Outcome :=
  let* encrypted_response :=
    seal (MValue (JDict (dset response_envelope "client_public_key" (JStr client_pub_key_b64)))) client_pub_key in
  let source_payload := merged
    [("client_public_key", JStr client_pub_key_b64); ("request_id", jget response_envelope "request_id");
     ("protocol", JStr NODE_PROTOCOL); ("version", JInt 1)]%pystr encrypted_response in
  let deadline_expired := match local_deadline with Some d => fle d (gd_now g) | None => false end in
  if gd_stopped g || deadline_expired || gd_cancelled g then
    ret (not_submitted (if gd_stopped g then "operator_stop"
                        else if deadline_expired then "local_deadline" else "request_cancelled"))
  else
    let* '(status, _) :=
      post_or_raise (_build_api_v1_url _api_v1_response_relay_url "/relay/responses") (JDict source_payload) in
    ret (MkPost (status =? 200) false false None).

Definition _post_api_v1_response (response_envelope : jdict) (client_pub_key_b64 : pystr)
  (client_pub_key : list byte) (local_deadline : option float64) (g : guard) : PR _PostApiV1Outcome :=
  if gd_latched g then ret (not_submitted "shutdown_requested")
  else try_except (send_api_v1_response response_envelope client_pub_key_b64 client_pub_key local_deadline g)
         (fun _ => true) (ret (MkPost false false true None)).

Definition required_string_fields : list pystr :=
  ["request_id"; "client_public_key"; "chat_history"; "cipherkey"; "iv"]%pystr.

(** [request_data.get("version") != 1]; [True] and [1.0] are [1]. *)
Definition is_one (v : json) : bool :=
  match v with JInt z => z =? 1 | JBool b => b | JFloat f => feq f f1 | _ => false end.

Definition submit_api_v1_error_response (request_data : json) (code message_ : pystr) (g : guard) : PR bool :=
  match request_data with
  | JDict d =>
      if negb (jeq_str (jget d "protocol") NODE_PROTOCOL) || negb (is_one (jget d "version"))
         || negb (forallb (fun k => is_JStr (jget d k)) required_string_fields)
      then ret false
      else match _normalize_client_public_key_b64 (jget d "client_public_key") with
           | None => ret false
           | Some key =>
               match decoded_client_key key with
               | None => ret false
               | Some client_pub_key =>
                   let* outcome := _post_api_v1_response
                     (error_envelope (str_value (jget d "request_id")) (coded code message_))
                     key client_pub_key None g in
                   ret (submitted outcome)
               end
           end
  | _ => ret false
  end.

(** ** Work items *)

(** What runs beside the request: the readings of its supervision, the flags around its
    submission, the model *)
Record surroundings : Type := MkSurroundings {
  su_fuel : nat;
  su_catalogue : option (list jdict);
  su_manager : node_manager;
  su_control_available : bool;
  su_has_credential : bool;
  su_teardown : teardown;
  su_before : guard;
  su_sending : guard;
  su_after : guard;
  su_jsonschema : option (json -> schema -> bool);
  su_respond : json -> runtime_exn + json
}.

Context `{!Watch} (su : surroundings).

(** The inference's thread: the state it leaves, and its result *)
Definition infer (payload : api_v1_payload) (g : gen_state) : gen_state * (node_error + jdict) :=
  _generate_api_v1_response_with_runtime_model (su_catalogue su) (su_manager su) (ap_request_id payload)
    (ap_model payload) (ap_messages payload) (ap_options payload) (ap_context_tier payload) g.

(** The safe code of an error envelope *)
Definition envelope_error_code (response_envelope : jdict) : option pystr :=
  match jget response_envelope "api_v1_response" with
  | JDict r => match jget r "error" with JDict e => text_at e "code" | _ => None end
  | _ => None
  end.

(** A result that names the supervisor's recovery *)
Definition supervised_result (so : _ApiV1SupervisorOutcome) (succeeded sent : bool) (code : option pystr)
  (healthy allowed : bool) : RelayProcessingResult :=
  MkResult succeeded sent code healthy (so_recovery_attempted so) (so_recovery_succeeded so) allowed.

(** The answer is posted, unless something has stopped it meanwhile. *)
Definition submit_answer (so : _ApiV1SupervisorOutcome) (response_envelope : jdict) (key : pystr)
  (client_pub_key : list byte) (deadline : float64) : PR RelayProcessingResult :=
  let safe_error_code := envelope_error_code response_envelope in
  let healthy := if match safe_error_code with
                    | Some c => pystr_in c ["compute_node_internal_error"; "compute_node_process_failed"]%pystr
                    | None => false
                    end then so_runtime_healthy so else true in
  let g := su_before su in
  let expired := fle deadline (gd_now g) in
  if gd_latched g || gd_stopped g || expired || gd_cancelled g then
    ret (supervised_result so false false
           (Some (if gd_latched g then "shutdown_requested" else if gd_stopped g then "operator_stop"
                  else if expired then "local_deadline" else "request_cancelled")%pystr)
           (if gd_latched g || gd_stopped g then true else healthy) false)
  else
    let* post_outcome :=
      _post_api_v1_response response_envelope key client_pub_key (Some deadline) (su_sending su) in
    if suppressed post_outcome then
      ret (supervised_result so false false
             (Some (default "request_suppressed"%pystr (suppressed_code post_outcome))) healthy false)
    else if negb (submitted post_outcome) && (gd_latched (su_after su) || gd_stopped (su_after su)) then
      ret (supervised_result so false false (Some "shutdown_requested"%pystr) true false)
    else
      ret (supervised_result so
             (match safe_error_code with None => submitted post_outcome | Some _ => false end)
             (submitted post_outcome) safe_error_code healthy true).

Definition process_api_v1 (payload : api_v1_payload) (key : pystr) (client_pub_key : list byte)
  (deadline : float64) : PR RelayProcessingResult :=
  let* s := get_state in
  let '(g, future) := infer payload (ns_gen s) in
  modify (set_gen g) ;;;
  match _supervise_api_v1_inference (su_fuel su) (su_control_available su) (su_has_credential su) deadline
          (nd_request_timeout setup) future (gs_health g) (su_teardown su) with
  | None => raise OutOfFuel
  | Some (so, _) =>
      match so_response_envelope so with
      | None =>
          ret (supervised_result so false false
                 (Some (default "api_v1_request_cancelled"%pystr (so_terminal_code so)))
                 (so_runtime_healthy so) (so_submission_allowed so))
      | Some response_envelope => submit_answer so response_envelope key client_pub_key deadline
      end
  end.

(** The model's answer to a request of the first protocol *)
Definition legacy_response (chat_history : json) : PR json :=
  match su_respond su chat_history with inr r => ret r | inl _ => raise OtherFailure end.

Definition process_stream (session_id : pystr) (chat_history : json) (key : pystr) (client_pub_key : list byte) :
  PR RelayProcessingResult :=
  let* response_history := legacy_response chat_history in
  let* encrypted_response := seal (MValue response_history) client_pub_key in
  let* '(status, _) := post_or_raise (nd_relay_url setup +++ "/stream/source")
    (JDict [("session_id", JStr session_id);
            ("chunk", JDict (merged [("client_public_key"%pystr, JStr key)] encrypted_response));
            ("final", JBool true)]%pystr) in
  ret (if status =? 200 then MkResult true true None true false false true
       else submission_failed "stream_submission_failed" true).

Definition process_legacy (chat_history : json) (key : pystr) (client_pub_key : list byte) :
  PR RelayProcessingResult :=
  let* response_history := legacy_response chat_history in
  let* encrypted_response := seal (MValue response_history) client_pub_key in
  let source_payload := JDict (merged [("client_public_key"%pystr, JStr key)] encrypted_response) in
  match _validate_with_fallback (su_jsonschema su) source_payload MESSAGE_SCHEMA with
  | inl _ => ret (submission_failed "invalid_response_payload" true)
  | inr _ =>
      let* '(status, text) := post_or_raise (nd_relay_url setup +++ "/source") source_payload in
      ret (if negb (status =? 200) then submission_failed "response_submission_failed" true
           else if py_empty (py_strip text) then submission_failed "empty_relay_response" true
           else MkResult true true None true false false true)
  end.

(** The decrypted request *)
Definition process_decrypted (request_data : jdict) (decrypted : message) (key : pystr)
  (client_pub_key : list byte) (deadline : float64) : PR RelayProcessingResult :=
  let document := match decrypted with MValue j => j | _ => JNull end in
  match _extract_api_v1_request_payload document key with
  | inl _ => raise OtherFailure
  | inr (Some payload) => process_api_v1 payload key client_pub_key deadline
  | inr None =>
      match _extract_chat_history_and_validate_key_binding document key with
      | None => ret (submission_failed "invalid_relay_payload" true)
      | Some chat_history =>
          let stream_requested := match jget request_data "stream" with JBool true => true | _ => false end in
          match not_blank (jget request_data "stream_session_id") with
          | Some session_id => if stream_requested then process_stream session_id chat_history key client_pub_key
                               else process_legacy chat_history key client_pub_key
          | None => process_legacy chat_history key client_pub_key
          end
      end
  end.

Definition is_no_value (m : message) : bool := match m with MValue JNull => true | _ => false end.

(** The body of the [try] *)
Definition process_request (request_data : jdict) (deadline : float64) : PR RelayProcessingResult :=
  match _validate_with_fallback (su_jsonschema su) (JDict request_data) MESSAGE_SCHEMA with
  | inl _ => ret (submission_failed "invalid_relay_payload" true)
  | inr _ =>
      match _normalize_client_public_key_b64 (jget request_data "client_public_key") with
      | None => ret (submission_failed "invalid_relay_payload" true)
      | Some key =>
          match decoded_client_key key with
          | None => ret (submission_failed "invalid_relay_payload" true)
          | Some client_pub_key =>
              let decrypted := decrypt_message (ck_private_key (nd_keys setup)) (MValue (JDict request_data)) in
              if is_no_value decrypted then ret (submission_failed "decrypt_failed" true)
              else process_decrypted request_data decrypted key client_pub_key deadline
          end
      end
  end.

(** The result an exception becomes *)
Definition exception_result (e : process_exn) : RelayProcessingResult :=
  match e with
  | ConnectionFailed => submission_failed "relay_connection_error" true
  | TimedOut => submission_failed "relay_timeout" true
  | RequestFailed => submission_failed "relay_request_exception" true
  | OtherFailure | OutOfFuel => submission_failed "compute_node_internal_error" false
  end.

(** The deadline is read outside the [try]: a huge integer escapes as [OverflowError]. *)
Definition process_client_request_result (request_data : jdict) (entry_monotonic : float64) :
  SM node_state node_error RelayProcessingResult := fun s =>
  match _api_v1_initial_deadline_from_metadata request_data entry_monotonic with
  | inl e => (s, inl e)
  | inr deadline =>
      match process_request request_data deadline s with
      | (s', inr r) => (s', inr r)
      | (s', inl OutOfFuel) => (s', inl NodeStillRunning)
      | (s', inl e) => (s', inr (exception_result e))
      end
  end.

Definition process_client_request (request_data : jdict) (entry_monotonic : float64) :
  SM node_state node_error bool :=
  let* r := process_client_request_result request_data entry_monotonic in ret (result_bool r).
End process.
