(* ===== verification/NodePoll.v ===== *)
(** * utils/networking/relay_client.py: how a compute node comes by its work

    The node registers with relays, polls them for work, renews its leases and takes its
    registrations back.  What it knows of each relay (that it is registered there, when it
    was last heard of, the waits the relay named, the credential it handed out) is the
    state; every operation is a function of it.

    The clock and the flags that a stop sets are read through [NodeClock], numbered by the
    looks at them, so that a stop can fall between any two.  What a post comes to, after all
    posts before it, is [RelayNet].  Operations run one at a time; log lines are left out.
    The configured request timeout is a float. *)

From S2P Require Import Prelude PyFloat PyStr PyDict PyText PyRegex PyUrl Json JsonText.
From S2P Require Import Encrypt CryptoManager Profiles Provider NodeRequest NodeDiagnostics NodeOutput NodeGenerate NodeSupervise.
From S2P Require Import NodeProcess.
From Stdlib Require Import Floats.SpecFloat.

(** ** The outside *)

(** An exception by the name of its class, and whether it tells of a read that timed out *)
Record poll_exn : Set := MkExn {
  px_name : pystr;
  px_timed_out : bool
}.

#[export] Instance poll_exn_eq_dec : EqDecision poll_exn.
Proof. solve_decision. Defined.

(** The headers are keyed by lower case names, as lookups ignore case; the document is [None]
    when the body is no JSON. *)
Inductive http_reply : Type :=
| Answered (status : Z) (headers : dict pystr pystr) (text : pystr) (document : option json)
| Failed (e : poll_exn).

Class RelayNet : Type := relay_reply : list posted -> http_reply.

Class NodeClock : Type := {
  time_at : nat -> float64;
  stopped_at : nat -> bool;
  latched_at : nat -> bool;
  heartbeat_stopped_at : nat -> bool
}.

(** ** The state *)

(** What a relay has named at its last answer, and the key it was registered with *)
Record wait_hints : Set := MkHints {
  wh_next_ping : option float64;
  wh_poll_wait : option float64;
  wh_server_public_key : option pystr
}.

Definition no_hints : wait_hints := MkHints None None None.

Record poll_state : Type := MkPoll {
  ps_active : nat;
  ps_sink_start : nat;
  ps_registered : list pystr;
  ps_heartbeat : dict pystr float64;
  ps_hints : dict pystr wait_hints;
  ps_credentials : dict pystr pystr;
  ps_capabilities : dict pystr bool;
  ps_unregister_attempted : bool;
  ps_unregister_complete : bool;
  ps_work_relay_url : option pystr;
  ps_looks : nat;
  ps_posts : list posted
}.

(** The node's relays, key, settings and capabilities *)
Record poll_setup : Type := MkPollSetup {
  pl_relay_urls : list pystr;
  pl_public_key : pystr;
  pl_request_timeout : float64;
  pl_registration_token : option pystr;
  pl_capabilities : jdict
}.

Definition set_registered (l : list pystr) (s : poll_state) : poll_state :=
  MkPoll (ps_active s) (ps_sink_start s) l (ps_heartbeat s) (ps_hints s) (ps_credentials s) (ps_capabilities s)
    (ps_unregister_attempted s) (ps_unregister_complete s) (ps_work_relay_url s) (ps_looks s) (ps_posts s).
Definition set_heartbeat (d : dict pystr float64) (s : poll_state) : poll_state :=
  MkPoll (ps_active s) (ps_sink_start s) (ps_registered s) d (ps_hints s) (ps_credentials s) (ps_capabilities s)
    (ps_unregister_attempted s) (ps_unregister_complete s) (ps_work_relay_url s) (ps_looks s) (ps_posts s).
Definition set_hints (d : dict pystr wait_hints) (s : poll_state) : poll_state :=
  MkPoll (ps_active s) (ps_sink_start s) (ps_registered s) (ps_heartbeat s) d (ps_credentials s) (ps_capabilities s)
    (ps_unregister_attempted s) (ps_unregister_complete s) (ps_work_relay_url s) (ps_looks s) (ps_posts s).
Definition set_credentials (d : dict pystr pystr) (c : dict pystr bool) (s : poll_state) : poll_state :=
  MkPoll (ps_active s) (ps_sink_start s) (ps_registered s) (ps_heartbeat s) (ps_hints s) d c
    (ps_unregister_attempted s) (ps_unregister_complete s) (ps_work_relay_url s) (ps_looks s) (ps_posts s).
Definition set_unregister (attempted complete : bool) (s : poll_state) : poll_state :=
  MkPoll (ps_active s) (ps_sink_start s) (ps_registered s) (ps_heartbeat s) (ps_hints s) (ps_credentials s)
    (ps_capabilities s) attempted complete (ps_work_relay_url s) (ps_looks s) (ps_posts s).
Definition set_active (active sink_start : nat) (s : poll_state) : poll_state :=
  MkPoll active sink_start (ps_registered s) (ps_heartbeat s) (ps_hints s) (ps_credentials s) (ps_capabilities s)
    (ps_unregister_attempted s) (ps_unregister_complete s) (ps_work_relay_url s) (ps_looks s) (ps_posts s).
Definition set_work_relay_url (url : pystr) (s : poll_state) : poll_state :=
  MkPoll (ps_active s) (ps_sink_start s) (ps_registered s) (ps_heartbeat s) (ps_hints s) (ps_credentials s)
    (ps_capabilities s) (ps_unregister_attempted s) (ps_unregister_complete s) (Some url) (ps_looks s) (ps_posts s).
Definition look_again (s : poll_state) : poll_state :=
  MkPoll (ps_active s) (ps_sink_start s) (ps_registered s) (ps_heartbeat s) (ps_hints s) (ps_credentials s)
    (ps_capabilities s) (ps_unregister_attempted s) (ps_unregister_complete s) (ps_work_relay_url s)
    (S (ps_looks s)) (ps_posts s).
Definition add_poll_post (p : posted) (s : poll_state) : poll_state :=
  MkPoll (ps_active s) (ps_sink_start s) (ps_registered s) (ps_heartbeat s) (ps_hints s) (ps_credentials s)
    (ps_capabilities s) (ps_unregister_attempted s) (ps_unregister_complete s) (ps_work_relay_url s) (ps_looks s)
    (ps_posts s ++ [p]).

(** Sets of relays *)
Definition set_discard (x : pystr) (l : list pystr) : list pystr := bfilter (fun y => negb (bool_decide (y = x))) l.

(** The relay's evidence of registration *)
Definition forget_relay (url : pystr) (s : poll_state) : poll_state :=
  set_registered (set_discard url (ps_registered s))
    (set_heartbeat (ddel (ps_heartbeat s) url) (set_hints (ddel (ps_hints s) url) s)).

Definition set_relay_hints (url : pystr) (h : wait_hints) (s : poll_state) : poll_state :=
  set_hints (dset (ps_hints s) url h) s.
Definition set_relay_heartbeat (url : pystr) (t : float64) (s : poll_state) : poll_state :=
  set_heartbeat (dset (ps_heartbeat s) url t) s.
Definition add_registered (url : pystr) (s : poll_state) : poll_state :=
  set_registered (set_add url (ps_registered s)) s.

Notation PollM := (SM poll_state poll_exn).

Definition value_error : poll_exn := MkExn "ValueError" false.
Definition overflow_error : poll_exn := MkExn "OverflowError" false.
Definition json_decode_error : poll_exn := MkExn "JSONDecodeError" false.

(** [try: m except Exception as e: h(e)] *)
Definition on_exception {A} (m : PollM A) (h : poll_exn -> PollM A) : PollM A := fun s =>
  match m s with
  | (s', inl e) => h e s'
  | r => r
  end.

Definition or_raise {A} (e : poll_exn) (r : option A) : PollM A :=
  match r with Some a => ret a | None => raise e end.

(** The only error of [node_error] that [float] lets through here is an overflow. *)
Definition or_overflow {A} (r : node_error + A) : PollM A :=
  match r with inr a => ret a | inl _ => raise overflow_error end.

(** ** URLs *)
Section urls.
Context `{!PyUnicode, !NetlocCheck}.

Definition bracketed (host : pystr) : pystr :=
  if py_contains ":" host && negb (py_startswith host "[") then "[" +++ host +++ "]" else host.

Definition userinfo_of (netloc : pystr) : pystr :=
  match url_userinfo netloc with
  | (Some username, password) =>
      if py_empty username then ""%pystr
      else username +++ match password with
                        | Some p => if py_empty p then ""%pystr else ":" +++ p
                        | None => ""%pystr
                        end +++ "@"
  | _ => ""%pystr
  end.

(** [None] is the [ValueError] of [urlparse] or of its [port].  [urlunparse] puts two slashes
    before a location; before none they are stripped again. *)
Definition _compose_relay_url (base_url : pystr) (port : option Z) : option pystr :=
  let base := py_strip base_url in
  if py_empty base then Some ""%pystr
  else
    let base := py_rstrip base 47 in
    let url := if py_contains "://" base then base else "http://" +++ base in
    '(parsed_scheme, parsed_netloc) ← urlparse url;
    let parsed_path := url_path url in
    let scheme := if py_empty parsed_scheme then "http"%pystr else parsed_scheme in
    let netloc := if py_empty parsed_netloc then parsed_path else parsed_netloc in
    let path := if py_empty parsed_netloc then ""%pystr else parsed_path in
    match url_port parsed_netloc with
    | inl _ => None
    | inr parsed_port =>
        let netloc := match parsed_port, port with
          | None, Some port =>
              let hostname := url_hostname parsed_netloc in
              let host_for_netloc := if py_empty hostname then netloc else hostname in
              userinfo_of parsed_netloc +++ bracketed host_for_netloc +++ ":" +++ py_str_int port
          | _, _ => netloc
          end in
        Some (py_rstrip (scheme +++ "://" +++ netloc +++ path) 47)
    end.

(** The credential of the longest relay URL that the request's begins with *)
Fixpoint best_credential (request_target : pystr) (credentials : dict pystr pystr) (best : pystr * pystr) :
  option pystr :=
  match credentials with
  | [] => Some best.2
  | (relay_target, credential) :: credentials' =>
      if py_empty credential then best_credential request_target credentials' best
      else
        candidate ← _compose_relay_url relay_target None;
        best_credential request_target credentials'
          (if negb (py_empty candidate)
              && (bool_decide (request_target = candidate) || py_startswith request_target (candidate +++ "/"))
              && (py_len best.1 <? py_len candidate)
           then (candidate, credential) else best)
  end.

Definition _api_v1_control_credential_for_request_url (url : pystr) (credentials : dict pystr pystr) :
  option pystr :=
  request_target ← _compose_relay_url url None;
  best_credential request_target credentials (""%pystr, ""%pystr).
End urls.

(** ** Answers that are no success *)
Section polling.
Context `{!PyUnicode, !PyWords, !FloatRepr, !PyNumbers, !NetlocCheck, !RelayNet, !NodeClock}.

Definition _API_V1_DIAGNOSTIC_HEADER_NAMES : list pystr :=
  ["server"; "cf-ray"; "cf-cache-status"; "content-type"; "x-request-id"; "retry-after"]%pystr.

Definition _api_v1_response_headers (headers : dict pystr pystr) : jdict :=
  omap (fun name => (fun v => (name, JStr (_redact_sensitive_text v []))) <$> dget headers name)
    _API_V1_DIAGNOSTIC_HEADER_NAMES.

Definition control_plane_paths : list pystr :=
  ["/api/v1/relay/servers/register"; "/api/v1/relay/servers/unregister"; "/api/v1/relay/servers/poll";
   "/api/v1/relay/responses"]%pystr.

(** The relay's own error, redacted *)
Definition relay_error_of (secrets : list pystr) (parsed_json : option json) : option pystr :=
  match parsed_json with
  | Some (JDict d) =>
      match jget d "error" with
      | JStr raw_error => Some (_redact_sensitive_text raw_error secrets)
      | JDict raw_error =>
          Some (_redact_sensitive_text
            (PyStr (compact_codes (_sanitize_api_v1_json_body secrets (JDict raw_error)))) secrets)
      | _ => None
      end
  | _ => None
  end.

Definition opt_text (o : option pystr) : json := match o with Some s => JStr s | None => JNull end.

(** What is reported of an answer to a POST *)
Definition non_200_diagnostic (secrets : list pystr) (status_code : Z) (response_headers : dict pystr pystr)
  (text : pystr) (document : option json) (path : pystr) (token_sent : bool) : jdict :=
  let headers := _api_v1_response_headers response_headers in
  let '(body_snippet, parsed_json) := _safe_api_v1_response_body_snippet document text secrets in
  let relay_error := relay_error_of secrets parsed_json in
  let server_header := str_value (jget headers "server") in
  let probable_pre_app_rejection :=
    (status_code =? 403)
    && (bool_decide (py_lower server_header = "cloudflare"%pystr) || truthy (jget headers "cf-ray"))
    && (if relay_error is Some _ then false else true) in
  let error_kind := match relay_error with
    | Some _ => "relay_json_error"
    | None => if probable_pre_app_rejection then "cloudflare_pre_app_rejection" else "http_status_no_json_body"
    end%pystr in
  [("method", JStr "POST"); ("path", JStr path); ("status_code", JInt status_code); ("headers", JDict headers);
   ("body_snippet", JStr body_snippet); ("token_sent", JBool token_sent); ("relay_error", opt_text relay_error);
   ("error_kind", JStr error_kind); ("probable_pre_app_rejection", JBool probable_pre_app_rejection);
   ("route_class", JStr (if pystr_in path control_plane_paths then "compute_node_control_plane" else "api_v1_relay"));
   ("retry_after", jget headers "retry-after")]%pystr.

Context (setup : poll_setup).

Definition request_timeout_json : json := JFloat (pl_request_timeout setup).

Definition poll_token : option pystr :=
  match pl_registration_token setup with
  | Some t => if py_empty t then None else Some t
  | None => None
  end.
Definition token_sent : bool := if poll_token is Some _ then true else false.

Definition _api_v1_non_200_diagnostic (status_code : Z) (headers : dict pystr pystr) (text : pystr)
  (document : option json) (url : pystr) : PollM jdict :=
  let* _ := or_raise value_error (urlparse url) in
  let path := if py_empty (url_path url) then "/"%pystr else url_path url in
  let* s := get_state in
  let* credential := or_raise value_error (_api_v1_control_credential_for_request_url url (ps_credentials s)) in
  let secrets := [default ""%pystr (pl_registration_token setup); pl_public_key setup; credential] in
  ret (non_200_diagnostic secrets status_code headers text document path token_sent).

Definition _api_v1_http_error_result (status_code : Z) (headers : dict pystr pystr) (text : pystr)
  (document : option json) (url : pystr) (next_ping_in_x_seconds : json) : PollM jdict :=
  let* diagnostic := _api_v1_non_200_diagnostic status_code headers text document url in
  ret [("error", JStr ("HTTP " +++ py_str_int status_code)); ("next_ping_in_x_seconds", next_ping_in_x_seconds);
       ("http_status", JInt status_code); ("relay_error_kind", jget diagnostic "error_kind");
       ("relay_error", jget diagnostic "relay_error"); ("relay_http_diagnostic", JDict diagnostic)]%pystr.

(** ** Looks and posts *)
Definition look_at {A} (f : nat -> A) : PollM A := fun s => (look_again s, inr (f (ps_looks s))).

Definition monotonic : PollM float64 := look_at time_at.
Definition polling_stopped : PollM bool := look_at stopped_at.

Definition relay_post (url : pystr) (payload : jdict) (timeout : float64) : PollM http_reply := fun s =>
  let s' := add_poll_post (MkPosted url (JDict payload) timeout poll_token) s in
  (s', inr (relay_reply (ps_posts s'))).

(** [response.json()] *)
Definition reply_json (document : option json) : PollM json := or_raise json_decode_error document.

(** ** Waits *)
Definition f1_25 : float64 := S754_finite false 5629499534213120 (-52).

Definition _api_v1_poll_timeout_seconds (wait_seconds : float64) : float64 :=
  let base_timeout := pl_request_timeout setup in
  if negb (is_finite wait_seconds) || flt wait_seconds f0 then base_timeout
  else fmax (fmax base_timeout (fadd wait_seconds f5)) (fmul wait_seconds f1_25).

Definition finite_positive (f : float64) : bool := is_finite f && flt f0 f.

Definition _normalise_positive_seconds (seconds : json) (fallback : float64) : node_error + float64 :=
  let? parsed := if is_JBool seconds then inr None else py_float seconds in
  let normalised := default fallback parsed in
  let normalised := if finite_positive normalised then normalised else fallback in
  inr (if finite_positive normalised then normalised else pl_request_timeout setup).

Definition _normalise_poll_wait_seconds (wait_seconds : json) : node_error + float64 :=
  if is_JBool wait_seconds then inr (pl_request_timeout setup)
  else
    let? parsed := py_float wait_seconds in
    inr (match parsed with
         | Some f => if is_finite f && negb (flt f f0) then f else pl_request_timeout setup
         | None => pl_request_timeout setup
         end).

(** The age at which a lease of that many seconds is renewed; 0 for one that is none *)
Definition _api_v1_refresh_threshold_seconds (lease : float64) : float64 :=
  if finite_positive lease then fmax (fmin (fmul lease f0_8) (fsub lease f1)) (fmul lease f0_5) else f0.

Definition DEFAULT_API_V1_LEASE_SECONDS : float64 := f30.

(** [hints.get("next_ping_in_x_seconds")] *)
Definition opt_seconds (o : option float64) : json := match o with Some f => JFloat f | None => JNull end.

Definition api_v1_registration_fresh (candidate_url : pystr) : PollM bool :=
  let* s := get_state in
  if negb (pystr_in candidate_url (ps_registered s)) then ret false
  else match dget (ps_heartbeat s) candidate_url with
       | None => ret false
       | Some last_heartbeat_at =>
           let lease := default DEFAULT_API_V1_LEASE_SECONDS
                          (wh_next_ping (default no_hints (dget (ps_hints s) candidate_url))) in
           let lease := if finite_positive lease then lease else DEFAULT_API_V1_LEASE_SECONDS in
           let* now := monotonic in
           ret (flt (fsub now last_heartbeat_at) lease)
       end.

(** ** Registration *)

Definition stopped_result : jdict :=
  [("error", JStr "Relay polling stopped"); ("next_ping_in_x_seconds", JInt 0); ("poll_wait_seconds", JInt 0)]%pystr.

Definition node_payload : jdict :=
  [("server_public_key", JStr (pl_public_key setup)); ("capabilities", JDict (pl_capabilities setup))]%pystr.

(** What a relay's answer to a registration is kept of *)
Definition remember_registration (target_url : pystr) (payload : jdict) (s : poll_state) : poll_state :=
  let credentials := match jget payload "control_credential" with
    | JStr c => if py_empty c then ps_credentials s else dset (ps_credentials s) target_url c
    | _ => ps_credentials s
    end in
  let encrypted_progress := match jget payload "relay_capabilities" with
    | JDict c => match jget c "encrypted_progress_v1" with JBool true => true | _ => false end
    | _ => false
    end in
  set_credentials credentials (dset (ps_capabilities s) target_url encrypted_progress) s.

Definition _register_api_v1_compute_node_unlatched (target_url : pystr) : PollM json :=
  let register_url := _build_api_v1_url target_url "/relay/servers/register" in
  let* reply := relay_post register_url node_payload (pl_request_timeout setup) in
  match reply with
  | Failed e => raise e
  | Answered status headers text document =>
      if negb (status =? 200) then
        let* result := _api_v1_http_error_result status headers text document register_url request_timeout_json in
        ret (JDict result)
      else
        let* payload := reply_json document in
        modify (match payload with JDict d => remember_registration target_url d | _ => id end) ;;;
        ret payload
  end.

(** Registered, with a heartbeat and the key it was registered under *)
Definition note_registered (target_url : pystr) (s : poll_state) : poll_state :=
  let h := default no_hints (dget (ps_hints s) target_url) in
  set_unregister (ps_unregister_attempted s) false
    (set_relay_hints target_url (MkHints (wh_next_ping h) (wh_poll_wait h) (Some (pl_public_key setup)))
      (set_heartbeat (match dget (ps_heartbeat s) target_url with
                      | Some _ => ps_heartbeat s
                      | None => dset (ps_heartbeat s) target_url f0
                      end) (add_registered target_url s))).

(** [result.get("error")] of a dictionary; any other value has none. *)
Definition has_error (result : json) : bool :=
  match result with JDict d => truthy (jget d "error") | _ => false end.

Definition register_api_v1_compute_node (target_url : pystr) : PollM json :=
  let* latched := look_at latched_at in
  if latched then ret (JDict stopped_result)
  else
    let* result := _register_api_v1_compute_node_unlatched target_url in
    (if is_JDict result && negb (has_error result) then modify (note_registered target_url) else ret tt) ;;;
    ret result.

(** ** One poll *)

(** A relay's turn: the call's answer, or the error to report if no other relay has one *)
Inductive poll_step : Type :=
| Answer (payload : jdict)
| NextRelay (last_error : jdict).

Definition stop_answer : PollM poll_step := ret (Answer stopped_result).

Definition plain_error (message : pystr) (next_ping : json) : jdict :=
  [("error", JStr message); ("next_ping_in_x_seconds", next_ping)]%pystr.

Definition hints_now (register_wait poll_wait : float64) : wait_hints :=
  MkHints (Some register_wait) (Some poll_wait) (Some (pl_public_key setup)).

(** Whether the relay must be registered with before it is polled *)
Definition requires_register (candidate_url : pystr) (cached_hints : wait_hints) (register_wait : float64) :
  PollM bool :=
  let* s := get_state in
  if negb (pystr_in candidate_url (ps_registered s)) then ret true
  else if match wh_server_public_key cached_hints with
          | Some k => negb (bool_decide (k = pl_public_key setup))
          | None => false
          end then ret true
  else
    let refresh_threshold := _api_v1_refresh_threshold_seconds register_wait in
    match dget (ps_heartbeat s) candidate_url with
    | None => ret true
    | Some last_heartbeat_at =>
        if fle refresh_threshold f0 then ret true
        else
          let* now := monotonic in
          ret (fle refresh_threshold (fsub now last_heartbeat_at))
    end.

(** [d.get(key, default)] *)
Definition jget_or (d : jdict) (key : pystr) (v : json) : json := default v (dget d key).

(** The registration before a poll: the waits the relay named, or why the next relay is
    asked *)
Definition register_first (candidate_url : pystr) : PollM (poll_step + float64 * float64) :=
  let* stopped := polling_stopped in
  if stopped then ret (inl (Answer stopped_result))
  else
    let* register_response := register_api_v1_compute_node candidate_url in
    match register_response with
    | JDict d =>
        let* register_wait :=
          or_overflow (_normalise_positive_seconds (jget d "next_ping_in_x_seconds") (pl_request_timeout setup)) in
        let* poll_wait :=
          or_overflow (_normalise_poll_wait_seconds (jget_or d "poll_wait_seconds" (JFloat register_wait))) in
        if truthy (jget d "error") then
          ret (inl (NextRelay (set_default "next_ping_in_x_seconds" (JFloat register_wait) d)))
        else
          modify (set_relay_hints candidate_url (hints_now register_wait poll_wait)) ;;;
          modify (add_registered candidate_url) ;;;
          let* now := monotonic in
          modify (set_relay_heartbeat candidate_url now) ;;;
          modify (fun s => set_unregister (ps_unregister_attempted s) false s) ;;;
          let* stopped := polling_stopped in
          if stopped then ret (inl (Answer stopped_result)) else ret (inr (register_wait, poll_wait))
    | _ => ret (inl (NextRelay (plain_error "Invalid register response format: expected object payload"
                                  request_timeout_json)))
    end.

(** The post failed: a read that timed out after the relay's long poll is no failure when
    there is no other relay to ask. *)
Definition poll_failed (candidate_url : pystr) (register_wait poll_wait poll_started : float64) (e : poll_exn) :
  PollM poll_step :=
  let* now := monotonic in
  let elapsed_seconds := fsub now poll_started in
  let reached_server_long_poll :=
    px_timed_out e && (zlen (pl_relay_urls setup) <=? 1) && is_finite poll_wait && flt f0 poll_wait
    && fle (fmax f0 (fsub poll_wait f0_5)) elapsed_seconds in
  let* stopped := polling_stopped in
  if stopped then stop_answer
  else
    let* s := get_state in
    if reached_server_long_poll && pystr_in candidate_url (ps_registered s) then
      let* now := monotonic in
      modify (set_relay_heartbeat candidate_url now) ;;;
      modify (set_relay_hints candidate_url (hints_now register_wait poll_wait)) ;;;
      ret (Answer [("message", JStr "No requests available");
                   ("next_ping_in_x_seconds", if flt f0 poll_wait then JInt 0 else JFloat register_wait);
                   ("poll_wait_seconds", JFloat poll_wait)]%pystr)
    else raise e.

(** The relay's work, and its waits for the next time *)
Definition take_work (index : nat) (candidate_url : pystr) (register_wait poll_wait : float64) (payload : jdict) :
  PollM poll_step :=
  let payload_wait := jget payload "next_ping_in_x_seconds" in
  let* seconds := if is_JBool payload_wait then ret None else or_overflow (py_float payload_wait) in
  let normalised_payload_wait := f ← seconds; if finite_positive f then Some f else None in
  let '(register_wait, payload) := match normalised_payload_wait with
    | None => (register_wait, set_default "next_ping_in_x_seconds" (JFloat register_wait) payload)
    | Some f => (f, dset payload "next_ping_in_x_seconds" (JFloat f))
    end in
  let* poll_wait := or_overflow (_normalise_poll_wait_seconds (jget_or payload "poll_wait_seconds" (JFloat poll_wait))) in
  modify (set_relay_hints candidate_url (hints_now register_wait poll_wait)) ;;;
  let* now := monotonic in
  modify (set_relay_heartbeat candidate_url now) ;;;
  modify (fun s => set_work_relay_url candidate_url (set_active index (ps_sink_start s) s)) ;;;
  ret (Answer payload).

(** The post of a poll, and its answer *)
Definition poll_registered (index : nat) (candidate_url : pystr) (register_wait poll_wait : float64) : PollM poll_step :=
  let* stopped := polling_stopped in
  if stopped then stop_answer
  else
    let poll_url := _build_api_v1_url candidate_url "/relay/servers/poll" in
    let* poll_started := monotonic in
    let* reply := relay_post poll_url node_payload (_api_v1_poll_timeout_seconds poll_wait) in
    match reply with
    | Failed e => poll_failed candidate_url register_wait poll_wait poll_started e
    | Answered status headers text document =>
        let* stopped := polling_stopped in
        if stopped then stop_answer
        else if negb (status =? 200) then
          (if status =? 404 then modify (forget_relay candidate_url) else ret tt) ;;;
          let* result := _api_v1_http_error_result status headers text document poll_url
            (if status =? 404 then JInt 0 else JFloat register_wait) in
          ret (NextRelay result)
        else
          let* payload := reply_json document in
          match payload with
          | JDict d => take_work index candidate_url register_wait poll_wait d
          | _ => ret (NextRelay (plain_error "Invalid response format: expected object payload" (JFloat register_wait)))
          end
    end.

(** The body of the [try] *)
Definition ask_relay (index : nat) (candidate_url : pystr) : PollM poll_step :=
  let* s := get_state in
  let cached_hints := default no_hints (dget (ps_hints s) candidate_url) in
  let* register_wait :=
    or_overflow (_normalise_positive_seconds (opt_seconds (wh_next_ping cached_hints)) (pl_request_timeout setup)) in
  let* poll_wait := or_overflow (_normalise_poll_wait_seconds
    (JFloat (default register_wait (wh_poll_wait cached_hints)))) in
  let* requires := requires_register candidate_url cached_hints register_wait in
  let* stopped := polling_stopped in
  if stopped then stop_answer
  else if requires then
    let* registered := register_first candidate_url in
    match registered with
    | inl step => ret step
    | inr (register_wait, poll_wait) => poll_registered index candidate_url register_wait poll_wait
    end
  else poll_registered index candidate_url register_wait poll_wait.

Definition poll_relay (index : nat) (candidate_url : pystr) : PollM poll_step :=
  on_exception (ask_relay index candidate_url) (fun e =>
    let* stopped := polling_stopped in
    if stopped then stop_answer
    else
      modify (forget_relay candidate_url) ;;;
      ret (NextRelay (plain_error (px_name e) request_timeout_json))).

(** The relays in turn, from the active one *)
Fixpoint poll_relays (indices : list nat) (last_error : option jdict) : PollM jdict :=
  match indices with
  | [] => ret (default (plain_error "No relay targets responded" request_timeout_json) last_error)
  | index :: indices' =>
      match pl_relay_urls setup !! index with
      | None => raise (MkExn "IndexError" false)
      | Some candidate_url =>
          let* step := poll_relay index candidate_url in
          match step with
          | Answer payload => ret payload
          | NextRelay last_error => poll_relays indices' (Some last_error)
          end
      end
  end.

(** [(start + offset) % n] for each offset *)
Definition relay_order (start : nat) : list nat :=
  let n := length (pl_relay_urls setup) in map (fun offset => (start + offset) mod n)%nat (seq 0 n).

Definition poll_api_v1_encrypted_work : PollM jdict :=
  let* stopped := polling_stopped in
  if stopped then ret stopped_result
  else
    let* s := get_state in
    poll_relays (relay_order (ps_active s)) None.

(** ** Leases *)

(** The heartbeat's turn at one relay.  Only the registration itself is within its [try]. *)
Definition heartbeat_relay (candidate_url : pystr) : PollM unit :=
  let* s := get_state in
  let* lease := or_overflow (_normalise_positive_seconds
    (opt_seconds (wh_next_ping (default no_hints (dget (ps_hints s) candidate_url)))) DEFAULT_API_V1_LEASE_SECONDS) in
  let threshold := _api_v1_refresh_threshold_seconds lease in
  let* waiting :=
    if flt f0 threshold then
      let* now := monotonic in
      ret (flt (fsub now (default f0 (dget (ps_heartbeat s) candidate_url))) threshold)
    else ret false in
  if waiting then ret tt
  else
    let* response := on_exception (let* r := register_api_v1_compute_node candidate_url in ret (Some r))
                       (fun _ => ret None) in
    match response with
    | Some (JDict d) =>
        if truthy (jget d "error") then ret tt
        else
          let* refreshed_lease := or_overflow (_normalise_positive_seconds (jget d "next_ping_in_x_seconds") lease) in
          let* leaving := look_at heartbeat_stopped_at in
          let* stopped := if leaving then ret true else polling_stopped in
          if stopped then ret tt
          else
            let* poll_wait := or_overflow (_normalise_poll_wait_seconds
              (jget_or d "poll_wait_seconds" (JFloat refreshed_lease))) in
            modify (set_relay_hints candidate_url (hints_now refreshed_lease poll_wait)) ;;;
            modify (add_registered candidate_url) ;;;
            let* now := monotonic in
            modify (set_relay_heartbeat candidate_url now)
    | _ => ret tt
    end.

Fixpoint heartbeat_relays (l : list pystr) : PollM unit :=
  match l with
  | [] => ret tt
  | candidate_url :: l' =>
      let* leaving := look_at heartbeat_stopped_at in
      if leaving then ret tt else heartbeat_relay candidate_url ;;; heartbeat_relays l'
  end.

(** One round of [_api_v1_heartbeat_worker] *)
Definition heartbeat_round : PollM unit :=
  let* stopped := polling_stopped in
  if stopped then ret tt
  else let* s := get_state in heartbeat_relays (ps_registered s).

(** ** Sessions *)

Definition reset_api_v1_polling_session (clear_registration : bool) : PollM unit :=
  modify (set_unregister false false) ;;;
  if clear_registration then modify (fun s => set_registered [] (set_heartbeat [] (set_hints [] s)))
  else ret tt.

(** [stop_polling]: the flag of the loop that polls *)
Definition start (stop_polling : bool) : PollM unit :=
  let* stopped := if stop_polling then ret true else polling_stopped in
  let* s := get_state in
  reset_api_v1_polling_session (stopped || ps_unregister_complete s).

(** ** Leaving *)
Definition f0_05 : float64 := S754_finite false 7205759403792794 (-57).

(** The time left for a request before the shutdown's deadline *)
Definition _remaining_unregister_timeout (shutdown_deadline : option float64) : PollM (option float64) :=
  match shutdown_deadline with
  | None => ret (Some (pl_request_timeout setup))
  | Some deadline =>
      let* now := monotonic in
      let remaining := fsub deadline now in
      ret (if fle remaining f0_05 then None
           else Some (fmax f0_05 (fmin (pl_request_timeout setup) (fmul remaining f0_8))))
  end.

Inductive unregister_step : Set :=
| Unregistered
| StillRegistered
| OutOfTime.

Definition legacy_unregister_url (candidate_url : pystr) : pystr :=
  let base := py_rstrip candidate_url 47 in
  (if has_suffix base "/api/v1" then py_butlast 7 base else base) +++ "/unregister".

(** [relay_index_by_url.get(url)]: the last of equal URLs *)
Definition relay_index (url : pystr) (l : list pystr) : option nat :=
  match list_find (url =.) (rev l) with Some (i, _) => Some (length l - 1 - i)%nat | None => None end.

(** What a success removes *)
Definition left_relay (url : pystr) (s : poll_state) : poll_state :=
  forget_relay url (set_credentials (ddel (ps_credentials s) url) (ddel (ps_capabilities s) url) s).

(** The answer of a relay that was asked to let the node go *)
Definition read_unregistered (candidate_url unregister_url : pystr) (reply : http_reply) : PollM unregister_step :=
  match reply with
  | Failed e => raise e
  | Answered status headers text document =>
      if status =? 200 then
        modify (fun s => match relay_index candidate_url (pl_relay_urls setup) with
                         | Some index => set_active index (ps_sink_start s) s
                         | None => s
                         end) ;;;
        modify (left_relay candidate_url) ;;;
        ret Unregistered
      else
        _api_v1_non_200_diagnostic status headers text document unregister_url ;;;
        ret StillRegistered
  end.

Definition unregister_payload (control_credential : pystr) : jdict :=
  [("server_public_key", JStr (pl_public_key setup)); ("control_credential", JStr control_credential)]%pystr.

(** The body of the [try]: a relay that does not know the route is asked under the old one. *)
Definition ask_to_leave (candidate_url : pystr) (shutdown_deadline : option float64) : PollM unregister_step :=
  let* s := get_state in
  match dget (ps_credentials s) candidate_url with
  | None => ret StillRegistered
  | Some control_credential =>
      if py_empty control_credential then ret StillRegistered
      else
        let unregister_url := _build_api_v1_url candidate_url "/relay/servers/unregister" in
        let* timeout := _remaining_unregister_timeout shutdown_deadline in
        match timeout with
        | None => ret OutOfTime
        | Some timeout =>
            let* reply := relay_post unregister_url (unregister_payload control_credential) timeout in
            if match reply with Answered status _ _ _ => status =? 404 | Failed _ => false end then
              let* timeout := _remaining_unregister_timeout shutdown_deadline in
              match timeout with
              | None => ret OutOfTime
              | Some timeout =>
                  let* reply := relay_post (legacy_unregister_url candidate_url)
                                  (unregister_payload control_credential) timeout in
                  read_unregistered candidate_url unregister_url reply
              end
            else read_unregistered candidate_url unregister_url reply
        end
  end.

Definition leave_relay (candidate_url : pystr) (shutdown_deadline : option float64) : PollM unregister_step :=
  let* late := match shutdown_deadline with
               | Some deadline => let* now := monotonic in ret (fle (fsub deadline now) f0)
               | None => ret false
               end in
  if late then ret StillRegistered
  else on_exception (ask_to_leave candidate_url shutdown_deadline) (fun _ => ret StillRegistered).

(** Whether every relay let the node go *)
Fixpoint leave_relays (target_urls : list pystr) (shutdown_deadline : option float64) : PollM bool :=
  match target_urls with
  | [] => ret true
  | candidate_url :: target_urls' =>
      let* step := leave_relay candidate_url shutdown_deadline in
      match step with
      | OutOfTime => ret false
      | Unregistered => leave_relays target_urls' shutdown_deadline
      | StillRegistered => leave_relays target_urls' shutdown_deadline ;;; ret false
      end
  end.

(** The configured relays from the active one on, then any others by name *)
Definition unregister_targets (s : poll_state) : list pystr :=
  let ordered := omap (fun i => pl_relay_urls setup !! i) (relay_order (ps_active s)) in
  let targets := bfilter (fun url => pystr_in url (ps_registered s)) ordered in
  targets ++ py_sorted pystr_leb (bfilter (fun url => negb (pystr_in url targets)) (ps_registered s)).

(** Whether the heartbeat and the registrations under way have ended in time is known
    before.  What each success has removed is not removed again at the end. *)
Definition unregister_from_relay (heartbeat_ended mutations_ended : bool) (shutdown_deadline : option float64) :
  PollM bool :=
  let* s := get_state in
  if negb (heartbeat_ended && mutations_ended) then
    modify (fun s => set_unregister (ps_unregister_attempted s) false s) ;;; ret false
  else if ps_unregister_attempted s && ps_unregister_complete s && is_nil (ps_registered s) then ret true
  else
    modify (fun s => set_unregister true (ps_unregister_complete s) s) ;;;
    if is_nil (ps_registered s) then modify (set_unregister true true) ;;; ret true
    else
      let* complete := leave_relays (unregister_targets s) shutdown_deadline in
      modify (set_unregister true complete) ;;;
      ret complete.

(** ** The word of the relay on a request *)

Definition permission_error : poll_exn := MkExn "PermissionError" false.
Definition request_exception : poll_exn := MkExn "RequestException" false.

Definition unavailable (status : option Z) : jdict :=
  ("status"%pystr, JStr "unavailable") :: match status with Some n => [("http_status"%pystr, JInt n)] | None => [] end.

Definition _post_api_v1_request_control (relay_url request_id : pystr) (acknowledge : bool)
  (timeout_seconds : option float64) : PollM jdict :=
  let* s := get_state in
  let credential := default ""%pystr (dget (ps_credentials s) relay_url) in
  if py_empty credential then raise permission_error
  else
    let* reply := relay_post (_build_api_v1_url relay_url "/relay/servers/control")
      [("server_public_key", JStr (pl_public_key setup)); ("request_id", JStr request_id);
       ("control_credential", JStr credential); ("acknowledge", JBool acknowledge)]%pystr
      (default (pl_request_timeout setup) timeout_seconds) in
    match reply with
    | Failed e => raise e
    | Answered status _ _ document =>
        if (status =? 401) || (status =? 403) then raise permission_error
        else if (status =? 429) || ((500 <=? status) && (status <=? 599)) then raise request_exception
        else if negb (status =? 200) then ret (unavailable (Some status))
        else
          let* response_payload := reply_json document in
          ret (match response_payload with JDict d => d | _ => unavailable None end)
    end.

(** What the supervisor sees of it *)
Definition control_word (m : PollM jdict) : SM poll_state poll_exn control_outcome := fun s =>
  match m s with
  | (s', inr control) => (s', inr (ControlGives control))
  | (s', inl e) => (s', inr (if bool_decide (e = permission_error) then ControlForbidden else ControlFails))
  end.

Definition _API_V1_CONTROL_ACK_TIMEOUT_SECONDS : float64 := f2.

Definition _acknowledge_api_v1_terminal_control (relay_url request_id : pystr) : PollM unit :=
  on_exception (_post_api_v1_request_control relay_url request_id true (Some _API_V1_CONTROL_ACK_TIMEOUT_SECONDS) ;;; ret tt)
    (fun _ => ret tt).

(** ** The loop *)

(** What a turn of [poll_api_v1_encrypted_work_continuously] comes to: how long it sleeps
    and the work to process before, or that it ends *)
Inductive loop_step : Type :=
| Sleep (seconds : float64) (work : option jdict)
| EndLoop.

(** [failed]: the number of failures in a row, this one included *)
Definition after_failure (max_failures : option Z) (failed : Z) (seconds : float64) : Z * loop_step :=
  (failed, match max_failures with
           | Some n => if n <=? failed then EndLoop else Sleep seconds None
           | None => Sleep seconds None
           end).

(** One turn of the loop: an exception counts as a failure, one of the processing
    ([processing_raises]) as the first. *)
Definition loop_turn (max_failures : option Z) (processing_raises : jdict -> bool) (consecutive_failures : Z)
  (relay_response : poll_exn + jdict) : Z * loop_step :=
  let failed := after_failure max_failures (consecutive_failures + 1) in
  match relay_response with
  | inl _ => failed (pl_request_timeout setup)
  | inr d =>
      match _normalise_poll_wait_seconds (jget_or d "next_ping_in_x_seconds" request_timeout_json) with
      | inl _ => failed (pl_request_timeout setup)
      | inr wait_seconds =>
          if truthy (jget d "error") then failed wait_seconds
          else if jeq_str (jget d "protocol") NODE_PROTOCOL then
            if processing_raises d then after_failure max_failures 1 (pl_request_timeout setup)
            else (0, Sleep wait_seconds (Some d))
          else (0, Sleep wait_seconds None)
      end
  end.
End polling.
