(* ===== verification/NodeSession.v ===== *)
(** * What a node knows of its relays

    The invariant of the polling state, kept by every operation whatever the relays answer,
    and what a poll and an unregistration do, on [NodePoll]; the theorems are at the end. *)

From S2P Require Import Prelude PyFloat PyStr PyDict PyText PyRegex PyUrl Json JsonText.
From S2P Require Import Encrypt CryptoManager Profiles Provider NodeRequest NodeDiagnostics NodeOutput NodeGenerate NodeSupervise.
From S2P Require Import NodeProcess NodePoll.
From Stdlib Require Import Floats.SpecFloat.

(** ** The invariant *)

Definition waits_ok (h : wait_hints) : Prop :=
  (forall f, wh_next_ping h = Some f -> finite_positive f = true) /\
  (forall f, wh_poll_wait h = Some f -> is_finite f = true /\ flt f f0 = false).

(** The tables name the same relays, each with waits that are ones. *)
Record session_ok (urls : list pystr) (s : poll_state) : Prop := {
  so_active : (ps_active s < length urls)%nat;
  so_registered : NoDup (ps_registered s);
  so_heartbeat_keys : nodup_keys (ps_heartbeat s);
  so_hints_keys : nodup_keys (ps_hints s);
  so_credential_keys : nodup_keys (ps_credentials s);
  so_heartbeat : forall url, url ∈ ps_registered s <-> is_Some (dget (ps_heartbeat s) url);
  so_hints : forall url, url ∈ ps_registered s <-> is_Some (dget (ps_hints s) url);
  so_waits : forall url h, dget (ps_hints s) url = Some h -> waits_ok h
}.

Lemma elem_of_set_add x y l : x ∈ set_add y l <-> x = y \/ x ∈ l.
Proof.
  unfold set_add, pystr_in. case_bool_decide as Hy; [|rewrite elem_of_app, list_elem_of_singleton; tauto].
  split; [by right|by intros [->|?]].
Qed.

Lemma NoDup_set_add y l : NoDup l -> NoDup (set_add y l).
Proof.
  intros Hl. unfold set_add, pystr_in. case_bool_decide as Hy; [done|]. apply NoDup_app. split; [done|].
  split; [by intros x Hx ->%list_elem_of_singleton|apply NoDup_singleton].
Qed.

Lemma elem_of_set_discard x y l : x ∈ set_discard y l <-> x <> y /\ x ∈ l.
Proof.
  unfold set_discard. rewrite elem_of_bfilter, negb_true_iff, bool_decide_eq_false.
  tauto.
Qed.

Lemma NoDup_set_discard y l : NoDup l -> NoDup (set_discard y l).
Proof. intros Hl. eapply sublist_NoDup; [exact Hl|apply bfilter_sublist]. Qed.

Lemma hints_kept urls url h s : session_ok urls s -> url ∈ ps_registered s -> waits_ok h -> session_ok urls (set_relay_hints url h s).
Proof.
  intros [] Hu Hh. split; cbn; auto using nodup_dset.
  - intros u. rewrite dget_dset. case_bool_decide as E; [subst; by split|auto].
  - intros u h'. rewrite dget_dset. case_bool_decide; [by intros [= <-]|eauto].
Qed.

Lemma heartbeat_kept urls url t s : session_ok urls s -> url ∈ ps_registered s -> session_ok urls (set_relay_heartbeat url t s).
Proof.
  intros [] Hu. split; cbn; auto using nodup_dset.
  intros u. rewrite dget_dset. case_bool_decide as E; [subst; by split|auto].
Qed.

Lemma registered_kept urls url s : session_ok urls s -> url ∈ ps_registered s -> session_ok urls (add_registered url s).
Proof.
  intros [] Hu. split; cbn; auto using NoDup_set_add; intros u; rewrite elem_of_set_add, <- ?so_heartbeat0, <- ?so_hints0.
  all: split; [by intros [->|?]|by right].
Qed.

Lemma forget_kept urls url s : session_ok urls s -> session_ok urls (forget_relay url s).
Proof.
  intros []. split; cbn; auto using NoDup_set_discard, nodup_ddel.
  1,2: intros u; rewrite elem_of_set_discard, dget_ddel, <- ?so_heartbeat0, <- ?so_hints0 by done;
    case_bool_decide; [split; [by intros []|by intros []]|]; rewrite <- ?so_heartbeat0, <- ?so_hints0; tauto.
  intros u h. rewrite dget_ddel by done. case_bool_decide; [done|eauto].
Qed.

Section session.
Context `{!PyUnicode, !PyWords, !FloatRepr, !PyNumbers, !NetlocCheck, !RelayNet, !NodeClock} (setup : poll_setup).

Notation ok := (session_ok (pl_relay_urls setup)).

Lemma note_registered_kept url s : ok s ->
  ok (note_registered setup url s) /\ url ∈ ps_registered (note_registered setup url s).
Proof.
  intros []. split; [|cbn; apply elem_of_set_add; by left].
  assert (forall u, is_Some (dget (match dget (ps_heartbeat s) url with Some _ => ps_heartbeat s
            | None => dset (ps_heartbeat s) url f0 end) u) <-> u = url \/ is_Some (dget (ps_heartbeat s) u)) as Hb.
  { intros u. destruct (dget (ps_heartbeat s) url) as [t|] eqn:Hu; [|apply is_Some_dset].
    split; [by right|]. intros [->|?]; [by rewrite Hu|done]. }
  split; cbn; [done|by apply NoDup_set_add|..].
  - destruct (dget (ps_heartbeat s) url); [done|by apply nodup_dset].
  - by apply nodup_dset.
  - done.
  - intros u. by rewrite elem_of_set_add, Hb, so_heartbeat0.
  - intros u. by rewrite elem_of_set_add, is_Some_dset, so_hints0.
  - intros u h. rewrite dget_dset. case_bool_decide; [|eauto]. intros [= <-]. subst.
    destruct (dget (ps_hints s) url) as [h|] eqn:Hh; [exact (so_waits0 _ _ Hh)|by split].
Qed.

(** *** The waits are what they are normalised to *)
Context (Hrt : finite_positive (pl_request_timeout setup) = true).
#[local] Set Default Proof Using "Type*".

Lemma rt_nonneg : is_finite (pl_request_timeout setup) = true /\ flt (pl_request_timeout setup) f0 = false.
Proof.
  unfold finite_positive in Hrt. apply andb_prop in Hrt as [Hf Hp]. split; [done|].
  destruct (flt (pl_request_timeout setup) f0) eqn:E; [|done]. apply flt_not_fle in E. apply flt_fle in Hp. congruence.
Qed.

Lemma positive_seconds v fallback f : _normalise_positive_seconds setup v fallback = inr f -> finite_positive f = true.
Proof.
  unfold _normalise_positive_seconds. destruct (if is_JBool v then _ else _) as [e|o]; simpl; [done|].
  intros [= <-]. destruct (finite_positive (default fallback o)) eqn:E; rewrite ?E; [done|].
  by destruct (finite_positive fallback) eqn:E'.
Qed.

Lemma poll_wait_seconds v f : _normalise_poll_wait_seconds setup v = inr f -> is_finite f = true /\ flt f f0 = false.
Proof.
  unfold _normalise_poll_wait_seconds. destruct (is_JBool v); [intros [= <-]; apply rt_nonneg|].
  destruct (py_float v) as [e|[g|]]; simpl; [done| |intros [= <-]; apply rt_nonneg].
  destruct (is_finite g && negb (flt g f0)) eqn:E; intros [= <-]; [|apply rt_nonneg].
  apply andb_prop in E as [? ?%negb_true_iff]. done.
Qed.

Lemma hints_now_ok r w : finite_positive r = true -> is_finite w = true /\ flt w f0 = false -> waits_ok (hints_now setup r w).
Proof. by split; intros f [= <-]. Qed.

(** ** Steps on one relay *)

(** What the tables say of a relay *)
Definition evidence (s : poll_state) (url : pystr) : bool * option float64 * option wait_hints * option pystr :=
  (pystr_in url (ps_registered s), dget (ps_heartbeat s) url, dget (ps_hints s) url, dget (ps_credentials s) url).

(** From [s] to [s'] only the relay [u] is touched, and [ps] are posted. *)
Record moves (u : pystr) (s s' : poll_state) (ps : list posted) : Prop := {
  mv_frame : forall u', u' <> u -> evidence s' u' = evidence s u';
  mv_looks : (ps_looks s <= ps_looks s')%nat;
  mv_posts : ps_posts s' = ps_posts s ++ ps;
  mv_ok : ok s -> ok s'
}.

Lemma moves_refl u s : moves u s s [].
Proof. split; auto. by rewrite app_nil_r. Qed.

Lemma moves_trans u s s1 s2 ps1 ps2 : moves u s s1 ps1 -> moves u s1 s2 ps2 -> moves u s s2 (ps1 ++ ps2).
Proof.
  intros [] []. split; [|lia| |auto].
  - intros u' Hu. rewrite mv_frame1 by done. by apply mv_frame0.
  - by rewrite mv_posts1, mv_posts0, app_assoc.
Qed.

(** A step that posts nothing *)
Lemma moves_silent u s0 s f ps : moves u s0 s ps ->
  (forall u', u' <> u -> evidence (f s) u' = evidence s u') -> ps_looks (f s) = ps_looks s ->
  ps_posts (f s) = ps_posts s -> (ok s -> ok (f s)) -> moves u s0 (f s) ps.
Proof.
  intros [] Hf Hl Hp Hok. split; [|lia|by rewrite Hp|auto]. intros u' Hu. rewrite Hf by done. by apply mv_frame0.
Qed.

Lemma moves_look u s0 s ps : moves u s0 s ps -> moves u s0 (look_again s) ps.
Proof. intros []. split; [done|cbn; lia|done|]. intros Hs. by destruct (mv_ok0 Hs). Qed.

Lemma moves_post u s0 s ps p : moves u s0 s ps -> moves u s0 (add_poll_post p s) (ps ++ [p]).
Proof.
  intros []. split; [done|done|cbn; by rewrite mv_posts0, app_assoc|]. intros Hs. by destruct (mv_ok0 Hs).
Qed.

Lemma pystr_in_iff x l l' : (x ∈ l <-> x ∈ l') -> pystr_in x l = pystr_in x l'.
Proof. apply bool_decide_ext. Qed.

Ltac silent := apply moves_silent; [done| |done|done|].
Ltac framed := intros u' Hne; unfold evidence; cbn; rewrite ?dget_dset_ne by done.

Lemma moves_hints u s0 s h ps : moves u s0 s ps -> u ∈ ps_registered s -> waits_ok h ->
  moves u s0 (set_relay_hints u h s) ps.
Proof. intros Hm Hu Hh. silent; [by framed|]. intros Hs. by apply hints_kept. Qed.

Lemma moves_heartbeat u s0 s t ps : moves u s0 s ps -> u ∈ ps_registered s -> moves u s0 (set_relay_heartbeat u t s) ps.
Proof. intros Hm Hu. silent; [by framed|]. intros Hs. by apply heartbeat_kept. Qed.

Lemma moves_registered u s0 s ps : moves u s0 s ps -> u ∈ ps_registered s -> moves u s0 (add_registered u s) ps.
Proof.
  intros Hm Hu. silent; [|intros Hs; by apply registered_kept]. framed.
  rewrite (pystr_in_iff u' (set_add u (ps_registered s)) (ps_registered s)); [done|]. rewrite elem_of_set_add. tauto.
Qed.

Lemma moves_note u s0 s ps : moves u s0 s ps -> moves u s0 (note_registered setup u s) ps.
Proof.
  intros Hm. silent; [|intros Hs; by apply note_registered_kept]. framed.
  rewrite (pystr_in_iff u' (set_add u (ps_registered s)) (ps_registered s)) by (rewrite elem_of_set_add; tauto).
  destruct (dget (ps_heartbeat s) u); [done|by rewrite dget_dset_ne].
Qed.

Lemma moves_remember u s0 s d ps : moves u s0 s ps -> moves u s0 (remember_registration u d s) ps.
Proof.
  intros Hm. silent; [|intros []; split; try done; cbn; destruct (jget d "control_credential") as [| | | |c| |]; try done;
    destruct (py_empty c); [done|by apply nodup_dset]]. framed. destruct (jget d "control_credential") as [| | | |c| |]; try done.
  destruct (py_empty c); [done|by rewrite dget_dset_ne].
Qed.

Lemma moves_unregister u s0 s a c ps : moves u s0 s ps -> moves u s0 (set_unregister a c s) ps.
Proof. intros Hm. silent; [by framed|by intros []]. Qed.

Lemma moves_active u s0 s a k ps : moves u s0 s ps -> (a < length (pl_relay_urls setup))%nat ->
  moves u s0 (set_active a k s) ps.
Proof. intros Hm Ha. silent; [by framed|by intros []]. Qed.

Lemma moves_work u s0 s url ps : moves u s0 s ps -> moves u s0 (set_work_relay_url url s) ps.
Proof. intros Hm. silent; [by framed|by intros []]. Qed.

Lemma moves_forget u s0 s ps : ok s -> moves u s0 s ps -> moves u s0 (forget_relay u s) ps.
Proof.
  intros Hok Hm. silent; [|by apply forget_kept]. pose proof Hok as []. framed.
  rewrite (pystr_in_iff u' (set_discard u (ps_registered s)) (ps_registered s)) by (rewrite elem_of_set_discard; tauto).
  rewrite !dget_ddel by done. by rewrite !bool_decide_eq_false_2 by done.
Qed.

(** ** The rules *)

Lemma wp_look_at {A} (f : nat -> A) Q (R : poll_exn -> poll_state -> Prop) s :
  Q (f (ps_looks s)) (look_again s) -> wp (look_at f) Q R s.
Proof. done. Qed.

Lemma wp_relay_post url payload timeout Q (R : poll_exn -> poll_state -> Prop) s :
  let s' := add_poll_post (MkPosted url (JDict payload) timeout (poll_token setup)) s in
  Q (relay_reply (ps_posts s')) s' -> wp (relay_post setup url payload timeout) Q R s.
Proof. done. Qed.

Lemma wp_or_raise {A} e (o : option A) Q (R : poll_exn -> poll_state -> Prop) s :
  (o = None -> R e s) -> (forall a, o = Some a -> Q a s) -> wp (or_raise e o) Q R s.
Proof. unfold wp. destruct o; cbn; auto. Qed.

Lemma wp_or_overflow {A} (r : node_error + A) Q (R : poll_exn -> poll_state -> Prop) s :
  R overflow_error s -> (forall a, r = inr a -> Q a s) -> wp (or_overflow r) Q R s.
Proof. unfold wp. destruct r; cbn; auto. Qed.

Lemma wp_on_exception {A} (m : PollM A) h (Q : A -> poll_state -> Prop) R s :
  wp m Q (fun e s' => wp (h e) Q R s') s -> wp (on_exception m h) Q R s.
Proof. unfold wp, on_exception. by destruct (m s) as [s' [e|a]]. Qed.

Ltac wp_rule :=
  lazymatch goal with
  | |- wp (bind _ _) _ _ _ => apply wp_bind
  | |- wp get_state _ _ _ => apply wp_get
  | |- wp (ret _) _ _ _ => apply wp_ret
  | |- wp (modify _) _ _ _ => apply wp_modify
  | |- wp (raise _) _ _ _ => apply wp_raise
  | |- wp (look_at _) _ _ _ => apply wp_look_at
  | |- wp monotonic _ _ _ => apply wp_look_at
  | |- wp polling_stopped _ _ _ => apply wp_look_at
  | |- wp (relay_post _ _ _ _) _ _ _ => apply wp_relay_post
  end.
Ltac wps := repeat (wp_rule; cbv beta).

(** The diagnostics of an answer only read the state. *)
Lemma wp_http_error_result status headers text document url next_ping Q (R : poll_exn -> poll_state -> Prop) s :
  R value_error s ->
  (forall d, truthy (jget d "error") = true -> Q d s) ->
  wp (_api_v1_http_error_result setup status headers text document url next_ping) Q R s.
Proof.
  intros HR HQ. unfold _api_v1_http_error_result, _api_v1_non_200_diagnostic. apply wp_bind, wp_bind.
  apply wp_or_raise; [by intros _|]. intros _ _. apply wp_bind, wp_get, wp_bind. apply wp_or_raise; [by intros _|].
  intros c _. apply wp_ret, wp_ret, HQ. reflexivity.
Qed.

(** ** Registration *)
Definition reg_post (u : pystr) : posted :=
  MkPosted (_build_api_v1_url u "/relay/servers/register") (JDict (node_payload setup)) (pl_request_timeout setup)
    (poll_token setup).

(** The last post was answered with that document. *)
Definition answered_with (posts : list posted) (document : json) : Prop :=
  exists headers text, relay_reply posts = Answered 200 headers text (Some document).

Definition registered_by (u : pystr) (r : json) (s : poll_state) : Prop :=
  is_JDict r && negb (has_error r) = true -> u ∈ ps_registered s /\ answered_with (ps_posts s) r.

Lemma wp_register u s0 s ps : ok s0 -> moves u s0 s ps ->
  wp (register_api_v1_compute_node setup u)
    (fun r s' => (moves u s0 s' ps /\ r = JDict stopped_result) \/
                 (moves u s0 s' (ps ++ [reg_post u]) /\ registered_by u r s'))
    (fun _ s' => moves u s0 s' (ps ++ [reg_post u])) s.
Proof.
  intros Hok Hm. unfold register_api_v1_compute_node. wps. destruct (latched_at _).
  { apply wp_ret. left. split; [exact (moves_look _ _ _ _ Hm)|reflexivity]. }
  wps. unfold _register_api_v1_compute_node_unlatched. wps.
  pose proof (moves_post _ _ _ _ (reg_post u) (moves_look _ _ _ _ Hm)) as Hp. unfold reg_post in Hp at 1.
  destruct (relay_reply _) as [status headers text document|e] eqn:Hr; [|by apply wp_raise].
  destruct (status =? 200) eqn:Hst; simpl.
  - apply Z.eqb_eq in Hst as ->. apply wp_bind. apply wp_or_raise; [by intros _|]. intros payload ->. wps.
    set (f := match payload with JDict d => remember_registration u d | _ => id end).
    assert (forall ps', moves u s0 (add_poll_post (reg_post u) (look_again s)) ps' -> moves u s0 (f (add_poll_post (reg_post u) (look_again s))) ps') as Hf.
    { intros ps' H'. subst f. destruct payload; try exact H'. by apply moves_remember. }
    assert (ps_posts (f (add_poll_post (reg_post u) (look_again s))) = ps_posts s ++ [reg_post u]) as Hposts
      by by subst f; destruct payload.
    destruct (is_JDict payload && negb (has_error payload)) eqn:He.
    + wps. right. split; [by apply moves_note, Hf|]. intros _. split; [cbn; apply elem_of_set_add; by left|].
      exists headers, text.
      change (relay_reply (ps_posts (f (add_poll_post (reg_post u) (look_again s)))) = Answered 200 headers text (Some payload)).
      rewrite Hposts. exact Hr.
    + wps. right. split; [by apply Hf|]. unfold registered_by. by rewrite He.
  - apply wp_bind. apply wp_http_error_result; [done|]. intros d Hd. wps.
    cbn [is_JDict has_error]. rewrite Hd. simpl. wps. right. split; [done|]. unfold registered_by. cbn. by rewrite Hd.
Qed.

(** ** One relay's turn *)
Definition poll_post (u : pystr) (t : float64) : posted :=
  MkPosted (_build_api_v1_url u "/relay/servers/poll") (JDict (node_payload setup)) t (poll_token setup).

(** The node is registered under its key and its lease is not due at a look that follows. *)
Definition current (s : poll_state) (u : pystr) : Prop :=
  u ∈ ps_registered s /\
  exists h last k, dget (ps_hints s) u = Some h /\
    match wh_server_public_key h with Some key => key = pl_public_key setup | None => True end /\
    dget (ps_heartbeat s) u = Some last /\ (ps_looks s <= k)%nat /\
    fle (_api_v1_refresh_threshold_seconds (default (pl_request_timeout setup) (wh_next_ping h)))
      (fsub (time_at k) last) = false.

(** What is posted in a relay's turn: it is polled only right after it has accepted the
    registration, or while the registration is current. *)
Definition turn (s : poll_state) (before : list posted) (u : pystr) (ps : list posted) : Prop :=
  ps = [] \/ ps = [reg_post u] \/
  (exists t d, ps = [reg_post u; poll_post u t] /\ answered_with (before ++ [reg_post u]) (JDict d) /\
     has_error (JDict d) = false) \/
  (exists t, ps = [poll_post u t] /\ current s u).

(** Work as the relay handed it out, and what the node remembers of it *)
Definition work_from (u : pystr) (index : nat) (d : jdict) (s' : poll_state) : Prop :=
  (exists d0, answered_with (ps_posts s') (JDict d0) /\
     forall k, k <> "next_ping_in_x_seconds"%pystr -> dget d k = dget d0 k) /\
  u ∈ ps_registered s' /\ (exists k, ps_looks s' = S k /\ dget (ps_heartbeat s') u = Some (time_at k)) /\
  (exists h, dget (ps_hints s') u = Some h /\ wh_server_public_key h = Some (pl_public_key setup)) /\
  ps_active s' = index /\ ps_work_relay_url s' = Some u.

(** A long poll that ran out of time at the only relay *)
Definition no_work_from (u : pystr) (d : jdict) (s' : poll_state) : Prop :=
  (exists e, relay_reply (ps_posts s') = Failed e /\ px_timed_out e = true) /\ u ∈ ps_registered s' /\
  jget d "message" = JStr "No requests available" /\ dmem d "error" = false.

Definition step_means (u : pystr) (index : nat) (step : poll_step) (s' : poll_state) : Prop :=
  match step with
  | Answer d => d = stopped_result \/ work_from u index d s' \/ no_work_from u d s'
  | NextRelay d => dmem d "error" = true
  end.

Lemma wp_requires u h wait s : wp (requires_register setup u h wait)
  (fun b s' => (s' = s \/ s' = look_again s) /\
     (b = false -> u ∈ ps_registered s /\
        match wh_server_public_key h with Some key => key = pl_public_key setup | None => True end /\
        exists last, dget (ps_heartbeat s) u = Some last /\
          fle (_api_v1_refresh_threshold_seconds wait) (fsub (time_at (ps_looks s)) last) = false))
  (fun _ _ => False) s.
Proof.
  unfold requires_register. wps. unfold pystr_in. case_bool_decide as Hr; simpl; [|wps; by split; [left|]].
  destruct (match wh_server_public_key h with Some k => _ | None => false end) eqn:Hk; [wps; by split; [left|]|].
  destruct (dget (ps_heartbeat s) u) as [last|]; [|wps; by split; [left|]].
  destruct (fle _ f0); [wps; by split; [left|]|]. wps. split; [by right|]. intros Hf. split; [done|]. split; [|by exists last].
  destruct (wh_server_public_key h); [|done]. by apply negb_false_iff, bool_decide_eq_true in Hk.
Qed.

Lemma dget_set_default (d : jdict) k v k' : k' <> k -> dget (set_default k v d) k' = dget d k'.
Proof. intros Hne. unfold set_default. destruct (dmem d k); [done|]. by rewrite dget_dset_ne. Qed.

Lemma wp_take_work u index r w d s0 s ps : ok s0 -> (index < length (pl_relay_urls setup))%nat -> moves u s0 s ps ->
  u ∈ ps_registered s -> finite_positive r = true -> answered_with (ps_posts s) (JDict d) ->
  wp (take_work setup index u r w d) (fun step s' => moves u s0 s' ps /\ step_means u index step s')
    (fun _ s' => moves u s0 s' ps) s.
Proof.
  intros Hok Hi Hm Hu Hr Ha. unfold take_work. apply wp_bind.
  assert (forall seconds, wp
    (let normalised_payload_wait := f ← seconds; if finite_positive f then Some f else None in
     let '(register_wait, payload) := match normalised_payload_wait with
       | None => (r, set_default "next_ping_in_x_seconds" (JFloat r) d)
       | Some f => (f, dset d "next_ping_in_x_seconds" (JFloat f))
       end in
     let* poll_wait := or_overflow (_normalise_poll_wait_seconds setup (jget_or payload "poll_wait_seconds" (JFloat w))) in
     modify (set_relay_hints u (hints_now setup register_wait poll_wait)) ;;;
     let* now := monotonic in
     modify (set_relay_heartbeat u now) ;;;
     modify (fun s => set_work_relay_url u (set_active index (ps_sink_start s) s)) ;;;
     ret (Answer payload)) (fun step s' => moves u s0 s' ps /\ step_means u index step s') (fun _ s' => moves u s0 s' ps) s) as Hgo.
  { intros seconds. cbv zeta. destruct (match _ with None => _ | Some f => _ end) as [rw payload] eqn:Hrw.
    assert (finite_positive rw = true /\ forall k, k <> "next_ping_in_x_seconds"%pystr -> dget payload k = dget d k) as [Hrw' Hp].
    { destruct seconds as [f|]; simpl in Hrw; [destruct (finite_positive f) eqn:Hf; simpl in Hrw|]; injection Hrw as <- <-;
        (split; [done|]); intros k Hk; by rewrite ?dget_set_default, ?dget_dset_ne. }
    apply wp_bind, wp_or_overflow; [done|]. intros pw Hpw. apply poll_wait_seconds in Hpw. wps. split.
    - apply moves_work, moves_active; [|done]. apply moves_heartbeat; [apply moves_look|done].
      apply moves_hints; [done..|]. by apply hints_now_ok.
    - right. left. split; [by exists d|]. cbn. split; [done|]. split; [exists (ps_looks s); split; [done|by rewrite dget_dset_eq]|].
      split; [|done]. eexists. rewrite dget_dset_eq. by split. }
  destruct (is_JBool _); [by wps|]. apply wp_or_overflow; [done|]. intros seconds _. apply Hgo.
Qed.

(** A turn's end: the answer or the exception, after the posts [ps] and those of [tail] *)
Definition turn_ends (u : pystr) (index : nat) (s0 : poll_state) (ps : list posted) (step : poll_step)
  (s' : poll_state) : Prop :=
  (moves u s0 s' ps \/ exists t, moves u s0 s' (ps ++ [poll_post u t])) /\ step_means u index step s'.
Definition turn_raises (u : pystr) (s0 : poll_state) (ps : list posted) (s' : poll_state) : Prop :=
  moves u s0 s' ps \/ exists t, moves u s0 s' (ps ++ [poll_post u t]).

Lemma wp_poll_failed u index r w started e s0 s ps : moves u s0 s ps -> u ∈ ps_registered s ->
  finite_positive r = true -> is_finite w = true /\ flt w f0 = false -> relay_reply (ps_posts s) = Failed e ->
  wp (poll_failed setup u r w started e) (fun step s' => moves u s0 s' ps /\ step_means u index step s')
    (fun _ s' => moves u s0 s' ps) s.
Proof.
  intros Hm Hu Hr Hw He. unfold poll_failed. wps. destruct (stopped_at _).
  { unfold stop_answer. wps. split; [by do 2 apply moves_look|by left]. }
  wps. destruct (_ && _) eqn:Hb; wps; [|by do 2 apply moves_look]. split.
  - apply moves_hints; [|done|by apply hints_now_ok]. apply moves_heartbeat; [by do 3 apply moves_look|done].
  - right. right. split; [|by split]. exists e. split; [done|].
    by repeat (apply andb_prop in Hb as [Hb _]).
Qed.

Lemma wp_poll_registered u index r w s0 s ps : ok s0 -> (index < length (pl_relay_urls setup))%nat ->
  moves u s0 s ps -> u ∈ ps_registered s -> finite_positive r = true -> is_finite w = true /\ flt w f0 = false ->
  wp (poll_registered setup index u r w) (turn_ends u index s0 ps) (fun _ => turn_raises u s0 ps) s.
Proof.
  intros Hok Hi Hm Hu Hr Hw. unfold poll_registered. wps. destruct (stopped_at _).
  { unfold stop_answer. wps. split; [left; by apply moves_look|by left]. }
  set (t := _api_v1_poll_timeout_seconds setup w). wps.
  pose proof (moves_post _ _ _ _ (poll_post u t) (moves_look _ _ _ _ (moves_look _ _ _ _ Hm))) as Hp.
  change (MkPosted _ _ t _) with (poll_post u t). set (s1 := add_poll_post _ _) in *.
  destruct (relay_reply (ps_posts s1)) as [status headers text document|e] eqn:He.
  - wps. apply moves_look in Hp. destruct (stopped_at _).
    { unfold stop_answer. wps. split; [right; by exists t|by left]. }
    destruct (status =? 200) eqn:Hst; simpl.
    + apply Z.eqb_eq in Hst as ->. apply wp_bind, wp_or_raise; [intros _; right; by exists t|]. intros payload ->.
      destruct payload as [| | | | | |d]; try (wps; split; [right; by exists t|done]).
      eapply wp_mono; [eapply (wp_take_work u index r w d s0 _ _ Hok Hi Hp); [done..|]| |].
      * by exists headers, text.
      * intros step s' [Hm' Hs']. split; [right; by exists t|done].
      * intros e s' Hm'. right. by exists t.
    + apply wp_bind. assert (ok (look_again s1)) as Hok1 by by apply (mv_ok _ _ _ _ Hp).
      assert (wp (E := poll_exn) (if status =? 404 then modify (forget_relay u) else ret tt) (fun _ s' => moves u s0 s' (ps ++ [poll_post u t]))
        (fun _ s' => turn_raises u s0 ps s') (look_again s1)) as Hf.
      { destruct (status =? 404); wps; [by apply moves_forget|done]. }
      eapply wp_mono; [exact Hf| |done]. intros v s' Hm'. cbv beta in Hm'. wps. apply wp_http_error_result; [right; by exists t|].
      intros d Hd. wps. split; [right; by exists t|]. unfold step_means. destruct (dmem d "error") eqn:E; [done|].
      by rewrite (jget_absent _ _ E) in Hd.
  - eapply wp_mono; [eapply (wp_poll_failed u index r w _ e s0 s1); done| |].
    + intros step s' [Hm' Hs']. split; [right; by exists t|done].
    + intros e' s' Hm'. right. by exists t.
Qed.

Lemma has_error_key d : truthy (jget d "error") = true -> dmem d "error" = true.
Proof. intros Hd. destruct (dmem d "error") eqn:E; [done|]. by rewrite (jget_absent _ _ E) in Hd. Qed.

Lemma wp_register_first u index s : ok s ->
  wp (register_first setup u)
    (fun r s' => match r with
       | inl step => (moves u s s' [] \/ moves u s s' [reg_post u]) /\ step_means u index step s'
       | inr (rw, pw) => moves u s s' [reg_post u] /\ u ∈ ps_registered s' /\ finite_positive rw = true /\
           (is_finite pw = true /\ flt pw f0 = false) /\
           exists d, answered_with (ps_posts s ++ [reg_post u]) (JDict d) /\ has_error (JDict d) = false
       end)
    (fun _ s' => moves u s s' [] \/ moves u s s' [reg_post u]) s.
Proof.
  intros Hok. unfold register_first. wps. pose proof (moves_look _ _ _ _ (moves_refl u s)) as Hm.
  destruct (stopped_at _); [wps; split; [by left|by left]|]. apply wp_bind.
  eapply wp_mono; [apply (wp_register u s _ [] Hok Hm)| |by right]. intros v s1 Hv. cbn [app] in Hv.
  assert (moves u s s1 [] \/ moves u s s1 [reg_post u]) as Hm1 by (destruct Hv as [[]|[]]; [by left|by right]).
  destruct v as [| | | | | |d]; try (wps; by split).
  apply wp_bind, wp_or_overflow; [done|]. intros rw Hrw%positive_seconds. apply wp_bind, wp_or_overflow; [done|].
  intros pw Hpw%poll_wait_seconds. destruct (truthy (jget d "error")) eqn:He.
  { wps. split; [done|]. unfold step_means, set_default. pose proof (has_error_key _ He) as Hk.
    destruct (dmem d "next_ping_in_x_seconds"); [done|]. apply dmem_true, is_Some_dset. right. by apply dmem_true. }
  destruct Hv as [[_ [= ->]]|[Hv Hr]]; [done|].
  assert (is_JDict (JDict d) && negb (has_error (JDict d)) = true) as Hd by by (cbn; rewrite He).
  destruct (Hr Hd) as [Hu Ha]. clear Hm1. wps.
  assert (forall t, moves u s (set_unregister (ps_unregister_attempted s1) false (set_relay_heartbeat u t
    (look_again (add_registered u (set_relay_hints u (hints_now setup rw pw) s1))))) [reg_post u]) as Hall.
  { intros t. apply moves_unregister, moves_heartbeat; [|cbn; apply elem_of_set_add; by right].
    apply moves_look, moves_registered; [|done]. apply moves_hints; [done..|by apply hints_now_ok]. }
  destruct (stopped_at _); wps.
  - split; [right; apply moves_look, Hall|by left].
  - split; [apply moves_look, Hall|]. split; [cbn; apply elem_of_set_add; by right|]. split; [done|]. split; [done|].
    exists d. split; [|done]. by rewrite <- (mv_posts _ _ _ _ Hv).
Qed.

Lemma opt_seconds_wait o f : (forall g, o = Some g -> finite_positive g = true) ->
  _normalise_positive_seconds setup (opt_seconds o) (pl_request_timeout setup) = inr f ->
  f = default (pl_request_timeout setup) o.
Proof.
  intros Ho. unfold _normalise_positive_seconds. destruct o as [g|]; cbn; intros [= <-].
  - by rewrite !(Ho g eq_refl).
  - by rewrite !Hrt.
Qed.

Lemma look_step (s s1 : poll_state) : s1 = s \/ s1 = look_again s ->
  ps_registered s1 = ps_registered s /\ forall u, moves u s s1 [].
Proof. intros [->| ->]; (split; [done|]); intros u; [apply moves_refl|apply moves_look, moves_refl]. Qed.

(** A relay's turn, up to the handler of its exceptions *)
Lemma wp_ask_relay u index s : ok s -> (index < length (pl_relay_urls setup))%nat ->
  wp (ask_relay setup index u)
    (fun step s' => (exists ps, moves u s s' ps /\ turn s (ps_posts s) u ps) /\ step_means u index step s')
    (fun _ s' => exists ps, moves u s s' ps /\ turn s (ps_posts s) u ps) s.
Proof.
  intros Hok Hi. unfold ask_relay. wps.
  assert (exists ps, moves u s s ps /\ turn s (ps_posts s) u ps) as H0' by (exists []; split; [apply moves_refl|by left]).
  apply wp_or_overflow; [done|]. intros rw Hrw. pose proof (positive_seconds _ _ _ Hrw) as Hrwp.
  apply wp_bind, wp_or_overflow; [done|]. intros pw Hpw%poll_wait_seconds.
  apply wp_bind. eapply wp_mono; [apply wp_requires| |done]. intros b s1 [Hs1 Hb]. wps.
  destruct (look_step _ _ Hs1) as [Hreg Hm1].
  assert (forall u, moves u s (look_again s1) []) as Hm2 by (intros v; apply moves_look, Hm1).
  destruct (stopped_at _).
  { unfold stop_answer. wps. split; [exists []; split; [apply Hm2|by left]|by left]. }
  assert (ok (look_again s1)) as Hok2 by by apply (mv_ok _ _ _ _ (Hm2 u)).
  assert (forall s' ps, moves u (look_again s1) s' ps -> moves u s s' ps) as Htrans.
  { intros s' ps Hp. exact (moves_trans _ _ _ _ _ _ (Hm2 u) Hp). }
  assert (ps_posts (look_again s1) = ps_posts s) as Hposts by (rewrite (mv_posts _ _ _ _ (Hm2 u)); apply app_nil_r).
  destruct b.
  - apply wp_bind. eapply wp_mono; [apply (wp_register_first u index _ Hok2)| |].
    + intros [step|[rw' pw']] s2 Hv; cbv beta iota in Hv.
      * wps. destruct Hv as [[Hv|Hv] Hs]; (split; [|exact Hs]); eexists; (split; [apply Htrans, Hv|]); [by left|by right; left].
      * destruct Hv as (Hv & Hu & Hr' & Hp' & d & Ha & He). apply Htrans in Hv. rewrite Hposts in Ha.
        assert (ok s2) as Hok3 by by apply (mv_ok _ _ _ _ Hv).
        eapply wp_mono; [apply (wp_poll_registered u index rw' pw' s s2 [reg_post u]); done| |].
        -- intros step s' [[Hm'|[t Hm']] Hs']; (split; [|done]); eexists; (split; [exact Hm'|]); right; [by left|].
           right. left. by exists t, d.
        -- intros e s' [Hm'|[t Hm']]; eexists; (split; [exact Hm'|]); right; [by left|]. right. left. by exists t, d.
    + intros e s2 [Hv|Hv]; eexists; (split; [apply Htrans, Hv|]); [by left|by right; left].
  - destruct (Hb eq_refl) as (Hu & Hkey & last & Hlast & Hdue).
    assert (current s u) as Hcur.
    { split; [done|]. destruct (proj1 (so_hints _ _ Hok u) Hu) as [h Hh]. rewrite Hh in *. cbn [default] in *.
      exists h, last, (ps_looks s). repeat split; try done.
      rewrite <- (opt_seconds_wait (wh_next_ping h) rw); [done| |done]. apply (so_waits _ _ Hok u h Hh). }
    eapply wp_mono; [apply (wp_poll_registered u index rw pw s (look_again s1) [] Hok Hi (Hm2 u)); [by rewrite <- Hreg in Hu|done..]| |].
    + intros step s' [[Hm'|[t Hm']] Hs']; (split; [|done]); eexists; (split; [exact Hm'|]); [by left|].
      do 3 right. by exists t.
    + intros e s' [Hm'|[t Hm']]; eexists; (split; [exact Hm'|]); [by left|]. do 3 right. by exists t.
Qed.

Lemma wp_poll_relay u index s : ok s -> (index < length (pl_relay_urls setup))%nat ->
  wp (poll_relay setup index u)
    (fun step s' => (exists ps, moves u s s' ps /\ turn s (ps_posts s) u ps) /\ step_means u index step s')
    (fun _ _ => False) s.
Proof.
  intros Hok Hi. unfold poll_relay. apply wp_on_exception. eapply wp_mono; [by apply wp_ask_relay|done|].
  intros e s1 (ps & Hm & Ht). wps. apply moves_look in Hm. destruct (stopped_at _).
  - unfold stop_answer. wps. split; [by exists ps|by left].
  - wps. split; [|done]. exists ps. split; [|done]. apply moves_forget; [by apply (mv_ok _ _ _ _ Hm)|done].
Qed.

(** The relays' turns, in order, from the posts [before] to the posts [after] *)
Inductive rounds (s : poll_state) : list nat -> list posted -> list posted -> Prop :=
| rounds_end l before : rounds s l before before
| rounds_turn i l u before ps after :
    pl_relay_urls setup !! i = Some u -> turn s before u ps -> rounds s l (before ++ ps) after ->
    rounds s (i :: l) before after.

Definition polled (s : poll_state) (d : jdict) (s' : poll_state) : Prop :=
  dmem d "error" = true \/
  exists i u, pl_relay_urls setup !! i = Some u /\ (work_from u i d s' \/ no_work_from u d s').

Lemma turn_framed s s1 before u ps : evidence s1 u = evidence s u -> (ps_looks s <= ps_looks s1)%nat ->
  turn s1 before u ps -> turn s before u ps.
Proof.
  intros [= Hr Hb Hh _] Hl [->|[->|[Ht|(t & -> & Hu & h & last & k & Hh1 & Hk & Hb1 & Hle & Hf)]]];
    [by left|by right; left|by right; right; left|]. do 3 right. exists t. split; [done|]. split.
  - revert Hr. unfold pystr_in. intros Hr. by apply (bool_decide_eq_true_1 (u ∈ ps_registered s)); rewrite <- Hr; apply bool_decide_eq_true_2.
  - exists h, last, k. rewrite <- Hh, <- Hb. repeat split; try done. lia.
Qed.

Lemma wp_poll_relays s : forall l s1 last_error,
  ok s1 -> (ps_looks s <= ps_looks s1)%nat -> NoDup l -> NoDup (pl_relay_urls setup) ->
  (forall i, i ∈ l -> (i < length (pl_relay_urls setup))%nat) ->
  (forall i u, i ∈ l -> pl_relay_urls setup !! i = Some u -> evidence s1 u = evidence s u) ->
  (forall d, last_error = Some d -> dmem d "error" = true) ->
  wp (poll_relays setup l last_error)
    (fun d s' => ok s' /\ rounds s l (ps_posts s1) (ps_posts s') /\ polled s d s') (fun _ _ => False) s1.
Proof.
  induction l as [|i l IH]; intros s1 err Hok Hl Hnd Hurls Hlt Hev Herr; simpl.
  - wps. split; [done|]. split; [constructor|]. left. destruct err as [d|]; [by apply Herr|done].
  - destruct (lookup_lt_is_Some_2 (pl_relay_urls setup) i) as [u Hu]; [apply Hlt; by left|]. rewrite Hu. apply wp_bind.
    apply NoDup_cons in Hnd as [Hi Hnd].
    eapply wp_mono; [apply (wp_poll_relay u i s1 Hok); apply Hlt; by left| |done].
    intros step s2 [(ps & Hm & Ht) Hs]. assert (ok s2) as Hok2 by by apply (mv_ok _ _ _ _ Hm).
    apply (turn_framed s) in Ht; [|apply (Hev i); [by left|done]|done].
    destruct step as [d|d].
    + wps. split; [done|]. split; [|].
      { eapply rounds_turn; [exact Hu|exact Ht|]. rewrite (mv_posts _ _ _ _ Hm). constructor. }
      destruct Hs as [->|Hs]; [by left|]. right. by exists i, u.
    + eapply wp_mono; [apply IH; try done| |done].
      * pose proof (mv_looks _ _ _ _ Hm). lia.
      * intros j Hj. apply Hlt. by right.
      * intros j v Hj Hv. rewrite (mv_frame _ _ _ _ Hm); [apply (Hev j); [by right|done]|].
        intros ->. apply Hi. by rewrite (NoDup_lookup _ _ _ _ Hurls Hu Hv).
      * by intros ? [= <-].
      * intros d' s' (Hok' & Hr & Hp). split; [done|]. split; [|done].
        eapply rounds_turn; [exact Hu|exact Ht|]. by rewrite <- (mv_posts _ _ _ _ Hm).
Qed.

Lemma relay_order_elem start i : i ∈ relay_order setup start -> (i < length (pl_relay_urls setup))%nat.
Proof.
  unfold relay_order. intros (k & -> & Hk%elem_of_seq)%list_elem_of_fmap. apply Nat.mod_upper_bound. lia.
Qed.

Lemma relay_order_NoDup start : NoDup (relay_order setup start).
Proof.
  unfold relay_order. apply NoDup_fmap_2_strong; [|apply NoDup_seq].
  intros x y Hx%elem_of_seq Hy%elem_of_seq Hxy. set (n := length (pl_relay_urls setup)) in *.
  pose proof (Nat.div_mod_eq (start + x) n). pose proof (Nat.div_mod_eq (start + y) n).
  rewrite Hxy in *. set (q1 := ((start + x) / n)%nat) in *. set (q2 := ((start + y) / n)%nat) in *.
  destruct (Nat.lt_trichotomy q1 q2) as [Hq|[Hq|Hq]]; [|rewrite Hq in *; lia|].
  - assert (n * S q1 <= n * q2)%nat by (apply Nat.mul_le_mono_l; lia). lia.
  - assert (n * S q2 <= n * q1)%nat by (apply Nat.mul_le_mono_l; lia). lia.
Qed.

Lemma wp_poll s : ok s -> NoDup (pl_relay_urls setup) ->
  wp (poll_api_v1_encrypted_work setup)
    (fun d s' => ok s' /\ rounds s (relay_order setup (ps_active s)) (ps_posts s) (ps_posts s') /\ polled s d s')
    (fun _ _ => False) s.
Proof.
  intros Hok Hurls. unfold poll_api_v1_encrypted_work. wps.
  assert (ok (look_again s)) as Hok1 by by destruct Hok. destruct (stopped_at _).
  - wps. split; [done|]. split; [constructor|by left].
  - wps. apply (wp_poll_relays s _ (look_again s) None Hok1); try done.
    + cbn. lia.
    + apply relay_order_NoDup.
    + intros i. apply relay_order_elem.
Qed.

(** ** Leaving *)

(** Nothing is known of a relay any more. *)
Definition gone : bool * option float64 * option wait_hints * option pystr := (false, None, None, None).

(** A request to leave [u] bears the very credential that relay has handed out. *)
Definition leaving_post (s : poll_state) (u : pystr) (p : posted) : Prop :=
  (po_url p = _build_api_v1_url u "/relay/servers/unregister" \/ po_url p = legacy_unregister_url u) /\
  exists credential, dget (ps_credentials s) u = Some credential /\ py_empty credential = false /\
    po_payload p = JDict (unregister_payload setup credential).

(** [u] answered 200 to such a request, the last of [posts]. *)
Definition let_go (s : poll_state) (u : pystr) (posts : list posted) : Prop :=
  (exists before p, posts = before ++ [p] /\ leaving_post s u p) /\
  exists headers text document, relay_reply posts = Answered 200 headers text document.

Definition step_leaves (u : pystr) (s s' : poll_state) (step : unregister_step) : Prop :=
  match step with
  | Unregistered => evidence s' u = gone /\ let_go s u (ps_posts s')
  | _ => evidence s' u = evidence s u
  end.

Lemma left_gone u s : ok s -> evidence (left_relay u s) u = gone.
Proof.
  intros []. assert (u ∉ set_discard u (ps_registered s)) as Hn by (rewrite elem_of_set_discard; tauto).
  change (evidence (left_relay u s) u) with (pystr_in u (set_discard u (ps_registered s)),
    dget (ddel (ps_heartbeat s) u) u, dget (ddel (ps_hints s) u) u, dget (ddel (ps_credentials s) u) u).
  unfold pystr_in. rewrite (bool_decide_eq_false_2 _ Hn). by rewrite !dget_ddel_eq by done.
Qed.

Lemma moves_left u s0 s ps : ok s -> moves u s0 s ps -> moves u s0 (left_relay u s) ps.
Proof.
  intros Hok Hm. unfold left_relay. pose proof Hok as []. apply moves_forget.
  - split; try done. by apply nodup_ddel.
  - silent; [|by intros _; split; try done; apply nodup_ddel]. framed. rewrite dget_ddel by done.
    by rewrite bool_decide_eq_false_2 by done.
Qed.

Lemma relay_index_lt url i : relay_index url (pl_relay_urls setup) = Some i -> (i < length (pl_relay_urls setup))%nat.
Proof.
  unfold relay_index. destruct (list_find _ _) as [[k x]|] eqn:Hf; [|done]. intros [= <-].
  apply list_find_Some in Hf as (Hk%lookup_lt_Some & _). rewrite length_rev in Hk. lia.
Qed.

(** The answer to a request to leave, the last of [ps] *)
Lemma wp_read_unregistered u url reply s0 s ps p : ok s0 -> moves u s0 s (ps ++ [p]) -> leaving_post s0 u p ->
  evidence s u = evidence s0 u -> relay_reply (ps_posts s) = reply ->
  wp (read_unregistered setup u url reply)
    (fun step s' => moves u s0 s' (ps ++ [p]) /\ step_leaves u s0 s' step)
    (fun _ s' => moves u s0 s' (ps ++ [p]) /\ evidence s' u = evidence s0 u) s.
Proof.
  intros Hok Hm Hp He Hr. unfold read_unregistered. destruct reply as [status headers text document|e]; [|by wps].
  assert (ok s) as Hoks by by apply (mv_ok _ _ _ _ Hm). destruct (status =? 200) eqn:Hst.
  - apply Z.eqb_eq in Hst as ->. wps. set (s1 := match relay_index _ _ with Some _ => _ | None => _ end).
    assert (moves u s0 s1 (ps ++ [p])) as Hm1.
    { subst s1. destruct (relay_index u _) as [i|] eqn:Hi; [|done]. apply moves_active; [done|by eapply relay_index_lt]. }
    assert (ok s1) as Hok1 by by apply (mv_ok _ _ _ _ Hm1).
    assert (ps_posts (left_relay u s1) = ps_posts s) as Hposts by by subst s1; destruct (relay_index u _).
    split; [by apply moves_left|]. split; [by apply left_gone|]. rewrite Hposts. split; [|by exists headers, text, document].
    exists (ps_posts s0 ++ ps), p. split; [|done]. by rewrite (mv_posts _ _ _ _ Hm), app_assoc.
  - apply wp_bind. unfold _api_v1_non_200_diagnostic. apply wp_bind, wp_or_raise; [by intros _|]. intros _ _. wps.
    apply wp_or_raise; [by intros _|]. intros c _. by wps.
Qed.

Lemma wp_remaining_timeout deadline (Q : option float64 -> poll_state -> Prop) (R : poll_exn -> poll_state -> Prop) s :
  (forall t, Q t s) -> (forall t, Q t (look_again s)) -> wp (_remaining_unregister_timeout setup deadline) Q R s.
Proof. intros Ht Hl. unfold _remaining_unregister_timeout. destruct deadline; wps; [apply Hl|apply Ht]. Qed.

Definition leaves (u : pystr) (s0 : poll_state) (step : unregister_step) (s' : poll_state) : Prop :=
  exists ps, moves u s0 s' ps /\ Forall (leaving_post s0 u) ps /\ step_leaves u s0 s' step.

Lemma wp_ask_to_leave u deadline s : ok s ->
  wp (ask_to_leave setup u deadline) (leaves u s) (fun _ s' => leaves u s StillRegistered s') s.
Proof.
  intros Hok. unfold ask_to_leave. wps.
  assert (forall s', (s' = s \/ s' = look_again s) -> leaves u s StillRegistered s') as Hstay.
  { intros s' [->| ->]; exists []; (split; [|by split]); [apply moves_refl|apply moves_look, moves_refl]. }
  destruct (dget (ps_credentials s) u) as [c|] eqn:Hc; [|wps; apply Hstay; by left].
  destruct (py_empty c) eqn:Hce; [wps; apply Hstay; by left|]. wps.
  assert (forall url t, url = _build_api_v1_url u "/relay/servers/unregister" \/ url = legacy_unregister_url u ->
    leaving_post s u (MkPosted url (JDict (unregister_payload setup c)) t (poll_token setup))) as Hpost.
  { intros url t Hurl. split; [done|]. by exists c. }
  assert (forall s1 ps reply, moves u s s1 ps -> Forall (leaving_post s u) ps -> evidence s1 u = evidence s u ->
    ps <> [] -> relay_reply (ps_posts s1) = reply ->
    wp (read_unregistered setup u (_build_api_v1_url u "/relay/servers/unregister") reply) (leaves u s)
       (fun _ s' => leaves u s StillRegistered s') s1) as Hread.
  { intros s1 ps reply Hm Hps He Hne Hr. destruct (exists_last Hne) as (qs & p & ->).
    pose proof Hps as [_ Hp]%Forall_app. apply Forall_inv in Hp.
    eapply wp_mono; [exact (wp_read_unregistered u _ reply s s1 qs p Hok Hm Hp He Hr)| |].
    - intros step s' [Hm' Hs']. by exists (qs ++ [p]).
    - intros e s' [Hm' Hs']. by exists (qs ++ [p]). }
  assert (forall t s1, moves u s s1 [] -> evidence s1 u = evidence s u ->
    wp (match t with None => ret OutOfTime | Some timeout =>
      let* reply := relay_post setup (_build_api_v1_url u "/relay/servers/unregister") (unregister_payload setup c) timeout in
      if match reply with Answered status _ _ _ => status =? 404 | Failed _ => false end then
        let* timeout := _remaining_unregister_timeout setup deadline in
        match timeout with None => ret OutOfTime | Some timeout =>
          let* reply := relay_post setup (legacy_unregister_url u) (unregister_payload setup c) timeout in
          read_unregistered setup u (_build_api_v1_url u "/relay/servers/unregister") reply
        end
      else read_unregistered setup u (_build_api_v1_url u "/relay/servers/unregister") reply end)
      (leaves u s) (fun _ s' => leaves u s StillRegistered s') s1) as Hgo.
  { intros t s1 Hm He. destruct t as [t|]; [|wps; by exists []]. wps.
    pose proof (Hpost (_build_api_v1_url u "/relay/servers/unregister") t (or_introl eq_refl)) as Hp1.
    set (p1 := MkPosted (_build_api_v1_url u "/relay/servers/unregister") _ t _) in *.
    apply moves_post with (p := p1) in Hm. cbn [app] in Hm. destruct (match relay_reply _ with Answered _ _ _ _ => _ | Failed _ => _ end).
    - wps. assert (forall t' s2, moves u s s2 [p1] -> evidence s2 u = evidence s u ->
        wp (match t' with None => ret OutOfTime | Some timeout =>
          let* reply := relay_post setup (legacy_unregister_url u) (unregister_payload setup c) timeout in
          read_unregistered setup u (_build_api_v1_url u "/relay/servers/unregister") reply end)
          (leaves u s) (fun _ s' => leaves u s StillRegistered s') s2) as Hlegacy.
      { intros t' s2 Hm2 He2. destruct t' as [t'|]; [|wps; exists [p1]; by rewrite Forall_singleton]. wps.
        eapply (Hread _ [p1; _]); [apply (moves_post _ _ _ _ _ Hm2)| |done|done|done].
        rewrite Forall_cons, Forall_singleton. split; [done|]. by apply Hpost; right. }
      apply wp_remaining_timeout; intros t'; apply Hlegacy; try done. by apply moves_look.
    - eapply (Hread _ [p1]); [exact Hm|by rewrite Forall_singleton|done|done|done]. }
  apply wp_remaining_timeout; intros t; apply Hgo; try done; [apply moves_refl|apply moves_look, moves_refl].
Qed.

Lemma wp_leave_relay u deadline s : ok s ->
  wp (leave_relay setup u deadline) (leaves u s) (fun _ _ => False) s.
Proof.
  intros Hok. unfold leave_relay.
  assert (forall (late : bool) s1, moves u s s1 [] -> evidence s1 u = evidence s u -> ps_credentials s1 = ps_credentials s ->
    wp (if late then ret StillRegistered else on_exception (ask_to_leave setup u deadline) (fun _ => ret StillRegistered))
      (leaves u s) (fun _ _ => False) s1) as Hgo.
  { intros late s1 Hm He Hc. destruct late; [wps; by exists []|]. apply wp_on_exception.
    assert (forall step s', leaves u s1 step s' -> leaves u s step s') as Htrans.
    { intros step s' (ps & Hm' & Hps & Hs'). exists ps. split; [exact (moves_trans _ _ _ _ _ _ Hm Hm')|].
      assert (forall p, leaving_post s1 u p -> leaving_post s u p) as Hl by by (unfold leaving_post; rewrite Hc).
      split; [eapply Forall_impl; [exact Hps|exact Hl]|]. destruct step; cbn in *; [|by rewrite Hs'..].
      destruct Hs' as [Hg [(before & p & Hb & Hp) Hr]]. split; [done|]. split; [|done]. exists before, p. auto. }
    eapply wp_mono; [apply wp_ask_to_leave; by apply (mv_ok _ _ _ _ Hm)| |].
    - intros step s'. apply Htrans.
    - intros e s' Hs'. wps. by apply Htrans. }
  wps. destruct deadline; wps; [apply Hgo; [apply moves_look, moves_refl|done..]|].
  apply (Hgo false); [apply moves_refl|done..].
Qed.

(** What leaving some relays [l] comes to; [posts] goes up to the one that answered. *)
Record left_some (l : list pystr) (s s' : poll_state) (all : bool) : Prop := {
  ls_ok : ok s';
  ls_posts : exists ps, ps_posts s' = ps_posts s ++ ps /\ Forall (fun p => exists u, u ∈ l /\ leaving_post s u p) ps;
  ls_others : forall u, u ∉ l -> evidence s' u = evidence s u;
  ls_relays : forall u, u ∈ l -> evidence s' u = evidence s u \/
    (evidence s' u = gone /\ exists posts, posts `prefix_of` ps_posts s' /\ let_go s u posts);
  ls_all : all = true -> forall u, u ∈ l -> evidence s' u = gone
}.

Lemma leaving_post_framed s s1 u p : evidence s1 u = evidence s u \/ evidence s1 u = gone ->
  leaving_post s1 u p -> leaving_post s u p.
Proof.
  intros [[= _ _ _ He]|[= _ _ _ He]] [Hu (c & Hc & Hp)]; (split; [done|]); exists c; rewrite He in Hc; [done|discriminate].
Qed.

Lemma let_go_framed s s1 u posts : evidence s1 u = evidence s u \/ evidence s1 u = gone ->
  let_go s1 u posts -> let_go s u posts.
Proof.
  intros He [(before & p & -> & Hp) Hr]. split; [|done]. exists before, p. split; [done|].
  by eapply leaving_post_framed.
Qed.

(** One relay after the others *)
Lemma left_one u l s s1 s2 step all : u ∉ l -> leaves u s step s1 -> ok s -> left_some l s1 s2 all ->
  left_some (u :: l) s s2 (all && match step with Unregistered => true | _ => false end).
Proof.
  intros Hu (ps & Hm & Hps & Hs) Hok [Ho (qs & Hqs & Hq) Hothers Hrelays Hall]. split; [done| | | |].
  - exists (ps ++ qs). rewrite Hqs, (mv_posts _ _ _ _ Hm), app_assoc. split; [done|]. apply Forall_app. split.
    + eapply Forall_impl; [exact Hps|]. intros p Hp. exists u. split; [by left|done].
    + eapply Forall_impl; [exact Hq|]. intros p (v & Hv & Hp). exists v. split; [by right|].
      eapply leaving_post_framed; [|exact Hp]. left. apply (mv_frame _ _ _ _ Hm). by intros ->.
  - intros v Hv. rewrite Hothers by (intros Hin; apply Hv; by right). apply (mv_frame _ _ _ _ Hm).
    intros ->. apply Hv. by left.
  - intros v [->|Hv]%elem_of_cons.
    + rewrite Hothers by done. destruct step; cbn in Hs; [|by left|by left]. destruct Hs as [Hg Hlet]. right.
      split; [done|]. exists (ps_posts s1). split; [|done]. rewrite Hqs. by apply prefix_app_r.
    + assert (evidence s1 v = evidence s v) as He by (apply (mv_frame _ _ _ _ Hm); by intros ->).
      destruct (Hrelays v Hv) as [Hr|(Hg & posts & Hp & Hlet)]; [left; congruence|]. right. split; [done|].
      exists posts. split; [done|]. eapply let_go_framed; [by left|done].
  - intros [Ha Hst]%andb_true_iff v [->|Hv]%elem_of_cons; [|by apply Hall].
    rewrite Hothers by done. destruct step; [by destruct Hs|done|done].
Qed.

Lemma left_none l s all : ok s -> (all = true -> l = []) -> left_some l s s all.
Proof.
  intros Hok Hall. split; [done| |done|by left|].
  - exists []. by rewrite app_nil_r.
  - intros Ha u. rewrite (Hall Ha). by intros ?%elem_of_nil.
Qed.

Lemma wp_leave_relays deadline : forall l s, ok s -> NoDup l ->
  wp (leave_relays setup l deadline) (fun all s' => left_some l s s' all) (fun _ _ => False) s.
Proof.
  induction l as [|u l IH]; intros s Hok Hnd; simpl.
  { wps. by apply left_none. }
  apply NoDup_cons in Hnd as [Hu Hnd]. apply wp_bind. eapply wp_mono; [by apply wp_leave_relay| |done].
  intros step s1 Hs. assert (ok s1) as Hok1 by (destruct Hs as (ps & Hm & _); by apply (mv_ok _ _ _ _ Hm)).
  destruct step.
  - eapply wp_mono; [by apply IH| |done]. intros all s2 Hl. pose proof (left_one _ _ _ _ _ _ _ Hu Hs Hok Hl) as H'.
    by rewrite andb_true_r in H'.
  - apply wp_bind. eapply wp_mono; [by apply IH| |done]. intros all s2 Hl. wps.
    pose proof (left_one _ _ _ _ _ _ _ Hu Hs Hok Hl) as H'. by rewrite andb_false_r in H'.
  - wps. apply (left_one _ _ _ _ _ _ false Hu Hs Hok). by apply left_none.
Qed.

Lemma unregister_targets_elem s u : ok s -> u ∈ unregister_targets setup s <-> u ∈ ps_registered s.
Proof.
  intros Hok. unfold unregister_targets. set (targets := bfilter _ _). rewrite elem_of_app, elem_of_py_sorted.
  assert (forall v, v ∈ targets -> v ∈ ps_registered s) as Ht.
  { intros v. subst targets. intros [_ Hv]%elem_of_bfilter. by apply bool_decide_eq_true in Hv. }
  rewrite elem_of_bfilter, negb_true_iff. unfold pystr_in. rewrite bool_decide_eq_false. destruct (decide (u ∈ targets)) as [Hin|Hin]; [|tauto]. split; [intros _; auto|by left].
Qed.

Lemma unregister_targets_NoDup s : ok s -> NoDup (pl_relay_urls setup) -> NoDup (unregister_targets setup s).
Proof.
  intros Hok Hurls. unfold unregister_targets. set (targets := bfilter _ (omap _ _)).
  assert (NoDup (omap (fun i => pl_relay_urls setup !! i) (relay_order setup (ps_active s)))) as Ho.
  { generalize (relay_order_NoDup (ps_active s)). generalize (relay_order setup (ps_active s)).
    induction l as [|i l IH]; intros Hl; [constructor|]. apply NoDup_cons in Hl as [Hi Hl]. simpl.
    destruct (pl_relay_urls setup !! i) as [u|] eqn:Hu; [|by apply IH]. apply NoDup_cons. split; [|by apply IH].
    intros (j & Hj & Hju)%list_elem_of_omap. apply Hi. by rewrite (NoDup_lookup _ _ _ _ Hurls Hu Hju). }
  apply NoDup_app. split; [|split].
  - eapply sublist_NoDup; [exact Ho|apply bfilter_sublist].
  - intros u Hu. rewrite elem_of_py_sorted. intros [_ Hn]%elem_of_bfilter.
    apply negb_true_iff, bool_decide_eq_false in Hn. done.
  - rewrite py_sorted_perm. eapply sublist_NoDup; [apply (so_registered _ _ Hok)|apply bfilter_sublist].
Qed.

(** What taking the registrations back comes to *)
Record unregistered (s s' : poll_state) (complete : bool) : Prop := {
  un_ok : ok s';
  un_complete : ps_unregister_complete s' = complete;
  un_posts : exists ps, ps_posts s' = ps_posts s ++ ps /\
    Forall (fun p => exists u, u ∈ ps_registered s /\ leaving_post s u p) ps;
  un_relays : forall u, evidence s' u = evidence s u \/
    (u ∈ ps_registered s /\ evidence s' u = gone /\ exists posts, posts `prefix_of` ps_posts s' /\ let_go s u posts);
  un_all : complete = true -> ps_registered s' = []
}.

Lemma ok_set_unregister a c s : ok s -> ok (set_unregister a c s).
Proof. by intros []. Qed.

Lemma unregistered_silent s a c : ok s -> (c = true -> ps_registered s = []) -> unregistered s (set_unregister a c s) c.
Proof.
  intros Hok Hc. split; [by apply ok_set_unregister|done| |by left|done]. exists []. by rewrite app_nil_r.
Qed.

Lemma wp_unregister heartbeat_ended mutations_ended deadline s : ok s -> NoDup (pl_relay_urls setup) ->
  wp (unregister_from_relay setup heartbeat_ended mutations_ended deadline)
    (fun complete s' => unregistered s s' complete) (fun _ _ => False) s.
Proof.
  intros Hok Hurls. unfold unregister_from_relay. wps. destruct (negb _); [wps; by apply unregistered_silent|].
  destruct (_ && is_nil (ps_registered s)) eqn:Hdone.
  { apply andb_prop in Hdone as [[_ Hc]%andb_prop Hn]. wps. split; [done|by rewrite Hc| |by left|].
    - exists []. by rewrite app_nil_r.
    - intros _. by destruct (ps_registered s). }
  wps. change (ps_registered (set_unregister _ _ s)) with (ps_registered s). destruct (is_nil (ps_registered s)) eqn:Hn.
  { wps. change (set_unregister true true (set_unregister true (ps_unregister_complete s) s)) with (set_unregister true true s).
    apply unregistered_silent; [done|]. intros _. by destruct (ps_registered s). }
  apply wp_bind. set (s1 := set_unregister true (ps_unregister_complete s) s).
  assert (ok s1) as Hok1 by by apply ok_set_unregister.
  eapply wp_mono; [apply wp_leave_relays; [exact Hok1|by apply unregister_targets_NoDup]| |done].
  intros all s2 [Ho (ps & Hps & Hp) Hothers Hrelays Hall]. wps.
  assert (forall u, evidence s2 u = evidence s u \/ (u ∈ ps_registered s /\ evidence s2 u = gone /\
    exists posts, posts `prefix_of` ps_posts s2 /\ let_go s u posts)) as Hev.
  { intros u. destruct (decide (u ∈ unregister_targets setup s)) as [Hu|Hu]; [|left; by apply Hothers].
    destruct (Hrelays u Hu) as [He|[Hg Hl]]; [by left|]. right. split; [by apply unregister_targets_elem|done]. }
  split; [by apply ok_set_unregister|done| |done|].
  - exists ps. split; [done|]. eapply Forall_impl; [exact Hp|]. intros p (u & Hu & Hlp).
    exists u. split; [by apply unregister_targets_elem|done].
  - intros Ha. cbn. destruct (ps_registered s2) as [|u l] eqn:Hl; [done|]. exfalso.
    assert (pystr_in u (ps_registered s2) = true) as Hin by (apply bool_decide_eq_true; rewrite Hl; by left).
    destruct (decide (u ∈ unregister_targets setup s)) as [Hu|Hu].
    + pose proof (Hall Ha u Hu) as [= Hf _ _ _]. congruence.
    + pose proof (Hothers u Hu) as [= Hf _ _ _]. apply Hu, unregister_targets_elem; [done|].
      apply (bool_decide_eq_true_1 (u ∈ ps_registered s)). unfold pystr_in in *. congruence.
Qed.

(** ** Every operation *)

Inductive node_op : Type :=
| OpPoll
| OpRegister (url : pystr)
| OpHeartbeat
| OpReset (clear_registration : bool)
| OpStart (stop_polling : bool)
| OpUnregister (heartbeat_ended mutations_ended : bool) (shutdown_deadline : option float64)
| OpControl (relay_url request_id : pystr) (acknowledge : bool) (timeout : option float64).

Definition run_node_op (op : node_op) (s : poll_state) : poll_state :=
  match op with
  | OpPoll => (poll_api_v1_encrypted_work setup s).1
  | OpRegister url => (register_api_v1_compute_node setup url s).1
  | OpHeartbeat => (heartbeat_round setup s).1
  | OpReset clear => (reset_api_v1_polling_session clear s).1
  | OpStart stop_polling => (start stop_polling s).1
  | OpUnregister heartbeat_ended mutations_ended deadline =>
      (unregister_from_relay setup heartbeat_ended mutations_ended deadline s).1
  | OpControl relay_url request_id acknowledge timeout =>
      (_post_api_v1_request_control setup relay_url request_id acknowledge timeout s).1
  end.

Lemma wp_heartbeat_relay url s : ok s -> wp (heartbeat_relay setup url) (fun _ s' => ok s') (fun _ s' => ok s') s.
Proof.
  intros Hok. unfold heartbeat_relay. wps. apply wp_or_overflow; [done|]. intros lease Hlease%positive_seconds.
  apply wp_bind. eapply (wp_mono _ (fun _ s1 => moves url s s1 []) _ (fun _ _ => False)); [| |done].
  { destruct (flt f0 _); wps; [apply moves_look, moves_refl|apply moves_refl]. }
  intros waiting s1 Hm. assert (ok s1) as Hok1 by by apply (mv_ok _ _ _ _ Hm). destruct waiting; [by wps|].
  apply wp_bind, wp_on_exception, wp_bind.
  eapply wp_mono; [apply (wp_register url s s1 [] Hok Hm)| |].
  - intros r s2 Hr. wps. assert (ok s2) as Hok2.
    { destruct Hr as [[Hm2 _]|[Hm2 _]]; by apply (mv_ok _ _ _ _ Hm2). }
    destruct r as [| | | | | |d]; try (by wps). destruct (truthy (jget d "error")) eqn:He; [by wps|].
    destruct Hr as [[_ [= ->]]|[Hm2 Hr]]; [done|].
    destruct Hr as [Hu _]; [cbn; by rewrite He|].
    apply wp_bind, wp_or_overflow; [done|]. intros lease' Hl'%positive_seconds. wps.
    eapply (wp_mono _ (fun _ s3 => moves url s s3 [reg_post url] /\ url ∈ ps_registered s3) _ (fun _ _ => False)); [| |done].
    { destruct (heartbeat_stopped_at _); wps; (split; [|done]); by repeat apply moves_look. }
    intros stopped s3 [Hm3 Hu3]. assert (ok s3) by by apply (mv_ok _ _ _ _ Hm3). destruct stopped; [by wps|].
    apply wp_bind, wp_or_overflow; [done|]. intros pw Hpw%poll_wait_seconds. wps.
    eapply (mv_ok url s); [|done]. apply moves_heartbeat; [|cbn; apply elem_of_set_add; by right].
    apply moves_look, moves_registered; [|done]. apply moves_hints; [exact Hm3|done|by apply hints_now_ok].
  - intros e s2 Hm2. wps. by apply (mv_ok _ _ _ _ Hm2).
Qed.

Lemma heartbeat_relays_ok l : keeps ok (heartbeat_relays setup l).
Proof.
  induction l as [|u l IH]; [apply keeps_ret|]. simpl. apply keeps_bind; [by intros s []|]. intros b.
  apply keeps_if; [apply keeps_ret|]. apply keeps_bind; [|by intros _].
  apply wp_keeps. intros s Hs. by apply wp_heartbeat_relay.
Qed.

Lemma node_op_ok op s : NoDup (pl_relay_urls setup) -> ok s -> ok (run_node_op op s).
Proof.
  intros Hurls Hok. destruct op as [|url| |clear|stop|he me dl|relay rid ack t]; cbn [run_node_op]; apply wp_state.
  - eapply wp_mono; [by apply wp_poll|by intros d s' (? & _)|done].
  - eapply wp_mono; [apply (wp_register url s s [] Hok), moves_refl| |].
    + intros r s' [[Hm _]|[Hm _]]; by apply (mv_ok _ _ _ _ Hm).
    + intros e s' Hm. by apply (mv_ok _ _ _ _ Hm).
  - unfold heartbeat_round. wps. assert (ok (look_again s)) by by destruct Hok. destruct (stopped_at _); [by wps|]. wps.
    apply wp_state. by apply heartbeat_relays_ok.
  - unfold reset_api_v1_polling_session. wps. destruct Hok. destruct clear; wps; [|done].
    split; try done; [constructor|constructor|constructor| |]; intros u; by split; [intros ?%elem_of_nil|intros []].
  - unfold start. apply wp_bind. assert (forall clear s1, ok s1 -> ok (reset_api_v1_polling_session clear s1).1) as Hr.
    { intros clear s1 []. destruct clear; [|done]. split; try done; [constructor|constructor|constructor| |];
        intros u; by split; [intros ?%elem_of_nil|intros []]. }
    destruct stop; wps; apply wp_state, Hr; [done|by destruct Hok].
  - eapply wp_mono; [by apply wp_unregister|by intros b s' []|done].
  - unfold _post_api_v1_request_control. wps. destruct (py_empty _); [by wps|]. wps.
    assert (forall p, ok (add_poll_post p s)) by (by intros p; destruct Hok).
    destruct (relay_reply _) as [status headers text document|e]; [|by wps].
    destruct (_ || _); [by wps|]. destruct (_ || _); [by wps|]. destruct (negb _); [by wps|]. apply wp_bind.
    apply wp_or_raise; [done|]. intros a _. by wps.
Qed.
End session.

(** ** The theorems *)
Section theorems.
Context `{!PyUnicode, !PyWords, !FloatRepr, !PyNumbers, !NetlocCheck, !RelayNet, !NodeClock}.

(** C22: What a node knows of its relays stays consistent.  Whatever operations run, whatever
    the relays answer and whenever a stop falls between, the active index is one of a relay,
    exactly the registered relays have a heartbeat and wait hints, each once, and every wait
    is a finite number, positive for a lease and not negative for a poll. *)
Theorem node_session_invariant urls history s :
  NoDup urls ->
  Forall (fun h => pl_relay_urls h.1 = urls /\ finite_positive (pl_request_timeout h.1) = true) history ->
  session_ok urls s ->
  session_ok urls (fold_left (fun s (h : poll_setup * node_op) => run_node_op h.1 h.2 s) history s).
Proof.
  intros Hurls Hall. revert s. induction Hall as [|[setup op] history [Hu Hrt] _ IH]; intros s Hok; [done|].
  simpl. apply IH. cbn [fst] in *. subst urls. by apply node_op_ok.
Qed.

(** C19: A poll asks only relays that know the node, and hands over only what one of them
    said.  It always returns.  From the active relay on, each relay is asked at most once: it
    is polled only right after it accepted the registration in this very call, or while the
    registration, under the node's present key, is not due for renewal.  The result is an
    error, the end of a long poll at the only relay, or the document that relay answered
    last, which is then the active one, registered, and with a heartbeat of that moment. *)
Theorem poll_hands_over_current_work setup s :
  finite_positive (pl_request_timeout setup) = true -> NoDup (pl_relay_urls setup) -> session_ok (pl_relay_urls setup) s ->
  exists s' d, poll_api_v1_encrypted_work setup s = (s', inr d) /\
    rounds setup s (relay_order setup (ps_active s)) (ps_posts s) (ps_posts s') /\ polled setup s d s'.
Proof.
  intros Hrt Hurls Hok. pose proof (wp_poll setup Hrt s Hok Hurls) as Hw. unfold wp in Hw.
  destruct (poll_api_v1_encrypted_work setup s) as [s' [e|d]]; [done|]. exists s', d. by destruct Hw as (_ & ? & ?).
Qed.

End theorems.

(** * A node and two relays, evaluated *)

#[local] Instance session_unicode : PyUnicode := ascii_unicode.
#[local] Instance session_words : PyWords := ascii_words.
#[local] Instance session_repr : FloatRepr := fun _ => "0.0"%pystr.
#[local] Instance session_numbers : PyNumbers := { parse_float _ := None; parse_int _ := None }.
#[local] Instance session_netloc : NetlocCheck := fun _ => true.

(** Both relays register the node and let it go; the first is busy, the second has work. *)
#[local] Instance session_net : RelayNet := fun posts =>
  match last posts with
  | None => Failed request_exception
  | Some p =>
      let ok document := Answered 200 [] "" (Some (JDict document)) in
      if has_suffix (po_url p) "/register" then ok [("control_credential", JStr (po_url p))]%pystr
      else if has_suffix (po_url p) "/unregister" then ok []
      else if py_startswith (po_url p) "http://a" then Answered 503 [] "busy" None
      else ok [("request_id", JStr "r1")]%pystr
  end.

#[local] Instance session_clock : NodeClock := {
  time_at n := float_near (Z.of_nat n);
  stopped_at _ := false;
  latched_at _ := false;
  heartbeat_stopped_at _ := false
}.

Definition session_setup : poll_setup := MkPollSetup ["http://a"; "http://b"]%pystr "KEY" f30 None [].

Definition new_node : poll_state := MkPoll 0 0 [] [] [] [] [] false false None 0 [].

Lemma new_node_ok : session_ok (pl_relay_urls session_setup) new_node.
Proof.
  split; cbn; try apply NoDup_nil; try done; [lia| |]; intros u; by split; [intros ?%elem_of_nil|intros []].
Qed.

Lemma session_urls_distinct : NoDup (pl_relay_urls session_setup).
Proof. apply (bool_decide_unpack _); vm_compute; exact I. Qed.

Definition polled_session : poll_state := run_node_op session_setup OpPoll new_node.

Definition run_session (history : list (poll_setup * node_op)) : poll_state :=
  fold_left (fun s (h : poll_setup * node_op) => run_node_op h.1 h.2 s) history new_node.

Lemma node_session_invariant_witness :
  ps_registered (run_session [(session_setup, OpPoll)]) = ["http://a"; "http://b"]%pystr /\
  session_ok (pl_relay_urls session_setup) (run_session [(session_setup, OpPoll)]).
Proof.
  split; [vm_compute; reflexivity|].
  apply (node_session_invariant (pl_relay_urls session_setup) [(session_setup, OpPoll)] new_node).
  - exact session_urls_distinct.
  - apply Forall_cons. split; [by split|]. by apply Forall_nil.
  - exact new_node_ok.
Defined.

Lemma poll_hands_over_current_work_witness : exists s' d,
  poll_api_v1_encrypted_work session_setup new_node = (s', inr d) /\ jget d "request_id" = JStr "r1" /\
  ps_active s' = 1%nat /\ polled session_setup new_node d s'.
Proof.
  destruct (poll_hands_over_current_work session_setup new_node eq_refl session_urls_distinct new_node_ok)
    as (s' & d & Hrun & _ & Hp).
  exists s', d. split; [exact Hrun|].
  assert (poll_api_v1_encrypted_work session_setup new_node =
    (polled_session, inr [("request_id", JStr "r1"); ("next_ping_in_x_seconds", JFloat f30)]%pystr)) as Heval
    by (vm_compute; reflexivity).
  rewrite Heval in Hrun. injection Hrun as <- <-. split; [reflexivity|]. split; [vm_compute; reflexivity|exact Hp].
Defined.

