(* ===== verification/NodeChecks.v ===== *)
(** * What a compute node's checks accept

    The messages, the options and the envelope of a request, each described on its own. *)

From S2P Require Import Prelude PyFloat PyStr PyDict PyText Json Base64 Profiles NodeRequest.
From Stdlib Require Import Floats.SpecFloat.

(** ** Sizes *)

Definition total {A} (f : A -> Z) (l : list A) : Z := fold_right (fun x n => f x + n) 0 l.

Lemma total_nonneg {A} (f : A -> Z) l : (forall x, x ∈ l -> 0 <= f x) -> 0 <= total f l.
Proof.
  induction l as [|x l IH]; intros Hf; simpl; [done|].
  pose proof (Hf x ltac:(by left)). pose proof (IH (fun y Hy => Hf y ltac:(by right))). lia.
Qed.

(** The characters and the bytes of a text *)
Definition text_has_size (s : pystr) (size : Z * Z) : Prop :=
  exists bytes, utf8_encode s = Some bytes /\ size = (py_len s, zlen bytes).

Lemma text_size_some s size : text_size s = Some size <-> text_has_size s size.
Proof.
  unfold text_size, text_has_size. destruct (utf8_encode s) as [b|].
  - split; [intros [= <-]; by eexists|by intros (? & [= <-] & ->)].
  - split; [done|by intros (? & ? & _)].
Qed.

Lemma text_has_size_nonneg s size : text_has_size s size -> 0 <= size.1 /\ 0 <= size.2.
Proof. intros (b & _ & ->). split; apply zlen_nonneg. Qed.

Lemma no_other_keys allowed d :
  has_other_keys allowed d = false <-> forall k, k ∈ dkeys d -> k ∈ allowed.
Proof.
  unfold has_other_keys, pystr_in. rewrite <- not_true_iff_false, existsb_exists.
  setoid_rewrite negb_true_iff. setoid_rewrite bool_decide_eq_false. setoid_rewrite list_elem_of_In.
  split.
  - intros Hn k Hk. destruct (decide (k ∈ allowed)) as [?|Hne]; [by apply list_elem_of_In|].
    destruct Hn. exists k. rewrite <- list_elem_of_In in Hk. split; [by apply list_elem_of_In|].
    by rewrite <- list_elem_of_In.
  - intros Ha (k & Hk & Hne). by apply Hne, Ha.
Qed.

(** A text block of at most these two keys *)
Definition sized_block (item : json) (size : Z * Z) : Prop :=
  exists d ty text, item = JDict d /\ (forall k, k ∈ dkeys d -> k ∈ ["type"; "text"]%pystr) /\
    jget d "type" = JStr ty /\ ty ∈ text_types /\ jget d "text" = JStr text /\ py_empty text = false /\
    text_has_size text size.

Lemma block_size_some item size : block_size item = inr (Some size) <-> sized_block item size.
Proof.
  unfold sized_block. split.
  - intros Hb. unfold block_size in Hb. destruct item as [| | | | | |d]; try discriminate.
    destruct (has_other_keys _ d) eqn:Hk; [done|].
    destruct (hashable (jget d "type")) as [ty|] eqn:Hty; [|done].
    destruct (scalar_in ty text_types) eqn:Hin; [|done]. simpl in Hb.
    destruct (jget d "text") as [| | | |text| |] eqn:Ht; try discriminate.
    destruct (py_empty text) eqn:He; [done|]. injection Hb as Hs.
    apply scalar_in_str in Hin as (t & -> & Hin). apply hashable_str in Hty.
    exists d, t, text. rewrite no_other_keys in Hk. rewrite text_size_some in Hs. done.
  - intros (d & ty & text & -> & Hk & Hty & Hin & Ht & He & Hs). unfold block_size.
    rewrite (proj2 (no_other_keys _ _) Hk), Hty. cbn [hashable].
    rewrite (proj2 (scalar_in_str (SStr ty) text_types)) by by exists ty.
    cbn [negb]. rewrite Ht, He. by rewrite (proj2 (text_size_some _ _) Hs).
Qed.

(** Text, or one to thirty-two blocks *)
Definition sized_content (content : json) (size : Z * Z) : Prop :=
  (exists s, content = JStr s /\ text_has_size s size) \/
  (exists l sizes, content = JList l /\ 1 <= zlen l <= _API_V1_MAX_TEXT_BLOCKS /\
     Forall2 sized_block l sizes /\ size = (total fst sizes, total snd sizes)).

Lemma blocks_size_some l : forall chars bytes size,
  blocks_size l chars bytes = inr (Some size) <->
  exists sizes, Forall2 sized_block l sizes /\ size = (chars + total fst sizes, bytes + total snd sizes).
Proof.
  induction l as [|item l IH]; intros chars bytes size; simpl.
  - split.
    + intros [= <-]. exists []. split; [constructor|]. by rewrite !Z.add_0_r.
    + intros (sizes & Hf & ->). inversion Hf. by rewrite !Z.add_0_r.
  - split.
    + destruct (block_size item) as [e|[[c b]|]] eqn:Hb; simpl; [done| |done].
      intros (sizes & Hf & ->)%IH. exists ((c, b) :: sizes). simpl. rewrite !Z.add_assoc.
      split; [|done]. constructor; [by apply block_size_some|done].
    + intros (sizes & Hf & ->). inversion Hf as [|? [c b] ? sizes' Hb Hf']; subst.
      apply block_size_some in Hb. rewrite Hb. simpl. apply IH. exists sizes'. by rewrite !Z.add_assoc.
Qed.

Lemma list_guard {A} (l : list A) n :
  is_nil l || (n <? zlen l) = false <-> 1 <= zlen l <= n.
Proof.
  rewrite orb_false_iff, Z.ltb_ge. destruct l as [|x l]; simpl.
  - rewrite zlen_nil. split; [by intros [? _]|lia].
  - rewrite zlen_cons. pose proof (zlen_nonneg l). split; [lia|]. split; [done|lia].
Qed.

Lemma content_size_some content size :
  _api_v1_content_validation_size content = inr (Some size) <-> sized_content content size.
Proof.
  unfold sized_content. split.
  - destruct content as [| | | |s|l|]; try discriminate; simpl.
    + intros [= Hs%text_size_some]. left. by exists s.
    + destruct (is_nil l || _) eqn:Hg; [done|]. apply list_guard in Hg.
      intros (sizes & Hf & ->)%blocks_size_some. right. by exists l, sizes.
  - intros [(s & -> & Hs%text_size_some)|(l & sizes & -> & Hl%list_guard & Hf & ->)]; simpl.
    + by rewrite Hs.
    + rewrite Hl. apply blocks_size_some. by exists sizes.
Qed.

Lemma sized_content_nonneg content size : sized_content content size -> 0 <= size.1 /\ 0 <= size.2.
Proof.
  intros [(s & _ & Hs)|(l & sizes & _ & _ & Hf & ->)]; [by apply text_has_size_nonneg with s|].
  simpl. split; apply total_nonneg; intros sz (i & Hi)%list_elem_of_lookup;
    destruct (Forall2_lookup_r _ _ _ _ _ Hf Hi) as (b & _ & (d & ty & t & _ & _ & _ & _ & _ & _ & Hs));
    by apply text_has_size_nonneg in Hs as [? ?].
Qed.

(** ** Messages *)

(** A message whose parts are in order, and the size of its content *)
Definition sized_message (message : json) (size : Z * Z) : Prop :=
  exists m role, message = JDict m /\ (forall k, k ∈ dkeys m -> k ∈ ["role"; "content"; "name"]%pystr) /\
    jget m "role" = JStr role /\ role ∈ _API_V1_ALLOWED_MESSAGE_ROLES /\
    (jget m "name" = JNull \/ exists name, jget m "name" = JStr name /\ py_len name <= 128) /\
    sized_content (jget m "content") size.

Lemma message_fault_none message :
  message_fault message = None <-> exists m role, message = JDict m /\
    (forall k, k ∈ dkeys m -> k ∈ ["role"; "content"; "name"]%pystr) /\
    jget m "role" = JStr role /\ role ∈ _API_V1_ALLOWED_MESSAGE_ROLES /\
    (jget m "name" = JNull \/ exists name, jget m "name" = JStr name /\ py_len name <= 128) /\
    dmem m "content" = true.
Proof.
  split.
  - destruct message as [| | | | | |m]; try discriminate. cbn [message_fault].
    destruct (has_other_keys _ m) eqn:Hk; [done|]. rewrite no_other_keys in Hk.
    destruct (jget m "role") as [| | | |role| |] eqn:Hr; try discriminate. unfold pystr_in.
    case_bool_decide as Hin; [|done]. cbn [negb].
    destruct (jget m "name") as [| | | |name| |] eqn:Hn; try discriminate; cbn [negb].
    + destruct (dmem m "content") eqn:Hc; [|done]. intros _. exists m, role. repeat split; try done. by left.
    + destruct (py_len name <=? 128) eqn:Hl; [|done]. cbn [negb].
      destruct (dmem m "content") eqn:Hc; [|done]. intros _. exists m, role. apply Z.leb_le in Hl.
      repeat split; try done. right. by exists name.
  - intros (m & role & -> & Hk & Hr & Hin & Hn & Hc). cbn [message_fault].
    rewrite (proj2 (no_other_keys _ _) Hk), Hr. unfold pystr_in. rewrite bool_decide_eq_true_2 by done.
    cbn [negb]. rewrite Hc. destruct Hn as [->|(name & -> & Hl)]; [done|].
    by rewrite (proj2 (Z.leb_le _ _) Hl).
Qed.

Lemma sized_message_steps message size :
  sized_message message size <->
  message_fault message = None /\ _api_v1_content_validation_size (content_of message) = inr (Some size).
Proof.
  rewrite message_fault_none, content_size_some. split.
  - intros (m & role & -> & Hk & Hr & Hin & Hn & Hc). split; [|done]. exists m, role.
    repeat split; try done. destruct (dmem m "content") eqn:Hm; [done|].
    rewrite (jget_absent _ _ Hm) in Hc. by destruct Hc as [(? & ? & _)|(? & ? & ? & _)].
  - intros [(m & role & -> & Hk & Hr & Hin & Hn & _) Hc]. by exists m, role.
Qed.

(** The verdict on a conversation that is accepted *)
Definition accepted (count chars bytes : Z) : _ApiV1ChatValidationResult :=
  MkChatValidation true None None count None None chars None bytes.

Lemma validate_messages_valid l : forall count index chars bytes r,
  0 <= chars -> 0 <= bytes <= _API_V1_MAX_TOTAL_MESSAGE_UTF8_BYTES ->
  (validate_messages count index chars bytes l = inr r /\ valid r = true <->
   exists sizes, Forall2 sized_message l sizes /\
     r = accepted count (chars + total fst sizes) (bytes + total snd sizes) /\
     bytes + total snd sizes <= _API_V1_MAX_TOTAL_MESSAGE_UTF8_BYTES).
Proof.
  induction l as [|message l IH]; intros count index chars bytes r Hc Hb; cbn [validate_messages].
  - split.
    + intros [[= <-] _]. exists []. rewrite !Z.add_0_r. split; [constructor|]. split; [done|]. simpl. lia.
    + intros (sizes & Hf & -> & _). inversion Hf. simpl. by rewrite !Z.add_0_r.
  - split.
    + destruct (message_fault message) eqn:Hm; [by intros [[= <-] ?]|].
      destruct (_api_v1_content_validation_size (content_of message)) as [e|[[c b]|]] eqn:Hs; simpl;
        [by intros [? _]| |by intros [[= <-] ?]].
      assert (sized_message message (c, b)) as Hmsg by by apply sized_message_steps.
      pose proof Hs as [Hc0 Hb0]%content_size_some%sized_content_nonneg. simpl in Hc0, Hb0.
      destruct (_ <? bytes + b) eqn:Hlt; [by intros [[= <-] ?]|]. apply Z.ltb_ge in Hlt.
      intros (sizes & Hf & -> & Hle)%IH; [|lia..]. exists ((c, b) :: sizes). cbn [total fold_right fst snd].
      fold (total fst sizes) (total snd sizes). rewrite !Z.add_assoc.
      split; [by constructor|done].
    + intros (sizes & Hf & -> & Hle). inversion Hf as [|? [c b] ? sizes' Hm Hf']; subst.
      cbn [total fold_right fst snd] in *. fold (total (@fst Z Z) sizes') (total (@snd Z Z) sizes') in *.
      apply sized_message_steps in Hm as [Hm Hs]. rewrite Hm, Hs. cbn [ebind].
      pose proof Hs as [Hc0 Hb0]%content_size_some%sized_content_nonneg. simpl in Hc0, Hb0.
      assert (0 <= total snd sizes') as Htot.
      { apply total_nonneg. intros sz (i & Hi)%list_elem_of_lookup.
        destruct (Forall2_lookup_r _ _ _ _ _ Hf' Hi) as (x & _ & (m & role & _ & _ & _ & _ & _ & Hx)).
        by apply sized_content_nonneg in Hx as [? ?]. }
      rewrite (proj2 (Z.ltb_ge _ _)) by lia. apply IH; [lia..|]. exists sizes'. rewrite !Z.add_assoc.
      split; [done|]. split; [done|lia].
Qed.

(** A conversation the node accepts: one to sixty-four messages in order, whose contents
    have at most half a mebibyte together *)
Definition sized_conversation (l : list json) (chars bytes : Z) : Prop :=
  1 <= zlen l <= _API_V1_MAX_MESSAGES /\ bytes <= _API_V1_MAX_TOTAL_MESSAGE_UTF8_BYTES /\
  exists sizes, Forall2 sized_message l sizes /\ chars = total fst sizes /\ bytes = total snd sizes.

Lemma validation_valid messages r :
  _validate_api_v1_chat_messages messages = inr r /\ valid r = true <->
  exists l chars bytes, messages = JList l /\ sized_conversation l chars bytes /\
    r = accepted (zlen l) chars bytes.
Proof.
  unfold sized_conversation. split.
  - destruct messages as [| | | | |l|]; try (by intros [[= <-] ?]). cbn [_validate_api_v1_chat_messages].
    destruct (is_nil l || _) eqn:Hg; [by intros [[= <-] ?]|]. apply list_guard in Hg.
    intros (sizes & Hf & -> & Hle)%validate_messages_valid; [|done|split; [done|by vm_compute]].
    eexists l, _, _. split; [done|]. split; [|done]. split; [done|]. split; [exact Hle|]. by exists sizes.
  - intros (l & chars & bytes & -> & (Hl%list_guard & Hle & sizes & Hf & -> & ->) & ->).
    cbn [_validate_api_v1_chat_messages]. rewrite Hl.
    apply validate_messages_valid; [done|split; [done|by vm_compute]|]. by exists sizes.
Qed.

(** ** Options *)

(** A number between two bounds, and the float it is passed on as *)
Definition float_between (low high : float64) (v v' : json) : Prop :=
  exists f, ((exists z, v = JInt z /\ float_of_int z = Some f) \/ (v = JFloat f /\ is_finite f = true)) /\
    flt f low = false /\ flt high f = false /\ v' = JFloat f.

Definition integer_between (low high : Z) (v v' : json) : Prop :=
  exists z, v = JInt z /\ low <= z <= high /\ v' = v.

Definition stop_text (v : json) : Prop :=
  exists s, v = JStr s /\ py_empty s = false /\ py_len s <= _API_V1_MAX_STOP_CHARS.

Definition stop_option (v v' : json) : Prop :=
  v' = v /\ (stop_text v \/ exists l, v = JList l /\ zlen l <= _API_V1_MAX_STOP_SEQUENCES /\ Forall stop_text l).

(** What each supported option may hold *)
Definition option_allows (key : pystr) : json -> json -> Prop :=
  if bool_decide (key = "max_tokens"%pystr) then integer_between 1 8192
  else if bool_decide (key = "seed"%pystr) then integer_between 0 (2 ^ 32 - 1)
  else if bool_decide (key = "temperature"%pystr) then float_between f0 f2
  else if bool_decide (key = "top_p"%pystr) then float_between f0 f1
  else if bool_decide (key ∈ ["frequency_penalty"; "presence_penalty"]%pystr) then float_between f_minus_2 f2
  else if bool_decide (key = "stop"%pystr) then stop_option
  else fun v v' => v' = v.

Lemma normalise_float v low high v' :
  normalise_float_option v low high = Some v' <-> float_between low high v v'.
Proof.
  unfold normalise_float_option, float_between. split.
  - destruct (finite_number v) as [f|] eqn:Hf; [|done].
    destruct (flt f low) eqn:Hl, (flt high f) eqn:Hh; try discriminate. intros [= <-].
    exists f. split; [|done]. destruct v as [| |z|g| | |]; try discriminate; simpl in Hf.
    + left. by exists z.
    + destruct (is_finite g) eqn:Hg; [|done]. injection Hf as ->. by right.
  - intros (f & Hv & Hl & Hh & ->).
    assert (finite_number v = Some f) as ->.
    { destruct Hv as [(z & -> & Hz)|[-> Hg]]; [done|]. simpl. by rewrite Hg. }
    by rewrite Hl, Hh.
Qed.

Lemma normalise_integer v low high v' :
  normalise_integer_option v low high = Some v' <-> integer_between low high v v'.
Proof.
  unfold normalise_integer_option, integer_between. split.
  - destruct v as [| |z| | | |]; try discriminate. destruct ((z <? low) || _) eqn:Hz; [done|].
    apply orb_false_iff in Hz as [Hl%Z.ltb_ge Hh%Z.ltb_ge]. intros [= <-]. by exists z.
  - intros (z & -> & [Hl Hh] & ->). by rewrite (proj2 (Z.ltb_ge _ _) Hl), (proj2 (Z.ltb_ge _ _) Hh).
Qed.

Lemma stop_ok_text v : stop_ok v = true <-> stop_text v.
Proof.
  unfold stop_text. split.
  - destruct v as [| | | |s| |]; try discriminate. simpl. intros [He%negb_true_iff Hl%Z.leb_le]%andb_true_iff.
    by exists s.
  - intros (s & -> & He & Hl). simpl. rewrite He. by apply Z.leb_le.
Qed.

Lemma normalise_stop v v' : _api_v1_normalise_stop_option v = Some v' <-> stop_option v v'.
Proof.
  unfold stop_option. split.
  - destruct v as [| | | |s|l|]; try discriminate; cbn [_api_v1_normalise_stop_option].
    + destruct (stop_ok _) eqn:Hs; [|done]. intros [= <-]. apply stop_ok_text in Hs. auto.
    + destruct (_ && _) eqn:Hs; [|done]. intros [= <-]. apply andb_true_iff in Hs as [Hl%Z.leb_le Hf].
      split; [done|]. right. exists l. split; [done|]. split; [done|]. rewrite forallb_forall in Hf.
      apply Forall_forall. intros x Hx. apply stop_ok_text, Hf. by apply list_elem_of_In.
  - intros [-> [Hs|(l & -> & Hl & Hf)]].
    + pose proof Hs as (s & -> & _). cbn [_api_v1_normalise_stop_option].
      by rewrite (proj2 (stop_ok_text _) Hs).
    + cbn [_api_v1_normalise_stop_option]. rewrite (proj2 (Z.leb_le _ _) Hl). cbn [andb].
      rewrite (proj2 (forallb_forall _ _)); [done|]. intros x Hx. apply stop_ok_text.
      rewrite Forall_forall in Hf. apply Hf. by apply list_elem_of_In.
Qed.

Lemma normalise_option_allows key v v' : normalise_option key v = Some v' <-> option_allows key v v'.
Proof.
  unfold normalise_option, option_allows, pystr_in.
  repeat case_bool_decide; try apply normalise_integer; try apply normalise_float; try apply normalise_stop.
  split; [by intros [= <-]|by intros ->].
Qed.

Definition is_stream (kv : pystr * json) : bool := bool_decide (kv.1 = "stream"%pystr).

(** The options but [stream], each as the runtime gets it *)
Definition passed_options (options normalised : jdict) : Prop :=
  Forall2 (fun kv kv' => kv'.1 = kv.1 /\ option_allows kv.1 kv.2 kv'.2)
    (bfilter (fun kv => negb (is_stream kv)) options) normalised.

Lemma normalise_options_inr options : forall acc normalised,
  NoDup (dkeys options) -> (forall k, k ∈ dkeys options -> dget acc k = None) ->
  (normalise_options options acc = inr normalised <->
   (forall v, ("stream"%pystr, v) ∈ options -> v = JBool false) /\
   exists passed, passed_options options passed /\ normalised = acc ++ passed).
Proof.
  unfold passed_options. induction options as [|[key v] options IH]; intros acc normalised Hnd Hfresh.
  - simpl. split.
    + intros [= <-]. split; [by intros v ?%elem_of_nil|]. exists []. by rewrite app_nil_r.
    + intros [_ (p & Hp & ->)]. inversion Hp. by rewrite app_nil_r.
  - cbn [normalise_options]. apply NoDup_cons in Hnd as [Hnew Hnd].
    unfold bfilter. cbn [List.filter]. unfold is_stream at 1. simpl fst. case_bool_decide as Hs; cbn [negb].
    + subst key. assert (forall w, ("stream"%pystr, w) ∈ options -> False) as Hno.
      { intros w Hw. apply Hnew. apply list_elem_of_fmap. by exists ("stream"%pystr, w). }
      split.
      * destruct v as [|[]| | | | |]; try discriminate. intros Hr.
        apply IH in Hr as [_ Hp]; [|done|intros k Hk; apply Hfresh; by right]. split; [|done].
        intros w [[= ->]|Hw]%elem_of_cons; [done|by destruct (Hno w)].
      * intros [Hf Hp]. rewrite (Hf v) by by left. apply IH; [done|intros k Hk; apply Hfresh; by right|].
        split; [|done]. intros w Hw. by destruct (Hno w).
    + assert (Hk : dget acc key = None) by (apply Hfresh; by left).
      assert (forall v' k, k ∈ dkeys options -> dget (dset acc key v') k = None) as Hfr.
      { intros v' k Hin. rewrite dget_dset_ne; [apply Hfresh; by right|]. intros ->. by apply Hnew. }
      split.
      * destruct (normalise_option key v) as [v'|] eqn:Hn; [|done].
        intros (Hf & p & Hp & ->)%IH; [|done|by apply Hfr]. split.
        { intros w [[= <- <-]|Hw]%elem_of_cons; [done|by apply Hf]. }
        exists ((key, v') :: p). rewrite dset_fresh by done. rewrite <- app_assoc. split; [|done].
        constructor; [|done]. split; [done|]. by apply normalise_option_allows.
      * intros (Hf & p & Hp & ->). inversion Hp as [|? [k' v'] ? p' [Hk' Ha] Hp']; subst. simpl in Hk', Ha. subst k'.
        apply normalise_option_allows in Ha. rewrite Ha. apply IH; [done|by apply Hfr|]. split.
        { intros w Hw. apply Hf. by right. }
        exists p'. rewrite dset_fresh by done. by rewrite <- app_assoc.
Qed.

Lemma bfilter_nil {A} (p : A -> bool) l : bfilter p l = [] <-> forall x, x ∈ l -> p x = false.
Proof.
  unfold bfilter. split.
  - intros Hf x Hx. destruct (p x) eqn:E; [|done].
    assert (x ∈ List.filter p l) as Hin.
    { apply list_elem_of_In, filter_In. by rewrite <- list_elem_of_In. }
    rewrite Hf in Hin. by apply elem_of_nil in Hin.
  - intros Hf. destruct (List.filter p l) as [|x l'] eqn:E; [done|].
    assert (x ∈ List.filter p l) as Hin by (rewrite E; left).
    apply list_elem_of_In, filter_In in Hin as [Hin Hp]. rewrite (Hf x) in Hp; [done|].
    by apply list_elem_of_In.
Qed.

Lemma unsupported_disjoint : forallb (fun k => negb (pystr_in k supported_options)) intentionally_unsupported = true.
Proof. by vm_compute. Qed.

Lemma options_inr options normalised : nodup_keys options ->
  (_api_v1_validate_and_normalise_options options = inr normalised <->
   (forall k, k ∈ dkeys options -> k ∈ supported_options) /\
   (forall v, ("stream"%pystr, v) ∈ options -> v = JBool false) /\
   passed_options options normalised).
Proof.
  intros Hnd. unfold _api_v1_validate_and_normalise_options.
  set (names := py_sorted pystr_leb (dkeys options)).
  set (rejected := bfilter _ names ++ bfilter _ names).
  assert (rejected = [] <-> forall k, k ∈ dkeys options -> k ∈ supported_options) as Hrej.
  { assert (forall k, k ∈ names <-> k ∈ dkeys options) as Hnames.
    { intros k. unfold names. by rewrite py_sorted_perm. }
    unfold rejected. setoid_rewrite <- Hnames. split.
    - intros [H1 H2]%app_eq_nil k Hk. rewrite bfilter_nil in H1, H2. specialize (H1 k Hk). specialize (H2 k Hk).
      rewrite H1 in H2. unfold pystr_in in *. case_bool_decide; [done|discriminate].
    - intros Hs. assert (forall k, k ∈ names -> pystr_in k supported_options = true) as Hin.
      { intros k Hk. by apply bool_decide_eq_true, Hs. }
      rewrite (proj2 (bfilter_nil _ _)), (proj2 (bfilter_nil _ _)); [done| |].
      + intros k Hk. by rewrite Hin.
      + intros k Hk. destruct (pystr_in k intentionally_unsupported) eqn:E; [|done].
        apply bool_decide_eq_true in E. pose proof unsupported_disjoint as Hd.
        rewrite forallb_forall in Hd. specialize (Hd k (proj1 (list_elem_of_In _ _) E)).
        by rewrite (Hin k Hk) in Hd. }
  destruct rejected as [|r rejected'].
  - rewrite normalise_options_inr by done. split.
    + intros (Hf & p & Hp & ->). split; [by apply Hrej|done].
    + intros (_ & Hf & Hp). split; [done|]. by exists normalised.
  - split; [done|]. intros [Hs _]. by apply Hrej in Hs.
Qed.

(** ** Envelopes *)

Definition nonblank (s : pystr) : Prop := py_empty (py_strip s) = false.

Lemma not_blank_some v s : not_blank v = Some s <-> v = JStr s /\ nonblank s.
Proof.
  unfold not_blank, nonblank. destruct v as [| | | |t| |]; try (split; [done|by intros [? _]]).
  destruct (py_empty (py_strip t)) eqn:E.
  - split; [done|]. intros [[= ->] Hs]. congruence.
  - split; [intros [= ->]; done|by intros [[= ->] _]].
Qed.

(** No tier is named, or one of the node's, with white space around it at most *)
Definition names_tier (v : json) (tier : pystr) : Prop :=
  (v = JNull /\ tier = DEFAULT_CONTEXT_TIER) \/
  (exists s, v = JStr s /\ py_strip s = tier /\ normalize_context_tier (Some tier) = tier).

Lemma requested_tier_inr routing tier :
  requested_tier routing = inr (Some tier) <-> names_tier (jget routing "context_tier") tier.
Proof.
  unfold requested_tier, names_tier. set (v := jget routing "context_tier"). split.
  - destruct v as [|b|z|f|s|l|d]; cbn [normalize_tier_value ebind].
    + intros [= <-]. by left.
    + destruct b; discriminate.
    + destruct (truthy (JInt z)); discriminate.
    + destruct (truthy (JFloat f)); discriminate.
    + cbn [is_JNull negb andb jeq_str]. case_bool_decide as Heq; [|done]. cbn [negb]. intros [= Ht].
      right. exists s. rewrite <- Heq in Ht. split; [done|]. split; [done|]. by rewrite <- Ht, <- Heq.
    + destruct l; discriminate.
    + destruct d; discriminate.
  - intros [[-> ->]|(s & -> & <- & Hn)]; [done|]. cbn [normalize_tier_value ebind is_JNull negb andb jeq_str].
    rewrite Hn. by rewrite bool_decide_eq_true_2.
Qed.

(** Only a non-empty list or dictionary in place of the tier makes Python raise. *)
Definition unhashable_value (v : json) : Prop := truthy v = true /\ hashable v = None.

Lemma requested_tier_inl routing e :
  requested_tier routing = inl e <-> e = NodeTypeError /\ unhashable_value (jget routing "context_tier").
Proof.
  unfold requested_tier, unhashable_value. set (v := jget routing "context_tier").
  destruct v as [|b|z|f|s|l|d]; cbn [normalize_tier_value ebind].
  - by split; [|intros [_ [? _]]].
  - destruct b; by split; [|intros [_ [? ?]]].
  - destruct (truthy (JInt z)) eqn:E; cbn; by split; [|intros [_ [? ?]]].
  - destruct (truthy (JFloat f)) eqn:E; cbn; by split; [|intros [_ [? ?]]].
  - by split; [|intros [_ [_ ?]]].
  - destruct l; cbn; [by split; [|intros [_ [? _]]]|]. split; [by intros [= <-]|by intros [-> _]].
  - destruct d; cbn; [by split; [|intros [_ [? _]]]|]. split; [by intros [= <-]|by intros [-> _]].
Qed.

(** The document of a request that is bound to a client's key *)
Definition request_document (d : jdict) (key : pystr) (p : api_v1_payload) : Prop :=
  jget d "protocol" = JStr NODE_PROTOCOL /\ jget d "client_public_key" = JStr key /\
  jget d "request_id" = JStr (ap_request_id p) /\ nonblank (ap_request_id p) /\
  exists request routing, jget d "api_v1_request" = JDict request /\
    jget request "model" = JStr (ap_model p) /\ nonblank (ap_model p) /\
    jget request "messages" = JList (ap_messages p) /\ options_of request = Some (ap_options p) /\
    routing_of request = Some routing /\ names_tier (jget routing "context_tier") (ap_context_tier p).

Lemma extracted_payload document key p :
  _extract_api_v1_request_payload document key = inr (Some p) <->
  exists d, document = JDict d /\ request_document d key p.
Proof.
  unfold request_document. split.
  - intros Hx. unfold _extract_api_v1_request_payload in Hx. destruct document as [| | | | | |d]; try discriminate.
    destruct (jeq_str (jget d "protocol") _) eqn:Hp; [|done].
    destruct (jeq_str (jget d "client_public_key") _) eqn:Hk; [|done]. cbn [negb] in Hx.
    apply jeq_str_true in Hp, Hk.
    destruct (not_blank (jget d "request_id")) as [rid|] eqn:Hr; [|done]. apply not_blank_some in Hr as [Hr Hrb].
    destruct (jget d "api_v1_request") as [| | | | | |req] eqn:Hq; try discriminate.
    destruct (not_blank (jget req "model")) as [model|] eqn:Hm; [|done]. apply not_blank_some in Hm as [Hm Hmb].
    destruct (jget req "messages") as [| | | | |ms|] eqn:Hms; try discriminate.
    destruct (options_of req) as [os|] eqn:Ho; [|done]. destruct (routing_of req) as [ro|] eqn:Hro; [|done].
    apply ebind_inr in Hx as ([tier|] & Ht & Hx); [|done]. injection Hx as <-. apply requested_tier_inr in Ht.
    exists d. split; [done|]. cbn [ap_request_id ap_model ap_messages ap_options ap_context_tier].
    repeat split; try done. by exists req, ro.
  - intros (d & -> & Hp & Hk & Hr & Hrb & req & ro & Hq & Hm & Hmb & Hms & Ho & Hro & Ht).
    unfold _extract_api_v1_request_payload. rewrite Hp, Hk. cbn [jeq_str].
    rewrite !bool_decide_eq_true_2 by done. cbn [negb].
    rewrite (proj2 (not_blank_some _ _) (conj Hr Hrb)), Hq, (proj2 (not_blank_some _ _) (conj Hm Hmb)), Hms, Ho, Hro.
    rewrite (proj2 (requested_tier_inr _ _) Ht). by destruct p.
Qed.
