(* ===== verification/NodeScreen.v ===== *)
(** * What a compute node lets a client see

    The runtime's text is free of reasoning when it must be, and what is reported of a
    failure has one of the listed shapes. *)

From S2P Require Import Prelude PyFloat PyStr PyDict PyText PyRegex Json JsonText.
From S2P Require Import Profiles NodeRequest NodeDiagnostics NodeOutput NodeGenerate.
From S2P Require Import NodeChecks.

Section screen.
Context `{!PyWords}.

Lemma drop_space_split l : exists k, l = k ++ drop_space l /\ Forall (fun c => is_py_space c = true) k.
Proof.
  induction l as [|c l (k & Hk & Hf)]; simpl; [by exists []|].
  destruct (is_py_space c) eqn:E; [|by exists []]. exists (c :: k). split; [by rewrite Hk at 1|by constructor].
Qed.

Lemma rstrip_split s : exists k,
  codes s = codes (py_rstrip_space s) ++ k /\ Forall (fun c => is_py_space c = true) k.
Proof.
  destruct (drop_space_split (rev (codes s))) as (k & Hk & Hf). exists (rev k). simpl. split.
  - rewrite <- rev_app_distr, <- Hk. by rewrite rev_involutive.
  - apply Forall_rev. done.
Qed.

(** The end marker and the white space before it go. *)
Lemma without_marker_split s : exists k,
  codes s = codes (without_marker s) ++ k /\ word_at (head k) = false.
Proof.
  unfold without_marker, has_suffix. case_bool_decide as Hs; [|by exists []; rewrite app_nil_r].
  destruct Hs as (l & Hl). destruct (rstrip_split (PyStr l)) as (k & Hk & Hf).
  assert (py_butlast (length (codes IM_END)) s = PyStr l) as ->.
  { unfold py_butlast. rewrite Hl, length_app, Nat.add_sub, firstn_app, Nat.sub_diag, firstn_all. simpl.
    by rewrite app_nil_r. }
  exists (k ++ codes IM_END). split; [by rewrite Hl, app_assoc, <- Hk|].
  destruct k as [|c k]; simpl; [by apply is_word_ascii|]. inversion Hf; subst. by apply is_word_space.
Qed.

Lemma normalized_is_clean content s :
  normalize_non_thinking content = inr s -> py_empty s = false /\ re_search think_tag s = None.
Proof.
  unfold normalize_non_thinking. destruct (strip_wrappers _ _ _) as [cleaned any].
  destruct (py_empty (py_strip cleaned)); [done|].
  destruct (re_search think_tag (py_strip cleaned)) as [x|] eqn:Ht; [done|].
  destruct (py_empty (without_marker _)) eqn:He; [done|]. intros [= <-]. split; [done|].
  destruct (without_marker_split (py_strip cleaned)) as (k & Hk & Hw).
  by apply (re_search_prefix _ _ _ _ Hk Hw).
Qed.

(** A wrapper is not empty. *)
Lemma wrapper_shorter p q : matches empty_wrapper p q -> (length q.2 < length p.2)%nat.
Proof.
  unfold empty_wrapper. cbn [seqs]. intros Hm. inversion Hm as [| |? ? ? t ? H1 H2| | | | | |]; subst.
  apply matches_shorter in H2. inversion H1; subst. simpl in *. lia.
Qed.

(** The fuel of the loop is enough: no wrapper is left at the beginning. *)
Lemma strip_wrappers_done fuel : forall s any,
  (length (codes s) <= fuel)%nat ->
  re_match empty_wrapper (start_of (codes (strip_wrappers fuel s any).1)) = None.
Proof.
  induction fuel as [|fuel IH]; intros s any Hl; simpl.
  - assert (codes s = []) as -> by (destruct (codes s); [done|simpl in Hl; lia]). done.
  - destruct (re_match empty_wrapper (start_of (codes s))) as [[q g]|] eqn:Hm; [|done]. apply IH.
    apply re_match_sound, wrapper_shorter in Hm. simpl in Hm.
    destruct (drop_space_suffix q.2) as [k Hk]. apply (f_equal length) in Hk. rewrite length_app in Hk.
    unfold py_lstrip, codes at 1. simpl in *. lia.
Qed.

(** ** Reasoning *)

(** A payload without a reasoning field, at any depth *)
Inductive no_reasoning : json -> Prop :=
| nr_list l : Forall no_reasoning l -> no_reasoning (JList l)
| nr_dict d : Forall (fun k => k ∉ forbidden_reasoning_fields) (dkeys d) ->
    Forall (fun kv => no_reasoning kv.2) d -> no_reasoning (JDict d)
| nr_other j : match j with JList _ | JDict _ => False | _ => True end -> no_reasoning j.

Lemma dmem_keys {V} (d : dict pystr V) k : dmem d k = true <-> k ∈ dkeys d.
Proof. by rewrite dmem_true, dget_is_Some. Qed.

Lemma existsb_false {A} (p : A -> bool) l : existsb p l = false <-> Forall (fun x => p x = false) l.
Proof.
  induction l as [|x l IH]; simpl; [by split; [constructor|]|].
  rewrite orb_false_iff, IH. split; [intros [? ?]; by constructor|by inversion 1].
Qed.

Lemma has_reasoning_false j : has_reasoning j = false <-> no_reasoning j.
Proof.
  induction j as [| | | | |l IH|d IH] using json_nested_ind; try (split; [by constructor|done]).
  - cbn [has_reasoning]. rewrite existsb_false. split.
    + intros Hf. constructor. rewrite Forall_forall in *. intros x Hx. apply IH; [done|by apply Hf].
    + intros Hn. inversion Hn as [? Hf| |? Hx]; subst; [|done]. rewrite Forall_forall in *. intros x Hx. apply IH; [done|by apply Hf].
  - cbn [has_reasoning]. rewrite orb_false_iff, !existsb_false. split.
    + intros [Hk Hf]. constructor.
      * apply Forall_forall. intros k Hin Hbad. rewrite Forall_forall in Hk. specialize (Hk k Hbad).
        apply not_true_iff_false in Hk. by apply Hk, dmem_keys.
      * rewrite Forall_forall in *. intros x Hx. apply IH; [done|by apply Hf].
    + intros Hn. inversion Hn as [|? Hk Hf|? Hx]; subst; [|done]. rewrite Forall_forall in IH. rewrite Forall_forall in Hk. rewrite Forall_forall in Hf.
      split; apply Forall_forall.
      * intros k Hbad. apply not_true_iff_false. intros Hin%dmem_keys. by apply (Hk k Hin).
      * intros x Hx. apply IH; [done|by apply Hf].
Qed.

Lemma no_reasoning_get d k : no_reasoning (JDict d) -> no_reasoning (jget d k).
Proof.
  intros Hn. inversion Hn as [|? _ Hf|? Hx]; subst; [|done]. unfold jget.
  destruct (dget d k) as [v|] eqn:Hd; [|by constructor]. apply dget_elem_of in Hd.
  rewrite Forall_forall in Hf. exact (Hf _ Hd).
Qed.

Lemma no_reasoning_set d k s : no_reasoning (JDict d) -> k ∉ forbidden_reasoning_fields ->
  no_reasoning (JDict (dset d k (JStr s))).
Proof.
  intros Hn Hk. inversion Hn as [|? Hks Hf|? Hx]; subst; [|done].
  rewrite Forall_forall in Hks. rewrite Forall_forall in Hf. apply nr_dict; apply Forall_forall.
  - intros x Hx. rewrite dkeys_dset in Hx. destruct (dmem d k); [by apply Hks|].
    apply elem_of_app in Hx as [Hx|Hx]; [by apply Hks|]. by apply list_elem_of_singleton in Hx as ->.
  - intros [k' v] Hin. clear Hn Hks. induction d as [|[k0 v0] d IH]; simpl in Hin.
    + apply list_elem_of_singleton in Hin as [= -> ->]. by constructor.
    + case_bool_decide.
      * apply elem_of_cons in Hin as [[= -> ->]|Hin]; [by constructor|]. apply Hf. by right.
      * apply elem_of_cons in Hin as [[= -> ->]|Hin]; [exact (Hf (k0, v0) ltac:(left))|].
        apply IH; [|done]. intros x Hx. apply Hf. by right.
Qed.

Lemma no_reasoning_choice completion choice :
  first_choice completion = Some choice -> no_reasoning completion -> no_reasoning (JDict choice).
Proof.
  unfold first_choice. destruct completion as [| | | | | |c]; try done.
  destruct (jget c "choices") as [| | | | |[|[| | | | | |ch] l]|] eqn:Hc; try done. intros [= ->] Hn.
  apply (no_reasoning_get c "choices") in Hn. rewrite Hc in Hn. inversion Hn as [? Hf| |? Hx]; subst; [|done].
  by inversion Hf.
Qed.

(** ** Messages *)

(** A message of the assistant that says something or calls a tool *)
Definition assistant_message (m : jdict) : Prop :=
  jget m "role" = JStr "assistant" /\
  ((exists s, jget m "content" = JStr s /\ nonblank s) \/
   (not_blank (jget m "content") = None /\ exists c l, jget m "tool_calls" = JList (c :: l))).

(** Neither its text nor any of its fields shows reasoning. *)
Definition screened (m : jdict) : Prop :=
  no_reasoning (JDict m) /\
  forall s, not_blank (jget m "content") = Some s -> re_search think_tag s = None.

Lemma valid_assistant_some v m :
  _valid_api_v1_assistant_message v = Some m -> v = JDict m /\ assistant_message m.
Proof.
  unfold _valid_api_v1_assistant_message, assistant_message. destruct v as [| | | | | |d]; try done.
  destruct (jeq_str (jget d "role") "assistant") eqn:Hr; [|done]. apply jeq_str_true in Hr. cbn [negb].
  destruct (not_blank (jget d "content")) as [s|] eqn:Hs.
  - intros [= <-]. apply not_blank_some in Hs as [Hs Hn]. split; [done|]. split; [done|]. left. by exists s.
  - destruct (jget d "tool_calls") as [| | | | |[|c l]|] eqn:Ht; try done. intros [= <-].
    split; [done|]. split; [done|]. right. split; [done|]. by exists c, l.
Qed.

Lemma nonblank_head s c l : codes s = c :: l -> is_py_space c = false -> nonblank s.
Proof.
  intros Hs Hc. unfold nonblank, py_strip, py_empty. rewrite Hs. simpl. rewrite Hc. simpl.
  destruct (drop_space_split (rev l ++ [c])) as (k & Hk & Hf).
  destruct (drop_space (rev l ++ [c])) as [|x d] eqn:E.
  - rewrite app_nil_r in Hk. rewrite <- Hk in Hf. rewrite Forall_app in Hf. destruct Hf as [_ Hf].
    inversion Hf. congruence.
  - simpl. by destruct (rev d).
Qed.

(** What is left of a text is no white space only. *)
Lemma normalized_nonblank content s : normalize_non_thinking content = inr s -> nonblank s.
Proof.
  unfold normalize_non_thinking. destruct (strip_wrappers _ _ _) as [cleaned any].
  destruct (py_empty (py_strip cleaned)) eqn:Hc; [done|].
  destruct (re_search think_tag _) as [x|]; [done|].
  destruct (py_empty (without_marker _)) eqn:He; [done|]. intros [= <-].
  destruct (without_marker_split (py_strip cleaned)) as (k & Hk & _).
  destruct (codes (without_marker (py_strip cleaned))) as [|c l] eqn:Hw.
  { unfold py_empty in He. by rewrite Hw in He. }
  eapply nonblank_head; [exact Hw|]. pose proof (py_strip_idem cleaned) as Hi.
  destruct (is_py_space c) eqn:Hs; [|done]. exfalso.
  apply (f_equal codes) in Hi. unfold py_strip at 1 in Hi. cbn [codes] in Hi. rewrite Hk in Hi. simpl in Hi.
  rewrite Hs in Hi. apply (f_equal length) in Hi. rewrite length_rev in Hi. simpl in Hi.
  destruct (drop_space_split (rev (drop_space (l ++ k)))) as (k1 & Hk1 & _).
  apply (f_equal length) in Hk1. rewrite length_app, length_rev in Hk1.
  destruct (drop_space_split (l ++ k)) as (k2 & Hk2 & _). apply (f_equal length) in Hk2.
  rewrite (length_app k2) in Hk2. lia.
Qed.

(** The text a profile lets through: not blank, and free of tags when they must be *)
Lemma normalized_content model_profile content s :
  _api_v1_normalize_qwen_non_thinking_content model_profile content = inr s ->
  nonblank s /\ (_api_v1_qwen_non_thinking_required model_profile = true -> re_search think_tag s = None).
Proof.
  unfold _api_v1_normalize_qwen_non_thinking_content.
  destruct (_api_v1_qwen_non_thinking_required model_profile); cbn [negb].
  - destruct content; try done. intros Hn. split; [by eapply normalized_nonblank|].
    intros _. by eapply normalized_is_clean.
  - destruct (not_blank content) as [t|] eqn:Ht; [|done]. intros [= <-].
    by apply not_blank_some in Ht as [_ Ht].
Qed.

Ltac not_forbidden := apply (bool_decide_unpack _); vm_compute; exact I.

(** A message of a role and a text *)
Lemma plain_message_shows_none role text :
  no_reasoning (JDict [("role"%pystr, JStr role); ("content"%pystr, JStr text)]).
Proof.
  apply nr_dict; [|repeat constructor]. simpl.
  apply List.Forall_cons; [|apply List.Forall_cons; [|constructor]]; not_forbidden.
Qed.

Definition screened_for (model_profile : jdict) (m : jdict) : Prop :=
  _api_v1_qwen_non_thinking_required model_profile = true -> screened m.

(** Whatever the runtime returns, a message taken from it is one of the assistant; under a
    profile that forbids reasoning it shows none. *)
Lemma message_from_completion model_profile completion m :
  _assistant_message_from_runtime_completion model_profile completion = inr m ->
  assistant_message m /\ screened_for model_profile m.
Proof.
  intros Hm. unfold _assistant_message_from_runtime_completion in Hm.
  destruct (first_choice completion) as [choice|] eqn:Hch.
  - destruct (_api_v1_qwen_reasoning_content_leaked model_profile completion) eqn:Hleak; [done|].
    assert (_api_v1_qwen_non_thinking_required model_profile = true -> no_reasoning (JDict choice)) as Hnr.
    { intros Hq. unfold _api_v1_qwen_reasoning_content_leaked in Hleak. rewrite Hq in Hleak.
      by eapply no_reasoning_choice, has_reasoning_false. }
    cbv zeta in Hm.
    destruct (match _valid_api_v1_assistant_message (raw_message choice) with Some m => Some m | None => _ end)
      as [m0|] eqn:Hm0; [|done].
    assert (assistant_message m0 /\ (_api_v1_qwen_non_thinking_required model_profile = true ->
              no_reasoning (JDict m0))) as [Ham Hnr0].
    { destruct (_valid_api_v1_assistant_message (raw_message choice)) as [m1|] eqn:Hv.
      - injection Hm0 as ->. apply valid_assistant_some in Hv as [Hv ?]. split; [done|]. intros Hq.
        unfold raw_message in Hv. specialize (no_reasoning_get choice "message" (Hnr Hq)).
        destruct (jget choice "message") as [| | | | | |raw]; try discriminate.
        destruct (_ && _); injection Hv as <-; [|done]. intros Hraw. apply no_reasoning_set; [done|not_forbidden].
      - destruct (_ && _); [|done]. destruct (not_blank (jget choice "text")) as [text|] eqn:Ht; [|done].
        injection Hm0 as <-. apply not_blank_some in Ht as [_ Ht]. split.
        + split; [done|]. left. by exists text.
        + intros _. apply plain_message_shows_none. }
    destruct (not_blank (jget m0 "content")) as [content|] eqn:Hc.
    + apply ebind_inr in Hm as (cleaned & Hn & Hm). injection Hm as <-. apply normalized_content in Hn as [Hb Ht].
      assert (jget (dset m0 "content" (JStr cleaned)) "content" = JStr cleaned) as Hget.
      { rewrite jget_dset. by rewrite bool_decide_eq_true_2. }
      split.
      * destruct Ham as [Hr _]. split; [rewrite jget_dset; by rewrite bool_decide_eq_false_2|].
        left. by exists cleaned.
      * intros Hq. split; [apply no_reasoning_set; [by apply Hnr0|not_forbidden]|].
        intros s. rewrite Hget. intros [[= ->] _]%not_blank_some. by apply Ht.
    + injection Hm as <-. split; [done|]. intros Hq. split; [by apply Hnr0|]. intros s. by rewrite Hc.
  - destruct (not_blank completion) as [content|] eqn:Hc; [|done].
    apply ebind_inr in Hm as (cleaned & Hn & Hm). injection Hm as <-. apply normalized_content in Hn as [Hb Ht].
    split.
    + split; [done|]. left. by exists cleaned.
    + intros Hq. split; [apply plain_message_shows_none|].
      intros s [[= ->] _]%not_blank_some. by apply Ht.
Qed.
End screen.

(** * What a compute node reports

    Diagnostics of the worker keep listed entries only, cutting them down a second time
    changes nothing, and the codes they lead to; bodies of the relay's errors keep no
    sensitive field and no line break. *)

(** ** Splitting and joining *)

Lemma split_codes_cons c l : exists w ws, split_codes c l = w :: ws.
Proof.
  induction l as [|x l (w & ws & IH)]; simpl; [by eexists _, _|]. rewrite IH.
  destruct (N.eqb x c); by eexists _, _.
Qed.

Lemma split_codes_no c l : Forall (fun p => c ∉ p) (split_codes c l).
Proof.
  induction l as [|x l IH]; simpl; [by repeat constructor; apply not_elem_of_nil|].
  destruct (split_codes_cons c l) as (w & ws & E). rewrite E in *. inversion IH; subst.
  destruct (N.eqb x c) eqn:Hx; [constructor; [apply not_elem_of_nil|by constructor]|].
  apply N.eqb_neq in Hx. constructor; [|done]. rewrite not_elem_of_cons. split; [congruence|done].
Qed.

Lemma split_codes_word c w l : c ∉ w ->
  split_codes c (w ++ c :: l) = w :: split_codes c l /\ split_codes c w = [w].
Proof.
  induction w as [|x w IH]; simpl; intros Hw.
  - by rewrite N.eqb_refl.
  - rewrite not_elem_of_cons in Hw. destruct Hw as [Hx Hw]. destruct (IH Hw) as [-> ->].
    by rewrite (proj2 (N.eqb_neq x c)).
Qed.

Lemma split_join c w ws : Forall (fun p => c ∉ p) (w :: ws) ->
  split_codes c (join_codes [c] (w :: ws)) = w :: ws.
Proof.
  revert w. induction ws as [|w' ws IH]; intros w Hf; inversion Hf; subst.
  - by apply split_codes_word.
  - change (join_codes [c] (w :: w' :: ws)) with (w ++ c :: join_codes [c] (w' :: ws)).
    rewrite (proj1 (split_codes_word c w _ ltac:(done))). by rewrite IH.
Qed.

Lemma join_split c l : join_codes [c] (split_codes c l) = l.
Proof.
  induction l as [|x l IH]; simpl; [done|]. destruct (split_codes_cons c l) as (w & ws & E). rewrite E in *.
  destruct (N.eqb x c) eqn:Hx.
  - apply N.eqb_eq in Hx as ->. change (join_codes [c] ([] :: w :: ws)) with (c :: join_codes [c] (w :: ws)).
    by rewrite IH.
  - destruct ws; simpl in *; by rewrite IH.
Qed.

(** The characters of the words, and one separator for each but the first *)
Definition joined_length (ws : list (list N)) : nat := (sum_list_with length ws + (length ws - 1))%nat.

Lemma length_join c ws : length (join_codes [c] ws) = joined_length ws.
Proof.
  unfold joined_length. induction ws as [|w [|w' ws] IH]; [done|simpl; lia|].
  change (join_codes [c] (w :: w' :: ws)) with (w ++ c :: join_codes [c] (w' :: ws)).
  rewrite length_app, length_cons, IH. simpl. lia.
Qed.

Lemma joined_sublist ws ws' : ws `sublist_of` ws' -> (joined_length ws <= joined_length ws')%nat.
Proof.
  intros Hs. unfold joined_length. pose proof (sublist_length _ _ Hs).
  assert (sum_list_with length ws <= sum_list_with length ws')%nat; [|lia].
  clear -Hs. induction Hs; simpl; lia.
Qed.

Lemma forall_sublist {A} (P : A -> Prop) l k : l `sublist_of` k -> Forall P k -> Forall P l.
Proof. induction 1; inversion 1; subst; auto. Qed.

(** Some of the parts of a list of names, joined again *)
Definition some_parts (n : nat) (s : pystr) : pystr := py_join "," (firstn n (csv_parts s)).

Lemma csv_parts_codes s : exists ws, ws `sublist_of` split_codes 44 (codes s) /\
  csv_parts s = map PyStr ws /\ Forall (fun w => w <> []) ws.
Proof.
  unfold csv_parts, py_split. generalize (split_codes 44 (codes s)) as l.
  induction l as [|w l (ws & Hs & Heq & Hf)]; [by exists []|]. unfold bfilter in *. simpl.
  destruct w as [|c w]; simpl; [exists ws; by repeat constructor|].
  exists ((c :: w) :: ws). rewrite Heq. split; [by apply sublist_skip|]. split; [done|]. by constructor.
Qed.

Lemma some_parts_again n s : csv_parts s <> [] -> (0 < n)%nat ->
  (length (codes (some_parts n s)) <= length (codes s))%nat /\
  csv_parts (some_parts n s) = firstn n (csv_parts s).
Proof.
  intros Hne Hn. destruct (csv_parts_codes s) as (ws & Hs & Heq & Hf). unfold some_parts. rewrite Heq in *.
  rewrite firstn_map. unfold py_join. cbn [codes].
  assert (map codes (map PyStr (firstn n ws)) = firstn n ws) as ->.
  { rewrite map_map. apply map_id. }
  assert (firstn n ws `sublist_of` split_codes 44 (codes s)) as Hs'.
  { etrans; [|exact Hs]. apply sublist_take. }
  change (codes ",") with [44%N]. split.
  - rewrite length_join, <- (join_split 44 (codes s)) at 1. rewrite length_join. by apply joined_sublist.
  - unfold csv_parts, py_split. cbn [codes].
    destruct (firstn n ws) as [|w ws'] eqn:E; [by destruct n, ws|].
    rewrite split_join by (by apply (forall_sublist _ _ _ Hs'), split_codes_no).
    assert (Forall (fun w => w <> []) (w :: ws')) as Hf'.
    { rewrite <- E. by apply Forall_take. }
    clear -Hf'. unfold bfilter. induction Hf' as [|x l Hx _ IH]; [done|]. simpl.
    destruct x; [done|]. simpl. by rewrite IH.
Qed.

(** ** Replacing stretches of a text *)
Section replaced.
Context `{!PyWords}.

Lemma matches_run (p : N -> bool) before c l :
  (exists q, matches (Plus (Chr p)) (before, c :: l) q) <-> p c = true.
Proof.
  split.
  - intros (q & Hm). inversion Hm as [| |? ? ? t ? H1 _| | | | | |]; subst. by inversion H1; subst.
  - intros Hc. exists (Some c, l). apply match_seq with (Some c, l); [by constructor|apply match_star_end].
Qed.

Lemma run_shorter (p : N -> bool) a q : matches (Plus (Chr p)) a q -> (length q.2 < length a.2)%nat.
Proof.
  intros Hm. inversion Hm as [| |? ? ? t ? H1 H2| | | | | |]; subst. apply matches_shorter in H2.
  inversion H1; subst. simpl in *. lia.
Qed.

(** Of the characters whose runs are replaced none is left. *)
Lemma sub_run_gone (p : N -> bool) replacement fuel : forall a,
  (length a.2 <= fuel)%nat -> (forall g, Forall (fun c => p c = false) (replacement g)) ->
  Forall (fun c => p c = false) (sub_from fuel (Plus (Chr p)) replacement a).
Proof.
  induction fuel as [|fuel IH]; intros [b [|c l]] Hl Hr; simpl in Hl; try lia; try (by constructor).
  cbn [sub_from snd]. destruct (re_match (Plus (Chr p)) (b, c :: l)) as [[q g]|] eqn:Hm.
  - apply re_match_sound, run_shorter in Hm. simpl in Hm. apply Forall_app. split; [done|]. apply IH; [lia|done].
  - constructor; [|apply IH; [simpl; lia|done]]. destruct (p c) eqn:Hc; [|done]. exfalso.
    destruct (proj2 (matches_run p b c l) Hc) as [q Hq]. by apply (proj1 (re_match_none _ _) Hm q).
Qed.
End replaced.

(** ** Diagnostics *)
Section reports.
Context `{!PyWords, !PyUnicode}.

Definition bounded (s : pystr) : pystr := PyStr (firstn 256 (codes s)).

Lemma bounded_short s : (length (codes s) <= 256)%nat -> bounded s = s.
Proof. intros Hl. unfold bounded. rewrite firstn_all2 by done. by destruct s. Qed.

Lemma bounded_length s : (length (codes (bounded s)) <= 256)%nat.
Proof. apply firstn_le_length. Qed.

(** A list of names that is kept is kept as it is the second time. *)
Lemma csv_of_again shaped s v : csv_of shaped (bounded s) = Some v -> exists t,
  v = JStr t /\ (length (codes t) <= 256)%nat /\ csv_of shaped t = Some v.
Proof.
  unfold csv_of. destruct (csv_parts (bounded s)) as [|name names] eqn:E.
  - intros [= <-]. exists ""%pystr. split; [done|]. split; [simpl; lia|done].
  - destruct (forallb shaped (name :: names)) eqn:Hs; [|done]. intros [= <-].
    destruct (some_parts_again 64 (bounded s)) as [Hl Hp]; [by rewrite E|lia|].
    unfold some_parts in Hl, Hp. rewrite E in Hl, Hp. eexists. split; [done|].
    change (name :: firstn 63 names) with (firstn 64 (name :: names)).
    split; [pose proof (bounded_length s); lia|]. rewrite Hp.
    assert (forallb shaped (firstn 64 (name :: names)) = true) as Hs'.
    { rewrite forallb_forall in *. intros x Hx. apply Hs. rewrite <- (firstn_skipn 64 (name :: names)).
      apply in_or_app. by left. }
    destruct (firstn 64 (name :: names)) as [|n l] eqn:Ef; [done|]. rewrite Hs', <- Ef, firstn_firstn. done.
Qed.

(** How a text is read for a key: as it is, or as a list of names *)
Definition read_as (key : pystr) (read : pystr -> option json) : Prop :=
  forall s, _safe_worker_diagnostic_value key (JStr s) = read (bounded s).

Lemma readings key : (exists p, read_as key (fun b => keep_if (p b) b)) \/
  (exists shaped, read_as key (csv_of shaped)).
Proof.
  unfold read_as, _safe_worker_diagnostic_value.
  destruct (dget _SAFE_WORKER_DIAGNOSTIC_ENUM_VALUES key) as [values|];
    [left; exists (fun b => pystr_in b values); intros s; exact eq_refl|].
  destruct (pystr_in key [_; _; _]); [left; exists (fun _ => false); intros s; exact eq_refl|].
  destruct (bool_decide _); [left; eexists; intros s; exact eq_refl|].
  destruct (pystr_in key identifier_keys); [left; eexists; intros s; exact eq_refl|].
  destruct (pystr_in key csv_identifier_keys); [right; eexists; intros s; exact eq_refl|].
  destruct (bool_decide _); [right; eexists; intros s; exact eq_refl|].
  destruct (pystr_in key optional_identifier_keys);
    [left; exists (fun b => py_empty b || identifier_shaped b); intros s; exact eq_refl|].
  destruct (bool_decide _); [left; eexists; intros s; exact eq_refl|].
  destruct (pystr_in key [_; _]); [left; eexists; intros s; exact eq_refl|].
  left; exists (fun _ => false); intros s; exact eq_refl.
Qed.

Lemma safe_value_again key v v' : _safe_worker_diagnostic_value key v = Some v' ->
  _safe_worker_diagnostic_value key v' = Some v' /\ (forall s, v' = JStr s -> py_len s <= 256) /\
  match v' with JList _ | JDict _ | JNull => False | _ => True end.
Proof.
  assert (forall t, (length (codes t) <= 256)%nat -> py_len t <= 256) as Hlen.
  { intros t Ht. unfold py_len. rewrite zlen_length. lia. }
  destruct v as [|b|z|f|s|l|d]; try done; try (intros [= <-]; split; [done|split; [done|exact I]]).
  destruct (readings key) as [(p & Hr)|(shaped & Hr)]; rewrite Hr.
  - unfold keep_if. destruct (p (bounded s)) eqn:Hp; [|done]. intros [= <-]. rewrite Hr.
    rewrite bounded_short by apply bounded_length. rewrite Hp. split; [done|]. split; [|exact I].
    intros t [= <-]. apply Hlen, bounded_length.
  - intros (t & -> & Hl & Ht)%csv_of_again. rewrite Hr, bounded_short by done. split; [done|].
    split; [|exact I]. intros t' [= <-]. by apply Hlen.
Qed.

Lemma safe_entry_again key v v' : safe_entry key v = Some v' ->
  safe_entry key v' = Some v' /\ key ∈ _SAFE_WORKER_DIAGNOSTIC_KEYS /\
  (forall s, v' = JStr s -> py_len s <= 256) /\ match v' with JList _ | JDict _ => False | _ => True end.
Proof.
  unfold safe_entry. destruct (pystr_in key _) eqn:Hk; [|done].
  apply bool_decide_eq_true in Hk.
  destruct (_safe_worker_diagnostic_value key v) as [w|] eqn:Hv.
  - intros [= <-]. apply safe_value_again in Hv as (-> & Hl & Hw). split; [done|]. split; [done|].
    split; [done|]. by destruct w.
  - destruct (is_JNull v); [|done]. intros [= <-]. done.
Qed.

(** The entries of a sequence of diagnostics that are kept *)
Definition safe_entries (d : jdict) : jdict :=
  omap (fun kv => (fun v => (kv.1, v)) <$> safe_entry kv.1 kv.2) d.

Lemma safe_fold d : forall acc, NoDup (dkeys d) -> (forall k, k ∈ dkeys d -> dget acc k = None) ->
  fold_left (fun safe kv => match safe_entry kv.1 kv.2 with Some v => dset safe kv.1 v | None => safe end) d acc
  = acc ++ safe_entries d.
Proof.
  unfold safe_entries. induction d as [|[k v] d IH]; intros acc Hnd Hf; simpl; [by rewrite app_nil_r|].
  apply NoDup_cons in Hnd as [Hk Hnd]. destruct (safe_entry k v) as [v'|]; simpl.
  - rewrite dset_fresh by (apply Hf; left). rewrite IH; [by rewrite <- app_assoc|done|].
    intros k' Hk'. rewrite <- dset_fresh by (apply Hf; left). rewrite dget_dset_ne; [apply Hf; by right|].
    by intros ->.
  - apply IH; [done|]. intros k' Hk'. apply Hf. by right.
Qed.

Lemma safe_entries_elem d k v :
  (k, v) ∈ safe_entries d -> exists v0, (k, v0) ∈ d /\ safe_entry k v0 = Some v.
Proof.
  unfold safe_entries. rewrite list_elem_of_omap. intros ([k0 v0] & Hin & Hs). simpl in Hs.
  destruct (safe_entry k0 v0) eqn:E; [|done]. injection Hs as <- <-. by exists v0.
Qed.

Lemma safe_entries_keys d : dkeys (safe_entries d) `sublist_of` dkeys d.
Proof.
  unfold safe_entries. induction d as [|[k v] d IH]; simpl; [constructor|].
  destruct (safe_entry k v); simpl; [by apply sublist_skip|by apply sublist_cons].
Qed.

Lemma safe_entries_cons k v d :
  safe_entries ((k, v) :: d) = match safe_entry k v with
                               | Some v' => (k, v') :: safe_entries d
                               | None => safe_entries d
                               end.
Proof. unfold safe_entries. simpl. by destruct (safe_entry k v). Qed.

Lemma safe_entries_again d : safe_entries (safe_entries d) = safe_entries d.
Proof.
  induction d as [|[k v] d IH]; [done|]. rewrite safe_entries_cons.
  destruct (safe_entry k v) as [v'|] eqn:E; [|done].
  apply safe_entry_again in E as [Hv _]. by rewrite safe_entries_cons, Hv, IH.
Qed.

Lemma safe_diagnostics_entries d : nodup_keys d -> _safe_worker_diagnostics (JDict d) = safe_entries d.
Proof. intros Hd. cbn [_safe_worker_diagnostics]. by rewrite safe_fold. Qed.

(** The codes a worker may report do not include that of an invalid request. *)
Lemma reported_code v v' : safe_entry "code" v = Some v' -> v' <> JStr "compute_node_invalid_request".
Proof.
  unfold safe_entry. replace (pystr_in "code" _SAFE_WORKER_DIAGNOSTIC_KEYS) with true by (vm_compute; done).
  destruct v as [|b|z|f|s|l|d]; try (by intros [= <-]); try done.
  unfold _safe_worker_diagnostic_value.
  change (dget _SAFE_WORKER_DIAGNOSTIC_ENUM_VALUES "code") with
    (Some ["compute_node_internal_error"; "compute_node_options_unsupported";
           "compute_node_runtime_unavailable"]%pystr).
  unfold keep_if. destruct (pystr_in _ _) eqn:Hin; [|done]. intros [= <-] [= Heq].
  unfold bounded in Hin. rewrite Heq in Hin. by vm_compute in Hin.
Qed.
End reports.

(** ** Bodies of errors *)
Section bodies.
Context `{!PyWords, !PyUnicode, !FloatRepr, !PyNumbers}.

(** A short text on one line *)
Definition snippet_text (s : pystr) : Prop :=
  Forall (fun c => c ∉ [13; 10; 0]%N) (codes s) /\ py_len s <= _API_V1_BODY_SNIPPET_LIMIT + 3.

(** A body without the value of any sensitive field, its lists cut and its texts short *)
Inductive redacted : json -> Prop :=
| redacted_dict d : Forall (fun kv => is_sensitive_key kv.1 = true -> kv.2 = JStr _API_V1_REDACTED) d ->
    Forall (fun kv => is_sensitive_key kv.1 = true \/ redacted kv.2) d -> redacted (JDict d)
| redacted_list l : zlen l <= 10 -> Forall redacted l -> redacted (JList l)
| redacted_text s : snippet_text s -> redacted (JStr s)
| redacted_scalar j : match j with JNull | JBool _ | JInt _ | JFloat _ => True | _ => False end -> redacted j.

Lemma breaks_gone replacement s :
  (forall g, Forall (fun c => c ∉ [13; 10; 0]%N) (replacement g)) ->
  Forall (fun c => c ∉ [13; 10; 0]%N) (codes (re_sub line_break replacement s)).
Proof.
  intros Hr. unfold re_sub, line_break, one_of. cbn [codes].
  eapply Forall_impl; [apply (sub_run_gone (fun c => bool_decide (c ∈ [13; 10; 0]%N)))|].
  - done.
  - intros g. eapply Forall_impl; [apply Hr|]. intros c Hc. by apply bool_decide_eq_false_2.
  - simpl. intros c Hc. by apply bool_decide_eq_false_1 in Hc.
Qed.

Lemma redacted_text_short text secrets : snippet_text (_redact_sensitive_text text secrets).
Proof.
  unfold _redact_sensitive_text. cbv zeta. set (u := re_sub field_pattern _ _).
  assert (Forall (fun c => c ∉ [13; 10; 0]%N) (codes (re_sub line_break (fun _ => [32%N]) u))) as Hf.
  { apply breaks_gone. intros _. repeat constructor. apply (bool_decide_unpack _). vm_compute. exact I. }
  set (r := re_sub line_break _ u) in *. clearbody r. unfold snippet_text.
  destruct (_ <? py_len r) eqn:Hl.
  - split.
    + cbn [codes]. apply Forall_app. split; [by apply Forall_take|].
      apply (bool_decide_unpack _). vm_compute. exact I.
    + unfold py_len, py_app. cbn [codes]. rewrite zlen_app.
      assert (zlen (firstn (Z.to_nat _API_V1_BODY_SNIPPET_LIMIT) (codes r)) <= _API_V1_BODY_SNIPPET_LIMIT).
      { rewrite zlen_length. pose proof (firstn_le_length (Z.to_nat _API_V1_BODY_SNIPPET_LIMIT) (codes r)) as Hn.
        unfold _API_V1_BODY_SNIPPET_LIMIT in *. lia. }
      rewrite !zlen_cons, zlen_nil. lia.
  - apply Z.ltb_ge in Hl. split; [done|]. lia.
Qed.

Lemma sanitized_redacted secrets j : redacted (_sanitize_api_v1_json_body secrets j).
Proof.
  induction j as [| | | | |l IH|d IH] using json_nested_ind; try (by apply redacted_scalar).
  - apply redacted_text, redacted_text_short.
  - cbn [_sanitize_api_v1_json_body]. set (l' := map _ l). apply redacted_list.
    + rewrite zlen_length. pose proof (firstn_le_length 10 l'). lia.
    + apply Forall_take. by apply Forall_map.
  - apply redacted_dict; apply Forall_map; (eapply Forall_impl; [exact IH|]); intros [k v] Hv; simpl in *;
      destruct (is_sensitive_key k); auto; done.
Qed.
End bodies.
