(* ===== verification/ApiContract.v ===== *)
(** * What a chat request goes through

    Validation, moderation and generation composed as the chat route composes
    them, and the contracts of the other request helpers: images, encrypted
    envelopes, model names, context tiers and the operator guard. *)

From S2P Require Import Prelude PyFloat PyStr PyDict PyText Json Base64 Validation Profiles.
From S2P Require Import Catalog Moderation OperatorAuth.

Section chat.
Context `{!PyUnicode, !PyDigits, !FloatRepr}.

Lemma chat_message_runnable m : chat_message_ok m -> runnable_message m.
Proof.
  intros (d & role & -> & Hr & _ & Hc). exists d. split; [done|]. split; [|done].
  apply dmem_true. by eexists.
Qed.

Lemma validated_runnable ms :
  validate_chat_messages (JList ms) = inr tt ->
  ms ≠ [] /\ Forall chat_message_ok ms /\ Forall runnable_message ms.
Proof.
  intros (l & [= <-] & Hne & Hall)%chat_messages_inr. split; [done|]. split; [done|].
  eapply Forall_impl; [exact Hall|apply chat_message_runnable].
Qed.

(** The validator accepts exactly the well-formed conversations: a non-empty
    list of messages, each with a known role and either text or a non-empty list
    of non-empty text blocks. *)
Theorem chat_validation_is_exact messages :
  validate_chat_messages messages = inr tt <-> chat_messages_ok messages.
Proof. apply chat_messages_inr. Qed.

(** A conversation is refused with a [ValidationError], except that a block
    whose [type] is a list or an object lets Python's [TypeError] out. *)
Theorem chat_refusal_is_a_validation_error messages e :
  validate_chat_messages messages = inl e ->
  (exists v, e = Invalid v) \/
  exists l d content item, messages = JList l /\ JDict d ∈ l /\
    jget d "content" = JList content /\ item ∈ content /\ unhashable_type item.
Proof. apply chat_messages_inl. Qed.

(** A validated conversation always reaches the runtime: the format check
    passes, the caller's list becomes its plain-text form and the reply is
    appended to it; a failure is one of the runtime's own and leaves the
    plain-text list in place. *)
Theorem validated_messages_reach_the_model rt id loaded built ms :
  validate_chat_messages (JList ms) = inr tt -> py_empty id = false ->
  wp (generate_response AVAILABLE_MODELS rt id)
    (fun answer s => messages s = answer /\ exists reply,
       answer = map plain_message ms ++ [reply] /\ reply_of rt (map plain_message ms) reply)
    (fun e s => messages s = map plain_message ms /\ runtime_failure e)
    (mkModels loaded built ms).
Proof.
  intros (Hne & _ & Hrun)%validated_runnable Hid.
  exact (generate_response_wp rt id (mkModels loaded built ms) Hid Hne Hrun).
Qed.

(** ** Moderation *)

(** The texts of a content, as the runtime will see them. *)
Definition content_texts (content : json) : list pystr :=
  match content with
  | JStr s => [s]
  | JList l => map block_text l
  | _ => []
  end.

Definition message_texts (message : json) : list pystr :=
  match message with JDict d => content_texts (jget d "content") | _ => [] end.

Definition ascii_message (message : json) : Prop :=
  Forall (fun s => is_ascii s = true) (message_texts message).

(** The text the runtime sees in a message. *)
Definition prompt_text (message : json) : pystr :=
  match message with JDict d => str_value (jget d "content") | _ => "" end.

Lemma prompt_text_plain d : prompt_text (plain_message (JDict d)) = plain_text (jget d "content").
Proof. cbn [plain_message prompt_text]. rewrite jget_dset. by rewrite bool_decide_eq_true_2. Qed.

(** Moderation scans every text the runtime sees. *)
Lemma texts_are_fragments m t :
  chat_message_ok m -> t ∈ message_texts m -> t ∈ message_fragments m.
Proof.
  intros (d & role & -> & _ & _ & Hc). cbn [message_texts message_fragments].
  destruct Hc as [[s Hs]|(l & Hl & _ & Hall)].
  - rewrite Hs. cbn. done.
  - rewrite Hl. cbn [content_texts is_JNull]. intros (item & -> & Hin)%list_elem_of_fmap.
    rewrite Forall_forall in Hall. destruct (Hall item Hin) as (b & ty & t & -> & _ & _ & Ht & _).
    cbn [block_text]. rewrite Ht. by eapply fragments_block.
Qed.

Lemma bfilter_map_strip l :
  exists l', bfilter (fun s => negb (py_empty s)) (map py_strip l) = map py_strip l' /\
    forall s, s ∈ l' -> s ∈ l.
Proof.
  induction l as [|s l (l' & Heq & Hin)]; [by exists []|]. unfold bfilter in *. cbn [map List.filter].
  destruct (negb (py_empty (py_strip s))).
  - exists (s :: l'). split; [by rewrite Heq|]. intros t [->|Ht]%elem_of_cons; [left|right; by apply Hin].
  - exists l'. split; [done|]. intros t Ht. right. by apply Hin.
Qed.

(** A banned term in the runtime's text was in one of the message's texts. *)
Lemma plain_text_origin content term :
  content_ok content -> Forall (fun s => is_ascii s = true) (content_texts content) ->
  py_empty term = false -> newline ∉ codes term ->
  py_contains term (py_lower (plain_text content)) = true ->
  exists s, s ∈ content_texts content /\ py_contains term (py_lower s) = true.
Proof.
  intros [[s ->]|(l & -> & _ & _)] Ha Hne Hnl Hc.
  - exists s. split; [left|done].
  - cbn [plain_text content_texts] in *. rewrite <- (map_map block_text py_strip) in Hc.
    destruct (bfilter_map_strip (map block_text l)) as (l' & Heq & Hin). rewrite Heq in Hc.
    apply lower_join_strip in Hc as (s & Hs & Ht); [|done..|].
    + exists s. split; [by apply Hin|done].
    + rewrite Forall_forall in *. intros s Hs. by apply Ha, Hin.
Qed.

(** When moderation is active and lets a validated ASCII conversation pass,
    no message the runtime is given contains a term of the blocklist, also not
    across the text blocks that were joined. *)
Theorem allowed_conversation_is_clean env ms term m :
  validate_chat_messages (JList ms) = inr tt -> Forall ascii_message ms ->
  policy_disabled env = false -> allowed (evaluate_messages_for_policy env ms) = true ->
  term ∈ _get_blocklist env -> py_empty term = false -> newline ∉ codes term ->
  m ∈ ms -> py_contains term (py_lower (prompt_text (plain_message m))) = false.
Proof.
  intros (_ & Hok & _)%validated_runnable Hascii Hon Hallowed Hterm Hne Hnl Hm.
  unfold evaluate_messages_for_policy in Hallowed. rewrite Hon in Hallowed.
  destruct (_get_blocklist env) as [|t0 bl] eqn:Ebl; [by apply not_elem_of_nil in Hterm|].
  rewrite scan_messages_allowed in Hallowed.
  rewrite Forall_forall in Hok, Hascii. specialize (Hok m Hm). specialize (Hascii m Hm).
  destruct (py_contains term (py_lower (prompt_text (plain_message m)))) eqn:Ec; [|done].
  assert (Hok' := Hok). destruct Hok' as (d & role & -> & _ & _ & Hc). rewrite prompt_text_plain in Ec.
  destruct (plain_text_origin _ _ Hc Hascii Hne Hnl Ec) as (s & Hs & Ht).
  assert (Hf : s ∈ message_fragments (JDict d)) by (by apply texts_are_fragments).
  specialize (Hallowed _ s term Hm Hf Hterm). unfold term_matches in Hallowed.
  by rewrite Hne, Ht in Hallowed.
Qed.

(** An active policy blocks a request exactly when some text of some message
    contains a non-empty term of the blocklist, and the decision quotes a term
    and a text that match. *)
Theorem moderation_is_exact env ms :
  policy_disabled env = false ->
  let decision := evaluate_messages_for_policy env ms in
  (allowed decision = false <->
    exists m fragment term, m ∈ ms /\ fragment ∈ message_fragments m /\
      term ∈ _get_blocklist env /\ term_matches fragment term = true) /\
  (allowed decision = false ->
    exists fragment term, decision = block fragment term /\ term_matches fragment term = true /\
      term ∈ _get_blocklist env).
Proof.
  intros Hon. unfold evaluate_messages_for_policy. rewrite Hon. cbv zeta.
  destruct (_get_blocklist env) as [|t0 bl].
  { split; [|done]. split; [done|]. by intros (? & ? & ? & _ & _ & ?%not_elem_of_nil & _). }
  set (terms := t0 :: bl). split; [split|].
  - intros (m & f & t & Hm & Hf & Ht & Hmt & _)%scan_messages_blocked. by exists m, f, t.
  - intros (m & f & t & Hm & Hf & Ht & Hmt).
    destruct (allowed (scan_messages terms ms)) eqn:Ea; [|done].
    rewrite scan_messages_allowed in Ea. by rewrite (Ea m f t) in Hmt.
  - intros (m & f & t & Hm & Hf & Ht & Hmt & Heq)%scan_messages_blocked. by exists f, t.
Qed.

(** ** Images and envelopes *)

(** An accepted image request has a stripped, non-empty prompt, no seed or a
    non-negative one, and a width and a height of 32 to 1024 pixels. *)
Theorem image_request_is_bounded data p :
  validate_image_generation_payload data = inr p ->
  exists d, data = JDict d /\ image_payload_ok d p.
Proof. apply image_payload_sound. Qed.

(** Every size within the limits, written ["WIDTHxHEIGHT"] in decimal, is
    parsed back to the same width and height. *)
Theorem size_field_round_trip w h :
  32 <= w <= 1024 -> 32 <= h <= 1024 ->
  _parse_size_field (JStr (size_text w h)) = inr (w, h).
Proof. apply parse_size_text. Qed.

(** An encrypted request is accepted exactly when it names a client key and
    carries the three envelope fields, each base64 text or not a string. *)
Theorem encrypted_validation_is_exact data :
  validate_encrypted_request data = inr tt <-> encrypted_request_ok data.
Proof. apply encrypted_request_inr. Qed.

(** Base64 text written by the encoder is decoded to the same bytes by the
    strict decoder, whatever the bytes and their number. *)
Theorem base64_round_trip bytes : b64decode_strict (b64encode bytes) = inr bytes.
Proof. apply b64_roundtrip. Qed.

End chat.

(** ** Models, tiers and operators *)

(** Alias resolution is total and idempotent: it answers the requested name
    or the canonical model, which the catalogue lists, and resolving the answer
    again changes nothing. *)
Theorem alias_resolution_is_idempotent id :
  exists target, canonical_model_id AVAILABLE_MODELS id = inr target /\
    canonical_model_id AVAILABLE_MODELS target = inr target /\
    (target = id \/
     exists entry, _get_model_metadata AVAILABLE_MODELS target = inr (Some entry)).
Proof.
  rewrite canonical_model_id_eq. destruct (dmem MODEL_ALIASES id) eqn:Ed.
  - exists CANONICAL_API_V1_MODEL_ID. rewrite canonical_model_id_eq, canonical_is_no_alias.
    split; [done|]. split; [done|]. right. exact canonical_listed.
  - exists id. rewrite canonical_model_id_eq, Ed. split; [done|]. split; [done|]. by left.
Qed.

(** A model that has been loaded is served from the cache: the same instance
    again, with no further constructor call and no change of state. *)
Theorem loaded_model_is_reused available rt id s s' n :
  get_model_instance available rt id s = (s', inr (Instance n)) ->
  get_model_instance available rt id s' = (s', inr (Instance n)).
Proof. apply loaded_again. Qed.

(** Normalising a context tier always yields the identifier of an enabled
    profile, which [get_context_profile] then accepts, and is idempotent. *)
Theorem context_tier_is_normalised tier :
  exists p, get_context_profile (Some (normalize_context_tier tier)) = inr p /\
    cp_profile_id p = normalize_context_tier tier /\
    cp_enabled p = true /\
    normalize_context_tier (Some (normalize_context_tier tier)) = normalize_context_tier tier.
Proof.
  unfold normalize_context_tier at 1 2 4 5. destruct (enabled_profile tier) as [p|] eqn:Et.
  - apply enabled_profile_in in Et as (Hin & Hen & _). exists p.
    unfold get_context_profile, normalize_context_tier. by rewrite profile_selects_itself.
  - by eexists.
Qed.

(** Access is granted exactly when a token is configured and the request
    carries that token; a missing configuration refuses every request. *)
Theorem operator_access_needs_the_token env headers :
  ensure_operator_access env headers = None <->
  exists token, _expected_operator_token env = Some token /\ py_empty token = false /\
    provided_operator_token headers = Some token.
Proof.
  unfold ensure_operator_access.
  destruct (_expected_operator_token env) as [t|] eqn:Et; [|split; [done|by intros (? & ? & _)]].
  case_bool_decide as Hp; split; try done.
  - intros _. exists t. split; [done|]. split; [by apply first_token_some in Et as [? _]|done].
  - by intros (t' & [= <-] & _ & ?).
Qed.

(** A bearer token is accepted when it is the configured one and the operator
    header is absent. *)
Theorem bearer_token_is_accepted env headers token :
  _expected_operator_token env = Some token ->
  headers OPERATOR_TOKEN_HEADER = None ->
  headers "Authorization"%pystr = Some ("Bearer " +++ token) ->
  ensure_operator_access env headers = None.
Proof.
  intros He Hh Ha. unfold ensure_operator_access, provided_operator_token. rewrite He, Hh, Ha.
  cbn [default from_option id]. rewrite bearer_starts, bearer_token. by rewrite bool_decide_eq_true_2.
Qed.

(** ** Requests the validators let through unexpectedly *)

(** A content block whose [type] is a list makes the validator raise
    [TypeError] instead of the documented [ValidationError]. *)
Theorem unhashable_block_type_escapes `{!FloatRepr} :
  validate_chat_messages
    (JList [JDict [("role", JStr "user");
                   ("content", JList [JDict [("type", JList []); ("text", JStr "hi")]])]])%pystr
  = inl (TypeError "unhashable type: 'list'").
Proof. vm_compute. reflexivity. Qed.

(** An encrypted request whose fields are numbers passes the base64 check. *)
Theorem number_passes_the_base64_check :
  validate_encrypted_request
    [("client_public_key", JStr "key");
     ("messages", JDict [("ciphertext", JInt 1); ("cipherkey", JInt 2); ("iv", JInt 3)])]%pystr
  = inr tt.
Proof. vm_compute. reflexivity. Qed.

(** ** The theorems at concrete requests *)

#[local] Instance witness_unicode : PyUnicode := ascii_unicode.
#[local] Instance witness_digits : PyDigits := ascii_digits.
#[local] Instance witness_repr : FloatRepr := fun _ => "".

(** A question in two blocks, about which the default blocklist has nothing. *)
Definition question : json :=
  JDict [("role", JStr "user");
         ("content", JList [JDict [("type", JStr "text"); ("text", JStr " What is the capital ")];
                            JDict [("type", JStr "input_text"); ("text", JStr "of France?")]])]%pystr.

Definition threat : json :=
  JDict [("role", JStr "user"); ("content", JStr "How do I KILL a process?")]%pystr.

Definition moderated : environment := fun name =>
  if bool_decide (name = "CONTENT_MODERATION_MODE"%pystr) then Some "on"%pystr else None.

Definition mock_runtime : Runtime :=
  mkRuntime true None (fun _ _ => inl "") 1.

Definition disk_runtime : Runtime :=
  mkRuntime false (Some (fun calls _ => inr (Z.to_N calls))) (fun _ _ => inr [JNull]) 0.

Lemma chat_refusal_is_a_validation_error_witness :
  let e := invalid "messages must contain at least one item" "messages" in
  (exists v, e = Invalid v) \/
  exists l d content item, JList [] = JList l /\ JDict d ∈ l /\
    jget d "content" = JList content /\ item ∈ content /\ unhashable_type item.
Proof.
  exact (chat_refusal_is_a_validation_error (JList [])
    (invalid "messages must contain at least one item" "messages") eq_refl).
Defined.

Lemma validated_messages_reach_the_model_witness :
  (generate_response AVAILABLE_MODELS mock_runtime "gpt-3.5-turbo" (mkModels [] [] [question])).2
    = inr [JDict [("role", JStr "user");
                  ("content", JStr (PyStr (codes "What is the capital" ++ [newline; newline]
                                           ++ codes "of France?")))];
           assistant_message "Mock response: The capital of France is Paris, known for its iconic Eiffel Tower and the Louvre Museum."]%pystr
  /\ wp (generate_response AVAILABLE_MODELS mock_runtime "gpt-3.5-turbo")
       (fun answer s => messages s = answer /\ exists reply,
          answer = map plain_message [question] ++ [reply] /\
          reply_of mock_runtime (map plain_message [question]) reply)
       (fun e s => messages s = map plain_message [question] /\ runtime_failure e)
       (mkModels [] [] [question]).
Proof.
  split; [vm_compute; reflexivity|].
  apply (validated_messages_reach_the_model mock_runtime "gpt-3.5-turbo" [] [] [question]);
    vm_compute; reflexivity.
Defined.

Lemma allowed_conversation_is_clean_witness :
  allowed (evaluate_messages_for_policy moderated [threat]) = false /\
  py_contains "kill" (py_lower (prompt_text (plain_message question))) = false.
Proof.
  split; [vm_compute; reflexivity|].
  apply (allowed_conversation_is_clean moderated [question] "kill" question).
  - vm_compute. reflexivity.
  - constructor; [|constructor]. repeat constructor.
  - vm_compute. reflexivity.
  - vm_compute. reflexivity.
  - apply (bool_decide_unpack _). vm_compute. exact I.
  - vm_compute. reflexivity.
  - apply (bool_decide_unpack _). vm_compute. exact I.
  - left.
Defined.

Lemma moderation_is_exact_witness :
  let decision := evaluate_messages_for_policy moderated [threat] in
  exists fragment term, decision = block fragment term /\ term_matches fragment term = true /\
    term ∈ _get_blocklist moderated.
Proof.
  apply (moderation_is_exact moderated [threat]); vm_compute; reflexivity.
Defined.

Definition image_request : jdict :=
  [("prompt", JStr "  a red fox "); ("seed", JInt 7); ("size", JStr "640x480")]%pystr.

Lemma image_request_is_bounded_witness :
  exists d, JDict image_request = JDict d /\
    image_payload_ok d (mkImage "a red fox" (JInt 7) 640 480).
Proof. apply (image_request_is_bounded (JDict image_request)). vm_compute. reflexivity. Defined.

Lemma size_field_round_trip_witness :
  _parse_size_field (JStr (size_text 32 1024)) = inr (32, 1024).
Proof. apply (size_field_round_trip 32 1024); lia. Defined.

Lemma loaded_model_is_reused_witness :
  let s := mkModels [("qwen3-8b-instruct", 0%N)]%pystr ["models/Qwen3-8B-Q4_K_M.gguf"]%pystr [] in
  get_model_instance AVAILABLE_MODELS disk_runtime "gpt-3.5-turbo" s = (s, inr (Instance 0)).
Proof.
  apply (loaded_model_is_reused AVAILABLE_MODELS disk_runtime "gpt-3.5-turbo" (mkModels [] [] [])).
  vm_compute. reflexivity.
Defined.

Definition operator_env : environment := fun name =>
  if bool_decide (name = "TOKEN_PLACE_OPERATOR_TOKEN"%pystr) then Some " s3cret "%pystr else None.

Definition bearer_headers : pystr -> option pystr := fun name =>
  if bool_decide (name = "Authorization"%pystr) then Some "Bearer s3cret"%pystr else None.

Lemma bearer_token_is_accepted_witness : ensure_operator_access operator_env bearer_headers = None.
Proof.
  apply (bearer_token_is_accepted operator_env bearer_headers "s3cret"); vm_compute; reflexivity.
Defined.
