(* ===== verification/RelayTypes.v ===== *)
(** * relay.py: the server's data

    The globals of [relay.py] as one state record, the dictionaries they hold, the
    clocks and tokens the handlers read, and the replies they give.

    Envelopes are the JSON objects the code stores, with its own keys among them;
    a compute node's payload, an in-flight entry, a terminal entry and a tombstone
    are only ever built by the relay, so they are records.  Clients, servers and
    requests are named by text: a handler given a number or a list as a name stops
    with [NonTextName], where Python would go on with it as a dictionary key.

    Handlers read [time.monotonic()], [time.time()], [datetime.now()] and
    [secrets.token_urlsafe()] as often as they like: [ticks] numbers the readings,
    and the [Clock] says what each reading returns. *)

From S2P Require Import Prelude PyFloat PyStr PyDict PyText Json.
#[local] Open Scope Z_scope.

(** ** Environment *)

(** What the n-th reading returns; [today_at] in microseconds.  A URL-safe token is
    non-empty ASCII text, which encodes. *)
Class Clock : Type := {
  monotonic_at : nat -> float64;
  wall_at : nat -> float64;
  today_at : nat -> Z;
  token_at : nat -> pystr;
  choice_at : nat -> nat;
  token_encodes : forall n, utf8_encode (token_at n) <> None;
  token_is_text : forall n, py_empty (token_at n) = false
}.

Inductive relay_error : Set :=
| NonTextName
| RelayTypeError (message : pystr)
| RelayKeyError (key : pystr)
| RelayAttributeError
| RelayUnicodeError
| RelayOverflowError
| RelayIndexError.

(** ** Compute nodes *)

(** A normalised capability payload; [api_version] is always ["v1"]. *)
Record ApiCapabilities : Type := MkApiCapabilities {
  cap_supported_model_ids : list pystr;
  cap_active_context_tier : pystr;
  cap_maximum_total_context_tokens : Z;
  cap_default_output_token_reservation : Z;
  cap_maximum_output_tokens : Z;
  cap_max_concurrency : Z;
  cap_backend_class : pystr
}.

Record InFlightEntry : Type := MkInFlight {
  if_expires_at : float64;
  if_started_at_monotonic : float64;
  if_client_public_key : json;
  if_cancel_token : json;
  if_request_deadline_monotonic : option float64
}.

Record ServerPayload : Type := MkServer {
  sp_public_key : pystr;
  sp_last_ping : Z;
  sp_last_ping_duration : Z;
  sp_api_v1_registered : bool;
  sp_capabilities : option ApiCapabilities;
  sp_control_credential_digest : option pystr;
  sp_polling_until_monotonic : option float64;
  sp_in_flight_requests : option (dict pystr InFlightEntry)
}.

Definition with_last_ping (v : Z) (p : ServerPayload) : ServerPayload :=
  MkServer (sp_public_key p) v (sp_last_ping_duration p) (sp_api_v1_registered p)
    (sp_capabilities p) (sp_control_credential_digest p) (sp_polling_until_monotonic p)
    (sp_in_flight_requests p).
Definition with_last_ping_duration (v : Z) (p : ServerPayload) : ServerPayload :=
  MkServer (sp_public_key p) (sp_last_ping p) v (sp_api_v1_registered p)
    (sp_capabilities p) (sp_control_credential_digest p) (sp_polling_until_monotonic p)
    (sp_in_flight_requests p).
Definition with_marker (p : ServerPayload) : ServerPayload :=
  MkServer (sp_public_key p) (sp_last_ping p) (sp_last_ping_duration p) true
    (sp_capabilities p) (sp_control_credential_digest p) (sp_polling_until_monotonic p)
    (sp_in_flight_requests p).
Definition with_capabilities (v : ApiCapabilities) (p : ServerPayload) : ServerPayload :=
  MkServer (sp_public_key p) (sp_last_ping p) (sp_last_ping_duration p)
    (sp_api_v1_registered p) (Some v) (sp_control_credential_digest p)
    (sp_polling_until_monotonic p) (sp_in_flight_requests p).
Definition with_public_key (v : pystr) (p : ServerPayload) : ServerPayload :=
  MkServer v (sp_last_ping p) (sp_last_ping_duration p) (sp_api_v1_registered p)
    (sp_capabilities p) (sp_control_credential_digest p) (sp_polling_until_monotonic p)
    (sp_in_flight_requests p).
Definition with_credential_digest (v : pystr) (p : ServerPayload) : ServerPayload :=
  MkServer (sp_public_key p) (sp_last_ping p) (sp_last_ping_duration p)
    (sp_api_v1_registered p) (sp_capabilities p) (Some v) (sp_polling_until_monotonic p)
    (sp_in_flight_requests p).
Definition with_polling_until (v : option float64) (p : ServerPayload) : ServerPayload :=
  MkServer (sp_public_key p) (sp_last_ping p) (sp_last_ping_duration p)
    (sp_api_v1_registered p) (sp_capabilities p) (sp_control_credential_digest p) v
    (sp_in_flight_requests p).
Definition with_in_flight (v : option (dict pystr InFlightEntry)) (p : ServerPayload)
  : ServerPayload :=
  MkServer (sp_public_key p) (sp_last_ping p) (sp_last_ping_duration p)
    (sp_api_v1_registered p) (sp_capabilities p) (sp_control_credential_digest p)
    (sp_polling_until_monotonic p) v.

(** ** Lifecycle records *)

Record PendingEntry : Type := MkPendingEntry {
  pe_queued_at : float64;
  pe_request_deadline_monotonic : option float64;
  pe_cancel_token : option pystr
}.

Record TerminalEntry : Type := MkTerminalEntry {
  te_status : pystr;
  te_reason : pystr;
  te_expires_at : float64
}.

Record ControlTombstone : Type := MkTombstone {
  tb_server_public_key : pystr;
  tb_request_id : pystr;
  tb_client_public_key : json;
  tb_status : pystr;
  tb_reason : pystr;
  tb_deadline_monotonic : option float64;
  tb_control_credential_digest : option pystr;
  tb_expires_at_monotonic : float64
}.

(** One stored envelope, or the list that a second one turns it into *)
Inductive QueuedResponses : Type :=
| OneResponse (envelope : jdict)
| ManyResponses (envelopes : list jdict).

Record StreamSession : Type := MkSession {
  ss_session_id : pystr;
  ss_server_public_key : pystr;
  ss_client_public_key : pystr;
  ss_chunks : list json;
  ss_status : pystr;
  ss_created_at : float64;
  ss_updated_at : float64
}.

(** ** The state *)

Record RelayState : Type := MkRelayState {
  known_servers : dict pystr ServerPayload;
  server_round_robin_next_index : Z;
  filtered_round_robin_next_positions : dict (list pystr) Z;
  client_inference_requests : dict pystr (list jdict);
  client_responses : dict pystr QueuedResponses;
  client_progress : dict (pystr * pystr) jdict;
  client_pending_request_ids : dict pystr (dict pystr PendingEntry);
  client_pending_request_deadlines : dict pystr (dict pystr float64);
  client_terminal_request_ids : dict pystr (dict pystr TerminalEntry);
  client_terminal_outcomes : dict pystr (dict pystr float64);
  api_v1_control_tombstones : dict pystr ControlTombstone;
  api_v1_recently_unregistered_servers : dict pystr float64;
  streaming_sessions : dict pystr StreamSession;
  streaming_sessions_by_client : dict pystr pystr;
  request_outcomes : list pystr;
  ticks : nat
}.

(** The module's globals as it is loaded *)
Definition initial_relay : RelayState :=
  MkRelayState [] 0 [] [] [] [] [] [] [] [] [] [] [] [] [] 0.

Definition with_known_servers (v : dict pystr ServerPayload) (s : RelayState) : RelayState :=
  MkRelayState v (server_round_robin_next_index s) (filtered_round_robin_next_positions s)
    (client_inference_requests s) (client_responses s) (client_progress s)
    (client_pending_request_ids s) (client_pending_request_deadlines s)
    (client_terminal_request_ids s) (client_terminal_outcomes s) (api_v1_control_tombstones
    s) (api_v1_recently_unregistered_servers s) (streaming_sessions s)
    (streaming_sessions_by_client s) (request_outcomes s) (ticks s).
Definition with_server_round_robin_next_index (v : Z) (s : RelayState) : RelayState :=
  MkRelayState (known_servers s) v (filtered_round_robin_next_positions s)
    (client_inference_requests s) (client_responses s) (client_progress s)
    (client_pending_request_ids s) (client_pending_request_deadlines s)
    (client_terminal_request_ids s) (client_terminal_outcomes s) (api_v1_control_tombstones
    s) (api_v1_recently_unregistered_servers s) (streaming_sessions s)
    (streaming_sessions_by_client s) (request_outcomes s) (ticks s).
Definition with_filtered_round_robin_next_positions (v : dict (list pystr) Z) (s : RelayState) : RelayState :=
  MkRelayState (known_servers s) (server_round_robin_next_index s) v
    (client_inference_requests s) (client_responses s) (client_progress s)
    (client_pending_request_ids s) (client_pending_request_deadlines s)
    (client_terminal_request_ids s) (client_terminal_outcomes s) (api_v1_control_tombstones
    s) (api_v1_recently_unregistered_servers s) (streaming_sessions s)
    (streaming_sessions_by_client s) (request_outcomes s) (ticks s).
Definition with_client_inference_requests (v : dict pystr (list jdict)) (s : RelayState) : RelayState :=
  MkRelayState (known_servers s) (server_round_robin_next_index s)
    (filtered_round_robin_next_positions s) v (client_responses s) (client_progress s)
    (client_pending_request_ids s) (client_pending_request_deadlines s)
    (client_terminal_request_ids s) (client_terminal_outcomes s) (api_v1_control_tombstones
    s) (api_v1_recently_unregistered_servers s) (streaming_sessions s)
    (streaming_sessions_by_client s) (request_outcomes s) (ticks s).
Definition with_client_responses (v : dict pystr QueuedResponses) (s : RelayState) : RelayState :=
  MkRelayState (known_servers s) (server_round_robin_next_index s)
    (filtered_round_robin_next_positions s) (client_inference_requests s) v (client_progress
    s) (client_pending_request_ids s) (client_pending_request_deadlines s)
    (client_terminal_request_ids s) (client_terminal_outcomes s) (api_v1_control_tombstones
    s) (api_v1_recently_unregistered_servers s) (streaming_sessions s)
    (streaming_sessions_by_client s) (request_outcomes s) (ticks s).
Definition with_client_progress (v : dict (pystr * pystr) jdict) (s : RelayState) : RelayState :=
  MkRelayState (known_servers s) (server_round_robin_next_index s)
    (filtered_round_robin_next_positions s) (client_inference_requests s) (client_responses
    s) v (client_pending_request_ids s) (client_pending_request_deadlines s)
    (client_terminal_request_ids s) (client_terminal_outcomes s) (api_v1_control_tombstones
    s) (api_v1_recently_unregistered_servers s) (streaming_sessions s)
    (streaming_sessions_by_client s) (request_outcomes s) (ticks s).
Definition with_client_pending_request_ids (v : dict pystr (dict pystr PendingEntry)) (s : RelayState) : RelayState :=
  MkRelayState (known_servers s) (server_round_robin_next_index s)
    (filtered_round_robin_next_positions s) (client_inference_requests s) (client_responses
    s) (client_progress s) v (client_pending_request_deadlines s)
    (client_terminal_request_ids s) (client_terminal_outcomes s) (api_v1_control_tombstones
    s) (api_v1_recently_unregistered_servers s) (streaming_sessions s)
    (streaming_sessions_by_client s) (request_outcomes s) (ticks s).
Definition with_client_pending_request_deadlines (v : dict pystr (dict pystr float64)) (s : RelayState) : RelayState :=
  MkRelayState (known_servers s) (server_round_robin_next_index s)
    (filtered_round_robin_next_positions s) (client_inference_requests s) (client_responses
    s) (client_progress s) (client_pending_request_ids s) v (client_terminal_request_ids s)
    (client_terminal_outcomes s) (api_v1_control_tombstones s)
    (api_v1_recently_unregistered_servers s) (streaming_sessions s)
    (streaming_sessions_by_client s) (request_outcomes s) (ticks s).
Definition with_client_terminal_request_ids (v : dict pystr (dict pystr TerminalEntry)) (s : RelayState) : RelayState :=
  MkRelayState (known_servers s) (server_round_robin_next_index s)
    (filtered_round_robin_next_positions s) (client_inference_requests s) (client_responses
    s) (client_progress s) (client_pending_request_ids s) (client_pending_request_deadlines
    s) v (client_terminal_outcomes s) (api_v1_control_tombstones s)
    (api_v1_recently_unregistered_servers s) (streaming_sessions s)
    (streaming_sessions_by_client s) (request_outcomes s) (ticks s).
Definition with_client_terminal_outcomes (v : dict pystr (dict pystr float64)) (s : RelayState) : RelayState :=
  MkRelayState (known_servers s) (server_round_robin_next_index s)
    (filtered_round_robin_next_positions s) (client_inference_requests s) (client_responses
    s) (client_progress s) (client_pending_request_ids s) (client_pending_request_deadlines
    s) (client_terminal_request_ids s) v (api_v1_control_tombstones s)
    (api_v1_recently_unregistered_servers s) (streaming_sessions s)
    (streaming_sessions_by_client s) (request_outcomes s) (ticks s).
Definition with_api_v1_control_tombstones (v : dict pystr ControlTombstone) (s : RelayState) : RelayState :=
  MkRelayState (known_servers s) (server_round_robin_next_index s)
    (filtered_round_robin_next_positions s) (client_inference_requests s) (client_responses
    s) (client_progress s) (client_pending_request_ids s) (client_pending_request_deadlines
    s) (client_terminal_request_ids s) (client_terminal_outcomes s) v
    (api_v1_recently_unregistered_servers s) (streaming_sessions s)
    (streaming_sessions_by_client s) (request_outcomes s) (ticks s).
Definition with_api_v1_recently_unregistered_servers (v : dict pystr float64) (s : RelayState) : RelayState :=
  MkRelayState (known_servers s) (server_round_robin_next_index s)
    (filtered_round_robin_next_positions s) (client_inference_requests s) (client_responses
    s) (client_progress s) (client_pending_request_ids s) (client_pending_request_deadlines
    s) (client_terminal_request_ids s) (client_terminal_outcomes s)
    (api_v1_control_tombstones s) v (streaming_sessions s) (streaming_sessions_by_client s)
    (request_outcomes s) (ticks s).
Definition with_streaming_sessions (v : dict pystr StreamSession) (s : RelayState) : RelayState :=
  MkRelayState (known_servers s) (server_round_robin_next_index s)
    (filtered_round_robin_next_positions s) (client_inference_requests s) (client_responses
    s) (client_progress s) (client_pending_request_ids s) (client_pending_request_deadlines
    s) (client_terminal_request_ids s) (client_terminal_outcomes s)
    (api_v1_control_tombstones s) (api_v1_recently_unregistered_servers s) v
    (streaming_sessions_by_client s) (request_outcomes s) (ticks s).
Definition with_streaming_sessions_by_client (v : dict pystr pystr) (s : RelayState) : RelayState :=
  MkRelayState (known_servers s) (server_round_robin_next_index s)
    (filtered_round_robin_next_positions s) (client_inference_requests s) (client_responses
    s) (client_progress s) (client_pending_request_ids s) (client_pending_request_deadlines
    s) (client_terminal_request_ids s) (client_terminal_outcomes s)
    (api_v1_control_tombstones s) (api_v1_recently_unregistered_servers s)
    (streaming_sessions s) v (request_outcomes s) (ticks s).
Definition with_request_outcomes (v : list pystr) (s : RelayState) : RelayState :=
  MkRelayState (known_servers s) (server_round_robin_next_index s)
    (filtered_round_robin_next_positions s) (client_inference_requests s) (client_responses
    s) (client_progress s) (client_pending_request_ids s) (client_pending_request_deadlines
    s) (client_terminal_request_ids s) (client_terminal_outcomes s)
    (api_v1_control_tombstones s) (api_v1_recently_unregistered_servers s)
    (streaming_sessions s) (streaming_sessions_by_client s) v (ticks s).
Definition with_ticks (v : nat) (s : RelayState) : RelayState :=
  MkRelayState (known_servers s) (server_round_robin_next_index s)
    (filtered_round_robin_next_positions s) (client_inference_requests s) (client_responses
    s) (client_progress s) (client_pending_request_ids s) (client_pending_request_deadlines
    s) (client_terminal_request_ids s) (client_terminal_outcomes s)
    (api_v1_control_tombstones s) (api_v1_recently_unregistered_servers s)
    (streaming_sessions s) (streaming_sessions_by_client s) (request_outcomes s) v.

(** A handler computes over the globals and may let an exception out. *)
Notation RM := (SM RelayState relay_error).

(** [jsonify(body), status] *)
Record reply : Type := Reply { reply_body : json; reply_status : Z }.

Section readings.
Context `{!Clock}.

Definition reading {A} (f : nat -> A) : RM A := fun s =>
  (with_ticks (S (ticks s)) s, inr (f (ticks s))).

(** [time.monotonic()] *)
Definition monotonic : RM float64 := reading monotonic_at.
(** [time.time()] *)
Definition wall_time : RM float64 := reading wall_at.
(** [datetime.now()] *)
Definition datetime_now : RM Z := reading today_at.
(** [secrets.token_urlsafe(n)] *)
Definition token_urlsafe : RM pystr := reading token_at.
(** The index [secrets.choice(l)] picks, before it is reduced to the length *)
Definition random_index : RM nat := reading choice_at.

End readings.

(** ** Names *)

(** [not value] for an optional text *)
Definition no_text (v : pystr) : bool := py_empty v.

(** A name taken from a request: absent, or text. *)
Definition name_of (v : json) : relay_error + option pystr :=
  if negb (truthy v) then inr None
  else match v with JStr s => inr (Some s) | _ => inl NonTextName end.

(** The pair of names a lifecycle is filed under, when neither is missing *)
Definition lifecycle_names (client_public_key request_id : json)
  : relay_error + option (pystr * pystr) :=
  if negb (truthy client_public_key) || negb (truthy request_id) then inr None
  else match client_public_key, request_id with
       | JStr c, JStr r => inr (Some (c, r))
       | _, _ => inl NonTextName
       end.

(** A value used as a dictionary key as it comes: [None] is never a key here. *)
Definition dict_key (v : json) : relay_error + option pystr :=
  match v with
  | JStr s => inr (Some s)
  | JNull => inr None
  | _ => inl NonTextName
  end.

(** ** Handlers

    A handler returns from the middle with [raise (Returned reply)]; [call] runs a
    helper in it, and [respond] gives the reply of the whole. *)
Inductive relay_exit : Type :=
| Failed (e : relay_error)
| Returned (r : reply).

Notation HM := (SM RelayState relay_exit).

Definition call {A} (m : RM A) : HM A := fun s =>
  match m s with
  | (s', inr a) => (s', inr a)
  | (s', inl e) => (s', inl (Failed e))
  end.

Definition call_val {A} (r : relay_error + A) : HM A := call (lift_val r).

(** [if cond: return reply] *)
Definition return_if (cond : bool) (r : reply) : HM unit := raise_if cond (Returned r).

(** The value, or [return reply] without one *)
Definition or_return {A} (o : option A) (r : reply) : HM A := from_option o (Returned r).

Definition respond (h : HM reply) : RM reply := fun s =>
  match h s with
  | (s', inr r) => (s', inr r)
  | (s', inl (Returned r)) => (s', inr r)
  | (s', inl (Failed e)) => (s', inl e)
  end.

(** ** JSON helpers *)

(** [isinstance(v, (int, float))] and [float(v)] *)
Definition json_number (v : json) : option float64 :=
  match v with
  | JBool b => Some (float_near (if b then 1 else 0))
  | JInt z => Some (float_near z)
  | JFloat f => Some f
  | _ => None
  end.

Definition json_text_or_none (v : option pystr) : json :=
  match v with Some s => JStr s | None => JNull end.

(** [key in data]: substring of a text, element of a list, key of a dictionary. *)
Definition json_contains (data : json) (key : pystr) : relay_error + bool :=
  match data with
  | JDict d => inr (dmem d key)
  | JList l => inr (existsb (fun v => jeq_str v key) l)
  | JStr s => inr (py_contains key s)
  | _ => inl (RelayTypeError "argument is not iterable")
  end.

(** [data[key]] for a key that was found *)
Definition json_item (data : json) (key : pystr) : relay_error + json :=
  match data with
  | JDict d => match dget d key with Some v => inr v | None => inl (RelayKeyError key) end
  | _ => inl (RelayTypeError "indices must be integers")
  end.

(** [data.get(key)] *)
Definition json_get (data : json) (key : pystr) : relay_error + json :=
  match data with JDict d => inr (jget d key) | _ => inl RelayAttributeError end.

Definition error_body (message : pystr) (code : json) : json :=
  JDict [("error", JDict [("message", JStr message); ("code", code)])]%pystr.

(** [jsonify({'error': {'message': ..., 'code': status}}), status] *)
Definition error_reply (message : pystr) (status : Z) : reply :=
  Reply (error_body message (JInt status)) status.

(** [d.update(extra)] *)
Definition dict_update (d extra : jdict) : jdict :=
  fold_left (fun d kv => dset d kv.1 kv.2) extra d.

(** ** Lemmas *)

Lemma lifecycle_names_some c r c' r' :
  lifecycle_names c r = inr (Some (c', r')) ->
  c = JStr c' /\ r = JStr r' /\ py_empty c' = false /\ py_empty r' = false.
Proof.
  unfold lifecycle_names. destruct (truthy c) eqn:Ec, (truthy r) eqn:Er; simpl; try done.
  destruct c; try done. destruct r; try done. simpl in *.
  intros Heq. apply (inj inr) in Heq. simplify_eq. by rewrite !negb_true_iff in *.
Qed.

Lemma lifecycle_names_text c r :
  py_empty c = false -> py_empty r = false ->
  lifecycle_names (JStr c) (JStr r) = inr (Some (c, r)).
Proof. intros Hc Hr. unfold lifecycle_names. simpl. by rewrite Hc, Hr. Qed.

Lemma reading_run `{!Clock} {A} (f : nat -> A) s :
  reading f s = (with_ticks (S (ticks s)) s, inr (f (ticks s))).
Proof. done. Qed.

Lemma name_of_some v c : name_of v = inr (Some c) -> v = JStr c /\ py_empty c = false.
Proof.
  unfold name_of. destruct (truthy v) eqn:Ev; simpl; [|done]. destruct v; try done.
  intros Hc. apply (inj inr) in Hc. simplify_eq. simpl in Ev. by rewrite negb_true_iff in Ev.
Qed.

Lemma call_val_inr {A} (r : relay_error + A) s s' a :
  call_val r s = (s', inr a) -> s' = s /\ r = inr a.
Proof. unfold call_val, call, lift_val. destruct r; [done|]. by intros [= -> ->]. Qed.
