(* ===== verification/RelayConfig.v ===== *)
(** * relay.py: settings, capabilities and scheduler inputs

    The bounded settings the relay reads from its environment, the normalisation of
    a node's capability payload, credentials, and the load figures of a node. *)

From Stdlib Require Import Floats.SpecFloat.
From S2P Require Import Prelude PyFloat PyStr PyDict PyText Json Sha256 RelayTypes.
#[local] Open Scope Z_scope.

(** ** Constants *)

Definition CONTEXT_TIER_ORDER : dict pystr Z := [("8k-fast", 8192); ("64k-full", 65536)]%pystr.
Definition DEFAULT_CONTEXT_TIER : pystr := "8k-fast".
Definition MAX_API_V1_MODEL_IDS_PER_NODE : Z := 64.
Definition DEFAULT_MODEL_IDS : list pystr := ["qwen3-8b-instruct"]%pystr.
Definition DEFAULT_CAPABILITY_MODEL_IDS : list pystr := [].
Definition ALLOWED_BACKEND_CLASSES : list pystr :=
  ["cpu"; "cuda"; "metal"; "vulkan"; "gpu"; "unknown"]%pystr.
Definition DEFAULT_INFERENCE_TIMEOUT_SECONDS : float64 := float_near 480.
Definition HARD_MIN_API_V1_REQUEST_DEADLINE_SECONDS : float64 := f1.
Definition HARD_MAX_API_V1_REQUEST_DEADLINE_SECONDS : float64 := f3600.
Definition HARD_MAX_API_V1_CONTROL_TOMBSTONE_TTL_SECONDS : float64 := f300.
Definition API_V1_CONTROL_NEXT_POLL_MAX_SECONDS : float64 := float_near 10.
Definition _API_V1_UNREGISTER_TOMBSTONE_TTL_SECONDS : float64 := f300.

(** ** Settings *)
Section settings.
Context `{!PyNumbers, !PyUnicode}.
Variable environ : pystr -> option pystr.

(** [int(raw)] of a variable, its default when it is absent or no number, at
    least one *)
Definition positive_int_env (name : pystr) (dflt : Z) : Z :=
  match environ name with
  | None => Z.max dflt 1
  | Some raw => match parse_int raw with
                | None => dflt
                | Some value => Z.max value 1
                end
  end.

Definition _server_stale_seconds : Z :=
  positive_int_env "TOKEN_PLACE_RELAY_SERVER_TTL_SECONDS" 30.

Definition _api_v1_lease_seconds : Z :=
  positive_int_env "TOKEN_PLACE_API_V1_RELAY_SERVER_LEASE_SECONDS" 30.

Definition _api_v1_max_queue_depth_per_node : Z :=
  positive_int_env "TOKEN_PLACE_API_V1_MAX_QUEUE_DEPTH_PER_NODE" 1024.

Definition _api_v1_poll_wait_seconds : float64 :=
  match environ "TOKEN_PLACE_API_V1_RELAY_POLL_WAIT_SECONDS" with
  | None => float_near 10
  | Some raw => match parse_float raw with
                | None => float_near 10
                | Some wait_seconds => if flt wait_seconds f0 then f0 else wait_seconds
                end
  end.

Definition _api_v1_in_flight_ttl_seconds : float64 :=
  let lease := fmax (float_near _api_v1_lease_seconds) f1 in
  match environ "TOKEN_PLACE_API_V1_IN_FLIGHT_TTL_SECONDS" with
  | None => lease
  | Some raw => match parse_float raw with
                | None => lease
                | Some value => fmax value f1
                end
  end.

Definition _bounded_float_env (name : pystr) (dflt floor : float64) : float64 :=
  match environ name with
  | None => dflt
  | Some raw => match parse_float raw with
                | None => dflt
                | Some value => if is_finite value then fmax value floor else dflt
                end
  end.

Definition _api_v1_request_deadline_seconds : float64 :=
  let min_seconds := _bounded_float_env "TOKEN_PLACE_API_V1_REQUEST_DEADLINE_MIN_SECONDS"
                       f1 f0_001 in
  let max_seconds := _bounded_float_env "TOKEN_PLACE_API_V1_REQUEST_DEADLINE_MAX_SECONDS"
                       f3600 min_seconds in
  let min_seconds := fmin (fmax min_seconds HARD_MIN_API_V1_REQUEST_DEADLINE_SECONDS)
                       HARD_MAX_API_V1_REQUEST_DEADLINE_SECONDS in
  let max_seconds := fmin (fmax max_seconds min_seconds)
                       HARD_MAX_API_V1_REQUEST_DEADLINE_SECONDS in
  let configured := _bounded_float_env "TOKEN_PLACE_API_V1_REQUEST_DEADLINE_SECONDS"
                      DEFAULT_INFERENCE_TIMEOUT_SECONDS min_seconds in
  fmin (fmax configured min_seconds) max_seconds.

Definition _api_v1_control_tombstone_ttl_seconds : float64 :=
  fmin (_bounded_float_env "TOKEN_PLACE_API_V1_CONTROL_TOMBSTONE_TTL_SECONDS"
          (float_near 60) f1)
    HARD_MAX_API_V1_CONTROL_TOMBSTONE_TTL_SECONDS.

Definition _bounded_control_next_poll_seconds (hint : option float64) : float64 :=
  let base := fmin _api_v1_poll_wait_seconds API_V1_CONTROL_NEXT_POLL_MAX_SECONDS in
  let base := match hint with Some h => fmin base h | None => base end in
  fmax base f1.

Definition _legacy_routes_enabled : bool :=
  pystr_in (py_lower (py_strip (default "0"%pystr
              (environ "TOKENPLACE_ENABLE_LEGACY_RELAY_ROUTES"))))
    ["1"; "true"; "yes"; "on"]%pystr.

End settings.

(** [isinstance(value, (int, float))] and finite *)
Definition _valid_request_deadline_monotonic (value : json) : option float64 :=
  match json_number value with
  | Some numeric => if is_finite numeric then Some numeric else None
  | None => None
  end.

(** The metadata a reply carries for a deadline; empty without one. *)
Definition deadline_metadata (deadline : option float64) (now : float64) : jdict :=
  match deadline with
  | Some d =>
      if is_finite d then
        let remaining := fmax (fsub d now) f0 in
        [("request_deadline_remaining_seconds", JFloat remaining);
         ("request_ttl_seconds", JFloat remaining)]%pystr
      else []
  | None => []
  end.

(** [_api_v1_deadline_metadata(deadline)], which reads the clock for a valid one *)
Definition _api_v1_deadline_metadata `{!Clock} (deadline : option float64) : RM jdict :=
  match deadline with
  | Some d => if is_finite d then
                let* now := monotonic in ret (deadline_metadata deadline now)
              else ret []
  | None => ret []
  end.

(** ** Credentials *)
Section credentials.
Context `{!Clock, !Crypto}.

(** A credential that is not UTF-8 encodable cannot be hashed. *)
Definition _api_v1_control_credential_digest (credential : pystr) : relay_error + pystr :=
  match utf8_encode credential with
  | Some bytes => inr (sha256_hexdigest bytes)
  | None => inl RelayUnicodeError
  end.

(** The credential handed to a newly registered owner; re-registering discloses
    nothing.  The payload's digest is the first component. *)
Definition _store_api_v1_control_credential (payload : ServerPayload)
  : RM (ServerPayload * pystr) :=
  match sp_control_credential_digest payload with
  | Some d =>
      if py_empty d then
        let* credential := token_urlsafe in
        let* digest := lift_val (_api_v1_control_credential_digest credential) in
        ret (with_credential_digest digest payload, credential)
      else ret (payload, ""%pystr)
  | None =>
      let* credential := token_urlsafe in
      let* digest := lift_val (_api_v1_control_credential_digest credential) in
      ret (with_credential_digest digest payload, credential)
  end.

(** Hexadecimal digests are ASCII, so [secrets.compare_digest] compares them. *)
Definition digest_matches (expected : option pystr) (credential : json) : relay_error + bool :=
  match expected, credential with
  | Some expected_digest, JStr c =>
      if py_empty c || py_empty expected_digest then inr false
      else let? digest := _api_v1_control_credential_digest c in
           inr (bool_decide (digest = expected_digest))
  | _, _ => inr false
  end.

Definition _api_v1_server_control_credential_valid (payload : option ServerPayload)
  (credential : json) : relay_error + bool :=
  match payload with
  | Some p => digest_matches (sp_control_credential_digest p) credential
  | None => inr false
  end.

End credentials.

(** [secrets.compare_digest] on two texts raises unless both are ASCII. *)
Definition compare_digest_text (a b : pystr) : relay_error + bool :=
  if is_ascii a && is_ascii b then inr (bool_decide (a = b))
  else inl (RelayTypeError "comparing strings with non-ASCII characters is not supported").

(** ** Capabilities *)
Section capabilities.
Context `{!PyUnicode}.

Definition _api_v1_default_capabilities : ApiCapabilities :=
  MkApiCapabilities DEFAULT_CAPABILITY_MODEL_IDS DEFAULT_CONTEXT_TIER
    (dget_or CONTEXT_TIER_ORDER DEFAULT_CONTEXT_TIER 0) 1024 1024 1 "unknown".

(** Stripped, lower-cased and without repetitions; [None] for any bad item *)
Fixpoint normalise_ids (normalized : list pystr) (l : list json) : option (list pystr) :=
  match l with
  | [] => Some normalized
  | JStr item :: l' =>
      let model_id := py_lower (py_strip item) in
      if py_empty model_id || (128 <? py_len model_id) then None
      else normalise_ids (if pystr_in model_id normalized then normalized
                          else normalized ++ [model_id]) l'
  | _ => None
  end.

Definition _normalise_model_ids (value : json) : option (list pystr) :=
  match value with
  | JList l =>
      match l with
      | [] => None
      | _ => if MAX_API_V1_MODEL_IDS_PER_NODE <? zlen l then None else normalise_ids [] l
      end
  | _ => None
  end.

Definition _normalise_positive_int (value : json) (max_value : Z) : option Z :=
  match value with
  | JInt z => if (1 <=? z) && (z <=? max_value) then Some z else None
  | _ => None
  end.

(** [api_version in {"v1", 1}]: [True] and [1.0] equal [1]. *)
Definition is_api_v1 (v : json) : relay_error + bool :=
  match hashable v with
  | None => inl (RelayTypeError (unhashable_text v))
  | Some (SStr s) => inr (bool_decide (s = "v1"%pystr))
  | Some (SInt z) => inr (z =? 1)
  | Some (SBool b) => inr b
  | Some (SFloat f) => inr (feq f f1)
  | Some SNone => inr false
  end.

(** [inl] is the message of a refusal. *)
Definition _normalise_api_v1_capabilities (value : json)
  : relay_error + (pystr + ApiCapabilities) :=
  match value with
  | JNull => inr (inr _api_v1_default_capabilities)
  | JDict d =>
      let? v1 := is_api_v1 (default (JStr "v1") (dget d "api_version")) in
      if negb v1 then inr (inl "capabilities.api_version must be v1"%pystr) else
      match json_or (jget d "active_context_tier") (jget d "context_tier") with
      | JStr raw_tier =>
          let tier := py_strip raw_tier in
          match dget CONTEXT_TIER_ORDER tier with
          | None => inr (inl "capabilities.active_context_tier is unsupported"%pystr)
          | Some tier_tokens =>
              match _normalise_model_ids (json_or (jget d "supported_model_ids")
                                            (jget d "model_ids")) with
              | None => inr (inl "capabilities.supported_model_ids must be a non-empty string list"%pystr)
              | Some ids =>
                  match _normalise_positive_int (jget d "maximum_total_context_tokens") 1000000 with
                  | None => inr (inl "capabilities.maximum_total_context_tokens must be a positive integer"%pystr)
                  | Some max_context =>
                      if max_context <? tier_tokens then
                        inr (inl "capabilities.maximum_total_context_tokens is below the active tier"%pystr)
                      else
                        match _normalise_positive_int
                                (jget d "default_output_token_reservation") 1000000,
                              _normalise_positive_int (jget d "maximum_output_tokens") 1000000,
                              _normalise_positive_int (jget d "max_concurrency") 128 with
                        | Some default_reservation, Some maximum_output, Some max_concurrency =>
                            if maximum_output <? default_reservation then
                              inr (inl "default output reservation cannot exceed maximum output tokens"%pystr)
                            else
                              match default (JStr "unknown") (dget d "backend_class") with
                              | JStr raw_backend =>
                                  let backend := py_lower (py_strip raw_backend) in
                                  let backend := if py_empty backend then "unknown"%pystr
                                                 else backend in
                                  inr (inr (MkApiCapabilities ids tier max_context
                                              default_reservation maximum_output max_concurrency
                                              (if pystr_in backend ALLOWED_BACKEND_CLASSES
                                               then backend else "unknown"%pystr)))
                              | _ => inr (inl "capabilities.backend_class must be a string"%pystr)
                              end
                        | _, _, _ => inr (inl "capability token reservations and concurrency must be positive integers"%pystr)
                        end
                  end
              end
          end
      | _ => inr (inl "capabilities.active_context_tier must be a string"%pystr)
      end
  | _ => inr (inl "capabilities must be an object"%pystr)
  end.

End capabilities.

(** What a normalised payload satisfies *)
Record api_capabilities_ok (c : ApiCapabilities) : Prop := {
  aco_ids : Forall (fun m => py_empty m = false /\ py_len m <= 128) (cap_supported_model_ids c);
  aco_ids_nodup : NoDup (cap_supported_model_ids c);
  aco_tier : exists tokens, dget CONTEXT_TIER_ORDER (cap_active_context_tier c) = Some tokens /\
    tokens <= cap_maximum_total_context_tokens c <= 1000000;
  aco_output : 1 <= cap_default_output_token_reservation c <= cap_maximum_output_tokens c;
  aco_output_max : cap_maximum_output_tokens c <= 1000000;
  aco_concurrency : 1 <= cap_max_concurrency c <= 128;
  aco_backend : cap_backend_class c ∈ ALLOWED_BACKEND_CLASSES
}.

(** [dict] of a capability payload, in the order of its keys *)
Definition capabilities_json (c : ApiCapabilities) : json :=
  JDict [("api_version", JStr "v1");
         ("supported_model_ids", JList (map JStr (cap_supported_model_ids c)));
         ("active_context_tier", JStr (cap_active_context_tier c));
         ("maximum_total_context_tokens", JInt (cap_maximum_total_context_tokens c));
         ("default_output_token_reservation", JInt (cap_default_output_token_reservation c));
         ("maximum_output_tokens", JInt (cap_maximum_output_tokens c));
         ("max_concurrency", JInt (cap_max_concurrency c));
         ("backend_class", JStr (cap_backend_class c))]%pystr.

(** ** Load *)

(** Entries whose lease has not run out *)
Definition _api_v1_active_in_flight_count (payload : ServerPayload) (now : float64) : Z :=
  match sp_in_flight_requests payload with
  | Some entries => dcount (fun e => flt now (if_expires_at e)) entries
  | None => 0
  end.

(** [round(x, digits)]: the nearest decimal, ties to even, read back *)
Definition quotient_half_even (a b : Z) : Z :=
  let q := a / b in
  let r := a mod b in
  if 2 * r <? b then q else if b <? 2 * r then q + 1 else if Z.even q then q else q + 1.

Definition py_round (x : float64) (digits : Z) : float64 :=
  match x with
  | S754_finite s m e =>
      let scale := 10 ^ digits in
      let n := Zpos m * scale in
      let k := if 0 <=? e then n * 2 ^ e else quotient_half_even n (2 ^ (- e)) in
      fdiv (float_near (if s then - k else k)) (float_near scale)
  | _ => x
  end.

Record load_snapshot : Type := MkLoad {
  ls_queue_depth : Z;
  ls_in_flight_count : Z;
  ls_max_concurrency : Z;
  ls_load_score : float64
}.

Definition _api_v1_node_load_snapshot (s : RelayState) (server_public_key : pystr)
  (payload : ServerPayload) (now : float64) : load_snapshot :=
  let max_concurrency := match sp_capabilities payload with
                         | Some c => if cap_max_concurrency c <? 1 then 1
                                     else cap_max_concurrency c
                         | None => 1
                         end in
  let queue_depth := zlen (dget_or (client_inference_requests s) server_public_key []) in
  let in_flight_count := _api_v1_active_in_flight_count payload now in
  let raw_load := queue_depth + in_flight_count in
  MkLoad queue_depth in_flight_count max_concurrency
    (py_round (fdiv (float_near raw_load) (float_near max_concurrency)) 6).

Section staleness.
Context `{!Clock}.

(** [(datetime.now() - last_ping).total_seconds()], at least zero *)
Definition _server_ping_age_seconds (last_ping : Z) : RM float64 :=
  let* today := datetime_now in
  ret (fmax (fdiv (float_near (today - last_ping)) (float_near 1000000)) f0).

Definition stale_after_seconds (payload : ServerPayload) : float64 :=
  fmax (float_near (sp_last_ping_duration payload)) f1.

Definition is_polling (payload : ServerPayload) (now : float64) : bool :=
  match sp_polling_until_monotonic payload with
  | Some until => flt now until
  | None => false
  end.

Definition _api_v1_node_is_stale (payload : ServerPayload) (now : float64) : RM bool :=
  if is_polling payload now then ret false
  else
    let* age := _server_ping_age_seconds (sp_last_ping payload) in
    ret (flt (stale_after_seconds payload) age).

End staleness.

Definition _context_tier_can_satisfy (active_tier requested_tier : pystr) : relay_error + bool :=
  match dget CONTEXT_TIER_ORDER requested_tier with
  | Some requested => inr (requested <=? dget_or CONTEXT_TIER_ORDER active_tier 0)
  | None => inl (RelayKeyError requested_tier)
  end.

(** ** Lemmas on capabilities *)
Section capability_lemmas.
Context `{!PyUnicode}.

Lemma normalise_ids_sound acc l ids :
  normalise_ids acc l = Some ids -> NoDup acc ->
  Forall (fun m => py_empty m = false /\ py_len m <= 128) acc ->
  NoDup ids /\ Forall (fun m => py_empty m = false /\ py_len m <= 128) ids /\
  acc ⊆ ids.
Proof.
  revert acc. induction l as [|item l IH]; intros acc; simpl.
  - intros [= <-] ? ?. done.
  - destruct item as [| | | |s| |]; try done.
    set (m := py_lower (py_strip s)). destruct (py_empty m) eqn:Em; [done|].
    destruct (128 <? py_len m) eqn:El; [done|]. simpl. apply Z.ltb_ge in El.
    destruct (pystr_in m acc) eqn:Ein; [by apply IH|]. apply bool_decide_eq_false_1 in Ein.
    intros Hn Hnd Hall. destruct (IH _ Hn) as (H1 & H2 & H3).
    + apply NoDup_app. split; [done|]. split; [|apply NoDup_singleton].
      intros x Hx ->%list_elem_of_singleton. done.
    + apply Forall_app. split; [done|]. by constructor.
    + split; [done|]. split; [done|]. intros x Hx. apply H3, elem_of_app. by left.
Qed.

Lemma normalise_ids_nonempty acc l ids :
  normalise_ids acc l = Some ids -> l ≠ [] -> ids ≠ [].
Proof.
  assert (Hgen : forall l acc, normalise_ids acc l = Some ids -> acc ≠ [] -> ids ≠ []).
  { clear. induction l as [|item l IH]; intros acc; simpl; [by intros [= <-]|].
    destruct item as [| | | |s| |]; try done. destruct (_ || _); [done|].
    intros Hn Hacc. eapply IH; [exact Hn|]. destruct (pystr_in _ _); [done|]. by destruct acc. }
  destruct l as [|item l]; [done|]. simpl. destruct item as [| | | |s| |]; try done.
  destruct (_ || _); [done|]. intros Hn _. eapply Hgen; [exact Hn|].
  destruct (pystr_in _ acc) eqn:E; [|by destruct acc].
  apply bool_decide_eq_true_1 in E. intros ->. by apply not_elem_of_nil in E.
Qed.

Lemma normalise_model_ids_sound v ids :
  _normalise_model_ids v = Some ids ->
  ids ≠ [] /\ NoDup ids /\ Forall (fun m => py_empty m = false /\ py_len m <= 128) ids.
Proof.
  unfold _normalise_model_ids. destruct v as [| | | | |l|]; try done. destruct l as [|x l]; [done|].
  destruct (_ <? _); [done|]. intros Hn.
  split; [by eapply normalise_ids_nonempty|].
  destruct (normalise_ids_sound [] (x :: l) ids Hn) as (? & ? & _); [constructor|constructor|done].
Qed.

Lemma normalise_positive_int_sound v m z : _normalise_positive_int v m = Some z -> 1 <= z <= m.
Proof.
  unfold _normalise_positive_int. destruct v; try done. destruct (_ && _) eqn:E; [|done].
  intros [= <-]. lia.
Qed.

Lemma default_capabilities_ok : api_capabilities_ok _api_v1_default_capabilities.
Proof.
  split; simpl; try lia.
  - constructor.
  - constructor.
  - exists 8192. split; [done|]. vm_compute. split; discriminate.
  - apply (bool_decide_unpack _). vm_compute. exact I.
Qed.

Lemma capabilities_sound value caps :
  _normalise_api_v1_capabilities value = inr (inr caps) -> api_capabilities_ok caps.
Proof.
  unfold _normalise_api_v1_capabilities. destruct value as [| | | | | |d]; try done.
  { intros [= <-]. apply default_capabilities_ok. }
  intros (v1 & _ & Hc)%ebind_inr. destruct (negb v1); [done|].
  destruct (json_or _ _) as [| | | |raw| |]; try done.
  destruct (dget CONTEXT_TIER_ORDER (py_strip raw)) as [tokens|] eqn:Et; [|done].
  destruct (_normalise_model_ids _) as [ids|] eqn:Eids; [|done].
  destruct (_normalise_positive_int (jget d "maximum_total_context_tokens") _) as [ctx|] eqn:E1; [|done].
  destruct (ctx <? tokens) eqn:E2; [done|].
  destruct (_normalise_positive_int (jget d "default_output_token_reservation") _) as [res|] eqn:E3; [|done].
  destruct (_normalise_positive_int (jget d "maximum_output_tokens") _) as [out|] eqn:E4; [|done].
  destruct (_normalise_positive_int (jget d "max_concurrency") _) as [conc|] eqn:E5; [|done].
  destruct (out <? res) eqn:E6; [done|]. destruct (default _ _) as [| | | |backend| |]; try done.
  apply normalise_model_ids_sound in Eids as (Hne & Hnd & Hall).
  apply normalise_positive_int_sound in E1, E3, E4, E5.
  apply (inj inr), (inj inr) in Hc. subst caps. apply Z.ltb_ge in E2, E6.
  split; simpl; try done; try lia.
  - exists tokens. split; [done|lia].
  - destruct (pystr_in _ ALLOWED_BACKEND_CLASSES) eqn:Eb; [by apply bool_decide_eq_true_1 in Eb|].
    apply (bool_decide_unpack _). vm_compute. exact I.
Qed.

End capability_lemmas.
