(* ===== verification/RelayLifecycle.v ===== *)
(** * relay.py: the lifecycle of a request

    The tables a request moves through and the functions that move it: pending and
    deadline marks, the servers' queues, in-flight entries, stored responses,
    progress envelopes, terminal entries, once-only outcomes and the tombstones a
    compute node reads.  [_cancel_api_v1_request] is the transition they share. *)

From S2P Require Import Prelude PyFloat PyStr PyDict PyText Json Sha256 RelayTypes RelayConfig.
#[local] Open Scope Z_scope.

(** What the relay reads once, when the module is loaded, and its environment *)
Record RelaySettings : Type := MkRelaySettings {
  environ : pystr -> option pystr;
  TERMINAL_REQUEST_TTL_SECONDS : float64;
  PENDING_REQUEST_TTL_SECONDS : float64;
  SERVER_REGISTRATION_TOKENS : list pystr
}.

Definition OUTCOME_ENUM : list pystr :=
  ["completed"; "cancelled"; "expired"; "timed_out"; "rate_limited"; "dependency_failure";
   "failed"]%pystr.

Definition _ALLOWED_API_V1_TERMINAL_STATUSES : list pystr := ["cancelled"; "expired"]%pystr.

Definition _ALLOWED_API_V1_TERMINAL_REASONS : list pystr :=
  ["cancelled"; "client_timeout"; "expired"; "requester_cancelled"; "requester_gave_up";
   "provider_timeout"; "pending_request_ttl_exceeded"; "server_unregistered"]%pystr.

Definition _sanitize_terminal_status (value : json) : pystr :=
  match value with
  | JStr s => if pystr_in s _ALLOWED_API_V1_TERMINAL_STATUSES then s else "cancelled"
  | _ => "cancelled"
  end.

Definition _sanitize_terminal_reason (value : json) (status : pystr) : pystr :=
  match value with
  | JStr s => if pystr_in s _ALLOWED_API_V1_TERMINAL_REASONS then s else status
  | _ => status
  end.

Definition _terminal_outcome_from_status_reason (status reason : pystr) : pystr :=
  if bool_decide (reason = "provider_timeout"%pystr) then "timed_out"
  else if bool_decide (status = "expired"%pystr) then "expired"
  else if bool_decide (status = "cancelled"%pystr) then "cancelled"
  else "failed".

(** ** Nested tables: [table[client][request]] *)
Section nested.
Context {V : Type}.
Implicit Types (d : dict pystr (dict pystr V)).

Definition nget d (c r : pystr) : option V := dget (dget_or d c []) r.

(** [d.setdefault(c, {})[r] = v] *)
Definition nset d (c r : pystr) (v : V) : dict pystr (dict pystr V) :=
  dset d c (dset (dget_or d c []) r v).

(** [d[c].pop(r, None)], and an emptied table is popped too *)
Definition npop d (c r : pystr) : dict pystr (dict pystr V) :=
  match ddel (dget_or d c []) r with
  | [] => ddel d c
  | rest => dset d c rest
  end.

(** Drops the entries [expired] selects, then the empty tables. *)
Definition nprune (expired : V -> bool) d : dict pystr (dict pystr V) :=
  bfilter (fun kv => match kv.2 with [] => false | _ => true end)
    (map (fun kv => (kv.1, bfilter (fun rv => negb (expired rv.2)) kv.2)) d).

End nested.

Section lifecycle.
Context `{!PyNumbers, !PyUnicode, !Clock, !Crypto}.
Variable cfg : RelaySettings.

(** ** Once-only outcomes *)

Definition terminal_ttl : float64 := fmax (TERMINAL_REQUEST_TTL_SECONDS cfg) f1.

Definition _record_terminal_outcome (outcome : pystr) : RM unit :=
  modify (fun s => with_request_outcomes
    (request_outcomes s ++ [if pystr_in outcome OUTCOME_ENUM then outcome else "failed"%pystr]) s).

Definition _record_request_terminal_outcome_once (c r outcome : pystr) : RM bool :=
  if no_text c || no_text r then ret false
  else
    let* now := wall_time in
    let expires_at := fadd now terminal_ttl in
    let* s := get_state in
    match nget (client_terminal_outcomes s) c r with
    | Some _ => ret false
    | None =>
        let* _ := modify (fun s => with_client_terminal_outcomes
                    (nset (client_terminal_outcomes s) c r expires_at) s) in
        let* _ := _record_terminal_outcome outcome in
        ret true
    end.

Definition _has_request_terminal_outcome (c r : pystr) : RM bool :=
  if no_text c || no_text r then ret false
  else
    let* s := get_state in
    match nget (client_terminal_outcomes s) c r with
    | None => ret false
    | Some expires_at =>
        let* now := wall_time in
        if flt now expires_at then ret true
        else
          let* _ := modify (fun s => with_client_terminal_outcomes
                      (npop (client_terminal_outcomes s) c r) s) in
          ret false
    end.

(** ** Terminal entries *)

Definition _prune_terminal_requests (now : option float64) : RM unit :=
  let* now := match now with Some t => ret t | None => wall_time end in
  let* _ := modify (fun s => with_client_terminal_request_ids
              (nprune (fun t => fle (te_expires_at t) now) (client_terminal_request_ids s)) s) in
  modify (fun s => with_client_terminal_outcomes
    (nprune (fun expires_at => fle expires_at now) (client_terminal_outcomes s)) s).

Definition _get_terminal_request (c r : pystr) : RM (option TerminalEntry) :=
  if no_text c || no_text r then ret None
  else
    let* now := wall_time in
    let* s := get_state in
    match nget (client_terminal_request_ids s) c r with
    | None => ret None
    | Some terminal =>
        if fle (te_expires_at terminal) now then
          let* _ := modify (fun s => with_client_terminal_request_ids
                      (npop (client_terminal_request_ids s) c r) s) in
          ret None
        else ret (Some terminal)
    end.

Definition _mark_request_terminal (c r : pystr) (status reason : json) : RM bool :=
  if no_text c || no_text r then ret false
  else
    let status := _sanitize_terminal_status status in
    let reason := _sanitize_terminal_reason reason status in
    let* now := wall_time in
    let expires_at := fadd now terminal_ttl in
    let* prune_now := wall_time in
    let* _ := _prune_terminal_requests (Some prune_now) in
    let* s := get_state in
    match nget (client_terminal_request_ids s) c r with
    | Some _ => ret false
    | None =>
        let* _ := modify (fun s => with_client_terminal_request_ids
                    (nset (client_terminal_request_ids s) c r
                       (MkTerminalEntry status reason expires_at)) s) in
        _record_request_terminal_outcome_once c r
          (_terminal_outcome_from_status_reason status reason)
    end.

(** ** Tombstones for the compute node *)

(** [f"{server_public_key}\0{request_id}"] *)
Definition _control_tombstone_key (server_public_key request_id : pystr) : pystr :=
  server_public_key +++ PyStr [0%N] +++ request_id.

Definition _prune_api_v1_control_tombstones (now : option float64) : RM unit :=
  let* now := match now with Some t => ret t | None => monotonic end in
  modify (fun s => with_api_v1_control_tombstones
    (bfilter (fun kv => negb (fle (tb_expires_at_monotonic kv.2) now))
       (api_v1_control_tombstones s)) s).

Definition _add_api_v1_control_tombstone (server_public_key request_id : pystr)
  (client_public_key : json) (status reason : json) (deadline_monotonic : option float64)
  (owner_digest : option pystr) : RM unit :=
  if no_text server_public_key || no_text request_id then ret tt
  else
    let status := _sanitize_terminal_status status in
    let reason := _sanitize_terminal_reason reason status in
    let* now := monotonic in
    let* s := get_state in
    let owner_digest :=
      match owner_digest with
      | Some d => Some d
      | None => match dget (known_servers s) server_public_key with
                | Some payload => sp_control_credential_digest payload
                | None => None
                end
      end in
    let tombstone := MkTombstone server_public_key request_id client_public_key status reason
                       deadline_monotonic owner_digest
                       (fadd now (_api_v1_control_tombstone_ttl_seconds (environ cfg))) in
    let* _ := _prune_api_v1_control_tombstones (Some now) in
    modify (fun s => with_api_v1_control_tombstones
      (dset (api_v1_control_tombstones s)
         (_control_tombstone_key server_public_key request_id) tombstone) s).

(** ** Queues *)

(** The queued item is this client's request. *)
Definition item_matches (c r : pystr) (item : jdict) : bool :=
  jeq_str (jget item "client_public_key") c && jeq_str (jget item "request_id") r.

(** Every queue without the request; a queue it empties is dropped. *)
Definition without_request (c r : pystr) (queues : dict pystr (list jdict))
  : dict pystr (list jdict) :=
  concat (map (fun kv =>
    match bfilter (fun item => negb (item_matches c r item)) kv.2 with
    | [] => match kv.2 with [] => [kv] | _ => [] end
    | kept => [(kv.1, kept)]
    end) queues).

Definition queued_copies (c r : pystr) (queues : dict pystr (list jdict)) : Z :=
  fold_right (fun kv acc => bcount (item_matches c r) kv.2 + acc) 0 queues.

Definition _remove_request_from_server_queues (c r : pystr) : RM Z :=
  let* s := get_state in
  let queues := client_inference_requests s in
  let* _ := modify (with_client_inference_requests (without_request c r queues)) in
  ret (queued_copies c r queues).

(** ** Responses and progress *)

Definition response_for (r : pystr) (envelope : jdict) : bool :=
  jeq_str (jget envelope "request_id") r.

Definition _queue_client_response (c : pystr) (envelope : jdict) : RM unit :=
  modify (fun s => with_client_responses
    (dset (client_responses s) c
       match dget (client_responses s) c with
       | None => OneResponse envelope
       | Some (ManyResponses l) => ManyResponses (l ++ [envelope])
       | Some (OneResponse existing) => ManyResponses [existing; envelope]
       end) s).

(** [queued[0]] when one is left, the list when several are, no entry when none is *)
Definition store_responses (c : pystr) (l : list jdict) (d : dict pystr QueuedResponses)
  : dict pystr QueuedResponses :=
  match l with
  | [] => ddel d c
  | [e] => dset d c (OneResponse e)
  | _ => dset d c (ManyResponses l)
  end.

Definition _remove_client_responses_for_request (c r : pystr) : RM Z :=
  if no_text c || no_text r then ret 0
  else
    let* s := get_state in
    match dget (client_responses s) c with
    | None => ret 0
    | Some (ManyResponses l) =>
        let* _ := modify (fun s => with_client_responses
                    (store_responses c (bfilter (fun e => negb (response_for r e)) l)
                       (client_responses s)) s) in
        ret (bcount (response_for r) l)
    | Some (OneResponse e) =>
        if response_for r e then
          let* _ := modify (fun s => with_client_responses (ddel (client_responses s) c) s) in
          ret 1
        else ret 0
    end.

(** The stored envelopes of a client, oldest first *)
Definition stored_responses (s : RelayState) (c : pystr) : list jdict :=
  match dget (client_responses s) c with
  | None => []
  | Some (OneResponse e) => [e]
  | Some (ManyResponses l) => l
  end.

Definition _has_client_response_for_request (s : RelayState) (c r : pystr) : bool :=
  if no_text c || no_text r then false
  else existsb (response_for r) (stored_responses s c).

Definition _clear_client_progress (c r : pystr) : RM bool :=
  if no_text c || no_text r then ret false
  else
    let* s := get_state in
    let* _ := modify (fun s => with_client_progress (ddel (client_progress s) (c, r)) s) in
    ret (dmem (client_progress s) (c, r)).

Definition _pop_client_progress (c r : pystr) : RM (option jdict) :=
  if no_text c || no_text r then ret None
  else
    let* s := get_state in
    let* _ := modify (fun s => with_client_progress (ddel (client_progress s) (c, r)) s) in
    ret (dget (client_progress s) (c, r)).

(** ** Pending marks *)

Definition _mark_request_pending (c r : pystr) (cancel_token : json)
  (deadline_monotonic : option float64) : RM unit :=
  if no_text c || no_text r then ret tt
  else
    let* queued_at := wall_time in
    let deadline := match deadline_monotonic with
                    | Some d => if is_finite d then Some d else None
                    | None => None
                    end in
    let entry := MkPendingEntry queued_at deadline
                   (match cancel_token with
                    | JStr token => if py_empty token then None else Some token
                    | _ => None
                    end) in
    let* _ := modify (fun s => with_client_pending_request_ids
                (nset (client_pending_request_ids s) c r entry) s) in
    match deadline with
    | Some d => modify (fun s => with_client_pending_request_deadlines
                  (nset (client_pending_request_deadlines s) c r d) s)
    | None => ret tt
    end.

Definition _clear_pending_request (c r : pystr) : RM bool :=
  if no_text c || no_text r then ret false
  else
    let* s := get_state in
    match dget_or (client_pending_request_ids s) c [] with
    | [] => ret false
    | pending_ids =>
        let* _ := modify (fun s => with_client_pending_request_ids
                    (npop (client_pending_request_ids s) c r) s) in
        let* _ := modify (fun s => with_client_pending_request_deadlines
                    (match dget (client_pending_request_deadlines s) c with
                     | Some _ => npop (client_pending_request_deadlines s) c r
                     | None => client_pending_request_deadlines s
                     end) s) in
        ret (dmem pending_ids r)
    end.

(** Absolute deadline first, else the age of the mark *)
Definition _pending_request_entry_is_expired (entry : PendingEntry) (now : option float64)
  (deadline_monotonic : option float64) : RM bool :=
  let deadline := match pe_request_deadline_monotonic entry with
                  | Some d => Some d
                  | None => match deadline_monotonic with
                            | Some d => if is_finite d then Some d else None
                            | None => None
                            end
                  end in
  match deadline with
  | Some d => let* mono := monotonic in ret (fle d mono)
  | None =>
      if fle (PENDING_REQUEST_TTL_SECONDS cfg) f0 then ret false
      else
        let* now := match now with Some t => ret t | None => wall_time end in
        ret (flt (PENDING_REQUEST_TTL_SECONDS cfg) (fsub now (pe_queued_at entry)))
  end.

Definition _pending_request_deadline (s : RelayState) (c r : pystr) : option float64 :=
  nget (client_pending_request_deadlines s) c r.

(** ** Cancellation and expiry *)

(** Ends the request at every node that has it in flight, leaving the tombstone
    its owner reads unless a response had arrived. *)
Fixpoint cancel_in_flight (c r : pystr) (status reason : pystr) (completed_won : bool)
  (servers : list (pystr * ServerPayload)) : RM Z :=
  match servers with
  | [] => ret 0
  | (key, payload) :: rest =>
      match sp_in_flight_requests payload with
      | None => cancel_in_flight c r status reason completed_won rest
      | Some entries =>
          match dget entries r with
          | None => cancel_in_flight c r status reason completed_won rest
          | Some entry =>
              if jeq_str (if_client_public_key entry) c then
                let remaining := ddel entries r in
                let* _ := modify (fun s => with_known_servers
                            (dset (known_servers s) key
                               (with_in_flight
                                  (match remaining with [] => None | _ => Some remaining end)
                                  payload)) s) in
                let* _ :=
                  if completed_won then ret tt
                  else _add_api_v1_control_tombstone (sp_public_key payload) r (JStr c)
                         (JStr status) (JStr reason) (if_request_deadline_monotonic entry) None in
                let* n := cancel_in_flight c r status reason completed_won rest in
                ret (1 + n)
              else cancel_in_flight c r status reason completed_won rest
          end
      end
  end.

(** The body of [_cancel_api_v1_request] for two present names *)
Definition cancel_request (c r : pystr) (status reason : json) : RM Z :=
  let status := _sanitize_terminal_status status in
  let reason := _sanitize_terminal_reason reason status in
  let* _ := _clear_client_progress c r in
  let* s := get_state in
  let completed_won := _has_client_response_for_request s c r in
  let* removed := _remove_request_from_server_queues c r in
  let* pending_removed := _clear_pending_request c r in
  let* s := get_state in
  let* in_flight_removed := cancel_in_flight c r status reason completed_won (known_servers s) in
  let* s := get_state in
  let lifecycle_removed := negb (removed =? 0) || pending_removed
                           || negb (in_flight_removed =? 0) in
  let* _ :=
    if lifecycle_removed && negb completed_won
       && negb (_has_client_response_for_request s c r)
    then let* _ := _mark_request_terminal c r (JStr status) (JStr reason) in ret tt
    else ret tt in
  ret removed.

Definition _cancel_api_v1_request (client_public_key request_id : json) (status reason : json)
  : RM Z :=
  let* names := lift_val (lifecycle_names client_public_key request_id) in
  match names with
  | None => ret 0
  | Some (c, r) => cancel_request c r status reason
  end.

Definition _expire_pending_request_if_stale (c r : pystr) : RM bool :=
  if no_text c || no_text r then ret false
  else
    let* s := get_state in
    let* expired := match nget (client_pending_request_ids s) c r with
                    | None => ret false
                    | Some entry => _pending_request_entry_is_expired entry None None
                    end in
    let* stale :=
      if expired then ret true
      else
        match _pending_request_deadline s c r with
        | None => ret false
        | Some deadline => let* mono := monotonic in ret (negb (flt mono deadline))
        end in
    if stale then
      let* _ := cancel_request c r (JStr "expired") (JStr "pending_request_ttl_exceeded") in
      ret true
    else ret false.

Definition _is_request_pending (c r : pystr) : RM bool :=
  if no_text c || no_text r then ret false
  else
    let* s := get_state in
    match nget (client_pending_request_ids s) c r with
    | None => ret false
    | Some entry =>
        let deadline := _pending_request_deadline s c r in
        let* expired := _pending_request_entry_is_expired entry None None in
        let* stale :=
          if expired then ret true
          else
            match deadline with
            | None => ret false
            | Some d => let* mono := monotonic in ret (fle d mono)
            end in
        if stale then
          let* _ := _expire_pending_request_if_stale c r in
          ret false
        else ret true
    end.

(** The marks that have expired, in table order *)
Fixpoint expired_marks (s : RelayState) (now : float64) (c : pystr)
  (ids : list (pystr * PendingEntry)) : RM (list (pystr * pystr)) :=
  match ids with
  | [] => ret []
  | (r, entry) :: rest =>
      let* expired := _pending_request_entry_is_expired entry (Some now)
                        (_pending_request_deadline s c r) in
      let* others := expired_marks s now c rest in
      ret (if expired then (c, r) :: others else others)
  end.

Fixpoint expired_pending (s : RelayState) (now : float64)
  (clients : list (pystr * dict pystr PendingEntry)) : RM (list (pystr * pystr)) :=
  match clients with
  | [] => ret []
  | (c, ids) :: rest =>
      let* marks := expired_marks s now c ids in
      let* others := expired_pending s now rest in
      ret (marks ++ others)
  end.

Definition _expire_stale_pending_requests : RM unit :=
  let* now := wall_time in
  let* s := get_state in
  let* expired := expired_pending s now (client_pending_request_ids s) in
  for_each expired (fun '(c, r) =>
    let* s := get_state in
    if _has_client_response_for_request s c r then ret tt
    else
      let* _ := _cancel_api_v1_request (JStr c) (JStr r) (JStr "expired")
                  (JStr "pending_request_ttl_exceeded") in
      ret tt).

(** ** Cancellation proofs *)

Definition text_token (v : json) : option pystr :=
  match v with JStr t => if py_empty t then None else Some t | _ => None end.

Definition _get_pending_cancel_token (s : RelayState) (c r : pystr) : option pystr :=
  match nget (client_pending_request_ids s) c r with
  | Some entry => pe_cancel_token entry
  | None => None
  end.

(** The first node that has the client's request in flight *)
Definition in_flight_entry_of (c r : pystr) (payload : ServerPayload) : option InFlightEntry :=
  match sp_in_flight_requests payload with
  | None => None
  | Some entries =>
      match dget entries r with
      | Some entry => if jeq_str (if_client_public_key entry) c then Some entry else None
      | None => None
      end
  end.

Fixpoint first_some {A B} (f : A -> option B) (l : list A) : option B :=
  match l with
  | [] => None
  | x :: l' => match f x with Some y => Some y | None => first_some f l' end
  end.

Definition _cancel_token_for_queued_or_in_flight_request (s : RelayState) (c r : pystr)
  : option pystr :=
  match _get_pending_cancel_token s c r with
  | Some token => Some token
  | None =>
      match first_some (List.find (item_matches c r)) (dvalues (client_inference_requests s)) with
      | Some item => text_token (jget item "cancel_token")
      | None =>
          match first_some (in_flight_entry_of c r) (dvalues (known_servers s)) with
          | Some entry => text_token (if_cancel_token entry)
          | None => None
          end
      end
  end.

(** ** Handing out responses *)

(** Takes the first element a test accepts out of a list. *)
Fixpoint pop_first {A} (p : A -> bool) (l : list A) : option (A * list A) :=
  match l with
  | [] => None
  | x :: l' => if p x then Some (x, l')
               else match pop_first p l' with
                    | Some (y, rest) => Some (y, x :: rest)
                    | None => None
                    end
  end.

Definition clear_pending_of (c : pystr) (response : jdict) : RM unit :=
  let* names := lift_val (lifecycle_names (JStr c) (jget response "request_id")) in
  match names with
  | None => ret tt
  | Some (c, r) => let* _ := _clear_pending_request c r in ret tt
  end.

Definition _pop_client_response (c : pystr) (request_id : option pystr) : RM (option jdict) :=
  let* s := get_state in
  match dget (client_responses s) c with
  | None => ret None
  | Some (ManyResponses l) =>
      let* popped :=
        match request_id with
        | Some r => ret (pop_first (response_for r) l)
        | None => match l with
                  | [] => raise RelayIndexError
                  | e :: rest => ret (Some (e, rest))
                  end
        end in
      match popped with
      | None => ret None
      | Some (response, rest) =>
          let* _ := modify (fun s => with_client_responses
                      (store_responses c rest (client_responses s)) s) in
          let* _ := clear_pending_of c response in
          ret (Some response)
      end
  | Some (OneResponse e) =>
      if match request_id with Some r => negb (response_for r e) | None => false end
      then ret None
      else
        let* _ := modify (fun s => with_client_responses (ddel (client_responses s) c) s) in
        let* _ := clear_pending_of c e in
        ret (Some e)
  end.

End lifecycle.
