(* ===== verification/RelayRegistry.v ===== *)
(** * relay.py: compute nodes

    Registration order and the round-robin cursor, node removal with its work,
    eviction of stale nodes, and the best-fit selection of a node for a request. *)

From S2P Require Import Prelude PyFloat PyStr PyDict PyText Json Sha256 RelayTypes RelayConfig.
From S2P Require Import RelayLifecycle.
#[local] Open Scope Z_scope.

(** ** Round robin *)

(** The API v1 nodes in registration order *)
Definition _api_v1_round_robin_keys (s : RelayState) : list pystr :=
  dkeys (bfilter (fun kv => sp_api_v1_registered kv.2) (known_servers s)).

(** [l.index(x)] of an element that is there *)
Fixpoint list_index (x : pystr) (l : list pystr) : Z :=
  match l with
  | [] => 0
  | y :: l' => if bool_decide (x = y) then 0 else 1 + list_index x l'
  end.

(** The cursor after one of the nodes it ranges over has gone *)
Definition cursor_after_removal (keys : list pystr) (key : pystr) (cursor : Z) : Z :=
  let removed_position := list_index key keys in
  let current_position := cursor mod zlen keys in
  let remaining_count := zlen keys - 1 in
  if remaining_count <=? 0 then 0
  else if removed_position <? current_position then (current_position - 1) mod remaining_count
  else current_position mod remaining_count.

Definition _remove_known_server (key : pystr) : RM bool :=
  let* s := get_state in
  let keys := _api_v1_round_robin_keys s in
  if negb (dmem (known_servers s) key) then ret false
  else
    let* _ := modify (fun s => with_known_servers (ddel (known_servers s) key) s) in
    let* _ :=
      if pystr_in key keys then
        modify (fun s => with_server_round_robin_next_index
          (cursor_after_removal keys key (server_round_robin_next_index s)) s)
      else ret tt in
    ret true.

Section registry.
Context `{!PyNumbers, !PyUnicode, !Clock, !Crypto}.
Variable cfg : RelaySettings.

(** ** Removal *)

Definition _record_api_v1_server_unregistered (key : pystr) : RM unit :=
  if no_text key then ret tt
  else
    let* now := monotonic in
    modify (fun s => with_api_v1_recently_unregistered_servers
      (dset (api_v1_recently_unregistered_servers s) key now) s).

Definition _api_v1_server_was_recently_unregistered (key : pystr) : RM bool :=
  if no_text key then ret false
  else
    let* now := monotonic in
    let* _ := modify (fun s => with_api_v1_recently_unregistered_servers
                (bfilter (fun kv => negb (flt _API_V1_UNREGISTER_TOMBSTONE_TTL_SECONDS
                                            (fsub now kv.2)))
                   (api_v1_recently_unregistered_servers s)) s) in
    let* s := get_state in
    ret (dmem (api_v1_recently_unregistered_servers s) key).

(** Drops the stream sessions of a server that is gone. *)
Definition drop_server_streams (key : pystr) : RM unit :=
  let* s := get_state in
  for_each (bfilter (fun kv => bool_decide (ss_server_public_key kv.2 = key))
              (streaming_sessions s)) (fun '(session_id, session) =>
    let* _ := modify (fun s => with_streaming_sessions
                (ddel (streaming_sessions s) session_id) s) in
    let client := ss_client_public_key session in
    if no_text client then ret tt
    else
      modify (fun s => with_streaming_sessions_by_client
        (if bool_decide (dget (streaming_sessions_by_client s) client = Some session_id)
         then ddel (streaming_sessions_by_client s) client
         else streaming_sessions_by_client s) s)).

Definition json_names (client : json) (r : pystr) : relay_error + option (pystr * pystr) :=
  lifecycle_names client (JStr r).

(** Ends the work the removed node had queued. *)
Fixpoint cancel_dropped (dropped : list jdict) : RM unit :=
  match dropped with
  | [] => ret tt
  | item :: rest =>
      let* _ :=
        if truthy (jget item "e2ee_v1") then
          let* _ := _cancel_api_v1_request cfg (jget item "client_public_key")
                      (jget item "request_id") (JStr "cancelled") (JStr "server_unregistered") in
          ret tt
        else ret tt in
      cancel_dropped rest
  end.

(** Ends the work the removed node had in flight. *)
Fixpoint cancel_abandoned (key : pystr) (owner_digest : option pystr)
  (entries : list (pystr * InFlightEntry)) : RM unit :=
  match entries with
  | [] => ret tt
  | (r, entry) :: rest =>
      let* _ :=
        if no_text r then ret tt
        else
          let* names := lift_val (json_names (if_client_public_key entry) r) in
          let* s := get_state in
          if match names with
             | Some (c, r) => _has_client_response_for_request s c r
             | None => false
             end
          then ret tt
          else
            let* _ := _add_api_v1_control_tombstone cfg key r (if_client_public_key entry)
                        (JStr "cancelled") (JStr "server_unregistered")
                        (if_request_deadline_monotonic entry) owner_digest in
            let* _ := _cancel_api_v1_request cfg (if_client_public_key entry) (JStr r)
                        (JStr "cancelled") (JStr "server_unregistered") in
            ret tt in
      cancel_abandoned key owner_digest rest
  end.

(** The node may still not be removed for staleness: it polls, pinged in time, or
    works. *)
Definition not_stale (payload : ServerPayload) (cutoff : float64) : RM bool :=
  if is_polling payload cutoff then ret true
  else
    let* age := _server_ping_age_seconds (sp_last_ping payload) in
    if fle age (stale_after_seconds payload) then ret true
    else ret (0 <? _api_v1_active_in_flight_count payload cutoff).

(** [None] refuses the caller's credential.  [owner_credential = None] stands for
    [_OWNER_CREDENTIAL_NOT_REQUIRED]. *)
Definition _unregister_server (key : pystr) (stale_cutoff_monotonic : option float64)
  (owner_credential : option json) : RM (option bool) :=
  let* s := get_state in
  let payload := dget (known_servers s) key in
  let* kept := match payload, stale_cutoff_monotonic with
               | Some p, Some cutoff => not_stale p cutoff
               | _, _ => ret false
               end in
  if kept then ret (Some false)
  else
    let* refused := match payload, owner_credential with
                    | Some p, Some credential =>
                        if sp_api_v1_registered p then
                          let* valid := lift_val
                            (_api_v1_server_control_credential_valid (Some p) credential) in
                          ret (negb valid)
                        else ret false
                    | _, _ => ret false
                    end in
    if refused then ret None
    else
      let owner_digest := match payload with
                          | Some p => sp_control_credential_digest p
                          | None => None
                          end in
      let in_flight := match payload with
                       | Some p => default [] (sp_in_flight_requests p)
                       | None => []
                       end in
      let* removed := _remove_known_server key in
      let* dropped :=
        if removed then
          let* _ := _record_api_v1_server_unregistered key in
          let* s := get_state in
          let* _ := modify (fun s => with_client_inference_requests
                      (ddel (client_inference_requests s) key) s) in
          ret (dget_or (client_inference_requests s) key [])
        else ret [] in
      let* _ := cancel_dropped dropped in
      let* _ := cancel_abandoned key owner_digest in_flight in
      let* _ := drop_server_streams key in
      ret (Some removed).

(** ** Eviction *)

(** An expired accounting entry with no live owner state left *)
Definition _api_v1_in_flight_entry_can_be_pruned (entry : InFlightEntry) (now : float64) : bool :=
  fle (if_expires_at entry) now
  && match if_request_deadline_monotonic entry with
     | Some deadline => fle deadline now
     | None => true
     end.

(** The prunable entry ends through [_cancel_api_v1_request]. *)
Definition expires_through_cancel (entry : InFlightEntry) : bool :=
  match if_request_deadline_monotonic entry with
  | Some _ => is_nonempty_str (if_client_public_key entry)
  | None => false
  end.

Definition _prune_api_v1_stale_in_flight_entries (key : pystr) (now : float64) : RM Z :=
  let* s := get_state in
  match dget (known_servers s) key with
  | None => ret 0
  | Some payload =>
      match sp_in_flight_requests payload with
      | None => ret 0
      | Some entries =>
          let prunable := bfilter (fun re => _api_v1_in_flight_entry_can_be_pruned re.2 now)
                            entries in
          let targets := bfilter (fun re => expires_through_cancel re.2) prunable in
          let remaining := bfilter (fun re =>
            negb (_api_v1_in_flight_entry_can_be_pruned re.2 now
                  && negb (expires_through_cancel re.2))) entries in
          let* _ := modify (fun s => with_known_servers
                      (dset (known_servers s) key
                         (with_in_flight (match remaining with [] => None | _ => Some remaining end)
                            payload)) s) in
          let* _ := for_each targets (fun '(r, entry) =>
            let* _ := _cancel_api_v1_request cfg (if_client_public_key entry) (JStr r)
                        (JStr "expired") (JStr "provider_timeout") in
            ret tt) in
          ret (zlen prunable)
      end
  end.

(** The servers whose lease ran out, in registration order *)
Fixpoint stale_candidates (now : float64) (servers : list (pystr * ServerPayload))
  : RM (list pystr) :=
  match servers with
  | [] => ret []
  | (key, payload) :: rest =>
      if is_polling payload now then stale_candidates now rest
      else if 0 <? _api_v1_active_in_flight_count payload now then stale_candidates now rest
      else
        let* age := _server_ping_age_seconds (sp_last_ping payload) in
        let* others := stale_candidates now rest in
        ret (if fle age (stale_after_seconds payload) then others else key :: others)
  end.

Fixpoint unregister_stale (now : float64) (candidates : list pystr) : RM (list pystr) :=
  match candidates with
  | [] => ret []
  | key :: rest =>
      let* removed := _unregister_server key (Some now) None in
      let* others := unregister_stale now rest in
      ret (match removed with Some true => key :: others | _ => others end)
  end.

Definition _evict_stale_servers : RM (list pystr) :=
  let* _ := _prune_terminal_requests None in
  let* _ := _expire_stale_pending_requests cfg in
  let* _ := _prune_api_v1_control_tombstones None in
  let* now := monotonic in
  let* s := get_state in
  let* _ := for_each (dkeys (known_servers s)) (fun key =>
    let* _ := _prune_api_v1_stale_in_flight_entries key now in ret tt) in
  let* s := get_state in
  let* candidates := stale_candidates now (known_servers s) in
  unregister_stale now candidates.

(** ** Selection *)

Record SchedulerCandidate : Type := MkSchedulerCandidate {
  cd_server_public_key : pystr;
  cd_capabilities : ApiCapabilities;
  cd_tier : pystr;
  cd_tier_tokens : Z;
  cd_registration_index : Z;
  cd_capacity_limited : bool;
  cd_load : load_snapshot
}.

(** A payload has no [state], [failed], [draining], ... keys: the relay never
    writes one, so the tests on them pass. *)
Definition _api_v1_scheduler_candidate (s : RelayState) (key : pystr) (payload : ServerPayload)
  (requested_model : option pystr) (requested_context_tier : pystr) (registration_index : Z)
  (now : float64) (include_capacity_limited : bool) : RM (option SchedulerCandidate) :=
  if negb (sp_api_v1_registered payload) then ret None
  else
    let* stale := _api_v1_node_is_stale payload now in
    if stale then ret None
    else
      match sp_capabilities payload with
      | None => ret None
      | Some caps =>
          let tier := cap_active_context_tier caps in
          let* satisfies := lift_val (_context_tier_can_satisfy tier requested_context_tier) in
          if negb satisfies then ret None
          else
            match cap_supported_model_ids caps with
            | [] => ret None
            | models =>
                if match requested_model with
                   | Some m => negb (py_empty m) && negb (pystr_in m models)
                   | None => false
                   end
                then ret None
                else
                  match dget CONTEXT_TIER_ORDER tier with
                  | None => ret None
                  | Some tier_tokens =>
                      if (tier_tokens =? 0)
                         || (cap_maximum_total_context_tokens caps <? tier_tokens)
                      then ret None
                      else
                        let load := _api_v1_node_load_snapshot s key payload now in
                        let capacity_limited :=
                          (ls_max_concurrency load <=? ls_in_flight_count load)
                          || (_api_v1_max_queue_depth_per_node (environ cfg)
                              <=? ls_queue_depth load) in
                        if capacity_limited && negb include_capacity_limited then ret None
                        else ret (Some (MkSchedulerCandidate key caps tier tier_tokens
                                          registration_index capacity_limited load))
                  end
            end
      end.

(** The candidates of an enumeration of API v1 nodes, capacity-limited ones too *)
Fixpoint scheduler_candidates (s : RelayState) (requested_model : option pystr) (tier : pystr)
  (now : float64) (keys : list (Z * pystr)) : RM (list SchedulerCandidate) :=
  match keys with
  | [] => ret []
  | (index, key) :: rest =>
      let* c := match dget (known_servers s) key with
                | Some payload => _api_v1_scheduler_candidate s key payload requested_model tier
                                    index now true
                | None => ret None
                end in
      let* others := scheduler_candidates s requested_model tier now rest in
      ret (match c with Some c => c :: others | None => others end)
  end.

(** [counts[tier] = counts.get(tier, 0) + 1] for each candidate *)
Definition tier_counts (l : list SchedulerCandidate) : dict pystr Z :=
  fold_left (fun d c => dset d (cd_tier c) (dget_or d (cd_tier c) 0 + 1)) l [].

(** [min(f(x) for x in l)] of a non-empty list *)
Definition min_tier (c : SchedulerCandidate) (l : list SchedulerCandidate) : Z :=
  fold_right (fun x acc => Z.min (cd_tier_tokens x) acc) (cd_tier_tokens c) l.

Definition min_load (c : SchedulerCandidate) (l : list SchedulerCandidate) : float64 :=
  fold_left (fun acc x => fmin acc (ls_load_score (cd_load x))) l (ls_load_score (cd_load c)).

(** Smallest capable tier, then least load *)
Definition load_candidates (c : SchedulerCandidate) (l : list SchedulerCandidate)
  : list SchedulerCandidate :=
  let tier := min_tier c (c :: l) in
  match bfilter (fun x => cd_tier_tokens x =? tier) (c :: l) with
  | [] => []
  | t :: ts =>
      let load := min_load t ts in
      bfilter (fun x => feq (ls_load_score (cd_load x)) load) (t :: ts)
  end.

(** [min(range(len(l)), key=...)]: the first index of the smallest key *)
Fixpoint argmin {A} (key : A -> Z) (i best : Z) (best_key : Z) (l : list A) : Z :=
  match l with
  | [] => best
  | x :: l' => if key x <? best_key then argmin key (i + 1) i (key x) l'
               else argmin key (i + 1) best best_key l'
  end.

Definition first_index_after (cursor count : Z) (l : list SchedulerCandidate) : Z :=
  match l with
  | [] => 0
  | c :: l' =>
      let distance x := (cd_registration_index x - cursor) mod count in
      argmin distance 1 0 (distance c) l'
  end.

Record Selection : Type := MkSelection {
  sl_eligible_count : Z;
  sl_requested_model : option pystr;
  sl_eligible_tier_counts : dict pystr Z;
  sl_capacity_limited_tier_counts : dict pystr Z;
  sl_capacity_limited_node_count : Z;
  sl_registered_api_v1_count : Z;
  sl_selected : option SchedulerCandidate;
  sl_spillover : bool
}.

(** The requested model, stripped, lower-cased and with aliases resolved *)
Definition requested_model_id (aliases : dict pystr pystr) (model : option pystr)
  : option pystr :=
  match model with
  | Some m =>
      if py_empty (py_strip m) then None
      else let id := py_lower (py_strip m) in
           Some (if py_empty id then id else dget_or aliases id id)
  | None => None
  end.

Definition _select_best_fit_server_key (aliases : dict pystr pystr) (model : option pystr)
  (context_tier : pystr) : RM Selection :=
  let requested_model := requested_model_id aliases model in
  let* now := monotonic in
  let* s := get_state in
  let keys := _api_v1_round_robin_keys s in
  let registered_count := zlen keys in
  let current_index := if registered_count =? 0 then 0
                       else server_round_robin_next_index s mod registered_count in
  let* all := scheduler_candidates s requested_model context_tier now (py_enumerate keys) in
  let limited := bfilter cd_capacity_limited all in
  let candidates := bfilter (fun c => negb (cd_capacity_limited c)) all in
  match candidates with
  | [] =>
      ret (MkSelection 0 requested_model (tier_counts limited) (tier_counts limited)
             (zlen limited) registered_count None false)
  | c :: l =>
      let eligible := load_candidates c l in
      let eligible_key := map cd_server_public_key eligible in
      let index :=
        match dget (filtered_round_robin_next_positions s) eligible_key with
        | Some position => position mod zlen eligible
        | None => first_index_after current_index registered_count eligible
        end in
      let* selected := from_option (eligible !! Z.to_nat index) RelayIndexError in
      let* _ := modify (fun s => with_filtered_round_robin_next_positions
                  (dset (filtered_round_robin_next_positions s) eligible_key
                     ((index + 1) mod zlen eligible)) s) in
      let* _ := modify (with_server_round_robin_next_index
                  ((cd_registration_index selected + 1) mod registered_count)) in
      let* requested_tokens := from_option (dget CONTEXT_TIER_ORDER context_tier)
                                 (RelayKeyError context_tier) in
      ret (MkSelection (zlen candidates) requested_model (tier_counts candidates)
             (tier_counts limited) (zlen limited) registered_count (Some selected)
             (requested_tokens <? cd_tier_tokens selected))
  end.

End registry.
