(* ===== verification/RelayStreams.v ===== *)
(** * relay.py: stream sessions and the legacy endpoints

    The streaming sessions of a client, and the ciphertext endpoints of the first
    protocol ([/faucet], [/sink], [/source], [/retrieve], [/stream/*]), which share
    the servers, queues and response tables with API v1. *)

From Stdlib Require Import Floats.SpecFloat.
From S2P Require Import Prelude PyFloat PyStr PyDict PyText Json Sha256 RelayTypes RelayConfig.
From S2P Require Import RelayLifecycle RelayRegistry.
#[local] Open Scope Z_scope.

(** ** Authentication *)

(** [matched] over all the tokens; comparing a non-ASCII text raises. *)
Fixpoint any_token_matches (candidate : pystr) (tokens : list pystr) : relay_error + bool :=
  match tokens with
  | [] => inr false
  | token :: rest =>
      let? equal := compare_digest_text candidate token in
      let? others := any_token_matches candidate rest in
      inr (equal || others)
  end.

Definition missing_token_reply : reply :=
  error_reply "Missing or invalid relay server token" 401.

(** [header]: the [X-Relay-Server-Token] header, empty when absent *)
Definition _validate_server_registration (cfg : RelaySettings) (header : pystr)
  : relay_error + option reply :=
  match SERVER_REGISTRATION_TOKENS cfg with
  | [] => inr None
  | tokens =>
      let candidate := py_strip header in
      if py_empty candidate then inr (Some missing_token_reply)
      else let? matched := any_token_matches candidate tokens in
           inr (if matched then None else Some missing_token_reply)
  end.

(** [if auth_error: return auth_error] *)
Definition require_server_token (cfg : RelaySettings) (header : pystr) : HM unit :=
  let* auth_error := call_val (_validate_server_registration cfg header) in
  match auth_error with
  | Some r => raise (Returned r)
  | None => ret tt
  end.

(** ** Payload checks *)

Definition forbidden_plaintext_fields : list pystr :=
  ["messages"; "prompt"; "input"; "content"; "response"; "text"]%pystr.

Definition _payload_has_plaintext_fields (payload : json) : bool :=
  match payload with
  | JDict d => existsb (fun field => dmem d field) forbidden_plaintext_fields
  | _ => false
  end.

Definition has_unexpected_fields (allowed : list pystr) (payload : json) : bool :=
  match payload with
  | JDict d => existsb (fun field => negb (pystr_in field allowed)) (dkeys d)
  | _ => false
  end.

Definition relay_fields : list pystr :=
  ["client_public_key"; "ciphertext"; "chat_history"; "cipherkey"; "iv"; "request_id";
   "protocol"; "version"; "cancel_token"]%pystr.

Definition _payload_has_unexpected_relay_fields (payload : json) (allow_server_public_key : bool)
  : bool :=
  has_unexpected_fields
    (if allow_server_public_key then "server_public_key"%pystr :: relay_fields else relay_fields)
    payload.

Definition _payload_has_unexpected_faucet_fields (payload : json) : bool :=
  has_unexpected_fields
    ["client_public_key"; "server_public_key"; "chat_history"; "cipherkey"; "iv"; "stream"]%pystr
    payload.

(** ** Stream sessions *)
Section streams.
Context `{!Clock}.

Definition _register_stream_session (server_public_key : pystr) (client_public_key : pystr)
  : RM (option StreamSession) :=
  if no_text client_public_key then ret None
  else
    let* session_id := token_urlsafe in
    let* now := wall_time in
    let session := MkSession session_id server_public_key client_public_key [] "open" now now in
    let* s := get_state in
    let* _ := match dget (streaming_sessions_by_client s) client_public_key with
              | Some existing =>
                  if no_text existing then ret tt
                  else modify (fun s => with_streaming_sessions
                         (ddel (streaming_sessions s) existing) s)
              | None => ret tt
              end in
    let* _ := modify (fun s => with_streaming_sessions
                (dset (streaming_sessions s) session_id session) s) in
    let* _ := modify (fun s => with_streaming_sessions_by_client
                (dset (streaming_sessions_by_client s) client_public_key session_id) s) in
    ret (Some session).

Definition _append_stream_chunk (session_id : pystr) (chunk : json) (final : bool) : RM bool :=
  let* s := get_state in
  match dget (streaming_sessions s) session_id with
  | None => ret false
  | Some session =>
      let* now := wall_time in
      let* _ := modify (fun s => with_streaming_sessions
                  (dset (streaming_sessions s) session_id
                     (MkSession (ss_session_id session) (ss_server_public_key session)
                        (ss_client_public_key session) (ss_chunks session ++ [chunk])
                        (if final then "closed" else ss_status session)
                        (ss_created_at session) now)) s) in
      ret true
  end.

(** The session, its chunks so far and whether it was closed *)
Definition _pop_stream_chunks_for_client (client_public_key : pystr)
  : RM (option (pystr * list json * bool)) :=
  let* s := get_state in
  match dget (streaming_sessions_by_client s) client_public_key with
  | None => ret None
  | Some session_id =>
      if no_text session_id then ret None
      else
        match dget (streaming_sessions s) session_id with
        | None =>
            let* _ := modify (fun s => with_streaming_sessions_by_client
                        (ddel (streaming_sessions_by_client s) client_public_key) s) in
            ret None
        | Some session =>
            let* now := wall_time in
            let* _ := modify (fun s => with_streaming_sessions
                        (dset (streaming_sessions s) session_id
                           (MkSession (ss_session_id session) (ss_server_public_key session)
                              (ss_client_public_key session) [] (ss_status session)
                              (ss_created_at session) now)) s) in
            let final := bool_decide (ss_status session = "closed"%pystr) in
            let* _ :=
              if final then
                let* _ := modify (fun s => with_streaming_sessions
                            (ddel (streaming_sessions s) session_id) s) in
                modify (fun s => with_streaming_sessions_by_client
                  (ddel (streaming_sessions_by_client s) client_public_key) s)
              else ret tt in
            ret (Some (session_id, ss_chunks session, final))
        end
  end.

End streams.

(** ** Legacy endpoints *)
Section legacy.
Context `{!PyNumbers, !PyUnicode, !Clock, !Crypto}.
Variable cfg : RelaySettings.

Definition text_error (message : pystr) (status : Z) : reply :=
  Reply (JDict [("error"%pystr, JStr message)]) status.

Definition message_reply (message : pystr) : reply :=
  Reply (JDict [("message"%pystr, JStr message)]) 200.

Definition _legacy_route_deprecated_response (route_name : pystr) : reply :=
  Reply (JDict [("error", JDict
           [("message", JStr ("Legacy relay endpoint '" +++ route_name
                              +++ "' is deprecated. Use API v1 relay E2EE routes."));
            ("code", JStr "legacy_relay_endpoint_deprecated");
            ("deprecated", JBool true)])]%pystr) 410.

Definition require_legacy_routes (route_name : pystr) : HM unit :=
  return_if (negb (_legacy_routes_enabled (environ cfg)))
    (_legacy_route_deprecated_response route_name).

Definition plaintext_forbidden : reply :=
  error_reply "Plaintext relay payload fields are forbidden; send ciphertext envelope only" 400.

Definition unexpected_forbidden : reply :=
  error_reply "Unexpected relay payload fields are forbidden; send ciphertext envelope only" 400.

(** [not data or k not in data for any k]: the test stops at the first missing key. *)
Fixpoint lacks_field (data : json) (fields : list pystr) : relay_error + bool :=
  match fields with
  | [] => inr false
  | field :: rest =>
      let? present := json_contains data field in
      if present then lacks_field data rest else inr true
  end.

Definition misses_fields (data : json) (fields : list pystr) : relay_error + bool :=
  if negb (truthy data) then inr true else lacks_field data fields.

Definition faucet (data : json) : RM reply := respond (
  let* _ := require_legacy_routes "/faucet" in
  let* _ := call (_evict_stale_servers cfg) in
  let* _ := return_if (_payload_has_plaintext_fields data) plaintext_forbidden in
  let* _ := return_if (_payload_has_unexpected_faucet_fields data) unexpected_forbidden in
  let* missing := call_val (misses_fields data
                    ["server_public_key"; "chat_history"; "cipherkey"; "iv"]%pystr) in
  let* _ := return_if missing (error_reply "Invalid request data" 400) in
  let* server_public_key := call_val (json_item data "server_public_key") in
  let* chat_history := call_val (json_item data "chat_history") in
  let* cipherkey := call_val (json_item data "cipherkey") in
  let* iv := call_val (json_item data "iv") in
  let* stream := call_val (json_get data "stream") in
  let* client_public_key := call_val (json_get data "client_public_key") in
  let stream_requested := truthy stream in
  let* _ := return_if (stream_requested && negb (truthy client_public_key))
              (error_reply "Streaming requests require a client public key" 400) in
  let* key := call_val (dict_key server_public_key) in
  let* s := get_state in
  let not_found := error_reply "Server with the specified public key not found" 404 in
  let* key := or_return key not_found in
  let* _ := return_if (negb (dmem (known_servers s) key)) not_found in
  let item : jdict :=
    [("chat_history", chat_history); ("client_public_key", client_public_key);
     ("cipherkey", cipherkey); ("iv", iv); ("stream", JBool stream_requested)]%pystr in
  let* _ := modify (fun s => with_client_inference_requests
              (dset (client_inference_requests s) key
                 (dget_or (client_inference_requests s) key [] ++ [item])) s) in
  ret (message_reply "Request received")).

(** [int(f)], towards zero; [None] is the [ValueError] of a NaN. *)
Definition float_trunc (f : float64) : relay_error + option Z :=
  match f with
  | S754_zero _ => inr (Some 0)
  | S754_nan => inr None
  | S754_infinity _ => inl (RelayOverflowError)
  | S754_finite sign m e =>
      let z := if 0 <=? e then Zpos m * 2 ^ e else Zpos m / 2 ^ (- e) in
      inr (Some (if sign then - z else z))
  end.

(** [int(raw)] of the batch size; [None] refuses it. *)
Definition batch_size (raw : json) : relay_error + option Z :=
  let? size := match raw with
               | JNull => inr (Some 1)
               | JBool b => inr (Some (if b then 1 else 0))
               | JInt z => inr (Some z)
               | JFloat f => float_trunc f
               | JStr s => inr (parse_int s)
               | _ => inr None
               end in
  inr match size with
      | Some n => if n <? 1 then None else Some n
      | None => None
      end.

(** The queue is drained until the batch is full; an API v1 envelope stops it. *)
Fixpoint drain_queue (key : pystr) (max_batch_size : Z) (queue : list jdict) (batch : list jdict)
  : RM (list jdict * list jdict) :=
  match queue with
  | [] => ret ([], batch)
  | item :: rest =>
      if max_batch_size <=? zlen batch then ret (queue, batch)
      else if dmem item "api_v1_request" then drain_queue key max_batch_size rest batch
      else if truthy (jget item "e2ee_v1") then ret (queue, batch)
      else
        let* item :=
          if truthy (jget item "stream") then
            let* client := lift_val (name_of (jget item "client_public_key")) in
            let* session := _register_stream_session key (default ""%pystr client) in
            ret (match session with
                 | Some session => dset item "stream_session_id"%pystr (JStr (ss_session_id session))
                 | None => item
                 end)
          else ret item in
        drain_queue key max_batch_size rest (batch ++ [item])
  end.

Definition sink_reply (next_ping : Z) (batch : list jdict) (max_batch_size : Z) : reply :=
  let response := [("next_ping_in_x_seconds"%pystr, JInt next_ping)] in
  Reply (JDict
    match batch with
    | [] => response
    | first :: _ =>
        let response := response ++
          [("client_public_key", jget first "client_public_key");
           ("chat_history", jget first "chat_history"); ("cipherkey", jget first "cipherkey");
           ("iv", jget first "iv")]%pystr in
        let response :=
          if truthy (jget first "stream") && truthy (jget first "stream_session_id")
          then response ++ [("stream", JBool true);
                            ("stream_session_id", jget first "stream_session_id")]%pystr
          else response in
        if 1 <? max_batch_size then response ++ [("batch"%pystr, JList (map JDict batch))]
        else response
    end) 200.

Definition sink (header : pystr) (data : json) : RM reply := respond (
  let* _ := require_legacy_routes "/sink" in
  let* _ := call (_evict_stale_servers cfg) in
  let* _ := require_server_token cfg header in
  match data with
  | JDict d =>
      let* size := call_val (batch_size (jget d "max_batch_size")) in
      let* max_batch_size := or_return size (text_error "Invalid max_batch_size" 400) in
      let* key := call_val (dict_key (jget d "server_public_key")) in
      let* key := or_return key (text_error "Invalid public key" 400) in
      let* now := call datetime_now in
      let* s := get_state in
      let payload := match dget (known_servers s) key with
                     | Some p => with_last_ping now p
                     | None => MkServer key now 10 false None None None None
                     end in
      let* _ := modify (fun s => with_known_servers (dset (known_servers s) key payload) s) in
      let queue := dget_or (client_inference_requests s) key [] in
      let* drained := call (drain_queue key max_batch_size queue []) in
      let* _ := modify (fun s => with_client_inference_requests
                  (if dmem (client_inference_requests s) key
                   then dset (client_inference_requests s) key drained.1
                   else client_inference_requests s) s) in
      ret (sink_reply (sp_last_ping_duration payload) drained.2 max_batch_size)
  | _ => ret (text_error "Invalid request data" 400)
  end).

Definition source (header : pystr) (data : json) : RM reply := respond (
  let* _ := require_legacy_routes "/source" in
  let* _ := require_server_token cfg header in
  let* missing := call_val (misses_fields data
                    ["client_public_key"; "chat_history"; "cipherkey"; "iv"]%pystr) in
  let* _ := return_if missing (text_error "Invalid request data" 400) in
  let* client_public_key := call_val (json_item data "client_public_key") in
  let* chat_history := call_val (json_item data "chat_history") in
  let* cipherkey := call_val (json_item data "cipherkey") in
  let* iv := call_val (json_item data "iv") in
  let* key := call_val (dict_key client_public_key) in
  let* c := match key with Some c => ret c | None => raise (Failed NonTextName) end in
  let envelope : jdict := [("chat_history", chat_history); ("cipherkey", cipherkey);
                           ("iv", iv)]%pystr in
  let* _ := modify (fun s => with_client_responses
              (dset (client_responses s) c (OneResponse envelope)) s) in
  ret (message_reply "Response received and queued for client")).

Definition responses_json (q : QueuedResponses) : json :=
  match q with
  | OneResponse e => JDict e
  | ManyResponses l => JList (map JDict l)
  end.

Definition retrieve (data : json) : RM reply := respond (
  let* _ := require_legacy_routes "/retrieve" in
  let* missing := call_val (misses_fields data ["client_public_key"]%pystr) in
  let* _ := return_if missing (text_error "Invalid request data" 400) in
  let* client_public_key := call_val (json_item data "client_public_key") in
  let* key := call_val (dict_key client_public_key) in
  let none := text_error "No response available for the given public key" 200 in
  let* c := or_return key none in
  let* s := get_state in
  let* queued := or_return (dget (client_responses s) c) none in
  let* _ := modify (fun s => with_client_responses (ddel (client_responses s) c) s) in
  ret (Reply (responses_json queued) 200)).

Definition stream_source (header : pystr) (data : json) : RM reply := respond (
  let* _ := require_server_token cfg header in
  let* missing := call_val (misses_fields data ["session_id"; "chunk"]%pystr) in
  let* _ := return_if missing (text_error "Invalid request data" 400) in
  let* session_id := call_val (json_item data "session_id") in
  let* chunk := call_val (json_item data "chunk") in
  let* final := call_val (json_get data "final") in
  let* key := call_val (dict_key session_id) in
  let unknown := text_error "Unknown stream session" 404 in
  let* key := or_return key unknown in
  let* stored := call (_append_stream_chunk key chunk (truthy final)) in
  let* _ := return_if (negb stored) unknown in
  ret (Reply (JDict [("message", JStr "Chunk stored"); ("final", JBool (truthy final))]%pystr) 200)).

Definition stream_retrieve (data : json) : RM reply := respond (
  let* missing := call_val (misses_fields data ["client_public_key"]%pystr) in
  let* _ := return_if missing (text_error "Invalid request data" 400) in
  let* client_public_key := call_val (json_item data "client_public_key") in
  let* key := call_val (dict_key client_public_key) in
  let inactive := text_error "No active stream for the given public key" 200 in
  let* c := or_return key inactive in
  let* popped := call (_pop_stream_chunks_for_client c) in
  let* popped := or_return popped inactive in
  let '(session_id, chunks, final) := popped in
  ret (Reply (JDict ([("stream", JBool true); ("session_id", JStr session_id);
                      ("chunks", JList chunks)]%pystr
                     ++ if final : bool then [("final"%pystr, JBool true)] else [])) 200)).

End legacy.
