(* ===== verification/RelayHandlers.v ===== *)
(** * relay.py: the API v1 relay endpoints

    One definition per endpoint of the encrypted relay.  A body is the parsed JSON
    ([JNull] when there is none), [header] the server token header.  Handlers run
    one at a time; only the long poll lets others in, so it is three operations:
    [poll_begin], one turn of its loop [poll_attempt] (repeated after a wait), and
    [poll_finish]. *)

From S2P Require Import Prelude PyFloat PyStr PyDict PyText Json Sha256 RelayTypes RelayConfig.
From S2P Require Import RelayLifecycle RelayRegistry RelayStreams.
#[local] Open Scope Z_scope.

Section handlers.
Context `{!PyNumbers, !PyUnicode, !Clock, !Crypto}.
Variable cfg : RelaySettings.

Definition invalid_request : reply := error_reply "Invalid request data" 400.
Definition server_not_found : reply :=
  error_reply "Server with the specified public key not found" 404.
Definition bad_credential : reply :=
  error_reply "Missing or invalid relay server control credential" 403.

(** [{..., **extra}] *)
Definition object_reply (d extra : jdict) (status : Z) : reply :=
  Reply (JDict (dict_update d extra)) status.

(** ** Selecting a node *)

Definition no_nodes : reply :=
  Reply (error_body "No registered compute nodes are available on this relay."
           (JStr "no_registered_compute_nodes")) 503.

Definition counts_json (d : dict pystr Z) : json := JDict (map (fun kv => (kv.1, JInt kv.2)) d).

(** No node was selected: at capacity, no match, or none registered *)
Definition no_selection_reply (sel : Selection) (context_tier : pystr) (model : json) : reply :=
  let details (message code : pystr) (more : jdict) :=
    Reply (JDict [("error", JDict
      ([("message", JStr message); ("code", JStr code);
        ("selection_policy", JStr "best_fit_smallest_capable_least_loaded_v1");
        ("requested_context_tier", JStr context_tier); ("requested_model", model);
        ("eligible_node_count", JInt (sl_eligible_count sel));
        ("eligible_tier_counts", counts_json (sl_eligible_tier_counts sel))] ++ more))]%pystr) 503 in
  if sl_registered_api_v1_count sel =? 0 then no_nodes
  else if sl_capacity_limited_node_count sel =? 0 then
    details "Registered compute nodes are available, but none match the requested model/context tier."
      "no_matching_compute_node" []
  else
    details "Registered compute nodes match the requested model/context tier, but all matching nodes are at capacity. Retry with backoff."
      "no_available_capacity"
      [("capacity_limited_node_count", JInt (sl_capacity_limited_node_count sel));
       ("capacity_limited_tier_counts", counts_json (sl_capacity_limited_tier_counts sel))]%pystr.

Definition selected_reply (sel : Selection) (c : SchedulerCandidate) (context_tier : pystr)
  (model : json) : reply :=
  let caps := cd_capabilities c in
  Reply (JDict
    ([("server_public_key", JStr (cd_server_public_key c));
      ("requested_context_tier", JStr context_tier); ("requested_model", model);
      ("resolved_model", json_text_or_none (sl_requested_model sel));
      ("selected_context_tier", JStr (cap_active_context_tier caps));
      ("selected_context_window_tokens", JInt (cap_maximum_total_context_tokens caps));
      ("selected_model_support", JList (map JStr (cap_supported_model_ids caps)));
      ("selection_policy", JStr "best_fit_smallest_capable_least_loaded_v1");
      ("eligible_node_count", JInt (sl_eligible_count sel));
      ("eligible_tier_counts", counts_json (sl_eligible_tier_counts sel));
      ("selected_queue_depth", JInt (ls_queue_depth (cd_load c)));
      ("selected_in_flight_count", JInt (ls_in_flight_count (cd_load c)));
      ("selected_load_score", JFloat (ls_load_score (cd_load c)));
      ("spillover", JBool (sl_spillover sel))]
     ++ (if sl_spillover sel
         then [("spillover_reason", JStr "no_smaller_eligible_node_available")] else []))%pystr) 200.

(** [/api/v1/relay/servers/next], with the query parameters [model] and
    [context_tier] *)
Definition api_v1_relay_servers_next (aliases : dict pystr pystr)
  (model context_tier : option pystr) : RM reply := respond (
  let* _ := call (_evict_stale_servers cfg) in
  let* s := get_state in
  match known_servers s with
  | [] =>
      let* _ := modify (with_server_round_robin_next_index 0) in
      ret no_nodes
  | _ =>
      let model := match model with
                   | Some m => if py_empty (py_strip m) then Some "qwen3-8b-instruct"%pystr else Some m
                   | None => Some "qwen3-8b-instruct"%pystr
                   end in
      let tier := match context_tier with
                  | Some t => if py_empty (py_strip t) then DEFAULT_CONTEXT_TIER else py_strip t
                  | None => DEFAULT_CONTEXT_TIER
                  end in
      let* _ := return_if (negb (dmem CONTEXT_TIER_ORDER tier))
                  (Reply (error_body "Unsupported context_tier" (JStr "invalid_context_tier")) 400) in
      let* sel := call (_select_best_fit_server_key cfg aliases model tier) in
      match sl_selected sel with
      | None => ret (no_selection_reply sel tier (json_text_or_none model))
      | Some c =>
          if no_text (cd_server_public_key c) then ret no_nodes
          else ret (selected_reply sel c tier (json_text_or_none model))
      end
  end).

(** [/next_server]: any node, at random *)
Definition next_server : RM reply := respond (
  let* _ := require_legacy_routes cfg "/next_server" in
  let* _ := call (_evict_stale_servers cfg) in
  let* s := get_state in
  match known_servers s with
  | [] =>
      let* _ := modify (with_server_round_robin_next_index 0) in
      ret (error_reply "No servers available" 503)
  | servers =>
      let* i := call random_index in
      let* chosen := from_option (servers !! (i mod length servers)%nat) (Failed RelayIndexError) in
      ret (Reply (JDict [("server_public_key"%pystr, JStr (sp_public_key chosen.2))]) 200)
  end).

(** ** Registration *)

(** A parsed capability payload, or the refusal *)
Definition normalised_capabilities (raw : json) : HM ApiCapabilities :=
  let* r := call_val (_normalise_api_v1_capabilities raw) in
  match r with
  | inr caps => ret caps
  | inl message => raise (Returned (Reply (error_body message (JStr "invalid_capabilities")) 400))
  end.

(** The payload a registration leaves, before its credential *)
Definition registered_payload (existing : option ServerPayload) (key : pystr) (now lease : Z)
  (caps : ApiCapabilities) : ServerPayload :=
  let base := match existing with
              | Some p => with_last_ping now p
              | None => MkServer key now lease false None None None None
              end in
  with_public_key key (with_capabilities caps (with_marker (with_last_ping_duration lease base))).

(** The locked section of a registration; the credential of a new owner *)
Definition register_node (key : pystr) (caps : ApiCapabilities) : HM pystr :=
  let* s := get_state in
  let existing := dget (known_servers s) key in
  let reregister := match existing with Some p => sp_api_v1_registered p | None => false end in
  let* _ :=
    if negb reregister && (zlen (_api_v1_round_robin_keys s) =? 0)
    then modify (with_server_round_robin_next_index 0) else ret tt in
  let* now := call datetime_now in
  let payload := registered_payload existing key now (_api_v1_lease_seconds (environ cfg)) caps in
  (* a node that was only known to the legacy protocol moves to the end *)
  let* _ := modify (fun s => with_known_servers
              (if reregister then dset (known_servers s) key payload
               else dset (ddel (known_servers s) key) key payload) s) in
  let* stored := call (_store_api_v1_control_credential payload) in
  let* _ := modify (fun s => with_known_servers (dset (known_servers s) key stored.1) s) in
  ret stored.2.

Definition api_v1_relay_servers_register (header : pystr) (data : json) : RM reply := respond (
  let* _ := require_server_token cfg header in
  match data with
  | JDict d =>
      let* name := call_val (name_of (jget d "server_public_key")) in
      let* key := or_return name (error_reply "Missing server public key" 400) in
      let* caps := normalised_capabilities (jget d "capabilities") in
      let* control_credential := register_node key caps in
      ret (Reply (JDict
        ([("next_ping_in_x_seconds", JInt (_api_v1_lease_seconds (environ cfg)));
          ("poll_wait_seconds", JFloat (_api_v1_poll_wait_seconds (environ cfg)));
          ("relay_capabilities", JDict [("encrypted_progress_v1", JBool true)])]
         ++ (if py_empty control_credential then []
             else [("control_credential", JStr control_credential)]))%pystr) 200)
  | _ => ret invalid_request
  end).

(** [invalid_error_shape] of the API v1 endpoint or of [/unregister] *)
Definition _handle_server_unregister_request (legacy_shape : bool) (header : pystr) (data : json)
  : RM reply := respond (
  let* _ := require_server_token cfg header in
  let invalid message := if legacy_shape then text_error message 400
                         else error_reply message 400 in
  match data with
  | JDict d =>
      match jget d "server_public_key" with
      | JStr key =>
          let* _ := return_if (py_empty (py_strip key)) (invalid "Invalid public key"%pystr) in
          let* removed := call (_unregister_server cfg key None
                                  (Some (jget d "control_credential"))) in
          match removed with
          | None => ret bad_credential
          | Some removed =>
              ret (Reply (JDict [("message", JStr "Server unregistered");
                                 ("removed", JBool removed)]%pystr) 200)
          end
      | _ => ret (invalid "Invalid public key"%pystr)
      end
  | _ => ret (invalid "Invalid request data"%pystr)
  end).

Definition api_v1_relay_servers_unregister : pystr -> json -> RM reply :=
  _handle_server_unregister_request false.

Definition unregister : pystr -> json -> RM reply := _handle_server_unregister_request true.

(** ** Polling for work *)

Definition is_legacy_ciphertext (item : jdict) : bool :=
  forallb (fun key => dmem item key) ["client_public_key"; "chat_history"; "cipherkey"; "iv"]%pystr.

(** Drops heads until a legacy request is found. *)
Fixpoint pop_legacy (queue : list jdict) : option jdict * list jdict :=
  match queue with
  | [] => (None, [])
  | item :: rest => if is_legacy_ciphertext item then (Some item, rest) else pop_legacy rest
  end.

Definition is_e2ee (item : jdict) : bool := truthy (jget item "e2ee_v1").

(** The oldest API v1 envelope, and only API v1 envelopes stay; without one, the
    oldest legacy request. *)
Definition pop_queue (queue : list jdict) : option jdict * list jdict :=
  match pop_first is_e2ee queue with
  | Some (item, rest) => (Some item, bfilter is_e2ee rest)
  | None => pop_legacy queue
  end.

Definition _pop_next_api_v1_request (key : pystr) : RM (option jdict) :=
  let* s := get_state in
  match dget_or (client_inference_requests s) key [] with
  | [] => ret None
  | queue =>
      let '(first, rest) := pop_queue queue in
      let* _ := modify (fun s => with_client_inference_requests
                  (match rest with
                   | [] => ddel (client_inference_requests s) key
                   | _ => dset (client_inference_requests s) key rest
                   end) s) in
      ret first
  end.

Record poll_context : Type := MkPoll {
  pc_key : pystr;
  pc_deadline : float64
}.

Definition poll_begin (header : pystr) (data : json) : SM RelayState relay_exit poll_context :=
  let* _ := require_server_token cfg header in
  let* _ := call (_evict_stale_servers cfg) in
  match data with
  | JDict d =>
      let* name := call_val (name_of (jget d "server_public_key")) in
      let* key := or_return name (error_reply "Missing server public key" 400) in
      let* caps := match jget d "capabilities" with
                   | JNull => ret None
                   | raw => let* c := normalised_capabilities raw in ret (Some c)
                   end in
      let poll_wait := _api_v1_poll_wait_seconds (environ cfg) in
      let* s := get_state in
      let* payload := or_return (dget (known_servers s) key) server_not_found in
      let* ping := call datetime_now in
      let* now := call monotonic in
      let payload := with_last_ping_duration (_api_v1_lease_seconds (environ cfg))
                       (with_last_ping ping payload) in
      let payload := match caps with Some c => with_capabilities c payload | None => payload end in
      let payload := with_polling_until (Some (fadd now (fmax poll_wait f0))) payload in
      let* _ := modify (fun s => with_known_servers (dset (known_servers s) key payload) s) in
      let* start := call monotonic in
      ret (MkPoll key (fadd start poll_wait))
  | _ => raise (Returned invalid_request)
  end.

Definition _mark_claimed_request_terminal (key : pystr) (claimed : option jdict) : RM unit :=
  match claimed with
  | Some request =>
      if is_e2ee request then
        let* was_unregistered := _api_v1_server_was_recently_unregistered key in
        let* _ := _cancel_api_v1_request cfg (jget request "client_public_key")
                    (jget request "request_id")
                    (JStr (if was_unregistered then "cancelled" else "expired"))
                    (JStr (if was_unregistered then "server_unregistered"
                           else "provider_timeout")) in
        ret tt
      else ret tt
  | None => ret tt
  end.

Definition _server_not_found_response (key : pystr) (claimed : option jdict) : RM reply :=
  let* _ := _mark_claimed_request_terminal key claimed in
  ret server_not_found.

(** One turn of the loop *)
Inductive poll_turn : Type :=
| TurnReply (r : reply)
| TurnDone (first : option jdict)
| TurnAgain
| TurnWait.

Definition has_expired (deadline : option float64) (now : float64) : bool :=
  match deadline with Some d => fle d now | None => false end.

Definition request_deadline (request : jdict) : option float64 :=
  _valid_request_deadline_monotonic (jget request "_request_deadline_monotonic").

(** Reads the clock when there is a deadline to compare. *)
Definition deadline_passed (deadline : option float64) : RM bool :=
  match deadline with
  | Some d => let* now := monotonic in ret (fle d now)
  | None => ret false
  end.

Definition poll_attempt (p : poll_context) : RM poll_turn :=
  let poll_wait := _api_v1_poll_wait_seconds (environ cfg) in
  let* s := get_state in
  if negb (dmem (known_servers s) (pc_key p)) then
    let* r := _server_not_found_response (pc_key p) None in
    ret (TurnReply r)
  else
    let* first := _pop_next_api_v1_request (pc_key p) in
    match first with
    | Some request =>
        let* expired := deadline_passed (request_deadline request) in
        if expired then
          let* _ := monotonic in
          let* _ := _cancel_api_v1_request cfg (jget request "client_public_key")
                      (jget request "request_id") (JStr "expired") (JStr "provider_timeout") in
          ret TurnAgain
        else ret (TurnDone (Some request))
    | None =>
        let* now := monotonic in
        let remaining := fsub (pc_deadline p) now in
        ret (if fle poll_wait f0 || fle remaining f0 then TurnDone None else TurnWait)
    end.

Definition no_requests (next_ping : Z) (poll_wait : float64) : reply :=
  Reply (JDict [("message", JStr "No requests available");
                ("next_ping_in_x_seconds",
                  JInt (if flt f0 poll_wait then 0 else next_ping));
                ("poll_wait_seconds", JFloat poll_wait)]%pystr) 200.

(** The node's accounting entry for the request it is about to get *)
Definition dispatch_entry (request : jdict) (deadline : option float64) : RM InFlightEntry :=
  let ttl := _api_v1_in_flight_ttl_seconds (environ cfg) in
  let* lease_start := monotonic in
  let* bound := match deadline with
                | Some d => ret d
                | None => let* now := monotonic in ret (fadd now ttl)
                end in
  let* started_at := monotonic in
  ret (MkInFlight (fmin (fadd lease_start ttl) bound) started_at
         (jget request "client_public_key") (jget request "cancel_token") deadline).

(** Hands the request out: its private keys go, the deadline metadata comes. *)
Definition poll_dispatch (key : pystr) (first : jdict) : RM reply :=
  let poll_wait := _api_v1_poll_wait_seconds (environ cfg) in
  let* _ := match json_number (jget first "_queued_at") with
            | Some _ => let* _ := wall_time in ret tt
            | None => ret tt
            end in
  let request_id := jget first "request_id" in
  let deadline := request_deadline first in
  let first := ddel (ddel first "_queued_at"%pystr) "_request_deadline_monotonic"%pystr in
  let* expired := deadline_passed deadline in
  if expired then
    let* _ := _cancel_api_v1_request cfg (jget first "client_public_key") request_id
                (JStr "expired") (JStr "provider_timeout") in
    ret (no_requests (_api_v1_lease_seconds (environ cfg)) poll_wait)
  else
    let* metadata := _api_v1_deadline_metadata deadline in
    let first := dict_update first metadata in
    match request_id with
    | JStr r =>
        if py_empty r then ret (Reply (JDict first) 200)
        else
          let* s := get_state in
          match dget (known_servers s) key with
          | None => _server_not_found_response key (Some first)
          | Some payload =>
              let* entry := dispatch_entry first deadline in
              let entries := default [] (sp_in_flight_requests payload) in
              let* _ := modify (fun s => with_known_servers
                          (dset (known_servers s) key
                             (with_in_flight (Some (dset entries r entry)) payload)) s) in
              ret (Reply (JDict first) 200)
          end
    | _ => ret (Reply (JDict first) 200)
    end.

Definition poll_finish (p : poll_context) (first : option jdict) : RM reply :=
  let poll_wait := _api_v1_poll_wait_seconds (environ cfg) in
  let key := pc_key p in
  let* s := get_state in
  match dget (known_servers s) key with
  | None => _server_not_found_response key first
  | Some payload =>
      let payload := with_polling_until None payload in
      let* _ := modify (fun s => with_known_servers (dset (known_servers s) key payload) s) in
      match first with
      | None =>
          let* now := datetime_now in
          let* _ := modify (fun s => with_known_servers
                      (dset (known_servers s) key (with_last_ping now payload)) s) in
          ret (no_requests (Z.max (sp_last_ping_duration payload) 1) poll_wait)
      | Some request => poll_dispatch key request
      end
  end.

(** The whole loop when nobody else runs: waiting changes nothing but the time.
    [turns] bounds the number of turns. *)
Fixpoint poll_loop (turns : nat) (p : poll_context) : RM (option reply) :=
  match turns with
  | O => ret None
  | S turns' =>
      let* turn := poll_attempt p in
      match turn with
      | TurnReply r => ret (Some r)
      | TurnDone first => let* r := poll_finish p first in ret (Some r)
      | TurnAgain | TurnWait => poll_loop turns' p
      end
  end.

(** ** Control *)

Definition is_true (v : json) : bool := match v with JBool b => b | _ => false end.

Definition control_reply (status : pystr) (hint : option float64) (metadata : jdict) : reply :=
  object_reply [("status", JStr status);
                ("next_poll_seconds",
                  JFloat (_bounded_control_next_poll_seconds (environ cfg) hint))]%pystr metadata 200.

Definition completed_unavailable (status : pystr) : pystr :=
  if pystr_in status ["cancelled"; "expired"]%pystr then status else "completed/unavailable".

(** Renews the accounting lease, never beyond the absolute deadline. *)
Definition renewed_entry (now : float64) (entry : InFlightEntry) : InFlightEntry :=
  let lease_deadline := fadd now (_api_v1_in_flight_ttl_seconds (environ cfg)) in
  MkInFlight (match if_request_deadline_monotonic entry with
              | Some d => fmin lease_deadline d
              | None => lease_deadline
              end)
    (if_started_at_monotonic entry) (if_client_public_key entry) (if_cancel_token entry)
    (if_request_deadline_monotonic entry).

(** The live part of a control poll: replies for an entry in flight, else goes on. *)
Definition control_live (key r : pystr) (credential : json) (now : float64) : HM unit :=
  let* s := get_state in
  match dget (known_servers s) key with
  | Some payload =>
      if sp_api_v1_registered payload then
        let* valid := call_val (_api_v1_server_control_credential_valid (Some payload) credential) in
        let* _ := return_if (negb valid) bad_credential in
        let entries := default [] (sp_in_flight_requests payload) in
        match dget entries r with
        | None => ret tt
        | Some entry =>
            let deadline := if_request_deadline_monotonic entry in
            if has_expired deadline now then
              if is_nonempty_str (if_client_public_key entry) then
                let client := if_client_public_key entry in
                let* _ := call (_cancel_api_v1_request cfg client (JStr r) (JStr "expired")
                                  (JStr "provider_timeout")) in
                let* terminal := call (_get_terminal_request (str_value client) r) in
                let status := _sanitize_terminal_status
                                (match terminal with Some t => JStr (te_status t) | None => JNull end) in
                raise (Returned (control_reply (completed_unavailable status) None
                                   (deadline_metadata deadline now)))
              else ret tt
            else
              let* _ := modify (fun s => with_known_servers
                          (dset (known_servers s) key
                             (with_in_flight (Some (dset entries r (renewed_entry now entry)))
                                payload)) s) in
              let lease := _api_v1_in_flight_ttl_seconds (environ cfg) in
              raise (Returned (control_reply "active" (Some (fmax (fdiv lease (float_near 2)) f1))
                                 (deadline_metadata deadline now)))
        end
      else ret tt
  | None => ret tt
  end.

(** The tombstone of the request, for its owner; an acknowledgement removes it. *)
Definition control_tombstone (key r : pystr) (credential : json) (acknowledge : bool) : HM bool :=
  let* s := get_state in
  match dget (api_v1_control_tombstones s) (_control_tombstone_key key r) with
  | None => ret false
  | Some tombstone =>
      let* now := call monotonic in
      if flt now (tb_expires_at_monotonic tombstone) then
        let* valid := call_val (digest_matches (tb_control_credential_digest tombstone) credential) in
        let* _ := return_if (negb valid) bad_credential in
        let* _ := if acknowledge then
                    modify (fun s => with_api_v1_control_tombstones
                      (ddel (api_v1_control_tombstones s) (_control_tombstone_key key r)) s)
                  else ret tt in
        let* metadata := call (_api_v1_deadline_metadata (tb_deadline_monotonic tombstone)) in
        raise (Returned (control_reply (completed_unavailable (tb_status tombstone)) None metadata))
      else ret false
  end.

(** The answer to the owner of a named request: the entry in flight, else its
    tombstone, else that there is nothing left *)
Definition control_answer (key r : pystr) (credential : json) (acknowledge : bool) : HM reply :=
  let* now := call monotonic in
  let* _ := control_live key r credential now in
  let* _ := control_tombstone key r credential acknowledge in
  let* s := get_state in
  let live := match dget (known_servers s) key with
              | Some p => if sp_api_v1_registered p then Some p else None
              | None => None
              end in
  let* authenticated := call_val (_api_v1_server_control_credential_valid live credential) in
  let* _ := return_if (negb authenticated) bad_credential in
  ret (control_reply "completed/unavailable" None []).

Definition api_v1_relay_servers_control (header : pystr) (data : json) : RM reply := respond (
  let* _ := require_server_token cfg header in
  let* _ := call (_evict_stale_servers cfg) in
  let* _ := call (_prune_api_v1_control_tombstones None) in
  match data with
  | JDict d =>
      let* names := call_val (lifecycle_names (jget d "server_public_key") (jget d "request_id")) in
      let* names := or_return names invalid_request in
      let '(key, r) := names in
      control_answer key r (jget d "control_credential")
        (is_true (jget d "acknowledge") || is_true (jget d "ack"))
  | _ => ret invalid_request
  end).

(** ** Requests *)

(** [inl] refuses the payload with [('Invalid request data', 400)]. *)
Definition _extract_ciphertext_envelope (payload : json) (require_server_key : bool)
  : option jdict :=
  match payload with
  | JDict d =>
      if negb (dmem d "ciphertext") && negb (dmem d "chat_history") then None
      else if negb (forallb (fun field => dmem d field)
                      ((if require_server_key then ["server_public_key"] else [])
                       ++ ["cipherkey"; "iv"])%pystr) then None
      else
        let text := match dget d "ciphertext" with Some v => v | None => jget d "chat_history" end in
        let optional (key : pystr) : jdict :=
          match dget d key with Some v => [(key, v)] | None => [] end in
        Some ([("client_public_key", jget d "client_public_key"); ("chat_history", text);
               ("ciphertext", text); ("cipherkey", jget d "cipherkey"); ("iv", jget d "iv")]%pystr
              ++ (if require_server_key
                  then [("server_public_key"%pystr, jget d "server_public_key")] else [])
              ++ optional "request_id"%pystr ++ optional "protocol"%pystr
              ++ optional "version"%pystr ++ optional "cancel_token"%pystr)
  | _ => None
  end.

(** The checks both envelope endpoints make, in their order *)
Definition ciphertext_envelope (data : json) (server_key : bool) : HM jdict :=
  let envelope := _extract_ciphertext_envelope data server_key in
  let* _ := return_if (_payload_has_plaintext_fields data) plaintext_forbidden in
  let* _ := return_if (_payload_has_unexpected_relay_fields data server_key)
              unexpected_forbidden in
  or_return envelope invalid_request.

Definition api_v1_relay_requests (data : json) : RM reply := respond (
  let* _ := call (_evict_stale_servers cfg) in
  let* envelope := ciphertext_envelope data true in
  let server_public_key := jget envelope "server_public_key" in
  let envelope := ddel envelope "server_public_key"%pystr in
  let* _ := return_if (negb (truthy (jget envelope "client_public_key")))
              (error_reply "Missing client public key" 400) in
  let* queued_at := call wall_time in
  let deadline_seconds := _api_v1_request_deadline_seconds (environ cfg) in
  let* now := call monotonic in
  let deadline := fadd now deadline_seconds in
  let envelope := dict_update envelope
    [("e2ee_v1", JBool true); ("_queued_at", JFloat queued_at);
     ("request_deadline_remaining_seconds", JFloat deadline_seconds);
     ("request_ttl_seconds", JFloat deadline_seconds);
     ("_request_deadline_monotonic", JFloat deadline)]%pystr in
  let* key := call_val (dict_key server_public_key) in
  let* key := or_return key server_not_found in
  let* s := get_state in
  let* payload := or_return (dget (known_servers s) key) server_not_found in
  let* _ := return_if (negb (sp_api_v1_registered payload)) server_not_found in
  let* names := call_val (lifecycle_names (jget envelope "client_public_key")
                            (jget envelope "request_id")) in
  let* _ := match names with
            | Some (c, r) => call (_mark_request_pending c r (jget envelope "cancel_token")
                                     (Some deadline))
            | None => ret tt
            end in
  let* _ := modify (fun s => with_client_inference_requests
              (dset (client_inference_requests s) key
                 (dget_or (client_inference_requests s) key [] ++ [envelope])) s) in
  let* metadata := call (_api_v1_deadline_metadata (Some deadline)) in
  ret (object_reply [("message"%pystr, JStr "Request received")] metadata 200)).

Definition api_v1_relay_requests_cancel (data : json) : RM reply := respond (
  match data with
  | JDict d =>
      let* names := call_val (lifecycle_names (jget d "client_public_key") (jget d "request_id")) in
      let* names := or_return names invalid_request in
      let '(c, r) := names in
      let* s := get_state in
      let refused := error_reply "Missing or invalid cancel proof" 403 in
      let* expected := or_return (_cancel_token_for_queued_or_in_flight_request s c r) refused in
      match jget d "cancel_token" with
      | JStr provided =>
          let* equal := call_val (compare_digest_text provided expected) in
          let* _ := return_if (negb equal) refused in
          let status := _sanitize_terminal_status (jget d "status") in
          let reason := _sanitize_terminal_reason (jget d "reason") status in
          let* removed := call (cancel_request cfg c r (JStr status) (JStr reason)) in
          ret (Reply (JDict [("status", JStr status); ("request_id", JStr r);
                             ("removed_from_queue", JInt removed)]%pystr) 200)
      | _ => ret refused
      end
  | _ => ret invalid_request
  end).

(** ** Responses *)

Definition no_longer_waiting (status : pystr) : reply :=
  Reply (JDict [("error", JDict
    [("message", JStr "Request is no longer waiting for a response"); ("code", JStr status);
     ("status", JStr status)])]%pystr) 410.

(** [if terminal is not None: return ...] *)
Definition return_if_terminal (c r : pystr) : HM unit :=
  let* terminal := call (_get_terminal_request c r) in
  match terminal with
  | Some t => raise (Returned (no_longer_waiting (te_status t)))
  | None => ret tt
  end.

(** The first node with the client's request in flight gives it up. *)
Fixpoint release_in_flight (c r : pystr) (servers : list (pystr * ServerPayload)) : RM bool :=
  match servers with
  | [] => ret false
  | (key, payload) :: rest =>
      match in_flight_entry_of c r payload with
      | Some _ =>
          let remaining := ddel (default [] (sp_in_flight_requests payload)) r in
          let* _ := modify (fun s => with_known_servers
                      (dset (known_servers s) key
                         (with_in_flight (match remaining with [] => None | _ => Some remaining end)
                            payload)) s) in
          ret true
      | None => release_in_flight c r rest
      end
  end.

(** Stores the response of a lifecycle that was live, once. *)
Definition complete_response (c r : pystr) (envelope : jdict) (lifecycle_owned : bool) : HM reply :=
  let* _ :=
    if lifecycle_owned then ret tt
    else
      let* completed := call (_has_request_terminal_outcome c r) in
      raise (Returned (no_longer_waiting (if completed then "completed" else "gone"))) in
  let* recorded := call (_record_request_terminal_outcome_once cfg c r "completed") in
  let* _ :=
    if recorded then ret tt
    else
      let* terminal := call (_get_terminal_request c r) in
      raise (Returned (no_longer_waiting
                         (match terminal with Some t => te_status t | None => "cancelled" end))) in
  let* _ := call (_clear_client_progress c r) in
  let* _ := call (_queue_client_response c envelope) in
  ret (message_reply "Response received and queued for client").

(** A response for a named request: stored when it ends a live lifecycle *)
Definition store_response (c r : pystr) (envelope : jdict) : HM reply :=
  let* _ := return_if_terminal c r in
  let* s := get_state in
  let* _ := return_if (_has_client_response_for_request s c r)
              (message_reply "Response already queued for client") in
  let* _ := call (_expire_pending_request_if_stale cfg c r) in
  let* _ := return_if_terminal c r in
  let* s := get_state in
  let* in_flight := call (release_in_flight c r (known_servers s)) in
  let* queued := call (_remove_request_from_server_queues c r) in
  let* pending := call (_clear_pending_request c r) in
  let lifecycle_owned := in_flight || negb (queued =? 0) || pending in
  let* _ := return_if_terminal c r in
  complete_response c r envelope lifecycle_owned.

Definition api_v1_relay_responses (header : pystr) (data : json) : RM reply := respond (
  let* _ := require_server_token cfg header in
  let* envelope := ciphertext_envelope data false in
  let* name := call_val (name_of (jget envelope "client_public_key")) in
  let* c := or_return name invalid_request in
  match jget envelope "request_id" with
  | JStr r =>
      if py_empty r then
        let* _ := call (_queue_client_response c envelope) in
        ret (message_reply "Response received and queued for client")
      else store_response c r envelope
  | _ =>
      let* _ := call (_queue_client_response c envelope) in
      ret (message_reply "Response received and queued for client")
  end).

(** ** Progress *)

Definition _API_V1_PROGRESS_CLIENT_FIELDS : list pystr :=
  ["client_public_key"; "request_id"; "protocol"; "version"; "ciphertext"; "cipherkey"; "iv"]%pystr.

Definition _API_V1_PROGRESS_FIELDS : list pystr :=
  (["server_public_key"; "control_credential"] ++ _API_V1_PROGRESS_CLIENT_FIELDS)%pystr.

(** [set(data) == fields] *)
Definition has_exactly_fields (d : jdict) (fields : list pystr) : bool :=
  forallb (fun k => pystr_in k fields) (dkeys d) && forallb (fun k => dmem d k) fields.

(** [v == 1] *)
Definition json_is_one (v : json) : bool :=
  match v with
  | JBool b => b
  | JInt z => z =? 1
  | JFloat f => feq f f1
  | _ => false
  end.

Definition api_v1_relay_progress (header : pystr) (data : json) : RM reply := respond (
  let* _ := require_server_token cfg header in
  let bad_schema := error_reply "Invalid encrypted progress schema" 400 in
  match data with
  | JDict d =>
      let* _ := return_if (negb (has_exactly_fields d _API_V1_PROGRESS_FIELDS)) bad_schema in
      let* _ := return_if (_payload_has_plaintext_fields data)
                  (error_reply "Plaintext progress is forbidden" 400) in
      let* _ := return_if (negb (jeq_str (jget d "protocol") "tokenplace_api_v1_relay_e2ee")
                           || negb (json_is_one (jget d "version")))
                  (error_reply "Invalid encrypted progress protocol" 400) in
      let* _ := return_if
                  (negb (forallb (fun key => bool_decide (key = "version"%pystr)
                                             || is_nonempty_str (jget d key))
                           _API_V1_PROGRESS_FIELDS))
                  (error_reply "Invalid encrypted progress envelope" 400) in
      let key := str_value (jget d "server_public_key") in
      let c := str_value (jget d "client_public_key") in
      let r := str_value (jget d "request_id") in
      let* now := call monotonic in
      let* s := get_state in
      let server := match dget (known_servers s) key with
                    | Some p => if sp_api_v1_registered p then Some p else None
                    | None => None
                    end in
      let* valid := call_val (_api_v1_server_control_credential_valid server
                                (jget d "control_credential")) in
      let* _ := return_if (negb valid) bad_credential in
      let* server := or_return server bad_credential in
      let* entry := or_return (in_flight_entry_of c r server)
                      (error_reply "Progress request is not active for this owner" 410) in
      let* _ := return_if (has_expired (if_request_deadline_monotonic entry) now)
                  (error_reply "Progress request has expired" 410) in
      let envelope : jdict := map (fun k => (k, jget d k)) _API_V1_PROGRESS_CLIENT_FIELDS in
      let* _ := modify (fun s => with_client_progress
                  (dset (client_progress s) (c, r) envelope) s) in
      ret (Reply (JDict [("message"%pystr, JStr "Encrypted progress accepted")]) 202)
  | _ => ret bad_schema
  end).

(** ** Retrieval *)

Definition terminal_reply (t : TerminalEntry) : reply :=
  Reply (JDict [("error", JDict
    [("message", JStr ("Request " +++ te_status t)); ("code", JStr (te_status t));
     ("status", JStr (te_status t)); ("reason", JStr (te_reason t))])]%pystr) 410.

Definition return_terminal (c r : pystr) : HM unit :=
  let* terminal := call (_get_terminal_request c r) in
  match terminal with
  | Some t => raise (Returned (terminal_reply t))
  | None => ret tt
  end.

(** The reply while the request is still pending, with its latest progress *)
Definition retrieve_pending (c r : pystr) : HM unit :=
  let* is_pending := call (_is_request_pending cfg c r) in
  if is_pending then
    let* s := get_state in
    let deadline := _pending_request_deadline s c r in
    let* progress := call (_pop_client_progress c r) in
    let* metadata := call (_api_v1_deadline_metadata deadline) in
    raise (Returned (object_reply [("status"%pystr, JStr "pending")]
      (metadata ++ match progress with
                   | Some e => [("encrypted_progress"%pystr, JDict e)]
                   | None => []
                   end) 202))
  else ret tt.

Definition api_v1_relay_responses_retrieve (data : json) : RM reply := respond (
  let* missing := call_val (misses_fields data ["client_public_key"]%pystr) in
  let* _ := return_if missing invalid_request in
  let* client_public_key := call_val (json_item data "client_public_key") in
  let* request_id := call_val (json_get data "request_id") in
  let* client := call_val (dict_key client_public_key) in
  let* request := call_val (name_of request_id) in
  let c := default ""%pystr client in
  let r := default ""%pystr request in
  let* terminal := call (_get_terminal_request c r) in
  let* _ := match terminal with
            | Some t =>
                let* _ := call (_remove_client_responses_for_request c r) in
                raise (Returned (terminal_reply t))
            | None => ret tt
            end in
  let* response := match client with
                   | Some c => call (_pop_client_response c request)
                   | None => ret None
                   end in
  match response with
  | Some envelope => ret (Reply (JDict envelope) 200)
  | None =>
      let* _ := call (_expire_pending_request_if_stale cfg c r) in
      let* _ := return_terminal c r in
      let* _ := retrieve_pending c r in
      let* _ := return_terminal c r in
      match request with
      | Some r => ret (error_reply ("Unknown request_id: " +++ r) 404)
      | None => ret (error_reply "No response available for the given public key" 404)
      end
  end).

End handlers.
