(* ===== verification/RelayInv.v ===== *)
(** * relay.py: the state invariant

    What holds of the globals between any two handlers: dictionaries without
    repeated keys, well-formed node payloads, a round-robin cursor in range, one
    stored response per request, and no request that is both answered and
    terminated.  Most helpers change neither the set of nodes nor the stored
    responses; [Kept] is the invariant with those fixed. *)

From S2P Require Import Prelude PyFloat PyStr PyDict PyText Json Sha256 RelayTypes RelayConfig.
From S2P Require Import RelayLifecycle RelayRegistry.
#[local] Open Scope Z_scope.

(** ** Nested tables *)
Section nested.
Context {V : Type}.
Implicit Types (d : dict pystr (dict pystr V)).

Definition nested_ok d : Prop :=
  nodup_keys d /\ forall c inner, dget d c = Some inner -> nodup_keys inner.

Lemma nested_ok_nil : nested_ok [].
Proof. split; [constructor|done]. Qed.

Lemma nodup_nil_keys {K W} : nodup_keys ([] : dict K W).
Proof. constructor. Qed.

Lemma nested_inner d c : nested_ok d -> nodup_keys (dget_or d c []).
Proof.
  intros [_ Hd]. unfold dget_or. destruct (dget d c) eqn:E; simpl; [by eapply Hd|constructor].
Qed.

Lemma nget_nset d c r v c' r' :
  nget (nset d c r v) c' r' = if bool_decide (c' = c /\ r' = r) then Some v else nget d c' r'.
Proof.
  unfold nget, nset, dget_or. rewrite dget_dset. case_bool_decide as Hc.
  - subst. simpl. rewrite dget_dset. repeat case_bool_decide; naive_solver.
  - rewrite bool_decide_eq_false_2 by naive_solver. done.
Qed.

Lemma nested_ok_nset d c r v : nested_ok d -> nested_ok (nset d c r v).
Proof.
  intros Hd. split; [apply nodup_dset, Hd|]. intros c' inner. unfold nset.
  rewrite dget_dset. case_bool_decide; [intros [= <-]; by apply nodup_dset, nested_inner|apply Hd].
Qed.

Lemma nget_npop d c r c' r' : nested_ok d ->
  nget (npop d c r) c' r' = if bool_decide (c' = c /\ r' = r) then None else nget d c' r'.
Proof.
  intros Hd. pose proof (nested_inner d c Hd) as Hi. unfold nget, npop, dget_or.
  fold (dget_or d c []). destruct (ddel (dget_or d c []) r) as [|x rest] eqn:E.
  - rewrite dget_ddel by apply Hd. case_bool_decide as Hc; simpl.
    + subst. pose proof (dget_ddel (dget_or d c []) r r' Hi) as Hr. rewrite E in Hr. simpl in Hr.
      repeat case_bool_decide; naive_solver.
    + rewrite bool_decide_eq_false_2 by naive_solver. done.
  - rewrite dget_dset. case_bool_decide as Hc; cbn [default from_option id].
    + subst. rewrite <- E, dget_ddel by done. unfold dget_or.
      repeat case_bool_decide; naive_solver.
    + rewrite bool_decide_eq_false_2 by naive_solver. done.
Qed.

Lemma nested_ok_npop d c r : nested_ok d -> nested_ok (npop d c r).
Proof.
  intros Hd. pose proof (nested_inner d c Hd) as Hi. unfold npop.
  pose proof (nodup_ddel _ r Hi) as Hr. destruct (ddel (dget_or d c []) r) as [|x rest] eqn:E.
  - split; [apply nodup_ddel, Hd|]. intros c' inner. rewrite dget_ddel by apply Hd.
    case_bool_decide; [done|apply Hd].
  - split; [apply nodup_dset, Hd|]. intros c' inner. rewrite dget_dset.
    case_bool_decide; [by intros [= <-]|apply Hd].
Qed.

Lemma dget_nprune d expired c : nested_ok d ->
  dget (nprune expired d) c =
    match dget d c with
    | Some inner => match bfilter (fun rv => negb (expired rv.2)) inner with
                    | [] => None | rest => Some rest end
    | None => None
    end.
Proof.
  intros [Hn _]. unfold nprune. rewrite dget_bfilter.
  - rewrite (dget_map (fun _ (v : dict pystr V) => bfilter (fun rv => negb (expired rv.2)) v) d c).
    destruct (dget d c) as [inner|]; cbn; [|done].
    by destruct (bfilter (fun rv => negb (expired rv.2)) inner).
  - by apply (nodup_map (fun _ v => bfilter (fun rv => negb (expired rv.2)) v)).
Qed.

Lemma nget_nprune d expired c r : nested_ok d ->
  nget (nprune expired d) c r =
    match nget d c r with Some v => if expired v then None else Some v | None => None end.
Proof.
  intros Hd. unfold nget, dget_or. rewrite dget_nprune by done.
  destruct (dget d c) as [inner|] eqn:E; cbn [default from_option id]; [|done].
  assert (Hi : nodup_keys inner) by (by eapply Hd).
  transitivity (dget (bfilter (fun rv => negb (expired rv.2)) inner) r).
  - by destruct (bfilter (fun rv => negb (expired rv.2)) inner).
  - rewrite dget_bfilter by done. destruct (dget inner r) as [v|]; simpl; [|done].
    by destruct (expired v).
Qed.

Lemma nested_ok_nprune d expired : nested_ok d -> nested_ok (nprune expired d).
Proof.
  intros Hd. split.
  - unfold nprune. apply nodup_bfilter.
    by apply (nodup_map (fun _ v => bfilter (fun rv => negb (expired rv.2)) v)), Hd.
  - intros c inner. rewrite dget_nprune by done. destruct (dget d c) as [i|] eqn:E; [|done].
    destruct (bfilter _ i) eqn:E'; [done|]. intros [= <-]. rewrite <- E'.
    apply nodup_bfilter. by eapply Hd.
Qed.

End nested.

#[export] Hint Resolve nested_ok_nset nested_ok_npop nested_ok_nprune nested_ok_nil nodup_bfilter
  nodup_nil_keys : dict_db.

(** ** Nodes *)

(** Keys and API v1 markers of the known servers, in order *)
Definition markers (servers : dict pystr ServerPayload) : list (pystr * bool) :=
  map (fun kv => (kv.1, sp_api_v1_registered kv.2)) servers.

Lemma markers_keys servers : map fst (markers servers) = dkeys servers.
Proof. unfold markers, dkeys. by rewrite map_map. Qed.

Lemma markers_dset servers k p :
  nodup_keys servers -> (k, sp_api_v1_registered p) ∈ markers servers ->
  markers (dset servers k p) = markers servers.
Proof.
  unfold nodup_keys, dkeys, markers. induction servers as [|[k0 p0] d IH]; simpl.
  - by intros _ ?%not_elem_of_nil.
  - intros [Hk Hd]%NoDup_cons Hin. case_bool_decide as E; simpl.
    + subst k0. apply elem_of_cons in Hin as [[= <-]|Hin]; [done|].
      contradict Hk. apply list_elem_of_fmap in Hin as ([k' p'] & [= <- _] & Hin).
      apply list_elem_of_fmap. by exists (k, p').
    + f_equal. apply IH; [done|]. apply elem_of_cons in Hin as [[= <- _]|]; done.
Qed.

Lemma elem_markers servers k p :
  dget servers k = Some p -> (k, sp_api_v1_registered p) ∈ markers servers.
Proof.
  intros Hp%dget_elem_of. unfold markers. apply list_elem_of_fmap. by exists (k, p).
Qed.

Lemma round_robin_keys_markers s :
  _api_v1_round_robin_keys s = map fst (bfilter snd (markers (known_servers s))).
Proof.
  unfold _api_v1_round_robin_keys, markers, dkeys, bfilter.
  induction (known_servers s) as [|[k p] d IH]; simpl; [done|].
  destruct (sp_api_v1_registered p); simpl; by rewrite IH.
Qed.

Record node_ok (k : pystr) (p : ServerPayload) : Prop := {
  no_key : sp_public_key p = k;
  no_owner : sp_api_v1_registered p = true ->
    exists caps digest, sp_capabilities p = Some caps /\ api_capabilities_ok caps /\
      sp_control_credential_digest p = Some digest /\ py_empty digest = false;
  no_caps : forall caps, sp_capabilities p = Some caps -> api_capabilities_ok caps;
  no_in_flight : forall entries, sp_in_flight_requests p = Some entries ->
    nodup_keys entries /\ entries ≠ []
}.

Definition cursor_ok (ms : list (pystr * bool)) (cursor : Z) : Prop :=
  0 <= cursor /\ (cursor = 0 \/ cursor < zlen (bfilter snd ms)).

(** ** Responses *)

Definition stored_in (responses : dict pystr QueuedResponses) (c : pystr) : list jdict :=
  match dget responses c with
  | None => []
  | Some (OneResponse e) => [e]
  | Some (ManyResponses l) => l
  end.

Definition answered (responses : dict pystr QueuedResponses) (c r : pystr) : bool :=
  negb (no_text c) && negb (no_text r) && existsb (response_for r) (stored_in responses c).

Lemma has_response_answered s c r :
  _has_client_response_for_request s c r = answered (client_responses s) c r.
Proof.
  unfold _has_client_response_for_request, answered, stored_responses, stored_in.
  by destruct (no_text c), (no_text r).
Qed.

Record responses_ok (responses : dict pystr QueuedResponses) : Prop := {
  ro_nodup : nodup_keys responses;
  ro_many : forall c l, dget responses c = Some (ManyResponses l) -> (2 <= length l)%nat;
  ro_once : forall c r, no_text c = false -> no_text r = false ->
    bcount (response_for r) (stored_in responses c) <= 1
}.

(** ** The invariant *)

Record RInv (s : RelayState) : Prop := {
  ri_servers : nodup_keys (known_servers s);
  ri_nodes : forall k p, dget (known_servers s) k = Some p -> node_ok k p;
  ri_cursor : cursor_ok (markers (known_servers s)) (server_round_robin_next_index s);
  ri_queues : nodup_keys (client_inference_requests s);
  ri_responses : responses_ok (client_responses s);
  ri_pending : nested_ok (client_pending_request_ids s);
  ri_deadlines : nested_ok (client_pending_request_deadlines s);
  ri_terminals : nested_ok (client_terminal_request_ids s);
  ri_outcomes : nested_ok (client_terminal_outcomes s);
  ri_exclusive : forall c r, answered (client_responses s) c r = true ->
    nget (client_terminal_request_ids s) c r = None;
  ri_progress : nodup_keys (client_progress s);
  ri_tombstones : nodup_keys (api_v1_control_tombstones s)
}.

Lemma initial_RInv : RInv initial_relay.
Proof.
  split; simpl; try apply nodup_nil_keys; try apply nested_ok_nil; try done.
  - split; [lia|by left].
  - split; [constructor|done|]. intros c r _ _. unfold stored_in. simpl. rewrite bcount_nil. lia.
Qed.

(** The invariant with the nodes, the cursor and the stored responses fixed *)
Record Kept (ms : list (pystr * bool)) (cursor : Z) (responses : dict pystr QueuedResponses)
  (s : RelayState) : Prop := {
  kp_inv : RInv s;
  kp_markers : markers (known_servers s) = ms;
  kp_cursor : server_round_robin_next_index s = cursor;
  kp_responses : client_responses s = responses
}.

(** [m] changes neither the nodes, nor the cursor, nor the stored responses. *)
Definition kept {E A} (m : SM RelayState E A) : Prop :=
  forall ms i resp, keeps (Kept ms i resp) m.

Lemma kept_inv {E A} (m : SM RelayState E A) : kept m -> keeps RInv m.
Proof. intros Hm s Hs. by destruct (Hm _ _ _ s (Build_Kept _ _ _ s Hs eq_refl eq_refl eq_refl)). Qed.

Lemma kept_state {E A} (m : SM RelayState E A) s :
  kept m -> RInv s ->
  RInv (m s).1 /\ markers (known_servers (m s).1) = markers (known_servers s) /\
  server_round_robin_next_index (m s).1 = server_round_robin_next_index s /\
  client_responses (m s).1 = client_responses s.
Proof. intros Hm Hs. by destruct (Hm _ _ _ s (Build_Kept _ _ _ s Hs eq_refl eq_refl eq_refl)). Qed.

Lemma kept_reading {A} (f : nat -> A) : kept (reading f).
Proof. intros ms i resp s [[] ???]. split; [|done..]. by split. Qed.

Section kept_rules.
Context {E : Type}.
#[local] Notation PM := (SM RelayState E).

Lemma kept_ret {A} (a : A) : kept (ret a : PM A).
Proof. intros ms i resp. apply keeps_ret. Qed.
Lemma kept_raise {A} (e : E) : kept (raise e : PM A).
Proof. intros ms i resp. apply keeps_raise. Qed.
Lemma kept_lift_val {A} (r : E + A) : kept (lift_val r).
Proof. intros ms i resp. apply keeps_lift_val. Qed.
Lemma kept_from_option {A} (o : option A) (e : E) : kept (from_option o e).
Proof. intros ms i resp. apply keeps_from_option. Qed.
Lemma kept_bind {A B} (m : PM A) (f : A -> PM B) : kept m -> (forall a, kept (f a)) -> kept (bind m f).
Proof. intros Hm Hf ms i resp. apply keeps_bind; [apply Hm|]. intros a. apply Hf. Qed.
Lemma kept_get {B} (f : RelayState -> PM B) :
  (forall s, RInv s -> kept (f s)) -> kept (bind get_state f).
Proof. intros Hf ms i resp s Hs. by apply Hf; [apply Hs|]. Qed.
Lemma kept_for_each {X} (l : list X) (body : X -> PM unit) :
  (forall x, kept (body x)) -> kept (for_each l body).
Proof. intros Hb ms i resp. apply keeps_for_each. intros x. apply Hb. Qed.

Lemma kept_raise_if c (e : E) : kept (raise_if c e).
Proof. intros ms i resp. apply keeps_raise_if. Qed.

(** ** Updates of one table *)

Lemma kept_modify (f : RelayState -> RelayState) :
  (forall s, RInv s -> RInv (f s)) -> (forall s, known_servers (f s) = known_servers s) ->
  (forall s, server_round_robin_next_index (f s) = server_round_robin_next_index s) ->
  (forall s, client_responses (f s) = client_responses s) -> kept (modify f : PM unit).
Proof.
  intros Hi Hk Hc Hr ms i resp s [HI Hm Hcur Hresp]. simpl.
  split; [by apply Hi|by rewrite Hk|by rewrite Hc|by rewrite Hr].
Qed.

Lemma kept_pending f :
  (forall s, nested_ok (client_pending_request_ids s) -> nested_ok (f s)) ->
  kept (modify (fun s => with_client_pending_request_ids (f s) s) : PM unit).
Proof. intros Hf. apply kept_modify; try done. intros s []. split; try done. by apply Hf. Qed.

Lemma kept_deadlines f :
  (forall s, nested_ok (client_pending_request_deadlines s) -> nested_ok (f s)) ->
  kept (modify (fun s => with_client_pending_request_deadlines (f s) s) : PM unit).
Proof. intros Hf. apply kept_modify; try done. intros s []. split; try done. by apply Hf. Qed.

Lemma kept_outcomes f :
  (forall s, nested_ok (client_terminal_outcomes s) -> nested_ok (f s)) ->
  kept (modify (fun s => with_client_terminal_outcomes (f s) s) : PM unit).
Proof. intros Hf. apply kept_modify; try done. intros s []. split; try done. by apply Hf. Qed.

(** Terminal entries may go. *)
Lemma kept_terminals f :
  (forall s, nested_ok (client_terminal_request_ids s) -> nested_ok (f s) /\
     forall c r, nget (client_terminal_request_ids s) c r = None -> nget (f s) c r = None) ->
  kept (modify (fun s => with_client_terminal_request_ids (f s) s) : PM unit).
Proof.
  intros Hf. apply kept_modify; try done. intros s [? ? ? ? ? ? ? Ht ? Hex ? ?].
  destruct (Hf s Ht) as [Hok Hnone]. split; try done. intros c r Ha. by apply Hnone, Hex.
Qed.

Lemma kept_queues f :
  (forall s, nodup_keys (client_inference_requests s) -> nodup_keys (f s)) ->
  kept (modify (fun s => with_client_inference_requests (f s) s) : PM unit).
Proof. intros Hf. apply kept_modify; try done. intros s []. split; try done. by apply Hf. Qed.

Lemma kept_progress f :
  (forall s, nodup_keys (client_progress s) -> nodup_keys (f s)) ->
  kept (modify (fun s => with_client_progress (f s) s) : PM unit).
Proof. intros Hf. apply kept_modify; try done. intros s []. split; try done. by apply Hf. Qed.

Lemma kept_tombstones f :
  (forall s, nodup_keys (api_v1_control_tombstones s) -> nodup_keys (f s)) ->
  kept (modify (fun s => with_api_v1_control_tombstones (f s) s) : PM unit).
Proof. intros Hf. apply kept_modify; try done. intros s []. split; try done. by apply Hf. Qed.

Lemma kept_log f : kept (modify (fun s => with_request_outcomes (f s) s) : PM unit).
Proof. apply kept_modify; try done. intros s []. by split. Qed.

End kept_rules.

Lemma kept_call {A} (m : RM A) : kept m -> kept (call m).
Proof.
  intros Hm ms i resp s Hs. specialize (Hm ms i resp s Hs). unfold call.
  by destruct (m s) as [s' [e|a]].
Qed.

Lemma kept_respond (h : HM reply) : kept h -> kept (respond h).
Proof.
  intros Hh ms i resp s Hs. specialize (Hh ms i resp s Hs). unfold respond.
  by destruct (h s) as [s' [[e|r]|r]].
Qed.

Lemma keeps_call {A} P (m : RM A) : keeps P m -> keeps P (call m).
Proof. intros Hm s Hs. specialize (Hm s Hs). unfold call. by destruct (m s) as [s' [e|a]]. Qed.

Lemma keeps_respond P (h : HM reply) : keeps P h -> keeps P (respond h).
Proof.
  intros Hh s Hs. specialize (Hh s Hs). unfold respond. by destruct (h s) as [s' [[e|r]|r]].
Qed.

(** A known node's payload may change, its marker may not. *)
Lemma Kept_server ms i resp s k p :
  Kept ms i resp s -> node_ok k p -> (k, sp_api_v1_registered p) ∈ ms ->
  Kept ms i resp (with_known_servers (dset (known_servers s) k p) s).
Proof.
  intros [[] <- <- <-] Hp Hin.
  assert (Hms : markers (dset (known_servers s) k p) = markers (known_servers s))
    by (by apply markers_dset).
  split; try done. split; simpl; try done.
  - by apply nodup_dset.
  - intros k' p'. rewrite dget_dset. case_bool_decide; [by intros [= <-]; subst|auto].
  - by rewrite Hms.
Qed.

Create HintDb kept_db.
#[export] Hint Resolve kept_ret kept_raise kept_lift_val kept_from_option kept_raise_if
  kept_reading kept_log : kept_db.

(** Splits a straight-line helper into the updates it makes. *)
Ltac kept_auto :=
  repeat match goal with
  | |- forall _, _ => intro
  | |- kept (respond _) => apply kept_respond
  | |- kept (call _) => apply kept_call
  | |- kept (call_val _) => apply kept_call
  | |- kept (return_if _ _) => apply kept_raise_if
  | |- kept (or_return _ _) => apply kept_from_option
  | |- kept (bind get_state _) => apply kept_get; intros ? ?
  | |- kept (bind _ _) => apply kept_bind
  | |- kept (for_each _ _) => apply kept_for_each
  | |- kept (modify (fun s => with_client_pending_request_ids _ _)) => apply kept_pending
  | |- kept (modify (fun s => with_client_pending_request_deadlines _ _)) => apply kept_deadlines
  | |- kept (modify (fun s => with_client_terminal_outcomes _ _)) => apply kept_outcomes
  | |- kept (modify (fun s => with_client_inference_requests _ _)) => apply kept_queues
  | |- kept (modify (fun s => with_client_progress _ _)) => apply kept_progress
  | |- kept (modify (fun s => with_api_v1_control_tombstones _ _)) => apply kept_tombstones
  | |- kept (match ?x with _ => _ end) => destruct x
  | |- kept _ => solve [eauto with kept_db]
  | |- nested_ok _ => solve [eauto with dict_db]
  | |- nodup_keys _ => solve [eauto with dict_db]
  end.
