(* ===== verification/RelayKept.v ===== *)
(** * relay.py: what the lifecycle helpers keep

    Every helper of the request lifecycle, and the pruning of in-flight entries,
    keeps the invariant together with the set of nodes, the round-robin cursor and
    the stored responses. *)

From S2P Require Import Prelude PyFloat PyStr PyDict Sha256 PyText Json RelayTypes.
From S2P Require Import RelayConfig RelayLifecycle RelayRegistry RelayStreams.
From S2P Require Import RelayHandlers RelayInv.
#[local] Open Scope Z_scope.

Section kept.
Context `{!PyNumbers, !PyUnicode, !Clock, !Crypto}.
Variable cfg : RelaySettings.

Lemma kept_monotonic : kept monotonic.
Proof. apply kept_reading. Qed.
Lemma kept_wall_time : kept wall_time.
Proof. apply kept_reading. Qed.
Lemma kept_datetime_now : kept datetime_now.
Proof. apply kept_reading. Qed.
Lemma kept_token : kept token_urlsafe.
Proof. apply kept_reading. Qed.
#[local] Hint Resolve kept_monotonic kept_wall_time kept_datetime_now kept_token : kept_db.

Lemma kept_record_once c r outcome : kept (_record_request_terminal_outcome_once cfg c r outcome).
Proof. unfold _record_request_terminal_outcome_once, _record_terminal_outcome. kept_auto. Qed.

Lemma kept_has_outcome c r : kept (_has_request_terminal_outcome c r).
Proof. unfold _has_request_terminal_outcome. kept_auto. Qed.

Lemma kept_nprune_terminals expired :
  kept (modify (fun s => with_client_terminal_request_ids
    (nprune expired (client_terminal_request_ids s)) s) : RM unit).
Proof.
  apply kept_terminals. intros s Hs. split; [by apply nested_ok_nprune|].
  intros c r Hn. by rewrite nget_nprune, Hn.
Qed.

Lemma kept_npop_terminal c r :
  kept (modify (fun s => with_client_terminal_request_ids
    (npop (client_terminal_request_ids s) c r) s) : RM unit).
Proof.
  apply kept_terminals. intros s Hs. split; [by apply nested_ok_npop|].
  intros c' r' Hn. rewrite nget_npop by done. by case_bool_decide.
Qed.
#[local] Hint Resolve kept_nprune_terminals kept_npop_terminal : kept_db.

Lemma kept_prune_terminals now : kept (_prune_terminal_requests now).
Proof. unfold _prune_terminal_requests. kept_auto. Qed.

Lemma kept_get_terminal c r : kept (_get_terminal_request c r).
Proof. unfold _get_terminal_request. kept_auto. Qed.
#[local] Hint Resolve kept_record_once kept_has_outcome kept_prune_terminals kept_get_terminal
  : kept_db.

(** A terminal entry may be added for a request without a stored response. *)
Lemma keeps_add_terminal ms i resp c r t :
  answered resp c r = false ->
  keeps (Kept ms i resp) (modify (fun s => with_client_terminal_request_ids
    (nset (client_terminal_request_ids s) c r t) s) : RM unit).
Proof.
  intros Ha. apply keeps_modify. intros s [Hi ? ? Hresp]. pose proof (ri_exclusive s Hi) as Hex.
  destruct Hi. split; try done. split; try done.
  - by apply nested_ok_nset.
  - intros c' r' Ha'. simpl in *. rewrite nget_nset.
    case_bool_decide as E; [|by apply Hex]. destruct E as [-> ->]. congruence.
Qed.

Lemma keeps_mark_terminal ms i resp c r status reason :
  answered resp c r = false ->
  keeps (Kept ms i resp) (_mark_request_terminal cfg c r status reason).
Proof.
  intros Ha. unfold _mark_request_terminal. destruct (no_text c || no_text r); [apply keeps_ret|].
  apply keeps_bind; [apply kept_wall_time|]. intros now.
  apply keeps_bind; [apply kept_wall_time|]. intros prune_now.
  apply keeps_bind; [apply kept_prune_terminals|]. intros _.
  apply keeps_get_bind. intros s Hs. destruct (nget _ _ _); [done|].
  revert s Hs. apply keeps_bind; [by apply keeps_add_terminal|]. intros _. apply kept_record_once.
Qed.

Lemma kept_prune_tombstones now : kept (_prune_api_v1_control_tombstones now).
Proof. unfold _prune_api_v1_control_tombstones. kept_auto. Qed.
#[local] Hint Resolve kept_prune_tombstones : kept_db.

Lemma kept_add_tombstone server r client status reason deadline owner :
  kept (_add_api_v1_control_tombstone cfg server r client status reason deadline owner).
Proof. unfold _add_api_v1_control_tombstone. kept_auto. Qed.

Lemma dkeys_without_sublist c r queues :
  dkeys (without_request c r queues) `sublist_of` dkeys queues.
Proof.
  unfold without_request, dkeys. induction queues as [|[k q] d IH]; simpl; [done|].
  rewrite map_app. destruct (bfilter _ q) as [|x l]; [destruct q|]; simpl;
    [by apply sublist_skip|by apply sublist_cons|by apply sublist_skip].
Qed.

Lemma nodup_without_request c r queues :
  nodup_keys queues -> nodup_keys (without_request c r queues).
Proof. intros Hn. eapply sublist_NoDup; [exact Hn|apply dkeys_without_sublist]. Qed.

Lemma kept_remove_from_queues c r : kept (_remove_request_from_server_queues c r).
Proof.
  unfold _remove_request_from_server_queues. kept_auto.
  apply (kept_queues (fun _ => without_request c r (client_inference_requests s))).
  intros _ _. by apply nodup_without_request, ri_queues.
Qed.

Lemma kept_clear_progress c r : kept (_clear_client_progress c r).
Proof. unfold _clear_client_progress. kept_auto. Qed.

Lemma kept_pop_progress c r : kept (_pop_client_progress c r).
Proof. unfold _pop_client_progress. kept_auto. Qed.

Lemma kept_mark_pending c r token deadline : kept (_mark_request_pending c r token deadline).
Proof.
  unfold _mark_request_pending. cbv zeta. destruct (no_text c || no_text r); [kept_auto|].
  apply kept_bind; [kept_auto|]. intros queued_at. apply kept_bind; [kept_auto|]. intros _.
  destruct deadline as [d|]; [|kept_auto]. destruct (is_finite d); kept_auto.
Qed.

Lemma kept_clear_pending c r : kept (_clear_pending_request c r).
Proof.
  unfold _clear_pending_request. kept_auto. destruct (dget _ c); [by apply nested_ok_npop|done].
Qed.

Lemma kept_entry_expired entry now deadline :
  kept (_pending_request_entry_is_expired cfg entry now deadline).
Proof.
  unfold _pending_request_entry_is_expired. cbv zeta.
  destruct (match pe_request_deadline_monotonic entry with Some _ => _ | None => _ end); [kept_auto|].
  destruct (fle _ _); [kept_auto|]. destruct now; kept_auto.
Qed.
#[local] Hint Resolve kept_add_tombstone kept_remove_from_queues kept_clear_progress
  kept_pop_progress kept_mark_pending kept_clear_pending kept_entry_expired : kept_db.

(** ** Cancellation *)

(** A snapshot of the known servers *)
Definition snapshot_ok (ms : list (pystr * bool)) (servers : list (pystr * ServerPayload)) : Prop :=
  Forall (fun kp => node_ok kp.1 kp.2 /\ (kp.1, sp_api_v1_registered kp.2) ∈ ms) servers.

Lemma known_snapshot s : RInv s -> snapshot_ok (markers (known_servers s)) (known_servers s).
Proof.
  intros Hs. apply Forall_forall. intros [k p] Hin. simpl.
  apply elem_of_dget in Hin; [|apply Hs]. split; [by apply (ri_nodes s Hs)|by apply elem_markers].
Qed.

Lemma node_ok_in_flight k p entries :
  node_ok k p -> (forall e, entries = Some e -> nodup_keys e /\ e ≠ []) ->
  node_ok k (with_in_flight entries p).
Proof. intros [] He. by split. Qed.

(** The entries left, or none *)
Definition remaining_entries (entries : dict pystr InFlightEntry) : option (dict pystr InFlightEntry) :=
  match entries with [] => None | _ => Some entries end.

Lemma remaining_ok entries e :
  nodup_keys entries -> remaining_entries entries = Some e -> nodup_keys e /\ e ≠ [].
Proof. intros Hn. destruct entries; [done|]. by intros [= <-]. Qed.

Lemma keeps_cancel_in_flight ms i resp c r status reason won servers :
  snapshot_ok ms servers ->
  keeps (Kept ms i resp) (cancel_in_flight cfg c r status reason won servers).
Proof.
  induction servers as [|[k p] rest IH]; intros Hsnap; simpl; [apply keeps_ret|].
  apply Forall_cons in Hsnap as [[Hok Hin] Hrest]. simpl in Hok, Hin. specialize (IH Hrest).
  destruct (sp_in_flight_requests p) as [entries|] eqn:Ee; [|done].
  destruct (dget entries r) as [entry|]; [|done]. destruct (jeq_str _ c); [|done].
  apply keeps_bind; [|intros _; apply keeps_bind].
  - apply keeps_modify. intros s Hs. apply Kept_server; [done| |done].
    apply node_ok_in_flight; [done|]. intros e He.
    apply (remaining_ok (ddel entries r)); [|done]. by apply nodup_ddel, (no_in_flight _ _ Hok).
  - destruct won; [apply keeps_ret|]. apply kept_add_tombstone.
  - intros _. apply keeps_bind; [done|]. intros n. apply keeps_ret.
Qed.

Lemma kept_cancel_request c r status reason : kept (cancel_request cfg c r status reason).
Proof.
  intros ms i resp. unfold cancel_request. cbv zeta.
  apply keeps_bind; [apply kept_clear_progress|]. intros _.
  apply keeps_get_bind. intros s0 Hs0. rewrite has_response_answered, (kp_responses _ _ _ _ Hs0).
  revert s0 Hs0. apply keeps_bind; [apply kept_remove_from_queues|]. intros removed.
  apply keeps_bind; [apply kept_clear_pending|]. intros pending.
  apply keeps_get_bind. intros s1 Hs1.
  assert (Hsnap : snapshot_ok ms (known_servers s1)).
  { rewrite <- (kp_markers _ _ _ _ Hs1). apply known_snapshot, Hs1. }
  revert s1 Hs1 Hsnap. intros s1 Hs1 Hsnap. generalize (known_servers s1), Hsnap. clear Hsnap.
  intros servers Hsnap. revert s1 Hs1.
  apply keeps_bind; [by apply keeps_cancel_in_flight|]. intros n.
  apply keeps_get_bind. intros s2 Hs2. rewrite has_response_answered, (kp_responses _ _ _ _ Hs2).
  revert s2 Hs2. apply keeps_bind; [|intros _; apply keeps_ret].
  destruct (answered resp c r) eqn:Ea; [rewrite andb_false_r; apply keeps_ret|].
  destruct (_ && _); [|apply keeps_ret].
  apply keeps_bind; [by apply keeps_mark_terminal|]. intros _. apply keeps_ret.
Qed.
#[local] Hint Resolve kept_cancel_request : kept_db.

Lemma kept_cancel client request status reason :
  kept (_cancel_api_v1_request cfg client request status reason).
Proof. unfold _cancel_api_v1_request. kept_auto. Qed.
#[local] Hint Resolve kept_cancel : kept_db.

Lemma kept_expire_if_stale c r : kept (_expire_pending_request_if_stale cfg c r).
Proof. unfold _expire_pending_request_if_stale. kept_auto. Qed.
#[local] Hint Resolve kept_expire_if_stale : kept_db.

Lemma kept_is_pending c r : kept (_is_request_pending cfg c r).
Proof. unfold _is_request_pending. kept_auto. Qed.

Lemma kept_expired_marks s now c ids : kept (expired_marks cfg s now c ids).
Proof. induction ids as [|[r entry] ids IH]; simpl; kept_auto; done. Qed.
#[local] Hint Resolve kept_expired_marks : kept_db.

Lemma kept_expired_pending s now clients : kept (expired_pending cfg s now clients).
Proof. induction clients as [|[c ids] rest IH]; simpl; kept_auto; done. Qed.
#[local] Hint Resolve kept_expired_pending : kept_db.

Lemma kept_expire_pending : kept (_expire_stale_pending_requests cfg).
Proof. unfold _expire_stale_pending_requests. kept_auto. Qed.

Lemma kept_ping_age last_ping : kept (_server_ping_age_seconds last_ping).
Proof. unfold _server_ping_age_seconds. kept_auto. Qed.
#[local] Hint Resolve kept_ping_age : kept_db.

Lemma kept_not_stale p cutoff : kept (not_stale p cutoff).
Proof. unfold not_stale. kept_auto. Qed.

Lemma kept_node_is_stale p now : kept (_api_v1_node_is_stale p now).
Proof. unfold _api_v1_node_is_stale. kept_auto. Qed.

Lemma kept_stale_candidates now servers : kept (stale_candidates now servers).
Proof. induction servers as [|[k p] rest IH]; simpl; kept_auto; done. Qed.

Lemma kept_prune_in_flight key now : kept (_prune_api_v1_stale_in_flight_entries cfg key now).
Proof.
  intros ms i resp. unfold _prune_api_v1_stale_in_flight_entries. apply keeps_get_bind.
  intros s Hs. destruct (dget (known_servers s) key) as [p|] eqn:Ep; [|done].
  destruct (sp_in_flight_requests p) as [entries|] eqn:Ee; [|done].
  pose proof (ri_nodes _ (kp_inv _ _ _ _ Hs) _ _ Ep) as Hok.
  assert (Hin : (key, sp_api_v1_registered p) ∈ ms).
  { rewrite <- (kp_markers _ _ _ _ Hs). by apply elem_markers. }
  revert s Hs Ep. intros s Hs _. revert s Hs. apply keeps_bind; [|intros _; apply keeps_bind].
  - apply keeps_modify. intros s Hs. apply Kept_server; [done| |done].
    apply node_ok_in_flight; [done|]. intros e He.
    eapply remaining_ok; [|exact He]. by apply nodup_bfilter, (no_in_flight _ _ Hok).
  - apply keeps_for_each. intros [r entry]. apply keeps_bind; [apply kept_cancel|]. intros _.
    apply keeps_ret.
  - intros _. apply keeps_ret.
Qed.

Lemma kept_cancel_dropped l : kept (cancel_dropped cfg l).
Proof. induction l; simpl; kept_auto; done. Qed.

Lemma kept_cancel_abandoned key owner entries : kept (cancel_abandoned cfg key owner entries).
Proof. induction entries as [|[r entry] rest IH]; simpl; kept_auto; done. Qed.

Lemma kept_record_unregistered key : kept (_record_api_v1_server_unregistered key).
Proof.
  unfold _record_api_v1_server_unregistered. kept_auto. apply kept_modify; try done.
  intros s []. by split.
Qed.

Lemma kept_recently_unregistered key : kept (_api_v1_server_was_recently_unregistered key).
Proof.
  unfold _api_v1_server_was_recently_unregistered. kept_auto. apply kept_modify; try done.
  intros s []. by split.
Qed.

(** Stream sessions take no part in the invariant. *)
Lemma kept_sessions f : kept (modify (fun s => with_streaming_sessions (f s) s) : RM unit).
Proof. apply kept_modify; try done. intros s []. by split. Qed.

Lemma kept_client_sessions f : kept (modify (fun s => with_streaming_sessions_by_client (f s) s) : RM unit).
Proof. apply kept_modify; try done. intros s []. by split. Qed.

Lemma kept_filtered_positions f :
  kept (modify (fun s => with_filtered_round_robin_next_positions (f s) s) : RM unit).
Proof. apply kept_modify; try done. intros s []. by split. Qed.
#[local] Hint Resolve kept_sessions kept_client_sessions kept_filtered_positions : kept_db.

Lemma kept_drop_streams key : kept (drop_server_streams key).
Proof. unfold drop_server_streams. kept_auto. Qed.


End kept.

#[export] Hint Resolve kept_monotonic kept_wall_time kept_datetime_now kept_token
  kept_record_once kept_has_outcome kept_prune_terminals kept_get_terminal kept_prune_tombstones
  kept_add_tombstone kept_remove_from_queues kept_clear_progress kept_pop_progress
  kept_mark_pending kept_clear_pending kept_entry_expired kept_cancel_request kept_cancel
  kept_expire_if_stale kept_is_pending kept_expire_pending kept_ping_age kept_not_stale
  kept_node_is_stale kept_stale_candidates kept_prune_in_flight kept_cancel_dropped
  kept_cancel_abandoned kept_record_unregistered kept_recently_unregistered kept_sessions
  kept_client_sessions kept_filtered_positions kept_drop_streams : kept_db.

(** * relay.py: node removal and selection keep the invariant

    Removal of a node with its work, eviction of stale nodes and selection, each as
    a computation that ends in a well-formed state whether it returns or lets an
    exception out. *)

(** ** Rules for [keeps RInv] *)

Lemma keeps_get_inv {E B} (f : RelayState -> SM RelayState E B) :
  (forall s, RInv s -> keeps RInv (f s)) -> keeps RInv (bind get_state f).
Proof. intros Hf. apply keeps_get_bind. intros s Hs. by apply Hf. Qed.

Create HintDb inv_db.

(** Splits a computation into parts that keep the invariant, most of them because
    they also keep the nodes and the responses. *)
Ltac inv_auto :=
  repeat match goal with
  | |- forall _, _ => intro
  | |- keeps RInv (respond _) => apply keeps_respond
  | |- keeps RInv (call _) => apply keeps_call
  | |- keeps RInv (bind get_state _) => apply keeps_get_inv; intros ? ?
  | |- keeps RInv (bind _ _) => apply keeps_bind
  | |- keeps RInv (match ?x with _ => _ end) => destruct x
  | |- keeps RInv _ => solve [eauto with inv_db]
  | |- keeps RInv _ => apply kept_inv; solve [kept_auto; eauto with dict_db]
  end.

(** ** Stored responses *)

Lemma stored_in_dset resp c q c' :
  stored_in (dset resp c q) c' =
    if bool_decide (c' = c)
    then match q with OneResponse e => [e] | ManyResponses l => l end
    else stored_in resp c'.
Proof. unfold stored_in. rewrite dget_dset. by case_bool_decide. Qed.

Lemma stored_in_store resp c l c' : nodup_keys resp ->
  stored_in (store_responses c l resp) c' = if bool_decide (c' = c) then l else stored_in resp c'.
Proof.
  intros Hn. unfold store_responses. destruct l as [|e [|e' l]]; [|by rewrite stored_in_dset..].
  unfold stored_in. rewrite dget_ddel by done. by case_bool_decide.
Qed.

Lemma bcount_sublist {A} (p : A -> bool) l k : l `sublist_of` k -> bcount p l <= bcount p k.
Proof.
  induction 1 as [|x l k _ IH|x l k _ IH]; rewrite ?bcount_nil, ?bcount_cons;
    [lia|destruct (p x); lia..].
Qed.

Lemma existsb_sublist {A} (p : A -> bool) l k :
  l `sublist_of` k -> existsb p l = true -> existsb p k = true.
Proof.
  intros Hl [x [Hx Hp]]%existsb_exists. apply existsb_exists. exists x. split; [|done].
  apply list_elem_of_In. eapply sublist_subseteq; [exact Hl|]. by apply list_elem_of_In.
Qed.

Lemma responses_ok_store resp c l :
  responses_ok resp -> l `sublist_of` stored_in resp c -> responses_ok (store_responses c l resp).
Proof.
  intros [Hn Hm Ho] Hl. split.
  - unfold store_responses. destruct l as [|? [|? ?]]; auto with dict_db.
  - intros c' l'. unfold store_responses.
    destruct l as [|e [|e' l]]; rewrite ?dget_dset, ?dget_ddel by done;
      case_bool_decide; try done; try apply Hm.
    intros [= <-]. simpl. lia.
  - intros c' r Hc Hr. rewrite stored_in_store by done. case_bool_decide; [|by apply Ho].
    subst. etransitivity; [by apply bcount_sublist|by apply Ho].
Qed.

(** Responses may go. *)
Lemma RInv_store s c l :
  RInv s -> l `sublist_of` stored_in (client_responses s) c ->
  RInv (with_client_responses (store_responses c l (client_responses s)) s).
Proof.
  intros Hs Hl. pose proof (ri_exclusive s Hs) as Hex. pose proof (ri_responses s Hs) as Hr.
  destruct Hs. split; try done; simpl.
  - by apply responses_ok_store.
  - intros c' r Ha. apply Hex. unfold answered in *. rewrite stored_in_store in Ha by apply Hr.
    case_bool_decide; [|done]. subst. rewrite !andb_true_iff in *. destruct Ha as [? Ha].
    split; [done|]. by eapply existsb_sublist.
Qed.

(** A response may come when its request has none and is not terminated. *)
Lemma RInv_add s c q :
  RInv s ->
  (forall l, q = ManyResponses l -> (2 <= length l)%nat) ->
  (forall r, no_text c = false -> no_text r = false ->
     bcount (response_for r) (stored_in (dset (client_responses s) c q) c) <= 1) ->
  (forall r, answered (dset (client_responses s) c q) c r = true ->
     nget (client_terminal_request_ids s) c r = None) ->
  RInv (with_client_responses (dset (client_responses s) c q) s).
Proof.
  intros Hs Hq Hone Hnone. pose proof (ri_exclusive s Hs) as Hex.
  pose proof (ri_responses s Hs) as [Hn Hm Ho]. destruct Hs. split; try done; simpl.
  - split.
    + by apply nodup_dset.
    + intros c' l. rewrite dget_dset. case_bool_decide; [|apply Hm]. intros [= ->]. by apply Hq.
    + intros c' r Hc Hr. destruct (decide (c' = c)) as [->|Hne]; [by apply Hone|].
      rewrite stored_in_dset, bool_decide_eq_false_2 by done. by apply Ho.
  - intros c' r Ha. destruct (decide (c' = c)) as [->|Hne]; [by apply Hnone|].
    apply Hex. unfold answered in *. rewrite stored_in_dset in Ha.
    by rewrite bool_decide_eq_false_2 in Ha by done.
Qed.

(** What [_queue_client_response] stores for a client *)
Lemma stored_queued resp c e :
  stored_in (dset resp c match dget resp c with
                         | None => OneResponse e
                         | Some (ManyResponses l) => ManyResponses (l ++ [e])
                         | Some (OneResponse existing) => ManyResponses [existing; e]
                         end) c = stored_in resp c ++ [e].
Proof.
  rewrite stored_in_dset, bool_decide_eq_true_2 by done. unfold stored_in.
  by destruct (dget resp c) as [[|]|].
Qed.

Lemma RInv_queue s c e :
  RInv s ->
  (forall r, no_text c = false -> no_text r = false -> response_for r e = true ->
     answered (client_responses s) c r = false /\ nget (client_terminal_request_ids s) c r = None) ->
  RInv (_queue_client_response c e s).1.
Proof.
  intros Hs He. unfold _queue_client_response. simpl.
  pose proof (ri_responses s Hs) as [Hn Hm Ho]. apply RInv_add; [done| | |].
  - intros l. destruct (dget _ c) as [[x|l']|] eqn:E; intros [= <-]; [simpl; lia|].
    apply Hm in E. rewrite length_app. simpl. lia.
  - intros r Hc Hr. rewrite stored_queued, bcount_app, bcount_cons, bcount_nil.
    pose proof (Ho c r Hc Hr). destruct (response_for r e) eqn:Er; [|lia].
    destruct (He r Hc Hr Er) as [Ha _]. unfold answered in Ha. rewrite Hc, Hr in Ha. simpl in Ha.
    enough (bcount (response_for r) (stored_in (client_responses s) c) = 0) by lia.
    revert Ha. clear. induction (stored_in _ c) as [|x l IH]; simpl; [by rewrite bcount_nil|].
    rewrite orb_false_iff, bcount_cons. intros [-> Hl]. by rewrite IH.
  - intros r Ha. unfold answered in Ha. rewrite stored_queued, existsb_app in Ha.
    rewrite !andb_true_iff, !negb_true_iff, orb_true_iff in Ha. destruct Ha as [[Hc Hr] [Ha|Ha]].
    + apply (ri_exclusive s Hs). unfold answered. by rewrite Hc, Hr, Ha.
    + simpl in Ha. rewrite orb_false_r in Ha. by apply He.
Qed.

(** ** Removing a node *)

Lemma zlen_markers servers : zlen (bfilter snd (markers servers)) = dcount sp_api_v1_registered servers.
Proof.
  rewrite zlen_bfilter. unfold markers.
  induction servers as [|[k p] d IH]; cbn [map]; [by rewrite bcount_nil, dcount_nil|].
  rewrite bcount_cons, IH, dcount_cons. done.
Qed.

Lemma cursor_removed_ok ms keys key cursor n :
  zlen keys = n -> zlen (bfilter snd ms) = n - 1 ->
  cursor_ok ms (cursor_after_removal keys key cursor).
Proof.
  intros Hn Hms. unfold cursor_after_removal, cursor_ok. cbv zeta. rewrite Hn, Hms.
  destruct (n - 1 <=? 0) eqn:E; [split; [lia|by left]|]. apply Z.leb_gt in E.
  destruct (_ <? _).
  - pose proof (Z.mod_pos_bound (cursor mod n - 1) (n - 1)). split; [lia|right; lia].
  - pose proof (Z.mod_pos_bound (cursor mod n) (n - 1)). split; [lia|right; lia].
Qed.

Lemma zlen_round_robin s : zlen (_api_v1_round_robin_keys s) = dcount sp_api_v1_registered (known_servers s).
Proof. rewrite round_robin_keys_markers, <- zlen_markers. apply zlen_map. Qed.

Lemma in_round_robin s key : RInv s ->
  key ∈ _api_v1_round_robin_keys s <->
  exists p, dget (known_servers s) key = Some p /\ sp_api_v1_registered p = true.
Proof.
  intros Hs. unfold _api_v1_round_robin_keys. rewrite <- dget_is_Some. split.
  - intros [p Hp]. apply dget_bfilter_Some in Hp as [? ?]; [|apply Hs]. by exists p.
  - intros (p & Hp & Hr). exists p. apply dget_bfilter_Some; [apply Hs|done].
Qed.

Lemma keeps_remove key : keeps RInv (_remove_known_server key).
Proof.
  intros s Hs. unfold _remove_known_server, bind at 1, get_state at 1.
  destruct (negb _) eqn:Em; [done|]. apply negb_false_iff, dmem_true in Em as [p Hp].
  assert (Hdel : forall i, cursor_ok (markers (ddel (known_servers s) key)) i ->
    RInv (with_server_round_robin_next_index i (with_known_servers (ddel (known_servers s) key) s))).
  { intros i Hi. pose proof (ri_nodes s Hs) as Hnodes. pose proof (ri_servers s Hs) as Hnd.
    destruct Hs. split; try done; simpl; [by apply nodup_ddel|].
    intros k q. rewrite dget_ddel by done. by case_bool_decide; [|apply Hnodes]. }
  unfold bind, modify, ret. cbn [fst snd]. destruct (pystr_in key _) eqn:Ein; simpl.
  - apply Hdel. apply bool_decide_eq_true_1, (in_round_robin s key Hs) in Ein as (q & Hq & Hr).
    assert (q = p) as -> by congruence.
    eapply cursor_removed_ok; [apply zlen_round_robin|]. rewrite zlen_markers, dcount_ddel, Hp, Hr. lia.
  - specialize (Hdel (server_round_robin_next_index s)). apply Hdel.
    apply bool_decide_eq_false_1 in Ein. destruct (ri_cursor s Hs) as [? Hc]. split; [done|].
    rewrite zlen_markers in *. rewrite dcount_ddel, Hp. destruct (sp_api_v1_registered p) eqn:Er.
    + contradict Ein. apply in_round_robin; [done|]. by exists p.
    + lia.
Qed.
#[export] Hint Resolve keeps_remove : inv_db.

Section sound.
Context `{!PyNumbers, !PyUnicode, !Clock, !Crypto}.
Variable cfg : RelaySettings.

Lemma keeps_unregister key cutoff owner : keeps RInv (_unregister_server cfg key cutoff owner).
Proof. unfold _unregister_server. cbv zeta. inv_auto. Qed.
#[local] Hint Resolve keeps_unregister : inv_db.

Lemma keeps_unregister_stale now keys : keeps RInv (unregister_stale cfg now keys).
Proof. induction keys; simpl; inv_auto; done. Qed.
#[local] Hint Resolve keeps_unregister_stale : inv_db.

Lemma keeps_evict : keeps RInv (_evict_stale_servers cfg).
Proof. unfold _evict_stale_servers. inv_auto. Qed.
#[local] Hint Resolve keeps_evict : inv_db.

(** ** Selection *)

Lemma kept_scheduler_candidate s key payload model tier index now limited :
  kept (_api_v1_scheduler_candidate cfg s key payload model tier index now limited).
Proof. unfold _api_v1_scheduler_candidate. cbv zeta. kept_auto. Qed.
#[local] Hint Resolve kept_scheduler_candidate : kept_db.

Lemma kept_scheduler_candidates s model tier now keys :
  kept (scheduler_candidates cfg s model tier now keys).
Proof. induction keys as [|[i k] keys IH]; simpl; kept_auto; done. Qed.
#[local] Hint Resolve kept_scheduler_candidates : kept_db.

Lemma RInv_cursor s i :
  RInv s -> cursor_ok (markers (known_servers s)) i ->
  RInv (with_server_round_robin_next_index i s).
Proof. intros [] Hi. by split. Qed.

Lemma keeps_select aliases model tier : keeps RInv (_select_best_fit_server_key cfg aliases model tier).
Proof.
  unfold _select_best_fit_server_key. cbv zeta. apply keeps_bind; [inv_auto|]. intros now.
  apply keeps_get_bind. intros s Hs.
  set (keys := _api_v1_round_robin_keys s).
  set (m := scheduler_candidates cfg s _ tier now (py_enumerate keys)).
  assert (Hm : kept m) by (apply kept_scheduler_candidates).
  destruct (kept_state m s Hm Hs) as (Hs1 & Hmark & _ & _). unfold bind at 1.
  destruct (m s) as [s1 [e|all]] eqn:Em; [done|]. simpl in Hs1, Hmark.
  destruct (bfilter _ all) as [|c l] eqn:Ec; [done|].
  assert (Hpos : 0 < zlen keys).
  { destruct keys eqn:Ek; [|rewrite zlen_cons; pose proof (zlen_nonneg l0); lia].
    subst m. simpl in Em. injection Em as <- <-. done. }
  clear Em.
  assert (Hcur : forall (x : SchedulerCandidate) s2, RInv s2 ->
    markers (known_servers s2) = markers (known_servers s) ->
    RInv (with_server_round_robin_next_index ((cd_registration_index x + 1) mod zlen keys) s2)).
  { intros x s2 Hs2 Hm2. apply RInv_cursor; [done|]. rewrite Hm2. unfold cursor_ok.
    rewrite zlen_markers, <- zlen_round_robin. fold keys.
    pose proof (Z.mod_pos_bound (cd_registration_index x + 1) (zlen keys) Hpos). split; [lia|right; lia]. }
  unfold bind at 1, from_option at 1. destruct (_ !! _) as [sel|]; [|done].
  unfold ret at 1. unfold bind at 1, modify at 1.
  unfold bind at 1, modify at 1.
  assert (Hs2 : forall d, RInv (with_server_round_robin_next_index
    ((cd_registration_index sel + 1) mod zlen keys)
    (with_filtered_round_robin_next_positions d s1))).
  { intros d. apply Hcur; [by destruct Hs1|done]. }
  unfold bind, from_option. destruct (dget CONTEXT_TIER_ORDER tier); simpl; apply Hs2.
Qed.
#[local] Hint Resolve keeps_select : inv_db.

Lemma keeps_reset_cursor : keeps RInv (modify (with_server_round_robin_next_index 0) : HM unit).
Proof. intros s Hs. apply RInv_cursor; [done|]. split; [lia|by left]. Qed.
#[local] Hint Resolve keeps_reset_cursor : inv_db.

Lemma keeps_servers_next aliases model tier :
  keeps RInv (api_v1_relay_servers_next cfg aliases model tier).
Proof. unfold api_v1_relay_servers_next. cbv zeta. inv_auto. Qed.

Lemma keeps_next_server : keeps RInv (next_server cfg).
Proof. unfold next_server, require_legacy_routes. cbv zeta. inv_auto. Qed.

End sound.

#[export] Hint Resolve keeps_unregister keeps_unregister_stale keeps_evict keeps_select
  keeps_reset_cursor : inv_db.
