(* ===== verification/RelayEndpoints.v ===== *)
(** * relay.py: the endpoints keep the invariant

    Registration and the polls of a compute node. *)

From S2P Require Import Prelude PyFloat PyStr PyDict PyText Json Sha256 RelayTypes RelayConfig.
From S2P Require Import RelayLifecycle RelayRegistry RelayStreams RelayHandlers RelayInv RelayKept.

#[local] Open Scope Z_scope.

(** The value of the first part is known to the second. *)
Lemma keeps_bind_val {E A B} P (m : SM RelayState E A) (f : A -> SM RelayState E B) :
  keeps P m -> (forall a s s', m s = (s', inr a) -> keeps P (f a)) -> keeps P (bind m f).
Proof.
  intros Hm Hf s Hs. specialize (Hm s Hs). unfold bind.
  destruct (m s) as [s' [e|a]] eqn:Em; [done|]. by eapply Hf.
Qed.

Section endpoints.
Context `{!PyNumbers, !PyUnicode, !Clock, !Crypto}.
Variable cfg : RelaySettings.

Lemma kept_server_token header : kept (require_server_token cfg header).
Proof. unfold require_server_token. kept_auto. Qed.

Lemma kept_legacy_routes name : kept (require_legacy_routes cfg name).
Proof. unfold require_legacy_routes. kept_auto. Qed.

Lemma kept_normalised_capabilities raw : kept (normalised_capabilities raw).
Proof. unfold normalised_capabilities. kept_auto. Qed.
#[local] Hint Resolve kept_server_token kept_legacy_routes kept_normalised_capabilities : kept_db.

Lemma normalised_capabilities_ok raw s s' caps :
  normalised_capabilities raw s = (s', inr caps) -> api_capabilities_ok caps.
Proof.
  unfold normalised_capabilities, bind, call_val, call, lift_val.
  destruct (_normalise_api_v1_capabilities raw) as [e|[m|c]] eqn:Ec; try done.
  intros [= _ <-]. by eapply capabilities_sound.
Qed.

(** ** Registration *)

Lemma stored_credential payload s s' p cred :
  _store_api_v1_control_credential payload s = (s', inr (p, cred)) ->
  (p = payload /\ exists d, sp_control_credential_digest payload = Some d /\ py_empty d = false) \/
  exists d, p = with_credential_digest d payload /\ py_empty d = false.
Proof.
  assert (Hnew : bind token_urlsafe (fun c =>
      bind (lift_val (_api_v1_control_credential_digest c)) (fun d =>
      ret (with_credential_digest d payload, c))) s = (s', inr (p, cred)) ->
    exists d, p = with_credential_digest d payload /\ py_empty d = false).
  { intros Hr. invert_run. simplify_eq. eexists. split; [done|].
    unfold _api_v1_control_credential_digest in *. destruct (utf8_encode _); simplify_eq.
    match goal with |- py_empty (sha256_hexdigest ?b) = _ =>
      pose proof (sha256_hexdigest_hex b) as Hh end.
    apply is_sha256_hex_length in Hh. unfold py_len, py_empty in *.
    destruct (codes _); [by rewrite zlen_nil in Hh|done]. }
  unfold _store_api_v1_control_credential.
  destruct (sp_control_credential_digest payload) as [d|] eqn:Ed; [|by right; apply Hnew].
  destruct (py_empty d) eqn:Ep; [by right; apply Hnew|]. intros Hr. invert_run. simplify_eq.
  left. split; [done|]. by exists d.
Qed.

(** The credential of a fresh owner can always be made. *)
Lemma store_credential_returns payload s :
  exists s' p cred, _store_api_v1_control_credential payload s = (s', inr (p, cred)) /\
    s' = with_ticks (ticks s') s.
Proof.
  unfold _store_api_v1_control_credential.
  assert (Hnew : exists s' p cred, bind token_urlsafe (fun c =>
      bind (lift_val (_api_v1_control_credential_digest c)) (fun d =>
      ret (with_credential_digest d payload, c))) s = (s', inr (p, cred)) /\
    s' = with_ticks (ticks s') s).
  { unfold bind, token_urlsafe, reading, _api_v1_control_credential_digest.
    pose proof (token_encodes (ticks s)). destruct (utf8_encode _) as [b|]; [|done].
    do 3 eexists. split; [reflexivity|done]. }
  destruct (sp_control_credential_digest payload) as [d|]; [|done].
  destruct (py_empty d); [done|]. exists s, payload, ""%pystr. split; [done|]. by destruct s.
Qed.

Lemma RInv_ticks s n : RInv s -> RInv (with_ticks n s).
Proof. intros []. by split. Qed.

(** A registered node that passes the checks may be added, updated or moved. *)
Lemma RInv_registered s key p servers :
  RInv s -> node_ok key p -> sp_api_v1_registered p = true ->
  (servers = known_servers s \/ servers = ddel (known_servers s) key /\
     (forall q, dget (known_servers s) key = Some q -> sp_api_v1_registered q = false)) ->
  RInv (with_known_servers (dset servers key p) s).
Proof.
  intros Hs Hp Hr Hserv. pose proof (ri_servers s Hs) as Hn. pose proof (ri_nodes s Hs) as Hnodes.
  pose proof (ri_cursor s Hs) as [? Hc]. rewrite zlen_markers in Hc.
  assert (Hok : nodup_keys servers /\ (forall k q, dget servers k = Some q -> node_ok k q) /\
    dcount sp_api_v1_registered (known_servers s) <= dcount sp_api_v1_registered (dset servers key p)).
  { destruct Hserv as [->|[-> Hq]].
    - split; [done|]. split; [done|]. destruct (dget (known_servers s) key) as [q|] eqn:Eq.
      + destruct (sp_api_v1_registered q) eqn:Er.
        * rewrite (dcount_dset_old _ _ _ q p) by congruence. lia.
        * rewrite dcount_dset_replace with (v := q) by done. rewrite Er, Hr. lia.
      + rewrite dcount_dset_fresh by done. rewrite Hr. lia.
    - split; [by apply nodup_ddel|]. split.
      + intros k q. rewrite dget_ddel by done. by case_bool_decide; [|apply Hnodes].
      + rewrite dcount_dset_fresh by (by apply dget_ddel_eq). rewrite Hr, dcount_ddel.
        destruct (dget (known_servers s) key) as [q|]; [rewrite (Hq q) by done|]; lia. }
  destruct Hok as (Hn' & Hnodes' & Hle). destruct Hs. split; try done; simpl.
  - by apply nodup_dset.
  - intros k q. rewrite dget_dset. case_bool_decide; [by intros [= <-]; subst|apply Hnodes'].
  - split; [done|]. rewrite zlen_markers. lia.
Qed.

Lemma registered_payload_ok existing key now lease caps p :
  (forall q, existing = Some q -> node_ok key q) -> api_capabilities_ok caps ->
  let payload := registered_payload existing key now lease caps in
  (p = payload /\ (exists d, sp_control_credential_digest payload = Some d /\ py_empty d = false)) \/
  (exists d, p = with_credential_digest d payload /\ py_empty d = false) ->
  node_ok key p.
Proof.
  intros Hex Hcaps payload Hp.
  assert (Hin : forall entries, sp_in_flight_requests payload = Some entries ->
    nodup_keys entries /\ entries ≠ []).
  { subst payload. destruct existing as [q|]; simpl; [|done]. by apply (Hex q). }
  destruct Hp as [(-> & d & Hd & He)|(d & -> & He)]; split; simpl; try done.
  - intros _. by exists caps, d.
  - by intros ? [= <-].
  - intros _. by exists caps, d.
  - by intros ? [= <-].
Qed.

Lemma keeps_register_node key caps :
  api_capabilities_ok caps ->
  keeps RInv (register_node cfg key caps).
Proof.
  intros Hcaps. unfold register_node. apply keeps_get_bind. intros s Hs. cbv zeta.
  set (existing := dget (known_servers s) key).
  set (rereg := match existing with Some p => _ | None => false end).
  assert (Hs1 : exists s1, (if negb rereg && (zlen (_api_v1_round_robin_keys s) =? 0)
      then modify (with_server_round_robin_next_index 0) else ret tt : HM unit) s = (s1, inr tt)
    /\ RInv s1 /\ known_servers s1 = known_servers s).
  { destruct (_ && _); eexists; (split; [reflexivity|]); (split; [|done]); [|done].
    apply RInv_cursor; [done|]. split; [lia|by left]. }
  destruct Hs1 as (s1 & Hrun & Hinv1 & Hk1). rewrite (bind_run _ _ _ _ _ Hrun).
  unfold datetime_now. unfold bind at 1, call at 1. rewrite reading_run. cbn [fst snd].
  set (payload := registered_payload _ _ _ _ _). set (s2 := with_ticks (S (ticks s1)) s1).
  unfold bind at 1, modify at 1.
  set (servers := if rereg then known_servers s else ddel (known_servers s) key).
  assert (Hserv : (if rereg then dset (known_servers s2) key payload
                   else dset (ddel (known_servers s2) key) key payload) = dset servers key payload).
  { subst s2 servers. simpl. rewrite Hk1. by destruct rereg. }
  rewrite Hserv. unfold bind at 1, call at 1.
  destruct (store_credential_returns payload (with_known_servers (dset servers key payload) s2))
    as (s3 & p & cred & Hst & Hs3). rewrite Hst. unfold bind, modify, ret. cbn [fst snd].
  assert (Hfinal : with_known_servers (dset (known_servers s3) key p) s3
    = with_known_servers (dset servers key p) (with_ticks (ticks s3) s1)).
  { rewrite Hs3. simpl. by rewrite dset_dset. }
  rewrite Hfinal. apply RInv_registered.
  - by apply RInv_ticks.
  - eapply (registered_payload_ok existing); [|exact Hcaps|].
    + intros q Hq. by apply (ri_nodes s Hs).
    + by eapply stored_credential.
  - apply stored_credential in Hst as [[-> _]|(d & -> & _)]; done.
  - simpl. rewrite Hk1. subst servers rereg. destruct existing as [q|] eqn:Eq.
    + destruct (sp_api_v1_registered q) eqn:Er; [by left|right].
      split; [done|]. intros q' Hq'. subst existing. congruence.
    + right. split; [done|]. subst existing. by intros q'; rewrite Eq.
Qed.

Lemma keeps_register header data : keeps RInv (api_v1_relay_servers_register cfg header data).
Proof.
  unfold api_v1_relay_servers_register. apply keeps_respond.
  apply keeps_bind; [inv_auto|]. intros _. destruct data as [| | | | | |d]; try by apply keeps_ret.
  apply keeps_bind; [inv_auto|]. intros name. apply keeps_bind; [inv_auto|]. intros key.
  apply keeps_bind_val; [inv_auto|]. intros caps s0 s0' Hcaps%normalised_capabilities_ok.
  apply keeps_bind; [by apply keeps_register_node|]. intros credential. apply keeps_ret.
Qed.

Lemma keeps_handle_unregister legacy header data :
  keeps RInv (_handle_server_unregister_request cfg legacy header data).
Proof. unfold _handle_server_unregister_request. cbv zeta. inv_auto. Qed.

(** ** Polling *)

(** A node's payload changes, its key, marker, owner and work do not. *)
Lemma keeps_update_server {E} ms i resp s0 key p (f : ServerPayload -> ServerPayload) :
  Kept ms i resp s0 -> dget (known_servers s0) key = Some p ->
  (node_ok key p -> node_ok key (f p)) -> sp_api_v1_registered (f p) = sp_api_v1_registered p ->
  keeps (Kept ms i resp)
    (modify (fun s => with_known_servers (dset (known_servers s) key (f p)) s)
      : SM RelayState E unit).
Proof.
  intros Hs0 Hp Hf Hr. apply keeps_modify. intros s Hs. apply Kept_server; [done| |].
  - apply Hf, (ri_nodes s0); [apply Hs0|done].
  - rewrite Hr, <- (kp_markers _ _ _ _ Hs0). by apply elem_markers.
Qed.

Lemma kept_pop_next key : kept (_pop_next_api_v1_request key).
Proof.
  unfold _pop_next_api_v1_request. apply kept_get. intros s Hs.
  destruct (dget_or _ key []) as [|x q]; [kept_auto|]. destruct (pop_queue (x :: q)) as [first rest].
  apply kept_bind; [|kept_auto]. apply kept_queues. intros s' Hs'. destruct rest; eauto with dict_db.
Qed.
#[local] Hint Resolve kept_pop_next : kept_db.

Lemma kept_mark_claimed key claimed : kept (_mark_claimed_request_terminal cfg key claimed).
Proof. unfold _mark_claimed_request_terminal. kept_auto. Qed.
#[local] Hint Resolve kept_mark_claimed : kept_db.

Lemma kept_server_not_found key claimed : kept (_server_not_found_response cfg key claimed).
Proof. unfold _server_not_found_response. kept_auto. Qed.
#[local] Hint Resolve kept_server_not_found : kept_db.

Lemma kept_deadline_passed deadline : kept (deadline_passed deadline).
Proof. unfold deadline_passed. kept_auto. Qed.

Lemma kept_deadline_metadata deadline : kept (_api_v1_deadline_metadata deadline).
Proof. unfold _api_v1_deadline_metadata. kept_auto. Qed.
#[local] Hint Resolve kept_deadline_passed kept_deadline_metadata : kept_db.

Lemma kept_poll_attempt p : kept (poll_attempt cfg p).
Proof. unfold poll_attempt. cbv zeta. kept_auto. Qed.

Lemma kept_dispatch_entry request deadline : kept (dispatch_entry cfg request deadline).
Proof. unfold dispatch_entry. cbv zeta. kept_auto. Qed.

Lemma kept_poll_dispatch key first : kept (poll_dispatch cfg key first).
Proof.
  unfold poll_dispatch. cbv zeta. apply kept_bind; [kept_auto|]. intros _.
  apply kept_bind; [kept_auto|]. intros expired. destruct expired; [kept_auto|].
  apply kept_bind; [kept_auto|]. intros metadata.
  destruct (jget first "request_id") as [| | | |r| |]; try apply kept_ret.
  destruct (py_empty r); [apply kept_ret|]. intros ms i resp. apply keeps_get_bind. intros s Hs.
  destruct (dget (known_servers s) key) as [payload|] eqn:Ep; [|by apply kept_server_not_found].
  pose proof (ri_nodes s (kp_inv _ _ _ _ Hs) _ _ Ep) as Hok.
  enough (Hk : keeps (Kept ms i resp) (bind (dispatch_entry cfg
      (dict_update (ddel (ddel first "_queued_at") "_request_deadline_monotonic") metadata)
      (request_deadline first)) (fun entry => bind (modify (fun s => with_known_servers
        (dset (known_servers s) key (with_in_flight
          (Some (dset (default [] (sp_in_flight_requests payload)) r entry)) payload)) s))
        (fun _ => ret (Reply (JDict (dict_update (ddel (ddel first "_queued_at")
          "_request_deadline_monotonic") metadata)) 200))))) by (by apply Hk).
  apply keeps_bind; [apply kept_dispatch_entry|]. intros entry.
  apply keeps_bind; [|intros _; apply keeps_ret].
  eapply (keeps_update_server ms i resp s key payload
    (with_in_flight (Some (dset (default [] (sp_in_flight_requests payload)) r entry)))); try done.
  intros _. apply node_ok_in_flight; [done|]. intros e [= <-].
  split; [|by destruct (default [] (sp_in_flight_requests payload)) as [|[k v] d]; simpl; [|case_bool_decide]].
  apply nodup_dset. destruct (sp_in_flight_requests payload) as [d|] eqn:Ed; [|constructor].
  by apply (no_in_flight _ _ Hok).
Qed.

Lemma kept_poll_finish p first : kept (poll_finish cfg p first).
Proof.
  intros ms i resp. unfold poll_finish. cbv zeta. apply keeps_get_bind. intros s Hs.
  destruct (dget (known_servers s) (pc_key p)) as [payload|] eqn:Ep;
    [|by apply kept_server_not_found].
  assert (Hupd : forall f, (node_ok (pc_key p) payload -> node_ok (pc_key p) (f payload)) ->
    sp_api_v1_registered (f payload) = sp_api_v1_registered payload ->
    keeps (Kept ms i resp) (modify (fun s => with_known_servers
      (dset (known_servers s) (pc_key p) (f payload)) s) : RM unit))
    by (intros; by eapply keeps_update_server).
  clear Ep. revert s Hs.
  apply keeps_bind; [apply (Hupd (with_polling_until None)); [by intros []; split|done]|].
  intros _. destruct first as [request|]; [apply kept_poll_dispatch|].
  apply keeps_bind; [apply kept_datetime_now|]. intros now.
  apply keeps_bind; [|intros _; apply keeps_ret].
  apply (Hupd (fun q => with_last_ping now (with_polling_until None q))); [by intros []; split|done].
Qed.
#[local] Hint Resolve kept_poll_attempt kept_poll_finish : kept_db.

Lemma kept_poll_loop turns p : kept (poll_loop cfg turns p).
Proof. revert p. induction turns as [|n IH]; intros p; simpl; kept_auto; apply IH. Qed.

Lemma keeps_poll_begin header data : keeps RInv (poll_begin cfg header data).
Proof.
  unfold poll_begin. apply keeps_bind; [inv_auto|]. intros _. apply keeps_bind; [inv_auto|].
  intros _. destruct data as [| | | | | |d]; try apply keeps_raise.
  apply keeps_bind; [inv_auto|]. intros name. apply keeps_bind; [inv_auto|]. intros key.
  apply (keeps_bind_val RInv (match jget d "capabilities" with JNull => ret None | _ => _ end)).
  { destruct (jget d "capabilities"); inv_auto. }
  intros caps s1 s1' Hcaps.
  assert (Hc : forall c, caps = Some c -> api_capabilities_ok c).
  { intros c ->. destruct (jget d "capabilities"); invert_run; simplify_eq;
      by eapply normalised_capabilities_ok. }
  clear Hcaps. apply keeps_get_bind. intros s Hs.
  destruct (dget (known_servers s) key) as [p|] eqn:Ep; [|done].
  simpl. apply RInv_ticks.
  match goal with |- RInv (with_known_servers (dset _ key ?p') ?s') =>
    enough (Hk : node_ok key p'); [by eapply (Kept_server _ _ _ s' key p');
      [split; [by do 2 apply RInv_ticks|done..]|done|
       destruct caps; simpl; by apply elem_markers]|] end.
  destruct (ri_nodes s Hs _ _ Ep) as [? Hown ? ?]. destruct caps as [c|]; split; simpl; try done.
  intros Hr. destruct (Hown Hr) as (? & digest & _ & _ & ? & ?). exists c, digest. auto.
Qed.

End endpoints.

#[export] Hint Resolve kept_server_token kept_legacy_routes kept_normalised_capabilities
  kept_pop_next kept_mark_claimed kept_server_not_found kept_deadline_passed
  kept_deadline_metadata kept_poll_attempt kept_poll_finish kept_poll_loop : kept_db.
