(* ===== verification/RelayAnswers.v ===== *)
(** * relay.py: the remaining endpoints keep the invariant

    Control polls, requests, cancellation, responses, progress, retrieval, and the
    legacy and streaming endpoints. *)

From S2P Require Import Prelude PyFloat PyStr PyDict PyText Json Sha256 RelayTypes RelayConfig.
From S2P Require Import RelayLifecycle RelayRegistry RelayStreams RelayHandlers RelayInv RelayKept.
From S2P Require Import RelayEndpoints.
#[local] Open Scope Z_scope.

Section answers.
Context `{!PyNumbers, !PyUnicode, !Clock, !Crypto}.
Variable cfg : RelaySettings.

(** ** Control *)

Lemma kept_control_live key r credential now : kept (control_live cfg key r credential now).
Proof.
  intros ms i resp. unfold control_live. apply keeps_get_bind. intros s Hs.
  destruct (dget (known_servers s) key) as [p|] eqn:Ep; [|done].
  pose proof (ri_nodes s (kp_inv _ _ _ _ Hs) _ _ Ep) as Hok.
  assert (Hin : (key, sp_api_v1_registered p) ∈ ms).
  { rewrite <- (kp_markers _ _ _ _ Hs). by apply elem_markers. }
  clear Ep. revert s Hs. destruct (sp_api_v1_registered p) eqn:Er; [|apply keeps_ret].
  apply keeps_bind; [apply kept_call, kept_lift_val|]. intros valid.
  apply keeps_bind; [apply keeps_raise_if|]. intros _.
  destruct (dget _ r) as [entry|]; [|apply keeps_ret]. destruct (has_expired _ _).
  - apply (fun k : kept _ => k ms i resp). kept_auto.
  - apply keeps_bind; [|intros _; apply keeps_raise]. apply keeps_modify. intros s Hs.
    apply Kept_server; [done| |by rewrite <- Er in Hin].
    apply node_ok_in_flight; [done|]. intros e [= <-]. split.
    + apply nodup_dset. destruct (sp_in_flight_requests p) as [d|] eqn:Ed; [|constructor].
      by apply (no_in_flight _ _ Hok).
    + by destruct (default [] (sp_in_flight_requests p)) as [|[k v] d]; simpl; [|case_bool_decide].
Qed.

Lemma kept_control_tombstone key r credential ack : kept (control_tombstone cfg key r credential ack).
Proof. unfold control_tombstone. kept_auto. Qed.
#[local] Hint Resolve kept_control_live kept_control_tombstone : kept_db.

Lemma keeps_control header data : keeps RInv (api_v1_relay_servers_control cfg header data).
Proof. unfold api_v1_relay_servers_control, control_answer. cbv zeta. inv_auto. Qed.

(** ** Requests *)

Lemma keeps_requests data : keeps RInv (api_v1_relay_requests cfg data).
Proof. unfold api_v1_relay_requests, ciphertext_envelope. cbv zeta. inv_auto. Qed.

Lemma keeps_requests_cancel data : keeps RInv (api_v1_relay_requests_cancel cfg data).
Proof. unfold api_v1_relay_requests_cancel. cbv zeta. inv_auto. Qed.

(** ** Responses *)

Lemma keeps_and {E A} (P Q : RelayState -> Prop) (m : SM RelayState E A) :
  keeps P m -> keeps Q m -> keeps (fun s => P s /\ Q s) m.
Proof. intros HP HQ s [Hp Hq]. split; [by apply HP|by apply HQ]. Qed.

Lemma keeps_release_in_flight ms i resp c r servers :
  snapshot_ok ms servers -> keeps (Kept ms i resp) (release_in_flight c r servers).
Proof.
  induction servers as [|[k p] rest IH]; intros Hsnap; simpl; [apply keeps_ret|].
  apply Forall_cons in Hsnap as [[Hok Hin] Hrest]. simpl in Hok, Hin. specialize (IH Hrest).
  destruct (in_flight_entry_of c r p) as [entry|] eqn:Ee; [|done].
  apply keeps_bind; [|intros _; apply keeps_ret]. apply keeps_modify. intros s Hs.
  apply Kept_server; [done| |done]. apply node_ok_in_flight; [done|]. intros e He.
  unfold in_flight_entry_of in Ee. destruct (sp_in_flight_requests p) as [d|] eqn:Ed; [|done].
  apply (remaining_ok (ddel d r)); [|done]. by apply nodup_ddel, (no_in_flight _ _ Hok).
Qed.

Lemma kept_release_known c r {B} (f : bool -> HM B) :
  (forall b, kept (f b)) ->
  kept (bind get_state (fun s => bind (call (release_in_flight c r (known_servers s))) f)).
Proof.
  intros Hf ms i resp. apply keeps_get_bind. intros s Hs.
  assert (Hsnap : snapshot_ok ms (known_servers s)).
  { rewrite <- (kp_markers _ _ _ _ Hs). apply known_snapshot, Hs. }
  generalize (known_servers s), Hsnap. clear Hsnap. intros servers Hsnap. revert s Hs.
  apply keeps_bind; [by apply keeps_call, keeps_release_in_flight|]. intros b. apply Hf.
Qed.

(** A request without a terminal entry that still counts has none afterwards. *)
Lemma get_terminal_none c r s s' :
  no_text c = false -> no_text r = false -> nested_ok (client_terminal_request_ids s) ->
  _get_terminal_request c r s = (s', inr None) -> nget (client_terminal_request_ids s') c r = None.
Proof.
  intros Hc Hr Hn. unfold _get_terminal_request. rewrite Hc, Hr. cbn [orb].
  unfold wall_time, bind at 1. rewrite reading_run. unfold bind at 1, get_state. cbn [fst snd].
  destruct (nget _ c r) as [t|] eqn:Et; [|by intros [= <-]].
  destruct (fle _ _); [|done]. unfold bind, modify, ret. intros [= <-]. simpl in *.
  rewrite nget_npop by done. by rewrite bool_decide_eq_true_2.
Qed.

Lemma return_if_terminal_none c r s s' u :
  no_text c = false -> no_text r = false -> RInv s ->
  return_if_terminal c r s = (s', inr u) -> nget (client_terminal_request_ids s') c r = None.
Proof.
  intros Hc Hr Hs. unfold return_if_terminal, bind, call.
  destruct (_get_terminal_request c r s) as [s1 [e|[t|]]] eqn:Eg; try done.
  intros [= <- _]. eapply get_terminal_none; [done..| |exact Eg]. apply Hs.
Qed.

(** Nothing below touches the terminal entries. *)
Definition terminals_are (t : dict pystr (dict pystr TerminalEntry)) (s : RelayState) : Prop :=
  client_terminal_request_ids s = t.

Lemma keeps_reading_terminals t {A} (f : nat -> A) : keeps (terminals_are t) (reading f).
Proof. by intros s Hs. Qed.

Lemma keeps_has_outcome_terminals t c r :
  keeps (terminals_are t) (_has_request_terminal_outcome c r).
Proof.
  unfold _has_request_terminal_outcome. destruct (_ || _); [apply keeps_ret|].
  apply keeps_get_bind. intros s Hs. destruct (nget _ c r); [|done]. revert s Hs.
  apply keeps_bind; [apply keeps_reading_terminals|]. intros now.
  destruct (flt _ _); [apply keeps_ret|].
  apply keeps_bind; [by apply keeps_modify|]. intros _. apply keeps_ret.
Qed.

Lemma keeps_record_once_terminals t c r outcome :
  keeps (terminals_are t) (_record_request_terminal_outcome_once cfg c r outcome).
Proof.
  unfold _record_request_terminal_outcome_once. destruct (_ || _); [apply keeps_ret|].
  apply keeps_bind; [apply keeps_reading_terminals|]. intros now.
  apply keeps_get_bind. intros s Hs. destruct (nget _ c r); [done|]. revert s Hs.
  apply keeps_bind; [by apply keeps_modify|]. intros _.
  apply keeps_bind; [by apply keeps_modify|]. intros _. apply keeps_ret.
Qed.

Lemma keeps_clear_progress_terminals t c r : keeps (terminals_are t) (_clear_client_progress c r).
Proof.
  unfold _clear_client_progress. destruct (_ || _); [apply keeps_ret|].
  apply keeps_get_bind. intros s Hs. by simpl.
Qed.

Lemma kept_return_if_terminal c r : kept (return_if_terminal c r).
Proof. unfold return_if_terminal. kept_auto. Qed.

(** From a state where [P] holds to one where [Q] does, through a part that keeps [P] *)
Lemma ends_bind {E A B} (P Q : RelayState -> Prop) (m : SM RelayState E A)
  (f : A -> SM RelayState E B) :
  keeps P m -> (forall s, P s -> Q s) ->
  (forall a s s', P s -> m s = (s', inr a) -> P s' -> Q (f a s').1) ->
  forall s, P s -> Q (bind m f s).1.
Proof.
  intros Hm HQ Hf s Hs. pose proof (Hm s Hs) as Hs'. unfold bind.
  destruct (m s) as [s' [e|a]] eqn:Em; simpl in *; [by apply HQ|by apply (Hf a s s')].
Qed.

(** A response is queued for a live lifecycle without a terminal entry. *)
Lemma ends_queue ms i resp c r envelope s :
  jget envelope "request_id" = JStr r -> answered resp c r = false ->
  nget (client_terminal_request_ids s) c r = None -> Kept ms i resp s ->
  RInv (_queue_client_response c envelope s).1.
Proof.
  intros He Ha Ht Hs. apply RInv_queue; [apply Hs|]. intros r' Hc Hr' Hr.
  unfold response_for in Hr. rewrite He in Hr. apply jeq_str_true in Hr as [= ->].
  by rewrite (kp_responses _ _ _ _ Hs).
Qed.

Lemma ends_complete ms i resp c r envelope owned t s :
  jget envelope "request_id" = JStr r -> answered resp c r = false -> nget t c r = None ->
  Kept ms i resp s /\ terminals_are t s -> RInv (complete_response cfg c r envelope owned s).1.
Proof.
  intros He Ha Ht. set (K := Kept ms i resp). set (KT := fun s => K s /\ terminals_are t s).
  change (KT s -> RInv (complete_response cfg c r envelope owned s).1). revert s.
  assert (HK : forall s, K s -> RInv s) by (by intros s []).
  assert (HKT : forall s, KT s -> RInv s) by (intros s [? _]; by apply HK).
  unfold complete_response. apply (ends_bind KT RInv).
  { destruct owned; [apply keeps_ret|]. apply keeps_bind; [|intros completed; apply keeps_raise].
    apply keeps_call, keeps_and; [apply kept_has_outcome|apply keeps_has_outcome_terminals]. }
  { done. }
  intros _ _ s _ _. revert s. apply ends_bind; [|done|].
  { apply keeps_call, keeps_and; [apply kept_record_once|apply keeps_record_once_terminals]. }
  intros [|] _ s _ _; revert s; cbv iota.
  - apply (ends_bind KT RInv); [apply keeps_ret|done|]. intros _ _ s _ _. revert s.
    apply (ends_bind KT RInv); [|done|].
    { apply keeps_call, keeps_and; [apply kept_clear_progress|apply keeps_clear_progress_terminals]. }
    intros _ _ s _ _ [Hs Hts].
    pose proof (ends_queue ms i resp c r envelope s He Ha) as Hq. rewrite Hts in Hq.
    specialize (Hq Ht Hs). revert Hq. unfold bind, call.
    by destruct (_queue_client_response _ _ _) as [? [|]].
  - intros s [Hs _]. revert s Hs. apply (ends_bind K RInv); [|done|].
    + apply kept_bind; [apply kept_call, kept_get_terminal|]. intros o. apply kept_raise.
    + intros u s1 s2 _ Hrun. by invert_run.
Qed.

Lemma keeps_store_response c r envelope :
  jget envelope "request_id" = JStr r -> no_text c = false -> no_text r = false ->
  keeps RInv (store_response cfg c r envelope).
Proof.
  intros He Hc Hr. unfold store_response.
  apply keeps_bind; [apply kept_inv, kept_return_if_terminal|]. intros _.
  apply keeps_get_bind. intros s0 Hs0. rewrite has_response_answered.
  destruct (answered (client_responses s0) c r) eqn:Ha; [done|]. unfold return_if, raise_if.
  generalize (Build_Kept _ _ _ s0 Hs0 eq_refl eq_refl eq_refl). clear Hs0.
  revert Ha. generalize (client_responses s0), (markers (known_servers s0)),
    (server_round_robin_next_index s0). intros resp ms i Ha. revert s0.
  set (K := Kept ms i resp). assert (HK : forall s, K s -> RInv s) by (by intros s []).
  apply (ends_bind K RInv); [apply keeps_ret|done|]. intros _ _ s0 _ _. revert s0.
  apply ends_bind; [apply kept_call, kept_expire_if_stale|done|]. intros _ _ s0 _ _. revert s0.
  apply ends_bind; [apply kept_return_if_terminal|done|]. intros _ _ s0 _ _.
  intros Hs0. change (bind get_state ?f s0) with (f s0 s0). cbv beta.
  assert (Hsnap : snapshot_ok ms (known_servers s0)).
  { rewrite <- (kp_markers _ _ _ _ Hs0). apply known_snapshot, Hs0. }
  generalize (known_servers s0), Hsnap. clear Hsnap. intros servers Hsnap. revert s0 Hs0.
  apply ends_bind; [by apply keeps_call, keeps_release_in_flight|done|].
  intros in_flight _ s1 _ _. revert s1.
  apply ends_bind; [apply kept_call, kept_remove_from_queues|done|].
  intros queued _ s1 _ _. revert s1.
  apply ends_bind; [apply kept_call, kept_clear_pending|done|].
  intros pending _ s1 _ _. cbv zeta. revert s1.
  apply ends_bind; [apply kept_return_if_terminal|done|].
  intros u s1 s2 Hs1 Hrun Hs2. eapply return_if_terminal_none in Hrun; [|done..|by apply HK].
  by eapply ends_complete.
Qed.

(** An envelope that names no request answers none. *)
Lemma keeps_queue_unnamed c envelope :
  is_nonempty_str (jget envelope "request_id") = false ->
  keeps RInv (_queue_client_response c envelope).
Proof.
  intros He s Hs. apply RInv_queue; [done|]. intros r _ Hr Hresp%jeq_str_true.
  rewrite Hresp in He. unfold is_nonempty_str, no_text in *. by rewrite Hr in He.
Qed.

Lemma keeps_responses header data : keeps RInv (api_v1_relay_responses cfg header data).
Proof.
  unfold api_v1_relay_responses. apply keeps_respond. apply keeps_bind; [inv_auto|]. intros _.
  apply keeps_bind; [unfold ciphertext_envelope; cbv zeta; inv_auto|]. intros envelope.
  apply keeps_bind_val; [inv_auto|]. intros name s0 s0' Hname.
  apply keeps_bind_val; [inv_auto|]. intros c s1 s1' Hc.
  apply from_option_inr in Hc as [_ ->]. apply call_val_inr in Hname as [_ Hname].
  apply name_of_some in Hname as [_ Hct].
  pose proof (keeps_queue_unnamed c envelope) as Hun.
  destruct (jget envelope "request_id") as [| | | |r| |] eqn:Er;
    try (apply keeps_bind; [by apply keeps_call, Hun|intros _; apply keeps_ret]).
  destruct (py_empty r) eqn:Ep; [|by apply keeps_store_response].
  apply keeps_bind; [|intros _; apply keeps_ret]. apply keeps_call, Hun. simpl. by rewrite Ep.
Qed.

(** ** Progress and retrieval *)

Lemma keeps_progress header data : keeps RInv (api_v1_relay_progress cfg header data).
Proof. unfold api_v1_relay_progress. cbv zeta. inv_auto. Qed.

Lemma pop_first_sublist {A} (p : A -> bool) l x rest :
  pop_first p l = Some (x, rest) -> rest `sublist_of` l.
Proof.
  revert rest. induction l as [|y l IH]; intros rest; simpl; [done|].
  destruct (p y); [intros [= _ <-]; by apply sublist_cons|].
  destruct (pop_first p l) as [[z r]|]; [|done]. intros [= -> <-]. by apply sublist_skip, IH.
Qed.

Lemma kept_clear_pending_of c response : kept (clear_pending_of c response).
Proof. unfold clear_pending_of. kept_auto. Qed.
#[local] Hint Resolve kept_clear_pending_of : kept_db.

Lemma keeps_pop_response c request : keeps RInv (_pop_client_response c request).
Proof.
  unfold _pop_client_response. apply keeps_get_bind. intros s Hs.
  assert (Hstored : forall q, dget (client_responses s) c = Some q -> stored_in (client_responses s) c
    = match q with OneResponse e => [e] | ManyResponses l => l end).
  { intros q Hq. unfold stored_in. by rewrite Hq. }
  assert (Hpop : forall l e B (k : SM RelayState relay_error B), kept k ->
    l `sublist_of` stored_in (client_responses s) c ->
    RInv (bind (modify (fun s => with_client_responses
            (store_responses c l (client_responses s)) s)) (fun _ => bind (clear_pending_of c e)
              (fun _ => k)) s).1).
  { intros l e B k Hk Hl. unfold bind at 1, modify. apply keeps_bind.
    - apply kept_inv, kept_clear_pending_of.
    - intros _. by apply kept_inv.
    - by apply RInv_store. }
  destruct (dget (client_responses s) c) as [[e|l]|]; [| |done].
  - destruct (match request with Some _ => _ | None => _ end); [done|].
    apply (Hpop [] e); [apply kept_ret|]. apply sublist_nil_l.
  - rewrite (Hstored _ eq_refl) in Hpop. destruct request as [r|].
    + unfold bind at 1, ret at 1. cbn [fst snd].
      destruct (pop_first (response_for r) l) as [[e rest]|] eqn:Ep; [|done].
      apply Hpop; [apply kept_ret|]. by eapply pop_first_sublist.
    + destruct l as [|e rest]; [done|]. apply Hpop; [apply kept_ret|]. by apply sublist_cons.
Qed.

Lemma keeps_remove_responses c r : keeps RInv (_remove_client_responses_for_request c r).
Proof.
  unfold _remove_client_responses_for_request. destruct (_ || _); [apply keeps_ret|].
  apply keeps_get_bind. intros s Hs. destruct (dget (client_responses s) c) as [[e|l]|] eqn:Eq; [| |done].
  - destruct (response_for r e); [|done]. apply (RInv_store s c []); [done|apply sublist_nil_l].
  - apply (RInv_store s c); [done|]. unfold stored_in. rewrite Eq. apply bfilter_sublist.
Qed.

(** A client's responses may be dropped, or replaced by one that names no request. *)
Lemma keeps_drop_responses {E} c :
  keeps RInv (modify (fun s => with_client_responses (ddel (client_responses s) c) s)
    : SM RelayState E unit).
Proof.
  apply keeps_modify. intros s Hs. apply (RInv_store s c []); [done|apply sublist_nil_l].
Qed.

Lemma keeps_replace_response {E} c e :
  jget e "request_id" = JNull ->
  keeps RInv (modify (fun s => with_client_responses (dset (client_responses s) c (OneResponse e)) s)
    : SM RelayState E unit).
Proof.
  intros He. apply keeps_modify. intros s Hs.
  assert (Hno : forall r, response_for r e = false).
  { intros r. unfold response_for. by rewrite He. }
  apply RInv_add; [done|done| |].
  - intros r _ _. rewrite stored_in_dset, bool_decide_eq_true_2, bcount_cons, Hno, bcount_nil by done. lia.
  - intros r. unfold answered. rewrite stored_in_dset, bool_decide_eq_true_2 by done. simpl.
    by rewrite Hno, !andb_false_r.
Qed.
#[local] Hint Resolve keeps_pop_response keeps_remove_responses keeps_drop_responses
  keeps_replace_response : inv_db.

Lemma keeps_retrieve_responses data : keeps RInv (api_v1_relay_responses_retrieve cfg data).
Proof.
  unfold api_v1_relay_responses_retrieve, return_terminal, retrieve_pending, terminal_reply.
  cbv zeta. inv_auto.
Qed.

(** ** Legacy and streaming endpoints *)

Lemma keeps_faucet data : keeps RInv (faucet cfg data).
Proof. unfold faucet. cbv zeta. inv_auto. Qed.

Lemma kept_register_session server client : kept (_register_stream_session server client).
Proof. unfold _register_stream_session. cbv zeta. kept_auto. Qed.
#[local] Hint Resolve kept_register_session : kept_db.

Lemma kept_drain key size queue batch : kept (drain_queue key size queue batch).
Proof.
  revert batch. induction queue as [|item rest IH]; intros batch; simpl; [apply kept_ret|].
  destruct (_ <=? _); [apply kept_ret|]. destruct (dmem item _); [apply IH|].
  destruct (truthy _); [apply kept_ret|]. apply kept_bind; [|intros item'; apply IH]. kept_auto.
Qed.
#[local] Hint Resolve kept_drain : kept_db.

(** A ping of the legacy protocol adds a node without the API v1 marker. *)
Lemma keeps_legacy_ping s key now :
  RInv s ->
  RInv (with_known_servers (dset (known_servers s) key
    match dget (known_servers s) key with
    | Some p => with_last_ping now p
    | None => MkServer key now 10 false None None None None
    end) s).
Proof.
  intros Hs. destruct (dget (known_servers s) key) as [p|] eqn:Ep.
  - apply (kp_inv _ _ _ _ (Kept_server _ _ _ s key (with_last_ping now p)
      (Build_Kept _ _ _ s Hs eq_refl eq_refl eq_refl)
      ltac:(by destruct (ri_nodes s Hs _ _ Ep); split) (elem_markers _ _ _ Ep))).
  - pose proof (ri_cursor s Hs) as [? Hc]. rewrite zlen_markers in Hc.
    pose proof (ri_nodes s Hs) as Hnodes. pose proof (ri_servers s Hs).
    destruct Hs. split; try done; simpl.
    + by apply nodup_dset.
    + intros k q. rewrite dget_dset. case_bool_decide; [intros [= <-]; by subst|apply Hnodes].
    + split; [done|]. rewrite zlen_markers, dcount_dset_fresh by done. simpl. lia.
Qed.

Lemma keeps_sink header data : keeps RInv (sink cfg header data).
Proof.
  unfold sink. apply keeps_respond. apply keeps_bind; [inv_auto|]. intros _.
  apply keeps_bind; [inv_auto|]. intros _. apply keeps_bind; [inv_auto|]. intros _.
  destruct data as [| | | | | |d]; try apply keeps_ret.
  apply keeps_bind; [inv_auto|]. intros size. apply keeps_bind; [inv_auto|]. intros max.
  apply keeps_bind; [inv_auto|]. intros name. apply keeps_bind; [inv_auto|]. intros key.
  apply keeps_bind; [inv_auto|]. intros now. apply keeps_get_bind. intros s Hs. cbv zeta.
  unfold bind at 1, modify at 1. revert s Hs. intros s Hs.
  pose proof (keeps_legacy_ping s key now Hs) as Hs'. revert Hs'.
  generalize (with_known_servers (dset (known_servers s) key
    match dget (known_servers s) key with
    | Some p => with_last_ping now p
    | None => MkServer key now 10 false None None None None
    end) s). intros s'. revert s'. apply keeps_bind; [inv_auto|]. intros [queue batch].
  apply keeps_bind; [|intros _; apply keeps_ret]. apply kept_inv. kept_auto. cbn [fst snd].
  destruct (dmem _ _); auto with dict_db.
Qed.

Lemma keeps_source header data : keeps RInv (source cfg header data).
Proof. unfold source. cbv zeta. inv_auto. Qed.

Lemma keeps_retrieve data : keeps RInv (retrieve cfg data).
Proof. unfold retrieve. cbv zeta. inv_auto. Qed.

Lemma kept_append_chunk session chunk final : kept (_append_stream_chunk session chunk final).
Proof. unfold _append_stream_chunk. kept_auto. Qed.

Lemma kept_pop_chunks client : kept (_pop_stream_chunks_for_client client).
Proof. unfold _pop_stream_chunks_for_client. cbv zeta. kept_auto. Qed.
#[local] Hint Resolve kept_append_chunk kept_pop_chunks : kept_db.

Lemma keeps_stream_source header data : keeps RInv (stream_source cfg header data).
Proof. unfold stream_source. cbv zeta. inv_auto. Qed.

Lemma keeps_stream_retrieve data : keeps RInv (stream_retrieve data).
Proof. unfold stream_retrieve. cbv zeta. inv_auto. Qed.

End answers.
