(* ===== verification/RelayRun.v ===== *)
(** * relay.py: runs of the server

    One constructor per endpoint, the operation it runs, and the states the server
    can reach.  The three parts of a long poll are operations of their own, so any
    other request may run between them. *)

From S2P Require Import Prelude PyFloat PyStr PyDict Sha256 PyText Json RelayTypes.
From S2P Require Import RelayConfig RelayLifecycle RelayRegistry RelayStreams.
From S2P Require Import RelayHandlers RelayInv RelayKept RelayEndpoints.
From S2P Require Import RelayAnswers.
#[local] Open Scope Z_scope.

Inductive relay_op : Type :=
| ServersNext (model context_tier : option pystr)
| NextServer
| Register (header : pystr) (data : json)
| Unregister (legacy : bool) (header : pystr) (data : json)
| PollBegin (header : pystr) (data : json)
| PollAttempt (p : poll_context)
| PollFinish (p : poll_context) (first : option jdict)
| Control (header : pystr) (data : json)
| Requests (data : json)
| RequestsCancel (data : json)
| Responses (header : pystr) (data : json)
| Progress (header : pystr) (data : json)
| ResponsesRetrieve (data : json)
| Faucet (data : json)
| Sink (header : pystr) (data : json)
| Source (header : pystr) (data : json)
| Retrieve (data : json)
| StreamSource (header : pystr) (data : json)
| StreamRetrieve (data : json).

Section run.
Context `{!PyNumbers, !PyUnicode, !Clock, !Crypto}.
Variable cfg : RelaySettings.
Variable aliases : dict pystr pystr.

(** The state an operation leaves, whether it replies or lets an exception out *)
Definition run_relay_op (op : relay_op) (s : RelayState) : RelayState :=
  match op with
  | ServersNext model tier => (api_v1_relay_servers_next cfg aliases model tier s).1
  | NextServer => (next_server cfg s).1
  | Register header data => (api_v1_relay_servers_register cfg header data s).1
  | Unregister legacy header data =>
      (_handle_server_unregister_request cfg legacy header data s).1
  | PollBegin header data => (poll_begin cfg header data s).1
  | PollAttempt p => (poll_attempt cfg p s).1
  | PollFinish p first => (poll_finish cfg p first s).1
  | Control header data => (api_v1_relay_servers_control cfg header data s).1
  | Requests data => (api_v1_relay_requests cfg data s).1
  | RequestsCancel data => (api_v1_relay_requests_cancel cfg data s).1
  | Responses header data => (api_v1_relay_responses cfg header data s).1
  | Progress header data => (api_v1_relay_progress cfg header data s).1
  | ResponsesRetrieve data => (api_v1_relay_responses_retrieve cfg data s).1
  | Faucet data => (faucet cfg data s).1
  | Sink header data => (sink cfg header data s).1
  | Source header data => (source cfg header data s).1
  | Retrieve data => (retrieve cfg data s).1
  | StreamSource header data => (stream_source cfg header data s).1
  | StreamRetrieve data => (stream_retrieve data s).1
  end.

Inductive relay_reachable : RelayState -> Prop :=
| relay_start : relay_reachable initial_relay
| relay_step op s : relay_reachable s -> relay_reachable (run_relay_op op s).

Lemma run_relay_op_keeps op s : RInv s -> RInv (run_relay_op op s).
Proof.
  revert s. destruct op; simpl;
    change (forall s, RInv s -> RInv (?m s).1) with (keeps RInv m).
  - apply keeps_servers_next.
  - apply keeps_next_server.
  - apply keeps_register.
  - apply keeps_handle_unregister.
  - apply keeps_poll_begin.
  - apply kept_inv, kept_poll_attempt.
  - apply kept_inv, kept_poll_finish.
  - apply keeps_control.
  - apply keeps_requests.
  - apply keeps_requests_cancel.
  - apply keeps_responses.
  - apply keeps_progress.
  - apply keeps_retrieve_responses.
  - apply keeps_faucet.
  - apply keeps_sink.
  - apply keeps_source.
  - apply keeps_retrieve.
  - apply keeps_stream_source.
  - apply keeps_stream_retrieve.
Qed.

Lemma reachable_RInv s : relay_reachable s -> RInv s.
Proof. induction 1; [apply initial_RInv|by apply run_relay_op_keeps]. Qed.

End run.

(** * relay.py: a concrete run

    A relay with its default environment, a monotonic clock that advances one
    second per reading, up to 1000, and ASCII names, taken from the registration of
    a node to the answer of a request.  The witnesses apply the theorems at the
    states of this run. *)

#[export] Existing Instance sha256_crypto.
#[export] Existing Instance ascii_unicode.

#[export] Instance demo_clock : Clock := {
  monotonic_at n := float_near (Z.min (Z.of_nat n) 1000);
  wall_at n := float_near (Z.of_nat n);
  today_at n := Z.of_nat n * 1000000;
  token_at _ := "credential";
  choice_at n := n;
  token_encodes _ := ltac:(discriminate);
  token_is_text _ := eq_refl
}.

#[export] Instance no_numbers : PyNumbers := {
  parse_float _ := None;
  parse_int _ := None
}.

Definition demo_settings : RelaySettings :=
  MkRelaySettings (fun _ => None) (float_near 300) (float_near 600) [].

Definition demo_register : relay_op :=
  Register "" (JDict [("server_public_key", JStr "node");
    ("capabilities", JDict [("api_version", JStr "v1"); ("active_context_tier", JStr "8k-fast");
       ("supported_model_ids", JList [JStr "qwen3-8b-instruct"]);
       ("maximum_total_context_tokens", JInt 8192); ("default_output_token_reservation", JInt 512);
       ("maximum_output_tokens", JInt 1024); ("max_concurrency", JInt 2);
       ("backend_class", JStr "cuda")])])%pystr.

Definition demo_request_body : json :=
  JDict [("server_public_key", JStr "node"); ("client_public_key", JStr "client");
         ("request_id", JStr "r1"); ("ciphertext", JStr "Y2lwaGVy"); ("cipherkey", JStr "a2V5");
         ("iv", JStr "aXY="); ("cancel_token", JStr "proof")]%pystr.

Definition demo_run_ops (ops : list relay_op) : RelayState :=
  fold_left (fun s op => run_relay_op demo_settings [] op s) ops initial_relay.

Lemma relay_demo_reachable_gen ops s :
  relay_reachable demo_settings [] s ->
  relay_reachable demo_settings [] (fold_left (fun s op => run_relay_op demo_settings [] op s) ops s).
Proof. revert s. induction ops as [|op ops IH]; intros s Hs; simpl; [done|]. apply IH. by constructor. Qed.

Lemma relay_demo_reachable ops : relay_reachable demo_settings [] (demo_run_ops ops).
Proof. apply relay_demo_reachable_gen. constructor. Qed.

Definition registered : RelayState := demo_run_ops [demo_register].
Definition requested : RelayState := demo_run_ops [demo_register; Requests demo_request_body].
