(* ===== verification/RelayCancel.v ===== *)
(** * relay.py: what a cancellation does

    A request is live while it is pending, queued or in flight.  Cancelling it
    takes it out of every one of these places, whatever the tables held, leaves
    other requests as they were, and records a terminal entry exactly when it was
    live and unanswered. *)

From S2P Require Import Prelude PyFloat PyStr PyDict Sha256 PyText Json RelayTypes.
From S2P Require Import RelayConfig RelayLifecycle RelayRegistry RelayStreams.
From S2P Require Import RelayHandlers RelayInv RelayKept RelayEndpoints RelayAnswers.
From S2P Require Import RelayRun.
#[local] Open Scope Z_scope.

(** ** Live requests *)

Definition in_flight_at (c r : pystr) (p : ServerPayload) : bool :=
  match in_flight_entry_of c r p with Some _ => true | None => false end.

Definition in_flight_somewhere (servers : dict pystr ServerPayload) (c r : pystr) : bool :=
  existsb (fun kp => in_flight_at c r kp.2) servers.

Definition is_pending (s : RelayState) (c r : pystr) : bool :=
  match nget (client_pending_request_ids s) c r with Some _ => true | None => false end.

Definition live (s : RelayState) (c r : pystr) : bool :=
  is_pending s c r || negb (queued_copies c r (client_inference_requests s) =? 0)
  || in_flight_somewhere (known_servers s) c r.

(** ** Queues *)

Lemma queued_copies_nonneg c r queues : 0 <= queued_copies c r queues.
Proof.
  unfold queued_copies. induction queues as [|[k q] d IH]; simpl; [lia|].
  pose proof (bcount_nonneg (item_matches c r) q). lia.
Qed.

Lemma queued_copies_app c r d1 d2 :
  queued_copies c r (d1 ++ d2) = queued_copies c r d1 + queued_copies c r d2.
Proof. unfold queued_copies. induction d1 as [|[k q] d IH]; simpl; [lia|]. rewrite IH. lia. Qed.

Lemma item_matches_other c r c' r' item :
  (c', r') <> (c, r) -> item_matches c' r' item = true -> item_matches c r item = false.
Proof.
  unfold item_matches. intros Hne [Hc Hr]%andb_true_iff. apply jeq_str_true in Hc, Hr.
  apply not_true_iff_false. rewrite andb_true_iff, !jeq_str_true. intros [Hc' Hr']. congruence.
Qed.

(** Removing a request removes its copies and no others. *)
Lemma queued_copies_without c r c' r' queues :
  queued_copies c' r' (without_request c r queues) =
    if bool_decide ((c', r') = (c, r)) then 0 else queued_copies c' r' queues.
Proof.
  assert (Hq : forall q, bcount (item_matches c' r') (bfilter (fun i => negb (item_matches c r i)) q)
    = if bool_decide ((c', r') = (c, r)) then 0 else bcount (item_matches c' r') q).
  { unfold bfilter. induction q as [|x q IH]; simpl; [rewrite bcount_nil; by case_bool_decide|].
    rewrite bcount_cons. case_bool_decide as E.
    - simplify_eq. destruct (item_matches c r x) eqn:Em; simpl; [done|].
      by rewrite bcount_cons, Em, IH.
    - destruct (item_matches c' r' x) eqn:Em.
      + rewrite (item_matches_other c r c' r' x) by done. simpl. by rewrite bcount_cons, Em, IH.
      + destruct (item_matches c r x); simpl; by rewrite ?bcount_cons, ?Em, IH. }
  unfold without_request. induction queues as [|[k q] d IH]; cbn [map concat].
  - by case_bool_decide.
  - rewrite queued_copies_app, IH. specialize (Hq q). unfold queued_copies at 3. cbn [fold_right fst snd].
    fold (queued_copies c' r' d).
    destruct (bfilter _ q) as [|x l]; cbn [fst snd].
    + rewrite bcount_nil in Hq. destruct q; unfold queued_copies at 1; simpl; rewrite ?bcount_nil;
        case_bool_decide; lia.
    + unfold queued_copies at 1. cbn [fold_right snd]. rewrite Hq. case_bool_decide; lia.
Qed.

(** ** In-flight entries *)

(** A node without its entry of the request *)
Definition drop_entry (c r : pystr) (p : ServerPayload) : ServerPayload :=
  match in_flight_entry_of c r p with
  | Some _ => with_in_flight (remaining_entries (ddel (default [] (sp_in_flight_requests p)) r)) p
  | None => p
  end.

Definition drop_entries (c r : pystr) (servers : dict pystr ServerPayload)
  : dict pystr ServerPayload :=
  map (fun kp => (kp.1, drop_entry c r kp.2)) servers.

Lemma in_flight_of_remaining c r p entries :
  in_flight_entry_of c r (with_in_flight (remaining_entries entries) p) =
    match dget entries r with
    | Some e => if jeq_str (if_client_public_key e) c then Some e else None
    | None => None
    end.
Proof. unfold in_flight_entry_of, remaining_entries. by destruct entries. Qed.

Lemma in_flight_dropped c r c' r' k p : node_ok k p ->
  in_flight_at c' r' (drop_entry c r p) =
    if bool_decide ((c', r') = (c, r)) then false else in_flight_at c' r' p.
Proof.
  intros Hok. unfold in_flight_at, drop_entry.
  destruct (in_flight_entry_of c r p) as [e|] eqn:Ee.
  2: { case_bool_decide; [|done]. simplify_eq. by rewrite Ee. }
  rewrite in_flight_of_remaining. unfold in_flight_entry_of in *.
  destruct (sp_in_flight_requests p) as [entries|] eqn:Ed; [|done].
  pose proof (proj1 (no_in_flight _ _ Hok _ Ed)) as Hn. cbn [default from_option id].
  rewrite dget_ddel by done. destruct (decide (r' = r)) as [->|Hr].
  - rewrite bool_decide_eq_true_2 by done. destruct (dget entries r) as [e'|]; [|done].
    case_bool_decide as Hcr; [done|]. destruct (jeq_str (if_client_public_key e') c) eqn:E1; [|done].
    destruct (jeq_str (if_client_public_key e') c') eqn:E2; [|done].
    apply jeq_str_true in E1, E2. congruence.
  - rewrite !bool_decide_eq_false_2 by congruence. done.
Qed.

Lemma in_flight_somewhere_dropped c r c' r' servers :
  Forall (fun kp => node_ok kp.1 kp.2) servers ->
  in_flight_somewhere (drop_entries c r servers) c' r' =
    if bool_decide ((c', r') = (c, r)) then false else in_flight_somewhere servers c' r'.
Proof.
  induction 1 as [|[k p] d Hok _ IH]; [by case_bool_decide|].
  unfold in_flight_somewhere, drop_entries in *. cbn [map existsb fst snd].
  rewrite IH, (in_flight_dropped c r c' r' k p) by done. by case_bool_decide.
Qed.

Lemma dset_middle {V} (pre rest : dict pystr V) k v w :
  nodup_keys (pre ++ (k, v) :: rest) -> dset (pre ++ (k, v) :: rest) k w = pre ++ (k, w) :: rest.
Proof.
  unfold nodup_keys, dkeys. induction pre as [|[k0 v0] pre IH]; cbn [app map dset fst].
  - intros _. by rewrite bool_decide_eq_true_2.
  - intros [Hk Hn]%NoDup_cons. rewrite bool_decide_eq_false_2; [by rewrite IH|].
    intros ->. apply Hk. rewrite map_app. apply elem_of_app. right. by left.
Qed.

Section cancel.
Context `{!PyNumbers, !PyUnicode, !Clock, !Crypto}.
Variable cfg : RelaySettings.

Lemma with_same s :
  s = with_ticks (ticks s) (with_api_v1_control_tombstones (api_v1_control_tombstones s) s).
Proof. by destruct s. Qed.

Lemma add_tombstone_run server r client status reason deadline owner s :
  exists t tb, _add_api_v1_control_tombstone cfg server r client status reason deadline owner s
    = (with_ticks t (with_api_v1_control_tombstones tb s), inr tt).
Proof.
  unfold _add_api_v1_control_tombstone. destruct (_ || _).
  { do 2 eexists. unfold ret. by rewrite <- with_same. }
  do 2 eexists. reflexivity.
Qed.

Lemma cancel_in_flight_run c r status reason won servers pre s :
  known_servers s = pre ++ servers -> nodup_keys (known_servers s) ->
  exists t tb n, cancel_in_flight cfg c r status reason won servers s =
    (with_ticks t (with_api_v1_control_tombstones tb
       (with_known_servers (pre ++ drop_entries c r servers) s)), inr n) /\
    0 <= n /\ (n =? 0) = negb (in_flight_somewhere servers c r).
Proof.
  revert pre s. induction servers as [|[k p] rest IH]; intros pre s Hs Hn; simpl.
  { exists (ticks s), (api_v1_control_tombstones s), 0. split; [|done].
    rewrite <- Hs. unfold ret. by destruct s. }
  assert (Hskip : in_flight_entry_of c r p = None ->
    exists t tb n, cancel_in_flight cfg c r status reason won rest s =
      (with_ticks t (with_api_v1_control_tombstones tb
         (with_known_servers (pre ++ (k, drop_entry c r p) :: drop_entries c r rest) s)), inr n) /\
      0 <= n /\ (n =? 0) = negb (in_flight_at c r p || in_flight_somewhere rest c r)).
  { intros He. unfold drop_entry, in_flight_at. rewrite He.
    destruct (IH (pre ++ [(k, p)]) s) as (t & tb & n & Hrun & Hn0 & Hiff);
      [by rewrite <- app_assoc|done|]. exists t, tb, n. by rewrite Hrun, <- app_assoc. }
  destruct (sp_in_flight_requests p) as [entries|] eqn:Ed;
    [|apply Hskip; unfold in_flight_entry_of; by rewrite Ed].
  destruct (dget entries r) as [entry|] eqn:Eg;
    [|apply Hskip; unfold in_flight_entry_of; by rewrite Ed, Eg].
  destruct (jeq_str _ c) eqn:Ej;
    [|apply Hskip; unfold in_flight_entry_of; by rewrite Ed, Eg, Ej].
  clear Hskip. assert (He : in_flight_entry_of c r p = Some entry)
    by (unfold in_flight_entry_of; by rewrite Ed, Eg, Ej).
  unfold drop_entry, in_flight_at. rewrite He, Ed. cbn [default from_option id orb negb].
  unfold bind at 1, modify. rewrite Hs, dset_middle by (by rewrite <- Hs).
  set (q := with_in_flight _ p). set (s1 := with_known_servers (pre ++ (k, q) :: rest) s).
  assert (Hs1 : exists t tb, (if won then ret tt else
      _add_api_v1_control_tombstone cfg (sp_public_key p) r (JStr c) (JStr status) (JStr reason)
        (if_request_deadline_monotonic entry) None : RM unit) s1
    = (with_ticks t (with_api_v1_control_tombstones tb s1), inr tt)).
  { destruct won; [|apply add_tombstone_run]. do 2 eexists. unfold ret. by rewrite <- with_same. }
  destruct Hs1 as (t & tb & Hrun). rewrite (bind_run _ _ _ _ _ Hrun).
  destruct (IH (pre ++ [(k, q)]) (with_ticks t (with_api_v1_control_tombstones tb s1)))
    as (t' & tb' & n & Hrun' & Hn0 & _).
  { simpl. by rewrite <- app_assoc. }
  { simpl. rewrite Hs in Hn. unfold nodup_keys, dkeys in *. rewrite map_app in *. done. }
  rewrite (bind_run _ _ _ _ _ Hrun'). exists t', tb', (1 + n). unfold ret.
  split; [by rewrite <- app_assoc|]. split; [lia|]. apply Z.eqb_neq. lia.
Qed.

Lemma with_same_log t s :
  with_ticks t s = with_ticks t (with_request_outcomes (request_outcomes s)
    (with_client_terminal_outcomes (client_terminal_outcomes s) s)).
Proof. by destruct s. Qed.

Lemma record_once_run c r outcome s :
  exists t outs log b, _record_request_terminal_outcome_once cfg c r outcome s =
    (with_ticks t (with_request_outcomes log (with_client_terminal_outcomes outs s)), inr b).
Proof.
  unfold _record_request_terminal_outcome_once. destruct (_ || _).
  { exists (ticks s), (client_terminal_outcomes s), (request_outcomes s), false.
    unfold ret. f_equal. by destruct s. }
  unfold bind at 1, wall_time. rewrite reading_run. cbn [fst snd].
  unfold bind at 1, get_state. cbn [fst snd]. destruct (nget _ c r).
  - do 4 eexists. apply (f_equal (fun s => (s, inr false))), with_same_log.
  - do 4 eexists. reflexivity.
Qed.

(** A terminal entry is left in any case: the new one, or one that was there. *)
Lemma mark_terminal_run c r status reason s :
  no_text c = false -> no_text r = false -> nested_ok (client_terminal_request_ids s) ->
  exists t outs log terms b te, _mark_request_terminal cfg c r status reason s =
    (with_ticks t (with_request_outcomes log (with_client_terminal_outcomes outs
       (with_client_terminal_request_ids terms s))), inr b) /\
    nget terms c r = Some te /\
    (nget (client_terminal_request_ids s) c r = Some te \/
     te_status te = _sanitize_terminal_status status /\
     te_reason te = _sanitize_terminal_reason reason (_sanitize_terminal_status status)).
Proof.
  intros Hc Hr Hn. unfold _mark_request_terminal. rewrite Hc, Hr. cbn [orb]. cbv zeta.
  unfold bind at 1, wall_time. rewrite reading_run. cbn [fst snd].
  unfold bind at 1. rewrite reading_run. cbn [fst snd].
  unfold bind at 1, _prune_terminal_requests, bind at 1, ret at 1, bind at 1, modify at 1,
    modify at 1. cbn [fst snd].
  unfold bind at 1, get_state. cbn [fst snd].
  simpl. set (terms := nprune _ (client_terminal_request_ids s)).
  set (outs := nprune _ (client_terminal_outcomes s)).
  assert (Hterms : forall te, nget terms c r = Some te ->
    nget (client_terminal_request_ids s) c r = Some te).
  { intros te. unfold terms. rewrite nget_nprune by done.
    destruct (nget _ c r) as [t0|]; [|done]. by destruct (fle _ _). }
  destruct (nget terms c r) as [te|] eqn:Et.
  - exists (S (S (ticks s))), outs, (request_outcomes s), terms, false, te.
    split; [by destruct s|]. split; [done|]. left. by apply Hterms.
  - unfold bind at 1, modify. simpl.
    edestruct (record_once_run c r) as (t & outs' & log & b & Hrun). rewrite Hrun.
    eexists _, _, _, (nset terms c r _), _, _. split; [reflexivity|].
    rewrite nget_nset, bool_decide_eq_true_2 by done. split; [done|]. by right.
Qed.

(** ** The whole cancellation *)

Record cancelled (c r status reason : pystr) (s s' : RelayState) : Prop := {
  cn_live : forall c' r', live s' c' r' =
    if bool_decide ((c', r') = (c, r)) then false else live s c' r';
  cn_pending : forall c' r', (c', r') <> (c, r) ->
    nget (client_pending_request_ids s') c' r' = nget (client_pending_request_ids s) c' r';
  cn_progress : client_progress s' = ddel (client_progress s) (c, r);
  cn_responses : client_responses s' = client_responses s;
  cn_terminal : live s c r = true -> answered (client_responses s) c r = false ->
    exists te, nget (client_terminal_request_ids s') c r = Some te /\
      (nget (client_terminal_request_ids s) c r = Some te \/
       te_status te = status /\ te_reason te = reason);
  cn_unended : live s c r && negb (answered (client_responses s) c r) = false ->
    client_terminal_request_ids s' = client_terminal_request_ids s
}.

Lemma clear_pending_run c r s : no_text c = false -> no_text r = false -> RInv s ->
  exists pending deadlines, _clear_pending_request c r s =
    (with_client_pending_request_deadlines deadlines
       (with_client_pending_request_ids pending s), inr (is_pending s c r)) /\
    forall c' r', nget pending c' r' =
      if bool_decide ((c', r') = (c, r)) then None
      else nget (client_pending_request_ids s) c' r'.
Proof.
  intros Hc Hr Hs. pose proof (ri_pending s Hs) as Hp. unfold _clear_pending_request.
  rewrite Hc, Hr. cbn [orb]. unfold bind at 1, get_state. cbn [fst snd].
  destruct (dget_or (client_pending_request_ids s) c []) as [|x ids] eqn:Ei.
  - exists (client_pending_request_ids s), (client_pending_request_deadlines s).
    assert (Hnone : nget (client_pending_request_ids s) c r = None) by (unfold nget; by rewrite Ei).
    split; [unfold ret, is_pending; rewrite Hnone; by destruct s|].
    intros c' r'. case_bool_decide; [by simplify_eq|done].
  - eexists _, _. split.
    + unfold bind, modify, ret, is_pending, nget. by rewrite Ei.
    + intros c' r'. rewrite nget_npop by done. repeat case_bool_decide; naive_solver.
Qed.

Lemma clear_progress_run c r s : no_text c = false -> no_text r = false ->
  _clear_client_progress c r s =
    (with_client_progress (ddel (client_progress s) (c, r)) s,
     inr (dmem (client_progress s) (c, r))).
Proof. intros Hc Hr. unfold _clear_client_progress. by rewrite Hc, Hr. Qed.

Lemma sanitize_status_idem v :
  _sanitize_terminal_status (JStr (_sanitize_terminal_status v)) = _sanitize_terminal_status v.
Proof.
  unfold _sanitize_terminal_status. destruct v as [| | | |s| |]; try done.
  destruct (pystr_in s _) eqn:E; [by rewrite E|done].
Qed.

Lemma sanitize_reason_idem v st :
  _sanitize_terminal_reason (JStr (_sanitize_terminal_reason v st)) st
    = _sanitize_terminal_reason v st.
Proof.
  unfold _sanitize_terminal_reason. destruct v as [| | | |s| |]; try by destruct (pystr_in st _).
  destruct (pystr_in s _) eqn:E; [by rewrite E|by destruct (pystr_in st _)].
Qed.

Lemma nodes_ok s : RInv s -> Forall (fun kp => node_ok kp.1 kp.2) (known_servers s).
Proof. intros Hs. eapply Forall_impl; [by apply known_snapshot|]. by intros kp []. Qed.

(** The tables after the request was taken out of them *)
Lemma taken_out c r pending s s' :
  RInv s ->
  (forall c' r', nget pending c' r' = if bool_decide ((c', r') = (c, r)) then None
     else nget (client_pending_request_ids s) c' r') ->
  known_servers s' = drop_entries c r (known_servers s) ->
  client_inference_requests s' = without_request c r (client_inference_requests s) ->
  client_pending_request_ids s' = pending ->
  forall c' r', live s' c' r' = if bool_decide ((c', r') = (c, r)) then false else live s c' r'.
Proof.
  intros Hs Hp Hk Hq He c' r'. unfold live, is_pending.
  rewrite Hk, Hq, He, Hp, queued_copies_without, in_flight_somewhere_dropped by (by apply nodes_ok).
  by case_bool_decide.
Qed.

Lemma cancel_request_run c r status reason s :
  RInv s -> no_text c = false -> no_text r = false ->
  exists s', cancel_request cfg c r status reason s =
      (s', inr (queued_copies c r (client_inference_requests s))) /\
    cancelled c r (_sanitize_terminal_status status)
      (_sanitize_terminal_reason reason (_sanitize_terminal_status status)) s s'.
Proof.
  intros Hs Hc Hr. unfold cancel_request. cbv zeta.
  rewrite (bind_run _ _ _ _ _ (clear_progress_run c r s Hc Hr)).
  set (s1 := with_client_progress _ s). unfold bind at 1, get_state at 1. cbn [fst snd].
  assert (Hs1 : RInv s1) by (pose proof (kept_inv _ (kept_clear_progress c r) s Hs) as Hk;
    by rewrite (clear_progress_run c r s Hc Hr) in Hk).
  unfold bind at 1, _remove_request_from_server_queues. unfold bind at 1, get_state at 1.
  unfold bind at 1, modify at 1, ret at 1. cbn [fst snd].
  set (s2 := with_client_inference_requests _ s1).
  assert (Hs2 : RInv s2) by apply (kept_inv _ (kept_remove_from_queues c r) s1 Hs1).
  destruct (clear_pending_run c r s2 Hc Hr Hs2) as (pending & deadlines & Hrun & Hpending).
  rewrite (bind_run _ _ _ _ _ Hrun). set (s3 := with_client_pending_request_deadlines _ _).
  assert (Hs3 : RInv s3) by (pose proof (kept_inv _ (kept_clear_pending c r) s2 Hs2) as Hk;
    by rewrite Hrun in Hk).
  unfold bind at 1, get_state at 1. cbn [fst snd].
  set (st := _sanitize_terminal_status status). set (rs := _sanitize_terminal_reason reason st).
  set (won := _has_client_response_for_request s1 c r).
  destruct (cancel_in_flight_run c r st rs won (known_servers s3) [] s3 eq_refl (ri_servers _ Hs3))
    as (t & tb & n & Hrun' & Hn0 & Hn).
  rewrite (bind_run _ _ _ _ _ Hrun'). set (s4 := with_ticks t _).
  unfold bind at 1, get_state at 1. cbn [fst snd].
  assert (Hlive : forall s', known_servers s' = known_servers s4 ->
    client_inference_requests s' = client_inference_requests s4 ->
    client_pending_request_ids s' = client_pending_request_ids s4 ->
    forall c' r', live s' c' r' = if bool_decide ((c', r') = (c, r)) then false else live s c' r')
    by (intros; by eapply taken_out).
  change (_has_client_response_for_request s4 c r) with won.
  assert (Hwon : won = answered (client_responses s) c r) by apply (has_response_answered s1).
  rewrite Hwon, <- andb_assoc, andb_diag. replace (negb (_ =? 0) || _ || _) with (live s c r).
  2: { unfold live. rewrite Hn, negb_involutive, (orb_comm (is_pending s c r)). done. }
  assert (Hp : forall c' r', (c', r') <> (c, r) ->
    nget pending c' r' = nget (client_pending_request_ids s) c' r').
  { intros c' r' Hne. rewrite Hpending. by rewrite bool_decide_eq_false_2. }
  destruct (live s c r && negb (answered (client_responses s) c r)) eqn:Eend.
  - destruct (mark_terminal_run c r (JStr st) (JStr rs) s4 Hc Hr (ri_terminals _ Hs3))
      as (t' & outs & log & terms & b & te & Hmark & Hte & Hnew).
    unfold bind. rewrite Hmark. unfold ret. eexists. split; [reflexivity|].
    pose proof (sanitize_status_idem status : _ (JStr st) = st) as Hst.
    pose proof (sanitize_reason_idem reason st : _ (JStr rs) st = rs) as Hrs.
    rewrite Hst, Hrs in Hnew.
    split; [by apply Hlive|exact Hp|done|done| |by rewrite Eend].
    intros _ _. exists te. by split.
  - eexists. split; [reflexivity|]. split; [by apply Hlive|exact Hp|done|done| |done].
    intros Hl Ha. by rewrite Hl, Ha in Eend.
Qed.

End cancel.

(** * relay.py: which responses are accepted

    A response for a named request is stored only when the request was live,
    unanswered and not terminated; then the request leaves the pending table and
    the queues, and the response is appended to the client's.  Every refusal leaves
    the stored responses as they were. *)

(** ** Rules for handlers *)

(** The reply of an endpoint, whose error path [R] describes *)
Lemma respond_wp (h : HM reply) (Q : reply -> RelayState -> Prop) (R : relay_error -> RelayState -> Prop) s :
  wp h Q (fun e s' => match e with Returned rep => Q rep s' | Failed e => R e s' end) s ->
  wp (respond h) Q R s.
Proof. unfold wp, respond. by destruct (h s) as [s' [[e|rep]|rep]]. Qed.

Lemma wp_true {E A} (m : SM RelayState E A) s : wp m (fun _ _ => True) (fun _ _ => True) s.
Proof. unfold wp. by destruct (m s) as [s' [e|a]]. Qed.

Lemma wp_call_val {A} (v : relay_error + A) (Q : A -> RelayState -> Prop) R s :
  (forall e, v = inl e -> R (Failed e) s) -> (forall a, v = inr a -> Q a s) ->
  wp (call_val v) Q R s.
Proof. unfold wp, call_val, call, lift_val. destruct v; cbn; eauto. Qed.

Lemma wp_any {E A} (m : SM RelayState E A) (Q : A -> RelayState -> Prop) (R : E -> RelayState -> Prop) s :
  (forall e s', R e s') -> (forall a s', Q a s') -> wp m Q R s.
Proof. intros HR HQ. unfold wp. by destruct (m s) as [s' [e|a]]. Qed.

Lemma wp_call {A} (m : RM A) (Q : A -> RelayState -> Prop) (R : relay_exit -> RelayState -> Prop) s :
  wp m Q (fun e => R (Failed e)) s -> wp (call m) Q R s.
Proof. unfold wp, call. by destruct (m s) as [s' [e|a]]. Qed.

Section accept.
Context `{!PyNumbers, !PyUnicode, !Clock, !Crypto}.
Variable cfg : RelaySettings.

Lemma wp_server_token header (Q : unit -> RelayState -> Prop) R s :
  (forall ex, R ex s) -> Q tt s -> wp (require_server_token cfg header) Q R s.
Proof.
  intros HR HQ. unfold require_server_token. apply wp_bind, wp_call_val; [intros; apply HR|].
  intros [rep|] _; [apply wp_raise, HR|by apply wp_ret].
Qed.

(** Since [s0], requests may have ended and nothing else happened to the nodes and
    the responses. *)
Record ending (s0 s : RelayState) : Prop := {
  en_inv : RInv s;
  en_responses : client_responses s = client_responses s0;
  en_live : forall c r, live s c r = true -> live s0 c r = true
}.

Lemma ending_refl s : RInv s -> ending s s.
Proof. by split. Qed.

(** A helper that keeps the nodes and responses, always returns, and leaves the
    places a request can wait in alone *)
Lemma ending_step {A} (m : RM A) s0 s s' (a : A) :
  kept m -> ending s0 s -> m s = (s', inr a) ->
  (forall c r, live s' c r = true -> live s c r = true) -> ending s0 s'.
Proof.
  intros Hm [Hi Hr Hl] Hrun Hlive. pose proof (kept_state m s Hm Hi) as (? & _ & _ & Hresp).
  rewrite Hrun in *. cbn [fst] in *. split; [done|congruence|auto].
Qed.

Lemma get_terminal_run c r s :
  exists t terms o, _get_terminal_request c r s =
    (with_ticks t (with_client_terminal_request_ids terms s), inr o).
Proof.
  unfold _get_terminal_request. destruct (_ || _).
  { exists (ticks s), (client_terminal_request_ids s), None. unfold ret. by destruct s. }
  unfold bind at 1, wall_time. rewrite reading_run. unfold bind at 1, get_state. cbn [fst snd].
  destruct (nget _ c r) as [te|].
  - destruct (fle _ _); [do 3 eexists; reflexivity|].
    exists (S (ticks s)), (client_terminal_request_ids s), (Some te). unfold ret. by destruct s.
  - exists (S (ticks s)), (client_terminal_request_ids s), None. unfold ret. by destruct s.
Qed.

Lemma entry_expired_run entry now deadline s :
  exists t b, _pending_request_entry_is_expired cfg entry now deadline s = (with_ticks t s, inr b).
Proof.
  assert (Hret : forall b : bool, exists t b', ret (S := RelayState) (E := relay_error) b s
    = (with_ticks t s, inr b')) by (intros b; exists (ticks s), b; by destruct s).
  unfold _pending_request_entry_is_expired.
  destruct (match pe_request_deadline_monotonic entry with Some _ => _ | None => _ end).
  - do 2 eexists. reflexivity.
  - destruct (fle _ _); [apply Hret|]. destruct now; [apply Hret|]. do 2 eexists. reflexivity.
Qed.

Lemma expire_run c r s0 s :
  ending s0 s ->
  exists s' b, _expire_pending_request_if_stale cfg c r s = (s', inr b) /\ ending s0 s'.
Proof.
  intros Hs. enough (Hrun : exists s' b, _expire_pending_request_if_stale cfg c r s = (s', inr b) /\
    forall c r, live s' c r = true -> live s c r = true).
  { destruct Hrun as (s' & b & Hrun & Hl). exists s', b. split; [done|].
    eapply ending_step; [apply kept_expire_if_stale|done|exact Hrun|done]. }
  unfold _expire_pending_request_if_stale.
  destruct (no_text c) eqn:Hc; [by do 2 eexists|]. destruct (no_text r) eqn:Hr; [by do 2 eexists|].
  cbn [orb]. unfold bind at 1, get_state. cbn [fst snd].
  assert (Hexp : exists t b, (match nget (client_pending_request_ids s) c r with
      | None => ret false
      | Some entry => _pending_request_entry_is_expired cfg entry None None
      end : RM bool) s = (with_ticks t s, inr b)).
  { destruct (nget _ c r); [apply entry_expired_run|]. exists (ticks s), false. by destruct s. }
  destruct Hexp as (t & b & Hexp). rewrite (bind_run _ _ _ _ _ Hexp).
  assert (Hstale : exists t' b', (if b then ret true
      else match _pending_request_deadline s c r with
           | None => ret false
           | Some deadline => let* mono := monotonic in ret (negb (flt mono deadline))
           end : RM bool) (with_ticks t s) = (with_ticks t' s, inr b')).
  { destruct b; [by do 2 eexists|]. destruct (_pending_request_deadline s c r); by do 2 eexists. }
  destruct Hstale as (t' & b' & Hstale). rewrite (bind_run _ _ _ _ _ Hstale).
  destruct b'; [|by do 2 eexists].
  destruct (cancel_request_run cfg c r (JStr "expired") (JStr "pending_request_ttl_exceeded")
    (with_ticks t' s)) as (s' & Hrun & Hcan); [by apply RInv_ticks, Hs|done..|].
  rewrite (bind_run _ _ _ _ _ Hrun). do 2 eexists. split; [reflexivity|]. intros c' r'.
  rewrite (cn_live _ _ _ _ _ _ Hcan). by case_bool_decide.
Qed.

Lemma release_run c r servers s :
  exists servers', release_in_flight c r servers s =
    (with_known_servers servers' s, inr (in_flight_somewhere servers c r)).
Proof.
  induction servers as [|[k p] rest IH]; simpl.
  - exists (known_servers s). unfold ret. by destruct s.
  - unfold in_flight_at. destruct (in_flight_entry_of c r p); [|exact IH].
    eexists. reflexivity.
Qed.

Lemma release_RInv c r s : RInv s -> RInv (release_in_flight c r (known_servers s) s).1.
Proof.
  intros Hs. by apply (kp_inv _ _ _ _ (keeps_release_in_flight _ _ _ c r (known_servers s)
    (known_snapshot s Hs) s (Build_Kept _ _ _ s Hs eq_refl eq_refl eq_refl))).
Qed.

Lemma has_outcome_run c r s :
  exists t outs b, _has_request_terminal_outcome c r s =
    (with_ticks t (with_client_terminal_outcomes outs s), inr b).
Proof.
  unfold _has_request_terminal_outcome. destruct (_ || _).
  { exists (ticks s), (client_terminal_outcomes s), false. unfold ret. by destruct s. }
  unfold bind at 1, get_state. cbn [fst snd]. destruct (nget _ c r).
  - unfold bind at 1, wall_time. rewrite reading_run. cbn [fst snd].
    destruct (flt _ _); [|do 3 eexists; reflexivity].
    exists (S (ticks s)), (client_terminal_outcomes s), true. unfold ret. by destruct s.
  - exists (ticks s), (client_terminal_outcomes s), false. unfold ret. by destruct s.
Qed.

Lemma call_run {A} (m : RM A) s s' a : m s = (s', inr a) -> call m s = (s', inr a).
Proof. unfold call. by intros ->. Qed.

(** The check either replies or finds no terminal entry; the rest is as it was. *)
Lemma wp_return_if_terminal c r s0 s (Q : unit -> RelayState -> Prop) R :
  no_text c = false -> no_text r = false -> RInv s -> client_responses s = client_responses s0 ->
  (forall rep s', client_responses s' = client_responses s0 -> R (Returned rep) s') ->
  (forall t terms, let s' := with_ticks t (with_client_terminal_request_ids terms s) in
     RInv s' -> nget terms c r = None -> Q tt s') ->
  wp (return_if_terminal c r) Q R s.
Proof.
  intros Hc Hr Hs Hresp HR HQ. unfold return_if_terminal. apply wp_bind.
  destruct (get_terminal_run c r s) as (t & terms & o & Hrun).
  pose proof (kept_inv _ (kept_get_terminal c r) s Hs) as He. rewrite Hrun in He.
  unfold wp at 1. rewrite (call_run _ _ _ _ Hrun). destruct o as [te|].
  - by apply wp_raise, HR.
  - apply wp_ret, HQ; [done|].
    exact (get_terminal_none c r s _ Hc Hr (ri_terminals _ Hs) Hrun).
Qed.

Record accepted (c r : pystr) (envelope : jdict) (s0 s' : RelayState) : Prop := {
  ac_live : live s0 c r = true;
  ac_new : answered (client_responses s0) c r = false;
  ac_stored : stored_in (client_responses s') c = stored_in (client_responses s0) c ++ [envelope];
  ac_others : forall c', c' <> c -> stored_in (client_responses s') c' = stored_in (client_responses s0) c';
  ac_pending : is_pending s' c r = false;
  ac_queued : queued_copies c r (client_inference_requests s') = 0;
  ac_terminal : nget (client_terminal_request_ids s') c r = None
}.

Lemma complete_spec c r envelope owned s0 s :
  no_text c = false -> no_text r = false -> client_responses s = client_responses s0 ->
  (owned = true -> live s0 c r = true) -> answered (client_responses s0) c r = false ->
  is_pending s c r = false -> queued_copies c r (client_inference_requests s) = 0 ->
  nget (client_terminal_request_ids s) c r = None ->
  wp (complete_response cfg c r envelope owned) (fun _ => accepted c r envelope s0)
    (fun e s' => client_responses s' = client_responses s0 /\ exists rep, e = Returned rep) s.
Proof.
  intros Hc Hr Hresp Hown Ha Hp Hq Ht. unfold complete_response. apply wp_bind.
  destruct owned.
  2: { apply wp_bind. destruct (has_outcome_run c r s) as (t & outs & b & Hrun).
       unfold wp at 1. rewrite (call_run _ _ _ _ Hrun). apply wp_raise. by split; [|eexists]. }
  apply wp_ret, wp_bind.
  destruct (record_once_run cfg c r "completed" s) as (t & outs & log & recorded & Hrun).
  unfold wp at 1. rewrite (call_run _ _ _ _ Hrun). apply wp_bind. destruct recorded.
  2: { apply wp_bind. match goal with |- wp _ _ _ ?s1 =>
         destruct (get_terminal_run c r s1) as (t' & terms & o & Hrun') end.
       unfold wp at 1. rewrite (call_run _ _ _ _ Hrun'). apply wp_raise. by split; [|eexists]. }
  apply wp_ret, wp_bind. unfold wp at 1.
  rewrite (call_run _ _ _ _ (clear_progress_run c r _ Hc Hr)). apply wp_bind.
  unfold wp at 1, call at 1, _queue_client_response, modify. apply wp_ret.
  split; try done; [by apply Hown| |]; simpl; rewrite Hresp; [apply stored_queued|].
  intros c' Hne. by rewrite stored_in_dset, bool_decide_eq_false_2.
Qed.

Lemma store_response_spec c r envelope s0 :
  RInv s0 -> no_text c = false -> no_text r = false ->
  wp (store_response cfg c r envelope) (fun _ => accepted c r envelope s0)
    (fun e s' => client_responses s' = client_responses s0 /\ exists rep, e = Returned rep) s0.
Proof.
  intros Hs0 Hc Hr. unfold store_response. apply wp_bind.
  apply (wp_return_if_terminal c r s0); [done..|by eauto|]. intros t1 terms1 s1 Hi1 _.
  assert (Hs1 : ending s0 s1) by (by split). clearbody s1. clear Hi1 t1 terms1.
  apply wp_bind, wp_get, wp_bind. rewrite has_response_answered, (en_responses _ _ Hs1).
  apply wp_raise_if; [intros _; split; [apply Hs1|by eexists]|]. intros Ha. apply wp_bind.
  destruct (expire_run c r s0 s1 Hs1) as (s2 & b & Hrun & Hs2).
  unfold wp at 1. rewrite (call_run _ _ _ _ Hrun). apply wp_bind. clear Hrun.
  apply (wp_return_if_terminal c r s0); [done|done|apply Hs2|apply Hs2|by eauto|].
  intros t3 terms3 s3 Hi3 _. assert (Hs3 : ending s0 s3) by (split; [done|apply Hs2..]).
  clearbody s3. clear Hi3 t3 terms3. apply wp_bind, wp_get, wp_bind.
  destruct (release_run c r (known_servers s3) s3) as (servers & Hrel).
  assert (Hi4 : RInv (with_known_servers servers s3))
    by (pose proof (release_RInv c r s3 (en_inv _ _ Hs3)) as Hk; by rewrite Hrel in Hk).
  unfold wp at 1. rewrite (call_run _ _ _ _ Hrel). clear Hrel.
  apply wp_bind. unfold wp at 1, call at 1, _remove_request_from_server_queues, bind at 1,
    get_state at 1, bind at 1, modify at 1, ret at 1. cbn [fst snd].
  set (s5 := with_client_inference_requests _ _).
  assert (Hi5 : RInv s5) by apply (kept_inv _ (kept_remove_from_queues c r) _ Hi4).
  destruct (clear_pending_run c r s5 Hc Hr Hi5) as (pending & deadlines & Hrun & Hpending).
  apply wp_bind. unfold wp at 1. rewrite (call_run _ _ _ _ Hrun).
  set (s6 := with_client_pending_request_deadlines _ _) in *.
  assert (Hi6 : RInv s6) by (pose proof (kept_inv _ (kept_clear_pending c r) s5 Hi5) as Hk;
    by rewrite Hrun in Hk).
  apply wp_bind, (wp_return_if_terminal c r s0); [done..|apply Hs3|by eauto|].
  intros t7 terms7 s7 _ Hnone. apply complete_spec; try done.
  - apply Hs3.
  - intros Hown. apply (en_live _ _ Hs3). unfold live. rewrite <- Hown.
    change (is_pending s5 c r) with (is_pending s3 c r).
    by destruct (is_pending s3 c r), (_ =? 0), (in_flight_somewhere _ _ _).
  - unfold is_pending. change (client_pending_request_ids s7) with pending.
    rewrite Hpending. by rewrite bool_decide_eq_true_2.
  - change (client_inference_requests s7)
      with (without_request c r (client_inference_requests s3)).
    by rewrite queued_copies_without, bool_decide_eq_true_2.
Qed.

End accept.

(** * relay.py: what clients and compute nodes may rely on

    The invariant, and what cancelling and answering a request do, for every
    reachable state of the server. *)

Section contract.
Context `{!PyNumbers, !PyUnicode, !Clock, !Crypto}.
Variable cfg : RelaySettings.
Variable aliases : dict pystr pystr.


(** C7: Cancelling a request always succeeds: it is then neither pending, queued nor
    in flight anywhere and its progress is gone, other requests are as live as
    before, and it gets a terminal entry exactly when it was live and unanswered. *)
Theorem cancelled_request_is_settled c r status reason s :
  relay_reachable cfg aliases s -> no_text c = false -> no_text r = false ->
  exists s', _cancel_api_v1_request cfg (JStr c) (JStr r) status reason s =
      (s', inr (queued_copies c r (client_inference_requests s))) /\
    cancelled c r (_sanitize_terminal_status status)
      (_sanitize_terminal_reason reason (_sanitize_terminal_status status)) s s'.
Proof.
  intros Hs Hc Hr. unfold _cancel_api_v1_request.
  rewrite (bind_val _ (Some (c, r))) by (by apply lifecycle_names_text).
  apply cancel_request_run; [by eapply reachable_RInv|done..].
Qed.

(** ** Responses *)

Lemma envelope_names data server_key envelope :
  _extract_ciphertext_envelope data server_key = Some envelope ->
  exists d, data = JDict d /\ jget envelope "client_public_key" = jget d "client_public_key" /\
    jget envelope "request_id" = jget d "request_id".
Proof.
  unfold _extract_ciphertext_envelope. destruct data as [| | | | | |d]; try done.
  destruct (_ && _); [done|]. destruct (negb _); [done|]. intros [= <-]. exists d. split; [done|].
  split; [done|]. unfold jget.
  destruct server_key, (dget d "request_id"%pystr), (dget d "protocol"%pystr),
    (dget d "version"%pystr), (dget d "cancel_token"%pystr); done.
Qed.

(** C6: A response that names a request is stored only when the request was live and
    unanswered; then it is appended to its client's responses, and the request has
    left the pending table and the queues without a terminal entry.  Otherwise the
    stored responses stay as they were, whatever the reply. *)
Theorem response_needs_a_live_request header d c r s s' result :
  relay_reachable cfg aliases s ->
  jget d "client_public_key" = JStr c -> jget d "request_id" = JStr r ->
  no_text c = false -> no_text r = false ->
  api_v1_relay_responses cfg header (JDict d) s = (s', result) ->
  client_responses s' = client_responses s \/
  exists envelope, _extract_ciphertext_envelope (JDict d) false = Some envelope /\
    accepted c r envelope s s'.
Proof.
  intros Hs%reachable_RInv Hdc Hdr Hc Hr Hrun.
  enough (Hwp : wp (api_v1_relay_responses cfg header (JDict d))
    (fun _ s' => client_responses s' = client_responses s \/
       exists envelope, _extract_ciphertext_envelope (JDict d) false = Some envelope /\
         accepted c r envelope s s')
    (fun _ s' => client_responses s' = client_responses s) s).
  { unfold wp in Hwp. rewrite Hrun in Hwp. destruct result; [by left|done]. }
  clear Hrun. apply respond_wp, wp_bind, wp_server_token; [intros [e|rep]; by try left|].
  apply wp_bind. unfold ciphertext_envelope. apply wp_bind, wp_raise_if; [by left|intros _].
  apply wp_bind, wp_raise_if; [by left|intros _]. apply wp_from_option; [by left|].
  intros envelope He. destruct (envelope_names _ _ _ He) as (d' & Hd & Hec & Her).
  simplify_eq. rewrite Hdc in Hec. rewrite Hdr in Her.
  apply wp_bind, wp_call_val; [done|]. intros name Hname. apply wp_bind, wp_from_option; [by left|].
  intros c' ->. apply name_of_some in Hname as [Hname _]. rewrite Hec in Hname. simplify_eq.
  rewrite Her. change (py_empty r) with (no_text r). rewrite Hr.
  eapply wp_mono; [by apply store_response_spec|..].
  - intros rep s1 Ha. right. by exists envelope.
  - intros e s1 [Hresp [rep ->]]. by left.
Qed.

(** ** Cancellation proofs *)

(** The cancel endpoint changes nothing at all unless the caller presents the
    token the request was submitted with. *)
Theorem cancellation_needs_the_token data s s' result :
  api_v1_relay_requests_cancel cfg data s = (s', result) ->
  s' = s \/
  exists d c r token, data = JDict d /\ jget d "client_public_key" = JStr c /\
    jget d "request_id" = JStr r /\ jget d "cancel_token" = JStr token /\
    _cancel_token_for_queued_or_in_flight_request s c r = Some token.
Proof.
  intros Hrun. enough (Hwp : wp (api_v1_relay_requests_cancel cfg data)
    (fun _ s' => s' = s \/ exists d c r token, data = JDict d /\
       jget d "client_public_key" = JStr c /\ jget d "request_id" = JStr r /\
       jget d "cancel_token" = JStr token /\
       _cancel_token_for_queued_or_in_flight_request s c r = Some token)
    (fun _ s' => s' = s \/ exists d c r token, data = JDict d /\
       jget d "client_public_key" = JStr c /\ jget d "request_id" = JStr r /\
       jget d "cancel_token" = JStr token /\
       _cancel_token_for_queued_or_in_flight_request s c r = Some token) s).
  { unfold wp in Hwp. rewrite Hrun in Hwp. by destruct result. }
  clear Hrun. apply respond_wp. destruct data as [| | | | | |d]; try (apply wp_ret; by left).
  apply wp_bind, wp_call_val; [by left|]. intros names Hnames.
  apply wp_bind, wp_from_option; [by left|]. intros [c r] ->.
  apply lifecycle_names_some in Hnames as (Hc & Hr & _). apply wp_bind, wp_get, wp_bind.
  apply wp_from_option; [by left|]. intros token Htoken.
  destruct (jget d "cancel_token") as [| | | |provided| |] eqn:Ep; try (apply wp_ret; by left).
  apply wp_bind, wp_call_val; [by left|]. intros equal Heq. apply wp_bind, wp_raise_if; [by left|].
  intros Hne%negb_false_iff. subst equal. unfold compare_digest_text in Heq.
  destruct (_ && _); [|done]. apply (inj inr) in Heq. apply bool_decide_eq_true_1 in Heq. subst provided.
  match goal with |- wp ?m ?Q ?R _ => apply (wp_mono m (fun _ _ => True) Q (fun _ _ => True) R) end.
  - apply wp_true.
  - intros rep s1 _. right. by exists d, c, r, token.
  - intros [e|rep] s1 _; right; by exists d, c, r, token.
Qed.

End contract.
