(* ===== verification/RelayScheduling.v ===== *)
(** * relay.py: whose turn it is

    The round-robin cursor when a node goes, the best-fit choice of a node, and the
    end of a long poll. *)

From Stdlib Require Import Floats.SpecFloat.
From S2P Require Import Prelude PyFloat PyStr PyDict Sha256 PyText Json RelayTypes.
From S2P Require Import RelayConfig RelayLifecycle RelayRegistry RelayStreams.
From S2P Require Import RelayHandlers RelayInv RelayKept RelayEndpoints.
From S2P Require Import RelayAnswers RelayRun RelayCancel.
#[local] Open Scope Z_scope.

(** The node whose turn is next *)
Definition next_node (s : RelayState) : option pystr :=
  _api_v1_round_robin_keys s !! Z.to_nat (server_round_robin_next_index s).

(** The node after it, in registration order and around *)
Definition following_node (s : RelayState) : option pystr :=
  let keys := _api_v1_round_robin_keys s in
  if zlen keys <=? 1 then None
  else keys !! Z.to_nat ((server_round_robin_next_index s + 1) mod zlen keys).

(** ** The cursor *)

Lemma list_index_lookup x l : x ∈ l -> l !! Z.to_nat (list_index x l) = Some x /\ 0 <= list_index x l < zlen l.
Proof.
  induction l as [|y l IH]; [by intros ?%not_elem_of_nil|]. intros Hx. cbn [list_index].
  rewrite zlen_cons. pose proof (zlen_nonneg l). case_bool_decide as E; [subst; split; [done|lia]|].
  apply elem_of_cons in Hx as [->|Hx]; [done|]. destruct (IH Hx) as [Hl Hr]. split; [|lia].
  by replace (Z.to_nat (1 + list_index x l)) with (S (Z.to_nat (list_index x l))) by lia.
Qed.

Lemma without_key_delete x l : NoDup l -> x ∈ l ->
  bfilter (fun k => negb (bool_decide (x = k))) l = delete (Z.to_nat (list_index x l)) l.
Proof.
  unfold bfilter. induction l as [|y l IH]; [by intros _ ?%not_elem_of_nil|].
  intros [Hy Hn]%NoDup_cons Hx. cbn [list_index List.filter]. case_bool_decide as E.
  - subst y. simpl. clear IH. induction l as [|z l IH]; [done|]. simpl.
    apply not_elem_of_cons in Hy as [Hxz Hy]. rewrite bool_decide_eq_false_2 by done. simpl.
    f_equal. apply IH; [done|by apply NoDup_cons in Hn as [_ ?]|]. apply elem_of_cons. by left.
  - apply elem_of_cons in Hx as [->|Hx]; [done|]. simpl. rewrite IH by done.
    pose proof (proj2 (list_index_lookup x l Hx)).
    by replace (Z.to_nat (1 + list_index x l)) with (S (Z.to_nat (list_index x l))) by lia.
Qed.

Lemma keys_without s key : nodup_keys (known_servers s) ->
  bfilter (fun k => negb (bool_decide (key = k))) (_api_v1_round_robin_keys s)
    = _api_v1_round_robin_keys (with_known_servers (ddel (known_servers s) key) s).
Proof.
  unfold _api_v1_round_robin_keys, nodup_keys, bfilter. simpl. clear.
  induction (known_servers s) as [|[k p] d IH]; [done|]. unfold dkeys in *. simpl.
  intros [Hk Hn]%NoDup_cons. case_bool_decide as E.
  - subst k. assert (Hd : List.filter (fun x => negb (bool_decide (key = x)))
        (map fst (List.filter (fun kv => sp_api_v1_registered kv.2) d))
      = map fst (List.filter (fun kv => sp_api_v1_registered kv.2) d)).
    { apply (bfilter_id (A := pystr)). intros x Hx. apply list_elem_of_fmap in Hx as (kv & -> & Hin).
      apply (elem_of_bfilter (A := pystr * ServerPayload)) in Hin as [Hin _].
      rewrite bool_decide_eq_false_2; [done|]. intros ->. apply Hk. by apply list_elem_of_fmap; exists kv. }
    destruct (sp_api_v1_registered p); simpl; rewrite ?bool_decide_eq_true_2 by done; exact Hd.
  - specialize (IH Hn).
    destruct (sp_api_v1_registered p) eqn:Er; simpl; rewrite ?Er, ?bool_decide_eq_false_2 by done;
      simpl; by rewrite IH.
Qed.

(** What the cursor designates after a removal, by position *)
Lemma cursor_after_removal_lookup keys key cursor :
  NoDup keys -> key ∈ keys -> 0 <= cursor < zlen keys ->
  delete (Z.to_nat (list_index key keys)) keys !! Z.to_nat (cursor_after_removal keys key cursor) =
    if bool_decide (keys !! Z.to_nat cursor = Some key)
    then if zlen keys <=? 1 then None else keys !! Z.to_nat ((cursor + 1) mod zlen keys)
    else keys !! Z.to_nat cursor.
Proof.
  intros Hn Hin Hcur. destruct (list_index_lookup key keys Hin) as [Hl Hi].
  unfold cursor_after_removal. cbv zeta. rewrite (Z.mod_small cursor) by lia.
  set (i := list_index key keys) in *. set (n := zlen keys) in *.
  assert (Hlen : Z.of_nat (length keys) = n) by (symmetry; apply zlen_length).
  assert (Hd : keys !! Z.to_nat cursor = Some key <-> cursor = i).
  { split; [|by intros ->]. intros Hc. pose proof (NoDup_lookup _ _ _ _ Hn Hc Hl). lia. }
  rewrite (bool_decide_ext _ _ Hd). destruct (n - 1 <=? 0) eqn:En.
  - apply Z.leb_le in En. rewrite bool_decide_eq_true_2 by lia.
    rewrite (proj2 (Z.leb_le n 1)) by lia. apply lookup_ge_None. rewrite length_delete by (by eexists). lia.
  - apply Z.leb_gt in En. rewrite (proj2 (Z.leb_gt n 1)) by lia.
    destruct (i <? cursor) eqn:Ei; [apply Z.ltb_lt in Ei|apply Z.ltb_ge in Ei].
    + rewrite bool_decide_eq_false_2, Z.mod_small by lia.
      rewrite list_lookup_delete_ge by lia. f_equal. lia.
    + case_bool_decide as Ec.
      * subst cursor. destruct (decide (i = n - 1)) as [->|Hne].
        -- rewrite Z.mod_same by lia. replace (n - 1 + 1) with n by lia. rewrite Z.mod_same by lia.
           by rewrite list_lookup_delete_lt by lia.
        -- rewrite !Z.mod_small by lia. rewrite list_lookup_delete_ge by lia. f_equal. lia.
      * rewrite Z.mod_small by lia. by rewrite list_lookup_delete_lt by lia.
Qed.

(** ** Comparing loads *)

Lemma flt_trans_all x y z : flt x y = true -> flt y z = true -> flt x z = true.
Proof.
  destruct (is_finite x) eqn:Fx, (is_finite y) eqn:Fy, (is_finite z) eqn:Fz;
    try (by apply flt_trans); revert Fx Fy Fz;
    destruct x as [| [] | |[] ? ?], y as [| [] | |[] ? ?], z as [| [] | |[] ? ?]; done.
Qed.

Lemma feq_flt_r x a b : feq a b = true -> flt x b = false -> flt x a = false.
Proof.
  intros Hab Hxb. destruct (flt x a) eqn:Hxa; [|done]. exfalso.
  destruct (is_finite x) eqn:Fx, (is_finite a) eqn:Fa, (is_finite b) eqn:Fb;
    try (revert Fx Fa Fb Hab Hxb Hxa;
      destruct x as [| [] | |[] ? ?], a as [| [] | |[] ? ?], b as [| [] | |[] ? ?]; done).
  pose proof (SFcompare_key a b Fa Fb) as Hc. unfold feq, SFeqb in Hab.
  destruct (SFcompare a b) as [[]|]; try done.
  apply (flt_key x a Fx Fa) in Hxa. rewrite Hc in Hxa. apply (flt_key x b Fx Fb) in Hxa. congruence.
Qed.

(** Nothing is below the least of a list. *)
Lemma min_load_least c l x : x ∈ c :: l ->
  flt (ls_load_score (cd_load x)) (min_load c l) = false.
Proof.
  unfold min_load. set (f := fun y => ls_load_score (cd_load y)).
  assert (Hacc : forall l a y, flt y a = false ->
    flt y (fold_left (fun acc x => fmin acc (f x)) l a) = false).
  { clear. induction l as [|z l IH]; intros a y Hy; [done|]. apply IH. unfold fmin.
    destruct (flt (f z) a) eqn:E; [|done]. destruct (flt y (f z)) eqn:E'; [|done].
    by rewrite (flt_trans_all _ _ _ E' E) in Hy. }
  change (ls_load_score (cd_load x)) with (f x). change (ls_load_score (cd_load c)) with (f c).
  intros [->|Hx]%elem_of_cons; [apply Hacc, flt_irrefl|]. generalize (f c). 
  induction l as [|z l IH]; [by apply not_elem_of_nil in Hx|]. intros a. simpl.
  apply elem_of_cons in Hx as [->|Hx]; [|by apply IH]. apply Hacc. unfold fmin.
  change (ls_load_score (cd_load z)) with (f z).
  destruct (flt (f z) a) eqn:E; [apply flt_irrefl|done].
Qed.

Lemma min_tier_least c l x : x ∈ l -> min_tier c l <= cd_tier_tokens x.
Proof.
  unfold min_tier. induction l as [|y l IH]; [by intros ?%not_elem_of_nil|].
  intros [->|Hx]%elem_of_cons; simpl; [lia|]. specialize (IH Hx). lia.
Qed.

(** What the choice is made from: the smallest tier, then nothing less loaded *)
Lemma load_candidates_best c l x :
  x ∈ load_candidates c l ->
  x ∈ c :: l /\ forall y, y ∈ c :: l -> cd_tier_tokens x <= cd_tier_tokens y /\
    (cd_tier_tokens y = cd_tier_tokens x ->
     flt (ls_load_score (cd_load y)) (ls_load_score (cd_load x)) = false).
Proof.
  unfold load_candidates. cbv zeta. set (tier := min_tier c (c :: l)).
  destruct (bfilter (fun x => cd_tier_tokens x =? tier) (c :: l)) as [|t ts] eqn:Ef;
    [by intros ?%not_elem_of_nil|].
  intros [Hx Hload]%elem_of_bfilter. rewrite <- Ef in Hx.
  apply elem_of_bfilter in Hx as [Hx Htier%Z.eqb_eq]. split; [done|]. intros y Hy.
  split; [rewrite Htier; by apply min_tier_least|]. intros Heq.
  eapply feq_flt_r; [exact Hload|]. apply min_load_least. rewrite <- Ef. apply elem_of_bfilter.
  split; [done|]. apply Z.eqb_eq. congruence.
Qed.

(** ** Candidates *)

Section candidates.
Context `{!PyNumbers, !PyUnicode, !Clock, !Crypto}.
Variable cfg : RelaySettings.

(** A registered node that can serve the model and the tier *)
Definition can_serve (s : RelayState) (model : option pystr) (tier : pystr)
  (c : SchedulerCandidate) : Prop :=
  exists p, dget (known_servers s) (cd_server_public_key c) = Some p /\
    sp_api_v1_registered p = true /\ sp_capabilities p = Some (cd_capabilities c) /\
    (forall m, model = Some m -> py_empty m = false ->
       m ∈ cap_supported_model_ids (cd_capabilities c)) /\
    dget CONTEXT_TIER_ORDER (cap_active_context_tier (cd_capabilities c)) = Some (cd_tier_tokens c) /\
    (exists requested, dget CONTEXT_TIER_ORDER tier = Some requested /\
       requested <= cd_tier_tokens c) /\
    (cd_capacity_limited c = false ->
       ls_in_flight_count (cd_load c) < ls_max_concurrency (cd_load c) /\
       zlen (dget_or (client_inference_requests s) (cd_server_public_key c) [])
         < _api_v1_max_queue_depth_per_node (environ cfg)).

Lemma scheduler_candidate_serves s0 key p model tier i now s s' c :
  dget (known_servers s0) key = Some p ->
  _api_v1_scheduler_candidate cfg s0 key p model tier i now true s = (s', inr (Some c)) ->
  can_serve s0 model tier c.
Proof.
  intros Hp. unfold _api_v1_scheduler_candidate.
  destruct (sp_api_v1_registered p) eqn:Er; [|done]. cbn [negb]. intros Hrun. invert_run.
  match goal with H : (if ?b then _ else _) _ = _ |- _ => destruct b; [done|rename H into Hrun] end.
  destruct (sp_capabilities p) as [caps|] eqn:Ec; [|done]. invert_run.
  match goal with H : _context_tier_can_satisfy _ _ = inr ?b |- _ => rename H into Hsat; destruct b end;
    [|done]. cbn [negb] in Hrun.
  destruct (cap_supported_model_ids caps) as [|m0 models] eqn:Em; [done|].
  destruct (match model with Some m => _ | None => false end) eqn:Emodel; [done|].
  destruct (dget CONTEXT_TIER_ORDER (cap_active_context_tier caps)) as [tokens|] eqn:Et; [|done].
  destruct (_ || _); [done|]. rewrite andb_false_r in Hrun. apply ret_inr in Hrun as [_ Hrun].
  injection Hrun as <-. exists p. cbn [cd_server_public_key cd_capabilities cd_tier_tokens cd_load cd_capacity_limited].
  split; [done|]. split; [done|]. split; [done|]. split; [|split; [done|split]].
  - intros m -> Hm. rewrite Hm in Emodel. apply negb_false_iff, bool_decide_eq_true_1 in Emodel.
    by rewrite Em.
  - unfold _context_tier_can_satisfy in Hsat. destruct (dget CONTEXT_TIER_ORDER tier) as [req|]; [|done].
    apply (inj inr) in Hsat. unfold dget_or in Hsat. rewrite Et in Hsat. apply Z.leb_le in Hsat.
    by exists req.
  - rewrite orb_false_iff, !Z.leb_gt. done.
Qed.

Lemma scheduler_candidates_serve s0 model tier now keys s s' all c :
  scheduler_candidates cfg s0 model tier now keys s = (s', inr all) -> c ∈ all ->
  can_serve s0 model tier c.
Proof.
  revert s s' all. induction keys as [|[i key] keys IH]; intros s s' all; simpl.
  - intros Hrun. invert_run. by intros ?%not_elem_of_nil.
  - intros Hrun Hc. apply bind_inr in Hrun as (o & s1 & Hone & Hrun).
    apply bind_inr in Hrun as (others & s2 & Hrest & Hrun). apply ret_inr in Hrun as [_ <-].
    destruct (dget (known_servers s0) key) as [p|] eqn:Ep.
    + destruct o as [c0|]; [|by eapply IH]. apply elem_of_cons in Hc as [->|Hc]; [|by eapply IH].
      by eapply scheduler_candidate_serves.
    + apply ret_inr in Hone as [_ <-]. by eapply IH.
Qed.

(** The choice is deterministic in the candidates, the positions and the cursor. *)
Lemma select_run aliases model tier s s' sel c :
  _select_best_fit_server_key cfg aliases model tier s = (s', inr sel) ->
  sl_selected sel = Some c ->
  exists now s1 s2 all c0 l,
    s1 = with_ticks (S (ticks s)) s /\
    scheduler_candidates cfg s1 (requested_model_id aliases model) tier now
      (py_enumerate (_api_v1_round_robin_keys s)) s1 = (s2, inr all) /\
    bfilter (fun c => negb (cd_capacity_limited c)) all = c0 :: l /\
    c ∈ load_candidates c0 l /\
    server_round_robin_next_index s' =
      (cd_registration_index c + 1) mod zlen (_api_v1_round_robin_keys s).
Proof.
  unfold _select_best_fit_server_key. cbv zeta. unfold bind at 1, monotonic. rewrite reading_run.
  unfold bind at 1, get_state. cbn [fst snd]. intros Hrun Hsel.
  apply bind_inr in Hrun as (all & s2 & Hall & Hrun).
  destruct (bfilter (fun c => negb (cd_capacity_limited c)) all) as [|c0 l] eqn:Ef.
  { apply ret_inr in Hrun as [_ <-]. done. }
  apply bind_inr in Hrun as (selected & s3 & Hlook & Hrun).
  apply from_option_inr in Hlook as [-> Hlook].
  apply bind_inr in Hrun as (u1 & s4 & H4 & Hrun). apply bind_inr in Hrun as (u2 & s5 & H5 & Hrun).
  apply bind_inr in Hrun as (requested & s6 & H6 & Hrun). apply from_option_inr in H6 as [-> _].
  apply ret_inr in Hrun as [-> <-]. cbn [sl_selected] in Hsel. injection Hsel as <-.
  injection H5 as <- _. do 6 eexists. split; [reflexivity|]. split; [exact Hall|].
  split; [exact Ef|]. split; [|done]. by eapply list_elem_of_lookup_2.
Qed.

(** A selected node is registered, serves the requested model, and has a context
    tier that is large enough and room for one more request; no eligible node has a
    smaller tier, none of the same tier is less loaded, and the cursor moves past
    it. *)
Theorem selection_is_best_fit aliases model tier s s' sel c :
  _select_best_fit_server_key cfg aliases model tier s = (s', inr sel) ->
  sl_selected sel = Some c ->
  can_serve s (requested_model_id aliases model) tier c /\ cd_capacity_limited c = false /\
  server_round_robin_next_index s' =
    (cd_registration_index c + 1) mod zlen (_api_v1_round_robin_keys s) /\
  exists now s1 s2 all, s1 = with_ticks (S (ticks s)) s /\
    scheduler_candidates cfg s1 (requested_model_id aliases model) tier now
      (py_enumerate (_api_v1_round_robin_keys s)) s1 = (s2, inr all) /\
    c ∈ all /\ forall y, y ∈ all -> cd_capacity_limited y = false ->
      cd_tier_tokens c <= cd_tier_tokens y /\
      (cd_tier_tokens y = cd_tier_tokens c ->
       flt (ls_load_score (cd_load y)) (ls_load_score (cd_load c)) = false).
Proof.
  intros Hrun Hsel.
  destruct (select_run _ _ _ _ _ _ _ Hrun Hsel) as (now & s1 & s2 & all & c0 & l & Hs1 & Hall & Hf & Hc & Hcur).
  apply load_candidates_best in Hc as [Hin Hbest]. rewrite <- Hf in Hin, Hbest.
  apply elem_of_bfilter in Hin as [Hin Hlim%negb_true_iff].
  assert (Hserve : can_serve s1 (requested_model_id aliases model) tier c)
    by (by eapply scheduler_candidates_serve).
  subst s1. split; [exact Hserve|]. split; [done|]. split; [done|]. do 4 eexists.
  split; [reflexivity|]. split; [exact Hall|]. split; [done|].
  intros y Hy Hl. apply Hbest, elem_of_bfilter. by rewrite Hl.
Qed.

(** When a node leaves, the turn stays with the node that had it; if it was the
    leaving node's turn, the node after it in registration order is next. *)
Theorem removal_keeps_the_turn aliases key s :
  relay_reachable cfg aliases s -> dmem (known_servers s) key = true ->
  exists s', _remove_known_server key s = (s', inr true) /\
    next_node s' = if bool_decide (next_node s = Some key) then following_node s else next_node s.
Proof.
  intros Hs%reachable_RInv Hk. unfold _remove_known_server, bind at 1, get_state. cbn [fst snd].
  rewrite Hk. cbn [negb]. unfold bind at 1, modify at 1.
  pose proof (keys_without s key (ri_servers s Hs)) as Hkeys.
  assert (Hnd : NoDup (_api_v1_round_robin_keys s)) by (apply nodup_bfilter, Hs).
  unfold next_node, following_node. destruct (pystr_in key (_api_v1_round_robin_keys s)) eqn:Ein.
  - apply bool_decide_eq_true_1 in Ein. eexists. split; [reflexivity|].
    unfold next_node. cbn [server_round_robin_next_index with_server_round_robin_next_index].
    change (_api_v1_round_robin_keys (with_server_round_robin_next_index _ ?s1))
      with (_api_v1_round_robin_keys s1). rewrite <- Hkeys, without_key_delete by done.
    apply cursor_after_removal_lookup; [done..|].
    destruct (ri_cursor s Hs) as [Hge Hlt]. rewrite round_robin_keys_markers, zlen_map in *.
    destruct (list_index_lookup key _ Ein) as [_ Hi]. rewrite zlen_map in Hi. lia.
  - apply bool_decide_eq_false_1 in Ein. eexists. split; [reflexivity|].
    change (server_round_robin_next_index _) with (server_round_robin_next_index s).
    rewrite <- Hkeys, bfilter_id.
    + rewrite bool_decide_eq_false_2; [done|]. intros Hl. apply Ein.
      by eapply list_elem_of_lookup_2.
    + intros x Hx. rewrite bool_decide_eq_false_2; [done|]. by intros ->.
Qed.

End candidates.

(** * relay.py: polls end, and what they hand out

    Every turn of the poll loop shortens the node's queue or reads the clock, so
    the loop ends once the clock has passed the poll's deadline.  A request that is
    handed out is in flight for its node, with its ciphertext untouched. *)

Definition node_queue (s : RelayState) (key : pystr) : list jdict :=
  dget_or (client_inference_requests s) key [].

Lemma dget_or_notin {V} (d : dict pystr (list V)) k : k ∉ dkeys d -> dget_or d k [] = [].
Proof. intros Hk. unfold dget_or. by rewrite (proj2 (dget_None d k) Hk). Qed.

Lemma length_without c r key queues : nodup_keys queues ->
  (length (dget_or (without_request c r queues) key []) <= length (dget_or queues key []))%nat.
Proof.
  unfold nodup_keys. induction queues as [|[k q] d IH]; [done|].
  intros Hn. assert (Hn' := Hn). apply NoDup_cons in Hn' as [Hk Hd]. specialize (IH Hd).
  assert (Hrest : k ∉ dkeys (without_request c r d)).
  { intros Hin. apply Hk. eapply sublist_subseteq; [apply dkeys_without_sublist|exact Hin]. }
  change (without_request c r ((k, q) :: d)) with
    (match bfilter (fun item => negb (item_matches c r item)) q with
     | [] => match q with [] => [(k, q)] | _ => [] end
     | kept => [(k, kept)]
     end ++ without_request c r d).
  assert (Hlen : (length (bfilter (fun item => negb (item_matches c r item)) q) <= length q)%nat)
    by apply sublist_length, bfilter_sublist.
  unfold dget_or in *. destruct (bfilter _ q) as [|x l] eqn:Ef; [destruct q as [|y q]|]; simpl;
    case_bool_decide as E; subst; simpl; try done.
  by rewrite (proj2 (dget_None _ _) Hrest).
Qed.

(** A queue no longer than [L], at least [n] readings *)
Definition bounded (key : pystr) (L n : nat) (s : RelayState) : Prop :=
  nodup_keys (client_inference_requests s) /\ (length (node_queue s key) <= L)%nat /\
  (n <= ticks s)%nat.

Section polling.
Context `{!PyNumbers, !PyUnicode, !Clock, !Crypto}.
Variable cfg : RelaySettings.

Section bounded.
Context (key : pystr) (L n : nat).
#[local] Notation B := (bounded key L n).

Lemma bounded_reading {A} (f : nat -> A) : keeps B (reading f).
Proof. intros s (? & ? & ?). split; [done|]. split; [done|]. simpl. lia. Qed.

Lemma bounded_get {E A} (f : RelayState -> SM RelayState E A) :
  (forall s, keeps B (f s)) -> keeps B (bind get_state f).
Proof. intros Hf. apply keeps_get_bind. intros s Hs. by apply Hf. Qed.

Lemma bounded_same {E} (f : RelayState -> RelayState) :
  (forall s, client_inference_requests (f s) = client_inference_requests s /\ ticks (f s) = ticks s) ->
  keeps B (modify f : SM RelayState E unit).
Proof.
  intros Hf s (? & ? & ?). unfold modify, bounded, node_queue. cbn [fst].
  by destruct (Hf s) as [-> ->].
Qed.

Lemma bounded_remove c r : keeps B (_remove_request_from_server_queues c r).
Proof.
  intros s (Hn & Hl & Ht). split; [by apply nodup_without_request|]. split; [|done].
  etransitivity; [by apply length_without|done].
Qed.

(** Splits a helper into readings and updates of other tables. *)
Ltac bounded_auto :=
  repeat match goal with
  | |- forall _, _ => intro
  | |- keeps _ (bind get_state _) => apply bounded_get
  | |- keeps _ (bind _ _) => apply keeps_bind
  | |- keeps _ (match ?x with _ => _ end) => destruct x
  | |- keeps _ (modify _) => apply bounded_same; by intros ?
  | |- keeps _ (ret _) => apply keeps_ret
  | |- keeps _ (raise _) => apply keeps_raise
  | |- keeps _ (lift_val _) => apply keeps_lift_val
  | |- keeps _ monotonic => apply bounded_reading
  | |- keeps _ wall_time => apply bounded_reading
  | |- keeps _ (_remove_request_from_server_queues _ _) => apply bounded_remove
  end.

Lemma bounded_add_tombstone server r client status reason deadline owner :
  keeps B (_add_api_v1_control_tombstone cfg server r client status reason deadline owner).
Proof.
  unfold _add_api_v1_control_tombstone, _prune_api_v1_control_tombstones. cbv zeta. bounded_auto.
Qed.

Lemma bounded_cancel_in_flight c r status reason won servers :
  keeps B (cancel_in_flight cfg c r status reason won servers).
Proof.
  induction servers as [|[k p] rest IH]; simpl; bounded_auto; try exact IH.
  apply bounded_add_tombstone.
Qed.

Lemma bounded_mark_terminal c r status reason :
  keeps B (_mark_request_terminal cfg c r status reason).
Proof.
  unfold _mark_request_terminal, _prune_terminal_requests, _record_request_terminal_outcome_once,
    _record_terminal_outcome. cbv zeta. bounded_auto.
Qed.

Lemma bounded_cancel client request status reason :
  keeps B (_cancel_api_v1_request cfg client request status reason).
Proof.
  unfold _cancel_api_v1_request, cancel_request, _clear_client_progress, _clear_pending_request.
  cbv zeta. bounded_auto; [apply bounded_cancel_in_flight|apply bounded_mark_terminal].
Qed.

End bounded.

(** ** The loop *)

Lemma pop_first_length {A} (f : A -> bool) l x rest :
  pop_first f l = Some (x, rest) -> length l = S (length rest).
Proof.
  revert rest. induction l as [|y l IH]; intros rest; simpl; [done|].
  destruct (f y); [by intros [= _ ->]|]. destruct (pop_first f l) as [[z r]|]; [|done].
  intros [= -> <-]. by rewrite (IH r).
Qed.

Lemma pop_legacy_length q : (length (pop_legacy q).2 <= length q - 1)%nat.
Proof.
  induction q as [|x q IH]; simpl; [done|]. destruct (is_legacy_ciphertext x); simpl; lia.
Qed.

Lemma pop_queue_length x q : (length (pop_queue (x :: q)).2 < length (x :: q))%nat.
Proof.
  unfold pop_queue. destruct (pop_first is_e2ee (x :: q)) as [[y rest]|] eqn:E.
  - rewrite (pop_first_length _ _ _ _ E). cbn [snd].
    pose proof (sublist_length _ _ (bfilter_sublist is_e2ee rest)). lia.
  - pose proof (pop_legacy_length (x :: q)) as Hl. simpl length in *. lia.
Qed.

(** Popping shortens a queue that was not empty. *)
Lemma pop_next_run key s : nodup_keys (client_inference_requests s) ->
  exists s' first, _pop_next_api_v1_request key s = (s', inr first) /\
    ticks s' = ticks s /\ nodup_keys (client_inference_requests s') /\
    (length (node_queue s' key) <= length (node_queue s key))%nat /\
    (first <> None -> (length (node_queue s' key) < length (node_queue s key))%nat).
Proof.
  intros Hn. unfold _pop_next_api_v1_request, node_queue, bind at 1, get_state. cbn [fst snd].
  destruct (dget_or (client_inference_requests s) key []) as [|x q] eqn:Eq.
  { exists s, None. rewrite Eq. by repeat split. }
  pose proof (pop_queue_length x q) as Hlt. destruct (pop_queue (x :: q)) as [first rest].
  cbn [snd] in Hlt. unfold bind at 1, modify. do 2 eexists. split; [reflexivity|]. split; [done|].
  cbn [client_inference_requests with_client_inference_requests].
  assert (Hrest : dget_or match rest with
      | [] => ddel (client_inference_requests s) key
      | _ => dset (client_inference_requests s) key rest end key [] = rest).
  { unfold dget_or. destruct rest; [by rewrite dget_ddel_eq|by rewrite dget_dset_eq]. }
  rewrite Hrest. split; [destruct rest; auto with dict_db|]. split; [lia|]. intros _. exact Hlt.
Qed.

Lemma attempt_progress p N s :
  (forall n, (N <= n)%nat -> fle (fsub (pc_deadline p) (monotonic_at n)) f0 = true) ->
  nodup_keys (client_inference_requests s) ->
  match poll_attempt cfg p s with
  | (s', inr TurnAgain) => nodup_keys (client_inference_requests s') /\
      (length (node_queue s' (pc_key p)) < length (node_queue s (pc_key p)))%nat /\
      (ticks s <= ticks s')%nat
  | (s', inr TurnWait) => nodup_keys (client_inference_requests s') /\
      (length (node_queue s' (pc_key p)) <= length (node_queue s (pc_key p)))%nat /\
      (ticks s < ticks s')%nat /\ (ticks s < N)%nat
  | _ => True
  end.
Proof.
  intros HN Hn. unfold poll_attempt. cbv zeta. unfold bind at 1, get_state. cbn [fst snd].
  destruct (negb _); [done|].
  destruct (pop_next_run (pc_key p) s Hn) as (s1 & first & Hrun & Ht & Hn1 & Hle & Hlt).
  rewrite (bind_run _ _ _ _ _ Hrun). destruct first as [request|].
  - specialize (Hlt ltac:(done)). set (B := bounded (pc_key p) (length (node_queue s1 (pc_key p))) (ticks s)).
    assert (HB : B s1) by (split; [done|split; [done|lia]]).
    assert (Hkeep : keeps B (let* expired := deadline_passed (request_deadline request) in
        if expired then
          let* _ := monotonic in
          let* _ := _cancel_api_v1_request cfg (jget request "client_public_key")
                      (jget request "request_id") (JStr "expired") (JStr "provider_timeout") in
          ret TurnAgain
        else ret (TurnDone (Some request)))).
    { apply keeps_bind.
      - unfold deadline_passed. destruct (request_deadline request); [|apply keeps_ret].
        apply keeps_bind; [apply bounded_reading|intros ?; apply keeps_ret].
      - intros [|]; [|apply keeps_ret]. apply keeps_bind; [apply bounded_reading|]. intros _.
        apply keeps_bind; [apply bounded_cancel|]. intros _. apply keeps_ret. }
    specialize (Hkeep s1 HB).
    match goal with |- match ?x with _ => _ end => destruct x as [s2 [e|turn]] eqn:Em end; [done|].
    destruct Hkeep as (? & ? & ?).
    apply bind_inr in Em as (expired & s3 & Hexp & Em).
    assert (Hturn : turn = TurnAgain \/ turn = TurnDone (Some request)).
    { destruct expired; invert_run; eauto. }
    destruct Hturn as [-> | ->]; [|done].
    cbn [fst] in *. split; [done|]. split; [lia|done].
  - unfold bind at 1, monotonic. rewrite reading_run. unfold ret.
    destruct (fle _ f0) eqn:E1; [done|]. cbn [orb].
    destruct (fle (fsub _ _) f0) eqn:E2; [done|]. split; [done|]. split; [exact Hle|].
    split; [simpl; lia|]. rewrite <- Ht. destruct (decide (N <= ticks s1)%nat) as [Hge|]; [|lia].
    by rewrite (HN _ Hge) in E2.
Qed.

(** A long poll ends: once the clock passes its deadline within [N] readings, one
    turn per queued request and reading is enough, whatever the state. *)
Theorem poll_loop_ends aliases p N s :
  (forall n, (N <= n)%nat -> fle (fsub (pc_deadline p) (monotonic_at n)) f0 = true) ->
  relay_reachable cfg aliases s ->
  (poll_loop cfg (S (length (node_queue s (pc_key p)) + N)) p s).2 <> inr None.
Proof.
  intros HN Hs%reachable_RInv. pose proof (ri_queues s Hs) as Hn.
  assert (Hm : (length (node_queue s (pc_key p)) + (N - ticks s)
    < S (length (node_queue s (pc_key p)) + N))%nat) by lia.
  revert Hm. generalize (S (length (node_queue s (pc_key p)) + N))%nat. intros turns.
  clear Hs. revert s Hn. induction turns as [|turns IH]; intros s Hn Hm; [lia|]. cbn [poll_loop].
  pose proof (attempt_progress p N s HN Hn) as Hp. unfold bind at 1.
  destruct (poll_attempt cfg p s) as [s' [e|[r|first| |]]]; try done.
  - unfold bind. by destruct (poll_finish cfg p first s') as [s'' [e|r]].
  - destruct Hp as (Hn' & Hlt & Ht). apply IH; [done|lia].
  - destruct Hp as (Hn' & Hle & Ht & HtN). apply IH; [done|lia].
Qed.

End polling.
