(* ===== verification/RelayHandout.v ===== *)
(** * relay.py: what a compute node is given

    A submitted envelope is queued with its ciphertext as it came and no plaintext
    field; a dispatched one keeps the ciphertext, loses the relay's private fields
    and is in flight for its node before the reply is sent. *)

From S2P Require Import Prelude PyFloat PyStr PyDict Sha256 PyText Json RelayTypes.
From S2P Require Import RelayConfig RelayLifecycle RelayRegistry RelayStreams.
From S2P Require Import RelayHandlers RelayInv RelayKept RelayEndpoints.
From S2P Require Import RelayAnswers RelayRun RelayCancel RelayScheduling.
#[local] Open Scope Z_scope.

(** The fields of a request the relay passes on as they came *)
Definition opaque_fields : list pystr :=
  ["client_public_key"; "request_id"; "cipherkey"; "iv"; "protocol"; "version";
   "cancel_token"]%pystr.

Definition submitted_ciphertext (d : jdict) : json :=
  match dget d "ciphertext"%pystr with Some v => v | None => jget d "chat_history" end.

(** The queued item is the submitted envelope. *)
Record carries (d item : jdict) : Prop := {
  cr_opaque : Forall (fun k => jget item k = jget d k) opaque_fields;
  cr_ciphertext : jget item "ciphertext" = submitted_ciphertext d;
  cr_e2ee : is_e2ee item = true;
  cr_plaintext : _payload_has_plaintext_fields (JDict item) = false;
  cr_keys : nodup_keys item
}.

Definition stamped (queued_at deadline_seconds deadline : float64) : jdict :=
  [("e2ee_v1", JBool true); ("_queued_at", JFloat queued_at);
   ("request_deadline_remaining_seconds", JFloat deadline_seconds);
   ("request_ttl_seconds", JFloat deadline_seconds);
   ("_request_deadline_monotonic", JFloat deadline)]%pystr.

Lemma extracted_carries d envelope a b c :
  _extract_ciphertext_envelope (JDict d) true = Some envelope ->
  carries d (dict_update (ddel envelope "server_public_key"%pystr) (stamped a b c)) /\
  jget envelope "server_public_key" = jget d "server_public_key".
Proof.
  unfold _extract_ciphertext_envelope. destruct (_ && _); [done|]. destruct (negb _); [done|].
  intros [= <-].
  assert (Hnd : forall l : jdict, bool_decide (NoDup (dkeys l)) = true -> nodup_keys l)
    by (intros l Hl; by apply bool_decide_eq_true_1 in Hl).
  unfold submitted_ciphertext, jget.
  destruct (dget d "request_id"%pystr) eqn:E1, (dget d "protocol"%pystr) eqn:E2,
    (dget d "version"%pystr) eqn:E3, (dget d "cancel_token"%pystr) eqn:E4;
    (split; [split|]); try done; try (by apply Hnd);
    unfold opaque_fields, jget; repeat constructor; by rewrite ?E1, ?E2, ?E3, ?E4.
Qed.

Section handout.
Context `{!PyNumbers, !PyUnicode, !Clock, !Crypto}.
Variable cfg : RelaySettings.

(** What a queued request is *)
Definition queued_for (d : jdict) (s : RelayState) : Prop :=
  exists key p q item, jget d "server_public_key" = JStr key /\
    dget (known_servers s) key = Some p /\ sp_api_v1_registered p = true /\
    node_queue s key = q ++ [item] /\ carries d item /\
    forall c r, jget d "client_public_key" = JStr c -> jget d "request_id" = JStr r ->
      no_text c = false -> no_text r = false ->
      live s c r = true /\
      forall token, jget d "cancel_token" = JStr token -> no_text token = false ->
        _cancel_token_for_queued_or_in_flight_request s c r = Some token.

Lemma mark_pending_run c r token deadline s :
  exists t pending deadlines, _mark_request_pending c r token (Some deadline) s =
    (with_ticks t (with_client_pending_request_deadlines deadlines
       (with_client_pending_request_ids pending s)), inr tt) /\
    (no_text c = false -> no_text r = false ->
     exists e, nget pending c r = Some e /\ pe_cancel_token e = text_token token).
Proof.
  unfold _mark_request_pending. destruct (no_text c) eqn:Hc.
  { exists (ticks s), (client_pending_request_ids s), (client_pending_request_deadlines s).
    split; [|done]. unfold ret. by destruct s. }
  destruct (no_text r) eqn:Hr.
  { exists (ticks s), (client_pending_request_ids s), (client_pending_request_deadlines s).
    split; [|done]. unfold ret. by destruct s. }
  cbn [orb]. unfold bind at 1, wall_time. rewrite reading_run. cbv zeta. cbn [fst snd].
  set (entry := MkPendingEntry _ _ _). unfold bind at 1, modify at 1.
  assert (He : exists e, nget (nset (client_pending_request_ids s) c r entry) c r = Some e /\
    pe_cancel_token e = text_token token).
  { exists entry. rewrite nget_nset, bool_decide_eq_true_2 by done. done. }
  destruct (is_finite deadline).
  - do 3 eexists. split; [reflexivity|]. intros _ _. exact He.
  - exists (S (ticks s)), (nset (client_pending_request_ids s) c r entry),
      (client_pending_request_deadlines s). split; [|done]. unfold ret. by destruct s.
Qed.

Lemma carries_field d item k : carries d item -> pystr_in k opaque_fields = true -> jget item k = jget d k.
Proof. intros [Ho _ _ _ _] Hk%bool_decide_eq_true_1. by apply (proj1 (Forall_forall _ _) Ho). Qed.

(** The end of the endpoint, in the section that holds the lock *)
Lemma queue_request_spec d key p item names deadline s :
  jget d "server_public_key" = JStr key -> dget (known_servers s) key = Some p ->
  sp_api_v1_registered p = true -> carries d item ->
  lifecycle_names (jget item "client_public_key") (jget item "request_id") = inr names ->
  wp (let* _ := match names with
                | Some (c, r) => call (_mark_request_pending c r (jget item "cancel_token") (Some deadline))
                | None => ret tt
                end in
      let* _ := modify (fun s => with_client_inference_requests
                  (dset (client_inference_requests s) key
                     (dget_or (client_inference_requests s) key [] ++ [item])) s) in
      let* metadata := call (_api_v1_deadline_metadata (Some deadline)) in
      ret (object_reply [("message"%pystr, JStr "Request received")] metadata 200) : HM reply)
    (fun _ s' => queued_for d s')
    (fun e _ => match e with Failed _ => True | Returned _ => False end) s.
Proof.
  intros Hk Hp Hreg Hcar Hnames.
  rewrite !(carries_field d item) in Hnames by done.
  assert (Htok : jget item "cancel_token" = jget d "cancel_token")
    by (by apply carries_field).
  set (mark := match names with Some (c, r) => _ | None => ret tt end : HM unit).
  assert (Hmark : exists t pending deadlines, mark s =
      (with_ticks t (with_client_pending_request_deadlines deadlines
         (with_client_pending_request_ids pending s)), inr tt) /\
    forall c r, names = Some (c, r) -> no_text c = false -> no_text r = false ->
      exists e, nget pending c r = Some e /\ pe_cancel_token e = text_token (jget d "cancel_token")).
  { unfold mark. destruct names as [[c r]|].
    - destruct (mark_pending_run c r (jget item "cancel_token") deadline s) as (t & pe & dl & Hrun & He).
      exists t, pe, dl. split; [by apply call_run|]. intros c' r' [= <- <-]. rewrite <- Htok. exact He.
    - exists (ticks s), (client_pending_request_ids s), (client_pending_request_deadlines s).
      split; [|done]. unfold ret. by destruct s. }
  destruct Hmark as (t & pending & deadlines & Hrun & Hpend). apply wp_bind.
  unfold wp at 1. rewrite Hrun. apply wp_bind, wp_modify.
  match goal with |- wp _ _ _ ?s1 => set (s2 := s1) end.
  assert (Hq : forall t', queued_for d (with_ticks t' s2)).
  { intros t'. exists key, p, (node_queue s key), item. split; [done|]. split; [done|].
    split; [done|]. split; [unfold node_queue, dget_or at 1; simpl; by rewrite dget_dset_eq|].
    split; [done|]. intros c r Hc Hr Hne Hne'.
    rewrite Hc, Hr, lifecycle_names_text in Hnames by done. apply (inj inr) in Hnames.
    destruct (Hpend c r (eq_sym Hnames) Hne Hne') as (e & He & Het). split.
    - unfold live, is_pending. change (client_pending_request_ids _) with pending. by rewrite He.
    - intros token Hd Hnt. unfold _cancel_token_for_queued_or_in_flight_request, _get_pending_cancel_token.
      change (client_pending_request_ids _) with pending. rewrite He, Het, Hd. unfold text_token.
      change (py_empty token) with (no_text token). by rewrite Hnt. }
  apply wp_bind, wp_call. unfold _api_v1_deadline_metadata. destruct (is_finite deadline).
  - apply wp_bind. unfold wp at 1, monotonic. rewrite reading_run. apply wp_ret, wp_ret, Hq.
  - apply wp_ret, wp_ret. replace s2 with (with_ticks (ticks s2) s2) by done. apply Hq.
Qed.

(** C14: A request the relay accepts goes to the end of its registered node's queue with
    its ciphertext, key, vector and proof as they were submitted and without any
    plaintext field; when it names a request, it is live from then on and its cancel
    token is the one submitted. *)
Theorem accepted_request_is_queued data s s' rep :
  api_v1_relay_requests cfg data s = (s', inr rep) -> reply_status rep = 200 ->
  exists d, data = JDict d /\ queued_for d s'.
Proof.
  intros Hrun. assert (Hwp : wp (api_v1_relay_requests cfg data)
    (fun rep s' => reply_status rep = 200 -> exists d, data = JDict d /\ queued_for d s')
    (fun _ _ => True) s); [|by unfold wp in Hwp; rewrite Hrun in Hwp].
  clear Hrun. apply respond_wp, wp_bind, wp_call, wp_any; [done|]. intros _ s1. apply wp_bind.
  unfold ciphertext_envelope. apply wp_bind, wp_raise_if; [by intros _|intros Hplain].
  apply wp_bind, wp_raise_if; [by intros _|intros Hunexp]. apply wp_from_option; [by intros _|].
  intros envelope He. destruct (data) as [| | | | | |d] eqn:Hd; try done. cbv zeta.
  apply wp_bind, wp_raise_if; [by intros _|intros Hclient].
  apply wp_bind, wp_call, wp_any; [done|]. intros queued_at s2.
  apply wp_bind, wp_call, wp_any; [done|]. intros now s3.
  destruct (extracted_carries d envelope queued_at (_api_v1_request_deadline_seconds (environ cfg))
    (fadd now (_api_v1_request_deadline_seconds (environ cfg))) He) as [Hcar Hkey].
  fold (stamped queued_at (_api_v1_request_deadline_seconds (environ cfg))
    (fadd now (_api_v1_request_deadline_seconds (environ cfg)))).
  set (item := dict_update _ _) in *. set (deadline := fadd now _) in *.
  apply wp_bind, wp_call_val; [done|]. intros name Hname.
  apply wp_bind, wp_from_option; [by intros _|]. intros key ->. apply wp_bind, wp_get, wp_bind.
  apply wp_from_option; [by intros _|]. intros p Hp. apply wp_bind, wp_raise_if; [by intros _|].
  intros Hreg%negb_false_iff. rewrite Hkey in Hname.
  assert (Hk : jget d "server_public_key" = JStr key).
  { revert Hname. unfold dict_key. destruct (jget d "server_public_key"); try done. by intros [= ->]. }
  apply wp_bind, wp_call_val; [done|]. intros names Hnames.
  eapply wp_mono; [by eapply (queue_request_spec d key p item names deadline)| |by intros [e|rep']].
  intros rep' s4 Hq _. by exists d.
Qed.

(** ** Dispatch *)

(** The fields the relay adds, or keeps to itself *)
Definition relay_fields_of_item : list pystr :=
  ["_queued_at"; "_request_deadline_monotonic"; "request_deadline_remaining_seconds";
   "request_ttl_seconds"]%pystr.

Lemma dget_dict_update d extra k :
  k ∉ dkeys extra -> dget (dict_update d extra) k = dget d k.
Proof.
  unfold dict_update. revert d. induction extra as [|[k' v] extra IH]; intros d Hk; [done|].
  apply not_elem_of_cons in Hk as [Hne Hk]. simpl. rewrite IH by done. by rewrite dget_dset_ne.
Qed.

(** The body of a dispatch *)
Record dispatched (first body : jdict) : Prop := {
  di_fields : forall k, k ∉ relay_fields_of_item -> jget body k = jget first k;
  di_queued_at : dget body "_queued_at"%pystr = None;
  di_deadline : dget body "_request_deadline_monotonic"%pystr = None
}.

Lemma dispatched_body first deadline now :
  nodup_keys first ->
  dispatched first (dict_update (ddel (ddel first "_queued_at"%pystr) "_request_deadline_monotonic"%pystr)
    (deadline_metadata deadline now)).
Proof.
  intros Hn. pose proof (nodup_ddel first "_queued_at"%pystr Hn) as Hn'.
  assert (Hm : forall k, k ∈ dkeys (deadline_metadata deadline now) ->
    k = "request_deadline_remaining_seconds"%pystr \/ k = "request_ttl_seconds"%pystr).
  { intros k. unfold deadline_metadata. destruct deadline as [x|]; [|by intros ?%not_elem_of_nil].
    destruct (is_finite x); [|by intros ?%not_elem_of_nil]. cbn [dkeys map fst].
    intros [->|[->|[]%not_elem_of_nil]%elem_of_cons]%elem_of_cons; auto. }
  split.
  - intros k Hk. unfold relay_fields_of_item in Hk. rewrite !not_elem_of_cons in Hk.
    destruct Hk as (Hk1 & Hk2 & Hk3 & Hk4 & _). unfold jget.
    rewrite dget_dict_update by (intros []%Hm; done). by rewrite !dget_ddel_ne.
  - rewrite dget_dict_update by (intros []%Hm; done). rewrite dget_ddel_ne by done.
    by apply dget_ddel_eq.
  - rewrite dget_dict_update by (intros []%Hm; done). by apply dget_ddel_eq.
Qed.

Lemma wp_keeping {E A} (K : RelayState -> Prop) (m : SM RelayState E A) (Q : A -> RelayState -> Prop)
  (R : E -> RelayState -> Prop) s :
  keeps K m -> K s -> (forall e s', K s' -> R e s') -> (forall a s', K s' -> Q a s') -> wp m Q R s.
Proof.
  intros Hm Hs HR HQ. specialize (Hm s Hs). unfold wp. destruct (m s) as [s' [e|a]]; auto.
Qed.

Section known.
Context (key : pystr) (p : ServerPayload).
#[local] Notation K := (fun s => dget (known_servers s) key = Some p).

Lemma known_reading {A} (f : nat -> A) : keeps K (reading f).
Proof. by intros s Hs. Qed.

Lemma known_deadline_passed deadline : keeps K (deadline_passed deadline).
Proof.
  unfold deadline_passed. destruct deadline; [|apply keeps_ret].
  apply keeps_bind; [apply known_reading|]. intros ?. apply keeps_ret.
Qed.

Lemma wp_metadata deadline Q (R : relay_error -> RelayState -> Prop) s :
  K s -> (forall now s', K s' -> Q (deadline_metadata deadline now) s') ->
  wp (_api_v1_deadline_metadata deadline) Q R s.
Proof.
  intros Hs HQ. unfold _api_v1_deadline_metadata. unfold deadline_metadata in HQ.
  destruct deadline as [d|]; [|by apply wp_ret, (HQ f0)].
  destruct (is_finite d) eqn:Ed; [|by apply wp_ret, (HQ f0)].
  apply wp_bind. unfold wp at 1, monotonic. rewrite reading_run. apply wp_ret.
  unfold deadline_metadata. rewrite Ed. by apply HQ.
Qed.

Lemma wp_dispatch_entry request deadline Q (R : relay_error -> RelayState -> Prop) s :
  K s ->
  (forall e s', K s' -> if_client_public_key e = jget request "client_public_key" ->
     if_cancel_token e = jget request "cancel_token" ->
     if_request_deadline_monotonic e = deadline -> Q e s') ->
  wp (dispatch_entry cfg request deadline) Q R s.
Proof.
  intros Hs HQ. unfold dispatch_entry. cbv zeta. apply wp_bind. unfold wp at 1, monotonic.
  rewrite reading_run. apply wp_bind. destruct deadline as [d|].
  - apply wp_ret, wp_bind. unfold wp at 1. rewrite reading_run. by apply wp_ret, HQ.
  - apply wp_bind. unfold wp at 1. rewrite reading_run. apply wp_ret, wp_bind.
    unfold wp at 1. rewrite reading_run. by apply wp_ret, HQ.
Qed.

End known.

(** The reply carries the request, which is in flight at the node. *)
Definition handed_out (key : pystr) (first : jdict) (r : pystr) (rep : reply) (s' : RelayState)
  : Prop :=
  exists body p' entries e, rep = Reply (JDict body) 200 /\ dispatched first body /\
    dget (known_servers s') key = Some p' /\ sp_in_flight_requests p' = Some entries /\
    dget entries r = Some e /\ if_client_public_key e = jget first "client_public_key" /\
    if_cancel_token e = jget first "cancel_token" /\
    if_request_deadline_monotonic e = request_deadline first.

(** A request is handed to a node with its ciphertext as it was queued and without
    the relay's private fields, and is in flight at that node, under its own client
    and proof, before the reply is sent; otherwise the node is told that there is
    nothing to do. *)
Theorem dispatched_request_is_in_flight key p first r s s' rep :
  dget (known_servers s) key = Some p -> nodup_keys first ->
  jget first "request_id" = JStr r -> no_text r = false ->
  poll_dispatch cfg key first s = (s', inr rep) ->
  rep = no_requests (_api_v1_lease_seconds (environ cfg)) (_api_v1_poll_wait_seconds (environ cfg)) \/
  handed_out key first r rep s'.
Proof.
  intros Hp Hn Hid Hr Hrun. revert Hrun.
  apply (wp_result _ (fun rep s' => rep = no_requests (_api_v1_lease_seconds (environ cfg))
    (_api_v1_poll_wait_seconds (environ cfg)) \/ handed_out key first r rep s') (fun _ _ => True)).
  set (K := fun s => dget (known_servers s) key = Some p).
  unfold poll_dispatch. cbv zeta. rewrite Hid.
  change (py_empty r) with (no_text r). rewrite Hr. apply wp_bind, (wp_keeping K); [|done..|].
  { destruct (json_number _); [|apply keeps_ret].
    apply keeps_bind; [apply known_reading|]. intros ?. apply keeps_ret. }
  intros _ s1 Hs1. apply wp_bind, (wp_keeping K); [apply known_deadline_passed|done..|].
  intros [|] s2 Hs2.
  { apply wp_bind, wp_any; [done|]. intros n s3. apply wp_ret. by left. }
  apply wp_bind, (wp_metadata key p); [done|]. intros now s3 Hs3.
  pose proof (dispatched_body first (request_deadline first) now Hn) as Hbody.
  set (body := dict_update _ _) in *. apply wp_bind, wp_get. rewrite Hs3.
  apply wp_bind, (wp_dispatch_entry key p); [done|]. intros e s4 _ He1 He2 He3.
  apply wp_bind, wp_modify, wp_ret. right. do 4 eexists.
  split; [reflexivity|]. split; [exact Hbody|]. simpl. rewrite dget_dset_eq.
  split; [reflexivity|]. split; [reflexivity|]. rewrite dget_dset_eq. split; [reflexivity|].
  rewrite He1, He2, !(di_fields _ _ Hbody) by (by apply (bool_decide_unpack _); vm_compute). done.
Qed.

End handout.

(** * relay.py: what belongs to a node's owner

    The control endpoint answers only the holder of the node's credential, and a
    registration hands a new owner the credential that authenticates it. *)

Section owners.
Context `{!PyNumbers, !PyUnicode, !Clock, !Crypto}.
Variable cfg : RelaySettings.

(** The credential authenticates the node's owner, now or in the tombstone of the
    request. *)
Definition owner_authenticated (s : RelayState) (key r : pystr) (credential : json) : Prop :=
  (exists p, dget (known_servers s) key = Some p /\ sp_api_v1_registered p = true /\
     digest_matches (sp_control_credential_digest p) credential = inr true) \/
  (exists t, dget (api_v1_control_tombstones s) (_control_tombstone_key key r) = Some t /\
     digest_matches (tb_control_credential_digest t) credential = inr true).

(** Turned away, with nothing changed but the clock reading *)
Definition turned_away (s s' : RelayState) (rep : reply) : Prop :=
  rep = bad_credential /\ s' = with_ticks (ticks s') s.

Lemma control_live_spec key r credential now s :
  wp (control_live cfg key r credential now)
    (fun _ s' => s' = s)
    (fun e s' => match e with
                 | Returned rep => turned_away s s' rep \/ owner_authenticated s key r credential
                 | Failed _ => True
                 end) s.
Proof.
  unfold control_live. apply wp_bind, wp_get.
  destruct (dget (known_servers s) key) as [p|] eqn:Ep; [|by apply wp_ret].
  destruct (sp_api_v1_registered p) eqn:Er; [|by apply wp_ret].
  apply wp_bind, wp_call_val; [done|]. intros valid Hv. apply wp_bind, wp_raise_if.
  { left. split; [done|by destruct s]. }
  intros Hval%negb_false_iff. subst valid. destruct (dget _ r) as [entry|]; [|by apply wp_ret].
  assert (Ho : owner_authenticated s key r credential) by (left; by exists p).
  destruct (has_expired _ _).
  - destruct (is_nonempty_str _); [|by apply wp_ret]. apply wp_bind, wp_any; [by intros [e|rep] s'; [|right]|].
    intros n s1. apply wp_bind, wp_any; [by intros [e|rep] s'; [|right]|]. intros t s2.
    apply wp_raise. by right.
  - apply wp_bind, wp_modify, wp_raise. by right.
Qed.

Lemma control_tombstone_spec key r credential ack s :
  wp (control_tombstone cfg key r credential ack)
    (fun _ s' => s' = with_ticks (ticks s') s)
    (fun e s' => match e with
                 | Returned rep => turned_away s s' rep \/ owner_authenticated s key r credential
                 | Failed _ => True
                 end) s.
Proof.
  unfold control_tombstone. apply wp_bind, wp_get.
  destruct (dget (api_v1_control_tombstones s) _) as [t|] eqn:Et; [|apply wp_ret; by destruct s].
  apply wp_bind. unfold wp at 1, call at 1, monotonic. rewrite reading_run.
  destruct (flt _ _); [|by apply wp_ret]. apply wp_bind, wp_call_val; [done|]. intros valid Hv.
  apply wp_bind, wp_raise_if; [by left; split|]. intros Hval%negb_false_iff. subst valid.
  assert (Ho : owner_authenticated s key r credential) by (right; by exists t).
  apply wp_bind, wp_any; [by intros [e|rep] s'; [|right]|]. intros _ s1.
  apply wp_bind, wp_any; [by intros [e|rep] s'; [|right]|]. intros m s2. apply wp_raise. by right.
Qed.


(** ** Registration *)

(** What a registration leaves and tells the owner *)
Definition owned (s s' : RelayState) (key : pystr) (body : jdict) : Prop :=
  exists p caps, dget (known_servers s') key = Some p /\ sp_api_v1_registered p = true /\
    key ∈ _api_v1_round_robin_keys s' /\ sp_capabilities p = Some caps /\ api_capabilities_ok caps /\
    match dget (known_servers s) key with
    | Some q =>
        match sp_control_credential_digest q with
        | Some digest => if py_empty digest then True
                         else sp_control_credential_digest p = Some digest /\
                              dget body "control_credential"%pystr = None
        | None => True
        end
    | None => True
    end /\
    (dget body "control_credential"%pystr <> None ->
     digest_matches (sp_control_credential_digest p) (jget body "control_credential") = inr true).

Lemma stored_credential_matches payload s s' p cred :
  _store_api_v1_control_credential payload s = (s', inr (p, cred)) ->
  (p = payload /\ py_empty cred = true /\
    exists d, sp_control_credential_digest payload = Some d /\ py_empty d = false) \/
  (exists d, p = with_credential_digest d payload /\ digest_matches (Some d) (JStr cred) = inr true /\
     py_empty cred = false /\
     forall d', sp_control_credential_digest payload = Some d' -> py_empty d' = true).
Proof.
  assert (Hnew : bind token_urlsafe (fun c =>
      bind (lift_val (_api_v1_control_credential_digest c)) (fun d =>
      ret (with_credential_digest d payload, c))) s = (s', inr (p, cred)) ->
    exists d, p = with_credential_digest d payload /\
      digest_matches (Some d) (JStr cred) = inr true /\ py_empty cred = false).
  { unfold token_urlsafe, bind at 1. rewrite reading_run. intros Hr. invert_run. simplify_eq.
    pose proof (token_is_text (ticks s)) as Ht.
    match goal with Hd : _api_v1_control_credential_digest _ = inr ?d |- _ => exists d;
      (split; [done|]); (split; [|done]); unfold digest_matches; rewrite Ht, Hd;
      rename Hd into Hdig; revert Hdig end.
    unfold _api_v1_control_credential_digest. destruct (utf8_encode _) as [b|]; [|done].
    intros Hdig. apply (inj inr) in Hdig. subst. pose proof (sha256_hexdigest_hex b) as Hh.
    apply is_sha256_hex_length in Hh. unfold py_len, py_empty in *.
    destruct (codes (sha256_hexdigest b)); [by rewrite zlen_nil in Hh|]. simpl.
    by rewrite bool_decide_eq_true_2. }
  unfold _store_api_v1_control_credential.
  destruct (sp_control_credential_digest payload) as [d|] eqn:Ed.
  - destruct (py_empty d) eqn:Ep.
    + intros Hr. right. destruct (Hnew Hr) as (d' & ? & ? & ?). exists d'. repeat split; try done.
      by intros d'' [= <-].
    + intros Hr. apply ret_inr in Hr as [_ [= <- <-]]. left. split; [done|]. split; [done|]. by exists d.
  - intros Hr. right. destruct (Hnew Hr) as (d' & ? & ? & ?). by exists d'.
Qed.

Lemma register_node_run key caps s s' credential :
  register_node cfg key caps s = (s', inr credential) ->
  exists p now payload s1 s2,
    payload = registered_payload (dget (known_servers s) key) key now
                (_api_v1_lease_seconds (environ cfg)) caps /\
    _store_api_v1_control_credential payload s1 = (s2, inr (p, credential)) /\
    s' = with_known_servers (dset (known_servers s2) key p) s2.
Proof.
  unfold register_node. unfold bind at 1, get_state. cbn [fst snd]. cbv zeta. intros Hrun.
  apply bind_inr in Hrun as (u1 & s1 & _ & Hrun). apply bind_inr in Hrun as (now & s2 & _ & Hrun).
  apply bind_inr in Hrun as (u3 & s3 & _ & Hrun).
  apply bind_inr in Hrun as ([p c] & s4 & Hst & Hrun).
  apply bind_inr in Hrun as (u5 & s5 & H5 & Hrun). apply ret_inr in Hrun as [-> Hc].
  cbn [snd] in Hc. subst c. injection H5 as <- _. unfold call in Hst.
  destruct (_store_api_v1_control_credential _ s3) as [s6 [e|[p' c']]] eqn:E; [done|].
  injection Hst as <- <- <-. do 5 eexists. split; [reflexivity|]. split; [exact E|done].
Qed.

Lemma register_node_owned key caps s s' credential body :
  RInv s -> api_capabilities_ok caps -> register_node cfg key caps s = (s', inr credential) ->
  dget body "control_credential"%pystr = (if py_empty credential then None else Some (JStr credential)) ->
  owned s s' key body.
Proof.
  intros Hs Hcaps Hrun Hbody. pose proof (keeps_register_node cfg key caps Hcaps s Hs) as Hs'.
  rewrite Hrun in Hs'. cbn [fst] in Hs'.
  apply register_node_run in Hrun as (p & now & payload & s1 & s2 & Hpay & Hst & Hfin).
  assert (Hp : dget (known_servers s') key = Some p) by (rewrite Hfin; apply dget_dset_eq).
  apply stored_credential_matches in Hst.
  assert (Hsame : sp_api_v1_registered p = true /\ sp_capabilities p = Some caps).
  { destruct Hst as [(-> & _)|(d & -> & _)]; by rewrite Hpay. }
  destruct Hsame as [Hreg Hc]. exists p, caps. split; [done|]. split; [done|].
  split; [apply in_round_robin; [done|by exists p]|]. split; [done|]. split; [done|]. split.
  - destruct (dget (known_servers s) key) as [q|] eqn:Eq; [|done].
    destruct (sp_control_credential_digest q) as [dg|] eqn:Ed; [|done].
    destruct (py_empty dg) eqn:Ee; [done|].
    assert (Hdg : sp_control_credential_digest payload = Some dg) by (by rewrite Hpay).
    destruct Hst as [(-> & Hcred & _)|(d & _ & _ & _ & Hold)].
    + split; [done|]. by rewrite Hbody, Hcred.
    + specialize (Hold _ Hdg). congruence.
  - unfold jget. rewrite Hbody. destruct Hst as [(_ & Hcred & _)|(d & -> & Hm & Hcred & _)];
      rewrite Hcred; done.
Qed.

Lemma register_node_never_replies key caps s :
  wp (register_node cfg key caps) (fun _ _ => True)
    (fun e _ => match e with Returned _ => False | Failed _ => True end) s.
Proof.
  unfold register_node. apply wp_bind, wp_get. cbv zeta. apply wp_bind.
  assert (Hend : forall s1, wp (let* now := call datetime_now in
    let payload := registered_payload (dget (known_servers s) key) key now
                     (_api_v1_lease_seconds (environ cfg)) caps in
    let* _ := modify (fun s0 => with_known_servers
      (if match dget (known_servers s) key with Some p => sp_api_v1_registered p | None => false end
       then dset (known_servers s0) key payload
       else dset (ddel (known_servers s0) key) key payload) s0) in
    let* stored := call (_store_api_v1_control_credential payload) in
    let* _ := modify (fun s => with_known_servers (dset (known_servers s) key stored.1) s) in
    ret stored.2 : HM pystr) (fun _ _ => True)
      (fun e _ => match e with Returned _ => False | Failed _ => True end) s1).
  { intros s1. apply wp_bind, wp_call, wp_any; [done|]. intros now s2. cbv zeta.
    apply wp_bind, wp_modify, wp_bind, wp_call, wp_any; [done|]. intros stored s3.
    apply wp_bind, wp_modify, wp_ret. done. }
  destruct (_ && _); [apply wp_modify|apply wp_ret]; apply Hend.
Qed.

(** A successful registration makes the node known with sound capabilities and a
    place in the round robin.  A new owner is handed a credential that authenticates
    it; a node that has an owner keeps the owner's digest, and nobody is handed a
    credential. *)
Theorem registration_makes_the_owner aliases header data s s' rep :
  relay_reachable cfg aliases s ->
  api_v1_relay_servers_register cfg header data s = (s', inr rep) -> reply_status rep = 200 ->
  exists d key body, data = JDict d /\ jget d "server_public_key" = JStr key /\
    reply_body rep = JDict body /\ owned s s' key body.
Proof.
  intros Hs%reachable_RInv.
  apply (wp_result _ (fun rep s' => reply_status rep = 200 -> exists d key body, data = JDict d /\
    jget d "server_public_key" = JStr key /\ reply_body rep = JDict body /\ owned s s' key body)
    (fun _ _ => True)).
  apply respond_wp. unfold require_server_token. apply wp_bind, wp_bind, wp_call_val; [done|].
  intros auth Hauth. destruct auth as [r0|].
  { apply wp_raise. intros Hst. exfalso. revert Hauth Hst. unfold _validate_server_registration.
    destruct (SERVER_REGISTRATION_TOKENS cfg) as [|t ts]; [done|]. destruct (py_empty _); [by intros [= <-]|].
    destruct (any_token_matches _ _) as [e|[|]]; try done. by intros [= <-]. }
  apply wp_ret. destruct data as [| | | | | |d]; try (by apply wp_ret).
  apply wp_bind, wp_call_val; [done|]. intros name Hname.
  apply wp_bind, wp_from_option; [done|]. intros key ->. apply name_of_some in Hname as [Hkey _].
  apply wp_bind.
  assert (Hnorm : wp (normalised_capabilities (jget d "capabilities"))
    (fun caps s1 => s1 = s /\ api_capabilities_ok caps)
    (fun e _ => match e with Returned rep => reply_status rep <> 200 | Failed _ => True end) s).
  { apply wp_bind, wp_call_val; [done|]. intros [m|caps] Hcaps; [by apply wp_raise|].
    apply wp_ret. split; [done|]. by eapply capabilities_sound. }
  eapply wp_mono; [exact Hnorm| |by intros [e|r0] s1].
  intros caps s1 [-> Hcaps]. apply wp_bind.
  destruct (register_node cfg key caps s) as [s2 [e|credential]] eqn:Ereg.
  { pose proof (register_node_never_replies key caps s) as Hno. unfold wp in *.
    rewrite Ereg in *. by destruct e. }
  unfold wp at 1. rewrite Ereg. apply wp_ret. intros _. do 3 eexists. split; [reflexivity|].
  split; [exact Hkey|]. split; [reflexivity|]. eapply register_node_owned; [done..|].
  by destruct (py_empty credential).
Qed.

End owners.
