(* ===== verification/RelayWitnesses.v ===== *)
(** * relay.py: the theorems at a concrete run

    Each theorem on the relay applied at a state of the run of [RelayRun], where
    its hypotheses hold by evaluation. *)

From S2P Require Import Prelude PyFloat PyStr PyDict PyText Json Sha256 RelayTypes RelayConfig.
From S2P Require Import RelayLifecycle RelayRegistry RelayStreams RelayHandlers RelayInv RelayRun.
From S2P Require Import RelayCancel RelayScheduling.
From S2P Require Import RelayHandout.
#[local] Open Scope Z_scope.

(** The value an operation returned *)
Definition value_of {A} (r : RelayState * (relay_error + A)) (dflt : A) : A :=
  match r with (_, inr a) => a | _ => dflt end.

(** Both sides are closed terms with the same value. *)
Ltac by_evaluation := vm_compute; reflexivity.

(** A node polls, and is handed the request. *)
Definition demo_poll : poll_context := MkPoll "node" (float_near 40).

Definition attempted : RelayState * (relay_error + poll_turn) := poll_attempt demo_settings demo_poll requested.

Definition demo_first : jdict :=
  match attempted with (_, inr (TurnDone (Some first))) => first | _ => [] end.

Definition handed : RelayState :=
  demo_run_ops [demo_register; Requests demo_request_body; PollAttempt demo_poll;
                PollFinish demo_poll (Some demo_first)].

Definition demo_response : jdict :=
  [("client_public_key", JStr "client"); ("request_id", JStr "r1"); ("ciphertext", JStr "YW5z");
   ("cipherkey", JStr "a2V5"); ("iv", JStr "aXY=")]%pystr.

Definition no_reply : reply := Reply JNull 0.


Lemma cancelled_request_is_settled_witness :
  live requested "client" "r1" = true /\
  exists s', _cancel_api_v1_request demo_settings (JStr "client") (JStr "r1") (JStr "cancelled")
      (JStr "client_timeout") requested = (s', inr 1) /\
    cancelled "client" "r1" "cancelled" "client_timeout" requested s'.
Proof.
  split; [by_evaluation|].
  exact (cancelled_request_is_settled demo_settings [] "client" "r1" (JStr "cancelled")
    (JStr "client_timeout") requested (relay_demo_reachable _) eq_refl eq_refl).
Defined.

Definition responded : RelayState * (relay_error + reply) :=
  api_v1_relay_responses demo_settings "" (JDict demo_response) handed.

Lemma response_needs_a_live_request_witness :
  client_responses responded.1 <> client_responses handed /\
  exists envelope, _extract_ciphertext_envelope (JDict demo_response) false = Some envelope /\
    accepted "client" "r1" envelope handed responded.1.
Proof.
  assert (Hne : client_responses responded.1 <> client_responses handed)
    by (vm_compute; discriminate).
  split; [exact Hne|].
  destruct (response_needs_a_live_request demo_settings [] "" demo_response "client" "r1" handed
    responded.1 responded.2 (relay_demo_reachable _) eq_refl eq_refl eq_refl eq_refl
    (surjective_pairing _)) as [Heq|Hacc]; [destruct (Hne Heq)|exact Hacc].
Defined.

Definition cancel_body (token : pystr) : json :=
  JDict [("client_public_key", JStr "client"); ("request_id", JStr "r1");
         ("cancel_token", JStr token)]%pystr.

Definition cancel_with (token : pystr) : RelayState * (relay_error + reply) :=
  api_v1_relay_requests_cancel demo_settings (cancel_body token) requested.

Lemma cancellation_needs_the_token_witness :
  (cancel_with "proof").1 <> requested /\
  exists d c r token, cancel_body "proof" = JDict d /\ jget d "client_public_key" = JStr c /\
    jget d "request_id" = JStr r /\ jget d "cancel_token" = JStr token /\
    _cancel_token_for_queued_or_in_flight_request requested c r = Some token.
Proof.
  assert (Hne : (cancel_with "proof").1 <> requested) by (vm_compute; discriminate).
  split; [exact Hne|].
  destruct (cancellation_needs_the_token demo_settings (cancel_body "proof") requested
    (cancel_with "proof").1 (cancel_with "proof").2 (surjective_pairing _)) as [Heq|Hp];
    [destruct (Hne Heq)|exact Hp].
Defined.

Lemma accepted_request_is_queued_witness :
  exists d, demo_request_body = JDict d /\ queued_for d requested.
Proof.
  refine (accepted_request_is_queued demo_settings demo_request_body registered requested
    (value_of (api_v1_relay_requests demo_settings demo_request_body registered) no_reply) _ _);
    by_evaluation.
Defined.

Lemma dispatched_request_is_in_flight_witness :
  let run := poll_dispatch demo_settings "node" demo_first requested in
  value_of run no_reply <> no_requests 30 (float_near 10) /\
  handed_out "node" demo_first "r1" (value_of run no_reply) run.1.
Proof.
  intros run.
  assert (Hne : value_of run no_reply <> no_requests
    (_api_v1_lease_seconds (environ demo_settings))
    (_api_v1_poll_wait_seconds (environ demo_settings))) by (vm_compute; discriminate).
  split; [vm_compute; discriminate|].
  destruct (dispatched_request_is_in_flight demo_settings "node"
    (match dget (known_servers requested) "node"%pystr with
     | Some p => p | None => MkServer "" 0 0 false None None None None end)
    demo_first "r1" requested run.1 (value_of run no_reply)) as [Heq|Hok];
    [by_evaluation|apply (bool_decide_unpack _); vm_compute; exact I|by_evaluation|by_evaluation
    |by_evaluation|destruct (Hne Heq)|exact Hok].
Defined.


Definition demo_node_body : json :=
  match demo_register with Register _ data => data | _ => JNull end.

Lemma registration_makes_the_owner_witness :
  exists d key body, demo_node_body = JDict d /\ jget d "server_public_key" = JStr key /\
    reply_body (value_of (api_v1_relay_servers_register demo_settings "" demo_node_body initial_relay)
                  no_reply) = JDict body /\
    owned initial_relay registered key body.
Proof.
  refine (registration_makes_the_owner demo_settings [] "" demo_node_body initial_relay registered
    (value_of (api_v1_relay_servers_register demo_settings "" demo_node_body initial_relay) no_reply)
    (relay_demo_reachable []) _ _); by_evaluation.
Defined.

Definition selecting : RelayState * (relay_error + Selection) :=
  _select_best_fit_server_key demo_settings [] (Some "qwen3-8b-instruct"%pystr) "8k-fast" registered.

Definition selection : Selection := value_of selecting (MkSelection 0 None [] [] 0 0 None false).

Lemma selection_is_best_fit_witness :
  exists c, sl_selected selection = Some c /\ cd_server_public_key c = "node"%pystr /\
    can_serve demo_settings registered (Some "qwen3-8b-instruct"%pystr) "8k-fast" c /\
    cd_capacity_limited c = false.
Proof.
  destruct (sl_selected selection) as [c|] eqn:Ec; [|revert Ec; vm_compute; discriminate].
  exists c. split; [reflexivity|].
  destruct (selection_is_best_fit demo_settings [] (Some "qwen3-8b-instruct"%pystr) "8k-fast"
    registered selecting.1 selection c) as (Hs & Hl & _); [by_evaluation|exact Ec|].
  split; [|split; [exact Hs|exact Hl]].
  revert Ec. vm_compute. intros Ec. injection Ec as Ec. rewrite <- Ec. reflexivity.
Defined.

(** A second node, whose turn comes when the first leaves *)
Definition demo_register_b : relay_op :=
  match demo_register with
  | Register h (JDict d) => Register h (JDict (dset d "server_public_key"%pystr (JStr "node-b")))
  | op => op
  end.

Definition two_nodes : RelayState := demo_run_ops [demo_register; demo_register_b].

Lemma removal_keeps_the_turn_witness :
  next_node two_nodes = Some "node"%pystr /\
  exists s', _remove_known_server "node" two_nodes = (s', inr true) /\
    next_node s' = if bool_decide (next_node two_nodes = Some "node"%pystr)
                   then following_node two_nodes else next_node two_nodes.
Proof.
  split; [by_evaluation|].
  apply (removal_keeps_the_turn demo_settings [] "node" two_nodes (relay_demo_reachable _)). by_evaluation.
Defined.

Lemma demo_clock_passes n : (1000 <= n)%nat ->
  fle (fsub (pc_deadline demo_poll) (monotonic_at n)) f0 = true.
Proof.
  intros Hn. unfold monotonic_at, demo_clock. rewrite Z.min_r by lia. by_evaluation.
Qed.

Lemma poll_loop_ends_witness :
  (poll_loop demo_settings (S (length (node_queue requested "node") + 1000)) demo_poll requested).2
    <> inr None.
Proof.
  exact (poll_loop_ends demo_settings [] demo_poll 1000 requested demo_clock_passes (relay_demo_reachable _)).
Defined.

(** A cancel token that is not ASCII lets a [TypeError] out instead of the refusal. *)
Lemma non_ascii_token_escapes :
  (cancel_with (PyStr [233%N])).2
    = inl (RelayTypeError "comparing strings with non-ASCII characters is not supported").
Proof. vm_compute. reflexivity. Qed.
