(* ===== verification/RoutesAdmin.v ===== *)
(** * api/v1/routes.py: models, keys, nodes and health

    The endpoints beside the completions: the model list in OpenAI's format, the key of
    the API's encryption manager and its rotation, the configured relay servers, the
    operator's removal of a compute node, and the health check.

    Flask hands the headers over as a lookup function and the body as a document. *)

From S2P Require Import Prelude PyFloat PyStr PyDict PyText Json JsonText Base64.
From S2P Require Import Encrypt EncryptSound CryptoManager Catalog Profiles Moderation OperatorAuth Config ConfigSound.
From S2P Require Import Sha256 RelayTypes RelayConfig RelayLifecycle RelayRegistry Validation Provider Routes.

(** ** Models *)

(** [zlib.crc32(data)] *)
Definition crc_bit (c : Z) : Z :=
  if Z.testbit c 0 then Z.lxor (Z.shiftr c 1) 3988292384 else Z.shiftr c 1.

Definition crc_byte (c : Z) (b : byte) : Z := Nat.iter 8 crc_bit (Z.lxor c (byte_val b)).

Definition crc32 (data : list byte) : Z := Z.lxor (fold_left crc_byte data 4294967295) 4294967295.

Example crc32_check : crc32 [Byte.x31; Byte.x32; Byte.x33; Byte.x34; Byte.x35; Byte.x36; Byte.x37; Byte.x38; Byte.x39]
  = 3421780262.
Proof. vm_compute. reflexivity. Qed.

(** [None] is the [UnicodeEncodeError] of a lone surrogate. *)
Definition _stable_openai_model_created (model_id : pystr) : option Z :=
  bytes ← utf8_encode model_id; Some (1700000000 + crc32 bytes mod 31536000).

Definition owned_by (model : jdict) : json :=
  json_or (jget model "owned_by") (json_or (jget model "owner") (json_or (jget model "provider") (JStr "unknown"))).

Definition permission (model_id : pystr) (created_ts : Z) : json :=
  JDict [("id", JStr ("modelperm-" +++ model_id)); ("object", JStr "model_permission");
         ("created", JInt created_ts); ("allow_create_engine", JBool false); ("allow_sampling", JBool true);
         ("allow_logprobs", JBool true); ("allow_search_indices", JBool false); ("allow_view", JBool true);
         ("allow_fine_tuning", JBool false); ("organization", JStr "*"); ("group", JNull);
         ("is_blocking", JBool false)]%pystr.

(** A failure carries the exception's text; an identifier that is no text has no
    [encode]. *)
Definition _format_openai_model_payload `{!ExceptionTexts} (model : jdict) : pystr + json :=
  match dget model "id" with
  | None => inl "'id'"%pystr
  | Some (JStr id) =>
      match _stable_openai_model_created id with
      | None => inl (exception_text (NotEncodableText id))
      | Some created_ts =>
          inr (JDict [("id", JStr id); ("object", JStr "model"); ("created", JInt created_ts);
                      ("owned_by", owned_by model); ("permission", JList [permission id created_ts]);
                      ("root", JStr id); ("parent", JNull)]%pystr)
      end
  | Some v => inl ("'" +++ json_type_name v +++ "' object has no attribute 'encode'")
  end.

Definition ok_reply (body : json) : http_reply := MkReply 200 body [].

(** [except Exception as e: format_error_response(f"Internal server error: {str(e)}")] *)
Definition internal_error (text : pystr) : http_reply :=
  format_error_response ("Internal server error: " +++ text) "invalid_request_error" None None 400.

Definition reply_or {A} (r : pystr + A) (ok : A -> http_reply) : http_reply :=
  match r with inl text => internal_error text | inr a => ok a end.

Definition models_info (available : list jdict) : pystr + list jdict :=
  match get_models_info available with inl e => inl (error_text e) | inr l => inr l end.

Definition list_models `{!ExceptionTexts} (available : list jdict) : http_reply :=
  reply_or (let? models := models_info available in emap _format_openai_model_payload models)
    (fun formatted_models =>
       ok_reply (JDict [("object", JStr "list"); ("data", JList formatted_models)]%pystr)).

(** [next((m for m in models if m["id"] == resolved_model_id), None)] *)
Fixpoint find_model (models : list jdict) (resolved_model_id : pystr) : pystr + option jdict :=
  match models with
  | [] => inr None
  | m :: rest => match dget m "id" with
                 | None => inl "'id'"%pystr
                 | Some v => if jeq_str v resolved_model_id then inr (Some m)
                             else find_model rest resolved_model_id
                 end
  end.

Definition get_model `{!ExceptionTexts} (available : list jdict) (model_id : pystr) : http_reply :=
  reply_or
    (let? models := models_info available in
     let? resolved_model_id := match canonical_model_id available model_id with
                               | inl e => inl (error_text e)
                               | inr id => inr id
                               end in
     let? model := find_model models resolved_model_id in
     match model with
     | None | Some [] => inr (format_error_response ("Model '" +++ model_id +++ "' not found") "invalid_request_error"
                                None (Some "model_not_found"%pystr) 404)
     | Some m => let? payload := _format_openai_model_payload m in inr (ok_reply payload)
     end) id.

(** ** Keys *)

(** The manager and the number of random draws before *)
Record key_state : Set := MkKeyState { manager_keys : CryptoKeys; key_draws : nat }.

Definition public_key_body (keys : CryptoKeys) : json :=
  JDict [("public_key", JStr (ck_public_key_b64 keys))]%pystr.

Definition _public_key_response (encryption_manager : option CryptoKeys) : http_reply :=
  match encryption_manager with
  | None => format_error_response "Failed to retrieve public key: encryption is not initialized"
              "invalid_request_error" None None 400
  | Some keys => ok_reply (public_key_body keys)
  end.

Section rotation.
Context `{!Cryptography}.

(** [EncryptionManager.rotate_keys] *)
Definition rotate_keys (s : key_state) : key_state * (crypto_error + unit) :=
  match generate_keys (key_draws s) with
  | (n, inr (private, public)) =>
      (MkKeyState (MkCryptoKeys private public (b64encode public)) n, inr tt)
  | (n, inl e) => (MkKeyState (manager_keys s) n, inl e)
  end.

Definition _rotate_public_key_response (s : key_state) : key_state * http_reply :=
  match rotate_keys s with
  | (s', inr _) => (s', ok_reply (public_key_body (manager_keys s')))
  | (s', inl _) => (s', format_error_response "Failed to rotate public key" "internal_server_error" None None 500)
  end.

(** The refusal of the guard, formatted *)
Definition auth_reply (refusal : OperatorAuth.error_response) : http_reply :=
  format_error_response (response_message refusal) (OperatorAuth.error_type refusal) None
    (Some (OperatorAuth.error_code refusal)) (OperatorAuth.status_code refusal).

Definition rotate_public_key (env : environment) (headers : pystr -> option pystr) (s : key_state) :
  key_state * http_reply :=
  match ensure_operator_access env headers with
  | Some auth_error => (s, auth_reply auth_error)
  | None => _rotate_public_key_response s
  end.

End rotation.

(** ** Relay servers *)

(** [list(config.get('relay.server_pool', []) or [])]; [None] is a [TypeError]. *)
Definition _configured_relay_servers (config : jdict) : config_error + list json :=
  iterate_or_empty (config_get config "relay.server_pool" (JList [])).

Definition relay_server_nodes (config : jdict) : config_error + http_reply :=
  let? servers := _configured_relay_servers config in
  inr (ok_reply (JDict [("configured_servers", JList servers);
                        ("primary", match servers with s :: _ => s | [] => JNull end);
                        ("secondary", JList (tl servers)); ("total", JInt (zlen servers))]%pystr)).

(** ** Removal of a compute node *)
Section unregister.
Context `{!PyNumbers, !PyUnicode, !Clock, !Crypto} (cfg : RelaySettings).

Definition _relay_unregister_response (data : json) : RM http_reply :=
  match data with
  | JDict d =>
      let invalid_key := format_error_response "Invalid public key" "invalid_request_error"
                           (Some "server_public_key"%pystr) None 400 in
      match jget d "server_public_key" with
      | JStr public_key =>
          if py_empty (py_strip public_key) then ret invalid_key
          else
            let* removed := _unregister_server cfg (py_strip public_key) None None in
            ret (ok_reply (JDict [("message", JStr "Server unregistered");
                                  ("removed", match removed with Some b => JBool b | None => JNull end)]%pystr))
      | _ => ret invalid_key
      end
  | _ => ret (format_error_response "Invalid request data" "invalid_request_error" None None 400)
  end.

Definition relay_unregister (env : environment) (headers : pystr -> option pystr) (data : json) : RM http_reply :=
  match ensure_operator_access env headers with
  | Some auth_error => ret (auth_reply auth_error)
  | None => _relay_unregister_response data
  end.

End unregister.

(** ** Health *)

Definition DEFAULT_SERVICE_NAME : pystr := "token.place".

(** [at_import] is the variable when the module was imported. *)
Definition _get_service_name (at_import : option pystr) (env : environment) : pystr :=
  match env "SERVICE_NAME"%pystr with
  | None => default DEFAULT_SERVICE_NAME at_import
  | Some override => let stripped := py_strip override in
                     if py_empty stripped then DEFAULT_SERVICE_NAME else stripped
  end.

(** [timestamp] is [int(time.time())]. *)
Definition health_check (at_import : option pystr) (env : environment) (timestamp : Z) : http_reply :=
  ok_reply (JDict [("status", JStr "ok"); ("version", JStr "v1");
                   ("service", JStr (_get_service_name at_import env)); ("timestamp", JInt timestamp)]%pystr).

(** ** What the endpoints promise *)

Section lemmas.
Context `{!ExceptionTexts}.

Lemma find_model_some models id m : find_model models id = inr (Some m) ->
  m ∈ models /\ jget m "id" = JStr id.
Proof.
  induction models as [|m' models IH]; [done|]. cbn [find_model].
  destruct (dget m' "id") as [v|] eqn:E; [|done]. destruct (jeq_str v id) eqn:Ev.
  - intros [= <-]. apply jeq_str_true in Ev as ->. split; [by left|]. unfold jget. by rewrite E.
  - intros [Hin Hid]%IH. split; [by right|done].
Qed.

Lemma find_model_none models id : find_model models id = inr None ->
  forall m, m ∈ models -> jget m "id" <> JStr id.
Proof.
  induction models as [|m' models IH]; [intros _ m []%elem_of_nil|]. cbn [find_model].
  destruct (dget m' "id") as [v|] eqn:E; [|done]. destruct (jeq_str v id) eqn:Ev; [done|].
  intros Hn m [->|Hin]%elem_of_cons; [|by apply IH]. unfold jget. rewrite E.
  intros Hv. assert (jeq_str v id = true) by by apply jeq_str_true. congruence.
Qed.

Lemma emap_elem {E A B} (f : A -> E + B) l ys x : emap f l = inr ys -> x ∈ l -> exists y, f x = inr y /\ y ∈ ys.
Proof.
  revert ys. induction l as [|a l IH]; [intros ys _ []%elem_of_nil|]. intros ys Hm Hx. cbn [emap] in Hm.
  apply ebind_inr in Hm as (y & Hy & Hm). apply ebind_inr in Hm as (ys' & Hys & [= <-]).
  apply elem_of_cons in Hx as [->|Hx]; [exists y; split; [done|by left]|].
  destruct (IH ys' Hys Hx) as (z & Hz & Hin). exists z. split; [done|by right].
Qed.

Lemma payload_id m payload : _format_openai_model_payload m = inr payload ->
  exists d, payload = JDict d /\ jget d "id" = jget m "id".
Proof.
  unfold _format_openai_model_payload, jget at 2. destruct (dget m "id") as [[| | | |i| |]|]; try done.
  destruct (_stable_openai_model_created i); [|done]. intros [= <-]. by eexists.
Qed.

Lemma emap_back {E A B} (f : A -> E + B) l ys y : emap f l = inr ys -> y ∈ ys -> exists x, x ∈ l /\ f x = inr y.
Proof.
  revert ys. induction l as [|a l IH]; [by intros ys [= <-] []%elem_of_nil|]. intros ys Hm Hy. cbn [emap] in Hm.
  apply ebind_inr in Hm as (z & Hz & Hm). apply ebind_inr in Hm as (ys' & Hys & [= <-]).
  apply elem_of_cons in Hy as [->|Hy]; [exists a; split; [by left|done]|].
  destruct (IH ys' Hys Hy) as (x & Hx & Hf). exists x. split; [by right|done].
Qed.

(** The entries behind a published list *)
Lemma list_models_spec available data :
  list_models available = ok_reply (JDict [("object", JStr "list"); ("data", JList data)]%pystr) ->
  exists models, get_models_info available = inr models /\ emap _format_openai_model_payload models = inr data.
Proof.
  unfold list_models, models_info, reply_or. destruct (get_models_info available) as [e|models]; [done|]. cbn [ebind].
  destruct (emap _ models) as [text|l] eqn:Ee; [done|]. intros [= <-]. by exists models.
Qed.

Lemma canonical_total available models id : get_models_info available = inr models ->
  exists c, canonical_model_id available id = inr c.
Proof.
  intros Hm. unfold get_models_info in Hm. unfold canonical_model_id, resolve_model_alias, _get_model_metadata.
  rewrite Hm. destruct (dget MODEL_ALIASES id) as [t|]; [|by eexists]. destruct (py_empty t); by eexists.
Qed.

Lemma find_model_total models data id : emap _format_openai_model_payload models = inr data ->
  exists r, find_model models id = inr r.
Proof.
  revert data. induction models as [|m models IH]; [by eexists|]. intros data Hm. cbn [emap] in Hm.
  apply ebind_inr in Hm as (y & Hy & Hm). apply ebind_inr in Hm as (ys & Hys & _). cbn [find_model].
  unfold _format_openai_model_payload in Hy. destruct (dget m "id"); [|done].
  destruct (jeq_str _ _); [by eexists|]. by eapply IH.
Qed.

End lemmas.

(** The lookup of a model agrees with the list of models: an identifier, or what it
    is an alias for, is answered with the list's own entry of that identifier, and with
    404 exactly when the list has none. *)
Theorem model_lookup_agrees_with_listing `{!ExceptionTexts} available data model_id :
  list_models available = ok_reply (JDict [("object", JStr "list"); ("data", JList data)]%pystr) ->
  exists canonical, canonical_model_id available model_id = inr canonical /\
    ((exists d, JDict d ∈ data /\ jget d "id" = JStr canonical /\
        get_model available model_id = ok_reply (JDict d)) \/
     (reply_status (get_model available model_id) = 404 /\
      forall d, JDict d ∈ data -> jget d "id" <> JStr canonical)).
Proof.
  intros (models & Hm & Hd)%list_models_spec.
  destruct (canonical_total available models model_id Hm) as [c Hc]. exists c. split; [done|].
  unfold get_model, models_info. rewrite Hm, Hc. cbn [ebind].
  destruct (find_model_total models data c Hd) as [[m|] Hf]; rewrite Hf; cbn [ebind].
  - left. apply find_model_some in Hf as [Hin Hid].
    destruct (emap_elem _ _ _ _ Hd Hin) as (payload & Hp & Hpin).
    destruct (payload_id _ _ Hp) as (d & -> & Hdid). exists d. split; [done|]. split; [congruence|].
    rewrite Hp. destruct m as [|kv m]; [done|reflexivity].
  - right. split; [done|]. intros d Hin Hid. destruct (emap_back _ _ _ _ Hd Hin) as (m & Hmin & Hp).
    destruct (payload_id _ _ Hp) as (d' & [= <-] & Hdid).
    apply (find_model_none _ _ Hf m Hmin). congruence.
Qed.

Lemma model_lookup_agrees_with_listing_witness :
  let texts : ExceptionTexts := fun _ => ""%pystr in
  exists canonical, canonical_model_id AVAILABLE_MODELS "gpt-3.5-turbo" = inr canonical /\
    ((exists d, reply_status (get_model AVAILABLE_MODELS "gpt-3.5-turbo") = 200 /\ jget d "id" = JStr canonical) \/
     reply_status (get_model AVAILABLE_MODELS "gpt-3.5-turbo") = 404).
Proof.
  intros texts.
  destruct (model_lookup_agrees_with_listing AVAILABLE_MODELS
    (match reply_body (list_models AVAILABLE_MODELS) with
     | JDict d => match jget d "data" with JList l => l | _ => [] end | _ => [] end) "gpt-3.5-turbo"%pystr)
    as (c & Hc & Hrest); [vm_compute; reflexivity|].
  exists c. split; [exact Hc|]. destruct Hrest as [(d & _ & Hid & Hg)|(Hs & _)]; [left|right; exact Hs].
  exists d. split; [rewrite Hg; reflexivity|exact Hid].
Defined.

(** ** The operator's endpoints *)

(** The request carries the configured operator token. *)
Definition from_operator (env : environment) (headers : pystr -> option pystr) : Prop :=
  exists token, _expected_operator_token env = Some token /\ py_empty token = false /\
    provided_operator_token headers = Some token.

Lemma guard_cases env headers :
  (ensure_operator_access env headers = None /\ from_operator env headers) \/
  (exists e, ensure_operator_access env headers = Some e /\
     (OperatorAuth.status_code e = 401 \/ OperatorAuth.status_code e = 503)).
Proof.
  unfold ensure_operator_access. destruct (_expected_operator_token env) as [t|] eqn:Et; [|right; eexists; eauto].
  case_bool_decide as Hp; [left|right; eexists; eauto]. split; [done|]. exists t. split; [done|].
  split; [by apply first_token_some in Et as [? _]|done].
Qed.

(** Keys are rotated and compute nodes removed for the operator only: any other
    request is refused with 401 or 503 and changes nothing, and the operator's rotation
    makes a new key pair and publishes its public half. *)
Theorem operator_endpoints_need_the_token `{!Cryptography, !PyNumbers, !PyUnicode, !Clock, !Crypto}
  cfg env headers data s relay :
  (from_operator env headers /\
   let '(s', r) := rotate_public_key env headers s in
   key_pair (ck_private_key (manager_keys s')) (ck_public_key (manager_keys s')) /\
   r = ok_reply (JDict [("public_key", JStr (b64encode (ck_public_key (manager_keys s'))))]%pystr)) \/
  (exists r, rotate_public_key env headers s = (s, r) /\
     relay_unregister cfg env headers data relay = (relay, inr r) /\
     (reply_status r = 401 \/ reply_status r = 503)).
Proof.
  unfold rotate_public_key, relay_unregister.
  destruct (guard_cases env headers) as [[-> Hop]|(e & -> & Hst)].
  - left. split; [done|]. unfold _rotate_public_key_response, rotate_keys.
    assert (generate_keys (key_draws s) = (S (key_draws s), inr (generate_private_key (key_draws s) RSA_KEY_SIZE)))
      as -> by done.
    destruct (generate_private_key _ _) as [private public] eqn:E. cbn. split; [by eexists|done].
  - right. exists (auth_reply e). split; [done|]. split; [done|exact Hst].
Qed.
