(* ===== verification/NodeAnswer.v ===== *)
(** * The answer of a compute node

    Every completion the runtime is asked for reserves the admitted number of tokens and,
    however often it is repeated, keeps what the client asked for; and every answer is a
    message of an admitted conversation or an error with one of the node's codes. *)

From S2P Require Import Prelude PyFloat PyStr PyDict PyText PyRegex Json JsonText Profiles Catalog.
From S2P Require Import NodeRequest NodeDiagnostics NodeOutput NodeChecks NodeScreen NodeGenerate.

(** ** Dictionaries that are built up *)

Lemma set_default_other k k' v d : k <> k' -> jget (set_default k v d) k' = jget d k'.
Proof. intros Hk. unfold set_default. destruct (dmem d k); [done|]. rewrite jget_dset. by rewrite bool_decide_eq_false_2. Qed.

Lemma set_default_opt_other k k' v d : k <> k' -> jget (set_default_opt k v d) k' = jget d k'.
Proof. destruct v; [apply set_default_other|done]. Qed.

Lemma fold_keeps_key {X} (step : jdict -> X -> jdict) k l : forall d,
  (forall x d, x ∈ l -> jget (step d x) k = jget d k) -> jget (fold_left step l d) k = jget d k.
Proof.
  induction l as [|x l IH]; intros d Hl; simpl; [done|].
  rewrite IH by (intros y d' Hy; apply Hl; by right). apply Hl. by left.
Qed.

Lemma jget_dset_ne d k k' v : k <> k' -> jget (dset d k v) k' = jget d k'.
Proof. intros Hk. rewrite jget_dset. by rewrite bool_decide_eq_false_2. Qed.

Lemma copy_keys_other keys from onto k : k ∉ keys -> jget (copy_keys keys from onto) k = jget onto k.
Proof.
  intros Hk. apply fold_keeps_key. intros x d Hx. destruct (dget from x); [|done].
  apply jget_dset_ne. congruence.
Qed.

(** ** Errors *)
Definition node_codes : list pystr :=
  ["compute_node_invalid_request"; "compute_node_request_too_large"; "compute_node_model_unsupported";
   "compute_node_options_unsupported"; "compute_node_context_tier_unsupported";
   "compute_node_context_window_exceeded"; "compute_node_context_admission_unavailable";
   "compute_node_runtime_unavailable"; "compute_node_invalid_model_output";
   "compute_node_internal_error"]%pystr.

(** An error that can be told apart by its code *)
Definition coded_error (error : jdict) : Prop := exists c, jget error "code" = JStr c /\ c ∈ node_codes.

Ltac a_code := apply (bool_decide_unpack _); vm_compute; exact I.
Ltac with_code := eexists; split; [reflexivity|a_code].

Section answer.
Context `{!PyUnicode, !PyWords, !FloatRepr}.

Lemma enriched_code m health error rid tier p o reason rejected retryable :
  jget (_api_v1_enrich_safe_error m health error rid tier p o reason rejected retryable) "code" =
  jget error "code".
Proof.
  unfold _api_v1_enrich_safe_error. cbv zeta.
  rewrite !set_default_other, !set_default_opt_other, !set_default_other by done.
  rewrite jget_dset. by rewrite bool_decide_eq_false_2.
Qed.

Lemma validation_error_coded r : coded_error (_api_v1_chat_validation_error r).
Proof. unfold _api_v1_chat_validation_error. case_bool_decide; with_code. Qed.

Lemma counted_error_coded m configured prompt output tier :
  coded_error (counted_error m configured prompt output tier).
Proof. unfold counted_error. destruct (negb _); with_code. Qed.

Lemma uncounted_error_coded m llm configured tier err : coded_error (uncounted_error m llm configured tier err).
Proof.
  unfold uncounted_error. destruct err as [d|]; [destruct (jeq_str _ _); [with_code|]|];
    unfold _api_v1_context_admission_unavailable_error;
    (eexists; split; [rewrite copy_keys_other by a_code; reflexivity|a_code]).
Qed.

Lemma request_error_coded safe : coded_error (request_error safe).
Proof.
  exists (request_error_code safe). split.
  - unfold request_error. etrans; [apply fold_keeps_key|done]. intros k d Hk.
    assert (jget (dset d k (jget safe k)) "code" = jget d "code") as Hd.
    { apply jget_dset_ne. intros ->. revert Hk. a_code. }
    by destruct (jget safe k).
  - unfold request_error_code. destruct (jeq_str _ _); [a_code|]. destruct (_ || _); a_code.
Qed.

(** ** Completions *)

(** At most [n] more completions, each called with arguments in [P] *)
Definition calls_after (n : nat) (P : jdict -> Prop) (g g' : gen_state) : Prop :=
  exists new, gs_calls g' = gs_calls g ++ new /\ (length new <= n)%nat /\ Forall P new.

Lemma no_calls n P g g' : gs_calls g' = gs_calls g -> calls_after n P g g'.
Proof. intros Hg. exists []. rewrite app_nil_r. split; [done|]. split; [simpl; lia|constructor]. Qed.

Lemma calls_then n P g g' g'' : calls_after n P g g' -> gs_calls g'' = gs_calls g' -> calls_after n P g g''.
Proof. intros (new & Hc & Hr) Hg. exists new. by rewrite Hg. Qed.

Lemma calls_from n P g g' g'' : gs_calls g' = gs_calls g -> calls_after n P g' g'' -> calls_after n P g g''.
Proof. intros Hg (new & Hc & Hr). exists new. by rewrite <- Hg. Qed.

Lemma wp_catch {A} (p : GM A) h Q R g :
  wp p Q (fun e g' => wp (h e) Q R g') g -> wp (catch p h) Q R g.
Proof. unfold wp, catch. by destruct (p g) as [g' [e|a]]. Qed.

(** An attempt that is repeated up to [n] times *)
Lemma filtered_calls_wp n kwargs_of complete removable l (P : jdict -> Prop) (Inv : list pystr -> Prop) :
  (forall filtered removed, Inv removed -> P (kwargs_of filtered removed)) ->
  (forall e attempted rejected removed,
     removable e attempted = inr rejected -> Inv removed -> Inv (removed ++ [rejected])) ->
  forall removed g, Inv removed ->
  wp (filtered_calls n kwargs_of complete removable l removed)
    (fun _ => calls_after (S n) P g) (fun _ => calls_after (S n) P g) g.
Proof.
  intros HP HInv. induction n as [|n IH]; intros removed g Hi; cbn [filtered_calls];
    (apply wp_bind, wp_get, wp_catch, wp_bind; unfold call_runtime;
     set (kwargs := kwargs_of (gs_filtered g) removed); set (attempted := _api_v1_attempted_generation_kwargs kwargs);
     assert (forall n g', gs_calls g' = gs_calls (add_call kwargs g) -> calls_after (S n) P g g') as Hone;
     [intros n' g' Hg; exists [kwargs]; split; [done|]; split; [simpl; lia|]; constructor; [by apply HP|constructor]|];
     unfold wp at 1; destruct (complete _ _ _) as [e|result];
     [|apply wp_bind, wp_modify, wp_ret; by apply Hone]).
  - destruct (removable e attempted); apply wp_raise; by apply Hone.
  - destruct (removable e attempted) as [e'|rejected] eqn:Hr; [apply wp_raise; by apply Hone|].
    apply wp_bind, wp_modify. set (g1 := set_filters _ _ _).
    assert (forall g', calls_after (S n) P g1 g' -> calls_after (S (S n)) P g g') as Hmore.
    { intros g' (new & Hc & Hl & Hf). exists (kwargs :: new). rewrite Hc. simpl. rewrite <- app_assoc.
      split; [done|]. split; [simpl; lia|]. constructor; [by apply HP|done]. }
    eapply wp_mono; [apply IH; by eapply HInv|..]; intros ? ?; apply Hmore.
Qed.

(** A dictionary that has every entry of another, [stream] apart *)
Definition carries (safe_options kwargs : jdict) : Prop :=
  jget kwargs "stream" = JBool false /\
  forall k v, dget safe_options k = Some v -> k <> "stream"%pystr -> dget kwargs k = Some v.

Lemma completion_kwargs_carry m filtered safe_options : nodup_keys safe_options ->
  carries safe_options (_api_v1_runtime_completion_kwargs m filtered safe_options).
Proof.
  intros Hnd. unfold _api_v1_runtime_completion_kwargs. cbv zeta. split; [by rewrite jget_dset|].
  intros k v Hk Hs. rewrite dget_dset_ne by done. apply dget_elem_of in Hk as Hin.
  apply (dget_fold_dset fst snd safe_options _ (k, v)); [done|]. intros [k' v'] Hin' Hk'. simpl in *. subst k'.
  apply (elem_of_dget _ _ _ Hnd) in Hin'. congruence.
Qed.

Lemma nodup_normalise options : forall acc normalised,
  nodup_keys acc -> normalise_options options acc = inr normalised -> nodup_keys normalised.
Proof.
  induction options as [|[key v] options IH]; intros acc normalised Hnd; cbn [normalise_options]; [by intros [= <-]|].
  case_bool_decide.
  - destruct v as [|[]| | | | |]; try done. by apply IH.
  - destruct (normalise_option key v); [|done]. apply IH. by apply nodup_dset.
Qed.

Lemma nodup_safe_options options safe_options :
  _api_v1_validate_and_normalise_options options = inr safe_options -> nodup_keys safe_options.
Proof.
  unfold _api_v1_validate_and_normalise_options. cbv zeta. destruct (_ ++ _); [|done].
  apply nodup_normalise. constructor.
Qed.

Lemma dget_bfilter_key {V} (q : pystr -> bool) (d : dict pystr V) k :
  dget (bfilter (fun kv => q kv.1) d) k = if q k then dget d k else None.
Proof.
  unfold bfilter. induction d as [|[k' v] d IH]; simpl; [by destruct (q k)|].
  destruct (q k') eqn:E; simpl; case_bool_decide as Hk; subst; rewrite ?E, ?IH; try done.
  by rewrite E.
Qed.

(** What a rendered prompt is completed with: the length limit, and no thinking *)
Definition rendered_call (model_profile : jdict) (effective : Z) (kwargs : jdict) : Prop :=
  jget kwargs "max_tokens" = JInt effective /\
  (_api_v1_qwen_non_thinking_required model_profile = true -> jget kwargs "enable_thinking" = JBool false).

Lemma profile_kwargs_other model_profile rest k :
  k ∉ ["token_place_provider"; "token_place_template_policy"]%pystr ->
  dget (profile_kwargs model_profile ++ rest) k = dget rest k.
Proof.
  rewrite !not_elem_of_cons. intros (Hp & Ht & _). unfold profile_kwargs.
  destruct (truthy (jget _ "provider")), (truthy (jget _ "chat_template_policy")); simpl;
    rewrite ?bool_decide_eq_false_2 by congruence; done.
Qed.

Lemma rendered_kwargs_call m safe_options effective filtered removed : nodup_keys safe_options ->
  dget safe_options "max_tokens" = Some (JInt effective) -> effective <> 0 -> "max_tokens"%pystr ∉ removed ->
  rendered_call (nm_model_profile m) effective (rendered_kwargs m safe_options filtered removed).
Proof.
  intros Hnd Hmax Hne Hrem. unfold rendered_call, rendered_kwargs. cbv zeta.
  destruct (completion_kwargs_carry m filtered _ Hnd) as [_ Hc].
  rewrite (jget_some _ _ _ (Hc _ _ Hmax ltac:(done))), (proj2 (Z.eqb_neq _ _) Hne).
  split.
  - unfold bfilter. cbn [app List.filter fst]. unfold is_removed at 1, pystr_in.
    rewrite bool_decide_eq_false_2 by done. rewrite (proj2 (dmem_true _ _)) by by eexists.
    by rewrite andb_false_r.
  - intros Hq. apply jget_some. rewrite Hq.
    rewrite (dget_bfilter_key (fun k => negb (is_removed true safe_options filtered removed k))).
    unfold is_removed at 1. rewrite (bool_decide_eq_true_2 (_ = _)) by done. rewrite andb_false_r. cbn [app negb].
    change (dget (profile_kwargs (nm_model_profile m) ++ [("enable_thinking"%pystr, JBool false)])
      "enable_thinking"%pystr = Some (JBool false)).
    by rewrite profile_kwargs_other by a_code.
Qed.

(** One completion of an admitted request: it reserves [effective] tokens; it keeps the
    client's options, or it is one of a rendered prompt without thinking. *)
Definition client_call (m : node_manager) (safe_options : jdict) (effective : Z) (kwargs : jdict) : Prop :=
  jget kwargs "max_tokens" = JInt effective /\
  if _api_v1_qwen_non_thinking_required (nm_model_profile m) then jget kwargs "enable_thinking" = JBool false
  else jget kwargs "stream" = JBool false /\
       forall k v, dget safe_options k = Some v -> k ∉ ["stream"; "max_tokens"]%pystr -> dget kwargs k = Some v.

Definition refusal_coded (r : refusal) : Prop := coded_error r.1.1.1.

Lemma removable_rendered_limit model_profile names e attempted rejected :
  removable_rendered model_profile names e attempted = inr rejected -> rejected <> "max_tokens"%pystr.
Proof.
  unfold removable_rendered. destruct (rejected_argument e attempted) as [r|]; [|done].
  destruct (_ && bool_decide (r = _)); [done|]. destruct (_ || _) eqn:Ho; [done|]. intros [= <-] ->.
  apply orb_false_iff in Ho as [_ Ho]. by vm_compute in Ho.
Qed.

Lemma complete_admitted_calls m llm l safe_options effective g : nodup_keys safe_options -> 0 < effective ->
  wp (complete_admitted m llm l (dset safe_options "max_tokens" (JInt effective)))
    (fun r g' => calls_after 4 (client_call m safe_options effective) g g' /\
                 match r with inl refused => refusal_coded refused | inr _ => True end)
    (fun _ g' => calls_after 4 (client_call m safe_options effective) g g') g.
Proof.
  intros Hnd Heff. unfold complete_admitted, client_call.
  assert (nodup_keys (dset safe_options "max_tokens" (JInt effective))) as Hnd' by by apply nodup_dset.
  assert (forall k v, dget safe_options k = Some v -> k ∉ ["stream"; "max_tokens"]%pystr ->
    dget (dset safe_options "max_tokens" (JInt effective)) k = Some v /\ k <> "stream"%pystr) as Hkeep.
  { intros k v Hk [Hs [Hm _]%not_elem_of_cons]%not_elem_of_cons. by rewrite dget_dset_ne. }
  destruct (_api_v1_qwen_non_thinking_required (nm_model_profile m)) eqn:Hq.
  - destruct (llm ≫= lr_from_rendered_prompt) as [complete|];
      [|apply wp_ret; split; [by apply no_calls|with_code]].
    destruct (py_sorted _ _); [|apply wp_ret; split; [by apply no_calls|with_code]].
    apply wp_bind. eapply wp_mono; [|intros ? ? Hc; apply wp_ret; split; [exact Hc|exact I]|intros ? ? Hc; exact Hc].
    apply (filtered_calls_wp 3 _ _ _ _ _ (fun removed => "max_tokens"%pystr ∉ removed)); [| |by apply not_elem_of_nil].
    + intros filtered removed Hr.
      edestruct (rendered_kwargs_call m _ effective filtered removed Hnd') as [Hl Ht];
        [apply dget_dset_eq|lia|done|]. split; [done|]. by apply Ht.
    + intros e attempted rejected removed Hrem%removable_rendered_limit Hr.
      rewrite not_elem_of_app, list_elem_of_singleton. split; [done|congruence].
  - destruct (match nm_with_recovery m with Some c => Some c | None => _ end) as [complete|];
      [|apply wp_ret; split; [by apply no_calls|done]].
    apply wp_bind. eapply wp_mono; [|intros ? ? Hc; apply wp_ret; split; [exact Hc|exact I]|intros ? ? Hc; exact Hc].
    apply (filtered_calls_wp 3 _ _ _ _ _ (fun _ => True)); [|done|done].
    intros filtered removed _. destruct (completion_kwargs_carry m filtered _ Hnd') as [Hs Hc].
    split; [apply jget_some, Hc; [apply dget_dset_eq|done]|]. split; [done|].
    intros k v Hk Hn. destruct (Hkeep k v Hk Hn) as [Hk' Hs']. by apply Hc.
Qed.

(** ** Admission *)

Definition active_window (m : node_manager) : Z := window_or m (default 0 (tier_tokens (active_tier m))).

(** The prompt and what is reserved for the answer fit the active window. *)
Definition within_window (m : node_manager) (b : token_budget) : Prop :=
  0 <= tb_prompt_tokens b /\ 0 < tb_effective_output_tokens b <= tb_requested_output_tokens b /\
  tb_prompt_tokens b + tb_effective_output_tokens b <= active_window m.

Lemma tokenized_nonneg tokenize prompt attempts n : tokenize_attempts tokenize prompt attempts = Some n -> 0 <= n.
Proof.
  induction attempts as [|a attempts IH]; simpl; [done|]. destruct (tokenize a prompt) as [v| |e]; [|done|done].
  destruct v; try done. intros [= <-]. apply zlen_nonneg.
Qed.

Lemma rendered_nonneg llm l enable_thinking model_profile err n err' :
  _api_v1_render_and_tokenize_chat_prompt llm l enable_thinking model_profile err = (Some n, err') -> 0 <= n.
Proof.
  unfold _api_v1_render_and_tokenize_chat_prompt. destruct (lr_render_and_tokenize_chat llm) as [call|]; [|done].
  destruct (call _ _) as [result| |e]; [|done|done].
  destruct (match result with JDict d => _ | v => v end) as [|[]|z| | | |]; try done.
  - by intros [= <- _].
  - by intros [= <- _].
  - destruct (0 <=? z) eqn:Hz; [|done]. apply Z.leb_le in Hz. by intros [= <- _].
Qed.

Lemma counted_nonneg llm l model_profile err n err' :
  count_prompt llm l model_profile err = (Some n, err') -> 0 <= n.
Proof.
  unfold count_prompt. destruct llm as [llm|]; [|done].
  destruct (_api_v1_render_and_tokenize_chat_prompt _ _ _ _ _) as [[k|] err1] eqn:Hr.
  - intros [= <- _]. by eapply rendered_nonneg.
  - destruct (_api_v1_render_chat_prompt _ _ _ _ _) as [[prompt|] err2]; [|done].
    unfold _api_v1_tokenize_rendered_prompt. destruct (lr_tokenize llm) as [tokenize|]; [|done].
    intros Ht%(f_equal fst). exact (tokenized_nonneg _ _ _ _ Ht).
Qed.

Lemma admission_cases m llm l output tier err :
  match (_api_v1_authoritative_context_admission m llm l output tier err).1 with
  | inr budget => within_window m budget /\ _active_context_tier_can_satisfy m tier = true
  | inl (error, _) => coded_error error
  end.
Proof.
  unfold _api_v1_authoritative_context_admission. cbv zeta.
  destruct (count_prompt _ _ _ _) as [[n|] err'] eqn:Hc; [|apply uncounted_error_coded].
  apply counted_nonneg in Hc. cbn [fst].
  destruct (_active_context_tier_can_satisfy m tier) eqn:Ht; [|apply counted_error_coded]. cbn [andb].
  destruct (0 <? _) eqn:He; [|apply counted_error_coded]. apply Z.ltb_lt in He. split; [|done].
  unfold within_window, budget_of, active_window in *. cbn in *. lia.
Qed.

(** ** The answer *)

(** An error of the node, or a message of an admitted request *)
Definition good_answer (m : node_manager) (request_id tier : pystr) (envelope : jdict) : Prop :=
  (exists error, envelope = error_envelope request_id error /\ coded_error error) \/
  (exists message finish_reason usage budget output_budget,
     envelope = message_envelope request_id message (Some finish_reason) usage (Some output_budget) /\
     within_window m budget /\ _active_context_tier_can_satisfy m tier = true /\
     assistant_message message /\ screened_for (nm_model_profile m) message).

(** No completion, or a few of an admitted request *)
Definition good_calls (m : node_manager) (tier : pystr) (safe_options : jdict) (g g' : gen_state) : Prop :=
  gs_calls g' = gs_calls g \/
  (exists budget, within_window m budget /\ _active_context_tier_can_satisfy m tier = true /\
     calls_after 4 (client_call m safe_options (tb_effective_output_tokens budget)) g g').

Lemma error_answer_good m rid tier error reason rejected retryable g :
  coded_error error -> good_answer m rid tier (error_answer m rid tier error reason rejected retryable g).
Proof.
  intros (c & Hc & Hin). left. eexists. split; [reflexivity|]. exists c. by rewrite enriched_code.
Qed.

Lemma failure_answer_good m rid tier e g :
  good_answer m rid tier (failure_answer m rid tier e g).2 /\ gs_calls (failure_answer m rid tier e g).1 = gs_calls g.
Proof.
  unfold failure_answer. destruct (_is_llama_cpp_inference_request_error e); cbn [fst snd].
  - split; [|done]. apply error_answer_good, request_error_coded.
  - split; [|done]. apply error_answer_good. destruct (bool_decide _); with_code.
Qed.

Lemma read_completion_good m rid tier budget completion g :
  within_window m budget -> _active_context_tier_can_satisfy m tier = true ->
  wp (read_completion m rid tier budget completion)
    (fun envelope g' => good_answer m rid tier envelope /\ g' = g) (fun _ _ => False) g.
Proof.
  intros Hb Ht. unfold read_completion.
  destruct (_assistant_message_from_runtime_completion (nm_model_profile m) completion) as [reason|message] eqn:Hm.
  - split; [|done]. apply error_answer_good. with_code.
  - apply wp_ret. split; [|done]. right. apply message_from_completion in Hm as [Hm Hs].
    by eexists message, _, _, budget, _.
Qed.

Lemma obtain_llm_calls m g :
  wp (obtain_llm m) (fun _ g' => gs_calls g' = gs_calls g) (fun _ g' => gs_calls g' = gs_calls g) g.
Proof.
  unfold obtain_llm, wp, bind, modify, lift_val, ret, raise.
  destruct (nm_get_llm_instance m) as [[e|[llm|]]|], (nm_with_recovery m),
    (nm_get_llm_instance_with_recovery m) as [[e'|llm']|]; done.
Qed.

Lemma answer_error_good m rid tier error reason rejected retryable g Q (R : runtime_exn -> gen_state -> Prop) :
  coded_error error -> (forall envelope, good_answer m rid tier envelope -> Q envelope g) ->
  wp (answer_error m rid tier error reason rejected retryable) Q R g.
Proof. intros He HQ. apply HQ. by apply error_answer_good. Qed.

Lemma good_calls_from m tier safe_options g g' g'' :
  gs_calls g' = gs_calls g -> good_calls m tier safe_options g' g'' -> good_calls m tier safe_options g g''.
Proof.
  unfold good_calls. intros Hg. rewrite Hg. intros [?|(b & ? & ? & Hc)]; [by left|]. right. exists b.
  split; [done|]. split; [done|]. by eapply calls_from.
Qed.

Lemma admit_and_complete_good m rid tier l safe_options llm g : nodup_keys safe_options ->
  wp (admit_and_complete m rid tier l safe_options llm)
    (fun envelope g' => good_answer m rid tier envelope /\ good_calls m tier safe_options g g')
    (fun _ g' => good_calls m tier safe_options g g') g.
Proof.
  intros Hnd. unfold admit_and_complete. apply wp_bind, wp_get. cbv zeta.
  set (output := match jget _ _ with JInt n => n | _ => 0 end).
  pose proof (admission_cases m llm l output tier (gs_render_error g)) as Ha.
  destruct (_api_v1_authoritative_context_admission _ _ _ _ _ _) as [[[error budget]|budget] err];
    cbn [fst] in Ha; apply wp_bind, wp_modify, wp_bind, wp_modify.
  - apply answer_error_good; [done|]. intros envelope He. split; [done|]. by left.
  - destruct Ha as [Hw Ht]. apply wp_bind.
    eapply wp_mono; [apply complete_admitted_calls; [done|apply Hw]| |].
    + intros r g' [Hc Hr]. assert (good_calls m tier safe_options g g') as Hg by (right; by exists budget).
      destruct r as [[[[error reason] rejected] retryable]|completion].
      * apply answer_error_good; [exact Hr|]. done.
      * eapply wp_mono; [by apply read_completion_good|intros envelope g'' [He ->]; done|done].
    + intros e g' Hc. right. by exists budget.
Qed.

Lemma runtime_answer_good m rid tier l safe_options g : nodup_keys safe_options ->
  wp (runtime_answer m rid tier l safe_options)
    (fun envelope g' => good_answer m rid tier envelope /\ good_calls m tier safe_options g g')
    (fun _ g' => good_calls m tier safe_options g g') g.
Proof.
  intros Hnd. unfold runtime_answer. apply wp_bind.
  eapply wp_mono; [apply obtain_llm_calls| |intros e g1 Hg; by left]. intros llm g1 Hg. cbn beta in Hg |- *.
  assert (wp (admit_and_complete m rid tier l safe_options llm)
    (fun envelope g' => good_answer m rid tier envelope /\ good_calls m tier safe_options g g')
    (fun _ g' => good_calls m tier safe_options g g') g1) as Hadmit.
  { eapply wp_mono; [by apply admit_and_complete_good|intros envelope g' [? ?]; split; [done|]|intros e g' ?];
      by eapply good_calls_from. }
  destruct llm as [llm|]; [exact Hadmit|destruct (nm_with_recovery m); [exact Hadmit|]].
  apply wp_bind, wp_modify, answer_error_good; [with_code|]. intros envelope He. split; [done|]. by left.
Qed.

Lemma answered_good m rid tier l safe_options g : nodup_keys safe_options ->
  good_answer m rid tier (answered m rid tier l safe_options g).2 /\
  good_calls m tier safe_options g (answered m rid tier l safe_options g).1.
Proof.
  intros Hnd. pose proof (runtime_answer_good m rid tier l safe_options g Hnd) as Hw. unfold answered, wp in *.
  destruct (runtime_answer m rid tier l safe_options g) as [g' [e|envelope]]; [|done].
  destruct (failure_answer_good m rid tier e g') as [Ha Hc]. split; [done|].
  destruct Hw as [Hg|(b & Hb & Ht & Hg)]; [left; congruence|]. right. exists b. split; [done|].
  split; [done|]. by eapply calls_then.
Qed.

(** ** Conversations that make Python raise *)

(** A block whose [type] is a list or a dictionary *)
Definition unhashable_block (message : json) : Prop :=
  exists m blocks d, message = JDict m /\ jget m "content" = JList blocks /\ JDict d ∈ blocks /\
    hashable (jget d "type") = None.

Lemma block_size_inl item e : block_size item = inl e ->
  exists d, item = JDict d /\ hashable (jget d "type") = None.
Proof.
  unfold block_size. destruct item as [| | | | | |d]; try done. destruct (has_other_keys _ d); [done|].
  destruct (hashable (jget d "type")) eqn:Hh; [done|]. intros _. by exists d.
Qed.

Lemma blocks_size_inl l e : forall chars bytes, blocks_size l chars bytes = inl e ->
  exists d, JDict d ∈ l /\ hashable (jget d "type") = None.
Proof.
  induction l as [|item l IH]; intros chars bytes; simpl; [done|].
  destruct (block_size item) as [e'|[[c b]|]] eqn:Hb; simpl; [|intros (d & Hd & Hh)%IH; exists d; split; [by right|done]|done].
  intros _. apply block_size_inl in Hb as (d & -> & Hh). exists d. split; [by left|done].
Qed.

Lemma validate_messages_inl l e : forall count index chars bytes,
  validate_messages count index chars bytes l = inl e -> exists message, message ∈ l /\ unhashable_block message.
Proof.
  induction l as [|message l IH]; intros count index chars bytes; cbn [validate_messages]; [done|].
  destruct (message_fault message) eqn:Hf; [done|].
  destruct (_api_v1_content_validation_size (content_of message)) as [e'|[[c b]|]] eqn:Hs; cbn [ebind]; [|cbv zeta|done].
  - intros _. exists message. split; [by left|]. apply message_fault_none in Hf as (m & role & -> & _). simpl in Hs.
    destruct (jget m "content") as [| | | | |blocks|] eqn:Hc; try done. simpl in Hs.
    destruct (_ || _); [done|]. apply blocks_size_inl in Hs as (d & Hd & Hh). by exists m, blocks, d.
  - destruct (_ <? _); [done|]. intros (x & Hx & Hu)%IH. exists x. split; [by right|done].
Qed.

Lemma segments_inr l sizes : Forall2 sized_block l sizes -> exists segments, text_segments l = inr segments.
Proof.
  induction 1 as [|item size l sizes Hb _ [segments IH]]; [by eexists|].
  destruct Hb as (d & ty & text & -> & _ & Hty & _). cbn [text_segments]. rewrite Hty. cbn [hashable].
  rewrite IH. by eexists.
Qed.

Lemma normalise_inr l sizes : Forall2 sized_message l sizes ->
  exists prepared, _normalise_api_v1_chat_messages l = inr prepared.
Proof.
  induction 1 as [|message size l sizes Hm _ [prepared IH]]; [by eexists|].
  destruct Hm as (m & role & -> & _ & _ & _ & _ & Hc). cbn [_normalise_api_v1_chat_messages].
  assert (exists content, _api_v1_stringify_content_blocks (jget m "content") = inr content) as [content ->].
  { destruct Hc as [(s & -> & _)|(blocks & bs & -> & _ & Hb & _)]; [by eexists|].
    cbn [_api_v1_stringify_content_blocks]. destruct (segments_inr _ _ Hb) as [segments ->]. by eexists. }
  rewrite IH. by eexists.
Qed.

(** ** Requests *)

(** The conversation, the model and the options are in order; [safe_options] is what the
    runtime gets of them. *)
Definition request_accepted (catalogue : option (list jdict)) (m : node_manager) (model_id : pystr) (l : list json)
  (options safe_options : jdict) : Prop :=
  (exists chars bytes, sized_conversation l chars bytes) /\
  _runtime_model_can_satisfy catalogue m model_id = true /\
  _api_v1_validate_and_normalise_options options = inr safe_options.

(** Refused before the runtime is looked at, or answered for an accepted request *)
Definition answer_of (catalogue : option (list jdict)) (m : node_manager) (request_id model_id tier : pystr)
  (l : list json) (options : jdict) (envelope : jdict) (g g' : gen_state) : Prop :=
  ((exists error, envelope = error_envelope request_id error /\ coded_error error) /\ gs_calls g' = gs_calls g) \/
  (exists safe_options, request_accepted catalogue m model_id l options safe_options /\
     good_answer m request_id tier envelope /\ good_calls m tier safe_options g g').

Lemma option_code options code name : forall acc, normalise_options options acc = inl (code, name) ->
  code = "compute_node_options_unsupported"%pystr \/ code = "compute_node_invalid_request"%pystr.
Proof.
  induction options as [|[key v] options IH]; intros acc; cbn [normalise_options]; [done|].
  case_bool_decide.
  - destruct v as [|[]| | | | |]; try apply IH; intros [= <- <-]; by left.
  - destruct (normalise_option key v); [apply IH|]. intros [= <- <-]. by right.
Qed.

Lemma rejection_code options code name :
  _api_v1_validate_and_normalise_options options = inl (code, name) ->
  code = "compute_node_options_unsupported"%pystr \/ code = "compute_node_invalid_request"%pystr.
Proof.
  unfold _api_v1_validate_and_normalise_options. cbv zeta. destruct (_ ++ _); [apply option_code|].
  intros [= <- _]. by left.
Qed.

Lemma generation_good catalogue m rid model_id l options tier g :
  wp (_generate_api_v1_response_with_runtime_model catalogue m rid model_id l options tier)
    (fun envelope g' => answer_of catalogue m rid model_id tier l options envelope g g')
    (fun _ g' => gs_calls g' = gs_calls g /\ exists message, message ∈ l /\ unhashable_block message) g.
Proof.
  unfold _generate_api_v1_response_with_runtime_model. apply wp_bind, wp_modify, wp_bind, wp_get, wp_bind.
  set (g1 := set_counts None None (set_health healthy g)).
  assert (forall r, refusal_coded r -> answer_of catalogue m rid model_id tier l options
    (refused m rid tier r g1) g g1) as Hrefused.
  { intros [[[error reason] rejected] retryable] (c & Hc & Hin). left. split; [|done].
    eexists. split; [reflexivity|]. exists c. by rewrite enriched_code. }
  apply wp_lift_val.
  { intros e He. split; [done|]. cbn [_validate_api_v1_chat_messages] in He. destruct (_ || _); [done|].
    by eapply validate_messages_inl. }
  intros r Hr. destruct (negb (valid r)) eqn:Hvalid.
  { apply wp_ret. left. split; [|done]. eexists. split; [reflexivity|]. apply validation_error_coded. }
  apply negb_false_iff in Hvalid.
  destruct (proj1 (validation_valid _ _) (conj Hr Hvalid)) as (? & chars & bytes & [= <-] & Hl & _).
  destruct (_runtime_model_can_satisfy catalogue m model_id) eqn:Hmodel; cbn [negb];
    [|apply wp_ret, Hrefused; with_code].
  destruct (_api_v1_validate_and_normalise_options options) as [[code name]|safe_options] eqn:Ho.
  { apply wp_ret, Hrefused. apply rejection_code in Ho as [-> | ->]; with_code. }
  assert (wp (let* runtime_messages := lift_val (_prepare_api_v1_runtime_messages model_id l) in
              fun g => let '(g', envelope) := answered m rid tier runtime_messages safe_options g in (g', inr envelope))
    (fun envelope g' => answer_of catalogue m rid model_id tier l options envelope g g')
    (fun (e : node_error) g' => gs_calls g' = gs_calls g /\ exists message, message ∈ l /\ unhashable_block message) g1) as Hrun.
  { apply wp_bind. destruct Hl as (Hlen & Hb & sizes & Hsizes & Hchars & Hbytes).
    destruct (normalise_inr _ _ Hsizes) as [prepared Hp].
    unfold _prepare_api_v1_runtime_messages. rewrite Hp. cbn [ebind].
    change (_api_v1_adapter_system_message model_id) with (@None jdict). cbn [lift_val]. apply wp_ret.
    destruct (answered_good m rid tier prepared safe_options g1) as [Ha Hc]; [by eapply nodup_safe_options|].
    unfold wp. destruct (answered m rid tier prepared safe_options g1) as [g' envelope]. right.
    exists safe_options. split; [|done]. split; [|done]. exists chars, bytes. split; [done|]. split; [done|]. by exists sizes. }
  destruct (nm_get_llm_instance m), (nm_with_recovery m); try exact Hrun. apply wp_ret, Hrefused. with_code.
Qed.
End answer.
