(* ===== verification/NodeWatch.v ===== *)
(** * The supervision of an inference

    However the outside changes between two looks at it, a supervision ends for a reason
    that holds, its deadline only comes nearer, its requests to the relay are short, and it
    ends once the clock has passed the deadline. *)

From S2P Require Import Prelude PyFloat PyStr PyDict PyText PyRegex Json Profiles NodeRequest.
From S2P Require Import NodeDiagnostics NodeOutput NodeGenerate NodeSupervise.
From Stdlib Require Import Floats.SpecFloat.
From stdpp Require Import relations.

(** ** Order of floats, infinities included *)

Lemma flt_trans_any x y z : flt x y = true -> flt y z = true -> flt x z = true.
Proof.
  destruct (is_finite x) eqn:Hx, (is_finite y) eqn:Hy, (is_finite z) eqn:Hz;
    try (by apply flt_trans); clear -Hx Hy Hz;
    destruct x as [|[]| |[] ? ?], y as [|[]| |[] ? ?], z as [|[]| |[] ? ?]; done.
Qed.

(** A nearer deadline is over when the farther one is. *)
Lemma nearer_over d d' t : is_finite t = true -> flt d' d = true -> fle d t = true -> fle d' t = true.
Proof.
  intros Ht Hd Hle. destruct (is_finite d) eqn:Fd, (is_finite d') eqn:Fd'.
  - apply (fle_trans d' d t); [done..| |done]. by apply flt_fle.
  - destruct d' as [|[]| |[] ? ?], d as [|[]| |[] ? ?], t as [|[]| |[] ? ?]; done.
  - destruct d' as [|[]| |[] ? ?], d as [|[]| |[] ? ?], t as [|[]| |[] ? ?]; done.
  - destruct d' as [|[]| |[] ? ?], d as [|[]| |[] ? ?], t as [|[]| |[] ? ?]; done.
Qed.

Lemma fmin_nearer x y : fmin x y = x \/ flt (fmin x y) x = true.
Proof. unfold fmin. destruct (flt y x) eqn:E; auto. Qed.

(** What is not above a bound stays so when it is made smaller. *)
Lemma fmin_below c x y : flt c x = false -> flt c (fmin x y) = false.
Proof.
  intros Hx. unfold fmin. destruct (flt y x) eqn:E; [|done]. destruct (flt c y) eqn:Ec; [|done].
  by rewrite (flt_trans_any _ _ _ Ec E) in Hx.
Qed.

Lemma fmin_bound c x : flt c (fmin x c) = false.
Proof. unfold fmin. destruct (flt c x) eqn:E; [apply flt_irrefl|done]. Qed.

(** Deadlines that only come nearer *)
Definition nearer : float64 -> float64 -> Prop := rtc (fun d d' => flt d' d = true).

Lemma nearer_fmin d0 d x : nearer d0 d -> nearer d0 (fmin d x).
Proof.
  intros Hd. destruct (fmin_nearer d x) as [->|Hx]; [done|]. eapply rtc_r; [exact Hd|exact Hx].
Qed.

Lemma nearer_is_over d d' t : is_finite t = true -> nearer d d' -> fle d t = true -> fle d' t = true.
Proof. intros Ht. induction 1 as [|a b c Hab _ IH]; [done|]. intros Ha. apply IH. by apply (nearer_over a). Qed.

Section watched.
Context `{!PyUnicode, !PyNumbers, !Watch}.

(** ** Why it ends *)
Section ends.
Context (local_deadline : float64) (future : node_error + jdict).

(** A deadline is over when the clock has reached it or next to nothing is left. *)
Definition over (d t : float64) : Prop := fle d t = true \/ fle (fmax f0 (fsub d t)) f0_002 = true.

(** The reason a supervision ends for *)
Inductive holds_reason : pystr -> pystr -> Prop :=
| because_stopped n : rd_stopped (watch n) = true -> holds_reason "operator_stop" "operator_stop"
| because_late n d : nearer local_deadline d -> over d (rd_time (watch n)) ->
    holds_reason "local_deadline" "local_deadline"
| because_failed e : future = inl e -> holds_reason "inference_failure" "inference_failure"
| because_forbidden k : control_result k = ControlForbidden ->
    holds_reason "owner_proof_failed" "owner_proof_failed"
| because_told k control reason : control_result k = ControlGives control ->
    dget _API_V1_TERMINAL_CONTROL_STATUS_MAP (control_status control) = Some reason ->
    holds_reason (control_status control) reason.

Definition exit_ok (e : sup_exit) : Prop :=
  match e with
  | Inferred envelope => future = inr envelope
  | Terminal status reason => holds_reason status reason
  | StillWatching => True
  end.

(** A request to the relay may take between a millisecond and four seconds. *)
Definition short_timeout (t : float64) : Prop := fle f0_001 t = true /\ fle t f4 = true.

Definition sup_ok (s : sup_state) : Prop :=
  nearer local_deadline (ss_deadline s) /\ Forall short_timeout (ss_controls s).

(** From a state that is in order, [m] leads to one, or ends for a reason. *)
Definition proper {A} (m : WM A) : Prop :=
  forall s, sup_ok s -> wp m (fun _ => sup_ok) (fun e s' => exit_ok e /\ sup_ok s') s.

(** What is proper is so from any state that is in order. *)
Ltac forget_state :=
  match goal with |- wp ?m _ _ ?s => let H := fresh in cut (proper m); [intros H; by apply H|] end.

Lemma proper_ret {A} (a : A) : proper (ret a).
Proof. by intros s Hs. Qed.

Lemma proper_raise {A} e : exit_ok e -> proper (raise (A := A) e).
Proof. by intros He s Hs. Qed.

Lemma proper_bind {A B} (m : WM A) (f : A -> WM B) : proper m -> (forall a, proper (f a)) -> proper (bind m f).
Proof.
  intros Hm Hf s Hs. apply wp_bind. eapply wp_mono; [by apply Hm| |done]. intros a s' Hs'. by apply Hf.
Qed.

Lemma proper_get {B} (f : sup_state -> WM B) :
  (forall s, sup_ok s -> wp (f s) (fun _ => sup_ok) (fun e s' => exit_ok e /\ sup_ok s') s) ->
  proper (bind get_state f).
Proof. intros Hf s Hs. apply wp_bind, wp_get. by apply Hf. Qed.

Lemma proper_modify f : (forall s, sup_ok s -> sup_ok (f s)) -> proper (modify f).
Proof. intros Hf s Hs. by apply Hf. Qed.

(** A look at the outside, and what is seen *)
Lemma proper_look {A B} (field : reading -> A) (f : A -> WM B) :
  (forall n, proper (f (field (watch n)))) -> proper (bind (look field) f).
Proof. intros Hf s Hs. apply wp_bind. unfold look, wp at 1. by apply Hf. Qed.

Lemma proper_terminal {A} reason : holds_reason reason reason -> proper (terminal (A := A) reason).
Proof. intros Hr. by apply proper_raise. Qed.

Lemma proper_stop_check : proper stop_check.
Proof.
  unfold stop_check. apply proper_look. intros n. destruct (rd_stopped (watch n)) eqn:Hs; [|apply proper_ret].
  apply proper_look. intros n'. destruct (rd_latched _); [apply proper_ret|].
  apply proper_terminal. by apply because_stopped with n.
Qed.

Lemma proper_deadline_check n : proper (deadline_check (rd_time (watch n))).
Proof.
  unfold deadline_check. apply proper_get. intros s Hs. destruct (fle _ _) eqn:Hd; [|by apply wp_ret].
  apply proper_terminal; [|done]. apply because_late with n (ss_deadline s); [apply Hs|by left].
Qed.

Lemma proper_inference_raised e : future = inl e -> proper inference_raised.
Proof.
  intros He. assert (proper (terminal (A := unit) "inference_failure")) as Hf.
  { apply proper_terminal. by apply because_failed with e. }
  unfold inference_raised. apply proper_get. intros s Hs. destruct (ss_control_future s) as [k|]; [|by apply Hf].
  forget_state.
  apply proper_look. intros n. destruct (rd_control_done _); [|done].
  destruct (control_result k) as [control| |] eqn:Hk; [|done|done].
  destruct (dget _ _) as [reason|] eqn:Hr; [|done]. apply proper_raise. by eapply because_told.
Qed.

Context (control_available : bool) (request_timeout : float64).

Lemma proper_inference_check : proper (inference_check future).
Proof.
  unfold inference_check. apply proper_look. intros n. destruct (rd_inference_done _); [|apply proper_ret].
  apply proper_bind; [apply proper_stop_check|]. intros _.
  destruct future as [e|envelope] eqn:Hf; [by eapply proper_inference_raised|by apply proper_raise].
Qed.

Lemma proper_await fuel : proper (await_control fuel).
Proof.
  induction fuel as [|fuel IH]; cbn [await_control]; [by apply proper_raise|].
  apply proper_look. intros n. destruct (rd_control_done _); [apply proper_ret|].
  apply proper_look. intros n'. destruct (rd_stopped (watch n')) eqn:Hs.
  - apply proper_terminal. by apply because_stopped with n'.
  - apply proper_look. intros k. apply proper_bind; [apply proper_deadline_check|]. by intros _.
Qed.

Lemma control_timeout_short remaining : short_timeout (control_timeout request_timeout remaining).
Proof.
  unfold control_timeout, fmax. set (t := fmin (fmin _ _) _).
  assert (flt f4 t = false) as Ht by (apply fmin_below, fmin_below, fmin_bound).
  destruct (flt f0_001 t) eqn:Hl; [|by vm_compute]. split; [by apply flt_fle|].
  assert (is_finite t = true) as Hfin.
  { clearbody t. destruct t as [|[]| |[] ? ?]; done. }
  destruct (fle t f4) eqn:Hle; [done|]. apply fle_false_flt in Hle; [congruence|done|done].
Qed.

Lemma proper_poll_after pause : proper (poll_after pause).
Proof.
  unfold poll_after. apply proper_look. intros n. by apply proper_modify.
Qed.

Lemma proper_control_failed : proper control_failed.
Proof.
  unfold control_failed. apply proper_bind; [by apply proper_modify|]. intros _. apply proper_look. intros n.
  apply proper_bind; [by apply proper_modify|]. intros _. by apply proper_modify.
Qed.

Lemma deadline_nearer d0 d payload now d' : nearer d0 d ->
  _api_v1_deadline_after_response d payload now = inr d' -> nearer d0 d'.
Proof.
  intros Hd. unfold _api_v1_deadline_after_response. destruct payload; try by intros [= <-].
  destruct (named_seconds _ _) as [e|[seconds|]]; [done| |]; intros [= <-]; [by apply nearer_fmin|done].
Qed.

Lemma proper_read_control k control : control_result k = ControlGives control -> proper (read_control control).
Proof.
  intros Hk. unfold read_control. apply proper_bind; [by apply proper_modify|]. intros _.
  apply proper_look. intros n. apply proper_get. intros s Hs.
  destruct (_api_v1_deadline_after_response _ _ _) as [e|d] eqn:Hd.
  { forget_state. apply proper_bind; [apply proper_control_failed|]. intros _. apply proper_ret. }
  apply wp_bind, wp_modify. assert (sup_ok (set_deadline d s)) as Hs'.
  { split; [|apply Hs]. eapply deadline_nearer; [apply Hs|exact Hd]. }
  forget_state.
  destruct (bool_decide _).
  - destruct (_api_v1_control_next_poll_seconds _);
      (apply proper_bind; [|intros _; apply proper_ret]); [apply proper_control_failed|apply proper_poll_after].
  - destruct (dget _ _) as [reason|] eqn:Hr.
    + apply proper_raise. by eapply because_told.
    + apply proper_bind; [apply proper_poll_after|intros _; apply proper_ret].
Qed.

Lemma proper_poll_control fuel : proper (poll_control request_timeout fuel).
Proof.
  unfold poll_control. apply proper_look. intros n. apply proper_get. intros s Hs. cbv zeta.
  destruct (fle _ f0_002) eqn:Hr.
  { apply proper_terminal; [|done]. apply because_late with n (ss_deadline s); [apply Hs|by right]. }
  set (k := default _ _). set (remaining := fmax _ _). clearbody k remaining. forget_state. clear s Hs Hr.
  apply proper_bind.
  { apply proper_modify. intros s [Hd Hc]. destruct (ss_control_future s); [done|]. split; [done|].
    cbn. apply Forall_app. split; [done|]. constructor; [apply control_timeout_short|constructor]. }
  intros _. apply proper_bind; [apply proper_await|]. intros _.
  destruct (control_result k) as [control| |] eqn:Hk.
  - apply proper_bind; [by apply proper_modify|]. intros _. apply proper_look. intros n'.
    destruct (rd_stopped (watch n')) eqn:Hs; [apply proper_terminal; by apply because_stopped with n'|].
    apply proper_look. intros n''. apply proper_bind; [apply proper_deadline_check|]. intros _.
    by eapply proper_read_control.
  - apply proper_bind; [by apply proper_modify|]. intros _. apply proper_terminal. by eapply because_forbidden.
  - apply proper_bind; [apply proper_control_failed|]. intros _. apply proper_ret.
Qed.

Lemma proper_end_of_turn : proper (end_of_turn future).
Proof.
  unfold end_of_turn. apply proper_look. intros _. apply proper_look. intros n.
  destruct (rd_woken _); [apply proper_ret|]. apply proper_look. intros n'.
  destruct (rd_inference_done _); [|apply proper_ret].
  destruct future as [e|envelope] eqn:Hf; [|by apply proper_raise].
  apply proper_terminal. by eapply because_failed.
Qed.

Lemma proper_turn fuel : proper (supervise_turn control_available future request_timeout fuel).
Proof.
  unfold supervise_turn. apply proper_look. intros n. apply proper_bind; [apply proper_stop_check|]. intros _.
  apply proper_bind; [apply proper_inference_check|]. intros _.
  apply proper_bind; [apply proper_deadline_check|]. intros _.
  apply proper_get. intros s Hs. forget_state. apply proper_bind.
  - destruct (_ && _); [apply proper_poll_control|apply proper_ret].
  - intros again. destruct again; [apply proper_ret|apply proper_end_of_turn].
Qed.

Lemma proper_loop fuel : proper (supervise_loop control_available future request_timeout fuel).
Proof.
  induction fuel as [|fuel IH]; cbn [supervise_loop]; [by apply proper_raise|].
  apply proper_bind; [apply proper_turn|]. by intros _.
Qed.
End ends.

(** ** That it ends *)
Section late.
Context (future : node_error + jdict) (control_available : bool) (request_timeout : float64) (N : nat).

(** From the [N]th reading on the deadline is over. *)
Definition late_by_N (s : sup_state) : Prop :=
  forall n, (N <= n)%nat -> is_finite (rd_time (watch n)) = true /\ fle (ss_deadline s) (rd_time (watch n)) = true.

(** The looks that were taken, while the deadline only came nearer *)
Definition later (n : nat) (s s' : sup_state) : Prop := (ss_looks s + n <= ss_looks s')%nat /\ late_by_N s'.

Lemma later_trans n n' s s' s'' : later n s s' -> later n' s' s'' -> later (n + n') s s''.
Proof. unfold later. intros [? ?] [? ?]. split; [lia|done]. Qed.

(** [m] takes [n] looks at least or ends, and not for want of fuel. *)
Definition ending (n : nat) {A} (m : WM A) (s : sup_state) : Prop :=
  wp m (fun _ => later n s) (fun e _ => e <> StillWatching) s.

Lemma ending_ret n {A} (a : A) s : late_by_N s -> n = 0%nat -> ending n (ret a) s.
Proof. intros Hs ->. split; [lia|done]. Qed.

Lemma ending_raise n {A} e s : e <> StillWatching -> ending n (raise (A := A) e) s.
Proof. done. Qed.

Lemma ending_bind n n' {A B} (m : WM A) (f : A -> WM B) s :
  ending n m s -> (forall a s', later n s s' -> ending n' (f a) s') -> ending (n + n') (bind m f) s.
Proof.
  intros Hm Hf. apply wp_bind. eapply wp_mono; [exact Hm| |done]. intros a s' Hs'.
  eapply wp_mono; [by apply Hf| |done]. intros b s'' Hs''. exact (later_trans _ _ _ _ _ Hs' Hs'').
Qed.

Lemma ending_weaken n n' {A} (m : WM A) s : (n' <= n)%nat -> ending n m s -> ending n' m s.
Proof.
  intros Hn Hm. eapply wp_mono; [exact Hm| |done]. intros a s' [? ?]. split; [lia|done].
Qed.

(** A step that takes no look *)
Lemma ending_modify n {B} f (m : WM B) s :
  ss_looks (f s) = ss_looks s -> ending n m (f s) -> ending n (modify f ;;; m) s.
Proof.
  intros Hl Hm. apply wp_bind, wp_modify. eapply wp_mono; [exact Hm| |done].
  intros b s' [Hn Hs']. split; [lia|done].
Qed.

Lemma ending_modify_last f s : late_by_N (f s) -> ss_looks (f s) = ss_looks s -> ending 0 (modify f) s.
Proof. intros Hs Hl. split; [lia|done]. Qed.

Lemma ending_look n {A B} (field : reading -> A) (f : A -> WM B) s : late_by_N s ->
  (late_by_N (look_once s) -> ending n (f (field (watch (ss_looks s)))) (look_once s)) ->
  ending (S n) (bind (look field) f) s.
Proof.
  intros Hs Hf. apply wp_bind. unfold look, wp at 1. eapply wp_mono; [by apply Hf| |done].
  intros b s' [Hl Hs']. split; [simpl in Hl; lia|done].
Qed.

(** A check of a reading after the [N]th ends the supervision. *)
Lemma ending_deadline n {A} k (f : unit -> WM A) s : late_by_N s ->
  ((k < N)%nat -> ending n (f tt) s) -> ending n (bind (deadline_check (rd_time (watch k))) f) s.
Proof.
  intros Hs Hf. apply wp_bind. unfold deadline_check. apply wp_bind, wp_get.
  destruct (fle _ _) eqn:Hd; [done|]. apply wp_ret, Hf. destruct (decide (N <= k)%nat) as [Hk|]; [|lia].
  destruct (Hs k Hk) as [_ Hle]. congruence.
Qed.

Lemma ending_stop_check s : late_by_N s -> ending 1 stop_check s.
Proof.
  intros Hs. unfold stop_check. apply ending_look; [done|]. intros Hs'. destruct (rd_stopped _); [|by apply ending_ret].
  apply (ending_weaken 1); [lia|]. apply ending_look; [done|]. intros Hs''.
  destruct (rd_latched _); [by apply ending_ret|done].
Qed.

Lemma ending_inference_raised s : ending 0 inference_raised s.
Proof.
  unfold inference_raised. apply wp_bind, wp_get. destruct (ss_control_future s) as [k|]; [|done].
  apply wp_bind. unfold look, wp at 1.
  destruct (rd_control_done _), (control_result k) as [control| |]; try done. by destruct (dget _ _).
Qed.

Lemma ending_inference_check s : late_by_N s -> ending 1 (inference_check future) s.
Proof.
  intros Hs. unfold inference_check. apply ending_look; [done|]. intros Hs'.
  destruct (rd_inference_done _); [|by apply ending_ret].
  apply (ending_weaken (1 + 0)); [lia|]. apply ending_bind; [by apply ending_stop_check|]. intros _ s' _.
  destruct future; [apply ending_inference_raised|done].
Qed.

Lemma ending_await fuel : forall s, late_by_N s -> (0 < fuel)%nat -> (N < ss_looks s + fuel)%nat ->
  ending 1 (await_control fuel) s.
Proof.
  induction fuel as [|fuel IH]; intros s Hs Hf HN; [lia|]. cbn [await_control]. apply ending_look; [done|].
  intros Hs1. destruct (rd_control_done _); [by apply ending_ret|].
  apply (ending_weaken 1); [lia|]. apply ending_look; [done|]. intros Hs2. destruct (rd_stopped _); [done|].
  apply (ending_weaken 1); [lia|]. apply ending_look; [done|]. intros Hs3.
  apply ending_deadline; [done|]. intros Hk. simpl in Hk. apply (ending_weaken 1); [lia|]. apply IH; [done|..]; simpl; lia.
Qed.

Lemma ending_poll_after pause s : late_by_N s -> ending 1 (poll_after pause) s.
Proof.
  intros Hs. unfold poll_after. apply ending_look; [done|]. intros Hs'. by apply ending_modify_last.
Qed.

Lemma ending_control_failed s : late_by_N s -> ending 1 control_failed s.
Proof.
  intros Hs. unfold control_failed. apply ending_modify; [done|]. apply ending_look; [done|]. intros Hs'.
  apply ending_modify; [done|]. by apply ending_modify_last.
Qed.

Lemma late_nearer d s : late_by_N s -> nearer (ss_deadline s) d -> late_by_N (set_deadline d s).
Proof. intros Hs Hd n Hn. destruct (Hs n Hn) as [Hf Hle]. split; [done|]. by eapply nearer_is_over. Qed.

(** Two steps, of which the second takes no look *)
Lemma ending_then_ret n {A B} (m : WM A) (b : B) s : ending n m s -> ending n (m ;;; ret b) s.
Proof.
  intros Hm. rewrite <- (Nat.add_0_r n). apply ending_bind; [done|]. intros _ s' [_ Hs']. by apply ending_ret.
Qed.

Lemma ending_read_control control s : late_by_N s -> ending 1 (read_control control) s.
Proof.
  intros Hs. unfold read_control. apply ending_modify; [done|]. apply ending_look; [done|]. intros Hs1.
  apply wp_bind, wp_get. destruct (_api_v1_deadline_after_response _ _ _) as [e|d] eqn:Hd.
  { apply (ending_weaken 1); [lia|]. by apply ending_then_ret, ending_control_failed. }
  apply ending_modify; [done|]. apply deadline_nearer with (d0 := ss_deadline (look_once (set_backoff f1 s))) in Hd;
    [|apply rtc_refl].
  pose proof (late_nearer _ _ Hs1 Hd) as Hs2. apply (ending_weaken 1); [lia|].
  destruct (bool_decide _).
  - destruct (_api_v1_control_next_poll_seconds _);
      apply ending_then_ret; [by apply ending_control_failed|by apply ending_poll_after].
  - destruct (dget _ _); [done|]. by apply ending_then_ret, ending_poll_after.
Qed.

(** One look at the clock comes first, so there is fuel for the request's. *)
Lemma ending_poll_control fuel s : late_by_N s -> (0 < fuel)%nat -> (N < ss_looks s + fuel)%nat ->
  ending 1 (poll_control request_timeout fuel) s.
Proof.
  intros Hs Hf HN. unfold poll_control. apply ending_look; [done|]. intros Hs1. apply wp_bind, wp_get. cbv zeta.
  destruct (fle _ f0_002); [done|]. set (k := default _ _). set (remaining := fmax _ _).
  set (start := fun s => _). apply ending_modify; [by unfold start; destruct (ss_control_future _)|].
  assert (late_by_N (start (look_once s))) as Hs2.
  { intros n Hn. destruct (Hs1 n Hn) as [Ht Hd]. split; [done|]. unfold start.
    by destruct (ss_control_future _). }
  assert (ss_looks (start (look_once s)) = S (ss_looks s)) as Hl by by unfold start; destruct (ss_control_future _).
  clearbody k remaining start. apply (ending_weaken (1 + 0)); [lia|].
  apply ending_bind; [apply ending_await; [done|done|lia]|]. intros _ s3 [_ Hs3].
  destruct (control_result k) as [control| |]; [|apply ending_modify; [done|]; done|].
  - apply ending_modify; [done|]. apply (ending_weaken 1); [lia|]. apply ending_look; [done|]. intros Hs4.
    destruct (rd_stopped _); [done|]. apply (ending_weaken 1); [lia|]. apply ending_look; [done|]. intros Hs5.
    apply ending_deadline; [done|]. intros _. apply (ending_weaken 1); [lia|]. by apply ending_read_control.
  - apply (ending_weaken 1); [lia|]. by apply ending_then_ret, ending_control_failed.
Qed.

Lemma ending_end_of_turn s : late_by_N s -> ending 1 (end_of_turn future) s.
Proof.
  intros Hs. unfold end_of_turn. apply ending_look; [done|]. intros Hs1. apply (ending_weaken 1); [lia|].
  apply ending_look; [done|]. intros Hs2. destruct (rd_woken _); [by apply ending_ret|].
  apply (ending_weaken 1); [lia|]. apply ending_look; [done|]. intros Hs3.
  destruct (rd_inference_done _); [|by apply ending_ret]. by destruct future.
Qed.

(** A turn that begins before the [N]th look *)
Lemma ending_turn fuel s : late_by_N s -> (ss_looks s < N)%nat -> (N <= ss_looks s + fuel)%nat ->
  ending 1 (supervise_turn control_available future request_timeout fuel) s.
Proof.
  intros Hs Hn HN. unfold supervise_turn. apply ending_look; [done|]. intros Hs1.
  apply (ending_weaken (1 + (1 + 0))); [lia|]. apply ending_bind; [by apply ending_stop_check|].
  intros _ s2 [Hl2 Hs2]. apply ending_bind; [by apply ending_inference_check|]. intros _ s3 [Hl3 Hs3].
  simpl in Hl2, Hl3. apply ending_deadline; [done|]. intros _. apply wp_bind, wp_get.
  apply (ending_bind 0 0).
  - destruct (_ && _); [|by apply ending_ret]. apply (ending_weaken 1); [lia|].
    apply ending_poll_control; [done|lia|lia].
  - intros again s4 [_ Hs4]. destruct again; [by apply ending_ret|]. apply (ending_weaken 1); [lia|].
    by apply ending_end_of_turn.
Qed.

(** One that begins after it does not get past its first check of the deadline. *)
Lemma last_turn fuel s : late_by_N s -> (N <= ss_looks s)%nat ->
  wp (supervise_turn control_available future request_timeout fuel) (fun _ _ => False)
    (fun e _ => e <> StillWatching) s.
Proof.
  intros Hs HN. unfold supervise_turn. apply wp_bind. unfold clock, look, wp at 1. apply wp_bind.
  eapply wp_mono; [apply ending_stop_check; exact Hs| |done]. intros _ s2 [_ Hs2]. apply wp_bind.
  eapply wp_mono; [by apply ending_inference_check| |done]. intros _ s3 [_ Hs3]. apply wp_bind.
  unfold deadline_check. apply wp_bind, wp_get. destruct (Hs3 _ HN) as [_ Hle]. by rewrite Hle.
Qed.

Lemma ending_loop fuel : forall s, late_by_N s -> (0 < fuel)%nat -> (N < ss_looks s + fuel)%nat ->
  wp (supervise_loop control_available future request_timeout fuel) (fun _ _ => False)
    (fun e _ => e <> StillWatching) s.
Proof.
  induction fuel as [|fuel IH]; intros s Hs Hf HN; [lia|]. cbn [supervise_loop]. apply wp_bind.
  destruct (decide (N <= ss_looks s)%nat) as [Hn|Hn].
  - eapply wp_mono; [by apply last_turn|done|done].
  - eapply wp_mono; [apply ending_turn; [done|lia|lia]| |done]. intros _ s' [Hl Hs']. apply IH; [done|lia|lia].
Qed.
End late.

(** ** The outcome *)

(** What the supervisor leaves when it ends a request for [reason]: no answer, the worker
    ended, the relay's word acknowledged *)
Definition terminated (t : teardown) (status reason : pystr) (so : _ApiV1SupervisorOutcome)
  (actions : list sup_action) : Prop :=
  so_response_envelope so = None /\ so_submission_allowed so = false /\ so_terminal_code so = Some reason /\
  (exists rest, actions = TerminateWorker reason (negb (bool_decide (status = "operator_stop"%pystr))) :: rest) /\
  (Acknowledge ∈ actions <-> status ∈ ["cancelled"; "expired"]%pystr) /\
  (StopPolling ∈ actions <-> td_quiesced t = false) /\
  (so_runtime_healthy so = true ->
     td_replaced t (negb (bool_decide (status = "operator_stop"%pystr))) = Some true /\ td_quiesced t = true).

Lemma terminal_outcome_terminated t status reason :
  terminated t status reason (terminal_outcome t status reason).1 (terminal_outcome t status reason).2.
Proof.
  unfold terminated, terminal_outcome. cbn [fst snd so_response_envelope so_submission_allowed so_terminal_code
    so_runtime_healthy]. set (recreate := negb _).
  split; [done|]. split; [done|]. split; [done|]. split; [by eexists|]. unfold pystr_in.
  split; [|split].
  - rewrite !elem_of_app, list_elem_of_singleton. case_bool_decide as Hs.
    + split; [done|]. intros _. right. left. by left.
    + split; [|done]. intros [?|[?%elem_of_nil|?]]; [done|done|]. destruct (td_quiesced t);
        [by apply elem_of_nil in H2|by apply list_elem_of_singleton in H2].
  - rewrite !elem_of_app, list_elem_of_singleton. destruct (td_quiesced t).
    + split; [|done]. intros [?|[?|?%elem_of_nil]]; [done| |done]. case_bool_decide;
        [by apply list_elem_of_singleton in H2|by apply elem_of_nil in H2].
    + split; [done|]. intros _. right. right. by left.
  - intros [[Hr Hq]%andb_true_iff _]%andb_true_iff. split; [|done].
    by destruct (td_replaced t recreate) as [[]|].
Qed.

Definition no_credential_outcome : _ApiV1SupervisorOutcome :=
  MkOutcome None (Some "missing_control_credential"%pystr) true false false false.

(** How a supervision may come out *)
Definition supervised (local_deadline : float64) (future : node_error + jdict) (t : teardown)
  (so : _ApiV1SupervisorOutcome) (actions : list sup_action) : Prop :=
  (so = no_credential_outcome /\ actions = []) \/
  (exists envelope, future = inr envelope /\ so_response_envelope so = Some envelope /\
     so_submission_allowed so = true /\ actions = []) \/
  (exists status reason, holds_reason local_deadline future status reason /\ terminated t status reason so actions).

Lemma supervision_run control_available future request_timeout fuel local_deadline :
  match supervise_loop control_available future request_timeout fuel
          (supervision_start control_available local_deadline) with
  | (s, inl e) => exit_ok local_deadline future e /\ sup_ok local_deadline s
  | (s, inr _) => sup_ok local_deadline s
  end.
Proof.
  pose proof (proper_loop local_deadline future control_available request_timeout fuel
    (supervision_start control_available local_deadline)) as Hp.
  unfold wp in Hp. destruct (supervise_loop _ _ _ _ _) as [s [e|u]]; apply Hp; split; try apply rtc_refl; constructor.
Qed.

Lemma supervision_outcome fuel control_available has_credential local_deadline request_timeout future health t so actions :
  _supervise_api_v1_inference fuel control_available has_credential local_deadline request_timeout future health t
    = Some (so, actions) -> supervised local_deadline future t so actions.
Proof.
  unfold _supervise_api_v1_inference, supervised.
  destruct (control_available && negb has_credential); [intros [= <- <-]; by left|].
  pose proof (supervision_run control_available future request_timeout fuel local_deadline) as Hrun.
  destruct (supervise_loop _ _ _ _ _) as [s [[envelope|status reason|]|u]]; cbn [snd]; try done.
  - intros [= <- <-]. right. left. exists envelope. by destruct Hrun as [He _].
  - intros Hso%(inj Some). right. right. exists status, reason. split; [apply Hrun|].
    pose proof (terminal_outcome_terminated t status reason) as Ht. by rewrite Hso in Ht.
Qed.

Lemma supervision_completes N fuel control_available has_credential local_deadline request_timeout future health t :
  (forall n, (N <= n)%nat -> is_finite (rd_time (watch n)) = true /\ fle local_deadline (rd_time (watch n)) = true) ->
  (N < fuel)%nat ->
  is_Some (_supervise_api_v1_inference fuel control_available has_credential local_deadline request_timeout future health t).
Proof.
  intros HN Hf. unfold _supervise_api_v1_inference. destruct (_ && _); [by eexists|].
  pose proof (ending_loop future control_available request_timeout N fuel
    (supervision_start control_available local_deadline)) as He.
  unfold wp in He. destruct (supervise_loop _ _ _ _ _) as [s [[envelope|status reason|]|u]]; try by eexists.
  - exfalso. by apply He; [|lia|destruct control_available; simpl; lia|].
  - exfalso. apply He; [done|lia|destruct control_available; simpl; lia].
Qed.
End watched.
