(* ===== verification/NodeServe.v ===== *)
(** * What a compute node posts

    One work item leads to one post at most: its body is encrypted for the key the request
    names, and what is encrypted is the answer to the very request that was decrypted. *)

From S2P Require Import Prelude PyFloat PyStr PyDict PyText PyRegex Json JsonText Base64.
From S2P Require Import Encrypt CryptoManager Profiles Catalog NodeRequest NodeDiagnostics NodeOutput.
From S2P Require Import NodeGenerate NodeSupervise NodeProcess NodeChecks NodeScreen NodeAnswer NodeWatch.
From S2P Require Import Moderation Config Provider ProviderSound ProviderHonest.

Section serve.
Context `{!PyUnicode, !PyWords, !Cryptography, !FloatRepr, !PyNumbers, !NodeNet}.
Context (setup : node_setup).

Definition envelope_keys : list pystr := ["chat_history"; "cipherkey"; "iv"]%pystr.

(** The dictionary of a post that holds the envelope: its chunk, if it has one *)
Definition posted_body (p : posted) : jdict :=
  match po_payload p with
  | JDict d => match jget d "chunk" with JDict chunk => chunk | _ => d end
  | _ => []
  end.

(** A post of [content], encrypted for a key *)
Definition sealed_post (client_pub_key : list byte) (content : json) (p : posted) : Prop :=
  exists n n' env, encrypt_message (MValue content) (PyBytes client_pub_key) n = (n', inr env) /\
    forall k, k ∈ envelope_keys -> jget (posted_body p) k = jget env k.

(** At most one post, one of [P]; [ok] only if the relay took it *)
Definition sent (P : posted -> Prop) (s s' : node_state) (ok : bool) : Prop :=
  (ns_posts s' = ns_posts s /\ ok = false) \/
  (exists p, ns_posts s' = ns_posts s ++ [p] /\ P p /\
     (ok = true -> exists text, post_reply (ns_posts s') = Replied_with 200 text)).

Lemma sent_mono (P Q : posted -> Prop) s s' ok : (forall p, P p -> Q p) -> sent P s s' ok -> sent Q s s' ok.
Proof. intros HPQ [?|(p & ? & ? & ?)]; [by left|]. right. exists p. auto. Qed.

Lemma sent_false P s s' ok : sent P s s' ok -> sent P s s' false.
Proof. intros [[? _]|(p & ? & ? & _)]; [by left|]. right. by exists p. Qed.

Lemma sent_from P s s1 s' ok : ns_posts s1 = ns_posts s -> sent P s1 s' ok -> sent P s s' ok.
Proof. unfold sent. by intros ->. Qed.

Lemma wp_seal m key s :
  wp (seal m key)
    (fun env s' => ns_posts s' = ns_posts s /\ exists n n', encrypt_message m (PyBytes key) n = (n', inr env))
    (fun _ s' => ns_posts s' = ns_posts s) s.
Proof.
  unfold wp, seal. destruct (encrypt_message m (PyBytes key) (ns_draws s)) as [n' [e|env]] eqn:He; [done|].
  split; [done|]. by eexists _, _.
Qed.

(** A post whose exceptions are not caught *)
Lemma wp_post (P : posted -> Prop) url payload s :
  P (MkPosted url payload (nd_request_timeout setup) (_auth_headers setup)) ->
  wp (post_or_raise setup url payload)
    (fun reply s' => sent P s s' (reply.1 =? 200)) (fun _ s' => sent P s s' false) s.
Proof.
  intros HP. unfold post_or_raise. apply wp_bind. unfold wp at 1, post. cbv zeta. set (s' := add_post _ s).
  assert (forall ok, (ok = true -> exists text, post_reply (ns_posts s') = Replied_with 200 text) -> sent P s s' ok) as Hsent.
  { intros ok Hok. right. by eexists. }
  destruct (post_reply (ns_posts s')) as [status text| | |] eqn:Hr; try (apply wp_raise; by apply Hsent).
  apply wp_ret, Hsent. cbn [fst]. intros ->%Z.eqb_eq. by exists text.
Qed.

(** What is posted holds the envelope, between the fields around it. *)
Lemma merged_envelope d env m key n n' : encrypt_message m key n = (n', inr env) ->
  (forall k, k ∈ envelope_keys -> jget (merged d env) k = jget env k) /\
  jget (merged d env) "chunk" = jget d "chunk".
Proof.
  intros (ct & ck & iv & ->)%encrypt_message_shape. unfold merged. cbn [fold_left fst snd envelope]. split.
  - intros k Hk. rewrite !jget_dset.
    repeat (apply elem_of_cons in Hk as [->|Hk]; [done|]). by apply elem_of_nil in Hk.
  - by rewrite !jget_dset.
Qed.

Lemma sealed_merged content pub d env n n' url :
  encrypt_message (MValue content) (PyBytes pub) n = (n', inr env) -> jget d "chunk" = JNull ->
  sealed_post pub content
    (MkPosted url (JDict (merged d env)) (nd_request_timeout setup) (_auth_headers setup)).
Proof.
  intros He Hd. exists n, n', env. split; [done|]. destruct (merged_envelope d env _ _ _ _ He) as [Hk Hc].
  unfold posted_body. cbn [po_payload]. rewrite Hc, Hd. done.
Qed.

(** ** Responses of API v1 *)

(** A response that was posted under API v1 *)
Definition api_v1_post (envelope : jdict) (key : pystr) (pub : list byte) (p : posted) : Prop :=
  po_url p = _build_api_v1_url (_api_v1_response_relay_url setup) "/relay/responses" /\
  jget (posted_body p) "request_id" = jget envelope "request_id" /\
  sealed_post pub (JDict (dset envelope "client_public_key" (JStr key))) p.

Lemma response_sent envelope key pub deadline g s :
  wp (_post_api_v1_response setup envelope key pub deadline g)
    (fun o s' => sent (api_v1_post envelope key pub) s s' (submitted o)) (fun _ _ => False) s.
Proof.
  unfold _post_api_v1_response. destruct (gd_latched g); [by apply wp_ret; left|]. apply wp_try_except.
  unfold send_api_v1_response. apply wp_bind. eapply wp_mono; [apply wp_seal| |].
  - intros env s1 [Hs1 (n & n' & He)]. cbv zeta. destruct (_ || _); [by apply wp_ret; left|].
    apply wp_bind. eapply wp_mono; [apply (wp_post (api_v1_post envelope key pub))| |].
    + split; [done|]. split; [|by eapply sealed_merged].
      apply encrypt_message_shape in He as (ct & ck & iv & ->). done.
    + intros [status text] s2 Hs2. apply wp_ret. cbn [submitted]. by eapply sent_from.
    + intros e s2 Hs2. apply wp_ret. by eapply sent_from.
  - intros e s1 Hs1. by apply wp_ret; left.
Qed.

(** ** Work items *)
Context `{!Watch} (su : surroundings).

(** What the node answers to a decrypted document, for a key *)
Definition response_content (document : json) (key : pystr) (g : gen_state) (content : json) : Prop :=
  (exists payload envelope g', _extract_api_v1_request_payload document key = inr (Some payload) /\
     content = JDict (dset envelope "client_public_key" (JStr key)) /\
     answer_of (su_catalogue su) (su_manager su) (ap_request_id payload) (ap_model payload)
       (ap_context_tier payload) (ap_messages payload) (ap_options payload) envelope g g') \/
  (exists chat_history, _extract_api_v1_request_payload document key = inr None /\
     _extract_chat_history_and_validate_key_binding document key = Some chat_history /\
     su_respond su chat_history = inr content).

(** A post that answers the document for the key *)
Definition answers_document (document : json) (key : pystr) (pub : list byte) (g : gen_state) (p : posted) : Prop :=
  exists content, response_content document key g content /\ sealed_post pub content p.

(** A result that says what has happened *)
Definition told (r : RelayProcessingResult) : Prop :=
  pr_inference_succeeded r = true -> pr_submitted r = true /\ pr_safe_error_code r = None.

Definition served (P : posted -> Prop) (s s' : node_state) (r : RelayProcessingResult) : Prop :=
  told r /\ sent P s s' (pr_submitted r).

Lemma served_nothing P s s' r : ns_posts s' = ns_posts s -> pr_inference_succeeded r = false ->
  pr_submitted r = false -> served P s s' r.
Proof. intros Hs Hi Hr. split; [by intros Hi'; rewrite Hi' in Hi|]. by left. Qed.

Lemma submit_answer_served so envelope key pub deadline s :
  wp (submit_answer setup su so envelope key pub deadline)
    (fun r s' => served (api_v1_post envelope key pub) s s' r) (fun _ _ => False) s.
Proof.
  unfold submit_answer. cbv zeta. set (code := envelope_error_code envelope).
  destruct (_ || gd_cancelled (su_before su)); [by apply wp_ret, served_nothing|].
  apply wp_bind. eapply wp_mono; [apply response_sent| |done]. intros o s' Hs'. cbn beta.
  assert (forall code healthy allowed,
    served (api_v1_post envelope key pub) s s' (supervised_result so false false code healthy allowed)) as Hnot.
  { intros c h a. split; [done|]. cbn [pr_submitted supervised_result]. exact (sent_false _ _ _ _ Hs'). }
  destruct (suppressed o); [by apply wp_ret|]. destruct (_ && _); [by apply wp_ret|]. apply wp_ret.
  split; [|done]. unfold told. cbn. by destruct code.
Qed.

Lemma infer_answer payload g :
  match infer su payload g with
  | (g', inr envelope) => answer_of (su_catalogue su) (su_manager su) (ap_request_id payload) (ap_model payload)
       (ap_context_tier payload) (ap_messages payload) (ap_options payload) envelope g g'
  | _ => True
  end.
Proof.
  unfold infer. pose proof (generation_good (su_catalogue su) (su_manager su) (ap_request_id payload)
    (ap_model payload) (ap_messages payload) (ap_options payload) (ap_context_tier payload) g) as Hw.
  unfold wp in Hw. by destruct (_generate_api_v1_response_with_runtime_model _ _ _ _ _ _ _ g) as [g' [e|envelope]].
Qed.

Lemma process_api_v1_served document payload key pub deadline s :
  _extract_api_v1_request_payload document key = inr (Some payload) ->
  wp (process_api_v1 setup su payload key pub deadline)
    (fun r s' => served (answers_document document key pub (ns_gen s)) s s' r)
    (fun _ s' => ns_posts s' = ns_posts s) s.
Proof.
  intros Hx. unfold process_api_v1. apply wp_bind, wp_get. pose proof (infer_answer payload (ns_gen s)) as Hi.
  destruct (infer su payload (ns_gen s)) as [g future]. apply wp_bind, wp_modify.
  destruct (_supervise_api_v1_inference _ _ _ _ _ _ _ _) as [[so actions]|] eqn:Hsup; [|done].
  apply supervision_outcome in Hsup.
  destruct (so_response_envelope so) as [envelope|] eqn:He; [|by apply wp_ret, served_nothing].
  assert (future = inr envelope) as ->.
  { destruct Hsup as [[-> _]|[(envelope' & -> & He' & _)|(status & reason & _ & Hn & _)]]; [done| |]; congruence. }
  eapply wp_mono; [apply submit_answer_served| |done]. intros r s' [Ht Hs']. split; [done|].
  apply (sent_from _ s (set_gen g s)); [done|]. eapply sent_mono; [|exact Hs'].
  intros p (_ & _ & Hp). eexists. split; [|exact Hp]. left. by exists payload, envelope, g.
Qed.

Lemma wp_legacy chat_history s :
  wp (legacy_response su chat_history) (fun r s' => s' = s /\ su_respond su chat_history = inr r) (fun _ s' => s' = s) s.
Proof. unfold legacy_response. by destruct (su_respond su chat_history) as [e|r]. Qed.

(** A response of the first protocol, under a url, checked before it is
    sent, and how its reply is read *)
Lemma legacy_served document chat_history key pub url wrap (check : jdict -> unit + unit)
  (code : pystr) (read : Z * pystr -> PR RelayProcessingResult) s :
  _extract_api_v1_request_payload document key = inr None ->
  _extract_chat_history_and_validate_key_binding document key = Some chat_history ->
  (forall content env n n', encrypt_message (MValue content) (PyBytes pub) n = (n', inr env) ->
     sealed_post pub content (MkPosted url (wrap (merged [("client_public_key"%pystr, JStr key)] env))
       (nd_request_timeout setup) (_auth_headers setup))) ->
  (forall reply s1, wp (read reply) (fun r s2 => s2 = s1 /\ told r /\
     (pr_submitted r = true -> reply.1 = 200)) (fun _ s2 => s2 = s1) s1) ->
  wp (let* response_history := legacy_response su chat_history in
      let* encrypted_response := seal (MValue response_history) pub in
      match check (merged [("client_public_key"%pystr, JStr key)] encrypted_response) with
      | inl _ => ret (submission_failed code true)
      | inr _ =>
          let* reply := post_or_raise setup url (wrap (merged [("client_public_key"%pystr, JStr key)] encrypted_response)) in
          read reply
      end)
    (fun r s' => served (answers_document document key pub (ns_gen s)) s s' r)
    (fun _ s' => sent (answers_document document key pub (ns_gen s)) s s' false) s.
Proof.
  intros Hx Hh Hseal Hread. apply wp_bind. eapply wp_mono; [apply wp_legacy| |intros e s' ->; by left].
  intros content s' [-> Hc]. apply wp_bind. eapply wp_mono; [apply wp_seal| |intros e s' Hs; by left].
  intros env s1 [Hs1 (n & n' & He)].
  destruct (check _); [by apply wp_ret, served_nothing|]. apply wp_bind.
  eapply wp_mono; [apply (wp_post (answers_document document key pub (ns_gen s)))| |].
  - exists content. split; [|by eapply Hseal]. right. by exists chat_history.
  - intros reply s2 Hs2. eapply wp_mono; [apply Hread| |].
    + intros r s3 (-> & Ht & Hr). split; [done|]. apply (sent_from _ s s1); [done|].
      cbn beta in Hs2. destruct (pr_submitted r); [|exact (sent_false _ _ _ _ Hs2)].
      by rewrite (Hr eq_refl) in Hs2.
    + intros e s3 ->. apply (sent_from _ s s1); [done|]. exact (sent_false _ _ _ _ Hs2).
  - intros e s2 Hs2. by apply (sent_from _ s s1).
Qed.

Lemma process_stream_served document session_id chat_history key pub s :
  _extract_api_v1_request_payload document key = inr None ->
  _extract_chat_history_and_validate_key_binding document key = Some chat_history ->
  wp (process_stream setup su session_id chat_history key pub)
    (fun r s' => served (answers_document document key pub (ns_gen s)) s s' r)
    (fun _ s' => sent (answers_document document key pub (ns_gen s)) s s' false) s.
Proof.
  intros Hx Hh.
  apply (legacy_served document chat_history key pub _ (fun chunk =>
    JDict [("session_id", JStr session_id); ("chunk", JDict chunk); ("final", JBool true)]%pystr)
    (fun _ => inr tt) ""); [done|done| |].
  - intros content env n n' He. exists n, n', env. split; [done|].
    apply (merged_envelope [("client_public_key"%pystr, JStr key)] env _ _ _ _ He).
  - intros [status text] s1. apply wp_ret. split; [done|]. cbn [fst].
    destruct (status =? 200) eqn:Hst; [|done]. apply Z.eqb_eq in Hst. done.
Qed.

Lemma process_legacy_served document chat_history key pub s :
  _extract_api_v1_request_payload document key = inr None ->
  _extract_chat_history_and_validate_key_binding document key = Some chat_history ->
  wp (process_legacy setup su chat_history key pub)
    (fun r s' => served (answers_document document key pub (ns_gen s)) s s' r)
    (fun _ s' => sent (answers_document document key pub (ns_gen s)) s s' false) s.
Proof.
  intros Hx Hh.
  apply (legacy_served document chat_history key pub _ JDict
    (fun d => _validate_with_fallback (su_jsonschema su) (JDict d) MESSAGE_SCHEMA) "invalid_response_payload");
    [done|done| |].
  - intros content env n n' He. by eapply sealed_merged.
  - intros [status text] s1. apply wp_ret. split; [done|]. cbn [fst].
    destruct (status =? 200) eqn:Hst; cbn [negb]; [|done]. apply Z.eqb_eq in Hst.
    by destruct (py_empty (py_strip text)).
Qed.

(** A post that answers the work item, for the key it names *)
Definition answers_item (request_data : jdict) (g : gen_state) (p : posted) : Prop :=
  exists key pub, _normalize_client_public_key_b64 (jget request_data "client_public_key") = Some key /\
    decoded_client_key key = Some pub /\
    answers_document (match decrypt_message (ck_private_key (nd_keys setup)) (MValue (JDict request_data)) with
                      | MValue j => j
                      | _ => JNull
                      end) key pub g p.

Lemma process_request_served request_data deadline s :
  wp (process_request setup su request_data deadline)
    (fun r s' => served (answers_item request_data (ns_gen s)) s s' r)
    (fun _ s' => sent (answers_item request_data (ns_gen s)) s s' false) s.
Proof.
  unfold process_request. destruct (_validate_with_fallback _ _ _); [by apply wp_ret, served_nothing|].
  destruct (_normalize_client_public_key_b64 _) as [key|] eqn:Hkey; [|by apply wp_ret, served_nothing].
  destruct (decoded_client_key key) as [pub|] eqn:Hpub; [|by apply wp_ret, served_nothing]. cbv zeta.
  set (decrypted := decrypt_message _ _). destruct (is_no_value decrypted); [by apply wp_ret, served_nothing|].
  unfold process_decrypted. set (document := match decrypted with MValue j => j | _ => JNull end).
  assert (forall (m : PR RelayProcessingResult),
    wp m (fun r s' => served (answers_document document key pub (ns_gen s)) s s' r)
      (fun _ s' => sent (answers_document document key pub (ns_gen s)) s s' false) s ->
    wp m (fun r s' => served (answers_item request_data (ns_gen s)) s s' r)
      (fun _ s' => sent (answers_item request_data (ns_gen s)) s s' false) s) as Hitem.
  { intros m Hm.
    assert (forall p, answers_document document key pub (ns_gen s) p -> answers_item request_data (ns_gen s) p) as Hi
      by (intros p Hp; by exists key, pub).
    eapply wp_mono; [exact Hm|intros r s' [Ht Hs']; split; [done|exact (sent_mono _ _ _ _ _ Hi Hs')]|].
    intros e s' Hs'. exact (sent_mono _ _ _ _ _ Hi Hs'). }
  destruct (_extract_api_v1_request_payload document key) as [e|[payload|]] eqn:Hx; [by left| |].
  - apply Hitem. eapply wp_mono; [by apply process_api_v1_served|done|]. intros e s' Hs'. by left.
  - destruct (_extract_chat_history_and_validate_key_binding document key) as [chat_history|] eqn:Hh;
      [|by apply wp_ret, served_nothing].
    apply Hitem. destruct (not_blank _); [destruct (match jget request_data "stream" with JBool true => _ | _ => _ end)|];
      [by apply process_stream_served|by apply process_legacy_served..].
Qed.

(** Whatever becomes of a work item, the result says so. *)
Lemma result_served request_data entry s s' r :
  process_client_request_result setup su request_data entry s = (s', inr r) ->
  served (answers_item request_data (ns_gen s)) s s' r.
Proof.
  unfold process_client_request_result. destruct (_api_v1_initial_deadline_from_metadata _ _) as [e|deadline]; [done|].
  pose proof (process_request_served request_data deadline s) as Hw. unfold wp in Hw.
  destruct (process_request setup su request_data deadline s) as [s1 [[]|r1]]; intros [= <- <-]; try done;
    (split; [done|exact Hw]).
Qed.
End serve.
