(* ===== verification/NodeContract.v ===== *)
(** * What a compute node promises

    The theorems on [src/utils/networking/relay_client.py], the node composed with the
    provider that asks it, and the witnesses. *)

From S2P Require Import Prelude PyFloat PyStr PyDict PyText PyRegex Json JsonText Base64.
From S2P Require Import Encrypt EncryptSound CryptoManager Profiles Catalog Moderation Config.
From S2P Require Import Provider ProviderSound ProviderHonest.
From S2P Require Import NodeRequest NodeDiagnostics NodeOutput NodeGenerate NodeSupervise NodeProcess.
From S2P Require Import NodeChecks NodeScreen NodeAnswer NodeWatch NodeServe.

(** ** Requests *)

(** C28: The node's checks are exact.  A conversation passes exactly when it is one to
    sixty-four messages of the known keys, roles and names, each a text or one to thirty-two
    non-empty text blocks, half a mebibyte of UTF-8 at most; options pass exactly when all are
    supported and within their ranges, and are passed on in order, [stream] apart. *)
Theorem node_checks_are_exact messages options : nodup_keys options ->
  ((exists r, _validate_api_v1_chat_messages messages = inr r /\ valid r = true) <->
   (exists l chars bytes, messages = JList l /\ sized_conversation l chars bytes)) /\
  forall normalised, _api_v1_validate_and_normalise_options options = inr normalised <->
    (forall k, k ∈ dkeys options -> k ∈ supported_options) /\
    (forall v, ("stream"%pystr, v) ∈ options -> v = JBool false) /\
    passed_options options normalised.
Proof.
  intros Hnd. split; [|intros normalised; by apply options_inr]. split.
  - intros (r & Hr). apply validation_valid in Hr as (l & chars & bytes & Hl & Hs & _). by exists l, chars, bytes.
  - intros (l & chars & bytes & Hl & Hs). exists (accepted (zlen l) chars bytes). apply validation_valid. by exists l, chars, bytes.
Qed.

(** ** Answers *)
Section answers.
Context `{!PyUnicode, !PyWords, !FloatRepr}.



(** An entry of the diagnostics that is let through *)
Definition safe_diagnostic (kv : pystr * json) : Prop :=
  kv.1 ∈ _SAFE_WORKER_DIAGNOSTIC_KEYS /\
  match kv.2 with JStr s => py_len s <= 256 | JList _ | JDict _ => False | _ => True end.

(** What is kept of a worker's diagnostics is safe to pass on: listed keys only, flat
    values, texts of at most 256 characters; filtering it again changes nothing; and its error
    code is never that of an invalid request. *)
Theorem diagnostics_are_safe diagnostics : nodup_keys diagnostics ->
  let safe := _safe_worker_diagnostics (JDict diagnostics) in
  Forall safe_diagnostic safe /\ _safe_worker_diagnostics (JDict safe) = safe /\
  request_error_code safe <> "compute_node_invalid_request"%pystr.
Proof.
  intros Hd. cbv zeta. rewrite (safe_diagnostics_entries _ Hd).
  assert (nodup_keys (safe_entries diagnostics)) as Hs.
  { eapply sublist_NoDup; [exact Hd|apply safe_entries_keys]. }
  split; [|split].
  - apply Forall_forall. intros [k v] (v0 & _ & Hv)%safe_entries_elem.
    apply safe_entry_again in Hv as (_ & Hk & Hl & Hf). split; [done|]. cbn [snd]. destruct v; auto; try done.
  - rewrite safe_diagnostics_entries by done. apply safe_entries_again.
  - unfold request_error_code. destruct (jeq_str _ "compute_node_invalid_request") eqn:Hc; [|by destruct (_ || _)].
    apply jeq_str_true in Hc. exfalso. unfold jget in Hc. destruct (dget _ "code") as [v|] eqn:Hg; [|done].
    apply dget_elem_of, safe_entries_elem in Hg as (v0 & _ & Hv). simpl in Hc. subst v. by apply reported_code in Hv.
Qed.
End answers.


(** ** Supervision *)
Section supervision.
Context `{!PyUnicode, !PyNumbers, !Watch}.

(** C27: A supervision ends.  When from the [N]th look on the clock has reached the deadline
    the request came with, more than [N] turns are never needed, whatever the relay says and
    however the inference and the stop interleave with it. *)
Theorem supervision_ends N fuel control_available has_credential local_deadline request_timeout future health t :
  (forall n, (N <= n)%nat -> is_finite (rd_time (watch n)) = true /\ fle local_deadline (rd_time (watch n)) = true) ->
  (N < fuel)%nat ->
  is_Some (_supervise_api_v1_inference fuel control_available has_credential local_deadline request_timeout future health t).
Proof. apply supervision_completes. Qed.

End supervision.

(** ** Work items *)
Section items.
Context `{!PyUnicode, !PyWords, !Cryptography, !FloatRepr, !PyNumbers, !NodeNet, !Watch}.

End items.

(** ** The node and the provider that asks it *)
Section composed.
Context `{!PyUnicode, !PyWords, !Cryptography, !CryptographyLaws, !FloatRepr, !PyNumbers, !NodeNet, !Watch}.
#[local] Set Default Proof Using "Type*".

Lemma raw_key m public n : encrypt_message m (PyBytes public) n = encrypt_message m (PyS (b64encode public)) n.
Proof. unfold encrypt_message. by rewrite b64_key. Qed.

(** A post is opened with the private half of the key it was sealed for. *)
Lemma post_opens private public content p :
  key_pair private public -> is_JDict content = true -> sealable content -> sealed_post public content p ->
  decrypt_message private (MValue (JDict (posted_body p))) = MValue content.
Proof.
  intros Hkp Hd Hs (n & n' & env & He & Hk). rewrite (decrypt_fields _ _ _ Hk).
  destruct (sealed_for content private public n Hkp Hs Hd) as (env' & He' & Ho). rewrite raw_key in He. congruence.
Qed.

(** A work item as the relay makes it of a provider's submission *)
Definition item_of (c : relay_call) (node_public : list byte) (model_id : pystr) (l : list json) (options request_data : jdict) :
  Prop :=
  jget request_data "client_public_key" = JStr (ck_public_key_b64 (c_keys c)) /\
  exists n n' env,
    encrypt_message (MValue (plaintext_envelope c model_id l options)) (PyS (b64encode node_public)) n = (n', inr env) /\
    forall k, k ∈ envelope_keys -> jget request_data k = jget env k.

(** The node extracts what the provider put in. *)
Lemma provider_request_extracted c model_id l options : nonblank (relay_request_id c) -> nonblank model_id ->
  _extract_api_v1_request_payload (plaintext_envelope c model_id l options) (ck_public_key_b64 (c_keys c)) =
  inr (Some (MkPayload (relay_request_id c) model_id l options DEFAULT_CONTEXT_TIER)).
Proof.
  intros Hr Hm. apply extracted_payload. eexists. split; [reflexivity|]. split; [done|]. split; [done|].
  split; [done|]. split; [done|]. eexists _, []. repeat split; try done. by left.
Qed.

(** The provider reads a message as the completion it is, and any error as one of the
    bridge. *)
Lemma message_read c message finish_reason usage output_budget :
  read_answer c (MValue (JDict (dset
    (message_envelope (relay_request_id c) message (Some finish_reason) usage (Some output_budget))
    "client_public_key" (JStr (ck_public_key_b64 (c_keys c)))))) =
  inr (Some (MkCompletion message (Some finish_reason) usage (Some output_budget))).
Proof.
  unfold read_answer. rewrite !jget_dset_ne by done. rewrite jget_dset, bool_decide_eq_true_2 by done.
  change (jget _ "request_id") with (JStr (relay_request_id c)). cbn [jeq_str].
  rewrite !bool_decide_eq_true_2 by done. by destruct usage.
Qed.

Lemma error_read c error : coded_error error ->
  read_answer c (MValue (JDict (dset (error_envelope (relay_request_id c) error)
    "client_public_key" (JStr (ck_public_key_b64 (c_keys c)))))) = inl (_error_from_code "compute_node_bridge_error").
Proof.
  intros (code & Hc & _). unfold read_answer. rewrite !jget_dset_ne by done. rewrite jget_dset, bool_decide_eq_true_2 by done.
  change (jget _ "request_id") with (JStr (relay_request_id c)). cbn [jeq_str].
  rewrite !bool_decide_eq_true_2 by done. cbn. by destruct error.
Qed.

(** What the provider makes of an envelope of the node *)
Definition provider_reads (c : relay_call) (response_envelope : jdict) (reading : provider_error + option CompletionResult) :
  Prop :=
  (exists error, response_envelope = error_envelope (relay_request_id c) error /\
     reading = inl (_error_from_code "compute_node_bridge_error")) \/
  (exists message finish_reason usage output_budget,
     response_envelope = message_envelope (relay_request_id c) message (Some finish_reason) usage (Some output_budget) /\
     reading = inr (Some (MkCompletion message (Some finish_reason) usage (Some output_budget)))).

End composed.

(** * A node, evaluated *)

#[local] Instance demo_unicode : PyUnicode := ascii_unicode.
#[local] Instance demo_words : PyWords := ascii_words.
#[local] Instance demo_repr : FloatRepr := fun _ => "0.0"%pystr.
#[local] Instance demo_numbers : PyNumbers := { parse_float _ := None; parse_int _ := None }.

(** The relay takes every post. *)
#[local] Instance demo_net : NodeNet := fun _ => Replied_with 200 "".

(** The inference is done when the supervisor first looks; the clock counts the looks. *)
#[local] Instance demo_watch : Watch := {
  watch n := MkReading (float_near (Z.min 500 (Z.of_nat n))) false false true false false;
  control_result _ := ControlFails
}.

Definition demo_message : json := JDict [("role", JStr "user"); ("content", JStr "Hi")]%pystr.

(** A runtime that counts seven tokens and says hello *)
Definition demo_llm : llm_runtime :=
  MkLlm "DemoRuntime" [] (Some (fun _ _ => Gives (JInt 7))) None None None None None None.

Definition demo_completion : json :=
  JDict [("choices", JList [JDict [("message", JDict [("role", JStr "assistant"); ("content", JStr "Hello")])]])]%pystr.

Definition demo_manager : node_manager :=
  MkManager (Some "8k-fast"%pystr) (Some 8192) [] (Some "qwen"%pystr) None None None true None 64 (JInt 0) (JInt 1) (JList [])
    (Some (inr (Some demo_llm))) None (Some (fun _ _ _ => inr demo_completion)).

Definition demo_teardown : teardown := MkTeardown (fun _ => Some true) true false.

Definition calm : guard := MkGuard false false f0 false.

Definition demo_surroundings : surroundings :=
  MkSurroundings 10 None demo_manager false false demo_teardown calm calm calm None
    (fun _ => inr (JList [])).

Definition demo_setup : node_setup :=
  MkSetup (MkCryptoKeys toy_private toy_public (b64encode toy_public)) None f30 None "http://relay".

Definition demo_node : node_state := MkNode (MkGen [] [] None [] healthy None None) 9 [].

Lemma node_checks_are_exact_witness :
  (exists r, _validate_api_v1_chat_messages (JList [demo_message]) = inr r /\ valid r = true) /\
  exists normalised, passed_options [("max_tokens"%pystr, JInt 5)] normalised.
Proof.
  assert (nodup_keys [("max_tokens"%pystr, JInt 5)]) as Hnd by (apply (bool_decide_unpack _); vm_compute; exact I).
  destruct (node_checks_are_exact (JList [demo_message]) [("max_tokens"%pystr, JInt 5)] Hnd) as [_ Ho].
  split; [eexists; split; [vm_compute; reflexivity|reflexivity]|].
  exists [("max_tokens"%pystr, JInt 5)]. apply Ho. vm_compute. reflexivity.
Defined.


Definition demo_diagnostics : jdict :=
  [("code", JStr "compute_node_invalid_request"); ("n_ctx", JInt 8192); ("prompt", JStr "secret");
   ("attempted_generation_kwargs", JStr "temperature,,top_p")]%pystr.

Lemma diagnostics_are_safe_witness :
  _safe_worker_diagnostics (JDict demo_diagnostics) =
    [("n_ctx", JInt 8192); ("attempted_generation_kwargs", JStr "temperature,top_p")]%pystr /\
  Forall safe_diagnostic (_safe_worker_diagnostics (JDict demo_diagnostics)).
Proof.
  split; [vm_compute; reflexivity|]. apply (diagnostics_are_safe demo_diagnostics).
  apply (bool_decide_unpack _); vm_compute; exact I.
Defined.

(** A supervision whose inference never ends *)
Definition hanging_watch : Watch := {|
  watch n := MkReading (float_near (Z.min 500 (Z.of_nat n))) false false false false false;
  control_result _ := ControlFails
|}.

Lemma supervision_ends_witness :
  is_Some (_supervise_api_v1_inference (H1 := hanging_watch) 501 true true (float_near 500) f30 (inl NodeTypeError)
    healthy demo_teardown).
Proof.
  apply (supervision_ends (H1 := hanging_watch) 500); [|lia]. intros n Hn.
  assert (rd_time (watch (Watch := hanging_watch) n) = float_near 500) as ->.
  { cbn. by rewrite Z.min_l by lia. }
  vm_compute. done.
Defined.

(** The provider's call, and the item the relay hands to the node *)
Definition asking_call : relay_call :=
  MkCall "http://relay" (MkCryptoKeys [Byte.x00] [Byte.x00] (b64encode [Byte.x00])) "r1" "c1" f30 f1.

Definition demo_plaintext : json := plaintext_envelope asking_call "qwen" [demo_message] [("max_tokens"%pystr, JInt 5)].

Definition demo_envelope : jdict :=
  match encrypt_message (MValue demo_plaintext) (PyS (b64encode toy_public)) 1%nat with
  | (_, inr env) => env
  | _ => []
  end.

Definition demo_item : jdict := ("client_public_key"%pystr, JStr (b64encode [Byte.x00])) :: demo_envelope.

Definition demo_served : node_state * (node_error + RelayProcessingResult) :=
  process_client_request_result demo_setup demo_surroundings demo_item f0 demo_node.

Lemma demo_item_of : item_of asking_call toy_public "qwen" [demo_message] [("max_tokens"%pystr, JInt 5)] demo_item.
Proof.
  split; [reflexivity|]. eexists 1%nat, _, demo_envelope. split; [vm_compute; reflexivity|]. intros k Hk.
  repeat (apply elem_of_cons in Hk as [->|Hk]; [vm_compute; reflexivity|]). by apply elem_of_nil in Hk.
Qed.


